(* ===== verification/_CoqProject ===== *)
-Q . S2P
Prelude.v
CText.v
NodeAddr.v
Config.v
Teid.v
TeidUpf.v
Mbuf.v
UpPacket.v
UpTunnel.v
LList.v
UpSess.v
SdfText.v
UpClassify.v
UpAcl.v
UpUsage.v
UpArp.v
UpDdn.v
UpEcho.v
UpHandler.v
SeidList.v
CsidLink.v
CsidUp.v
GxMacros.v
GxStruct.v
GxPack.v
GxWire.v
GxCodec.v
GxDict.v
GxAvp.v
GxParse.v
GxParseOk.v
GxSend.v
GxSendOk.v
CcrFill.v
GxFree.v
GxChannel.v
SmTable.v
CsidCp.v
CpTables.v
CMonad.v
UeContext.v
SmSession.v
Gtpc.v
GtpcPcnd.v
GtpcSafe.v
GtpcSteps.v
GtpcCases.v
GtpcDispatch.v
PeerTimer.v
PeerPath.v
PeerCp.v
PeerUp.v
CpTimer.v
CpDdn.v
