(* ===== verification/Prelude.v ===== *)
(** * Verification of the EPC gateways (CP and UP)

    The repository holds the control plane (CP: SGW-C, PGW-C, SAEGW-C) and the
    user plane (UP: SGW-U, PGW-U, SAEGW-U) of an Evolved Packet Core in C.  The CP
    talks GTPv2-C to the other nodes, Gx to the PCRF through a Diameter process,
    and PFCP to the UP; the UP forwards the users' packets through GTP-U tunnels
    by the rules (PDR, FAR, QER, URR) that the CP installs.  This development
    models parts of both planes as Gallina definitions and proves what they do.

    ** The files and the code

    Shared:
    - [Prelude] (this file): C integers ([wrap], [swrap], [+[w]]), bytes and byte
      orders, bit lemmas, the hint databases [cint], [cint_rw], [bytes_rw].
    - [CText]: the C library's text functions the code uses.
    - [NodeAddr]: [node_address_t] and its comparisons.
    - [Config]: cp_dp_api/config_validater.c, the check of cp.cfg and dp.cfg that
      both planes make when they start.
    - [PeerTimer]: cp_dp_api/ngic_timer.c, the timers of a peer, the thread that
      fires them as a step relation, and what a message of the peer does to them;
      [PeerPath]: the class of what a plane promises about one peer, and what
      follows for every run; [PeerCp], [PeerUp]: the callbacks of
      cp/restoration_peer.c and dp/restoration_peer.c that probe the peer.

    TEIDs and sessions of both planes:
    - [Teid]: cp_dp_api/teid.c, how the CP makes the TEIDs of its bearers: a
      range of the UP in the top bits and a counter below.
    - [TeidUpf]: cp_dp_api/teid_upf.c with its caller in
      pfcp_messages/pfcp_association.c, how the UP hands its TEID ranges to CPs
      and keeps them in a file across restarts.
    - [SeidList]: pfcp_messages/seid_llist.c, the session tables of
      pfcp_messages/csid_init.c and the linking of a session to a CSID.
    - [CsidLink]: the tables of csid_init.c and csid_peer_init.c between CSIDs of
      peers and local CSIDs, and the search through them; [CsidUp]: the CSIDs of
      a session of the UP, from its establishment (pfcp_up_sess.c, csid_api.c) to
      the failure of a peer (csid_up_cleanup.c); [CsidCp]: the CSIDs of PDN
      connections in the CP (csid_api.c, csid_peer_init.c) and their IEs.

    The user plane, from a packet up:
    - [Mbuf]: the interface to DPDK's packet buffers: operations ([Mbuf]) and
      their documented laws ([MbufLaws]), with an instance ([simple_mbuf]).
    - [UpPacket]: dp/gtpu.c, dp/gtpu.h, dp/ipv4.c, dp/ipv6.c and their headers,
      dp/util.c: the outer headers of tunnelled packets.
    - [UpTunnel]: the burst handlers of dp/up.c ([gtpu_decap], [gtpu_encap],
      [update_nexts5s8_info], [update_enb_info], [qer_gating]) and the address
      checks of pfcp_messages/pfcp_util.c that they use.
    - [LList]: dp/pfcp_up_llist.c, the linked lists of session data, PDRs, QERs
      and URRs over a heap of nodes.
    - [UpSess]: dp/pfcp_up_init.c, the tables of sessions and rules whose entries
      are those nodes, and, of pfcp_messages/pfcp_up_sess.c, the linking of the
      rules of a PDR and [up_delete_session_entry] with the rings of waiting
      packets; the usage reports and timers of a deletion are not part of it.
    - [SdfText]: packet filters as text: read from Gx (pfcp_messages/pfcp_gx.c),
      printed for PFCP (pfcp_messages/pfcp_session.c), exchanged for uplink rules
      and parsed as rules of librte_acl (dp/up_acl.c).
    - [UpClassify]: the lookups of a burst: sessions ([ul_sess_info_get],
      [dl_sess_info_get] of dp/up.c over dp/up_sess_table.c), packet filters
      (dp/up_acl.c) and the PDR of the best precedence (dp/up_pkt_handler.c); the index arrays
      of a downlink burst are shown to sort packets one by one.
    - [UpAcl]: the tables of those rules in dp/up_acl.c, one per filter, and the
      filters of created, updated and removed PDRs (pfcp_messages/pfcp_up_sess.c).
    - [UpUsage]: [update_usage] of dp/up_pkt_handler.c, the measured length of a
      packet, and the usage report of pfcp_messages/pfcp_up_sess.c.
    - [UpArp]: dp/up_ether.c and, of dp/pipeline/epc_arp.c, the table of next
      hops with the packets that wait for an answer.
    - [UpDdn]: dp/up_ddn.c and [notification_handler]: the packets of idle
      sessions, the notification of the CP and the sending when the user is back.
    - [UpEcho]: dp/gtpu_echo.c, dp/gtpu_echo_req.c, dp/ipv6_rs.c and the answer to
      a router solicitation in dp/pipeline/epc_arp.c: the packets that the user
      plane writes itself.
    - [UpHandler]: [wb_pkt_handler] and [eb_pkt_handler], the composition of the
      files above for a burst of uplink and of downlink packets.

    The Gx interface of the control plane:
    - [GxMacros], [GxStruct], [GxPack]: the macros, structures and functions of
      cp/gx_app/src/gx_pack.c and cp/gx_app/include/gx_struct.h, the messages
      between the CP and the Diameter process; [GxWire] is the reference format,
      [GxCodec] the proof that the functions follow it.
    - [GxDict]: [gxInit] of gx_init.c, the lookup of the vendors, the application,
      the commands and the AVPs in freeDiameter's dictionary, a parameter; [GxAvp]: the macros that
      read the values of AVPs, over an abstract message tree; [GxParse]: the
      message and group parsers of gx_parsers.c, with [GxParseOk] for what they
      accept; [GxFree]: the functions that free what the parsers allocate.
    - [GxSend]: [gx_send_ccr] of gx_ccr.c, which writes a Credit-Control-Request
      for freeDiameter; [GxSendOk]: the AVPs that it adds and what a receiver
      reads from them; [CcrFill]: [fill_ccr_request] of cp_app.c, which describes
      a user and a PDN connection, up to what the PCRF reads.
    - [GxChannel]: the two sockets between the CP and the Diameter process, their
      framing and their loops (cp_app.c, gx_app.c, sm_gx_pcnd.c).

    The control plane:
    - [SmTable]: the tables of handlers by procedure, state and event of
      cp/state_machine/sm_arr.h and the names of sm_init.c.
    - [CpTables]: the tables of pfcp_messages/pfcp_init.c and the identifiers and
      addresses of a session; [CMonad]: the monad of code over a heap of objects.
    - [UeContext]: cp/ue.c, the contexts, PDNs and bearers of a user; [SmSession]:
      the table of sessions of sm_init.c as a refinement of a map.
    - [Gtpc], [GtpcPcnd]: cp/state_machine/sm_gtpc_pcnd.c, the conditions of every
      GTPv2-C message; [GtpcSafe], [GtpcSteps], [GtpcCases]: in which cases they
      read or write through a null pointer; [GtpcDispatch]: from a received
      message through the conditions to the handler of [SmTable].
    - [CpTimer]: cp/cp_timer.c, the requests that are sent again until they are
      answered, over the contexts of [UeContext] and the timers of [PeerTimer],
      and the sockets or the dump that they go to;
      [CpDdn]: the notifications of downlink data, from the report of the user
      plane (pfcp_messages/pfcp_association.c) through
      cp/gtpv2c_messages/downlink_data_notification.c to the timers of cp_timer.c
      that delay, buffer and throttle them.

    Definitions keep the names of the code; a definition that models a loop or a
    part of a function says which.

    ** How the code is represented

    A C integer is the [Z] of its value, with [wrap w] wherever the code computes
    at [w] bits.  Static variables and tables are the fields of a state record
    that the functions take and return.  A hash table of DPDK is a [gmap] from
    keys to addresses; a linked list owned by one pointer that never aliases is a
    [list] ([Teid], [TeidUpf]), and where nodes are also reached from tables it is
    a heap of nodes ([LList] and its clients), where a pointer is an [option] of
    an address.  What the code asks of the outside (an allocation, the return code
    of a hash insertion, an [fopen], the clock) is an argument.  Reading, writing
    or freeing outside an allocation is a fault: [None] in the heap files,
    [OutOfBounds] in [GxMacros] and [Config], [Fault] in [CMonad].  DPDK's buffers
    and checksums, librte_acl's classifier, [malloc], [inet_pton] and
    [getaddrinfo] are parameters, through a class with laws where theorems need
    them; each theorem that assumes laws has a witness at an instance.  DPDK's rings
    are a parameter of [UpDdn] with the same kind of laws.  A burst of packets is a
    list with 64-bit masks, as in the code.  A log call reads its arguments: where
    one follows a pointer that can be null or freed, the model faults or records
    the read ([log_far], [stale_read]).  The lists of [GxAvp] are allocated without
    a test in the code ([FD_ALLOC_LIST]); the model takes it that memory is there.

    Structural recursion on the burst, the text or the list is used where the
    code's loop has it.  The loops over a heap have as fuel the number of
    allocated nodes plus one ([fuel_of]); [is_list_fuel] shows that a list never
    needs more, and every theorem on them says that a result is reached.  The
    reader of [Config] has the length of the file plus one, as each line takes a
    character.  In [UpUsage] the loop over IPv6 headers has the length of the
    packet, as each header has a byte; the loop over GTP-U extension headers has a
    parameter, because the code's loop need not end, which is a theorem.  In
    [UpDdn] a ring is drained with its length plus one; a float of [CpDdn] is a
    [spec_float] of the Standard Library with 24 bits; the loop over the
    notifications has a parameter, as the code changes its index.

    ** What the theorems show

    - TEIDs: those handed out for the first user plane lie in its range and are
      distinct for a whole period, and control planes with different ranges never make the
      same one; a second association repeats TEIDs early, because all records share
      one mask that each association shifts.
    - TEID ranges: in every reachable state no range has two owners if all peers are
      IPv4 or fresh memory holds no old address, and otherwise the deletion of an
      IPv6 peer can free the range of another; a peer that
      associates again keeps its range, also after the file is read back; the cases
      in which ranges are lost are exact.
    - Tunnels: encapsulation and decapsulation are inverse on the user packet, over
      IPv4 and IPv6; a burst touches the packets of its mask only; a relayed packet
      keeps its user data and takes the TEID and addresses of the FAR; gating drops
      exactly the packets whose gate is closed.
    - Packet handlers: a lone uplink packet leaves as the user sent it, by the rule
      of the best precedence and towards the MAC address of its next hop; the
      lookup of a burst sorts each packet as if it were alone; what is forwarded has
      a session and a rule with an open gate, if the first packet has a session,
      and is not processed at all otherwise; all packets of a burst get the
      precedence of the first.
    - GTP-U path: the echo request of one gateway is answered by the other over
      IPv4, and the answer is two bytes short over IPv6; a packet of an unknown
      TEID goes back as an error indication, a router solicitation as an
      advertisement with the prefix of the user; an end marker carries the TEID.
    - Usage, next hops, paging: the reported volumes make up what was carried, and
      by how much they exceed it; waiting packets are sent in order when the
      neighbour answers; an idle session is paged once, whatever number of bursts
      arrives, and its next idle period never; rings run out after 4096; the
      notification handler overruns its array.
    - Packet filters: the user plane reads back the filters that the control plane
      writes (IPv6 masks from freed memory), a filter of Gx loses its protocol and
      the mask of a host; the tables count the bearers of each filter, and the
      filters of a session decide the PDR of its packets; the only bearer of a
      filter cannot be removed, and the 256th filter gets a context without rule.
    - Lists and tables: insertion appends, removal frees the node and keeps the
      others (the URR list's head apart), creating an entry is idempotent, deleting
      a session frees all it owns, with its ring of packets, and nothing else when
      its PDRs share no rule, and reads the id of each FAR after it was freed; two
      PDRs that share a FAR make it read freed memory, a second QER or URR of a PDR
      is written outside its node, and session ids can collide.
    - CSIDs: a local CSID lists every session linked to it; different sets of peers
      have different CSIDs, the same set its old one; a session that is set up can
      be found from each of its peers, and the CSIDs that the CP sends are those
      that the UP stores; links that end early, cleanup that removes the links of
      other peers and arrays that overflow are stated with their cases.
    - Gx: for the four messages, a packed message fills the calculated length and
      unpacks to itself; short buffers are refused; the three cases in which macros
      disagree (empty lists, truncated strings, unchecked lengths) are exact; the
      parsers read what a message tree holds and refuse values out of format, what
      they allocate is freed, and messages arrive in order through the sockets.
    - Credit-Control-Requests: the first request for an attached user carries the
      digits of the IMSI, the name of the access point with its dots, the session
      and the QoS of the default bearer through packing, the socket, unpacking,
      [gx_send_ccr] and the parsers of the receiver; of several subscription
      identifiers the last arrives, and the members of three groups are lost.
    - Control plane: no entry of the handler tables that a valid procedure, state
      and event select is null; creating a UE context keeps the invariant of the
      tables; the session table behaves as a map; the conditions of GTPv2-C
      messages fault in exactly the listed cases, and an accepted message reaches
      its handler with the state the tables expect.
    - Requests of the control plane: a request is sent again with the same bytes
      until its answer, and an answer after the last try, or a second answer of
      GTPv2-C, uses a freed entry; one procedure leaves the timer running.
    - Downlink data: a session has one notification under way at a time, whatever
      is reported and whichever timers end, until it is acknowledged or the tries of
      its request are used up or another procedure ends it; those held back for a
      throttled MME are lost, and their share is one percent above the factor; the
      timer of a user without context is freed
      and stays in its table.
    - Peers: a peer that stays silent is declared down in bounded time; a control
      plane declared down by the UP is never probed again; heartbeats drain the
      pool of echo packets, and the loops that drain the rings to the ports free the
      packets of the pool that were sent once too often.
    - Configuration: on files whose lines fit the buffers the reader computes the
      outcome of the first bad line, where a second equals sign cuts the key; longer
      keys and values overflow the buffers.

    ** What is not modelled

    The PFCP and GTPv2-C encoders and decoders (submodules outside this
    repository); the handlers of the control plane's state machine (sm_hand.c) and
    the procedures they start (pfcp_session.c, pfcp_gx.c and the directory
    gtpv2c_messages), apart from what [GtpcDispatch], [UeContext], [SdfText] and
    [CpDdn] use: their bodies build and read the messages of those submodules, so that a
    model would be one of structures that cannot be read here.  For the same
    reason the establishment and modification of the UP's sessions are modelled
    for their packet filters and CSIDs only, and the cleanup of CSIDs in the CP
    (csid_cp_cleanup.c) is not.  Charging records, lawful interception, statistics
    and logging write text and counters that nothing here reads; the glue to
    freeDiameter, DPDK, hiredis and the kernel, the start-up code and the C++
    programs of ulpc and oss_adapter are calls of other libraries. *)

From Stdlib Require Import ZArith Lia List.
From Stdlib Require Export Strings.Byte.
From stdpp Require Export base tactics option numbers gmap strings list.

#[global] Open Scope Z_scope.

(** ** Machine integers

    An unsigned C integer of [w] bits is the [Z] of its value; arithmetic that
    the code performs at width [w] is written with [wrap w] around it. *)

Definition wrap (w z : Z) : Z := z mod 2 ^ w.

Declare Scope cint_scope.
Delimit Scope cint_scope with cint.
Abbreviation u8 := (wrap 8).
Abbreviation u16 := (wrap 16).
Abbreviation u32 := (wrap 32).
Abbreviation u64 := (wrap 64).
Notation "x +[ w ] y" := (wrap w (x + y)) (at level 50, left associativity) : cint_scope.
Notation "x <<[ w ] y" := (wrap w (Z.shiftl x y)) (at level 35, no associativity) : cint_scope.
#[global] Open Scope cint_scope.

(** Conversion to a signed integer of [w] bits (gcc: reduction modulo [2^w]). *)
Definition swrap (w z : Z) : Z :=
  let m := z mod 2 ^ w in if m <? 2 ^ (w - 1) then m else m - 2 ^ w.

Create HintDb cint.
Create Rewrite HintDb cint_rw.
Create Rewrite HintDb bytes_rw.

Lemma wrap_range w z : 0 <= w -> 0 <= wrap w z < 2 ^ w.
Proof. intros. apply Z.mod_pos_bound, Z.pow_pos_nonneg; lia. Qed.

Lemma wrap_small w z : 0 <= z < 2 ^ w -> wrap w z = z.
Proof. apply Z.mod_small. Qed.

Lemma wrap_wrap w z : wrap w (wrap w z) = wrap w z.
Proof. apply Zmod_mod. Qed.

Lemma wrap_add_l w x y : wrap w (wrap w x + y) = wrap w (x + y).
Proof. apply Zplus_mod_idemp_l. Qed.

Lemma wrap_succ_iter w n : wrap w (wrap w n + 1) = wrap w (n + 1).
Proof. apply wrap_add_l. Qed.

Lemma swrap_small w z : 0 < w -> 0 <= z < 2 ^ (w - 1) -> swrap w z = z.
Proof.
  intros Hw Hz. assert (2 ^ w = 2 * 2 ^ (w - 1)) as E.
  { rewrite <- Z.pow_succ_r by lia. f_equal. lia. }
  unfold swrap. rewrite Z.mod_small by lia.
  destruct (Z.ltb_spec z (2 ^ (w - 1))); lia.
Qed.

#[export] Hint Rewrite wrap_wrap wrap_add_l : cint_rw.
#[export] Hint Resolve wrap_range : cint.

(** Computes the powers of two of the goal. *)
Ltac pow2 :=
  repeat match goal with
  | |- context [2 ^ ?w] => let v := eval vm_compute in (2 ^ w) in match v with Zpos _ => change (2 ^ w) with v end
  end.

(** Linear arithmetic with division and remainder by constants. *)
Ltac zdiv := Z.to_euclidean_division_equations; lia.

(** Masking with [2^n - 1] is reduction modulo [2^n]. *)
Lemma land_mask n z : 0 <= n -> Z.land z (2 ^ n - 1) = z mod 2 ^ n.
Proof.
  intros. rewrite <- Z.land_ones by done. f_equal. rewrite Z.ones_equiv. lia.
Qed.

Lemma shiftr_mask n k : 0 <= k <= n -> Z.shiftr (2 ^ n - 1) k = 2 ^ (n - k) - 1.
Proof.
  intros. replace (2 ^ n - 1) with (Z.ones n) by (rewrite Z.ones_equiv; lia).
  replace (2 ^ (n - k) - 1) with (Z.ones (n - k)) by (rewrite Z.ones_equiv; lia).
  apply Z.bits_inj'. intros i Hi. rewrite Z.shiftr_spec by lia.
  rewrite !Z.testbit_ones by lia. lia.
Qed.

(** A value below [2^n] and a multiple of [2^n] have no common bit. *)
Lemma lor_disjoint n lo hi :
  0 <= n -> 0 <= lo < 2 ^ n -> Z.lor lo (hi * 2 ^ n) = lo + hi * 2 ^ n.
Proof.
  intros Hn Hlo. pose proof (Z.add_lor_land lo (hi * 2 ^ n)) as E.
  enough (Z.land lo (hi * 2 ^ n) = 0) by lia.
  rewrite <- Z.shiftl_mul_pow2 by done.
  apply Z.bits_inj'; intros i Hi; rewrite Z.land_spec, Z.bits_0.
  destruct (decide (i < n)).
  - rewrite Z.shiftl_spec_low by lia. apply andb_false_r.
  - rewrite <- (Z.mod_small lo (2 ^ n)) by done.
    rewrite Z.mod_pow2_bits_high by lia. done.
Qed.

(** ** Bytes and byte order *)

Abbreviation byte := Byte.byte.

#[export] Instance byte_eq_decision : EqDecision byte := Byte.byte_eq_dec.

Definition byte_to_Z (b : byte) : Z := Z.of_N (Byte.to_N b).

Definition byte_of_Z (z : Z) : byte :=
  match Byte.of_N (Z.to_N (u8 z)) with Some b => b | None => x00 end.

Lemma byte_to_Z_range b : 0 <= byte_to_Z b < 256.
Proof. unfold byte_to_Z. pose proof (Byte.to_N_bounded b). lia. Qed.

Lemma byte_to_of_Z z : byte_to_Z (byte_of_Z z) = u8 z.
Proof.
  unfold byte_to_Z, byte_of_Z. pose proof (wrap_range 8 z ltac:(lia)).
  destruct (Byte.of_N (Z.to_N (u8 z))) as [b|] eqn:E.
  - apply Byte.to_of_N in E. rewrite E. lia.
  - apply Byte.of_N_None_iff in E. lia.
Qed.

Lemma byte_of_to_Z b : byte_of_Z (byte_to_Z b) = b.
Proof.
  unfold byte_of_Z. rewrite wrap_small by apply byte_to_Z_range.
  unfold byte_to_Z. rewrite N2Z.id, Byte.of_to_N. done.
Qed.

(** [le_bytes n z]: the [n] bytes a little-endian store of [z] writes;
    [le_val] is the load. [be_bytes] and [be_val] are the network order. *)
Fixpoint le_bytes (n : nat) (z : Z) : list byte :=
  match n with
  | O => []
  | S n => byte_of_Z z :: le_bytes n (z / 256)
  end.

Fixpoint le_val (bs : list byte) : Z :=
  match bs with
  | [] => 0
  | b :: bs => byte_to_Z b + 256 * le_val bs
  end.

Definition be_bytes (n : nat) (z : Z) : list byte := reverse (le_bytes n z).
Definition be_val (bs : list byte) : Z := le_val (reverse bs).

Lemma length_le_bytes n z : length (le_bytes n z) = n.
Proof. revert z; induction n; intros; simpl; auto. Qed.

Lemma length_be_bytes n z : length (be_bytes n z) = n.
Proof. unfold be_bytes. rewrite length_reverse. apply length_le_bytes. Qed.

Lemma le_val_le_bytes n z : le_val (le_bytes n z) = z mod 256 ^ Z.of_nat n.
Proof.
  revert z; induction n; intros z; [by rewrite Z.mod_1_r|].
  cbn [le_bytes le_val]. rewrite IHn, byte_to_of_Z, Nat2Z.inj_succ, Z.pow_succ_r by lia.
  rewrite Z.rem_mul_r by lia. done.
Qed.

Lemma le_val_range bs : 0 <= le_val bs < 256 ^ Z.of_nat (length bs).
Proof.
  induction bs as [|b bs IH]; [done|]. cbn [le_val length].
  rewrite Nat2Z.inj_succ, Z.pow_succ_r by lia. pose proof (byte_to_Z_range b). lia.
Qed.

Lemma le_bytes_le_val bs : le_bytes (length bs) (le_val bs) = bs.
Proof.
  induction bs as [|b bs IH]; [done|]. cbn [le_val length le_bytes].
  pose proof (byte_to_Z_range b).
  rewrite (Z.mul_comm 256), Z.div_add, Z.div_small, Z.add_0_l, IH by lia. f_equal.
  rewrite <- (byte_of_to_Z b) at 2. unfold byte_of_Z, wrap.
  change (2 ^ 8) with 256. rewrite Z.mod_add by lia. done.
Qed.

Lemma le_val_small n z : 0 <= z < 256 ^ Z.of_nat n -> le_val (le_bytes n z) = z.
Proof. intros. rewrite le_val_le_bytes. by apply Z.mod_small. Qed.

Lemma be_val_be_bytes n z : be_val (be_bytes n z) = z mod 256 ^ Z.of_nat n.
Proof. unfold be_val, be_bytes. rewrite reverse_involutive. apply le_val_le_bytes. Qed.

#[export] Hint Rewrite length_le_bytes length_be_bytes le_val_le_bytes be_val_be_bytes
  byte_to_of_Z byte_of_to_Z : bytes_rw.

(** [ntohl] and [htonl] on a little-endian machine. *)
Definition bswap32 (z : Z) : Z := be_val (le_bytes 4 z).
Definition bswap16 (z : Z) : Z := be_val (le_bytes 2 z).
Abbreviation ntohl := bswap32.
Abbreviation htonl := bswap32.
Abbreviation ntohs := bswap16.
Abbreviation htons := bswap16.
