(* ===== verification/CText.v ===== *)
(** * C text routines

    The parts of the C library the configuration and persistence code uses, over
    strings without embedded NUL as [list ascii]: [fgets], [strtok] with one
    delimiter, [strncmp] against a literal, [atoi], and the [printf]
    conversions [%u] and [%02x]. *)

From S2P Require Import Prelude.
From Stdlib Require Import Ascii.

Abbreviation text := (list ascii).

(** A string literal as text. *)
Definition lit (s : string) : text := String.list_ascii_of_string s.

Definition comma : ascii := ",".
Definition newline : ascii := "010".

Definition char_code (c : ascii) : Z := Z.of_N (N_of_ascii c).
Definition char_of_code (z : Z) : ascii := ascii_of_N (Z.to_N z).

Definition in_range (lo hi : Z) (c : ascii) : bool :=
  (lo <=? char_code c) && (char_code c <=? hi).

Definition isdigit (c : ascii) : bool := in_range 48 57 c.
Definition isupper (c : ascii) : bool := in_range 65 90 c.
Definition islower (c : ascii) : bool := in_range 97 122 c.
Definition isalpha (c : ascii) : bool := isupper c || islower c.
Definition isalnum (c : ascii) : bool := isalpha c || isdigit c.
Definition isxdigit (c : ascii) : bool := isdigit c || in_range 65 70 c || in_range 97 102 c.
Definition isspace (c : ascii) : bool := (char_code c =? 32) || in_range 9 13 c.

(** [strncmp(s, prefix, strlen(prefix)) == 0] *)
Fixpoint starts_with (prefix s : text) : bool :=
  match prefix, s with
  | [], _ => true
  | p :: prefix, c :: s => bool_decide (p = c) && starts_with prefix s
  | _ :: _, [] => false
  end.

(** [strncmp(a, b, n) == 0] *)
Fixpoint strncmp_eq (n : nat) (a b : text) : bool :=
  match n, a, b with
  | O, _, _ => true
  | _, [], [] => true
  | S n, x :: a, y :: b => bool_decide (x = y) && strncmp_eq n a b
  | _, _, _ => false
  end.

(** One call of [strtok] with the delimiter [d]: leading delimiters are
    skipped; the result is the token and what the next call continues from. *)
Fixpoint take_until (d : ascii) (s : text) : text * text :=
  match s with
  | [] => ([], [])
  | c :: s => if bool_decide (c = d) then ([], s)
              else let '(t, r) := take_until d s in (c :: t, r)
  end.

Fixpoint strtok (d : ascii) (s : text) : option (text * text) :=
  match s with
  | [] => None
  | c :: s' => if bool_decide (c = d) then strtok d s' else Some (take_until d s)
  end.

(** [fgets(buf, S n, f)]: at most [n] characters, up to and with the newline. *)
Fixpoint fgets (n : nat) (s : text) : text * text :=
  match n, s with
  | O, _ => ([], s)
  | _, [] => ([], [])
  | S n, c :: s => if bool_decide (c = newline) then ([c], s)
                   else let '(l, r) := fgets n s in (c :: l, r)
  end.

(** [atoi], as glibc computes it: [strtol] in 64 bits, then the cast to int. *)
Fixpoint digits_val (acc : Z) (s : text) : Z :=
  match s with
  | c :: s => if isdigit c then digits_val (acc * 10 + (char_code c - 48)) s else acc
  | [] => acc
  end.

Fixpoint skip_spaces (s : text) : text :=
  match s with
  | c :: s' => if isspace c then skip_spaces s' else s
  | [] => []
  end.

Definition clamp_long (z : Z) : Z := Z.max (- 2 ^ 63) (Z.min (2 ^ 63 - 1) z).

Definition atoi (s : text) : Z :=
  let v := match skip_spaces s with
           | "-"%char :: s' => - digits_val 0 s'
           | "+"%char :: s' => digits_val 0 s'
           | s' => digits_val 0 s'
           end in
  swrap 32 (clamp_long v).

(** [%u] of a 32-bit value (at most ten digits) and [%02x] of a byte. *)
Definition digit_char (d : Z) : ascii := char_of_code (48 + d).

Fixpoint dec_digits (fuel : nat) (z : Z) : text :=
  match fuel with
  | O => []
  | S fuel => if z <? 10 then [digit_char z]
              else dec_digits fuel (z / 10) ++ [digit_char (z mod 10)]
  end.

Definition fmt_u (z : Z) : text := dec_digits 10 z.

Definition hex_char (d : Z) : ascii :=
  if d <? 10 then digit_char d else char_of_code (87 + d).

Definition fmt_02x (b : byte) : text :=
  [hex_char (byte_to_Z b / 16); hex_char (byte_to_Z b mod 16)].

(** ** Lemmas *)

Ltac digit_cases d :=
  let H := fresh in
  assert (H : d = 0 \/ d = 1 \/ d = 2 \/ d = 3 \/ d = 4 \/ d = 5 \/ d = 6 \/ d = 7
              \/ d = 8 \/ d = 9) by lia;
  destruct H as [H|[H|[H|[H|[H|[H|[H|[H|[H|H]]]]]]]]]; rewrite H.

Lemma digit_char_spec d :
  0 <= d < 10 -> isdigit (digit_char d) = true /\ char_code (digit_char d) - 48 = d.
Proof. intros. digit_cases d; done. Qed.

Lemma digits_val_app acc l s :
  Forall (fun c => isdigit c = true) l -> digits_val acc (l ++ s) = digits_val (digits_val acc l) s.
Proof.
  intros H. revert acc; induction H as [|c l Hc Hl IH]; intros acc; simpl; [done|].
  by rewrite Hc, IH.
Qed.

Lemma dec_digits_isdigit fuel z :
  0 <= z -> Forall (fun c => isdigit c = true) (dec_digits fuel z).
Proof.
  revert z; induction fuel as [|fuel IH]; intros z Hz; simpl; [done|].
  destruct (Z.ltb_spec z 10).
  - constructor; [by apply digit_char_spec|done].
  - apply Forall_app. split; [apply IH; apply Z.div_pos; lia|].
    constructor; [|done]. apply digit_char_spec, Z.mod_pos_bound; lia.
Qed.

Lemma dec_digits_val fuel z :
  0 <= z < 10 ^ Z.of_nat fuel -> digits_val 0 (dec_digits fuel z) = z.
Proof.
  revert z; induction fuel as [|fuel IH]; intros z Hz; simpl.
  { change (10 ^ Z.of_nat 0) with 1 in Hz. lia. }
  rewrite Nat2Z.inj_succ, Z.pow_succ_r in Hz by lia.
  destruct (Z.ltb_spec z 10).
  - simpl. destruct (digit_char_spec z) as [H1 H2]; [lia|]. rewrite H1. lia.
  - assert (0 <= z / 10 < 10 ^ Z.of_nat fuel) as Hq
      by (split; [apply Z.div_pos|apply Z.div_lt_upper_bound]; lia).
    rewrite digits_val_app by (apply dec_digits_isdigit; lia). rewrite IH by done. simpl.
    destruct (digit_char_spec (z mod 10)) as [H1 H2]; [apply Z.mod_pos_bound; lia|].
    rewrite H1, H2. cbn [digits_val]. zdiv.
Qed.

Lemma dec_digits_length fuel z : (length (dec_digits fuel z) <= fuel)%nat.
Proof.
  revert z; induction fuel as [|fuel IH]; intros z; simpl; [lia|].
  destruct (z <? 10); simpl; [lia|]. rewrite length_app; simpl. specialize (IH (z / 10)). lia.
Qed.

Lemma dec_digits_nonempty fuel z : (0 < fuel)%nat -> exists c l, dec_digits fuel z = c :: l.
Proof.
  destruct fuel as [|fuel]; [lia|]. intros _. simpl. destruct (z <? 10); [eauto|].
  destruct (dec_digits fuel (z / 10)); simpl; eauto.
Qed.

Lemma fmt_u_length z : (length (fmt_u z) <= 10)%nat.
Proof. apply dec_digits_length. Qed.

#[global] Arguments fmt_u : simpl never.
#[global] Arguments fmt_02x : simpl never.

(** Characters of the numbers: no delimiter, no newline, no white space. *)
Lemma isdigit_not (c d : ascii) : isdigit c = true -> isdigit d = false -> c <> d.
Proof. intros H H' ->. congruence. Qed.

Lemma isdigit_not_space c : isdigit c = true -> isspace c = false.
Proof. unfold isdigit, isspace, in_range. lia. Qed.

Definition plain (c : ascii) : bool := bool_decide (c <> comma) && bool_decide (c <> newline).

Lemma isxdigit_plain c : isxdigit c = true -> plain c = true.
Proof.
  unfold plain. intros. apply andb_true_iff. split; apply bool_decide_true; intros ->; done.
Qed.

Lemma isdigit_isxdigit c : isdigit c = true -> isxdigit c = true.
Proof. unfold isxdigit. by intros ->. Qed.

Lemma isdigit_plain c : isdigit c = true -> plain c = true.
Proof. intros. by apply isxdigit_plain, isdigit_isxdigit. Qed.

Lemma hex_char_isxdigit d : 0 <= d < 16 -> isxdigit (hex_char d) = true.
Proof.
  intros. assert (d < 10 \/ d = 10 \/ d = 11 \/ d = 12 \/ d = 13 \/ d = 14 \/ d = 15)
    as [H0|[->|[->|[->|[->|[->| ->]]]]]] by lia; try done.
  digit_cases d; done.
Qed.

Lemma fmt_02x_isxdigit b : Forall (fun c => isxdigit c = true) (fmt_02x b).
Proof.
  pose proof (byte_to_Z_range b). unfold fmt_02x.
  repeat constructor; apply hex_char_isxdigit; [split; [apply Z.div_pos|apply Z.div_lt_upper_bound]; lia|].
  apply Z.mod_pos_bound. lia.
Qed.

Lemma fmt_u_plain z : 0 <= z -> Forall (fun c => plain c = true) (fmt_u z).
Proof.
  intros H. eapply Forall_impl; [by apply dec_digits_isdigit|apply isdigit_plain].
Qed.

Lemma fmt_02x_plain b : Forall (fun c => plain c = true) (fmt_02x b).
Proof. eapply Forall_impl; [apply fmt_02x_isxdigit|apply isxdigit_plain]. Qed.

(** Tokenising: a non-empty token without the delimiter, then the delimiter. *)
Lemma take_until_app d t s :
  Forall (fun c => c <> d) t -> take_until d (t ++ d :: s) = (t, s).
Proof.
  intros H; induction H as [|c t Hc Ht IH]; simpl.
  - by rewrite bool_decide_true.
  - rewrite bool_decide_false by done. by rewrite IH.
Qed.

Lemma strtok_app d t s :
  t <> [] -> Forall (fun c => c <> d) t -> strtok d (t ++ d :: s) = Some (t, s).
Proof.
  intros Hne H. destruct H as [|c t Hc Ht]; [done|]. simpl.
  rewrite bool_decide_false by done. by rewrite take_until_app.
Qed.

Lemma plain_comma t : Forall (fun c => plain c = true) t -> Forall (fun c => c <> comma) t.
Proof.
  intros H. eapply Forall_impl; [exact H|]. intros c Hc. unfold plain in Hc.
  apply andb_true_iff in Hc as [Hc _]. by apply bool_decide_eq_true in Hc.
Qed.

(** Reading a line that fits the buffer. *)
Lemma fgets_line n l s :
  Forall (fun c => c <> newline) l -> (length l < n)%nat ->
  fgets n (l ++ newline :: s) = (l ++ [newline], s).
Proof.
  intros H; revert n; induction H as [|c l Hc Hl IH]; intros [|n]; simpl; try lia; intros Hn.
  - done.
  - rewrite bool_decide_false by done. by rewrite IH by lia.
Qed.

Lemma digits_val_spaces l s : forallb isspace l = true -> skip_spaces (l ++ s) = skip_spaces s.
Proof. induction l as [|c l IH]; simpl; [done|]. destruct (isspace c); [done|discriminate]. Qed.

(** [atoi] of a printed 32-bit number, behind white space and before a
    character that is not a digit, is the number as a signed 32-bit integer. *)
Lemma atoi_fmt_u sp z s :
  0 <= z < 2 ^ 32 -> forallb isspace sp = true ->
  (forall c r, s = c :: r -> isdigit c = false) ->
  atoi (sp ++ fmt_u z ++ s) = swrap 32 z.
Proof.
  intros Hz Hsp Hs. unfold atoi. rewrite digits_val_spaces by done.
  assert (digits_val 0 (fmt_u z ++ s) = z) as Hv.
  { rewrite digits_val_app by (apply dec_digits_isdigit; lia).
    unfold fmt_u. rewrite dec_digits_val by (simpl; lia).
    destruct s as [|c s]; simpl; [done|]. by rewrite (Hs c s). }
  assert (Forall (fun c => isdigit c = true) (fmt_u z)) as Hd by (apply dec_digits_isdigit; lia).
  destruct (dec_digits_nonempty 10 z ltac:(lia)) as (c & l & E).
  unfold fmt_u in *. rewrite E in *. pose proof (Forall_inv Hd) as Hc; clear Hd. simpl app in *.
  cbn [skip_spaces]. rewrite (isdigit_not_space c Hc).
  assert (c <> "-"%char) by (by intros ->). assert (c <> "+"%char) by (by intros ->).
  replace (match c :: l ++ s with
           | "-"%char :: s' => - digits_val 0 s'
           | "+"%char :: s' => digits_val 0 s'
           | s' => digits_val 0 s' end) with z.
  - unfold clamp_long. f_equal. lia.
  - rewrite <- Hv. destruct c as [[] [] [] [] [] [] [] []]; done.
Qed.
