(* ===== verification/NodeAddr.v ===== *)
(** * Node addresses

    [node_address_t] of [pfcp_messages/pfcp_struct.h]: the address of a peer
    control-plane or user-plane node, with the two ways the code compares two of
    them: the lookups compare the member that the type of the {e key} selects
    and ignore the type of the entry ([node_addr_match]), while
    [compare_ip_address] (cp_dp_api/teid_upf.c) requires both types to agree. *)

From S2P Require Import Prelude.

Definition PDN_TYPE_IPV4 : Z := 1.
Definition PDN_TYPE_IPV6 : Z := 2.

Record node_address_t := mk_node_address {
  ip_type : Z;
  ipv4_addr : Z;
  ipv6_addr : list byte
}.

#[export] Instance node_address_eq_decision : EqDecision node_address_t.
Proof. solve_decision. Defined.

(** The sixteen zero bytes of [memset(addr, 0, IPV6_ADDRESS_LEN)]. *)
Definition IPV6_ADDRESS_LEN : nat := 16.
Definition ipv6_zero : list byte := replicate IPV6_ADDRESS_LEN x00.

(** The test inside the loops of [get_teid_info], [get_teidri_info] and
    [delete_entry_from_teid_list]: [key] is the address searched for. *)
Definition node_addr_match (key entry : node_address_t) : bool :=
  if bool_decide (ip_type key = PDN_TYPE_IPV4) && bool_decide (ipv4_addr entry = ipv4_addr key)
  then true
  else bool_decide (ip_type key = PDN_TYPE_IPV6)
       && bool_decide (ipv6_addr entry = ipv6_addr key).

Definition compare_ip_address (node addr : node_address_t) : bool :=
  if bool_decide (ip_type node = PDN_TYPE_IPV4) && bool_decide (ip_type addr = PDN_TYPE_IPV4)
  then bool_decide (ipv4_addr node = ipv4_addr addr)
  else if bool_decide (ip_type node = PDN_TYPE_IPV6) && bool_decide (ip_type addr = PDN_TYPE_IPV6)
  then bool_decide (ipv6_addr node = ipv6_addr addr)
  else false.

(** [copy_node_addr fresh a]: the branches that copy the member selected by the
    type of [a] into a record whose other members keep their contents. *)
Definition copy_node_addr (fresh a : node_address_t) : node_address_t :=
  if bool_decide (ip_type a = PDN_TYPE_IPV4) then
    mk_node_address PDN_TYPE_IPV4 (ipv4_addr a) (ipv6_addr fresh)
  else if bool_decide (ip_type a = PDN_TYPE_IPV6) then
    mk_node_address PDN_TYPE_IPV6 (ipv4_addr fresh) (ipv6_addr a)
  else fresh.

(** An address as the callers build it: exactly one member is set, and it is
    not the value the code treats as "no address". *)
Definition node_addr_ok (a : node_address_t) : Prop :=
  (ip_type a = PDN_TYPE_IPV4 /\ ipv4_addr a <> 0 /\ ipv6_addr a = ipv6_zero) \/
  (ip_type a = PDN_TYPE_IPV6 /\ ipv4_addr a = 0 /\ length (ipv6_addr a) = IPV6_ADDRESS_LEN
   /\ head (ipv6_addr a) <> Some x00).

Definition node_addr_zero : node_address_t := mk_node_address 0 0 ipv6_zero.

Lemma copy_node_addr_ok a : node_addr_ok a -> copy_node_addr node_addr_zero a = a.
Proof.
  destruct a as [t v4 v6]. unfold node_addr_ok, copy_node_addr; simpl.
  intros [(->&?&->)|(->&->&?&?)]; done.
Qed.

(** On well-formed addresses the two comparisons agree with equality. *)
Lemma node_addr_match_eq a b :
  node_addr_ok a -> node_addr_ok b -> node_addr_match a b = bool_decide (a = b).
Proof.
  destruct a as [t v4 v6], b as [t' v4' v6'].
  unfold node_addr_ok, node_addr_match; simpl.
  intros [(->&?&->)|(->&->&?&?)] [(->&?&->)|(->&->&?&?)];
    repeat case_bool_decide; simpl in *; try naive_solver congruence.
Qed.

Lemma compare_ip_address_eq a b :
  node_addr_ok a -> node_addr_ok b -> compare_ip_address a b = bool_decide (a = b).
Proof.
  destruct a as [t v4 v6], b as [t' v4' v6'].
  unfold node_addr_ok, compare_ip_address; simpl.
  intros [(->&?&->)|(->&->&?&?)] [(->&?&->)|(->&->&?&?)];
    repeat case_bool_decide; simpl in *; try naive_solver congruence.
Qed.

(** Copying into a record whose address members are zero gives the address. *)
Lemma copy_node_addr_fresh f a :
  node_addr_ok a -> ipv4_addr f = 0 -> ipv6_addr f = ipv6_zero -> copy_node_addr f a = a.
Proof.
  destruct a as [t v4 v6], f as [tf v4f v6f]. unfold node_addr_ok, copy_node_addr; simpl.
  intros [(->&?&->)|(->&->&?&?)] -> ->; done.
Qed.

Lemma node_addr_match_refl a : node_addr_ok a -> node_addr_match a a = true.
Proof. intros. rewrite node_addr_match_eq by done. by apply bool_decide_true. Qed.

#[export] Hint Resolve node_addr_match_refl : core.
