(* ===== verification/Config.v ===== *)
(** * The configuration validator

    [cp_dp_api/config_validater.c]: the checks of the values and the reader that
    applies them to [cp.cfg] and [dp.cfg] when a process starts.

    A file is its text; the reader's buffers are arrays of characters, and
    writing outside one gives [OutOfBounds], as does the read of
    [value[strnlen(value) - 1]] for an empty value.  Texts contain no NUL.
    [inet_pton], [getaddrinfo] and [rte_strsplit] are parameters. *)

From S2P Require Import Prelude CText.
From Stdlib Require Import Ascii.

Definition KEY_LEN : nat := 32.
Definition CFG_VALUE_LENGTH : nat := 64.
Definition BUFFER_SIZE : nat := 256.
Definition VALUE_FORMAT_NOT_CORRECT : Z := 2.
Definition MAC_ADDRESS_LEN : Z := 12.
Definition MAC_ADDRESS_SEPARTER : Z := 5.

Definition nul : ascii := "000".
Definition space : ascii := " ".
Definition equals : ascii := "=".
Definition colon : ascii := ":".
Definition dot : ascii := ".".
Definition slash : ascii := "/".

(** [strnlen(value, CFG_VALUE_LENGTH)]. *)
Definition vlen (value : text) : nat := Nat.min (length value) CFG_VALUE_LENGTH.

(** ** The checks of a value: 0, the error code, or a read outside the value *)

Definition ok_if (b : bool) : option Z := Some (if b then 0 else VALUE_FORMAT_NOT_CORRECT).

Definition is_valid_integer (key value : text) : option Z := ok_if (forallb isdigit (take (vlen value) value)).

Fixpoint mac_loop (value : text) (hex_itr separater : Z) : Z * Z :=
  match value with
  | [] => (hex_itr, separater)
  | c :: value =>
    if isxdigit c then mac_loop value (hex_itr + 1) separater
    else if bool_decide (c = colon) then
      if (hex_itr =? 0) || negb (Z.quot hex_itr 2 - 1 =? separater) then (hex_itr, separater)
      else mac_loop value hex_itr (separater + 1)
    else mac_loop value hex_itr (-1)
  end.

Definition is_valid_mac (key value : text) : option Z :=
  let '(hex_itr, separater) := mac_loop value 0 0 in
  ok_if ((hex_itr =? MAC_ADDRESS_LEN) && (separater =? MAC_ADDRESS_SEPARTER)).

(** [is_valid_apn] and [is_valid_interface]: the same body for the separators
    [.] and [:]. *)
Fixpoint name_loop (sep : ascii) (value : text) (todo idx : nat) : bool :=
  match todo with
  | O => true
  | S todo =>
    let c := nth idx value nul in
    if bool_decide (c = sep) && negb (isalnum (nth (S idx) value nul)) then false
    else if negb (isalnum c) && negb (bool_decide (c = sep)) then false
    else name_loop sep value todo (S idx)
  end.

Definition is_valid_name (sep : ascii) (value : text) : option Z :=
  match vlen value with
  | O => None
  | S last =>
    if negb (isalnum (nth 0 value nul) && isalnum (nth last value nul)) then ok_if false
    else ok_if (name_loop sep value (last - 1) 1)
  end.

Definition is_valid_apn : text -> option Z := is_valid_name dot.
Definition is_valid_interface : text -> option Z := is_valid_name colon.

Definition is_valid_alphanumeric_value (value : text) : option Z :=
  ok_if (forallb isalnum (take (vlen value) value)).

Definition is_valid_alpha_value (value : text) : option Z :=
  ok_if (forallb isalpha (take (vlen value) value)).

Definition key_is (key : text) (name : string) : bool := strncmp_eq KEY_LEN key (lit name).

Definition is_valid_string (key value : text) : option Z :=
  let via (r : option Z) : option Z := z ← r; ok_if (z =? 0) in
  if key_is key "WB_IFACE" then via (is_valid_interface value)
  else if key_is key "WB_LI_IFACE" then via (is_valid_interface value)
  else if key_is key "EB_IFACE" then via (is_valid_interface value)
  else if key_is key "EB_LI_IFACE" then via (is_valid_interface value)
  else if key_is key "REDIS_CERT_PATH" then
    ok_if (strncmp_eq CFG_VALUE_LENGTH value (lit "../config/redis_cert"))
  else if key_is key "network_capability" then via (is_valid_alpha_value value)
  else if key_is key "filename" then ok_if (negb (Nat.eqb (vlen value) 0))
  else if key_is key "name" then via (is_valid_apn value)
  else ok_if true.

(** ** The reader *)

(** [a[i] = c] for an array [a]. *)
Definition put (a : text) (i : nat) (c : ascii) : option text :=
  if decide (i < length a)%nat then Some (<[i := c]> a) else None.

(** The C string in an array. *)
Fixpoint cstr (a : text) : text :=
  match a with
  | [] => []
  | c :: a => if bool_decide (c = nul) then [] else c :: cstr a
  end.

Record line_state := mk_line {
  cfg_key : text; cfg_parameter_value : text; cfg_section_value : text;
  index : nat; key_value_filled : bool
}.

Definition line_init : line_state :=
  mk_line (replicate KEY_LEN nul) (replicate CFG_VALUE_LENGTH nul) (replicate KEY_LEN nul) 0 false.

(** The body of the loop over [buffer]; [first] is [buffer[STARTING_INDEX]]. *)
Definition line_char (first c : ascii) (s : line_state) : option line_state :=
  if bool_decide (first = "["%char) then
    a ← put (cfg_section_value s) (index s) c;
    Some (mk_line (cfg_key s) (cfg_parameter_value s) a (S (index s)) (key_value_filled s))
  else if bool_decide (c = equals) then
    a ← put (cfg_key s) (index s) nul;
    Some (mk_line a (cfg_parameter_value s) (cfg_section_value s) 0 true)
  else if negb (key_value_filled s) && negb (bool_decide (c = space)) then
    a ← put (cfg_key s) (index s) c;
    Some (mk_line a (cfg_parameter_value s) (cfg_section_value s) (S (index s)) (key_value_filled s))
  else if negb (bool_decide (c = space)) then
    a ← put (cfg_parameter_value s) (index s) c;
    Some (mk_line (cfg_key s) a (cfg_section_value s) (S (index s)) (key_value_filled s))
  else Some s.

Fixpoint line_chars (first : ascii) (l : text) (s : line_state) : option line_state :=
  match l with
  | [] => Some s
  | c :: l => if bool_decide (c = newline) then Some s
              else s ← line_char first c s; line_chars first l s
  end.

Definition section_list : list text :=
  [lit "[GLOBAL]"; lit "[APN]"; lit "[URR_DEFAULT]"; lit "[NAMESERVER_CONFIG]"; lit "[CACHE]"; lit "[APP]"; lit "[OPS]"; lit "[IP_POOL_CONFIG]"].

(** How the reader ends: the end of the file, one of its messages before
    [exit(0)], or an access outside a buffer. *)
Inductive outcome :=
| Done
| OpenFailed
| InvalidValue (key : text)
| InvalidKey (key : text)
| InvalidSection (name : text)
| OutOfBounds.

Section Reader.
Context (inet_pton4 inet_pton6 getaddrinfo_ok : text -> bool).
(** [rte_strsplit(value, len, fld, 2, '/')]: the number of fields and [fld[0]]. *)
Context (rte_strsplit : text -> Z * text).

Definition is_valid_ipv4 (key value : text) : option Z := ok_if (inet_pton4 value).

Definition is_valid_ipv4v6 (key value : text) : option Z := ok_if (getaddrinfo_ok value).

Definition is_valid_ipv6 (key value : text) : option Z :=
  if existsb (fun c => bool_decide (c = slash)) value then
    let '(ip_token, fld) := rte_strsplit (take (vlen value) value) in
    if 2 <? ip_token then ok_if false else ok_if (inet_pton6 fld)
  else ok_if (inet_pton6 value).

Definition is_valid_ipv4_ipv6 (key value : text) : option Z := ok_if (inet_pton4 value || inet_pton6 value).

Definition cfg_parms_list : list (text * (text -> text -> option Z)) := [
  (lit "CP_TYPE", is_valid_integer);
  (lit "S11_IP", is_valid_ipv4);
  (lit "S11_IP_V6", is_valid_ipv6);
  (lit "S11_PORT", is_valid_integer);
  (lit "S5S8_IP", is_valid_ipv4);
  (lit "S5S8_IP_V6", is_valid_ipv6);
  (lit "S5S8_PORT", is_valid_integer);
  (lit "PFCP_IP", is_valid_ipv4);
  (lit "PFCP_IP_V6", is_valid_ipv6);
  (lit "PFCP_PORT", is_valid_integer);
  (lit "UPF_PFCP_IP", is_valid_ipv4);
  (lit "UPF_PFCP_IP_V6", is_valid_ipv6);
  (lit "UPF_PFCP_PORT", is_valid_integer);
  (lit "REDIS_IP", is_valid_ipv4v6);
  (lit "REDIS_PORT", is_valid_integer);
  (lit "CP_REDIS_IP", is_valid_ipv4v6);
  (lit "REDIS_CERT_PATH", is_valid_string);
  (lit "DDF2_IP", is_valid_ipv4_ipv6);
  (lit "DDF2_PORT", is_valid_integer);
  (lit "DDF2_LOCAL_IP", is_valid_ipv4_ipv6);
  (lit "DADMF_IP", is_valid_ipv4_ipv6);
  (lit "DADMF_PORT", is_valid_integer);
  (lit "DADMF_LOCAL_IP", is_valid_ipv4_ipv6);
  (lit "SUGGESTED_PKT_COUNT", is_valid_integer);
  (lit "LOW_LEVEL_ARP_PRIORITY", is_valid_integer);
  (lit "TRANSMIT_TIMER", is_valid_integer);
  (lit "PERIODIC_TIMER", is_valid_integer);
  (lit "TRANSMIT_COUNT", is_valid_integer);
  (lit "REQUEST_TIMEOUT", is_valid_integer);
  (lit "REQUEST_TRIES", is_valid_integer);
  (lit "USE_DNS", is_valid_integer);
  (lit "CP_DNS_IP", is_valid_ipv4v6);
  (lit "CLI_REST_PORT", is_valid_integer);
  (lit "CLI_REST_IP", is_valid_ipv4v6);
  (lit "GENERATE_CDR", is_valid_integer);
  (lit "GENERATE_SGW_CDR", is_valid_integer);
  (lit "SGW_CC", is_valid_integer);
  (lit "ADD_DEFAULT_RULE", is_valid_integer);
  (lit "IP_ALLOCATION_MODE", is_valid_integer);
  (lit "IP_TYPE_SUPPORTED", is_valid_integer);
  (lit "IP_TYPE_PRIORITY", is_valid_integer);
  (lit "USE_GX", is_valid_integer);
  (lit "PERF_FLAG", is_valid_integer);
  (lit "name", is_valid_string);
  (lit "usage_type", is_valid_integer);
  (lit "network_capability", is_valid_string);
  (lit "trigger_type", is_valid_integer);
  (lit "uplink_volume_th", is_valid_integer);
  (lit "downlink_volume_th", is_valid_integer);
  (lit "time_th", is_valid_integer);
  (lit "concurrent", is_valid_integer);
  (lit "percentage", is_valid_integer);
  (lit "interval_seconds", is_valid_integer);
  (lit "query_timeout_ms", is_valid_integer);
  (lit "query_tries", is_valid_integer);
  (lit "frequency_seconds", is_valid_integer);
  (lit "filename", is_valid_string);
  (lit "nameserver", is_valid_ipv4v6);
  (lit "IP_POOL_IP", is_valid_ipv4);
  (lit "IP_POOL_MASK", is_valid_ipv4);
  (lit "IPV6_NETWORK_ID", is_valid_ipv6);
  (lit "IPV6_PREFIX_LEN", is_valid_string);
  (lit "PFCP_IPv4", is_valid_ipv4);
  (lit "PFCP_IPv6", is_valid_ipv6);
  (lit "WB_IFACE", is_valid_string);
  (lit "EB_IFACE", is_valid_string);
  (lit "WB_IPv4", is_valid_ipv4);
  (lit "WB_IPv6", is_valid_ipv6);
  (lit "WB_IPv4_MASK", is_valid_ipv4);
  (lit "WB_MAC", is_valid_mac);
  (lit "EB_IPv4", is_valid_ipv4);
  (lit "EB_IPv6", is_valid_ipv6);
  (lit "EB_IPv4_MASK", is_valid_ipv4);
  (lit "EB_MAC", is_valid_mac);
  (lit "WB_LI_IPv4", is_valid_ipv4);
  (lit "WB_LI_IPv6", is_valid_ipv6);
  (lit "WB_LI_IPv4_MASK", is_valid_ipv4);
  (lit "WB_LI_IFACE", is_valid_string);
  (lit "EB_LI_IPv4", is_valid_ipv4);
  (lit "EB_LI_IPv6", is_valid_ipv6);
  (lit "EB_LI_IPv4_MASK", is_valid_ipv4);
  (lit "EB_LI_IFACE", is_valid_string);
  (lit "NUMA", is_valid_integer);
  (lit "TEIDRI", is_valid_integer);
  (lit "TEIDRI_TIMEOUT", is_valid_integer);
  (lit "GENERATE_PCAP", is_valid_integer);
  (lit "DDF3_IP", is_valid_ipv4_ipv6);
  (lit "DDF3_PORT", is_valid_integer);
  (lit "DDF3_LOCAL_IP", is_valid_ipv4_ipv6);
  (lit "WB_GW_IP", is_valid_ipv4);
  (lit "EB_GW_IP", is_valid_ipv4);
  (lit "GTPU_SEQNB_IN", is_valid_integer);
  (lit "GTPU_SEQNB_OUT", is_valid_integer)
].

(** The search of the parameter list: [None] is [itr_cfg_params == no_of_cfg_params]. *)
Fixpoint find_param (ps : list (text * (text -> text -> option Z))) (key : text)
    : option (text -> text -> option Z) :=
  match ps with
  | [] => None
  | (k, f) :: ps => if strncmp_eq KEY_LEN k key then Some f else find_param ps key
  end.

(** What the reader does with a key and its value, and with a section name. *)
Definition check_param (key value : text) : option outcome :=
  match find_param cfg_parms_list key with
  | None => Some (InvalidKey key)
  | Some f =>
    match f key value with
    | None => Some OutOfBounds
    | Some z => if z =? 0 then None else Some (InvalidValue key)
    end
  end.

Definition check_section (name : text) : option outcome :=
  if existsb (fun s => strncmp_eq KEY_LEN s name) section_list then None else Some (InvalidSection name).

(** One line in [buffer]: [None] to read the next one. *)
Definition read_line (buffer : text) : option outcome :=
  let first := nth 0 buffer nul in
  if bool_decide (first = ";"%char) || bool_decide (first = "#"%char) || bool_decide (first = newline)
  then None else
  match line_chars first buffer line_init with
  | None => Some OutOfBounds
  | Some s =>
    if negb (bool_decide (first = "["%char)) then
      match put (cfg_parameter_value s) (index s) nul with
      | None => Some OutOfBounds
      | Some v => check_param (cstr (cfg_key s)) (cstr v)
      end
    else
      match put (cfg_section_value s) (index s) nul with
      | None => Some OutOfBounds
      | Some n => check_section (cstr n)
      end
  end.

(** The loop over the lines; each one takes at least a character from [file],
    so the fuel of [read_cfg_file] never runs out. *)
Fixpoint read_lines (fuel : nat) (file : text) : option outcome :=
  match fuel with
  | O => None
  | S fuel =>
    match file with
    | [] => Some Done
    | _ =>
      let '(buffer, rest) := fgets (BUFFER_SIZE - 1) file in
      match read_line buffer with
      | Some o => Some o
      | None => read_lines fuel rest
      end
    end
  end.

(** [read_cfg_file(path)], given what [fopen] finds. *)
Definition read_cfg_file (file : option text) : option outcome :=
  match file with
  | None => Some OpenFailed
  | Some t => read_lines (S (length t)) t
  end.

(** ** Specification: a line as a comment, a section or a parameter *)

Inductive cfg_line := Skip | SectionLine (name : text) | Param (key value : text).

Definition not_space (c : ascii) : bool := negb (bool_decide (c = space)).

(** The parts of a line between its [=]. *)
Fixpoint parts (l : text) : text * list text :=
  match l with
  | [] => ([], [])
  | c :: l => let '(t, ts) := parts l in if bool_decide (c = equals) then ([], t :: ts) else (c :: t, ts)
  end.

(** A further [=] begins the value anew and cuts the key to the length of the part before. *)
Fixpoint cut (key : text) (vs : list text) : text * text :=
  match vs with
  | [] => (key, [])
  | v :: vs => match vs with [] => (key, v) | _ => cut (take (length v) key) vs end
  end.

Definition parse_line (l : text) : cfg_line :=
  match l with
  | [] => Skip
  | c :: _ =>
    if bool_decide (c = ";"%char) || bool_decide (c = "#"%char) then Skip
    else if bool_decide (c = "["%char) then SectionLine l
    else let '(k, vs) := parts l in
         let '(k, v) := cut (List.filter not_space k) (map (List.filter not_space) vs) in Param k v
  end.

Definition check_line (l : text) : option outcome :=
  match parse_line l with
  | Skip => None
  | SectionLine n => check_section n
  | Param k v => check_param k v
  end.

(** The outcome of a file: that of its first bad line. *)
Fixpoint check_lines (ls : list text) : outcome :=
  match ls with
  | [] => Done
  | l :: ls => match check_line l with Some o => o | None => check_lines ls end
  end.

(** A line that the reader's buffers hold: the place in the key that a [=] ends is that
    of the length of the part before it. *)
Definition parts_fit (k : text) (vs : list text) : Prop :=
  Forall (fun v => length (List.filter not_space v) < KEY_LEN)%nat (k :: removelast vs) /\
  Forall (fun v => length (List.filter not_space v) < CFG_VALUE_LENGTH)%nat vs.

Definition line_fits (l : text) : Prop :=
  Forall (fun c => c <> newline /\ c <> nul) l /\ (S (length l) < BUFFER_SIZE)%nat /\
  match parse_line l with
  | Skip => True
  | SectionLine n => (length n < KEY_LEN)%nat
  | Param _ _ => parts_fit (parts l).1 (parts l).2
  end.

Definition join_lines (ls : list text) : text := concat (map (fun l => l ++ [newline]) ls).
End Reader.

(** ** Lemmas *)

(** An array of [n] characters holding the string [t]. *)
Definition arr (n : nat) (t : text) : text := t ++ replicate (n - length t) nul.

Lemma length_arr n t : (length t <= n)%nat -> length (arr n t) = n.
Proof. intros. unfold arr. rewrite length_app, length_replicate. lia. Qed.

Lemma put_arr n t c : (length t < n)%nat -> put (arr n t) (length t) c = Some (arr n (t ++ [c])).
Proof.
  intros Hn. unfold put. rewrite length_arr, decide_True by lia. f_equal. unfold arr.
  rewrite insert_app_r_alt, Nat.sub_diag, length_app by lia. cbn [length].
  replace (n - length t)%nat with (S (n - (length t + 1))) by lia. cbn.
  by rewrite <- app_assoc.
Qed.

Lemma put_arr_nul n t : (length t < n)%nat -> put (arr n t) (length t) nul = Some (arr n t).
Proof.
  intros Hn. unfold put. rewrite length_arr, decide_True by lia. f_equal. unfold arr.
  rewrite insert_app_r_alt, Nat.sub_diag by lia.
  replace (n - length t)%nat with (S (n - S (length t))) by lia. done.
Qed.

Lemma cstr_arr n t : Forall (fun c => c <> nul) t -> cstr (arr n t) = t.
Proof.
  unfold arr. generalize (n - length t)%nat as m. intros m.
  induction 1 as [|c t Hc _ IH]; cbn [app cstr].
  - destruct m; [done|]. cbn. by rewrite bool_decide_true.
  - rewrite bool_decide_false by done. by rewrite IH.
Qed.

Lemma filter_space_cons c l :
  List.filter not_space (c :: l) = (if decide (c = space) then [] else [c]) ++ List.filter not_space l.
Proof.
  cbn. unfold not_space at 1. destruct (decide (c = space)) as [->|Hs].
  - by rewrite bool_decide_true.
  - by rewrite bool_decide_false.
Qed.

(** One character of a key, of a value and of a section name. *)
Lemma line_char_key first c k v s :
  first <> "["%char -> c <> equals -> (length (k ++ if decide (c = space) then [] else [c]) <= KEY_LEN)%nat ->
  line_char first c (mk_line (arr KEY_LEN k) v s (length k) false)
  = Some (mk_line (arr KEY_LEN (k ++ if decide (c = space) then [] else [c])) v s
      (length (k ++ if decide (c = space) then [] else [c])) false).
Proof.
  intros Hf He. unfold line_char. rewrite (bool_decide_false (first = _)), (bool_decide_false (c = equals)) by done.
  cbn [key_value_filled negb andb index cfg_key cfg_parameter_value cfg_section_value].
  destruct (decide (c = space)) as [->|Hs]; intros Hl.
  - rewrite bool_decide_true by done. cbn. by rewrite app_nil_r.
  - rewrite bool_decide_false by done. cbn [negb]. rewrite length_app in Hl. cbn in Hl.
    rewrite put_arr by lia. cbn. do 2 f_equal. rewrite length_app. cbn. lia.
Qed.

Lemma line_char_value first c k v s :
  first <> "["%char -> c <> equals -> (length (v ++ if decide (c = space) then [] else [c]) <= CFG_VALUE_LENGTH)%nat ->
  line_char first c (mk_line k (arr CFG_VALUE_LENGTH v) s (length v) true)
  = Some (mk_line k (arr CFG_VALUE_LENGTH (v ++ if decide (c = space) then [] else [c])) s
      (length (v ++ if decide (c = space) then [] else [c])) true).
Proof.
  intros Hf He. unfold line_char. rewrite (bool_decide_false (first = _)), (bool_decide_false (c = equals)) by done.
  cbn [key_value_filled negb andb index cfg_key cfg_parameter_value cfg_section_value].
  destruct (decide (c = space)) as [->|Hs]; intros Hl.
  - rewrite bool_decide_true by done. cbn. by rewrite app_nil_r.
  - rewrite bool_decide_false by done. cbn [negb]. rewrite length_app in Hl. cbn in Hl.
    rewrite put_arr by lia. cbn. do 2 f_equal. rewrite length_app. cbn. lia.
Qed.

Lemma line_char_section c n k v f :
  (length n < KEY_LEN)%nat ->
  line_char "["%char c (mk_line k v (arr KEY_LEN n) (length n) f)
  = Some (mk_line k v (arr KEY_LEN (n ++ [c])) (length (n ++ [c])) f).
Proof.
  intros Hl. unfold line_char. rewrite bool_decide_true by done. cbn [cfg_section_value index].
  rewrite put_arr by done. cbn. do 2 f_equal. rewrite length_app. cbn. lia.
Qed.

Lemma line_chars_key first k rest k0 v s :
  first <> "["%char -> Forall (fun c => c <> newline) k -> Forall (fun c => c <> equals) k ->
  (length (k0 ++ List.filter not_space k) <= KEY_LEN)%nat ->
  line_chars first (k ++ rest) (mk_line (arr KEY_LEN k0) v s (length k0) false)
  = line_chars first rest
      (mk_line (arr KEY_LEN (k0 ++ List.filter not_space k)) v s (length (k0 ++ List.filter not_space k)) false).
Proof.
  intros Hf Hn. revert k0. induction Hn as [|c k Hc _ IH]; intros k0 He Hl; [by rewrite app_nil_r|].
  apply Forall_cons in He as [Hce He]. rewrite filter_space_cons, app_assoc in *.
  cbn [app line_chars]. rewrite bool_decide_false by done.
  rewrite line_char_key; [|done..|rewrite length_app in Hl; lia]. cbn [mbind option_bind]. by apply IH.
Qed.

Lemma line_chars_value first v rest k v0 s :
  first <> "["%char -> Forall (fun c => c <> newline) v -> Forall (fun c => c <> equals) v ->
  (length (v0 ++ List.filter not_space v) <= CFG_VALUE_LENGTH)%nat ->
  line_chars first (v ++ rest) (mk_line k (arr CFG_VALUE_LENGTH v0) s (length v0) true)
  = line_chars first rest
      (mk_line k (arr CFG_VALUE_LENGTH (v0 ++ List.filter not_space v)) s (length (v0 ++ List.filter not_space v)) true).
Proof.
  intros Hf Hn. revert v0. induction Hn as [|c v Hc _ IH]; intros v0 He Hl; [by rewrite app_nil_r|].
  apply Forall_cons in He as [Hce He]. rewrite filter_space_cons, app_assoc in *.
  cbn [app line_chars]. rewrite bool_decide_false by done.
  rewrite line_char_value; [|done..|rewrite length_app in Hl; lia]. cbn [mbind option_bind]. by apply IH.
Qed.

Lemma line_chars_section n rest n0 k v f :
  Forall (fun c => c <> newline) n -> (length (n0 ++ n) <= KEY_LEN)%nat ->
  line_chars "["%char (n ++ rest) (mk_line k v (arr KEY_LEN n0) (length n0) f)
  = line_chars "["%char rest (mk_line k v (arr KEY_LEN (n0 ++ n)) (length (n0 ++ n)) f).
Proof.
  intros Hn. revert n0. induction Hn as [|c n Hc _ IH]; intros n0 Hl; [by rewrite app_nil_r|].
  cbn [app line_chars]. rewrite bool_decide_false by done.
  rewrite line_char_section by (rewrite length_app in Hl; cbn in Hl; lia). cbn [mbind option_bind].
  rewrite IH; rewrite <- app_assoc; done.
Qed.

Lemma filter_Forall {A} (P : A -> Prop) f (l : list A) : Forall P l -> Forall P (List.filter f l).
Proof.
  induction 1 as [|x l Hx _ IH]; cbn; [constructor|]. destruct (f x); [by constructor|done].
Qed.

(** Ending a string inside an array, and the string that a part of an array is. *)
Lemma cstr_put a n a' : put a n nul = Some a' -> cstr a' = take n (cstr a).
Proof.
  unfold put. destruct (decide _) as [Hn|]; [|done]. intros [= <-]. revert n Hn.
  induction a as [|c a IH]; intros [|n] Hn; cbn [length] in Hn; try lia; cbn.
  - reflexivity.
  - case_bool_decide; [done|]. cbn. by rewrite IH by lia.
Qed.

Lemma take_cstr a n : Forall (fun c => c <> nul) (take n a) -> take n (cstr a) = take n a.
Proof.
  revert n. induction a as [|c a IH]; intros [|n] H; try done. cbn in *. apply Forall_cons in H as [Hc H].
  rewrite bool_decide_false by done. cbn. by rewrite IH.
Qed.

(** A character of a value behind the first [i] of an array that was used before. *)
Lemma line_char_at first c k a s i :
  first <> "["%char -> c <> equals -> length a = CFG_VALUE_LENGTH ->
  (i + length (List.filter not_space [c]) <= CFG_VALUE_LENGTH)%nat ->
  exists a', line_char first c (mk_line k a s i true) = Some (mk_line k a' s (i + length (List.filter not_space [c])) true) /\
    length a' = CFG_VALUE_LENGTH /\
    take (i + length (List.filter not_space [c])) a' = take i a ++ List.filter not_space [c].
Proof.
  intros Hf He Ha. rewrite filter_space_cons. cbn [List.filter]. rewrite app_nil_r. unfold line_char.
  rewrite (bool_decide_false (first = _)), (bool_decide_false (c = equals)) by done.
  cbn [key_value_filled negb andb index cfg_key cfg_parameter_value cfg_section_value].
  destruct (decide (c = space)) as [->|Hs]; cbn [length]; intros Hi.
  - rewrite bool_decide_true by done. cbn [negb]. exists a. by rewrite Nat.add_0_r, app_nil_r.
  - rewrite bool_decide_false by done. cbn [negb]. unfold put. rewrite decide_True by lia. exists (<[i := c]> a).
    rewrite Nat.add_1_r. split; [done|]. split; [by rewrite length_insert|].
    rewrite (take_S_r _ _ c) by (apply list_lookup_insert_eq; lia). by rewrite take_insert_ge by lia.
Qed.

Lemma line_chars_at first v rest k a s i :
  first <> "["%char -> Forall (fun c => c <> newline) v -> Forall (fun c => c <> equals) v ->
  length a = CFG_VALUE_LENGTH -> (i + length (List.filter not_space v) <= CFG_VALUE_LENGTH)%nat ->
  exists a', line_chars first (v ++ rest) (mk_line k a s i true)
      = line_chars first rest (mk_line k a' s (i + length (List.filter not_space v)) true) /\
    length a' = CFG_VALUE_LENGTH /\
    take (i + length (List.filter not_space v)) a' = take i a ++ List.filter not_space v.
Proof.
  intros Hf Hn. revert a i. induction Hn as [|c v Hc _ IH]; intros a i He Ha Hl.
  { exists a. cbn. by rewrite Nat.add_0_r, app_nil_r. }
  apply Forall_cons in He as [Hce He].
  assert (forall l, length (List.filter not_space (c :: l)) =
    (length (List.filter not_space [c]) + length (List.filter not_space l))%nat) as El
    by (intros l; rewrite !filter_space_cons, !length_app; cbn; lia).
  rewrite El in *. destruct (line_char_at first c k a s i Hf Hce Ha) as (a1 & E1 & Ha1 & T1); [lia|].
  cbn [app line_chars]. rewrite bool_decide_false by done. rewrite E1. cbn [mbind option_bind].
  destruct (IH a1 (i + length (List.filter not_space [c]))%nat He Ha1 ltac:(lia)) as (a2 & E2 & Ha2 & T2).
  exists a2. rewrite Nat.add_assoc. split; [exact E2|]. split; [done|]. rewrite T2, T1, <- app_assoc. f_equal.
  rewrite !(filter_space_cons c). cbn [List.filter]. by rewrite app_nil_r.
Qed.

(** Splitting a line at its [=]. *)
Lemma parts_spec l : let '(t, ts) := parts l in
  l = t ++ concat (map (cons equals) ts) /\ Forall (fun c => c <> equals) t /\
  Forall (Forall (fun c => c <> equals)) ts.
Proof.
  induction l as [|c l IH]; [done|]. cbn [parts]. destruct (parts l) as [t ts]. destruct IH as (-> & Ht & Hts).
  case_bool_decide as Hc; [subst c|]; (split_and!; [done|by constructor|by try constructor]).
Qed.

Lemma cut_value (P : text -> Prop) k vs : vs <> [] -> Forall P vs -> P (cut k vs).2.
Proof.
  revert k. induction vs as [|v vs IH]; intros k Hne Hv; [done|]. apply Forall_cons in Hv as [Hv Hvs]. cbn [cut].
  destruct vs; [done|]. by apply IH.
Qed.

(** The parts after the key. *)
Lemma line_chars_parts first ts rest ak av s i f :
  first <> "["%char -> ts <> [] -> length ak = KEY_LEN -> length av = CFG_VALUE_LENGTH -> (i < KEY_LEN)%nat ->
  Forall (Forall (fun c => c <> newline)) ts -> Forall (Forall (fun c => c <> equals)) ts ->
  Forall (fun v => length (List.filter not_space v) < KEY_LEN)%nat (removelast ts) ->
  Forall (fun v => length (List.filter not_space v) < CFG_VALUE_LENGTH)%nat ts ->
  let '(k, v) := cut (take i (cstr ak)) (map (List.filter not_space) ts) in
  exists ak' av', line_chars first (concat (map (cons equals) ts) ++ rest) (mk_line ak av s i f)
      = line_chars first rest (mk_line ak' av' s (length v) true) /\
    cstr ak' = k /\ length av' = CFG_VALUE_LENGTH /\ take (length v) av' = v.
Proof.
  intros Hf. revert ak av i f. induction ts as [|v ts IH]; intros ak av i f Hne Hk Hv Hi Hn He Hmid Hval; [done|].
  apply Forall_cons in Hn as [Hn Hns]. apply Forall_cons in He as [He Hes]. apply Forall_cons in Hval as [Hl Hls].
  cbn [map concat]. rewrite <- app_assoc. cbn [app line_chars]. rewrite bool_decide_false by done.
  unfold line_char. rewrite (bool_decide_false (first = _)), (bool_decide_true (equals = _)) by done.
  cbn [cfg_key index cfg_parameter_value cfg_section_value].
  destruct (put ak i nul) as [ak1|] eqn:Ek; [|unfold put in Ek; by rewrite decide_True in Ek by lia].
  cbn [mbind option_bind]. pose proof (cstr_put _ _ _ Ek) as Ck.
  assert (length ak1 = KEY_LEN) as Hk1.
  { unfold put in Ek. rewrite decide_True in Ek by lia. injection Ek as <-. by rewrite length_insert. }
  destruct (line_chars_at first v (concat (map (cons equals) ts) ++ rest) ak1 av s 0 Hf Hn He Hv ltac:(lia))
    as (av1 & E1 & Hv1 & T1). rewrite E1. cbn [Nat.add take app] in *. destruct ts as [|w ts].
  - cbn [cut map concat app]. exists ak1, av1. by split_and!.
  - apply Forall_cons in Hmid as [Hm Hmid].
    specialize (IH ak1 av1 (length (List.filter not_space v)) true ltac:(done) Hk1 Hv1 Hm Hns Hes Hmid Hls).
    rewrite Ck in IH. exact IH.
Qed.

(** The outcome of the characters of a parameter line. *)
Lemma line_chars_param c l :
  let line := c :: l in
  c <> "["%char -> Forall (fun c => c <> newline) line -> Forall (fun c => c <> nul) line ->
  parts_fit (parts line).1 (parts line).2 ->
  let '(k, v) := cut (List.filter not_space (parts line).1) (map (List.filter not_space) (parts line).2) in
  exists s a, line_chars c (line ++ [newline]) line_init = Some s /\
    put (cfg_parameter_value s) (index s) nul = Some a /\ cstr (cfg_key s) = k /\ cstr a = v.
Proof.
  intros line Hc Hn H0 [Hk Hv]. unfold line_init.
  change (replicate KEY_LEN nul) with (arr KEY_LEN []). change (replicate CFG_VALUE_LENGTH nul) with (arr CFG_VALUE_LENGTH []).
  change 0%nat with (length (@nil ascii)) at 1. pose proof (parts_spec line) as Hp.
  destruct (parts line) as [t ts]. cbn [fst snd] in *. destruct Hp as (El & Ht & Hts).
  rewrite El in *. apply Forall_app in Hn as [Hn1 Hn2]. apply Forall_app in H0 as [H01 H02].
  apply Forall_cons in Hk as [Hk Hmid]. rewrite <- app_assoc, line_chars_key; [|done..|cbn [app]; lia]. cbn [app].
  assert (cstr (arr KEY_LEN (List.filter not_space t)) = List.filter not_space t) as Ck
    by by apply cstr_arr, filter_Forall.
  destruct (decide (ts = [])) as [->|Hne].
  - cbn [map concat app line_chars cut]. rewrite bool_decide_true by done.
    eexists _, _. split; [done|]. cbn [cfg_parameter_value index cfg_key]. split; [|split; [exact Ck|]].
    + unfold put. rewrite decide_True; [done|]. rewrite length_arr by (cbn [length]; lia).
      unfold CFG_VALUE_LENGTH, KEY_LEN in *. lia.
    + assert (<[length (List.filter not_space t) := nul]> (arr CFG_VALUE_LENGTH []) = arr CFG_VALUE_LENGTH []) as ->; [|by apply cstr_arr].
      unfold arr. cbn [app length]. rewrite Nat.sub_0_r. apply list_insert_id. apply lookup_replicate.
      split; [done|]. unfold CFG_VALUE_LENGTH, KEY_LEN in *. lia.
  - assert (Forall (Forall (fun c => c <> newline)) ts /\ Forall (Forall (fun c => c <> nul)) ts) as [Hnl Hnul].
    { clear -Hn2 H02. split; [revert Hn2; clear H02|revert H02; clear Hn2]; induction ts as [|v ts IH]; cbn [map concat];
        intros H; try constructor; apply Forall_app in H as [H1 H2]; [by apply Forall_cons in H1 as [_ H1]|by apply IH|
          by apply Forall_cons in H1 as [_ H1]|by apply IH]. }
    pose proof (line_chars_parts c ts [newline] (arr KEY_LEN (List.filter not_space t)) (arr CFG_VALUE_LENGTH [])
      (arr KEY_LEN []) (length (List.filter not_space t)) false Hc Hne ltac:(apply length_arr; lia)
      ltac:(apply length_arr; cbn; lia) Hk Hnl Hts Hmid Hv) as H.
    rewrite Ck, take_ge in H by lia.
    assert (map (List.filter not_space) ts <> []) as Hne' by by destruct ts.
    pose proof (cut_value (fun v => length v < CFG_VALUE_LENGTH)%nat (List.filter not_space t) _ Hne'
      ltac:(by apply Forall_map)) as Hlv.
    pose proof (cut_value (Forall (fun c => c <> nul)) (List.filter not_space t) _ Hne'
      ltac:(apply Forall_map; eapply Forall_impl; [exact Hnul|]; intros; by apply filter_Forall)) as Hv0.
    destruct (cut _ _) as [k v]. cbn [snd] in Hlv, Hv0. destruct H as (ak & av & E & Ek & Hav & Tv).
    destruct (put av (length v) nul) as [a|] eqn:Ea; [|unfold put in Ea; by rewrite decide_True in Ea by lia].
    eexists _, a. change (replicate KEY_LEN nul) with (arr KEY_LEN []) in E. split; [rewrite E; cbn [line_chars]; by rewrite bool_decide_true by done|].
    cbn [cfg_parameter_value index cfg_key]. split; [exact Ea|]. split; [exact Ek|].
    rewrite (cstr_put _ _ _ Ea), take_cstr; [exact Tv|]. by rewrite Tv.
Qed.

Section ReaderLemmas.
Context (inet_pton4 inet_pton6 getaddrinfo_ok : text -> bool) (rte_strsplit : text -> Z * text).
Local Abbreviation read_line := (read_line inet_pton4 inet_pton6 getaddrinfo_ok rte_strsplit).
Local Abbreviation check_line := (check_line inet_pton4 inet_pton6 getaddrinfo_ok rte_strsplit).

Lemma read_line_fits l : line_fits l -> read_line (l ++ [newline]) = check_line l.
Proof.
  intros (Hc & _ & Hfit). destruct l as [|c l]; [done|].
  assert (Forall (fun c => c <> newline) (c :: l)) as Hn by (eapply Forall_impl; [exact Hc|]; tauto).
  assert (Forall (fun c => c <> nul) (c :: l)) as H0 by (eapply Forall_impl; [exact Hc|]; tauto).
  pose proof (Forall_inv Hn) as Hcn. unfold read_line, check_line, parse_line in *. cbn [nth app] in *.
  destruct (bool_decide (c = ";"%char)) eqn:E1; [done|].
  destruct (bool_decide (c = "#"%char)) eqn:E2; [done|]. cbn [orb] in *.
  rewrite (bool_decide_false (c = newline)) by done.
  destruct (decide (c = "["%char)) as [->|Hs].
  - rewrite (bool_decide_true ("["%char = _)) in * by done. cbn [negb].
    unfold line_init. change (replicate KEY_LEN nul) with (arr KEY_LEN []) at 2.
    change (mk_line ?k ?v ?s 0%nat ?f) with (mk_line k v s (length (@nil ascii)) f).
    pose proof (line_chars_section ("["%char :: l) [newline] [] (replicate KEY_LEN nul) (replicate CFG_VALUE_LENGTH nul) false Hn) as E.
    cbn [app] in E. rewrite E by lia. cbn [line_chars]. rewrite bool_decide_true by done.
    cbn [cfg_section_value index]. rewrite put_arr_nul by done. by rewrite cstr_arr.
  - rewrite (bool_decide_false (c = "["%char)) in * by done. cbn [negb].
    pose proof (line_chars_param c l Hs Hn H0) as Hp. cbn [app] in Hp.
    destruct (parts (c :: l)) as [k vs]. cbn [fst snd] in *.
    destruct (cut _ _) as [k' v]. destruct (Hp Hfit) as (s & a & E & Ea & Ek & Ev). by rewrite E, Ea, Ek, Ev.
Qed.

Lemma read_lines_fits fuel ls :
  Forall line_fits ls -> (length (join_lines ls) < fuel)%nat ->
  read_lines inet_pton4 inet_pton6 getaddrinfo_ok rte_strsplit fuel (join_lines ls)
  = Some (check_lines inet_pton4 inet_pton6 getaddrinfo_ok rte_strsplit ls).
Proof.
  intros Hls. revert fuel. induction Hls as [|l ls Hl _ IH]; intros [|fuel] Hf; try lia; [done|].
  unfold join_lines in *. cbn [map concat] in *. rewrite <- app_assoc in *. cbn [app] in *.
  pose proof Hl as (Hc & Hlen & _). rewrite length_app in Hf. cbn [length] in Hf.
  assert (fgets (BUFFER_SIZE - 1) (l ++ newline :: concat (map (fun l => l ++ [newline]) ls))
          = (l ++ [newline], concat (map (fun l => l ++ [newline]) ls))) as Eg.
  { apply fgets_line; [eapply Forall_impl; [exact Hc|]; by intros ? [? _]|]. unfold BUFFER_SIZE in *. lia. }
  cbn [read_lines]. destruct (l ++ newline :: _) as [|x y] eqn:E; [by destruct l|]. rewrite Eg.
  rewrite read_line_fits by done. cbn [check_lines]. destruct (check_line l); [done|].
  apply IH. lia.
Qed.
End ReaderLemmas.

(** Too many characters for a buffer. *)
Lemma put_arr_full n t c : length t = n -> put (arr n t) (length t) c = None.
Proof. intros <-. unfold put. rewrite length_arr by done. by rewrite decide_False by lia. Qed.

Lemma line_char_key_full first c k v s :
  first <> "["%char -> c <> equals -> c <> space -> length k = KEY_LEN ->
  line_char first c (mk_line (arr KEY_LEN k) v s (length k) false) = None.
Proof.
  intros Hf He Hs Hl. unfold line_char. rewrite (bool_decide_false (first = _)), (bool_decide_false (c = equals)) by done.
  cbn [key_value_filled negb andb index cfg_key]. rewrite bool_decide_false by done. cbn [negb].
  by rewrite put_arr_full.
Qed.

Lemma line_char_value_full first c k v s :
  first <> "["%char -> c <> equals -> c <> space -> length v = CFG_VALUE_LENGTH ->
  line_char first c (mk_line k (arr CFG_VALUE_LENGTH v) s (length v) true) = None.
Proof.
  intros Hf He Hs Hl. unfold line_char. rewrite (bool_decide_false (first = _)), (bool_decide_false (c = equals)) by done.
  cbn [key_value_filled negb andb index cfg_parameter_value]. rewrite bool_decide_false by done. cbn [negb].
  by rewrite put_arr_full.
Qed.

Lemma line_chars_key_full first k rest k0 v s :
  first <> "["%char -> Forall (fun c => c <> newline) k -> Forall (fun c => c <> equals) k ->
  (length k0 <= KEY_LEN)%nat -> (KEY_LEN < length (k0 ++ List.filter not_space k))%nat ->
  line_chars first (k ++ rest) (mk_line (arr KEY_LEN k0) v s (length k0) false) = None.
Proof.
  intros Hf Hn. revert k0. induction Hn as [|c k Hc _ IH]; intros k0 He Hk Hl; [rewrite app_nil_r in Hl; lia|].
  apply Forall_cons in He as [Hce He]. rewrite filter_space_cons, app_assoc in *.
  cbn [app line_chars]. rewrite bool_decide_false by done. destruct (decide (c = space)) as [->|Hs].
  - rewrite line_char_key; rewrite ?decide_True, ?app_nil_r in * by done; [|done..]. by apply IH.
  - destruct (decide (length k0 = KEY_LEN)) as [E|E]; [by rewrite line_char_key_full|].
    rewrite line_char_key; rewrite ?decide_False by done; [|done..|rewrite length_app; cbn [length]; lia].
    apply IH; [done| |done]. rewrite length_app. cbn [length]. lia.
Qed.

Lemma line_chars_value_full first v rest k v0 s :
  first <> "["%char -> Forall (fun c => c <> newline) v -> Forall (fun c => c <> equals) v ->
  (length v0 <= CFG_VALUE_LENGTH)%nat -> (CFG_VALUE_LENGTH < length (v0 ++ List.filter not_space v))%nat ->
  line_chars first (v ++ rest) (mk_line k (arr CFG_VALUE_LENGTH v0) s (length v0) true) = None.
Proof.
  intros Hf Hn. revert v0. induction Hn as [|c v Hc _ IH]; intros v0 He Hk Hl; [rewrite app_nil_r in Hl; lia|].
  apply Forall_cons in He as [Hce He]. rewrite filter_space_cons, app_assoc in *.
  cbn [app line_chars]. rewrite bool_decide_false by done. destruct (decide (c = space)) as [->|Hs].
  - rewrite line_char_value; rewrite ?decide_True, ?app_nil_r in * by done; [|done..]. by apply IH.
  - destruct (decide (length v0 = CFG_VALUE_LENGTH)) as [E|E]; [by rewrite line_char_value_full|].
    rewrite line_char_value; rewrite ?decide_False by done; [|done..|rewrite length_app; cbn [length]; lia].
    apply IH; [done| |done]. rewrite length_app. cbn [length]. lia.
Qed.

(** The standard form of a MAC address. *)
Lemma mac_loop_pair a b rest sep :
  isxdigit a = true -> isxdigit b = true -> 0 <= sep ->
  mac_loop (a :: b :: colon :: rest) (2 * sep) sep = mac_loop rest (2 * (sep + 1)) (sep + 1).
Proof.
  intros Ha Hb Hs. cbn [mac_loop]. rewrite Ha, Hb. assert (isxdigit colon = false) as -> by done.
  rewrite bool_decide_true by done. replace (2 * sep + 1 + 1) with (2 * (sep + 1)) by lia.
  rewrite (Z.mul_comm 2), Z.quot_mul by lia. replace (sep + 1 - 1 =? sep) with true by lia.
  cbn [negb]. replace ((sep + 1) * 2 =? 0) with false by lia. done.
Qed.

(** ** Theorems *)

(** C39. On a file whose lines fit the reader's buffers, the reader ends as the
    first bad line says, reading each line as a comment, a section name or a
    key and a value without their blanks; when no line is bad it reaches the end.  A line
    with a second [=] has what follows the last one as its value, and as its key the
    beginning of the key, as long as the shortest part between two [=]. *)
Theorem read_cfg_file_reads_lines inet_pton4 inet_pton6 getaddrinfo_ok rte_strsplit ls :
  Forall line_fits ls ->
  read_cfg_file inet_pton4 inet_pton6 getaddrinfo_ok rte_strsplit (Some (join_lines ls))
  = Some (check_lines inet_pton4 inet_pton6 getaddrinfo_ok rte_strsplit ls).
Proof. intros Hls. unfold read_cfg_file. apply read_lines_fits; [done|lia]. Qed.

(** The buffers are not checked: a parameter line whose key has 32
    characters or more before its [=], or whose value has 64 or more, blanks not
    counted, makes the reader write outside [cfg_key] or [cfg_parameter_value]. *)
Theorem read_cfg_file_overflows inet_pton4 inet_pton6 getaddrinfo_ok rte_strsplit c l k v rest :
  c :: l = k ++ equals :: v -> c <> ";"%char -> c <> "#"%char -> c <> "["%char ->
  Forall (fun c => c <> newline /\ c <> equals) k -> Forall (fun c => c <> newline /\ c <> equals) v ->
  (S (length (c :: l)) < BUFFER_SIZE)%nat ->
  (KEY_LEN <= length (List.filter not_space k))%nat \/ (CFG_VALUE_LENGTH <= length (List.filter not_space v))%nat ->
  read_cfg_file inet_pton4 inet_pton6 getaddrinfo_ok rte_strsplit (Some ((c :: l) ++ newline :: rest)) = Some OutOfBounds.
Proof.
  intros El H1 H2 H3 Hk Hv Hlen Hbig.
  assert (Forall (fun c => c <> newline) k /\ Forall (fun c => c <> equals) k) as [Hkn Hke]
    by (split; eapply Forall_impl; [exact Hk|by intros ? [? ?]|exact Hk|by intros ? [? ?]]).
  assert (Forall (fun c => c <> newline) v /\ Forall (fun c => c <> equals) v) as [Hvn Hve]
    by (split; eapply Forall_impl; [exact Hv|by intros ? [? ?]|exact Hv|by intros ? [? ?]]).
  assert (Forall (fun c => c <> newline) (c :: l)) as Hn.
  { rewrite El. apply Forall_app. split; [done|]. by constructor. }
  unfold read_cfg_file. cbn [app read_lines].
  change (c :: l ++ newline :: rest) with ((c :: l) ++ newline :: rest).
  rewrite fgets_line; [|done|unfold BUFFER_SIZE in *; lia].
  enough (read_line inet_pton4 inet_pton6 getaddrinfo_ok rte_strsplit ((c :: l) ++ [newline]) = Some OutOfBounds) as -> by done.
  unfold read_line. cbn [nth app]. rewrite !(bool_decide_false (c = _)) by (done || by apply (Forall_inv Hn)).
  cbn [orb negb]. change (c :: l ++ [newline]) with ((c :: l) ++ [newline]). rewrite El, <- app_assoc.
  cbn [app]. unfold line_init. change (replicate KEY_LEN nul) with (arr KEY_LEN []) at 1.
  change (replicate CFG_VALUE_LENGTH nul) with (arr CFG_VALUE_LENGTH []).
  change 0%nat with (length (@nil ascii)).
  destruct (decide (KEY_LEN < length (List.filter not_space k))%nat) as [Hkl|Hkl].
  { rewrite line_chars_key_full; [done|done..|cbn [length]; lia|done]. }
  rewrite line_chars_key; [|done..|cbn [app]; lia]. cbn [app line_chars].
  rewrite bool_decide_false by done. unfold line_char at 1.
  rewrite (bool_decide_false (c = _)), (bool_decide_true (equals = _)) by done. cbn [cfg_key index].
  destruct (decide (length (List.filter not_space k) = KEY_LEN)) as [E|E]; [by rewrite put_arr_full|].
  destruct Hbig as [Hbig|Hbig]; [lia|]. rewrite put_arr_nul by lia. cbn [mbind option_bind cfg_parameter_value cfg_section_value].
  change 0%nat with (length (@nil ascii)).
  destruct (decide (CFG_VALUE_LENGTH < length (List.filter not_space v))%nat) as [Hvl|Hvl].
  { rewrite line_chars_value_full; [done|done..|cbn [length]; lia|done]. }
  rewrite line_chars_value; [|done..|cbn [app]; lia]. cbn [app line_chars]. rewrite bool_decide_true by done.
  cbn [cfg_parameter_value index]. rewrite put_arr_full by lia. done.
Qed.

(** The checks accept more than their names say: no digit at all as an integer,
    a MAC address with irregular groups, and one with a character that is not a
    hexadecimal digit. *)
Example is_valid_integer_empty : is_valid_integer (lit "NUMA") [] = Some 0.
Proof. reflexivity. Qed.

Example is_valid_mac_irregular : is_valid_mac (lit "WB_MAC") (lit "012:3:45:67:89:ab") = Some 0.
Proof. vm_compute. reflexivity. Qed.

Example is_valid_mac_other_character : is_valid_mac (lit "WB_MAC") (lit "z1:2:34:56:78:9a:bc") = Some 0.
Proof. vm_compute. reflexivity. Qed.

Lemma is_valid_mac_standard key a0 b0 a1 b1 a2 b2 a3 b3 a4 b4 a5 b5 :
  Forall (fun c => isxdigit c = true) [a0; b0; a1; b1; a2; b2; a3; b3; a4; b4; a5; b5] ->
  is_valid_mac key [a0; b0; colon; a1; b1; colon; a2; b2; colon; a3; b3; colon; a4; b4; colon; a5; b5] = Some 0.
Proof.
  intros H. repeat (apply Forall_cons in H as [? H]). unfold is_valid_mac.
  rewrite (mac_loop_pair a0 b0 _ 0) by (done || lia). rewrite (mac_loop_pair a1 b1 _ (0 + 1)) by (done || lia).
  rewrite (mac_loop_pair a2 b2 _ (0 + 1 + 1)) by (done || lia). rewrite (mac_loop_pair a3 b3 _ (0 + 1 + 1 + 1)) by (done || lia).
  rewrite (mac_loop_pair a4 b4 _ (0 + 1 + 1 + 1 + 1)) by (done || lia).
  cbn [mac_loop]. by repeat match goal with H : isxdigit _ = true |- _ => rewrite H; clear H end.
Qed.

(** A value with a [=] in it spoils the key. *)
Example second_equals_cuts_key :
  read_cfg_file (fun _ => true) (fun _ => true) (fun _ => true) (fun v => (1, v)) (Some (join_lines [lit "filename=a=b"]))
  = Some (InvalidKey (lit "f")).
Proof. vm_compute. reflexivity. Qed.

(** Concrete checks of addresses for the witnesses, and a file. *)
Lemma read_cfg_file_reads_lines_witness :
  read_cfg_file (fun v => bool_decide (v = lit "10.0.0.1")) (fun _ => false) (fun _ => false) (fun v => (1, v))
    (Some (join_lines [lit "[GLOBAL]"; lit "; a comment"; lit "S11_IP = 10.0.0.1"; lit "NUMA = 1"; lit "name=a.b=c"; lit "what=1"]))
  = Some (InvalidKey (lit "nam")).
Proof.
  transitivity (Some (check_lines (fun v => bool_decide (v = lit "10.0.0.1")) (fun _ => false) (fun _ => false) (fun v => (1, v))
    [lit "[GLOBAL]"; lit "; a comment"; lit "S11_IP = 10.0.0.1"; lit "NUMA = 1"; lit "name=a.b=c"; lit "what=1"])).
  - apply read_cfg_file_reads_lines. unfold line_fits.
    repeat (apply Forall_cons; split; [split; [repeat (apply Forall_cons; split; [split; discriminate|]); constructor|
      split; [vm_compute; lia|vm_compute; first [exact I|lia|split;
        (repeat (apply Forall_cons; split; [vm_compute; lia|]); constructor)]]]|]).
    constructor.
  - vm_compute. reflexivity.
Defined.

Lemma read_cfg_file_overflows_witness :
  read_cfg_file (fun _ => true) (fun _ => true) (fun _ => true) (fun v => (1, v))
    (Some ((lit "k" ++ replicate 40 "k"%char ++ lit "=1") ++ newline :: [])) = Some OutOfBounds.
Proof.
  apply (read_cfg_file_overflows (fun _ => true) (fun _ => true) (fun _ => true) (fun v => (1, v))
    "k"%char (replicate 40 "k"%char ++ lit "=1") (replicate 41 "k"%char) (lit "1") []).
  - reflexivity.
  - discriminate.
  - discriminate.
  - discriminate.
  - vm_compute. repeat (apply Forall_cons; split; [split; discriminate|]). constructor.
  - vm_compute. repeat (apply Forall_cons; split; [split; discriminate|]). constructor.
  - vm_compute. lia.
  - left. vm_compute. lia.
Defined.
