(* ===== verification/Teid.v ===== *)
(** * TEID allocation in the control plane (cp_dp_api/teid.c)

    The file: the list of per-user-plane [teid_info]
    records, the static mask [CLEAR_BYTE] and the three static GTP-C offsets are
    the fields of [state]; every function of the file is one definition.  A
    pointer into the list is the position of the record. *)

From S2P Require Import Prelude NodeAddr.

Definition DEFAULT_SGW_BASE_TEID : Z := 0xC0FFEE.
Definition DEFAULT_SGW_S5S8_BASE_TEID : Z := 0xE0FFEE.
Definition DEFAULT_PGW_BASE_TEID : Z := 0xD0FFEE.
Definition SHIFT_BITS : Z := 24.
Definition MAX_RI_BITS : Z := 8.
Definition DEFAULT_TEID_RANGE : Z := 0.
Definition DEFAULT_INITIAL_TEID : Z := 1.
Definition MAX_TEID_OFFSET : Z := 0xFFFFFFFF.
Definition CP_TYPE_SGWC : Z := 1.
Definition CP_TYPE_PGWC : Z := 2.
Definition CP_TYPE_SAEGWC : Z := 3.

Record teid_info := mk_teid_info {
  dp_ip : node_address_t;
  teid_range : Z;
  up_gtpu_base_teid : Z;
  up_gtpu_teid_offset : Z;
  up_gtpu_teid : Z;
  up_gtpu_max_teid_offset : Z
}.

(** The static variables of the file and the list whose head the callers own. *)
Record state := mk_state {
  upf_teid_info_head : list teid_info;
  CLEAR_BYTE : Z;
  s11_sgw_gtpc_teid_offset : Z;
  s5s8_sgw_gtpc_teid_offset : Z;
  s5s8_pgw_gtpc_teid_offset : Z
}.

Definition initial_state : state := mk_state [] 0xffffffff 0 0 0.

Definition with_head (l : list teid_info) (s : state) : state :=
  mk_state l (CLEAR_BYTE s) (s11_sgw_gtpc_teid_offset s)
    (s5s8_sgw_gtpc_teid_offset s) (s5s8_pgw_gtpc_teid_offset s).

Definition with_clear_byte (c : Z) (s : state) : state :=
  mk_state (upf_teid_info_head s) c (s11_sgw_gtpc_teid_offset s)
    (s5s8_sgw_gtpc_teid_offset s) (s5s8_pgw_gtpc_teid_offset s).

(** [get_teid_info]: the position of the first record for [upf_ip]. *)
Fixpoint get_teid_info (head : list teid_info) (upf_ip : node_address_t) : option nat :=
  match head with
  | [] => None
  | temp :: next =>
      if node_addr_match upf_ip (dp_ip temp) then Some 0%nat
      else S <$> get_teid_info next upf_ip
  end.

(** [init_teid_info] on freshly allocated memory [m]: [ip_type] is not set. *)
Definition init_teid_info (m : teid_info) : teid_info :=
  mk_teid_info (mk_node_address (ip_type (dp_ip m)) 0 ipv6_zero)
    DEFAULT_TEID_RANGE DEFAULT_INITIAL_TEID 0 DEFAULT_INITIAL_TEID MAX_TEID_OFFSET.

Definition add_teid_info (head : list teid_info) (newNode : teid_info) : list teid_info :=
  match head with
  | [] => [newNode]
  | _ => head ++ [newNode]
  end.

(** The loop of [delete_entry_from_teid_list]: [before] are the records up to
    [prev]; [prev->next = temp->next] links them to what follows [temp]. *)
Fixpoint delete_walk (upf_ip : node_address_t) (before temp : list teid_info) : list teid_info :=
  match temp with
  | [] => before
  | t :: next =>
      if node_addr_match upf_ip (dp_ip t) then before ++ next
      else delete_walk upf_ip (before ++ [t]) next
  end.

Definition delete_entry_from_teid_list (upf_ip : node_address_t) (head : list teid_info)
  : list teid_info :=
  match head with
  | [] => []
  | t :: next =>
      if node_addr_match upf_ip (dp_ip t) then next else delete_walk upf_ip [] head
  end.

Definition with_dp_ip (a : node_address_t) (t : teid_info) : teid_info :=
  mk_teid_info a (teid_range t) (up_gtpu_base_teid t) (up_gtpu_teid_offset t)
    (up_gtpu_teid t) (up_gtpu_max_teid_offset t).

(** The second half of [set_base_teid], on the record found or created.  The
    mask [clear_byte] is the static variable after its shift. *)
Definition set_range (ri_val val clear_byte : Z) (t : teid_info) : teid_info :=
  let range := u8 (Z.shiftl val (MAX_RI_BITS - ri_val)) in
  let base := range <<[32] SHIFT_BITS in
  let base := if bool_decide (range = 0) then base +[32] 1 else base in
  mk_teid_info (dp_ip t) range base (up_gtpu_teid_offset t) (up_gtpu_teid t) clear_byte.

(** [set_base_teid]: [mem] is what [malloc] returns ([None] for [NULL], else the
    previous contents of the block).  Result [0] or [-1]. *)
Definition set_base_teid (mem : option teid_info) (ri_val val : Z) (upf_ip : node_address_t)
    (s : state) : Z * state :=
  let found :=
    match get_teid_info (upf_teid_info_head s) upf_ip with
    | Some i => Some (i, upf_teid_info_head s)
    | None =>
        match mem with
        | None => None
        | Some m =>
            let t := init_teid_info m in
            let t := with_dp_ip (copy_node_addr (dp_ip t) upf_ip) t in
            Some (length (upf_teid_info_head s), add_teid_info (upf_teid_info_head s) t)
        end
    end in
  match found with
  | None => (-1, s)
  | Some (i, l) =>
      if bool_decide (ri_val = 0) then (0, with_head l s)
      else
        let c := Z.shiftr (CLEAR_BYTE s) ri_val in
        (0, with_clear_byte c (with_head (alter (set_range ri_val val c) i l) s))
  end.

(** The increment shared by the three GTP-U functions. *)
Definition next_gtpu (t : teid_info) : teid_info :=
  mk_teid_info (dp_ip t) (teid_range t) (up_gtpu_base_teid t)
    (if bool_decide (up_gtpu_max_teid_offset t <= up_gtpu_teid_offset t) then 0
     else up_gtpu_teid_offset t +[32] 1)
    (up_gtpu_base_teid t +[32] up_gtpu_teid_offset t)
    (up_gtpu_max_teid_offset t).

(** [(up_gtpu_teid & CLEAR_BYTE) | (teid_range << SHIFT_BITS)] *)
Definition gtpu_teid_of (clear_byte : Z) (t : teid_info) : Z :=
  Z.lor (Z.land (up_gtpu_teid t) clear_byte) (teid_range t <<[32] SHIFT_BITS).

Definition gtpu_teid (bump : bool) (upf_ip : node_address_t) (s : state) : Z * state :=
  match get_teid_info (upf_teid_info_head s) upf_ip with
  | None => (0, s)
  | Some i =>
      let l := if bump then alter next_gtpu i (upf_teid_info_head s)
               else upf_teid_info_head s in
      (from_option (gtpu_teid_of (CLEAR_BYTE s)) 0 (l !! i), with_head l s)
  end.

Definition is_sgw_or_saegw (cp_type : Z) : bool :=
  bool_decide (cp_type = CP_TYPE_SGWC) || bool_decide (cp_type = CP_TYPE_SAEGWC).

Definition get_s1u_sgw_gtpu_teid (upf_ip : node_address_t) (cp_type : Z) (s : state) :=
  gtpu_teid (is_sgw_or_saegw cp_type) upf_ip s.

Definition get_s5s8_sgw_gtpu_teid (upf_ip : node_address_t) (cp_type : Z) (s : state) :=
  gtpu_teid (is_sgw_or_saegw cp_type) upf_ip s.

Definition get_s5s8_pgw_gtpu_teid (upf_ip : node_address_t) (cp_type : Z) (s : state) :=
  gtpu_teid (bool_decide (cp_type = CP_TYPE_PGWC)) upf_ip s.

Definition get_s5s8_sgw_gtpc_teid (s : state) : Z * state :=
  (DEFAULT_SGW_S5S8_BASE_TEID +[32] s5s8_sgw_gtpc_teid_offset s,
   mk_state (upf_teid_info_head s) (CLEAR_BYTE s) (s11_sgw_gtpc_teid_offset s)
     (s5s8_sgw_gtpc_teid_offset s +[32] 1) (s5s8_pgw_gtpc_teid_offset s)).

Definition get_s5s8_pgw_gtpc_teid (s : state) : Z * state :=
  (DEFAULT_PGW_BASE_TEID +[32] s5s8_pgw_gtpc_teid_offset s,
   mk_state (upf_teid_info_head s) (CLEAR_BYTE s) (s11_sgw_gtpc_teid_offset s)
     (s5s8_sgw_gtpc_teid_offset s) (s5s8_pgw_gtpc_teid_offset s +[32] 1)).

Definition get_s11_sgw_gtpc_teid (check_if_ue_hash_exist cp_type old_s11_sgw_gtpc_teid : Z)
    (s : state) : Z * state :=
  if bool_decide (check_if_ue_hash_exist = 0) then
    if is_sgw_or_saegw cp_type then
      (DEFAULT_SGW_BASE_TEID +[32] s11_sgw_gtpc_teid_offset s,
       mk_state (upf_teid_info_head s) (CLEAR_BYTE s) (s11_sgw_gtpc_teid_offset s +[32] 1)
         (s5s8_sgw_gtpc_teid_offset s) (s5s8_pgw_gtpc_teid_offset s))
    else if bool_decide (cp_type = CP_TYPE_PGWC) then get_s5s8_pgw_gtpc_teid s
    else (old_s11_sgw_gtpc_teid, s)
  else (old_s11_sgw_gtpc_teid, s).

(** [teids n ip cp s]: the results of [n] successive calls of
    [get_s1u_sgw_gtpu_teid], and the state they leave. *)
Fixpoint teids (n : nat) (upf_ip : node_address_t) (cp_type : Z) (s : state) : list Z * state :=
  match n with
  | O => ([], s)
  | S n =>
      let '(t, s) := get_s1u_sgw_gtpu_teid upf_ip cp_type s in
      let '(ts, s) := teids n upf_ip cp_type s in (t :: ts, s)
  end.

(** The TEIDs of the three static counters, [n] in a row. *)
Fixpoint gtpc_teids (n : nat) (s : state) : list Z * state :=
  match n with
  | O => ([], s)
  | S n =>
      let '(t, s) := get_s5s8_pgw_gtpc_teid s in
      let '(ts, s) := gtpc_teids n s in (t :: ts, s)
  end.

(** ** Lemmas *)

(** *** The list operations *)

Lemma get_teid_info_Some l ip i :
  get_teid_info l ip = Some i ->
  exists t, l !! i = Some t /\ node_addr_match ip (dp_ip t) = true.
Proof.
  revert i; induction l as [|t l IH]; intros i; simpl; [done|].
  destruct (node_addr_match ip (dp_ip t)) eqn:E.
  - intros [= <-]. eauto.
  - destruct (get_teid_info l ip); simpl; intros [= <-]. by apply IH.
Qed.

Lemma get_teid_info_alter f l ip i :
  (forall t, dp_ip (f t) = dp_ip t) ->
  get_teid_info (alter f i l) ip = get_teid_info l ip.
Proof.
  intros Hf. revert i; induction l as [|t l IH]; intros [|i]; try done; simpl;
    rewrite ?Hf; try done.
  destruct (node_addr_match ip (dp_ip t)); [done|]. f_equal. apply IH.
Qed.

Lemma get_teid_info_app l t ip :
  get_teid_info l ip = None -> node_addr_match ip (dp_ip t) = true ->
  get_teid_info (l ++ [t]) ip = Some (length l).
Proof.
  intros H Ht; induction l as [|t' l IH]; simpl in *; [by rewrite Ht|].
  destruct (node_addr_match ip (dp_ip t')); [done|].
  destruct (get_teid_info l ip); [done|]. by rewrite IH.
Qed.

Lemma add_teid_info_app l t : add_teid_info l t = l ++ [t].
Proof. by destruct l. Qed.

Lemma delete_walk_spec ip before l :
  delete_walk ip before l = before ++
    match get_teid_info l ip with Some i => delete i l | None => l end.
Proof.
  revert before; induction l as [|t l IH]; intros before; simpl; [by rewrite app_nil_r|].
  destruct (node_addr_match ip (dp_ip t)); [done|].
  rewrite IH, <- app_assoc. destruct (get_teid_info l ip); done.
Qed.

Lemma delete_entry_spec ip l :
  delete_entry_from_teid_list ip l =
    match get_teid_info l ip with Some i => delete i l | None => l end.
Proof.
  destruct l as [|t l]; [done|]. unfold delete_entry_from_teid_list.
  rewrite delete_walk_spec. simpl. by destruct (node_addr_match ip (dp_ip t)).
Qed.

(** *** One range of TEIDs *)

Section Pool.
Context (ri val : Z) (Hri : 1 <= ri <= 8) (Hval : 0 <= val < 2 ^ ri).

(** The first offset value of the range: TEID 0 is skipped on the first round. *)
Definition first_index : Z := if bool_decide (val = 0) then 1 else 0.

(** A record as [set_base_teid] leaves it, at any later offset. *)
Record pool_ready (mx : Z) (t : teid_info) : Prop := {
  pool_range : teid_range t = val * 2 ^ (8 - ri);
  pool_base : up_gtpu_base_teid t = val * 2 ^ (32 - ri) + first_index;
  pool_max : up_gtpu_max_teid_offset t = mx;
  pool_offset : 0 <= up_gtpu_teid_offset t <= mx
}.

Lemma range_value : u8 (Z.shiftl val (MAX_RI_BITS - ri)) = val * 2 ^ (8 - ri).
Proof.
  unfold MAX_RI_BITS. rewrite Z.shiftl_mul_pow2 by lia. apply wrap_small.
  replace (2 ^ 8) with (2 ^ ri * 2 ^ (8 - ri)) by (rewrite <- Z.pow_add_r by lia; f_equal; lia).
  nia.
Qed.

Lemma range_shifted :
  (val * 2 ^ (8 - ri)) <<[32] SHIFT_BITS = val * 2 ^ (32 - ri).
Proof.
  unfold SHIFT_BITS. rewrite Z.shiftl_mul_pow2, <- Z.mul_assoc, <- Z.pow_add_r by lia.
  replace (8 - ri + 24) with (32 - ri) by lia. apply wrap_small.
  replace (2 ^ 32) with (2 ^ ri * 2 ^ (32 - ri)) by (rewrite <- Z.pow_add_r by lia; f_equal; lia).
  nia.
Qed.

Lemma pool_total : 2 ^ 32 = 2 ^ ri * 2 ^ (32 - ri).
Proof. rewrite <- Z.pow_add_r by lia. f_equal. lia. Qed.

Lemma set_range_ready c t :
  0 <= c -> up_gtpu_teid_offset t = 0 -> pool_ready c (set_range ri val c t).
Proof.
  intros Hc Ht. unfold set_range. rewrite range_value, range_shifted.
  split; simpl; rewrite ?Ht; try lia. unfold first_index.
  assert (0 < 2 ^ (8 - ri)) by (apply Z.pow_pos_nonneg; lia).
  repeat case_bool_decide; subst; try nia; try lia.
  rewrite Z.mul_0_l. by apply wrap_small.
Qed.

(** One call, with the mask [2^c - 1] for any [c] up to the size of the range. *)
Lemma next_gtpu_teid c mx t :
  0 <= c <= 32 - ri -> pool_ready mx t ->
  gtpu_teid_of (2 ^ c - 1) (next_gtpu t)
  = val * 2 ^ (32 - ri) + (first_index + up_gtpu_teid_offset t) mod 2 ^ c.
Proof.
  intros Hc [Hr Hb Hm Ho]. unfold gtpu_teid_of, next_gtpu; simpl.
  rewrite Hr, range_shifted, Hb, land_mask by lia.
  assert (0 < 2 ^ c) by (apply Z.pow_pos_nonneg; lia).
  set (x := first_index + up_gtpu_teid_offset t).
  replace (u32 (val * 2 ^ (32 - ri) + first_index + up_gtpu_teid_offset t) mod 2 ^ c)
    with (x mod 2 ^ c).
  - rewrite lor_disjoint; [lia|lia|].
    pose proof (Z.mod_pos_bound x (2 ^ c) ltac:(lia)).
    pose proof (Z.pow_le_mono_r 2 c (32 - ri)). lia.
  - unfold wrap. rewrite <- Z.add_assoc. fold x.
    replace (2 ^ 32) with (2 ^ c * 2 ^ (32 - c)) by (rewrite <- Z.pow_add_r by lia; f_equal; lia).
    replace (2 ^ (32 - ri)) with (2 ^ (32 - ri - c) * 2 ^ c)
      by (rewrite <- Z.pow_add_r by lia; f_equal; lia).
    rewrite Z.rem_mul_r by lia.
    rewrite (Z.mul_comm (2 ^ c) (_ mod _)), Z.mod_add by lia. rewrite Z.mod_mod by lia.
    rewrite Z.mul_assoc, Z.add_comm, Z.mod_add by lia. done.
Qed.

Lemma next_gtpu_ready mx t :
  mx < 2 ^ 32 -> pool_ready mx t ->
  pool_ready mx (next_gtpu t) /\
  up_gtpu_teid_offset (next_gtpu t) = (up_gtpu_teid_offset t + 1) mod (mx + 1).
Proof.
  intros Hmx [Hr Hb Hm Ho].
  assert (up_gtpu_teid_offset (next_gtpu t) = (up_gtpu_teid_offset t + 1) mod (mx + 1)) as E.
  { unfold next_gtpu; simpl. rewrite Hm. case_bool_decide.
    - replace (up_gtpu_teid_offset t) with mx by lia. by rewrite Z.mod_same by lia.
    - rewrite Z.mod_small by lia. apply wrap_small. lia. }
  split; [split|]; try done; simpl; try done.
  pose proof (Z.mod_pos_bound (up_gtpu_teid_offset t + 1) (mx + 1)).
  simpl in E. rewrite E. lia.
Qed.
End Pool.

#[local] Arguments next_gtpu : simpl never.
#[local] Arguments gtpu_teid : simpl never.

(** *** The allocator state *)

(** The record the lookups find for [ip]. *)
Definition pool_of (s : state) (ip : node_address_t) : option teid_info :=
  i ← get_teid_info (upf_teid_info_head s) ip; upf_teid_info_head s !! i.

Lemma gtpu_teid_pool (bump : bool) ip s t :
  pool_of s ip = Some t ->
  let t' := if bump then next_gtpu t else t in
  (gtpu_teid bump ip s).1 = gtpu_teid_of (CLEAR_BYTE s) t' /\
  pool_of (gtpu_teid bump ip s).2 ip = Some t' /\
  CLEAR_BYTE (gtpu_teid bump ip s).2 = CLEAR_BYTE s.
Proof.
  unfold pool_of, gtpu_teid. intros H.
  destruct (get_teid_info _ ip) as [i|] eqn:E; simpl in *; [|done].
  destruct bump; simpl; rewrite ?get_teid_info_alter by done; rewrite E; simpl;
    rewrite ?list_lookup_alter_eq, H; done.
Qed.

(** The mask and the counters are what every lookup of another address keeps. *)
Lemma gtpu_teid_other (bump : bool) ip ip' s :
  get_teid_info (upf_teid_info_head s) ip <> get_teid_info (upf_teid_info_head s) ip' ->
  pool_of (gtpu_teid bump ip s).2 ip' = pool_of s ip'.
Proof.
  unfold pool_of, gtpu_teid. intros H.
  destruct (get_teid_info _ ip) as [i|] eqn:E, bump; simpl; try done.
  rewrite get_teid_info_alter by done.
  destruct (get_teid_info _ ip') as [j|] eqn:E'; simpl; [|done].
  apply list_lookup_alter_ne. congruence.
Qed.

Lemma length_teids n ip cp s : length (teids n ip cp s).1 = n.
Proof.
  revert s; induction n as [|n IH]; intros s; simpl; [done|].
  destruct (get_s1u_sgw_gtpu_teid ip cp s) as [t s']. specialize (IH s').
  destruct (teids n ip cp s'). simpl in *. by rewrite IH.
Qed.

(** The [k]-th of a run of calls, for a mask [2^c - 1] and a bound [2^c - 1]. *)
Lemma teids_lookup ri val c cp ip n s t k :
  1 <= ri <= 8 -> 0 <= val < 2 ^ ri -> 0 <= c <= 32 - ri ->
  is_sgw_or_saegw cp = true ->
  CLEAR_BYTE s = 2 ^ c - 1 -> pool_of s ip = Some t ->
  forall mx, (2 ^ c | mx + 1) -> mx < 2 ^ 32 -> pool_ready ri val mx t ->
  (k < n)%nat ->
  (teids n ip cp s).1 !! k
  = Some (val * 2 ^ (32 - ri)
          + (first_index val + up_gtpu_teid_offset t + Z.of_nat k) mod 2 ^ c).
Proof.
  intros Hri Hval Hc Hcp. revert s t k; induction n as [|n IH];
    intros s t k Hcb Hp mx Hdiv Hmx Hready Hk; [lia|].
  simpl. unfold get_s1u_sgw_gtpu_teid at 1. rewrite Hcp.
  destruct (gtpu_teid_pool true ip s t Hp) as (H1 & H2 & H3).
  edestruct (next_gtpu_ready ri val) as [Hr' Ho']; [eassumption..|].
  destruct (gtpu_teid true ip s) as [x s'] eqn:Hg; simpl in H1, H2, H3.
  destruct (teids n ip cp s') as [xs s''] eqn:Hts; simpl.
  destruct k as [|k]; simpl.
  - rewrite H1, Hcb, (next_gtpu_teid ri val Hri Hval c mx) by done.
    do 3 f_equal. lia.
  - specialize (IH s' (next_gtpu t) k ltac:(congruence) H2 mx Hdiv Hmx Hr' ltac:(lia)).
    rewrite Hts in IH. cbn [fst] in IH. rewrite IH, Ho'. do 2 f_equal.
    destruct Hdiv as [q Hq]. assert (0 < 2 ^ c) by (apply Z.pow_pos_nonneg; lia).
    destruct Hready as [_ _ _ Hoff].
    assert (0 < q) by nia.
    set (o := up_gtpu_teid_offset t) in *.
    replace (first_index val + (o + 1) mod (mx + 1) + Z.of_nat k)
      with ((first_index val + Z.of_nat k) + (o + 1) mod (mx + 1)) by lia.
    rewrite <- Zplus_mod_idemp_r. rewrite Hq, (Z.mul_comm q).
    rewrite Z.rem_mul_r by lia. rewrite (Z.mul_comm (2 ^ c) (_ mod q)), Z.mod_add by lia.
    rewrite Z.mod_mod, Zplus_mod_idemp_r by lia. f_equal. lia.
Qed.

Lemma clear_byte_initial : CLEAR_BYTE initial_state = 2 ^ 32 - 1.
Proof. done. Qed.

(** A first association for [ip] on a mask of [c] bits. *)
Lemma set_base_teid_fresh m ri val ip s c :
  1 <= ri <= 8 -> 0 <= val < 2 ^ ri -> ri <= c <= 32 ->
  node_addr_ok ip -> get_teid_info (upf_teid_info_head s) ip = None ->
  CLEAR_BYTE s = 2 ^ c - 1 ->
  exists t, (set_base_teid (Some m) ri val ip s).1 = 0 /\
    CLEAR_BYTE (set_base_teid (Some m) ri val ip s).2 = 2 ^ (c - ri) - 1 /\
    upf_teid_info_head (set_base_teid (Some m) ri val ip s).2 = upf_teid_info_head s ++ [t] /\
    node_addr_match ip (dp_ip t) = true /\
    pool_ready ri val (2 ^ (c - ri) - 1) t /\ up_gtpu_teid_offset t = 0.
Proof.
  intros Hri Hval Hc Hip Hnone Hcb. unfold set_base_teid. rewrite Hnone.
  rewrite bool_decide_false by lia. rewrite Hcb, shiftr_mask by lia.
  rewrite add_teid_info_app. cbn [fst snd].
  eexists. split; [done|]. split; [done|]. cbn.
  rewrite alter_app_r_alt, Nat.sub_diag by lia. split; [done|].
  split; [|split].
  - rewrite copy_node_addr_fresh by done. auto.
  - apply set_range_ready; try done. pose proof (Z.pow_pos_nonneg 2 (c - ri)). lia.
  - done.
Qed.

Lemma pool_of_app s s' ip t :
  get_teid_info (upf_teid_info_head s) ip = None ->
  upf_teid_info_head s' = upf_teid_info_head s ++ [t] ->
  node_addr_match ip (dp_ip t) = true -> pool_of s' ip = Some t.
Proof.
  intros Hn Hl Ht. unfold pool_of. rewrite Hl, (get_teid_info_app _ _ _ Hn Ht). simpl.
  by rewrite list_lookup_middle.
Qed.

(** [s] is the allocator after one association with the user plane [ip]. *)
Definition associated (m : teid_info) (ri val : Z) (ip : node_address_t) : state :=
  (set_base_teid (Some m) ri val ip initial_state).2.

Lemma teids_after_association m ri val ip cp n k :
  1 <= ri <= 8 -> 0 <= val < 2 ^ ri -> node_addr_ok ip -> is_sgw_or_saegw cp = true ->
  (k < n)%nat ->
  (teids n ip cp (associated m ri val ip)).1 !! k
  = Some (val * 2 ^ (32 - ri) + (first_index val + Z.of_nat k) mod 2 ^ (32 - ri)).
Proof.
  intros Hri Hval Hip Hcp Hk.
  destruct (set_base_teid_fresh m ri val ip initial_state 32) as (t & _ & H2 & H3 & H4 & H5 & H6);
    try done; [lia|].
  rewrite (teids_lookup ri val (32 - ri) cp ip n _ t k) with (mx := 2 ^ (32 - ri) - 1); try done.
  - rewrite H6. do 3 f_equal. lia.
  - lia.
  - by apply (pool_of_app initial_state _ _ _ eq_refl H3).
  - exists 1. lia.
  - pose proof (Z.pow_le_mono_r 2 (32 - ri) 32). lia.
Qed.

Lemma NoDup_lookup_fun (l : list Z) (f : nat -> Z) :
  (forall k, (k < length l)%nat -> l !! k = Some (f k)) ->
  (forall j k, (j < k < length l)%nat -> f j <> f k) -> NoDup l.
Proof.
  intros Hl Hf. apply NoDup_alt. intros i j x Hi Hj.
  pose proof (lookup_lt_Some _ _ _ Hi). pose proof (lookup_lt_Some _ _ _ Hj).
  rewrite Hl in Hi, Hj by done.
  destruct (Nat.lt_trichotomy i j) as [Hlt|[->|Hlt]]; [|done|].
  - destruct (Hf i j); [lia|congruence].
  - destruct (Hf j i); [lia|congruence].
Qed.

Lemma mod_shift_neq a j k n :
  0 < n -> 0 <= j < k -> k < n -> (a + j) mod n <> (a + k) mod n.
Proof.
  intros Hn Hjk Hk E. assert ((k - j) mod n = 0) as E0.
  { replace (k - j) with ((a + k) - (a + j)) by lia. rewrite Zminus_mod, E, Z.sub_diag.
    by apply Z.mod_0_l; lia. }
  rewrite Z.mod_small in E0 by lia. lia.
Qed.

(** ** Properties *)

(** C31. After the first user plane of a control plane that has just started has been
    associated with TEIDRI [ri] and range [val], and before a second one is, the [n] TEIDs
    of as many calls of [get_s1u_sgw_gtpu_teid] carry [val] in their [ri] most significant
    bits, and no two of them are equal as long as [n] does not exceed the [2^(32-ri)]
    values of the range.  With a second user plane they can repeat
    ([second_association_repeats_teids]). *)
Theorem teids_in_range_and_distinct m ri val ip cp n :
  1 <= ri <= 8 -> 0 <= val < 2 ^ ri -> node_addr_ok ip -> is_sgw_or_saegw cp = true ->
  Z.of_nat n <= 2 ^ (32 - ri) ->
  let ts := (teids n ip cp (associated m ri val ip)).1 in
  length ts = n /\ NoDup ts /\ Forall (fun t => 0 <= t < 2 ^ 32 /\ t / 2 ^ (32 - ri) = val) ts.
Proof.
  intros Hri Hval Hip Hcp Hn ts. unfold ts.
  assert (0 < 2 ^ (32 - ri)) as Hpos by (apply Z.pow_pos_nonneg; lia).
  split; [apply length_teids|]. split.
  - eapply (NoDup_lookup_fun _ (fun k => val * 2 ^ (32 - ri)
      + (first_index val + Z.of_nat k) mod 2 ^ (32 - ri))).
    + intros k. rewrite length_teids. by apply teids_after_association.
    + intros j k. rewrite length_teids. intros Hjk E.
      apply (mod_shift_neq (first_index val) (Z.of_nat j) (Z.of_nat k) (2 ^ (32 - ri))); lia.
  - apply Forall_lookup. intros k x Hk.
    pose proof (lookup_lt_Some _ _ _ Hk) as Hlt. rewrite length_teids in Hlt.
    rewrite teids_after_association in Hk by done. injection Hk as <-.
    pose proof (Z.mod_pos_bound (first_index val + Z.of_nat k) (2 ^ (32 - ri)) Hpos).
    rewrite Z.div_add_l, Z.div_small by lia. pose proof (pool_total ri Hri). nia.
Qed.

(** Two control planes that hold different ranges of one user plane never
    produce the same TEID, however many each allocates. *)
Theorem teids_disjoint_between_control_planes m m' ri v v' ip ip' cp cp' n n' t :
  1 <= ri <= 8 -> 0 <= v < 2 ^ ri -> 0 <= v' < 2 ^ ri -> v <> v' ->
  node_addr_ok ip -> node_addr_ok ip' ->
  is_sgw_or_saegw cp = true -> is_sgw_or_saegw cp' = true ->
  t ∈ (teids n ip cp (associated m ri v ip)).1 ->
  t ∉ (teids n' ip' cp' (associated m' ri v' ip')).1.
Proof.
  intros Hri Hv Hv' Hne Hip Hip' Hcp Hcp' [k Hk]%list_elem_of_lookup [j Hj]%list_elem_of_lookup.
  assert (0 < 2 ^ (32 - ri)) as Hpos by (apply Z.pow_pos_nonneg; lia).
  pose proof (lookup_lt_Some _ _ _ Hk) as Hlt. pose proof (lookup_lt_Some _ _ _ Hj) as Hlt'.
  rewrite length_teids in Hlt, Hlt'.
  rewrite teids_after_association in Hk, Hj by done. injection Hk as <-. injection Hj as E.
  apply (f_equal (fun x => x / 2 ^ (32 - ri))) in E.
  rewrite !Z.div_add_l, !Z.div_small in E by (try apply Z.mod_pos_bound; lia). lia.
Qed.

Definition associate_all (ri : Z) (l : list (teid_info * Z * node_address_t)) (s : state) : state :=
  fold_left (fun s a => (set_base_teid (Some a.1.1) ri a.1.2 a.2 s).2) l s.

Lemma set_base_teid_mask m ri val ip s :
  ri <> 0 -> CLEAR_BYTE (set_base_teid (Some m) ri val ip s).2 = Z.shiftr (CLEAR_BYTE s) ri.
Proof.
  intros. unfold set_base_teid. rewrite bool_decide_false by done.
  by destruct (get_teid_info _ _).
Qed.

Lemma associate_all_mask ri l s c :
  0 < ri -> Z.of_nat (length l) * ri <= c -> CLEAR_BYTE s = 2 ^ c - 1 ->
  CLEAR_BYTE (associate_all ri l s) = 2 ^ (c - Z.of_nat (length l) * ri) - 1.
Proof.
  intros Hri. revert s c; induction l as [|a l IH]; intros s c Hl Hs; simpl in *.
  - rewrite Hs. do 2 f_equal. lia.
  - rewrite (IH _ (c - ri)); [do 2 f_equal; lia|lia|].
    rewrite set_base_teid_mask, Hs by lia. apply shiftr_mask. nia.
Qed.

(** The mask is one static variable for all user planes: each association
    shifts it again, so that after [k] associations only [32 - k*ri] bits are
    left, and once a second user plane has been associated the TEIDs of the
    first repeat after [2^(32-2*ri)] calls, while its range has [2^(32-ri)]. *)
Theorem second_association_repeats_teids m m' ri v v' ip ip' cp n :
  1 <= ri <= 8 -> 0 <= v < 2 ^ ri -> 0 <= v' < 2 ^ ri ->
  node_addr_ok ip -> node_addr_ok ip' -> ip <> ip' -> is_sgw_or_saegw cp = true ->
  2 ^ (32 - 2 * ri) < Z.of_nat n ->
  let s := associate_all ri [(m, v, ip); (m', v', ip')] initial_state in
  CLEAR_BYTE s = 2 ^ (32 - 2 * ri) - 1 /\ ~ NoDup (teids n ip cp s).1.
Proof.
  intros Hri Hv Hv' Hip Hip' Hne Hcp Hn s.
  assert (CLEAR_BYTE s = 2 ^ (32 - 2 * ri) - 1) as Hmask.
  { unfold s. rewrite (associate_all_mask ri _ _ 32); [|lia|simpl; lia|done]. done. }
  split; [done|]. intros Hdup.
  destruct (set_base_teid_fresh m ri v ip initial_state 32) as (t & _ & A2 & A3 & A4 & A5 & A6);
    try done; [lia|].
  assert (get_teid_info (upf_teid_info_head (associated m ri v ip)) ip' = None) as Hnone.
  { unfold associated. rewrite A3. simpl.
    assert (dp_ip t = ip) as ->.
    { revert A3. unfold set_base_teid; simpl. rewrite bool_decide_false by lia.
      cbn. intros [= <-]. by apply copy_node_addr_fresh. }
    rewrite node_addr_match_eq, bool_decide_false by done. done. }
  destruct (set_base_teid_fresh m' ri v' ip' (associated m ri v ip) (32 - ri))
    as (t' & _ & B2 & B3 & _); try done; [lia|].
  assert (pool_of s ip = Some t) as Hp.
  { unfold s, pool_of; simpl. fold (associated m ri v ip). rewrite B3. unfold associated.
    rewrite A3. simpl. by rewrite A4. }
  assert (0 < 2 ^ (32 - 2 * ri)) as Hpos by (apply Z.pow_pos_nonneg; lia).
  assert (forall k, (k < n)%nat -> (teids n ip cp s).1 !! k =
    Some (v * 2 ^ (32 - ri) + (first_index v + Z.of_nat k) mod 2 ^ (32 - 2 * ri))) as Hall.
  { intros k Hk. rewrite (teids_lookup ri v (32 - 2 * ri) cp ip n s t k)
      with (mx := 2 ^ (32 - ri) - 1); try done.
    - rewrite A6. do 3 f_equal. lia.
    - lia.
    - exists (2 ^ ri). rewrite <- Z.pow_add_r by lia.
      rewrite Z.sub_add. f_equal. lia.
    - pose proof (Z.pow_le_mono_r 2 (32 - ri) 32). lia. }
  pose proof (proj1 (NoDup_alt _) Hdup 0%nat (Z.to_nat (2 ^ (32 - 2 * ri)))) as Hd.
  rewrite !Hall in Hd by lia.
  specialize (Hd _ eq_refl). rewrite Z2Nat.id, Z.add_0_r in Hd by lia.
  rewrite Zplus_mod, Z.mod_same, Z.add_0_r, Z.mod_mod in Hd by lia.
  specialize (Hd eq_refl). lia.
Qed.

Lemma gtpc_teids_lookup n s k :
  0 <= s5s8_pgw_gtpc_teid_offset s -> (k < n)%nat ->
  (gtpc_teids n s).1 !! k
  = Some (u32 (DEFAULT_PGW_BASE_TEID + s5s8_pgw_gtpc_teid_offset s + Z.of_nat k)).
Proof.
  revert s k; induction n as [|n IH]; intros s k Hs Hk; [lia|]. simpl.
  set (s' := mk_state _ _ _ _ _).
  assert (0 <= s5s8_pgw_gtpc_teid_offset s') by (pose proof (wrap_range 32); unfold s'; simpl; auto with cint; apply wrap_range; lia).
  specialize (IH s'). destruct (gtpc_teids n s') as [ts s'']. simpl in *.
  destruct k as [|k]; simpl.
  - do 2 f_equal. lia.
  - rewrite IH by (done || lia). f_equal. unfold s'; simpl.
    rewrite (Z.add_comm _ (u32 _)), <- Z.add_assoc, wrap_add_l. f_equal. lia.
Qed.

(** The GTP-C TEIDs of the PGW-C are pairwise distinct for [2^32] successive
    calls, from any value of the static offset. *)
Theorem gtpc_teids_distinct n s :
  0 <= s5s8_pgw_gtpc_teid_offset s -> Z.of_nat n <= 2 ^ 32 ->
  NoDup (gtpc_teids n s).1 /\ Forall (fun t => 0 <= t < 2 ^ 32) (gtpc_teids n s).1.
Proof.
  intros Hs Hn.
  assert (length (gtpc_teids n s).1 = n) as Hlen.
  { clear. revert s; induction n as [|n IH]; intros s; simpl; [done|].
    set (s' := mk_state _ _ _ _ _). specialize (IH s').
    destruct (gtpc_teids n s'). simpl in *. by rewrite IH. }
  split.
  - eapply (NoDup_lookup_fun _ (fun k =>
      u32 (DEFAULT_PGW_BASE_TEID + s5s8_pgw_gtpc_teid_offset s + Z.of_nat k))).
    + intros k Hk. apply gtpc_teids_lookup; [done|lia].
    + intros j k Hjk. apply mod_shift_neq; lia.
  - apply Forall_lookup. intros k x Hk.
    pose proof (lookup_lt_Some _ _ _ Hk). rewrite gtpc_teids_lookup in Hk by (done || lia).
    injection Hk as <-. by apply wrap_range.
Qed.

(** [delete_entry_from_teid_list] removes exactly the first record of the
    address, and the record that [set_base_teid] then creates starts a new range
    at its first TEID, whatever range and offset the old record had. *)
Theorem delete_then_reassociate m ri val ip s i c :
  1 <= ri <= 8 -> 0 <= val < 2 ^ ri -> ri <= c <= 32 -> node_addr_ok ip ->
  CLEAR_BYTE s = 2 ^ c - 1 ->
  get_teid_info (upf_teid_info_head s) ip = Some i ->
  get_teid_info (delete i (upf_teid_info_head s)) ip = None ->
  let l := delete_entry_from_teid_list ip (upf_teid_info_head s) in
  l = delete i (upf_teid_info_head s) /\
  exists t, pool_of (set_base_teid (Some m) ri val ip (with_head l s)).2 ip = Some t /\
    pool_ready ri val (2 ^ (c - ri) - 1) t /\ up_gtpu_teid_offset t = 0.
Proof.
  intros Hri Hval Hc Hip Hcb Hi Hnone l.
  assert (l = delete i (upf_teid_info_head s)) as Hl by (unfold l; by rewrite delete_entry_spec, Hi).
  split; [done|].
  destruct (set_base_teid_fresh m ri val ip (with_head l s) c)
    as (t & _ & _ & H3 & H4 & H5 & H6); try done; [by simpl; rewrite Hl|].
  exists t. split; [|done]. eapply pool_of_app; [|exact H3|exact H4]. simpl. by rewrite Hl.
Qed.

(** ** Witnesses *)

Definition upf_a : node_address_t := mk_node_address PDN_TYPE_IPV4 0x0a000001 ipv6_zero.
Definition upf_b : node_address_t := mk_node_address PDN_TYPE_IPV4 0x0a000002 ipv6_zero.
Definition junk : teid_info := mk_teid_info (mk_node_address 7 7 (replicate 16 xff)) 9 9 9 9 9.

Lemma upf_a_ok : node_addr_ok upf_a.
Proof. left. done. Qed.
Lemma upf_b_ok : node_addr_ok upf_b.
Proof. left. done. Qed.

Lemma teids_in_range_and_distinct_witness :
  NoDup (teids 100 upf_a CP_TYPE_SGWC (associated junk 3 5 upf_a)).1.
Proof.
  destruct (teids_in_range_and_distinct junk 3 5 upf_a CP_TYPE_SGWC 100) as (_ & H & _);
    [lia|lia|apply upf_a_ok|reflexivity|lia|exact H].
Defined.

Lemma teids_disjoint_between_control_planes_witness :
  2684354560 ∉ (teids 8 upf_b CP_TYPE_SAEGWC (associated junk 3 2 upf_b)).1.
Proof.
  apply (teids_disjoint_between_control_planes junk junk 3 5 2 upf_a upf_b
    CP_TYPE_SGWC CP_TYPE_SAEGWC 4 8 2684354560);
    [lia|lia|lia|lia|apply upf_a_ok|apply upf_b_ok|reflexivity|reflexivity|].
  vm_compute. constructor.
Defined.

Lemma second_association_repeats_teids_witness :
  CLEAR_BYTE (associate_all 8 [(junk, 1, upf_a); (junk, 2, upf_b)] initial_state) = 65535.
Proof.
  destruct (second_association_repeats_teids junk junk 8 1 2 upf_a upf_b CP_TYPE_SGWC
    (Z.to_nat 65537)) as [H _];
    [lia|lia|lia|apply upf_a_ok|apply upf_b_ok|discriminate|reflexivity|lia|exact H].
Defined.

Lemma gtpc_teids_distinct_witness : NoDup (gtpc_teids 50 initial_state).1.
Proof. apply (gtpc_teids_distinct 50 initial_state); [reflexivity || (simpl; lia)|lia]. Defined.

Lemma delete_then_reassociate_witness :
  exists t, pool_of (set_base_teid (Some junk) 3 4 upf_a
    (with_head (delete_entry_from_teid_list upf_a (upf_teid_info_head (associated junk 3 5 upf_a)))
       (associated junk 3 5 upf_a))).2 upf_a = Some t /\ pool_ready 3 4 (2 ^ 26 - 1) t
       /\ up_gtpu_teid_offset t = 0.
Proof.
  apply (delete_then_reassociate junk 3 4 upf_a (associated junk 3 5 upf_a) 0 29);
    [lia|lia|lia|apply upf_a_ok|reflexivity|reflexivity|reflexivity].
Defined.
