(* ===== verification/TeidUpf.v ===== *)
(** * TEID ranges in the user plane (cp_dp_api/teid_upf.c)

    The user plane hands each associated control plane one of the
    [MAX_TEID[teidri]] TEID ranges.  A range is in one of three linked lists:
    allocated to a connected peer, blocked (recorded in the file by an earlier
    run, its peer not seen yet) or free.  A list owned by its head pointer is a
    [list]; the CSV file is its text; the outcome of every library call that can
    fail is an argument.  [assoc_teidri] is the part of
    [fill_pfcp_association_setup_resp] (pfcp_messages/pfcp_association.c) that
    drives these functions. *)

From S2P Require Import Prelude CText NodeAddr.
From Stdlib Require Import Ascii.

Definition RI_MAX : Z := 8.
Definition MAX_TEID : list Z := [0; 2; 4; 8; 16; 32; 64; 128].
Definition BUF_READ_SIZE : nat := 256.
Definition FIRST_LINE : Z := 1.
Definition TEID_NAME : text := lit "TEIDRI".

Record teidri_info := mk_teidri {
  node_addr : node_address_t;
  teid_range : Z
}.

#[export] Instance teidri_info_eq_decision : EqDecision teidri_info.
Proof. solve_decision. Defined.

(** ** The list operations *)

Definition assign_teid_range (val : Z) (free_list_head : list teidri_info) : Z :=
  if bool_decide (val = 0) then 0
  else if bool_decide (RI_MAX < val) then -1
  else match free_list_head with
       | temp :: _ => swrap 8 (teid_range temp)
       | [] => -1
       end.

Fixpoint search_list_for_teid_range (head : list teidri_info) (r : Z) : Z :=
  match head with
  | [] => -1
  | temp :: next => if bool_decide (teid_range temp = r) then 0
                    else search_list_for_teid_range next r
  end.

Definition add_teidri_info (head : list teidri_info) (newNode : teidri_info) : list teidri_info :=
  match head with
  | [] => [newNode]
  | _ => head ++ [newNode]
  end.

(** The loop of [create_teid_range_free_list] from range [r], [n] iterations
    left; [alloc r] tells whether [malloc] succeeds for range [r]. *)
Fixpoint create_loop (alloc : Z -> bool) (blocked : list teidri_info) (n : nat)
    (r blocked_list_len : Z) (free : list teidri_info) : list teidri_info :=
  match n with
  | O => free
  | S n =>
      if negb (bool_decide (blocked_list_len = 0)) && negb (bool_decide (blocked = []))
         && bool_decide (search_list_for_teid_range blocked r = 0)
      then create_loop alloc blocked n (r + 1) (u8 (blocked_list_len - 1)) free
      else if alloc r
      then create_loop alloc blocked n (r + 1) blocked_list_len
             (add_teidri_info free (mk_teidri node_addr_zero r))
      else free
  end.

(** [None]: the read of [MAX_TEID[teidri_val]] is outside the array. *)
Definition create_teid_range_free_list (alloc : Z -> bool) (blocked free : list teidri_info)
    (teidri_val num_cp : Z) : option (list teidri_info) :=
  mx ← MAX_TEID !! Z.to_nat teidri_val;
  Some (create_loop alloc blocked (Z.to_nat mx) 0 num_cp free).

Fixpoint get_teidri_info (head : list teidri_info) (upf_ip : node_address_t) : option teidri_info :=
  match head with
  | [] => None
  | temp :: next => if node_addr_match upf_ip (node_addr temp) then Some temp
                    else get_teidri_info next upf_ip
  end.

Definition get_teidri_from_list (teid_range0 : Z) (addr : node_address_t)
    (head : list teidri_info) : Z * Z :=
  match get_teidri_info head addr with
  | Some upf_info => (1, teid_range upf_info)
  | None => (0, teid_range0)
  end.

(** The loops of the two deletion functions: [before] are the nodes up to
    [prev], and the first node of [temp] that satisfies the test is unlinked. *)
Fixpoint unlink_first (test : teidri_info -> bool) (before temp : list teidri_info)
  : list teidri_info :=
  match temp with
  | [] => before
  | t :: next => if test t then before ++ next else unlink_first test (before ++ [t]) next
  end.

Definition delete_entry_from_list_for_teid_range (head : list teidri_info) (r : Z)
  : list teidri_info :=
  match head with
  | [] => []
  | temp :: next => if bool_decide (teid_range temp = r) then next
                    else unlink_first (fun t => bool_decide (teid_range t = r)) [] head
  end.

(** [None]: the function dereferences the [NULL] head of an empty list. *)
Definition delete_entry_from_teidri_list_for_ip (node_value : node_address_t)
    (head : list teidri_info) : option (list teidri_info) :=
  match head with
  | [] => None
  | temp :: next =>
      if compare_ip_address (node_addr temp) node_value then Some next
      else Some (unlink_first (fun t => compare_ip_address (node_addr t) node_value) [] head)
  end.

(** ** The file *)

(** What each call on the file returns. *)
Record io := mk_io { fopen_ok : bool; fprintf_ok : bool; fclose_ok : bool }.

Fixpoint fmt_ipv6 (a : list byte) : text :=
  match a with
  | b0 :: b1 :: [] => fmt_02x b0 ++ fmt_02x b1
  | b0 :: b1 :: a => fmt_02x b0 ++ fmt_02x b1 ++ ":"%char :: fmt_ipv6 a
  | _ => []
  end.

(** [IPV4_ADDR] applied to [IPV4_ADDR_HOST_FORMAT(a)]. *)
Definition fmt_ipv4_host (a : Z) : text :=
  fmt_u (u8 (Z.shiftr (Z.land a 0xff000000) 24)) ++ "."%char ::
  fmt_u (u8 (Z.shiftr (Z.land a 0x00ff0000) 16)) ++ "."%char ::
  fmt_u (u8 (Z.shiftr (Z.land a 0x0000ff00) 8)) ++ "."%char ::
  fmt_u (u8 (Z.land a 0x000000ff)).

Definition teidri_line (teidri_val : Z) : text :=
  lit "TEIDRI , " ++ fmt_u teidri_val ++ lit " ," ++ [newline].

(** One record; [sep] is the text between the two IPv4 fields, which is [", "]
    in [add_teidri_node_entry] and [","] in the two functions that rewrite. *)
Definition record_line (sep : text) (r : Z) (v6 : list byte) (v4 v4_dotted : Z) : text :=
  fmt_u r ++ lit " ," ++ fmt_ipv6 v6 ++ lit ", " ++ fmt_u v4 ++ sep
  ++ fmt_ipv4_host (ntohl v4_dotted) ++ lit ", " ++ [newline].

(** ** The functions on the lists and the file *)

Section Read.

(** [inet_pton(AF_INET6, s, dst)]: the address it stores, [None] when it fails
    and leaves [dst] as it was. *)
Variable inet_pton6 : text -> option (list byte).

(** The body of the loop for a record after the first line. *)
Definition parse_record (token rest : text) : teidri_info :=
  let range := u8 (atoi token) in
  match strtok comma rest with
  | Some (("0"%char :: _), rest2) | Some ([], rest2) =>
      match strtok comma rest2 with
      | Some (t, _) => mk_teidri (mk_node_address PDN_TYPE_IPV4 (u32 (atoi t)) ipv6_zero) range
      | None => mk_teidri node_addr_zero range
      end
  | Some (t, _) =>
      mk_teidri (mk_node_address PDN_TYPE_IPV6 0 (default ipv6_zero (inet_pton6 t))) range
  | None => mk_teidri node_addr_zero range
  end.

(** How the reading loop of [read_teidri_data] ends. *)
Inductive read_result :=
| Eof (blocked : list teidri_info) (num_cp : Z)
| Other_teidri (blocked : list teidri_info)
| No_memory (blocked : list teidri_info).

(** The second field of the first line equals [teidri_val]. *)
Definition same_teidri (teidri_val : Z) (token rest : text) (old_teidri_found : bool) : bool :=
  if starts_with TEID_NAME token then
    match strtok comma rest with
    | Some (t, _) => if bool_decide (u8 (atoi t) = teidri_val) then true else old_teidri_found
    | None => old_teidri_found
    end
  else old_teidri_found.

(** [fuel] bounds the number of lines; the length of the file is enough. *)
Fixpoint read_lines (fuel : nat) (alloc : Z -> bool) (teidri_val : Z) (file : text)
    (line_num num_cp : Z) (old_teidri_found : bool) (blocked : list teidri_info) : read_result :=
  match fuel, fgets (BUF_READ_SIZE - 1) file with
  | O, _ => Eof blocked num_cp
  | _, ([], _) => Eof blocked num_cp
  | S fuel, (str_buf, file) =>
      match strtok comma str_buf with
      | None => read_lines fuel alloc teidri_val file line_num num_cp old_teidri_found blocked
      | Some (token, rest) =>
          let line_num := u8 (line_num + 1) in
          if bool_decide (line_num = FIRST_LINE) then
            if same_teidri teidri_val token rest old_teidri_found then
              read_lines fuel alloc teidri_val file line_num (u8 (num_cp + 1)) true blocked
            else Other_teidri blocked
          else if bool_decide (FIRST_LINE < line_num) then
            if alloc num_cp then
              read_lines fuel alloc teidri_val file line_num (u8 (num_cp + 1)) old_teidri_found
                (add_teidri_info blocked (parse_record token rest))
            else No_memory blocked
          else read_lines fuel alloc teidri_val file line_num (u8 (num_cp + 1))
                 old_teidri_found blocked
      end
  end.

(** [read_teidri_data]: result, file, blocked list and free list; [None] is the
    undefined behaviour of [create_teid_range_free_list].  [close_r] is the
    outcome of closing the file opened for reading, [wr] those of rewriting it. *)
Definition read_teidri_data (close_r : bool) (wr : io) (alloc alloc_free : Z -> bool)
    (file : option text) (blocked free : list teidri_info) (teidri_val : Z)
  : option (Z * option text * list teidri_info * list teidri_info) :=
  let rewrite_file old :=
    if fopen_ok wr then
      if fprintf_ok wr then (true, Some (teidri_line teidri_val)) else (false, Some [])
    else (false, old) in
  match file with
  | None =>
      let '(ok, file') := rewrite_file None in
      if ok then
        free' ← create_teid_range_free_list alloc_free blocked free teidri_val 0;
        Some (0, file', blocked, free')
      else Some (-1, file', blocked, free)
  | Some f =>
      match read_lines (length f) alloc teidri_val f 0 0 false blocked with
      | No_memory blocked' => Some (-1, file, blocked', free)
      | Other_teidri blocked' =>
          if close_r then
            let '(ok, file') := rewrite_file file in
            if ok && fclose_ok wr then
              free' ← create_teid_range_free_list alloc_free blocked' free teidri_val 0;
              Some (0, file', blocked', free')
            else Some (-1, file', blocked', free)
          else Some (-1, file, blocked', free)
      | Eof blocked' num_cp =>
          if close_r then
            free' ← create_teid_range_free_list alloc_free blocked' free teidri_val num_cp;
            Some (0, file, blocked', free')
          else Some (-1, file, blocked', free)
      end
  end.

End Read.

(** The test [node_addr.ipv4_addr == 0 && !*node_addr.ipv6_addr]. *)
Definition node_addr_null (a : node_address_t) : bool :=
  bool_decide (ipv4_addr a = 0) && bool_decide (head (ipv6_addr a) = Some x00).

(** [add_teidri_node_entry]: [mem] is the block [malloc] returns; [wr] is [None]
    for a [NULL] file name.  Result, file, and the two lists. *)
Definition add_teidri_node_entry (mem : option teidri_info) (wr : option io) (file : option text)
    (r : Z) (a : node_address_t) (add_list remove_list : list teidri_info)
  : Z * option text * list teidri_info * list teidri_info :=
  if node_addr_null a then (-1, file, add_list, remove_list)
  else
    let lists :=
      match get_teidri_info add_list a with
      | Some _ => Some (add_list, remove_list)
      | None =>
          m ← mem;
          Some (add_teidri_info add_list (mk_teidri (copy_node_addr (node_addr m) a) r),
                delete_entry_from_list_for_teid_range remove_list r)
      end in
    match lists with
    | None => (-1, file, add_list, remove_list)
    | Some (add_list, remove_list) =>
        match wr with
        | None => (0, file, add_list, remove_list)
        | Some wr =>
            if fopen_ok wr then
              let old := default [] file in
              if fprintf_ok wr then
                (if fclose_ok wr then 0 else -1,
                 Some (old ++ record_line (lit ", ") r (ipv6_addr a) (ipv4_addr a) (ipv4_addr a)),
                 add_list, remove_list)
              else (-1, Some old, add_list, remove_list)
            else (-1, file, add_list, remove_list)
        end
    end.

(** Rewriting the file from the allocated list; a failing [fprintf] of a record
    is only logged, [printed i] is the outcome for the [i]-th record. *)
Definition rewrite_records (wr : io) (printed : nat -> bool) (line : teidri_info -> text)
    (teidri_val : Z) (file : option text) (allocated : list teidri_info) : Z * option text :=
  if fopen_ok wr then
    if fprintf_ok wr then
      (if fclose_ok wr then 0 else -1,
       Some (teidri_line teidri_val ++
             concat (imap (fun i t => if printed i then line t else []) allocated)))
    else (-1, Some [])
  else (-1, file).

(** [flush_inactive_teidri_data]: result, file, blocked list and free list.
    When the free list is empty only the local [temp] receives the blocked list. *)
Definition flush_inactive_teidri_data (wr : io) (printed : nat -> bool) (file : option text)
    (blocked allocated free : list teidri_info) (teidri_val : Z)
  : Z * option text * list teidri_info * list teidri_info :=
  let '(blocked, free) :=
    match blocked, free with
    | [], _ => (blocked, free)
    | _ :: _, _ :: _ => ([], free ++ blocked)
    | _ :: _, [] => ([], free)
    end in
  let '(ret, file) :=
    rewrite_records wr printed
      (fun t => record_line (lit ",") (teid_range t) (ipv6_addr (node_addr t))
                  (ipv4_addr (node_addr t)) (ipv4_addr (node_addr t)))
      teidri_val file allocated in
  (ret, file, blocked, free).

(** [delete_teidri_node_entry]: result, file, allocated list and free list;
    [None] is the dereference of an empty list.  The second IPv4 argument of the
    record is the address of the entry, the first that of the deleted node. *)
Definition delete_teidri_node_entry (mem : option teidri_info) (wr : io) (printed : nat -> bool)
    (file : option text) (a : node_address_t) (head free : list teidri_info) (teidri_val : Z)
  : option (Z * option text * list teidri_info * list teidri_info) :=
  if node_addr_null a then Some (-1, file, head, free)
  else
    match get_teidri_info head a with
    | None => Some (-1, file, head, free)
    | Some temp =>
        match mem with
        | None => Some (-1, file, head, free)
        | Some m =>
            let free := add_teidri_info free
              (mk_teidri (copy_node_addr (node_addr m) a) (teid_range temp)) in
            head ← delete_entry_from_teidri_list_for_ip a head;
            let '(ret, file) :=
              rewrite_records wr printed
                (fun t => record_line (lit ",") (teid_range t) (ipv6_addr (node_addr t))
                            (ipv4_addr a) (ipv4_addr (node_addr t)))
                teidri_val file head in
            Some (ret, file, head, free)
        end
    end.

(** ** The driver *)

Record upf := mk_upf {
  allocated : list teidri_info;
  blocked : list teidri_info;
  free : list teidri_info;
  file : option text;
  assoc_available : bool
}.

(** The TEIDRI part of [fill_pfcp_association_setup_resp]: the range announced,
    whether the cause becomes [NORESOURCESAVAILABLE], and the new state. *)
Definition assoc_teidri (mem : option teidri_info) (wr : io) (teidri_val : Z)
    (a : node_address_t) (s : upf) : Z * bool * upf :=
  if bool_decide (teidri_val <> 0) then
    let '(flag, r) := get_teidri_from_list 0 a (blocked s) in
    if bool_decide (flag = 0) then
      let '(flag, r) := get_teidri_from_list r a (allocated s) in
      if bool_decide (flag = 0) then
        let r := assign_teid_range teidri_val (free s) in
        if bool_decide (r < 0) then (r, true, s)
        else
          let '(_, f, al, fr) :=
            add_teidri_node_entry mem (Some wr) (file s) r a (allocated s) (free s) in
          (r, false, mk_upf al (blocked s) fr f (assoc_available s))
      else (r, false, s)
    else
      let '(_, f, al, bl) :=
        add_teidri_node_entry mem None (file s) r a (allocated s) (blocked s) in
      (r, false, mk_upf al bl (free s) f (assoc_available s))
  else if assoc_available s
  then (0, false, mk_upf (allocated s) (blocked s) (free s) (file s) false)
  else (0, true, s).

(** The operations on the three lists as steps, for the peers with an address in [peer],
    when the contents of the memory that [malloc] returns are in [block]. *)
Inductive upf_step (peer : node_address_t -> Prop) (block : teidri_info -> Prop) (teidri_val : Z) : upf -> upf -> Prop :=
| step_assoc mem wr a s :
    peer a -> (forall m, mem = Some m -> block m) ->
    upf_step peer block teidri_val s (assoc_teidri mem wr teidri_val a s).2
| step_delete mem wr printed a s ret f al fr :
    peer a -> (forall m, mem = Some m -> block m) ->
    delete_teidri_node_entry mem wr printed (file s) a (allocated s) (free s) teidri_val
      = Some (ret, f, al, fr) ->
    upf_step peer block teidri_val s (mk_upf al (blocked s) fr f (assoc_available s))
| step_flush wr printed s ret f bl fr :
    flush_inactive_teidri_data wr printed (file s) (blocked s) (allocated s) (free s) teidri_val
      = (ret, f, bl, fr) ->
    upf_step peer block teidri_val s (mk_upf (allocated s) bl fr f (assoc_available s)).

(** Peers with IPv4 addresses; memory without an address in it; any memory. *)
Definition v4_addr (a : node_address_t) : Prop := ip_type a = PDN_TYPE_IPV4.
Definition clean_block (m : teidri_info) : Prop := ipv4_addr (node_addr m) = 0 /\ ipv6_addr (node_addr m) = ipv6_zero.
Definition any_block (m : teidri_info) : Prop := True.

(** The addresses [entry] of the nodes made for such peers in such memory: for them the
    two comparisons of the code agree. *)
Class Peers (peer : node_address_t -> Prop) (block : teidri_info -> Prop) (entry : node_address_t -> Prop) : Prop := {
  peers_copy a m : peer a -> block m -> entry (copy_node_addr (node_addr m) a);
  peers_compare a e : peer a -> entry e -> node_addr_match a e = compare_ip_address e a
}.

Definition ranges (l : list teidri_info) : list Z := teid_range <$> l.
Definition all_ranges (s : upf) : list Z :=
  ranges (allocated s) ++ ranges (blocked s) ++ ranges (free s).

(** ** Lemmas *)

Fixpoint remove_first (test : teidri_info -> bool) (l : list teidri_info) : list teidri_info :=
  match l with
  | [] => []
  | t :: l => if test t then l else t :: remove_first test l
  end.

Lemma unlink_first_spec test before l : unlink_first test before l = before ++ remove_first test l.
Proof.
  revert before; induction l as [|t l IH]; intros before; simpl; [by rewrite app_nil_r|].
  destruct (test t); [done|]. by rewrite IH, <- app_assoc.
Qed.

Lemma delete_range_spec head r :
  delete_entry_from_list_for_teid_range head r
  = remove_first (fun t => bool_decide (teid_range t = r)) head.
Proof.
  destruct head as [|t l]; [done|]. unfold delete_entry_from_list_for_teid_range.
  rewrite unlink_first_spec. simpl. by case_bool_decide.
Qed.

Lemma delete_ip_spec head a :
  head <> [] ->
  delete_entry_from_teidri_list_for_ip a head
  = Some (remove_first (fun t => compare_ip_address (node_addr t) a) head).
Proof.
  destruct head as [|t l]; [done|]. intros _. unfold delete_entry_from_teidri_list_for_ip.
  rewrite unlink_first_spec. simpl. by destruct (compare_ip_address _ _).
Qed.

Lemma add_teidri_info_app l t : add_teidri_info l t = l ++ [t].
Proof. by destruct l. Qed.

Lemma remove_first_perm test l t :
  t ∈ l -> test t = true ->
  exists t', test t' = true /\ l ≡ₚ t' :: remove_first test l.
Proof.
  induction 1 as [t l|t t' l Hin IH]; intros Ht; simpl.
  - rewrite Ht. eauto.
  - destruct (test t') eqn:E; [eauto|]. destruct (IH Ht) as (u & Hu & Hp).
    exists u. split; [done|]. rewrite Hp at 1. constructor.
Qed.

Lemma remove_first_ext f g l :
  Forall (fun t => f t = g t) l -> remove_first f l = remove_first g l.
Proof. induction 1 as [|t l Ht Hl IH]; simpl; [done|]. by rewrite Ht, IH. Qed.

Lemma remove_first_Forall P test l : Forall P l -> Forall P (remove_first test l).
Proof. induction 1; simpl; [done|]. case_match; [done|]. by constructor. Qed.

Lemma get_teidri_info_Some l a t :
  get_teidri_info l a = Some t -> t ∈ l /\ node_addr_match a (node_addr t) = true.
Proof.
  induction l as [|u l IH]; simpl; [done|]. destruct (node_addr_match a (node_addr u)) eqn:E.
  - intros [= <-]. split; [constructor|done].
  - intros H. destruct (IH H). split; [by constructor|done].
Qed.

(** The first match is the one [remove_first] takes out. *)
Lemma get_teidri_info_remove l a t :
  get_teidri_info l a = Some t ->
  l ≡ₚ t :: remove_first (fun u => node_addr_match a (node_addr u)) l.
Proof.
  induction l as [|u l IH]; simpl; [done|]. destruct (node_addr_match a (node_addr u)).
  - by intros [= <-].
  - intros H. rewrite (IH H) at 1. constructor.
Qed.

Lemma v4_match_compare a t :
  v4_addr a -> v4_addr (node_addr t) ->
  node_addr_match a (node_addr t) = compare_ip_address (node_addr t) a.
Proof.
  unfold v4_addr, node_addr_match, compare_ip_address. intros -> ->.
  repeat case_bool_decide; done.
Qed.

Lemma copy_node_addr_v4 f a : v4_addr a -> v4_addr (copy_node_addr f a).
Proof. unfold v4_addr, copy_node_addr. intros ->. done. Qed.

#[export] Instance v4_peers : Peers v4_addr any_block v4_addr.
Proof.
  split; [intros a m Ha _; by apply copy_node_addr_v4|].
  intros a e Ha He. by apply (v4_match_compare a (mk_teidri e 0)).
Qed.

#[export] Instance clean_peers : Peers node_addr_ok clean_block node_addr_ok.
Proof.
  split; [intros a m Ha [H4 H6]; by rewrite copy_node_addr_fresh|].
  intros a e Ha He. rewrite node_addr_match_eq, compare_ip_address_eq by done. by apply bool_decide_ext.
Qed.

Lemma copy_node_addr_v4_match f a : v4_addr a -> node_addr_match a (copy_node_addr f a) = true.
Proof.
  unfold v4_addr, node_addr_match, copy_node_addr. intros ->.
  rewrite !(bool_decide_true (PDN_TYPE_IPV4 = PDN_TYPE_IPV4)) by done. cbn.
  by rewrite bool_decide_true.
Qed.

(** A removal by range takes that range out of the list, when it is there. *)
Lemma delete_range_perm l r :
  r ∈ ranges l -> ranges l ≡ₚ r :: ranges (delete_entry_from_list_for_teid_range l r).
Proof.
  intros (t & -> & Ht)%list_elem_of_fmap. rewrite delete_range_spec.
  destruct (remove_first_perm (fun u => bool_decide (teid_range u = teid_range t)) l t)
    as (u & Hu & Hp); [done|by apply bool_decide_true|].
  apply bool_decide_eq_true in Hu. unfold ranges. rewrite Hp at 1. simpl. by rewrite Hu.
Qed.

Section Steps.
Context (val : Z) (peer : node_address_t -> Prop) (block : teidri_info -> Prop) (entry : node_address_t -> Prop).
Context `{!Peers peer block entry}.

(** The invariant of the three lists: no range twice, every range below 128,
    and every allocated node one of [entry]. *)
Record lists_ok (s : upf) : Prop := {
  ok_nodup : NoDup (all_ranges s);
  ok_bound : Forall (fun r => 0 <= r < 128) (all_ranges s);
  ok_entries : Forall (fun t => entry (node_addr t)) (allocated s)
}.

(** What a step does to the multiset of ranges. *)
Definition conserves (s s' : upf) : Prop := all_ranges s ≡ₚ all_ranges s'.

Lemma lists_ok_conserves s s' :
  lists_ok s -> conserves s s' -> Forall (fun t => entry (node_addr t)) (allocated s') ->
  lists_ok s'.
Proof. intros [H1 H2 H3] Hp Hv. unfold conserves in Hp. split; [by rewrite <- Hp..|done]. Qed.

Lemma free_head_range s t fr :
  lists_ok s -> free s = t :: fr -> 0 <= teid_range t < 128.
Proof.
  intros [_ Hb _] E. unfold all_ranges in Hb. rewrite E in Hb.
  rewrite !Forall_app in Hb. destruct Hb as (_ & _ & Hb). by inversion Hb.
Qed.

(** [add_teidri_node_entry] moves range [r] from the second list to the first. *)
Lemma add_entry_lists mem wr f r a al rm ret f' al' rm' :
  peer a -> (forall m, mem = Some m -> block m) -> r ∈ ranges rm -> Forall (fun t => entry (node_addr t)) al ->
  add_teidri_node_entry mem wr f r a al rm = (ret, f', al', rm') ->
  ranges al ++ ranges rm ≡ₚ ranges al' ++ ranges rm' /\
  Forall (fun t => entry (node_addr t)) al' /\
  (forall r', (exists t, t ∈ al' /\ teid_range t = r') -> r' ∈ ranges al \/ r' = r).
Proof.
  intros Ha Hbk Hr Hv. unfold add_teidri_node_entry.
  assert (ranges al ++ ranges rm ≡ₚ
    ranges (al ++ [mk_teidri (copy_node_addr (node_addr (default (mk_teidri a 0) mem)) a) r])
      ++ ranges (delete_entry_from_list_for_teid_range rm r)) as Hmove.
  { unfold ranges at 3. rewrite fmap_app. cbn. rewrite <- app_assoc. cbn.
    fold (ranges al). by rewrite (delete_range_perm rm r Hr) at 1. }
  assert (forall r' : Z, (exists t, t ∈ al /\ teid_range t = r') -> r' ∈ ranges al \/ r' = r) as Hkeep.
  { intros r' (t & Ht & <-). left. by apply list_elem_of_fmap_2. }
  destruct (node_addr_null a); [intros [= _ _ <- <-]; done|].
  destruct (get_teidri_info al a) as [u|].
  { repeat case_match; intros; simplify_eq; done. }
  destruct mem as [m|]; simpl; [|intros [= _ _ <- <-]; done].
  rewrite add_teidri_info_app. simpl in Hmove.
  assert (Forall (fun t => entry (node_addr t))
    (al ++ [mk_teidri (copy_node_addr (node_addr m) a) r])) as Hv'.
  { apply Forall_app. split; [done|]. constructor; [by apply peers_copy, Hbk|done]. }
  assert (forall r' : Z, (exists t, t ∈ al ++ [mk_teidri (copy_node_addr (node_addr m) a) r]
      /\ teid_range t = r') -> r' ∈ ranges al \/ r' = r).
  { intros r' (t & [Ht|Ht%list_elem_of_singleton]%elem_of_app & <-); [left; by apply list_elem_of_fmap_2|].
    right. by subst t. }
  repeat case_match; intros; simplify_eq; done.
Qed.

Lemma assoc_conserves mem wr a s :
  lists_ok s -> peer a -> (forall m, mem = Some m -> block m) ->
  conserves s (assoc_teidri mem wr val a s).2 /\ lists_ok (assoc_teidri mem wr val a s).2.
Proof.
  intros Hok Ha Hbk. unfold assoc_teidri, get_teidri_from_list.
  destruct (decide (val <> 0)) as [Hnz|Hz];
    [rewrite bool_decide_true by done|rewrite bool_decide_false by done;
     destruct (assoc_available s); (split; [by unfold conserves|]); by destruct Hok].
  destruct (get_teidri_info (blocked s) a) as [b|] eqn:Eb; simpl.
  - destruct (add_teidri_node_entry mem None (file s) (teid_range b) a (allocated s) (blocked s))
      as [[[ret f] al] bl] eqn:Ea. simpl.
    apply get_teidri_info_Some in Eb as [Hin _].
    apply add_entry_lists in Ea as (Hp & Hv & _); [|done|done|by apply list_elem_of_fmap_2|apply Hok].
    assert (conserves s (mk_upf al bl (free s) f (assoc_available s))) as Hc.
    { unfold conserves, all_ranges; simpl. by rewrite !app_assoc, Hp. }
    split; [done|]. by eapply lists_ok_conserves.
  - destruct (get_teidri_info (allocated s) a) as [b|] eqn:Eal; simpl; [by unfold conserves|].
    destruct (bool_decide (assign_teid_range val (free s) < 0)) eqn:Er; simpl; [by unfold conserves|].
    apply bool_decide_eq_false in Er.
    destruct (add_teidri_node_entry mem (Some wr) (file s) (assign_teid_range val (free s)) a
      (allocated s) (free s)) as [[[ret f] al] fr] eqn:Ea. simpl.
    assert (assign_teid_range val (free s) ∈ ranges (free s)) as Hin.
    { revert Er. unfold assign_teid_range. repeat case_bool_decide; [done|lia|].
      destruct (free s) as [|t l] eqn:Ef; [lia|]. intros _.
      rewrite swrap_small; [apply list_elem_of_fmap_2; constructor|lia|].
      change (2 ^ (8 - 1)) with 128. by eapply free_head_range. }
    apply add_entry_lists in Ea as (Hp & Hv & _); [|done|done|done|apply Hok].
    assert (conserves s (mk_upf al (blocked s) fr f (assoc_available s))) as Hc.
    { unfold conserves, all_ranges; simpl.
      rewrite (Permutation_app_comm (ranges (blocked s)) (ranges (free s))).
      rewrite (Permutation_app_comm (ranges (blocked s)) (ranges fr)).
      by rewrite !app_assoc, Hp. }
    split; [done|]. by eapply lists_ok_conserves.
Qed.

Lemma delete_conserves mem wr printed a s ret f al fr :
  lists_ok s -> peer a ->
  delete_teidri_node_entry mem wr printed (file s) a (allocated s) (free s) val
    = Some (ret, f, al, fr) ->
  let s' := mk_upf al (blocked s) fr f (assoc_available s) in conserves s s' /\ lists_ok s'.
Proof.
  intros Hok Ha. unfold delete_teidri_node_entry.
  assert (forall f', let s' := mk_upf (allocated s) (blocked s) (free s) f' (assoc_available s) in
    conserves s s' /\ lists_ok s') as Hsame by (intros f'; split; [by unfold conserves|by destruct Hok]).
  destruct (node_addr_null a); [intros [= _ <- <- <-]; apply Hsame|].
  destruct (get_teidri_info (allocated s) a) as [t|] eqn:Et; [|intros [= _ <- <- <-]; apply Hsame].
  destruct mem as [m|]; [|intros [= _ <- <- <-]; apply Hsame].
  pose proof (get_teidri_info_Some _ _ _ Et) as [Hin _].
  rewrite delete_ip_spec by (intros E; rewrite E in Hin; inversion Hin). cbn.
  destruct (rewrite_records _ _ _ _ _ _) as [ret' f']. intros [= <- <- <- <-].
  rewrite (remove_first_ext _ (fun u => node_addr_match a (node_addr u))).
  2: { eapply Forall_impl; [apply Hok|]. intros u Hu. symmetry. by apply peers_compare. }
  rewrite add_teidri_info_app.
  assert (conserves s (mk_upf (remove_first (fun u => node_addr_match a (node_addr u)) (allocated s))
    (blocked s) (free s ++ [mk_teidri (copy_node_addr (node_addr m) a) (teid_range t)]) f'
    (assoc_available s))) as Hc.
  { unfold conserves, all_ranges; simpl. unfold ranges at 1 6.
    rewrite (get_teidri_info_remove _ _ _ Et) at 1. rewrite fmap_app. simpl.
    fold (ranges (free s)). by rewrite !app_assoc, <- Permutation_cons_append. }
  split; [done|]. eapply lists_ok_conserves; [done..|]. simpl.
  apply remove_first_Forall, Hok.
Qed.

Lemma flush_spec wr printed s ret f bl fr :
  flush_inactive_teidri_data wr printed (file s) (blocked s) (allocated s) (free s) val
    = (ret, f, bl, fr) ->
  bl = [] /\
  fr = match free s with [] => [] | _ :: _ => free s ++ blocked s end.
Proof.
  unfold flush_inactive_teidri_data.
  destruct (blocked s) as [|b bs], (free s) as [|u us];
    destruct (rewrite_records _ _ _ _ _ _); intros [= _ _ <- <-]; rewrite ?app_nil_r; done.
Qed.

Lemma step_ranges s s' :
  upf_step peer block val s s' -> lists_ok s ->
  lists_ok s' /\ exists lost, all_ranges s ≡ₚ all_ranges s' ++ lost /\
    (lost = [] \/ (free s = [] /\ lost = ranges (blocked s) /\ all_ranges s' = ranges (allocated s))).
Proof.
  intros [mem wr a s0 Ha Hbk|mem wr printed a s0 ret f al fr Ha Hbk Hd|wr printed s0 ret f bl fr Hf] Hok.
  - destruct (assoc_conserves mem wr a s0 Hok Ha Hbk). split; [done|]. exists [].
    rewrite app_nil_r. by split; [|left].
  - destruct (delete_conserves _ _ _ _ _ _ _ _ _ Hok Ha Hd). split; [done|]. exists [].
    rewrite app_nil_r. by split; [|left].
  - apply flush_spec in Hf as [-> ->]. destruct Hok as [H1 H2 H3]. destruct (free s0) as [|u us] eqn:Ef.
    + unfold all_ranges in *; simpl. rewrite Ef, !app_nil_r in *. split.
      * split; unfold all_ranges; simpl; rewrite ?app_nil_r;
          [apply NoDup_app in H1; apply H1|apply Forall_app in H2; apply H2|done].
      * eexists. split; [done|]. right. done.
    + assert (conserves s0 (mk_upf (allocated s0) [] ((u :: us) ++ blocked s0) f (assoc_available s0))).
      { unfold conserves, all_ranges; simpl. rewrite Ef.
        change (u :: us ++ blocked s0) with ((u :: us) ++ blocked s0).
        unfold ranges at 5. rewrite fmap_app. apply Permutation_app_head, Permutation_app_comm. }
      split; [by eapply lists_ok_conserves|]. exists []. rewrite app_nil_r. by split; [|left].
Qed.

Lemma steps_ranges s s' :
  rtc (upf_step peer block val) s s' -> lists_ok s ->
  lists_ok s' /\ exists lost, all_ranges s ≡ₚ all_ranges s' ++ lost.
Proof.
  induction 1 as [s|s s1 s' Hs Hr IH]; intros Hok.
  - split; [done|]. exists []. by rewrite app_nil_r.
  - destruct (step_ranges _ _ Hs Hok) as [Hok1 (l1 & Hp1 & _)].
    destruct (IH Hok1) as [Hok' (l2 & Hp2)]. split; [done|]. exists (l2 ++ l1).
    by rewrite Hp1, Hp2, app_assoc.
Qed.
End Steps.

(** *** The free list *)

Lemma search_list_spec head r :
  bool_decide (search_list_for_teid_range head r = 0) = bool_decide (r ∈ ranges head).
Proof.
  apply bool_decide_ext. induction head as [|t l IH]; simpl; [split; [done|by intros ?%elem_of_nil]|].
  case_bool_decide; [split; [intros; subst; constructor|done]|].
  rewrite IH. unfold ranges; simpl. split; [by constructor|by intros [?|?]%elem_of_cons].
Qed.

Lemma count_from_step r l :
  NoDup l ->
  (length (filter (fun x => (Z.succ r <= x)%Z) l) + (if bool_decide (r ∈ l) then 1 else 0))%nat
  = length (filter (fun x => r <= x) l).
Proof.
  induction l as [|x l IH]; intros Hnd; [done|].
  apply NoDup_cons in Hnd as [Hx Hnd]. specialize (IH Hnd). rewrite !filter_cons.
  destruct (decide (r = x)) as [->|Hne].
  - rewrite decide_False, decide_True by lia.
    rewrite (bool_decide_true (x ∈ x :: l)) by constructor.
    rewrite bool_decide_false in IH by done. simpl. lia.
  - rewrite (bool_decide_ext (r ∈ x :: l) (r ∈ l))
      by (split; [by intros [?|?]%elem_of_cons|by constructor]).
    destruct (decide (r <= x)); [rewrite decide_True by lia|rewrite decide_False by lia];
      simpl; lia.
Qed.

(** With an allocator that does not fail and [num_cp] at least the number of
    blocked records, the free list is what the blocked list leaves. *)
Lemma create_loop_spec blocked n r len free :
  NoDup (ranges blocked) -> 0 <= len < 256 ->
  Z.of_nat (length (filter (fun x => r <= x) (ranges blocked))) <= len ->
  create_loop (fun _ => true) blocked n r len free
  = free ++ (mk_teidri node_addr_zero <$>
             filter (fun x => x ∉ ranges blocked) (seqZ r (Z.of_nat n))).
Proof.
  intros Hnd. revert r len free; induction n as [|n IH]; intros r len free Hlen Hcnt.
  { simpl. by rewrite app_nil_r. }
  rewrite seqZ_cons by lia. replace (Z.pred (Z.of_nat (S n))) with (Z.of_nat n) by lia.
  pose proof (count_from_step r (ranges blocked) Hnd) as Hstep.
  cbn [create_loop]. rewrite search_list_spec.
  destruct (decide (r ∈ ranges blocked)) as [Hin|Hout].
  - rewrite (bool_decide_true (r ∈ _)) in * by done.
    rewrite (bool_decide_false (len = 0)) by lia.
    rewrite (bool_decide_false (blocked = [])) by (intros ->; by apply elem_of_nil in Hin).
    cbn. change (r + 1) with (Z.succ r).
    rewrite IH; [|rewrite wrap_small by (pow2; lia); lia..].
    by rewrite decide_False by (intros H; apply H; done).
  - rewrite (bool_decide_false (r ∈ _)) in * by done. rewrite andb_false_r. cbn.
    change (r + 1) with (Z.succ r).
    rewrite IH by lia. rewrite add_teidri_info_app, decide_True by done.
    by rewrite <- app_assoc.
Qed.

Lemma MAX_TEID_pow val : 1 <= val <= 7 -> MAX_TEID !! Z.to_nat val = Some (2 ^ val).
Proof.
  intros. assert (val = 1 \/ val = 2 \/ val = 3 \/ val = 4 \/ val = 5 \/ val = 6 \/ val = 7)
    as [->|[->|[->|[->|[->|[->| ->]]]]]] by lia; done.
Qed.

(** The state after [read_teidri_data] has read the records [b] of [num_cp]
    lines and built the free list. *)
Definition boot (val num_cp : Z) (b : list teidri_info) (f : option text) : option upf :=
  fr ← create_teid_range_free_list (fun _ => true) b [] val num_cp;
  Some (mk_upf [] b fr f true).

Lemma boot_ranges val num_cp b f s :
  1 <= val <= 7 -> NoDup (ranges b) -> Forall (fun r => 0 <= r < 2 ^ val) (ranges b) ->
  Z.of_nat (length b) <= num_cp < 256 -> boot val num_cp b f = Some s ->
  allocated s = [] /\ blocked s = b /\
  all_ranges s = ranges b ++ filter (fun r => r ∉ ranges b) (seqZ 0 (2 ^ val)).
Proof.
  intros Hval Hnd Hb Hlen. unfold boot, create_teid_range_free_list.
  rewrite MAX_TEID_pow by done. cbn.
  pose proof (Z.pow_pos_nonneg 2 val ltac:(lia) ltac:(lia)).
  rewrite create_loop_spec; [|done|lia|].
  2: { pose proof (length_filter (fun x => 0 <= x) (ranges b)). unfold ranges in *.
       rewrite length_fmap in *. lia. }
  intros [= <-]. split; [done|]. split; [done|]. unfold all_ranges; simpl. f_equal.
  rewrite Z2Nat.id by lia. unfold ranges at 1. rewrite <- list_fmap_compose. cbn.
  by rewrite list_fmap_id.
Qed.

Lemma boot_lists_ok val num_cp b f s :
  1 <= val <= 7 -> NoDup (ranges b) -> Forall (fun r => 0 <= r < 2 ^ val) (ranges b) ->
  Z.of_nat (length b) <= num_cp < 256 -> boot val num_cp b f = Some s ->
  (forall entry, lists_ok entry s) /\ Forall (fun r => 0 <= r < 2 ^ val) (all_ranges s).
Proof.
  intros Hval Hnd Hb Hlen Hs.
  destruct (boot_ranges _ _ _ _ _ Hval Hnd Hb Hlen Hs) as (Ha & _ & Hr).
  assert (Forall (fun r => 0 <= r < 2 ^ val) (all_ranges s)) as Hall.
  { rewrite Hr. apply Forall_app. split; [done|]. apply Forall_forall.
    intros r [_ Hin]%list_elem_of_filter. apply elem_of_seqZ in Hin. lia. }
  split; [intros entry; split|done].
  - rewrite Hr. apply NoDup_app. split; [done|]. split.
    + intros r Hin [Hout _]%list_elem_of_filter. done.
    + apply NoDup_filter, NoDup_seqZ.
  - eapply Forall_impl; [exact Hall|]. simpl. intros r Hr'.
    pose proof (Z.pow_le_mono_r 2 val 7). change (2 ^ 7) with 128 in *. lia.
  - rewrite Ha. constructor.
Qed.

(** The branch of [add_teidri_node_entry] that creates a node. *)
Lemma add_entry_new m wr f r a al rm :
  ipv4_addr a <> 0 -> get_teidri_info al a = None ->
  exists ret f', add_teidri_node_entry (Some m) wr f r a al rm
    = (ret, f', add_teidri_info al (mk_teidri (copy_node_addr (node_addr m) a) r),
       delete_entry_from_list_for_teid_range rm r).
Proof.
  intros Hnz Hn. unfold add_teidri_node_entry, node_addr_null.
  rewrite bool_decide_false, Hn by done. simpl.
  destruct wr as [[[] [] []]|]; eauto.
Qed.

Lemma assign_first val t l :
  1 <= val <= 7 -> 0 <= teid_range t < 128 -> assign_teid_range val (t :: l) = teid_range t.
Proof.
  intros Hv Hr. unfold assign_teid_range, RI_MAX. rewrite !bool_decide_false by lia.
  apply swrap_small; [lia|]. pow2. lia.
Qed.

Lemma assign_empty val : 1 <= val <= 7 -> assign_teid_range val [] = -1.
Proof. intros. unfold assign_teid_range, RI_MAX. by rewrite !bool_decide_false by lia. Qed.

(** *** Reading back what was written *)

Ltac plain_text :=
  repeat first [ done | apply fmt_02x_plain | apply fmt_u_plain; first [lia | apply wrap_range; lia]
               | apply Forall_app; split | apply Forall_cons; split; [done|] ].

Lemma fmt_ipv6_plain a : Forall (fun c => plain c = true) (fmt_ipv6 a).
Proof.
  assert (forall n a, (length a <= n)%nat -> Forall (fun c => plain c = true) (fmt_ipv6 a)) as H.
  { intros n; induction n as [|n IH]; intros [|b0 [|b1 l]] Hl; try done; cbn in Hl; try lia.
    destruct l as [|b2 l]; [cbn [fmt_ipv6]; plain_text|].
    change (fmt_ipv6 (b0 :: b1 :: b2 :: l))
      with (fmt_02x b0 ++ fmt_02x b1 ++ ":"%char :: fmt_ipv6 (b2 :: l)).
    plain_text. apply IH. cbn in *. lia. }
  by apply (H (length a)).
Qed.

Lemma fmt_ipv6_length a : length a = IPV6_ADDRESS_LEN -> length (fmt_ipv6 a) = 39%nat.
Proof. intros H. do 16 (destruct a as [|? a]; [done|]). by destruct a. Qed.

(** The first character decides how [read_teidri_data] reads the record. *)
Lemma fmt_ipv6_head b a :
  length (b :: a) = IPV6_ADDRESS_LEN ->
  exists l, fmt_ipv6 (b :: a) = hex_char (byte_to_Z b / 16) :: l.
Proof. destruct a as [|b1 [|b2 a]]; intros; [done|done|]. eexists. reflexivity. Qed.

Lemma fmt_ipv4_plain a : Forall (fun c => plain c = true) (fmt_ipv4_host a).
Proof. unfold fmt_ipv4_host. plain_text. Qed.

Lemma fmt_ipv4_length a : (length (fmt_ipv4_host a) <= 43)%nat.
Proof.
  unfold fmt_ipv4_host. repeat (rewrite length_app; cbn [length]).
  repeat match goal with |- context [length (fmt_u ?z)] =>
    pose proof (fmt_u_length z); generalize dependent (length (fmt_u z)); intros
  end. lia.
Qed.
(** A node whose record can be read back: its address is well formed, in 32 bits
    for IPv4, and an IPv6 address does not start with a zero hexadecimal digit. *)
Definition entry_ok (t : teidri_info) : Prop :=
  0 <= teid_range t < 256 /\ node_addr_ok (node_addr t) /\
  0 <= ipv4_addr (node_addr t) < 2 ^ 32 /\ length (ipv6_addr (node_addr t)) = IPV6_ADDRESS_LEN /\
  (ip_type (node_addr t) = PDN_TYPE_IPV6 ->
   exists b l, ipv6_addr (node_addr t) = b :: l /\ 16 <= byte_to_Z b).

(** The line without its newline. *)
Definition record_text (sep : text) (t : teidri_info) (v4d : Z) : text :=
  fmt_u (teid_range t) ++ lit " ," ++ fmt_ipv6 (ipv6_addr (node_addr t)) ++ lit ", "
  ++ fmt_u (ipv4_addr (node_addr t)) ++ sep ++ fmt_ipv4_host (ntohl v4d) ++ lit ", ".

Lemma record_line_text sep t v4d :
  record_line sep (teid_range t) (ipv6_addr (node_addr t)) (ipv4_addr (node_addr t)) v4d
  = record_text sep t v4d ++ [newline].
Proof. unfold record_line, record_text. by rewrite <- !app_assoc. Qed.

Lemma lit_no_newline : Forall (fun c => c <> newline) (lit " ,") /\
  Forall (fun c => c <> newline) (lit ", ") /\ Forall (fun c => c <> newline) (lit ",").
Proof. repeat split; repeat constructor; done. Qed.

Lemma plain_newline t : Forall (fun c => plain c = true) t -> Forall (fun c => c <> newline) t.
Proof.
  intros H. eapply Forall_impl; [exact H|]. intros c Hc. unfold plain in Hc.
  apply andb_true_iff in Hc as [_ Hc]. by apply bool_decide_eq_true in Hc.
Qed.

Lemma record_text_fits sep t v4d :
  entry_ok t -> sep = lit ", " \/ sep = lit "," ->
  Forall (fun c => c <> newline) (record_text sep t v4d) /\
  (length (record_text sep t v4d) < BUF_READ_SIZE - 1)%nat.
Proof.
  intros (Hr & _ & H4 & H6 & _) Hsep. unfold record_text. split.
  - destruct lit_no_newline as (L1 & L2 & L3).
    assert (Forall (fun c => c <> newline) sep) by (by destruct Hsep as [-> | ->]).
    repeat first [assumption
      |apply plain_newline; first [apply fmt_u_plain; lia|apply fmt_ipv6_plain|apply fmt_ipv4_plain]
      |apply Forall_app; split].
  - rewrite !length_app, (fmt_ipv6_length _ H6).
    assert (length sep <= 2)%nat by (destruct Hsep as [-> | ->]; simpl; lia).
    pose proof (fmt_u_length (teid_range t)). pose proof (fmt_u_length (ipv4_addr (node_addr t))).
    pose proof (fmt_ipv4_length (ntohl v4d)). unfold BUF_READ_SIZE.
    change (length (lit " ,")) with 2%nat. change (length (lit ", ")) with 2%nat. lia.
Qed.

Lemma u8_atoi_range r s :
  0 <= r < 256 -> (forall c l, s = c :: l -> isdigit c = false) -> u8 (atoi (fmt_u r ++ s)) = r.
Proof.
  intros Hr Hs. change (fmt_u r ++ s) with ([] ++ fmt_u r ++ s).
  rewrite atoi_fmt_u by (done || lia). rewrite swrap_small by (pow2; lia).
  apply wrap_small. pow2. lia.
Qed.

Lemma u32_swrap z : 0 <= z < 2 ^ 32 -> u32 (swrap 32 z) = z.
Proof.
  intros Hz. unfold swrap. rewrite Z.mod_small by done. unfold wrap.
  destruct (z <? 2 ^ (32 - 1)); [by apply Z.mod_small|].
  replace (z - 2 ^ 32) with (z + (-1) * 2 ^ 32) by lia.
  rewrite Z.mod_add by lia. by apply Z.mod_small.
Qed.

Lemma hex_char_zero d : 0 <= d < 16 -> hex_char d = "0"%char <-> d = 0.
Proof.
  intros. split; [|by intros ->].
  assert (d = 0 \/ d = 1 \/ d = 2 \/ d = 3 \/ d = 4 \/ d = 5 \/ d = 6 \/ d = 7 \/ d = 8 \/ d = 9
    \/ d = 10 \/ d = 11 \/ d = 12 \/ d = 13 \/ d = 14 \/ d = 15) as Hd by lia.
  repeat destruct Hd as [->|Hd]; try done. by subst.
Qed.

Section Persist.
Context (inet_pton6 : text -> option (list byte)).
(** inet_pton(3): the full textual form of an IPv6 address denotes it. *)
Hypothesis pton_full : forall a, length a = IPV6_ADDRESS_LEN -> inet_pton6 (fmt_ipv6 a) = Some a.

Lemma parse_record_text sep t v4d :
  entry_ok t -> sep = lit ", " \/ sep = lit "," ->
  exists token rest,
    strtok comma (record_text sep t v4d ++ [newline]) = Some (token, rest) /\
    parse_record inet_pton6 token rest = t.
Proof.
  intros (Hr & Hok & H4 & H6 & Hb) Hsep. unfold record_text.
  set (tail := sep ++ _ ++ _).
  set (rest := fmt_ipv6 (ipv6_addr (node_addr t)) ++ lit ", " ++ fmt_u (ipv4_addr (node_addr t))
    ++ sep ++ fmt_ipv4_host (ntohl v4d) ++ lit ", " ++ [newline]).
  exists (fmt_u (teid_range t) ++ [" "%char]), rest. split.
  { replace ((fmt_u (teid_range t) ++ lit " ," ++ _) ++ [newline])
      with ((fmt_u (teid_range t) ++ [" "%char]) ++ comma :: rest)
      by (unfold rest, tail; rewrite <- !app_assoc; done).
    apply strtok_app; [by intros [_ ?]%app_nil|].
    apply plain_comma, Forall_app. split; [apply fmt_u_plain; lia|by constructor]. }
  assert (strtok comma rest = Some (fmt_ipv6 (ipv6_addr (node_addr t)),
    [" "%char] ++ fmt_u (ipv4_addr (node_addr t)) ++ sep ++ fmt_ipv4_host (ntohl v4d)
    ++ lit ", " ++ [newline])) as Htok.
  { unfold rest. change (lit ", ") with (comma :: [" "%char]) at 1.
    apply strtok_app; [|apply plain_comma, fmt_ipv6_plain].
    intros E. apply (f_equal length) in E. by rewrite fmt_ipv6_length in E. }
  unfold parse_record. rewrite Htok, (u8_atoi_range (teid_range t) [" "%char])
    by first [exact Hr|intros c l [= <- _]; reflexivity].
  destruct t as [[ty v4 v6] r].
  cbn [node_addr teid_range ip_type ipv4_addr ipv6_addr] in *.
  destruct v6 as [|b v6]; [done|]. destruct (fmt_ipv6_head b v6 H6) as [l El].
  pose proof (byte_to_Z_range b).
  assert (0 <= byte_to_Z b / 16 < 16) as Hh by (split; [apply Z.div_pos|apply Z.div_lt_upper_bound]; lia).
  destruct Hok as [(Hty&?&Hz)|(Hty&Hv4&_&Hnz)];
    cbn [ip_type ipv4_addr ipv6_addr] in Hty; subst ty.
  - cbn [ipv6_addr] in Hz. rewrite El. injection Hz as Hb0 Hz. subst b.
    change (hex_char (byte_to_Z x00 / 16)) with "0"%char.
    assert (exists s, strtok comma ([" "%char] ++ fmt_u v4 ++ sep ++ fmt_ipv4_host (ntohl v4d)
      ++ lit ", " ++ [newline]) = Some ([" "%char] ++ fmt_u v4 ++ [], s)) as [s ->].
    { assert (exists s', sep = comma :: s') as [s' ->] by (destruct Hsep as [-> | ->]; by eexists).
      eexists. rewrite app_nil_r, app_assoc. cbn [app].
      apply (strtok_app comma (" "%char :: fmt_u v4)); [done|].
      constructor; [done|]. apply plain_comma, fmt_u_plain. lia. }
    rewrite atoi_fmt_u, u32_swrap by (done || lia). by rewrite Hz.
  - cbn [ipv4_addr] in Hv4. subst v4. destruct (Hb eq_refl) as (b' & l' & [= <- <-] & Hge).
    assert (hex_char (byte_to_Z b / 16) <> "0"%char) as Hne.
    { rewrite hex_char_zero by done. pose proof (Z.div_le_lower_bound (byte_to_Z b) 16 1). lia. }
    pose proof (pton_full (b :: v6) H6) as Hp. rewrite El in Hp |- *.
    destruct (hex_char (byte_to_Z b / 16)) as [[] [] [] [] [] [] [] []]; try done;
      by rewrite Hp.
Qed.

Lemma fgets_record sep t v4d s :
  entry_ok t -> sep = lit ", " \/ sep = lit "," ->
  fgets (BUF_READ_SIZE - 1) ((record_text sep t v4d ++ [newline]) ++ s)
  = (record_text sep t v4d ++ [newline], s).
Proof.
  intros Ht Hsep. destruct (record_text_fits sep t v4d Ht Hsep).
  rewrite <- app_assoc. by apply fgets_line.
Qed.

(** Each record is read back as itself; the second component of the pairs of [l]
    is the address the dotted field shows, which the reader ignores. *)
Definition lines_of (sep : text) (l : list (teidri_info * Z)) : text :=
  concat ((fun p => record_text sep p.1 p.2 ++ [newline]) <$> l).

Lemma read_lines_records sep val l fuel n bl :
  sep = lit ", " \/ sep = lit "," -> Forall (fun p => entry_ok p.1) l ->
  1 <= n -> n + Z.of_nat (length l) < 256 -> (length l <= fuel)%nat ->
  read_lines inet_pton6 fuel (fun _ => true) val
    (lines_of sep l) n n true bl
  = Eof (bl ++ l.*1) (n + Z.of_nat (length l)).
Proof.
  intros Hsep Hl. revert fuel n bl; induction Hl as [|[t d] l Ht Hl IH]; intros fuel n bl Hn Hb Hf.
  - simpl. rewrite app_nil_r, Z.add_0_r. by destruct fuel.
  - destruct fuel as [|fuel]; [simpl in Hf; lia|]. unfold lines_of. rewrite fmap_cons. cbn [concat read_lines fst snd].
    fold (lines_of sep l). cbn [fst] in Ht. rewrite fgets_record by done.
    destruct (parse_record_text sep t d Ht Hsep) as (token & rest & Htok & Hparse).
    rewrite Htok, Hparse.
    destruct (record_text sep t d ++ [newline]) as [|c l'] eqn:E; [by apply app_nil in E as [_ ?]|].
    rewrite wrap_small by (pow2; simpl length in Hb; lia).
    rewrite bool_decide_false by (unfold FIRST_LINE; lia).
    rewrite bool_decide_true by (unfold FIRST_LINE; lia).
    cbn [length] in Hb, Hf. rewrite IH by lia. rewrite add_teidri_info_app, <- app_assoc.
    f_equal. cbn [length]. lia.
Qed.

Lemma first_line_same val :
  0 <= val < 256 ->
  exists rest, strtok comma (teidri_line val) = Some (lit "TEIDRI ", rest) /\
    same_teidri val (lit "TEIDRI ") rest false = true.
Proof.
  intros Hv. exists ([" "%char] ++ fmt_u val ++ lit " ," ++ [newline]). split; [reflexivity|].
  unfold same_teidri. change (starts_with TEID_NAME (lit "TEIDRI ")) with true. cbn match.
  replace ([" "%char] ++ fmt_u val ++ lit " ," ++ [newline])
    with (([" "%char] ++ fmt_u val ++ [" "%char]) ++ comma :: [newline])
    by (rewrite <- !app_assoc; done).
  rewrite strtok_app; [|done|].
  2: { constructor; [done|]. apply Forall_app; split; [|by constructor].
       apply plain_comma, fmt_u_plain. lia. }
  rewrite atoi_fmt_u by first [lia|reflexivity|intros c l [= <- _]; reflexivity].
  rewrite swrap_small, wrap_small by (pow2; lia). by rewrite bool_decide_true.
Qed.

(** The file with the first line for [val] and the records of [l]. *)
Lemma read_file sep val l s :
  s = teidri_line val ++ lines_of sep l ->
  0 <= val < 256 -> sep = lit ", " \/ sep = lit "," -> Forall (fun p => entry_ok p.1) l ->
  Z.of_nat (length l) < 255 ->
  read_lines inet_pton6 (length s) (fun _ => true) val s 0 0 false []
  = Eof l.*1 (1 + Z.of_nat (length l)).
Proof.
  intros Hs Hv Hsep Hl Hlen.
  assert (length l < length s)%nat as Hfuel.
  { rewrite Hs, length_app.
    assert (0 < length (teidri_line val))%nat by (unfold teidri_line; rewrite length_app; simpl; lia).
    enough (length l <= length (lines_of sep l))%nat by lia.
    clear. unfold lines_of. induction l as [|t l IH]; [done|].
    rewrite fmap_cons. cbn [concat length]. rewrite !length_app. cbn [length]. lia. }
  destruct (length s) as [|fuel] eqn:Ef; [lia|]. cbn [read_lines].
  assert (fgets (BUF_READ_SIZE - 1) s
    = (teidri_line val, lines_of sep l)) as ->.
  { rewrite Hs. replace (teidri_line val) with ((lit "TEIDRI , " ++ fmt_u val ++ lit " ,") ++ [newline])
      by (unfold teidri_line; rewrite <- !app_assoc; done).
    rewrite <- app_assoc. apply fgets_line.
    - apply Forall_app; split; [repeat constructor; done|].
      apply Forall_app; split; [apply plain_newline, fmt_u_plain; lia|repeat constructor; done].
    - rewrite !length_app. pose proof (fmt_u_length val). unfold BUF_READ_SIZE. simpl. lia. }
  destruct (first_line_same val Hv) as (rest & Htok & Hsame). rewrite Htok, Hsame.
  destruct (teidri_line val) as [|c l'] eqn:El; [done|].
  change (u8 (0 + 1)) with 1. rewrite bool_decide_true by done.
  by rewrite (read_lines_records sep val l fuel 1 []) by (done || lia).
Qed.
End Persist.

(** ** Properties *)

(** C35. From the lists built at start-up, after any sequence of associations,
    peer deletions and timer flushes, with any outcome of the allocations and
    of the file operations, no TEID range is in two places: two peers never
    hold the same range, and every range is one of the [2^teidri].  This holds
    when all peers are IPv4, and for IPv4 and IPv6 peers when the memory that
    [malloc] returns holds no old address; it does not hold for IPv6 peers and
    any memory, see [ipv6_peer_frees_a_range_in_use]. *)
Theorem reachable_ranges_exclusive val num_cp b f s0 s :
  1 <= val <= 7 -> NoDup (ranges b) -> Forall (fun r => 0 <= r < 2 ^ val) (ranges b) ->
  Z.of_nat (length b) <= num_cp < 256 -> boot val num_cp b f = Some s0 ->
  rtc (upf_step v4_addr any_block val) s0 s \/ rtc (upf_step node_addr_ok clean_block val) s0 s ->
  NoDup (ranges (allocated s)) /\ NoDup (all_ranges s) /\
  Forall (fun r => 0 <= r < 2 ^ val) (all_ranges s).
Proof.
  intros Hval Hnd Hb Hlen Hs0 Hsteps.
  destruct (boot_lists_ok _ _ _ _ _ Hval Hnd Hb Hlen Hs0) as [Hok Hall].
  assert (NoDup (all_ranges s) /\ exists lost, all_ranges s0 ≡ₚ all_ranges s ++ lost) as [H1 (lost & Hp)].
  { destruct Hsteps as [Hs|Hs]; [apply (steps_ranges _ _ _ v4_addr) in Hs|apply (steps_ranges _ _ _ node_addr_ok) in Hs];
      try apply Hok; destruct Hs as [[H1 _ _] H2]; done. }
  split; [|split; [done|]].
  - unfold all_ranges in H1. by apply NoDup_app in H1 as (? & _ & _).
  - rewrite Hp in Hall. by apply Forall_app in Hall as [? _].
Qed.

(** With IPv6 peers the two lists can end up with the same range: the lookup compares only
    the member of the key's type, so that the deletion of an IPv6 peer finds the node of an
    IPv4 peer whose memory still holds that IPv6 address, adds its range to the free list,
    and then, as the second comparison looks at the types, removes no node. *)
Theorem ipv6_peer_frees_a_range_in_use mem wr printed val s a t rest m al fr f ret :
  allocated s = t :: rest -> node_addr_ok a -> ip_type a = PDN_TYPE_IPV6 ->
  ip_type (node_addr t) = PDN_TYPE_IPV4 -> ipv6_addr (node_addr t) = ipv6_addr a ->
  get_teidri_info rest a = None -> mem = Some m ->
  delete_teidri_node_entry mem wr printed (file s) a (allocated s) (free s) val = Some (ret, f, al, fr) ->
  al = allocated s /\ teid_range t ∈ ranges al /\ teid_range t ∈ ranges fr.
Proof.
  intros Hal Ha H6 Ht Hm Hrest -> . unfold delete_teidri_node_entry.
  assert (node_addr_null a = false) as ->.
  { destruct Ha as [(E & _)|(_ & E4 & _ & E6)]; [by rewrite E in H6|]. unfold node_addr_null.
    by rewrite (bool_decide_false (head _ = _)), andb_false_r. }
  rewrite Hal. cbn [get_teidri_info].
  assert (forall e, node_addr_match a e = bool_decide (ipv6_addr e = ipv6_addr a)) as Hma.
  { intros e. unfold node_addr_match. by rewrite H6. }
  rewrite Hma, bool_decide_true by done. rewrite delete_ip_spec by done. cbn [mbind option_bind].
  assert (forall e, compare_ip_address e a = bool_decide (ip_type e = PDN_TYPE_IPV6) && bool_decide (ipv6_addr e = ipv6_addr a)) as Hca.
  { intros e. unfold compare_ip_address. rewrite H6, (bool_decide_false (PDN_TYPE_IPV6 = PDN_TYPE_IPV4)) by done.
    rewrite andb_false_r, (bool_decide_true (PDN_TYPE_IPV6 = PDN_TYPE_IPV6)), andb_true_r by done.
    by destruct (bool_decide (ip_type e = PDN_TYPE_IPV6)). }
  assert (remove_first (fun u => compare_ip_address (node_addr u) a) rest = rest) as Hrm.
  { clear Hal. revert Hrest. induction rest as [|u rest IH]; [done|]. cbn [get_teidri_info remove_first].
    rewrite Hma, Hca. destruct (bool_decide (ipv6_addr _ = _)); [done|]. rewrite andb_false_r. intros Hr. by rewrite IH. }
  cbn [remove_first]. rewrite Hca, Ht, (bool_decide_false (PDN_TYPE_IPV4 = PDN_TYPE_IPV6)) by done. cbn [andb]. rewrite Hrm.
  destruct (rewrite_records _ _ _ _ _ _) as [ret' f']. intros [= _ _ <- <-]. split; [done|].
  split; [by left|]. rewrite add_teidri_info_app. unfold ranges. rewrite fmap_app. apply elem_of_app. right. by left.
Qed.

(** The association and the deletion of a peer conserve the ranges of the
    three lists; the flush does so except when the free list is empty, and then
    the blocked ranges are in no list after it nor after any further step. *)
Theorem flush_with_empty_free_list_loses_ranges val peer block entry `{!Peers peer block entry} s s' :
  lists_ok entry s -> upf_step peer block val s s' ->
  all_ranges s ≡ₚ all_ranges s' \/
  (free s = [] /\ forall s'' r, rtc (upf_step peer block val) s' s'' -> r ∈ ranges (blocked s) ->
                                r ∉ all_ranges s'').
Proof.
  intros Hok Hstep. destruct (step_ranges val peer block entry s s' Hstep Hok) as [Hok' (lost & Hp & Hl)].
  destruct Hl as [->|(Hf & -> & Ha)]; [left; by rewrite app_nil_r in Hp|]. right. split; [done|].
  intros s'' r Hsteps Hr Hin. destruct (steps_ranges val peer block entry s' s'' Hsteps Hok') as [_ (l2 & Hp2)].
  assert (r ∈ all_ranges s') as Hin' by (rewrite Hp2; apply elem_of_app; by left).
  destruct Hok as [Hnd _ _]. rewrite Hp in Hnd. apply NoDup_app in Hnd as (_ & Hd & _).
  by apply (Hd r).
Qed.

(** A peer that is accepted keeps its range: as long as its address is not
    also in the blocked list, a second association setup announces the range of
    the first one and leaves the lists as they are. *)
Theorem reassociation_keeps_range mem wr wr' val a s m :
  lists_ok v4_addr s -> 1 <= val <= 7 -> v4_addr a -> ipv4_addr a <> 0 -> mem = Some m ->
  get_teidri_info (blocked s) a = None ->
  let '(r, rejected, s1) := assoc_teidri mem wr val a s in
  if rejected then s1 = s /\ free s = []
  else 0 <= r < 128 /\ assoc_teidri mem wr' val a s1 = (r, false, s1).
Proof.
  intros Hok Hval Ha Hnz -> Hbl. unfold assoc_teidri, get_teidri_from_list.
  rewrite (bool_decide_true (val <> 0)), Hbl by lia. simpl.
  destruct (get_teidri_info (allocated s) a) as [t|] eqn:Et; simpl.
  - rewrite Hbl, Et; simpl. split; [|done].
    apply get_teidri_info_Some in Et as [Hin _]. destruct Hok as [_ Hb _].
    unfold all_ranges in Hb. apply Forall_app in Hb as [Hb _]. rewrite Forall_forall in Hb.
    apply Hb. by apply list_elem_of_fmap_2.
  - destruct (free s) as [|t fr] eqn:Ef; [by rewrite assign_empty by lia|].
    pose proof (free_head_range _ s t fr Hok Ef) as Hr.
    rewrite assign_first, (bool_decide_false (teid_range t < 0)) by lia.
    destruct (add_entry_new m (Some wr) (file s) (teid_range t) a (allocated s) (t :: fr))
      as (ret & f' & ->); [done..|]. simpl.
    assert (get_teidri_info (add_teidri_info (allocated s)
      (mk_teidri (copy_node_addr (node_addr m) a) (teid_range t))) a
      = Some (mk_teidri (copy_node_addr (node_addr m) a) (teid_range t))) as Hget.
    { rewrite add_teidri_info_app. clear - Et Ha.
      induction (allocated s) as [|u l IH]; simpl in *.
      - by rewrite copy_node_addr_v4_match.
      - destruct (node_addr_match a (node_addr u)); [done|auto]. }
    by rewrite Hbl, Hget.
Qed.

(** A rewritten file whose every record was printed. *)
Lemma imap_all (line : teidri_info -> text) l :
  concat (imap (fun _ t => line t) l) = concat (line <$> l).
Proof. induction l as [|t l IH]; [done|]. rewrite imap_cons, fmap_cons. cbn. by f_equal. Qed.

Lemma rewrite_records_ok wr line val f l :
  fopen_ok wr = true -> fprintf_ok wr = true -> fclose_ok wr = true ->
  rewrite_records wr (fun _ => true) line val f l
  = (0, Some (teidri_line val ++ concat (line <$> l))).
Proof. intros H1 H2 H3. unfold rewrite_records. rewrite H1, H2, H3. by rewrite imap_all. Qed.

(** The entries of [l] as their records show them, in a file of [val]. *)
Lemma read_file_restores inet_pton6 wr' val l :
  (forall a, length a = IPV6_ADDRESS_LEN -> inet_pton6 (fmt_ipv6 a) = Some a) ->
  1 <= val <= 7 -> Forall (fun p => entry_ok p.1) l -> Z.of_nat (length l) < 255 ->
  NoDup (ranges l.*1) ->
  read_teidri_data inet_pton6 true wr' (fun _ => true) (fun _ => true)
    (Some (teidri_line val ++ lines_of (lit ",") l)) [] [] val
  = Some (0, Some (teidri_line val ++ lines_of (lit ",") l), l.*1, mk_teidri node_addr_zero <$>
            filter (fun r => r ∉ ranges l.*1) (seqZ 0 (2 ^ val))).
Proof.
  intros Hp Hval Hl Hlen Hnd. unfold read_teidri_data.
  rewrite (read_file inet_pton6 Hp (lit ",") val l _ eq_refl) by first [lia|done|by right].
  pose proof (Z.pow_pos_nonneg 2 val ltac:(lia) ltac:(lia)).
  unfold create_teid_range_free_list. rewrite MAX_TEID_pow by done. cbn.
  pose proof (length_filter (fun x => 0 <= x) (ranges l.*1)) as Hf.
  unfold ranges in Hf. rewrite !length_fmap in Hf.
  rewrite create_loop_spec by first [done|lia|unfold ranges; lia].
  by rewrite Z2Nat.id by lia.
Qed.

Lemma v4_ok_ipv6 a : node_addr_ok a -> v4_addr a -> ipv6_addr a = ipv6_zero.
Proof. unfold v4_addr. intros [(_&_&?)|(->&_)]; done. Qed.

(** The records of the connected peers survive a restart: when the timer's
    flush succeeds, [read_teidri_data] on the file it leaves gives back exactly
    the allocated nodes as the blocked list, and the other ranges as free. *)
Theorem flush_then_read_restores inet_pton6 wr wr' bl fr al val f :
  (forall a, length a = IPV6_ADDRESS_LEN -> inet_pton6 (fmt_ipv6 a) = Some a) ->
  fopen_ok wr = true -> fprintf_ok wr = true -> fclose_ok wr = true ->
  1 <= val <= 7 -> Forall entry_ok al -> NoDup (ranges al) -> Z.of_nat (length al) < 255 ->
  let '(ret, f', _, _) := flush_inactive_teidri_data wr (fun _ => true) f bl al fr val in
  ret = 0 /\
  read_teidri_data inet_pton6 true wr' (fun _ => true) (fun _ => true) f' [] [] val
  = Some (0, f', al,
          mk_teidri node_addr_zero <$> filter (fun r => r ∉ ranges al) (seqZ 0 (2 ^ val))).
Proof.
  intros Hp H1 H2 H3 Hval Hal Hnd Hlen. unfold flush_inactive_teidri_data.
  rewrite rewrite_records_ok by done.
  set (l := (fun t => (t, ipv4_addr (node_addr t))) <$> al).
  assert (l.*1 = al) as Hl by (unfold l; rewrite <- list_fmap_compose; apply list_fmap_id).
  pose proof (read_file_restores inet_pton6 wr' val l Hp Hval) as Hread.
  rewrite Hl in Hread.
  assert (lines_of (lit ",") l = concat ((fun t => record_line (lit ",") (teid_range t)
    (ipv6_addr (node_addr t)) (ipv4_addr (node_addr t)) (ipv4_addr (node_addr t))) <$> al)) as <-.
  { unfold lines_of, l. rewrite <- list_fmap_compose. f_equal. apply list_fmap_ext.
    intros i t _. by rewrite record_line_text. }
  destruct bl, fr; (split; [done|]); apply Hread; unfold l;
    rewrite ?Forall_fmap, ?length_fmap; done.
Qed.

(** After the deletion of a peer the rewritten file gives {e every} remaining
    record the IPv4 address of the deleted peer, so a restart attributes the
    ranges of all connected peers to the one that left. *)
Theorem delete_rewrites_other_records inet_pton6 m wr wr' a al fr val f :
  (forall a, length a = IPV6_ADDRESS_LEN -> inet_pton6 (fmt_ipv6 a) = Some a) ->
  fopen_ok wr = true -> fprintf_ok wr = true -> fclose_ok wr = true ->
  1 <= val <= 7 -> node_addr_ok a -> v4_addr a -> 0 <= ipv4_addr a < 2 ^ 32 ->
  Forall entry_ok al -> Forall (fun t => v4_addr (node_addr t)) al -> NoDup (ranges al) ->
  get_teidri_info al a <> None -> Z.of_nat (length al) < 255 ->
  exists f' al' fr' fr'',
    delete_teidri_node_entry (Some m) wr (fun _ => true) f a al fr val = Some (0, Some f', al', fr')
    /\ S (length al') = length al /\
    read_teidri_data inet_pton6 true wr' (fun _ => true) (fun _ => true) (Some f') [] [] val
    = Some (0, Some f', (fun t => mk_teidri a (teid_range t)) <$> al', fr'').
Proof.
  intros Hp H1 H2 H3 Hval Ha Hv4 Hr4 Hal Hal4 Hnd Hget Hlen. unfold delete_teidri_node_entry.
  assert (node_addr_null a = false) as ->.
  { unfold node_addr_null. destruct Ha as [(_&?&_)|(Ht&_)]; [by rewrite bool_decide_false|].
    unfold v4_addr in Hv4. rewrite Hv4 in Ht. done. }
  destruct (get_teidri_info al a) as [t|] eqn:Et; [|done].
  pose proof (get_teidri_info_Some _ _ _ Et) as [Hin Hm].
  rewrite delete_ip_spec by (intros E; rewrite E in Hin; by apply elem_of_nil in Hin).
  cbn [mbind option_bind].
  set (al' := remove_first _ al). rewrite rewrite_records_ok by done.
  destruct (remove_first_perm (fun u => compare_ip_address (node_addr u) a) al t)
    as (u & _ & Hperm); [done| |].
  { rewrite <- v4_match_compare by first [done|by rewrite Forall_forall in Hal4; apply Hal4]. done. }
  fold al' in Hperm. unfold ranges in Hnd. rewrite Hperm in Hnd. apply NoDup_cons in Hnd as [_ Hnd].
  apply Permutation_length in Hperm. cbn in Hperm.
  set (l := (fun t => (mk_teidri a (teid_range t), ipv4_addr (node_addr t))) <$> al').
  assert (l.*1 = (fun t => mk_teidri a (teid_range t)) <$> al') as Hl
    by (unfold l; by rewrite <- list_fmap_compose).
  pose proof (read_file_restores inet_pton6 wr' val l Hp Hval) as Hread.
  rewrite Hl in Hread.
  assert (ipv6_addr a = ipv6_zero) as Hz6 by (by apply v4_ok_ipv6).
  assert (Forall (fun t => ipv6_addr (node_addr t) = ipv6_zero /\ 0 <= teid_range t < 256) al') as Hall.
  { apply remove_first_Forall. apply Forall_forall. rewrite Forall_forall in Hal, Hal4.
    intros w Hw. destruct (Hal w Hw) as (? & ? & _). specialize (Hal4 w Hw).
    split; [by apply v4_ok_ipv6|done]. }
  assert (lines_of (lit ",") l = concat ((fun t => record_line (lit ",") (teid_range t)
    (ipv6_addr (node_addr t)) (ipv4_addr a) (ipv4_addr (node_addr t))) <$> al')) as Hlines.
  { unfold lines_of, l. rewrite <- list_fmap_compose. f_equal. apply Forall_fmap_ext_1.
    eapply Forall_impl; [exact Hall|]. intros w [Hz _]. cbn.
    by rewrite <- record_line_text; cbn; rewrite Hz, Hz6. }
  eexists (teidri_line val ++ lines_of (lit ",") l), al', _, _.
  split; [rewrite Hlines; reflexivity|]. split; [done|]. rewrite Hread; [reflexivity|..].
  - unfold l. apply Forall_fmap. eapply Forall_impl; [exact Hall|]. intros w [_ Hw]. cbn.
    split; [done|]. split; [done|]. split; [done|]. cbn. rewrite Hz6. split; [done|].
    unfold v4_addr in Hv4. rewrite Hv4. done.
  - unfold l. rewrite length_fmap. lia.
  - unfold ranges. rewrite <- list_fmap_compose. exact Hnd.
Qed.

(** ** Witnesses *)

(** [inet_pton] on full-form addresses, as 3GPP peers are configured here. *)
Definition hex_val (c : ascii) : option Z :=
  if isdigit c then Some (char_code c - 48)
  else if in_range 97 102 c then Some (char_code c - 87)
  else if in_range 65 70 c then Some (char_code c - 55) else None.

Fixpoint pton_groups (s : text) : option (list byte) :=
  match s with
  | h0 :: l0 :: h1 :: l1 :: s =>
      a ← hex_val h0; b ← hex_val l0; c ← hex_val h1; d ← hex_val l1;
      let bs := [byte_of_Z (16 * a + b); byte_of_Z (16 * c + d)] in
      match s with
      | [] => Some bs
      | ":"%char :: s => rest ← pton_groups s; Some (bs ++ rest)
      | _ => None
      end
  | _ => None
  end.

Lemma hex_val_char d : 0 <= d < 16 -> hex_val (hex_char d) = Some d.
Proof.
  intros. assert (d = 0 \/ d = 1 \/ d = 2 \/ d = 3 \/ d = 4 \/ d = 5 \/ d = 6 \/ d = 7 \/ d = 8 \/ d = 9
    \/ d = 10 \/ d = 11 \/ d = 12 \/ d = 13 \/ d = 14 \/ d = 15) as Hd by lia.
  repeat destruct Hd as [->|Hd]; try reflexivity. by subst.
Qed.

Lemma byte_nibbles b : byte_of_Z (16 * (byte_to_Z b / 16) + byte_to_Z b mod 16) = b.
Proof. rewrite <- Z.div_mod by lia. apply byte_of_to_Z. Qed.

Lemma pton_groups_full a :
  length a = IPV6_ADDRESS_LEN -> pton_groups (fmt_ipv6 a) = Some a.
Proof.
  assert (forall n b0 b1 a, length a = (n * 2)%nat ->
    pton_groups (fmt_ipv6 (b0 :: b1 :: a)) = Some (b0 :: b1 :: a)) as H.
  { assert (forall b, 0 <= byte_to_Z b / 16 < 16 /\ 0 <= byte_to_Z b mod 16 < 16) as Hn.
    { intros b. pose proof (byte_to_Z_range b). split; [zdiv|apply Z.mod_pos_bound; lia]. }
    induction n as [|n IH]; intros b0 b1 l Hl.
    - destruct l; [|done]. cbn. unfold fmt_02x. cbn.
      rewrite !hex_val_char by apply Hn. cbn. by rewrite !byte_nibbles.
    - destruct l as [|b2 [|b3 l]]; try done.
      change (fmt_ipv6 (b0 :: b1 :: b2 :: b3 :: l))
        with (fmt_02x b0 ++ fmt_02x b1 ++ ":"%char :: fmt_ipv6 (b2 :: b3 :: l)).
      unfold fmt_02x at 1 2. cbn [app pton_groups].
      rewrite !hex_val_char by apply Hn. cbn [mbind option_bind].
      rewrite IH by (cbn in Hl; lia). cbn. by rewrite !byte_nibbles. }
  intros Hl. destruct a as [|b0 [|b1 a]]; try done. apply (H 7%nat). by injection Hl.
Qed.

Definition peer_a : node_address_t := mk_node_address PDN_TYPE_IPV4 0x0100000a ipv6_zero.
Definition peer_b : node_address_t := mk_node_address PDN_TYPE_IPV4 0xc8000a0a ipv6_zero.
Definition peer_c : node_address_t :=
  mk_node_address PDN_TYPE_IPV6 0 (x20 :: x01 :: x0d :: xb8 :: replicate 11 x00 ++ [x07]).
Definition two_peers : list teidri_info := [mk_teidri peer_a 2; mk_teidri peer_b 5].
Definition all_ok : io := mk_io true true true.
Definition some_block : teidri_info := mk_teidri (mk_node_address 3 99 (replicate 16 xaa)) 77.

Lemma two_peers_ok : Forall entry_ok two_peers.
Proof.
  repeat constructor; cbn; try lia; try done; try (left; done).
Qed.

Lemma reachable_ranges_exclusive_witness :
  exists s, rtc (upf_step v4_addr any_block 2)
    (mk_upf [] [mk_teidri peer_b 1] [mk_teidri node_addr_zero 0; mk_teidri node_addr_zero 2;
       mk_teidri node_addr_zero 3] None true) s /\ NoDup (ranges (allocated s)).
Proof.
  eexists. split.
  - eapply rtc_l; [apply (step_assoc _ _ 2 (Some some_block) all_ok peer_a); done|].
    eapply rtc_l; [apply (step_assoc _ _ 2 (Some some_block) all_ok peer_b); done|]. apply rtc_refl.
  - refine (proj1 (reachable_ranges_exclusive 2 2 [mk_teidri peer_b 1] None _ _ _ _ _ _ _ _)).
    + lia.
    + repeat constructor; intros H; inversion H.
    + repeat constructor; cbn; lia.
    + cbn; lia.
    + reflexivity.
    + left. eapply rtc_l; [apply (step_assoc _ _ 2 (Some some_block) all_ok peer_a); done|].
      eapply rtc_l; [apply (step_assoc _ _ 2 (Some some_block) all_ok peer_b); done|]. apply rtc_refl.
Defined.

(** The IPv4 peer's node in the memory of a freed node of the IPv6 peer. *)
Definition reused_node : teidri_info :=
  mk_teidri (mk_node_address PDN_TYPE_IPV4 0x0100000a (ipv6_addr peer_c)) 1.

Lemma ipv6_peer_frees_a_range_in_use_witness :
  exists ret f al fr,
    delete_teidri_node_entry (Some some_block) all_ok (fun _ => true) None peer_c [reused_node] [] 1 = Some (ret, f, al, fr) /\
    1 ∈ ranges al /\ 1 ∈ ranges fr.
Proof.
  eexists _, _, _, _. split; [reflexivity|].
  refine (proj2 (ipv6_peer_frees_a_range_in_use (Some some_block) all_ok (fun _ => true) 1
    (mk_upf [reused_node] [] [] None true) peer_c reused_node [] some_block _ _ _ _ eq_refl _ eq_refl eq_refl eq_refl eq_refl eq_refl eq_refl)).
  right. by vm_compute.
Defined.

Lemma flush_with_empty_free_list_loses_ranges_witness :
  let s := mk_upf [mk_teidri peer_a 0] [mk_teidri peer_b 1] [] None true in
  let s' := mk_upf [mk_teidri peer_a 0] [] [] (Some (teidri_line 1 ++
     record_line (lit ",") 0 (ipv6_addr peer_a) (ipv4_addr peer_a) (ipv4_addr peer_a))) true in
  all_ranges s ≡ₚ all_ranges s' \/
  (free s = [] /\ forall s'' r, rtc (upf_step v4_addr any_block 1) s' s'' -> r ∈ ranges (blocked s) ->
                                r ∉ all_ranges s'').
Proof.
  intros s s'. apply (flush_with_empty_free_list_loses_ranges 1 v4_addr any_block v4_addr s s').
  - split; [repeat constructor; set_solver|repeat constructor; cbn; lia|repeat constructor].
  - apply (step_flush _ _ 1 all_ok (fun _ => true) s 0 _ [] []). vm_compute. reflexivity.
Defined.

Lemma reassociation_keeps_range_witness :
  let s := mk_upf [] [] [mk_teidri node_addr_zero 6] None true in
  assoc_teidri (Some some_block) all_ok 3 peer_a (assoc_teidri (Some some_block) all_ok 3 peer_a s).2
  = (6, false, (assoc_teidri (Some some_block) all_ok 3 peer_a s).2).
Proof.
  intros s. pose proof (reassociation_keeps_range (Some some_block) all_ok all_ok 3 peer_a s some_block)
    as H. vm_compute in H |- *.
  refine (proj2 (H _ _ _ _ _ _)); try reflexivity; try discriminate.
  - split; [repeat constructor; set_solver|repeat constructor; cbn; lia|repeat constructor].
  - split; discriminate.
Defined.

Lemma flush_then_read_restores_witness :
  read_teidri_data pton_groups true all_ok (fun _ => true) (fun _ => true)
    (flush_inactive_teidri_data all_ok (fun _ => true) None [] two_peers [] 3).1.1.2 [] [] 3
  = Some (0, (flush_inactive_teidri_data all_ok (fun _ => true) None [] two_peers [] 3).1.1.2,
          two_peers, mk_teidri node_addr_zero <$> filter (fun r => r ∉ ranges two_peers) (seqZ 0 8)).
Proof.
  refine (proj2 (flush_then_read_restores pton_groups all_ok all_ok [] [] two_peers 3 None
    pton_groups_full eq_refl eq_refl eq_refl _ two_peers_ok _ _)).
  - lia.
  - repeat constructor; set_solver.
  - cbn; lia.
Defined.

Lemma delete_rewrites_other_records_witness :
  exists f' al' fr' fr'',
    delete_teidri_node_entry (Some some_block) all_ok (fun _ => true) None peer_a two_peers [] 3
      = Some (0, Some f', al', fr') /\ S (length al') = length two_peers /\
    read_teidri_data pton_groups true all_ok (fun _ => true) (fun _ => true) (Some f') [] [] 3
    = Some (0, Some f', (fun t => mk_teidri peer_a (teid_range t)) <$> al', fr'').
Proof.
  apply (delete_rewrites_other_records pton_groups some_block all_ok all_ok peer_a two_peers [] 3 None
    pton_groups_full eq_refl eq_refl eq_refl).
  - lia.
  - left. done.
  - done.
  - cbn. lia.
  - apply two_peers_ok.
  - repeat constructor.
  - repeat constructor; set_solver.
  - vm_compute. discriminate.
  - cbn. lia.
Defined.
