(* ===== verification/Mbuf.v ===== *)
(** * The packet buffer the data plane works on

    A packet is a DPDK mbuf: the library is not part of the repository, so the
    development uses it through an interface.  [Mbuf] lists the operations the data
    plane calls, [MbufLaws] what their documentation promises: a prepend takes its
    bytes from the headroom or fails without changing the packet, an adj removes
    bytes at the front or fails, stores and loads inside the data behave like those
    of a byte array.  Nothing is said of loads and stores outside the data.
    [simple_mbuf] is an implementation that obeys the laws. *)
From S2P Require Import Prelude.

Class Mbuf (mbuf : Type) := {
  (** The [data_len] bytes that [rte_pktmbuf_mtod] points to. *)
  mdata : mbuf -> list byte;
  headroom : mbuf -> nat;
  (** [rte_pktmbuf_prepend] and [rte_pktmbuf_adj]: [None] is the null pointer. *)
  rte_pktmbuf_prepend : mbuf -> nat -> option mbuf;
  rte_pktmbuf_adj : mbuf -> nat -> option mbuf;
  (** Stores and loads of some bytes at an offset of the data pointer. *)
  poke : mbuf -> nat -> list byte -> mbuf;
  peek : mbuf -> nat -> nat -> list byte;
  (** [rte_ipv4_cksum], [rte_ipv4_udptcp_cksum] and [rte_ipv6_udptcp_cksum] of the
      headers after the Ethernet header. *)
  rte_ipv4_cksum : mbuf -> Z;
  rte_ipv4_udptcp_cksum : mbuf -> Z;
  rte_ipv6_udptcp_cksum : mbuf -> Z
}.

Class MbufLaws (mbuf : Type) `{Mbuf mbuf} : Prop := {
  prepend_enough m n : (n <= headroom m)%nat ->
    exists m' hd, rte_pktmbuf_prepend m n = Some m' /\ mdata m' = hd ++ mdata m /\
      length hd = n /\ headroom m' = (headroom m - n)%nat;
  prepend_short m n : (headroom m < n)%nat -> rte_pktmbuf_prepend m n = None;
  adj_enough m n : (n <= length (mdata m))%nat ->
    exists m', rte_pktmbuf_adj m n = Some m' /\ mdata m' = drop n (mdata m) /\
      headroom m' = (headroom m + n)%nat;
  adj_short m n : (length (mdata m) < n)%nat -> rte_pktmbuf_adj m n = None;
  poke_data m off bs : (off + length bs <= length (mdata m))%nat ->
    mdata (poke m off bs) = take off (mdata m) ++ bs ++ drop (off + length bs) (mdata m);
  poke_headroom m off bs : headroom (poke m off bs) = headroom m;
  peek_data m off n : (off + n <= length (mdata m))%nat ->
    peek m off n = take n (drop off (mdata m))
}.

(** ** An implementation: the bytes before the data pointer, nearest first, and the
    data *)

Record simple_mbuf := mk_simple { before : list byte; bytes : list byte }.

#[export] Instance simple_Mbuf : Mbuf simple_mbuf := {
  mdata := bytes;
  headroom m := length (before m);
  rte_pktmbuf_prepend m n :=
    if bool_decide (n <= length (before m))%nat
    then Some (mk_simple (drop n (before m)) (reverse (take n (before m)) ++ bytes m)) else None;
  rte_pktmbuf_adj m n :=
    if bool_decide (n <= length (bytes m))%nat
    then Some (mk_simple (reverse (take n (bytes m)) ++ before m) (drop n (bytes m))) else None;
  poke m off bs :=
    mk_simple (before m) (take off (bytes m) ++ bs ++ drop (off + length bs) (bytes m));
  peek m off n := take n (drop off (bytes m));
  rte_ipv4_cksum _ := 0;
  rte_ipv4_udptcp_cksum _ := 0;
  rte_ipv6_udptcp_cksum _ := 0
}.

(** ** Loads and stores of integers: the machine is little-endian *)

Section Access.
Context {mbuf : Type} `{Mbuf mbuf}.

Definition load (m : mbuf) (off n : nat) : Z := le_val (peek m off n).
Definition store (m : mbuf) (off n : nat) (v : Z) : mbuf := poke m off (le_bytes n v).

(** [rte_pktmbuf_data_len], a [uint16_t]. *)
Definition rte_pktmbuf_data_len (m : mbuf) : Z := u16 (Z.of_nat (length (mdata m))).

End Access.

#[export] Instance simple_MbufLaws : MbufLaws simple_mbuf.
Proof.
  split; cbn [mdata headroom rte_pktmbuf_prepend rte_pktmbuf_adj poke peek simple_Mbuf].
  - intros m n Hn. rewrite bool_decide_true by done. do 2 eexists. split; [done|].
    cbn [bytes before]. split; [done|].
    rewrite length_reverse, length_take, length_drop. split; lia.
  - intros m n Hn. by rewrite bool_decide_false by lia.
  - intros m n Hn. rewrite bool_decide_true by done. eexists. split; [done|].
    cbn [bytes before]. split; [done|]. rewrite length_app, length_reverse, length_take. lia.
  - intros m n Hn. by rewrite bool_decide_false by lia.
  - done.
  - done.
  - done.
Qed.

(** ** Accesses to one part of a packet *)

Section Lemmas.
Context {mbuf : Type} `{MbufLaws mbuf}.

(** A store inside the part [hdr] of the data. *)
Lemma poke_part m pre hdr post k bs :
  mdata m = pre ++ hdr ++ post -> (k + length bs <= length hdr)%nat ->
  mdata (poke m (length pre + k) bs) =
  pre ++ (take k hdr ++ bs ++ drop (k + length bs) hdr) ++ post.
Proof.
  intros Hm Hk. rewrite poke_data by (rewrite Hm, !length_app; lia). rewrite Hm.
  rewrite take_app_ge, drop_app_ge by lia.
  replace (length pre + k - length pre)%nat with k by lia.
  replace (length pre + k + length bs - length pre)%nat with (k + length bs)%nat by lia.
  rewrite take_app_le, drop_app_le by lia. by rewrite <- !app_assoc.
Qed.

Lemma peek_part m pre hdr post k n :
  mdata m = pre ++ hdr ++ post -> (k + n <= length hdr)%nat ->
  peek m (length pre + k) n = take n (drop k hdr).
Proof.
  intros Hm Hk. rewrite peek_data by (rewrite Hm, !length_app; lia). rewrite Hm.
  rewrite drop_app_ge by lia. replace (length pre + k - length pre)%nat with k by lia.
  rewrite drop_app_le by lia. rewrite take_app_le; [done|]. rewrite length_drop. lia.
Qed.

Lemma load_part m pre hdr post k n :
  mdata m = pre ++ hdr ++ post -> (k + n <= length hdr)%nat ->
  load m (length pre + k) n = le_val (take n (drop k hdr)).
Proof. intros Hm Hk. unfold load. by rewrite (peek_part m pre hdr post). Qed.

Lemma store_part m pre hdr post k n v :
  mdata m = pre ++ hdr ++ post -> (k + n <= length hdr)%nat ->
  mdata (store m (length pre + k) n v) =
  pre ++ (take k hdr ++ le_bytes n v ++ drop (k + n) hdr) ++ post.
Proof.
  intros Hm Hk. unfold store. rewrite (poke_part m pre hdr post) by (rewrite ?length_le_bytes; done).
  by rewrite length_le_bytes.
Qed.

Lemma store_headroom m off n v : headroom (store m off n v) = headroom m.
Proof. apply poke_headroom. Qed.

Lemma data_len_small m :
  Z.of_nat (length (mdata m)) < 2 ^ 16 -> rte_pktmbuf_data_len m = Z.of_nat (length (mdata m)).
Proof. intros. unfold rte_pktmbuf_data_len. apply wrap_small. lia. Qed.

End Lemmas.
