(* ===== verification/UpPacket.v ===== *)
(** * Headers of the user plane (dp/gtpu.c, gtpu.h, ipv4.c, ipv4.h, ipv6.c, ipv6.h,
    util.c, util.h)

    The functions that put a GTP-U header in front of a user packet and remove it, and
    those that write the outer IP and UDP headers, on the packets of [Mbuf].  Offsets
    count from the Ethernet header; [ip_type] is false for IPv4 and true for IPv6. *)
From S2P Require Import Prelude Mbuf.

Definition ETH_HDR_SIZE : nat := 14.
Definition IPv4_HDR_SIZE : nat := 20.
Definition IPv6_HDR_SIZE : nat := 40.
Definition UDP_HDR_SIZE : nat := 8.
Definition IPv6_VERSION : Z := 0x60.
Definition IP_PROTO_UDP : Z := 17.
Definition UDP_PORT_GTPU : Z := 2152.

Definition GTPU_VERSION : Z := 0x01.
Definition GTP_PROTOCOL_TYPE_GTP : Z := 0x01.
Definition GTP_FLAG_SEQNB : Z := 0x02.
Definition GTPU_STATIC_SEQNB : Z := 0x00000000.
Definition GPDU_HDR_SIZE_WITHOUT_SEQNB : nat := 8.
Definition GPDU_HDR_SIZE_WITH_SEQNB : nat := 12.
Definition GTP_GPDU : Z := 0xff.

(** [GPDU_HDR_SIZE_DYNAMIC(flags)] *)
Definition GPDU_HDR_SIZE_DYNAMIC (flags : Z) : nat :=
  GPDU_HDR_SIZE_WITHOUT_SEQNB + (if bool_decide (Z.land flags GTP_FLAG_SEQNB <> 0) then 4 else 0).

Definition ip_hdr_size (ip_type : bool) : nat := if ip_type then IPv6_HDR_SIZE else IPv4_HDR_SIZE.

(** Where the headers are: [get_mtoip], [get_mtoudp] and [get_mtogtpu], and their
    [_v6] variants. *)
Definition get_mtoip : nat := ETH_HDR_SIZE.
Definition get_mtoudp (ip_type : bool) : nat := ETH_HDR_SIZE + ip_hdr_size ip_type.
Definition get_mtogtpu (ip_type : bool) : nat := ETH_HDR_SIZE + ip_hdr_size ip_type + UDP_HDR_SIZE.

(** Offsets of the fields of the packed C structures. *)
Definition ipv4_version_ihl := 0%nat.
Definition ipv4_type_of_service := 1%nat.
Definition ipv4_total_length := 2%nat.
Definition ipv4_packet_id := 4%nat.
Definition ipv4_fragment_offset := 6%nat.
Definition ipv4_time_to_live := 8%nat.
Definition ipv4_next_proto_id := 9%nat.
Definition ipv4_hdr_checksum := 10%nat.
Definition ipv4_src_addr := 12%nat.
Definition ipv4_dst_addr := 16%nat.
Definition ipv6_vtc_flow := 0%nat.
Definition ipv6_payload_len := 4%nat.
Definition ipv6_proto := 6%nat.
Definition ipv6_hop_limits := 7%nat.
Definition ipv6_src_addr := 8%nat.
Definition ipv6_dst_addr := 24%nat.
Definition udp_src_port := 0%nat.
Definition udp_dst_port := 2%nat.
Definition udp_dgram_len := 4%nat.
Definition udp_dgram_cksum := 6%nat.
Definition gtpu_flags := 0%nat.
Definition gtpu_msgtype := 1%nat.
Definition gtpu_msglen := 2%nat.
Definition gtpu_teid := 4%nat.
Definition gtpu_seqnb_off := 8%nat.

(** [struct in6_addr]: its 16 bytes. *)
Abbreviation in6_addr := (list byte).

Section Packet.
Context {mbuf : Type} `{Mbuf mbuf}.

(** ** GTP-U *)

(** Takes and returns the static counter [gtpu_seqnb]. *)
Definition construct_gtpu_hdr_with_seqnb (m : mbuf) (teid tpdu_len : Z) (ip_type : bool)
    (gtpu_seqnb : Z) : mbuf * Z :=
  let gpdu_hdr := get_mtogtpu ip_type in
  let m := store m (gpdu_hdr + 0) 1
    (Z.lor (Z.lor (Z.shiftl GTPU_VERSION 5) (Z.shiftl GTP_PROTOCOL_TYPE_GTP 4)) GTP_FLAG_SEQNB) in
  let m := store m (gpdu_hdr + 1) 1 GTP_GPDU in
  let tpdu_len := tpdu_len +[16] 4 in
  let m := store m (gpdu_hdr + 2) 2 (htons tpdu_len) in
  let m := store m (gpdu_hdr + 4) 4 (htonl teid) in
  let m := store m (gpdu_hdr + 8) 4 (Z.lor GTPU_STATIC_SEQNB (htons gtpu_seqnb)) in
  (m, gtpu_seqnb +[16] 1).

Definition construct_gtpu_hdr_without_seqnb (m : mbuf) (teid tpdu_len : Z) (ip_type : bool) : mbuf :=
  let gpdu_hdr := get_mtogtpu ip_type in
  let m := store m (gpdu_hdr + 0) 1
    (Z.lor (Z.shiftl GTPU_VERSION 5) (Z.shiftl GTP_PROTOCOL_TYPE_GTP 4)) in
  let m := store m (gpdu_hdr + 1) 1 GTP_GPDU in
  let m := store m (gpdu_hdr + 2) 2 (htons tpdu_len) in
  store m (gpdu_hdr + 4) 4 (htonl teid).

(** The three removals: [None] is the return value -1. *)
Definition decap_gtpu_hdr_dynamic_seqnb (m : mbuf) (ip_type : bool) : option mbuf :=
  let flags := load m (get_mtogtpu ip_type) 1 in
  rte_pktmbuf_adj m (GPDU_HDR_SIZE_DYNAMIC flags + UDP_HDR_SIZE + ip_hdr_size ip_type).

Definition decap_gtpu_hdr_with_seqnb (m : mbuf) (ip_type : bool) : option mbuf :=
  rte_pktmbuf_adj m (GPDU_HDR_SIZE_WITH_SEQNB + UDP_HDR_SIZE + ip_hdr_size ip_type).

Definition decap_gtpu_hdr_without_seqnb (m : mbuf) (ip_type : bool) : option mbuf :=
  rte_pktmbuf_adj m (GPDU_HDR_SIZE_WITHOUT_SEQNB + UDP_HDR_SIZE + ip_hdr_size ip_type).

Definition encap_gtpu_hdr_with_seqnb (m : mbuf) (teid : Z) (ip_type : bool) (gtpu_seqnb : Z)
    : option mbuf * Z :=
  let tpdu_len := rte_pktmbuf_data_len m +[16] - Z.of_nat ETH_HDR_SIZE in
  match rte_pktmbuf_prepend m (GPDU_HDR_SIZE_WITH_SEQNB + UDP_HDR_SIZE + ip_hdr_size ip_type) with
  | None => (None, gtpu_seqnb)
  | Some m =>
      let r := construct_gtpu_hdr_with_seqnb m teid tpdu_len ip_type gtpu_seqnb in
      (Some (fst r), snd r)
  end.

Definition encap_gtpu_hdr_without_seqnb (m : mbuf) (teid : Z) (ip_type : bool) : option mbuf :=
  let tpdu_len := rte_pktmbuf_data_len m +[16] - Z.of_nat ETH_HDR_SIZE in
  match rte_pktmbuf_prepend m (GPDU_HDR_SIZE_WITHOUT_SEQNB + UDP_HDR_SIZE + ip_hdr_size ip_type) with
  | None => None
  | Some m => Some (construct_gtpu_hdr_without_seqnb m teid tpdu_len ip_type)
  end.

(** The addresses of the inner packet. *)
Definition gtpu_inner_src_ip_dynamic_seqnb (m : mbuf) : Z :=
  let pkt_ptr := get_mtogtpu false in
  load m (pkt_ptr + GPDU_HDR_SIZE_DYNAMIC (load m pkt_ptr 1) + ipv4_src_addr) 4.
Definition gtpu_inner_src_ip_with_seqnb (m : mbuf) : Z :=
  load m (get_mtogtpu false + GPDU_HDR_SIZE_WITH_SEQNB + ipv4_src_addr) 4.
Definition gtpu_inner_src_ip_without_seqnb (m : mbuf) : Z :=
  load m (get_mtogtpu false + GPDU_HDR_SIZE_WITHOUT_SEQNB + ipv4_src_addr) 4.

Definition gtpu_get_inner_src_dst_ip_dynamic_seqnb (m : mbuf) : Z * Z :=
  let pkt_ptr := get_mtogtpu false in
  let inner := (pkt_ptr + GPDU_HDR_SIZE_DYNAMIC (load m pkt_ptr 1))%nat in
  (load m (inner + ipv4_src_addr) 4, load m (inner + ipv4_dst_addr) 4).
Definition gtpu_get_inner_src_dst_ip_with_seqnb (m : mbuf) : Z * Z :=
  let inner := (get_mtogtpu false + GPDU_HDR_SIZE_WITH_SEQNB)%nat in
  (load m (inner + ipv4_src_addr) 4, load m (inner + ipv4_dst_addr) 4).
Definition gtpu_get_inner_src_dst_ip_without_seqnb (m : mbuf) : Z * Z :=
  let inner := (get_mtogtpu false + GPDU_HDR_SIZE_WITHOUT_SEQNB)%nat in
  (load m (inner + ipv4_src_addr) 4, load m (inner + ipv4_dst_addr) 4).

Definition gtpu_inner_src_ipv6_with_seqnb (m : mbuf) : in6_addr :=
  peek m (get_mtogtpu true + GPDU_HDR_SIZE_WITH_SEQNB + ipv6_src_addr) 16.
Definition gtpu_inner_src_ipv6_without_seqnb (m : mbuf) : in6_addr :=
  peek m (get_mtogtpu true + GPDU_HDR_SIZE_WITHOUT_SEQNB + ipv6_src_addr) 16.
Definition gtpu_inner_src_ipv6_dynamic_seqnb (m : mbuf) : in6_addr :=
  let pkt_ptr := get_mtogtpu true in
  peek m (pkt_ptr + GPDU_HDR_SIZE_DYNAMIC (load m pkt_ptr 1) + ipv6_src_addr) 16.

(** ** Function pointers, set from the configuration by [dp_init] *)

Inductive seqnb_mode := dynamic_seqnb | with_seqnb | without_seqnb.

(** The values of [GTPU_SEQNB_IN] and [GTPU_SEQNB_OUT]. *)
Definition in_mode (gtpu_seqnb_in : Z) : seqnb_mode :=
  if bool_decide (gtpu_seqnb_in = 1) then with_seqnb
  else if bool_decide (gtpu_seqnb_in = 2) then without_seqnb
  else dynamic_seqnb.
Definition out_mode (gtpu_seqnb_out : Z) : seqnb_mode :=
  if bool_decide (gtpu_seqnb_out = 1) then with_seqnb else without_seqnb.

Definition DECAP_GTPU_HDR (gtpu_seqnb_in : Z) : mbuf -> bool -> option mbuf :=
  match in_mode gtpu_seqnb_in with
  | with_seqnb => decap_gtpu_hdr_with_seqnb
  | without_seqnb => decap_gtpu_hdr_without_seqnb
  | dynamic_seqnb => decap_gtpu_hdr_dynamic_seqnb
  end.

Definition ENCAP_GTPU_HDR (gtpu_seqnb_out : Z) (m : mbuf) (teid : Z) (ip_type : bool)
    (gtpu_seqnb : Z) : option mbuf * Z :=
  match out_mode gtpu_seqnb_out with
  | with_seqnb => encap_gtpu_hdr_with_seqnb m teid ip_type gtpu_seqnb
  | _ => (encap_gtpu_hdr_without_seqnb m teid ip_type, gtpu_seqnb)
  end.

(** ** IPv4 *)

Definition build_ipv4_default_hdr (m : mbuf) : mbuf :=
  let m := store m (get_mtoip + ipv4_version_ihl) 1 0x45 in
  let m := store m (get_mtoip + ipv4_type_of_service) 1 0 in
  let m := store m (get_mtoip + ipv4_packet_id) 2 0x1513 in
  let m := store m (get_mtoip + ipv4_fragment_offset) 2 0 in
  let m := store m (get_mtoip + ipv4_time_to_live) 1 64 in
  let m := store m (get_mtoip + ipv4_total_length) 2 0 in
  let m := store m (get_mtoip + ipv4_next_proto_id) 1 0 in
  let m := store m (get_mtoip + ipv4_src_addr) 4 0 in
  store m (get_mtoip + ipv4_dst_addr) 4 0.

Definition set_ipv4_hdr (m : mbuf) (len protocol src_ip dst_ip : Z) : mbuf :=
  let m := store m (get_mtoip + ipv4_total_length) 2 (htons len) in
  let m := store m (get_mtoip + ipv4_next_proto_id) 1 protocol in
  let m := store m (get_mtoip + ipv4_src_addr) 4 (htonl src_ip) in
  store m (get_mtoip + ipv4_dst_addr) 4 (htonl dst_ip).

Definition update_ckcum (m : mbuf) : mbuf :=
  let m := store m (get_mtoip + ipv4_hdr_checksum) 2 0 in
  store m (get_mtoip + ipv4_hdr_checksum) 2 (rte_ipv4_cksum m).

Definition construct_ipv4_hdr (m : mbuf) (len protocol src_ip dst_ip : Z) : mbuf :=
  let m := build_ipv4_default_hdr m in
  let m := set_ipv4_hdr m len protocol src_ip dst_ip in
  update_ckcum m.

(** ** IPv6 *)

Definition build_ipv6_default_hdr (m : mbuf) : mbuf :=
  let m := store m (get_mtoip + ipv6_vtc_flow) 4 IPv6_VERSION in
  let m := store m (get_mtoip + ipv6_payload_len) 2 0 in
  let m := store m (get_mtoip + ipv6_proto) 1 0 in
  let m := store m (get_mtoip + ipv6_hop_limits) 1 0 in
  let m := poke m (get_mtoip + ipv6_src_addr) (replicate 16 x00) in
  poke m (get_mtoip + ipv6_dst_addr) (replicate 16 x00).

Definition set_ipv6_hdr (m : mbuf) (len protocol : Z) (src_ip dst_ip : in6_addr) : mbuf :=
  let m := store m (get_mtoip + ipv6_payload_len) 2 (htons len) in
  let m := store m (get_mtoip + ipv6_proto) 1 protocol in
  let m := poke m (get_mtoip + ipv6_src_addr) src_ip in
  poke m (get_mtoip + ipv6_dst_addr) dst_ip.

Definition construct_ipv6_hdr (m : mbuf) (len protocol : Z) (src_ip dst_ip : in6_addr) : mbuf :=
  let m := build_ipv6_default_hdr m in
  set_ipv6_hdr m len protocol src_ip dst_ip.

(** ** UDP *)

Definition construct_udp_hdr (m : mbuf) (len sport dport : Z) (ip_type : bool) : mbuf :=
  let udp_hdr := get_mtoudp ip_type in
  let m := store m (udp_hdr + udp_src_port) 2 (htons sport) in
  let m := store m (udp_hdr + udp_dst_port) 2 (htons dport) in
  let m := store m (udp_hdr + udp_dgram_len) 2 (htons len) in
  let m := store m (udp_hdr + udp_dgram_cksum) 2 0 in
  store m (udp_hdr + udp_dgram_cksum) 2
    (if ip_type then rte_ipv6_udptcp_cksum m else rte_ipv4_udptcp_cksum m).

End Packet.

(** ** Reference headers *)

Definition gtpu_header (mode : seqnb_mode) (teid tpdu_len seqnb : Z) : list byte :=
  match mode with
  | with_seqnb => [x32; xff] ++ be_bytes 2 (tpdu_len + 4) ++ be_bytes 4 teid ++ be_bytes 2 seqnb ++ [x00; x00]
  | _ => [x30; xff] ++ be_bytes 2 tpdu_len ++ be_bytes 4 teid
  end.

Definition ipv4_header (len protocol src_ip dst_ip cksum : Z) : list byte :=
  [x45; x00] ++ be_bytes 2 len ++ [x13; x15; x00; x00; x40; byte_of_Z protocol] ++ le_bytes 2 cksum ++
  be_bytes 4 src_ip ++ be_bytes 4 dst_ip.

Definition ipv6_header (len protocol : Z) (src_ip dst_ip : in6_addr) : list byte :=
  [x60; x00; x00; x00] ++ be_bytes 2 len ++ [byte_of_Z protocol; x00] ++ src_ip ++ dst_ip.

Definition udp_header (sport dport len cksum : Z) : list byte :=
  be_bytes 2 sport ++ be_bytes 2 dport ++ be_bytes 2 len ++ le_bytes 2 cksum.

(** ** Byte order *)

Lemma le_bytes_bswap32 z : le_bytes 4 (bswap32 z) = be_bytes 4 z.
Proof.
  unfold bswap32, be_val, be_bytes. set (l := reverse (le_bytes 4 z)).
  assert (length l = 4%nat) as E by (unfold l; by rewrite length_reverse, length_le_bytes).
  rewrite <- E. apply le_bytes_le_val.
Qed.

Lemma le_bytes_bswap16 z : le_bytes 2 (bswap16 z) = be_bytes 2 z.
Proof.
  unfold bswap16, be_val, be_bytes. set (l := reverse (le_bytes 2 z)).
  assert (length l = 2%nat) as E by (unfold l; by rewrite length_reverse, length_le_bytes).
  rewrite <- E. apply le_bytes_le_val.
Qed.

Lemma le_bytes4_bswap16 z : le_bytes 4 (bswap16 z) = be_bytes 2 z ++ [x00; x00].
Proof.
  rewrite <- le_bytes_bswap16. cbn [le_bytes].
  assert (0 <= bswap16 z < 65536) as Hz.
  { unfold bswap16, be_val. pose proof (le_val_range (reverse (le_bytes 2 z))) as E.
    by rewrite length_reverse, length_le_bytes in E. }
  generalize dependent (bswap16 z). intros y Hy.
  replace (y / 256 / 256) with 0 by zdiv. done.
Qed.

Lemma ntohl_be z : 0 <= z < 2 ^ 32 -> ntohl (le_val (be_bytes 4 z)) = z.
Proof.
  intros Hz. unfold bswap32. set (l := be_bytes 4 z).
  assert (le_bytes 4 (le_val l) = l) as ->.
  { assert (length l = 4%nat) as E by apply length_be_bytes. rewrite <- E. apply le_bytes_le_val. }
  unfold l. rewrite be_val_be_bytes. by apply Z.mod_small.
Qed.

Lemma ntohs_be z : 0 <= z < 2 ^ 16 -> ntohs (le_val (be_bytes 2 z)) = z.
Proof.
  intros Hz. unfold bswap16. set (l := be_bytes 2 z).
  assert (le_bytes 2 (le_val l) = l) as ->.
  { assert (length l = 2%nat) as E by apply length_be_bytes. rewrite <- E. apply le_bytes_le_val. }
  unfold l. rewrite be_val_be_bytes. by apply Z.mod_small.
Qed.

(** A store of [n] bytes keeps the low [n] bytes. *)
Lemma le_bytes_mod n z : le_bytes n (z mod 256 ^ Z.of_nat n) = le_bytes n z.
Proof.
  rewrite <- le_val_le_bytes. rewrite <- (length_le_bytes n z) at 1. apply le_bytes_le_val.
Qed.

Lemma be_bytes2_wrap z : be_bytes 2 (u16 z) = be_bytes 2 z.
Proof. unfold be_bytes. f_equal. apply (le_bytes_mod 2 z). Qed.

Lemma ntohl_le z : ntohl z = le_val (be_bytes 4 z).
Proof. done. Qed.

(** ** The headers written *)

Section Lemmas.
Context {mbuf : Type} `{MbufLaws mbuf}.

(** A store in a header whose bytes are known: the new bytes. *)
Lemma store_step m pre hdr post off k n v hdr' :
  off = (length pre + k)%nat -> mdata m = pre ++ hdr ++ post -> (k + n <= length hdr)%nat ->
  take k hdr ++ le_bytes n v ++ drop (k + n) hdr = hdr' ->
  mdata (store m off n v) = pre ++ hdr' ++ post.
Proof. intros -> Hm Hk <-. by apply store_part. Qed.

Lemma poke_step m pre hdr post off k bs hdr' :
  off = (length pre + k)%nat -> mdata m = pre ++ hdr ++ post -> (k + length bs <= length hdr)%nat ->
  take k hdr ++ bs ++ drop (k + length bs) hdr = hdr' ->
  mdata (poke m off bs) = pre ++ hdr' ++ post.
Proof. intros -> Hm Hk <-. by apply poke_part. Qed.

End Lemmas.

(** Splits a list of known length into its bytes. *)
Ltac explode l Hl :=
  lazymatch type of Hl with
  | length _ = 0%nat => apply nil_length_inv in Hl; subst l
  | length _ = S _ =>
      let b := fresh "b" in destruct l as [|b l]; [discriminate Hl|];
      cbn [length] in Hl; apply Nat.succ_inj in Hl; explode l Hl
  end.

(** Runs the stores of a header function over an exploded header. *)
Ltac run_stores Hpre :=
  first
    [ eassumption
    | eapply store_step;
      [ rewrite Hpre; reflexivity | run_stores Hpre
      | apply leb_complete; reflexivity | cbn [take drop app le_bytes Nat.add length]; reflexivity ]
    | eapply poke_step;
      [ rewrite Hpre; reflexivity | run_stores Hpre
      | apply leb_complete; reflexivity | cbn [take drop app replicate Nat.add length]; reflexivity ] ].

Section Headers.
Context {mbuf : Type} `{MbufLaws mbuf}.

Lemma construct_gtpu_with m teid tpdu_len ip_type seqnb pre hdr post :
  mdata m = pre ++ hdr ++ post -> length pre = get_mtogtpu ip_type -> length hdr = 12%nat ->
  mdata (fst (construct_gtpu_hdr_with_seqnb m teid tpdu_len ip_type seqnb)) =
  pre ++ gtpu_header with_seqnb teid tpdu_len seqnb ++ post.
Proof.
  intros Hm Hpre Hhdr. explode hdr Hhdr.
  unfold construct_gtpu_hdr_with_seqnb, gtpu_header. cbn [fst].
  rewrite <- (be_bytes2_wrap (tpdu_len + 4)), <- (le_bytes_bswap16 (u16 _)), <- le_bytes4_bswap16,
    <- le_bytes_bswap32.
  run_stores Hpre.
Qed.

Lemma construct_gtpu_without m teid tpdu_len ip_type seqnb pre hdr post :
  mdata m = pre ++ hdr ++ post -> length pre = get_mtogtpu ip_type -> length hdr = 8%nat ->
  mdata (construct_gtpu_hdr_without_seqnb m teid tpdu_len ip_type) =
  pre ++ gtpu_header without_seqnb teid tpdu_len seqnb ++ post.
Proof.
  intros Hm Hpre Hhdr. explode hdr Hhdr.
  unfold construct_gtpu_hdr_without_seqnb, gtpu_header.
  rewrite <- le_bytes_bswap16, <- le_bytes_bswap32. run_stores Hpre.
Qed.

(** Every header function writes over the whole header. *)
Lemma set_ipv4_data m len protocol src_ip dst_ip pre hdr post :
  mdata m = pre ++ hdr ++ post -> length pre = get_mtoip -> length hdr = 20%nat ->
  exists old, mdata (set_ipv4_hdr (build_ipv4_default_hdr m) len protocol src_ip dst_ip) =
    pre ++ ipv4_header len protocol src_ip dst_ip old ++ post.
Proof.
  intros Hm Hpre Hhdr. explode hdr Hhdr. exists (le_val [b9; b10]). unfold ipv4_header.
  pose proof (le_bytes_le_val [b9; b10]) as E. cbn [length] in E. rewrite E. clear E.
  rewrite <- le_bytes_bswap16, <- !le_bytes_bswap32.
  unfold set_ipv4_hdr, build_ipv4_default_hdr. run_stores Hpre.
Qed.

Lemma construct_ipv4_data m len protocol src_ip dst_ip pre hdr post :
  mdata m = pre ++ hdr ++ post -> length pre = get_mtoip -> length hdr = 20%nat ->
  exists cksum, mdata (construct_ipv4_hdr m len protocol src_ip dst_ip) =
    pre ++ ipv4_header len protocol src_ip dst_ip cksum ++ post.
Proof.
  intros Hm Hpre Hhdr. unfold construct_ipv4_hdr.
  destruct (set_ipv4_data m len protocol src_ip dst_ip pre hdr post Hm Hpre Hhdr) as (old & E).
  generalize dependent (set_ipv4_hdr (build_ipv4_default_hdr m) len protocol src_ip dst_ip).
  intros m' E. set (first := [x45; x00] ++ be_bytes 2 len ++ [x13; x15; x00; x00; x40; byte_of_Z protocol]).
  set (last := be_bytes 4 src_ip ++ be_bytes 4 dst_ip).
  assert (forall c, pre ++ ipv4_header len protocol src_ip dst_ip c ++ post =
                    (pre ++ first) ++ le_bytes 2 c ++ (last ++ post)) as Eh.
  { intros c. unfold ipv4_header, first, last. by rewrite <- !app_assoc. }
  rewrite Eh in E. unfold update_ckcum. eexists. rewrite Eh.
  assert ((get_mtoip + ipv4_hdr_checksum)%nat = (length (pre ++ first) + 0)%nat) as ->.
  { rewrite length_app, Hpre. unfold first. rewrite !length_app, length_be_bytes. done. }
  eapply (store_step _ _ (le_bytes 2 0)); [reflexivity| |done|reflexivity].
  apply (store_step _ _ (le_bytes 2 old) _ _ 0); [reflexivity|exact E|done|reflexivity].
Qed.

Lemma construct_udp_data m len sport dport ip_type pre hdr post :
  mdata m = pre ++ hdr ++ post -> length pre = get_mtoudp ip_type -> length hdr = 8%nat ->
  exists cksum, mdata (construct_udp_hdr m len sport dport ip_type) =
    pre ++ udp_header sport dport len cksum ++ post.
Proof.
  intros Hm Hpre Hhdr. explode hdr Hhdr.
  unfold construct_udp_hdr. eexists. unfold udp_header.
  rewrite <- !le_bytes_bswap16. run_stores Hpre.
Qed.

Lemma construct_ipv6_data m len protocol src_ip dst_ip pre hdr post :
  mdata m = pre ++ hdr ++ post -> length pre = get_mtoip -> length hdr = 40%nat ->
  length src_ip = 16%nat -> length dst_ip = 16%nat ->
  mdata (construct_ipv6_hdr m len protocol src_ip dst_ip) =
    pre ++ ipv6_header len protocol src_ip dst_ip ++ post.
Proof.
  intros Hm Hpre Hhdr Hs Hd. explode hdr Hhdr. explode src_ip Hs. explode dst_ip Hd.
  unfold construct_ipv6_hdr, ipv6_header.
  rewrite <- le_bytes_bswap16. unfold set_ipv6_hdr, build_ipv6_default_hdr. run_stores Hpre.
Qed.

(** ** Adding and removing the GTP-U header *)

Definition gpdu_hdr_size (mode : seqnb_mode) : nat :=
  match mode with with_seqnb => GPDU_HDR_SIZE_WITH_SEQNB | _ => GPDU_HDR_SIZE_WITHOUT_SEQNB end.

(** The bytes in front of the inner packet that an encapsulation adds. *)
Definition tunnel_size (mode : seqnb_mode) (ip_type : bool) : nat :=
  gpdu_hdr_size mode + UDP_HDR_SIZE + ip_hdr_size ip_type.

Lemma length_gtpu_header mode teid len seqnb :
  length (gtpu_header mode teid len seqnb) = gpdu_hdr_size mode.
Proof. destruct mode; unfold gtpu_header; rewrite !length_app, !length_be_bytes; done. Qed.

Lemma out_mode_cases out : out_mode out = with_seqnb \/ out_mode out = without_seqnb.
Proof. unfold out_mode. case_bool_decide; auto. Qed.

(** The prepended bytes and the old Ethernet header, cut at the GTP-U header. *)
Lemma encap_split (hd eth : list byte) size ip_type :
  length hd = (size + UDP_HDR_SIZE + ip_hdr_size ip_type)%nat -> length eth = ETH_HDR_SIZE ->
  exists pre hdr, hd ++ eth = pre ++ hdr /\ length pre = get_mtogtpu ip_type /\ length hdr = size.
Proof.
  intros Hhd Heth. exists (take (get_mtogtpu ip_type) (hd ++ eth)), (drop (get_mtogtpu ip_type) (hd ++ eth)).
  rewrite take_drop, length_take, length_drop, length_app, Hhd, Heth. unfold get_mtogtpu.
  split_and!; [done|lia|lia].
Qed.

Lemma encap_data out m teid ip_type seqnb eth inner :
  mdata m = eth ++ inner -> length eth = ETH_HDR_SIZE ->
  (tunnel_size (out_mode out) ip_type <= headroom m)%nat ->
  exists m' pre,
    fst (ENCAP_GTPU_HDR out m teid ip_type seqnb) = Some m' /\
    mdata m' = pre ++ gtpu_header (out_mode out) teid (Z.of_nat (length inner)) seqnb ++ inner /\
    length pre = get_mtogtpu ip_type.
Proof.
  intros Hm Heth Hroom.
  assert (rte_pktmbuf_data_len m +[16] - Z.of_nat ETH_HDR_SIZE = u16 (Z.of_nat (length inner))) as Elen.
  { unfold rte_pktmbuf_data_len. rewrite wrap_add_l, Hm, length_app, Heth. f_equal. lia. }
  unfold tunnel_size in Hroom. unfold ENCAP_GTPU_HDR.
  destruct (prepend_enough m _ Hroom) as (m1 & hd & Ep & Hm1 & Hhd & _).
  rewrite Hm, app_assoc in Hm1.
  destruct (encap_split hd eth _ ip_type Hhd Heth) as (pre & hdr & Esplit & Hpre & Hhdr).
  rewrite Esplit, <- app_assoc in Hm1.
  destruct (out_mode_cases out) as [E|E]; rewrite E in *; cbn [gpdu_hdr_size] in *.
  - unfold encap_gtpu_hdr_with_seqnb. rewrite Ep, Elen. eexists _, pre. split; [reflexivity|].
    split; [|done]. rewrite (construct_gtpu_with _ _ _ _ _ _ _ _ Hm1) by done.
    unfold gtpu_header. rewrite <- be_bytes2_wrap, wrap_add_l, be_bytes2_wrap. done.
  - unfold encap_gtpu_hdr_without_seqnb. rewrite Ep, Elen. eexists _, pre. split; [reflexivity|].
    split; [|done]. rewrite (construct_gtpu_without _ _ _ _ 0 _ _ _ Hm1) by done.
    unfold gtpu_header. by rewrite be_bytes2_wrap.
Qed.

Lemma encap_no_headroom out m teid ip_type seqnb :
  (headroom m < tunnel_size (out_mode out) ip_type)%nat ->
  ENCAP_GTPU_HDR out m teid ip_type seqnb = (None, seqnb).
Proof.
  intros Hroom. unfold tunnel_size in Hroom. unfold ENCAP_GTPU_HDR.
  destruct (out_mode_cases out) as [E|E]; rewrite E in *; cbn [gpdu_hdr_size] in *.
  - unfold encap_gtpu_hdr_with_seqnb. by rewrite prepend_short.
  - unfold encap_gtpu_hdr_without_seqnb. by rewrite prepend_short.
Qed.

(** The flags byte tells the size of the header. *)
Lemma dynamic_size mode teid len seqnb m ip_type pre inner :
  mdata m = pre ++ gtpu_header mode teid len seqnb ++ inner -> length pre = get_mtogtpu ip_type ->
  GPDU_HDR_SIZE_DYNAMIC (load m (get_mtogtpu ip_type) 1) = gpdu_hdr_size mode.
Proof.
  intros Hm Hpre. rewrite <- Hpre, <- (Nat.add_0_r (length pre)).
  rewrite (load_part _ _ _ _ _ _ Hm) by (rewrite length_gtpu_header; destruct mode; apply leb_complete; reflexivity).
  destruct mode; reflexivity.
Qed.

(** Removal leaves as many bytes as an Ethernet header has before the inner packet. *)
Lemma decap_data in_ out m teid len seqnb ip_type pre inner :
  in_mode in_ = dynamic_seqnb \/ in_mode in_ = out_mode out ->
  mdata m = pre ++ gtpu_header (out_mode out) teid len seqnb ++ inner ->
  length pre = get_mtogtpu ip_type ->
  exists m' eth, DECAP_GTPU_HDR in_ m ip_type = Some m' /\ mdata m' = eth ++ inner /\
    length eth = ETH_HDR_SIZE.
Proof.
  intros Hmode Hm Hpre.
  assert (DECAP_GTPU_HDR in_ m ip_type = rte_pktmbuf_adj m (tunnel_size (out_mode out) ip_type)) as E.
  { unfold DECAP_GTPU_HDR, tunnel_size. destruct Hmode as [Em|Em]; rewrite Em.
    - unfold decap_gtpu_hdr_dynamic_seqnb. by rewrite (dynamic_size _ _ _ _ _ _ _ _ Hm Hpre).
    - destruct (out_mode_cases out) as [Eo|Eo]; by rewrite Eo. }
  set (hdr := gtpu_header _ _ _ _) in *.
  assert (length (pre ++ hdr) = (ETH_HDR_SIZE + tunnel_size (out_mode out) ip_type)%nat) as Hlen.
  { rewrite length_app, Hpre. unfold hdr. rewrite length_gtpu_header. unfold get_mtogtpu, tunnel_size. lia. }
  rewrite app_assoc in Hm.
  destruct (adj_enough m (tunnel_size (out_mode out) ip_type)) as (m' & Ea & Hm' & _).
  { rewrite Hm, length_app. lia. }
  exists m', (drop (tunnel_size (out_mode out) ip_type) (pre ++ hdr)). rewrite E.
  split_and!; [done| |rewrite length_drop; lia].
  rewrite Hm', Hm, drop_app_le by lia. done.
Qed.

End Headers.
