(* ===== verification/UpTunnel.v ===== *)
(** * The tunnels of the user plane (dp/up.c)

    The handlers of a burst of packets: [gtpu_decap] removes the outer headers of
    packets from the west-bound interface, [gtpu_encap] adds those of packets to it,
    [update_nexts5s8_info] and [update_enb_info] redirect a tunnelled packet to the
    next node, [qer_gating] applies the gates.  Packets, sessions and PDRs of a burst
    are arrays indexed alike; a 64-bit mask says which are still alive.  A PDR owns its
    FAR and its QERs; two packets of a burst may belong to the same session, so the
    sessions are a store and the burst holds their keys.  Statistics (under STATS) and
    logs are not modelled. *)
From S2P Require Import Prelude NodeAddr Mbuf UpPacket.

(** ** Masks *)

Definition SET_BIT (mask : Z) (n : nat) : Z := Z.lor mask (Z.shiftl 1 (Z.of_nat n)).
Definition RESET_BIT (mask : Z) (n : nat) : Z := Z.land mask (Z.lnot (Z.shiftl 1 (Z.of_nat n))).
Definition ISSET_BIT (mask : Z) (n : nat) : bool :=
  bool_decide (Z.land mask (Z.shiftl 1 (Z.of_nat n)) <> 0).

Definition reset_if (b : bool) (mask : Z) (n : nat) : Z := if b then RESET_BIT mask n else mask.
Definition set_if (b : bool) (mask : Z) (n : nat) : Z := if b then SET_BIT mask n else mask.

(** ** Configuration and rules *)

Record app_params := mk_app {
  gtpu_seqnb_in : Z; gtpu_seqnb_out : Z;
  wb_ip : Z; wb_net : Z; wb_bcast_addr : Z;
  wb_li_ip : Z; wb_li_net : Z; wb_li_bcast_addr : Z;
  wb_ipv6 : in6_addr; wb_ipv6_prefix_len : Z;
  wb_li_ipv6 : in6_addr; wb_li_ipv6_prefix_len : Z;
  eb_ip : Z; eb_net : Z; eb_bcast_addr : Z;
  eb_li_ip : Z; eb_li_net : Z; eb_li_bcast_addr : Z;
  eb_ipv6 : in6_addr; eb_ipv6_prefix_len : Z;
  eb_li_ipv6 : in6_addr; eb_li_ipv6_prefix_len : Z
}.

Definition GTPU_UDP_IPv4 : Z := 0.
Definition GTPU_UDP_IPv6 : Z := 1.
Definition ACCESS : Z := 0.
Definition CLOSE : Z := 1.

Inductive up_session_state := CONNECTED | IDLE | IN_PROGRESS.
#[export] Instance up_session_state_eq : EqDecision up_session_state.
Proof. solve_decision. Defined.

Record outer_hdr_creation := mk_outer {
  outer_hdr_creation_desc : Z;
  oh_teid : Z;
  oh_ipv4_address : Z;
  oh_ipv6_address : in6_addr
}.

(** A FAR: its forwarding parameters and the flags of its Apply Action. *)
Record far_info := mk_far {
  forw : bool;
  outer_hdr : outer_hdr_creation;
  dst_intfc : Z;
  action_drop : bool;
  action_buff : bool;
  action_nocp : bool
}.

Record qer_info := mk_qer { ul_gate : Z; dl_gate : Z }.

(** What a PDR's pointer to its [pfcp_session_t] is used for. *)
Record session_ref := mk_sref { cp_seid : Z; up_seid : Z; pckt_cnt_val : Z }.

(** [urr] is the head of a list in a store of its own, as counters change; a PDR with
    [urr_count = 0] has none. *)
Record pdr_info := mk_pdr {
  rule_id : Z;
  far : option far_info;
  src_intfc : Z;
  quer : list qer_info;
  prcdnc_val : Z;
  urr_count : Z;
  urr : option positive;
  session : session_ref
}.

(** The first [acl_table_count] elements of [acl_table_indx]; a ring is its address. *)
Record pfcp_session_datat := mk_sess {
  pdrs : list pdr_info;
  sess_state : up_session_state;
  hdr_crt : Z;
  hdr_rvl : Z;
  ue_ip_addr : Z;
  has_ipv6 : bool;
  acl_table_indx : list Z;
  dl_ring : option positive
}.

(** The metadata [gtpu_decap] leaves with a packet; the peer address is a union. *)
Inductive enb_addr := enb_ipv4 (a : Z) | enb_ipv6 (a : in6_addr) | enb_unset.
Record epc_meta_data := mk_meta { meta_teid : Z; meta_enb : enb_addr }.

(** [rte_cpu_to_be_16(ETHER_TYPE_IPv4)] and of IPv6; the field is at offset 12. *)
Definition ether_type_off : nat := 12.
Definition ETHER_TYPE_IPv4_be : Z := bswap16 0x0800.
Definition ETHER_TYPE_IPv6_be : Z := bswap16 0x86DD.

(** ** pfcp_util.c: local networks *)

Definition validate_Subnet (addr net_init net_end : Z) : bool :=
  bool_decide (net_init <= addr) && bool_decide (addr <= net_end).

(** The loop over the first [local_prefix / 8] bytes. *)
Fixpoint validate_loop (n : nat) (addr local_addr : in6_addr) (match_ : bool) : bool :=
  match n, addr, local_addr with
  | S n, x :: addr, y :: local_addr => if bool_decide (x = y) then validate_loop n addr local_addr true else false
  | _, _, _ => match_
  end.

Definition validate_ipv6_network (addr local_addr : in6_addr) (local_prefix : Z) : bool :=
  validate_loop (Z.to_nat (local_prefix / 8)) addr local_addr false.

Section Tunnel.
Context {mbuf : Type} `{Mbuf mbuf}.
Variable app : app_params.

(** ** gtpu_decap *)

(** The handling of one packet: the packet, its metadata, and whether its bit of
    [pkts_mask] is reset. *)
Definition gtpu_decap_pkt (m : mbuf) (meta : epc_meta_data) : mbuf * epc_meta_data * bool :=
  let ether_type := load m ether_type_off 2 in
  if bool_decide (ether_type = ETHER_TYPE_IPv4_be) then
    let dst_addr := load m (get_mtoip + ipv4_dst_addr) 4 in
    let ip := ntohl (wb_ip app) in
    let ip_li := ntohl (wb_li_ip app) in
    if bool_decide (dst_addr <> ip) && bool_decide (dst_addr <> ip_li) then (m, meta, true) else
    if bool_decide (ntohs (load m (get_mtoudp false + udp_dst_port) 2) <> UDP_PORT_GTPU)
    then (m, meta, true) else
    let teid := load m (get_mtogtpu false + gtpu_teid) 4 in
    if bool_decide (teid = 0) || bool_decide (load m (get_mtogtpu false + gtpu_msgtype) 1 <> GTP_GPDU)
    then (m, meta, true) else
    let meta := mk_meta (ntohl teid) (enb_ipv4 (ntohl (load m (get_mtoip + ipv4_src_addr) 4))) in
    match DECAP_GTPU_HDR (gtpu_seqnb_in app) m false with
    | Some m => (m, meta, false)
    | None => (m, meta, true)
    end
  else if bool_decide (ether_type = ETHER_TYPE_IPv6_be) then
    let dst_addr := peek m (get_mtoip + ipv6_dst_addr) 16 in
    if bool_decide (dst_addr <> wb_ipv6 app) && bool_decide (dst_addr <> wb_li_ipv6 app)
    then (m, meta, true) else
    if bool_decide (ntohs (load m (get_mtoudp true + udp_dst_port) 2) <> UDP_PORT_GTPU)
    then (m, meta, true) else
    let teid := load m (get_mtogtpu true + gtpu_teid) 4 in
    if bool_decide (teid = 0) || bool_decide (load m (get_mtogtpu true + gtpu_msgtype) 1 <> GTP_GPDU)
    then (m, meta, true) else
    let meta := mk_meta (ntohl teid) (enb_ipv6 (peek m (get_mtoip + ipv6_src_addr) 16)) in
    match DECAP_GTPU_HDR (gtpu_seqnb_in app) m true with
    | Some m => (m, meta, false)
    | None => (m, meta, true)
    end
  else (m, meta, false).

(** The loop from index [i] over the packets and their metadata. *)
Fixpoint gtpu_decap_from (i : nat) (pkts : list (mbuf * epc_meta_data)) (pkts_mask decap_pkts_mask : Z)
    : list (mbuf * epc_meta_data) * Z :=
  match pkts with
  | [] => ([], pkts_mask)
  | p :: pkts =>
      let r := if ISSET_BIT decap_pkts_mask i then gtpu_decap_pkt (fst p) (snd p) else (p, false) in
      let rest := gtpu_decap_from (S i) pkts (reset_if (snd r) pkts_mask i) decap_pkts_mask in
      (fst r :: fst rest, snd rest)
  end.

Definition gtpu_decap := gtpu_decap_from 0.

(** ** gtpu_encap *)

(** The outcome for one packet: the packet, the counter of sequence numbers, whether
    its bit of [pkts_mask] is reset, whether its bit of [pkts_queue_mask] is set. *)
Record encap_result := mk_encap { e_pkt : mbuf; e_seqnb : Z; e_reset : bool; e_queue : bool }.

(** The source address for a destination on the west-bound interfaces. *)
Definition wb_source (dst_addr : Z) : option Z :=
  if validate_Subnet dst_addr (wb_net app) (wb_bcast_addr app) then Some (wb_ip app)
  else if validate_Subnet dst_addr (wb_li_net app) (wb_li_bcast_addr app) then Some (wb_li_ip app)
  else None.

Definition wb_source_v6 (dst_addr : in6_addr) : option in6_addr :=
  if validate_ipv6_network dst_addr (wb_ipv6 app) (wb_ipv6_prefix_len app) then Some (wb_ipv6 app)
  else if validate_ipv6_network dst_addr (wb_li_ipv6 app) (wb_li_ipv6_prefix_len app) then Some (wb_li_ipv6 app)
  else None.

Definition in6_zero : in6_addr := replicate 16 x00.

(** The GTP-U, IP and UDP headers for the outer header creation of the FAR. *)
Definition encap_headers (oh : outer_hdr_creation) (m : mbuf) (seqnb : Z) : encap_result :=
  if bool_decide (outer_hdr_creation_desc oh = GTPU_UDP_IPv4) then
    match ENCAP_GTPU_HDR (gtpu_seqnb_out app) m (oh_teid oh) false seqnb with
    | (None, seqnb) => mk_encap m seqnb true false
    | (Some m, seqnb) =>
        let len := rte_pktmbuf_data_len m +[16] - Z.of_nat ETH_HDR_SIZE in
        let dst_addr := ntohl (oh_ipv4_address oh) in
        match wb_source dst_addr with
        | None => mk_encap m seqnb true false
        | Some src_addr =>
            if bool_decide (src_addr = 0) || bool_decide (dst_addr = 0)
            then mk_encap m seqnb true false
            else
              let m := construct_ipv4_hdr m len IP_PROTO_UDP src_addr dst_addr in
              let len := len +[16] - Z.of_nat IPv4_HDR_SIZE in
              let m := construct_udp_hdr m len UDP_PORT_GTPU UDP_PORT_GTPU false in
              mk_encap m seqnb false false
        end
    end
  else if bool_decide (outer_hdr_creation_desc oh = GTPU_UDP_IPv6) then
    match ENCAP_GTPU_HDR (gtpu_seqnb_out app) m (oh_teid oh) true seqnb with
    | (None, seqnb) => mk_encap m seqnb true false
    | (Some m, seqnb) =>
        let len := rte_pktmbuf_data_len m +[16] - Z.of_nat ETH_HDR_SIZE in
        let dst_addr := oh_ipv6_address oh in
        match wb_source_v6 dst_addr with
        | None => mk_encap m seqnb true false
        | Some src_addr =>
            if bool_decide (src_addr = in6_zero) || bool_decide (dst_addr = in6_zero)
            then mk_encap m seqnb true false
            else
              let len := len +[16] - Z.of_nat IPv6_HDR_SIZE in
              let m := construct_ipv6_hdr m len IP_PROTO_UDP src_addr dst_addr in
              let m := construct_udp_hdr m len UDP_PORT_GTPU UDP_PORT_GTPU true in
              mk_encap m seqnb false false
        end
    end
  else mk_encap m seqnb false false.

Definition gtpu_encap_pkt (si : option pfcp_session_datat) (pdr : option pdr_info) (m : mbuf)
    (seqnb : Z) : encap_result :=
  match si with
  | None => mk_encap m seqnb true false
  | Some si =>
      match pdr with
      | None => mk_encap m seqnb true false
      | Some pdr =>
          match far pdr with
          | None => mk_encap m seqnb true false
          | Some far =>
              if bool_decide (sess_state si <> CONNECTED) then mk_encap m seqnb true true
              else if negb (forw far) then mk_encap m seqnb true true
              else if bool_decide (oh_teid (outer_hdr far) = 0) then mk_encap m seqnb true true
              else encap_headers (outer_hdr far) m seqnb
          end
      end
  end.

(** One entry of the arrays of the burst. *)
Record burst_entry := mk_entry {
  b_pkt : mbuf; b_sess : option pfcp_session_datat; b_pdr : option pdr_info
}.

(** The packets after, the counter, [pkts_mask] and [pkts_queue_mask]. *)
Fixpoint gtpu_encap_from (i : nat) (burst : list burst_entry) (fd_pkts_mask seqnb pkts_mask pkts_queue_mask : Z)
    : list mbuf * Z * Z * Z :=
  match burst with
  | [] => ([], seqnb, pkts_mask, pkts_queue_mask)
  | b :: burst =>
      let r := if ISSET_BIT fd_pkts_mask i && ISSET_BIT pkts_mask i
               then gtpu_encap_pkt (b_sess b) (b_pdr b) (b_pkt b) seqnb
               else mk_encap (b_pkt b) seqnb false false in
      let rest := gtpu_encap_from (S i) burst fd_pkts_mask (e_seqnb r)
                    (reset_if (e_reset r) pkts_mask i) (set_if (e_queue r) pkts_queue_mask i) in
      (e_pkt r :: fst (fst (fst rest)), snd (fst (fst rest)), snd (fst rest), snd rest)
  end.

Definition gtpu_encap := gtpu_encap_from 0.

(** The outcome for entry [i] of a burst, given the counter when its turn comes. *)
Definition encap_entry (i : nat) (b : burst_entry) (fd_mask seqnb pkts_mask : Z) : encap_result :=
  if ISSET_BIT fd_mask i && ISSET_BIT pkts_mask i
  then gtpu_encap_pkt (b_sess b) (b_pdr b) (b_pkt b) seqnb
  else mk_encap (b_pkt b) seqnb false false.

(** ** Redirection of tunnelled packets *)

(** Replaces the IP header in front of the UDP header: to IPv6 when [ip_type] is true.
    The flag is false on the return value -1; the packet may have lost its header. *)
Definition translator_ip_hdr (m : mbuf) (ip_type : bool) : mbuf * bool :=
  if ip_type then
    match rte_pktmbuf_adj m IPv4_HDR_SIZE with
    | None => (m, false)
    | Some m =>
        match rte_pktmbuf_prepend m IPv6_HDR_SIZE with
        | None => (m, false)
        | Some m => (m, true)
        end
    end
  else
    match rte_pktmbuf_adj m IPv6_HDR_SIZE with
    | None => (m, false)
    | Some m =>
        match rte_pktmbuf_prepend m IPv4_HDR_SIZE with
        | None => (m, false)
        | Some m => (m, true)
        end
    end.

Definition reset_udp_hdr_checksum (m : mbuf) (ip_type : bool) : mbuf :=
  let udp_hdr := get_mtoudp ip_type in
  let m := store m (udp_hdr + udp_dgram_cksum) 2 0 in
  store m (udp_hdr + udp_dgram_cksum) 2
    (if ip_type then rte_ipv6_udptcp_cksum m else rte_ipv4_udptcp_cksum m).

Definition eb_source (dst_addr : Z) : option Z :=
  if validate_Subnet dst_addr (eb_net app) (eb_bcast_addr app) then Some (eb_ip app)
  else if validate_Subnet dst_addr (eb_li_net app) (eb_li_bcast_addr app) then Some (eb_li_ip app)
  else None.

Definition eb_source_v6 (dst_addr : in6_addr) : option in6_addr :=
  if validate_ipv6_network dst_addr (eb_ipv6 app) (eb_ipv6_prefix_len app) then Some (eb_ipv6 app)
  else if validate_ipv6_network dst_addr (eb_li_ipv6 app) (eb_li_ipv6_prefix_len app) then Some (eb_li_ipv6 app)
  else None.

(** The translation when the packet has the other IP version, the new TEID, addresses
    and UDP checksum: the common end of the branches of the two functions. *)
Definition redirect_v4 (m : mbuf) (teid src_addr dst_addr : Z) : mbuf * bool :=
  let ether_type := load m ether_type_off 2 in
  let t := if bool_decide (ether_type = ETHER_TYPE_IPv6_be) then translator_ip_hdr m false else (m, true) in
  if snd t then
    let m := fst t in
    let len := rte_pktmbuf_data_len m +[16] - Z.of_nat ETH_HDR_SIZE in
    let m := store m (get_mtogtpu false + gtpu_teid) 4 (ntohl teid) in
    let m := construct_ipv4_hdr m len IP_PROTO_UDP src_addr dst_addr in
    (reset_udp_hdr_checksum m false, true)
  else t.

Definition redirect_v6 (m : mbuf) (teid : Z) (src_addr dst_addr : in6_addr) : mbuf * bool :=
  let ether_type := load m ether_type_off 2 in
  let t := if bool_decide (ether_type = ETHER_TYPE_IPv4_be) then translator_ip_hdr m true else (m, true) in
  if snd t then
    let m := fst t in
    let len := rte_pktmbuf_data_len m +[16] - Z.of_nat (ETH_HDR_SIZE + IPv6_HDR_SIZE) in
    let m := store m (get_mtogtpu true + gtpu_teid) 4 (ntohl teid) in
    let m := construct_ipv6_hdr m len IP_PROTO_UDP src_addr dst_addr in
    (reset_udp_hdr_checksum m true, true)
  else t.

(** The outcome for one packet: the packet, whether its bit of [pkts_mask] is reset and
    its bit of [loopback_pkts_mask] set, whether [continue] skips the end of the body. *)
Record relay_result := mk_relay { r_pkt : mbuf; r_reset : bool; r_loop : bool; r_continue : bool }.

(** [update_nexts5s8_info] for a packet whose session has a PDR with a FAR. *)
Definition nexts5s8_pkt (pdr : pdr_info) (far : far_info) (m : mbuf) : relay_result :=
  let oh := outer_hdr far in
  let loopback := bool_decide (src_intfc pdr = ACCESS) && bool_decide (dst_intfc far = ACCESS) in
  if bool_decide (outer_hdr_creation_desc oh = GTPU_UDP_IPv4) then
    let next_hop_addr := ntohl (oh_ipv4_address oh) in
    match (if loopback then wb_source next_hop_addr else eb_source next_hop_addr) with
    | None => mk_relay m true false true
    | Some src_addr =>
        let t := redirect_v4 m (oh_teid oh) src_addr next_hop_addr in
        mk_relay (fst t) (loopback || negb (snd t)) loopback (negb (snd t))
    end
  else if bool_decide (outer_hdr_creation_desc oh = GTPU_UDP_IPv6) then
    let next_hop_addr := oh_ipv6_address oh in
    match (if loopback then wb_source_v6 next_hop_addr else eb_source_v6 next_hop_addr) with
    | None => mk_relay m true false true
    | Some src_addr =>
        let t := redirect_v6 m (oh_teid oh) src_addr next_hop_addr in
        mk_relay (fst t) (loopback || negb (snd t)) loopback (negb (snd t))
    end
  else mk_relay m true false false.

(** The sessions, the masks, and the arrays of packets and PDRs. *)
Record relay_state := mk_rs {
  rs_sessions : gmap positive pfcp_session_datat;
  rs_pkts : list mbuf;
  rs_pdrs : list (option pdr_info);
  rs_pkts_mask : Z;
  rs_loopback_mask : Z
}.

(** The session and the FAR of its PDR, when both pointers are set. *)
Definition session_far (si : pfcp_session_datat) : option (pdr_info * far_info) :=
  pdr ← head (pdrs si); f ← far pdr; Some (pdr, f).

Definition set_pdrs_null (si : pfcp_session_datat) : pfcp_session_datat :=
  mk_sess [] (sess_state si) (hdr_crt si) (hdr_rvl si) (ue_ip_addr si) (has_ipv6 si)
    (acl_table_indx si) (dl_ring si).

(** [if (sess_data[i] != NULL) pdr[i] = sess_data[i]->pdrs;] *)
Definition fill_pdr (i : nat) (key : option positive) (st : relay_state) : relay_state :=
  match key ≫= fun k => rs_sessions st !! k with
  | Some si => mk_rs (rs_sessions st) (rs_pkts st) (<[i := head (pdrs si)]> (rs_pdrs st))
                     (rs_pkts_mask st) (rs_loopback_mask st)
  | None => st
  end.

(** Iteration [i] of [update_nexts5s8_info]; [None] is the access through a null
    session, or outside the arrays. *)
Definition update_nexts5s8_step (fwd_pkts_mask : Z) (sess_data : list (option positive)) (i : nat)
    (st : relay_state) : option relay_state :=
  key ← sess_data !! i;
  if ISSET_BIT (rs_pkts_mask st) i && ISSET_BIT fwd_pkts_mask i then
    k ← key;
    si ← rs_sessions st !! k;
    match session_far si with
    | Some (pdr, far) =>
        m ← rs_pkts st !! i;
        let r := nexts5s8_pkt pdr far m in
        let st := mk_rs (rs_sessions st) (<[i := r_pkt r]> (rs_pkts st)) (rs_pdrs st)
                        (reset_if (r_reset r) (rs_pkts_mask st) i)
                        (set_if (r_loop r) (rs_loopback_mask st) i) in
        Some (if r_continue r then st else fill_pdr i key st)
    | None =>
        let st := mk_rs (<[k := set_pdrs_null si]> (rs_sessions st)) (rs_pkts st) (rs_pdrs st)
                        (RESET_BIT (rs_pkts_mask st) i) (rs_loopback_mask st) in
        Some (fill_pdr i key st)
    end
  else Some (fill_pdr i key st).

Definition update_nexts5s8_info (n : nat) (fwd_pkts_mask : Z) (sess_data : list (option positive))
    (st : relay_state) : option relay_state :=
  foldl (fun st i => st ≫= update_nexts5s8_step fwd_pkts_mask sess_data i) (Some st) (seq 0 n).

(** [update_enb_info] for a packet whose session has a PDR with a FAR: the packet,
    whether its bit is reset, and whether [pdr[i]] is filled. *)
Definition enb_pkt (si : pfcp_session_datat) (far : far_info) (m : mbuf) : mbuf * bool * bool :=
  let oh := outer_hdr far in
  if bool_decide (outer_hdr_creation_desc oh = GTPU_UDP_IPv4) && bool_decide (hdr_crt si = GTPU_UDP_IPv4) then
    let enb_addr := ntohl (oh_ipv4_address oh) in
    match wb_source enb_addr with
    | None => (m, true, false)
    | Some src_addr =>
        let t := redirect_v4 m (oh_teid oh) src_addr enb_addr in (fst t, negb (snd t), snd t)
    end
  else if bool_decide (outer_hdr_creation_desc oh = GTPU_UDP_IPv6) && bool_decide (hdr_crt si = GTPU_UDP_IPv6) then
    let enb_addr := oh_ipv6_address oh in
    match wb_source_v6 enb_addr with
    | None => (m, true, false)
    | Some src_addr =>
        let t := redirect_v6 m (oh_teid oh) src_addr enb_addr in (fst t, negb (snd t), snd t)
    end
  else (m, false, false).

(** Iteration [i] of [update_enb_info]. *)
Definition update_enb_step (fd_pkts_mask : Z) (sess_data : list (option positive)) (i : nat)
    (st : relay_state) : option relay_state :=
  if ISSET_BIT (rs_pkts_mask st) i && ISSET_BIT fd_pkts_mask i then
    key ← sess_data !! i;
    match key with
    | None => Some st
    | Some k =>
        si ← rs_sessions st !! k;
        match session_far si with
        | Some (pdr, far) =>
            m ← rs_pkts st !! i;
            let r := enb_pkt si far m in
            Some (mk_rs (rs_sessions st) (<[i := fst (fst r)]> (rs_pkts st))
                        (if snd r then <[i := Some pdr]> (rs_pdrs st) else rs_pdrs st)
                        (reset_if (snd (fst r)) (rs_pkts_mask st) i) (rs_loopback_mask st))
        | None =>
            Some (mk_rs (<[k := set_pdrs_null si]> (rs_sessions st)) (rs_pkts st)
                        (<[i := None]> (rs_pdrs st)) (RESET_BIT (rs_pkts_mask st) i) (rs_loopback_mask st))
        end
    end
  else Some st.

Definition update_enb_info (n : nat) (fd_pkts_mask : Z) (sess_data : list (option positive))
    (st : relay_state) : option relay_state :=
  foldl (fun st i => st ≫= update_enb_step fd_pkts_mask sess_data i) (Some st) (seq 0 n).

End Tunnel.

(** ** qer_gating *)

Inductive gate_direction := UPLINK | DOWNLINK | NO_DIRECTION.

(** The first QER of a PDR decides. *)
Definition gate_closed (direction : gate_direction) (pdr : pdr_info) : bool :=
  match direction, quer pdr with
  | UPLINK, q :: _ => bool_decide (ul_gate q = CLOSE)
  | DOWNLINK, q :: _ => bool_decide (dl_gate q = CLOSE)
  | _, _ => false
  end.

(** The arguments of a log line are evaluated whatever is logged: one that prints a member
    of the FAR of a PDR, if there is a PDR, reads through its FAR pointer; [None] is the
    null pointer of a PDR without FAR. *)
Definition log_far (pdr : option pdr_info) : option unit :=
  match pdr with
  | Some r => (fun _ => tt) <$> far r
  | None => Some tt
  end.

(** [None] is the access through a null PDR, or the null FAR of a PDR whose closed gate is
    logged. *)
Fixpoint qer_gating_from (i : nat) (pdr : list (option pdr_info)) (direction : gate_direction)
    (pkts_mask fd_pkts_mask : Z) : option Z :=
  match pdr with
  | [] => Some pkts_mask
  | p :: pdr =>
      if ISSET_BIT pkts_mask i && ISSET_BIT fd_pkts_mask i then
        p ← p;
        _ ← (if gate_closed direction p then log_far (Some p) else Some tt);
        qer_gating_from (S i) pdr direction (reset_if (gate_closed direction p) pkts_mask i) fd_pkts_mask
      else qer_gating_from (S i) pdr direction pkts_mask fd_pkts_mask
  end.

Definition qer_gating := qer_gating_from 0.

(** ** Reference packets *)

(** An Ethernet header announces an IP version. *)
Definition ether_is (type : Z) (eth : list byte) : Prop :=
  length eth = ETH_HDR_SIZE /\ le_val (take 2 (drop ether_type_off eth)) = type.

(** A user packet behind the outer headers of a tunnel over IPv4 or IPv6. *)
Definition tunnelled_v4 (mode : seqnb_mode) (src dst teid seqnb : Z) (inner pkt : list byte) : Prop :=
  exists eth c1 c2,
    let len := Z.of_nat (tunnel_size mode false + length inner) in
    length eth = ETH_HDR_SIZE /\
    pkt = eth ++ ipv4_header len IP_PROTO_UDP src dst c1 ++
          udp_header UDP_PORT_GTPU UDP_PORT_GTPU (len - 20) c2 ++
          gtpu_header mode teid (Z.of_nat (length inner)) seqnb ++ inner.

Definition tunnelled_v6 (mode : seqnb_mode) (src dst : in6_addr) (teid seqnb : Z) (inner pkt : list byte) : Prop :=
  exists eth c2,
    let len := Z.of_nat (tunnel_size mode true + length inner) - 40 in
    length eth = ETH_HDR_SIZE /\
    pkt = eth ++ ipv6_header len IP_PROTO_UDP src dst ++
          udp_header UDP_PORT_GTPU UDP_PORT_GTPU len c2 ++
          gtpu_header mode teid (Z.of_nat (length inner)) seqnb ++ inner.

(** An entry of a burst that is to be forwarded by FAR [fr]. *)
Definition forwarding {mbuf} (b : @burst_entry mbuf) (fr : far_info) : Prop :=
  exists si pdr, b_sess b = Some si /\ sess_state si = CONNECTED /\ b_pdr b = Some pdr /\
    far pdr = Some fr /\ forw fr = true /\ 0 < oh_teid (outer_hdr fr) < 2 ^ 32.

(** A user packet with room for the tunnel headers. *)
Definition user_packet {mbuf} `{Mbuf mbuf} (mode : seqnb_mode) (ip_type : bool) (m : mbuf) (inner : list byte) : Prop :=
  exists eth, mdata m = eth ++ inner /\ length eth = ETH_HDR_SIZE /\
    (tunnel_size mode ip_type <= headroom m)%nat /\
    Z.of_nat (ETH_HDR_SIZE + tunnel_size mode ip_type + length inner) < 2 ^ 16.

(** A packet with a GTP-U header ([g4], TEID) under a UDP header ([udp6], checksum) and an
    IP header of the version its Ethernet header announces. *)
Definition gtpu_packet (is_v6 : bool) (udp6 g4 rest pkt : list byte) : Prop :=
  exists eth iph cksum teid, pkt = eth ++ iph ++ udp6 ++ cksum ++ g4 ++ teid ++ rest /\
    ether_is (if is_v6 then ETHER_TYPE_IPv6_be else ETHER_TYPE_IPv4_be) eth /\
    length iph = ip_hdr_size is_v6 /\ length udp6 = 6%nat /\ length cksum = 2%nat /\
    length g4 = 4%nat /\ length teid = 4%nat.

(** ** Examples: a gateway with one network, and a burst of one packet *)

Definition sample_v6 (last : byte) : in6_addr := [x20; x01] ++ replicate 13 x00 ++ [last].

Definition sample_app (wb : Z) (wb6 : byte) (in_ out : Z) : app_params :=
  mk_app in_ out wb 0x0a000000 0x0a0000ff 0 0 0 (sample_v6 wb6) 64 (replicate 16 x00) 0
    0 0 0 0 0 0 (replicate 16 x00) 0 (replicate 16 x00) 0.

Definition sample_far (desc : Z) : far_info :=
  mk_far true (mk_outer desc 0x11223344 (htonl 0x0a000002) (sample_v6 x02)) 1 false false false.

Definition sample_pdr (f : option far_info) (src_intfc : Z) (qers : list qer_info) : pdr_info :=
  mk_pdr 1 f src_intfc qers 10 0 None (mk_sref 7 9 0).

Definition sample_sess (rules : list pdr_info) (state : up_session_state) (crt rvl : Z) : pfcp_session_datat :=
  mk_sess rules state crt rvl 0 false [] None.

Definition sample_pkt : simple_mbuf :=
  mk_simple (replicate 128 x00) (replicate 14 x00 ++ [x45; x00; x01; x02]).

Definition sample_burst (desc : Z) : list (@burst_entry simple_mbuf) :=
  [mk_entry sample_pkt (Some (sample_sess [] CONNECTED desc 4)) (Some (sample_pdr (Some (sample_far desc)) 1 []))].

Definition sample_ether (type : Z) : list byte := replicate 12 x00 ++ le_bytes 2 type.

(** ** Masks *)

Lemma ISSET_BIT_testbit mask n : ISSET_BIT mask n = Z.testbit mask (Z.of_nat n).
Proof.
  unfold ISSET_BIT. rewrite Z.shiftl_1_l.
  destruct (Z.testbit mask (Z.of_nat n)) eqn:E.
  - apply bool_decide_true. intros H0. apply (f_equal (fun z => Z.testbit z (Z.of_nat n))) in H0.
    rewrite Z.land_spec, E, Z.pow2_bits_true, Z.bits_0 in H0 by lia. done.
  - apply bool_decide_false. intros Hn. apply Hn. apply Z.bits_inj'. intros i Hi.
    rewrite Z.land_spec, Z.bits_0, Z.pow2_bits_eqb by lia.
    destruct (Z.eqb_spec (Z.of_nat n) i) as [<-|]; [by rewrite E|apply andb_false_r].
Qed.

Lemma RESET_BIT_spec mask n j :
  ISSET_BIT (RESET_BIT mask n) j = ISSET_BIT mask j && negb (bool_decide (n = j)).
Proof.
  rewrite !ISSET_BIT_testbit. unfold RESET_BIT.
  rewrite Z.land_spec, Z.lnot_spec, Z.shiftl_1_l, Z.pow2_bits_eqb by lia. do 2 f_equal.
  case_bool_decide; [subst; apply Z.eqb_refl|apply Z.eqb_neq; lia].
Qed.

Lemma SET_BIT_spec mask n j :
  ISSET_BIT (SET_BIT mask n) j = ISSET_BIT mask j || bool_decide (n = j).
Proof.
  rewrite !ISSET_BIT_testbit. unfold SET_BIT.
  rewrite Z.lor_spec, Z.shiftl_1_l, Z.pow2_bits_eqb by lia. f_equal.
  case_bool_decide; [subst; apply Z.eqb_refl|apply Z.eqb_neq; lia].
Qed.

Lemma reset_if_spec b mask n j :
  ISSET_BIT (reset_if b mask n) j = ISSET_BIT mask j && negb (b && bool_decide (n = j)).
Proof. destruct b; cbn [reset_if andb negb]; [apply RESET_BIT_spec|by rewrite andb_true_r]. Qed.

Lemma set_if_spec b mask n j :
  ISSET_BIT (set_if b mask n) j = ISSET_BIT mask j || (b && bool_decide (n = j)).
Proof. destruct b; cbn [set_if andb]; [apply SET_BIT_spec|by rewrite orb_false_r]. Qed.

Section Bursts.
Context {mbuf : Type} `{Mbuf mbuf}.
Variable app : app_params.

(** ** Packets of a burst are handled one by one *)

Lemma gtpu_decap_from_before i pkts pkts_mask decap_mask j :
  (j < i)%nat -> ISSET_BIT (snd (gtpu_decap_from app i pkts pkts_mask decap_mask)) j = ISSET_BIT pkts_mask j.
Proof.
  revert i pkts_mask. induction pkts as [|p pkts IH]; intros i pkts_mask Hj; [done|].
  cbn [gtpu_decap_from snd]. rewrite IH, reset_if_spec by lia.
  rewrite (bool_decide_false (i = j)) by lia. by rewrite andb_false_r, andb_true_r.
Qed.

Lemma gtpu_decap_from_lookup i pkts pkts_mask decap_mask j m meta :
  pkts !! j = Some (m, meta) ->
  let r := if ISSET_BIT decap_mask (i + j) then gtpu_decap_pkt app m meta else (m, meta, false) in
  fst (gtpu_decap_from app i pkts pkts_mask decap_mask) !! j = Some (fst r) /\
  ISSET_BIT (snd (gtpu_decap_from app i pkts pkts_mask decap_mask)) (i + j) =
  ISSET_BIT pkts_mask (i + j) && negb (snd r).
Proof.
  revert i pkts_mask j. induction pkts as [|p pkts IH]; intros i pkts_mask j Hj; [done|].
  destruct j as [|j]; cbn [lookup list_lookup] in Hj.
  - injection Hj as ->. cbn [gtpu_decap_from fst snd]. rewrite Nat.add_0_r. split; [done|].
    rewrite gtpu_decap_from_before, reset_if_spec, bool_decide_true by (done || lia).
    by rewrite andb_true_r.
  - destruct (IH (S i) (reset_if (snd (if ISSET_BIT decap_mask i then gtpu_decap_pkt app (fst p) (snd p) else (p, false)))
                          pkts_mask i) j Hj) as [H1 H2].
    rewrite <- Nat.add_succ_comm. split; [exact H1|]. cbn [gtpu_decap_from snd]. rewrite H2.
    rewrite reset_if_spec, (bool_decide_false (i = _)) by lia. by rewrite andb_false_r, andb_true_r.
Qed.

Lemma gtpu_encap_from_before i burst fd_mask seqnb pkts_mask queue_mask j :
  (j < i)%nat ->
  let r := gtpu_encap_from app i burst fd_mask seqnb pkts_mask queue_mask in
  ISSET_BIT (snd (fst r)) j = ISSET_BIT pkts_mask j /\ ISSET_BIT (snd r) j = ISSET_BIT queue_mask j.
Proof.
  revert i seqnb pkts_mask queue_mask. induction burst as [|b burst IH]; intros i seqnb pkts_mask queue_mask Hj; [done|].
  cbn [gtpu_encap_from fst snd].
  match goal with |- context [gtpu_encap_from app (S i) burst fd_mask ?s ?p ?q] =>
    destruct (IH (S i) s p q ltac:(lia)) as [-> ->] end.
  rewrite reset_if_spec, set_if_spec, (bool_decide_false (i = j)) by lia.
  by rewrite !andb_false_r, andb_true_r, orb_false_r.
Qed.

Lemma gtpu_encap_from_lookup i burst fd_mask seqnb pkts_mask queue_mask j b :
  burst !! j = Some b ->
  exists s,
    let r := encap_entry app (i + j) b fd_mask s pkts_mask in
    let st := gtpu_encap_from app i burst fd_mask seqnb pkts_mask queue_mask in
    fst (fst (fst st)) !! j = Some (e_pkt r) /\
    ISSET_BIT (snd (fst st)) (i + j) = ISSET_BIT pkts_mask (i + j) && negb (e_reset r) /\
    ISSET_BIT (snd st) (i + j) = ISSET_BIT queue_mask (i + j) || e_queue r.
Proof.
  revert i seqnb pkts_mask queue_mask j.
  induction burst as [|b' burst IH]; intros i seqnb pkts_mask queue_mask j Hj; [done|].
  destruct j as [|j]; cbn [lookup list_lookup] in Hj.
  - injection Hj as ->. exists seqnb. rewrite Nat.add_0_r. cbn [gtpu_encap_from fst snd]. split; [done|].
    fold (encap_entry app i b fd_mask seqnb pkts_mask). set (r := encap_entry app _ _ _ _ _).
    match goal with |- context [gtpu_encap_from app (S i) burst fd_mask ?s ?p ?q] =>
      destruct (gtpu_encap_from_before (S i) burst fd_mask s p q i ltac:(lia)) as [-> ->] end.
    rewrite reset_if_spec, set_if_spec, bool_decide_true by done. by rewrite !andb_true_r.
  - cbn [gtpu_encap_from fst snd]. fold (encap_entry app i b' fd_mask seqnb pkts_mask).
    set (r' := encap_entry app i b' fd_mask seqnb pkts_mask).
    destruct (IH (S i) (e_seqnb r') (reset_if (e_reset r') pkts_mask i) (set_if (e_queue r') queue_mask i) j Hj)
      as (s & H1 & H2 & H3).
    assert (encap_entry app (S i + j) b fd_mask s (reset_if (e_reset r') pkts_mask i) =
            encap_entry app (S i + j) b fd_mask s pkts_mask) as E.
    { unfold encap_entry. rewrite reset_if_spec, (bool_decide_false (i = _)) by lia.
      by rewrite andb_false_r, andb_true_r. }
    rewrite E in *. rewrite <- Nat.add_succ_comm. exists s. split; [exact H1|].
    rewrite H2, H3, reset_if_spec, set_if_spec, (bool_decide_false (i = _)) by lia.
    by rewrite !andb_false_r, andb_true_r, orb_false_r.
Qed.

End Bursts.

Section Correct.
Context {mbuf : Type} `{MbufLaws mbuf}.

(** ** Outer headers *)

Lemma split3 (l : list byte) a b c :
  length l = (a + b + c)%nat ->
  exists x y z, l = x ++ y ++ z /\ length x = a /\ length y = b /\ length z = c.
Proof.
  intros Hl. exists (take a l), (take b (drop a l)), (drop b (drop a l)).
  rewrite !take_drop, !length_take, !length_drop. split_and!; [done|lia..].
Qed.

Lemma length_ipv4_header len protocol src dst c : length (ipv4_header len protocol src dst c) = 20%nat.
Proof. unfold ipv4_header. by rewrite !length_app, !length_be_bytes, length_le_bytes. Qed.

Lemma length_udp_header sport dport len c : length (udp_header sport dport len c) = 8%nat.
Proof. unfold udp_header. by rewrite !length_app, !length_be_bytes, length_le_bytes. Qed.

Lemma length_ipv6_header len protocol (src dst : in6_addr) :
  length src = 16%nat -> length dst = 16%nat -> length (ipv6_header len protocol src dst) = 40%nat.
Proof. intros Hs Hd. unfold ipv6_header. by rewrite !length_app, length_be_bytes, Hs, Hd. Qed.

(** The total length the encapsulation computes, when it fits 16 bits. *)
Lemma outer_length (m : mbuf) pre rest :
  mdata m = pre ++ rest -> length pre = ETH_HDR_SIZE -> Z.of_nat (length pre + length rest) < 2 ^ 16 ->
  rte_pktmbuf_data_len m +[16] - Z.of_nat ETH_HDR_SIZE = Z.of_nat (length rest).
Proof.
  intros Hm Hpre Hlen. unfold rte_pktmbuf_data_len.
  rewrite wrap_add_l, Hm, length_app, Hpre, wrap_small; unfold ETH_HDR_SIZE in *; lia.
Qed.

Variable app : app_params.

(** A packet for which the FAR creates an outer IPv4 header. *)
Lemma encap_headers_v4 oh (m : mbuf) seqnb eth inner src :
  outer_hdr_creation_desc oh = GTPU_UDP_IPv4 ->
  mdata m = eth ++ inner -> length eth = ETH_HDR_SIZE ->
  (tunnel_size (out_mode (gtpu_seqnb_out app)) false <= headroom m)%nat ->
  Z.of_nat (ETH_HDR_SIZE + tunnel_size (out_mode (gtpu_seqnb_out app)) false + length inner) < 2 ^ 16 ->
  wb_source app (ntohl (oh_ipv4_address oh)) = Some src -> src <> 0 -> ntohl (oh_ipv4_address oh) <> 0 ->
  let r := encap_headers app oh m seqnb in
  e_reset r = false /\ e_queue r = false /\
  tunnelled_v4 (out_mode (gtpu_seqnb_out app)) src (ntohl (oh_ipv4_address oh)) (oh_teid oh) seqnb inner
    (mdata (e_pkt r)).
Proof.
  intros Hdesc Hm Heth Hroom Hfit Hsrc Hs0 Hd0. unfold encap_headers.
  rewrite bool_decide_true by done.
  destruct (encap_data (gtpu_seqnb_out app) m (oh_teid oh) false seqnb eth inner Hm Heth Hroom)
    as (m1 & pre & E1 & Hm1 & Hpre).
  destruct (ENCAP_GTPU_HDR _ _ _ _ _) as [r s]. cbn [fst] in E1. subst r.
  rewrite Hsrc, !bool_decide_false by done. cbn [orb e_reset e_queue e_pkt].
  split_and!; [done..|].
  set (mode := out_mode _) in *. set (g := gtpu_header _ _ _ _) in *.
  assert (length g = gpdu_hdr_size mode) as Hg by apply length_gtpu_header.
  destruct (split3 pre 14 20 8 Hpre) as (eth1 & ip & udp & -> & He & Hi & Hu).
  rewrite <- !app_assoc in Hm1.
  rewrite (outer_length m1 eth1 (ip ++ udp ++ g ++ inner)); [|done..|].
  2:{ revert Hfit. rewrite !length_app, Hg, He, Hi, Hu. unfold tunnel_size, ETH_HDR_SIZE, UDP_HDR_SIZE.
      cbn [ip_hdr_size]. unfold IPv4_HDR_SIZE. lia. }
  set (len := Z.of_nat (length (ip ++ udp ++ g ++ inner))).
  destruct (construct_ipv4_data m1 len IP_PROTO_UDP src (ntohl (oh_ipv4_address oh)) eth1 ip
              (udp ++ g ++ inner) Hm1 He Hi) as (c1 & Hm2).
  set (ih := ipv4_header _ _ _ _ _) in *. rewrite app_assoc in Hm2.
  destruct (construct_udp_data _ (len +[16] - Z.of_nat IPv4_HDR_SIZE) UDP_PORT_GTPU UDP_PORT_GTPU false
              (eth1 ++ ih) udp (g ++ inner) Hm2) as (c2 & Hm3).
  { unfold ih. rewrite length_app, length_ipv4_header, He. done. }
  { done. }
  assert (len = Z.of_nat (tunnel_size mode false + length inner)) as Elen.
  { unfold len. rewrite !length_app, Hg, Hi, Hu. unfold tunnel_size. cbn [ip_hdr_size].
    unfold IPv4_HDR_SIZE, UDP_HDR_SIZE. lia. }
  exists eth1, c1, c2. cbv zeta. rewrite <- Elen. split; [done|].
  rewrite Hm3, <- !app_assoc. fold ih g. do 3 f_equal. unfold udp_header.
  rewrite be_bytes2_wrap. done.
Qed.
Lemma encap_headers_v6 oh (m : mbuf) seqnb eth inner src :
  outer_hdr_creation_desc oh = GTPU_UDP_IPv6 ->
  mdata m = eth ++ inner -> length eth = ETH_HDR_SIZE ->
  (tunnel_size (out_mode (gtpu_seqnb_out app)) true <= headroom m)%nat ->
  Z.of_nat (ETH_HDR_SIZE + tunnel_size (out_mode (gtpu_seqnb_out app)) true + length inner) < 2 ^ 16 ->
  wb_source_v6 app (oh_ipv6_address oh) = Some src -> src <> in6_zero -> oh_ipv6_address oh <> in6_zero ->
  length src = 16%nat -> length (oh_ipv6_address oh) = 16%nat ->
  let r := encap_headers app oh m seqnb in
  e_reset r = false /\ e_queue r = false /\
  tunnelled_v6 (out_mode (gtpu_seqnb_out app)) src (oh_ipv6_address oh) (oh_teid oh) seqnb inner
    (mdata (e_pkt r)).
Proof.
  intros Hdesc Hm Heth Hroom Hfit Hsrc Hs0 Hd0 Hls Hld. unfold encap_headers.
  rewrite Hdesc, bool_decide_false, bool_decide_true by done.
  destruct (encap_data (gtpu_seqnb_out app) m (oh_teid oh) true seqnb eth inner Hm Heth Hroom)
    as (m1 & pre & E1 & Hm1 & Hpre).
  destruct (ENCAP_GTPU_HDR _ _ _ _ _) as [r s]. cbn [fst] in E1. subst r.
  rewrite Hsrc, !bool_decide_false by done. cbn [orb e_reset e_queue e_pkt].
  split_and!; [done..|].
  set (mode := out_mode _) in *. set (g := gtpu_header _ _ _ _) in *.
  assert (length g = gpdu_hdr_size mode) as Hg by apply length_gtpu_header.
  destruct (split3 pre 14 40 8 Hpre) as (eth1 & ip & udp & -> & He & Hi & Hu).
  rewrite <- !app_assoc in Hm1.
  rewrite (outer_length m1 eth1 (ip ++ udp ++ g ++ inner)); [|done..|].
  2:{ revert Hfit. rewrite !length_app, Hg, He, Hi, Hu. unfold tunnel_size, ETH_HDR_SIZE, UDP_HDR_SIZE.
      cbn [ip_hdr_size]. unfold IPv6_HDR_SIZE. lia. }
  set (len := Z.of_nat (length (ip ++ udp ++ g ++ inner)) +[16] - Z.of_nat IPv6_HDR_SIZE).
  pose proof (construct_ipv6_data m1 len IP_PROTO_UDP src (oh_ipv6_address oh) eth1 ip
              (udp ++ g ++ inner) Hm1 He Hi Hls Hld) as Hm2.
  set (ih := ipv6_header _ _ _ _) in *. rewrite app_assoc in Hm2.
  destruct (construct_udp_data _ len UDP_PORT_GTPU UDP_PORT_GTPU true
              (eth1 ++ ih) udp (g ++ inner) Hm2) as (c2 & Hm3).
  { unfold ih. rewrite length_app, length_ipv6_header, He by done. done. }
  { done. }
  assert (len = Z.of_nat (tunnel_size mode true + length inner) - 40) as Elen.
  { unfold len. revert Hfit. rewrite !length_app, Hg, Hi, Hu. unfold tunnel_size. cbn [ip_hdr_size].
    unfold IPv6_HDR_SIZE, UDP_HDR_SIZE, ETH_HDR_SIZE. intros. rewrite wrap_small; lia. }
  exists eth1, c2. cbv zeta. rewrite <- Elen. split; [done|].
  by rewrite Hm3, <- !app_assoc.
Qed.

(** ** Removal at the other end *)

Lemma load_at (m : mbuf) pre hdr post off k n :
  mdata m = pre ++ hdr ++ post -> off = (length pre + k)%nat -> (k + n <= length hdr)%nat ->
  load m off n = le_val (take n (drop k hdr)).
Proof. intros Hm -> Hk. by apply (load_part m pre hdr post). Qed.

Lemma be4_nonzero z : 0 < z < 2 ^ 32 -> le_val (be_bytes 4 z) <> 0.
Proof.
  intros Hz E. assert (ntohl (le_val (be_bytes 4 z)) = 0) as E0 by (rewrite E; reflexivity).
  rewrite ntohl_be in E0; lia.
Qed.

Lemma bool_decide_neq_refl {A} (x : A) `{!Decision (x <> x)} : bool_decide (x <> x) = false.
Proof. apply bool_decide_false. auto. Qed.

(** The tests of the GTP-U and UDP headers pass. *)
Lemma decap_tests (m : mbuf) pre mode teid len seqnb inner ip_type udp_pre ulen c :
  mdata m = pre ++ gtpu_header mode teid len seqnb ++ inner -> length pre = get_mtogtpu ip_type ->
  pre = udp_pre ++ udp_header UDP_PORT_GTPU UDP_PORT_GTPU ulen c -> 0 < teid < 2 ^ 32 ->
  ntohs (load m (get_mtoudp ip_type + udp_dst_port) 2) = UDP_PORT_GTPU /\
  load m (get_mtogtpu ip_type + gtpu_msgtype) 1 = GTP_GPDU /\
  ntohl (load m (get_mtogtpu ip_type + gtpu_teid) 4) = teid /\
  load m (get_mtogtpu ip_type + gtpu_teid) 4 <> 0.
Proof.
  intros Hm Hpre Eu Hteid.
  assert (forall k n, (k + n <= 8)%nat -> load m (get_mtogtpu ip_type + k) n =
                      le_val (take n (drop k (gtpu_header mode teid len seqnb)))) as Hg.
  { intros k n Hk. apply (load_at m pre _ inner _ k); [done|by rewrite Hpre|].
    rewrite length_gtpu_header. destruct mode; cbn [gpdu_hdr_size];
      unfold GPDU_HDR_SIZE_WITH_SEQNB, GPDU_HDR_SIZE_WITHOUT_SEQNB; lia. }
  rewrite !Hg by (apply leb_complete; reflexivity).
  assert (take 4 (drop gtpu_teid (gtpu_header mode teid len seqnb)) = be_bytes 4 teid) as ->
    by (destruct mode; reflexivity).
  split_and!.
  - rewrite (load_at m udp_pre (udp_header UDP_PORT_GTPU UDP_PORT_GTPU ulen c)
               (gtpu_header mode teid len seqnb ++ inner) _ 2).
    + change (take 2 _) with (be_bytes 2 UDP_PORT_GTPU). by rewrite ntohs_be.
    + by rewrite Hm, Eu, <- app_assoc.
    + revert Hpre. rewrite Eu, length_app, length_udp_header. unfold get_mtogtpu, get_mtoudp, udp_dst_port, UDP_HDR_SIZE. lia.
    + rewrite length_udp_header. lia.
  - by destruct mode.
  - apply ntohl_be. lia.
  - by apply be4_nonzero.
Qed.

(** A packet of the tunnel whose destination is the west-bound interface is stripped
    down to the user packet; its TEID and its source go to the metadata. *)
Lemma decap_tunnelled_v4 (m : mbuf) meta out src dst teid seqnb inner pkt eth :
  in_mode (gtpu_seqnb_in app) = dynamic_seqnb \/ in_mode (gtpu_seqnb_in app) = out_mode out ->
  tunnelled_v4 (out_mode out) src dst teid seqnb inner pkt ->
  ether_is ETHER_TYPE_IPv4_be eth -> mdata m = eth ++ drop ETH_HDR_SIZE pkt ->
  0 < teid < 2 ^ 32 -> 0 <= src < 2 ^ 32 -> dst = wb_ip app \/ dst = wb_li_ip app ->
  exists m' eth', gtpu_decap_pkt app m meta = (m', mk_meta teid (enb_ipv4 src), false) /\
    mdata m' = eth' ++ inner /\ length eth' = ETH_HDR_SIZE.
Proof.
  intros Hmode (eth0 & c1 & c2 & Heth0 & ->) [Heth Htype] Hm Hteid Hsrc Hdst.
  rewrite <- Heth0, drop_app_length in Hm.
  set (ih := ipv4_header _ _ _ _ _) in *. set (uh := udp_header _ _ _ _) in *.
  set (g := gtpu_header _ _ _ _) in *.
  assert (length ih = 20%nat) as Hih by apply length_ipv4_header.
  assert (length uh = 8%nat) as Huh by apply length_udp_header.
  assert (mdata m = ((eth ++ ih) ++ uh) ++ g ++ inner) as Hm' by (by rewrite Hm, <- !app_assoc).
  assert (length ((eth ++ ih) ++ uh) = get_mtogtpu false) as Hpre
    by (by rewrite !length_app, Heth, Hih, Huh).
  destruct (decap_tests m _ _ _ _ _ _ false (eth ++ ih) _ c2 Hm' Hpre eq_refl Hteid)
    as (Hport & Htype' & Hteid' & Hnz).
  assert (load m ether_type_off 2 = ETHER_TYPE_IPv4_be) as Hety.
  { rewrite (load_at m [] eth (ih ++ uh ++ g ++ inner) _ ether_type_off); [done|done|done|].
    by rewrite Heth. }
  assert (forall k n, (k + n <= 20)%nat -> load m (get_mtoip + k) n = le_val (take n (drop k ih))) as Hip.
  { intros k n Hk. apply (load_at m eth ih (uh ++ g ++ inner) _ k); [done|by rewrite Heth|lia]. }
  unfold gtpu_decap_pkt. rewrite Hety, bool_decide_true by done.
  rewrite !Hip by (apply leb_complete; reflexivity).
  change (take 4 (drop ipv4_dst_addr ih)) with (be_bytes 4 dst).
  change (take 4 (drop ipv4_src_addr ih)) with (be_bytes 4 src).
  rewrite Hteid', Htype', Hport, ntohl_be by done.
  assert (bool_decide (le_val (be_bytes 4 dst) <> ntohl (wb_ip app)) &&
          bool_decide (le_val (be_bytes 4 dst) <> ntohl (wb_li_ip app)) = false) as ->.
  { rewrite <- ntohl_le. destruct Hdst as [->| ->]; apply andb_false_iff; [left|right];
      apply bool_decide_neq_refl. }
  rewrite bool_decide_neq_refl, (bool_decide_false (_ = 0) Hnz), bool_decide_neq_refl. cbn [orb].
  destruct (decap_data (gtpu_seqnb_in app) out m teid _ _ false _ inner Hmode Hm' Hpre)
    as (m' & eth' & -> & Hm'' & Heth').
  by exists m', eth'.
Qed.

Lemma decap_tunnelled_v6 (m : mbuf) meta out src dst teid seqnb inner pkt eth :
  in_mode (gtpu_seqnb_in app) = dynamic_seqnb \/ in_mode (gtpu_seqnb_in app) = out_mode out ->
  tunnelled_v6 (out_mode out) src dst teid seqnb inner pkt ->
  ether_is ETHER_TYPE_IPv6_be eth -> mdata m = eth ++ drop ETH_HDR_SIZE pkt ->
  0 < teid < 2 ^ 32 -> length src = 16%nat -> length dst = 16%nat ->
  dst = wb_ipv6 app \/ dst = wb_li_ipv6 app ->
  exists m' eth', gtpu_decap_pkt app m meta = (m', mk_meta teid (enb_ipv6 src), false) /\
    mdata m' = eth' ++ inner /\ length eth' = ETH_HDR_SIZE.
Proof.
  intros Hmode (eth0 & c2 & Heth0 & ->) [Heth Htype] Hm Hteid Hsrc Hldst Hdst.
  rewrite <- Heth0, drop_app_length in Hm.
  set (ih := ipv6_header _ _ _ _) in *. set (uh := udp_header _ _ _ _) in *.
  set (g := gtpu_header _ _ _ _) in *.
  assert (length ih = 40%nat) as Hih by (by apply length_ipv6_header).
  assert (length uh = 8%nat) as Huh by apply length_udp_header.
  assert (mdata m = ((eth ++ ih) ++ uh) ++ g ++ inner) as Hm' by (by rewrite Hm, <- !app_assoc).
  assert (length ((eth ++ ih) ++ uh) = get_mtogtpu true) as Hpre
    by (by rewrite !length_app, Heth, Hih, Huh).
  destruct (decap_tests m _ _ _ _ _ _ true (eth ++ ih) _ c2 Hm' Hpre eq_refl Hteid)
    as (Hport & Htype' & Hteid' & Hnz).
  assert (load m ether_type_off 2 = ETHER_TYPE_IPv6_be) as Hety.
  { rewrite (load_at m [] eth (ih ++ uh ++ g ++ inner) _ ether_type_off); [done|done|done|].
    by rewrite Heth. }
  assert (forall k n, (k + n <= 40)%nat -> peek m (get_mtoip + k) n = take n (drop k ih)) as Hip.
  { intros k n Hk. unfold get_mtoip. rewrite <- Heth.
    apply (peek_part m eth ih (uh ++ g ++ inner)); [done|lia]. }
  unfold gtpu_decap_pkt. rewrite Hety, bool_decide_false, bool_decide_true by done.
  rewrite !Hip by (apply leb_complete; reflexivity).
  assert (take 16 (drop ipv6_src_addr ih) = src /\ take 16 (drop ipv6_dst_addr ih) = dst) as [-> ->].
  { unfold ih, ipv6_header, be_bytes. explode src Hsrc. explode dst Hldst. done. }
  rewrite Hteid', Htype', Hport.
  assert (bool_decide (dst <> wb_ipv6 app) && bool_decide (dst <> wb_li_ipv6 app) = false) as ->.
  { destruct Hdst as [->| ->]; apply andb_false_iff; [left|right]; apply bool_decide_neq_refl. }
  rewrite bool_decide_neq_refl, (bool_decide_false (_ = 0) Hnz), bool_decide_neq_refl. cbn [orb].
  destruct (decap_data (gtpu_seqnb_in app) out m teid _ _ true _ inner Hmode Hm' Hpre)
    as (m' & eth' & -> & Hm'' & Heth').
  by exists m', eth'.
Qed.
(** ** Redirection *)

Lemma translator_data (m : mbuf) eth iph tl to_v6 :
  mdata m = eth ++ iph ++ tl -> length eth = ETH_HDR_SIZE -> length iph = ip_hdr_size (negb to_v6) ->
  (to_v6 = true -> 20 <= headroom m)%nat ->
  exists m' eth' iph', translator_ip_hdr m to_v6 = (m', true) /\ mdata m' = eth' ++ iph' ++ tl /\
    length eth' = ETH_HDR_SIZE /\ length iph' = ip_hdr_size to_v6.
Proof.
  intros Hm Heth Hiph Hroom.
  destruct (adj_enough m (ip_hdr_size (negb to_v6))) as (m1 & E1 & Hm1 & Hr1).
  { rewrite Hm, !length_app. lia. }
  rewrite Hm, app_assoc, drop_app_le in Hm1 by (rewrite length_app; lia).
  set (left_ := drop _ (eth ++ iph)) in Hm1.
  assert (length left_ = ETH_HDR_SIZE) as Hleft by (unfold left_; rewrite length_drop, length_app; lia).
  destruct (prepend_enough m1 (ip_hdr_size to_v6)) as (m2 & hd & E2 & Hm2 & Hhd & _).
  { rewrite Hr1. destruct to_v6; cbn [ip_hdr_size negb]; unfold IPv6_HDR_SIZE, IPv4_HDR_SIZE; [|lia].
    specialize (Hroom eq_refl). lia. }
  destruct (split3 (hd ++ left_) 14 (ip_hdr_size to_v6) 0) as (x & y & z & Exy & Hx & Hy & Hz).
  { rewrite length_app, Hhd, Hleft. unfold ETH_HDR_SIZE. lia. }
  apply nil_length_inv in Hz. subst z. rewrite app_nil_r in Exy.
  exists m2, x, y. rewrite Hm2, Hm1, (app_assoc hd), Exy, <- app_assoc. split_and!; [|done..].
  unfold translator_ip_hdr. destruct to_v6; cbn [negb ip_hdr_size] in E1, E2; by rewrite E1, E2.
Qed.

Lemma reset_udp_data (m : mbuf) pre cksum rest ip_type :
  mdata m = pre ++ cksum ++ rest -> length pre = (get_mtoudp ip_type + udp_dgram_cksum)%nat ->
  length cksum = 2%nat ->
  exists c, mdata (reset_udp_hdr_checksum m ip_type) = pre ++ le_bytes 2 c ++ rest.
Proof.
  intros Hm Hpre Hc. unfold reset_udp_hdr_checksum. rewrite <- Hpre, <- (Nat.add_0_r (length pre)).
  eexists.
  apply (store_step _ _ (le_bytes 2 0) _ _ 0); [reflexivity| |done|reflexivity].
  explode cksum Hc. by apply (store_step _ _ [b; b0] _ _ 0).
Qed.

Lemma teid_data (m : mbuf) pre old rest ip_type teid :
  mdata m = pre ++ old ++ rest -> length pre = (get_mtogtpu ip_type + gtpu_teid)%nat ->
  length old = 4%nat ->
  mdata (store m (get_mtogtpu ip_type + gtpu_teid) 4 (ntohl teid)) = pre ++ be_bytes 4 teid ++ rest.
Proof.
  intros Hm Hpre Ho. rewrite <- le_bytes_bswap32, <- Hpre, <- (Nat.add_0_r (length pre)).
  explode old Ho. by apply (store_step _ _ [b; b0; b1; b2] _ _ 0).
Qed.

(** A packet of the other IP version is translated first. *)
Lemma redirect_translated (m : mbuf) is_v6 to_v6 udp6 g4 rest :
  gtpu_packet is_v6 udp6 g4 rest (mdata m) -> (to_v6 = true -> 20 <= headroom m)%nat ->
  exists m1 eth iph ck old,
    (if bool_decide (load m ether_type_off 2 = if to_v6 then ETHER_TYPE_IPv4_be else ETHER_TYPE_IPv6_be)
     then translator_ip_hdr m to_v6 else (m, true)) = (m1, true) /\
    mdata m1 = eth ++ iph ++ udp6 ++ ck ++ g4 ++ old ++ rest /\
    length eth = ETH_HDR_SIZE /\ length iph = ip_hdr_size to_v6 /\ length udp6 = 6%nat /\
    length ck = 2%nat /\ length g4 = 4%nat /\ length old = 4%nat.
Proof.
  intros (eth & iph & ck & old & Hm & [Heth Hty] & Hiph & Hu & Hck & Hg & Ho) Hroom.
  assert (load m ether_type_off 2 = if is_v6 then ETHER_TYPE_IPv6_be else ETHER_TYPE_IPv4_be) as ->.
  { rewrite (load_at m [] eth _ _ ether_type_off _ Hm), Hty by (done || by rewrite Heth). done. }
  destruct (bool_decide_reflect ((if is_v6 then ETHER_TYPE_IPv6_be else ETHER_TYPE_IPv4_be) =
                         if to_v6 then ETHER_TYPE_IPv4_be else ETHER_TYPE_IPv6_be)) as [E|E].
  - destruct (translator_data m eth iph (udp6 ++ ck ++ g4 ++ old ++ rest) to_v6) as (m1 & e1 & i1 & ? & ? & ? & ?);
      [done|done| |done|by exists m1, e1, i1, ck, old].
    by destruct is_v6, to_v6.
  - exists m, eth, iph, ck, old. split_and!; try done. by destruct is_v6, to_v6.
Qed.

Lemma redirect_v4_data (m : mbuf) teid src dst is_v6 udp6 g4 rest :
  gtpu_packet is_v6 udp6 g4 rest (mdata m) -> Z.of_nat (60 + length rest) < 2 ^ 16 ->
  exists m' eth c c', redirect_v4 m teid src dst = (m', true) /\ length eth = ETH_HDR_SIZE /\
    mdata m' = eth ++ ipv4_header (Z.of_nat (36 + length rest)) IP_PROTO_UDP src dst c ++
               udp6 ++ le_bytes 2 c' ++ g4 ++ be_bytes 4 teid ++ rest.
Proof.
  intros Hpkt Hfit.
  destruct (redirect_translated m is_v6 false udp6 g4 rest Hpkt ltac:(done))
    as (m1 & eth & iph & ck & old & E & Hm1 & He & Hi & Hu & Hck & Hg & Ho).
  unfold redirect_v4. rewrite E. cbn [snd fst].
  rewrite (outer_length m1 eth _ Hm1 He) by (rewrite !length_app, He, Hi, Hu, Hck, Hg, Ho;
    cbn [ip_hdr_size]; unfold ETH_HDR_SIZE, IPv4_HDR_SIZE; lia).
  replace (length (iph ++ udp6 ++ ck ++ g4 ++ old ++ rest)) with (36 + length rest)%nat
    by (rewrite !length_app, Hi, Hu, Hck, Hg, Ho; cbn [ip_hdr_size]; unfold IPv4_HDR_SIZE; lia).
  pose proof (teid_data m1 (eth ++ iph ++ udp6 ++ ck ++ g4) old rest false teid) as Ht.
  rewrite <- !app_assoc, Hm1, !length_app, He, Hi, Hu, Hck, Hg in Ht.
  specialize (Ht eq_refl eq_refl Ho).
  destruct (construct_ipv4_data _ (Z.of_nat (36 + length rest)) IP_PROTO_UDP src dst _ _ _ Ht He Hi) as (c & Hip).
  match type of Hip with mdata ?m' = _ => set (m2 := m') in * end.
  destruct (reset_udp_data m2 (eth ++ ipv4_header (Z.of_nat (36 + length rest)) IP_PROTO_UDP src dst c ++ udp6)
              ck (g4 ++ be_bytes 4 teid ++ rest) false) with (3 := Hck) as (c' & Hu').
  { by rewrite Hip, <- !app_assoc. }
  { by rewrite !length_app, He, length_ipv4_header, Hu. }
  eexists _, eth, c, c'. split; [reflexivity|]. split; [done|]. by rewrite Hu', <- !app_assoc.
Qed.

Lemma redirect_v6_data (m : mbuf) teid src dst is_v6 udp6 g4 rest :
  gtpu_packet is_v6 udp6 g4 rest (mdata m) -> Z.of_nat (80 + length rest) < 2 ^ 16 ->
  (20 <= headroom m)%nat -> length src = 16%nat -> length dst = 16%nat ->
  exists m' eth c', redirect_v6 m teid src dst = (m', true) /\ length eth = ETH_HDR_SIZE /\
    mdata m' = eth ++ ipv6_header (Z.of_nat (16 + length rest)) IP_PROTO_UDP src dst ++
               udp6 ++ le_bytes 2 c' ++ g4 ++ be_bytes 4 teid ++ rest.
Proof.
  intros Hpkt Hfit Hroom Hsrc Hdst.
  destruct (redirect_translated m is_v6 true udp6 g4 rest Hpkt ltac:(done))
    as (m1 & eth & iph & ck & old & E & Hm1 & He & Hi & Hu & Hck & Hg & Ho).
  unfold redirect_v6. rewrite E. cbn [snd fst].
  assert (rte_pktmbuf_data_len m1 +[16] - Z.of_nat (ETH_HDR_SIZE + IPv6_HDR_SIZE) = Z.of_nat (16 + length rest)) as ->.
  { unfold rte_pktmbuf_data_len. rewrite wrap_add_l, Hm1, !length_app, He, Hi, Hu, Hck, Hg, Ho.
    cbn [ip_hdr_size]. unfold ETH_HDR_SIZE, IPv6_HDR_SIZE. rewrite wrap_small; lia. }
  pose proof (teid_data m1 (eth ++ iph ++ udp6 ++ ck ++ g4) old rest true teid) as Ht.
  rewrite <- !app_assoc, Hm1, !length_app, He, Hi, Hu, Hck, Hg in Ht.
  specialize (Ht eq_refl eq_refl Ho).
  pose proof (construct_ipv6_data _ (Z.of_nat (16 + length rest)) IP_PROTO_UDP src dst _ _ _ Ht He Hi Hsrc Hdst) as Hip.
  match type of Hip with mdata ?m' = _ => set (m2 := m') in * end.
  destruct (reset_udp_data m2 (eth ++ ipv6_header (Z.of_nat (16 + length rest)) IP_PROTO_UDP src dst ++ udp6)
              ck (g4 ++ be_bytes 4 teid ++ rest) true) with (3 := Hck) as (c' & Hu').
  { by rewrite Hip, <- !app_assoc. }
  { by rewrite !length_app, He, length_ipv6_header, Hu. }
  eexists _, eth, c'. split; [reflexivity|]. split; [done|]. by rewrite Hu', <- !app_assoc.
Qed.

Lemma burst_entry_forwarded (b : burst_entry) fr seqnb i fd_mask pkts_mask :
  forwarding b fr -> ISSET_BIT fd_mask i = true -> ISSET_BIT pkts_mask i = true ->
  encap_entry app i b fd_mask seqnb pkts_mask = encap_headers app (outer_hdr fr) (b_pkt b) seqnb.
Proof.
  intros (si & pdr & Hsi & Hst & Hpdr & Hfar & Hforw & Ht) Hf Hp.
  unfold encap_entry. rewrite Hf, Hp. cbn [andb]. unfold gtpu_encap_pkt.
  rewrite Hsi, Hpdr, Hfar, Hst, bool_decide_neq_refl, Hforw. cbn [negb].
  by rewrite bool_decide_false by lia.
Qed.

End Correct.

(** ** Theorems *)

(** C30. A user packet that a gateway encapsulates for a FAR with an outer IPv4 header and
    that arrives at the gateway with that address leaves the decapsulation there as the
    same user packet, alive, with the TEID of the FAR and the sender in its metadata. *)
Theorem tunnel_v4 {mbuf} `{MbufLaws mbuf} (app app' : app_params) (burst : list burst_entry)
    fd_mask seqnb mask queue j b fr inner src :
  let oh := outer_hdr fr in
  let mode := out_mode (gtpu_seqnb_out app) in
  in_mode (gtpu_seqnb_in app') = dynamic_seqnb \/ in_mode (gtpu_seqnb_in app') = mode ->
  burst !! j = Some b -> ISSET_BIT fd_mask j = true -> ISSET_BIT mask j = true ->
  forwarding b fr -> outer_hdr_creation_desc oh = GTPU_UDP_IPv4 ->
  user_packet mode false (b_pkt b) inner ->
  wb_source app (ntohl (oh_ipv4_address oh)) = Some src -> 0 < src < 2 ^ 32 ->
  ntohl (oh_ipv4_address oh) <> 0 ->
  ntohl (oh_ipv4_address oh) = wb_ip app' \/ ntohl (oh_ipv4_address oh) = wb_li_ip app' ->
  let sent := gtpu_encap app burst fd_mask seqnb mask queue in
  exists m1, fst (fst (fst sent)) !! j = Some m1 /\ ISSET_BIT (snd (fst sent)) j = true /\
    forall arrivals k m2 meta eth mask' decap_mask,
      arrivals !! k = Some (m2, meta) -> ISSET_BIT decap_mask k = true -> ISSET_BIT mask' k = true ->
      ether_is ETHER_TYPE_IPv4_be eth -> mdata m2 = eth ++ drop ETH_HDR_SIZE (mdata m1) ->
      let received := gtpu_decap app' arrivals mask' decap_mask in
      exists m3 eth3,
        fst received !! k = Some (m3, mk_meta (oh_teid oh) (enb_ipv4 src)) /\
        ISSET_BIT (snd received) k = true /\ mdata m3 = eth3 ++ inner /\ length eth3 = ETH_HDR_SIZE.
Proof.
  intros oh mode Hmode Hb Hf Hp Hfwd Hdesc (eth & Hm & Heth & Hroom & Hfit) Hsrc Hs Hd0 Hd sent.
  destruct (gtpu_encap_from_lookup app 0 burst fd_mask seqnb mask queue j b Hb) as (s & H1 & H2 & _).
  cbv zeta in H1, H2. cbn [Nat.add] in H1, H2.
  rewrite (burst_entry_forwarded app b fr) in H1, H2 by done.
  destruct (encap_headers_v4 app oh (b_pkt b) s eth inner src) as (Hr & _ & Ht); try done; [lia|].
  fold oh in H1, H2. rewrite Hr, Hp in H2.
  exists (e_pkt (encap_headers app oh (b_pkt b) s)). split_and!; [done|done|].
  intros arrivals k m2 meta eth2 mask' decap_mask Hk Hdm Hmk Hety Hm2.
  destruct Hfwd as (_ & _ & _ & _ & _ & _ & _ & Hteid).
  destruct (decap_tunnelled_v4 app' m2 meta _ _ _ _ _ _ _ _ Hmode Ht Hety Hm2 Hteid) as (m3 & eth3 & E & Hm3 & He3);
    [lia|done|].
  destruct (gtpu_decap_from_lookup app' 0 arrivals mask' decap_mask k m2 meta Hk) as [K1 K2].
  cbn [Nat.add] in K1, K2. rewrite Hdm, E in K1, K2. rewrite Hmk in K2. by exists m3, eth3.
Qed.

(** The same over an outer IPv6 header. *)
Theorem tunnel_v6 {mbuf} `{MbufLaws mbuf} (app app' : app_params) (burst : list burst_entry)
    fd_mask seqnb mask queue j b fr inner src :
  let oh := outer_hdr fr in
  let mode := out_mode (gtpu_seqnb_out app) in
  in_mode (gtpu_seqnb_in app') = dynamic_seqnb \/ in_mode (gtpu_seqnb_in app') = mode ->
  burst !! j = Some b -> ISSET_BIT fd_mask j = true -> ISSET_BIT mask j = true ->
  forwarding b fr -> outer_hdr_creation_desc oh = GTPU_UDP_IPv6 ->
  user_packet mode true (b_pkt b) inner ->
  wb_source_v6 app (oh_ipv6_address oh) = Some src -> src <> in6_zero -> oh_ipv6_address oh <> in6_zero ->
  length src = 16%nat -> length (oh_ipv6_address oh) = 16%nat ->
  oh_ipv6_address oh = wb_ipv6 app' \/ oh_ipv6_address oh = wb_li_ipv6 app' ->
  let sent := gtpu_encap app burst fd_mask seqnb mask queue in
  exists m1, fst (fst (fst sent)) !! j = Some m1 /\ ISSET_BIT (snd (fst sent)) j = true /\
    forall arrivals k m2 meta eth mask' decap_mask,
      arrivals !! k = Some (m2, meta) -> ISSET_BIT decap_mask k = true -> ISSET_BIT mask' k = true ->
      ether_is ETHER_TYPE_IPv6_be eth -> mdata m2 = eth ++ drop ETH_HDR_SIZE (mdata m1) ->
      let received := gtpu_decap app' arrivals mask' decap_mask in
      exists m3 eth3,
        fst received !! k = Some (m3, mk_meta (oh_teid oh) (enb_ipv6 src)) /\
        ISSET_BIT (snd received) k = true /\ mdata m3 = eth3 ++ inner /\ length eth3 = ETH_HDR_SIZE.
Proof.
  intros oh mode Hmode Hb Hf Hp Hfwd Hdesc (eth & Hm & Heth & Hroom & Hfit) Hsrc Hs Hd0 Hls Hld Hd sent.
  destruct (gtpu_encap_from_lookup app 0 burst fd_mask seqnb mask queue j b Hb) as (s & H1 & H2 & _).
  cbv zeta in H1, H2. cbn [Nat.add] in H1, H2.
  rewrite (burst_entry_forwarded app b fr) in H1, H2 by done.
  destruct (encap_headers_v6 app oh (b_pkt b) s eth inner src) as (Hr & _ & Ht); try done.
  fold oh in H1, H2. rewrite Hr, Hp in H2.
  exists (e_pkt (encap_headers app oh (b_pkt b) s)). split_and!; [done|done|].
  intros arrivals k m2 meta eth2 mask' decap_mask Hk Hdm Hmk Hety Hm2.
  destruct Hfwd as (_ & _ & _ & _ & _ & _ & _ & Hteid).
  destruct (decap_tunnelled_v6 app' m2 meta _ _ _ _ _ _ _ _ Hmode Ht Hety Hm2 Hteid Hls Hld Hd)
    as (m3 & eth3 & E & Hm3 & He3).
  destruct (gtpu_decap_from_lookup app' 0 arrivals mask' decap_mask k m2 meta Hk) as [K1 K2].
  cbn [Nat.add] in K1, K2. rewrite Hdm, E in K1, K2. rewrite Hmk in K2. by exists m3, eth3.
Qed.

Lemma encap_headers_not_queued {mbuf} `{Mbuf mbuf} app oh (m : mbuf) seqnb :
  e_queue (encap_headers app oh m seqnb) = false.
Proof.
  unfold encap_headers. case_bool_decide; [|case_bool_decide; [|done]].
  - destruct (ENCAP_GTPU_HDR _ _ _ _ _) as [[m'|] s]; [|done].
    destruct (wb_source _ _); [|done]. by destruct (_ || _).
  - destruct (ENCAP_GTPU_HDR _ _ _ _ _) as [[m'|] s]; [|done].
    destruct (wb_source_v6 _ _); [|done]. by destruct (_ || _).
Qed.

Lemma encap_queued_reset {mbuf} `{Mbuf mbuf} app si pdr (m : mbuf) seqnb :
  e_queue (gtpu_encap_pkt app si pdr m seqnb) = true -> e_reset (gtpu_encap_pkt app si pdr m seqnb) = true.
Proof.
  unfold gtpu_encap_pkt. destruct si as [si|]; [|done]. destruct pdr as [pdr|]; [|done].
  destruct (far pdr) as [fr|]; [|done].
  case_bool_decide; [done|]. destruct (negb (forw fr)); [done|]. case_bool_decide; [done|].
  by rewrite encap_headers_not_queued.
Qed.

(** [gtpu_encap] only takes packets out of the burst, puts in the queue for paging
    only packets it takes out, and leaves alone those outside [fd_pkts_mask]. *)
Theorem no_forward_and_buffer {mbuf} `{Mbuf mbuf} app (burst : list (@burst_entry mbuf)) fd_mask seqnb mask queue j b :
  burst !! j = Some b ->
  let r := gtpu_encap app burst fd_mask seqnb mask queue in
  (ISSET_BIT (snd (fst r)) j = true -> ISSET_BIT mask j = true) /\
  (ISSET_BIT (snd r) j = true -> ISSET_BIT queue j = true \/
     ISSET_BIT mask j = true /\ ISSET_BIT (snd (fst r)) j = false) /\
  (ISSET_BIT fd_mask j = false ->
     fst (fst (fst r)) !! j = Some (b_pkt b) /\ ISSET_BIT (snd (fst r)) j = ISSET_BIT mask j).
Proof.
  intros Hb r. destruct (gtpu_encap_from_lookup app 0 burst fd_mask seqnb mask queue j b Hb) as (s & H1 & H2 & H3).
  cbn [Nat.add] in H1, H2, H3. fold (gtpu_encap app burst fd_mask seqnb mask queue) in H1, H2, H3. fold r in H1, H2, H3.
  rewrite H1, H2, H3. unfold encap_entry.
  destruct (ISSET_BIT fd_mask j); [destruct (ISSET_BIT mask j)|];
    cbn [andb orb e_reset e_queue e_pkt negb]; rewrite ?orb_false_r, ?andb_true_r.
  - pose proof (encap_queued_reset app (b_sess b) (b_pdr b) (b_pkt b) s) as Hq.
    destruct (gtpu_encap_pkt _ _ _ _ _) as [m' s' reset queued]. cbn [e_reset e_queue] in *.
    split; [done|]. split; [|done].
    destruct queued; [rewrite Hq by done|rewrite orb_false_r]; auto.
  - auto.
  - auto.
Qed.

(** A packet redirected to the next hop of its FAR keeps its UDP ports and length, its
    GTP-U flags, type and length and everything after the GTP-U header; it gets the TEID,
    the addresses and the IP version of the FAR, whatever version it had. *)
Theorem relay_keeps_user_data {mbuf} `{MbufLaws mbuf} app pdr fr (m : mbuf) is_v6 udp6 g4 rest :
  let oh := outer_hdr fr in
  let loopback := bool_decide (src_intfc pdr = ACCESS) && bool_decide (dst_intfc fr = ACCESS) in
  gtpu_packet is_v6 udp6 g4 rest (mdata m) -> Z.of_nat (80 + length rest) < 2 ^ 16 -> (20 <= headroom m)%nat ->
  (forall src, outer_hdr_creation_desc oh = GTPU_UDP_IPv4 ->
     (if loopback then wb_source app (ntohl (oh_ipv4_address oh)) else eb_source app (ntohl (oh_ipv4_address oh))) = Some src ->
     exists m' eth c c', nexts5s8_pkt app pdr fr m = mk_relay m' loopback loopback false /\
       length eth = ETH_HDR_SIZE /\
       mdata m' = eth ++ ipv4_header (Z.of_nat (36 + length rest)) IP_PROTO_UDP src (ntohl (oh_ipv4_address oh)) c ++
                  udp6 ++ le_bytes 2 c' ++ g4 ++ be_bytes 4 (oh_teid oh) ++ rest) /\
  (forall src, outer_hdr_creation_desc oh = GTPU_UDP_IPv6 ->
     (if loopback then wb_source_v6 app (oh_ipv6_address oh) else eb_source_v6 app (oh_ipv6_address oh)) = Some src ->
     length src = 16%nat -> length (oh_ipv6_address oh) = 16%nat ->
     exists m' eth c', nexts5s8_pkt app pdr fr m = mk_relay m' loopback loopback false /\
       length eth = ETH_HDR_SIZE /\
       mdata m' = eth ++ ipv6_header (Z.of_nat (16 + length rest)) IP_PROTO_UDP src (oh_ipv6_address oh) ++
                  udp6 ++ le_bytes 2 c' ++ g4 ++ be_bytes 4 (oh_teid oh) ++ rest).
Proof.
  intros oh loopback Hpkt Hfit Hroom. split.
  - intros src Hdesc Hsrc.
    destruct (redirect_v4_data m (oh_teid oh) src (ntohl (oh_ipv4_address oh)) is_v6 udp6 g4 rest Hpkt)
      as (m' & eth & c & c' & E & Heth & Hm'); [lia|].
    exists m', eth, c, c'. split_and!; [|done|done]. unfold nexts5s8_pkt. fold oh loopback.
    rewrite bool_decide_true, Hsrc, E by done. cbn [fst snd negb]. by rewrite orb_false_r.
  - intros src Hdesc Hsrc Hls Hld.
    destruct (redirect_v6_data m (oh_teid oh) src (oh_ipv6_address oh) is_v6 udp6 g4 rest Hpkt)
      as (m' & eth & c' & E & Heth & Hm'); [done..|].
    exists m', eth, c'. split_and!; [|done|done]. unfold nexts5s8_pkt. fold oh loopback.
    rewrite Hdesc, bool_decide_false, bool_decide_true, Hsrc, E by done. cbn [fst snd negb].
    by rewrite orb_false_r.
Qed.

Lemma qer_gating_from_spec i pdr direction mask fd_mask :
  (forall j, pdr !! j = Some None -> ISSET_BIT mask (i + j) && ISSET_BIT fd_mask (i + j) = false) ->
  (forall j p, pdr !! j = Some (Some p) -> gate_closed direction p = true -> far p <> None) ->
  exists mask', qer_gating_from i pdr direction mask fd_mask = Some mask' /\
    (forall j, (j < i)%nat -> ISSET_BIT mask' j = ISSET_BIT mask j) /\
    (forall j, ISSET_BIT mask' (i + j) = ISSET_BIT mask (i + j) &&
       negb (ISSET_BIT fd_mask (i + j) &&
             match pdr !! j with Some (Some p) => gate_closed direction p | _ => false end)).
Proof.
  revert i mask. induction pdr as [|p pdr IH]; intros i mask Hnull Hfar.
  { exists mask. split_and!; [done..|]. intros j. rewrite lookup_nil. by rewrite andb_false_r, andb_true_r. }
  cbn [qer_gating_from].
  set (closed := ISSET_BIT mask i && ISSET_BIT fd_mask i &&
                 match p with Some p => gate_closed direction p | None => false end).
  destruct (IH (S i) (reset_if closed mask i)) as (mask' & E & Hlt & Hge).
  { intros j Hj. pose proof (Hnull (S j) Hj) as Hn. rewrite <- Nat.add_succ_comm in Hn.
    rewrite reset_if_spec, (bool_decide_false (i = _)) by lia. by rewrite andb_false_r, andb_true_r. }
  { intros j q Hj. by apply (Hfar (S j) q). }
  exists mask'. split_and!.
  - rewrite <- E. unfold closed. destruct (ISSET_BIT mask i && ISSET_BIT fd_mask i) eqn:Ei; [|done].
    destruct p as [p|].
    { cbn [mbind option_bind andb log_far]. specialize (Hfar 0%nat p eq_refl). destruct (gate_closed direction p); [|done].
      destruct (far p); [done|]. by destruct (Hfar eq_refl). } specialize (Hnull 0%nat eq_refl). rewrite Nat.add_0_r in Hnull. congruence.
  - intros j Hj. rewrite Hlt, reset_if_spec, (bool_decide_false (i = _)) by lia.
    by rewrite andb_false_r, andb_true_r.
  - intros [|j].
    + rewrite Nat.add_0_r, Hlt, reset_if_spec, bool_decide_true by (done || lia). cbn [lookup list_lookup].
      unfold closed. destruct (ISSET_BIT mask i), (ISSET_BIT fd_mask i), p; cbn [andb negb]; by rewrite ?andb_true_r.
    + rewrite <- Nat.add_succ_comm, Hge, reset_if_spec, (bool_decide_false (i = _)) by lia.
      by rewrite andb_false_r, andb_true_r.
Qed.

(** Gating drops exactly the packets of [fd_pkts_mask] whose PDR's first QER has the
    gate of that direction closed; it reads no PDR of a packet that is not alive, and the
    FAR of those whose gate is closed. *)
Theorem qer_gating_correct pdr direction mask fd_mask :
  (forall j, pdr !! j = Some None -> ISSET_BIT mask j && ISSET_BIT fd_mask j = false) ->
  (forall j p, pdr !! j = Some (Some p) -> gate_closed direction p = true -> far p <> None) ->
  exists mask', qer_gating pdr direction mask fd_mask = Some mask' /\
    forall j, ISSET_BIT mask' j = ISSET_BIT mask j &&
       negb (ISSET_BIT fd_mask j &&
             match pdr !! j with Some (Some p) => gate_closed direction p | _ => false end).
Proof.
  intros Hnull Hfar. destruct (qer_gating_from_spec 0 pdr direction mask fd_mask Hnull Hfar) as (mask' & E & _ & H).
  by exists mask'.
Qed.

Lemma validate_loop_spec n addr local b :
  (n <= length addr)%nat -> (n <= length local)%nat ->
  validate_loop n addr local b = if bool_decide (n = 0%nat) then b else bool_decide (take n addr = take n local).
Proof.
  revert addr local b. induction n as [|n IH]; intros addr local b Ha Hl; [done|].
  destruct addr as [|x addr]; [cbn in Ha; lia|]. destruct local as [|y local]; [cbn in Hl; lia|].
  cbn [validate_loop length take] in *. rewrite (bool_decide_false (S n = _)) by done.
  destruct (decide (x = y)) as [->|Hxy].
  - rewrite (bool_decide_true (y = y)), IH by (done || lia). destruct n; [by rewrite !bool_decide_true|].
    rewrite (bool_decide_false (S n = _)) by done. apply bool_decide_ext.
    split; [by intros ->|by intros [= ->]].
  - rewrite !bool_decide_false; [done|by intros [= ?]|done].
Qed.

(** An IPv6 address counts as local when the whole bytes of the prefix agree: up to
    seven further bits of the prefix are ignored, and a prefix shorter than a byte
    matches nothing. *)
Theorem validate_ipv6_network_bytes addr local prefix :
  length addr = 16%nat -> length local = 16%nat -> 0 <= prefix <= 128 ->
  validate_ipv6_network addr local prefix = true <->
  8 <= prefix /\ take (Z.to_nat (prefix / 8)) addr = take (Z.to_nat (prefix / 8)) local.
Proof.
  intros Ha Hl Hp. unfold validate_ipv6_network.
  assert (prefix / 8 <= 16) by zdiv. assert (0 <= prefix / 8) by zdiv.
  rewrite validate_loop_spec by lia. case_bool_decide as E.
  - split; [done|]. intros [H8 _]. assert (1 <= prefix / 8) by zdiv. lia.
  - rewrite bool_decide_eq_true. split; [|tauto]. intros. split; [|done].
    assert (prefix / 8 <> 0) by lia. clear -Hp H2. zdiv.
Qed.

(** ** Witnesses *)

Example tunnel_v4_witness :
  exists m1,
    fst (fst (fst (gtpu_encap (sample_app 0x0a000001 x01 0 1) (sample_burst GTPU_UDP_IPv4) 1 7 1 0))) !! 0%nat = Some m1 /\
    exists m3 eth3,
      fst (gtpu_decap (sample_app 0x0a000002 x02 0 0)
             [(mk_simple [] (sample_ether ETHER_TYPE_IPv4_be ++ drop ETH_HDR_SIZE (mdata m1)), mk_meta 0 enb_unset)] 1 1)
        !! 0%nat = Some (m3, mk_meta 0x11223344 (enb_ipv4 0x0a000001)) /\
      mdata m3 = eth3 ++ [x45; x00; x01; x02].
Proof.
  destruct (tunnel_v4 (sample_app 0x0a000001 x01 0 1) (sample_app 0x0a000002 x02 0 0)
              (sample_burst GTPU_UDP_IPv4) 1 7 1 0 0
              (mk_entry sample_pkt (Some (sample_sess [] CONNECTED 0 4)) (Some (sample_pdr (Some (sample_far 0)) 1 [])))
              (sample_far 0) [x45; x00; x01; x02] 0x0a000001) as (m1 & H1 & _ & H2).
  - left; reflexivity.
  - reflexivity.
  - reflexivity.
  - reflexivity.
  - do 2 eexists. repeat (split; [reflexivity|]). reflexivity.
  - reflexivity.
  - exists (replicate 14 x00). repeat (split; [reflexivity|]). split; [apply leb_complete; reflexivity|reflexivity].
  - reflexivity.
  - split; reflexivity.
  - discriminate.
  - left; reflexivity.
  - exists m1. split; [exact H1|].
    destruct (H2 [(mk_simple [] (sample_ether ETHER_TYPE_IPv4_be ++ drop ETH_HDR_SIZE (mdata m1)), mk_meta 0 enb_unset)]
                0%nat _ _ (sample_ether ETHER_TYPE_IPv4_be) 1 1 eq_refl eq_refl eq_refl) as (m3 & eth3 & H3 & _ & H4 & _).
    + split; reflexivity.
    + reflexivity.
    + exists m3, eth3. split; [exact H3|exact H4].
Defined.

Example tunnel_v6_witness :
  exists m1,
    fst (fst (fst (gtpu_encap (sample_app 0x0a000001 x01 0 0) (sample_burst GTPU_UDP_IPv6) 1 7 1 0))) !! 0%nat = Some m1 /\
    exists m3 eth3,
      fst (gtpu_decap (sample_app 0x0a000002 x02 2 0)
             [(mk_simple [] (sample_ether ETHER_TYPE_IPv6_be ++ drop ETH_HDR_SIZE (mdata m1)), mk_meta 0 enb_unset)] 1 1)
        !! 0%nat = Some (m3, mk_meta 0x11223344 (enb_ipv6 (sample_v6 x01))) /\
      mdata m3 = eth3 ++ [x45; x00; x01; x02].
Proof.
  destruct (tunnel_v6 (sample_app 0x0a000001 x01 0 0) (sample_app 0x0a000002 x02 2 0)
              (sample_burst GTPU_UDP_IPv6) 1 7 1 0 0
              (mk_entry sample_pkt (Some (sample_sess [] CONNECTED 1 4)) (Some (sample_pdr (Some (sample_far 1)) 1 [])))
              (sample_far 1) [x45; x00; x01; x02] (sample_v6 x01)) as (m1 & H1 & _ & H2).
  - right; reflexivity.
  - reflexivity.
  - reflexivity.
  - reflexivity.
  - do 2 eexists. repeat (split; [reflexivity|]). reflexivity.
  - reflexivity.
  - exists (replicate 14 x00). repeat (split; [reflexivity|]). split; [apply leb_complete; reflexivity|reflexivity].
  - reflexivity.
  - discriminate.
  - discriminate.
  - reflexivity.
  - reflexivity.
  - left; reflexivity.
  - exists m1. split; [exact H1|].
    destruct (H2 [(mk_simple [] (sample_ether ETHER_TYPE_IPv6_be ++ drop ETH_HDR_SIZE (mdata m1)), mk_meta 0 enb_unset)]
                0%nat _ _ (sample_ether ETHER_TYPE_IPv6_be) 1 1 eq_refl eq_refl eq_refl) as (m3 & eth3 & H3 & _ & H4 & _).
    + split; reflexivity.
    + reflexivity.
    + exists m3, eth3. split; [exact H3|exact H4].
Defined.

Example no_forward_and_buffer_witness :
  let burst := [mk_entry sample_pkt (Some (sample_sess [] IDLE 0 4)) (Some (sample_pdr (Some (sample_far 0)) 1 []))] in
  let r := gtpu_encap (sample_app 0x0a000001 x01 0 1) burst 1 7 1 0 in
  ISSET_BIT (snd r) 0 = true /\ ISSET_BIT (snd (fst r)) 0 = false.
Proof.
  intros burst r. assert (ISSET_BIT (snd r) 0 = true) as Hq by reflexivity. split; [exact Hq|].
  destruct (no_forward_and_buffer (sample_app 0x0a000001 x01 0 1) burst 1 7 1 0 0 _ eq_refl) as (_ & H & _).
  destruct (H Hq) as [H0|[_ H1]]; [discriminate H0|exact H1].
Defined.

Example relay_keeps_user_data_witness :
  exists m' eth c c',
    nexts5s8_pkt (sample_app 0x0a000001 x01 0 1) (sample_pdr (Some (sample_far 0)) 0 [])
      (mk_far true (outer_hdr (sample_far 0)) 0 false false false)
      (mk_simple (replicate 40 x00)
         (sample_ether ETHER_TYPE_IPv6_be ++ replicate 40 x00 ++ replicate 6 x01 ++ [x00; x00] ++
          [x30; xff; x00; x02] ++ replicate 4 x00 ++ [x07; x08])) = mk_relay m' true true false /\
    length eth = ETH_HDR_SIZE /\
    mdata m' = eth ++ ipv4_header 38 IP_PROTO_UDP 0x0a000001 0x0a000002 c ++
      replicate 6 x01 ++ le_bytes 2 c' ++ [x30; xff; x00; x02] ++ be_bytes 4 0x11223344 ++ [x07; x08].
Proof.
  apply (relay_keeps_user_data (sample_app 0x0a000001 x01 0 1) (sample_pdr (Some (sample_far 0)) 0 [])
    (mk_far true (outer_hdr (sample_far 0)) 0 false false false) _ true (replicate 6 x01) [x30; xff; x00; x02] [x07; x08]).
  - exists (sample_ether ETHER_TYPE_IPv6_be), (replicate 40 x00), [x00; x00], (replicate 4 x00).
    repeat (split; try reflexivity).
  - reflexivity.
  - apply leb_complete. reflexivity.
  - reflexivity.
  - reflexivity.
Defined.

Example qer_gating_correct_witness :
  exists mask', qer_gating [Some (sample_pdr (Some (sample_far 0)) 0 [mk_qer CLOSE 0]); None] UPLINK 1 3 = Some mask' /\
    ISSET_BIT mask' 0 = false.
Proof.
  destruct (qer_gating_correct [Some (sample_pdr (Some (sample_far 0)) 0 [mk_qer CLOSE 0]); None] UPLINK 1 3) as (mask' & E & H).
  - intros [|[|j]] Hj; [discriminate Hj|reflexivity|discriminate Hj].
  - intros [|[|j]] p Hj; [injection Hj as <-; discriminate|discriminate Hj..].
  - exists mask'. split; [exact E|]. rewrite (H 0%nat). reflexivity.
Defined.

Example validate_ipv6_network_bytes_witness :
  validate_ipv6_network (sample_v6 x01) (sample_v6 x02) 127 = true.
Proof.
  apply (validate_ipv6_network_bytes (sample_v6 x01) (sample_v6 x02) 127);
    [reflexivity|reflexivity|split; discriminate|split; [discriminate|reflexivity]].
Defined.
