(* ===== verification/LList.v ===== *)
(** * The linked lists of the user plane

    [dp/pfcp_up_llist.c]: the singly linked lists in which the user plane keeps
    the session data of a session, the PDRs of a session data and the QERs and
    URRs of a PDR.  The nodes live in a heap; a pointer is an [option loc] with
    [None] for [NULL]; every function returns the heap it leaves behind, and
    [None] where the C code would read, write or free memory that is not
    allocated (or where the fuel of a loop, the number of allocated nodes plus
    one, runs out: the theorems show that it never does on a list).

    The files repeat the same four bodies for each node type.  They are written
    once here, for a node payload [V], and each C function is the instance with
    its name; the URR functions have a different first-node body, which is
    written separately. *)

From S2P Require Import Prelude.

Abbreviation loc := positive.
Abbreviation ptr := (option loc).

Record node (V : Type) := mk_node { val : V; next : ptr }.
Arguments mk_node {V}.
Arguments val {V}.
Arguments next {V}.

Abbreviation heap V := (gmap loc (node V)).

Section LList.
Context {V : Type}.
Implicit Types (h : heap V) (head : ptr) (xs ys : list (loc * V)).

(** [p->next = q] and [rte_free(p)]. *)
Definition set_next h (l : loc) (q : ptr) : option (heap V) :=
  n ← h !! l; Some (<[l := mk_node (val n) q]> h).

Definition rte_free h (l : loc) : option (heap V) :=
  _ ← h !! l; Some (delete l h).

(** The loop [while (current->next != NULL) { last = current; current = current->next; }]. *)
Fixpoint find_last (fuel : nat) h (last : ptr) (current : loc) : option (ptr * loc) :=
  match fuel with
  | O => None
  | S fuel =>
    n ← h !! current;
    match next n with
    | None => Some (last, current)
    | Some c => find_last fuel h (Some current) c
    end
  end.

(** The loop [while (current != NULL) { if (current->next == node) break; current = current->next; }]. *)
Fixpoint find_prev (fuel : nat) h (current : ptr) (nd : loc) : option ptr :=
  match fuel with
  | O => None
  | S fuel =>
    match current with
    | None => Some None
    | Some c =>
      n ← h !! c;
      if decide (next n = Some nd) then Some (Some c) else find_prev fuel h (next n) nd
    end
  end.

Definition fuel_of h : nat := S (size h).
Arguments fuel_of : simpl never.

(** [insert_*_node(head, new_node)].  [head] is passed by value: when it is
    [NULL] the assignment [head = new_node] is invisible to the caller. *)
Definition insert_node h head (new_node : loc) : option (heap V * Z) :=
  h ← set_next h new_node None;
  match head with
  | None => Some (h, 0)
  | Some hd =>
    '(_, tmp) ← find_last (fuel_of h) h None hd;
    h ← set_next h tmp (Some new_node);
    Some (h, 0)
  end.

Definition remove_first_node h head : option (heap V * ptr) :=
  match head with
  | None => Some (h, None)
  | Some current =>
    n ← h !! current;
    let head := next n in
    h ← set_next h current None;
    let head := if decide (Some current = head) then None else head in
    h ← rte_free h current;
    Some (h, head)
  end.

Definition remove_last_node h head : option (heap V * ptr) :=
  match head with
  | None => Some (h, None)
  | Some hd =>
    '(last, current) ← find_last (fuel_of h) h None hd;
    h ← match last with Some l => set_next h l None | None => Some h end;
    let head := if decide (current = hd) then None else head in
    h ← rte_free h current;
    Some (h, head)
  end.

(** [remove_*_node(head, node)], given the body that removes the first node. *)
Definition remove_node_with (first : heap V -> ptr -> option (heap V * ptr))
    h head (nd : ptr) : option (heap V * ptr) :=
  match nd, head with
  | Some nd, Some hd =>
    if decide (nd = hd) then first h head else
    n ← h !! nd;
    match next n with
    | None => remove_last_node h head
    | Some _ =>
      current ← find_prev (fuel_of h) h head nd;
      match current with
      | None => Some (h, head)
      | Some current =>
        cn ← h !! current;
        tmp ← next cn;
        tn ← h !! tmp;
        h ← set_next h current (next tn);
        h ← set_next h tmp None;
        h ← rte_free h tmp;
        Some (h, head)
      end
    end
  | _, _ => Some (h, None)
  end.

Definition remove_node := remove_node_with remove_first_node.

(** The first-node body of the URR list: [current == head] is tested before
    [head] is advanced, so the test is always true. *)
Definition remove_urr_first_node h head : option (heap V * ptr) :=
  match head with
  | None => Some (h, None)
  | Some c =>
    let current := head in
    head ← (if decide (current = head) then Some None else n ← h !! c; Some (next n));
    h ← set_next h c None;
    h ← rte_free h c;
    Some (h, head)
  end.

Definition remove_urr_node := remove_node_with remove_urr_first_node.

Definition insert_sess_data_node := insert_node.
Definition remove_sess_data_first_node := remove_first_node.
Definition remove_sess_data_last_node := remove_last_node.
Definition remove_sess_data_node := remove_node.
Definition insert_pdr_node := insert_node.
Definition remove_pdr_first_node := remove_first_node.
Definition remove_pdr_last_node := remove_last_node.
Definition remove_pdr_node := remove_node.
Definition insert_qer_node := insert_node.
Definition remove_qer_first_node := remove_first_node.
Definition remove_qer_last_node := remove_last_node.
Definition remove_qer_node := remove_node.
Definition insert_urr_node := insert_node.
Definition remove_urr_last_node := remove_last_node.

(** [insert_predef_rule_node(head, rules)] first allocates a node and then
    overwrites the pointer to it with [rules]: the allocation, with the address
    [fresh] and the contents [v0], is never linked nor freed. *)
Definition insert_predef_rule_node h (fresh : option (loc * V)) head (rules : loc) : option (heap V * Z) :=
  let h := match fresh with Some (l, v0) => <[l := mk_node v0 None]> h | None => h end in
  insert_node h head rules.

(** [get_pdr_node(head, precedence)]: the loop over the list. *)
Fixpoint get_node_loop (prcdnc_val : V -> Z) (fuel : nat) h (current : ptr) (precedence : Z) : option ptr :=
  match fuel with
  | O => None
  | S fuel =>
    match current with
    | None => Some None
    | Some c =>
      n ← h !! c;
      if decide (prcdnc_val (val n) = precedence) then Some (Some c)
      else get_node_loop prcdnc_val fuel h (next n) precedence
    end
  end.

Definition get_pdr_node (prcdnc_val : V -> Z) h head (precedence : Z) : option ptr :=
  get_node_loop prcdnc_val (fuel_of h) h head precedence.

(** ** List segments

    [lseg h p xs q]: following [next] from [p] goes through the nodes [xs]
    (address and payload) and arrives at [q]. *)
Fixpoint lseg h (p : ptr) xs (q : ptr) : Prop :=
  match xs with
  | [] => p = q
  | (l, v) :: xs => p = Some l /\ exists p', h !! l = Some (mk_node v p') /\ lseg h p' xs q
  end.

Definition is_list h (p : ptr) xs : Prop := lseg h p xs None.

(** The heap outside a set of addresses is untouched. *)
Definition agree_off (S : list loc) h h' : Prop := forall m, m ∉ S -> h' !! m = h !! m.

Lemma lseg_app h p xs ys q :
  lseg h p (xs ++ ys) q <-> exists r, lseg h p xs r /\ lseg h r ys q.
Proof.
  revert p; induction xs as [|[l v] xs IH]; intros p; cbn.
  - split; [eauto|by intros (r & -> & ?)].
  - setoid_rewrite IH. split.
    + intros (-> & p' & Hl & r & ? & ?). eauto 10.
    + intros (r & (-> & p' & ? & ?) & ?). eauto 10.
Qed.

Lemma lseg_snoc h p xs c v q :
  lseg h p (xs ++ [(c, v)]) q <-> lseg h p xs (Some c) /\ h !! c = Some (mk_node v q).
Proof.
  rewrite lseg_app; cbn. split.
  - intros (r & ? & -> & p' & ? & ->). done.
  - intros [? ?]. eauto 10.
Qed.

Lemma lseg_frame h h' p xs q :
  (forall l, l ∈ xs.*1 -> h' !! l = h !! l) -> lseg h p xs q -> lseg h' p xs q.
Proof.
  revert p; induction xs as [|[l v] xs IH]; intros p Hag; cbn; [done|].
  intros (-> & p' & Hl & Hs). split; [done|]. exists p'. split.
  - rewrite Hag; [done|]. cbn. constructor.
  - apply IH; [|done]. intros m Hm. apply Hag. cbn. by constructor.
Qed.

Lemma is_list_det h p xs ys : is_list h p xs -> is_list h p ys -> xs = ys.
Proof.
  unfold is_list. revert p ys; induction xs as [|[l v] xs IH]; intros p [|[m w] ys]; cbn.
  - done.
  - by intros -> [? ?].
  - by intros [-> ?] ?.
  - intros (-> & p1 & E1 & H1) ([= <-] & p2 & E2 & H2).
    rewrite E1 in E2. injection E2 as -> ->. by rewrite (IH _ ys H1 H2).
Qed.

Lemma is_list_NoDup h p xs : is_list h p xs -> NoDup xs.*1.
Proof.
  unfold is_list. revert p; induction xs as [|[l v] xs IH]; intros p; cbn; [constructor|].
  intros (-> & p' & Hl & Hs). constructor; [|by eapply IH].
  intros ([l' v'] & E & Hi)%list_elem_of_fmap; cbn in E; subst l'.
  apply list_elem_of_split in Hi as (a & b & ->).
  pose proof Hs as (r & _ & Hb)%lseg_app. assert (r = Some l) as -> by (by destruct Hb).
  pose proof (is_list_det h (Some l) ((l, v) :: a ++ (l, v') :: b) ((l, v') :: b)) as D.
  apply (f_equal length) in D; [|cbn; eauto|done]. revert D. cbn. rewrite length_app. cbn. lia.
Qed.

Lemma lseg_in h p xs q l v : lseg h p xs q -> (l, v) ∈ xs -> exists r, h !! l = Some (mk_node v r).
Proof.
  revert p; induction xs as [|[m w] xs IH]; intros p; cbn; [by intros _ ?%not_elem_of_nil|].
  intros (-> & p' & Hm & Hs) [[= -> ->]|Hi]%elem_of_cons; eauto.
Qed.

(** A list has at most as many nodes as are allocated, so the fuel of the
    loops is enough. *)
Lemma is_list_fuel h p xs : is_list h p xs -> (length xs < fuel_of h)%nat.
Proof.
  intros Hl. pose proof (is_list_NoDup _ _ _ Hl) as ND. unfold fuel_of.
  rewrite <- (length_fmap fst), <- (size_list_to_set (C := gset loc)) by done.
  apply Nat.lt_succ_r. rewrite <- (size_dom (D := gset loc)). apply subseteq_size. intros l.
  rewrite elem_of_list_to_set, elem_of_dom. intros ([m v] & -> & Hi)%list_elem_of_fmap.
  destruct (lseg_in _ _ _ _ _ _ Hl Hi) as [r E]. by exists (mk_node v r).
Qed.

(** The address of the last node of [xs], [lst] when there is none. *)
Definition last_loc (lst : ptr) xs : ptr := foldl (fun _ x => Some x.1) lst xs.

Lemma last_loc_snoc lst xs x : last_loc lst (xs ++ [x]) = Some x.1.
Proof. unfold last_loc. by rewrite foldl_app. Qed.

Lemma find_last_lseg fuel h lst l xs c v :
  is_list h (Some l) (xs ++ [(c, v)]) -> (length xs < fuel)%nat ->
  find_last fuel h lst l = Some (last_loc lst xs, c).
Proof.
  unfold is_list. revert fuel lst l. induction xs as [|[m w] xs IH]; intros [|fuel] lst l; cbn; try lia.
  - intros ([= ->] & p' & -> & ->) _. done.
  - intros ([= ->] & p' & E & Hs) Hf. rewrite E. cbn.
    destruct p' as [c'|]; [|by destruct xs as [|[??] ?], Hs].
    apply (IH fuel (Some m)); [done|lia].
Qed.

Lemma find_prev_list fuel h p a c w nd v b :
  is_list h p (a ++ (c, w) :: (nd, v) :: b) -> (length a < fuel)%nat ->
  find_prev fuel h p nd = Some (Some c).
Proof.
  revert fuel p. induction a as [|[m u] a IH]; intros [|fuel] p Hl Hf; cbn in *; try lia.
  - destruct Hl as (-> & p' & -> & -> & _). cbn. by rewrite decide_True.
  - pose proof (is_list_NoDup h p ((m, u) :: a ++ (c, w) :: (nd, v) :: b) Hl) as ND.
    destruct Hl as (-> & p' & E & Hs). rewrite E. cbn.
    rewrite decide_False; [apply IH; [done|lia]|].
    intros ->. cbn in ND. apply NoDup_cons in ND as [_ ND].
    rewrite fmap_app in ND. cbn in ND. apply NoDup_app in ND as (_ & Hd & Hc).
    destruct a as [|[m' u'] a].
    + destruct Hs as [[= ->] _]. apply NoDup_cons in Hc as [Hn _]. apply Hn. constructor.
    + destruct Hs as [[= <-] _]. apply (Hd nd); cbn; repeat constructor.
Qed.

Lemma set_next_lookup h l v p q :
  h !! l = Some (mk_node v p) -> set_next h l q = Some (<[l := mk_node v q]> h).
Proof. unfold set_next. by intros ->. Qed.

Lemma rte_free_lookup h l n : h !! l = Some n -> rte_free h l = Some (delete l h).
Proof. unfold rte_free. by intros ->. Qed.

(** Taking the node [nd] out between [a] and [b]: any heap in which the node
    before it points behind it and which agrees elsewhere holds [a ++ b]. *)
Lemma is_list_unlink h h' p a c w nd v r b :
  is_list h p (a ++ (c, w) :: (nd, v) :: b) -> h !! nd = Some (mk_node v r) ->
  h' !! c = Some (mk_node w r) -> agree_off [c; nd] h h' -> is_list h' p (a ++ (c, w) :: b).
Proof.
  intros Hl Hnd Hc Hag. pose proof (is_list_NoDup _ _ _ Hl) as ND.
  rewrite fmap_app in ND. cbn in ND. apply NoDup_app in ND as (_ & Hd & ND).
  apply NoDup_cons in ND as [Hcb ND]. apply NoDup_cons in ND as [Hnb _].
  apply lseg_app in Hl as (q & Ha & -> & q' & Eq & -> & q2 & E2 & Hb).
  rewrite E2 in Hnd. injection Hnd as ->.
  apply lseg_app. exists (Some c). split.
  - eapply lseg_frame; [|exact Ha]. intros l Hin. apply Hag. specialize (Hd l Hin). cbn in Hd.
    set_solver.
  - cbn. split; [done|]. exists r. split; [done|].
    eapply lseg_frame; [|exact Hb]. intros l Hin. apply Hag. cbn in Hcb. set_solver.
Qed.

Lemma list_nonempty_snoc {A} (x : A) (zs : list A) : exists (bs : list A) y, x :: zs = bs ++ [y].
Proof. destruct (exists_last (l := x :: zs)) as (bs & y & ->); [done|eauto]. Qed.

Lemma insert_node_list h hd xs new v p :
  is_list h (Some hd) xs -> h !! new = Some (mk_node v p) -> new ∉ xs.*1 ->
  exists h', insert_node h (Some hd) new = Some (h', 0)
    /\ is_list h' (Some hd) (xs ++ [(new, v)])
    /\ agree_off (new :: xs.*1) h h' /\ dom h' = dom h.
Proof.
  intros Hl Hnew Hin. destruct xs as [|x xs]; [done|].
  destruct (list_nonempty_snoc x xs) as (ys & [c w] & E). rewrite E in *. clear E x xs.
  assert (c <> new) as Hcn by (intros ->; apply Hin; rewrite fmap_app; set_solver).
  unfold insert_node. erewrite set_next_lookup by done. cbn.
  set (h1 := <[new := mk_node v None]> h).
  assert (is_list h1 (Some hd) (ys ++ [(c, w)])) as Hl1.
  { eapply lseg_frame; [|exact Hl]. intros l Hlin. unfold h1.
    rewrite lookup_insert_ne; [done|]. by intros ->. }
  rewrite (find_last_lseg _ _ None hd ys c w); [|done|].
  2: { pose proof (is_list_fuel _ _ _ Hl1) as Hf. rewrite length_app in Hf. cbn in Hf. lia. }
  cbn. pose proof Hl1 as [Ha Hc]%lseg_snoc.
  erewrite set_next_lookup by done. cbn. eexists. split; [done|].
  assert (c ∉ ys.*1) as Hcy.
  { pose proof (is_list_NoDup _ _ _ Hl) as ND. rewrite fmap_app in ND.
    apply NoDup_app in ND as (_ & Hd & _). intros ?. eapply Hd; [done|]. set_solver. }
  split; [|split].
  - apply lseg_snoc. split.
    + apply lseg_snoc. split; [|by rewrite lookup_insert_eq].
      eapply lseg_frame; [|exact Ha]. intros l Hl'. rewrite lookup_insert_ne; [done|]. set_solver.
    + rewrite lookup_insert_ne by done. unfold h1. by rewrite lookup_insert_eq.
  - intros m Hm. rewrite fmap_app in Hm. cbn in Hm. unfold h1.
    rewrite !lookup_insert_ne; [done|set_solver..].
  - unfold h1. rewrite !dom_insert_lookup_L; [done|eauto|].
    rewrite lookup_insert_ne by done. unfold h1 in Hc. rewrite lookup_insert_ne in Hc by done. eauto.
Qed.

(** What every removal of the member [nd] of a list leaves behind. *)
Definition removed h h' (nd : loc) xs : Prop :=
  h' !! nd = None /\ agree_off xs.*1 h h' /\ dom h' = dom h ∖ {[nd]}.

Lemma remove_last_node_list h hd a c w nd v :
  is_list h (Some hd) (a ++ [(c, w); (nd, v)]) -> hd <> nd ->
  exists h', remove_last_node h (Some hd) = Some (h', Some hd)
    /\ is_list h' (Some hd) (a ++ [(c, w)]) /\ removed h h' nd (a ++ [(c, w); (nd, v)]).
Proof.
  intros Hl Hne. pose proof (is_list_NoDup _ _ _ Hl) as ND.
  assert (c <> nd) as Hcn.
  { rewrite fmap_app in ND. apply NoDup_app in ND as (_ & _ & [Hx _]%NoDup_cons).
    intros ->. apply Hx. constructor. }
  pose proof Hl as (r & Ha & -> & p' & Ec & -> & p2 & En & ->)%lseg_app.
  pose proof (is_list_fuel _ _ _ Hl) as Hf. rewrite length_app in Hf. cbn in Hf.
  change [(c, w); (nd, v)] with ([(c, w)] ++ [(nd, v)]) in Hl. rewrite app_assoc in Hl.
  unfold remove_last_node. erewrite (find_last_lseg _ _ None hd _ nd v Hl).
  2: rewrite length_app; cbn; lia.
  rewrite last_loc_snoc. cbn. erewrite set_next_lookup by done. cbn.
  erewrite rte_free_lookup by (rewrite lookup_insert_ne; done). cbn.
  rewrite decide_False by done. eexists. split; [done|]. split; [|split; [|split]].
  - rewrite <- app_assoc in Hl. eapply is_list_unlink; [exact Hl|exact En| |].
    + rewrite lookup_delete_ne by done. by rewrite lookup_insert_eq.
    + intros m Hm. rewrite !not_elem_of_cons in Hm. destruct Hm as (? & ? & _).
      by rewrite lookup_delete_ne, lookup_insert_ne.
  - apply lookup_delete_eq.
  - intros m Hm. rewrite fmap_app, not_elem_of_app in Hm. cbn in Hm.
    rewrite !not_elem_of_cons in Hm. destruct Hm as (_ & ? & ? & _).
    by rewrite lookup_delete_ne, lookup_insert_ne.
  - rewrite dom_delete_L, dom_insert_lookup_L by eauto. done.
Qed.

(** The stores that take [nd] out of the middle of a list and free it. *)
Lemma unlink_node_list h hd a c w nd v b r :
  is_list h (Some hd) (a ++ (c, w) :: (nd, v) :: b) -> h !! nd = Some (mk_node v r) ->
  exists h', (h ← set_next h c r; h ← set_next h nd None; h ← rte_free h nd; Some (h, Some hd)) = Some (h', Some hd)
    /\ is_list h' (Some hd) (a ++ (c, w) :: b) /\ removed h h' nd (a ++ (c, w) :: (nd, v) :: b).
Proof.
  intros Hl En. pose proof (is_list_NoDup _ _ _ Hl) as ND.
  assert (c <> nd) as Hcn.
  { rewrite fmap_app in ND. apply NoDup_app in ND as (_ & _ & [Hx _]%NoDup_cons).
    intros ->. apply Hx. constructor. }
  pose proof Hl as (q & Ha & -> & p' & Ec & _)%lseg_app.
  erewrite set_next_lookup by done. cbn.
  erewrite set_next_lookup by (rewrite lookup_insert_ne; done). cbn.
  erewrite rte_free_lookup by apply lookup_insert_eq. cbn.
  eexists. split; [done|]. rewrite delete_insert_eq. split; [|split; [|split]].
  - eapply is_list_unlink; [exact Hl|exact En| |].
    + rewrite lookup_delete_ne by done. by rewrite lookup_insert_eq.
    + intros m Hm. rewrite !not_elem_of_cons in Hm. destruct Hm as (? & ? & _).
      by rewrite lookup_delete_ne, lookup_insert_ne.
  - apply lookup_delete_eq.
  - intros m Hm. rewrite fmap_app, not_elem_of_app in Hm. cbn in Hm.
    rewrite !not_elem_of_cons in Hm. destruct Hm as (_ & ? & ? & _).
    by rewrite lookup_delete_ne, lookup_insert_ne.
  - rewrite dom_delete_L, dom_insert_lookup_L by eauto. done.
Qed.

Lemma remove_middle_node_list first h hd a c w nd v x b :
  is_list h (Some hd) (a ++ (c, w) :: (nd, v) :: x :: b) -> hd <> nd ->
  exists h', remove_node_with first h (Some hd) (Some nd) = Some (h', Some hd)
    /\ is_list h' (Some hd) (a ++ (c, w) :: x :: b)
    /\ removed h h' nd (a ++ (c, w) :: (nd, v) :: x :: b).
Proof.
  intros Hl Hne.
  pose proof Hl as (r & Ha & -> & p' & Ec & -> & p2 & En & Hb)%lseg_app.
  pose proof (is_list_fuel _ _ _ Hl) as Hf. rewrite length_app in Hf. cbn in Hf.
  assert (exists y, p2 = Some y) as [y ->] by (destruct x; destruct Hb as [-> _]; eauto).
  unfold remove_node_with. rewrite decide_False by done. rewrite En. cbn.
  erewrite find_prev_list; [|exact Hl|lia]. cbn. rewrite Ec. cbn. rewrite En. cbn.
  by apply unlink_node_list.
Qed.

(** Removing a member other than the head, whatever the first-node body. *)
Lemma remove_inner_node_list first h hd u a nd v b :
  is_list h (Some hd) ((hd, u) :: a ++ (nd, v) :: b) ->
  exists h', remove_node_with first h (Some hd) (Some nd) = Some (h', Some hd)
    /\ is_list h' (Some hd) ((hd, u) :: a ++ b) /\ removed h h' nd ((hd, u) :: a ++ (nd, v) :: b).
Proof.
  intros Hl. pose proof (is_list_NoDup _ _ _ Hl) as [Hn _]%NoDup_cons.
  assert (hd <> nd) as Hne.
  { intros ->. apply Hn. change (nd ∈ (a ++ (nd, v) :: b).*1). rewrite fmap_app.
    apply elem_of_app. right. constructor. }
  rewrite !app_comm_cons in *. destruct (list_nonempty_snoc (hd, u) a) as (bs & [c w] & E).
  rewrite E in *. rewrite <- !app_assoc in *. destruct b as [|x b].
  - destruct (remove_last_node_list h hd bs c w nd v Hl Hne) as (h' & Hr & Hl' & Hrm).
    exists h'. split; [|done]. unfold remove_node_with. rewrite decide_False by done.
    pose proof Hl as (r & _ & _ & p' & _ & -> & p2 & -> & ->)%lseg_app. done.
  - by apply remove_middle_node_list.
Qed.

(** Removing the head, exactly. *)
Lemma remove_node_head h hd v xs :
  is_list h (Some hd) ((hd, v) :: xs) ->
  exists p, h !! hd = Some (mk_node v p) /\ remove_node h (Some hd) (Some hd) = Some (delete hd h, p)
    /\ is_list (delete hd h) p xs.
Proof.
  intros Hl. pose proof (is_list_NoDup _ _ _ Hl) as [Hn ND]%NoDup_cons.
  destruct Hl as (_ & p & E & Hs). exists p. split; [done|].
  unfold remove_node, remove_node_with. rewrite decide_True by done.
  unfold remove_first_node. rewrite E. cbn. erewrite set_next_lookup by done. cbn.
  erewrite rte_free_lookup by apply lookup_insert_eq. cbn.
  rewrite delete_insert_eq, decide_False.
  - split; [done|]. eapply lseg_frame; [|exact Hs]. intros l Hl.
    rewrite lookup_delete_ne; [done|]. by intros <-.
  - intros <-. destruct xs as [|[m w] xs]; [done|]. destruct Hs as [[= <-] _].
    apply Hn. constructor.
Qed.

Lemma remove_node_list h hd a nd v b :
  is_list h (Some hd) (a ++ (nd, v) :: b) ->
  exists h' head', remove_node h (Some hd) (Some nd) = Some (h', head')
    /\ is_list h' head' (a ++ b) /\ removed h h' nd (a ++ (nd, v) :: b).
Proof.
  intros Hl. destruct a as [|[hd' u] a].
  - destruct Hl as [[= ->] Hl].
    destruct (remove_node_head h nd v b) as (p & _ & Hr & Hl'); [by split|].
    exists (delete nd h), p. split; [done|]. split; [done|].
    split; [apply lookup_delete_eq|]. split; [|apply dom_delete_L].
    intros m Hm. cbn in Hm. apply not_elem_of_cons in Hm as [Hm _]. by rewrite lookup_delete_ne.
  - assert (hd' = hd) as -> by (destruct Hl as [[= ->] _]; done).
    destruct (remove_inner_node_list remove_first_node h hd u a nd v b Hl) as (h' & ? & ? & ?). eauto.
Qed.

(** The URR list loses everything behind the head when the head is removed:
    the nodes stay allocated and linked to each other, but the list that is
    returned is empty. *)
Lemma remove_urr_head h hd v xs :
  is_list h (Some hd) ((hd, v) :: xs) ->
  exists p, h !! hd = Some (mk_node v p)
    /\ remove_urr_node h (Some hd) (Some hd) = Some (delete hd h, None)
    /\ is_list (delete hd h) p xs.
Proof.
  intros Hl. pose proof (is_list_NoDup _ _ _ Hl) as [Hn ND]%NoDup_cons.
  destruct Hl as (_ & p' & E & Hs). unfold remove_urr_node, remove_node_with.
  rewrite decide_True by done. unfold remove_urr_first_node. rewrite decide_True by done. cbn.
  erewrite set_next_lookup by done. cbn. erewrite rte_free_lookup by apply lookup_insert_eq. cbn.
  exists p'. rewrite delete_insert_eq. split; [done|]. split; [done|].
  eapply lseg_frame; [|exact Hs]. intros l Hl. rewrite lookup_delete_ne; [done|]. by intros <-.
Qed.

Lemma get_node_loop_spec f fuel h p xs k :
  is_list h p xs -> (length xs < fuel)%nat ->
  get_node_loop f fuel h p k
  = Some (fst <$> (snd <$> list_find (fun x => f x.2 = k) xs)).
Proof.
  unfold is_list. revert fuel p; induction xs as [|[l v] xs IH]; intros [|fuel] p Hl Hf; cbn in *; try lia.
  - by subst p.
  - destruct Hl as (-> & p' & E & Hs). rewrite E. cbn.
    destruct (decide (f v = k)); [done|]. rewrite (IH fuel p' Hs) by lia.
    by destruct (list_find _ xs) as [[? []]|].
Qed.

Lemma get_pdr_node_list f h p xs k :
  is_list h p xs ->
  get_pdr_node f h p k = Some (fst <$> (snd <$> list_find (fun x => f x.2 = k) xs)).
Proof. intros Hl. apply get_node_loop_spec; [done|by eapply is_list_fuel]. Qed.

End LList.

(** A list of two nodes at 1 and 2 and a free node at 3. *)
Definition heap_witness : heap Z :=
  {[ 1%positive := mk_node 10 (Some 2%positive);
     2%positive := mk_node 20 None;
     3%positive := mk_node 30 (Some 1%positive) ]}.

Lemma filter_ne_notin {V} nd (xs : list (loc * V)) :
  nd ∉ xs.*1 -> filter (fun x => x.1 <> nd) xs = xs.
Proof.
  induction xs as [|[m w] xs IH]; intros Hn; [done|].
  cbn in Hn. apply not_elem_of_cons in Hn as [Hm Hn].
  rewrite filter_cons_True by (cbn; congruence). by rewrite IH.
Qed.

Lemma filter_ne_middle {V} nd v (a b : list (loc * V)) :
  NoDup (a ++ (nd, v) :: b).*1 -> filter (fun x => x.1 <> nd) (a ++ (nd, v) :: b) = a ++ b.
Proof.
  rewrite fmap_app. cbn. intros (_ & Hd & [Hb _]%NoDup_cons)%NoDup_app.
  rewrite filter_app, filter_cons_False by (cbn; tauto).
  rewrite !filter_ne_notin; [done|done|]. intros Ha. apply (Hd nd Ha). constructor.
Qed.

(** ** Theorems *)

(** Inserting a node into a list appends it: the loop to the last node
    ends, the list keeps its nodes and its order with the new node at the end,
    and no other node of the heap is touched; inserting into a [NULL] list
    returns 0 as well, but the caller's head stays [NULL]: the new node is on
    no list (the callers assign [*head] themselves). *)
Theorem insert_node_appends {V} (h : heap V) head xs new v p :
  is_list h head xs -> h !! new = Some (mk_node v p) -> new ∉ xs.*1 ->
  exists h', insert_pdr_node h head new = Some (h', 0)
    /\ agree_off (new :: xs.*1) h h' /\ dom h' = dom h
    /\ match head with
       | Some _ => is_list h' head (xs ++ [(new, v)])
       | None => h' = <[new := mk_node v None]> h
       end.
Proof.
  intros Hl Hnew Hin. destruct head as [hd|].
  - destruct (insert_node_list h hd xs new v p Hl Hnew Hin) as (h' & ? & ? & ? & ?). eauto.
  - unfold insert_pdr_node, insert_node. erewrite set_next_lookup by done. cbn.
    eexists. split; [done|]. split; [|split; [|done]].
    + intros m Hm. apply not_elem_of_cons in Hm as [? _]. by apply lookup_insert_ne.
    + apply dom_insert_lookup_L. eauto.
Qed.

(** Removing a member of a list, wherever it is, returns the list without
    it, frees exactly that node and touches no node off the list; the loops
    end.  The same function serves the session data, PDR and QER lists. *)
Theorem remove_node_removes {V} (rm : heap V -> ptr -> ptr -> option (heap V * ptr)) h head xs nd :
  rm ∈ [remove_sess_data_node; remove_pdr_node; remove_qer_node] ->
  is_list h head xs -> nd ∈ xs.*1 ->
  exists h' head', rm h head (Some nd) = Some (h', head')
    /\ is_list h' head' (filter (fun x => x.1 <> nd) xs)
    /\ h' !! nd = None /\ agree_off xs.*1 h h' /\ dom h' = dom h ∖ {[nd]}.
Proof.
  intros Hrm Hl ([nd' v] & E & Hin)%list_elem_of_fmap. cbn in E. subst nd'.
  apply list_elem_of_split in Hin as (a & b & ->).
  assert (exists hd, head = Some hd) as [hd ->] by (destruct a as [|[??] ?]; destruct Hl; eauto).
  assert (rm = remove_node) as -> by (by repeat (apply elem_of_cons in Hrm as [->|Hrm]; [done|]);
                                        apply not_elem_of_nil in Hrm).
  destruct (remove_node_list h hd a nd v b Hl) as (h' & head' & Hr & Hl' & Hrem).
  exists h', head'. split; [done|]. split; [|done].
  rewrite filter_ne_middle; [done|by eapply is_list_NoDup].
Qed.

(** The URR list is different: removing its head frees the head and
    returns [NULL], so the nodes behind it, which are still allocated and
    linked, are on no list any more; removing any other member is right. *)
Theorem remove_urr_node_head_loses_list {V} (h : heap V) hd v xs :
  is_list h (Some hd) ((hd, v) :: xs) ->
  (exists rest, remove_urr_node h (Some hd) (Some hd) = Some (delete hd h, None)
     /\ is_list (delete hd h) rest xs) /\
  forall nd, nd ∈ xs.*1 ->
    exists h', remove_urr_node h (Some hd) (Some nd) = Some (h', Some hd)
      /\ is_list h' (Some hd) ((hd, v) :: filter (fun x => x.1 <> nd) xs).
Proof.
  intros Hl. split.
  - destruct (remove_urr_head h hd v xs Hl) as (p & _ & ? & ?). eauto.
  - intros nd ([nd' w] & E & Hin)%list_elem_of_fmap. cbn in E. subst nd'.
    apply list_elem_of_split in Hin as (a & b & ->).
    destruct (remove_inner_node_list remove_urr_first_node h hd v a nd w b Hl) as (h' & ? & Hl' & _).
    exists h'. split; [done|].
    pose proof (is_list_NoDup _ _ _ Hl) as [_ ND]%NoDup_cons. by rewrite filter_ne_middle.
Qed.

Lemma insert_node_appends_witness :
  exists h', insert_pdr_node heap_witness (Some 1%positive) 3%positive = Some (h', 0)
    /\ agree_off (3%positive :: [(1%positive, 10); (2%positive, 20)].*1) heap_witness h' /\ dom h' = dom heap_witness
    /\ is_list h' (Some 1%positive) ([(1%positive, 10); (2%positive, 20)] ++ [(3%positive, 30)]).
Proof.
  apply (insert_node_appends heap_witness (Some 1%positive) [(1%positive, 10); (2%positive, 20)] 3%positive 30 (Some 1%positive)).
  - cbn. repeat (split; [done|]; eexists; split; [done|]). done.
  - done.
  - by intros [|[|[]%not_elem_of_nil]%elem_of_cons]%elem_of_cons.
Defined.

Lemma remove_node_removes_witness :
  exists h' head', remove_qer_node heap_witness (Some 1%positive) (Some 2%positive) = Some (h', head')
    /\ is_list h' head' (filter (fun x => x.1 <> 2%positive) [(1%positive, 10); (2%positive, 20)])
    /\ h' !! 2%positive = None /\ agree_off [(1%positive, 10); (2%positive, 20)].*1 heap_witness h'
    /\ dom h' = dom heap_witness ∖ {[2%positive]}.
Proof.
  apply (remove_node_removes (V := Z)).
  - right. right. constructor.
  - cbn. repeat (split; [done|]; eexists; split; [done|]). done.
  - right. constructor.
Defined.

Lemma remove_urr_node_head_loses_list_witness :
  (exists rest, remove_urr_node heap_witness (Some 1%positive) (Some 1%positive) = Some (delete 1%positive heap_witness, None)
     /\ is_list (delete 1%positive heap_witness) rest [(2%positive, 20)]) /\
  forall nd, nd ∈ [(2%positive, 20)].*1 ->
    exists h', remove_urr_node heap_witness (Some 1%positive) (Some nd) = Some (h', Some 1%positive)
      /\ is_list h' (Some 1%positive) ((1%positive, 10) :: filter (fun x => x.1 <> nd) [(2%positive, 20)]).
Proof.
  apply remove_urr_node_head_loses_list.
  cbn. repeat (split; [done|]; eexists; split; [done|]). done.
Defined.
