(* ===== verification/UpSess.v ===== *)
(** * The session and rule tables of the user plane

    [dp/pfcp_up_init.c]: the hash tables of sessions, session data, PDRs, FARs,
    QERs and URRs, whose entries are the nodes of the linked lists of
    [dp/pfcp_up_llist.c]; the part of [process_create_pdr_info] that links the
    rules of a PDR; and [up_delete_session_entry] (pfcp_messages/pfcp_up_sess.c),
    which takes a session apart.

    A table is a heap of nodes and a map from keys to addresses.  A call that
    may create an entry takes the outcome of its [rte_zmalloc] (the address, or
    [None]) and of its [rte_hash_add_key_data] as arguments; [rte_hash_del_key]
    on a key that is present succeeds.  The result is [None] where the code
    reads, writes or frees memory that is not allocated, with one exception: a
    log line of the deletion reads the id of a FAR that was just freed; what it
    reads goes nowhere else, and the FAR is added to [stale_reads].  The records
    hold the members these functions read and write; the usage reports that a
    deletion fills and the timers that it stops are not modelled. *)

From S2P Require Import Prelude NodeAddr LList.

#[export] Instance byte_countable : Countable byte :=
  inj_countable' byte_to_Z byte_of_Z byte_of_to_Z.

Definition SESS_CREATE : Z := 0.
Definition SESS_MODIFY : Z := 1.
Definition SESS_DEL : Z := 2.

(** ** Data *)

Record peer_addr_t := mk_peer_addr {
  pa_type : Z;
  pa_ipv4 : Z;           (* ipv4.sin_addr.s_addr *)
  pa_ipv6 : list byte    (* ipv6.sin6_addr.s6_addr *)
}.

Record rule_key := mk_rule_key {
  cp_ip_type : Z;
  cp_ip_addr : list byte;  (* the union of both addresses *)
  rk_cp_seid : Z;
  rk_id : Z
}.

#[export] Instance rule_key_eq_decision : EqDecision rule_key.
Proof. solve_decision. Defined.

#[export] Instance rule_key_countable : Countable rule_key :=
  inj_countable'
    (fun k => (cp_ip_type k, cp_ip_addr k, rk_cp_seid k, rk_id k))
    (fun '(t, a, s, i) => mk_rule_key t a s i) ltac:(by intros []).

(** How every rule function fills its [rule_key hash_key = {0}]. *)
Definition hash_key (cp_ip : peer_addr_t) (cp_seid id : Z) : rule_key :=
  mk_rule_key (pa_type cp_ip)
    (if decide (pa_type cp_ip = PDN_TYPE_IPV4)
     then le_bytes 4 (pa_ipv4 cp_ip) ++ replicate 12 x00
     else pa_ipv6 cp_ip)
    cp_seid id.

Record ue_ip_t := mk_ue_ip { ue_ipv4 : Z; ue_ipv6 : list byte }.

#[export] Instance ue_ip_eq_decision : EqDecision ue_ip_t.
Proof. solve_decision. Defined.

#[export] Instance ue_ip_countable : Countable ue_ip_t :=
  inj_countable' (fun u => (ue_ipv4 u, ue_ipv6 u)) (fun '(a, b) => mk_ue_ip a b) ltac:(by intros []).

Record far_info := mk_far { far_id_value : Z; far_pdr_count : Z }.
Record qer_info := mk_qer { qer_id : Z }.
Record urr_info := mk_urr { urr_id : Z; urr_pdr_count : Z }.
Record pdr_info := mk_pdr {
  rule_id : Z; prcdnc_val : Z; far : ptr; qer_count : Z; quer : ptr;
  urr_count : Z; urr : ptr; predef_rules_count : Z
}.
Record sess_data := mk_data {
  sd_ipv4 : Z; sd_ipv6 : Z; ue_ip_addr : Z; ue_ipv6_addr : list byte; pdrs : ptr; dl_ring : ptr
}.
Record pfcp_session := mk_session {
  cp_seid : Z; up_seid : Z; cp_ip : peer_addr_t; ber_cnt : Z; teids : list Z; sessions : ptr
}.

Definition MAX_BEARERS : nat := 15.
Definition MAX_BURST_SZ : nat := 64.

Definition zero_far : far_info := mk_far 0 0.
Definition zero_qer : qer_info := mk_qer 0.
Definition zero_urr : urr_info := mk_urr 0 0.
Definition zero_pdr : pdr_info := mk_pdr 0 0 None 0 None 0 None 0.
Definition zero_data : sess_data := mk_data 0 0 0 ipv6_zero None None.
Definition zero_session : pfcp_session :=
  mk_session 0 0 (mk_peer_addr 0 0 ipv6_zero) 0 (replicate MAX_BEARERS 0) None.

Record tbl (K V : Type) `{Countable K} := mk_tbl { nodes : heap V; hash : gmap K loc }.
Arguments mk_tbl {K V _ _}.
Arguments nodes {K V _ _}.
Arguments hash {K V _ _}.

(** The node [l] of a heap replaced by its image under [f]. *)
Definition write {V} (h : heap V) (l : loc) (f : V -> V) : option (heap V) :=
  n ← h !! l; Some (<[l := mk_node (f (val n)) (next n)]> h).

(** ** Creating and deleting entries *)

Section Table.
Context {K V : Type} `{Countable K}.
Implicit Types (t : tbl K V) (key : K) (head : ptr).

(** The common body of the functions that create an entry: allocate a zeroed
    node, add it to the table, fill it, append it to the list of [*head] and, if
    that was empty, make it the list.  Result: table, [*head], the new node. *)
Definition create_node t head key (zmalloc : option loc) (add_ret : Z) (zero : V) (fill : V -> V)
    : option (tbl K V * ptr * ptr) :=
  match zmalloc with
  | None => Some (t, head, None)
  | Some l =>
    let h := <[l := mk_node zero None]> (nodes t) in
    if decide (add_ret = 0) then
      let hs := <[key := l]> (hash t) in
      h ← write h l fill;
      '(h, _) ← insert_node h head l;
      let head := match head with None => Some l | Some _ => head end in
      Some (mk_tbl h hs, head, Some l)
    else
      h ← rte_free h l;
      Some (mk_tbl h (hash t), head, None)
  end.

(** [get_*_entry(key, &head, is_mod)]: an entry that is absent is created only
    for a session establishment. *)
Definition get_or_create t head key (is_mod : Z) zmalloc add_ret zero fill
    : option (tbl K V * ptr * ptr) :=
  match hash t !! key with
  | Some p => Some (t, head, Some p)
  | None =>
    if decide (is_mod = SESS_CREATE) then create_node t head key zmalloc add_ret zero fill
    else Some (t, head, None)
  end.

(** [del_*_entry(key)]: the entry leaves the table, its node is not freed. *)
Definition del_entry t key : tbl K V * Z := (mk_tbl (nodes t) (delete key (hash t)), 0).
End Table.

Section Entries.
Implicit Types (zmalloc : option loc) (add_ret : Z) (ip : peer_addr_t).

Definition get_sess_by_teid_entry (t : tbl Z sess_data) (teid : Z) head is_mod zmalloc add_ret :=
  get_or_create t head teid is_mod zmalloc add_ret zero_data id.

Definition del_sess_by_teid_entry (t : tbl Z sess_data) (teid : Z) := del_entry t teid.

Definition get_sess_by_ueip_entry (t : tbl ue_ip_t sess_data) ue_ip head is_mod zmalloc add_ret :=
  get_or_create t head ue_ip is_mod zmalloc add_ret zero_data id.

Definition del_sess_by_ueip_entry (t : tbl ue_ip_t sess_data) ue_ip := del_entry t ue_ip.

Definition get_pdr_info_entry (t : tbl rule_key pdr_info) (id : Z) head is_add ip seid zmalloc add_ret :=
  get_or_create t head (hash_key ip seid id) is_add zmalloc add_ret zero_pdr
    (fun p => mk_pdr id (prcdnc_val p) (far p) (qer_count p) (quer p) (urr_count p) (urr p) (predef_rules_count p)).

Definition del_pdr_info_entry (t : tbl rule_key pdr_info) (id : Z) ip seid :=
  del_entry t (hash_key ip seid (u16 id)).

(** [add_qer_info_entry(qer_id, &head, ...)]: result as [create_node] with the
    return code; a QER that exists becomes the list of a PDR that has none. *)
Definition add_qer_info_entry (t : tbl rule_key qer_info) (id : Z) head ip seid zmalloc add_ret
    : option (tbl rule_key qer_info * ptr * Z) :=
  match hash t !! hash_key ip seid id with
  | Some q => Some (t, match head with None => Some q | Some _ => head end, 0)
  | None =>
    '(t, head, q) ← create_node t head (hash_key ip seid id) zmalloc add_ret zero_qer (fun _ => mk_qer id);
    Some (t, head, match q with Some _ => 0 | None => -1 end)
  end.

Definition get_qer_info_entry (t : tbl rule_key qer_info) (id : Z) head ip seid zmalloc add_ret :=
  get_or_create t head (hash_key ip seid id) SESS_CREATE zmalloc add_ret zero_qer (fun _ => mk_qer id).

Definition del_qer_info_entry (t : tbl rule_key qer_info) (id : Z) ip seid :=
  del_entry t (hash_key ip seid id).

Definition add_urr_info_entry (t : tbl rule_key urr_info) (id : Z) head ip seid zmalloc add_ret
    : option (tbl rule_key urr_info * ptr * Z) :=
  match hash t !! hash_key ip seid id with
  | Some q => Some (t, match head with None => Some q | Some _ => head end, 0)
  | None =>
    '(t, head, q) ← create_node t head (hash_key ip seid id) zmalloc add_ret zero_urr (fun u => u);
    Some (t, head, match q with Some _ => 0 | None => -1 end)
  end.

Definition get_urr_info_entry (t : tbl rule_key urr_info) (id : Z) ip seid : ptr :=
  hash t !! hash_key ip seid id.

Definition del_urr_info_entry (t : tbl rule_key urr_info) (id : Z) ip seid :=
  del_entry t (hash_key ip seid id).

(** FARs are in no list; the [next] of their nodes stays [None].  The FAR id
    is truncated to 16 bits by the type of the parameter. *)
Definition add_far_info_entry (t : tbl rule_key far_info) (id : Z) (p : ptr) ip seid zmalloc add_ret
    : option (tbl rule_key far_info * ptr * Z) :=
  let key := hash_key ip seid (u16 id) in
  match hash t !! key with
  | Some tmp =>
    match p with
    | Some q => n ← nodes t !! q; h ← write (nodes t) tmp (fun _ => val n); Some (mk_tbl h (hash t), p, 0)
    | None => Some (t, Some tmp, 0)
    end
  | None =>
    match zmalloc with
    | None => Some (t, None, -1)
    | Some l =>
      let h := <[l := mk_node zero_far None]> (nodes t) in
      if decide (add_ret = 0) then Some (mk_tbl h (<[key := l]> (hash t)), Some l, 0)
      else h ← rte_free h l; Some (mk_tbl h (hash t), None, -1)
    end
  end.

Definition get_far_info_entry (t : tbl rule_key far_info) (id : Z) ip seid : ptr :=
  hash t !! hash_key ip seid (u16 id).

Definition del_far_info_entry (t : tbl rule_key far_info) (id : Z) ip seid
    : option (tbl rule_key far_info * Z) :=
  let key := hash_key ip seid (u16 id) in
  match hash t !! key with
  | Some f => h ← rte_free (nodes t) f; Some (mk_tbl h (delete key (hash t)), 0)
  | None => Some (t, 0)
  end.

(** Session contexts: not in a list either. *)
Definition add_sess_info_entry (t : tbl Z pfcp_session) (id : Z) (ctx : option pfcp_session) zmalloc add_ret
    : option (tbl Z pfcp_session * Z) :=
  match hash t !! id with
  | Some tmp =>
    c ← ctx; h ← write (nodes t) tmp (fun _ => c); Some (mk_tbl h (hash t), 0)
  | None =>
    match zmalloc with
    | None => Some (t, -1)
    | Some l =>
      let h := <[l := mk_node (default zero_session ctx) None]> (nodes t) in
      if decide (add_ret = 0) then Some (mk_tbl h (<[id := l]> (hash t)), 0)
      else h ← rte_free h l; Some (mk_tbl h (hash t), -1)
    end
  end.

Definition get_sess_info_entry (t : tbl Z pfcp_session) (id : Z) is_mod zmalloc add_ret
    : option (tbl Z pfcp_session * ptr) :=
  match hash t !! id with
  | Some p => Some (t, Some p)
  | None =>
    if decide (is_mod = SESS_CREATE) then
      match zmalloc with
      | None => Some (t, None)
      | Some l =>
        let h := <[l := mk_node zero_session None]> (nodes t) in
        if decide (add_ret = 0) then
          h ← write h l (fun s => mk_session (cp_seid s) id (cp_ip s) (ber_cnt s) (teids s) (sessions s));
          Some (mk_tbl h (<[id := l]> (hash t)), Some l)
        else h ← rte_free h l; Some (mk_tbl h (hash t), None)
      end
    else Some (t, None)
  end.

Definition del_sess_info_entry (t : tbl Z pfcp_session) (id : Z) := del_entry t id.
End Entries.

(** [gen_up_sess_id(cp_sess_id)] at 64 bits. *)
Definition gen_up_sess_id (cp_sess_id : Z) : Z :=
  Z.lor (u64 (Z.shiftl (u64 (Z.shiftr cp_sess_id 32 + 1)) 32)) (Z.land cp_sess_id 0xfffffff).

(** ** The state of the user plane *)

(** The rings of downlink packets that wait, with what they hold, oldest first;
    [dl_ring_container] with the rings in it; and the packets that were freed. *)
Record ring_state := mk_rings {
  dl_rings : gmap loc (list ptr);
  dl_ring_container : list loc;
  freed_pkts : list loc
}.

Record up_state := mk_up {
  pdr_by_id : tbl rule_key pdr_info;
  far_by_id : tbl rule_key far_info;
  qer_by_id : tbl rule_key qer_info;
  urr_by_id : tbl rule_key urr_info;
  data_nodes : heap sess_data;
  sess_by_teid : gmap Z loc;
  sess_by_ueip : gmap ue_ip_t loc;
  sess_ctx : tbl Z pfcp_session;
  up_rings : ring_state;
  stale_reads : list loc   (* the FARs read after they were freed *)
}.

Definition set_pdrs (s : up_state) t :=
  mk_up t (far_by_id s) (qer_by_id s) (urr_by_id s) (data_nodes s) (sess_by_teid s) (sess_by_ueip s) (sess_ctx s)
    (up_rings s) (stale_reads s).
Definition set_fars (s : up_state) t :=
  mk_up (pdr_by_id s) t (qer_by_id s) (urr_by_id s) (data_nodes s) (sess_by_teid s) (sess_by_ueip s) (sess_ctx s)
    (up_rings s) (stale_reads s).
Definition set_qers (s : up_state) t :=
  mk_up (pdr_by_id s) (far_by_id s) t (urr_by_id s) (data_nodes s) (sess_by_teid s) (sess_by_ueip s) (sess_ctx s)
    (up_rings s) (stale_reads s).
Definition set_urrs (s : up_state) t :=
  mk_up (pdr_by_id s) (far_by_id s) (qer_by_id s) t (data_nodes s) (sess_by_teid s) (sess_by_ueip s) (sess_ctx s)
    (up_rings s) (stale_reads s).
Definition set_data (s : up_state) h :=
  mk_up (pdr_by_id s) (far_by_id s) (qer_by_id s) (urr_by_id s) h (sess_by_teid s) (sess_by_ueip s) (sess_ctx s)
    (up_rings s) (stale_reads s).
Definition set_teids (s : up_state) h :=
  mk_up (pdr_by_id s) (far_by_id s) (qer_by_id s) (urr_by_id s) (data_nodes s) h (sess_by_ueip s) (sess_ctx s)
    (up_rings s) (stale_reads s).
Definition set_ueips (s : up_state) h :=
  mk_up (pdr_by_id s) (far_by_id s) (qer_by_id s) (urr_by_id s) (data_nodes s) (sess_by_teid s) h (sess_ctx s)
    (up_rings s) (stale_reads s).
Definition set_ctx (s : up_state) t :=
  mk_up (pdr_by_id s) (far_by_id s) (qer_by_id s) (urr_by_id s) (data_nodes s) (sess_by_teid s) (sess_by_ueip s) t
    (up_rings s) (stale_reads s).
Definition set_rings (s : up_state) r :=
  mk_up (pdr_by_id s) (far_by_id s) (qer_by_id s) (urr_by_id s) (data_nodes s) (sess_by_teid s) (sess_by_ueip s) (sess_ctx s)
    r (stale_reads s).
Definition set_stale (l : list loc) (s : up_state) :=
  mk_up (pdr_by_id s) (far_by_id s) (qer_by_id s) (urr_by_id s) (data_nodes s) (sess_by_teid s) (sess_by_ueip s) (sess_ctx s)
    (up_rings s) l.
Definition stale_read (f : loc) (s : up_state) := set_stale (stale_reads s ++ [f]) s.

(** [f] applied to the PDR at [p], the members [far], [quer] and [urr]. *)
Definition pdr_write (s : up_state) (p : loc) (f : pdr_info -> pdr_info) : option up_state :=
  h ← write (nodes (pdr_by_id s)) p f; Some (set_pdrs s (mk_tbl h (hash (pdr_by_id s)))).

Definition with_far (q : ptr) (p : pdr_info) := mk_pdr (rule_id p) (prcdnc_val p) q (qer_count p) (quer p) (urr_count p) (urr p) (predef_rules_count p).
Definition with_quer (q : ptr) (p : pdr_info) := mk_pdr (rule_id p) (prcdnc_val p) (far p) (qer_count p) q (urr_count p) (urr p) (predef_rules_count p).
Definition with_qer_count (n : Z) (p : pdr_info) := mk_pdr (rule_id p) (prcdnc_val p) (far p) n (quer p) (urr_count p) (urr p) (predef_rules_count p).
Definition with_urr (q : ptr) (p : pdr_info) := mk_pdr (rule_id p) (prcdnc_val p) (far p) (qer_count p) (quer p) (urr_count p) q (predef_rules_count p).
Definition with_urr_count (n : Z) (p : pdr_info) := mk_pdr (rule_id p) (prcdnc_val p) (far p) (qer_count p) (quer p) n (urr p) (predef_rules_count p).

(** [p[i]]: every node is an allocation of its own, so only [p[0]] is inside. *)
Definition elem (p : ptr) (i : nat) : ptr := match i with O => p | S _ => None end.

(** ** Linking the rules of a PDR ([process_create_pdr_info])

    A rule id of the request, with the outcome of the allocations it may need. *)
Record rule_req := mk_req { rq_id : Z; rq_zmalloc : option loc; rq_add : Z }.

Section Link.
Context (ip : peer_addr_t) (seid : Z) (pdr_t : loc).

Definition link_far (s : up_state) (r : rule_req) : option (up_state * Z) :=
  n ← nodes (pdr_by_id s) !! pdr_t;
  '(t, p, ret) ← add_far_info_entry (far_by_id s) (rq_id r) (far (val n)) ip seid (rq_zmalloc r) (rq_add r);
  s ← pdr_write (set_fars s t) pdr_t (with_far p);
  if decide (ret = 0) then
    f ← p;
    h ← write (nodes t) f (fun x => mk_far (rq_id r) (u16 (far_pdr_count x + 1)));
    Some (set_fars s (mk_tbl h (hash t)), 0)
  else Some (s, -1).

Fixpoint link_qers (s : up_state) (itr : nat) (rs : list rule_req) : option (up_state * Z) :=
  match rs with
  | [] => Some (s, 0)
  | r :: rs =>
    n ← nodes (pdr_by_id s) !! pdr_t;
    '(t, p, ret) ← add_qer_info_entry (qer_by_id s) (rq_id r) (quer (val n)) ip seid (rq_zmalloc r) (rq_add r);
    s ← pdr_write (set_qers s t) pdr_t (with_quer p);
    if decide (ret = 0) then
      q ← elem p itr;
      h ← write (nodes t) q (fun _ => mk_qer (rq_id r));
      link_qers (set_qers s (mk_tbl h (hash t))) (S itr) rs
    else Some (s, -1)
  end.

Fixpoint link_urrs (s : up_state) (itr : nat) (rs : list rule_req) : option (up_state * Z) :=
  match rs with
  | [] => Some (s, 0)
  | r :: rs =>
    n ← nodes (pdr_by_id s) !! pdr_t;
    '(t, p, ret) ← add_urr_info_entry (urr_by_id s) (rq_id r) (urr (val n)) ip seid (rq_zmalloc r) (rq_add r);
    s ← pdr_write (set_urrs s t) pdr_t (with_urr p);
    if decide (ret = 0) then
      q ← elem p itr;
      h ← write (nodes t) q (fun x => mk_urr (rq_id r) (u16 (urr_pdr_count x + 1)));
      link_urrs (set_urrs s (mk_tbl h (hash t))) (S itr) rs
    else Some (s, -1)
  end.

(** The FAR, the QERs and the URRs in this order; the counts are only written
    when there are rules of the kind. *)
Definition link_rules (s : up_state) (far_id : option rule_req) (qer_ids urr_ids : list rule_req)
    : option (up_state * Z) :=
  '(s, ret) ← match far_id with Some r => link_far s r | None => Some (s, 0) end;
  if decide (ret <> 0) then Some (s, ret) else
  s ← match qer_ids with [] => Some s | _ => pdr_write s pdr_t (with_qer_count (u8 (Z.of_nat (length qer_ids)))) end;
  '(s, ret) ← link_qers s 0 qer_ids;
  if decide (ret <> 0) then Some (s, ret) else
  s ← match urr_ids with [] => Some s | _ => pdr_write s pdr_t (with_urr_count (u8 (Z.of_nat (length urr_ids)))) end;
  link_urrs s 0 urr_ids.
End Link.

(** ** Deleting a session ([up_delete_session_entry]) *)

(** The loop that removes the QERs, and the one that removes the URRs. *)
Fixpoint cleanup_qers (fuel : nat) (t : tbl rule_key qer_info) (head : ptr) ip seid
    : option (tbl rule_key qer_info * ptr) :=
  match fuel with
  | O => None
  | S fuel =>
    match head with
    | None => Some (t, None)
    | Some q =>
      n ← nodes t !! q;
      '(h, head) ← remove_qer_node (nodes t) head (Some q);
      let '(t, ret) := del_qer_info_entry (mk_tbl h (hash t)) (qer_id (val n)) ip seid in
      cleanup_qers fuel t head ip seid
    end
  end.

Fixpoint cleanup_urrs (fuel : nat) (t : tbl rule_key urr_info) (head : ptr) ip seid
    : option (tbl rule_key urr_info * ptr) :=
  match fuel with
  | O => None
  | S fuel =>
    match head with
    | None => Some (t, None)
    | Some u =>
      n ← nodes t !! u;
      '(h, head) ← remove_urr_node (nodes t) head (Some u);
      let '(t, ret) := del_urr_info_entry (mk_tbl h (hash t)) (urr_id (val n)) ip seid in
      cleanup_urrs fuel t head ip seid
    end
  end.

(** The usage reports read [pdr->urr[itr]] for each [itr] below [urr_count];
    the reports themselves are not modelled. *)
Definition read_urrs (h : heap urr_info) (p : ptr) (urr_count : Z) : option unit :=
  foldr (fun i k => u ← elem p i; _ ← h !! u; k) (Some ()) (seq 0 (Z.to_nat urr_count)).

(** The FAR leaves the table and is freed; then its id is read for the log. *)
Definition delete_far (s : up_state) (p : ptr) ip seid : option up_state :=
  match p with
  | None => Some s
  | Some f =>
    n ← nodes (far_by_id s) !! f;
    '(t, ret) ← del_far_info_entry (far_by_id s) (far_id_value (val n)) ip seid;
    let s := set_fars s t in
    Some (match nodes t !! f with Some _ => s | None => stale_read f s end)
  end.

(** The body of [while (pdr != NULL)] for the head [p] of the list [pdrs]. *)
Definition delete_pdr (s : up_state) (p : loc) (head : ptr) ip seid : option (up_state * ptr) :=
  n ← nodes (pdr_by_id s) !! p;
  _ ← read_urrs (nodes (urr_by_id s)) (urr (val n)) (urr_count (val n));
  s ← delete_far s (far (val n)) ip seid;
  s ← (if decide (predef_rules_count (val n) = 0) then
         '(t, q) ← cleanup_qers (fuel_of (nodes (qer_by_id s))) (qer_by_id s) (quer (val n)) ip seid;
         pdr_write (set_qers s t) p (with_quer q)
       else Some s);
  '(t, u) ← cleanup_urrs (fuel_of (nodes (urr_by_id s))) (urr_by_id s) (urr (val n)) ip seid;
  s ← pdr_write (set_urrs s t) p (with_urr u);
  '(h, head) ← remove_pdr_node (nodes (pdr_by_id s)) head (Some p);
  let '(t, ret) := del_pdr_info_entry (mk_tbl h (hash (pdr_by_id s))) (rule_id (val n)) ip seid in
  Some (set_pdrs s t, head).

Fixpoint delete_pdrs (fuel : nat) (s : up_state) (head : ptr) ip seid : option (up_state * ptr) :=
  match fuel with
  | O => None
  | S fuel =>
    match head with
    | None => Some (s, None)
    | Some p =>
      '(s, head) ← delete_pdr s p head ip seid;
      delete_pdrs fuel s head ip seid
    end
  end.

(** The loop that takes up to [MAX_BURST_SZ] packets at a time out of a ring and
    frees those that are not null, until it gets none. *)
Fixpoint drain_ring (fuel : nat) (ring : list ptr) (freed : list loc) : option (list loc) :=
  match fuel with
  | O => None
  | S fuel =>
    let m := take MAX_BURST_SZ ring in
    let freed := freed ++ omap id m in
    match m with
    | [] => Some freed
    | _ :: _ => drain_ring fuel (drop MAX_BURST_SZ ring) freed
    end
  end.

(** The ring of a session data: its packets are freed, then the ring; the oldest
    ring, whichever it is, leaves [dl_ring_container]. *)
Definition delete_ring (s : up_state) (ring : ptr) : option up_state :=
  match ring with
  | None => Some s
  | Some r =>
    pkts ← dl_rings (up_rings s) !! r;
    freed ← drain_ring (S (length pkts)) pkts (freed_pkts (up_rings s));
    Some (set_rings s (mk_rings (delete r (dl_rings (up_rings s))) (tail (dl_ring_container (up_rings s))) freed))
  end.

(** The body of [while (session != NULL)]; [ips] collects the array [ue_ip],
    which has [MAX_BEARERS] elements. *)
Fixpoint delete_sessions (fuel : nat) (s : up_state) (head : ptr) (ips : list (Z * list byte)) ip seid
    : option (up_state * list (Z * list byte)) :=
  match fuel with
  | O => None
  | S fuel =>
    match head with
    | None => Some (s, ips)
    | Some d =>
      n ← data_nodes s !! d;
      s ← delete_ring s (dl_ring (val n));
      '(s, p) ← delete_pdrs (fuel_of (nodes (pdr_by_id s))) s (pdrs (val n)) ip seid;
      h ← write (data_nodes s) d
        (fun x => mk_data (sd_ipv4 x) (sd_ipv6 x) (ue_ip_addr x) (ue_ipv6_addr x) p None);
      ips ← (if decide (sd_ipv4 (val n) <> 0 \/ sd_ipv6 (val n) <> 0) then
               if decide (length ips < MAX_BEARERS)%nat
               then Some (ips ++ [(ue_ip_addr (val n), ue_ipv6_addr (val n))]) else None
             else Some ips);
      '(h, head) ← remove_sess_data_node h head (Some d);
      delete_sessions fuel (set_data s h) head ips ip seid
    end
  end.

(** The entries by UE address: the IPv4 one when it is not zero, then always
    the IPv6 one ([ue_ip[itr].ue_ipv6] is an array: its address is not null). *)
Definition delete_ueips (m : gmap ue_ip_t loc) (ips : list (Z * list byte)) : gmap ue_ip_t loc :=
  foldl (fun m '(v4, v6) =>
    let m := if decide (v4 = 0) then m else delete (mk_ue_ip v4 ipv6_zero) m in
    delete (mk_ue_ip 0 v6) m) m ips.

(** The TEIDs of the bearers: the first [ber_cnt] members of [teids]. *)
Definition delete_teids (m : gmap Z loc) (ts : list Z) (ber_cnt : Z) : gmap Z loc :=
  foldl (fun m t => if decide (t = 0) then m else delete t m) m (take (Z.to_nat ber_cnt) ts).

(** [up_delete_session_entry(sess)] for the context at [sess]: the session's
    lists and its entries in the tables. *)
Definition up_delete_session_entry (s : up_state) (sess : loc) : option (up_state * Z) :=
  n ← nodes (sess_ctx s) !! sess;
  let c := val n in
  '(s, ips) ← delete_sessions (fuel_of (data_nodes s)) s (sessions c) [] (cp_ip c) (cp_seid c);
  let s := set_ueips s (delete_ueips (sess_by_ueip s) ips) in
  let s := set_teids s (delete_teids (sess_by_teid s) (teids c) (ber_cnt c)) in
  h ← write (nodes (sess_ctx s)) sess (fun x =>
    mk_session (cp_seid x) (up_seid x) (cp_ip x) (ber_cnt x)
      (replicate (Nat.min (Z.to_nat (ber_cnt x)) (length (teids x))) 0 ++ drop (Z.to_nat (ber_cnt x)) (teids x)) None);
  let '(t, ret) := del_sess_info_entry (mk_tbl h (hash (sess_ctx s))) (up_seid c) in
  Some (set_ctx s t, 0).

(** ** What a deletion leaves

    [deletes ks m]: the map without the keys [ks]. *)
Definition deletes {K A} `{Countable K} (ks : list K) (m : gmap K A) : gmap K A :=
  foldl (fun m k => delete k m) m ks.

(** A PDR with what it refers to: its FAR, and its QER and URR lists. *)
Record pdr_desc := mk_desc {
  pd_loc : loc;
  pd_info : pdr_info;
  pd_far : option (loc * far_info);
  pd_qers : list (loc * qer_info);
  pd_urrs : list (loc * urr_info)
}.

Definition d_pdr (d : pdr_desc) : loc * pdr_info := (pd_loc d, pd_info d).
Definition d_fars (d : pdr_desc) : list (loc * far_info) := option_list (pd_far d).
(** The QERs of a PDR with predefined rules stay. *)
Definition d_qers (d : pdr_desc) : list (loc * qer_info) :=
  if decide (predef_rules_count (pd_info d) = 0) then pd_qers d else [].

Section Delete.
Context (ip : peer_addr_t) (seid : Z).
Local Abbreviation key i := (hash_key ip seid i).

Definition shrink_tbl {V} (id : V -> Z) (xs : list (loc * V)) (t : tbl rule_key V) : tbl rule_key V :=
  mk_tbl (deletes xs.*1 (nodes t)) (deletes ((fun x => key (id x.2)) <$> xs) (hash t)).

(** The state without the PDRs [ds] and their rules. *)
Definition shrink (s : up_state) (ds : list pdr_desc) : up_state :=
  mk_up
    (shrink_tbl (fun p => u16 (rule_id p)) (d_pdr <$> ds) (pdr_by_id s))
    (shrink_tbl (fun f => u16 (far_id_value f)) (ds ≫= d_fars) (far_by_id s))
    (shrink_tbl qer_id (ds ≫= d_qers) (qer_by_id s))
    (shrink_tbl urr_id (ds ≫= pd_urrs) (urr_by_id s))
    (data_nodes s) (sess_by_teid s) (sess_by_ueip s) (sess_ctx s)
    (up_rings s) (stale_reads s ++ (ds ≫= d_fars).*1).

(** [d] describes a PDR of the state: its FAR is allocated and is the entry of
    its id, its lists are lists, and there is at most one URR (more are never
    linked without a write outside the node, see [link_urrs]). *)
Definition desc_ok (s : up_state) (d : pdr_desc) : Prop :=
  far (pd_info d) = fst <$> pd_far d /\
  (forall f x, pd_far d = Some (f, x) ->
     nodes (far_by_id s) !! f = Some (mk_node x None) /\
     hash (far_by_id s) !! key (u16 (far_id_value x)) = Some f) /\
  is_list (nodes (qer_by_id s)) (quer (pd_info d)) (pd_qers d) /\
  is_list (nodes (urr_by_id s)) (urr (pd_info d)) (pd_urrs d) /\
  (length (pd_urrs d) <= 1)%nat /\ (Z.to_nat (urr_count (pd_info d)) <= length (pd_urrs d))%nat.

(** Two PDRs are different nodes and share no rule. *)
Definition separate (d d' : pdr_desc) : Prop :=
  pd_loc d <> pd_loc d' /\
  (forall l, l ∈ (d_fars d).*1 -> l ∉ (d_fars d').*1) /\
  (forall l, l ∈ (pd_qers d).*1 -> l ∉ (pd_qers d').*1) /\
  (forall l, l ∈ (pd_urrs d).*1 -> l ∉ (pd_urrs d').*1).

Fixpoint unshared (ds : list pdr_desc) : Prop :=
  match ds with
  | [] => True
  | d :: ds => Forall (separate d) ds /\ unshared ds
  end.

(** A session: its session data, each with the descriptions of its PDRs. *)
Definition sess_ok (s : up_state) (head : ptr) (xs : list (loc * sess_data * list pdr_desc)) : Prop :=
  is_list (data_nodes s) head (fst <$> xs) /\
  Forall (fun x => is_list (nodes (pdr_by_id s)) (pdrs x.1.2) (d_pdr <$> x.2) /\ Forall (desc_ok s) x.2) xs /\
  unshared (xs ≫= snd).
End Delete.

(** The session data and the PDRs of a session. *)
Abbreviation session_data xs := (fmap (M := list) (fst (A := loc * sess_data) (B := list pdr_desc)) xs).
Abbreviation session_pdrs xs := (mbind (M := list) (snd (A := loc * sess_data) (B := list pdr_desc)) xs).

(** [t'] is [t] without the nodes [xs] and the entries of their ids. *)
Definition cleared (ip : peer_addr_t) (seid : Z) {V} (id : V -> Z) (xs : list (loc * V))
    (t t' : tbl rule_key V) : Prop :=
  (forall l v, (l, v) ∈ xs -> nodes t' !! l = None /\ hash t' !! hash_key ip seid (id v) = None) /\
  (forall l, l ∉ xs.*1 -> nodes t' !! l = nodes t !! l) /\
  (forall k, k ∉ (fun x => hash_key ip seid (id x.2)) <$> xs -> hash t' !! k = hash t !! k).

(** The rings of session data, and the rings without them: their packets are
    freed, and as many of the oldest rings have left the container. *)
Definition rings_of (ds : list (loc * sess_data)) : list loc := omap (fun x => dl_ring x.2) ds.
Definition shrink_rings (rs : ring_state) (ls : list loc) : ring_state :=
  mk_rings (deletes ls (dl_rings rs)) (drop (length ls) (dl_ring_container rs))
    (freed_pkts rs ++ (ls ≫= fun r => omap id (default [] (dl_rings rs !! r)))).

(** The rings are allocated, and different. *)
Definition rings_ok (s : up_state) (ls : list loc) : Prop :=
  NoDup ls /\ forall r, r ∈ ls -> is_Some (dl_rings (up_rings s) !! r).

(** The UE addresses that the deletion collects. *)
Definition ue_ips (ds : list (loc * sess_data)) : list (Z * list byte) :=
  (fun x => (ue_ip_addr x.2, ue_ipv6_addr x.2)) <$>
  filter (fun x => sd_ipv4 x.2 <> 0 \/ sd_ipv6 x.2 <> 0) ds.

(** A session with one session data and two PDRs, the first with a FAR, a QER
    and a URR; the second PDR has the FAR [f]. *)
Definition wit_ip : peer_addr_t := mk_peer_addr 1 0x0100000a ipv6_zero.
Definition wit_key (id : Z) : rule_key := hash_key wit_ip 7 id.
Definition wit_pdr1 : pdr_info := mk_pdr 1 10 (Some 1%positive) 1 (Some 1%positive) 1 (Some 1%positive) 0.
Definition wit_pdr2 (f : ptr) : pdr_info := mk_pdr 2 20 f 0 None 0 None 0.
Definition wit_desc1 : pdr_desc :=
  mk_desc 1 wit_pdr1 (Some (1%positive, mk_far 1 2)) [(1%positive, mk_qer 1)] [(1%positive, mk_urr 1 1)].
Definition wit_desc2 : pdr_desc := mk_desc 2 (wit_pdr2 None) None [] [].
Definition wit_data : sess_data := mk_data 1 0 5 ipv6_zero (Some 1%positive) (Some 1%positive).
Definition wit_session : pfcp_session := mk_session 7 9 wit_ip 1 [3; 0] (Some 1%positive).
Definition wit_state (f : ptr) : up_state :=
  mk_up
    (mk_tbl {[ 1%positive := mk_node wit_pdr1 (Some 2%positive); 2%positive := mk_node (wit_pdr2 f) None ]}
            {[ wit_key 1 := 1%positive; wit_key 2 := 2%positive ]})
    (mk_tbl {[ 1%positive := mk_node (mk_far 1 2) None ]} {[ wit_key 1 := 1%positive ]})
    (mk_tbl {[ 1%positive := mk_node (mk_qer 1) None ]} {[ wit_key 1 := 1%positive ]})
    (mk_tbl {[ 1%positive := mk_node (mk_urr 1 1) None ]} {[ wit_key 1 := 1%positive ]})
    {[ 1%positive := mk_node wit_data None ]}
    {[ 3 := 1%positive ]} {[ mk_ue_ip 5 ipv6_zero := 1%positive ]}
    (mk_tbl {[ 1%positive := mk_node wit_session None ]} {[ 9 := 1%positive ]})
    (mk_rings {[ 1%positive := [Some 5%positive; Some 6%positive] ]} [2%positive; 1%positive] []) [].

(** A list of a closed heap, node by node. *)
Ltac closed_list := cbn; repeat (split; [reflexivity|]; eexists; split; [vm_compute; reflexivity|]); reflexivity.

(** ** Lemmas *)

Section Deletes.
Context {K A : Type} `{Countable K}.
Implicit Types (m : gmap K A) (ks : list K).

Lemma deletes_app ks ks' m : deletes (ks ++ ks') m = deletes ks' (deletes ks m).
Proof. apply foldl_app. Qed.

Lemma deletes_cons k ks m : deletes (k :: ks) m = deletes ks (delete k m).
Proof. done. Qed.

Lemma lookup_deletes_notin ks m k : k ∉ ks -> deletes ks m !! k = m !! k.
Proof.
  revert m; induction ks as [|k' ks IH]; intros m Hk; [done|].
  apply not_elem_of_cons in Hk as [Hne Hk]. rewrite deletes_cons, IH by done.
  by apply lookup_delete_ne.
Qed.

Lemma lookup_deletes_in ks m k : k ∈ ks -> deletes ks m !! k = None.
Proof.
  revert m; induction ks as [|k' ks IH]; intros m Hk; [by apply not_elem_of_nil in Hk|].
  rewrite deletes_cons. destruct (decide (k ∈ ks)) as [Hin|Hin]; [by apply IH|].
  apply elem_of_cons in Hk as [->|?]; [|done].
  rewrite lookup_deletes_notin by done. apply lookup_delete_eq.
Qed.
End Deletes.

Lemma is_list_deletes {V} (h : heap V) p xs ks :
  is_list h p xs -> (forall l, l ∈ xs.*1 -> l ∉ ks) -> is_list (deletes ks h) p xs.
Proof.
  intros Hl Hd. eapply lseg_frame; [|exact Hl]. intros l Hin.
  apply lookup_deletes_notin; auto.
Qed.

Section DeleteLemmas.
Context (ip : peer_addr_t) (seid : Z).
Local Abbreviation key i := (hash_key ip seid i).

Lemma cleanup_qers_list fuel t head xs :
  is_list (nodes t) head xs -> (length xs < fuel)%nat ->
  cleanup_qers fuel t head ip seid = Some (shrink_tbl ip seid qer_id xs t, None).
Proof.
  revert fuel t head; induction xs as [|[q x] xs IH]; intros [|fuel] t head Hl Hf; cbn in Hf; try lia.
  - cbn in Hl. subst head. by destruct t.
  - assert (head = Some q) as -> by (by destruct Hl).
    destruct (remove_node_head _ _ _ _ Hl) as (p & E & Hr & Hl').
    cbn [cleanup_qers]. rewrite E. cbn [option_bind mbind option_ret val]. unfold remove_qer_node.
    rewrite Hr. cbn [mbind option_bind del_qer_info_entry del_entry nodes hash].
    rewrite (IH fuel); [done|exact Hl'|lia].
Qed.

Lemma cleanup_urrs_list fuel t head xs :
  is_list (nodes t) head xs -> (length xs <= 1)%nat -> (length xs < fuel)%nat ->
  cleanup_urrs fuel t head ip seid = Some (shrink_tbl ip seid urr_id xs t, None).
Proof.
  intros Hl Hx Hf. destruct xs as [|[u x] [|]]; cbn in Hx, Hf; [| |lia].
  - destruct fuel; [lia|]. cbn in Hl. subst head. by destruct t.
  - assert (head = Some u) as -> by (by destruct Hl).
    destruct (remove_urr_head _ _ _ _ Hl) as (p & E & Hr & Hl').
    destruct fuel as [|[|fuel]]; [lia..|].
    cbn [cleanup_urrs]. rewrite E. cbn [option_bind mbind val]. rewrite Hr.
    cbn. done.
Qed.

Lemma read_urrs_list h p xs n :
  is_list h p xs -> (length xs <= 1)%nat -> (Z.to_nat n <= length xs)%nat ->
  read_urrs h p n = Some ().
Proof.
  intros Hl Hx Hn. unfold read_urrs. destruct (Z.to_nat n) as [|[|k]]; [done| |lia].
  destruct xs as [|[u x] xs]; [cbn in Hn; lia|]. destruct Hl as (-> & p' & E & _).
  cbn. by rewrite E.
Qed.

Lemma write_lookup {V} (h : heap V) l v q f :
  h !! l = Some (mk_node v q) -> write h l f = Some (<[l := mk_node (f v) q]> h).
Proof. unfold write. by intros ->. Qed.

Lemma is_list_head_write {V} (h : heap V) l v v' q xs :
  h !! l = Some (mk_node v q) -> is_list h (Some l) ((l, v) :: xs) ->
  is_list (<[l := mk_node v' q]> h) (Some l) ((l, v') :: xs).
Proof.
  intros E Hl. pose proof (is_list_NoDup _ _ _ Hl) as [Hn _]%NoDup_cons.
  destruct Hl as (_ & p & E' & Hl). rewrite E in E'. injection E' as ->.
  split; [done|]. exists p. split; [apply lookup_insert_eq|].
  eapply lseg_frame; [|exact Hl]. intros m Hm. apply lookup_insert_ne. by intros ->.
Qed.

Lemma drain_ring_frees fuel ring freed :
  (length ring < fuel)%nat -> drain_ring fuel ring freed = Some (freed ++ omap id ring).
Proof.
  revert ring freed. induction fuel as [|fuel IH]; intros ring freed Hl; [lia|]. cbn [drain_ring].
  destruct ring as [|m ring]; [done|].
  assert (take MAX_BURST_SZ (m :: ring) = m :: take 63 ring) as E by done. rewrite E, IH.
  - rewrite <- E, <- app_assoc. do 2 f_equal. rewrite <- omap_app. by rewrite take_drop.
  - rewrite length_drop. unfold MAX_BURST_SZ. cbn [length] in *. lia.
Qed.

Lemma delete_ring_some s r :
  is_Some (dl_rings (up_rings s) !! r) ->
  delete_ring s (Some r) = Some (set_rings s (shrink_rings (up_rings s) [r])).
Proof.
  intros [pkts E]. unfold delete_ring. rewrite E. cbn [mbind option_bind].
  rewrite drain_ring_frees by lia. cbn [mbind option_bind]. unfold shrink_rings. cbn [deletes foldl length].
  rewrite bind_cons. cbn [mbind list_bind]. rewrite E, app_nil_r. cbn [default from_option id]. do 3 f_equal.

Qed.

Lemma shrink_rings_nil rs : shrink_rings rs [] = rs.
Proof. destruct rs. unfold shrink_rings. cbn. by rewrite app_nil_r. Qed.

Lemma shrink_rings_app rs ls ls' :
  NoDup (ls ++ ls') -> shrink_rings (shrink_rings rs ls) ls' = shrink_rings rs (ls ++ ls').
Proof.
  intros Hn. apply NoDup_app in Hn as (_ & Hn & _). unfold shrink_rings. cbn [dl_rings dl_ring_container freed_pkts].
  rewrite deletes_app, drop_drop, length_app, bind_app, <- app_assoc. do 3 f_equal.
  clear -Hn. induction ls' as [|l ls' IH]; [done|]. rewrite !bind_cons. f_equal.
  - rewrite lookup_deletes_notin; [done|]. intros Hin. by apply (Hn l Hin); left.
  - apply IH. intros k Hk Hin. apply (Hn k Hk). by right.
Qed.

Lemma delete_far_desc s d :
  desc_ok ip seid s d ->
  delete_far s (far (pd_info d)) ip seid
  = Some (set_stale (stale_reads s ++ (d_fars d).*1)
      (set_fars s (shrink_tbl ip seid (fun f => u16 (far_id_value f)) (d_fars d) (far_by_id s)))).
Proof.
  intros (Hf & Hfar & _). rewrite Hf. unfold d_fars. destruct (pd_far d) as [[f x]|]; cbn.
  - destruct (Hfar f x eq_refl) as [E1 E2]. rewrite E1. cbn. unfold del_far_info_entry.
    rewrite E2. unfold rte_free. rewrite E1. cbn [mbind option_bind nodes]. by rewrite lookup_delete_eq.
  - f_equal. destruct s as [? [] ? ? ? ? ? ? ? ?]. unfold set_stale. cbn. by rewrite app_nil_r.
Qed.

Lemma set_pdrs_id s : set_pdrs s (mk_tbl (nodes (pdr_by_id s)) (hash (pdr_by_id s))) = s.
Proof. by destruct s as [[] ?]. Qed.

Lemma set_qers_shrink_nil s : set_qers s (shrink_tbl ip seid qer_id [] (qer_by_id s)) = s.
Proof. by destruct s as [? ? [] ?]. Qed.

(** The QER step of [delete_pdr], after which the PDR has some [quer]. *)
Lemma delete_qers_desc s d q' :
  is_list (nodes (qer_by_id s)) (quer (pd_info d)) (pd_qers d) ->
  nodes (pdr_by_id s) !! pd_loc d = Some (mk_node (pd_info d) q') ->
  exists v, (if decide (predef_rules_count (pd_info d) = 0) then
    '(t, q) ← cleanup_qers (fuel_of (nodes (qer_by_id s))) (qer_by_id s) (quer (pd_info d)) ip seid;
    pdr_write (set_qers s t) (pd_loc d) (with_quer q)
  else Some s)
  = Some (set_pdrs (set_qers s (shrink_tbl ip seid qer_id (d_qers d) (qer_by_id s)))
      (mk_tbl (<[pd_loc d := mk_node v q']> (nodes (pdr_by_id s))) (hash (pdr_by_id s)))).
Proof.
  intros Hl E. unfold d_qers. destruct (decide (predef_rules_count (pd_info d) = 0)).
  - erewrite cleanup_qers_list; [|exact Hl|by eapply is_list_fuel]. cbn [mbind option_bind].
    eexists. unfold pdr_write. erewrite write_lookup by exact E. done.
  - exists (pd_info d). rewrite set_qers_shrink_nil, insert_id by done. by rewrite set_pdrs_id.
Qed.

Lemma delete_pdr_list s d head rest :
  is_list (nodes (pdr_by_id s)) head (d_pdr d :: rest) -> desc_ok ip seid s d ->
  exists p, delete_pdr s (pd_loc d) head ip seid = Some (shrink ip seid s [d], p)
    /\ is_list (nodes (pdr_by_id (shrink ip seid s [d]))) p rest.
Proof.
  intros Hl Hd. pose proof Hd as (_ & _ & Hq & Hu & Hu1 & Hc).
  assert (head = Some (pd_loc d)) as -> by (by destruct Hl).
  pose proof Hl as (_ & q' & E & _).
  unfold delete_pdr. rewrite E. cbn [mbind option_bind val].
  erewrite read_urrs_list by done. cbn [mbind option_bind].
  rewrite delete_far_desc by done. cbn [mbind option_bind].
  set (s1 := set_stale _ _).
  destruct (delete_qers_desc s1 d q' Hq E) as [v1 ->]. cbn [mbind option_bind].
  cbn [urr_by_id set_pdrs set_qers set_fars set_stale s1].
  erewrite cleanup_urrs_list; [|exact Hu|done|by eapply is_list_fuel]. cbn [mbind option_bind].
  set (h1 := <[pd_loc d := mk_node v1 q']> (nodes (pdr_by_id s))).
  assert (h1 !! pd_loc d = Some (mk_node v1 q')) as E1 by apply lookup_insert_eq.
  unfold pdr_write. cbn [nodes pdr_by_id set_pdrs set_urrs].
  erewrite write_lookup by exact E1. cbn [mbind option_bind nodes pdr_by_id set_pdrs hash].
  assert (is_list (<[pd_loc d := mk_node (with_urr None v1) q']> h1) (Some (pd_loc d))
            ((pd_loc d, with_urr None v1) :: rest)) as Hl2.
  { eapply is_list_head_write; [exact E1|]. eapply is_list_head_write; [exact E|exact Hl]. }
  destruct (remove_node_head _ _ _ _ Hl2) as (p & _ & Hr & Hl3). unfold remove_pdr_node.
  cbn [nodes hash pdr_by_id set_pdrs set_urrs set_qers set_fars set_stale s1]. fold h1.
  rewrite Hr. cbn [mbind option_bind del_pdr_info_entry del_entry nodes hash].
  unfold h1 in *. rewrite !delete_insert_eq in *. exists p. split; [|exact Hl3].
  unfold shrink. cbn [mbind list_bind]. rewrite !app_nil_r. done.
Qed.

Lemma shrink_app s ds ds' : shrink ip seid s (ds ++ ds') = shrink ip seid (shrink ip seid s ds) ds'.
Proof.
  unfold shrink, shrink_tbl. cbn.
  rewrite !bind_app, !fmap_app, !deletes_app, <- app_assoc. done.
Qed.

Lemma shrink_nil s : shrink ip seid s [] = s.
Proof. destruct s as [[] [] [] [] ? ? ? ? ? ?]. unfold shrink. cbn. by rewrite app_nil_r. Qed.

Lemma separate_sym d d' : separate d d' -> separate d' d.
Proof.
  intros (Hn & Hf & Hq & Hu). split; [congruence|].
  split; [|split]; intros l H1 H2; [by eapply Hf|by eapply Hq|by eapply Hu].
Qed.

Lemma unshared_app ds ds' :
  unshared (ds ++ ds') <->
  unshared ds /\ unshared ds' /\ Forall (fun d => Forall (separate d) ds') ds.
Proof.
  induction ds as [|d ds IH]; cbn.
  - split; [intros ?; repeat split; [done|constructor]|by intros (_ & ? & _)].
  - rewrite IH, Forall_app, Forall_cons. tauto.
Qed.

(** A node of a PDR that is separate from all of [ds] is not removed with them. *)
Lemma notin_bind {A} (g : pdr_desc -> list (loc * A)) l ds :
  Forall (fun d' => l ∉ (g d').*1) ds -> l ∉ (ds ≫= g).*1.
Proof.
  intros Hall (x & -> & (d' & Hx & Hd')%list_elem_of_bind)%list_elem_of_fmap.
  rewrite Forall_forall in Hall. apply (Hall d' Hd'). by apply list_elem_of_fmap_2.
Qed.

Lemma d_qers_sub d l : l ∈ (d_qers d).*1 -> l ∈ (pd_qers d).*1.
Proof. unfold d_qers. case_decide; [done|by intros ?%not_elem_of_nil]. Qed.

Lemma desc_ok_shrink s d ds :
  desc_ok ip seid s d -> Forall (desc_ok ip seid s) ds -> Forall (separate d) ds ->
  desc_ok ip seid (shrink ip seid s ds) d.
Proof.
  intros (Hf & Hfar & Hq & Hu & Hu1 & Hc) Hds Hsep.
  split; [done|]. split; [|split; [|split; [|done]]].
  - intros f x E. destruct (Hfar f x E) as [E1 E2].
    assert (f ∈ (d_fars d).*1) as Hin by (unfold d_fars; rewrite E; cbn; constructor).
    cbn. rewrite lookup_deletes_notin.
    2: { apply notin_bind. eapply Forall_impl; [exact Hsep|]. cbn. intros d' (_ & Hd & _). auto. }
    split; [done|]. rewrite lookup_deletes_notin; [done|].
    intros ([g y] & Ek & (d' & Hin' & Hd')%list_elem_of_bind)%list_elem_of_fmap. cbn in Ek.
    rewrite Forall_forall in Hds, Hsep. destruct (Hds d' Hd') as (_ & Hfar' & _).
    destruct (Hsep d' Hd') as (_ & Hn & _). apply (Hn f Hin).
    unfold d_fars in *. destruct (pd_far d') as [gy|] eqn:E'; cbn in Hin'; [|by apply not_elem_of_nil in Hin'].
    apply list_elem_of_singleton in Hin'. subst gy. destruct (Hfar' g y eq_refl) as [_ E3].
    rewrite <- Ek, E2 in E3. injection E3 as ->. cbn. constructor.
  - cbn. apply is_list_deletes; [done|]. intros l Hl. apply notin_bind.
    eapply Forall_impl; [exact Hsep|]. cbn. intros d' (_ & _ & Hd & _) ?%d_qers_sub. by eapply Hd.
  - cbn. apply is_list_deletes; [done|]. intros l Hl. apply notin_bind.
    eapply Forall_impl; [exact Hsep|]. cbn. intros d' (_ & _ & _ & Hd). auto.
Qed.

Lemma desc_ok_shrink_all s ds ds' :
  Forall (desc_ok ip seid s) ds -> Forall (desc_ok ip seid s) ds' ->
  Forall (fun d => Forall (separate d) ds') ds ->
  Forall (desc_ok ip seid (shrink ip seid s ds)) ds'.
Proof.
  rewrite !Forall_forall. intros H1 H2 H3 d Hd. apply desc_ok_shrink; [auto| |].
  - by apply Forall_forall.
  - apply Forall_forall. intros d' Hd'. apply separate_sym. specialize (H3 d' Hd').
    rewrite Forall_forall in H3. auto.
Qed.

Lemma delete_pdrs_list fuel s head ds :
  is_list (nodes (pdr_by_id s)) head (d_pdr <$> ds) -> Forall (desc_ok ip seid s) ds ->
  unshared ds -> (length ds < fuel)%nat ->
  delete_pdrs fuel s head ip seid = Some (shrink ip seid s ds, None).
Proof.
  revert fuel s head; induction ds as [|d ds IH]; intros [|fuel] s head Hl Hok Hu Hf; cbn in Hf; try lia.
  - cbn in Hl. subst head. by rewrite shrink_nil.
  - apply Forall_cons in Hok as [Hd Hok]. destruct Hu as [Hsep Hu].
    destruct (delete_pdr_list s d head _ Hl Hd) as (p & Hr & Hl').
    assert (head = Some (pd_loc d)) as -> by (by destruct Hl).
    cbn [delete_pdrs]. rewrite Hr. cbn [mbind option_bind].
    rewrite (IH fuel); [|done| |done|lia].
    + change (d :: ds) with ([d] ++ ds). by rewrite shrink_app.
    + apply desc_ok_shrink_all; [by constructor|done|by constructor].
Qed.

Lemma shrink_set_rings s r ds : shrink ip seid (set_rings s r) ds = set_rings (shrink ip seid s ds) r.
Proof. done. Qed.

Lemma shrink_set_data s h ds : shrink ip seid (set_data s h) ds = set_data (shrink ip seid s ds) h.
Proof. done. Qed.

(** The session data behind the first one, after that one is deleted. *)
Lemma sess_ok_tail s head d x ds xs h p :
  sess_ok ip seid s head ((d, x, ds) :: xs) -> is_list h p (fst <$> xs) ->
  forall r, sess_ok ip seid (set_data (set_rings (shrink ip seid s ds) r) h) p xs.
Proof.
  intros (_ & [[_ Hds] Hxs]%Forall_cons & (_ & Hu & Hsep)%unshared_app) Hl r.
  cbn in Hds, Hsep. split; [done|]. split; [|done].
  rewrite Forall_forall in Hxs. apply Forall_forall. intros y Hy.
  destruct (Hxs y Hy) as [Hp Hok].
  assert (Forall (fun d' => Forall (separate d') y.2) ds) as Hsy.
  { eapply Forall_impl; [exact Hsep|]. cbn. intros d' Hd'. rewrite Forall_forall in Hd'.
    apply Forall_forall. intros e He. apply Hd'. apply list_elem_of_bind. eauto. }
  split; [|by apply (desc_ok_shrink_all s ds)].
  cbn. apply is_list_deletes; [done|]. intros l Hl1 Hl2.
  apply list_elem_of_fmap in Hl1 as (a1 & -> & (e & -> & He)%list_elem_of_fmap).
  apply list_elem_of_fmap in Hl2 as (a2 & E & (e' & -> & He')%list_elem_of_fmap).
  rewrite Forall_forall in Hsy. specialize (Hsy e' He'). rewrite Forall_forall in Hsy.
  destruct (Hsy e He) as [Hn _]. apply Hn. by cbn in E.
Qed.

Lemma delete_ring_head s d x (xs : list (loc * sess_data * list pdr_desc)) :
  rings_ok s (rings_of ((d, x) :: (fst <$> xs))) ->
  let rs := shrink_rings (up_rings s) (option_list (dl_ring x)) in
  delete_ring s (dl_ring x) = Some (set_rings s rs) /\
  (forall s', up_rings s' = rs -> rings_ok s' (rings_of (fst <$> xs))) /\
  shrink_rings rs (rings_of (fst <$> xs)) = shrink_rings (up_rings s) (rings_of ((d, x) :: (fst <$> xs))).
Proof.
  unfold rings_ok, rings_of. cbn [omap list_omap snd]. destruct (dl_ring x) as [r|]; cbn [option_list].
  - intros [Hn Hr]. pose proof Hn as [Hnin Hn']%NoDup_cons. split; [apply delete_ring_some, Hr; by left|].
    split; [|by rewrite shrink_rings_app]. intros s' ->. split; [done|]. intros k Hk. cbn [shrink_rings dl_rings deletes foldl].
    change (is_Some (delete r (dl_rings (up_rings s)) !! k)).
    rewrite lookup_delete_ne; [apply Hr; by right|]. by intros ->.
  - intros [Hn Hr]. rewrite shrink_rings_nil. split; [by destruct s|]. split; [|done]. intros s' ->. done.
Qed.

Lemma delete_sessions_list fuel s head xs ips :
  sess_ok ip seid s head xs -> rings_ok s (rings_of (fst <$> xs)) -> (length xs < fuel)%nat ->
  (length ips + length xs <= MAX_BEARERS)%nat ->
  delete_sessions fuel s head ips ip seid
  = Some (set_data (set_rings (shrink ip seid s (xs ≫= snd)) (shrink_rings (up_rings s) (rings_of (fst <$> xs))))
            (deletes (fst <$> xs).*1 (data_nodes s)),
          ips ++ ue_ips (fst <$> xs)).
Proof.
  revert fuel s head ips; induction xs as [|[[d x] ds] xs IH]; intros [|fuel] s head ips Hok Hrok Hf Hi;
    cbn in Hf, Hi; try lia.
  - destruct Hok as [Hl _]. cbn in Hl. subst head. cbn [delete_sessions mbind list_bind].
    rewrite shrink_nil, app_nil_r. cbn. rewrite shrink_rings_nil. by destruct s.
  - pose proof Hok as (Hl & [[Hp Hds] _]%Forall_cons & (Hu & _)%unshared_app).
    cbn [fst snd] in Hp, Hds.
    assert (head = Some d) as -> by (by destruct Hl).
    destruct (remove_node_head _ _ _ _ Hl) as (q & E & _ & _).
    cbn [delete_sessions]. rewrite E. cbn [mbind option_bind val].
    destruct (delete_ring_head s d x xs Hrok) as (-> & Hrok' & Ers). cbn [mbind option_bind].
    set (s1 := set_rings s _). change (nodes (pdr_by_id s1)) with (nodes (pdr_by_id s)).
    erewrite (delete_pdrs_list _ s1); [|exact Hp|exact Hds|exact Hu|].
    2: { rewrite <- (length_fmap d_pdr). by eapply is_list_fuel. }
    cbn [mbind option_bind data_nodes shrink]. change (data_nodes s1) with (data_nodes s). erewrite write_lookup by exact E.
    cbn [mbind option_bind].
    set (x' := mk_data _ _ _ _ _ _).
    pose proof (is_list_head_write _ _ _ x' _ _ E Hl) as Hl'.
    destruct (remove_node_head _ _ _ _ Hl') as (p & _ & Hr & Hl2). rewrite delete_insert_eq in *.
    assert (forall k : list (Z * list byte) -> option (up_state * list (Z * list byte)),
      ((if decide (sd_ipv4 x <> 0 \/ sd_ipv6 x <> 0) then
          if decide (length ips < MAX_BEARERS)%nat then Some (ips ++ [(ue_ip_addr x, ue_ipv6_addr x)]) else None
        else Some ips) ≫= k) = k (ips ++ ue_ips [(d, x)])) as ->.
    { intros k. unfold ue_ips. rewrite filter_cons. cbn [snd]. case_decide.
      - rewrite decide_True by lia. done.
      - cbn. by rewrite app_nil_r. }
    unfold remove_sess_data_node. rewrite Hr. cbn [mbind option_bind].
    unfold s1. rewrite shrink_set_rings, (IH fuel); [|by eapply sess_ok_tail|by apply Hrok'|lia|].
    2: { rewrite length_app. unfold ue_ips. rewrite length_fmap, filter_cons. cbn. case_decide; cbn; lia. }
    rewrite shrink_set_data, shrink_set_rings, bind_cons, shrink_app, <- app_assoc. cbn [snd data_nodes set_data set_rings up_rings].
    rewrite fmap_cons, fmap_cons, deletes_cons. do 2 f_equal.
    + cbn [fst]. by rewrite <- Ers.
    + unfold ue_ips. rewrite <- fmap_app, <- filter_app. done.
Qed.

Lemma cleared_shrink_tbl {V} (id : V -> Z) xs t : cleared ip seid id xs t (shrink_tbl ip seid id xs t).
Proof.
  split; [|split].
  - intros l v Hin. split; apply lookup_deletes_in.
    + apply list_elem_of_fmap. by exists (l, v).
    + apply list_elem_of_fmap. by exists (l, v).
  - intros l Hl. by apply lookup_deletes_notin.
  - intros k Hk. by apply lookup_deletes_notin.
Qed.
End DeleteLemmas.

Lemma lookup_delete_teids m ts n t :
  t <> 0 -> delete_teids m ts n !! t = (if decide (t ∈ take (Z.to_nat n) ts) then None else m !! t).
Proof.
  intros Ht. unfold delete_teids. generalize (take (Z.to_nat n) ts) as us. clear ts n.
  intros us. revert m. induction us as [|u us IH]; intros m; [by rewrite decide_False by apply not_elem_of_nil|].
  cbn [foldl]. rewrite IH. destruct (decide (t ∈ us)) as [Hin|Hin].
  - rewrite decide_True; [done|]. by apply elem_of_cons; right.
  - destruct (decide (u = 0)) as [->|Hu].
    + rewrite decide_False; [done|]. by intros [->|?]%elem_of_cons.
    + destruct (decide (u = t)) as [->|Hne].
      * rewrite decide_True by constructor. apply lookup_delete_eq.
      * rewrite decide_False by (intros [->|?]%elem_of_cons; done). by apply lookup_delete_ne.
Qed.

Lemma delete_ueips_mono m ips k : m !! k = None -> delete_ueips m ips !! k = None.
Proof.
  unfold delete_ueips. revert m; induction ips as [|[v4 v6] ips IH]; intros m Hm; [done|].
  cbn [foldl]. apply IH.
  assert (forall m' k' : _, (m' : gmap ue_ip_t loc) !! k = None -> delete k' m' !! k = None) as Hd.
  { intros m' k' ?. by apply lookup_delete_None; right. }
  apply Hd. case_decide; [done|by apply Hd].
Qed.

Lemma lookup_delete_ueips m ips v4 v6 :
  (v4, v6) ∈ ips ->
  (v4 <> 0 -> delete_ueips m ips !! mk_ue_ip v4 ipv6_zero = None) /\
  delete_ueips m ips !! mk_ue_ip 0 v6 = None.
Proof.
  revert m; induction ips as [|[a b] ips IH]; intros m; [by intros ?%not_elem_of_nil|].
  intros [[= <- <-]|Hin]%elem_of_cons; [|unfold delete_ueips; cbn [foldl]; by apply IH].
  unfold delete_ueips; cbn [foldl]. split.
  - intros Hv. apply delete_ueips_mono. rewrite decide_False by done.
    apply lookup_delete_None. right. apply lookup_delete_eq.
  - apply delete_ueips_mono, lookup_delete_eq.
Qed.

(** ** Creating entries *)

Lemma create_node_list {K V} `{Countable K} (t : tbl K V) head xs (k : K) l zero fill :
  is_list (nodes t) head xs -> nodes t !! l = None ->
  exists t' head', create_node t head k (Some l) 0 zero fill = Some (t', head', Some l)
    /\ is_list (nodes t') head' (xs ++ [(l, fill zero)])
    /\ hash t' = <[k := l]> (hash t)
    /\ agree_off (l :: xs.*1) (nodes t) (nodes t').
Proof.
  intros Hl Hn. unfold create_node. rewrite decide_True by done.
  erewrite write_lookup by apply lookup_insert_eq. rewrite insert_insert_eq. cbn [mbind option_bind val].
  set (h := <[l := mk_node (fill zero) None]> (nodes t)).
  assert (h !! l = Some (mk_node (fill zero) None)) as E by apply lookup_insert_eq.
  assert (l ∉ xs.*1) as Hnl.
  { intros ([? v] & -> & Hx)%list_elem_of_fmap. destruct (lseg_in _ _ _ _ _ _ Hl Hx) as [? Eq].
    cbn in Hn. congruence. }
  assert (is_list h head xs) as Hl1.
  { eapply lseg_frame; [|exact Hl]. intros m Hm. apply lookup_insert_ne. by intros ->. }
  destruct head as [hd|].
  - destruct (insert_node_list h hd xs l _ _ Hl1 E Hnl) as (h' & Hi & Hl2 & Hag & _).
    rewrite Hi. cbn [mbind option_bind]. do 2 eexists. split; [done|].
    split; [exact Hl2|]. split; [done|].
    intros m Hm. cbn [nodes]. rewrite Hag by done. apply lookup_insert_ne.
    apply not_elem_of_cons in Hm as [? _]. done.
  - assert (xs = []) as -> by (by destruct xs as [|[??] ?]; [|destruct Hl]).
    unfold insert_node. erewrite set_next_lookup by exact E. cbn [mbind option_bind].
    do 2 eexists. split; [done|]. unfold h. rewrite insert_insert_eq. split; [|split; [done|]].
    + split; [done|]. exists None. split; [apply lookup_insert_eq|done].
    + intros m Hm. apply not_elem_of_cons in Hm as [? _]. by apply lookup_insert_ne.
Qed.

Lemma create_node_fails {K V} `{Countable K} (t : tbl K V) head (k : K) l ret zero fill :
  nodes t !! l = None -> ret <> 0 ->
  create_node t head k (Some l) ret zero fill = Some (t, head, None).
Proof.
  intros Hn Hr. unfold create_node. rewrite decide_False by done. unfold rte_free.
  rewrite lookup_insert_eq. cbn. rewrite delete_insert_id by done. by destruct t.
Qed.

(** ** The id of a session, and the second rule of a PDR *)

Lemma gen_up_sess_id_value x :
  0 <= x < 2 ^ 64 -> gen_up_sess_id x = (x / 2 ^ 32 + 1) mod 2 ^ 32 * 2 ^ 32 + x mod 2 ^ 28.
Proof.
  intros Hx. unfold gen_up_sess_id. change 0xfffffff with (2 ^ 28 - 1).
  rewrite land_mask, Z.shiftr_div_pow2, Z.shiftl_mul_pow2 by lia.
  assert (u64 (u64 (x / 2 ^ 32 + 1) * 2 ^ 32) = (x / 2 ^ 32 + 1) mod 2 ^ 32 * 2 ^ 32) as ->.
  { unfold wrap. revert Hx. pow2. intros Hx. zdiv. }
  rewrite Z.lor_comm, lor_disjoint; [lia|lia|].
  pose proof (Z.mod_pos_bound x (2 ^ 28)). revert Hx. pow2. intros. zdiv.
Qed.

(** One iteration of a linking loop, up to the test of the return code. *)
Ltac link_step s p :=
  destruct (nodes (pdr_by_id s) !! p); [cbn [mbind option_bind]|done];
  match goal with |- context [?add ≫= _] => destruct add as [[[? ?q] ?]|]; [cbn [mbind option_bind]|done] end;
  destruct (pdr_write _ _ _); [cbn [mbind option_bind]|done];
  case_decide; [|congruence].

Section LinkTwo.
Context (ip : peer_addr_t) (seid : Z) (p : loc).

Lemma link_qers_past s i r rs s' : link_qers ip seid p s (S i) (r :: rs) <> Some (s', 0).
Proof. cbn [link_qers]. by link_step s p. Qed.

Lemma link_urrs_past s i r rs s' : link_urrs ip seid p s (S i) (r :: rs) <> Some (s', 0).
Proof. cbn [link_urrs]. by link_step s p. Qed.

Lemma link_qers_two s r1 r2 rs s' : link_qers ip seid p s 0 (r1 :: r2 :: rs) <> Some (s', 0).
Proof.
  cbn [link_qers]. link_step s p. destruct (elem q 0); [|done]. cbn [mbind option_bind].
  destruct (write _ _ _); [|done]. apply link_qers_past.
Qed.

Lemma link_urrs_two s r1 r2 rs s' : link_urrs ip seid p s 0 (r1 :: r2 :: rs) <> Some (s', 0).
Proof.
  cbn [link_urrs]. link_step s p. destruct (elem q 0); [|done]. cbn [mbind option_bind].
  destruct (write _ _ _); [|done]. apply link_urrs_past.
Qed.
End LinkTwo.

(** ** Theorems *)

(** A PDR entry that is absent is created for a session establishment:
    the zeroed PDR with its id is appended to the list of the session data
    (which becomes the list when there was none), is the entry of its key from
    then on, whatever the mode and the allocator, and no other node or entry is
    touched; a failed allocation or insertion, and any other mode, change
    nothing; deleting the entry leaves the node on its list. *)
Theorem get_pdr_info_entry_creates t id head ip seid xs l :
  is_list (nodes t) head xs -> hash t !! hash_key ip seid id = None -> nodes t !! l = None ->
  (exists t' head',
     get_pdr_info_entry t id head SESS_CREATE ip seid (Some l) 0 = Some (t', head', Some l)
     /\ is_list (nodes t') head' (xs ++ [(l, mk_pdr id 0 None 0 None 0 None 0)])
     /\ agree_off (l :: xs.*1) (nodes t) (nodes t')
     /\ hash t' = <[hash_key ip seid id := l]> (hash t)
     /\ (forall is_add z ret, get_pdr_info_entry t' id head' is_add ip seid z ret = Some (t', head', Some l))
     /\ (0 <= id < 2 ^ 16 -> del_pdr_info_entry t' id ip seid = (mk_tbl (nodes t') (hash t), 0)))
  /\ (forall ret, ret <> 0 ->
     get_pdr_info_entry t id head SESS_CREATE ip seid (Some l) ret = Some (t, head, None))
  /\ (forall ret, get_pdr_info_entry t id head SESS_CREATE ip seid None ret = Some (t, head, None))
  /\ (forall is_add z ret, is_add <> SESS_CREATE ->
     get_pdr_info_entry t id head is_add ip seid z ret = Some (t, head, None)).
Proof.
  intros Hl Hk Hn. unfold get_pdr_info_entry at 1 3 4 5, get_or_create. rewrite Hk. cbn match.
  split; [|split; [|split]].
  - rewrite decide_True by done.
    destruct (create_node_list t head xs (hash_key ip seid id) l zero_pdr
      (fun p => mk_pdr id (prcdnc_val p) (far p) (qer_count p) (quer p) (urr_count p) (urr p) (predef_rules_count p)) Hl Hn)
      as (t' & head' & Hc & Hl' & Hh & Hag).
    exists t', head'. split; [exact Hc|]. split; [exact Hl'|]. split; [exact Hag|]. split; [exact Hh|].
    split.
    + intros. unfold get_pdr_info_entry, get_or_create. by rewrite Hh, lookup_insert_eq.
    + intros Hid. unfold del_pdr_info_entry, del_entry. rewrite wrap_small, Hh by done.
      by rewrite delete_insert_id.
  - intros ret Hr. rewrite decide_True by done. by apply create_node_fails.
  - intros ret. by rewrite decide_True by done.
  - intros is_add z ret Hm. by rewrite decide_False by done.
Qed.

(** C38. Deleting a session whose PDRs share no FAR, QER or URR, and whose session
    data have different rings, succeeds: it frees every session data, PDR, FAR,
    QER and URR of the session, every ring of waiting packets and the packets in
    it, removes their entries from the tables, and the entries of its TEIDs and
    UE addresses and of the session itself, and touches no other node, rule
    entry or ring.  (The QERs of a PDR with predefined rules are not removed.)
    Every loop ends.  It reads each FAR's id after it freed the FAR, for a log
    line, and for each ring the oldest ring of the container is lost, whichever
    session it belongs to. *)
Theorem up_delete_session_entry_frees s sess c q xs :
  nodes (sess_ctx s) !! sess = Some (mk_node c q) ->
  sess_ok (cp_ip c) (cp_seid c) s (sessions c) xs -> rings_ok s (rings_of (session_data xs)) ->
  (length xs <= MAX_BEARERS)%nat ->
  exists s', up_delete_session_entry s sess = Some (s', 0)
    /\ cleared (cp_ip c) (cp_seid c) (fun p => u16 (rule_id p)) (d_pdr <$> session_pdrs xs) (pdr_by_id s) (pdr_by_id s')
    /\ cleared (cp_ip c) (cp_seid c) (fun f => u16 (far_id_value f)) (session_pdrs xs ≫= d_fars) (far_by_id s) (far_by_id s')
    /\ cleared (cp_ip c) (cp_seid c) qer_id (session_pdrs xs ≫= d_qers) (qer_by_id s) (qer_by_id s')
    /\ cleared (cp_ip c) (cp_seid c) urr_id (session_pdrs xs ≫= pd_urrs) (urr_by_id s) (urr_by_id s')
    /\ (forall l, data_nodes s' !! l = if decide (l ∈ (session_data xs).*1) then None else data_nodes s !! l)
    /\ (forall t, t <> 0 -> t ∈ take (Z.to_nat (ber_cnt c)) (teids c) -> sess_by_teid s' !! t = None)
    /\ (forall v4 v6, (v4, v6) ∈ ue_ips (session_data xs) ->
          (v4 <> 0 -> sess_by_ueip s' !! mk_ue_ip v4 ipv6_zero = None) /\ sess_by_ueip s' !! mk_ue_ip 0 v6 = None)
    /\ hash (sess_ctx s') !! up_seid c = None
    /\ (forall r, dl_rings (up_rings s') !! r
                  = if decide (r ∈ rings_of (session_data xs)) then None else dl_rings (up_rings s) !! r)
    /\ freed_pkts (up_rings s') = freed_pkts (up_rings s)
         ++ (rings_of (session_data xs) ≫= fun r => omap id (default [] (dl_rings (up_rings s) !! r)))
    /\ dl_ring_container (up_rings s')
         = drop (length (rings_of (session_data xs))) (dl_ring_container (up_rings s))
    /\ stale_reads s' = stale_reads s ++ (session_pdrs xs ≫= d_fars).*1.
Proof.
  intros Hc Hok Hr Hx. unfold up_delete_session_entry. rewrite Hc. cbn [mbind option_bind val].
  erewrite delete_sessions_list; [|exact Hok|exact Hr| |done].
  2: { rewrite <- (length_fmap fst). eapply is_list_fuel. apply Hok. }
  cbn [mbind option_bind]. cbn [nodes sess_ctx set_teids set_ueips set_data set_rings shrink].
  erewrite write_lookup by exact Hc. cbn [mbind option_bind].
  eexists. split; [done|]. cbn [app].
  split; [apply cleared_shrink_tbl|]. split; [apply cleared_shrink_tbl|].
  split; [apply cleared_shrink_tbl|]. split; [apply cleared_shrink_tbl|].
  split; [|split; [|split; [|split; [|split; [|done]]]]].
  - intros l. cbn. case_decide; [by apply lookup_deletes_in|by apply lookup_deletes_notin].
  - intros t Ht Hin. cbn. rewrite lookup_delete_teids by done. by rewrite decide_True.
  - intros v4 v6 Hin. cbn. by apply lookup_delete_ueips.
  - cbn. apply lookup_delete_eq.
  - intros r. cbn. case_decide; [by apply lookup_deletes_in|by apply lookup_deletes_notin].
Qed.

(** Two PDRs of a session data that share a FAR, as [link_far] sets them
    up, make the deletion read freed memory: the first PDR frees the FAR
    without looking at its [pdr_count] and the second one reads
    [far->far_id_value]. *)
Theorem shared_far_use_after_free s sess c q d x ds_head d1 l2 p2 rest more f y :
  nodes (sess_ctx s) !! sess = Some (mk_node c q) ->
  is_list (data_nodes s) (sessions c) ((d, x) :: more) ->
  pdrs x = ds_head -> is_list (nodes (pdr_by_id s)) ds_head (d_pdr d1 :: (l2, p2) :: rest) ->
  desc_ok (cp_ip c) (cp_seid c) s d1 -> pd_far d1 = Some (f, y) -> far p2 = Some f ->
  rings_ok s (option_list (dl_ring x)) ->
  up_delete_session_entry s sess = None.
Proof.
  intros Hc Hd <- Hl Hok Hf1 Hf2 Hr. unfold up_delete_session_entry. rewrite Hc. cbn [mbind option_bind val].
  assert (sessions c = Some d) as -> by (by destruct Hd).
  destruct Hd as (_ & r & E & _). pose proof (is_list_fuel _ _ _ Hl) as Hfuel. cbn in Hfuel.
  unfold fuel_of at 1. cbn [delete_sessions]. rewrite E. cbn [mbind option_bind val].
  assert (pdrs x = Some (pd_loc d1)) as Hp by (by destruct Hl).
  assert (exists rs, delete_ring s (dl_ring x) = Some (set_rings s rs)) as [rs ->].
  { destruct (dl_ring x) as [ring|]; [|exists (up_rings s); by destruct s]. eexists. apply delete_ring_some, Hr. by left. }
  cbn [mbind option_bind]. set (s1 := set_rings s rs). change (nodes (pdr_by_id s1)) with (nodes (pdr_by_id s)).
  destruct (fuel_of (nodes (pdr_by_id s))) as [|[|n]]; [lia..|].
  cbn [delete_pdrs]. rewrite Hp in *.
  destruct (delete_pdr_list _ _ s1 d1 _ _ Hl Hok) as (p & -> & Hl2).
  assert (p = Some l2) as -> by (by destruct Hl2).
  destruct Hl2 as (_ & r2 & E2 & _). cbn [mbind option_bind].
  assert (delete_pdr (shrink (cp_ip c) (cp_seid c) s1 [d1]) l2 (Some l2) (cp_ip c) (cp_seid c) = None) as ->; [|done].
  unfold delete_pdr. rewrite E2. cbn [mbind option_bind val].
  destruct (read_urrs _ _ _); [|done]. cbn [mbind option_bind]. rewrite Hf2. unfold delete_far.
  assert (nodes (far_by_id (shrink (cp_ip c) (cp_seid c) s1 [d1])) !! f = None) as ->; [|done].
  cbn. apply lookup_deletes_in. unfold d_fars. rewrite Hf1. cbn. constructor.
Qed.

(** A PDR can refer to one QER and one URR: the second id of either kind
    is written to [pdr_t->quer[1]] or [pdr_t->urr[1]], outside the node that
    [quer] or [urr] points to; so linking never completes when the request
    names two QERs, or two URRs, for a PDR. *)
Theorem second_rule_id_out_of_node ip seid p s fr q1 q2 qs u1 u2 us s' :
  link_rules ip seid p s fr (q1 :: q2 :: qs) us <> Some (s', 0) /\
  link_rules ip seid p s fr qs (u1 :: u2 :: us) <> Some (s', 0).
Proof.
  unfold link_rules. split.
  - destruct (match fr with Some _ => _ | None => _ end) as [[s1 r1]|]; [|done]. cbn [mbind option_bind].
    case_decide; [congruence|]. destruct (pdr_write s1 p _) as [s2|]; [|done]. cbn [mbind option_bind].
    destruct (link_qers ip seid p s2 0 (q1 :: q2 :: qs)) as [[s3 r3]|] eqn:E; [|done]. cbn [mbind option_bind].
    case_decide as Hr; [congruence|]. assert (r3 = 0) as -> by lia.
    by apply link_qers_two in E.
  - destruct (match fr with Some _ => _ | None => _ end) as [[s1 r1]|]; [|done]. cbn [mbind option_bind].
    case_decide; [congruence|]. destruct (match qs with [] => _ | _ => _ end) as [s2|]; [|done]. cbn [mbind option_bind].
    destruct (link_qers ip seid p s2 0 qs) as [[s3 r3]|]; [|done]. cbn [mbind option_bind].
    case_decide; [congruence|]. destruct (pdr_write s3 p _) as [s4|]; [|done]. cbn [mbind option_bind].
    intros E. by apply link_urrs_two in E.
Qed.

(** The user-plane session id of a control-plane session id: the lower
    mask has 28 bits, so two control-plane ids get the same user-plane id
    exactly when they agree on bits 32 to 63 and on bits 0 to 27. *)
Theorem gen_up_sess_id_collides x y :
  0 <= x < 2 ^ 64 -> 0 <= y < 2 ^ 64 ->
  gen_up_sess_id x = gen_up_sess_id y <-> x / 2 ^ 32 = y / 2 ^ 32 /\ x mod 2 ^ 28 = y mod 2 ^ 28.
Proof.
  intros Hx Hy. rewrite !gen_up_sess_id_value by done. pow2.
  revert Hx Hy. pow2. intros Hx Hy. zdiv.
Qed.

Lemma get_pdr_info_entry_creates_witness :
  exists t' head',
    get_pdr_info_entry (pdr_by_id (wit_state None)) 3 (Some 1%positive) SESS_CREATE wit_ip 7 (Some 4%positive) 0
      = Some (t', head', Some 4%positive)
    /\ is_list (nodes t') head' ([(1%positive, wit_pdr1); (2%positive, wit_pdr2 None)]
                                 ++ [(4%positive, mk_pdr 3 0 None 0 None 0 None 0)]).
Proof.
  destruct (get_pdr_info_entry_creates (pdr_by_id (wit_state None)) 3 (Some 1%positive) wit_ip 7
    [(1%positive, wit_pdr1); (2%positive, wit_pdr2 None)] 4%positive) as [(t' & head' & H1 & H2 & _) _].
  - closed_list.
  - vm_compute. reflexivity.
  - vm_compute. reflexivity.
  - eauto.
Defined.

Lemma wit_desc1_ok f : desc_ok wit_ip 7 (wit_state f) wit_desc1.
Proof.
  split; [done|]. split; [|split; [|split; [|split]]].
  - intros g x [= <- <-]. by split; vm_compute.
  - closed_list.
  - closed_list.
  - done.
  - done.
Qed.

Lemma wit_rings_ok f : rings_ok (wit_state f) [1%positive].
Proof.
  split; [apply NoDup_singleton|]. intros r ->%list_elem_of_singleton. exists [Some 5%positive; Some 6%positive]. reflexivity.
Qed.

Lemma up_delete_session_entry_frees_witness :
  exists s', up_delete_session_entry (wit_state None) 1%positive = Some (s', 0)
    /\ cleared wit_ip 7 (fun f => u16 (far_id_value f)) [(1%positive, mk_far 1 2)]
         (far_by_id (wit_state None)) (far_by_id s')
    /\ freed_pkts (up_rings s') = [5%positive; 6%positive] /\ stale_reads s' = [1%positive].
Proof.
  destruct (up_delete_session_entry_frees (wit_state None) 1%positive wit_session None
    [((1%positive, wit_data), [wit_desc1; wit_desc2])]) as (s' & H1 & _ & H2 & _ & _ & _ & _ & _ & _ & _ & H3 & _ & H4).
  - vm_compute. reflexivity.
  - split; [closed_list|]. split.
    + constructor; [|constructor]. split; [closed_list|].
      constructor; [apply wit_desc1_ok|constructor; [|constructor]]. split; [done|]. split; [done|].
      split; [closed_list|]. split; [closed_list|]. split; cbn; lia.
    + cbn. split; [|done]. constructor; [|constructor]. split; [done|].
      split; [|split]; intros ? _ ?%not_elem_of_nil; done.
  - apply wit_rings_ok.
  - cbn. unfold MAX_BEARERS. lia.
  - exists s'. split; [exact H1|]. split; [exact H2|]. split; [rewrite H3; vm_compute; reflexivity|rewrite H4; vm_compute; reflexivity].
Defined.

Lemma shared_far_use_after_free_witness :
  up_delete_session_entry (wit_state (Some 1%positive)) 1%positive = None.
Proof.
  eapply (shared_far_use_after_free (wit_state (Some 1%positive)) 1%positive wit_session None
    1%positive wit_data (Some 1%positive) wit_desc1 2%positive (wit_pdr2 (Some 1%positive)) [] []).
  - vm_compute. reflexivity.
  - closed_list.
  - reflexivity.
  - closed_list.
  - apply wit_desc1_ok.
  - reflexivity.
  - reflexivity.
  - apply wit_rings_ok.
Defined.

Lemma gen_up_sess_id_collides_witness :
  gen_up_sess_id 1 = gen_up_sess_id (2 ^ 28 + 1) <->
  1 / 2 ^ 32 = (2 ^ 28 + 1) / 2 ^ 32 /\ 1 mod 2 ^ 28 = (2 ^ 28 + 1) mod 2 ^ 28.
Proof. apply (gen_up_sess_id_collides 1 (2 ^ 28 + 1)); lia. Defined.
