(* ===== verification/SdfText.v ===== *)
(** * Packet filters as text: from the PCRF's flow description to the user plane's rule

    The control plane reads a flow description of Gx into a [sdf_pkt_fltr]
    ([fill_sdf_strctr], pfcp_messages/pfcp_gx.c) and prints it into the flow description of
    PFCP ([sdf_pkt_filter_to_string], pfcp_messages/pfcp_session.c).  The user plane
    exchanges the addresses for uplink rules ([swap_src_dst_ip]) and reads the text as a
    rule of librte_acl ([parse_cb_ipv4vlan_rule], [parse_cb_ipv6_rule], dp/up_acl.c).

    Addresses are arrays of bytes in network order.  [inet_pton], [inet_ntop] and DPDK's
    [rte_strsplit] are parameters. *)

From S2P Require Import Prelude CText.
From Stdlib Require Import Ascii.

(** ** strtoul and strtok_r *)

Definition digit_value (base : Z) (c : ascii) : option Z :=
  let d := if isdigit c then char_code c - 48
           else if islower c then char_code c - 87
           else if isupper c then char_code c - 55 else base in
  if d <? base then Some d else None.

Fixpoint digits_read (base acc : Z) (s : text) : Z * text :=
  match s with
  | [] => (acc, [])
  | c :: s' => match digit_value base c with
               | Some d => digits_read base (acc * base + d) s'
               | None => (acc, s)
               end
  end.

(** A prefix 0x or 0X that a hexadecimal digit follows. *)
Definition hex_prefix (s : text) : option text :=
  match s with
  | "0"%char :: x :: c :: s' =>
      if (bool_decide (x = "x"%char) || bool_decide (x = "X"%char)) && isxdigit c then Some (c :: s') else None
  | _ => None
  end.

(** [strtoul(s, &end, base)] of glibc for base 0 and 16: the value, [end], and whether errno
    is set. Without digits [end] is [s]. *)
Definition strtoul (base : Z) (s : text) : Z * text * bool :=
  let '(neg, s1) := match skip_spaces s with
                    | "-"%char :: s1 => (true, s1)
                    | "+"%char :: s1 => (false, s1)
                    | s1 => (false, s1)
                    end in
  let '(base, s2) := match hex_prefix s1 with
                     | Some s2 => (16, s2)
                     | None => (if base =? 0 then match s1 with "0"%char :: _ => 8 | _ => 10 end else base, s1)
                     end in
  match s2 with
  | c :: _ =>
      match digit_value base c with
      | None => (0, s, false)
      | Some _ =>
          let '(v, rest) := digits_read base 0 s2 in
          if v <? 2 ^ 64 then (if neg then wrap 64 (- v) else v, rest, false) else (2 ^ 64 - 1, rest, true)
      end
  | [] => (0, s, false)
  end.

(** [GET_CB_FIELD(in, fd, base, lim, dlm)]: the field, and [in] behind the delimiter; the
    delimiter 0 is the end of the text. *)
Definition get_cb_field (base lim : Z) (dlm : option ascii) (s : text) : option (Z * text) :=
  let '(v, rest, err) := strtoul base s in
  if err || (lim <? v) then None else
  match dlm, rest with
  | None, [] => Some (v, [])
  | Some d, c :: rest => if bool_decide (c = d) then Some (v, rest) else None
  | _, _ => None
  end.

(** The delimiters [dlm] of up_acl.c: space, tab and newline. *)
Definition is_dlm (c : ascii) : bool :=
  bool_decide (c = " "%char) || bool_decide (c = "009"%char) || bool_decide (c = newline).

Fixpoint take_token (s : text) : text * text :=
  match s with
  | [] => ([], [])
  | c :: s => if is_dlm c then ([], s) else let '(t, r) := take_token s in (c :: t, r)
  end.

(** [strtok_r(s, dlm, &sp)]: the token and [sp], or NULL. *)
Fixpoint strtok_r (s : text) : option (text * text) :=
  match s with
  | [] => None
  | c :: s' => if is_dlm c then strtok_r s' else Some (take_token s)
  end.

(** The first [n] tokens. *)
Fixpoint tokens (n : nat) (s : text) : option (list text) :=
  match n with
  | O => Some []
  | S n => '(t, s) ← strtok_r s; ts ← tokens n s; Some (t :: ts)
  end.

(** ** The rule of librte_acl *)

Record acl_field := mk_field { value : Z; mask_range : Z }.

Definition port_dlm : text := lit ":".

Definition MAX_LEN : nat := 128.

(** [IPv4(a, b, c, d)] *)
Definition IPv4 (a b c d : Z) : Z :=
  Z.lor (Z.lor (Z.shiftl (Z.land a 255) 24) (Z.shiftl (Z.land b 255) 16)) (Z.lor (Z.shiftl (Z.land c 255) 8) (Z.land d 255)).

Definition parse_ipv4_net (s : text) : option acl_field :=
  '(a, s) ← get_cb_field 0 255 (Some "."%char) s;
  '(b, s) ← get_cb_field 0 255 (Some "."%char) s;
  '(c, s) ← get_cb_field 0 255 (Some "."%char) s;
  '(d, s) ← get_cb_field 0 255 (Some "/"%char) s;
  '(m, _) ← get_cb_field 0 32 None s;
  Some (mk_field (IPv4 a b c d) m).

(** The two ports of a range; 0 and 0 stand for all ports. *)
Definition parse_ports (low high : text) : option acl_field :=
  let '(low, high) := if (atoi low =? 0) && (atoi high =? 0) then (lit "0", lit "65535") else (low, high) in
  '(l, _) ← get_cb_field 0 65535 None low;
  '(h, _) ← get_cb_field 0 65535 None high;
  Some (mk_field l h).

Definition parse_proto (s : text) : option acl_field :=
  '(p, s) ← get_cb_field 0 255 (Some "/"%char) s;
  '(m, _) ← get_cb_field 0 255 None s;
  Some (mk_field p m).

(** [parse_cb_ipv4vlan_rule(str, v, 0)]: the fields in the order of [ipv4_defs], [None] for
    a negative result.  [strncmp] compares the delimiter with its terminator. *)
Definition parse_cb_ipv4vlan_rule (str : text) : option (list acl_field) :=
  toks ← tokens 9 str;
  match toks with
  | [sa; da; spl; sd; sph; dpl; dd; dph; pr] =>
      src ← parse_ipv4_net sa;
      dst ← parse_ipv4_net da;
      sports ← parse_ports spl sph;
      if negb (bool_decide (sd = port_dlm)) then None else
      dports ← parse_ports dpl dph;
      if negb (bool_decide (dd = port_dlm)) then None else
      if (mask_range sports <? value sports) || (mask_range dports <? value dports) then None else
      proto ← parse_proto pr;
      Some [proto; src; dst; sports; dports]
  | _ => None
  end.

(** [swap_src_dst_ip]: what [printf] writes for a null token is glibc's. *)
Definition text_of (t : option text) : text := default (lit "(null)") t.
Definition swap_src_dst_ip (str : text) : text :=
  let '(in0, in1, sp) :=
    match strtok_r str with
    | None => (None, None, [])
    | Some (t0, s) => match strtok_r s with
                      | None => (Some t0, None, [])
                      | Some (t1, s) => (Some t0, Some t1, s)
                      end
    end in
  take (MAX_LEN - 1) (text_of in1 ++ " "%char :: text_of in0 ++ " "%char :: sp ++ [newline]).

(** [get_rule_ip_type]: whether it is [RULE_IPV6]; [None] is [strstr] of a null token. *)
Definition get_rule_ip_type (rule : text) : option bool :=
  '(t, _) ← strtok_r rule; Some (bool_decide (":"%char ∈ t)).

(** ** IPv6 rules *)

(** [after_free] is what stands in the memory of a text after it was freed. *)
Section Ipv6.
Context (inet_pton6 : text -> option (list byte)) (after_free : text -> text).

(** [strtok_r(in, "/", &saveptr)] *)
Fixpoint skip_slashes (s : text) : text :=
  match s with "/"%char :: s' => skip_slashes s' | _ => s end.
Definition strtok_slash (s : text) : option (text * text) :=
  match skip_slashes s with [] => None | s' => Some (take_until "/"%char s') end.

(** [ipv6_expander]: eight groups of four digits. *)
Fixpoint ipv6_groups (bs : list byte) : list text :=
  match bs with
  | b0 :: b1 :: bs => (fmt_02x b0 ++ fmt_02x b1) :: ipv6_groups bs
  | _ => []
  end.
Fixpoint join (d : ascii) (ws : list text) : text :=
  match ws with
  | [] => []
  | [w] => w
  | w :: ws => w ++ d :: join d ws
  end.
Definition ipv6_expander (addr : list byte) : text := join ":"%char (ipv6_groups addr).

(** Fields in base 16, each behind the delimiter of the one before, and the text behind
    them. *)
Fixpoint hex_fields (dlms : list ascii) (s : text) : option (list Z * text) :=
  match dlms with
  | [] => Some ([], s)
  | d :: dlms => '(v, s) ← get_cb_field 16 65535 (Some d) s; '(vs, s) ← hex_fields dlms s; Some (v :: vs, s)
  end.

(** [(addr[0] << 16) + addr[1]] *)
Fixpoint words32 (hs : list Z) : list Z :=
  match hs with
  | h :: l :: hs => u32 (Z.shiftl h 16 + l) :: words32 hs
  | _ => []
  end.

(** [parse_ipv6_addr]: the four words, and the text that [end] is set to, in a buffer that
    is freed. *)
Definition parse_ipv6_addr (s : text) (dlm : ascii) : option (list Z * text) :=
  '(ipv6_str, saveptr) ← strtok_slash s;
  a ← inet_pton6 ipv6_str;
  let final_ipv6 := take (MAX_LEN - 1) (ipv6_expander a ++ "/"%char :: saveptr) in
  '(hs, rest) ← hex_fields (replicate 7 ":"%char ++ [dlm]) final_ipv6;
  Some (words32 hs, rest).

(** The share of a mask of [m] bits in word [i]. *)
Definition word_mask (m : Z) (i : nat) : Z :=
  if (Z.of_nat i + 1) * 32 <=? m then 32 else if Z.of_nat i * 32 <? m then m - Z.of_nat i * 32 else 0.

(** [parse_ipv6_net]: the mask is read from the freed buffer. *)
Definition parse_ipv6_net (s : text) : option (list acl_field) :=
  '(v, mp) ← parse_ipv6_addr s "/"%char;
  '(m, _) ← get_cb_field 0 128 None (after_free mp);
  Some (zip_with mk_field v (map (word_mask m) (seq 0 4))).

(** [parse_cb_ipv6_rule(str, v, 0)] *)
Definition parse_cb_ipv6_rule (str : text) : option (list acl_field) :=
  toks ← tokens 3 str;
  match toks with
  | [sa; da; pr] =>
      src ← parse_ipv6_net sa;
      dst ← parse_ipv6_net da;
      proto ← parse_proto pr;
      Some (proto :: src ++ dst)
  | _ => None
  end.
End Ipv6.

(** ** The filter in the control plane *)

(** [sdf_pkt_fltr]; the unions hold the first 16 bytes of either address. *)
Record sdf_pkt_fltr := mk_sdf {
  proto_id : Z; v4 : bool; v6 : bool; proto_mask : Z;
  local_ip_mask : Z; remote_ip_mask : Z;
  local_port_low : Z; local_port_high : Z; remote_port_low : Z; remote_port_high : Z;
  ulocalip : list byte; uremoteip : list byte }.

Definition TFT_DIRECTION_DOWNLINK_ONLY : Z := 1.
Definition TFT_DIRECTION_UPLINK_ONLY : Z := 2.
Definition DEFAULT_IPV6_MASK : Z := 128.

(** [inet_ntoa]: the first four bytes. *)
Definition inet_ntoa (a : list byte) : text :=
  join "."%char (map (fun b => fmt_u (byte_to_Z b)) (take 4 a)).

(** [%x] of a byte. *)
Definition fmt_x (z : Z) : text :=
  if z <? 16 then [hex_char z] else [hex_char (z / 16); hex_char (z mod 16)].

Definition net (ip : text) (mask : Z) : text := ip ++ "/"%char :: fmt_u mask.
Definition proto_text (f : sdf_pkt_fltr) : text :=
  lit "0x" ++ fmt_x (proto_id f) ++ lit "/0x" ++ fmt_x (proto_mask f).

(** The words of the two format strings. *)
Definition words_v4 (f : sdf_pkt_fltr) : list text :=
  [net (inet_ntoa (ulocalip f)) (local_ip_mask f); net (inet_ntoa (uremoteip f)) (remote_ip_mask f);
   fmt_u (local_port_low f); port_dlm; fmt_u (local_port_high f);
   fmt_u (remote_port_low f); port_dlm; fmt_u (remote_port_high f); proto_text f].
Definition words_v6 (inet_ntop6 : list byte -> text) (f : sdf_pkt_fltr) : list text :=
  [net (inet_ntop6 (ulocalip f)) (local_ip_mask f); net (inet_ntop6 (uremoteip f)) (remote_ip_mask f); proto_text f].

Definition default_mask (m : Z) : Z := if (m =? 0) || (DEFAULT_IPV6_MASK <? m) then DEFAULT_IPV6_MASK else m.
Definition set_default_masks (f : sdf_pkt_fltr) : sdf_pkt_fltr :=
  mk_sdf (proto_id f) (v4 f) (v6 f) (proto_mask f) (default_mask (local_ip_mask f)) (default_mask (remote_ip_mask f))
    (local_port_low f) (local_port_high f) (remote_port_low f) (remote_port_high f) (ulocalip f) (uremoteip f).

(** [sdf_pkt_filter_to_string(f, old, direction)]: the filter, and the string, which keeps
    its content [old] when the direction or the version is another. *)
Definition sdf_pkt_filter_to_string (inet_ntop6 : list byte -> text) (f : sdf_pkt_fltr) (old : text) (direction : Z)
    : sdf_pkt_fltr * text :=
  let f := if negb (v4 f) && v6 f then set_default_masks f else f in
  let one_way := (direction =? TFT_DIRECTION_DOWNLINK_ONLY) || (direction =? TFT_DIRECTION_UPLINK_ONLY) in
  (f, if v4 f then if one_way then take (MAX_LEN - 1) (join " "%char (words_v4 f)) else old
      else if v6 f then if one_way then take (MAX_LEN - 1) (join " "%char (words_v6 inet_ntop6 f)) else old
      else old).

(** ** The flow description of Gx *)

Section Gx.
Context (inet_pton4 inet_pton6 : text -> option (list byte)).
Context (rte_strsplit : text -> nat -> ascii -> list text).

Definition NUM_VALS : nat := 16.
Definition IPV4_BYTES : nat := 4.

(** The members of one side of the filter. *)
Record side := mk_side { s_ip : list byte; s_mask : Z; s_low : Z; s_high : Z; s_v4 : bool; s_v6 : bool }.

(** [inet_pton] into the union: a text that it refuses (result 0) leaves the bytes. *)
Definition read_ip (is_v6 : bool) (t : text) (s : side) : side :=
  let ip := if is_v6 then default (s_ip s) (inet_pton6 t)
            else default (s_ip s) ((fun a => a ++ drop IPV4_BYTES (s_ip s)) <$> inet_pton4 t) in
  mk_side ip (s_mask s) (s_low s) (s_high s) (s_v4 s || negb is_v6) (s_v6 s || is_v6).
Definition with_mask (m : Z) (s : side) : side := mk_side (s_ip s) m (s_low s) (s_high s) (s_v4 s) (s_v6 s).
Definition with_ports (l h : Z) (s : side) : side := mk_side (s_ip s) (s_mask s) l h (s_v4 s) (s_v6 s).

(** An address with or without a mask, or any; [None] is a field that [rte_strsplit] did
    not fill. *)
Definition sdf_address (fld : text) (s : side) : option side :=
  if strncmp_eq NUM_VALS fld (lit "any") then Some s else
  if bool_decide ("/"%char ∈ fld) then
    let ip_fld := rte_strsplit fld 2 "/"%char in
    ip0 ← ip_fld !! 0%nat;
    let masked is_v6 := ip1 ← ip_fld !! 1%nat; Some (with_mask (u8 (atoi ip1)) (read_ip is_v6 ip0 s)) in
    if bool_decide (":"%char ∈ ip0) then masked true else
    if bool_decide ("."%char ∈ ip0) then masked false else Some s
  else if bool_decide (":"%char ∈ fld) then Some (read_ip true fld s)
  else if bool_decide ("."%char ∈ fld) then Some (read_ip false fld s) else Some s.

(** A port or a range of ports. *)
Definition sdf_ports (fld : text) (s : side) : option side :=
  if bool_decide ("-"%char ∈ fld) then
    let port_fld := rte_strsplit fld 2 "-"%char in
    p0 ← port_fld !! 0%nat; p1 ← port_fld !! 1%nat;
    Some (with_ports (u16 (atoi p0)) (u16 (atoi p1)) s)
  else Some (with_ports (u16 (atoi fld)) (u16 (atoi fld)) s).

Definition local_side (f : sdf_pkt_fltr) : side :=
  mk_side (ulocalip f) (local_ip_mask f) (local_port_low f) (local_port_high f) (v4 f) (v6 f).
Definition remote_side (f : sdf_pkt_fltr) : side :=
  mk_side (uremoteip f) (remote_ip_mask f) (remote_port_low f) (remote_port_high f) (v4 f) (v6 f).
Definition put_local (s : side) (f : sdf_pkt_fltr) : sdf_pkt_fltr :=
  mk_sdf (proto_id f) (s_v4 s) (s_v6 s) (proto_mask f) (s_mask s) (remote_ip_mask f) (s_low s) (s_high s)
    (remote_port_low f) (remote_port_high f) (s_ip s) (uremoteip f).
Definition put_remote (s : side) (f : sdf_pkt_fltr) : sdf_pkt_fltr :=
  mk_sdf (proto_id f) (s_v4 s) (s_v6 s) (proto_mask f) (local_ip_mask f) (s_mask s) (local_port_low f) (local_port_high f)
    (s_low s) (s_high s) (ulocalip f) (s_ip s).
Definition put_proto (p : Z) (f : sdf_pkt_fltr) : sdf_pkt_fltr :=
  mk_sdf p (v4 f) (v6 f) (proto_mask f) (local_ip_mask f) (remote_ip_mask f) (local_port_low f) (local_port_high f)
    (remote_port_low f) (remote_port_high f) (ulocalip f) (uremoteip f).

(** The body of the loop for the field of index [indx]: the filter, [offset], and whether
    the function returns -1. *)
Definition sdf_field (indx : Z) (fld : text) (f : sdf_pkt_fltr) (offset : Z) : option (sdf_pkt_fltr * Z * bool) :=
  if indx =? 0 then Some (f, offset, negb (strncmp_eq NUM_VALS fld (lit "permit"))) else
  if indx =? 2 then Some (put_proto (u8 (atoi fld)) f, offset, false) else
  if indx =? 4 then s ← sdf_address fld (local_side f); Some (put_local s f, offset, false) else
  if indx =? 5 then
    if strncmp_eq NUM_VALS fld (lit "to") then Some (f, offset + 1, false)
    else s ← sdf_ports fld (local_side f); Some (put_local s f, offset, false)
  else if indx + offset =? 7 then s ← sdf_address fld (remote_side f); Some (put_remote s f, offset, false)
  else if indx + offset =? 8 then s ← sdf_ports fld (remote_side f); Some (put_remote s f, offset, false)
  else Some (f, offset, false).

Fixpoint sdf_fields (indx : Z) (flds : list text) (f : sdf_pkt_fltr) (offset : Z) : option (sdf_pkt_fltr * bool) :=
  match flds with
  | [] => Some (f, true)
  | fld :: flds =>
      '(f, offset, stop) ← sdf_field indx fld f offset;
      if (stop : bool) then Some (f, false) else sdf_fields (indx + 1) flds f offset
  end.

(** [fill_sdf_strctr]: the filter, and whether the result is 0. *)
Definition fill_sdf_strctr (str : text) (f : sdf_pkt_fltr) : option (sdf_pkt_fltr * bool) :=
  sdf_fields 0 (rte_strsplit str NUM_VALS " "%char) f 0.
End Gx.

(** ** Lemmas: numbers *)

(** What may follow a number. *)
Definition stops (r : text) : Prop := match r with [] => True | c :: _ => isalnum c = false end.

Lemma digit_value_alnum base c : isalnum c = false -> digit_value base c = None.
Proof.
  unfold isalnum, isalpha, digit_value. intros H. destruct (isdigit c), (isupper c), (islower c); try done.
  by rewrite Z.ltb_irrefl.
Qed.

Lemma digit_value_isdigit c : isdigit c = true -> digit_value 10 c = Some (char_code c - 48).
Proof.
  intros H. unfold digit_value. rewrite H. unfold isdigit, in_range in H.
  destruct (Z.ltb_spec (char_code c - 48) 10); [done|lia].
Qed.

Lemma digits_read_dec acc l r :
  Forall (fun c => isdigit c = true) l -> stops r -> digits_read 10 acc (l ++ r) = (digits_val acc l, r).
Proof.
  intros H Hr. revert acc. induction H as [|c l Hc Hl IH]; intros acc; cbn [app digits_read digits_val].
  - destruct r as [|c r]; [done|]. cbn [digits_read]. by rewrite (digit_value_alnum _ _ Hr).
  - by rewrite (digit_value_isdigit c Hc), Hc, IH.
Qed.

Lemma dec_digits_head fuel z :
  0 < z < 10 ^ Z.of_nat fuel ->
  exists c l, dec_digits fuel z = c :: l /\ isdigit c = true /\ c <> "0"%char.
Proof.
  revert z. induction fuel as [|fuel IH]; intros z Hz.
  { change (10 ^ Z.of_nat 0) with 1 in Hz. lia. }
  rewrite Nat2Z.inj_succ, Z.pow_succ_r in Hz by lia. cbn [dec_digits]. destruct (Z.ltb_spec z 10).
  - exists (digit_char z), []. split; [done|]. digit_cases z; try lia; done.
  - destruct (IH (z / 10)) as (c & l & E & Hc & H0).
    { split; [apply Z.div_str_pos; lia|apply Z.div_lt_upper_bound; lia]. }
    rewrite E. by exists c, (l ++ [digit_char (z mod 10)]).
Qed.

Lemma hex_prefix_none c s : c <> "0"%char -> hex_prefix (c :: s) = None.
Proof. intros H. by destruct c as [[] [] [] [] [] [] [] []]. Qed.

(** The sign and the base of a text that starts with a digit. *)
Lemma strtoul_unsigned base c s :
  isdigit c = true ->
  strtoul base (c :: s) =
  (let '(base, s2) := match hex_prefix (c :: s) with
                      | Some s2 => (16, s2)
                      | None => (if base =? 0 then match c with "0"%char => 8 | _ => 10 end else base, c :: s)
                      end in
   match s2 with
   | d :: _ =>
       match digit_value base d with
       | None => (0, c :: s, false)
       | Some _ => let '(v, rest) := digits_read base 0 s2 in
                   if v <? 2 ^ 64 then (v, rest, false) else (2 ^ 64 - 1, rest, true)
       end
   | [] => (0, c :: s, false)
   end).
Proof.
  intros H. unfold strtoul. cbn [skip_spaces]. rewrite (isdigit_not_space c H).
  destruct c as [[] [] [] [] [] [] [] []]; done.
Qed.

Lemma strtoul_dec v r : 0 <= v < 2 ^ 32 -> stops r -> strtoul 0 (fmt_u v ++ r) = (v, r, false).
Proof.
  intros Hv Hr. unfold fmt_u. destruct (decide (v = 0)) as [->|Hn].
  - change (dec_digits 10 0) with ["0"%char]. cbn [app]. rewrite strtoul_unsigned by done.
    destruct r as [|c r]; [done|]. assert (c <> "x"%char /\ c <> "X"%char) as [Hx HX] by (split; by intros ->).
    cbn [hex_prefix]. rewrite !bool_decide_false by done. destruct r as [|d r]; cbn [orb andb];
      change (0 =? 0) with true; cbn [digit_value]; change (digit_value 8 "0"%char) with (Some 0);
      cbn [digits_read]; change (digit_value 8 "0"%char) with (Some 0); cbv iota;
      by rewrite (digit_value_alnum 8 c Hr).
  - destruct (dec_digits_head 10 v) as (c & l & E & Hc & H0); [simpl; lia|].
    pose proof (dec_digits_isdigit 10 v ltac:(lia)) as Hd. pose proof (dec_digits_val 10 v ltac:(simpl; lia)) as Hval.
    rewrite E in *. cbn [app]. rewrite strtoul_unsigned by done. rewrite (hex_prefix_none c _ H0). cbv iota.
    change (0 =? 0) with true. cbv iota.
    replace (match c with "0"%char => 8 | _ => 10 end) with 10 by (by destruct c as [[] [] [] [] [] [] [] []]).
    rewrite (digit_value_isdigit c Hc). cbv iota. rewrite (digits_read_dec 0 (c :: l) r Hd Hr : digits_read 10 0 (c :: l ++ r) = _).
    rewrite Hval. destruct (Z.ltb_spec v (2 ^ 64)); [done|lia].
Qed.

Lemma get_cb_dec lim d v r :
  0 <= v <= lim -> lim < 2 ^ 32 -> isalnum d = false -> get_cb_field 0 lim (Some d) (fmt_u v ++ d :: r) = Some (v, r).
Proof.
  intros Hv Hl Hd. unfold get_cb_field. rewrite strtoul_dec by (done || lia). cbn [orb].
  destruct (Z.ltb_spec lim v); [lia|]. by rewrite bool_decide_true.
Qed.

Lemma get_cb_dec_end lim v : 0 <= v <= lim -> lim < 2 ^ 32 -> get_cb_field 0 lim None (fmt_u v) = Some (v, []).
Proof.
  intros Hv Hl. unfold get_cb_field. rewrite <- (app_nil_r (fmt_u v)), strtoul_dec by (done || lia). cbn [orb].
  destruct (Z.ltb_spec lim v); [lia|]. done.
Qed.

(** Hexadecimal digits. *)
Ltac hex_cases d :=
  let H := fresh in
  assert (d < 10 \/ d = 10 \/ d = 11 \/ d = 12 \/ d = 13 \/ d = 14 \/ d = 15) as H by lia;
  destruct H as [?|[->|[->|[->|[->|[->| ->]]]]]]; [digit_cases d|..].

Lemma hex_char_spec d : 0 <= d < 16 ->
  digit_value 16 (hex_char d) = Some d /\ isxdigit (hex_char d) = true /\ hex_char d <> "x"%char /\ hex_char d <> "X"%char.
Proof. intros Hd. hex_cases d; done. Qed.

Lemma strtoul_fmt_x p r : 0 <= p < 256 -> stops r -> strtoul 0 (lit "0x" ++ fmt_x p ++ r) = (p, r, false).
Proof.
  intros Hp Hr. change (lit "0x") with ["0"%char; "x"%char]. cbn [app]. rewrite strtoul_unsigned by done.
  assert (forall acc, digits_read 16 acc r = (acc, r)) as Hend.
  { intros acc. destruct r as [|c r]; [done|]. cbn [digits_read]. by rewrite (digit_value_alnum _ _ Hr). }
  unfold fmt_x. destruct (Z.ltb_spec p 16).
  - destruct (hex_char_spec p ltac:(lia)) as (Hv & Hx & _). cbn [app hex_prefix].
    rewrite (bool_decide_true ("x"%char = "x"%char)) by done. rewrite Hx. cbn [orb andb]. rewrite Hv.
    cbn [digits_read]. rewrite Hv, Hend. replace (0 * 16 + p) with p by lia. destruct (Z.ltb_spec p (2 ^ 64)); [done|lia].
  - assert (0 <= p / 16 < 16) as Hq by (split; [apply Z.div_pos|apply Z.div_lt_upper_bound]; lia).
    assert (0 <= p mod 16 < 16) as Hm by (apply Z.mod_pos_bound; lia).
    destruct (hex_char_spec (p / 16) Hq) as (Hv & Hx & _). destruct (hex_char_spec (p mod 16) Hm) as (Hv' & _). cbn [app hex_prefix].
    rewrite (bool_decide_true ("x"%char = "x"%char)) by done. rewrite Hx. cbn [orb andb]. rewrite Hv.
    cbn [digits_read]. rewrite Hv, Hv', Hend.
    replace ((0 * 16 + p / 16) * 16 + p mod 16) with p by (pose proof (Z.div_mod p 16 ltac:(lia)); lia).
    destruct (Z.ltb_spec p (2 ^ 64)); [done|lia].
Qed.

Lemma parse_proto_text f : 0 <= proto_id f < 256 -> 0 <= proto_mask f < 256 ->
  parse_proto (proto_text f) = Some (mk_field (proto_id f) (proto_mask f)).
Proof.
  intros Hp Hm. unfold parse_proto, proto_text, get_cb_field.
  change (lit "/0x") with ("/"%char :: lit "0x"). cbn [app].
  rewrite (strtoul_fmt_x (proto_id f) ("/"%char :: lit "0x" ++ fmt_x (proto_mask f))) by done.
  destruct (Z.ltb_spec 255 (proto_id f)); [lia|]. cbn [orb mbind option_bind]. rewrite bool_decide_true by done.
  cbn [mbind option_bind]. rewrite <- (app_nil_r (fmt_x (proto_mask f))), strtoul_fmt_x by done.
  destruct (Z.ltb_spec 255 (proto_mask f)); [lia|]. done.
Qed.

(** ** Lemmas: words *)

Definition word (w : text) : Prop := w <> [] /\ Forall (fun c => is_dlm c = false) w.

Lemma take_token_word w d r : Forall (fun c => is_dlm c = false) w -> is_dlm d = true -> take_token (w ++ d :: r) = (w, r).
Proof.
  intros H Hd. induction H as [|c w Hc Hw IH]; cbn [app take_token]; [by rewrite Hd|]. by rewrite Hc, IH.
Qed.

Lemma take_token_end w : Forall (fun c => is_dlm c = false) w -> take_token w = (w, []).
Proof. intros H. induction H as [|c w Hc Hw IH]; cbn [take_token]; [done|]. by rewrite Hc, IH. Qed.

Lemma strtok_word w s : word w -> strtok_r (w ++ s) = Some (take_token (w ++ s)).
Proof. intros [Hn Hw]. destruct Hw as [|c w Hc Hw]; [done|]. cbn [app strtok_r]. by rewrite Hc. Qed.

Lemma tokens_join ws tail :
  Forall word ws -> Forall (fun c => is_dlm c = true) tail -> tokens (length ws) (join " "%char ws ++ tail) = Some ws.
Proof.
  intros H Ht. induction H as [|w ws Hw Hws IH]; [done|].
  destruct ws as [|w2 ws].
  - cbn [join length tokens]. rewrite (strtok_word _ _ Hw). destruct Ht as [|d tail Hd Ht].
    + by rewrite app_nil_r, (take_token_end _ (proj2 Hw)).
    + by rewrite (take_token_word _ _ _ (proj2 Hw) Hd).
  - change (join " "%char (w :: w2 :: ws)) with (w ++ " "%char :: join " "%char (w2 :: ws)).
    cbn [length tokens]. rewrite <- app_assoc. cbn [app]. rewrite (strtok_word _ _ Hw), (take_token_word _ _ _ (proj2 Hw)) by done.
    cbn [mbind option_bind]. cbn [length tokens] in IH. rewrite IH. done.
Qed.

Lemma isxdigit_not_dlm c : isxdigit c = true -> is_dlm c = false.
Proof. intros H. unfold is_dlm. by rewrite !bool_decide_false by (by intros ->). Qed.

Lemma fmt_u_no_dlm z : 0 <= z -> Forall (fun c => is_dlm c = false) (fmt_u z).
Proof.
  intros H. eapply Forall_impl; [by apply dec_digits_isdigit|].
  intros c Hc. by apply isxdigit_not_dlm, isdigit_isxdigit.
Qed.

Lemma word_fmt_u z : 0 <= z -> word (fmt_u z).
Proof.
  intros H. split; [|by apply fmt_u_no_dlm]. destruct (dec_digits_nonempty 10 z ltac:(lia)) as (c & l & E).
  unfold fmt_u. by rewrite E.
Qed.

Lemma fmt_u_len (k : nat) z : (0 < k)%nat -> 0 <= z < 10 ^ Z.of_nat k -> (length (fmt_u z) <= k)%nat.
Proof.
  unfold fmt_u. generalize 10%nat as fuel. intros fuel. revert k z.
  induction fuel as [|fuel IH]; intros k z Hk Hz; cbn [dec_digits]; [cbn; lia|].
  destruct (Z.ltb_spec z 10); [cbn; lia|]. rewrite length_app. cbn [length].
  destruct k as [|[|k]]; [lia|simpl in Hz; lia|]. rewrite Nat2Z.inj_succ, Z.pow_succ_r in Hz by lia.
  assert (0 <= z / 10 < 10 ^ Z.of_nat (S k)) as Hq.
  { split; [apply Z.div_pos; lia|apply Z.div_lt_upper_bound; lia]. }
  specialize (IH (S k) (z / 10) ltac:(lia) Hq). lia.
Qed.

Lemma fmt_x_no_dlm z : 0 <= z < 256 -> Forall (fun c => is_dlm c = false) (fmt_x z).
Proof.
  intros H. unfold fmt_x. destruct (Z.ltb_spec z 16); repeat constructor; apply isxdigit_not_dlm, hex_char_isxdigit.
  - lia.
  - split; [apply Z.div_pos|apply Z.div_lt_upper_bound]; lia.
  - apply Z.mod_pos_bound; lia.
Qed.

Lemma fmt_x_length z : (length (fmt_x z) <= 2)%nat.
Proof. unfold fmt_x. destruct (z <? 16); cbn; lia. Qed.

Lemma word_proto f : 0 <= proto_id f < 256 -> 0 <= proto_mask f < 256 -> word (proto_text f).
Proof.
  intros Hp Hm. split; [done|]. unfold proto_text. repeat (apply Forall_app; split); try (by repeat constructor); by apply fmt_x_no_dlm.
Qed.

(** ** Lemmas: addresses and ports *)

Lemma IPv4_be_val b0 b1 b2 b3 :
  IPv4 (byte_to_Z b0) (byte_to_Z b1) (byte_to_Z b2) (byte_to_Z b3) = be_val [b0; b1; b2; b3].
Proof.
  pose proof (byte_to_Z_range b0); pose proof (byte_to_Z_range b1); pose proof (byte_to_Z_range b2); pose proof (byte_to_Z_range b3).
  unfold IPv4, be_val. cbn [reverse rev_append le_val]. rewrite !(land_mask 8) by lia.
  rewrite !Z.mod_small by lia. rewrite !Z.shiftl_mul_pow2 by lia.
  rewrite (Z.lor_comm (_ * 2 ^ 24)), (Z.lor_comm (byte_to_Z b2 * 2 ^ 8)), !lor_disjoint by lia.
  rewrite Z.lor_comm.
  replace (byte_to_Z b1 * 2 ^ 16 + byte_to_Z b0 * 2 ^ 24) with ((byte_to_Z b1 + byte_to_Z b0 * 2 ^ 8) * 2 ^ 16) by lia.
  rewrite lor_disjoint by lia. cbn. lia.
Qed.

(** The value of the first four bytes. *)
Definition ipv4_value (a : list byte) : Z := be_val (take 4 a).

Lemma parse_net a m : (4 <= length a)%nat -> 0 <= m <= 32 ->
  parse_ipv4_net (net (inet_ntoa a) m) = Some (mk_field (ipv4_value a) m).
Proof.
  intros Ha Hm. destruct a as [|b0 [|b1 [|b2 [|b3 a]]]]; cbn in Ha; try lia.
  pose proof (byte_to_Z_range b0); pose proof (byte_to_Z_range b1); pose proof (byte_to_Z_range b2); pose proof (byte_to_Z_range b3).
  unfold parse_ipv4_net, net, inet_ntoa, ipv4_value. change (take 4 (b0 :: b1 :: b2 :: b3 :: a)) with [b0; b1; b2; b3]; cbn [map join]. rewrite <- !app_assoc. cbn [app].
  repeat (rewrite <- !app_assoc; cbn [app]).
  rewrite get_cb_dec by (lia || done). cbn [mbind option_bind].
  rewrite get_cb_dec by (lia || done). cbn [mbind option_bind].
  rewrite get_cb_dec by (lia || done). cbn [mbind option_bind].
  rewrite get_cb_dec by (lia || done). cbn [mbind option_bind].
  rewrite get_cb_dec_end by lia. cbn [mbind option_bind]. by rewrite IPv4_be_val.
Qed.

Lemma word_net a m : (4 <= length a)%nat -> 0 <= m -> word (net (inet_ntoa a) m).
Proof.
  intros Ha Hm. destruct a as [|b0 [|b1 [|b2 [|b3 a]]]]; cbn in Ha; try lia.
  pose proof (fun b => proj1 (byte_to_Z_range b)). unfold net, inet_ntoa. change (take 4 (b0 :: b1 :: b2 :: b3 :: a)) with [b0; b1; b2; b3]; cbn [map join].
  split.
  - destruct (word_fmt_u (byte_to_Z b0)) as [Hn _]; [done|]. by destruct (fmt_u (byte_to_Z b0)).
  - repeat (rewrite Forall_app || rewrite Forall_cons). split_and!; try done; apply fmt_u_no_dlm; auto.
Qed.

Lemma net_length a m : (4 <= length a)%nat -> 0 <= m < 256 -> (length (net (inet_ntoa a) m) <= 19)%nat.
Proof.
  intros Ha Hm. destruct a as [|b0 [|b1 [|b2 [|b3 a]]]]; cbn in Ha; try lia.
  pose proof (fmt_u_len 3 m ltac:(lia) ltac:(simpl; lia)).
  assert (forall b, (length (fmt_u (byte_to_Z b)) <= 3)%nat) as Hb.
  { intros b. pose proof (byte_to_Z_range b). apply fmt_u_len; [lia|simpl; lia]. }
  pose proof (Hb b0); pose proof (Hb b1); pose proof (Hb b2); pose proof (Hb b3).
  unfold net, inet_ntoa. change (take 4 (b0 :: b1 :: b2 :: b3 :: a)) with [b0; b1; b2; b3]. cbn [map join].
  repeat (rewrite !length_app || cbn [length]). lia.
Qed.

Lemma net_no_colon a m : (4 <= length a)%nat -> 0 <= m -> ":"%char ∉ net (inet_ntoa a) m.
Proof.
  intros Ha Hm. destruct a as [|b0 [|b1 [|b2 [|b3 a]]]]; cbn in Ha; try lia.
  assert (forall z, 0 <= z -> ":"%char ∉ fmt_u z) as Hn.
  { intros z Hz Hin. pose proof (dec_digits_isdigit 10 z Hz) as Hd. rewrite Forall_forall in Hd. by specialize (Hd _ Hin). }
  pose proof (fun b => proj1 (byte_to_Z_range b)) as Hb.
  unfold net, inet_ntoa. change (take 4 (b0 :: b1 :: b2 :: b3 :: a)) with [b0; b1; b2; b3]. cbn [map join].
  repeat (rewrite not_elem_of_app || rewrite not_elem_of_cons). split_and!; try done; by apply Hn.
Qed.

(** The field of a range of ports. *)
Definition port_field (low high : Z) : acl_field :=
  if (low =? 0) && (high =? 0) then mk_field 0 65535 else mk_field low high.

Lemma atoi_u16 z : 0 <= z < 65536 -> atoi (fmt_u z) = z.
Proof.
  intros Hz. rewrite <- (app_nil_r (fmt_u z)). change (fmt_u z ++ []) with ([] ++ fmt_u z ++ []).
  rewrite atoi_fmt_u by (done || lia). apply swrap_small; lia.
Qed.

Lemma parse_port_words low high : 0 <= low < 65536 -> 0 <= high < 65536 ->
  parse_ports (fmt_u low) (fmt_u high) = Some (port_field low high).
Proof.
  intros Hl Hh. unfold parse_ports, port_field. rewrite !atoi_u16 by done.
  destruct ((low =? 0) && (high =? 0)); [done|].
  rewrite get_cb_dec_end by lia. cbn [mbind option_bind]. rewrite get_cb_dec_end by lia. done.
Qed.

Lemma port_field_ordered low high : low <= high -> (mask_range (port_field low high) <? value (port_field low high)) = false.
Proof. intros H. unfold port_field. destruct (_ && _); cbn [mask_range value]; lia. Qed.

(** ** Lemmas: a filter and its words *)

(** A filter for IPv4: members of their widths, masks of at most 32 bits, ordered ports. *)
Record sdf_ok (f : sdf_pkt_fltr) : Prop := mk_sdf_ok {
  ok_v4 : v4 f = true;
  ok_proto : 0 <= proto_id f < 256; ok_proto_mask : 0 <= proto_mask f < 256;
  ok_local_mask : 0 <= local_ip_mask f <= 32; ok_remote_mask : 0 <= remote_ip_mask f <= 32;
  ok_local_low : 0 <= local_port_low f <= local_port_high f; ok_local_high : local_port_high f < 65536;
  ok_remote_low : 0 <= remote_port_low f <= remote_port_high f; ok_remote_high : remote_port_high f < 65536;
  ok_local_ip : length (ulocalip f) = 16%nat; ok_remote_ip : length (uremoteip f) = 16%nat }.

(** What the filter says, as fields of a rule; [src] and [dst] are its sides. *)
Definition local_net (f : sdf_pkt_fltr) : acl_field := mk_field (ipv4_value (ulocalip f)) (local_ip_mask f).
Definition remote_net (f : sdf_pkt_fltr) : acl_field := mk_field (ipv4_value (uremoteip f)) (remote_ip_mask f).
Definition local_ports (f : sdf_pkt_fltr) : acl_field := port_field (local_port_low f) (local_port_high f).
Definition remote_ports (f : sdf_pkt_fltr) : acl_field := port_field (remote_port_low f) (remote_port_high f).
Definition proto_field (f : sdf_pkt_fltr) : acl_field := mk_field (proto_id f) (proto_mask f).

Lemma words_v4_words f : sdf_ok f -> Forall word (words_v4 f).
Proof.
  intros []. unfold words_v4. rewrite !Forall_cons. split_and!; try (by apply word_net; lia); try (by apply word_fmt_u; lia).
  - by split; [|repeat constructor].
  - by split; [|repeat constructor].
  - by apply word_proto.
  - done.
Qed.

Lemma join_v4_length f : sdf_ok f -> (length (join " "%char (words_v4 f)) <= 77)%nat.
Proof.
  intros Hf. destruct Hf. unfold words_v4, proto_text. cbn [join]. change (length (lit "0x")) with 2%nat.
  repeat (rewrite !length_app || cbn [length]). change (length (lit "0x")) with 2%nat. change (length (lit "/0x")) with 3%nat. change (length port_dlm) with 1%nat.
  pose proof (net_length (ulocalip f) (local_ip_mask f) ltac:(lia) ltac:(lia)). pose proof (net_length (uremoteip f) (remote_ip_mask f) ltac:(lia) ltac:(lia)).
  pose proof (fmt_u_len 5 (local_port_low f) ltac:(lia) ltac:(simpl; lia)).
  pose proof (fmt_u_len 5 (local_port_high f) ltac:(lia) ltac:(simpl; lia)).
  pose proof (fmt_u_len 5 (remote_port_low f) ltac:(lia) ltac:(simpl; lia)).
  pose proof (fmt_u_len 5 (remote_port_high f) ltac:(lia) ltac:(simpl; lia)).
  pose proof (fmt_x_length (proto_id f)). pose proof (fmt_x_length (proto_mask f)). lia.
Qed.

(** The rule that the words of a filter make, with the networks in either order. *)
Lemma parse_words f tail sa da src dst :
  sdf_ok f -> Forall (fun c => is_dlm c = true) tail -> word sa -> word da ->
  parse_ipv4_net sa = Some src -> parse_ipv4_net da = Some dst ->
  parse_cb_ipv4vlan_rule (join " "%char (sa :: da :: drop 2 (words_v4 f)) ++ tail) =
  Some [proto_field f; src; dst; local_ports f; remote_ports f].
Proof.
  intros Hf Ht Hsa Hda Hs Hd. unfold parse_cb_ipv4vlan_rule.
  assert (Forall word (sa :: da :: drop 2 (words_v4 f))) as Hw.
  { pose proof (words_v4_words f Hf) as H. unfold words_v4 in *. rewrite !Forall_cons in *. cbn [drop]. by rewrite !Forall_cons; split_and!; try apply H. }
  change (tokens 9) with (tokens (length (sa :: da :: drop 2 (words_v4 f)))).
  rewrite (tokens_join (sa :: da :: drop 2 (words_v4 f)) tail Hw Ht). cbn [mbind option_bind]. unfold words_v4. cbn [drop].
  destruct Hf. rewrite Hs, Hd. cbn [mbind option_bind].
  rewrite parse_port_words by lia. cbn [mbind option_bind]. rewrite (bool_decide_true (port_dlm = port_dlm)) by done.
  cbn [negb]. rewrite parse_port_words by lia. cbn [mbind option_bind negb].
  rewrite !port_field_ordered by lia. cbn [orb]. rewrite parse_proto_text by lia. done.
Qed.

Lemma to_string_words inet_ntop6 f old direction :
  sdf_ok f -> direction = TFT_DIRECTION_DOWNLINK_ONLY \/ direction = TFT_DIRECTION_UPLINK_ONLY ->
  sdf_pkt_filter_to_string inet_ntop6 f old direction = (f, join " "%char (words_v4 f)).
Proof.
  intros Hf Hd. unfold sdf_pkt_filter_to_string. rewrite (ok_v4 f Hf). cbn [negb andb]. rewrite (ok_v4 f Hf).
  assert ((direction =? TFT_DIRECTION_DOWNLINK_ONLY) || (direction =? TFT_DIRECTION_UPLINK_ONLY) = true) as -> by (destruct Hd as [-> | ->]; reflexivity).
  pose proof (join_v4_length f Hf). rewrite take_ge; [done|unfold MAX_LEN; lia].
Qed.

Lemma swap_words f : sdf_ok f ->
  swap_src_dst_ip (join " "%char (words_v4 f)) =
  join " "%char (net (inet_ntoa (uremoteip f)) (remote_ip_mask f) :: net (inet_ntoa (ulocalip f)) (local_ip_mask f) ::
    drop 2 (words_v4 f)) ++ [newline].
Proof.
  intros Hf. pose proof (words_v4_words f Hf) as Hw. pose proof (join_v4_length f Hf) as Hl.
  unfold words_v4 in *. rewrite !Forall_cons in Hw. destruct Hw as (Hw0 & Hw1 & _). cbn [drop].
  set (w0 := net (inet_ntoa (ulocalip f)) _) in *. set (w1 := net (inet_ntoa (uremoteip f)) _) in *.
  set (ws := [fmt_u (local_port_low f); _; _; _; _; _; _]) in *.
  change (join " "%char (w0 :: w1 :: ws)) with (w0 ++ " "%char :: w1 ++ " "%char :: join " "%char ws) in *.
  change (join " "%char (w1 :: w0 :: ws)) with (w1 ++ " "%char :: w0 ++ " "%char :: join " "%char ws).
  rewrite !length_app in Hl. cbn [length] in Hl. rewrite !length_app in Hl. cbn [length] in Hl.
  unfold swap_src_dst_ip. rewrite (strtok_word _ _ Hw0), (take_token_word _ _ _ (proj2 Hw0)) by done.
  rewrite (strtok_word _ _ Hw1), (take_token_word _ _ _ (proj2 Hw1)) by done. cbn [text_of default from_option].
  unfold id. rewrite <- !app_assoc. cbn [app]. rewrite <- !app_assoc. cbn [app].
  apply take_ge. rewrite !length_app. cbn [length]. rewrite !length_app. cbn [length]. rewrite length_app. cbn [length]. unfold MAX_LEN. lia.
Qed.

Lemma parse_downlink f : sdf_ok f ->
  parse_cb_ipv4vlan_rule (join " "%char (words_v4 f)) = Some [proto_field f; local_net f; remote_net f; local_ports f; remote_ports f].
Proof.
  intros Hf. pose proof Hf as Hf'. destruct Hf'. rewrite <- (app_nil_r (join _ _)).
  apply (parse_words f []); try done; try (apply word_net; lia); apply parse_net; lia.
Qed.

(** C27. A filter printed by the control plane is read back by the user plane as the rule of
    its protocol, networks and port ranges; a downlink rule has the local side as source.
    For an uplink rule the user plane exchanges the networks, but not the ports: the rule
    asks for the local ports on the source and the remote ports on the destination, whose
    networks are the remote and the local one. *)
Theorem flow_description_read_back inet_ntop6 f old direction :
  sdf_ok f -> direction = TFT_DIRECTION_DOWNLINK_ONLY \/ direction = TFT_DIRECTION_UPLINK_ONLY ->
  let s := snd (sdf_pkt_filter_to_string inet_ntop6 f old direction) in
  parse_cb_ipv4vlan_rule s = Some [proto_field f; local_net f; remote_net f; local_ports f; remote_ports f] /\
  parse_cb_ipv4vlan_rule (swap_src_dst_ip s) = Some [proto_field f; remote_net f; local_net f; local_ports f; remote_ports f] /\
  get_rule_ip_type s = Some false.
Proof.
  intros Hf Hd s. subst s. rewrite (to_string_words inet_ntop6 f old direction Hf Hd). cbn [snd].
  pose proof (words_v4_words f Hf) as Hw. pose proof Hf as Hf'. destruct Hf'.
  assert (parse_ipv4_net (net (inet_ntoa (ulocalip f)) (local_ip_mask f)) = Some (local_net f)) as Hl by (apply parse_net; lia).
  assert (parse_ipv4_net (net (inet_ntoa (uremoteip f)) (remote_ip_mask f)) = Some (remote_net f)) as Hr by (apply parse_net; lia).
  split_and!.
  - by apply parse_downlink.
  - rewrite swap_words by done. apply parse_words; try done; [by repeat constructor|apply word_net; lia..].
  - unfold get_rule_ip_type. change (join " "%char (words_v4 f)) with
      (net (inet_ntoa (ulocalip f)) (local_ip_mask f) ++ " "%char :: join " "%char (tail (words_v4 f))).
    rewrite Forall_forall in Hw. assert (word (net (inet_ntoa (ulocalip f)) (local_ip_mask f))) as Hw0 by (apply word_net; lia).
    rewrite (strtok_word _ _ Hw0), (take_token_word _ _ _ (proj2 Hw0)) by done. cbn [mbind option_bind].
    by rewrite bool_decide_false by (apply net_no_colon; lia).
Qed.

(** ** IPv6 rules *)

Lemma fmt_02x_spec b :
  exists c d, fmt_02x b = [c; d] /\ digit_value 16 c = Some (byte_to_Z b / 16) /\ digit_value 16 d = Some (byte_to_Z b mod 16) /\
    isxdigit c = true /\ isxdigit d = true /\ d <> "x"%char /\ d <> "X"%char.
Proof.
  pose proof (byte_to_Z_range b).
  assert (0 <= byte_to_Z b / 16 < 16) as Hq by (split; [apply Z.div_pos|apply Z.div_lt_upper_bound]; lia).
  assert (0 <= byte_to_Z b mod 16 < 16) as Hm by (apply Z.mod_pos_bound; lia).
  destruct (hex_char_spec _ Hq) as (H1 & H2 & _). destruct (hex_char_spec _ Hm) as (H3 & H4 & H5 & H6).
  by exists (hex_char (byte_to_Z b / 16)), (hex_char (byte_to_Z b mod 16)).
Qed.

Lemma isxdigit_unsigned c s : isxdigit c = true ->
  skip_spaces (c :: s) = c :: s /\ c <> "-"%char /\ c <> "+"%char.
Proof. by destruct c as [[] [] [] [] [] [] [] []]. Qed.

Lemma get_cb_hex d b0 b1 r : isalnum d = false ->
  get_cb_field 16 65535 (Some d) (fmt_02x b0 ++ fmt_02x b1 ++ d :: r) = Some (256 * byte_to_Z b0 + byte_to_Z b1, r).
Proof.
  intros Hd. destruct (fmt_02x_spec b0) as (c0 & c1 & -> & V0 & V1 & X0 & _ & N1 & N1').
  destruct (fmt_02x_spec b1) as (c2 & c3 & -> & V2 & V3 & _). cbn [app].
  pose proof (byte_to_Z_range b0); pose proof (byte_to_Z_range b1).
  assert (strtoul 16 (c0 :: c1 :: c2 :: c3 :: d :: r) = (256 * byte_to_Z b0 + byte_to_Z b1, d :: r, false)) as E.
  { destruct (isxdigit_unsigned c0 (c1 :: c2 :: c3 :: d :: r) X0) as (Hs & Hm & Hp). unfold strtoul. rewrite Hs.
    replace (match c0 :: c1 :: c2 :: c3 :: d :: r with
             | "-"%char :: s1 => (true, s1) | "+"%char :: s1 => (false, s1) | s1 => (false, s1) end)
      with (false, c0 :: c1 :: c2 :: c3 :: d :: r) by (by destruct c0 as [[] [] [] [] [] [] [] []]).
    replace (hex_prefix (c0 :: c1 :: c2 :: c3 :: d :: r)) with (@None text).
    2: { destruct c0 as [[] [] [] [] [] [] [] []]; try done. cbn [hex_prefix]. by rewrite !bool_decide_false. }
    change (16 =? 0) with false. cbv iota. rewrite V0. cbn [digits_read].
    rewrite V0, V1, V2, V3. rewrite (digit_value_alnum 16 d Hd).
    replace ((((0 * 16 + byte_to_Z b0 / 16) * 16 + byte_to_Z b0 mod 16) * 16 + byte_to_Z b1 / 16) * 16 + byte_to_Z b1 mod 16)
      with (256 * byte_to_Z b0 + byte_to_Z b1)
      by (pose proof (Z.div_mod (byte_to_Z b0) 16); pose proof (Z.div_mod (byte_to_Z b1) 16); lia).
    destruct (Z.ltb_spec (256 * byte_to_Z b0 + byte_to_Z b1) (2 ^ 64)); [done|lia]. }
  unfold get_cb_field. rewrite E. cbn [orb]. destruct (Z.ltb_spec 65535 (256 * byte_to_Z b0 + byte_to_Z b1)); [lia|].
  by rewrite bool_decide_true.
Qed.

(** The four words of an address of 16 bytes. *)
Definition addr_words (a : list byte) : list Z :=
  [be_val (take 4 a); be_val (take 4 (drop 4 a)); be_val (take 4 (drop 8 a)); be_val (take 4 (drop 12 a))].

Lemma word32 b0 b1 b2 b3 :
  u32 (Z.shiftl (256 * byte_to_Z b0 + byte_to_Z b1) 16 + (256 * byte_to_Z b2 + byte_to_Z b3)) = be_val [b0; b1; b2; b3].
Proof.
  pose proof (byte_to_Z_range b0); pose proof (byte_to_Z_range b1); pose proof (byte_to_Z_range b2); pose proof (byte_to_Z_range b3).
  rewrite Z.shiftl_mul_pow2 by lia. rewrite wrap_small by lia. unfold be_val. cbn [reverse rev_append le_val]. cbn. lia.
Qed.

(** The text [ip] up to the slash, and an address behind it. *)
Definition plain_ip (ip : text) : Prop := ip <> [] /\ ("/"%char ∉ ip) /\ Forall (fun c => is_dlm c = false) ip.

Lemma strtok_slash_app ip m : plain_ip ip -> strtok_slash (ip ++ "/"%char :: m) = Some (ip, m).
Proof.
  intros (Hn & Hs & _). unfold strtok_slash.
  assert (skip_slashes (ip ++ "/"%char :: m) = ip ++ "/"%char :: m) as ->.
  { destruct ip as [|c ip]; [done|]. apply not_elem_of_cons in Hs as [Hc _]. cbn [app skip_slashes]. by destruct c as [[] [] [] [] [] [] [] []]. }
  assert (Forall (fun c => c <> "/"%char) ip) as HF by (apply Forall_forall; intros x Hx ->; done).
  pose proof (take_until_app "/"%char ip m HF) as E. destruct ip as [|c ip]; [done|]. cbn [app] in *. by rewrite E.
Qed.

Lemma parse_ipv6_addr_value inet_pton6 ip m a :
  plain_ip ip -> inet_pton6 ip = Some a -> length a = 16%nat ->
  parse_ipv6_addr inet_pton6 (ip ++ "/"%char :: m) "/"%char = Some (addr_words a, take 87 m).
Proof.
  intros Hp Ha Hl. unfold parse_ipv6_addr. rewrite strtok_slash_app by done. cbn [mbind option_bind]. rewrite Ha. cbn [mbind option_bind].
  do 16 (destruct a as [|?b a]; [done|]). destruct a; [|done].
  assert (length (ipv6_expander [b; b0; b1; b2; b3; b4; b5; b6; b7; b8; b9; b10; b11; b12; b13; b14]) = 39%nat) as Hle by done.
  rewrite take_app, Hle. change (MAX_LEN - 1 - 39)%nat with 88%nat. rewrite (take_ge (ipv6_expander _)) by (rewrite Hle; unfold MAX_LEN; lia).
  change (take 88 ("/"%char :: m)) with ("/"%char :: take 87 m). generalize (take 87 m) as rest. intros rest.
  unfold ipv6_expander. cbn [ipv6_groups join replicate app hex_fields].
  repeat (rewrite <- !app_assoc; cbn [app]).
  do 8 (rewrite get_cb_hex by done; cbn [mbind option_bind]). cbn [mbind option_bind words32]. by rewrite !word32.
Qed.

(** The network of an IPv6 rule under a mask of [n] bits. *)
Definition net6 (a : list byte) (n : Z) : list acl_field := zip_with mk_field (addr_words a) (map (word_mask n) (seq 0 4)).

Lemma parse_ipv6_net_value inet_pton6 after_free ip m a n :
  plain_ip ip -> inet_pton6 ip = Some a -> length a = 16%nat -> 0 <= n <= 128 -> after_free (take 87 m) = fmt_u n ->
  parse_ipv6_net inet_pton6 after_free (ip ++ "/"%char :: m) = Some (net6 a n).
Proof.
  intros Hp Ha Hl Hn Hf. unfold parse_ipv6_net. rewrite (parse_ipv6_addr_value inet_pton6 ip m a) by done. cbn [mbind option_bind].
  rewrite Hf. by rewrite get_cb_dec_end by lia.
Qed.

Lemma word_net6 ip m : plain_ip ip -> 0 <= m -> word (net ip m).
Proof.
  intros (Hn & _ & HF) Hm. split; [by destruct ip|]. unfold net. apply Forall_app. split; [done|].
  constructor; [done|by apply fmt_u_no_dlm].
Qed.

(** A text of [inet_ntop]. *)
Definition ip6_text (inet_pton6 : text -> option (list byte)) (inet_ntop6 : list byte -> text) (a : list byte) : Prop :=
  plain_ip (inet_ntop6 a) /\ (":"%char ∈ inet_ntop6 a) /\ (length (inet_ntop6 a) <= 45)%nat /\
  inet_pton6 (inet_ntop6 a) = Some a /\ length a = 16%nat.

Lemma default_mask_range m : 0 <= m < 256 -> 0 <= default_mask m <= 128.
Proof. intros H. unfold default_mask, DEFAULT_IPV6_MASK. destruct (Z.eqb_spec m 0), (Z.ltb_spec 128 m); cbn [orb]; lia. Qed.

Lemma fmt_u_inj a b : 0 <= a <= 128 -> 0 <= b <= 128 -> fmt_u a = fmt_u b -> a = b.
Proof.
  intros Ha Hb E. pose proof (get_cb_dec_end 128 a Ha ltac:(lia)) as E1. pose proof (get_cb_dec_end 128 b Hb ltac:(lia)) as E2.
  rewrite E in E1. rewrite E1 in E2. by injection E2.
Qed.

(** The rule that the words of an IPv6 filter make. *)
Lemma parse_words6 inet_pton6 inet_ntop6 after_free f n1 n2 :
  ip6_text inet_pton6 inet_ntop6 (ulocalip f) -> ip6_text inet_pton6 inet_ntop6 (uremoteip f) ->
  0 <= local_ip_mask f <= 128 -> 0 <= remote_ip_mask f <= 128 -> 0 <= n1 <= 128 -> 0 <= n2 <= 128 ->
  0 <= proto_id f < 256 -> 0 <= proto_mask f < 256 ->
  after_free (fmt_u (local_ip_mask f)) = fmt_u n1 -> after_free (fmt_u (remote_ip_mask f)) = fmt_u n2 ->
  let s := join " "%char (words_v6 inet_ntop6 f) in
  take (MAX_LEN - 1) s = s /\
  get_rule_ip_type s = Some true /\
  parse_cb_ipv6_rule inet_pton6 after_free s = Some (proto_field f :: net6 (ulocalip f) n1 ++ net6 (uremoteip f) n2).
Proof.
  intros (Pl & Cl & Ll & Vl & Hl) (Pr & _ & Lr & Vr & Hr) Ml Mr Hn1 Hn2 Hp Hpm F1 F2 s.
  pose proof (fmt_u_len 3 (local_ip_mask f) ltac:(lia) ltac:(simpl; lia)) as L1.
  pose proof (fmt_u_len 3 (remote_ip_mask f) ltac:(lia) ltac:(simpl; lia)) as L2.
  assert (Forall word (words_v6 inet_ntop6 f)) as Hw.
  { unfold words_v6. rewrite !Forall_cons. split_and!; [apply word_net6; done || lia..|by apply word_proto|done]. }
  split_and!.
  - apply take_ge. unfold s, words_v6, net, proto_text. cbn [join].
    repeat (rewrite !length_app || cbn [length]). change (length (lit "0x")) with 2%nat. change (length (lit "/0x")) with 3%nat.
    pose proof (fmt_x_length (proto_id f)). pose proof (fmt_x_length (proto_mask f)). unfold MAX_LEN. lia.
  - unfold get_rule_ip_type. change s with (net (inet_ntop6 (ulocalip f)) (local_ip_mask f) ++ " "%char :: join " "%char (tail (words_v6 inet_ntop6 f))).
    inversion Hw as [|? ? Hw0 _]; subst. rewrite (strtok_word _ _ Hw0), (take_token_word _ _ _ (proj2 Hw0)) by done.
    cbn [mbind option_bind]. rewrite bool_decide_true; [done|]. unfold net. apply elem_of_app. by left.
  - unfold parse_cb_ipv6_rule, s. rewrite <- (app_nil_r (join _ _)). change (tokens 3) with (tokens (length (words_v6 inet_ntop6 f))).
    rewrite (tokens_join _ [] Hw) by done. cbn [mbind option_bind words_v6]. unfold net.
    rewrite (parse_ipv6_net_value inet_pton6 after_free _ _ _ n1 Pl Vl Hl Hn1) by (by rewrite take_ge by lia).
    rewrite (parse_ipv6_net_value inet_pton6 after_free _ _ _ n2 Pr Vr Hr Hn2) by (by rewrite take_ge by lia).
    cbn [mbind option_bind]. by rewrite parse_proto_text.
Qed.

(** An IPv6 filter printed by the control plane, with 128 for a mask that is 0 or greater,
    is read back by the user plane as the rule of its protocol and addresses; the masks are
    the numbers that stand in the freed buffers of the two addresses, so they are those of
    the filter only as long as the allocator leaves the buffers alone. *)
Theorem ipv6_rule_read_back inet_pton6 inet_ntop6 after_free f old direction n1 n2 :
  v4 f = false -> v6 f = true -> direction = TFT_DIRECTION_DOWNLINK_ONLY \/ direction = TFT_DIRECTION_UPLINK_ONLY ->
  ip6_text inet_pton6 inet_ntop6 (ulocalip f) -> ip6_text inet_pton6 inet_ntop6 (uremoteip f) ->
  0 <= local_ip_mask f < 256 -> 0 <= remote_ip_mask f < 256 -> 0 <= proto_id f < 256 -> 0 <= proto_mask f < 256 ->
  0 <= n1 <= 128 -> 0 <= n2 <= 128 ->
  after_free (fmt_u (default_mask (local_ip_mask f))) = fmt_u n1 ->
  after_free (fmt_u (default_mask (remote_ip_mask f))) = fmt_u n2 ->
  let s := snd (sdf_pkt_filter_to_string inet_ntop6 f old direction) in
  get_rule_ip_type s = Some true /\
  parse_cb_ipv6_rule inet_pton6 after_free s = Some (proto_field f :: net6 (ulocalip f) n1 ++ net6 (uremoteip f) n2) /\
  ((forall t, after_free t = t) -> n1 = default_mask (local_ip_mask f) /\ n2 = default_mask (remote_ip_mask f)).
Proof.
  intros H4 H6 Hd Hl Hr Ml Mr Hp Hpm Hn1 Hn2 F1 F2 s.
  destruct (parse_words6 inet_pton6 inet_ntop6 after_free (set_default_masks f) n1 n2) as (T & G & E); try done;
    try by apply default_mask_range.
  assert (s = join " "%char (words_v6 inet_ntop6 (set_default_masks f))) as ->.
  { unfold s, sdf_pkt_filter_to_string. rewrite H4, H6. cbn [negb andb snd set_default_masks v4 v6]. rewrite H4, H6.
    replace ((direction =? TFT_DIRECTION_DOWNLINK_ONLY) || (direction =? TFT_DIRECTION_UPLINK_ONLY)) with true by (by destruct Hd as [->| ->]).
    exact T. }
  split_and!; [done|exact E|]. intros Hid. rewrite Hid in F1, F2. pose proof (default_mask_range _ Ml). pose proof (default_mask_range _ Mr).
  split; by apply fmt_u_inj.
Qed.

(** ** From Gx to the user plane *)

(** What the documentation of [rte_strsplit] says of words that a delimiter separates. *)
Definition strsplit_ok (rte_strsplit : text -> nat -> ascii -> list text) : Prop :=
  forall ws n d, Forall (fun w => w <> [] /\ (d ∉ w)) ws -> (length ws <= n)%nat -> rte_strsplit (join d ws) n d = ws.

(** An address of a flow description: any, a host, or a network with its mask. *)
Inductive gx_addr := GxAny | GxHost (ip : text) | GxNet (ip : text) (m : Z).

Definition gx_text (x : gx_addr) : text :=
  match x with GxAny => lit "any" | GxHost ip => ip | GxNet ip m => net ip m end.

(** An IPv4 address in text form, and the bytes [inet_pton] gives for it. *)
Definition ip_text (inet_pton4 : text -> option (list byte)) (ip : text) (a : list byte) : Prop :=
  ("."%char ∈ ip) /\ (":"%char ∉ ip) /\ ("/"%char ∉ ip) /\ (" "%char ∉ ip) /\ inet_pton4 ip = Some a /\ length a = 4%nat.

(** The network a filter gets: no address and no mask for any, mask 0 for a host. *)
Definition gx_net (inet_pton4 : text -> option (list byte)) (x : gx_addr) (a : list byte) (m : Z) : Prop :=
  match x with
  | GxAny => a = replicate 4 x00 /\ m = 0
  | GxHost ip => ip_text inet_pton4 ip a /\ m = 0
  | GxNet ip m' => ip_text inet_pton4 ip a /\ m = m' /\ 0 <= m' <= 32
  end.

Definition is_any (x : gx_addr) : bool := match x with GxAny => true | _ => false end.

(** An empty filter. *)
Definition sdf0 : sdf_pkt_fltr := mk_sdf 0 false false 0 0 0 0 0 0 0 (replicate 16 x00) (replicate 16 x00).

(** A range of ports. *)
Definition range_text (l h : Z) : text := join "-"%char [fmt_u l; fmt_u h].

Section GxLemmas.
Context (inet_pton4 inet_pton6 : text -> option (list byte)) (rte_strsplit : text -> nat -> ascii -> list text).
Context (Hsplit : strsplit_ok rte_strsplit).

Lemma digits_without d z : 0 <= z -> isdigit d = false -> d ∉ fmt_u z.
Proof.
  intros Hz Hd Hin. pose proof (dec_digits_isdigit 10 z Hz) as H. rewrite Forall_forall in H. specialize (H _ Hin). congruence.
Qed.

Lemma fmt_u_nonempty z : fmt_u z <> [].
Proof. unfold fmt_u. destruct (dec_digits_nonempty 10 z ltac:(lia)) as (c & l & ->). done. Qed.

Lemma split_two d w1 w2 : w1 <> [] -> (d ∉ w1) -> w2 <> [] -> (d ∉ w2) -> rte_strsplit (join d [w1; w2]) 2 d = [w1; w2].
Proof. intros. apply Hsplit; [|done]. rewrite !Forall_cons. by split_and!. Qed.

Lemma sdf_ports_range l h s : 0 <= l < 65536 -> 0 <= h < 65536 ->
  sdf_ports rte_strsplit (range_text l h) s = Some (with_ports l h s).
Proof.
  intros Hl Hh. unfold sdf_ports. rewrite bool_decide_true.
  2: { unfold range_text. cbn [join]. rewrite elem_of_app, elem_of_cons. auto. }
  unfold range_text. rewrite split_two by (apply fmt_u_nonempty || (apply digits_without; [lia|done])).
  cbn [lookup list_lookup mbind option_bind]. change ([fmt_u l; fmt_u h] !! 0%nat) with (Some (fmt_u l)).
  change ([fmt_u l; fmt_u h] !! 1%nat) with (Some (fmt_u h)). cbn [mbind option_bind].
  rewrite !atoi_u16 by done. by rewrite !wrap_small by lia.
Qed.

Lemma not_any t : ("."%char ∈ t) -> strncmp_eq NUM_VALS t (lit "any") = false.
Proof.
  intros Hd. apply not_true_iff_false. intros H.
  assert (t = lit "any") as ->; [|by repeat (apply elem_of_cons in Hd as [Hd|Hd]; [done|]); apply elem_of_nil in Hd].
  change (lit "any") with ["a"%char; "n"%char; "y"%char] in *. unfold NUM_VALS in H.
  destruct t as [|a [|b [|c [|d t]]]]; cbn [strncmp_eq] in H; rewrite ?andb_true_iff, ?bool_decide_eq_true in H; intuition congruence.
Qed.

(** One side of an empty filter after its address has been read. *)
Lemma sdf_address_gx x a m s :
  gx_net inet_pton4 x a m -> s_ip s = replicate 16 x00 -> s_mask s = 0 -> s_v6 s = false ->
  exists ip, sdf_address inet_pton4 inet_pton6 rte_strsplit (gx_text x) s =
      Some (mk_side ip m (s_low s) (s_high s) (s_v4 s || negb (is_any x)) false) /\
    length ip = 16%nat /\ take 4 ip = a.
Proof.
  intros Hx Hip Hm Hv6. destruct s as [sip sm sl sh sv4 sv6]. cbn [s_ip s_mask s_v6 s_low s_high s_v4] in *. subst sip sm sv6.
  unfold sdf_address. destruct x as [|ip|ip m']; cbn [gx_text is_any negb].
  - destruct Hx as [-> ->]. exists (replicate 16 x00). rewrite orb_false_r. done.
  - destruct Hx as [(Hd & Hc & Hs & _ & Ha & Hl) ->]. rewrite (not_any ip Hd), bool_decide_false, bool_decide_false, bool_decide_true by done.
    unfold read_ip. cbn [s_ip s_mask s_low s_high s_v4 s_v6 negb orb]. rewrite Ha. cbn [fmap option_fmap option_map default from_option].
    exists (id (a ++ drop IPV4_BYTES (replicate 16 x00))). split; [done|]. unfold id. rewrite length_app, length_drop, length_replicate, Hl.
    split; [done|]. rewrite take_app_le by lia. apply take_ge. lia.
  - destruct Hx as [(Hd & Hc & Hs & _ & Ha & Hl) [-> Hm]]. unfold net.
    assert ("."%char ∈ ip ++ "/"%char :: fmt_u m') as Hd' by (apply elem_of_app; auto).
    rewrite (not_any _ Hd'), bool_decide_true by (apply elem_of_app; right; apply elem_of_cons; auto).
    change (ip ++ "/"%char :: fmt_u m') with (join "/"%char [ip; fmt_u m']).
    assert (ip <> []) as Hne by (intros ->; by apply elem_of_nil in Hd).
    rewrite split_two by (apply fmt_u_nonempty || done || (apply digits_without; [lia|done])).
    change ([ip; fmt_u m'] !! 0%nat) with (Some ip). change ([ip; fmt_u m'] !! 1%nat) with (Some (fmt_u m')). cbn [mbind option_bind].
    rewrite bool_decide_false, bool_decide_true by done. rewrite atoi_u16 by lia.
    unfold read_ip, with_mask. cbn [s_ip s_mask s_low s_high s_v4 s_v6 negb orb]. rewrite Ha. cbn [fmap option_fmap option_map default from_option].
    exists (id (a ++ drop IPV4_BYTES (replicate 16 x00))). rewrite wrap_small by lia. split; [done|]. unfold id.
    rewrite length_app, length_drop, length_replicate, Hl. split; [done|]. rewrite take_app_le by lia. apply take_ge. lia.
Qed.

Lemma gx_text_word x a m : gx_net inet_pton4 x a m -> gx_text x <> [] /\ (" "%char ∉ gx_text x).
Proof.
  destruct x as [|ip|ip m']; cbn [gx_net gx_text].
  - intros _. split; [done|]. intros H. by repeat (apply elem_of_cons in H as [H|H]; [done|]); apply elem_of_nil in H.
  - intros [(Hd & _ & _ & Hs & _) _]. split; [|done]. intros ->. by apply elem_of_nil in Hd.
  - intros [(Hd & _ & _ & Hs & _) [_ Hm]]. unfold net. split; [by destruct ip|]. rewrite not_elem_of_app, not_elem_of_cons.
    split_and!; [done|done|apply digits_without; [lia|done]].
Qed.

Lemma range_word l h : 0 <= l -> 0 <= h -> range_text l h <> [] /\ (" "%char ∉ range_text l h).
Proof.
  intros Hl Hh. unfold range_text. cbn [join]. split.
  - pose proof (fmt_u_nonempty l). by destruct (fmt_u l).
  - rewrite not_elem_of_app, not_elem_of_cons. split_and!; [|done|]; (apply digits_without; [lia|done]).
Qed.

Lemma lit_word t : t <> [] -> (" "%char ∉ t) -> t <> [] /\ (" "%char ∉ t).
Proof. done. Qed.

(** The words of a flow description. *)
Definition gx_words (dir : text) (p : Z) (la ra : gx_addr) (l1 h1 l2 h2 : Z) : list text :=
  [lit "permit"; dir; fmt_u p; lit "from"; gx_text la; range_text l1 h1; lit "to"; gx_text ra; range_text l2 h2].

Lemma range_dash l h : "-"%char ∈ range_text l h.
Proof. unfold range_text. cbn [join]. rewrite elem_of_app, elem_of_cons. auto. Qed.

Lemma step indx fld flds f offset f' offset' :
  sdf_field inet_pton4 inet_pton6 rte_strsplit indx fld f offset = Some (f', offset', false) ->
  sdf_fields inet_pton4 inet_pton6 rte_strsplit indx (fld :: flds) f offset =
  sdf_fields inet_pton4 inet_pton6 rte_strsplit (indx + 1) flds f' offset'.
Proof. intros E. cbn [sdf_fields]. by rewrite E. Qed.

Local Abbreviation sdf_field := (sdf_field inet_pton4 inet_pton6 rte_strsplit).
Local Abbreviation sdf_address := (sdf_address inet_pton4 inet_pton6 rte_strsplit).
Lemma field4 fld f o s : sdf_address fld (local_side f) = Some s -> sdf_field 4 fld f o = Some (put_local s f, o, false).
Proof. intros E. unfold SdfText.sdf_field. cbn [Z.eqb Pos.eqb]. by rewrite E. Qed.
Lemma field5 fld f o s : strncmp_eq NUM_VALS fld (lit "to") = false -> sdf_ports rte_strsplit fld (local_side f) = Some s ->
  sdf_field 5 fld f o = Some (put_local s f, o, false).
Proof. intros Ht E. unfold SdfText.sdf_field. cbn [Z.eqb Pos.eqb]. by rewrite Ht, E. Qed.
Lemma field7 fld f s : sdf_address fld (remote_side f) = Some s -> sdf_field 7 fld f 0 = Some (put_remote s f, 0, false).
Proof. intros E. unfold SdfText.sdf_field. cbn [Z.eqb Pos.eqb Z.add]. by rewrite E. Qed.
Lemma field8 fld f s : sdf_ports rte_strsplit fld (remote_side f) = Some s -> sdf_field 8 fld f 0 = Some (put_remote s f, 0, false).
Proof. intros E. unfold SdfText.sdf_field. cbn [Z.eqb Pos.eqb Z.add]. by rewrite E. Qed.

Lemma fill_sdf_gx dir p la ra a b ma mb l1 h1 l2 h2 :
  dir <> [] -> (" "%char ∉ dir) -> 0 <= p < 256 -> gx_net inet_pton4 la a ma -> gx_net inet_pton4 ra b mb ->
  0 <= l1 < 65536 -> 0 <= h1 < 65536 -> 0 <= l2 < 65536 -> 0 <= h2 < 65536 ->
  exists ipa ipb, fill_sdf_strctr inet_pton4 inet_pton6 rte_strsplit (join " "%char (gx_words dir p la ra l1 h1 l2 h2)) sdf0 =
      Some (mk_sdf p (negb (is_any la) || negb (is_any ra)) false 0 ma mb l1 h1 l2 h2 ipa ipb, true) /\
    length ipa = 16%nat /\ length ipb = 16%nat /\ take 4 ipa = a /\ take 4 ipb = b.
Proof.
  intros Hd Hd' Hp Hla Hra Hl1 Hh1 Hl2 Hh2. unfold fill_sdf_strctr.
  assert (forall (c : ascii) (t : text), (c ∉ t) <-> Forall (fun x => c <> x) t) as Hnot.
  { intros c t. rewrite Forall_forall. split; [intros H x Hx ->; done|intros H Hin; by apply (H c)]. }
  rewrite Hsplit; [|unfold gx_words; rewrite !Forall_cons; split_and!|cbn; unfold NUM_VALS; lia]; try done;
    try (apply range_word; lia); try (by eapply gx_text_word); try apply fmt_u_nonempty; try (apply digits_without; [lia|done]);
    try (apply Hnot; by repeat constructor).
  unfold gx_words.
  destruct (sdf_address_gx la a ma (mk_side (replicate 16 x00) 0 0 0 false false) Hla eq_refl eq_refl eq_refl) as (ipa & Ea & La & Ta).
  destruct (sdf_address_gx ra b mb (mk_side (replicate 16 x00) 0 0 0 (negb (is_any la)) false) Hra eq_refl eq_refl eq_refl) as (ipb & Eb & Lb & Tb).
  cbn [s_low s_high s_v4] in Ea, Eb. exists ipa, ipb. split; [|done].
  assert (forall t : text, ("-"%char ∈ t) -> strncmp_eq NUM_VALS t (lit "to") = false) as Hto.
  { intros t Hin. apply not_true_iff_false. intros H. change (lit "to") with ["t"%char; "o"%char] in H. unfold NUM_VALS in H.
    destruct t as [|x [|y [|z t]]]; cbn [strncmp_eq] in H; rewrite ?andb_true_iff, ?bool_decide_eq_true in H;
      rewrite ?elem_of_cons, ?elem_of_nil in Hin; intuition congruence. }
  rewrite (step 0 _ _ sdf0 0 sdf0 0), (step 1 _ _ sdf0 0 sdf0 0) by done.
  rewrite (step 2 _ _ sdf0 0 (put_proto p sdf0) 0) by (unfold sdf_field; cbn [Z.eqb Pos.eqb]; by rewrite atoi_u16, wrap_small by lia).
  rewrite (step 3 _ _ (put_proto p sdf0) 0 (put_proto p sdf0) 0) by done.
  rewrite (step 4 _ _ _ _ _ _ (field4 _ (put_proto p sdf0) 0 _ Ea)).
  rewrite (step 5 _ _ _ _ _ _ (field5 _ _ 0 _ (Hto _ (range_dash l1 h1)) (sdf_ports_range l1 h1 _ Hl1 Hh1))).
  rewrite (step 6 _ _ _ 0 _ 0 eq_refl).
  match goal with |- sdf_fields _ _ _ _ _ ?f 0 = _ => rewrite (step 7 _ _ f _ _ _ (field7 _ f _ Eb)) end.
  match goal with |- sdf_fields _ _ _ _ _ ?f 0 = _ => rewrite (step 8 _ _ f _ _ _ (field8 _ f _ (sdf_ports_range l2 h2 _ Hl2 Hh2))) end.
  done.
Qed.
End GxLemmas.

(** C28. From a flow description of Gx to the rule of the user plane.  The networks and port
    ranges arrive, but nothing sets the mask of the protocol, so the rule accepts every
    protocol; and a host without a mask has mask 0, so the rule accepts every address. *)
Theorem gx_filter_in_user_plane inet_pton4 inet_pton6 inet_ntop6 rte_strsplit dir p la ra a b ma mb l1 h1 l2 h2 old direction :
  strsplit_ok rte_strsplit -> dir <> [] -> (" "%char ∉ dir) -> 0 <= p < 256 ->
  gx_net inet_pton4 la a ma -> gx_net inet_pton4 ra b mb -> is_any la && is_any ra = false ->
  0 <= l1 <= h1 -> h1 < 65536 -> 0 <= l2 <= h2 -> h2 < 65536 ->
  direction = TFT_DIRECTION_DOWNLINK_ONLY \/ direction = TFT_DIRECTION_UPLINK_ONLY ->
  exists f, fill_sdf_strctr inet_pton4 inet_pton6 rte_strsplit (join " "%char (gx_words dir p la ra l1 h1 l2 h2)) sdf0 = Some (f, true) /\
    parse_cb_ipv4vlan_rule (snd (sdf_pkt_filter_to_string inet_ntop6 f old direction)) =
    Some [mk_field p 0; mk_field (be_val a) ma; mk_field (be_val b) mb; port_field l1 h1; port_field l2 h2].
Proof.
  intros Hs Hd Hd' Hp Hla Hra Hany Hl1 Hh1 Hl2 Hh2 Hdir.
  destruct (fill_sdf_gx inet_pton4 inet_pton6 rte_strsplit Hs dir p la ra a b ma mb l1 h1 l2 h2)
    as (ipa & ipb & E & La & Lb & Ta & Tb); try done; try lia.
  eexists. split; [exact E|]. clear E.
  assert (forall x a m, gx_net inet_pton4 x a m -> 0 <= m <= 32) as Hm.
  { intros [|ip|ip m'] a' m; cbn [gx_net]; [intros [_ ->]; lia|intros [_ ->]; lia|intros (_ & -> & ?); lia]. }
  replace (negb (is_any la) || negb (is_any ra)) with true by (by destruct (is_any la), (is_any ra)).
  set (f := mk_sdf _ _ _ _ _ _ _ _ _ _ _ _).
  assert (sdf_ok f) as Hf by (pose proof (Hm _ _ _ Hla); pose proof (Hm _ _ _ Hra); constructor; cbn; done || lia).
  rewrite (to_string_words inet_ntop6 f old direction Hf Hdir). cbn [snd]. rewrite parse_downlink by done.
  unfold proto_field, local_net, remote_net, local_ports, remote_ports, ipv4_value, f.
  cbn [proto_id proto_mask ulocalip uremoteip local_ip_mask remote_ip_mask local_port_low local_port_high remote_port_low remote_port_high].
  by rewrite Ta, Tb.
Qed.

(** ** Witnesses *)

(** TCP from port 80 of 8.8.8.8 to 10.0.0.0/24. *)
Definition sample_sdf : sdf_pkt_fltr :=
  mk_sdf 6 true false 255 32 24 80 80 0 0 ([x08; x08; x08; x08] ++ replicate 12 x00) ([x0a; x00; x00; x00] ++ replicate 12 x00).

Lemma flow_description_read_back_witness :
  let s := snd (sdf_pkt_filter_to_string (fun _ => []) sample_sdf [] TFT_DIRECTION_DOWNLINK_ONLY) in
  s = lit "8.8.8.8/32 10.0.0.0/24 80 : 80 0 : 0 0x6/0xff" /\
  parse_cb_ipv4vlan_rule (swap_src_dst_ip s) =
    Some [mk_field 6 255; mk_field 0x0a000000 24; mk_field 0x08080808 32; mk_field 80 80; mk_field 0 65535].
Proof.
  intros s. split; [reflexivity|].
  destruct (flow_description_read_back (fun _ => []) sample_sdf [] TFT_DIRECTION_DOWNLINK_ONLY) as (_ & H & _);
    [|by left|exact H]. constructor; cbn; done || lia.
Defined.

(** Membership of a character in a literal. *)
Ltac not_in := let H := fresh in intros H; by repeat (apply elem_of_cons in H as [H|H]; [done|]); apply elem_of_nil in H.
Ltac is_in := repeat (first [by apply elem_of_cons; left | apply elem_of_cons; right]).

Definition sample_ip6 : list byte := [x20; x01] ++ replicate 13 x00 ++ [x01].

(** A mask of 0, printed as 128, and a buffer that was overwritten with another number. *)
Lemma ipv6_rule_read_back_witness :
  parse_cb_ipv6_rule (fun _ => Some sample_ip6) (fun t => if bool_decide (t = lit "64") then lit "32" else t)
    (lit "2001::1/128 2001::1/64 0x6/0xff") = Some (mk_field 6 255 :: net6 sample_ip6 128 ++ net6 sample_ip6 32).
Proof.
  apply (ipv6_rule_read_back (fun _ => Some sample_ip6) (fun _ => lit "2001::1") (fun t => if bool_decide (t = lit "64") then lit "32" else t)
    (mk_sdf 6 false true 255 0 64 0 0 0 0 sample_ip6 sample_ip6) [] TFT_DIRECTION_UPLINK_ONLY 128 32);
    try done; try reflexivity; try (by right);
    (split_and!; [split_and!; [done|not_in|by repeat constructor]|is_in|cbn; lia|done|done]).
Defined.

(** A splitting function. *)
Fixpoint split_words (n : nat) (d : ascii) (s : text) : list text :=
  match n with
  | O => [s]
  | S n => if bool_decide (d ∈ s) then let '(t, r) := take_until d s in t :: split_words n d r else [s]
  end.
Definition strsplit (s : text) (n : nat) (d : ascii) : list text :=
  match s with [] => [] | _ => split_words (n - 1) d s end.

Lemma strsplit_is_ok : strsplit_ok strsplit.
Proof.
  intros ws n d H Hn. destruct H as [|w ws [Hw Hd] Hws]; [done|]. cbn [length] in Hn.
  assert (forall k, (length ws <= k)%nat -> split_words k d (join d (w :: ws)) = w :: ws) as Hk.
  { clear Hn Hw. revert w Hd. induction Hws as [|w2 ws [Hw2 Hd2] Hws IH]; intros w Hd k Hk.
    - cbn [join]. destruct k; cbn [split_words]; [done|]. by rewrite bool_decide_false.
    - cbn [length] in Hk. destruct k as [|k]; [lia|]. change (join d (w :: w2 :: ws)) with (w ++ d :: join d (w2 :: ws)).
      cbn [split_words]. rewrite bool_decide_true by (rewrite elem_of_app, elem_of_cons; auto).
      rewrite take_until_app by (apply Forall_forall; intros x Hx ->; done). by rewrite IH by (done || lia). }
  unfold strsplit. specialize (Hk (n - 1)%nat ltac:(lia)). destruct (join d (w :: ws)) eqn:E; [|exact Hk].
  destruct ws; cbn [join] in E; [done|by destruct w].
Defined.

(** ICMP from a host to any: the rule accepts every protocol from every address. *)
Lemma gx_filter_in_user_plane_witness :
  exists f, fill_sdf_strctr (fun _ => Some [x08; x08; x08; x08]) (fun _ => None) strsplit
      (lit "permit out 1 from 8.8.8.8 0-0 to any 0-0") sdf0 = Some (f, true) /\
    parse_cb_ipv4vlan_rule (snd (sdf_pkt_filter_to_string (fun _ => []) f [] TFT_DIRECTION_DOWNLINK_ONLY)) =
    Some [mk_field 1 0; mk_field 0x08080808 0; mk_field 0 0; mk_field 0 65535; mk_field 0 65535].
Proof.
  apply (gx_filter_in_user_plane (fun _ => Some [x08; x08; x08; x08]) (fun _ => None) (fun _ => []) strsplit (lit "out") 1
    (GxHost (lit "8.8.8.8")) GxAny [x08; x08; x08; x08] (replicate 4 x00) 0 0 0 0 0 0 [] TFT_DIRECTION_DOWNLINK_ONLY);
    try done; try lia; [exact strsplit_is_ok|not_in|].
  split; [|done]. split_and!; try done; [is_in|not_in..].
Defined.
