(* ===== verification/UpClassify.v ===== *)
(** * From a packet to its session and its PDR (dp/up.c, dp/up_sess_table.c, dp/up_acl.c,
    dp/up_pkt_handler.c)

    [ul_sess_info_get] and [dl_sess_info_get] find the session of each packet of a burst,
    by the TEID of its tunnel or by the address of the user, and sort the packets into
    those to relay and those whose tunnel headers are to be removed or added;
    [acl_sdf_lookup] classifies the user packets by the tables of packet filters of their
    session, and [get_pdr_info] takes the PDR of the precedence found.

    The library librte_acl is a parameter: [rte_acl_classify] gives the value of the rule
    that a context finds for the packet whose fields start at an offset, 0 if none.  The
    result of a lookup is a pointer to a cell of the table ([acl_search.res_ipv4] or
    [res_ipv6]), so later lookups in the table change what it points to. *)
From S2P Require Import Prelude NodeAddr LList UpSess Mbuf UpPacket UpTunnel.

Definition NOT_SET_OUT_HDR_RVL_CRT : Z := 4.
Definition GTP_GEMR : Z := 0xfe.
Definition GTPU_END_MARKER_REQUEST : Z := 254.
Definition UDP_PORT_GTPU_NW_ORDER : Z := 26632.
Definition VERSION_FLAG_CHECK : Z := 0xf0.
Definition IPv4_VERSION : Z := 0x40.

(** ** The tables of sessions *)

(** The sessions are a store; the tables hold their addresses. *)
Record sess_tables := mk_tables {
  sess_by_teid_hash : gmap Z positive;
  sess_by_ueip_hash : gmap ue_ip_t positive
}.

Definition iface_lookup_uplink_data (t : sess_tables) (teid : Z) : option positive :=
  sess_by_teid_hash t !! teid.
Definition iface_lookup_downlink_data (t : sess_tables) (key : ue_ip_t) : option positive :=
  sess_by_ueip_hash t !! key.

(** What the two functions write: the session of each packet and the masks; [lk_xcap] is
    [decap_pkts_mask] of the one, [encap_pkts_mask] of the other. *)
Record lookup_state := mk_lookup {
  lk_sess : list (option positive);
  lk_pkts : Z;
  lk_queue : Z;
  lk_snd_err : Z;
  lk_fwd : Z;
  lk_xcap : Z
}.

(** [(~0LLU) >> (64 - n)] *)
Definition burst_mask (n : nat) : Z := Z.shiftr (2 ^ 64 - 1) (64 - Z.of_nat n).

(** Sets [sess_data[j]]. *)
Definition put_sess (j : nat) (p : option positive) (s : lookup_state) : lookup_state :=
  mk_lookup (<[j := p]> (lk_sess s)) (lk_pkts s) (lk_queue s) (lk_snd_err s) (lk_fwd s) (lk_xcap s).

(** The bits of packet [j] that are reset or set. *)
Definition mark (j : nat) (reset queue snd_err fwd xcap : bool) (s : lookup_state) : lookup_state :=
  mk_lookup (lk_sess s) (reset_if reset (lk_pkts s) j) (set_if queue (lk_queue s) j)
    (set_if snd_err (lk_snd_err s) j) (set_if fwd (lk_fwd s) j) (set_if xcap (lk_xcap s) j).

Section Classify.
Context {mbuf : Type} `{Mbuf mbuf}.
Variable app : app_params.

Definition is_ether (type : Z) (m : mbuf) : bool := bool_decide (load m ether_type_off 2 = type).

(** ** ul_sess_info_get *)

(** The checks of a tunnelled packet of one IP version: [None] resets the packet's bit,
    otherwise the TEID that is looked up. *)
Definition ul_tunnel_teid (ip_type for_us : bool) (m : mbuf) : option Z :=
  if negb for_us then None else
  if bool_decide (ntohs (load m (get_mtoudp ip_type + udp_dst_port) 2) <> UDP_PORT_GTPU) then None else
  let teid := load m (get_mtogtpu ip_type + gtpu_teid) 4 in
  let msgtype := load m (get_mtogtpu ip_type + gtpu_msgtype) 1 in
  if bool_decide (teid = 0) || (bool_decide (msgtype <> GTP_GPDU) && bool_decide (msgtype <> GTPU_END_MARKER_REQUEST))
  then None else Some (ntohl teid).

(** The destination is one of the addresses of the west-bound interface. *)
Definition wb_ipv4_dst (m : mbuf) : bool :=
  let dst := ntohl (load m (get_mtoip + ipv4_dst_addr) 4) in
  negb (bool_decide (dst <> wb_ip app) && bool_decide (dst <> wb_li_ip app)).
Definition wb_ipv6_dst (m : mbuf) : bool :=
  let dst := peek m (get_mtoip + ipv6_dst_addr) 16 in
  negb (bool_decide (dst <> wb_ipv6 app) && bool_decide (dst <> wb_li_ipv6 app)).

(** The body of the first loop: a packet of another protocol keeps its bit, with key 0. *)
Definition ul_key (m : mbuf) : option Z :=
  if bool_decide (rte_pktmbuf_data_len m = 0) then None
  else if is_ether ETHER_TYPE_IPv4_be m then ul_tunnel_teid false (wb_ipv4_dst m) m
  else if is_ether ETHER_TYPE_IPv6_be m then ul_tunnel_teid true (wb_ipv6_dst m) m
  else Some 0.

(** [hdr_rvl] of a session decides between relaying and decapsulation. *)
Definition ul_fwd (si : pfcp_session_datat) : bool := bool_decide (hdr_rvl si = NOT_SET_OUT_HDR_RVL_CRT).
Definition ul_decap (si : pfcp_session_datat) : bool :=
  negb (ul_fwd si) && (bool_decide (hdr_rvl si = GTPU_UDP_IPv4) || bool_decide (hdr_rvl si = GTPU_UDP_IPv6)).

(** The body of the second loop; the keys of the packets the first rejected are 0.
    [None] is a table that holds a pointer to no session. *)
Definition ul_result (t : sess_tables) (sessions : gmap positive pfcp_session_datat) (j : nat)
    (key : option Z) (s : lookup_state) : option lookup_state :=
  match iface_lookup_uplink_data t (default 0 key) with
  | None => Some (put_sess j None (mark j true false true false false s))
  | Some p =>
      si ← sessions !! p;
      let alive := ISSET_BIT (lk_pkts s) j in
      Some (put_sess j (Some p) (mark j false false false (alive && ul_fwd si) (alive && ul_decap si) s))
  end.

(** A loop over the packets of a burst, from index [j]. *)
Fixpoint burst_loop {A St} (body : nat -> A -> St -> option St) (j : nat) (xs : list A) (s : St) : option St :=
  match xs with
  | [] => Some s
  | x :: xs => s ← body j x s; burst_loop body (S j) xs s
  end.

Definition ul_sess_info_get (t : sess_tables) (sessions : gmap positive pfcp_session_datat)
    (pkts : list mbuf) (s : lookup_state) : option lookup_state :=
  let keys := map ul_key pkts in
  s ← burst_loop (fun j k s => Some (mark j (bool_decide (k = None)) false false false false s)) 0 keys s;
  burst_loop (ul_result t sessions) 0 keys s.

(** ** dl_sess_info_get *)

(** How the first loop sorts a packet: rejected, tunnelled, a user's, or of another
    protocol, which stays in the burst without a session. *)
Inductive dl_class := DL_reject | DL_tunnel (teid : Z) | DL_user (key : ue_ip_t) | DL_other.

Definition dl_tunnelled (ip_type : bool) (m : mbuf) : bool :=
  let port := load m (get_mtoudp ip_type + udp_dst_port) 2 in
  bool_decide (ntohs port = UDP_PORT_GTPU) || bool_decide (port = UDP_PORT_GTPU_NW_ORDER).

Definition eb_ipv4_dst (m : mbuf) : bool :=
  let dst := ntohl (load m (get_mtoip + ipv4_dst_addr) 4) in
  negb (bool_decide (dst <> eb_ip app) && bool_decide (dst <> eb_li_ip app)).
Definition eb_ipv6_dst (m : mbuf) : bool :=
  let dst := peek m (get_mtoip + ipv6_dst_addr) 16 in
  negb (bool_decide (dst <> eb_ipv6 app) && bool_decide (dst <> eb_li_ipv6 app)).

Definition dl_tunnel_class (ip_type for_us : bool) (m : mbuf) : dl_class :=
  if negb for_us then DL_reject else
  let teid := load m (get_mtogtpu ip_type + gtpu_teid) 4 in
  let msgtype := load m (get_mtogtpu ip_type + gtpu_msgtype) 1 in
  if (bool_decide (teid = 0) || bool_decide (msgtype <> GTP_GPDU)) &&
     (bool_decide (teid = 0) || bool_decide (msgtype <> GTP_GEMR))
  then DL_reject else DL_tunnel (ntohl teid).

Definition dl_classify (m : mbuf) : dl_class :=
  if bool_decide (rte_pktmbuf_data_len m = 0) then DL_reject
  else if is_ether ETHER_TYPE_IPv4_be m then
    if dl_tunnelled false m then dl_tunnel_class false (eb_ipv4_dst m) m
    else DL_user (mk_ue_ip (load m (get_mtoip + ipv4_dst_addr) 4) (replicate 16 x00))
  else if is_ether ETHER_TYPE_IPv6_be m then
    if dl_tunnelled true m then dl_tunnel_class true (eb_ipv6_dst m) m
    else DL_user (mk_ue_ip 0 (peek m (get_mtoip + ipv6_dst_addr) 16))
  else DL_other.

Definition has_ue_addr (si : pfcp_session_datat) : bool := bool_decide (ue_ip_addr si <> 0) || has_ipv6 si.
Definition dl_fwd (si : pfcp_session_datat) : bool :=
  bool_decide (hdr_rvl si = NOT_SET_OUT_HDR_RVL_CRT) && negb (has_ue_addr si).
Definition dl_encap (si : pfcp_session_datat) : bool :=
  negb (dl_fwd si) &&
  (bool_decide (hdr_crt si = GTPU_UDP_IPv4) || bool_decide (hdr_crt si = GTPU_UDP_IPv6) ||
   bool_decide (hdr_crt si = NOT_SET_OUT_HDR_RVL_CRT)) &&
  bool_decide (hdr_rvl si = NOT_SET_OUT_HDR_RVL_CRT) && has_ue_addr si.

(** Chooses between relaying and encapsulation for packet [j] if it is still in one of
    the masks; [masks] is false for a caller that passes null pointers. *)
Definition dl_sort (masks : bool) (si : pfcp_session_datat) (j : nat) (s : lookup_state) : lookup_state :=
  let sorted := masks && (ISSET_BIT (lk_pkts s) j || ISSET_BIT (lk_queue s) j) in
  mark j false false false (sorted && dl_fwd si) (sorted && dl_encap si) s.

(** The result of the lookup of the tunnelled packet [j]. *)
Definition dl_tunnel_result (t : sess_tables) (sessions : gmap positive pfcp_session_datat) (masks : bool)
    (j : nat) (teid : Z) (s : lookup_state) : option lookup_state :=
  match iface_lookup_uplink_data t teid with
  | None => Some (put_sess j None (mark j true false true false false s))
  | Some p =>
      si ← sessions !! p;
      let idle := bool_decide (sess_state si <> CONNECTED) in
      Some (dl_sort masks si j (mark j idle idle false false false (put_sess j (Some p) s)))
  end.

(** The result of the lookup of the user's packet [j]: a miss sends no error. *)
Definition dl_user_result (t : sess_tables) (sessions : gmap positive pfcp_session_datat) (masks : bool)
    (j : nat) (key : ue_ip_t) (s : lookup_state) : option lookup_state :=
  match iface_lookup_downlink_data t key with
  | None => Some (put_sess j None (mark j true false false false false s))
  | Some p => si ← sessions !! p; Some (dl_sort masks si j (put_sess j (Some p) s))
  end.

(** The arrays that the first loop fills from the front: [ul_index] and [key_t] with the
    tunnelled packets, [dl_index] and [key] with the others. *)
Record dl_arrays := mk_arrays { ul_keys : list (nat * Z); dl_keys : list (nat * ue_ip_t) }.

(** The body of the first loop for packet [j]. *)
Definition dl_sort_packet (j : nat) (m : mbuf) (a : dl_arrays) (s : lookup_state) : dl_arrays * lookup_state :=
  match dl_classify m with
  | DL_reject => (a, mark j true false false false false s)
  | DL_tunnel teid => (mk_arrays (ul_keys a ++ [(j, teid)]) (dl_keys a), s)
  | DL_user key => (mk_arrays (ul_keys a) (dl_keys a ++ [(j, key)]), s)
  | DL_other => (a, s)
  end.

Fixpoint dl_sort_packets (j : nat) (pkts : list mbuf) (a : dl_arrays) (s : lookup_state) : dl_arrays * lookup_state :=
  match pkts with
  | [] => (a, s)
  | m :: pkts => let '(a, s) := dl_sort_packet j m a s in dl_sort_packets (S j) pkts a s
  end.

(** The loop over the results of one bulk lookup: each is for the packet of its index. *)
Fixpoint index_loop {A St} (body : nat -> A -> St -> option St) (keys : list (nat * A)) (s : St) : option St :=
  match keys with
  | [] => Some s
  | (j, key) :: keys => s ← body j key s; index_loop body keys s
  end.

(** The keys of each array are looked up in one call, which fails only for more keys than
    a burst has packets, and its results are handled in a loop. *)
Definition dl_sess_info_get (t : sess_tables) (sessions : gmap positive pfcp_session_datat) (masks : bool)
    (pkts : list mbuf) (s : lookup_state) : option lookup_state :=
  let '(a, s) := dl_sort_packets 0 pkts (mk_arrays [] []) s in
  s ← index_loop (dl_tunnel_result t sessions masks) (ul_keys a) s;
  index_loop (dl_user_result t sessions masks) (dl_keys a) s.

(** ** up_acl.c: the lookup in a table *)

Variable acl_ctx : Type.
Variable rte_acl_classify : acl_ctx -> mbuf -> nat -> Z.

(** One entry of [acl_config]: the contexts of the two IP versions, each with whether
    [trans_table] is set, i.e. whether it has been built. *)
Record acl_config := mk_acl { acx_ipv4 : option (acl_ctx * bool); acx_ipv6 : option (acl_ctx * bool) }.

(** A cell: the table and whether it is [res_ipv6]. *)
Abbreviation cell := (Z * bool)%type.

(** The cells, and the packets that [rte_pktmbuf_free] was called for. *)
Record acl_state := mk_acls { cells : gmap cell Z; freed : list nat }.

Definition read_cell (s : acl_state) (c : cell) : Z := default 0 (cells s !! c).
Definition write_cell (c : cell) (v : Z) (s : acl_state) : acl_state := mk_acls (<[c := v]> (cells s)) (freed s).

Definition OFF_IPV42PROTO : nat := ETH_HDR_SIZE + ipv4_next_proto_id.
Definition OFF_IPV62PROTO : nat := ETH_HDR_SIZE + ipv6_proto.

(** [prepare_one_packet] for packet 0: which of the two arrays takes it. *)
Definition prepare_one_packet (m : mbuf) : option bool :=
  let version := Z.land (load m ETH_HDR_SIZE 1) VERSION_FLAG_CHECK in
  if bool_decide (version = IPv4_VERSION) then Some false
  else if bool_decide (version = IPv6_VERSION) then Some true
  else None.

(** [acl_lookup(pkts, ...)]: [prepare_acl_parameter] is called for one packet, the first
    of the array. *)
Definition acl_lookup (config : Z -> acl_config) (pkts : list mbuf) (indx : Z) (s : acl_state)
    : option (option cell * acl_state) :=
  match (match acx_ipv4 (config indx) with Some c => Some c | None => acx_ipv6 (config indx) end) with
  | None => Some (None, s)
  | Some (_, false) => Some (None, s)
  | Some (context, true) =>
      m ← head pkts;
      match prepare_one_packet m with
      | Some false =>
          Some (Some (indx, false), write_cell (indx, false) (rte_acl_classify context m OFF_IPV42PROTO) s)
      | Some true =>
          Some (Some (indx, true), write_cell (indx, true) (rte_acl_classify context m OFF_IPV62PROTO) s)
      | None => Some (None, mk_acls (cells s) (freed s ++ [0%nat]))
      end
  end.

Definition sdf_lookup (config : Z -> acl_config) (pkts : list mbuf) (nb_rx : nat) (indx : Z) (s : acl_state)
    : option (option cell * acl_state) :=
  acl_lookup config pkts indx s.

(** ** acl_sdf_lookup *)

(** The loop over the tables of a session, with [prcdnc[j]] and [tmp_prcdnc]. *)
Fixpoint sdf_tables (config : Z -> acl_config) (pkts : list mbuf) (j : nat) (tables : list Z)
    (prcdnc : option cell) (tmp_prcdnc : Z) (s : acl_state) : option (option cell * acl_state) :=
  match tables with
  | [] => Some (prcdnc, s)
  | indx :: tables =>
      '(prcdnc, s) ← (if bool_decide (indx <> 0) then sdf_lookup config pkts j indx s else Some (prcdnc, s));
      match prcdnc with
      | None => sdf_tables config pkts j tables None tmp_prcdnc s
      | Some c =>
          let v := read_cell s c in
          if bool_decide (tmp_prcdnc = 0) || (bool_decide (v <> 0) && bool_decide (v < tmp_prcdnc))
          then sdf_tables config pkts j tables (Some c) v s
          else sdf_tables config pkts j tables (Some c) tmp_prcdnc (write_cell c tmp_prcdnc s)
      end
  end.

(** The loop over the packets: their [prcdnc], and the cells. [None] is the access
    through a null session. *)
Fixpoint acl_sdf_lookup_from (config : Z -> acl_config) (pkts : list mbuf)
    (sessions : gmap positive pfcp_session_datat) (j : nat) (sess_data : list (option positive))
    (pkts_mask fd_pkts_mask : Z) (s : acl_state) : option (list (option cell) * acl_state) :=
  match sess_data with
  | [] => Some ([], s)
  | key :: sess_data =>
      '(p, s) ← (if ISSET_BIT pkts_mask j && ISSET_BIT fd_pkts_mask j
                 then si ← key ≫= fun k => sessions !! k;
                      sdf_tables config pkts j (acl_table_indx si) None 0 s
                 else Some (None, s));
      '(ps, s) ← acl_sdf_lookup_from config pkts sessions (S j) sess_data pkts_mask fd_pkts_mask s;
      Some (p :: ps, s)
  end.

Definition acl_sdf_lookup config pkts sessions := acl_sdf_lookup_from config pkts sessions 0.

(** ** get_pdr_info *)

(** [get_pdr_node] on the list of PDRs. *)
Definition get_pdr_node (rules : list pdr_info) (precedence : Z) : option pdr_info :=
  List.find (fun r => bool_decide (prcdnc_val r = precedence)) rules.

(** The arrays of PDRs and [pkts_mask]; a PDR that was found is logged with its FAR id. *)
Fixpoint get_pdr_info_from (sessions : gmap positive pfcp_session_datat) (j : nat)
    (sess_data : list (option positive)) (pdr : list (option pdr_info)) (precedence : list (option cell))
    (s : acl_state) (pkts_mask fd_pkts_mask : Z) : option (list (option pdr_info) * Z) :=
  match sess_data, pdr, precedence with
  | key :: sess_data, p :: pdr, prec :: precedence =>
      '(p, pkts_mask) ←
        (match prec with
         | Some c =>
             if ISSET_BIT pkts_mask j && ISSET_BIT fd_pkts_mask j then
               si ← key ≫= fun k => sessions !! k;
               let p := get_pdr_node (pdrs si) (read_cell s c) in
               _ ← log_far p;
               Some (p, reset_if (bool_decide (p = None)) pkts_mask j)
             else Some (p, reset_if (ISSET_BIT fd_pkts_mask j) pkts_mask j)
         | None => Some (p, reset_if (ISSET_BIT fd_pkts_mask j) pkts_mask j)
         end);
      '(ps, pkts_mask) ← get_pdr_info_from sessions (S j) sess_data pdr precedence s pkts_mask fd_pkts_mask;
      Some (p :: ps, pkts_mask)
  | _, _, _ => Some ([], pkts_mask)
  end.

Definition get_pdr_info sessions := get_pdr_info_from sessions 0.

(** ** filter_ul_traffic and filter_dl_traffic *)

(** The two differ in the gate they ask for (and in the copies for Hyperscan, compiled
    out): PDRs, [pkts_mask] and the state of the tables. *)
Definition filter_traffic (direction : gate_direction) (config : Z -> acl_config)
    (sessions : gmap positive pfcp_session_datat) (pkts : list mbuf) (sess_data : list (option positive))
    (pdr : list (option pdr_info)) (pkts_mask fd_pkts_mask : Z) (s : acl_state)
    : option (list (option pdr_info) * Z * acl_state) :=
  '(precedence, s) ← acl_sdf_lookup config pkts sessions sess_data pkts_mask fd_pkts_mask s;
  '(pdr, pkts_mask) ← get_pdr_info sessions sess_data pdr precedence s pkts_mask fd_pkts_mask;
  pkts_mask ← qer_gating pdr direction pkts_mask fd_pkts_mask;
  Some (pdr, pkts_mask, s).

Definition filter_ul_traffic := filter_traffic UPLINK.
Definition filter_dl_traffic := filter_traffic DOWNLINK.

End Classify.

(** ** What the lookups do to one packet *)

(** The state of packet [j]. *)
Record slot := mk_slot {
  sl_sess : option positive; sl_alive : bool; sl_queue : bool; sl_err : bool; sl_fwd : bool; sl_xcap : bool
}.

Definition slot_of (s : lookup_state) (j : nat) : slot :=
  mk_slot (mjoin (lk_sess s !! j)) (ISSET_BIT (lk_pkts s) j) (ISSET_BIT (lk_queue s) j)
    (ISSET_BIT (lk_snd_err s) j) (ISSET_BIT (lk_fwd s) j) (ISSET_BIT (lk_xcap s) j).

(** Every session that a table names is in the store. *)
Definition tables_ok (t : sess_tables) (sessions : gmap positive pfcp_session_datat) : Prop :=
  (forall k p, sess_by_teid_hash t !! k = Some p -> is_Some (sessions !! p)) /\
  (forall k p, sess_by_ueip_hash t !! k = Some p -> is_Some (sessions !! p)).

(** How the handlers call the lookups: nothing found yet, all packets alive. *)
Definition lookup0 (n : nat) : lookup_state := mk_lookup (replicate n None) (burst_mask n) 0 0 0 0.

Definition slot0 : slot := mk_slot None true false false false false.

(** The session a pointer leads to. *)
Definition session_at (sessions : gmap positive pfcp_session_datat) (p : option positive)
    : option pfcp_session_datat := p ≫= fun p => sessions !! p.

(** What the lookup by TEID leaves of an uplink packet. *)
Definition ul_slot {mbuf} `{Mbuf mbuf} (app : app_params) (t : sess_tables)
    (sessions : gmap positive pfcp_session_datat) (m : mbuf) : slot :=
  let key := ul_key app m in
  let p := iface_lookup_uplink_data t (default 0 key) in
  match session_at sessions p with
  | None => mk_slot None false false true false false
  | Some si =>
      let alive := bool_decide (key <> None) in
      mk_slot p alive false false (alive && ul_fwd si) (alive && ul_decap si)
  end.

(** What the lookups leave of a downlink packet. *)
Definition dl_slot {mbuf} `{Mbuf mbuf} (app : app_params) (t : sess_tables)
    (sessions : gmap positive pfcp_session_datat) (m : mbuf) : slot :=
  match dl_classify app m with
  | DL_reject => mk_slot None false false false false false
  | DL_other => slot0
  | DL_tunnel teid =>
      let p := iface_lookup_uplink_data t teid in
      match session_at sessions p with
      | None => mk_slot None false false true false false
      | Some si =>
          let idle := bool_decide (sess_state si <> CONNECTED) in
          mk_slot p (negb idle) idle false (dl_fwd si) (dl_encap si)
      end
  | DL_user key =>
      let p := iface_lookup_downlink_data t key in
      match session_at sessions p with
      | None => mk_slot None false false false false false
      | Some si => mk_slot p true false false (dl_fwd si) (dl_encap si)
      end
  end.

(** The smallest non-zero value of a list, 0 if there is none. *)
Definition best_precedence (vs : list Z) : Z :=
  foldl (fun t v => if bool_decide (t = 0) || (bool_decide (v <> 0) && bool_decide (v < t)) then v else t) 0 vs.

(** ** Lemmas: one packet at a time *)

Lemma slot_of_mark s j r q e f x i :
  slot_of (mark j r q e f x s) i =
  if decide (i = j) then
    let o := slot_of s i in
    mk_slot (sl_sess o) (sl_alive o && negb r) (sl_queue o || q) (sl_err o || e) (sl_fwd o || f) (sl_xcap o || x)
  else slot_of s i.
Proof.
  unfold slot_of, mark.
  cbn [lk_sess lk_pkts lk_queue lk_snd_err lk_fwd lk_xcap sl_sess sl_alive sl_queue sl_err sl_fwd sl_xcap].
  rewrite reset_if_spec, !set_if_spec. destruct (decide (i = j)) as [->|Hij].
  - rewrite bool_decide_true by done. by rewrite !andb_true_r.
  - rewrite bool_decide_false by done. by rewrite !andb_false_r, !orb_false_r, andb_true_r.
Qed.

Lemma slot_of_put s j p i :
  (j < length (lk_sess s))%nat ->
  slot_of (put_sess j p s) i =
  if decide (i = j) then
    let o := slot_of s i in mk_slot p (sl_alive o) (sl_queue o) (sl_err o) (sl_fwd o) (sl_xcap o)
  else slot_of s i.
Proof.
  intros Hj. unfold slot_of, put_sess.
  cbn [lk_sess lk_pkts lk_queue lk_snd_err lk_fwd lk_xcap sl_sess sl_alive sl_queue sl_err sl_fwd sl_xcap].
  destruct (decide (i = j)) as [->|Hij].
  - by rewrite list_lookup_insert_eq by done.
  - by rewrite list_lookup_insert_ne by done.
Qed.

(** [g] describes what [body] does to the packet it is called for, the only one it
    changes. *)
Definition one_slot {A} (g : A -> slot -> slot) (body : nat -> A -> lookup_state -> option lookup_state) : Prop :=
  forall j x s, (j < length (lk_sess s))%nat ->
    exists s', body j x s = Some s' /\ length (lk_sess s') = length (lk_sess s) /\
      slot_of s' j = g x (slot_of s j) /\ forall i, i <> j -> slot_of s' i = slot_of s i.

Lemma burst_loop_slots {A} g (body : nat -> A -> lookup_state -> option lookup_state) j xs s :
  one_slot g body -> (j + length xs <= length (lk_sess s))%nat ->
  exists s', burst_loop body j xs s = Some s' /\ length (lk_sess s') = length (lk_sess s) /\
    (forall k x, xs !! k = Some x -> slot_of s' (j + k) = g x (slot_of s (j + k))) /\
    (forall i, (i < j)%nat -> slot_of s' i = slot_of s i).
Proof.
  intros Hb. revert j s. induction xs as [|x xs IH]; intros j s Hl.
  - exists s. split; [done|]. split; [done|]. split; [intros k y Hk; by destruct k|done].
  - cbn [length] in Hl. destruct (Hb j x s) as (s1 & E1 & L1 & S1 & O1); [lia|].
    destruct (IH (S j) s1) as (s' & E & L & Sl & O); [lia|].
    exists s'. cbn [burst_loop]. rewrite E1. cbn [mbind option_bind]. split; [done|]. split; [lia|]. split.
    + intros [|k] y Hk.
      * injection Hk as ->. rewrite Nat.add_0_r, O by lia. done.
      * rewrite <- Nat.add_succ_comm, (Sl k y) by done. f_equal. apply O1. lia.
    + intros i Hi. rewrite O by lia. apply O1. lia.
Qed.

Section Slots.
Context {mbuf : Type} `{Mbuf mbuf} (app : app_params).
Context (t : sess_tables) (sessions : gmap positive pfcp_session_datat) (Ht : tables_ok t sessions).

Lemma one_slot_map {A B} (f : B -> A) g (body : nat -> A -> lookup_state -> option lookup_state) :
  one_slot g body -> one_slot (fun m => g (f m)) (fun j m => body j (f m)).
Proof. intros Hb j m s Hj. by apply Hb. Qed.

(** Marks the packet a loop body is called for. *)
Lemma one_slot_mark {A} (f : A -> bool) :
  one_slot (fun x o => mk_slot (sl_sess o) (sl_alive o && negb (f x)) (sl_queue o) (sl_err o) (sl_fwd o) (sl_xcap o))
    (fun j x s => Some (mark j (f x) false false false false s)).
Proof.
  intros j x s Hj. eexists. split; [done|]. split; [done|]. split.
  - rewrite slot_of_mark, decide_True by done. cbv zeta. by rewrite !orb_false_r.
  - intros i Hi. by rewrite slot_of_mark, decide_False.
Qed.

Lemma ul_result_slot :
  one_slot (fun key o =>
      match session_at sessions (iface_lookup_uplink_data t (default 0 key)) with
      | None => mk_slot None false (sl_queue o) true (sl_fwd o) (sl_xcap o)
      | Some si => mk_slot (iface_lookup_uplink_data t (default 0 key)) (sl_alive o) (sl_queue o) (sl_err o)
          (sl_fwd o || (sl_alive o && ul_fwd si)) (sl_xcap o || (sl_alive o && ul_decap si))
      end) (ul_result t sessions).
Proof.
  intros j key s Hj. unfold ul_result, session_at.
  destruct (iface_lookup_uplink_data t (default 0 key)) as [p|] eqn:Ep; cbn [mbind option_bind].
  - destruct (proj1 Ht _ _ Ep) as [si Hsi]. rewrite Hsi.
    eexists. split; [done|]. split; [apply length_insert|]. split.
    + rewrite slot_of_put, decide_True, slot_of_mark, decide_True by done.
      cbv zeta. cbn [sl_sess sl_alive sl_queue sl_err sl_fwd sl_xcap negb]. by rewrite andb_true_r, !orb_false_r.
    + intros i Hi. rewrite slot_of_put, decide_False, slot_of_mark, decide_False by done. done.
  - eexists. split; [done|]. split; [apply length_insert|]. split.
    + rewrite slot_of_put, decide_True, slot_of_mark, decide_True by done.
      cbv zeta. cbn [sl_sess sl_alive sl_queue sl_err sl_fwd sl_xcap negb]. by rewrite andb_false_r, orb_true_r, !orb_false_r.
    + intros i Hi. rewrite slot_of_put, decide_False, slot_of_mark, decide_False by done. done.
Qed.

Lemma ul_sess_info_get_slots pkts s :
  length (lk_sess s) = length pkts ->
  (forall j, (j < length pkts)%nat -> slot_of s j = slot0) ->
  exists s', ul_sess_info_get app t sessions pkts s = Some s' /\ length (lk_sess s') = length pkts /\
    forall j m, pkts !! j = Some m -> slot_of s' j = ul_slot app t sessions m.
Proof.
  intros Hl H0. unfold ul_sess_info_get. set (keys := map (ul_key app) pkts).
  assert (length keys = length pkts) as Hk by apply length_map.
  destruct (burst_loop_slots _ _ 0 keys s (one_slot_mark (fun k => bool_decide (k = None)))) as (s1 & E1 & L1 & S1 & _); [lia|].
  destruct (burst_loop_slots _ _ 0 keys s1 ul_result_slot) as (s2 & E2 & L2 & S2 & _); [lia|].
  exists s2. rewrite E1. cbn [mbind option_bind]. split; [done|]. split; [lia|]. intros j m Hj.
  assert (keys !! j = Some (ul_key app m)) as Hkj by (unfold keys; by rewrite list_lookup_fmap, Hj).
  specialize (S1 _ _ Hkj). specialize (S2 _ _ Hkj). cbn [Nat.add] in S1, S2. rewrite S2, S1, H0 by by eapply lookup_lt_Some.
  unfold ul_slot. cbn [slot0 sl_sess sl_alive sl_queue sl_err sl_fwd sl_xcap orb].
  assert (true && negb (bool_decide (ul_key app m = None)) = bool_decide (ul_key app m <> None)) as ->.
  { by destruct (ul_key app m). }
  by destruct (session_at sessions _).
Qed.

Lemma slot_of_sort masks si j s i :
  slot_of (dl_sort masks si j s) i =
  if decide (i = j) then
    let o := slot_of s i in
    let sorted := masks && (sl_alive o || sl_queue o) in
    mk_slot (sl_sess o) (sl_alive o) (sl_queue o) (sl_err o)
      (sl_fwd o || (sorted && dl_fwd si)) (sl_xcap o || (sorted && dl_encap si))
  else slot_of s i.
Proof.
  unfold dl_sort. rewrite slot_of_mark. destruct (decide (i = j)) as [->|]; [|done].
  cbv zeta. cbn [negb]. by rewrite andb_true_r, !orb_false_r.
Qed.

(** Both lookups of a downlink packet, as one function of its class. *)
Definition dl_found (o : slot) (p : option positive) (idle err : bool) : slot :=
  match session_at sessions p with
  | None => mk_slot None false (sl_queue o) (sl_err o || err) (sl_fwd o) (sl_xcap o)
  | Some si =>
      let alive := sl_alive o && negb (idle && bool_decide (sess_state si <> CONNECTED)) in
      let queue := sl_queue o || (idle && bool_decide (sess_state si <> CONNECTED)) in
      mk_slot p alive queue (sl_err o)
        (sl_fwd o || ((alive || queue) && dl_fwd si)) (sl_xcap o || ((alive || queue) && dl_encap si))
  end.

Ltac slot_cases :=
  repeat (rewrite slot_of_sort || rewrite slot_of_mark || rewrite slot_of_put by assumption);
  rewrite ?decide_True, ?decide_False by done;
  cbv zeta; cbn [sl_sess sl_alive sl_queue sl_err sl_fwd sl_xcap negb andb];
  rewrite ?andb_true_r, ?orb_false_r, ?andb_false_r, ?orb_true_r.

Lemma dl_tunnel_result_slot :
  one_slot (fun c o => match c with DL_tunnel teid => dl_found o (iface_lookup_uplink_data t teid) true true | _ => o end)
    (fun j c s => match c with DL_tunnel teid => dl_tunnel_result t sessions true j teid s | _ => Some s end).
Proof.
  intros j c s Hj. destruct c as [|teid| |]; try (by eexists; split_and!).
  unfold dl_tunnel_result, dl_found, session_at.
  destruct (iface_lookup_uplink_data t teid) as [p|] eqn:Ep; cbn [mbind option_bind].
  - destruct (proj1 Ht _ _ Ep) as [si Hsi]. rewrite Hsi. eexists. split; [done|].
    split; [apply length_insert|]. split; [by slot_cases|]. intros i Hi. by slot_cases.
  - eexists. split; [done|]. split; [apply length_insert|]. split; [by slot_cases|]. intros i Hi. by slot_cases.
Qed.

Lemma dl_user_result_slot :
  one_slot (fun c o => match c with DL_user key => dl_found o (iface_lookup_downlink_data t key) false false | _ => o end)
    (fun j c s => match c with DL_user key => dl_user_result t sessions true j key s | _ => Some s end).
Proof.
  intros j c s Hj. destruct c as [| |key|]; try (by eexists; split_and!).
  unfold dl_user_result, dl_found, session_at.
  destruct (iface_lookup_downlink_data t key) as [p|] eqn:Ep; cbn [mbind option_bind].
  - destruct (proj2 Ht _ _ Ep) as [si Hsi]. rewrite Hsi. eexists. split; [done|].
    split; [apply length_insert|]. split; [by slot_cases|]. intros i Hi. by slot_cases.
  - eexists. split; [done|]. split; [apply length_insert|]. split; [by slot_cases|]. intros i Hi. by slot_cases.
Qed.

(** The loops over the arrays, as loops over all packets of the burst. *)
Definition dl_burst_tunnel (masks : bool) (j : nat) (m : mbuf) (s : lookup_state) : option lookup_state :=
  match dl_classify app m with DL_tunnel teid => dl_tunnel_result t sessions masks j teid s | _ => Some s end.
Definition dl_burst_user (masks : bool) (j : nat) (m : mbuf) (s : lookup_state) : option lookup_state :=
  match dl_classify app m with DL_user key => dl_user_result t sessions masks j key s | _ => Some s end.
Definition dl_burst_mark (j : nat) (m : mbuf) (s : lookup_state) : option lookup_state :=
  Some (mark j (match dl_classify app m with DL_reject => true | _ => false end) false false false false s).

Lemma mark_nothing j (s : lookup_state) : mark j false false false false false s = s.
Proof. by destruct s. Qed.

Lemma index_loop_app {A} (body : nat -> A -> lookup_state -> option lookup_state) xs ys s :
  index_loop body (xs ++ ys) s = s1 ← index_loop body xs s; index_loop body ys s1.
Proof.
  revert s. induction xs as [|[j k] xs IH]; intros s; [done|]. rewrite <- app_comm_cons. cbn [index_loop].
  destruct (body j k s) as [s1|]; [|done]. cbn [mbind option_bind]. apply IH.
Qed.

Lemma dl_sort_packets_spec masks j pkts a s :
  let '(a', s') := dl_sort_packets app j pkts a s in
  burst_loop dl_burst_mark j pkts s = Some s' /\
  (forall s1, index_loop (dl_tunnel_result t sessions masks) (ul_keys a') s1 =
     s2 ← index_loop (dl_tunnel_result t sessions masks) (ul_keys a) s1; burst_loop (dl_burst_tunnel masks) j pkts s2) /\
  (forall s1, index_loop (dl_user_result t sessions masks) (dl_keys a') s1 =
     s2 ← index_loop (dl_user_result t sessions masks) (dl_keys a) s1; burst_loop (dl_burst_user masks) j pkts s2).
Proof.
  revert j a s. induction pkts as [|m pkts IH]; intros j a s.
  - cbn [dl_sort_packets burst_loop]. split; [done|]. split; intros s1; by destruct (index_loop _ _ s1).
  - cbn [dl_sort_packets burst_loop]. destruct (dl_sort_packet app j m a s) as [a1 s1] eqn:E.
    specialize (IH (S j) a1 s1). destruct (dl_sort_packets app (S j) pkts a1 s1) as [a' s']. destruct IH as (I1 & I2 & I3).
    unfold dl_sort_packet in E.
    assert (dl_burst_mark j m s = Some s1) as ->.
    { unfold dl_burst_mark. destruct (dl_classify app m); injection E as _ <-; by rewrite ?mark_nothing. }
    split; [exact I1|]. split; intros s0; rewrite ?I2, ?I3.
    + assert (index_loop (dl_tunnel_result t sessions masks) (ul_keys a1) s0 =
        s2 ← index_loop (dl_tunnel_result t sessions masks) (ul_keys a) s0; dl_burst_tunnel masks j m s2) as ->.
      { unfold dl_burst_tunnel. destruct (dl_classify app m); injection E as <- _; cbn [ul_keys]; rewrite ?index_loop_app;
          destruct (index_loop _ (ul_keys a) s0) as [s2|]; try done. cbn [index_loop mbind option_bind].
        by destruct (dl_tunnel_result _ _ _ _ _ _). }
      by destruct (index_loop _ (ul_keys a) s0).
    + assert (index_loop (dl_user_result t sessions masks) (dl_keys a1) s0 =
        s2 ← index_loop (dl_user_result t sessions masks) (dl_keys a) s0; dl_burst_user masks j m s2) as ->.
      { unfold dl_burst_user. destruct (dl_classify app m); injection E as <- _; cbn [dl_keys]; rewrite ?index_loop_app;
          destruct (index_loop _ (dl_keys a) s0) as [s2|]; try done. cbn [index_loop mbind option_bind].
        by destruct (dl_user_result _ _ _ _ _ _). }
      by destruct (index_loop _ (dl_keys a) s0).
Qed.

Lemma dl_sess_info_get_burst masks pkts s :
  dl_sess_info_get app t sessions masks pkts s =
  s ← burst_loop dl_burst_mark 0 pkts s; s ← burst_loop (dl_burst_tunnel masks) 0 pkts s;
  burst_loop (dl_burst_user masks) 0 pkts s.
Proof.
  unfold dl_sess_info_get. pose proof (dl_sort_packets_spec masks 0 pkts (mk_arrays [] []) s) as Hs.
  destruct (dl_sort_packets _ _ _ _ _) as [a s1]. destruct Hs as (-> & I2 & I3). cbn [mbind option_bind].
  rewrite I2. cbn [ul_keys index_loop mbind option_bind]. destruct (burst_loop _ _ _ s1) as [s2|]; [|done].
  cbn [mbind option_bind]. by rewrite I3.
Qed.

Lemma dl_sess_info_get_slots pkts s :
  length (lk_sess s) = length pkts ->
  (forall j, (j < length pkts)%nat -> slot_of s j = slot0) ->
  exists s', dl_sess_info_get app t sessions true pkts s = Some s' /\ length (lk_sess s') = length pkts /\
    forall j m, pkts !! j = Some m -> slot_of s' j = dl_slot app t sessions m.
Proof.
  intros Hl H0. rewrite dl_sess_info_get_burst. unfold dl_burst_mark, dl_burst_tunnel, dl_burst_user.
  destruct (burst_loop_slots _ _ 0 pkts s
    (one_slot_mark (fun m => match dl_classify app m with DL_reject => true | _ => false end))) as (s1 & E1 & L1 & S1 & _); [lia|].
  destruct (burst_loop_slots _ _ 0 pkts s1 (one_slot_map (dl_classify app) _ _ dl_tunnel_result_slot)) as (s2 & E2 & L2 & S2 & _); [lia|].
  destruct (burst_loop_slots _ _ 0 pkts s2 (one_slot_map (dl_classify app) _ _ dl_user_result_slot)) as (s3 & E3 & L3 & S3 & _); [lia|].
  exists s3. rewrite E1. cbn [mbind option_bind]. rewrite E2. cbn [mbind option_bind].
  split; [done|]. split; [lia|]. intros j m Hj.
  specialize (S1 _ _ Hj). specialize (S2 _ _ Hj). specialize (S3 _ _ Hj). cbn [Nat.add] in S1, S2, S3.
  rewrite S3, S2, S1, H0 by by eapply lookup_lt_Some.
  unfold dl_slot, dl_found, slot0. destruct (dl_classify app m); try done.
  cbn [sl_sess sl_alive sl_queue sl_err sl_fwd sl_xcap orb andb negb].
  destruct (session_at sessions _) as [si|]; [|done]. by destruct (bool_decide (sess_state si <> CONNECTED)).
Qed.
End Slots.

Lemma ISSET_BIT_burst_mask n j : (n <= 64)%nat -> ISSET_BIT (burst_mask n) j = bool_decide (j < n)%nat.
Proof.
  intros Hn. rewrite ISSET_BIT_testbit. unfold burst_mask.
  replace (2 ^ 64 - 1) with (Z.ones 64) by done.
  rewrite Z.shiftr_spec, Z.testbit_ones by lia. case_bool_decide; lia.
Qed.

Lemma ISSET_BIT_0 j : ISSET_BIT 0 j = false.
Proof. rewrite ISSET_BIT_testbit. apply Z.bits_0. Qed.

Lemma lookup0_slots n : (n <= 64)%nat ->
  length (lk_sess (lookup0 n)) = n /\ forall j, (j < n)%nat -> slot_of (lookup0 n) j = slot0.
Proof.
  intros Hn. split; [apply length_replicate|]. intros j Hj. unfold slot_of, lookup0.
  cbn [lk_sess lk_pkts lk_queue lk_snd_err lk_fwd lk_xcap].
  rewrite lookup_replicate_2, ISSET_BIT_burst_mask, bool_decide_true, !ISSET_BIT_0 by done. done.
Qed.

(** ** Lemmas: the packet filters *)

Section Acl.
Context {mbuf : Type} `{Mbuf mbuf} (acl_ctx : Type) (classify : acl_ctx -> mbuf -> nat -> Z).
Context (config : Z -> acl_config acl_ctx).

(** The context a table is searched with. *)
Definition table_ctx (indx : Z) : option (acl_ctx * bool) :=
  match acx_ipv4 _ (config indx) with Some c => Some c | None => acx_ipv6 _ (config indx) end.

(** What a built table says of a packet of IP version [v6]. *)
Definition table_value (m : mbuf) (v6 : bool) (indx : Z) : Z :=
  match table_ctx indx with
  | Some (ctx, _) => classify ctx m (if v6 then OFF_IPV62PROTO else OFF_IPV42PROTO)
  | None => 0
  end.

Definition table_built (indx : Z) : Prop := indx <> 0 /\ exists ctx, table_ctx indx = Some (ctx, true).

Lemma sdf_lookup_built m rest j indx v6 s :
  prepare_one_packet m = Some v6 -> table_built indx ->
  sdf_lookup acl_ctx classify config (m :: rest) j indx s =
  Some (Some (indx, v6), write_cell (indx, v6) (table_value m v6 indx) s).
Proof.
  intros Hm [_ [ctx Hc]]. unfold sdf_lookup, acl_lookup, table_value, table_ctx in *. rewrite Hc.
  cbn [mbind option_bind head]. rewrite Hm. by destruct v6.
Qed.

Lemma read_write_cell c v s : read_cell (write_cell c v s) c = v.
Proof. unfold read_cell, write_cell. cbn [cells]. by rewrite lookup_insert_eq. Qed.

(** After the tables of a session the cell that is left holds the best precedence. *)
Lemma sdf_tables_best m rest j v6 tables prcdnc tmp s :
  prepare_one_packet m = Some v6 -> Forall table_built tables ->
  (tables = [] -> exists c, prcdnc = Some c /\ read_cell s c = tmp) ->
  exists c s', sdf_tables acl_ctx classify config (m :: rest) j tables prcdnc tmp s = Some (Some c, s') /\
    freed s' = freed s /\
    read_cell s' c = foldl (fun t v => if bool_decide (t = 0) || (bool_decide (v <> 0) && bool_decide (v < t)) then v else t)
                       tmp (map (table_value m v6) tables).
Proof.
  intros Hm HF. revert prcdnc tmp s. induction HF as [|indx tables Hi HF IH]; intros prcdnc tmp s H0.
  - destruct H0 as (c & -> & Hc); [done|]. by exists c, s.
  - cbn [sdf_tables map foldl]. rewrite (bool_decide_true (indx <> 0)) by apply Hi.
    rewrite (sdf_lookup_built _ _ _ _ v6) by done. cbn [mbind option_bind].
    rewrite read_write_cell. set (v := table_value m v6 indx).
    destruct (bool_decide (tmp = 0) || _).
    + destruct (IH (Some (indx, v6)) v (write_cell (indx, v6) v s)) as (c & s' & E & F & R).
      { intros ->. eexists. split; [done|]. apply read_write_cell. }
      by exists c, s'.
    + destruct (IH (Some (indx, v6)) tmp (write_cell (indx, v6) tmp (write_cell (indx, v6) v s))) as (c & s' & E & F & R).
      { intros ->. eexists. split; [done|]. apply read_write_cell. }
      by exists c, s'.
Qed.

(** [acl_lookup] looks at the first packet of the array only. *)
Lemma sdf_tables_first m rest rest' j tables prcdnc tmp s :
  sdf_tables acl_ctx classify config (m :: rest) j tables prcdnc tmp s =
  sdf_tables acl_ctx classify config (m :: rest') j tables prcdnc tmp s.
Proof.
  revert prcdnc tmp s. induction tables as [|indx tables IH]; intros prcdnc tmp s; [done|].
  cbn [sdf_tables]. change (sdf_lookup acl_ctx classify config (m :: rest) j indx s)
    with (sdf_lookup acl_ctx classify config (m :: rest') j indx s).
  destruct (if bool_decide (indx <> 0) then _ else _) as [[[c|] s1]|]; cbn [mbind option_bind]; [|apply IH|done].
  destruct (_ || _); apply IH.
Qed.

Lemma acl_sdf_lookup_from_first m rest rest' sessions j sess_data pm fm s :
  acl_sdf_lookup_from acl_ctx classify config (m :: rest) sessions j sess_data pm fm s =
  acl_sdf_lookup_from acl_ctx classify config (m :: rest') sessions j sess_data pm fm s.
Proof.
  revert j s. induction sess_data as [|key sess_data IH]; intros j s; [done|]. cbn [acl_sdf_lookup_from].
  destruct (ISSET_BIT pm j && ISSET_BIT fm j).
  - destruct (key ≫= _) as [si|]; cbn [mbind option_bind]; [|done].
    rewrite (sdf_tables_first m rest rest'). destruct (sdf_tables _ _ _ _ _ _ _ _ _) as [[p s1]|]; [|done].
    cbn [mbind option_bind]. by rewrite IH.
  - cbn [mbind option_bind]. by rewrite IH.
Qed.
End Acl.

(** The best precedence is one of the values, and the smallest that is not 0. *)
Lemma best_precedence_spec vs :
  Forall (fun v => 0 <= v) vs ->
  (best_precedence vs = 0 /\ Forall (fun v => v = 0) vs) \/
  (best_precedence vs ∈ vs /\ 0 < best_precedence vs /\ Forall (fun v => v <> 0 -> best_precedence vs <= v) vs).
Proof.
  unfold best_precedence. induction vs as [|v vs IH] using rev_ind; intros HF; [by left|].
  apply Forall_app in HF as [HF Hv]. apply Forall_cons in Hv as [Hv _]. rewrite foldl_app. cbn [foldl].
  set (t := foldl _ 0 vs) in *. destruct (IH HF) as [[Ht H0]|(Hin & Hpos & Hmin)].
  - rewrite Ht, bool_decide_true by done. cbn [orb]. destruct (decide (v = 0)) as [->|Hn].
    + left. split; [done|]. apply Forall_app. by repeat constructor.
    + right. split; [apply elem_of_app; right; by constructor|]. split; [lia|].
      apply Forall_app. split; [|repeat constructor; lia]. by eapply Forall_impl; [exact H0|]; intros ? ->.
  - rewrite (bool_decide_false (t = 0)) by lia. cbn [orb]. right.
    destruct (bool_decide (v <> 0)) eqn:E1; [apply bool_decide_eq_true_1 in E1|apply bool_decide_eq_false_1, dec_stable in E1];
      cbn [andb]; [case_bool_decide|].
    + split; [apply elem_of_app; right; by constructor|]. split; [lia|]. apply Forall_app.
      split; [|repeat constructor; lia]. eapply Forall_impl; [exact Hmin|]. intros x Hx Hx0. specialize (Hx Hx0). lia.
    + split; [apply elem_of_app; by left|]. split; [lia|]. apply Forall_app. split; [done|]. repeat constructor. lia.
    + split; [apply elem_of_app; by left|]. split; [lia|]. apply Forall_app. split; [done|]. by repeat constructor.
Qed.

(** One packet through the filters, alone in its burst. *)
Lemma filter_traffic_alone {mbuf} `{Mbuf mbuf} acl_ctx (classify : acl_ctx -> mbuf -> nat -> Z)
    direction config sessions m p si v6 pdr0 pkts_mask fd_pkts_mask s :
  sessions !! p = Some si -> acl_table_indx si <> [] ->
  Forall (table_built acl_ctx config) (acl_table_indx si) ->
  prepare_one_packet m = Some v6 ->
  ISSET_BIT pkts_mask 0 = true -> ISSET_BIT fd_pkts_mask 0 = true ->
  let best := best_precedence (map (table_value acl_ctx classify config m v6) (acl_table_indx si)) in
  exists s',
    filter_traffic acl_ctx classify direction config sessions [m] [Some p] [pdr0] pkts_mask fd_pkts_mask s =
      match get_pdr_node (pdrs si) best with
      | Some r => _ ← far r; Some ([Some r], reset_if (gate_closed direction r) pkts_mask 0, s')
      | None => Some ([None], RESET_BIT pkts_mask 0, s')
      end /\
    freed s' = freed s.
Proof.
  intros Hp Hne HF Hm Hpm Hfm best.
  destruct (sdf_tables_best acl_ctx classify config m [] 0 v6 _ None 0 s Hm HF) as (c & s' & E & F & R); [done|].
  exists s'. split; [|done].
  unfold filter_traffic, acl_sdf_lookup, get_pdr_info.
  cbn [acl_sdf_lookup_from get_pdr_info_from]. rewrite Hpm, Hfm. cbn [andb mbind option_bind].
  rewrite Hp. cbn [mbind option_bind]. rewrite E. cbn [mbind option_bind].
  rewrite R. change (foldl _ 0 _) with best.
  destruct (get_pdr_node (pdrs si) best) as [r|].
  - cbn [log_far]. destruct (far r) as [g|] eqn:Eg; [|done]. cbn [fmap option_fmap option_map mbind option_bind].
    rewrite bool_decide_false by done. cbn [reset_if mbind option_bind]. unfold qer_gating. cbn [qer_gating_from].
    rewrite Hpm, Hfm. cbn [andb mbind option_bind]. unfold log_far. rewrite Eg. by destruct (gate_closed direction r).
  - cbn [log_far mbind option_bind]. rewrite bool_decide_true by done. cbn [reset_if mbind option_bind]. unfold qer_gating. cbn [qer_gating_from].
    rewrite RESET_BIT_spec, bool_decide_true, andb_false_r by done. cbn [andb mbind option_bind]. done.
Qed.

(** ** Theorems *)

(** C12. The lookups of a burst succeed and treat every packet on its own.  Uplink: a packet
    keeps its place when it is a tunnelled user packet or end marker for one of the
    addresses of the west-bound interface and its TEID has a session, and is then to be
    relayed or decapsulated as the session's outer header removal says; a packet without
    session is marked for an error indication.  Downlink: a tunnelled packet of a session
    that is not connected is queued; a miss by user address sends no error. *)
Theorem burst_sorted_one_by_one {mbuf} `{Mbuf mbuf} (app : app_params) t sessions (pkts : list mbuf) :
  tables_ok t sessions -> (length pkts <= 64)%nat ->
  (exists s, ul_sess_info_get app t sessions pkts (lookup0 (length pkts)) = Some s /\
     forall j m, pkts !! j = Some m -> slot_of s j = ul_slot app t sessions m) /\
  (exists s, dl_sess_info_get app t sessions true pkts (lookup0 (length pkts)) = Some s /\
     forall j m, pkts !! j = Some m -> slot_of s j = dl_slot app t sessions m).
Proof.
  intros Ht Hn. destruct (lookup0_slots (length pkts) Hn) as [Hl H0]. split.
  - destruct (ul_sess_info_get_slots app t sessions Ht pkts _ Hl H0) as (s & E & _ & S). by exists s.
  - destruct (dl_sess_info_get_slots app t sessions Ht pkts _ Hl H0) as (s & E & _ & S). by exists s.
Qed.

(** Every packet of a burst is classified by the packet filters as if it were the first
    packet: the other packets have no influence on the PDRs that are chosen, on the gates
    that are applied or on the packets that are dropped. *)
Theorem first_packet_classifies_burst {mbuf} `{Mbuf mbuf} acl_ctx (classify : acl_ctx -> mbuf -> nat -> Z)
    direction config sessions m rest rest' sess_data pdr pkts_mask fd_pkts_mask s :
  filter_traffic acl_ctx classify direction config sessions (m :: rest) sess_data pdr pkts_mask fd_pkts_mask s =
  filter_traffic acl_ctx classify direction config sessions (m :: rest') sess_data pdr pkts_mask fd_pkts_mask s.
Proof. unfold filter_traffic, acl_sdf_lookup. by rewrite (acl_sdf_lookup_from_first _ _ _ m rest rest'). Qed.

(** A packet that is alone in its burst takes, over the filter tables of its session, the
    smallest precedence that a table finds (0 if none finds one), and the first PDR of the
    session with that precedence; without such a PDR, or when the PDR's gate is closed in
    its direction, it is dropped.  When the PDR has no FAR the program crashes ([None]):
    the log line of the lookup reads its FAR id. *)
Theorem lowest_precedence_selects_rule {mbuf} `{Mbuf mbuf} acl_ctx (classify : acl_ctx -> mbuf -> nat -> Z)
    direction config sessions m p si v6 pdr0 pkts_mask fd_pkts_mask s :
  sessions !! p = Some si -> acl_table_indx si <> [] ->
  Forall (table_built acl_ctx config) (acl_table_indx si) ->
  prepare_one_packet m = Some v6 ->
  (forall ctx off, 0 <= classify ctx m off) ->
  ISSET_BIT pkts_mask 0 = true -> ISSET_BIT fd_pkts_mask 0 = true ->
  let values := map (table_value acl_ctx classify config m v6) (acl_table_indx si) in
  exists best s',
    filter_traffic acl_ctx classify direction config sessions [m] [Some p] [pdr0] pkts_mask fd_pkts_mask s =
      match get_pdr_node (pdrs si) best with
      | Some r => _ ← far r; Some ([Some r], reset_if (gate_closed direction r) pkts_mask 0, s')
      | None => Some ([None], RESET_BIT pkts_mask 0, s')
      end /\
    freed s' = freed s /\
    ((best = 0 /\ Forall (fun v => v = 0) values) \/
     (best ∈ values /\ 0 < best /\ Forall (fun v => v <> 0 -> best <= v) values)).
Proof.
  intros Hp Hne HF Hm Hpos Hpm Hfm values.
  destruct (filter_traffic_alone acl_ctx classify direction config sessions m p si v6 pdr0 pkts_mask fd_pkts_mask s)
    as (s' & E & F); try done.
  exists (best_precedence values), s'. split; [exact E|]. split; [exact F|].
  apply best_precedence_spec. unfold values. apply Forall_forall. intros v Hv.
  apply list_elem_of_fmap in Hv as (indx & -> & _). unfold table_value.
  destruct (table_ctx acl_ctx config indx) as [[ctx b]|]; [apply Hpos|done].
Qed.

(** ** Witnesses *)

(** A tunnelled packet of a user, for address 10.0.0.1 and TEID [teid]. *)
Definition sample_tunnelled (teid : Z) : simple_mbuf :=
  mk_simple [] (replicate 12 x00 ++ [x08; x00] ++ replicate 16 x00 ++ [x0a; x00; x00; x01] ++
                [x08; x68; x08; x68; x00; x10; x00; x00] ++ [x30; xff; x00; x00] ++ be_bytes 4 teid ++
                [x45] ++ replicate 19 x00).

Definition sample_tables : sess_tables := mk_tables {[ 5 := 1%positive ]} ∅.
Definition sample_sessions : gmap positive pfcp_session_datat :=
  {[ 1%positive := mk_sess [sample_pdr (Some (sample_far 0)) 0 []] CONNECTED 4 0 0 false [7; 8] None ]}.

Lemma sample_tables_ok : tables_ok sample_tables sample_sessions.
Proof.
  split; intros k p; cbn [sample_tables sess_by_teid_hash sess_by_ueip_hash].
  - intros [<- <-]%lookup_singleton_Some. eexists. reflexivity.
  - intros E. by rewrite lookup_empty in E.
Defined.

Lemma burst_sorted_one_by_one_witness :
  exists s, ul_sess_info_get (sample_app 0x0a000001 x01 0 0) sample_tables sample_sessions
      [sample_tunnelled 5; sample_tunnelled 6] (lookup0 2) = Some s /\
    slot_of s 0 = mk_slot (Some 1%positive) true false false false true /\
    slot_of s 1 = mk_slot None false false true false false.
Proof.
  destruct (proj1 (burst_sorted_one_by_one (sample_app 0x0a000001 x01 0 0) sample_tables sample_sessions
    [sample_tunnelled 5; sample_tunnelled 6] sample_tables_ok ltac:(cbn; lia))) as (s & E & S).
  exists s. split; [exact E|]. split.
  - rewrite (S 0%nat _ eq_refl). vm_compute. reflexivity.
  - rewrite (S 1%nat _ eq_refl). vm_compute. reflexivity.
Defined.

Lemma lowest_precedence_selects_rule_witness :
  let config := fun _ => mk_acl Z (Some (0, true)) None in
  exists s', filter_traffic Z (fun _ _ _ => 10) UPLINK config sample_sessions [sample_pkt] [Some 1%positive] [None] 1 1
    (mk_acls ∅ []) = Some ([Some (sample_pdr (Some (sample_far 0)) 0 [])], 1, s').
Proof.
  intros config.
  destruct (lowest_precedence_selects_rule Z (fun _ _ _ => 10) UPLINK config sample_sessions sample_pkt 1
    (mk_sess [sample_pdr (Some (sample_far 0)) 0 []] CONNECTED 4 0 0 false [7; 8] None) false None 1 1 (mk_acls ∅ []))
    as (best & s' & E & _ & B); try (reflexivity || done).
  - repeat constructor; try done; by exists 0.
  - exists s'. rewrite E. assert (best = 10) as ->; [|reflexivity].
    cbn in B. destruct B as [[-> B]|(B & Hb & _)].
    + by inversion B.
    + set_solver.
Defined.
