(* ===== verification/UpAcl.v ===== *)
(** * The rule tables of the user plane (dp/up_acl.c, and their use in
    pfcp_messages/pfcp_up_sess.c)

    Every packet filter of a rule has a table of its own: [acl_rules_table] holds the rule
    and the number of bearers that use it, [acl_config] the context of librte_acl built from
    it.  A session has the indices of its tables.  The arrays have [MAX_ACL_TABLES] entries;
    an entry that was never used is zero, so they are maps here, with [in_arrays] for the
    bound.  [tsearch], [tfind] and [tdelete] work on a tree of at most one node, as every
    rule is put into a table that was just made.

    librte_acl is a parameter: [acl_env] says which of its calls succeed, and a context is
    the list of its rules with those, and the number of fields, that it was built from. *)

From S2P Require Import Prelude CText Mbuf UpPacket UpTunnel UpClassify SdfText.
From Stdlib Require Import Ascii.

(** ** Data *)

Definition MAX_ACL_TABLES : Z := 1000.
Definition MAX_SDF_RULE_NUM : Z := 32.
Definition NUM_FIELDS_IPV4 : nat := 5.
Definition NUM_FIELDS_IPV6 : nat := 9.

(** The bodies end, leave the process through [rte_exit], or touch memory that is not
    theirs. *)
Inductive acl_result (A : Type) := Done (a : A) | Exit | Fault.
Arguments Done {A} a.
Arguments Exit {A}.
Arguments Fault {A}.

(** [struct acl4_rule], [struct acl6_rule]: the fields by number, and [data]. *)
Record acl_rule := mk_rule { fields : list acl_field; userdata : Z; priority : Z }.
#[global] Instance acl_field_eq_dec : EqDecision acl_field.
Proof. solve_decision. Defined.
#[global] Instance acl_rule_eq_dec : EqDecision acl_rule.
Proof. solve_decision. Defined.

(** [struct sdf_pkt_filter]; [rule_ip_type] as whether it is [RULE_IPV6]. *)
Record sdf_pkt_filter := mk_filter { precedence : Z; rule_ip_type : bool; rule_str : text }.

(** [struct acl_rules_table]: [root] is the rule of the only node. *)
Record acl_rules_table := mk_table { root : option acl_rule; num_entries : Z; num_of_ue : Z }.

(** A context: the rules added, and the rules and the number of fields that its run-time
    structures ([trans_table]) were built from. *)
Record rte_acl_ctx := mk_ctx { ctx_rules : list acl_rule; trans_table : option (list acl_rule * nat) }.

(** [acl_config], [acl_rules_table] and [acl_table_indx_offset]. *)
Record acl_tables := mk_tabs {
  tabs : gmap Z acl_rules_table;
  confs : gmap Z (option rte_acl_ctx * option rte_acl_ctx);
  acl_table_indx_offset : Z }.

Definition zero_table : acl_rules_table := mk_table None 0 0.
Definition tab (s : acl_tables) (i : Z) : acl_rules_table := default zero_table (tabs s !! i).
Definition conf (s : acl_tables) (i : Z) : option rte_acl_ctx * option rte_acl_ctx := default (None, None) (confs s !! i).
Definition set_tab (i : Z) (t : acl_rules_table) (s : acl_tables) : acl_tables :=
  mk_tabs (<[i := t]> (tabs s)) (confs s) (acl_table_indx_offset s).
Definition set_conf (i : Z) (c : option rte_acl_ctx * option rte_acl_ctx) (s : acl_tables) : acl_tables :=
  mk_tabs (tabs s) (<[i := c]> (confs s)) (acl_table_indx_offset s).
Definition set_offset (n : Z) (s : acl_tables) : acl_tables := mk_tabs (tabs s) (confs s) n.

Definition in_arrays (i : Z) : bool := (0 <=? i) && (i <? MAX_ACL_TABLES).

(** Whether the calls of librte_acl, of the allocator and of [tsearch] succeed. *)
Record acl_env := mk_acl_env {
  rte_acl_create : bool; rte_malloc : bool; tsearch : bool;
  rte_acl_add_rules : list acl_rule -> acl_rule -> bool; rte_acl_build : list acl_rule -> bool }.

(** ** Comparison of rules *)

Definition fld (r : acl_rule) (i : nat) : acl_field := default (mk_field 0 0) (fields r !! i).

(** [acl_rule_compare]: 0 or -1.  Ports are compared as 16 bits, the protocol as 8. *)
Definition acl_rule_compare (r1 r2 : acl_rule) : bool :=
  let same w i := bool_decide (wrap w (value (fld r1 i)) = wrap w (value (fld r2 i))) &&
                  bool_decide (wrap w (mask_range (fld r1 i)) = wrap w (mask_range (fld r2 i))) in
  bool_decide (userdata r1 = userdata r2) &&
  same 32 1%nat && same 16 3%nat && same 32 2%nat && same 16 4%nat && same 8 0%nat.

(** [acl_ipv6_rule_compare]: the values of the words, the protocol, and the lengths of the
    two networks.  A node that holds an IPv4 rule has no fields from 5 on: [None]. *)
Definition mask_sum (r : acl_rule) (i : nat) : option Z :=
  a ← fields r !! i; b ← fields r !! S i; c ← fields r !! S (S i); d ← fields r !! S (S (S i));
  Some (u32 (mask_range a + mask_range b + mask_range c + mask_range d)).
Fixpoint same_values (r1 r2 : acl_rule) (is_ : list nat) : option bool :=
  match is_ with
  | [] => Some true
  | i :: is_ =>
      a ← fields r1 !! i; b ← fields r2 !! i;
      if bool_decide (value a = value b) then same_values r1 r2 is_ else Some false
  end.
Definition acl_ipv6_rule_compare (r1 r2 : acl_rule) : option bool :=
  if negb (bool_decide (userdata r1 = userdata r2)) then Some false else
  v ← same_values r1 r2 (seq 1 8);
  if negb v then Some false else
  p ← fields r1 !! 0%nat; q ← fields r2 !! 0%nat;
  if negb (bool_decide (u8 (value p) = u8 (value q)) && bool_decide (u8 (mask_range p) = u8 (mask_range q))) then Some false else
  s1 ← mask_sum r1 1; s2 ← mask_sum r2 1; d1 ← mask_sum r1 5; d2 ← mask_sum r2 5;
  Some (bool_decide (s1 = s2) && bool_decide (d1 = d2)).

(** [tfind(next, &ctx->root, compare)] *)
Definition tfind (is_ipv6 : bool) (r : acl_rule) (t : acl_rules_table) : option bool :=
  match root t with
  | None => Some false
  | Some n => if is_ipv6 then acl_ipv6_rule_compare r n else Some (acl_rule_compare r n)
  end.

(** ** The rule of a filter *)

(** [inet_pton], and what stands in freed memory. *)
Section Acl.
Context (inet_pton6 : text -> option (list byte)) (after_free : text -> text).

(** [precedence + ACL_DENY_SIGNATURE], with the signature 0, and the 8-bit [prio]. *)
Definition filter_rule (f : sdf_pkt_filter) : option acl_rule :=
  flds ← (if rule_ip_type f then parse_cb_ipv6_rule inet_pton6 after_free (rule_str f)
          else parse_cb_ipv4vlan_rule (rule_str f));
  Some (mk_rule flds (u32 (precedence f)) (u8 (255 - precedence f))).

(** ** Building a table *)

(** [acl_config_init], which ends the process when there is no context, and
    [up_acl_rules_table_create] for the index [i]: [None] when the table already has a
    node. *)
Definition up_sdf_filter_table_create (env : acl_env) (is_ipv6 : bool) (s : acl_tables) : acl_result (acl_tables * option Z) :=
  let i := acl_table_indx_offset s in
  if negb (in_arrays i) then Fault else
  if negb (rte_acl_create env) then Exit else
  let ctx := Some (mk_ctx [] None) in
  let s := set_conf i (if is_ipv6 then (None, ctx) else (ctx, None)) s in
  match root (tab s i) with
  | Some _ => Done (s, None)
  | None => Done (set_offset (u32 (i + 1)) (set_tab i (mk_table None 0 (num_of_ue (tab s i))) s), Some i)
  end.

(** [up_rules_entry_add] on a table without a node. *)
Definition up_rules_entry_add (env : acl_env) (i : Z) (r : acl_rule) (s : acl_tables) : option acl_tables :=
  let t := tab s i in
  if negb (rte_malloc env && tsearch env) then None else Some (set_tab i (mk_table (Some r) (u16 (num_entries t + 1)) (num_of_ue t)) s).

(** A context is asked for by the version of the rule. *)
Definition context (is_ipv6 : bool) (i : Z) (s : acl_tables) : option rte_acl_ctx :=
  if is_ipv6 then snd (conf s i) else fst (conf s i).
Definition set_context (is_ipv6 : bool) (i : Z) (c : rte_acl_ctx) (s : acl_tables) : acl_tables :=
  set_conf i (if is_ipv6 then (fst (conf s i), Some c) else (Some c, snd (conf s i))) s.

(** [add_single_rule], [add_single_ipv6_rule]: a rule that is refused is logged, and a null
    context takes none. *)
Definition add_single_rule (env : acl_env) (is_ipv6 : bool) (i : Z) (r : acl_rule) (s : acl_tables) : acl_tables :=
  match context is_ipv6 i s with
  | Some c => if rte_acl_add_rules env (ctx_rules c) r
              then set_context is_ipv6 i (mk_ctx (ctx_rules c ++ [r]) (trans_table c)) s else s
  | None => s
  end.

(** [add_rules_to_rte_acl]: the index is cut to 8 bits, for the table that is walked and for
    the context that takes its rules. *)
Definition add_rules_to_rte_acl (env : acl_env) (indx : Z) (is_ipv6 : bool) (s : acl_tables) : acl_tables :=
  let i := u8 indx in
  match root (tab s i) with Some r => add_single_rule env is_ipv6 i r s | None => s end.

(** [reset_and_build_rules]: the number of fields is that of IPv4 in both cases.  A failed
    build ends the process, and so does that of a null context. *)
Definition reset_and_build_rules (env : acl_env) (indx : Z) (is_ipv6 : bool) (s : acl_tables) : acl_result acl_tables :=
  let s := match context is_ipv6 indx s with
           | Some c => set_context is_ipv6 indx (mk_ctx [] (trans_table c)) s
           | None => s
           end in
  let s := add_rules_to_rte_acl env indx is_ipv6 s in
  match context is_ipv6 indx s with
  | Some c => if rte_acl_build env (ctx_rules c)
              then Done (set_context is_ipv6 indx (mk_ctx (ctx_rules c) (Some (ctx_rules c, NUM_FIELDS_IPV4))) s)
              else Exit
  | None => Exit
  end.

(** ** get_acl_table_indx *)

(** The loop over the tables in use. *)
Fixpoint find_table (n : nat) (i : Z) (is_ipv6 : bool) (r : acl_rule) (s : acl_tables) : acl_result (option Z) :=
  match n with
  | O => Done None
  | S n =>
      if negb (in_arrays i) then Fault else
      match tfind is_ipv6 r (tab s i) with
      | None => Fault
      | Some true => Done (Some i)
      | Some false => find_table n (i + 1) is_ipv6 r s
      end
  end.

Definition add_ue (i : Z) (s : acl_tables) : acl_tables :=
  let t := tab s i in set_tab i (mk_table (root t) (num_entries t) (u16 (num_of_ue t + 1))) s.

(** [get_acl_table_indx]: [create] is [SESS_CREATE == is_create].  The result of
    [up_sdf_filter_table_create] is unsigned, so its -1 is not noticed and becomes an index
    outside the array. *)
Definition get_acl_table_indx (env : acl_env) (f : sdf_pkt_filter) (create : bool) (s : acl_tables) : acl_result (acl_tables * Z) :=
  match filter_rule f with
  | None => Done (s, -1)
  | Some r =>
      match find_table (Z.to_nat (acl_table_indx_offset s - 1)) 1 (rule_ip_type f) r s with
      | Exit => Exit
      | Fault => Fault
      | Done (Some i) => Done (if create then add_ue i s else s, i)
      | Done None =>
          if negb create then Done (s, -1) else
          match up_sdf_filter_table_create env (rule_ip_type f) s with
          | Exit => Exit
          | Fault => Fault
          | Done (_, None) => Fault
          | Done (s, Some it) =>
              match up_rules_entry_add env it r s with
              | None => Done (s, -1)
              | Some s =>
                  match reset_and_build_rules env it (rule_ip_type f) (add_ue it s) with
                  | Done s => Done (s, it)
                  | Exit => Exit
                  | Fault => Fault
                  end
              end
          end
      end
  end.

(** ** Removal *)

(** [up_rules_entry_delete], [up_ipv6_rules_entry_delete]: the node of the rule is the root,
    for which [tdelete] returns a pointer that must not be used, and the code frees what it
    points at. *)
Definition up_rules_entry_delete (i : Z) (f : sdf_pkt_filter) (s : acl_tables) : acl_result (acl_tables * Z) :=
  match filter_rule f with
  | None => Done (s, -1)
  | Some r =>
      match tfind (rule_ip_type f) r (tab s i) with
      | None => Fault
      | Some false => Done (s, -1)
      | Some true => Fault
      end
  end.

(** [sdf_table_delete]: [rte_acl_reset] of the context first. *)
Definition sdf_table_delete (i : Z) (f : sdf_pkt_filter) (s : acl_tables) : acl_result (acl_tables * Z) :=
  let s := match context (rule_ip_type f) i s with
           | Some _ => set_context (rule_ip_type f) i (mk_ctx [] None) s
           | None => s
           end in
  match up_rules_entry_delete i f s with
  | Done (s, _) => Done (s, 0)
  | Exit => Exit
  | Fault => Fault
  end.

(** [remove_rule_entry_acl] *)
Definition remove_rule_entry_acl (env : acl_env) (i : Z) (f : sdf_pkt_filter) (s : acl_tables) : acl_result (acl_tables * Z) :=
  let t := tab s i in
  if 1 <? num_of_ue t then Done (set_tab i (mk_table (root t) (num_entries t) (num_of_ue t - 1)) s, 0) else
  if num_entries t =? 0 then Done (s, 0) else
  if num_entries t =? 1 then sdf_table_delete i f s else
  match up_rules_entry_delete i f s with
  | Done (s, _) =>
      match reset_and_build_rules env i (rule_ip_type f) s with Done s => Done (s, 0) | Exit => Exit | Fault => Fault end
  | Exit => Exit
  | Fault => Fault
  end.

(** ** The filters of a session *)

(** The filter of a flow description, as [process_pdr_pdi_info] makes it: the description is
    copied into [rule_str], and the networks are exchanged for an uplink PDR. *)
Definition filter_of (prcdnc_val : Z) (access : bool) (flow_desc : text) : option sdf_pkt_filter :=
  if bool_decide (MAX_LEN <= length flow_desc)%nat then None else
  v6 ← get_rule_ip_type flow_desc;
  Some (mk_filter prcdnc_val v6 (if access then swap_src_dst_ip flow_desc else flow_desc)).

(** The index of a filter is stored behind those of the session, whose array has
    [MAX_SDF_RULE_NUM] entries, and counted when it is positive. *)
Definition add_sdf_filter (env : acl_env) (prcdnc_val : Z) (access : bool) (flow_desc : text) (indx : list Z)
    (s : acl_tables) : acl_result (acl_tables * list Z) :=
  match filter_of prcdnc_val access flow_desc with
  | None => Fault
  | Some f =>
      match get_acl_table_indx env f true s with
      | Done (s, i) =>
          if bool_decide (Z.of_nat (length indx) < MAX_SDF_RULE_NUM) then Done (s, if i <=? 0 then indx else indx ++ [i])
          else Fault
      | Exit => Exit
      | Fault => Fault
      end
  end.

(** The loop of [process_pdr_pdi_info] over the filters of a PDI: the interface and the
    precedence are those of the PDR. *)
Fixpoint add_sdf_filters (env : acl_env) (prcdnc_val : Z) (access : bool) (flow_descs : list text) (indx : list Z)
    (s : acl_tables) : acl_result (acl_tables * list Z) :=
  match flow_descs with
  | [] => Done (s, indx)
  | fd :: flow_descs =>
      match add_sdf_filter env prcdnc_val access fd indx s with
      | Done (s, indx) => add_sdf_filters env prcdnc_val access flow_descs indx s
      | Exit => Exit
      | Fault => Fault
      end
  end.

(** The loop that takes an index out of the array of a session: from the place where it is
    found on every entry but the last takes the next one. *)
Fixpoint shift_indices (indx : Z) (flag : bool) (a : list Z) : bool * list Z :=
  match a with
  | [] => (flag, [])
  | x :: a =>
      let flag := flag || bool_decide (x = indx) in
      let x' := if flag then match a with [] => x | y :: _ => y end else x in
      let '(flag, a) := shift_indices indx flag a in
      (flag, x' :: a)
  end.

(** The index is there: the entry behind those in use is cleared, which for a full array is
    not one of it, and the number of entries goes down. *)
Definition drop_last (indx : list Z) : option (list Z) :=
  if bool_decide (Z.of_nat (length indx) < MAX_SDF_RULE_NUM) then Some (removelast indx) else None.

(** One filter of an updated PDR ([process_update_pdr_info]): its index is taken out of the
    session, the table is left as it is. *)
Definition forget_sdf_filter (env : acl_env) (prcdnc_val : Z) (access : bool) (flow_desc : text) (indx : list Z)
    (s : acl_tables) : acl_result (acl_tables * list Z) :=
  match filter_of prcdnc_val access flow_desc with
  | None => Fault
  | Some f =>
      match get_acl_table_indx env f false s with
      | Done (s, i) =>
          if 0 <? i then
            let '(flag, indx) := shift_indices i false indx in
            if flag then match drop_last indx with Some indx => Done (s, indx) | None => Fault end else Done (s, indx)
          else Done (s, indx)
      | Exit => Exit
      | Fault => Fault
      end
  end.

(** One filter of a removed PDR ([process_remove_pdr_sess]). *)
Definition remove_sdf_filter (env : acl_env) (prcdnc_val : Z) (access : bool) (flow_desc : text) (indx : list Z)
    (s : acl_tables) : acl_result (acl_tables * list Z) :=
  match filter_of prcdnc_val access flow_desc with
  | None => Fault
  | Some f =>
      match get_acl_table_indx env f false s with
      | Done (s, i) =>
          let '(flag, indx) := shift_indices i false indx in
          if flag && (0 <? i) then
            match remove_rule_entry_acl env i f s with
            | Done (s, ret) =>
                if ret =? 0 then match drop_last indx with Some indx => Done (s, indx) | None => Fault end
                else Done (s, indx)
            | Exit => Exit
            | Fault => Fault
            end
          else Done (s, indx)
      | Exit => Exit
      | Fault => Fault
      end
  end.
End Acl.

(** The contexts in the form that the lookup of packets uses. *)
Definition lookup_config (s : acl_tables) (i : Z) : acl_config rte_acl_ctx :=
  let built c := (fun c => (c, bool_decide (trans_table c <> None))) <$> c in
  mk_acl _ (built (fst (conf s i))) (built (snd (conf s i))).

(** ** The abstract tables: filters and the number of bearers that use them *)

(** What [acl_rule_compare] looks at: precedence, networks, ports and protocol. *)
Definition rule_key (r : acl_rule) : Z * list (Z * Z) :=
  let fk w i := (wrap w (value (fld r i)), wrap w (mask_range (fld r i))) in
  (userdata r, [fk 8 0%nat; fk 32 1%nat; fk 32 2%nat; fk 16 3%nat; fk 16 4%nat]).

Abbreviation key := (Z * list (Z * Z))%type.

(** Where a filter is, and for how many bearers. *)
Definition find_filter (k : key) (l : list (key * Z)) : option (nat * (key * Z)) := list_find (fun e => fst e = k) l.

(** One more bearer: its filter is counted where it is, or put behind the others. *)
Definition use_filter (k : key) (l : list (key * Z)) : list (key * Z) * nat :=
  match find_filter k l with
  | Some (i, (_, c)) => (<[i := (k, c + 1)]> l, i)
  | None => (l ++ [(k, 1)], length l)
  end.

(** The contexts after one rule was built. *)
Definition built (is_ipv6 : bool) (r : acl_rule) : option rte_acl_ctx * option rte_acl_ctx :=
  let c := mk_ctx [r] (Some ([r], NUM_FIELDS_IPV4)) in if is_ipv6 then (None, Some c) else (Some c, None).

(** Table [i + 1] is filter [i], in use by that many bearers. *)
Definition table_of (s : acl_tables) (i : nat) (e : key * Z) : Prop :=
  exists r, rule_key r = fst e /\ tab s (Z.of_nat i + 1) = mk_table (Some r) 1 (snd e) /\
            conf s (Z.of_nat i + 1) = built false r.

(** At most 255 filters: [add_rules_to_rte_acl] knows no more. *)
Record represents (s : acl_tables) (l : list (key * Z)) : Prop := mk_represents {
  rep_offset : acl_table_indx_offset s = Z.of_nat (length l) + 1;
  rep_length : (length l < 256)%nat;
  rep_tables : forall i e, l !! i = Some e -> table_of s i e;
  rep_free : forall i, Z.of_nat (length l) < i -> tab s i = zero_table;
  rep_distinct : NoDup (l.*1);
  rep_counts : Forall (fun c => 1 <= c < 2 ^ 16) (l.*2) }.

(** All calls of librte_acl and of the allocator succeed. *)
Definition env_ok (env : acl_env) : Prop :=
  rte_acl_create env = true /\ rte_malloc env = true /\ tsearch env = true /\
  (forall r, rte_acl_add_rules env [] r = true) /\ (forall r, rte_acl_build env [r] = true).

Create Rewrite HintDb acl_db.

(** *** Lemmas on the arrays *)

Lemma tab_set_tab i j t s : tab (set_tab i t s) j = if decide (i = j) then t else tab s j.
Proof. unfold tab, set_tab. cbn [tabs]. by case_decide; subst; simplify_map_eq. Qed.

Lemma tab_set_conf i c j s : tab (set_conf i c s) j = tab s j.
Proof. done. Qed.

Lemma tab_set_offset n j s : tab (set_offset n s) j = tab s j.
Proof. done. Qed.

Lemma conf_set_tab i t j s : conf (set_tab i t s) j = conf s j.
Proof. done. Qed.

Lemma conf_set_offset n j s : conf (set_offset n s) j = conf s j.
Proof. done. Qed.

Lemma conf_set_conf i c j s : conf (set_conf i c s) j = if decide (i = j) then c else conf s j.
Proof. unfold conf, set_conf. cbn [confs]. by case_decide; subst; simplify_map_eq. Qed.

#[export] Hint Rewrite tab_set_tab tab_set_conf tab_set_offset conf_set_tab conf_set_offset conf_set_conf : acl_db.

Ltac acl := autorewrite with acl_db; repeat (case_decide; try lia).

Lemma acl_rule_compare_key r1 r2 : acl_rule_compare r1 r2 = bool_decide (rule_key r1 = rule_key r2).
Proof.
  apply eq_true_iff_eq. unfold acl_rule_compare, rule_key. cbv zeta.
  rewrite !andb_true_iff, !bool_decide_eq_true. split.
  - intros (((((-> & -> & ->) & -> & ->) & -> & ->) & -> & ->) & -> & ->). done.
  - intros H. injection H as -> -> -> -> -> -> -> -> -> -> ->. done.
Qed.

(** *** The search *)

Lemma find_table_spec s r l : forall l2 l1,
  l = l1 ++ l2 -> (length l < 256)%nat -> (forall i e, l !! i = Some e -> table_of s i e) ->
  find_table (length l2) (Z.of_nat (length l1) + 1) false r s =
  Done ((fun p => Z.of_nat (length l1 + fst p) + 1) <$> find_filter (rule_key r) l2).
Proof.
  induction l2 as [|[k c] l2 IH]; intros l1 -> Hl Ht; [done|].
  assert (Hr : in_arrays (Z.of_nat (length l1) + 1) = true).
  { rewrite length_app in Hl. unfold in_arrays, MAX_ACL_TABLES.
    apply andb_true_iff. split; [apply Z.leb_le|apply Z.ltb_lt]; lia. }
  cbn [length find_table]. rewrite Hr. cbn [negb].
  destruct (Ht (length l1) (k, c)) as (r' & Hk & Htab & _); [by rewrite list_lookup_middle|].
  unfold tfind. rewrite Htab. cbn [root fst] in *. rewrite acl_rule_compare_key, Hk.
  unfold find_filter. cbn [list_find fst]. destruct (decide (k = rule_key r)) as [Hk'|Hn].
  - rewrite bool_decide_true by done. cbn [fmap option_fmap option_map fst]. do 2 f_equal. lia.
  - rewrite bool_decide_false by congruence.
    specialize (IH (l1 ++ [(k, c)])). rewrite <- app_assoc in IH. cbn [app] in IH. specialize (IH eq_refl Hl Ht).
    rewrite length_app in IH. cbn [length] in IH.
    replace (Z.of_nat (length l1) + 1 + 1) with (Z.of_nat (length l1 + 1) + 1) by lia. rewrite IH. f_equal.
    unfold find_filter. rewrite <- !option_fmap_compose. destruct (list_find _ l2) as [[j e]|]; [|done].
    cbn. f_equal. lia.
Qed.

Lemma represents_find s l r :
  represents s l ->
  find_table (Z.to_nat (acl_table_indx_offset s - 1)) 1 false r s =
  Done ((fun p => Z.of_nat (fst p) + 1) <$> find_filter (rule_key r) l).
Proof.
  intros H. rewrite (rep_offset s l H). replace (Z.to_nat _) with (length l) by lia.
  apply (find_table_spec s r l l []); [done| |]; apply H.
Qed.

(** *** Counting the bearers *)

Lemma fmap_insert_fst {A B} (l : list (A * B)) i a b b' : l !! i = Some (a, b) -> (<[i := (a, b')]> l).*1 = l.*1.
Proof. intros H. rewrite list_fmap_insert. apply list_insert_id. by rewrite list_lookup_fmap, H. Qed.

Lemma represents_count s l i k c c' :
  represents s l -> l !! i = Some (k, c) -> 1 <= c' < 2 ^ 16 ->
  represents (set_tab (Z.of_nat i + 1) (mk_table (root (tab s (Z.of_nat i + 1))) (num_entries (tab s (Z.of_nat i + 1))) c') s)
    (<[i := (k, c')]> l).
Proof.
  intros [Ho Hl Ht Hf Hd Hc] Hi Hc'. pose proof (lookup_lt_Some _ _ _ Hi) as Hlt.
  destruct (Ht i _ Hi) as (r & Hk & Htab & Hconf). split.
  - by rewrite length_insert.
  - by rewrite length_insert.
  - intros j e. rewrite list_lookup_insert_Some. intros [(<- & <- & _)|[Hn Hj]].
    + exists r. cbn [fst snd] in *. autorewrite with acl_db. rewrite decide_True, Htab by done. done.
    + destruct (Ht j e Hj) as (r' & ? & ? & ?). exists r'. autorewrite with acl_db. rewrite decide_False by lia. done.
  - rewrite length_insert. intros j Hj. autorewrite with acl_db. rewrite decide_False by lia. by apply Hf.
  - erewrite fmap_insert_fst by done. done.
  - rewrite list_fmap_insert. by apply Forall_insert.
Qed.

Lemma find_filter_Some k l i e : find_filter k l = Some (i, e) -> l !! i = Some e /\ fst e = k.
Proof. intros H%list_find_Some. tauto. Qed.

Lemma find_filter_None k l : find_filter k l = None -> (k ∉ l.*1).
Proof.
  intros H%list_find_None. intros [e [-> He]]%list_elem_of_fmap. rewrite Forall_forall in H. by apply (H e).
Qed.

(** *** A new table *)

Lemma u8_small i : 0 <= i < 256 -> u8 i = i.
Proof. intros H. unfold u8, wrap. by apply Z.mod_small. Qed.

Lemma reset_and_build_new env (v6 : bool) i r s :
  env_ok env -> 0 <= i < 256 -> root (tab s i) = Some r ->
  conf s i = (if v6 then (None, Some (mk_ctx [] None)) else (Some (mk_ctx [] None), None)) ->
  exists s', reset_and_build_rules env i v6 s = Done s' /\ (forall j, tab s' j = tab s j) /\
    (forall j, conf s' j = if decide (i = j) then built v6 r else conf s j) /\
    acl_table_indx_offset s' = acl_table_indx_offset s.
Proof.
  intros (_ & _ & _ & Ha & Hb) Hi Ht Hc. unfold reset_and_build_rules, add_rules_to_rte_acl, add_single_rule. cbv zeta.
  rewrite (u8_small i) by done. unfold context, set_context. rewrite Hc.
  destruct v6; cbn [fst snd trans_table]; rewrite tab_set_conf, Ht;
    rewrite conf_set_conf, decide_True by done; cbn [fst snd ctx_rules app trans_table];
    rewrite Ha, conf_set_conf, decide_True by done; cbn [fst snd ctx_rules]; rewrite Hb;
    (eexists; split_and!; [done|done| |done]; intros j; autorewrite with acl_db; by case_decide).
Qed.

Lemma in_arrays_small i : 0 <= i < 1000 -> in_arrays i = true.
Proof. intros H. unfold in_arrays, MAX_ACL_TABLES. apply andb_true_iff. split; [apply Z.leb_le|apply Z.ltb_lt]; lia. Qed.

(** A filter without a table takes the next one. *)
Lemma get_acl_table_indx_new inet_pton6 after_free env s f r i :
  env_ok env -> filter_rule inet_pton6 after_free f = Some r -> acl_table_indx_offset s = i -> 1 <= i < 256 ->
  tab s i = zero_table -> find_table (Z.to_nat (i - 1)) 1 (rule_ip_type f) r s = Done None ->
  exists s', get_acl_table_indx inet_pton6 after_free env f true s = Done (s', i) /\
    (forall j, tab s' j = if decide (i = j) then mk_table (Some r) 1 1 else tab s j) /\
    (forall j, conf s' j = if decide (i = j) then built (rule_ip_type f) r else conf s j) /\
    acl_table_indx_offset s' = i + 1.
Proof.
  intros He Hr Ho Hi Ht Hn. unfold get_acl_table_indx. rewrite Hr, Ho, Hn. cbn [negb].
  pose proof He as (Hcr & Hm & Hts & _). unfold up_sdf_filter_table_create. cbv zeta.
  rewrite Ho, in_arrays_small, Hcr, tab_set_conf, Ht by lia. cbn [negb root zero_table num_of_ue].
  unfold up_rules_entry_add. rewrite Hm, Hts. cbn [andb negb].
  match goal with |- context [reset_and_build_rules env i ?v ?t] =>
    destruct (reset_and_build_new env v i r t He ltac:(lia)) as (s' & -> & Htab & Hconf & Hoff) end.
  - unfold add_ue. autorewrite with acl_db. by rewrite !decide_True by done.
  - unfold add_ue. autorewrite with acl_db. by rewrite decide_True by done.
  - exists s'. split_and!; [done| | |].
    + intros j. rewrite Htab. unfold add_ue. autorewrite with acl_db. rewrite !(decide_True _ _ (eq_refl i)). by case_decide.
    + intros j. rewrite Hconf. unfold add_ue. autorewrite with acl_db. by case_decide.
    + rewrite Hoff. cbn [acl_table_indx_offset set_offset set_tab set_conf add_ue]. unfold u32, wrap. apply Z.mod_small. lia.
Qed.

Lemma represents_new s l r :
  represents s l -> (length l < 255)%nat -> find_filter (rule_key r) l = None ->
  let i := Z.of_nat (length l) + 1 in
  forall s', (forall j, tab s' j = if decide (i = j) then mk_table (Some r) 1 1 else tab s j) ->
  (forall j, conf s' j = if decide (i = j) then built false r else conf s j) ->
  acl_table_indx_offset s' = i + 1 -> represents s' (l ++ [(rule_key r, 1)]).
Proof.
  intros [Ho Hl Ht Hf Hd Hc] Hlt Hn i s' Htab Hconf Hoff. split.
  - rewrite length_app. cbn [length]. lia.
  - rewrite length_app. cbn [length]. lia.
  - intros j e [Hj|[Hj He]]%lookup_app_Some.
    + pose proof (lookup_lt_Some _ _ _ Hj). destruct (Ht j e Hj) as (r' & ? & ? & ?). exists r'.
      rewrite Htab, Hconf, !decide_False by lia. done.
    + apply list_lookup_singleton_Some in He as [He <-]. exists r. rewrite Htab, Hconf, !decide_True by lia. done.
  - intros j. rewrite length_app. cbn [length]. intros Hj. rewrite Htab, decide_False by lia. apply Hf. lia.
  - rewrite fmap_app. apply NoDup_app. split_and!; [done| |apply NoDup_singleton].
    cbn. intros x Hx ->%list_elem_of_singleton. by apply (find_filter_None (rule_key r) l).
  - rewrite fmap_app. apply Forall_app. split; [done|]. repeat constructor; cbn; lia.
Qed.

Section Refine.
Context (inet_pton6 : text -> option (list byte)) (after_free : text -> text) (env : acl_env) (Henv : env_ok env).

Abbreviation filter_rule := (filter_rule inet_pton6 after_free).
Abbreviation get_acl_table_indx := (get_acl_table_indx inet_pton6 after_free).

(** One IPv4 filter for one more bearer. *)
Lemma get_acl_table_indx_use s l f r :
  represents s l -> filter_rule f = Some r -> rule_ip_type f = false -> (length l < 255)%nat ->
  Forall (fun c => c < 2 ^ 16 - 1) (l.*2) ->
  let '(l', i) := use_filter (rule_key r) l in
  exists s', get_acl_table_indx env f true s = Done (s', Z.of_nat i + 1) /\ represents s' l'.
Proof.
  intros H Hr Hv Hl Hc. unfold get_acl_table_indx, UpAcl.get_acl_table_indx, use_filter.
  fold filter_rule. rewrite Hr, Hv, (represents_find s l r H).
  destruct (find_filter (rule_key r) l) as [[i [k c]]|] eqn:Hf; cbn [fmap option_fmap option_map fst].
  - apply find_filter_Some in Hf as [Hi Hk]. eexists. split; [done|].
    pose proof (rep_counts s l H) as Hc'. rewrite Forall_forall in Hc, Hc'.
    assert (He : c ∈ l.*2) by (apply list_elem_of_fmap; exists (k, c); split; [done|by eapply list_elem_of_lookup_2]).
    specialize (Hc c He). specialize (Hc' c He). destruct (rep_tables s l H i _ Hi) as (r' & _ & Htab & _).
    unfold add_ue. rewrite Htab. cbn [root num_entries num_of_ue snd fst] in *.
    replace (u16 (c + 1)) with (c + 1) by (unfold u16, wrap; rewrite Z.mod_small; lia). cbn [fst] in Hk. subst k.
    pose proof (represents_count s l i (rule_key r) c (c + 1) H Hi) as Hx. rewrite Htab in Hx. apply Hx. lia.
  - destruct (get_acl_table_indx_new inet_pton6 after_free env s f r (Z.of_nat (length l) + 1) Henv Hr (rep_offset s l H))
      as (s' & G & Htab & Hconf & Hoff); [lia|by apply (rep_free s l H); lia| |].
    + rewrite Hv, <- (rep_offset s l H), (represents_find s l r H). by rewrite Hf.
    + rewrite Hv in Hconf. exists s'. split; [|by apply (represents_new s l r H Hl Hf)].
      rewrite <- G. unfold UpAcl.get_acl_table_indx. fold filter_rule. by rewrite Hr, Hv, (represents_find s l r H), Hf.
Qed.

(** One filter of a PDR with its rule. *)
Record pdr_filter := mk_pf { pf_prcdnc : Z; pf_access : bool; pf_desc : text }.

(** The filters of a session's PDRs, one after the other. *)
Fixpoint add_pdr_filters (fs : list pdr_filter) (indx : list Z) (s : acl_tables) : acl_result (acl_tables * list Z) :=
  match fs with
  | [] => Done (s, indx)
  | f :: fs =>
      match add_sdf_filter inet_pton6 after_free env (pf_prcdnc f) (pf_access f) (pf_desc f) indx s with
      | Done (s, indx) => add_pdr_filters fs indx s
      | Exit => Exit
      | Fault => Fault
      end
  end.

(** The rule of an IPv4 filter whose description fits. *)
Definition ipv4_rule (p : pdr_filter) (r : acl_rule) : Prop :=
  exists f, filter_of (pf_prcdnc p) (pf_access p) (pf_desc p) = Some f /\ rule_ip_type f = false /\ filter_rule f = Some r.

Lemma use_filter_fst k l :
  let '(l', i) := use_filter k l in
  (exists t, l'.*1 = l.*1 ++ t) /\ l'.*1 !! i = Some k /\ (length l' <= S (length l))%nat /\
  forall n, Forall (fun c => c < n) (l.*2) -> 1 <= n -> Forall (fun c => c < n + 1) (l'.*2).
Proof.
  unfold use_filter. destruct (find_filter k l) as [[i [k' c]]|] eqn:E.
  - apply find_filter_Some in E as [Hi Hk]. cbn [fst] in Hk. subst k'. pose proof (lookup_lt_Some _ _ _ Hi). split_and!.
    + exists []. rewrite app_nil_r. by apply (fmap_insert_fst l i k c).
    + rewrite (fmap_insert_fst l i k c) by done. by rewrite list_lookup_fmap, Hi.
    + rewrite length_insert. lia.
    + intros n Hc Hn. rewrite list_fmap_insert. apply Forall_insert; [|cbn [snd]].
      * eapply Forall_impl; [exact Hc|cbn; lia].
      * rewrite Forall_forall in Hc. specialize (Hc c). cbn in Hc.
        enough (c < n) by lia. apply Hc. apply list_elem_of_fmap. exists (k, c). split; [done|by eapply list_elem_of_lookup_2].
  - split_and!.
    + exists [k]. by rewrite fmap_app.
    + rewrite fmap_app. cbn. apply list_lookup_middle. by rewrite length_fmap.
    + rewrite length_app. cbn. lia.
    + intros n Hc Hn. rewrite fmap_app. apply Forall_app. split; [eapply Forall_impl; [exact Hc|cbn; lia]|].
      repeat constructor; cbn; lia.
Qed.

(** The filters of a session get tables of their own rules. *)
Lemma add_pdr_filters_refine fs rs : Forall2 ipv4_rule fs rs -> forall s l indx n,
  represents s l -> (length l + length fs < 256)%nat -> Z.of_nat (length indx + length fs) <= MAX_SDF_RULE_NUM ->
  Forall (fun c => c < n) (l.*2) -> 1 <= n -> n + Z.of_nat (length fs) < 2 ^ 16 ->
  exists s' l' is_, add_pdr_filters fs indx s = Done (s', indx ++ is_) /\ represents s' l' /\
    (exists t, l'.*1 = l.*1 ++ t) /\
    Forall2 (fun i r => 0 < i /\ l'.*1 !! Z.to_nat (i - 1) = Some (rule_key r)) is_ rs.
Proof.
  induction 1 as [|p r fs rs (f & Hf & Hv & Hr) _ IH]; intros s l indx n H Hl Hi Hc Hn Hb; cbn [length] in *.
  - exists s, l, []. rewrite app_nil_r. split_and!; [done|done| |constructor]. exists []. by rewrite app_nil_r.
  - cbn [add_pdr_filters]. unfold add_sdf_filter. rewrite Hf.
    pose proof (get_acl_table_indx_use s l f r H Hr Hv ltac:(lia)) as G.
    pose proof (use_filter_fst (rule_key r) l) as U. destruct (use_filter (rule_key r) l) as [l1 i].
    destruct U as ((t1 & U1) & U2 & U3 & U4).
    destruct G as (s1 & -> & H1). { eapply Forall_impl; [exact Hc|cbn; lia]. }
    rewrite bool_decide_true by lia. rewrite (proj2 (Z.leb_gt (Z.of_nat i + 1) 0)) by lia.
    destruct (IH s1 l1 (indx ++ [Z.of_nat i + 1]) (n + 1) H1) as (s' & l' & is_ & -> & H' & (t' & Ht') & HF).
    + lia.
    + rewrite length_app. cbn [length]. lia.
    + by apply U4.
    + lia.
    + lia.
    + exists s', l', (Z.of_nat i + 1 :: is_). split_and!; [by rewrite <- app_assoc|done| |].
      * exists (t1 ++ t'). by rewrite Ht', U1, app_assoc.
      * constructor; [|done]. split; [lia|]. rewrite Ht'. replace (Z.to_nat _) with i by lia. by apply lookup_app_l_Some.
Qed.

(** *** Removal *)

Lemma remove_rule_entry_acl_count s l f r i k c :
  represents s l -> find_filter (rule_key r) l = Some (i, (k, c)) -> filter_rule f = Some r -> rule_ip_type f = false ->
  let res := remove_rule_entry_acl inet_pton6 after_free env (Z.of_nat i + 1) f s in
  if 1 <? c then exists s', res = Done (s', 0) /\ represents s' (<[i := (k, c - 1)]> l) else res = Fault.
Proof.
  intros H Hf Hr Hv res. apply find_filter_Some in Hf as [Hi Hk]. cbn [fst] in Hk. subst k.
  destruct (rep_tables s l H i _ Hi) as (r' & Hk & Htab & _). cbn [fst snd] in *.
  assert (Hc : 1 <= c < 2 ^ 16).
  { pose proof (rep_counts s l H) as HF. rewrite Forall_forall in HF. apply HF. apply list_elem_of_fmap.
    exists (rule_key r, c). split; [done|by eapply list_elem_of_lookup_2]. }
  unfold res, remove_rule_entry_acl. rewrite Htab. cbn [num_of_ue num_entries root]. destruct (Z.ltb_spec 1 c) as [Hlt|Hle].
  - eexists. split; [done|]. pose proof (represents_count s l i (rule_key r) c (c - 1) H Hi ltac:(lia)) as Hx.
    by rewrite Htab in Hx.
  - change (1 =? 0) with false. change (1 =? 1) with true. cbv iota. unfold sdf_table_delete, up_rules_entry_delete.
    fold filter_rule. rewrite Hr, Hv.
    assert (forall s', tab s' (Z.of_nat i + 1) = tab s (Z.of_nat i + 1) -> tfind false r (tab s' (Z.of_nat i + 1)) = Some true) as Ht.
    { intros s' ->. unfold tfind. rewrite Htab. cbn [root]. rewrite acl_rule_compare_key. by rewrite bool_decide_true by done. }
    destruct (context false (Z.of_nat i + 1) s); by rewrite Ht.
Qed.

Lemma get_acl_table_indx_find s l f r :
  represents s l -> filter_rule f = Some r -> rule_ip_type f = false ->
  get_acl_table_indx env f false s =
  Done (s, match find_filter (rule_key r) l with Some (i, _) => Z.of_nat i + 1 | None => -1 end).
Proof.
  intros H Hr Hv. unfold get_acl_table_indx, UpAcl.get_acl_table_indx. fold filter_rule.
  rewrite Hr, Hv, (represents_find s l r H). by destruct (find_filter (rule_key r) l) as [[i e]|].
Qed.

(** *** The indices of a session *)

Lemma last_cons (a : list Z) y x : List.last (y :: a) x = List.last a y.
Proof.
  revert y x. induction a as [|z a IH]; intros y x; [done|]. change (List.last (z :: a) x = List.last (z :: a) y).
  by rewrite !IH.
Qed.

Lemma shift_indices_true i a : shift_indices i true a = (true, match a with [] => [] | x :: b => b ++ [List.last b x] end).
Proof.
  induction a as [|x a IH]; [done|]. cbn [shift_indices orb]. rewrite IH. destruct a as [|y a]; [done|].
  by rewrite last_cons.
Qed.

Lemma shift_indices_middle i a b : (i ∉ a) ->
  shift_indices i false (a ++ i :: b) = (true, a ++ b ++ [List.last b i]).
Proof.
  induction a as [|x a IH]; intros Ha.
  - cbn [app shift_indices orb]. rewrite bool_decide_true by done. rewrite shift_indices_true.
    destruct b as [|y b]; [done|]. by rewrite last_cons.
  - apply not_elem_of_cons in Ha as [Hx Ha]. cbn [app shift_indices orb]. rewrite bool_decide_false by congruence.
    by rewrite IH.
Qed.

Lemma drop_last_middle i a b : Z.of_nat (length (a ++ i :: b)) < MAX_SDF_RULE_NUM ->
  drop_last (a ++ b ++ [List.last b i]) = Some (a ++ b).
Proof.
  intros H. unfold drop_last. rewrite bool_decide_true.
  - by rewrite app_assoc, removelast_last.
  - revert H. rewrite !length_app. cbn [length]. lia.
Qed.
End Refine.

(** What the lookup of packets finds in the tables of the filters. *)
Lemma tables_of_filters {mbuf} `{Mbuf mbuf} (classify : rte_acl_ctx -> mbuf -> nat -> Z)
    (matches : list (Z * Z) -> mbuf -> bool) s l is_ rs m :
  (forall r m off, classify (mk_ctx [r] (Some ([r], NUM_FIELDS_IPV4))) m off =
                   if matches (snd (rule_key r)) m then userdata r else 0) ->
  represents s l -> Forall2 (fun i r => 0 < i /\ l.*1 !! Z.to_nat (i - 1) = Some (rule_key r)) is_ rs ->
  Forall (table_built rte_acl_ctx (lookup_config s)) is_ /\
  map (table_value rte_acl_ctx classify (lookup_config s) m false) is_ =
  map (fun r => if matches (snd (rule_key r)) m then userdata r else 0) rs.
Proof.
  intros Hcl Hrep. induction 1 as [|i r is_ rs [Hi Hk] _ [IH1 IH2]]; [done|].
  rewrite list_lookup_fmap in Hk. destruct (l !! Z.to_nat (i - 1)) as [[k c]|] eqn:E; [|done]. injection Hk as ->.
  destruct (rep_tables s l Hrep _ _ E) as (r' & Hk & _ & Hconf).
  replace (Z.of_nat (Z.to_nat (i - 1)) + 1) with i in Hconf by lia. unfold built in Hconf. cbv zeta in Hconf. cbn [fst] in Hk.
  assert (Hctx : acx_ipv4 _ (lookup_config s i) = Some (mk_ctx [r'] (Some ([r'], NUM_FIELDS_IPV4)), true)).
  { unfold lookup_config. rewrite Hconf. reflexivity. }
  split.
  - constructor; [|done]. split; [lia|]. eexists. unfold table_ctx. by rewrite Hctx.
  - cbn [map]. rewrite IH2. f_equal. unfold table_value, table_ctx. rewrite Hctx, Hcl, Hk.
    by replace (userdata r') with (userdata r) by (injection Hk; done).
Qed.

(** ** Theorems *)

(** C10. The tables of the packet filters count the bearers of each IPv4 filter.  One more
    bearer with a filter whose precedence, networks, ports and protocol are known is counted
    in the table of that filter, and a new filter gets the next table, built with its rule
    alone; asking for a filter without creating it gives its table or -1 and changes
    nothing; and a bearer that goes is taken off the count as long as another one stays. *)
Theorem filter_tables_count_bearers inet_pton6 after_free env s l f r :
  env_ok env -> represents s l -> filter_rule inet_pton6 after_free f = Some r -> rule_ip_type f = false ->
  (length l < 255)%nat -> Forall (fun c => c < 2 ^ 16 - 1) (l.*2) ->
  (let '(l', i) := use_filter (rule_key r) l in
   exists s', get_acl_table_indx inet_pton6 after_free env f true s = Done (s', Z.of_nat i + 1) /\ represents s' l') /\
  get_acl_table_indx inet_pton6 after_free env f false s =
    Done (s, match find_filter (rule_key r) l with Some (i, _) => Z.of_nat i + 1 | None => -1 end) /\
  (forall i c, find_filter (rule_key r) l = Some (i, (rule_key r, c)) -> 1 < c ->
   exists s', remove_rule_entry_acl inet_pton6 after_free env (Z.of_nat i + 1) f s = Done (s', 0) /\
              represents s' (<[i := (rule_key r, c - 1)]> l)).
Proof.
  intros He H Hr Hv Hl Hc. split_and!.
  - by apply get_acl_table_indx_use.
  - by apply get_acl_table_indx_find.
  - intros i c Hi Hlt. pose proof (remove_rule_entry_acl_count inet_pton6 after_free env s l f r i _ c H Hi Hr Hv) as R.
    cbv zeta in R. by rewrite (proj2 (Z.ltb_lt 1 c) Hlt) in R.
Qed.

(** A filter that one bearer uses cannot be removed: when the PDR of its only bearer is
    removed, [tdelete] takes out the root of the tree, and the pointer it returns is used. *)
Theorem only_bearer_cannot_be_removed inet_pton6 after_free env s l p r a :
  env_ok env -> represents s l -> ipv4_rule inet_pton6 after_free p r -> (length l < 255)%nat ->
  (rule_key r ∉ l.*1) -> (Z.of_nat (length l) + 1 ∉ a) -> Z.of_nat (length a) < MAX_SDF_RULE_NUM ->
  Forall (fun c => c < 2 ^ 16 - 1) (l.*2) ->
  exists s', add_sdf_filter inet_pton6 after_free env (pf_prcdnc p) (pf_access p) (pf_desc p) a s =
               Done (s', a ++ [Z.of_nat (length l) + 1]) /\
             remove_sdf_filter inet_pton6 after_free env (pf_prcdnc p) (pf_access p) (pf_desc p) (a ++ [Z.of_nat (length l) + 1]) s' =
               Fault.
Proof.
  intros He H (f & Hf & Hv & Hr) Hl Hn Ha Hlen Hc.
  pose proof (get_acl_table_indx_use inet_pton6 after_free env He s l f r H Hr Hv Hl Hc) as G. unfold use_filter in G.
  destruct (find_filter (rule_key r) l) as [[i [k c]]|] eqn:E.
  { apply find_filter_Some in E as [Hi Hk]. cbn [fst] in Hk. subst k. destruct Hn.
    apply list_elem_of_fmap. exists (rule_key r, c). split; [done|by eapply list_elem_of_lookup_2]. }
  destruct G as (s' & G & H'). exists s'. unfold add_sdf_filter, remove_sdf_filter. rewrite Hf, G.
  rewrite bool_decide_true by done. rewrite (proj2 (Z.leb_gt (Z.of_nat (length l) + 1) 0)) by lia. split; [done|].
  assert (find_filter (rule_key r) (l ++ [(rule_key r, 1)]) = Some (length l, (rule_key r, 1))) as E'.
  { unfold find_filter in *. rewrite list_find_app_r by done. cbn. rewrite decide_True by done. cbn. by rewrite ?Nat.add_0_r. }
  rewrite (get_acl_table_indx_find inet_pton6 after_free env s' _ f r H' Hr Hv), E'.
  rewrite shift_indices_middle by done. rewrite (proj2 (Z.ltb_lt 0 (Z.of_nat (length l) + 1))) by lia. cbn [andb].
  pose proof (remove_rule_entry_acl_count inet_pton6 after_free env s' _ f r _ _ _ H' E' Hr Hv) as R. cbv zeta in R.
  change (1 <? 1) with false in R. cbv iota in R. by rewrite R.
Qed.

(** Every update of a PDR counts its filters again: the index of a known filter is taken
    out of the session and appended again, while the table counts one bearer more. *)
Theorem updated_filter_counted_again inet_pton6 after_free env s l p r i c a b :
  env_ok env -> represents s l -> ipv4_rule inet_pton6 after_free p r -> (length l < 255)%nat ->
  find_filter (rule_key r) l = Some (i, (rule_key r, c)) -> Forall (fun c => c < 2 ^ 16 - 1) (l.*2) ->
  (Z.of_nat i + 1 ∉ a) -> Z.of_nat (length (a ++ (Z.of_nat i + 1) :: b)) < MAX_SDF_RULE_NUM ->
  forget_sdf_filter inet_pton6 after_free env (pf_prcdnc p) (pf_access p) (pf_desc p) (a ++ (Z.of_nat i + 1) :: b) s =
    Done (s, a ++ b) /\
  exists s', add_sdf_filter inet_pton6 after_free env (pf_prcdnc p) (pf_access p) (pf_desc p) (a ++ b) s =
               Done (s', (a ++ b) ++ [Z.of_nat i + 1]) /\
             represents s' (<[i := (rule_key r, c + 1)]> l).
Proof.
  intros He H (f & Hf & Hv & Hr) Hl Hfind Hc Ha Hlen. split.
  - unfold forget_sdf_filter. rewrite Hf, (get_acl_table_indx_find inet_pton6 after_free env s l f r H Hr Hv), Hfind.
    rewrite (proj2 (Z.ltb_lt 0 (Z.of_nat i + 1))) by lia. rewrite shift_indices_middle by done. by rewrite drop_last_middle.
  - pose proof (get_acl_table_indx_use inet_pton6 after_free env He s l f r H Hr Hv Hl Hc) as G. unfold use_filter in G.
    rewrite Hfind in G. destruct G as (s' & G & H'). exists s'. split; [|done]. unfold add_sdf_filter. rewrite Hf, G.
    rewrite bool_decide_true by (revert Hlen; rewrite !length_app; cbn [length]; lia).
    by rewrite (proj2 (Z.leb_gt (Z.of_nat i + 1) 0)) by lia.
Qed.

(** The 256th filter of the user plane gets a table, but [add_rules_to_rte_acl] knows its
    index only modulo 256: the context of the table is built without a rule, and the
    process ends where librte_acl refuses to build an empty context. *)
Theorem filter_256_gets_no_rule inet_pton6 after_free env s l f r :
  env_ok env -> represents s l -> filter_rule inet_pton6 after_free f = Some r -> rule_ip_type f = false ->
  length l = 255%nat -> (rule_key r ∉ l.*1) -> root (tab s 0) = None ->
  if rte_acl_build env [] then
    exists s', get_acl_table_indx inet_pton6 after_free env f true s = Done (s', 256) /\
               root (tab s' 256) = Some r /\ conf s' 256 = (Some (mk_ctx [] (Some ([], NUM_FIELDS_IPV4))), None)
  else get_acl_table_indx inet_pton6 after_free env f true s = Exit.
Proof.
  intros (Hcr & Hm & Hts & _) H Hr Hv Hl Hn H0.
  assert (Hrep := represents_find s l r H). destruct (find_filter (rule_key r) l) as [[i [k c]]|] eqn:E.
  { apply find_filter_Some in E as [Hi Hk]. cbn [fst] in Hk. subst k. destruct Hn.
    apply list_elem_of_fmap. exists (rule_key r, c). split; [done|by eapply list_elem_of_lookup_2]. }
  cbn [fmap option_fmap option_map] in Hrep. unfold get_acl_table_indx. rewrite Hr, Hv, Hrep. cbn [negb].
  unfold up_sdf_filter_table_create. cbv zeta. rewrite (rep_offset s l H), Hl. change (Z.of_nat 255 + 1) with 256.
  change (in_arrays 256) with true. rewrite Hcr, tab_set_conf, (rep_free s l H 256) by (rewrite Hl; done).
  cbn [negb root zero_table num_of_ue]. unfold up_rules_entry_add. rewrite Hm, Hts. cbn [andb negb].
  unfold reset_and_build_rules, add_rules_to_rte_acl. change (u8 256) with 0. cbv zeta.
  unfold context, set_context, add_ue. autorewrite with acl_db. rewrite !(decide_True _ _ (eq_refl 256)). cbn [fst snd trans_table].
  autorewrite with acl_db. rewrite !(decide_False (P := 256 = 0)) by done. rewrite H0.
  autorewrite with acl_db. rewrite !(decide_True _ _ (eq_refl 256)). cbn [fst snd ctx_rules].
  destruct (rte_acl_build env []); [|done]. eexists. split; [done|].
  autorewrite with acl_db. by rewrite !(decide_True _ _ (eq_refl 256)).
Qed.

(** The context of a new IPv6 filter is built with the number of fields of an IPv4 rule.
    Where librte_acl looks only at the fields it was given, two filters that differ from the
    sixth field on, the destination network, classify all packets in the same way. *)
Theorem ipv6_destination_not_compared {mbuf} inet_pton6 after_free env (classify : rte_acl_ctx -> mbuf -> nat -> Z) s f f' r r' :
  env_ok env -> rule_ip_type f = true -> rule_ip_type f' = true ->
  filter_rule inet_pton6 after_free f = Some r -> filter_rule inet_pton6 after_free f' = Some r' ->
  1 <= acl_table_indx_offset s < 256 -> tab s (acl_table_indx_offset s) = zero_table ->
  find_table (Z.to_nat (acl_table_indx_offset s - 1)) 1 true r s = Done None ->
  find_table (Z.to_nat (acl_table_indx_offset s - 1)) 1 true r' s = Done None ->
  (forall r1 r2 n, userdata r1 = userdata r2 -> priority r1 = priority r2 -> take n (fields r1) = take n (fields r2) ->
     forall m off, classify (mk_ctx [r1] (Some ([r1], n))) m off = classify (mk_ctx [r2] (Some ([r2], n))) m off) ->
  userdata r = userdata r' -> priority r = priority r' -> take 5 (fields r) = take 5 (fields r') ->
  exists t t' i c c', get_acl_table_indx inet_pton6 after_free env f true s = Done (t, i) /\
    get_acl_table_indx inet_pton6 after_free env f' true s = Done (t', i) /\
    acx_ipv6 _ (lookup_config t i) = Some (c, true) /\ acx_ipv6 _ (lookup_config t' i) = Some (c', true) /\
    forall m off, classify c m off = classify c' m off.
Proof.
  intros He Hv Hv' Hr Hr' Hi Ht Hn Hn' Hcl Hu Hp Hf.
  destruct (get_acl_table_indx_new inet_pton6 after_free env s f r _ He Hr eq_refl Hi Ht) as (t & G & _ & C & _); [by rewrite Hv|].
  destruct (get_acl_table_indx_new inet_pton6 after_free env s f' r' _ He Hr' eq_refl Hi Ht) as (t' & G' & _ & C' & _); [by rewrite Hv'|].
  specialize (C (acl_table_indx_offset s)). specialize (C' (acl_table_indx_offset s)). rewrite decide_True in C, C' by done.
  rewrite Hv in C. rewrite Hv' in C'. unfold built in C, C'.
  exists t, t', (acl_table_indx_offset s). do 2 eexists. split_and!; [exact G|exact G'| | |by apply (Hcl r r' NUM_FIELDS_IPV4)].
  - unfold lookup_config. rewrite C. cbn [acx_ipv6 snd fmap option_fmap option_map trans_table]. by rewrite bool_decide_true by done.
  - unfold lookup_config. rewrite C'. cbn [acx_ipv6 snd fmap option_fmap option_map trans_table]. by rewrite bool_decide_true by done.
Qed.

(** C9. From the flow descriptions of a session to the rule of a packet.  A session whose
    IPv4 filters were put into the tables has an index for each of them, and a packet that
    is alone in its burst takes the first PDR with the smallest precedence among the filters
    that match it, whatever other sessions the tables serve; without a match, or a PDR
    of that precedence, it is dropped, and with a PDR of that precedence that has no FAR the
    program crashes ([None]).  Of a longer burst only the first packet is classified. *)
Theorem session_filters_select_rule {mbuf} `{Mbuf mbuf} inet_pton6 after_free env (classify : rte_acl_ctx -> mbuf -> nat -> Z)
    (matches : list (Z * Z) -> mbuf -> bool) s l fs rs n direction sessions m p si pdr0 pkts_mask fd_pkts_mask cells :
  env_ok env -> represents s l -> Forall2 (ipv4_rule inet_pton6 after_free) fs rs -> fs <> [] ->
  (length l + length fs < 256)%nat -> Z.of_nat (length fs) <= MAX_SDF_RULE_NUM ->
  Forall (fun c => c < n) (l.*2) -> 1 <= n -> n + Z.of_nat (length fs) < 2 ^ 16 ->
  (forall r m off, classify (mk_ctx [r] (Some ([r], NUM_FIELDS_IPV4))) m off =
                   if matches (snd (rule_key r)) m then userdata r else 0) ->
  exists s' is_, add_pdr_filters inet_pton6 after_free env fs [] s = Done (s', is_) /\
    (sessions !! p = Some si -> acl_table_indx si = is_ -> prepare_one_packet m = Some false ->
     ISSET_BIT pkts_mask 0 = true -> ISSET_BIT fd_pkts_mask 0 = true ->
     let best := best_precedence (map (fun r => if matches (snd (rule_key r)) m then userdata r else 0) rs) in
     exists cells',
       filter_traffic rte_acl_ctx classify direction (lookup_config s') sessions [m] [Some p] [pdr0] pkts_mask fd_pkts_mask cells =
         match get_pdr_node (pdrs si) best with
         | Some r => _ ← far r; Some ([Some r], reset_if (gate_closed direction r) pkts_mask 0, cells')
         | None => Some ([None], RESET_BIT pkts_mask 0, cells')
         end).
Proof.
  intros He Hrep Hfs Hne Hl Hlen Hc Hn Hb Hcl.
  destruct (add_pdr_filters_refine inet_pton6 after_free env He fs rs Hfs s l [] n Hrep Hl Hlen Hc Hn Hb)
    as (s' & l' & is_ & E & Hrep' & _ & HF).
  exists s', is_. split; [exact E|]. intros Hp Hsi Hm Hpm Hfm best.
  pose proof (tables_of_filters classify matches s' l' is_ rs m Hcl Hrep' HF) as [HT HV].
  destruct (filter_traffic_alone rte_acl_ctx classify direction (lookup_config s') sessions m p si false pdr0
              pkts_mask fd_pkts_mask cells) as (cells' & F & _); try done.
  - rewrite Hsi. intros ->. apply Forall2_length in HF, Hfs. by destruct fs, rs.
  - by rewrite Hsi.
  - exists cells'. rewrite F, Hsi, HV. done.
Qed.

(** ** Witnesses *)

Definition sample_env : acl_env := mk_acl_env true true true (fun _ _ => true) (fun rs => bool_decide (rs <> [])).

Lemma sample_env_ok : env_ok sample_env.
Proof. done. Defined.

(** TCP from anywhere to 10.0.0.0/24, as it reaches the user plane. *)
Definition sample_desc : text := lit "0.0.0.0/0 10.0.0.0/24 0 : 65535 0 : 65535 0x6/0xff".
Definition sample_filter (precedence : Z) : sdf_pkt_filter := mk_filter precedence false sample_desc.
Definition sample_rule (precedence : Z) : acl_rule :=
  mk_rule [mk_field 6 255; mk_field 0 0; mk_field 0x0a000000 24; mk_field 0 65535; mk_field 0 65535] precedence (u8 (255 - precedence)).

Lemma represents_empty : represents (mk_tabs ∅ ∅ 1) [].
Proof. split; [done|cbn; lia|done|done|constructor|constructor]. Qed.

(** The tables after [n] filters with the precedences 1, 2, .... *)
Definition numbered (n : nat) : list (key * Z) := map (fun i => (rule_key (sample_rule (Z.of_nat i + 1)), 1)) (seq 0 n).
Fixpoint tables_after (n : nat) : acl_tables :=
  match n with
  | O => mk_tabs ∅ ∅ 1
  | S n =>
      let i := Z.of_nat n + 1 in
      set_offset (i + 1) (set_conf i (built false (sample_rule i)) (set_tab i (mk_table (Some (sample_rule i)) 1 1) (tables_after n)))
  end.

Lemma numbered_fresh n p : Z.of_nat n < p -> (rule_key (sample_rule p) ∉ (numbered n).*1).
Proof.
  intros H [e [He Hin]]%list_elem_of_fmap. unfold numbered in Hin.
  apply list_elem_of_fmap in Hin as (i & -> & Hi). apply elem_of_seq in Hi. injection He as E. lia.
Qed.

Lemma find_filter_fresh k l : (k ∉ l.*1) -> find_filter k l = None.
Proof.
  intros H. apply list_find_None, Forall_forall. intros e He Hk. apply H. apply list_elem_of_fmap. by exists e.
Qed.

Lemma represents_tables_after n : (n < 256)%nat -> represents (tables_after n) (numbered n).
Proof.
  induction n as [|n IH]; intros Hn; [exact represents_empty|].
  assert (Hlen : length (numbered n) = n) by (unfold numbered; by rewrite length_map, length_seq).
  unfold numbered. rewrite seq_S, map_app. cbn [map]. change (map _ (seq 0 n)) with (numbered n). rewrite Nat.add_0_l.
  apply (represents_new (tables_after n)); [apply IH; lia|lia| | | |]; rewrite ?Hlen.
  - apply find_filter_fresh, numbered_fresh. lia.
  - intros j. cbn [tables_after]. autorewrite with acl_db. done.
  - intros j. cbn [tables_after]. autorewrite with acl_db. done.
  - done.
Qed.

Lemma filter_tables_count_bearers_witness :
  exists s', get_acl_table_indx (fun _ => None) id sample_env (sample_filter 2) true (tables_after 3) = Done (s', 2) /\
             num_of_ue (tab s' 2) = 2.
Proof.
  destruct (filter_tables_count_bearers (fun _ => None) id sample_env (tables_after 3) (numbered 3) (sample_filter 2) (sample_rule 2)
    sample_env_ok (represents_tables_after 3 ltac:(lia)) eq_refl eq_refl ltac:(cbn; lia) ltac:(by repeat constructor)) as (H & _ & _).
  change (use_filter (rule_key (sample_rule 2)) (numbered 3)) with
    ([(rule_key (sample_rule 1), 1); (rule_key (sample_rule 2), 2); (rule_key (sample_rule 3), 1)], 1%nat) in H.
  destruct H as (s' & E & R). exists s'. split; [exact E|].
  destruct (rep_tables _ _ R 1 _ eq_refl) as (r & _ & T & _). change (Z.of_nat 1 + 1) with 2 in T. by rewrite T.
Defined.

Lemma ipv4_rule_sample p acc desc r :
  match filter_of p acc desc with
  | Some f => rule_ip_type f = false /\ filter_rule (fun _ => None) id f = Some r
  | None => False
  end -> ipv4_rule (fun _ => None) id (mk_pf p acc desc) r.
Proof. unfold ipv4_rule. cbn [pf_prcdnc pf_access pf_desc]. destruct (filter_of p acc desc) as [f|]; [|done]. intros H. by exists f. Qed.

Lemma only_bearer_cannot_be_removed_witness :
  exists s', add_sdf_filter (fun _ => None) id sample_env 7 false sample_desc [2] (tables_after 3) = Done (s', [2; 4]) /\
             remove_sdf_filter (fun _ => None) id sample_env 7 false sample_desc [2; 4] s' = Fault.
Proof.
  apply (only_bearer_cannot_be_removed (fun _ => None) id sample_env (tables_after 3) (numbered 3) (mk_pf 7 false sample_desc)
    (sample_rule 7) [2] sample_env_ok (represents_tables_after 3 ltac:(lia))).
  - apply ipv4_rule_sample. by vm_compute.
  - cbn. lia.
  - apply numbered_fresh. lia.
  - by intros ?%list_elem_of_singleton.
  - done.
  - by repeat constructor.
Defined.

Lemma updated_filter_counted_again_witness :
  exists s', add_sdf_filter (fun _ => None) id sample_env 2 false sample_desc [1; 3] (tables_after 3) = Done (s', [1; 3; 2]) /\
             num_of_ue (tab s' 2) = 2.
Proof.
  destruct (updated_filter_counted_again (fun _ => None) id sample_env (tables_after 3) (numbered 3) (mk_pf 2 false sample_desc)
    (sample_rule 2) 1 1 [1] [3] sample_env_ok (represents_tables_after 3 ltac:(lia))) as (_ & s' & E & R).
  - apply ipv4_rule_sample. by vm_compute.
  - cbn. lia.
  - reflexivity.
  - by repeat constructor.
  - by intros ?%list_elem_of_singleton.
  - done.
  - exists s'. split; [exact E|]. destruct (rep_tables _ _ R 1 _ eq_refl) as (r & _ & T & _).
    change (Z.of_nat 1 + 1) with 2 in T. by rewrite T.
Defined.

Lemma filter_256_gets_no_rule_witness :
  get_acl_table_indx (fun _ => None) id sample_env (sample_filter 1000) true (tables_after 255) = Exit.
Proof.
  apply (filter_256_gets_no_rule (fun _ => None) id sample_env (tables_after 255) (numbered 255) (sample_filter 1000) (sample_rule 1000)
    sample_env_ok (represents_tables_after 255 ltac:(lia)) eq_refl eq_refl).
  - unfold numbered. by rewrite length_map, length_seq.
  - apply numbered_fresh. lia.
  - by vm_compute.
Defined.

(** A classification by the protocol, among the fields that the context was built with. *)
Definition proto_matches (p : Z * Z) (m : simple_mbuf) (off : nat) : bool := Z.land (load m off 1) (snd p) =? fst p.
Definition sample_classify (c : rte_acl_ctx) (m : simple_mbuf) (off : nat) : Z :=
  match trans_table c with
  | Some ([r], n) =>
      let f := default (mk_field 0 0) (take n (fields r) !! 0%nat) in
      if proto_matches (u8 (value f), u8 (mask_range f)) m OFF_IPV42PROTO then userdata r else 0
  | _ => 0
  end.
Definition sample_matches (k : list (Z * Z)) (m : simple_mbuf) : bool := proto_matches (default (0, 0) (k !! 0%nat)) m OFF_IPV42PROTO.

Lemma sample_classify_matches r m off :
  sample_classify (mk_ctx [r] (Some ([r], NUM_FIELDS_IPV4))) m off = if sample_matches (snd (rule_key r)) m then userdata r else 0.
Proof.
  unfold sample_classify, sample_matches, rule_key, fld, NUM_FIELDS_IPV4. cbn [trans_table snd]. destruct (fields r); reflexivity.
Qed.

(** Two IPv6 filters to different hosts. *)
Definition sample_ntop6 (t : text) : option (list byte) :=
  if bool_decide (t = lit "2001::2") then Some (replicate 16 x00) else Some sample_ip6.
Definition sample_filter6 (dst : text) : sdf_pkt_filter :=
  mk_filter 5 true (lit "2001::1/128 " ++ dst ++ lit "/128 0x6/0xff").

Lemma ipv6_destination_not_compared_witness :
  exists t t' i c c',
    get_acl_table_indx sample_ntop6 id sample_env (sample_filter6 (lit "2001::2")) true (mk_tabs ∅ ∅ 1) = Done (t, i) /\
    get_acl_table_indx sample_ntop6 id sample_env (sample_filter6 (lit "2001::3")) true (mk_tabs ∅ ∅ 1) = Done (t', i) /\
    acx_ipv6 _ (lookup_config t i) = Some (c, true) /\ acx_ipv6 _ (lookup_config t' i) = Some (c', true) /\
    forall m off, sample_classify c m off = sample_classify c' m off.
Proof.
  eapply (ipv6_destination_not_compared sample_ntop6 id sample_env sample_classify (mk_tabs ∅ ∅ 1)
    (sample_filter6 (lit "2001::2")) (sample_filter6 (lit "2001::3"))); try reflexivity.
  - exact sample_env_ok.
  - done.
  - intros r1 r2 n Hu _ Hf m off. unfold sample_classify. cbn [trans_table]. by rewrite Hu, Hf.
Defined.

(** A session with two rules on tables that serve another one; the packet is ICMP. *)
Definition icmp_desc : text := lit "0.0.0.0/0 10.0.0.0/24 0 : 65535 0 : 65535 0x1/0xff".
Definition any_desc : text := lit "0.0.0.0/0 0.0.0.0/0 0 : 65535 0 : 65535 0x0/0x0".
Definition icmp_pkt : simple_mbuf := mk_simple (replicate 128 x00) (replicate 14 x00 ++ [x45] ++ replicate 8 x00 ++ [x01] ++ replicate 10 x00).
Definition sample_rules : list pdr_info :=
  [mk_pdr 1 None 0 [] 2 0 None (mk_sref 7 9 0); mk_pdr 2 (Some (sample_far 0)) 0 [] 10 0 None (mk_sref 7 9 0)].

Lemma session_filters_select_rule_witness :
  exists s' cells',
    add_pdr_filters (fun _ => None) id sample_env [mk_pf 2 false sample_desc; mk_pf 20 false any_desc; mk_pf 10 false icmp_desc] []
      (tables_after 3) = Done (s', [2; 4; 5]) /\
    filter_traffic rte_acl_ctx sample_classify UPLINK (lookup_config s')
      {[ 1%positive := mk_sess sample_rules CONNECTED 4 0 0 false [2; 4; 5] None ]} [icmp_pkt] [Some 1%positive] [None] 1 1
      (mk_acls ∅ []) = Some ([Some (mk_pdr 2 (Some (sample_far 0)) 0 [] 10 0 None (mk_sref 7 9 0))], 1, cells').
Proof.
  destruct (session_filters_select_rule (fun _ => None) id sample_env sample_classify sample_matches (tables_after 3) (numbered 3)
    [mk_pf 2 false sample_desc; mk_pf 20 false any_desc; mk_pf 10 false icmp_desc]
    [sample_rule 2; mk_rule [mk_field 0 0; mk_field 0 0; mk_field 0 0; mk_field 0 65535; mk_field 0 65535] 20 235;
     mk_rule [mk_field 1 255; mk_field 0 0; mk_field 0x0a000000 24; mk_field 0 65535; mk_field 0 65535] 10 245]
    2 UPLINK {[ 1%positive := mk_sess sample_rules CONNECTED 4 0 0 false [2; 4; 5] None ]} icmp_pkt 1
    (mk_sess sample_rules CONNECTED 4 0 0 false [2; 4; 5] None) None 1 1 (mk_acls ∅ [])
    sample_env_ok (represents_tables_after 3 ltac:(lia))) as (s' & is_ & E & H).
  - constructor; [|constructor; [|constructor; [|constructor]]]; apply ipv4_rule_sample; by vm_compute.
  - done.
  - cbn. lia.
  - done.
  - by repeat constructor.
  - done.
  - done.
  - exact sample_classify_matches.
  - assert (E' := E). vm_compute in E'. injection E' as Es Ei. clear Es. subst is_. destruct H as (cells' & F); [reflexivity..|].
    exists s', cells'. split; [exact E|]. exact F.
Defined.
