(* ===== verification/UpUsage.v ===== *)
(** * Volume of user data and usage reports (dp/up_pkt_handler.c, pfcp_messages/pfcp_up_sess.c)

    [calculate_user_data_len] subtracts the headers in front of the user data from the
    length of a packet; [update_usage] adds the result to the counters of the first URR of
    the packet's PDR and, at a volume threshold, reports the usage to the control plane
    ([send_usage_report_req], [fill_sess_rep_req_usage_report]).  URRs are a store, as PDRs
    share them.  The counters have 32 bits.  The clock is read once per packet.

    The walk over GTP-U extension headers has no bound in the code: its fuel is an
    argument, and the theorems say when it ends and when no fuel is enough. *)
From S2P Require Import Prelude NodeAddr Mbuf UpPacket UpTunnel.

Definition VERSION_FLAG_CHECK : Z := 0xf0.
Definition IPv4_VERSION : Z := 0x40.
Definition GTP_HDR_SIZE : nat := 8.
Definition PDU_NO_BIT : Z := 1.
Definition SEQ_NO_BIT : Z := 2.
Definition EXTENSION_HDR_BIT : Z := 4.
Definition PDU_NO_SIZE : nat := 1.
Definition SEQ_NO_SIZE : nat := 2.
Definition NO_MORE_EXTENSION_HEADERS : Z := 0.

Definition IPPROTO_HOPOPTS : Z := 0.
Definition IPPROTO_ROUTING : Z := 43.
Definition IPPROTO_FRAGMENT : Z := 44.
Definition IPPROTO_ESP : Z := 50.
Definition IPPROTO_AH : Z := 51.
Definition IPPROTO_DSTOPTS : Z := 60.
Definition RTE_IPV6_FRAG_HDR_SIZE : nat := 8.

Section Length.
Context {mbuf : Type} `{Mbuf mbuf}.

(** ** getIPv6_header_len *)

(** The length of the extension header at an offset and the type of the next; [None] is
    [-EINVAL]. *)
Definition ipv6_get_next_ext (m : mbuf) (off : nat) (proto : Z) : option (Z * nat) :=
  if bool_decide (proto = IPPROTO_AH) then
    Some (load m off 1, ((Z.to_nat (load m (off + 1) 1) + 2) * 4)%nat)
  else if bool_decide (proto = IPPROTO_HOPOPTS) || bool_decide (proto = IPPROTO_ROUTING) ||
          bool_decide (proto = IPPROTO_DSTOPTS) then
    Some (load m off 1, ((Z.to_nat (load m (off + 1) 1) + 1) * 8)%nat)
  else if bool_decide (proto = IPPROTO_FRAGMENT) then Some (load m off 1, RTE_IPV6_FRAG_HDR_SIZE)
  else None.

(** The loop, on the packet without its Ethernet header (offset [ETH_HDR_SIZE] of [m]);
    each header has 8 bytes or more, so [data_len] iterations are enough. *)
Fixpoint ipv6_ext_loop (fuel : nat) (m : mbuf) (data_len : Z) (next_proto : Z) (l3len : nat) : nat :=
  match fuel with
  | O => l3len
  | S fuel =>
      if bool_decide (next_proto <> IPPROTO_ESP) && bool_decide (Z.of_nat l3len < data_len) then
        match ipv6_get_next_ext m (ETH_HDR_SIZE + l3len) next_proto with
        | Some (next_proto, ext_len) => ipv6_ext_loop fuel m data_len next_proto (l3len + ext_len)
        | None => l3len
        end
      else l3len
  end.

(** On a copy of the buffer's header: [rte_pktmbuf_adj] of the Ethernet header and, by
    [adjust_ipv6_pktlen], [rte_pktmbuf_trim] of what follows the IPv6 payload. *)
Definition getIPv6_header_len (m : mbuf) : nat :=
  let pkt_len := rte_pktmbuf_data_len m - Z.of_nat ETH_HDR_SIZE in
  let plen := ntohs (load m (ETH_HDR_SIZE + ipv6_payload_len) 2) + Z.of_nat IPv6_HDR_SIZE in
  let data_len := if bool_decide (plen < pkt_len) then plen else pkt_len in
  ipv6_ext_loop (Z.to_nat data_len) m data_len (load m (ETH_HDR_SIZE + ipv6_proto) 1) IPv6_HDR_SIZE.

(** ** calculate_user_data_len *)

(** The [while (1)] over the extension headers; [None] when the fuel runs out.  An empty
    length makes [next_extension_header] the byte before. *)
Fixpoint extension_loop (fuel : nat) (m : mbuf) (len : nat) : option nat :=
  match fuel with
  | O => None
  | S fuel =>
      let ext_hdr_len := Z.to_nat (load m len 1) in
      if bool_decide (load m (len + ext_hdr_len - 1) 1 = NO_MORE_EXTENSION_HEADERS)
      then Some (len + ext_hdr_len)%nat
      else extension_loop fuel m (len + ext_hdr_len)
  end.

(** The headers up to the GTP-U header. *)
Definition outer_headers (m : mbuf) : nat :=
  let version := Z.land (load m ETH_HDR_SIZE 1) VERSION_FLAG_CHECK in
  ETH_HDR_SIZE + (if bool_decide (version = IPv4_VERSION) then IPv4_HDR_SIZE else getIPv6_header_len m) + UDP_HDR_SIZE.

(** A C [int]: the difference of two 64-bit lengths, cut to 32 bits. *)
Definition calculate_user_data_len (fuel : nat) (m : mbuf) : option Z :=
  let total_len := rte_pktmbuf_data_len m in
  let len := outer_headers m in
  let gtpu_flags := load m len 1 in
  let len := (len + GTP_HDR_SIZE)%nat in
  let len := if bool_decide (Z.land gtpu_flags PDU_NO_BIT <> 0) then (len + PDU_NO_SIZE)%nat else len in
  let len := if bool_decide (Z.land gtpu_flags SEQ_NO_BIT <> 0) then (len + SEQ_NO_SIZE)%nat else len in
  len ← (if bool_decide (Z.land gtpu_flags EXTENSION_HDR_BIT <> 0) then extension_loop fuel m len else Some len);
  Some (swrap 32 (total_len - (Z.of_nat len - Z.of_nat ETH_HDR_SIZE))).

End Length.

(** ** The counters of a URR *)

Inductive urr_measur_method := VOL_BASED | TIME_BASED | VOL_TIME_BASED.
#[export] Instance urr_measur_method_eq : EqDecision urr_measur_method.
Proof. solve_decision. Defined.

Record urr_info := mk_urr {
  urr_id : Z;
  urr_seq_num : Z;
  meas_method : urr_measur_method;
  rept_trigg : urr_measur_method;
  vol_thes_uplnk : Z;
  vol_thes_dwnlnk : Z;
  uplnk_data : Z;
  dwnlnk_data : Z;
  start_time : Z;
  first_pkt_time : Z;
  last_pkt_time : Z
}.

Definition set_volume (ul dl : Z) (u : urr_info) : urr_info :=
  mk_urr (urr_id u) (urr_seq_num u) (meas_method u) (rept_trigg u) (vol_thes_uplnk u) (vol_thes_dwnlnk u)
    ul dl (start_time u) (first_pkt_time u) (last_pkt_time u).

Definition set_pkt_times (first last : Z) (u : urr_info) : urr_info :=
  mk_urr (urr_id u) (urr_seq_num u) (meas_method u) (rept_trigg u) (vol_thes_uplnk u) (vol_thes_dwnlnk u)
    (uplnk_data u) (dwnlnk_data u) (start_time u) first last.

(** The values of a usage report: volumes, if they are measured (the total has 64 bits but
    is a sum of 32), whether the duration is, and the times. *)
Record usage_report := mk_report {
  rp_urr_id : Z;
  rp_urseqn : Z;
  rp_volth : bool;
  rp_timth : bool;
  rp_volume : option (Z * Z * Z);
  rp_duration : bool;
  rp_start : Z;
  rp_end : Z;
  rp_first : Z;
  rp_last : Z
}.

Definition measures_volume (m : urr_measur_method) : bool := bool_decide (m = VOL_TIME_BASED) || bool_decide (m = VOL_BASED).
Definition measures_time (m : urr_measur_method) : bool := bool_decide (m = TIME_BASED) || bool_decide (m = VOL_TIME_BASED).

(** The report and what becomes of the URR. *)
Definition fill_sess_rep_req_usage_report (now : Z) (trig : urr_measur_method) (u : urr_info)
    : usage_report * urr_info :=
  let report := mk_report (urr_id u) (urr_seq_num u) (bool_decide (trig = VOL_BASED)) (bool_decide (trig = TIME_BASED))
    (if measures_volume (meas_method u) then Some (uplnk_data u, dwnlnk_data u, dwnlnk_data u +[32] uplnk_data u) else None)
    (measures_time (meas_method u)) (start_time u) now (first_pkt_time u) (last_pkt_time u) in
  let reset := measures_time (meas_method u) in
  (report, mk_urr (urr_id u) (urr_seq_num u +[32] 1) (meas_method u) (rept_trigg u) (vol_thes_uplnk u) (vol_thes_dwnlnk u)
     (if reset then 0 else uplnk_data u) (if reset then 0 else dwnlnk_data u) now 0 0).

(** A report with the SEIDs of the session it is for. *)
Record sent_report := mk_sent { sr_cp_seid : Z; sr_up_seid : Z; sr_report : usage_report }.

(** The threshold is checked for triggers that count volume. *)
Definition volume_trigger (u : urr_info) : bool :=
  bool_decide (rept_trigg u = VOL_TIME_BASED) || bool_decide (rept_trigg u = VOL_BASED).

(** The body of [update_usage] for a URR: counters, times, report.  [send_usage_report_req]
    fills the report, queues it for the charging records and sends it when the session is
    known. *)
Definition count_packet (flow : gate_direction) (now len : Z) (u : urr_info) : urr_info * option usage_report :=
  let u := set_pkt_times (if bool_decide (first_pkt_time u = 0) then now else first_pkt_time u) now u in
  match flow with
  | DOWNLINK =>
      let u := set_volume (uplnk_data u) (dwnlnk_data u +[32] len) u in
      if volume_trigger u && bool_decide (vol_thes_dwnlnk u <= dwnlnk_data u) then
        let '(r, u) := fill_sess_rep_req_usage_report now VOL_BASED u in
        (set_volume (uplnk_data u) 0 u, Some r)
      else (u, None)
  | UPLINK =>
      let u := set_volume (uplnk_data u +[32] len) (dwnlnk_data u) u in
      if volume_trigger u && bool_decide (vol_thes_uplnk u <= uplnk_data u) then
        let '(r, u) := fill_sess_rep_req_usage_report now VOL_BASED u in
        (set_volume 0 (dwnlnk_data u) u, Some r)
      else (u, None)
  | NO_DIRECTION => (u, None)
  end.

(** ** update_usage *)

(** The URRs and the reports that were filled, oldest first. *)
Record usage_state := mk_usage { us_urrs : gmap positive urr_info; us_sent : list sent_report }.

Section Usage.
Context {mbuf : Type} `{Mbuf mbuf}.
Variables (fuel : nat) (now : nat -> Z).

(** For a packet of the mask: a PDR with [urr_count] set and no URR is a null access
    ([None]), as is the loop of the length that does not end. *)
Definition update_usage_pkt (flow : gate_direction) (i : nat) (m : mbuf) (pdr : option pdr_info) (s : usage_state)
    : option usage_state :=
  match pdr with
  | None => Some s
  | Some p =>
      if bool_decide (urr_count p = 0) then Some s else
      l ← urr p; u ← us_urrs s !! l;
      match flow with
      | NO_DIRECTION => Some s
      | _ =>
          len ← calculate_user_data_len fuel m;
          let '(u, r) := count_packet flow (now i) len u in
          let ref := session p in
          Some (mk_usage (<[l := u]> (us_urrs s))
                  (us_sent s ++ match r with Some r => [mk_sent (cp_seid ref) (up_seid ref) r] | None => [] end))
      end
  end.

Fixpoint update_usage_from (i : nat) (flow : gate_direction) (pkts : list (mbuf * option pdr_info)) (pkts_mask : Z)
    (s : usage_state) : option usage_state :=
  match pkts with
  | [] => Some s
  | (m, pdr) :: pkts =>
      s ← (if ISSET_BIT pkts_mask i then update_usage_pkt flow i m pdr s else Some s);
      update_usage_from (S i) flow pkts pkts_mask s
  end.

Definition update_usage (flow : gate_direction) (pkts : list mbuf) (pdr : list (option pdr_info)) (pkts_mask : Z)
    (s : usage_state) : option usage_state :=
  update_usage_from 0 flow (zip pkts pdr) pkts_mask s.

End Usage.

(** ** Sequences of packets of one URR *)

(** A packet: its direction, the time and the length of its user data. *)
Record counted := mk_counted { ct_flow : gate_direction; ct_now : Z; ct_len : Z }.

(** The URR after the packets, and the reports with the direction that caused them. *)
Fixpoint count_packets (u : urr_info) (ps : list counted) : urr_info * list (gate_direction * usage_report) :=
  match ps with
  | [] => (u, [])
  | p :: ps =>
      let '(u, r) := count_packet (ct_flow p) (ct_now p) (ct_len p) u in
      let '(u', rs) := count_packets u ps in
      (u', match r with Some r => (ct_flow p, r) :: rs | None => rs end)
  end.

Definition volume_of (flow : gate_direction) (r : usage_report) : Z :=
  match rp_volume r, flow with
  | Some (ul, _, _), UPLINK => ul
  | Some (_, dl, _), DOWNLINK => dl
  | _, _ => 0
  end.

Definition counter_of (flow : gate_direction) (u : urr_info) : Z :=
  match flow with UPLINK => uplnk_data u | DOWNLINK => dwnlnk_data u | NO_DIRECTION => 0 end.

Definition direction_eqb (a b : gate_direction) : bool :=
  match a, b with
  | UPLINK, UPLINK | DOWNLINK, DOWNLINK | NO_DIRECTION, NO_DIRECTION => true
  | _, _ => false
  end.

Definition zsum (xs : list Z) : Z := foldr Z.add 0 xs.

(** What the reports say was carried in a direction, and what was. *)
Definition reported (flow : gate_direction) (rs : list (gate_direction * usage_report)) : Z :=
  zsum (map (fun x => volume_of flow (snd x)) rs).
Definition carried (flow : gate_direction) (ps : list counted) : Z :=
  zsum (map (fun p => if direction_eqb (ct_flow p) flow then ct_len p else 0) ps).

(** The part of it in the reports of the other direction. *)
Definition reported_by_other (flow : gate_direction) (rs : list (gate_direction * usage_report)) : Z :=
  zsum (map (fun x => if direction_eqb (fst x) flow then 0 else volume_of flow (snd x)) rs).

(** A URR that measures volume, reports at thresholds and is below them. *)
Definition metering (u : urr_info) : Prop :=
  volume_trigger u = true /\ measures_volume (meas_method u) = true /\
  0 <= uplnk_data u < vol_thes_uplnk u /\ 0 <= dwnlnk_data u < vol_thes_dwnlnk u /\
  vol_thes_uplnk u + 2 ^ 16 <= 2 ^ 32 /\ vol_thes_dwnlnk u + 2 ^ 16 <= 2 ^ 32.

Definition small_packet (p : counted) : Prop := 0 <= ct_len p < 2 ^ 16 /\ ct_flow p <> NO_DIRECTION.

(** What one packet adds to a direction beyond what it carries. *)
Definition overcount (flow : gate_direction) (u : urr_info) (p : counted) (r : option usage_report) : Z :=
  match r with
  | Some r => if direction_eqb (ct_flow p) flow || measures_time (meas_method u) then 0 else volume_of flow r
  | None => 0
  end.

Lemma count_packet_step u p u' r flow :
  metering u -> small_packet p -> flow <> NO_DIRECTION ->
  count_packet (ct_flow p) (ct_now p) (ct_len p) u = (u', r) ->
  metering u' /\ meas_method u' = meas_method u /\
  from_option (volume_of flow) 0 r + counter_of flow u' =
  counter_of flow u + (if direction_eqb (ct_flow p) flow then ct_len p else 0) + overcount flow u p r.
Proof.
  intros (Ht & Hm & Hul & Hdl & H1 & H2) (Hl & Hf) Hflow E.
  unfold count_packet in E.
  assert (forall a b c, 0 <= a -> 0 <= b < 2 ^ 16 -> a < c -> c + 2 ^ 16 <= 2 ^ 32 -> a +[32] b = a + b) as Hw.
  { intros a b c ????. apply wrap_small. lia. }
  assert (2 ^ 16 = 65536) as E16 by done. assert (2 ^ 32 = 4294967296) as E32 by done.
  destruct u as [id sq mm rt tu td ul dl st fp lp]. unfold metering, volume_trigger in *.
  cbn [set_pkt_times set_volume urr_id urr_seq_num meas_method rept_trigg vol_thes_uplnk vol_thes_dwnlnk
       uplnk_data dwnlnk_data start_time first_pkt_time last_pkt_time] in *.
  destruct (ct_flow p) eqn:Ef; [| |done]; rewrite Ht in E; cbn [andb] in E.
  1: rewrite (Hw ul _ tu) in E by lia. 2: rewrite (Hw dl _ td) in E by lia.
  all: unfold fill_sess_rep_req_usage_report, set_volume, set_pkt_times in E; cbn [urr_id urr_seq_num meas_method rept_trigg vol_thes_uplnk vol_thes_dwnlnk
       uplnk_data dwnlnk_data start_time first_pkt_time last_pkt_time] in E; rewrite Hm in E.
  all: case_bool_decide; injection E as <- <-;
    cbn [urr_id urr_seq_num meas_method rept_trigg vol_thes_uplnk vol_thes_dwnlnk uplnk_data dwnlnk_data];
    unfold overcount; rewrite ?Ef; cbn [from_option volume_of rp_volume meas_method].
  all: split; [split; [exact Ht|split; [exact Hm|destruct (measures_time mm); lia]]|split; [done|]].
  all: destruct flow; [| |done]; cbn [counter_of volume_of direction_eqb uplnk_data dwnlnk_data orb rp_volume]; destruct (measures_time mm); lia.
Qed.

(** C13. The volumes that a URR reports account for the user data: what the reports say was
    carried in a direction, plus what the counter holds, is what was carried.  For a URR
    that measures volume only ([VOL_BASED]) a report caused by one direction leaves the
    counter of the other as it is, although it has reported it: exactly the volumes of these
    reports are reported a second time. *)
Theorem volume_reports_account u ps u' rs flow :
  metering u -> Forall small_packet ps -> flow <> NO_DIRECTION -> count_packets u ps = (u', rs) ->
  metering u' /\
  reported flow rs + counter_of flow u' =
  counter_of flow u + carried flow ps +
  (if bool_decide (meas_method u = VOL_BASED) then reported_by_other flow rs else 0).
Proof.
  intros Hu HF Hflow. revert u u' rs Hu. induction HF as [|p ps Hp HF IH]; intros u u' rs Hu E.
  - injection E as <- <-. split; [done|]. unfold reported, carried, reported_by_other. cbn [map zsum foldr].
    destruct (bool_decide _); lia.
  - cbn [count_packets] in E. destruct (count_packet _ _ _ u) as [u1 r] eqn:E1.
    destruct (count_packets u1 ps) as [u2 rs2] eqn:E2. injection E as -> <-.
    destruct (count_packet_step u p u1 r flow Hu Hp Hflow E1) as (Hu1 & Hmm & Hc).
    destruct (IH u1 u' rs2 Hu1 E2) as [Hu' Hr]. split; [done|]. rewrite Hmm in Hr.
    assert (measures_time (meas_method u) = negb (bool_decide (meas_method u = VOL_BASED))) as Hmt.
    { destruct Hu as (_ & Hv & _). by destruct (meas_method u). }
    unfold reported, carried, reported_by_other, zsum, overcount in *. rewrite Hmt in Hc.
    destruct r as [r|]; cbn [map foldr fst snd from_option] in *; [|lia].
    destruct (direction_eqb (ct_flow p) flow), (bool_decide (meas_method u = VOL_BASED)); cbn [orb negb] in *; lia.
Qed.

(** ** Extension headers *)

Section Hang.
Context {mbuf : Type} `{Mbuf mbuf}.

Lemma extension_loop_zero fuel (m : mbuf) len :
  load m len 1 = 0 -> load m (len - 1) 1 <> 0 -> extension_loop fuel m len = None.
Proof.
  intros H0 H1. induction fuel as [|fuel IH]; [done|]. cbn [extension_loop]. rewrite H0. cbn [Z.to_nat].
  rewrite Nat.add_0_r. unfold NO_MORE_EXTENSION_HEADERS. by rewrite bool_decide_false.
Qed.

(** C29. The user plane hangs in the usage accounting on a tunnelled packet of a metered PDR
    whose GTP-U header announces an extension header (flag E alone) of length 0 behind a
    TEID that does not end in 0: the loop over the extension headers does not advance, and
    no number of iterations ends it. *)
Theorem empty_extension_header_hangs fuel now flow (m : mbuf) pkts p pdrs l u mask s :
  flow <> NO_DIRECTION -> ISSET_BIT mask 0 = true ->
  urr_count p <> 0 -> urr p = Some l -> us_urrs s !! l = Some u ->
  Z.land (load m ETH_HDR_SIZE 1) VERSION_FLAG_CHECK = IPv4_VERSION ->
  load m (get_mtogtpu false + gtpu_flags) 1 = 0x34 ->
  load m (get_mtogtpu false + gtpu_teid + 3) 1 <> 0 -> load m (get_mtogtpu false + gtpu_seqnb_off) 1 = 0 ->
  update_usage fuel now flow (m :: pkts) (Some p :: pdrs) mask s = None.
Proof.
  intros Hflow Hb Hc Hp Hu Hv Hfl Hteid Hseq. unfold update_usage. cbn [zip zip_with update_usage_from].
  rewrite Hb. unfold update_usage_pkt. rewrite bool_decide_false, Hp by done. cbn [mbind option_bind].
  rewrite Hu. cbn [mbind option_bind].
  assert (calculate_user_data_len fuel m = None) as Hl.
  { unfold calculate_user_data_len, outer_headers. rewrite Hv, (bool_decide_true (IPv4_VERSION = IPv4_VERSION)) by done.
    change (load m (ETH_HDR_SIZE + IPv4_HDR_SIZE + UDP_HDR_SIZE) 1) with (load m (get_mtogtpu false + gtpu_flags) 1).
    rewrite Hfl. change (bool_decide (Z.land 0x34 PDU_NO_BIT <> 0)) with false.
    change (bool_decide (Z.land 0x34 SEQ_NO_BIT <> 0)) with false.
    change (bool_decide (Z.land 0x34 EXTENSION_HDR_BIT <> 0)) with true. cbv iota.
    by rewrite extension_loop_zero. }
  rewrite Hl. by destruct flow.
Qed.
End Hang.

(** ** Witnesses *)

Definition sample_urr (mm : urr_measur_method) : urr_info := mk_urr 1 0 mm VOL_BASED 100 100 0 60 0 0 0.

(** 60 bytes downlink are in the counter: the report of 100 bytes uplink tells them, and so
    does the report of the next 60. *)
Lemma volume_reports_account_witness :
  let ps := [mk_counted UPLINK 1 100; mk_counted DOWNLINK 2 60] in
  let '(u', rs) := count_packets (sample_urr VOL_BASED) ps in
  reported DOWNLINK rs + counter_of DOWNLINK u' =
  counter_of DOWNLINK (sample_urr VOL_BASED) + carried DOWNLINK ps + 60.
Proof.
  intros ps. destruct (count_packets (sample_urr VOL_BASED) ps) as [u' rs] eqn:E.
  destruct (volume_reports_account (sample_urr VOL_BASED) ps u' rs DOWNLINK) as [_ H]; [..|done|done|].
  - unfold metering, sample_urr. cbn. split_and!; try done.
  - repeat constructor; done.
  - rewrite H. vm_compute in E. injection E as _ <-. reflexivity.
Defined.

(** The packet and a metered PDR. *)
Definition extension_pkt : simple_mbuf :=
  mk_simple [] (replicate 14 x00 ++ [x45] ++ replicate 27 x00 ++ [x34; xff; x00; x08; x00; x00; x00; x05] ++ replicate 8 x00).

Lemma empty_extension_header_hangs_witness :
  update_usage 1000 (fun _ => 0) UPLINK [extension_pkt]
    [Some (mk_pdr 1 None 0 [] 10 1 (Some 1%positive) (mk_sref 7 9 0))] 1
    (mk_usage {[ 1%positive := sample_urr VOL_BASED ]} []) = None.
Proof.
  by apply (empty_extension_header_hangs 1000 (fun _ => 0) UPLINK extension_pkt [] _ [] 1 (sample_urr VOL_BASED)).
Defined.
