(* ===== verification/UpArp.v ===== *)
(** * Neighbours and Ethernet headers of the user plane (dp/pipeline/epc_arp.c, dp/up_ether.c,
    dp/up.c)

    The table of neighbours of each port: [retrieve_arp_entry] finds the entry of an address
    or creates an incomplete one with a ring for the packets that wait for it;
    [process_arp_msg] and [process_neighbor_advert_msg] complete it and send these packets.
    [construct_ether_hdr] gives a packet the MAC addresses of its next hop, or queues it;
    [update_nexthop_info] does so for a burst.

    Entries and rings live in heaps; a table maps keys to addresses of entries, so an entry
    that is freed while a table names it is dangling, and reading it is [None].  The name of
    a ring must be new ([rte_ring_create] fails with [EEXIST] otherwise); it is a C string,
    the text of an IPv4 address but the raw bytes of an IPv6 address.  A call takes what the
    outside answers as a record [arp_env].  The copy a queue holds is a clone, which shares
    the data of the packet. *)
From S2P Require Import Prelude NodeAddr UpSess Mbuf UpPacket UpTunnel.

Definition ETH_TYPE_IPv4 : Z := 0x0800.
Definition ETH_TYPE_IPv6 : Z := 0x86DD.
Definition IP_HDR_IPv4_VERSION : Z := 0x45.
Definition ARP_BUFFER_RING_SIZE : nat := 128.
(** [ntohl(4294967040)], a 24-bit mask in network order. *)
Definition NETMASK : Z := ntohl 4294967040.

Abbreviation ether_addr := (list byte).

(** ** Data *)

(** [struct arp_ip_key]: zeroed, with one of the flags of [ip_type] set. *)
Inductive arp_ip_key := key_ipv4 (a : Z) | key_ipv6 (a : in6_addr).

#[export] Instance arp_ip_key_eq : EqDecision arp_ip_key.
Proof. solve_decision. Defined.
#[export] Instance arp_ip_key_countable : Countable arp_ip_key :=
  inj_countable' (fun k => match k with key_ipv4 a => inl a | key_ipv6 a => inr a end)
    (fun s => match s with inl a => key_ipv4 a | inr a => key_ipv6 a end) ltac:(by intros []).

Record arp_entry_data := mk_arp {
  ae_key : arp_ip_key;      (* ip_type, ipv4, ipv6 *)
  eth_addr : ether_addr;
  complete : bool;          (* status = COMPLETE *)
  queue : option positive
}.

Record RouteInfo := mk_route { gateWay : Z; gateWay_Mac : ether_addr }.

(** The addresses of the ports and the routing of IPv4 (part of [struct app_params]): the
    gateway and the networks as the configuration stores them. *)
Record l2_params := mk_l2 {
  wb_port : Z; eb_port : Z;
  wb_gw_ip : Z; wb_mask : Z; eb_gw_ip : Z; eb_mask : Z;
  ports_eth_addr : Z -> ether_addr
}.

(** What the outside answers: the contents of new memory where [eth_addr] will be, whether
    there is memory for a ring and for a clone, whether the sockets of the kernel's
    interface are open, and whether a send on them succeeds. *)
Record arp_env := mk_env {
  eth_junk : ether_addr; ring_mem : bool; clone_mem : bool; fd_v4_open : bool; fd_v6_open : bool; sendto_ok : bool
}.

Section Arp.
Context {mbuf : Type} `{Mbuf mbuf}.

(** A ring holds [size - 1] packets. *)
Record rte_ring := mk_ring { ring_name : list byte; ring_pkts : list mbuf }.

Record arp_state := mk_arps {
  arp_hash_handle : gmap (Z * arp_ip_key) positive;
  arp_entries : gmap positive arp_entry_data;
  rings : gmap positive rte_ring;
  route_hash_handle : gmap Z RouteInfo;
  shared_ring : gmap Z (list mbuf)
}.

Definition set_entries e (s : arp_state) := mk_arps (arp_hash_handle s) e (rings s) (route_hash_handle s) (shared_ring s).
Definition set_rings r (s : arp_state) := mk_arps (arp_hash_handle s) (arp_entries s) r (route_hash_handle s) (shared_ring s).
Definition set_shared r (s : arp_state) := mk_arps (arp_hash_handle s) (arp_entries s) (rings s) (route_hash_handle s) r.

(** ** Names of rings *)

(** The bytes of a C string. *)
Fixpoint c_string (bs : list byte) : list byte :=
  match bs with
  | [] => []
  | b :: bs => if decide (b = x00) then [] else b :: c_string bs
  end.

Definition digit (n : Z) : byte := byte_of_Z (48 + n mod 10).

(** [%d] of a byte, and [inet_ntoa]. *)
Definition dec_byte (n : Z) : list byte :=
  if bool_decide (n < 10) then [digit n]
  else if bool_decide (n < 100) then [digit (n / 10); digit n]
  else [digit (n / 100); digit (n / 10); digit n].

Definition dot : byte := byte_of_Z 46.
Definition inet_ntoa (a : Z) : list byte :=
  dec_byte (a mod 256) ++ [dot] ++ dec_byte (a / 256 mod 256) ++ [dot] ++
  dec_byte (a / 65536 mod 256) ++ [dot] ++ dec_byte (a / 16777216 mod 256).

Definition name_of (k : arp_ip_key) : list byte :=
  match k with key_ipv4 a => inet_ntoa a | key_ipv6 a => c_string a end.

Definition name_used (s : arp_state) (name : list byte) : bool :=
  existsb (fun '(_, r) => bool_decide (ring_name r = name)) (map_to_list (rings s)).

(** ** The ring of an entry *)

Definition new_loc {A} (m : gmap positive A) : positive := fresh (dom m).

Definition write_entry (l : positive) (e : arp_entry_data) (s : arp_state) : arp_state :=
  set_entries (<[l := e]> (arp_entries s)) s.

Definition all_node_addr : in6_addr := [xff; x02] ++ replicate 13 x00 ++ [x01].
Definition all_router_addr : in6_addr := [xff; x02] ++ replicate 13 x00 ++ [x02].

(** A new entry for an address that the table does not have: incomplete, its MAC address
    what the memory held, except for the two multicast addresses. *)
Definition new_entry (env : arp_env) (key : arp_ip_key) : arp_entry_data :=
  match key with
  | key_ipv4 _ => mk_arp key (eth_junk env) false None
  | key_ipv6 a =>
      if bool_decide (a = all_node_addr) then mk_arp key [x33; x33; x00; x00; x00; x01] true None
      else if bool_decide (a = all_router_addr) then mk_arp key [x33; x33; x00; x00; x00; x02] true None
      else mk_arp key (eth_junk env) false None
  end.

Definition set_queue (q : option positive) (e : arp_entry_data) : arp_entry_data :=
  mk_arp (ae_key e) (eth_addr e) (complete e) q.

(** The part of [retrieve_arp_entry] that creates an entry: it is added to the table, then
    its ring is created; when the ring's name exists the entry is freed and the result is
    NULL, but the table keeps its address. *)
Definition create_arp_entry (env : arp_env) (key : arp_ip_key) (portid : Z) (s : arp_state)
    : arp_state * option positive :=
  let l := new_loc (arp_entries s) in
  let e := new_entry env key in
  let s := mk_arps (<[(portid, key) := l]> (arp_hash_handle s)) (<[l := e]> (arp_entries s)) (rings s)
             (route_hash_handle s) (shared_ring s) in
  if name_used s (name_of key) then (set_entries (delete l (arp_entries s)) s, None)
  else if ring_mem env then
    let r := new_loc (rings s) in
    (set_rings (<[r := mk_ring (name_of key) []]> (rings s)) (write_entry l (set_queue (Some r) e) s), Some l)
  else (s, Some l).

(** A route to the network of an address gives an entry of its own for every call, not in
    the table; [gateWay_Mac.addr_bytes != 0] compares the address of an array. *)
Definition retrieve_arp_entry (env : arp_env) (key : arp_ip_key) (portid : Z) (s : arp_state)
    : arp_state * option positive :=
  match arp_hash_handle s !! (portid, key) with
  | Some l => (s, Some l)
  | None =>
      match key with
      | key_ipv4 a =>
          match route_hash_handle s !! Z.land a NETMASK with
          | Some route =>
              if bool_decide (gateWay route <> 0) then
                let l := new_loc (arp_entries s) in
                (write_entry l (mk_arp (key_ipv4 (gateWay route)) (gateWay_Mac route) true None) s, Some l)
              else create_arp_entry env key portid s
          | None => create_arp_entry env key portid s
          end
      | key_ipv6 _ => create_arp_entry env key portid s
      end
  end.

(** ** Packets that wait *)

(** [arp_qunresolved_ulpkt] and [arp_qunresolved_dlpkt], the same body: 0 when the clone is
    in the ring; [None] is a missing ring. *)
Definition arp_qunresolved_pkt (env : arp_env) (l : positive) (m : mbuf) (s : arp_state) : option (arp_state * Z) :=
  if negb (clone_mem env) then Some (s, -1) else
  e ← arp_entries s !! l; q ← queue e; r ← rings s !! q;
  if bool_decide (length (ring_pkts r) < ARP_BUFFER_RING_SIZE - 1)%nat
  then Some (set_rings (<[q := mk_ring (ring_name r) (ring_pkts r ++ [m])]> (rings s)) s, 0)
  else Some (s, -105).

(** The Ethernet addresses of a packet. *)
Definition set_macs (dst src : ether_addr) (m : mbuf) : mbuf := poke (poke m 0 dst) 6 src.

Variable l2 : l2_params.
Variable shared_size : nat.

(** [arp_send_buffered_pkts]: every packet of the ring goes to the shared ring of the port
    while that has room; the ring is freed. *)
Definition arp_send_buffered_pkts (q : positive) (hw_addr : ether_addr) (portid : Z) (s : arp_state) : option arp_state :=
  r ← rings s !! q;
  let out := default [] (shared_ring s !! portid) in
  let sent := map (set_macs hw_addr (ports_eth_addr l2 portid)) (ring_pkts r) in
  let out := take (Nat.max (length out) (shared_size - 1)) (out ++ sent) in
  Some (set_rings (delete q (rings s)) (set_shared (<[portid := out]> (shared_ring s)) s)).

(** [process_arp_msg] and [process_neighbor_advert_msg], the same body for the two kinds of
    key. *)
Definition process_neighbour (env : arp_env) (hw_addr : ether_addr) (key : arp_ip_key) (portid : Z)
    (s : arp_state) : option arp_state :=
  match retrieve_arp_entry env key portid s with
  | (s, None) => Some s
  | (s, Some l) =>
      e ← arp_entries s !! l;
      if bool_decide (eth_addr e = hw_addr) then Some s else
      if complete e then Some (write_entry l (mk_arp (ae_key e) hw_addr true (queue e)) s) else
      s ← (match queue e with Some q => arp_send_buffered_pkts q hw_addr portid s | None => Some s end);
      Some (write_entry l (mk_arp (ae_key e) hw_addr true (queue e)) s)
  end.

Definition process_arp_msg env hw_addr ipaddr := process_neighbour env hw_addr (key_ipv4 ipaddr).
Definition process_neighbor_advert_msg env hw_addr ip6_addr := process_neighbour env hw_addr (key_ipv6 ip6_addr).

(** ** construct_ether_hdr *)

Variable app : app_params.

(** The address a packet's next hop is looked up by, the destination or the gateway. *)
Definition next_hop_v4 (portid dst_addr : Z) : Z :=
  if bool_decide (portid = wb_port l2) then
    if bool_decide (wb_gw_ip l2 <> 0) && bool_decide (Z.land dst_addr (wb_mask l2) <> wb_net app)
    then wb_gw_ip l2 else dst_addr
  else if bool_decide (portid = eb_port l2) then
    if bool_decide (eb_gw_ip l2 <> 0) && bool_decide (Z.land dst_addr (eb_mask l2) <> eb_net app)
    then eb_gw_ip l2 else dst_addr
  else dst_addr.

(** The key and the Ethernet type by the first byte of the IP header. *)
Definition arp_key_of (m : mbuf) (portid : Z) : option (arp_ip_key * Z) :=
  let version := load m ETH_HDR_SIZE 1 in
  if bool_decide (version = IP_HDR_IPv4_VERSION)
  then Some (key_ipv4 (next_hop_v4 portid (load m (ETH_HDR_SIZE + ipv4_dst_addr) 4)), ETH_TYPE_IPv4)
  else if bool_decide (version = IPv6_VERSION)
  then Some (key_ipv6 (peek m (ETH_HDR_SIZE + ipv6_dst_addr) 16), ETH_TYPE_IPv6)
  else None.

(** An incomplete entry: the packet is given to the kernel, whose address resolution it
    triggers, and queued.  The result of the C function is -1 in every case. *)
Definition send_unresolved (env : arp_env) (l : positive) (e : arp_entry_data) (key : arp_ip_key) (m : mbuf)
    (portid : Z) (s : arp_state) : option arp_state :=
  let fd_open := match key with key_ipv4 _ => fd_v4_open env | key_ipv6 _ => fd_v6_open env end in
  if negb (fd_open && sendto_ok env) then Some s else
  if bool_decide (portid = eb_port l2) then
    '(s, r) ← arp_qunresolved_pkt env l m s;
    if bool_decide (r = 0) then Some s else
    if bool_decide (portid = wb_port l2) then '(s, _) ← arp_qunresolved_pkt env l m s; Some s else Some s
  else if bool_decide (portid = wb_port l2) then '(s, _) ← arp_qunresolved_pkt env l m s; Some s
  else Some s.

(** The packet, the state, and whether the result is 0; for a packet that is neither IPv4
    nor IPv6 a log line reads the FAR of its PDR. *)
Definition construct_ether_hdr (env : arp_env) (m : mbuf) (portid : Z) (pdr : option pdr_info) (s : arp_state)
    : option (mbuf * arp_state * bool) :=
  match arp_key_of m portid with
  | None => _ ← log_far pdr; Some (m, s, false)
  | Some (key, type) =>
      let m := store m ether_type_off 2 (htons type) in
      match retrieve_arp_entry env key portid s with
      | (s, None) => Some (m, s, false)
      | (s, Some l) =>
          e ← arp_entries s !! l;
          if complete e then Some (set_macs (eth_addr e) (ports_eth_addr l2 portid) m, s, true)
          else s ← send_unresolved env l e key m portid s; Some (m, s, false)
      end
  end.

(** ** update_nexthop_info *)

Fixpoint update_nexthop_info_from (env : nat -> arp_env) (i : nat) (pkts : list mbuf) (pdr : list (option pdr_info))
    (pkts_mask portid : Z) (s : arp_state) : option (list mbuf * Z * arp_state) :=
  match pkts, pdr with
  | m :: pkts, p :: pdr =>
      '(m, ok, s) ← (if ISSET_BIT pkts_mask i && bool_decide (p <> None)
                     then '(m, s, ok) ← construct_ether_hdr (env i) m portid p s; Some (m, ok, s)
                     else Some (m, false, s));
      '(ms, pkts_mask, s) ← update_nexthop_info_from env (S i) pkts pdr (reset_if (negb ok) pkts_mask i) portid s;
      Some (m :: ms, pkts_mask, s)
  | _, _ => Some (pkts, pkts_mask, s)
  end.

Definition update_nexthop_info env := update_nexthop_info_from env 0.

End Arp.

(** ** Waiting for a neighbour *)

(** Nothing fails outside. *)
Definition env_ok (env : arp_env) : Prop :=
  ring_mem env = true /\ clone_mem env = true /\ fd_v4_open env = true /\ fd_v6_open env = true /\ sendto_ok env = true.

Definition unicast (key : arp_ip_key) : Prop :=
  match key with key_ipv4 _ => True | key_ipv6 a => a <> all_node_addr /\ a <> all_router_addr end.

Definition routed {mbuf} (s : @arp_state mbuf) (key : arp_ip_key) : Prop :=
  match key with key_ipv4 a => is_Some (route_hash_handle s !! Z.land a NETMASK) | key_ipv6 _ => False end.

(** The entry of [key] is incomplete and its ring holds [ms]. *)
Definition waiting {mbuf} (s : @arp_state mbuf) (portid : Z) (key : arp_ip_key) (junk : ether_addr) (ms : list mbuf) : Prop :=
  exists l q name, arp_hash_handle s !! (portid, key) = Some l /\
    arp_entries s !! l = Some (mk_arp key junk false (Some q)) /\ rings s !! q = Some (mk_ring name ms).

Section Waiting.
Context {mbuf : Type} `{Mbuf mbuf} (l2 : l2_params) (app : app_params) (shared_size : nat).
Context (env : arp_env) (Henv : env_ok env) (portid : Z).
Context (Hport : portid = wb_port l2 \/ portid = eb_port l2) (Hports : wb_port l2 <> eb_port l2).
Implicit Types s : @arp_state mbuf.

(** The packet with the type of its Ethernet frame. *)
Definition typed (type : Z) (m : mbuf) : mbuf := store m ether_type_off 2 (htons type).

(** The packets with their PDRs given to [construct_ether_hdr] one after the other. *)
Definition construct_all (ms : list (option pdr_info * mbuf)) (s : arp_state) : option arp_state :=
  foldl (fun o '(pdr, m) => s ← o; '(_, s, _) ← construct_ether_hdr l2 app env m portid pdr s; Some s) (Some s) ms.

Lemma new_loc_fresh {A} (m : gmap positive A) : m !! new_loc m = None.
Proof. unfold new_loc. apply not_elem_of_dom, is_fresh. Qed.

Lemma qunresolved_waiting l key junk q name ms m s :
  arp_entries s !! l = Some (mk_arp key junk false (Some q)) -> rings s !! q = Some (mk_ring name ms) ->
  (length ms < ARP_BUFFER_RING_SIZE - 1)%nat ->
  arp_qunresolved_pkt env l m s = Some (set_rings (<[q := mk_ring name (ms ++ [m])]> (rings s)) s, 0).
Proof.
  intros He Hr Hl. unfold arp_qunresolved_pkt. destruct Henv as (_ & -> & _). cbn [negb].
  rewrite He. cbn [mbind option_bind queue]. rewrite Hr. cbn [mbind option_bind ring_pkts ring_name].
  by rewrite bool_decide_true.
Qed.

Lemma send_unresolved_waiting l key junk q name ms m s :
  arp_entries s !! l = Some (mk_arp key junk false (Some q)) -> rings s !! q = Some (mk_ring name ms) ->
  (length ms < ARP_BUFFER_RING_SIZE - 1)%nat ->
  send_unresolved l2 env l (mk_arp key junk false (Some q)) key m portid s =
  Some (set_rings (<[q := mk_ring name (ms ++ [m])]> (rings s)) s).
Proof.
  intros He Hr Hl. unfold send_unresolved. pose proof Henv as (_ & _ & Hf4 & Hf6 & Hs).
  assert ((match key with key_ipv4 _ => fd_v4_open env | key_ipv6 _ => fd_v6_open env end) && sendto_ok env = true) as ->.
  { rewrite Hs. by destruct key; rewrite ?Hf4, ?Hf6. }
  cbn [negb]. rewrite (qunresolved_waiting _ _ _ _ _ _ m _ He Hr Hl). cbn [mbind option_bind].
  destruct Hport as [->| ->].
  - by rewrite bool_decide_false, bool_decide_true by done.
  - by rewrite !bool_decide_true by done.
Qed.

Lemma construct_waiting key type junk ms pdr m s :
  waiting s portid key junk ms -> arp_key_of l2 app m portid = Some (key, type) ->
  (length ms < ARP_BUFFER_RING_SIZE - 1)%nat ->
  exists s', construct_ether_hdr l2 app env m portid pdr s = Some (typed type m, s', false) /\
    waiting s' portid key junk (ms ++ [typed type m]) /\ shared_ring s' = shared_ring s.
Proof.
  intros (l & q & name & Hh & He & Hr) Hk Hl. unfold construct_ether_hdr, retrieve_arp_entry. rewrite Hk, Hh.
  rewrite He. cbn [mbind option_bind complete]. rewrite (send_unresolved_waiting _ _ _ _ _ _ _ _ He Hr Hl).
  cbn [mbind option_bind]. eexists. split; [done|]. split; [|done].
  exists l, q, name. split; [exact Hh|]. split; [exact He|]. cbn [set_rings rings]. apply lookup_insert_eq.
Qed.

Lemma name_used_false s name :
  name_used s name = false <-> forall q r, rings s !! q = Some r -> ring_name r <> name.
Proof.
  unfold name_used. rewrite <- not_true_iff_false, existsb_exists. split.
  - intros Hn q r Hr <-. apply Hn. exists (q, r). split; [|by apply bool_decide_eq_true_2].
    apply list_elem_of_In, elem_of_map_to_list, Hr.
  - intros Hn ([q r] & Hin & Hd). apply bool_decide_eq_true_1 in Hd.
    apply list_elem_of_In, elem_of_map_to_list in Hin. by apply (Hn q r).
Qed.

Lemma new_entry_unicast key : unicast key -> new_entry env key = mk_arp key (eth_junk env) false None.
Proof. destruct key as [a|a]; [done|]. intros [H1 H2]. unfold new_entry. by rewrite !bool_decide_false by done. Qed.

Lemma create_waiting key s :
  arp_hash_handle s !! (portid, key) = None -> unicast key -> name_used s (name_of key) = false ->
  exists l s', create_arp_entry env key portid s = (s', Some l) /\ arp_hash_handle s' !! (portid, key) = Some l /\
    waiting s' portid key (eth_junk env) [] /\ shared_ring s' = shared_ring s.
Proof.
  intros Hh Hu Hn. unfold create_arp_entry. rewrite new_entry_unicast by done.
  set (l := new_loc (arp_entries s)). unfold name_used in *. cbn [rings]. rewrite Hn.
  destruct Henv as (-> & _). exists l. eexists. split; [done|].
  cbn [set_rings write_entry set_entries arp_hash_handle arp_entries rings]. rewrite lookup_insert_eq.
  split; [done|]. split; [|done]. exists l, (new_loc (rings s)), (name_of key).
  cbn [set_rings write_entry set_entries arp_hash_handle arp_entries rings set_queue ae_key eth_addr complete].
  by rewrite !lookup_insert_eq.
Qed.

Lemma construct_first key type pdr m s :
  arp_hash_handle s !! (portid, key) = None -> ~ routed s key -> unicast key -> name_used s (name_of key) = false ->
  arp_key_of l2 app m portid = Some (key, type) ->
  exists s', construct_ether_hdr l2 app env m portid pdr s = Some (typed type m, s', false) /\
    waiting s' portid key (eth_junk env) [typed type m] /\ shared_ring s' = shared_ring s.
Proof.
  intros Hh Hr Hu Hn Hk. destruct (create_waiting key s Hh Hu Hn) as (l & s1 & E & Hl & W & S).
  destruct (construct_waiting key type _ _ pdr m s1 W Hk) as (s' & E' & W' & S'); [cbn; lia|].
  exists s'. split; [|split; [exact W'|by rewrite S', S]].
  unfold construct_ether_hdr in *. rewrite Hk in *.
  unfold retrieve_arp_entry in E'. rewrite Hl in E'.
  assert (retrieve_arp_entry env key portid s = (s1, Some l)) as ->; [|exact E'].
  unfold retrieve_arp_entry. rewrite Hh. destruct key as [a|a]; [|exact E].
  unfold routed in Hr. destruct (route_hash_handle s !! Z.land a NETMASK); [|exact E].
  exfalso. apply Hr. by eexists.
Qed.

Lemma construct_all_waiting key type junk ms0 ms s :
  waiting s portid key junk ms0 -> Forall (fun m => arp_key_of l2 app m portid = Some (key, type)) ms.*2 ->
  (length ms0 + length ms < ARP_BUFFER_RING_SIZE)%nat ->
  exists s', construct_all ms s = Some s' /\ waiting s' portid key junk (ms0 ++ map (typed type) ms.*2) /\
    shared_ring s' = shared_ring s.
Proof.
  unfold construct_all. revert ms0 s. induction ms as [|[pdr m] ms IH]; intros ms0 s W HF Hl.
  - exists s. cbn. rewrite app_nil_r. done.
  - apply Forall_cons in HF as [Hm HF]. cbn [length] in Hl.
    destruct (construct_waiting key type junk ms0 pdr m s W Hm) as (s1 & E & W1 & S1); [lia|].
    destruct (IH (ms0 ++ [typed type m]) s1 W1 HF) as (s' & E' & W' & S').
    { rewrite length_app. cbn [length]. lia. }
    exists s'. cbn [foldl mbind option_bind]. rewrite E. cbn [mbind option_bind]. split; [exact E'|].
    rewrite <- app_assoc in W'. split; [exact W'|]. by rewrite S', S1.
Qed.

Lemma process_waiting hw key junk ms s :
  waiting s portid key junk ms -> hw <> junk ->
  (length (default [] (shared_ring s !! portid)) + length ms < shared_size)%nat ->
  exists s' l, process_neighbour l2 shared_size env hw key portid s = Some s' /\
    shared_ring s' !! portid = Some (default [] (shared_ring s !! portid) ++ map (set_macs hw (ports_eth_addr l2 portid)) ms) /\
    arp_hash_handle s' !! (portid, key) = Some l /\
    exists q, arp_entries s' !! l = Some (mk_arp key hw true (Some q)) /\ rings s' !! q = None.
Proof.
  intros (l & q & name & Hh & He & Hr) Hhw Hroom. unfold process_neighbour, retrieve_arp_entry. rewrite Hh, He.
  cbn [mbind option_bind eth_addr complete queue ae_key]. rewrite bool_decide_false by congruence.
  unfold arp_send_buffered_pkts. rewrite Hr. cbn [mbind option_bind ring_pkts].
  eexists _, l. split; [done|].
  cbn [write_entry set_entries set_rings set_shared shared_ring arp_hash_handle arp_entries rings].
  rewrite lookup_insert_eq. split.
  - f_equal. apply take_ge. rewrite length_app, length_map. lia.
  - split; [exact Hh|]. exists q. rewrite lookup_insert_eq, lookup_delete_eq. done.
Qed.

Lemma construct_resolved hw key type pdr m s l q :
  arp_hash_handle s !! (portid, key) = Some l -> arp_entries s !! l = Some (mk_arp key hw true q) ->
  arp_key_of l2 app m portid = Some (key, type) ->
  construct_ether_hdr l2 app env m portid pdr s = Some (set_macs hw (ports_eth_addr l2 portid) (typed type m), s, true).
Proof.
  intros Hh He Hk. unfold construct_ether_hdr, retrieve_arp_entry. rewrite Hk, Hh, He. done.
Qed.

(** An entry whose ring could not be created: the table names freed memory. *)
Lemma create_collision key s :
  arp_hash_handle s !! (portid, key) = None -> name_used s (name_of key) = true ->
  exists s' l, create_arp_entry env key portid s = (s', None) /\
    arp_hash_handle s' !! (portid, key) = Some l /\ arp_entries s' !! l = None.
Proof.
  intros Hh Hn. unfold create_arp_entry. unfold name_used in *. cbn [rings]. rewrite Hn.
  eexists _, _. split; [done|]. cbn [set_entries arp_hash_handle arp_entries].
  by rewrite lookup_insert_eq, lookup_delete_eq.
Qed.
End Waiting.

(** ** Theorems *)

(** C23. Packets to a neighbour that is not known wait for its address and lose neither their
    order nor each other: up to 127 packets for one next hop are held back one after the
    other, the answer that brings its MAC address puts all of them, with that address, into
    the port's ring to the wire behind what is there, frees their ring and completes the
    entry, and from then on a packet for it leaves with this address at once. *)
Theorem waiting_packets_are_sent {mbuf} `{Mbuf mbuf} l2 app shared_size env portid key type hw
    (ms : list (option pdr_info * mbuf)) (s : arp_state) :
  env_ok env -> (portid = wb_port l2 \/ portid = eb_port l2) -> wb_port l2 <> eb_port l2 ->
  arp_hash_handle s !! (portid, key) = None -> ~ routed s key -> unicast key ->
  name_used s (name_of key) = false -> hw <> eth_junk env ->
  ms <> [] -> Forall (fun m => arp_key_of l2 app m portid = Some (key, type)) ms.*2 ->
  (length ms < ARP_BUFFER_RING_SIZE)%nat ->
  (length (default [] (shared_ring s !! portid)) + length ms < shared_size)%nat ->
  exists s1 s2,
    construct_all l2 app env portid ms s = Some s1 /\ shared_ring s1 = shared_ring s /\
    process_neighbour l2 shared_size env hw key portid s1 = Some s2 /\
    shared_ring s2 !! portid =
      Some (default [] (shared_ring s !! portid) ++ map (fun m => set_macs hw (ports_eth_addr l2 portid) (typed type m)) ms.*2) /\
    forall pdr m, arp_key_of l2 app m portid = Some (key, type) ->
      construct_ether_hdr l2 app env m portid pdr s2 =
      Some (set_macs hw (ports_eth_addr l2 portid) (typed type m), s2, true).
Proof.
  intros He Hp Hpp Hh Hr Hu Hn Hhw Hne HF Hl Hroom. destruct ms as [|[pdr m] ms]; [done|].
  apply Forall_cons in HF as [Hm HF].
  destruct (construct_first l2 app env He portid Hp Hpp key type pdr m s) as (s0 & E0 & W0 & S0); try done.
  destruct (construct_all_waiting l2 app env He portid Hp Hpp key type _ _ ms s0 W0 HF) as (s1 & E1 & W1 & S1); [cbn in *; lia|].
  destruct (process_waiting l2 shared_size env portid hw key _ _ s1 W1 Hhw) as (s2 & l & E2 & S2 & Hh2 & q & He2 & _).
  { rewrite S1, S0, length_app, length_map, length_fmap. cbn in *. lia. }
  exists s1, s2. split; [|split; [by rewrite S1|split; [exact E2|split]]].
  - unfold construct_all in *. cbn [foldl mbind option_bind]. by rewrite E0.
  - rewrite S2, S1, S0. by rewrite map_app, map_map.
  - intros pdr' m' Hm'. by eapply construct_resolved.
Qed.

(** Two IPv6 neighbours whose addresses agree up to a byte 0 get the same ring name: while
    the first waits for its address, the entry of the second is freed but stays in the
    table, and the second packet to it reads freed memory. *)
Theorem ipv6_ring_names_collide {mbuf} `{Mbuf mbuf} l2 app env portid a b type pdr1 pdr2 (m1 m2 : mbuf) s junk ms q l :
  c_string a = c_string b -> unicast (key_ipv6 b) ->
  arp_hash_handle s !! (portid, key_ipv6 a) = Some l ->
  arp_entries s !! l = Some (mk_arp (key_ipv6 a) junk false (Some q)) ->
  rings s !! q = Some (mk_ring (name_of (key_ipv6 a)) ms) ->
  arp_hash_handle s !! (portid, key_ipv6 b) = None ->
  arp_key_of l2 app m1 portid = Some (key_ipv6 b, type) -> arp_key_of l2 app m2 portid = Some (key_ipv6 b, type) ->
  exists s', construct_ether_hdr l2 app env m1 portid pdr1 s = Some (typed type m1, s', false) /\
    construct_ether_hdr l2 app env m2 portid pdr2 s' = None.
Proof.
  intros Hab Hu Ha Hea Hra Hb H1 H2.
  destruct (create_collision env portid (key_ipv6 b) s Hb) as (s' & lb & E & Hh & He).
  { apply not_false_iff_true. intros Hn. rewrite name_used_false in Hn. by apply (Hn q _ Hra). }
  exists s'. split.
  - unfold construct_ether_hdr, retrieve_arp_entry. rewrite H1, Hb, E. done.
  - unfold construct_ether_hdr, retrieve_arp_entry. rewrite H2, Hh, He. done.
Qed.

(** ** Witnesses *)

Definition sample_l2 : l2_params := mk_l2 0 1 0x0a0000fe 0xffffff00 0 0 (fun _ => replicate 6 x0a).
Definition sample_env : arp_env := mk_env (replicate 6 x00) true true true true true.
Definition empty_arp : @arp_state simple_mbuf := mk_arps ∅ ∅ ∅ ∅ ∅.
Definition ipv6_to (last : byte) : simple_mbuf :=
  mk_simple [] (replicate 14 x00 ++ [x60] ++ replicate 23 x00 ++ sample_v6 last).

(** The configured gateway of the west-bound interface is in host order and the table of
    neighbours in network order: for a peer of the interface's own network, 10.0.0.2, the
    next hop is the gateway 10.0.0.254 with its bytes reversed. *)
Example gateway_address_is_reversed :
  arp_key_of sample_l2 (sample_app 0x0a000001 x01 0 0)
    (mk_simple [] (replicate 14 x00 ++ [x45] ++ replicate 15 x00 ++ [x0a; x00; x00; x02])) 0 =
  Some (key_ipv4 (ntohl (htonl 0x0a0000fe)), ETH_TYPE_IPv4) /\
  htonl 0x0a0000fe <> 0x0a0000fe.
Proof. split; [vm_compute; reflexivity|vm_compute; discriminate]. Qed.

Lemma waiting_packets_are_sent_witness :
  exists s1 s2,
    construct_all sample_l2 (sample_app 0x0a000001 x01 0 0) sample_env 0 [(None, ipv6_to x01); (None, ipv6_to x01)] empty_arp = Some s1 /\
    process_neighbour sample_l2 16 sample_env (replicate 6 x07) (key_ipv6 (sample_v6 x01)) 0 s1 = Some s2 /\
    length (default [] (shared_ring s2 !! 0)) = 2%nat.
Proof.
  destruct (waiting_packets_are_sent sample_l2 (sample_app 0x0a000001 x01 0 0) 16 sample_env 0 (key_ipv6 (sample_v6 x01))
    ETH_TYPE_IPv6 (replicate 6 x07) [(None, ipv6_to x01); (None, ipv6_to x01)] empty_arp) as (s1 & s2 & E1 & _ & E2 & S & _).
  - by split_and!.
  - by left.
  - done.
  - reflexivity.
  - intros [].
  - by split.
  - reflexivity.
  - done.
  - done.
  - repeat constructor.
  - by apply Nat.ltb_lt.
  - by apply Nat.ltb_lt.
  - exists s1, s2. split; [exact E1|]. split; [exact E2|]. rewrite S. reflexivity.
Defined.

Definition one_waiting : @arp_state simple_mbuf :=
  mk_arps {[ (0, key_ipv6 (sample_v6 x01)) := 1%positive ]}
    {[ 1%positive := mk_arp (key_ipv6 (sample_v6 x01)) (replicate 6 x00) false (Some 1%positive) ]}
    {[ 1%positive := mk_ring (name_of (key_ipv6 (sample_v6 x01))) [] ]} ∅ ∅.

Lemma ipv6_ring_names_collide_witness :
  exists s', construct_ether_hdr sample_l2 (sample_app 0x0a000001 x01 0 0) sample_env (ipv6_to x02) 0 None one_waiting =
      Some (typed ETH_TYPE_IPv6 (ipv6_to x02), s', false) /\
    construct_ether_hdr sample_l2 (sample_app 0x0a000001 x01 0 0) sample_env (ipv6_to x02) 0 None s' = None.
Proof.
  apply (ipv6_ring_names_collide sample_l2 (sample_app 0x0a000001 x01 0 0) sample_env 0 (sample_v6 x01) (sample_v6 x02)
    ETH_TYPE_IPv6 None None (ipv6_to x02) (ipv6_to x02) one_waiting (replicate 6 x00) [] 1 1); try reflexivity.
  by split.
Defined.
