(* ===== verification/UpDdn.v ===== *)
(** * Buffering and paging in the user plane (dp/up_ddn.c, dp/up_pkt_handler.c,
    pfcp_messages/pfcp_up_sess.c)

    Downlink packets of a session whose user is idle wait in a ring of the session;
    [enqueue_dl_pkts] allocates it ([allocate_ring]) and asks the control plane to page the
    user ([send_ddn_request]).  When a session modification brings the tunnel back
    ([update_session_state], part of [process_update_far_info]) a message is put into
    [notify_ring], and [notification_handler] sends what the ring holds.

    Sessions and rings are stores.  [dl_ring_container] holds every ring that was made; a
    ring that was freed is no longer in the store, and using it is [None], as is an access
    through a null pointer or outside an array.  What [rte_ring_create] answers is an
    argument, with its documented capacity as law; the copies for lawful interception and
    the counters of STATS are left out. *)
From S2P Require Import Prelude NodeAddr LList UpSess Mbuf UpPacket UpTunnel UpClassify UpArp.

Definition DL_RING_CONTAINER_SIZE : nat := 4096.
Definition DL_PKTS_BUF_RING_SIZE : Z := 1024.

(** [rte_align32pow2]: the power of two that the size of a ring is rounded up to. *)
Definition rte_align32pow2 (x : Z) : Z :=
  let x := x +[32] -1 in
  let x := Z.lor x (Z.shiftr x 1) in
  let x := Z.lor x (Z.shiftr x 2) in
  let x := Z.lor x (Z.shiftr x 4) in
  let x := Z.lor x (Z.shiftr x 8) in
  let x := Z.lor x (Z.shiftr x 16) in
  x +[32] 1.

(** [rte_ring_create(name, count, ...)]: a new ring and the number of packets it takes, or
    NULL with [rte_errno] EEXIST or another.  The names are made of [num_dl_rings], so the
    answer is a function of this number and of the size. *)
Inductive ring_created := ring_new (capacity : Z) | ring_exists | ring_error.

(** A ring of a power of two takes one packet less. *)
Class RingLaws (ring_create : Z -> Z -> ring_created) : Prop :=
  ring_create_capacity num n c : 0 <= n -> ring_create num (2 ^ n) = ring_new c -> c = 2 ^ n - 1.

Definition set_state (st : up_session_state) (si : pfcp_session_datat) : pfcp_session_datat :=
  mk_sess (pdrs si) st (hdr_crt si) (hdr_rvl si) (ue_ip_addr si) (has_ipv6 si) (acl_table_indx si) (dl_ring si).
Definition set_dl_ring (r : option positive) (si : pfcp_session_datat) : pfcp_session_datat :=
  mk_sess (pdrs si) (sess_state si) (hdr_crt si) (hdr_rvl si) (ue_ip_addr si) (has_ipv6 si) (acl_table_indx si) r.

(** A request to page: [cp_seid] and [pdr_id]. *)
Record ddn_t := mk_ddn { ddn_cp_seid : Z; ddn_pdr_id : Z }.

Section Ddn.
Context {mbuf : Type} `{Mbuf mbuf}.

Record dl_ring_t := mk_dl_ring { r_capacity : Z; r_pkts : list mbuf }.

Record ddn_state := mk_ds {
  ds_sessions : gmap positive pfcp_session_datat;
  dl_rings : gmap positive dl_ring_t;
  dl_ring_container : list positive;
  num_dl_rings : Z;
  ds_ddns : list ddn_t;      (* the reports given to pfcp_send, oldest first *)
  ds_freed : list mbuf       (* the packets that were freed *)
}.

Definition with_sessions (f : gmap positive pfcp_session_datat) (s : ddn_state) : ddn_state :=
  mk_ds f (dl_rings s) (dl_ring_container s) (num_dl_rings s) (ds_ddns s) (ds_freed s).
Definition with_rings (r : gmap positive dl_ring_t) (s : ddn_state) : ddn_state :=
  mk_ds (ds_sessions s) r (dl_ring_container s) (num_dl_rings s) (ds_ddns s) (ds_freed s).
Definition with_container (c : list positive) (s : ddn_state) : ddn_state :=
  mk_ds (ds_sessions s) (dl_rings s) c (num_dl_rings s) (ds_ddns s) (ds_freed s).
Definition with_ddns (d : list ddn_t) (s : ddn_state) : ddn_state :=
  mk_ds (ds_sessions s) (dl_rings s) (dl_ring_container s) (num_dl_rings s) d (ds_freed s).
Definition rte_pktmbuf_free (m : mbuf) (s : ddn_state) : ddn_state :=
  mk_ds (ds_sessions s) (dl_rings s) (dl_ring_container s) (num_dl_rings s) (ds_ddns s) (ds_freed s ++ [m]).

Definition write_sess (p : positive) (f : pfcp_session_datat -> pfcp_session_datat) (s : ddn_state) : option ddn_state :=
  si ← ds_sessions s !! p; Some (with_sessions (<[p := f si]> (ds_sessions s)) s).

(** ** allocate_ring *)

(** [ret == ENOBUFS] never holds: a full container returns [-ENOBUFS]. *)
Definition allocate_ring (ring_create : Z -> Z -> ring_created) (dl_ring_size : Z) (s : ddn_state)
    : ddn_state * option positive :=
  if bool_decide (num_dl_rings s < Z.of_nat DL_RING_CONTAINER_SIZE) &&
     bool_decide (length (dl_ring_container s) < DL_RING_CONTAINER_SIZE)%nat then
    match ring_create (num_dl_rings s) (rte_align32pow2 dl_ring_size) with
    | ring_new capacity =>
      let r := new_loc (dl_rings s) in
      let container :=
        if bool_decide (length (dl_ring_container s) < DL_RING_CONTAINER_SIZE - 1)%nat
        then dl_ring_container s ++ [r] else dl_ring_container s in
      (mk_ds (ds_sessions s) (<[r := mk_dl_ring capacity []]> (dl_rings s)) container
         (num_dl_rings s +[32] 1) (ds_ddns s) (ds_freed s), Some r)
    | ring_exists =>
      (mk_ds (ds_sessions s) (dl_rings s) (dl_ring_container s) (num_dl_rings s +[32] 1) (ds_ddns s) (ds_freed s), None)
    | ring_error => (s, None)
    end
  else (s, None).

(** ** enqueue_dl_pkts *)

Definition send_ddn_request (p : pdr_info) (s : ddn_state) : ddn_state :=
  with_ddns (ds_ddns s ++ [mk_ddn (cp_seid (session p)) (rule_id p)]) s.

(** The byte that is read as the GTP-U message type, whatever the packet is. *)
Definition is_end_marker (m : mbuf) : bool :=
  if is_ether ETHER_TYPE_IPv4_be m then bool_decide (load m (get_mtogtpu false + gtpu_msgtype) 1 = GTP_GEMR)
  else if is_ether ETHER_TYPE_IPv6_be m then bool_decide (load m (get_mtogtpu true + gtpu_msgtype) 1 = GTP_GEMR)
  else false.

(** [rte_ring_enqueue(si->dl_ring, pkt)]: false is [-ENOBUFS]. *)
Definition ring_enqueue (r : positive) (m : mbuf) (s : ddn_state) : option (ddn_state * bool) :=
  ring ← dl_rings s !! r;
  if bool_decide (Z.of_nat (length (r_pkts ring)) < r_capacity ring)
  then Some (with_rings (<[r := mk_dl_ring (r_capacity ring) (r_pkts ring ++ [m])]> (dl_rings s)) s, true)
  else Some (s, false).

(** A full ring: the packet is freed, the ring is freed with the packets in it, the oldest
    ring leaves the container, the session becomes idle without ring, and the control
    plane is asked again. *)
Definition ring_full (p : positive) (pdr : pdr_info) (r : positive) (m : mbuf) (s : ddn_state) : option ddn_state :=
  let s := rte_pktmbuf_free m s in
  let s := with_rings (delete r (dl_rings s)) s in
  let s := with_container (tail (dl_ring_container s)) s in
  s ← write_sess p (fun si => set_state IDLE (set_dl_ring None si)) s;
  Some (send_ddn_request pdr s).

(** The ring of the session, allocated on the first packet; the session is paged then. *)
Definition session_ring (ring_create : Z -> Z -> ring_created) (p : positive) (si : pfcp_session_datat) (pdr : pdr_info) (far : far_info)
    (s : ddn_state) : option (ddn_state * option positive) :=
  match dl_ring si with
  | Some r => Some (s, Some r)
  | None =>
      match allocate_ring ring_create (pckt_cnt_val (session pdr)) s with
      | (s, None) => Some (s, None)
      | (s, Some r) =>
          s ← write_sess p (set_dl_ring (Some r)) s;
          if bool_decide (sess_state si = IDLE) && action_nocp far then
            s ← write_sess p (set_state IN_PROGRESS) (send_ddn_request pdr s);
            Some (s, Some r)
          else Some (s, Some r)
      end
  end.

(** The body for one packet. *)
Definition enqueue_dl_pkt (ring_create : Z -> Z -> ring_created) (pdr : option pdr_info) (key : option positive) (m : mbuf)
    (s : ddn_state) : option ddn_state :=
  match pdr with
  | None => Some (rte_pktmbuf_free m s)
  | Some pdr =>
      fr ← far pdr;
      if action_drop fr then Some (rte_pktmbuf_free m s) else
      if is_end_marker m then Some (rte_pktmbuf_free m s) else
      p ← key; si ← ds_sessions s !! p;
      '(s, ring) ← session_ring ring_create p si pdr fr s;
      match ring with
      | None => Some (rte_pktmbuf_free m s)
      | Some r =>
          if action_nocp fr || action_buff fr || forw fr then
            '(s, ok) ← ring_enqueue r m s;
            if (ok : bool) then Some s else ring_full p pdr r m s
          else Some s
      end
  end.

(** The loop takes the lowest bit of the mask first. *)
Fixpoint enqueue_dl_pkts_from (ring_create : Z -> Z -> ring_created) (i : nat) (pkts : list (option pdr_info * option positive * mbuf))
    (pkts_queue_mask : Z) (s : ddn_state) : option ddn_state :=
  match pkts with
  | [] => Some s
  | (pdr, key, m) :: pkts =>
      s ← (if ISSET_BIT pkts_queue_mask i then enqueue_dl_pkt ring_create pdr key m s else Some s);
      enqueue_dl_pkts_from ring_create (S i) pkts pkts_queue_mask s
  end.

Definition enqueue_dl_pkts (ring_create : Z -> Z -> ring_created) (pdrs : list (option pdr_info)) (sess_info : list (option positive))
    (pkts : list mbuf) (pkts_queue_mask : Z) (s : ddn_state) : option ddn_state :=
  enqueue_dl_pkts_from ring_create 0 (zip (zip pdrs sess_info) pkts) pkts_queue_mask s.

(** ** The state of a session when its FAR is updated *)

(** The state after a FAR for the access side is updated with TEID [teid], and whether a
    message for [notification_handler] is due. *)
Definition update_session_state (teid : Z) (st : up_session_state) : up_session_state * bool :=
  if bool_decide (teid = 0) then (match st with CONNECTED => IDLE | _ => st end, false)
  else match st with
       | IDLE => (CONNECTED, false)
       | IN_PROGRESS => (CONNECTED, true)
       | CONNECTED => (CONNECTED, false)
       end.

(** ** notification_handler *)

Variable app : app_params.
Variable l2 : l2_params.
Variable t : sess_tables.
Variable env : nat -> arp_env.

(** What the handler changes: the sessions and rings, the neighbours, the counter of
    sequence numbers, the packets given to the port, the notifications ([pkts]), the array of
    sessions of the relayed packets. *)
Record notify_state := mk_ns {
  ns_ddn : ddn_state;
  ns_arp : @arp_state mbuf;
  ns_seqnb : Z;
  ns_tx : list mbuf;
  ns_pkts : list mbuf;
  ns_sess : list (option positive)    (* [sess_data], never cleared *)
}.

(** The session a message is for, and whether its key is a TEID. *)
Definition notified_session (key : Z) : option (positive * bool) :=
  match sess_by_teid_hash t !! key with
  | Some p => Some (p, true)
  | None =>
      match sess_by_ueip_hash t !! mk_ue_ip key (replicate 16 x00) with
      | Some p => Some (p, false)
      | None => None
      end
  end.

(** One burst of [ret] packets of session [p], from [update_nexthop_info] on all of them are
    given to the port. *)
Definition resolve_burst (p : positive) (find_teid_key : bool) (burst : list mbuf) (s : notify_state)
    : option (list mbuf * notify_state) :=
  let ret := length burst in
  let sessions := ds_sessions (ns_ddn s) in
  si ← sessions !! p;
  let pdr := replicate ret (head (pdrs si)) in
  let pkts_mask := burst_mask ret in
  let fwd_pkts_mask := burst_mask ret in
  '(burst, pkts_mask, seqnb, sessions, pdr, sess_data) ←
    (if find_teid_key then
       lk ← dl_sess_info_get app t sessions false burst (mk_lookup (ns_sess s) pkts_mask 0 0 0 0);
       rs ← update_enb_info app ret fwd_pkts_mask (lk_sess lk) (mk_rs sessions burst pdr (lk_pkts lk) 0);
       Some (rs_pkts rs, rs_pkts_mask rs, ns_seqnb s, rs_sessions rs, rs_pdrs rs, lk_sess lk)
     else
       let entries := zip_with (fun m q => mk_entry m (Some si) q) burst pdr in
       let '(burst, seqnb, pkts_mask, _) := gtpu_encap app entries fwd_pkts_mask (ns_seqnb s) pkts_mask 0 in
       Some (burst, pkts_mask, seqnb, sessions, pdr, ns_sess s));
  '(burst, _, arp) ← update_nexthop_info l2 app env burst pdr pkts_mask (wb_port l2) (ns_arp s);
  Some (burst, mk_ns (with_sessions sessions (ns_ddn s)) arp seqnb (ns_tx s ++ burst) (ns_pkts s) sess_data).

(** The loop over the ring, [cnt] packets at its start: up to 32 are written into the array
    of notifications, beyond its end if it is shorter.  The counter [i] of the loop over
    the notifications counts the packets of the last burst afterwards. *)
Fixpoint drain_ring (fuel : nat) (p : positive) (find_teid_key : bool) (r : positive) (i : nat) (s : notify_state)
    : option (nat * notify_state) :=
  match fuel with
  | O => None
  | S fuel =>
      ring ← dl_rings (ns_ddn s) !! r;
      let burst := take 32 (r_pkts ring) in
      let ret := length burst in
      if bool_decide (ret = 0%nat) then Some (i, s) else
      if bool_decide (length (ns_pkts s) < ret)%nat then None else
      let d := with_rings (<[r := mk_dl_ring (r_capacity ring) (drop 32 (r_pkts ring))]> (dl_rings (ns_ddn s))) (ns_ddn s) in
      '(burst, s) ← resolve_burst p find_teid_key burst (mk_ns d (ns_arp s) (ns_seqnb s) (ns_tx s) (ns_pkts s) (ns_sess s));
      drain_ring fuel p find_teid_key r ret
        (mk_ns (ns_ddn s) (ns_arp s) (ns_seqnb s) (ns_tx s) (burst ++ drop ret (ns_pkts s)) (ns_sess s))
  end.

(** The body for notification [i]: the counter after it and the state. *)
Definition notify_one (i : nat) (s : notify_state) : option (nat * notify_state) :=
  m ← ns_pkts s !! i;
  match notified_session (load m 0 4) with
  | None => Some (i, s)
  | Some (p, find_teid_key) =>
      si ← ds_sessions (ns_ddn s) !! p;
      d ← write_sess p (set_state CONNECTED) (ns_ddn s);
      let s := mk_ns d (ns_arp s) (ns_seqnb s) (ns_tx s) (ns_pkts s) (ns_sess s) in
      match dl_ring si with
      | None => Some (i, s)
      | Some r =>
          ring ← dl_rings d !! r;
          '(i, s) ← drain_ring (S (length (r_pkts ring))) p find_teid_key r i s;
          let d := ns_ddn s in
          let d := if bool_decide (length (dl_ring_container d) < DL_RING_CONTAINER_SIZE - 1)%nat
                   then with_container (dl_ring_container d ++ [r]) d else d in
          Some (i, mk_ns d (ns_arp s) (ns_seqnb s) (ns_tx s) (ns_pkts s) (ns_sess s))
      end
  end.

(** The loop over the [n] notifications. *)
Fixpoint notify_from (fuel n i : nat) (s : notify_state) : option notify_state :=
  match fuel with
  | O => None
  | S fuel => if bool_decide (i < n)%nat then '(i, s) ← notify_one i s; notify_from fuel n (S i) s else Some s
  end.

Definition notification_handler (fuel : nat) (s : notify_state) : option notify_state :=
  notify_from fuel (length (ns_pkts s)) 0 s.

End Ddn.

(** ** Packets of one session *)

(** The packet of a PDR with FAR [fr] is to be buffered with a page. *)
Definition pages (pdr : pdr_info) (fr : far_info) : Prop :=
  far pdr = Some fr /\ action_drop fr = false /\ action_nocp fr = true.

Section Paging.
Context {mbuf : Type} `{Mbuf mbuf}.
Implicit Types s : @ddn_state mbuf.

(** A session that has a ring: its packets go into it, nothing else changes. *)
Lemma enqueue_with_ring ring_create pdr fr p si r ring m s :
  pages pdr fr -> is_end_marker m = false -> ds_sessions s !! p = Some si -> dl_ring si = Some r ->
  dl_rings s !! r = Some ring -> Z.of_nat (length (r_pkts ring)) < r_capacity ring ->
  enqueue_dl_pkt ring_create (Some pdr) (Some p) m s =
  Some (with_rings (<[r := mk_dl_ring (r_capacity ring) (r_pkts ring ++ [m])]> (dl_rings s)) s).
Proof.
  intros (Hf & Hd & Hn) Hm Hp Hr Hring Hl. unfold enqueue_dl_pkt. rewrite Hf. cbn [mbind option_bind].
  rewrite Hd, Hm. cbn [mbind option_bind]. rewrite Hp. cbn [mbind option_bind].
  unfold session_ring. rewrite Hr. cbn [mbind option_bind]. rewrite Hn. cbn [orb].
  unfold ring_enqueue. rewrite Hring. cbn [mbind option_bind]. by rewrite bool_decide_true.
Qed.

(** A burst of packets of one session that has a ring with room for them. *)
Lemma enqueue_burst_with_ring ring_create pdr fr p si r ring i ms mask s :
  pages pdr fr -> ds_sessions s !! p = Some si -> dl_ring si = Some r -> dl_rings s !! r = Some ring ->
  Forall (fun m => is_end_marker m = false) ms ->
  (forall k, (k < length ms)%nat -> ISSET_BIT mask (i + k) = true) ->
  Z.of_nat (length (r_pkts ring) + length ms) <= r_capacity ring ->
  enqueue_dl_pkts_from ring_create i (map (fun m => (Some pdr, Some p, m)) ms) mask s =
  Some (with_rings (<[r := mk_dl_ring (r_capacity ring) (r_pkts ring ++ ms)]> (dl_rings s)) s).
Proof.
  intros Hpg. revert i s ring. induction ms as [|m ms IH]; intros i s ring Hp Hr Hring HF Hmask Hl.
  - cbn. rewrite app_nil_r. destruct ring as [c ps]. cbn [r_capacity r_pkts] in *. f_equal.
    destruct s. unfold with_rings. cbn in *. f_equal. symmetry. by apply insert_id.
  - apply Forall_cons in HF as [Hm HF]. cbn [map enqueue_dl_pkts_from length] in *.
    pose proof (Hmask 0%nat ltac:(lia)) as H0. rewrite Nat.add_0_r in H0. rewrite H0.
    rewrite (enqueue_with_ring ring_create pdr fr p si r ring m s) by (done || lia). cbn [mbind option_bind].
    rewrite (IH (S i) _ (mk_dl_ring (r_capacity ring) (r_pkts ring ++ [m]))); cbn [with_rings ds_sessions dl_rings r_pkts r_capacity].
    + rewrite insert_insert_eq, <- app_assoc. done.
    + exact Hp.
    + exact Hr.
    + apply lookup_insert_eq.
    + exact HF.
    + intros k Hk. rewrite Nat.add_succ_comm. apply Hmask. lia.
    + rewrite length_app. cbn [length]. lia.
Qed.

Lemma allocate_ring_ok ring_create dl_ring_size c s :
  ring_create (num_dl_rings s) (rte_align32pow2 dl_ring_size) = ring_new c ->
  num_dl_rings s < Z.of_nat DL_RING_CONTAINER_SIZE -> (length (dl_ring_container s) < DL_RING_CONTAINER_SIZE)%nat ->
  exists r s1, allocate_ring ring_create dl_ring_size s = (s1, Some r) /\ ds_sessions s1 = ds_sessions s /\
    ds_ddns s1 = ds_ddns s /\ ds_freed s1 = ds_freed s /\
    dl_rings s1 = <[r := mk_dl_ring c []]> (dl_rings s).
Proof.
  intros Hc H1 H2. unfold allocate_ring. rewrite !bool_decide_true by done. rewrite Hc. cbn [andb].
  eexists _, _. split; [done|]. done.
Qed.

(** The first packet of an idle session without ring. *)
Lemma enqueue_first ring_create c pdr fr p si m s :
  pages pdr fr -> is_end_marker m = false -> ds_sessions s !! p = Some si -> dl_ring si = None ->
  sess_state si = IDLE -> ring_create (num_dl_rings s) (rte_align32pow2 (pckt_cnt_val (session pdr))) = ring_new c -> 0 < c ->
  num_dl_rings s < Z.of_nat DL_RING_CONTAINER_SIZE -> (length (dl_ring_container s) < DL_RING_CONTAINER_SIZE)%nat ->
  exists r s', enqueue_dl_pkt ring_create (Some pdr) (Some p) m s = Some s' /\
    ds_sessions s' !! p = Some (set_state IN_PROGRESS (set_dl_ring (Some r) si)) /\
    dl_rings s' !! r = Some (mk_dl_ring c [m]) /\
    ds_ddns s' = ds_ddns s ++ [mk_ddn (cp_seid (session pdr)) (rule_id pdr)] /\ ds_freed s' = ds_freed s.
Proof.
  intros (Hf & Hd & Hn) Hm Hp Hr Hst Hnew Hc H1 H2. unfold enqueue_dl_pkt. rewrite Hf. cbn [mbind option_bind].
  rewrite Hd, Hm. cbn [mbind option_bind]. rewrite Hp. cbn [mbind option_bind].
  destruct (allocate_ring_ok ring_create (pckt_cnt_val (session pdr)) c s Hnew H1 H2) as (r & s1 & E & S1 & D1 & F1 & R1).
  exists r. unfold session_ring, write_sess. rewrite Hr, E, S1, Hp. cbn [mbind option_bind].
  rewrite Hst, Hn, bool_decide_true by done. cbn [andb orb].
  cbn [send_ddn_request with_ddns with_sessions ds_sessions]. rewrite lookup_insert_eq. cbn [mbind option_bind].
  unfold ring_enqueue. cbn [with_sessions send_ddn_request with_ddns dl_rings]. rewrite R1, lookup_insert_eq. cbn [mbind option_bind r_pkts r_capacity length].
  rewrite bool_decide_true by (cbn; lia). eexists. split; [done|].
  cbn [with_rings with_sessions send_ddn_request with_ddns ds_sessions dl_rings ds_ddns ds_freed].
  rewrite !lookup_insert_eq, D1, F1. done.
Qed.
End Paging.

(** ** What does not bring a ring back *)

(** The rings of the sessions. *)
Definition same_rings (f f' : gmap positive pfcp_session_datat) : Prop :=
  forall p, dl_ring <$> f' !! p = dl_ring <$> f !! p.

Lemma same_rings_trans f g h : same_rings f g -> same_rings g h -> same_rings f h.
Proof. intros H1 H2 p. by rewrite H2. Qed.

Lemma same_rings_insert f p si si' : f !! p = Some si -> dl_ring si' = dl_ring si -> same_rings f (<[p := si']> f).
Proof.
  intros Hp Hr q. destruct (decide (p = q)) as [<-|Hq].
  - rewrite lookup_insert_eq, Hp. cbn. by f_equal.
  - by rewrite lookup_insert_ne.
Qed.

(** Nothing happens any more to a session without ring. *)
Definition no_new_rings {mbuf} (s s' : @ddn_state mbuf) : Prop :=
  num_dl_rings s' = num_dl_rings s /\
  forall p si, ds_sessions s !! p = Some si -> dl_ring si = None -> ds_sessions s' !! p = Some si.

Section Rings.
Context {mbuf : Type} `{Mbuf mbuf}.

Lemma update_enb_step_rings app fd sess_data i (st st' : @relay_state mbuf) :
  update_enb_step app fd sess_data i st = Some st' -> same_rings (rs_sessions st) (rs_sessions st').
Proof.
  unfold update_enb_step. destruct (_ && _); [|by intros [= <-]].
  destruct (sess_data !! i) as [[k|]|]; cbn [mbind option_bind]; [|by intros [= <-]|done].
  destruct (rs_sessions st !! k) as [si|] eqn:Ek; cbn [mbind option_bind]; [|done].
  destruct (session_far si) as [[pdr f]|].
  - destruct (rs_pkts st !! i); cbn [mbind option_bind]; [|done]. by intros [= <-].
  - intros [= <-]. cbn [rs_sessions]. by eapply same_rings_insert.
Qed.

Lemma update_enb_info_rings app n fd sess_data (st st' : @relay_state mbuf) :
  update_enb_info app n fd sess_data st = Some st' -> same_rings (rs_sessions st) (rs_sessions st').
Proof.
  unfold update_enb_info. generalize (seq 0 n) as is_. intros is_. revert st.
  induction is_ as [|i is_ IH]; intros st E; [by injection E as <-|].
  cbn [foldl mbind option_bind] in E. destruct (update_enb_step app fd sess_data i st) as [st1|] eqn:E1.
  - eapply same_rings_trans; [by eapply update_enb_step_rings|by apply IH].
  - exfalso. clear -E. induction is_ as [|j is_ IH]; [done|]. by apply IH.
Qed.

Section Handler.
Context (app : app_params) (l2 : l2_params) (t : sess_tables) (env : nat -> arp_env).
Implicit Types s : @notify_state mbuf.

Abbreviation rings_kept s s' := (same_rings (ds_sessions (ns_ddn s)) (ds_sessions (ns_ddn s'))).

Lemma resolve_burst_rings p k burst burst' s s' :
  resolve_burst app l2 t env p k burst s = Some (burst', s') -> rings_kept s s'.
Proof.
  unfold resolve_burst. destruct (ds_sessions (ns_ddn s) !! p) as [si|]; cbn [mbind option_bind]; [|done].
  destruct k.
  - destruct (dl_sess_info_get _ _ _ _ _ _) as [lk|]; cbn [mbind option_bind]; [|done].
    destruct (update_enb_info _ _ _ _ _) as [rs|] eqn:Ers; cbn [mbind option_bind]; [|done].
    apply update_enb_info_rings in Ers. cbn [rs_sessions] in Ers.
    destruct (update_nexthop_info _ _ _ _ _ _ _ _) as [[[b pm] arp]|]; cbn [mbind option_bind]; [|done].
    by intros [= <- <-].
  - destruct (gtpu_encap _ _ _ _ _ _) as [[[b seqnb] pm] qm]. cbn [mbind option_bind].
    destruct (update_nexthop_info _ _ _ _ _ _ _ _) as [[[b' pm'] arp]|]; cbn [mbind option_bind]; [|done].
    by intros [= <- <-].
Qed.

Lemma drain_ring_rings fuel p k r i i' s s' :
  drain_ring app l2 t env fuel p k r i s = Some (i', s') -> rings_kept s s'.
Proof.
  revert i s. induction fuel as [|fuel IH]; intros i s E; [done|]. cbn [drain_ring] in E.
  destruct (dl_rings (ns_ddn s) !! r) as [ring|]; cbn [mbind option_bind] in E; [|done].
  destruct (bool_decide _) in E; [by injection E as <- <-|]. destruct (bool_decide _) in E; [done|].
  destruct (resolve_burst _ _ _ _ _ _ _ _) as [[b s1]|] eqn:E1; cbn [mbind option_bind] in E; [|done].
  apply resolve_burst_rings in E1. apply IH in E. exact (same_rings_trans _ _ _ E1 E).
Qed.

Lemma notify_one_rings i i' s s' : notify_one app l2 t env i s = Some (i', s') -> rings_kept s s'.
Proof.
  unfold notify_one. destruct (ns_pkts s !! i) as [m|]; cbn [mbind option_bind]; [|done].
  destruct (notified_session t (load m 0 4)) as [[p k]|]; [|by intros [= <- <-]].
  destruct (ds_sessions (ns_ddn s) !! p) as [si|] eqn:Ep; cbn [mbind option_bind]; [|done].
  unfold write_sess. rewrite Ep. cbn [mbind option_bind].
  assert (same_rings (ds_sessions (ns_ddn s)) (<[p := set_state CONNECTED si]> (ds_sessions (ns_ddn s)))) as H1
    by by eapply same_rings_insert.
  destruct (dl_ring si) as [r|]; [|by intros [= <- <-]].
  destruct (dl_rings _ !! r) as [ring|]; cbn [mbind option_bind]; [|done].
  destruct (drain_ring _ _ _ _ _ _ _ _ _ _) as [[i1 s1]|] eqn:E1; cbn [mbind option_bind]; [|done].
  apply drain_ring_rings in E1. intros [= <- <-]. eapply same_rings_trans; [exact H1|].
  by destruct (bool_decide _).
Qed.

Lemma notify_from_rings fuel n i s s' : notify_from app l2 t env fuel n i s = Some s' -> rings_kept s s'.
Proof.
  revert i s. induction fuel as [|fuel IH]; intros i s E; [done|]. cbn [notify_from] in E.
  destruct (bool_decide _); [|by injection E as <-].
  destruct (notify_one _ _ _ _ _ _) as [[i1 s1]|] eqn:E1; cbn [mbind option_bind] in E; [|done].
  eapply same_rings_trans; [by eapply notify_one_rings|by eapply IH].
Qed.
End Handler.

(** When all rings have been made. *)
Lemma enqueue_exhausted ring_create pdr key m (s s' : @ddn_state mbuf) :
  Z.of_nat DL_RING_CONTAINER_SIZE <= num_dl_rings s ->
  enqueue_dl_pkt ring_create pdr key m s = Some s' -> no_new_rings s s'.
Proof.
  intros Hn. unfold enqueue_dl_pkt. destruct pdr as [pdr|]; [|by intros [= <-]].
  destruct (far pdr) as [fr|]; cbn [mbind option_bind]; [|done].
  destruct (action_drop fr); [by intros [= <-]|]. destruct (is_end_marker m); [by intros [= <-]|].
  destruct key as [p|]; cbn [mbind option_bind]; [|done].
  destruct (ds_sessions s !! p) as [si|] eqn:Ep; cbn [mbind option_bind]; [|done].
  unfold session_ring. destruct (dl_ring si) as [r|] eqn:Er; cbn [mbind option_bind].
  - destruct (_ || _); [|by intros [= <-]]. unfold ring_enqueue.
    destruct (dl_rings s !! r) as [ring|]; cbn [mbind option_bind]; [|done].
    destruct (bool_decide _); [by intros [= <-]|]. unfold ring_full, write_sess.
    cbn [mbind option_bind]. cbv zeta. change (ds_sessions (with_container _ _)) with (ds_sessions s). rewrite Ep. cbn [mbind option_bind].
    intros [= <-]. split; [done|]. intros q sq Hq Hqr. cbn. rewrite lookup_insert_ne; [done|]. intros ->. congruence.
  - unfold allocate_ring. rewrite bool_decide_false by lia. cbn [andb mbind option_bind]. by intros [= <-].
Qed.

Lemma enqueue_burst_exhausted ring_create i pkts mask (s s' : @ddn_state mbuf) :
  Z.of_nat DL_RING_CONTAINER_SIZE <= num_dl_rings s ->
  enqueue_dl_pkts_from ring_create i pkts mask s = Some s' -> no_new_rings s s'.
Proof.
  revert i s. induction pkts as [|[[pdr key] m] pkts IH]; intros i s Hn E; [by injection E as <-|].
  cbn [enqueue_dl_pkts_from] in E. destruct (ISSET_BIT mask i); cbn [mbind option_bind] in E; [|by eapply IH].
  destruct (enqueue_dl_pkt ring_create pdr key m s) as [s1|] eqn:E1; cbn [mbind option_bind] in E; [|done].
  apply enqueue_exhausted in E1 as [N1 P1]; [|done]. apply IH in E as [N2 P2]; [|by rewrite N1].
  split; [congruence|]. intros p si Hp Hr. apply P2; [|exact Hr]. by apply P1.
Qed.
End Rings.

(** Bursts of packets of one session that are all to be queued. *)
Definition burst_of_session {mbuf} `{Mbuf mbuf} (burst : list mbuf * Z) : Prop :=
  Forall (fun m => is_end_marker m = false) burst.1 /\
  forall k, (k < length burst.1)%nat -> ISSET_BIT burst.2 k = true.

Definition enqueue_bursts {mbuf} `{Mbuf mbuf} ring_create (pdr : pdr_info) (p : positive) (bursts : list (list mbuf * Z))
    (s : ddn_state) : option ddn_state :=
  foldl (fun o '(ms, mask) => s ← o;
    enqueue_dl_pkts ring_create (replicate (length ms) (Some pdr)) (replicate (length ms) (Some p)) ms mask s) (Some s) bursts.

Lemma zip_one_session {A} (pdr : pdr_info) (p : positive) (ms : list A) :
  zip (zip (replicate (length ms) (Some pdr)) (replicate (length ms) (Some p))) ms = map (fun m => (Some pdr, Some p, m)) ms.
Proof. induction ms as [|m ms IH]; [done|]. cbn. f_equal. exact IH. Qed.

Section Bursts.
Context {mbuf : Type} `{Mbuf mbuf}.
Implicit Types s : @ddn_state mbuf.

Lemma enqueue_bursts_with_ring ring_create pdr fr p si r ring bursts s :
  pages pdr fr -> ds_sessions s !! p = Some si -> dl_ring si = Some r -> dl_rings s !! r = Some ring ->
  Forall burst_of_session bursts ->
  Z.of_nat (length (r_pkts ring) + length (concat bursts.*1)) <= r_capacity ring ->
  enqueue_bursts ring_create pdr p bursts s =
  Some (with_rings (<[r := mk_dl_ring (r_capacity ring) (r_pkts ring ++ concat bursts.*1)]> (dl_rings s)) s).
Proof.
  intros Hpg. unfold enqueue_bursts. revert s ring. induction bursts as [|[ms mask] bursts IH]; intros s ring Hp Hr Hring HF Hl.
  - cbn. rewrite app_nil_r. f_equal. destruct s, ring. unfold with_rings. cbn in *. f_equal. symmetry. by apply insert_id.
  - apply Forall_cons in HF as [[HF0 Hm] HF]. cbn [fst snd] in *. rewrite fmap_cons in *. cbn [fst concat foldl mbind option_bind] in *.
    rewrite length_app in Hl. unfold enqueue_dl_pkts. rewrite zip_one_session.
    rewrite (enqueue_burst_with_ring ring_create pdr fr p si r ring 0 ms mask s) by (done || lia).
    rewrite (IH _ (mk_dl_ring (r_capacity ring) (r_pkts ring ++ ms))); cbn [with_rings ds_sessions dl_rings r_pkts r_capacity]; try done.
    + by rewrite insert_insert_eq, <- app_assoc.
    + by rewrite lookup_insert_eq.
    + rewrite length_app. lia.
Qed.

Lemma enqueue_bursts_first ring_create c pdr fr p si bursts s :
  pages pdr fr -> ds_sessions s !! p = Some si -> dl_ring si = None -> sess_state si = IDLE ->
  Forall burst_of_session bursts -> concat bursts.*1 <> [] ->
  ring_create (num_dl_rings s) (rte_align32pow2 (pckt_cnt_val (session pdr))) = ring_new c ->
  Z.of_nat (length (concat bursts.*1)) <= c ->
  num_dl_rings s < Z.of_nat DL_RING_CONTAINER_SIZE -> (length (dl_ring_container s) < DL_RING_CONTAINER_SIZE)%nat ->
  exists r s', enqueue_bursts ring_create pdr p bursts s = Some s' /\
    ds_sessions s' !! p = Some (set_state IN_PROGRESS (set_dl_ring (Some r) si)) /\
    dl_rings s' !! r = Some (mk_dl_ring c (concat bursts.*1)) /\
    ds_ddns s' = ds_ddns s ++ [mk_ddn (cp_seid (session pdr)) (rule_id pdr)] /\ ds_freed s' = ds_freed s.
Proof.
  intros Hpg Hp Hr Hst HF Hne Hnew Hc H1 H2. induction bursts as [|[ms mask] bursts IH]; [done|].
  apply Forall_cons in HF as [[HF0 Hm] HF]. rewrite fmap_cons in *. cbn [fst snd concat] in *.
  unfold enqueue_bursts. cbn [foldl mbind option_bind]. unfold enqueue_dl_pkts. rewrite zip_one_session.
  destruct ms as [|m ms]; [by apply IH|]. rewrite length_app in Hc. cbn [length map enqueue_dl_pkts_from] in *.
  apply Forall_cons in HF0 as [Hm0 HF0].
  destruct (enqueue_first ring_create c pdr fr p si m s Hpg Hm0 Hp Hr Hst Hnew) as (r & s1 & E & S1 & R1 & D1 & F1); [lia|done|done|].
  rewrite Hm by lia. rewrite E. cbn [mbind option_bind].
  erewrite (enqueue_burst_with_ring ring_create pdr fr p _ r _ 1 ms); [|exact Hpg|exact S1|done|exact R1|exact HF0| |].
  - exists r. eexists. split.
    + erewrite <- (enqueue_bursts_with_ring ring_create pdr fr p _ r (mk_dl_ring c (m :: ms)) bursts); [reflexivity|exact Hpg| | | |exact HF|].
      * exact S1.
      * done.
      * cbn [with_rings dl_rings r_capacity r_pkts]. by rewrite lookup_insert_eq.
      * cbn [r_pkts r_capacity length]. lia.
    + cbn [with_rings ds_sessions dl_rings ds_ddns ds_freed r_capacity r_pkts]. rewrite lookup_insert_eq. done.
  - intros k Hk. apply Hm. lia.
  - cbn [r_pkts r_capacity length]. lia.
Qed.
End Bursts.

(** ** The size of a ring *)

(** After [x |= x >> w] for [w] = 1, 2, ..., a bit is set when one of the bits up to [w]
    places above it was set at first. *)
Definition spread (w y x : Z) : Prop :=
  forall i, 0 <= i -> Z.testbit x i = true <-> exists k, 0 <= k < w /\ Z.testbit y (i + k) = true.

Lemma spread_doubles w y x : 0 <= w -> spread w y x -> spread (2 * w) y (Z.lor x (Z.shiftr x w)).
Proof.
  intros Hw Hs i Hi. rewrite Z.lor_spec, Z.shiftr_spec, orb_true_iff, (Hs i Hi), (Hs (i + w)) by lia. split.
  - intros [(k & Hk & E)|(k & Hk & E)]; [exists k|exists (w + k)]; (split; [lia|]); [done|].
    by rewrite Z.add_assoc.
  - intros (k & Hk & E). destruct (Z_lt_ge_dec k w); [left; exists k; split; [lia|done]|].
    right. exists (k - w). split; [lia|]. by replace (i + w + (k - w)) with (i + k) by lia.
Qed.

Lemma rte_align32pow2_spec x :
  0 < x < 2 ^ 16 -> exists n, 0 <= n /\ rte_align32pow2 x = 2 ^ n /\ x <= 2 ^ n.
Proof.
  intros Hx. unfold rte_align32pow2. set (y := x +[32] -1). assert (y = x - 1) as Hy by (apply Z.mod_small; lia).
  destruct (decide (x = 1)) as [->|Hx1]; [exists 0; subst y; split_and!; [lia|reflexivity|lia]|].
  pose proof (Z.log2_spec y ltac:(lia)) as [Hl Hu]. pose proof (Z.log2_nonneg y) as Hn.
  assert (Z.log2 y < 16) as H16 by (apply Z.log2_lt_pow2; lia).
  cbv zeta. match goal with |- context [?z +[32] 1] => assert (z = Z.ones (Z.succ (Z.log2 y))) as -> end.
  - apply Z.bits_inj'. intros i Hi. apply eq_true_iff_eq.
    assert (spread 1 y y) as H1.
    { intros j Hj. split; [intros; exists 0; split; [lia|by rewrite Z.add_0_r]|].
      intros (k & Hk & E). replace k with 0 in E by lia. by rewrite Z.add_0_r in E. }
    apply (spread_doubles 1) in H1; [|lia]. apply (spread_doubles 2) in H1; [|lia].
    apply (spread_doubles 4) in H1; [|lia]. apply (spread_doubles 8) in H1; [|lia].
    apply (spread_doubles 16) in H1; [|lia]. rewrite (H1 i Hi). split.
    + intros (k & Hk & E). apply Z.ones_spec_low. split; [lia|].
      destruct (Z_lt_ge_dec i (Z.succ (Z.log2 y))); [done|]. rewrite Z.bits_above_log2 in E; [done|lia|lia].
    + intros E. destruct (Z_lt_ge_dec i (Z.succ (Z.log2 y))); [|rewrite Z.ones_spec_high in E; [done|lia]].
      exists (Z.log2 y - i). split; [lia|]. replace (i + (Z.log2 y - i)) with (Z.log2 y) by lia. apply Z.bit_log2. lia.
  - exists (Z.succ (Z.log2 y)). split; [lia|]. rewrite Z.ones_equiv.
    assert (2 ^ Z.succ (Z.log2 y) <= 2 ^ 16) by (apply Z.pow_le_mono_r; lia).
    split; [|lia]. rewrite <- (Z.mod_small (2 ^ Z.succ (Z.log2 y)) (2 ^ 32)) at 2.
    + unfold wrap. f_equal. lia.
    + split; [lia|]. change (2 ^ 16) with 65536 in *. change (2 ^ 32) with 4294967296. lia.
Qed.

(** ** Theorems *)

(** C14. The downlink packets of an idle session that has no ring yet, over any number of
    bursts: as long as they are fewer than the suggested number, 1 or more, and a ring can
    be created, all of them are kept in one new ring, in order of arrival and with none
    freed, the control plane is asked exactly once to page the user, for the PDR of the
    packets, and the session waits for the answer. *)
Theorem idle_session_is_paged_once {mbuf} `{Mbuf mbuf} ring_create `{!RingLaws ring_create} pdr fr p si
    (bursts : list (list mbuf * Z)) s :
  let cnt := pckt_cnt_val (session pdr) in
  pages pdr fr -> ds_sessions s !! p = Some si -> dl_ring si = None -> sess_state si = IDLE ->
  Forall (burst_of_session) bursts -> concat bursts.*1 <> [] ->
  0 < cnt < 2 ^ 16 -> Z.of_nat (length (concat bursts.*1)) < cnt ->
  ring_create (num_dl_rings s) (rte_align32pow2 cnt) <> ring_exists ->
  ring_create (num_dl_rings s) (rte_align32pow2 cnt) <> ring_error ->
  num_dl_rings s < Z.of_nat DL_RING_CONTAINER_SIZE -> (length (dl_ring_container s) < DL_RING_CONTAINER_SIZE)%nat ->
  exists r s', enqueue_bursts ring_create pdr p bursts s = Some s' /\
    ds_sessions s' !! p = Some (set_state IN_PROGRESS (set_dl_ring (Some r) si)) /\
    dl_rings s' !! r = Some (mk_dl_ring (rte_align32pow2 cnt - 1) (concat bursts.*1)) /\
    ds_ddns s' = ds_ddns s ++ [mk_ddn (cp_seid (session pdr)) (rule_id pdr)] /\ ds_freed s' = ds_freed s.
Proof.
  intros cnt Hpg Hp Hr Hst HF Hne Hcnt Hl Hex Herr H1 H2.
  destruct (rte_align32pow2_spec cnt Hcnt) as (n & Hn & En & Hle).
  destruct (ring_create _ _) as [c| |] eqn:Enew in Hex, Herr; [|done..].
  assert (c = rte_align32pow2 cnt - 1) as ->.
  { rewrite En in *. by eapply ring_create_capacity. }
  destruct (enqueue_bursts_first ring_create _ pdr fr p si bursts s Hpg Hp Hr Hst HF Hne Enew) as (r & s' & E & S & R & D & F);
    [lia|done|done|].
  by exists r, s'.
Qed.

(** A user is paged for the first idle period only: the session's ring, once there, is
    never taken away by [notification_handler], and as long as it has room the packets of
    the next idle period only fill it: no request is sent and the session stays as it is.
    Only a full ring brings the next request, and with it the loss of all that it holds. *)
Theorem next_idle_period_is_not_paged {mbuf} `{Mbuf mbuf} app l2 t env ring_create pdr fr p si r ring (ms : list mbuf) mask s :
  pages pdr fr -> ds_sessions s !! p = Some si -> dl_ring si = Some r -> dl_rings s !! r = Some ring ->
  (forall k, (k < length ms)%nat -> ISSET_BIT mask k = true) -> Forall (fun m => is_end_marker m = false) ms ->
  Z.of_nat (length (r_pkts ring) + length ms) <= r_capacity ring ->
  (exists s', enqueue_dl_pkts ring_create (replicate (length ms) (Some pdr)) (replicate (length ms) (Some p)) ms mask s = Some s' /\
     ds_ddns s' = ds_ddns s /\ ds_sessions s' = ds_sessions s) /\
  (forall fuel n n', ns_ddn n = s -> notification_handler app l2 t env fuel n = Some n' ->
     exists si', ds_sessions (ns_ddn n') !! p = Some si' /\ dl_ring si' = Some r).
Proof.
  intros Hpg Hp Hr Hring Hmask HF Hc. split.
  - unfold enqueue_dl_pkts. rewrite zip_one_session. by erewrite enqueue_burst_with_ring by done; eexists.
  - intros fuel n n' <- E. apply notify_from_rings in E. specialize (E p). rewrite Hp in E. cbn in E.
    destruct (ds_sessions (ns_ddn n') !! p) as [si'|]; [|done]. cbn in E. injection E as E.
    exists si'. split; [done|congruence].
Qed.

(** The rings of idle sessions are made, never reused: after 4096 of them no packet, of
    whatever session, leads to another, and every session without ring stays as it is
    (neither its packets are kept nor is its user paged). *)
Theorem paging_stops_after_4096_rings {mbuf} `{Mbuf mbuf} ring_create pdrs sess_info (pkts : list mbuf) mask s s' :
  Z.of_nat DL_RING_CONTAINER_SIZE <= num_dl_rings s ->
  enqueue_dl_pkts ring_create pdrs sess_info pkts mask s = Some s' ->
  num_dl_rings s' = num_dl_rings s /\
  forall p si, ds_sessions s !! p = Some si -> dl_ring si = None -> ds_sessions s' !! p = Some si.
Proof. intros Hn E. by eapply enqueue_burst_exhausted. Qed.

(** The packets that wait for a user overrun the array of notifications when they are
    more than the notifications read with it (32 at most are read at once): a message for a
    session whose ring holds more packets, at the head of the array, makes
    [notification_handler] write behind the array, whatever else is in it. *)
Theorem notification_overruns_array {mbuf} `{Mbuf mbuf} app l2 t env fuel p k si r ring (m : mbuf) n :
  head (ns_pkts n) = Some m -> notified_session t (load m 0 4) = Some (p, k) ->
  ds_sessions (ns_ddn n) !! p = Some si -> dl_ring si = Some r -> dl_rings (ns_ddn n) !! r = Some ring ->
  (length (ns_pkts n) < Nat.min 32 (length (r_pkts ring)))%nat ->
  notification_handler app l2 t env fuel n = None.
Proof.
  intros Hm Hk Hp Hr Hring Hl. unfold notification_handler. destruct fuel as [|fuel]; [done|]. cbn [notify_from].
  destruct (ns_pkts n) as [|m' ms] eqn:En; [done|]. injection Hm as ->. cbn [length] in *.
  rewrite bool_decide_true by lia.
  assert (notify_one app l2 t env 0 n = None) as ->; [|done].
  unfold notify_one, write_sess. rewrite En. cbn [lookup list_lookup mbind option_bind]. rewrite Hk, Hp.
  cbn [mbind option_bind]. rewrite Hr. cbn [with_sessions dl_rings ns_ddn]. rewrite Hring. cbn [mbind option_bind drain_ring].
  cbn [with_sessions dl_rings ns_ddn ns_pkts]. rewrite Hring. cbn [mbind option_bind].
  rewrite length_take. rewrite (bool_decide_false (_ = 0%nat)) by lia.
  cbn [length]. rewrite bool_decide_true by lia. done.
Qed.

(** ** Witnesses *)

Definition paging_far : far_info := mk_far false (mk_outer 0 5 0 (replicate 16 x00)) 0 false true true.
Definition paging_pdr : pdr_info := mk_pdr 3 (Some paging_far) 1 [] 10 0 None (mk_sref 7 9 DL_PKTS_BUF_RING_SIZE).
Definition idle_sess (r : option positive) : pfcp_session_datat := mk_sess [paging_pdr] IDLE 0 4 0 false [] r.
Definition ddn_wit (r : option positive) (num : Z) (ms : list simple_mbuf) : ddn_state :=
  mk_ds {[ 1%positive := idle_sess r ]}
    (match r with Some q => {[ q := mk_dl_ring 1023 ms ]} | None => ∅ end) (match r with Some q => [q] | None => [] end) num [] [].

(** A creation of rings that always succeeds. *)
Definition sample_create (num count : Z) : ring_created := ring_new (count - 1).

#[export] Instance sample_create_laws : RingLaws sample_create.
Proof. intros num n c _ [= <-]. done. Defined.

Lemma idle_session_is_paged_once_witness :
  exists s', enqueue_bursts sample_create paging_pdr 1 [([sample_pkt; sample_pkt], 3); ([sample_pkt], 1)] (ddn_wit None 0 []) = Some s' /\
    length (ds_ddns s') = 1%nat.
Proof.
  destruct (idle_session_is_paged_once sample_create paging_pdr paging_far 1 (idle_sess None)
    [([sample_pkt; sample_pkt], 3); ([sample_pkt], 1)] (ddn_wit None 0 []))
    as (r & s' & E & _ & _ & D & _); try (reflexivity || done).
  - repeat constructor; cbn; intros [|[|k]] Hk; (done || lia).
  - by apply Nat.ltb_lt.
  - exists s'. split; [exact E|]. rewrite D. reflexivity.
Defined.

Lemma next_idle_period_is_not_paged_witness :
  exists s', enqueue_dl_pkts sample_create [Some paging_pdr] [Some 1%positive] [sample_pkt] 1 (ddn_wit (Some 1%positive) 1 []) = Some s' /\
    ds_ddns s' = [] .
Proof.
  destruct (next_idle_period_is_not_paged (sample_app 0x0a000001 x01 0 0) sample_l2 (mk_tables ∅ ∅) (fun _ => sample_env)
    sample_create paging_pdr paging_far 1 (idle_sess (Some 1%positive)) 1 (mk_dl_ring 1023 []) [sample_pkt] 1
    (ddn_wit (Some 1%positive) 1 [])) as [(s' & E & D & _) _]; try (reflexivity || done).
  - intros [|k] Hk; [done|cbn in Hk; lia].
  - repeat constructor.
  - exists s'. by split.
Defined.

Lemma paging_stops_after_4096_rings_witness :
  exists s', enqueue_dl_pkts sample_create [Some paging_pdr] [Some 1%positive] [sample_pkt] 1 (ddn_wit None 4096 []) = Some s' /\
    ds_sessions s' !! 1%positive = Some (idle_sess None).
Proof.
  destruct (enqueue_dl_pkts sample_create [Some paging_pdr] [Some 1%positive] [sample_pkt] 1 (ddn_wit None 4096 [])) as [s'|] eqn:E;
    [|by vm_compute in E].
  exists s'. split; [done|].
  destruct (paging_stops_after_4096_rings sample_create [Some paging_pdr] [Some 1%positive] [sample_pkt] 1 (ddn_wit None 4096 []) s')
    as [_ P]; [done|exact E|]. by apply P.
Defined.

Lemma notification_overruns_array_witness :
  notification_handler (sample_app 0x0a000001 x01 0 0) sample_l2 (mk_tables {[ 5 := 1%positive ]} ∅) (fun _ => sample_env) 100
    (mk_ns (ddn_wit (Some 1%positive) 1 [sample_pkt; sample_pkt]) empty_arp 0 []
       [mk_simple [] [x05; x00; x00; x00]] []) = None.
Proof.
  apply (notification_overruns_array (sample_app 0x0a000001 x01 0 0) sample_l2 (mk_tables {[ 5 := 1%positive ]} ∅)
    (fun _ => sample_env) 100 1 true (idle_sess (Some 1%positive)) 1 (mk_dl_ring 1023 [sample_pkt; sample_pkt])
    (mk_simple [] [x05; x00; x00; x00])); try reflexivity.
  cbn. lia.
Defined.
