(* ===== verification/UpEcho.v ===== *)
(** * Messages of the GTP-U path (dp/gtpu_echo.c, dp/gtpu_echo_req.c, dp/ipv6_rs.c)

    The packets that the user plane itself writes: echo requests and responses, error
    indications, end markers and router advertisements.  The code writes the fields of
    structures over the buffer of a packet and sets its lengths, so a packet here is its
    buffer from the data pointer on, with [data_len] and [pkt_len]; a store or load
    outside the buffer is [None].  [rte_pktmbuf_append] and the checksums of DPDK are
    parameters; the header offsets are those of UpPacket.v.

    - The pointers that the code tests for null come from an addition and are never null.
    - [rte_pktmbuf_append] returns a null pointer when there is no room; the code does
      not test it.
    - The sending of an error indication copies the structure of the packet, not its
      data; the packet that is queued has the buffer of the one received. *)
From S2P Require Import Prelude NodeAddr UpPacket.

Definition GTPU_ECHO_RECOVERY : Z := 14.
Definition GTPU_ECHO_REQUEST : Z := 0x01.
Definition GTPU_ECHO_RESPONSE : Z := 0x02.
Definition GTPU_END_MARKER_REQUEST : Z := 254.
Definition GTPU_TEID_DATA_TYPE : Z := 16.
Definition GTPU_ERROR_INDICATION : Z := 0x1a.
Definition GTPU_PEER_ADDRESS : Z := 133.
Definition GTPU_HDR_SIZE : nat := 8.
Definition GTPU_HDR_LEN : Z := 8.
Definition IPV4_HDR_LEN : Z := 20.
Definition ETH_HDR_LEN : Z := 14.
Definition UDP_HDR_LEN : Z := 8.
Definition PKT_SIZE : Z := 54.
Definition ETHER_TYPE_IPv4 : Z := 0x0800.
Definition ETHER_TYPE_IPv6 : Z := 0x86DD.
Definition ICMPv6_ROUTER_ADVERTISEMENT : Z := 0x86.
Definition PREFIX_INFORMATION : Z := 0x03.

(** Sizes of the packed structures. *)
Definition sizeof_gtpu_recovery_ie : Z := 2.
Definition sizeof_teid_data_identifier : Z := 5.
Definition sizeof_gtpu_peer_address_ie : nat := 19.
Definition sizeof_icmp6_hdr_ra : nat := 48.

(** ** Packets *)

Record pkt := mk_pkt { room : list byte; data_len : Z; pkt_len : Z }.

(** The bytes that are sent. *)
Definition data (m : pkt) : list byte := take (Z.to_nat (data_len m)) (room m).

Definition poke (m : pkt) (off : nat) (bs : list byte) : option pkt :=
  if bool_decide (off + length bs <= length (room m))%nat
  then Some (mk_pkt (take off (room m) ++ bs ++ drop (off + length bs) (room m)) (data_len m) (pkt_len m))
  else None.
Definition peek (m : pkt) (off n : nat) : option (list byte) :=
  if bool_decide (off + n <= length (room m))%nat then Some (take n (drop off (room m))) else None.
Definition store (m : pkt) (off n : nat) (v : Z) : option pkt := poke m off (le_bytes n v).
Definition load (m : pkt) (off n : nat) : option Z := le_val <$> peek m off n.
Definition copy (m : pkt) (dst src n : nat) : option pkt := bs ← peek m src n; poke m dst bs.

(** [pkt_len] has 32 bits, [data_len] 16. *)
Definition set_pkt_len (m : pkt) (n : Z) : pkt := mk_pkt (room m) (data_len m) (u32 n).
Definition set_data_len (m : pkt) (n : Z) : pkt := mk_pkt (room m) (u16 n) (pkt_len m).

Definition eth_d_addr := 0%nat.
Definition eth_s_addr := 6%nat.
Definition ether_type := 12%nat.

(** DPDK: the append, and the checksums of the bytes from the IP header on. *)
Class Dpdk := {
  rte_pktmbuf_append : pkt -> Z -> option pkt;
  ipv4_cksum : list byte -> Z;
  ipv4_udptcp_cksum : list byte -> Z;
  ipv6_udptcp_cksum : list byte -> Z;
  raw_cksum : list byte -> Z;
  ipv6_phdr_cksum : list byte -> Z
}.

(** What is documented: an append inside the buffer extends both lengths; one that does
    not fit leaves the packet. *)
Class DpdkOk (D : Dpdk) : Prop := {
  append_fits m n : 0 <= data_len m -> data_len m + n <= Z.of_nat (length (room m)) -> Z.of_nat (length
    (room m)) < 2 ^ 16 ->
    0 <= n -> rte_pktmbuf_append m n = Some (mk_pkt (room m) (data_len m + n) (pkt_len m + n));
  append_full m n : Z.of_nat (length (room m)) < data_len m + n -> rte_pktmbuf_append m n = None
}.

Section Echo.
Context {D : Dpdk}.

(** The result of an append whose pointer is not used. *)
Definition append (m : pkt) (n : Z) : pkt := default m (rte_pktmbuf_append m n).

Definition ip_bytes (m : pkt) : list byte := drop get_mtoip (room m).

(** ** gtpu_echo.c *)

(** Two fields exchanged through a temporary. *)
Definition swap_mac (m : pkt) : option pkt :=
  tmp_mac ← peek m eth_d_addr 6;
  m ← copy m eth_d_addr eth_s_addr 6;
  poke m eth_s_addr tmp_mac.

Definition swap (m : pkt) (dst src n : nat) : option pkt :=
  tmp ← peek m dst n;
  m ← copy m dst src n;
  poke m src tmp.

Definition reset_req_pkt_as_resp (echo_pkt : pkt) (v6 : bool) : option pkt :=
  m ← swap_mac echo_pkt;
  let len := u16 (data_len m - ETH_HDR_LEN) in
  r ← (if v6 then
         let len := u16 (len - Z.of_nat IPv6_HDR_SIZE) in
         m ← swap m (get_mtoip + ipv6_dst_addr) (get_mtoip + ipv6_src_addr) 16;
         m ← store m (get_mtoip + ipv6_payload_len) 2 (htons len);
         Some (m, len)
       else
         m ← swap m (get_mtoip + ipv4_dst_addr) (get_mtoip + ipv4_src_addr) 4;
         m ← store m (get_mtoip + ipv4_total_length) 2 (htons len);
         Some (m, u16 (len - IPV4_HDR_LEN)));
  let udphdr := get_mtoudp v6 in
  m ← swap (fst r) (udphdr + udp_dst_port) (udphdr + udp_src_port) 2;
  store m (udphdr + udp_dgram_len) 2 (htons (snd r)).

(** The recovery IE behind the message, and its two bytes in the length. *)
Definition write_recovery (m : pkt) (v6 : bool) : option (Z * pkt) :=
  let gtpu_hdr := get_mtogtpu v6 in
  msglen ← load m (gtpu_hdr + gtpu_msglen) 2;
  let recovery_ie := (gtpu_hdr + GTPU_HDR_SIZE + Z.to_nat (ntohs msglen))%nat in
  m ← store m (gtpu_hdr + gtpu_msgtype) 1 GTPU_ECHO_RESPONSE;
  m ← store m (gtpu_hdr + gtpu_msglen) 2 (htons (u16 (ntohs msglen + sizeof_gtpu_recovery_ie)));
  m ← store m recovery_ie 1 GTPU_ECHO_RECOVERY;
  m ← store m (recovery_ie + 1) 1 0;
  Some (0, m).

(** The error return is [Some (-1, _)]. *)
Definition set_recovery (echo_pkt : pkt) (v6 : bool) : option (Z * pkt) :=
  len ← (if v6 then payload_len ← load echo_pkt (get_mtoip + ipv6_payload_len) 2;
                    Some (u16 (payload_len + Z.of_nat IPv6_HDR_SIZE))
         else load echo_pkt (get_mtoip + ipv4_total_length) 2);
  let extra_len := u16 (pkt_len echo_pkt - (ETH_HDR_LEN + ntohs len)) in
  let short := bool_decide (extra_len < sizeof_gtpu_recovery_ie) in
  let m := if short then append echo_pkt (sizeof_gtpu_recovery_ie - extra_len) else echo_pkt in
  if short && bool_decide (u32 (pkt_len m - (ETH_HDR_LEN + len)) < sizeof_gtpu_recovery_ie)
  then Some (-1, m) else write_recovery m v6.

Definition set_checksum (echo_pkt : pkt) (v6 : bool) : option pkt :=
  let udphdr := get_mtoudp v6 in
  if v6 then
    m ← store echo_pkt (udphdr + udp_dgram_cksum) 2 0;
    store m (udphdr + udp_dgram_cksum) 2 (ipv6_udptcp_cksum (ip_bytes m))
  else
    m ← store echo_pkt (get_mtoip + ipv4_hdr_checksum) 2 0;
    m ← store m (udphdr + udp_dgram_cksum) 2 0;
    m ← store m (udphdr + udp_dgram_cksum) 2 (ipv4_udptcp_cksum (ip_bytes m));
    store m (get_mtoip + ipv4_hdr_checksum) 2 (ipv4_cksum (take IPv4_HDR_SIZE (ip_bytes m))).

Definition process_echo_request (echo_pkt : pkt) (v6 : bool) : option pkt :=
  r ← set_recovery echo_pkt v6;
  if bool_decide (fst r < 0) then Some (snd r)
  else m ← reset_req_pkt_as_resp (snd r) v6; set_checksum m v6.

Definition set_err_ind_hdr_info (gtpu_pkt : pkt) (v6 : bool) : option pkt :=
  let gtpu_hdr := get_mtogtpu v6 in
  gtpu_len ← load gtpu_pkt (gtpu_hdr + gtpu_msglen) 2;
  teid ← peek gtpu_pkt (gtpu_hdr + gtpu_teid) 4;
  m ← store gtpu_pkt (gtpu_hdr + gtpu_teid) 4 0;
  flags ← load m (gtpu_hdr + gtpu_flags) 1;
  m ← store m (gtpu_hdr + gtpu_flags) 1 (Z.ldiff flags GTP_FLAG_SEQNB);
  m ← store m (gtpu_hdr + gtpu_msglen) 2 0;
  m ← store m (gtpu_hdr + gtpu_msgtype) 1 GTPU_ERROR_INDICATION;
  m ← store m (gtpu_hdr + gtpu_msglen) 2 (htons sizeof_teid_data_identifier);
  let teid_1 := (gtpu_hdr + GTPU_HDR_SIZE)%nat in
  m ← store m teid_1 1 GTPU_TEID_DATA_TYPE;
  m ← poke m (teid_1 + 1) teid;
  let peer_addr_ie := (gtpu_hdr + GTPU_HDR_SIZE + Z.to_nat sizeof_teid_data_identifier)%nat in
  m ← poke m peer_addr_ie (replicate sizeof_gtpu_peer_address_ie x00);
  m ← store m peer_addr_ie 1 GTPU_PEER_ADDRESS;
  r ← (if v6 then
         m ← copy m (peer_addr_ie + 3) (get_mtoip + ipv6_dst_addr) 16;
         m ← store m (peer_addr_ie + 1) 2 (htons 16);
         Some (m, 3 + 16)
       else
         m ← copy m (peer_addr_ie + 3) (get_mtoip + ipv4_dst_addr) 4;
         m ← store m (peer_addr_ie + 1) 2 (htons 4);
         Some (m, 3 + 4));
  let len := snd r in
  m ← store (fst r) (gtpu_hdr + gtpu_msglen) 2 (htons (u16 (len + sizeof_teid_data_identifier)));
  let m := set_pkt_len m (pkt_len m - ntohs gtpu_len + (len + sizeof_teid_data_identifier)) in
  Some (set_data_len m (pkt_len m)).

(** The packet that is queued for the port, if there is a packet to queue and room in
    the ring; the version of IP, if it has one that is known. *)
Definition ip_version (m : pkt) : option (option bool) :=
  type ← load m ether_type 2;
  Some (if bool_decide (ntohs type = ETHER_TYPE_IPv4) then Some false
        else if bool_decide (ntohs type = ETHER_TYPE_IPv6) then Some true else None).

Definition send_error_indication_pkt (gtpu_pkt : pkt) (arp_pkt ring_has_room : bool) : option
  (pkt * option pkt) :=
  v ← ip_version gtpu_pkt;
  match v with
  | None => Some (gtpu_pkt, None)
  | Some v6 =>
      m ← set_err_ind_hdr_info gtpu_pkt v6;
      m ← reset_req_pkt_as_resp m v6;
      m ← set_checksum m v6;
      Some (m, if arp_pkt && ring_has_room then Some m else None)
  end.

(** ** gtpu_echo_req.c *)

(** What the messages need of [peerData]. *)
Record peerData := mk_peerData {
  srcIP : node_address_t; dstIP : node_address_t; src_eth_addr : list byte; dst_eth_addr : list byte
}.

Definition IPV4_TYPE : Z := 1.
Definition IPV6_TYPE : Z := 2.

Definition is_v6 (a : node_address_t) : bool := bool_decide (ip_type a = IPV6_TYPE).

Definition ip_hdr_len (v6 : bool) : Z := if v6 then Z.of_nat IPv6_HDR_SIZE else IPV4_HDR_LEN.

Definition gtpu_flags_seqnb : Z :=
  Z.lor (Z.lor (Z.shiftl GTPU_VERSION 5) (Z.shiftl GTP_PROTOCOL_TYPE_GTP 4)) GTP_FLAG_SEQNB.

Definition encap_gtpu_hdr (m : pkt) (gtpu_seqnb type : Z) (v6 : bool) : option pkt :=
  let len := u16 (u16 (data_len m - (ETH_HDR_LEN + ip_hdr_len v6 + UDP_HDR_LEN)) - GTPU_HDR_LEN) in
  let gtpu_hdr := get_mtogtpu v6 in
  m ← store m (gtpu_hdr + gtpu_flags) 1 gtpu_flags_seqnb;
  m ← store m (gtpu_hdr + gtpu_msgtype) 1 type;
  m ← store m (gtpu_hdr + gtpu_teid) 4 (htonl 0);
  m ← store m (gtpu_hdr + gtpu_seqnb_off) 2 (htons gtpu_seqnb);
  store m (gtpu_hdr + gtpu_msglen) 2 (htons len).

Definition create_udp_hdr (m : pkt) (v6 : bool) : option pkt :=
  let len := u16 (data_len m - ETH_HDR_LEN - ip_hdr_len v6) in
  let udp_hdr := get_mtoudp v6 in
  m ← store m (udp_hdr + udp_src_port) 2 (htons UDP_PORT_GTPU);
  m ← store m (udp_hdr + udp_dst_port) 2 (htons UDP_PORT_GTPU);
  m ← store m (udp_hdr + udp_dgram_len) 2 (htons len);
  store m (udp_hdr + udp_dgram_cksum) 2 0.

Definition create_ip_hdr (m : pkt) (entry : peerData) (v6 : bool) : option pkt :=
  let len := u16 (data_len m - ETH_HDR_LEN) in
  if v6 then
    m ← store m (get_mtoip + ipv6_vtc_flow) 4 IPv6_VERSION;
    m ← store m (get_mtoip + ipv6_payload_len) 2 (htons (u16 (len - Z.of_nat IPv6_HDR_SIZE)));
    m ← store m (get_mtoip + ipv6_proto) 1 IP_PROTO_UDP;
    m ← store m (get_mtoip + ipv6_hop_limits) 1 0;
    m ← poke m (get_mtoip + ipv6_src_addr) (ipv6_addr (srcIP entry));
    poke m (get_mtoip + ipv6_dst_addr) (ipv6_addr (dstIP entry))
  else
    m ← store m (get_mtoip + ipv4_version_ihl) 1 0x45;
    m ← store m (get_mtoip + ipv4_type_of_service) 1 0;
    m ← store m (get_mtoip + ipv4_packet_id) 2 0x1513;
    m ← store m (get_mtoip + ipv4_fragment_offset) 2 0;
    m ← store m (get_mtoip + ipv4_time_to_live) 1 64;
    m ← store m (get_mtoip + ipv4_next_proto_id) 1 IP_PROTO_UDP;
    m ← store m (get_mtoip + ipv4_total_length) 2 (htons len);
    m ← store m (get_mtoip + ipv4_src_addr) 4 (ipv4_addr (srcIP entry));
    m ← store m (get_mtoip + ipv4_dst_addr) 4 (ipv4_addr (dstIP entry));
    store m (get_mtoip + ipv4_hdr_checksum) 2 0.

Definition create_ether_hdr (m : pkt) (entry : peerData) (v6 : bool) : option pkt :=
  m ← poke m eth_d_addr (dst_eth_addr entry);
  m ← poke m eth_s_addr (src_eth_addr entry);
  store m ether_type 2 (htons (if v6 then ETHER_TYPE_IPv6 else ETHER_TYPE_IPv4)).

(** The headers around the GTP-U header, and their checksums. *)
Definition create_headers (m : pkt) (entry : peerData) (v6 : bool) : option pkt :=
  m ← create_udp_hdr m v6;
  m ← create_ip_hdr m entry v6;
  m ← create_ether_hdr m entry v6;
  set_checksum m v6.

(** The lengths of a message without payload: with the header of 12 bytes. *)
Definition set_message_len (m : pkt) (v6 : bool) : pkt :=
  let m := set_data_len (set_pkt_len m PKT_SIZE) PKT_SIZE in
  if v6 then
    let m := set_pkt_len m (pkt_len m - IPV4_HDR_LEN) in
    let m := set_pkt_len m (pkt_len m + Z.of_nat IPv6_HDR_SIZE) in
    set_data_len m (pkt_len m)
  else m.

Definition build_echo_request (echo_pkt : pkt) (entry : peerData) (gtpu_seqnb : Z) : option pkt :=
  let v6 := is_v6 (dstIP entry) in
  m ← encap_gtpu_hdr (set_message_len echo_pkt v6) gtpu_seqnb GTPU_ECHO_REQUEST v6;
  create_headers m entry v6.

Record sess_info_endmark := mk_sess_info_endmark {
  em_teid : Z; dst_ip : node_address_t; src_ip : node_address_t; source_MAC : list byte;
    destination_MAC : list byte
}.

(** The GTP-U header of an end marker with the number [seq]. *)
Definition endmark_gtpu_hdr (m : pkt) (teid seq : Z) (v6 : bool) : option pkt :=
  let len := u16 (u16 (data_len m - (ETH_HDR_LEN + ip_hdr_len v6 + UDP_HDR_LEN)) - GTPU_HDR_LEN) in
  let gtpu_hdr := get_mtogtpu v6 in
  m ← store m (gtpu_hdr + gtpu_flags) 1 gtpu_flags_seqnb;
  m ← store m (gtpu_hdr + gtpu_msgtype) 1 GTPU_END_MARKER_REQUEST;
  m ← store m (gtpu_hdr + gtpu_teid) 4 (htonl teid);
  m ← store m (gtpu_hdr + gtpu_seqnb_off) 2 (htons seq);
  store m (gtpu_hdr + gtpu_msglen) 2 (htons len).

(** The packet that is given to the ring of the S1-U port, and the counter of sequence
    numbers.  [endmk_pkt] is what [rte_pktmbuf_alloc] returns; [None] there is the null
    pointer, which is written to. *)
Definition build_endmarker_and_send (edmk : sess_info_endmark) (endmk_pkt : option pkt) (ring_has_room : bool)
  (seq : Z)
    : option (option pkt * Z) :=
  let entry := mk_peerData (src_ip edmk) (dst_ip edmk) (source_MAC edmk) (destination_MAC edmk) in
  m ← endmk_pkt;
  if bool_decide (ip_type (dst_ip edmk) = IPV6_TYPE) || bool_decide (ip_type (dst_ip edmk) = IPV4_TYPE) then
    let v6 := is_v6 (dst_ip edmk) in
    let seq := seq +[16] 1 in
    m ← endmark_gtpu_hdr (set_message_len m v6) (em_teid edmk) seq v6;
    m ← create_headers m entry v6;
    Some (if ring_has_room then Some m else None, seq)
  else None.

(** ** ipv6_rs.c *)

Definition ra_type := 0%nat.
Definition ra_code := 1%nat.
Definition ra_cksum := 2%nat.
Definition ra_data := 4%nat.
Definition ra_reachable_time := 8%nat.
Definition ra_retrans_time := 12%nat.
Definition ra_opt := 16%nat.

(** The headers and the advertisement over the solicitation. *)
Definition write_ra (m : pkt) (teid : Z) (v6 : bool) : option pkt :=
  let gtpu_hdr := get_mtogtpu v6 in
  let inner := (gtpu_hdr + GTPU_HDR_SIZE)%nat in
  m ← store m (inner + ipv6_payload_len) 2 (htons (Z.of_nat sizeof_icmp6_hdr_ra));
  m ← copy m (inner + ipv6_dst_addr) (inner + ipv6_src_addr) 16;
  let ra := (gtpu_hdr + GTPU_HDR_SIZE + IPv6_HDR_SIZE)%nat in
  m ← store m (gtpu_hdr + gtpu_msgtype) 1 GTP_GPDU;
  m ← store m (gtpu_hdr + gtpu_teid) 4 teid;
  m ← store m (gtpu_hdr + gtpu_msglen) 2 (htons (Z.of_nat (IPv6_HDR_SIZE + sizeof_icmp6_hdr_ra)));
  m ← poke m ra (replicate sizeof_icmp6_hdr_ra x00);
  m ← store m (ra + ra_type) 1 ICMPv6_ROUTER_ADVERTISEMENT;
  m ← store m (ra + ra_code) 1 0;
  m ← store m (ra + ra_data) 1 64;
  m ← store m (ra + ra_data + 1) 1 0;
  m ← store m (ra + ra_data + 2) 2 65535;
  m ← store m (ra + ra_reachable_time) 4 0;
  m ← store m (ra + ra_retrans_time) 4 0;
  m ← store m (ra + ra_opt) 1 PREFIX_INFORMATION;
  m ← store m (ra + ra_opt + 3) 1 0;
  m ← store m (ra + ra_opt + 4) 4 0xffffffff;
  m ← store m (ra + ra_opt + 8) 4 0xffffffff;
  m ← store m (ra + ra_opt + 12) 4 0;
  m ← store m (ra + ra_opt + 1) 1 4;
  m ← store m (ra + ra_opt + 2) 1 0;
  poke m (ra + ra_opt + 16) (replicate 16 x00).

(** [Some (-1, _)]: the advertisement does not fit.  The counter [remove_hdr_len] is set
    and nowhere read in this file. *)
Definition set_ipv6_ra (m : pkt) (teid : Z) : option (Z * pkt) :=
  v ← ip_version m;
  v6 ← v;
  let total_len := u16 (ip_hdr_len v6 +
    (ETH_HDR_LEN + Z.of_nat UDP_HDR_SIZE + Z.of_nat GTPU_HDR_SIZE + Z.of_nat IPv6_HDR_SIZE)) in
  payload_len ← load m (get_mtogtpu v6 + GTPU_HDR_SIZE + ipv6_payload_len) 2;
  let len := u16 (Z.of_nat sizeof_icmp6_hdr_ra - htons payload_len) in
  let m := append m len in
  if bool_decide (u32 (pkt_len m - total_len) < Z.of_nat sizeof_icmp6_hdr_ra) then Some (-1, m)
  else m ← write_ra m teid v6; Some (0, m).

(** The function of the same name in ipv6_rs.c, which takes the version from the packet. *)
Definition ra_reset_req_pkt_as_resp (m : pkt) : option pkt :=
  m ← swap_mac m;
  v ← ip_version m;
  v6 ← v;
  let len := data_len m in
  r ← (if (v6 : bool) then
         m ← swap m (get_mtoip + ipv6_dst_addr) (get_mtoip + ipv6_src_addr) 16;
         let len := u16 (len - (Z.of_nat IPv6_HDR_SIZE + Z.of_nat ETH_HDR_SIZE)) in
         m ← store m (get_mtoip + ipv6_payload_len) 2 (htons len);
         Some (m, len)
       else
         m ← swap m (get_mtoip + ipv4_dst_addr) (get_mtoip + ipv4_src_addr) 4;
         let len := u16 (len - Z.of_nat ETH_HDR_SIZE) in
         m ← store m (get_mtoip + ipv4_total_length) 2 (htons len);
         Some (m, u16 (len - Z.of_nat IPv4_HDR_SIZE)));
  let udphdr := get_mtoudp v6 in
  m ← swap (fst r) (udphdr + udp_dst_port) (udphdr + udp_src_port) 2;
  store m (udphdr + udp_dgram_len) 2 (htons (snd r)).

Definition ra_set_checksum (m : pkt) : option pkt :=
  v ← ip_version m;
  match v with Some v6 => set_checksum m v6 | None => Some m end.

Definition process_router_solicitation_request (m : pkt) (teid : Z) : option pkt :=
  r ← set_ipv6_ra m teid;
  if bool_decide (fst r < 0) then Some (snd r) else ra_reset_req_pkt_as_resp (snd r).

(** ** The answer to a router solicitation (dp/pipeline/epc_arp.c) *)

(** [retrieve_ipv6_prefix]: a prefix of more than 128 bits is written outside. *)
Definition retrieve_ipv6_prefix (addr : list byte) (local_prefix : Z) : option (list byte) :=
  let n := Z.to_nat (local_prefix / 8) in
  if bool_decide (n <= 16)%nat then Some (take n addr ++ replicate (16 - n) x00) else None.

(** [ipv6_icmp_cksum] (dp/ipv6.h), of a packet from its IPv6 header on. *)
Definition ipv6_icmp_cksum (ipv6_hdr icmp_hdr : list byte) (icmp_len : Z) : Z :=
  let cksum := u32 (raw_cksum (take (Z.to_nat icmp_len) icmp_hdr) + ipv6_phdr_cksum ipv6_hdr) in
  let cksum := u32 (Z.shiftr (Z.land cksum 0xffff0000) 16 + Z.land cksum 0xffff) in
  let cksum := Z.land (Z.lnot cksum) 0xffff in
  if bool_decide (cksum = 0) then 0xffff else cksum.

(** The own address and the prefix of the user. *)
Definition fill_advertisement (m : pkt) (v6 : bool) (wb_l3_ipv6 ue_ipv6 : list byte)
  (pfx_bits : Z) : option pkt :=
  let inner := (get_mtogtpu v6 + GTPU_HDR_SIZE)%nat in
  m ← poke m (inner + ipv6_src_addr) wb_l3_ipv6;
  let ra := (inner + IPv6_HDR_SIZE)%nat in
  prefix_addr_t ← retrieve_ipv6_prefix ue_ipv6 pfx_bits;
  m ← store m (ra + ra_data) 1 pfx_bits;
  m ← store m (ra + ra_opt + 2) 1 pfx_bits;
  m ← poke m (ra + ra_opt + 16) prefix_addr_t;
  m ← store m (ra + ra_cksum) 2 0;
  icmp_len ← load m (inner + ipv6_payload_len) 2;
  store m (ra + ra_cksum) 2 (ipv6_icmp_cksum (drop inner (room m)) (drop ra (room m)) (ntohs icmp_len)).

(** From the TEID of the downlink FAR, the own address and the address of the user with
    its prefix length. *)
Definition router_advertisement (m : pkt) (v6 : bool) (tmp_teid : Z) (wb_l3_ipv6 ue_ipv6 : list byte)
  (pfx_bits : Z)
    : option pkt :=
  m ← process_router_solicitation_request m tmp_teid;
  m ← fill_advertisement m v6 wb_l3_ipv6 ue_ipv6 pfx_bits;
  ra_set_checksum m.

End Echo.

(** ** Lemmas *)

(** *** Stores in a header of known bytes *)

Lemma poke_head hd hd' rest d p off bs :
  (off + length bs <=? length hd)%nat = true -> take off hd ++ bs ++ drop (off + length bs) hd = hd' ->
  poke (mk_pkt (hd ++ rest) d p) off bs = Some (mk_pkt (hd' ++ rest) d p).
Proof.
  intros H%Nat.leb_le <-. unfold poke. cbn [room data_len pkt_len]. rewrite bool_decide_true by
    (rewrite length_app; lia).
  rewrite take_app_le, drop_app_le by lia. by rewrite <- !app_assoc.
Qed.

Lemma peek_head hd bs rest d p off n :
  (off + n <=? length hd)%nat = true -> take n (drop off hd) = bs -> peek (mk_pkt
    (hd ++ rest) d p) off n = Some bs.
Proof.
  intros H%Nat.leb_le <-. unfold peek. cbn [room]. rewrite bool_decide_true by (rewrite length_app; lia).
  rewrite drop_app_le by lia. by rewrite take_app_le by (rewrite length_drop; lia).
Qed.

(** A store behind the header, over [old]. *)
Lemma poke_behind hd pre old post bs d p off :
  off = (length hd + length pre)%nat -> length old = length bs ->
  poke (mk_pkt (hd ++ pre ++ old ++ post) d p) off bs = Some (mk_pkt (hd ++ pre ++ bs ++ post) d p).
Proof.
  intros -> Hl. unfold poke. cbn [room data_len pkt_len]. rewrite bool_decide_true by (rewrite !length_app;
    lia).
  rewrite (app_assoc hd pre), take_app_length' by (by rewrite length_app).
  rewrite (app_assoc (hd ++ pre) old), drop_app_length' by (rewrite !length_app; lia). by rewrite <- !app_assoc.
Qed.

Lemma store_htons m off z : store m off 2 (htons z) = poke m off (be_bytes 2 z).
Proof. unfold store. by rewrite le_bytes_bswap16. Qed.
Lemma store_htonl m off z : store m off 4 (htonl z) = poke m off (be_bytes 4 z).
Proof. unfold store. by rewrite le_bytes_bswap32. Qed.

Ltac header_bytes e :=
  eval cbv [take drop app le_bytes be_bytes reverse rev_append length Nat.add get_mtoip get_mtoudp get_mtogtpu
    ip_hdr_size ETH_HDR_SIZE IPv4_HDR_SIZE IPv6_HDR_SIZE UDP_HDR_SIZE replicate sizeof_gtpu_peer_address_ie
    sizeof_icmp6_hdr_ra] in e.

(** Runs the stores and loads in the header of a goal. *)
Ltac head_step :=
  match goal with
  | |- context [poke (mk_pkt (?hd ++ ?rest) ?d ?p) ?off ?bs] =>
      let off' := eval compute in off in let bs' := header_bytes bs in
      let hd' := header_bytes (take off' hd ++ bs' ++ drop (off' + length bs') hd) in
      rewrite (poke_head hd hd' rest d p off bs) by reflexivity
  | |- context [peek (mk_pkt (?hd ++ ?rest) ?d ?p) ?off ?n] =>
      let off' := eval compute in off in let n' := eval compute in n in
      let bs := header_bytes (take n' (drop off' hd)) in
      rewrite (peek_head hd bs rest d p off n) by reflexivity
  | |- context [store (mk_pkt ?r ?d ?p) ?off 2 (bswap16 ?z)] => rewrite (store_htons (mk_pkt r d p) off z)
  | |- context [store (mk_pkt ?r ?d ?p) ?off 4 (bswap32 ?z)] => rewrite (store_htonl (mk_pkt r d p) off z)
  | |- context [store (mk_pkt ?r ?d ?p) ?off ?n ?v] =>
      change (store (mk_pkt r d p) off n v) with (poke (mk_pkt r d p) off (le_bytes n v))
  | |- context [load (mk_pkt ?r ?d ?p) ?off ?n] =>
      change (load (mk_pkt r d p) off n) with (le_val <$> peek (mk_pkt r d p) off n)
  | |- context [copy (mk_pkt ?r ?d ?p) ?dst ?src ?n] =>
      change (copy (mk_pkt r d p) dst src n) with (bs ← peek (mk_pkt r d p) src n; poke (mk_pkt r d p) dst bs)
  | |- context [swap (mk_pkt ?r ?d ?p) ?dst ?src ?n] =>
      change (swap (mk_pkt r d p) dst src n) with (tmp ← peek (mk_pkt r d p) dst n;
        m ← copy (mk_pkt r d p) dst src n; poke m src tmp)
  end; cbn [mbind option_bind fmap option_map option_fmap data_len pkt_len fst snd].
Ltac head_steps := repeat head_step.

(** *** The frames *)

Definition ether (dst src : list byte) (type : Z) : list byte := dst ++ src ++ be_bytes 2 type.
Definition ip4 (head : list byte) (len : Z) (mid cksum src dst : list byte) : list byte :=
  head ++ be_bytes 2 len ++ mid ++ cksum ++ src ++ dst.
Definition ip6 (head : list byte) (len : Z) (mid src dst : list byte) : list byte :=
  head ++ be_bytes 2 len ++ mid ++ src ++ dst.
Definition udp (sport dport : list byte) (len : Z) (cksum : list byte) : list byte :=
  sport ++ dport ++ be_bytes 2 len ++ cksum.
Definition gtp (flags type : byte) (len : Z) (teid : list byte) : list byte := [flags;
  type] ++ be_bytes 2 len ++ teid.

(** The fields of the outer headers that an answer keeps or exchanges. *)
Record outer := mk_outer {
  o_dmac : list byte; o_smac : list byte; o_head : list byte; o_mid : list byte;
  o_src : list byte; o_dst : list byte; o_sport : list byte; o_dport : list byte
}.

Definition outer_ok (v6 : bool) (o : outer) : Prop :=
  length (o_dmac o) = 6%nat /\ length (o_smac o) = 6%nat /\ length (o_head o) = (if v6 then 4 else 2)%nat /\
  length (o_mid o) = (if v6 then 2 else 6)%nat /\ length (o_src o) = (if v6 then 16 else 4)%nat /\
  length (o_dst o) = (if v6 then 16 else 4)%nat /\ length (o_sport o) = 2%nat /\ length (o_dport o) = 2%nat.

(** The headers of the way back. *)
Definition turned (o : outer) : outer :=
  mk_outer (o_smac o) (o_dmac o) (o_head o) (o_mid o) (o_dst o) (o_src o) (o_dport o) (o_sport o).

(** A GTP-U packet without its payload. *)
Definition frame (v6 : bool) (o : outer) (ip_len udp_len : Z) (cksum ucksum g : list byte) : list byte :=
  ether (o_dmac o) (o_smac o) (if v6 then ETHER_TYPE_IPv6 else ETHER_TYPE_IPv4) ++
  (if v6 then ip6 (o_head o) ip_len (o_mid o) (o_src o) (o_dst o)
   else ip4 (o_head o) ip_len (o_mid o) cksum (o_src o) (o_dst o)) ++
  udp (o_sport o) (o_dport o) udp_len ucksum ++ g.

Definition headers (v6 : bool) : Z := if v6 then 62 else 42.

Lemma turned_ok v6 o : outer_ok v6 o -> outer_ok v6 (turned o).
Proof. unfold outer_ok, turned. cbn. tauto. Qed.

Ltac explode_outer o Ho :=
  let dm := fresh "dm" in let sm := fresh "sm" in let h := fresh "h" in let md := fresh "md" in
  let s := fresh "s" in let d := fresh "d" in let sp := fresh "sp" in let dp := fresh "dp" in
  destruct o as [dm sm h md s d sp dp]; unfold outer_ok in Ho;
  cbn [o_dmac o_smac o_head o_mid o_src o_dst o_sport o_dport] in Ho;
  let H1 := fresh in let H2 := fresh in let H3 := fresh in let H4 := fresh in let H5 := fresh in let H6 :=
    fresh in
  let H7 := fresh in let H8 := fresh in
  destruct Ho as (H1 & H2 & H3 & H4 & H5 & H6 & H7 & H8);
  explode dm H1; explode sm H2; explode h H3; explode md H4; explode s H5; explode d H6; explode sp H7;
    explode dp H8.

Ltac bytes_of_frame e :=
  eval cbv [frame turned ether ip4 ip6 udp gtp app be_bytes reverse rev_append le_bytes
    o_dmac o_smac o_head o_mid o_src o_dst o_sport o_dport] in e.

(** The bytes of the packet that a function is given. *)
Ltac show_header :=
  match goal with |- context [mk_pkt (?hd ++ _) _ _] => let e := bytes_of_frame hd in change hd with e end.
Ltac same_bytes := cbv [frame turned ether ip4 ip6 udp gtp app be_bytes reverse rev_append le_bytes
    o_dmac o_smac o_head o_mid o_src o_dst o_sport o_dport]; reflexivity.

Section Messages.
Context {D : Dpdk}.

(** Runs a function that turns the headers of an exploded packet back, and compares the
    lengths that it computes from [d]. *)
Ltac turn_back d :=
  let result := fresh "result" in
  match goal with |- _ = ?r => set (result := r) end; show_header; head_steps; subst result;
  rewrite ?(wrap_small 16 (d - ETH_HDR_LEN)), ?(wrap_small 16 (d - Z.of_nat 14)) by (unfold ETH_HDR_LEN; lia);
  rewrite (wrap_small 16) by (unfold ETH_HDR_LEN, IPV4_HDR_LEN; lia);
  match goal with |- context [byte_of_Z ?z] =>
    match z with d - _ - _ =>
      first [replace z with (d - 54) by (unfold ETH_HDR_LEN; lia)
            |replace z with (d - 34) by (unfold ETH_HDR_LEN, IPV4_HDR_LEN; lia)]
    | d - (_ + _) => replace z with (d - 54) by (unfold ETH_HDR_LEN; lia) end end;
  same_bytes.

Lemma reset_turns v6 o il ul cksum ucksum g rest d p :
  outer_ok v6 o -> length cksum = 2%nat -> length ucksum = 2%nat -> length g = 8%nat ->
  headers v6 <= d < 2 ^ 16 ->
  reset_req_pkt_as_resp (mk_pkt (frame v6 o il ul cksum ucksum g ++ rest) d p) v6 =
  Some (mk_pkt (frame v6 (turned o) (if v6 then d - 54 else d - 14)
    (if v6 then d - 54 else d - 34) cksum ucksum g ++ rest) d p).
Proof.
  intros Ho Hc Hu Hg Hd. unfold reset_req_pkt_as_resp, swap_mac. cbn [data_len].
  explode cksum Hc. explode ucksum Hu. explode g Hg. unfold headers in Hd.
  destruct v6; explode_outer o Ho; turn_back d.
Qed.

Lemma checksum_set v6 o il ul cksum ucksum g rest d p :
  outer_ok v6 o -> length cksum = 2%nat -> length ucksum = 2%nat -> length g = 8%nat ->
  exists cksum' ucksum', set_checksum (mk_pkt (frame v6 o il ul cksum ucksum g ++ rest) d p) v6 =
    Some (mk_pkt (frame v6 o il ul cksum' ucksum' g ++ rest) d p) /\ length cksum' = 2%nat /\ length ucksum' =
      2%nat.
Proof.
  intros Ho Hc Hu Hg. unfold set_checksum.
  explode cksum Hc. explode ucksum Hu. explode g Hg.
  destruct v6; explode_outer o Ho; show_header; head_steps.
  - eexists [b; b0], [_; _]. split; [f_equal; f_equal; f_equal; same_bytes|done].
  - eexists [_; _], [_; _]. split; [f_equal; f_equal; f_equal; same_bytes|done].
Qed.

(** The two information elements of an error indication. *)
Definition err_ind_ies (teid addr : list byte) : list byte :=
  [byte_of_Z GTPU_TEID_DATA_TYPE] ++ teid ++ [byte_of_Z GTPU_PEER_ADDRESS] ++
  be_bytes 2 (Z.of_nat (length addr)) ++ addr.

Definition err_ind_len (v6 : bool) : Z := if v6 then 24 else 12.

Definition without_seqnb (flags : byte) : byte := byte_of_Z (Z.ldiff (le_val [flags]) GTP_FLAG_SEQNB).

Lemma err_ind_info v6 o il ul cksum ucksum flags type n teid ies rest d p :
  outer_ok v6 o -> length cksum = 2%nat -> length ucksum = 2%nat -> length teid = 4%nat -> length ies = 24%nat
    ->
  0 <= n < 2 ^ 16 -> headers v6 + 8 + n <= p < 2 ^ 15 ->
  exists zeros, set_err_ind_hdr_info (mk_pkt (frame v6 o il ul cksum ucksum
    (gtp flags type n teid) ++ ies ++ rest) d p) v6 =
    Some (mk_pkt (frame v6 o il ul cksum ucksum
        (gtp (without_seqnb flags) (byte_of_Z GTPU_ERROR_INDICATION) (err_ind_len v6) [x00; x00; x00; x00]) ++
      err_ind_ies teid (o_dst o) ++ zeros ++ rest) (p - n + err_ind_len v6) (p - n + err_ind_len v6)).
Proof.
  intros Ho Hc Hu Ht Hr Hn Hp. unfold set_err_ind_hdr_info, headers in *. rewrite app_assoc.
  explode cksum Hc. explode ucksum Hu. explode teid Ht. explode ies Hr.
  destruct v6; explode_outer o Ho; show_header; head_steps;
    (assert (ntohs (le_val [byte_of_Z (n / 256); byte_of_Z n]) = n) as -> by (exact (ntohs_be n Hn)));
    unfold set_data_len, set_pkt_len, err_ind_len; cbn [room data_len pkt_len];
    rewrite !(wrap_small 32), !(wrap_small 16) by (unfold sizeof_teid_data_identifier; lia).
  - exists []. reflexivity.
  - exists (replicate 12 x00). reflexivity.
Qed.

Lemma frame_data v6 o il ul cksum ucksum g payload rest d p :
  outer_ok v6 o -> length cksum = 2%nat -> length ucksum = 2%nat -> length g = 8%nat ->
  d = headers v6 + 8 + Z.of_nat (length payload) ->
  data (mk_pkt (frame v6 o il ul cksum ucksum g ++ payload ++ rest) d p) = frame v6 o il ul cksum ucksum g ++
    payload.
Proof.
  intros (H1 & H2 & H3 & H4 & H5 & H6 & H7 & H8) Hc Hu Hg ->. unfold data. cbn [data_len room].
  rewrite app_assoc. apply take_app_length'. rewrite length_app. unfold frame, ether, ip6, ip4, udp, headers.
  destruct v6; rewrite !length_app, ?length_be_bytes; lia.
Qed.

Lemma ip_version_frame v6 o il ul cksum ucksum g rest d p :
  outer_ok v6 o -> length cksum = 2%nat -> length ucksum = 2%nat -> length g = 8%nat ->
  ip_version (mk_pkt (frame v6 o il ul cksum ucksum g ++ rest) d p) = Some (Some v6).
Proof.
  intros Ho Hc Hu Hg. unfold ip_version. explode cksum Hc. explode ucksum Hu. explode g Hg.
  destruct v6; explode_outer o Ho; show_header; head_steps; vm_compute; done.
Qed.

Lemma length_gtp flags type n teid : length teid = 4%nat -> length (gtp flags type n teid) = 8%nat.
Proof. intros H. unfold gtp. rewrite !length_app, length_be_bytes. cbn. lia. Qed.
Hint Resolve length_gtp : core.

(** C21. A packet whose TEID is unknown is answered with an error indication: it goes back
    to where the packet came from, says which TEID was not known and at which address,
    and the lengths of all headers fit. *)
Theorem error_indication_answers v6 o il ul cksum ucksum flags type n teid payload spare p :
  outer_ok v6 o -> length cksum = 2%nat -> length ucksum = 2%nat -> length teid = 4%nat ->
  n = Z.of_nat (length payload) ->
    (24 <= length payload + length spare)%nat -> p = headers v6 + 8 + n -> p < 2 ^ 15 ->
  exists m cksum' ucksum',
    send_error_indication_pkt (mk_pkt (frame v6 o il ul cksum ucksum
      (gtp flags type n teid) ++ payload ++ spare) p p)
      true true = Some (m, Some m) /\
    data m = frame v6 (turned o) (if v6 then 40 else 48) (if v6 then 40 else 28) cksum' ucksum'
        (gtp (without_seqnb flags) (byte_of_Z GTPU_ERROR_INDICATION) (err_ind_len v6) [x00; x00; x00; x00]) ++
      err_ind_ies teid (o_dst o).
Proof.
  intros Ho Hc Hu Ht Hn Hr -> Hp.
  assert (exists ies rest, payload ++ spare = ies ++ rest /\ length ies = 24%nat) as (ies & rest & -> & Hies).
  { exists (take 24 (payload ++ spare)), (drop 24
    (payload ++ spare)). rewrite take_drop, length_take, length_app.
    split; [done|lia]. }
  unfold headers in Hp. assert (0 <= n < 2 ^ 16) by (destruct v6; lia).
  unfold send_error_indication_pkt. rewrite ip_version_frame by auto. cbn [mbind option_bind].
  assert (headers v6 + 8 + n <= headers v6 + 8 + n < 2 ^ 15) as Hle by (unfold headers; destruct v6; lia).
  destruct (err_ind_info v6 o il ul cksum ucksum flags type n teid ies rest
    (headers v6 + 8 + n) _ Ho Hc Hu Ht Hies H Hle)
    as (zeros & ->). cbn [mbind option_bind].
  replace (headers v6 + 8 + n - n + err_ind_len v6) with (headers v6 + 8 + err_ind_len v6) by lia.
  rewrite reset_turns by (auto || (destruct v6; cbn; lia)). cbn [mbind option_bind].
  edestruct (checksum_set v6 (turned o)) as (ck & uck & -> & Hck & Huck); [by apply turned_ok|auto..|].
  cbn [mbind option_bind andb]. eexists _, ck, uck. split; [done|].
  rewrite frame_data; auto using turned_ok.
  - destruct v6; done.
  - destruct Ho as (_ & _ & _ & _ & _ & Hd & _). unfold err_ind_ies. rewrite !length_app, length_be_bytes, Hd,
    Ht. destruct v6; done.
Qed.


(** *** Echo requests *)

Lemma length_frame v6 o il ul cksum ucksum g :
  outer_ok v6 o -> length cksum = 2%nat -> length ucksum = 2%nat -> length g = 8%nat ->
  length (frame v6 o il ul cksum ucksum g) = (if v6 then 70 else 50)%nat.
Proof.
  intros (H1 & H2 & H3 & H4 & H5 & H6 & H7 & H8) Hc Hu Hg. unfold frame, ether, ip6, ip4, udp.
  destruct v6; rewrite !length_app, ?length_be_bytes; lia.
Qed.

Lemma recovery_written v6 o il ul cksum ucksum flags type n teid payload old post d p :
  outer_ok v6 o -> length cksum = 2%nat -> length ucksum = 2%nat -> length teid = 4%nat -> length old = 2%nat ->
  n = Z.of_nat (length payload) -> n + 2 < 2 ^ 16 ->
  write_recovery (mk_pkt (frame v6 o il ul cksum ucksum
    (gtp flags type n teid) ++ payload ++ old ++ post) d p) v6 =
  Some (0, mk_pkt (frame v6 o il ul cksum ucksum (gtp flags (byte_of_Z GTPU_ECHO_RESPONSE) (n + 2) teid) ++
    payload ++ [x0e; x00] ++ post) d p).
Proof.
  intros Ho Hc Hu Ht Hold Hn Hmax. unfold write_recovery.
  set (h := frame v6 o il ul cksum ucksum _).
  set (h' := frame v6 o il ul cksum ucksum (gtp flags (byte_of_Z GTPU_ECHO_RESPONSE) (n + 2) teid)).
  assert (length h' = length h) as Hlen by (unfold h, h'; rewrite !length_frame by auto; done).
  assert (length h = get_mtogtpu v6 + GTPU_HDR_SIZE)%nat as Hh by (unfold h; rewrite length_frame by auto;
    by destruct v6).
  assert (forall r, load (mk_pkt (h ++ r) d p) (get_mtogtpu v6 + gtpu_msglen) 2 = Some (le_val
    (be_bytes 2 n)) /\
    (m ← store (mk_pkt (h ++ r) d p) (get_mtogtpu v6 + gtpu_msgtype) 1 GTPU_ECHO_RESPONSE;
     store m (get_mtogtpu v6 + gtpu_msglen) 2 (htons (n + 2))) = Some (mk_pkt (h' ++ r) d p)) as Hhead.
  { intros r. unfold h, h'. explode cksum Hc. explode ucksum Hu. explode teid Ht.
    destruct v6; explode_outer o Ho; show_header; split; head_steps; try reflexivity. }
  destruct (Hhead (payload ++ old ++ post)) as [-> Hst]. cbn [mbind option_bind]. rewrite ntohs_be by lia.
  rewrite (wrap_small 16 (n + sizeof_gtpu_recovery_ie)) by (unfold sizeof_gtpu_recovery_ie; lia).
  change (n + sizeof_gtpu_recovery_ie) with (n + 2).
  destruct (store _ _ _ GTPU_ECHO_RESPONSE) as [m|];
    [|discriminate]. cbn [mbind option_bind] in Hst |- *. rewrite Hst.
  cbn [mbind option_bind]. explode old Hold. unfold store.
  change ([b; b0] ++ post) with ([b] ++ [b0] ++ post).
  rewrite poke_behind by (rewrite ?Hlen, ?Hh; done || lia). cbn [mbind option_bind].
  change (le_bytes 1 GTPU_ECHO_RECOVERY) with [x0e]. rewrite (app_assoc payload).
  rewrite poke_behind by (rewrite ?length_app, ?Hlen, ?Hh; cbn; done || lia). cbn [mbind option_bind].
  do 3 f_equal. by rewrite <- app_assoc.
Qed.

Context {HD : DpdkOk D}.

Lemma recovery_v4 o ul cksum ucksum flags type n teid payload pad spare p k :
  outer_ok false o -> length cksum = 2%nat -> length ucksum = 2%nat -> length teid = 4%nat ->
  n = Z.of_nat (length payload) -> p = 50 + n + Z.of_nat (length pad) -> k = Z.max 2 (Z.of_nat (length pad)) ->
  (2 <= length pad + length spare)%nat -> 50 + n + Z.of_nat (length pad + length spare) < 2 ^ 16 ->
  set_recovery (mk_pkt (frame false o (36 + n) ul cksum ucksum
    (gtp flags type n teid) ++ payload ++ pad ++ spare) p p) false =
  Some (0, mk_pkt (frame false o (36 + n) ul cksum ucksum (gtp flags (byte_of_Z GTPU_ECHO_RESPONSE)
    (n + 2) teid) ++
    payload ++ [x0e; x00] ++ drop 2 (pad ++ spare)) (50 + n + k) (50 + n + k)).
Proof.
  intros Ho Hc Hu Ht Hn Hp Hk Hroom Hmax. unfold set_recovery.
  assert (load (mk_pkt (frame false o (36 + n) ul cksum ucksum
    (gtp flags type n teid) ++ payload ++ pad ++ spare) p p)
    (get_mtoip + ipv4_total_length) 2 = Some (le_val (be_bytes 2 (36 + n)))) as ->.
  { explode cksum Hc. explode ucksum Hu. explode teid Ht. explode_outer o Ho. show_header. by head_step;
    head_step. }
  cbn [mbind option_bind pkt_len]. rewrite ntohs_be by lia.
  replace (p - (ETH_HDR_LEN + (36 + n))) with (Z.of_nat (length pad)) by (unfold ETH_HDR_LEN; lia).
  rewrite (wrap_small 16) by lia. unfold sizeof_gtpu_recovery_ie.
  assert (write_recovery (mk_pkt (frame false o (36 + n) ul cksum ucksum
    (gtp flags type n teid) ++ payload ++ pad ++ spare)
      (50 + n + k) (50 + n + k)) false = Some (0, mk_pkt (frame false o (36 + n) ul cksum ucksum
        (gtp flags (byte_of_Z GTPU_ECHO_RESPONSE) (n + 2) teid) ++ payload ++ [x0e;
          x00] ++ drop 2 (pad ++ spare))
      (50 + n + k) (50 + n + k))) as Hw.
  { rewrite <- (take_drop 2 (pad ++ spare)) at 1. apply recovery_written; try done; [|lia].
    rewrite length_take, length_app. lia. }
  case_bool_decide as Hs; cbn [andb]; [|replace p with (50 + n + k) by lia; exact Hw].
  unfold append. rewrite append_fits; cbn [data_len room pkt_len]; [|lia| |..|lia].
  2,3: rewrite !length_app, length_frame by auto; lia.
  cbn [default pkt_len]. replace (p + (2 - Z.of_nat (length pad))) with (50 + n + k) by lia.
  rewrite bool_decide_false; [done|]. unfold ETH_HDR_LEN.
  unfold be_bytes. cbn [le_bytes reverse rev_append le_val]. rewrite !byte_to_of_Z.
  unfold wrap. change (2 ^ 8) with 256. change (2 ^ 16) with 65536 in *.
  pose proof (Z.div_mod (36 + n) 256). pose proof (Z.mod_pos_bound (36 + n) 256).
  rewrite (Z.mod_small ((36 + n) / 256)) by (split; [apply Z.div_pos|apply Z.div_lt_upper_bound]; lia).
  generalize dependent ((36 + n) / 256). generalize dependent ((36 + n) mod 256). intros z Hz z0 Hz0.
  cbn [pkt_len id]. change (2 ^ 32) with 4294967296. intros Hlt.
  destruct (decide (z <= z0)).
  - rewrite Z.mod_small in Hlt by lia. lia.
  - rewrite <- (Z.mod_add _ 1), Z.mod_small in Hlt by lia. lia.
Qed.

Lemma echo_v4_answered o ul cksum ucksum flags type n teid payload pad spare p k :
  outer_ok false o -> length cksum = 2%nat -> length ucksum = 2%nat -> length teid = 4%nat ->
  n = Z.of_nat (length payload) -> p = 50 + n + Z.of_nat (length pad) -> k = Z.max 2 (Z.of_nat (length pad)) ->
  (2 <= length pad + length spare)%nat -> 50 + n + Z.of_nat (length pad + length spare) < 2 ^ 16 ->
  exists m cksum' ucksum',
    process_echo_request (mk_pkt (frame false o (36 + n) ul cksum ucksum
      (gtp flags type n teid) ++ payload ++ pad ++ spare)
      p p) false = Some m /\
    data m = frame false (turned o) (36 + n + k) (16 + n + k) cksum' ucksum'
      (gtp flags (byte_of_Z GTPU_ECHO_RESPONSE) (n + 2) teid) ++ payload ++ [x0e; x00] ++ drop 2 pad.
Proof.
  intros Ho Hc Hu Ht Hn Hp Hk Hroom Hmax. unfold process_echo_request.
  rewrite (recovery_v4 o ul cksum ucksum flags type n teid payload pad spare p k) by done. cbn [mbind
    option_bind fst snd].
  rewrite bool_decide_false by lia. rewrite reset_turns by (auto || (cbn; lia)). cbn [mbind option_bind].
  edestruct (checksum_set false (turned o)) as (ck & uck & -> & Hck & Huck); [by apply turned_ok|auto..|].
  eexists _, ck, uck. split; [done|].
  assert (drop 2 (pad ++ spare) = drop 2 pad ++ drop (2 - length pad) spare) as -> by apply drop_app.
  rewrite (app_assoc [x0e; x00]), (app_assoc payload). rewrite frame_data; auto using turned_ok.
  - replace (50 + n + k - 14) with (36 + n + k) by lia. by replace (50 + n + k - 34) with (16 + n + k) by lia.
  - rewrite !length_app, length_drop. cbn [length headers]. lia.
Qed.

(** The length of a short IPv6 packet as [set_recovery] computes it: 40 is added to the
    other byte. *)
Lemma added_in_wrong_order z : 0 <= z < 256 -> ntohs (u16 (le_val
  (be_bytes 2 z) + Z.of_nat IPv6_HDR_SIZE)) = 10240 + z.
Proof.
  intros Hz.
  assert (forallb (fun k =>
    ntohs (u16 (le_val (be_bytes 2 (Z.of_nat k)) + Z.of_nat IPv6_HDR_SIZE)) =? 10240 + Z.of_nat k)
    (seq 0 256) = true) as H by (vm_compute; reflexivity).
  rewrite forallb_forall in H. specialize (H
    (Z.to_nat z)). rewrite Z2Nat.id in H by lia. apply Z.eqb_eq, H, in_seq. lia.
Qed.

(** The message length covers a recovery IE that is not in the packet. *)
Lemma echo_v6_truncated o ul cksum ucksum flags type n teid payload spare p :
  outer_ok true o -> length cksum = 2%nat -> length ucksum = 2%nat -> length teid = 4%nat ->
  n = Z.of_nat (length payload) -> n < 240 -> p = 70 + n -> (2 <= length spare)%nat ->
  exists m ucksum',
    process_echo_request (mk_pkt (frame true o (16 + n) ul cksum ucksum
      (gtp flags type n teid) ++ payload ++ spare)
      p p) true = Some m /\
    data m = frame true (turned o) (16 + n) (16 + n) cksum ucksum'
      (gtp flags (byte_of_Z GTPU_ECHO_RESPONSE) (n + 2) teid) ++ payload.
Proof.
  intros Ho Hc Hu Ht Hn Hlt Hp Hroom. unfold process_echo_request, set_recovery.
  assert (load (mk_pkt (frame true o (16 + n) ul cksum ucksum (gtp flags type n teid) ++ payload ++ spare) p p)
    (get_mtoip + ipv6_payload_len) 2 = Some (le_val (be_bytes 2 (16 + n)))) as ->.
  { explode cksum Hc. explode ucksum Hu. explode teid Ht. explode_outer o Ho. show_header. by head_step;
    head_step. }
  cbn [mbind option_bind pkt_len]. rewrite added_in_wrong_order by lia.
  replace (p - (ETH_HDR_LEN + (10240 + (16 + n)))) with (-10200) by (unfold ETH_HDR_LEN; lia).
  rewrite (bool_decide_false (u16 (-10200) < _)) by (vm_compute; congruence). cbn [andb].
  rewrite <- (take_drop 2 spare), recovery_written; try done; [|rewrite length_take; lia|lia].
  cbn [mbind option_bind fst snd]. rewrite bool_decide_false by lia.
  rewrite reset_turns by (auto || (cbn; lia)). cbn [mbind option_bind].
  edestruct (checksum_set true (turned o)) as (ck & uck & -> & Hck & Huck); [by apply turned_ok|auto..|].
  eexists _, uck. split; [done|]. rewrite frame_data; auto using turned_ok; [|cbn; lia].
  replace (p - 54) with (16 + n) by lia. done.
Qed.

(** *** The messages that are built *)

(** The headers of a message to a peer. *)
Definition message_outer (v6 : bool) (entry : peerData) : outer :=
  let head := if v6 then [x60; x00; x00; x00] else [x45; x00] in
  let mid := if v6 then [x11; x00] else [x13; x15; x00; x00; x40; x11] in
  let addr (a : node_address_t) := if v6 then ipv6_addr a else le_bytes 4 (ipv4_addr a) in
  mk_outer (dst_eth_addr entry) (src_eth_addr entry) head mid (addr (srcIP entry)) (addr (dstIP entry)) [x08;
    x68] [x08; x68].

Definition entry_ok (v6 : bool) (entry : peerData) : Prop :=
  length (dst_eth_addr entry) = 6%nat /\ length (src_eth_addr entry) = 6%nat /\
  (v6 = true -> length (ipv6_addr (srcIP entry)) = 16%nat /\ length (ipv6_addr (dstIP entry)) = 16%nat).

Definition message_len (v6 : bool) : Z := if v6 then 74 else 54.

Lemma message_outer_ok v6 entry : entry_ok v6 entry -> outer_ok v6 (message_outer v6 entry).
Proof. intros (H1 & H2 & H3). destruct v6; [destruct (H3 eq_refl)|]; repeat split; try done. Qed.

(** The headers around a GTP-U header that has been written. *)
Lemma headers_built v6 entry old g rest d :
  entry_ok v6 entry -> length old = Z.to_nat (headers v6) -> length g = 8%nat -> d = message_len v6 ->
  exists cksum ucksum,
    create_headers (mk_pkt ((old ++ g) ++ rest) d d) entry v6 =
    Some (mk_pkt (frame v6 (message_outer v6 entry) (if v6 then 20 else 40) 20 cksum ucksum g ++ rest) d d) /\
    length cksum = 2%nat /\ length ucksum = 2%nat.
Proof.
  intros (H1 & H2 & H3) Ho Hg ->. unfold create_headers, create_udp_hdr, create_ip_hdr,
    create_ether_hdr, set_checksum. destruct entry as [s dd se de]. cbn [dst_eth_addr src_eth_addr srcIP dstIP]
      in *.
  destruct v6; [change (Z.to_nat (headers true)) with 62%nat in Ho|change (Z.to_nat
    (headers false)) with 42%nat in Ho]; explode old Ho; explode g Hg; explode se H2; explode de H1.
  - destruct (H3 eq_refl) as [H4 H5]. destruct s as [? ? s], dd as [? ? dd]. cbn [ipv6_addr] in *.
    explode s H4. explode dd H5. head_steps. exists [x00; x00]. eexists [_; _]. split; [reflexivity|done].
  - head_steps. eexists [_; _], [_; _]. split; [reflexivity|done].
Qed.

(** The GTP-U header with a sequence number [seq], and two bytes of the buffer. *)
Lemma gtpu_header_built v6 old g t rest seq type d :
  length old = Z.to_nat (headers v6) -> length g = 8%nat -> length t = 4%nat -> d = message_len v6 ->
  encap_gtpu_hdr (mk_pkt (old ++ g ++ t ++ rest) d d) seq type v6 =
  Some (mk_pkt ((old ++ gtp x32 (byte_of_Z type) 4 [x00; x00; x00;
    x00]) ++ (be_bytes 2 seq ++ drop 2 t) ++ rest) d d).
Proof.
  intros Ho Hg Ht ->. unfold encap_gtpu_hdr. rewrite (app_assoc g), (app_assoc old).
  match goal with |- _ = ?r => set (result := r) end.
  destruct v6; [change (Z.to_nat (headers true)) with 62%nat in Ho|change (Z.to_nat
    (headers false)) with 42%nat in Ho];
    explode old Ho; explode g Hg; explode t Ht; head_steps; reflexivity.
Qed.

Lemma set_message_len_eq m v6 : set_message_len m v6 = mk_pkt (room m) (message_len v6) (message_len v6).
Proof. by destruct v6. Qed.

(** A buffer with room for the message: the part of the headers, of the GTP-U header, of
    the sequence number and the two bytes behind it, and the rest. *)
Lemma buffer_parts v6 (b : list byte) : (Z.to_nat (message_len v6) <= length b)%nat ->
  exists old g t rest, b = old ++ g ++ t ++ rest /\ length old = Z.to_nat (headers v6) /\ length g = 8%nat /\
    length t = 4%nat /\ length rest = (length b - Z.to_nat (message_len v6))%nat.
Proof.
  intros H. set (k := Z.to_nat (headers v6)).
  assert (Z.to_nat (message_len v6) = k + 12)%nat as E by (unfold k; by destruct v6).
  exists (take k b), (take 8 (drop k b)), (take 4 (drop (k + 8) b)), (drop (k + 12) b).
  rewrite E in *. rewrite !length_take, !length_drop. repeat split; try lia.
  rewrite <- (take_drop k b) at 1. f_equal. rewrite <- (take_drop 8
    (drop k b)) at 1. rewrite drop_drop. f_equal.
  rewrite <- (take_drop 4 (drop (k + 8) b)) at 1. rewrite drop_drop. do 2 f_equal. lia.
Qed.

Lemma echo_request_built v6 b d p entry seq :
  entry_ok v6 entry -> is_v6 (dstIP entry) = v6 -> (Z.to_nat (message_len v6) <= length b)%nat ->
  exists cksum ucksum t rest, length cksum = 2%nat /\ length ucksum = 2%nat /\ length t = 2%nat /\
    length rest = (length b - Z.to_nat (message_len v6))%nat /\
    build_echo_request (mk_pkt b d p) entry seq =
    Some (mk_pkt (frame v6 (message_outer v6 entry) (if v6 then 20 else 40) 20 cksum ucksum
        (gtp x32 (byte_of_Z GTPU_ECHO_REQUEST) 4 [x00; x00; x00; x00]) ++ (be_bytes 2 seq ++ t) ++ rest)
      (message_len v6) (message_len v6)).
Proof.
  intros He Hv Hb. destruct (buffer_parts v6 b Hb) as (old & g & t & rest & -> & Ho & Hg & Ht & Hr).
  unfold build_echo_request. rewrite Hv, set_message_len_eq. cbn [room].
  rewrite gtpu_header_built by done. cbn [mbind option_bind].
  edestruct (headers_built v6 entry old) as (ck & uck & E & Hck & Huck); [exact He|exact Ho| |reflexivity|];
    [|eexists ck, uck, (drop 2 t), rest; rewrite E; repeat split; try done].
  - done.
  - rewrite length_drop. lia.
Qed.

(** C15. Two gateways: the echo request that one sends over IPv4 is answered by the other,
    and the response goes back to it, with the sequence number of the request, a recovery
    IE, and lengths that fit. *)
Theorem echo_request_is_answered b d p entry seq spare :
  entry_ok false entry -> is_v6 (dstIP entry) = false -> (54 <= length b)%nat ->
  (2 <= length spare)%nat -> (length spare < 1000)%nat ->
  exists request response t cksum ucksum,
    build_echo_request (mk_pkt b d p) entry seq = Some request /\
    process_echo_request (mk_pkt (data request ++ spare) (data_len request)
      (pkt_len request)) false = Some response /\
    length t = 2%nat /\
    data response = frame false (turned (message_outer false entry)) 42 22 cksum ucksum
      (gtp x32 (byte_of_Z GTPU_ECHO_RESPONSE) 6 [x00; x00; x00; x00]) ++ (be_bytes 2 seq ++ t) ++ [x0e; x00].
Proof.
  intros He Hv Hb Hs Hmax. destruct (echo_request_built false b d p entry seq He Hv Hb)
    as (ck & uck & t & rest & Hck & Huck & Ht & Hr & ->).
  pose proof (message_outer_ok _ _ He) as Ho.
  assert (length (be_bytes 2 seq ++ t) = 4%nat) as Hp by (rewrite length_app, length_be_bytes; lia).
  destruct (echo_v4_answered (message_outer false entry) 20 ck uck x32 (byte_of_Z GTPU_ECHO_REQUEST) 4
    [x00; x00; x00; x00] (be_bytes 2 seq ++ t) [] spare 54 2) as (m & ck' & uck' & E & Ed);
    rewrite ?Hp; cbn [length]; try done; try lia.
  eexists _, m, t, ck', uck'. split; [done|]. rewrite frame_data by (done || (rewrite Hp; done)).
  cbn [data_len pkt_len]. rewrite <- app_assoc. split; [exact E|]. split; [done|].
  rewrite Ed. done.
Qed.

(** Over IPv6 the same exchange fails: the response announces six bytes, but the two
    of the recovery IE lie behind the end of the packet, since the length of the request is
    computed in the wrong byte order. *)
Theorem ipv6_echo_response_truncated b d p entry seq spare :
  entry_ok true entry -> is_v6 (dstIP entry) = true -> (74 <= length b)%nat -> (2 <= length spare)%nat ->
  exists request response t cksum ucksum,
    build_echo_request (mk_pkt b d p) entry seq = Some request /\
    process_echo_request (mk_pkt (data request ++ spare) (data_len request)
      (pkt_len request)) true = Some response /\
    length t = 2%nat /\
    data response = frame true (turned (message_outer true entry)) 20 20 cksum ucksum
      (gtp x32 (byte_of_Z GTPU_ECHO_RESPONSE) 6 [x00; x00; x00; x00]) ++ be_bytes 2 seq ++ t.
Proof.
  intros He Hv Hb Hs. destruct (echo_request_built true b d p entry seq He Hv Hb)
    as (ck & uck & t & rest & Hck & Huck & Ht & Hr & ->).
  pose proof (message_outer_ok _ _ He) as Ho.
  assert (length (be_bytes 2 seq ++ t) = 4%nat) as Hp by (rewrite length_app, length_be_bytes; lia).
  destruct (echo_v6_truncated (message_outer true entry) 20 ck uck x32 (byte_of_Z GTPU_ECHO_REQUEST) 4
    [x00; x00; x00; x00] (be_bytes 2 seq ++ t) spare 74) as (m & uck' & E & Ed);
    rewrite ?Hp; cbn [length]; try done; try lia.
  eexists _, m, t, ck, uck'. split; [done|]. rewrite frame_data by (done || (rewrite Hp; done)).
  cbn [data_len pkt_len]. rewrite <- app_assoc. split; [exact E|]. split; [done|]. rewrite Ed. done.
Qed.

(** *** End markers *)

Lemma endmark_header_built v6 old g t rest teid seq d :
  length old = Z.to_nat (headers v6) -> length g = 8%nat -> length t = 4%nat -> d = message_len v6 ->
  endmark_gtpu_hdr (mk_pkt (old ++ g ++ t ++ rest) d d) teid seq v6 =
  Some (mk_pkt ((old ++ gtp x32 xfe 4 (be_bytes 4 teid)) ++ (be_bytes 2 seq ++ drop 2 t) ++ rest) d d).
Proof.
  intros Ho Hg Ht ->. unfold endmark_gtpu_hdr. rewrite (app_assoc g), (app_assoc old).
  match goal with |- _ = ?r => set (result := r) end.
  destruct v6; [change (Z.to_nat (headers true)) with 62%nat in Ho|change (Z.to_nat
    (headers false)) with 42%nat in Ho];
    explode old Ho; explode g Hg; explode t Ht; head_steps; reflexivity.
Qed.

(** The end marker for a TEID goes to the address of the base station, with the TEID
    in network order and the next sequence number; a type of address other than IPv4 and
    IPv6 writes through a null pointer. *)
Theorem end_marker_sent edmk b d p room_left seq :
  let v6 := is_v6 (dst_ip edmk) in
  let entry := mk_peerData (src_ip edmk) (dst_ip edmk) (source_MAC edmk) (destination_MAC edmk) in
  entry_ok v6 entry -> (Z.to_nat (message_len v6) <= length b)%nat ->
  match build_endmarker_and_send edmk (Some (mk_pkt b d p)) room_left seq with
  | Some (sent, seq') =>
      seq' = seq +[16] 1 /\ (ip_type (dst_ip edmk) = IPV4_TYPE \/ ip_type (dst_ip edmk) = IPV6_TYPE) /\
      exists m t cksum ucksum, sent = (if room_left then Some m else None) /\ length t = 2%nat /\
        data m = frame v6 (message_outer v6 entry) (if v6 then 20 else 40) 20 cksum ucksum
          (gtp x32 xfe 4 (be_bytes 4 (em_teid edmk))) ++ be_bytes 2 seq' ++ t
  | None => ip_type (dst_ip edmk) <> IPV4_TYPE /\ ip_type (dst_ip edmk) <> IPV6_TYPE
  end.
Proof.
  intros v6 entry He Hb. unfold build_endmarker_and_send. cbn [mbind option_bind].
  destruct (bool_decide _ || _) eqn:Et.
  2:{ apply orb_false_iff in Et as [E1 E2]. by apply bool_decide_eq_false in E1, E2. }
  assert (ip_type (dst_ip edmk) = IPV4_TYPE \/ ip_type (dst_ip edmk) = IPV6_TYPE) as Htype.
  { apply orb_true_iff in Et as [E|E]; apply bool_decide_eq_true in E; auto. }
  fold v6 entry. destruct (buffer_parts v6 b Hb) as (old & g & t & rest & -> & Ho & Hg & Ht & Hr).
  rewrite set_message_len_eq. cbn [room]. rewrite endmark_header_built by done. cbn [mbind option_bind].
  destruct (headers_built v6 entry old (gtp x32 xfe 4 (be_bytes 4 (em_teid edmk)))
    ((be_bytes 2 (seq +[16] 1) ++ drop 2 t) ++ rest) _ He Ho eq_refl eq_refl) as (ck & uck & -> & Hck & Huck).
  cbn [mbind option_bind]. split; [done|]. split; [done|]. eexists _, (drop 2 t), ck, uck. split; [done|].
  split; [rewrite length_drop; lia|]. apply frame_data; auto using message_outer_ok.
  rewrite length_app, length_be_bytes, length_drop, Ht. by destruct v6.
Qed.

(** *** Router advertisements *)

(** The advertisement of a prefix. *)
Definition advertisement (cksum : list byte) (hop_limit pfx_bits : Z) (prefix : list byte) : list byte :=
  [x86; x00] ++ cksum ++ [byte_of_Z hop_limit; x00; xff; xff] ++ replicate 8 x00 ++
  [x03; x04; byte_of_Z pfx_bits; x00] ++ replicate 8 xff ++ replicate 4 x00 ++ prefix.

(** The bytes of a user's IPv6 header and 48 bytes behind it, of which the first are the
    solicitation; [len] is the length in the header. *)
Definition user_packet (head : list byte) (len : Z) (mid src dst body : list byte) : list byte :=
  ip6 head len mid src dst ++ body.

Definition user_ok (head mid src dst body : list byte) : Prop :=
  length head = 4%nat /\ length mid = 2%nat /\ length src = 16%nat /\ length dst = 16%nat /\ length body =
    48%nat.

Ltac show_user_packet :=
  match goal with |- context [mk_pkt (?hd ++ _) _ _] =>
    let e := (eval cbv [frame turned ether ip4 ip6 udp gtp user_packet advertisement app be_bytes reverse
      rev_append
      le_bytes replicate o_dmac o_smac o_head o_mid o_src o_dst o_sport o_dport] in hd) in change hd with e end.

Lemma ra_written v6 o il ul cksum ucksum flags n teid head mid src dst body len rest t d p :
  outer_ok v6 o -> length cksum = 2%nat -> length ucksum = 2%nat -> length teid = 4%nat -> user_ok head mid src
    dst body ->
  load (mk_pkt ((frame v6 o il ul cksum ucksum
    (gtp flags xff n teid) ++ user_packet head len mid src dst body) ++ rest) d p)
    (get_mtogtpu v6 + GTPU_HDR_SIZE + ipv6_payload_len) 2 = Some (le_val (be_bytes 2 len)) /\
  write_ra (mk_pkt ((frame v6 o il ul cksum ucksum
    (gtp flags xff n teid) ++ user_packet head len mid src dst body) ++ rest) d p) t v6 =
  Some (mk_pkt ((frame v6 o il ul cksum ucksum (gtp flags xff 88 (le_bytes 4 t)) ++
    user_packet head 48 mid src src (advertisement [x00; x00] 64 0 (replicate 16 x00))) ++ rest) d p).
Proof.
  intros Ho Hc Hu Ht (H1 & H2 & H3 & H4 & H5). unfold write_ra.
  explode cksum Hc. explode ucksum Hu. explode teid Ht. explode head H1. explode mid H2. explode src H3.
    explode dst H4.
  explode body H5. destruct v6; explode_outer o Ho; split; show_user_packet; head_steps; reflexivity.
Qed.

Lemma length_user_packet head len mid src dst body : user_ok head mid src dst body ->
  length (user_packet head len mid src dst body) = 88%nat.
Proof. intros (H1 & H2 & H3 & H4 & H5). unfold user_packet, ip6. rewrite !length_app, length_be_bytes. lia. Qed.

Lemma ra_set v6 o il ul cksum ucksum flags n teid head mid src dst body len rest t p :
  outer_ok v6 o -> length cksum = 2%nat -> length ucksum = 2%nat -> length teid = 4%nat ->
  user_ok head mid src dst body -> 0 <= len <= 48 -> p = headers v6 + 48 + len -> (length rest < 1000)%nat ->
  set_ipv6_ra (mk_pkt ((frame v6 o il ul cksum ucksum
    (gtp flags xff n teid) ++ user_packet head len mid src dst body) ++ rest) p p) t =
  Some (0, mk_pkt ((frame v6 o il ul cksum ucksum (gtp flags xff 88 (le_bytes 4 t)) ++
    user_packet head 48 mid src src (advertisement [x00;
      x00] 64 0 (replicate 16 x00))) ++ rest) (headers v6 + 96) (headers v6 + 96)).
Proof.
  intros Ho Hc Hu Ht Hok Hlen Hp Hmax. unfold set_ipv6_ra. rewrite <- app_assoc at 1.
  rewrite ip_version_frame by auto. cbn [mbind option_bind]. 
  destruct (ra_written v6 o il ul cksum ucksum flags n teid head mid src dst body len rest t p p Ho Hc Hu Ht
    Hok) as [-> _].
  cbn [mbind option_bind]. rewrite ntohs_be by lia. change (Z.of_nat sizeof_icmp6_hdr_ra) with 48.
  rewrite (wrap_small 16 (48 - len)) by lia. unfold append. rewrite append_fits; cbn [data_len room pkt_len].
  2: { unfold headers in Hp. destruct v6; lia. }
  2,3: rewrite ?length_app, ?length_frame, ?length_user_packet by auto; unfold headers in Hp; destruct v6; lia.
  2: lia.
  cbn [default id pkt_len]. replace (p + (48 - len)) with (headers v6 + 96) by lia.
  rewrite bool_decide_false.
  2:{ unfold ip_hdr_len, headers, IPv6_HDR_SIZE, UDP_HDR_SIZE, GTPU_HDR_SIZE, IPV4_HDR_LEN, ETH_HDR_LEN.
    destruct v6; vm_compute; congruence. }
  destruct (ra_written v6 o il ul cksum ucksum flags n teid head mid src dst body len rest t
    (headers v6 + 96) (headers v6 + 96) Ho Hc Hu Ht Hok) as [_ ->]. done.
Qed.

(** The prefix in whole bytes. *)
Lemma prefix_retrieved addr bits : length addr = 16%nat -> 0 <= bits <= 128 ->
  exists prefix, retrieve_ipv6_prefix addr bits = Some prefix /\ length prefix = 16%nat /\
    prefix = take (Z.to_nat (bits / 8)) addr ++ replicate (16 - Z.to_nat (bits / 8)) x00.
Proof.
  intros Ha Hb. unfold retrieve_ipv6_prefix. assert (0 <= bits / 8 <= 16) as H.
  { split; [apply Z.div_pos; lia|apply Z.div_le_upper_bound; lia]. }
  rewrite bool_decide_true by lia. eexists. split; [done|]. split; [|done].
  rewrite length_app, length_take, length_replicate. lia.
Qed.

Lemma ra_reset_turns v6 o il ul cksum ucksum g rest d p :
  outer_ok v6 o -> length cksum = 2%nat -> length ucksum = 2%nat -> length g = 8%nat ->
  headers v6 <= d < 2 ^ 16 ->
  ra_reset_req_pkt_as_resp (mk_pkt (frame v6 o il ul cksum ucksum g ++ rest) d p) =
  Some (mk_pkt (frame v6 (turned o) (if v6 then d - 54 else d - 14)
    (if v6 then d - 54 else d - 34) cksum ucksum g ++ rest) d p).
Proof.
  intros Ho Hc Hu Hg Hd. unfold ra_reset_req_pkt_as_resp.
  set (o' := mk_outer (o_smac o) (o_dmac o) (o_head o) (o_mid o) (o_src o) (o_dst o) (o_sport o) (o_dport o)).
  assert (outer_ok v6 o') as Ho' by (unfold outer_ok in *; cbn; tauto).
  assert (swap_mac (mk_pkt (frame v6 o il ul cksum ucksum g ++ rest) d p) =
    Some (mk_pkt (frame v6 o' il ul cksum ucksum g ++ rest) d p)) as ->.
  { subst o'. explode cksum Hc. explode ucksum Hu. explode g Hg. unfold swap_mac.
    destruct v6; explode_outer o Ho; match goal with |- _ = ?r => set (result := r) end; show_header;
      head_steps; reflexivity. }
  cbn [mbind option_bind]. rewrite ip_version_frame by done. cbn [mbind option_bind data_len].
  subst o'. explode cksum Hc. explode ucksum Hu. explode g Hg. unfold headers in Hd.
  destruct v6; explode_outer o Ho; turn_back d.
Qed.

Lemma advertisement_filled v6 o il ul cksum ucksum g head mid src dst rest own ue bits d p :
  outer_ok v6 o -> length cksum = 2%nat -> length ucksum = 2%nat -> length g = 8%nat ->
  length head = 4%nat -> length mid = 2%nat -> length src = 16%nat -> length dst = 16%nat ->
  length own = 16%nat -> length ue = 16%nat -> 0 <= bits <= 128 ->
  exists icmp_cksum, length icmp_cksum = 2%nat /\
  fill_advertisement (mk_pkt ((frame v6 o il ul cksum ucksum g ++
      user_packet head 48 mid src dst (advertisement [x00;
        x00] 64 0 (replicate 16 x00))) ++ rest) d p) v6 own ue bits =
  Some (mk_pkt ((frame v6 o il ul cksum ucksum g ++ user_packet head 48 mid own dst
      (advertisement icmp_cksum bits bits (take (Z.to_nat (bits / 8)) ue ++ replicate (16 - Z.to_nat
        (bits / 8)) x00))) ++ rest) d p).
Proof.
  intros Ho Hc Hu Hg H1 H2 H3 H4 Hown Hue Hb. unfold fill_advertisement.
  destruct (prefix_retrieved ue bits Hue Hb) as (prefix & -> & Hp & <-).
  explode cksum Hc. explode ucksum Hu. explode g Hg. explode head H1. explode mid H2. explode src H3. explode
    dst H4.
  explode own Hown. explode prefix Hp.
  destruct v6; explode_outer o Ho; show_user_packet; head_steps; eexists [_; _]; (split; [done|]); reflexivity.
Qed.

(** C22. A router solicitation of a user is answered in its tunnel: the advertisement goes
    back to where the packet came from, under the TEID of the base station, to the address
    that the user asked from, with the prefix of the user cut to whole bytes; the field of
    the hop limit holds the prefix length. *)
Theorem router_solicitation_answered v6 o il ul cksum ucksum flags n teid head mid src dst body len rest t own
  ue bits p :
  outer_ok v6 o -> length cksum = 2%nat -> length ucksum = 2%nat -> length teid = 4%nat ->
  user_ok head mid src dst body -> 0 <= len <= 48 -> p = headers v6 + 48 + len -> (length rest < 1000)%nat ->
  length own = 16%nat -> length ue = 16%nat -> 0 <= bits <= 128 ->
  exists m cksum' ucksum' icmp_cksum,
    router_advertisement (mk_pkt ((frame v6 o il ul cksum ucksum (gtp flags xff n teid) ++
      user_packet head len mid src dst body) ++ rest) p p) v6 (ntohl t) own ue bits = Some m /\
    data m = frame v6 (turned o) (if v6 then 104 else 124) 104 cksum' ucksum' (gtp flags xff 88
      (be_bytes 4 t)) ++
      user_packet head 48 mid own src (advertisement icmp_cksum bits bits
        (take (Z.to_nat (bits / 8)) ue ++ replicate (16 - Z.to_nat (bits / 8)) x00)) /\
    length icmp_cksum = 2%nat.
Proof.
  intros Ho Hc Hu Ht Hok Hlen Hp Hmax Hown Hue Hb.
  unfold router_advertisement, process_router_solicitation_request. rewrite ra_set by done.
  cbn [mbind option_bind fst snd]. rewrite bool_decide_false by lia.
  rewrite <- app_assoc. rewrite ra_reset_turns by (auto using length_le_bytes || (unfold headers; destruct v6;
    lia)).
  cbn [mbind option_bind]. rewrite app_assoc. destruct Hok as (H1 & H2 & H3 & H4 & H5).
  edestruct (advertisement_filled v6 (turned o)) as (ick & Hick & ->);
    [by apply turned_ok|done|done|apply length_gtp, length_le_bytes|done..|]. cbn [mbind option_bind].
  unfold ra_set_checksum. rewrite <- app_assoc.
  rewrite ip_version_frame by (auto using length_le_bytes, turned_ok). cbn [mbind option_bind].
  edestruct (checksum_set v6 (turned o)) as (ck & uck & -> & Hck & Huck);
    [by apply turned_ok|done|done|apply length_gtp, length_le_bytes|].
  eexists _, ck, uck, ick. split; [done|]. split; [|done]. rewrite le_bytes_bswap32.
  rewrite frame_data; auto using turned_ok, length_be_bytes; [by destruct v6|].
  destruct (prefix_retrieved ue bits Hue Hb) as (prefix & _ & Hpl & <-). rewrite length_user_packet;
    [by destruct v6|].
  repeat split; try done. unfold advertisement. rewrite !length_app, !length_replicate. cbn [length]. lia.
Qed.
End Messages.

(** ** Packets *)

#[local] Instance simple_dpdk : Dpdk := {|
  rte_pktmbuf_append := fun m n =>
    if bool_decide (data_len m + n <= Z.of_nat (length (room m))) then Some (mk_pkt (room m) (data_len m + n)
      (pkt_len m + n))
    else None;
  ipv4_cksum := fun _ => 0; ipv4_udptcp_cksum := fun _ => 0; ipv6_udptcp_cksum := fun _ => 0;
    raw_cksum := fun _ => 0;
  ipv6_phdr_cksum := fun _ => 0
|}.

#[local] Instance simple_dpdk_ok : DpdkOk simple_dpdk.
Proof.
  split; intros; cbn [rte_pktmbuf_append simple_dpdk];
    [by rewrite bool_decide_true by lia|by rewrite bool_decide_false by lia].
Qed.

(** Two gateways. *)
Definition sample_mac (x : byte) : list byte := replicate 5 x00 ++ [x].
Definition sample_address (type : Z) (x : byte) : node_address_t :=
  mk_node_address type (if bool_decide (type = 1) then 0x0a000000 + byte_to_Z x else 0)
    (replicate 15 x00 ++ [x]).
Definition sample_peer (type : Z) : peerData :=
  mk_peerData (sample_address type x01) (sample_address type x02) (sample_mac x0a) (sample_mac x0b).
Definition sample_buffer : list byte := replicate 128 xcc.
Definition sample_outer (v6 : bool) : outer := message_outer v6 (sample_peer (if v6 then 2 else 1)).

Ltac shape :=
  lazymatch goal with
  | |- _ /\ _ => split; shape
  | |- _ -> _ => intros _; shape
  | |- (_ <= _)%nat => apply Nat.leb_le; vm_compute; reflexivity
  | |- (_ < _)%nat => apply Nat.ltb_lt; vm_compute; reflexivity
  | |- _ <= _ => apply Z.leb_le; vm_compute; reflexivity
  | |- _ < _ => apply Z.ltb_lt; vm_compute; reflexivity
  | |- _ => vm_compute; reflexivity
  end.

Lemma sample_entry_ok v6 : entry_ok v6 (sample_peer (if v6 then 2 else 1)).
Proof. unfold entry_ok. destruct v6; shape. Qed.

Lemma sample_outer_ok v6 : outer_ok v6 (sample_outer v6).
Proof. apply message_outer_ok, sample_entry_ok. Qed.

Example echo_request_is_answered_witness : exists request response,
  build_echo_request (mk_pkt sample_buffer 0 0) (sample_peer 1) 7 = Some request /\
  process_echo_request (mk_pkt (data request ++ [xee; xee;
    xee]) (data_len request) (pkt_len request)) false = Some response /\
  drop 42 (data response) = [x32; x02; x00; x06; x00; x00; x00; x00; x00; x07; xcc; xcc; x0e; x00].
Proof.
  destruct (echo_request_is_answered sample_buffer 0 0 (sample_peer 1) 7 [xee; xee;
    xee]) as (request & response & _ & _ & _ & E1 & E2 & _);
    [exact (sample_entry_ok false)|shape..|].
  exists request, response. split; [exact E1|]. split; [exact E2|].
  vm_compute in E1. injection E1 as <-. vm_compute in E2. injection E2 as <-. reflexivity.
Defined.

Example ipv6_echo_response_truncated_witness : exists request response,
  build_echo_request (mk_pkt sample_buffer 0 0) (sample_peer 2) 7 = Some request /\
  process_echo_request (mk_pkt (data request ++ [xee; xee;
    xee]) (data_len request) (pkt_len request)) true = Some response /\
  drop 62 (data response) = [x32; x02; x00; x06; x00; x00; x00; x00; x00; x07; xcc; xcc].
Proof.
  destruct (ipv6_echo_response_truncated sample_buffer 0 0 (sample_peer 2) 7 [xee; xee;
    xee]) as (request & response & _ & _ & _ & E1 & E2 & _);
    [exact (sample_entry_ok true)|shape..|].
  exists request, response. split; [exact E1|]. split; [exact E2|].
  vm_compute in E1. injection E1 as <-. vm_compute in E2. injection E2 as <-. reflexivity.
Defined.

Example error_indication_answers_witness : exists m,
  send_error_indication_pkt (mk_pkt (frame false (sample_outer false) 40 20 [x00; x00] [x00; x00]
    (gtp x30 xff 4 [x00; x00; x12; x34]) ++ [x45; x00; x00;
      x00] ++ replicate 30 xcc) 54 54) true true = Some (m, Some m) /\
  drop 42 (data m) = [x30; x1a; x00; x0c; x00; x00; x00; x00; x10; x00; x00; x12; x34; x85; x00; x04; x02; x00;
    x00; x0a].
Proof.
  destruct (error_indication_answers false (sample_outer false) 40 20 [x00; x00] [x00; x00] x30 xff 4 [x00;
    x00; x12; x34]
    [x45; x00; x00; x00] (replicate 30 xcc) 54) as (m & _ & _ & E & _);
    [exact (sample_outer_ok false)|shape..|].
  exists m. split; [exact E|]. vm_compute in E. injection E as <-. reflexivity.
Defined.

Example end_marker_sent_witness : exists m,
  build_endmarker_and_send (mk_sess_info_endmark 0x1234 (sample_address 1 x02) (sample_address 1 x01)
    (sample_mac x0a)
    (sample_mac x0b)) (Some (mk_pkt sample_buffer 0 0)) true 65535 = Some (Some m, 0) /\
  drop 42 (data m) = [x32; xfe; x00; x04; x00; x00; x12; x34; x00; x00; xcc; xcc].
Proof.
  pose proof (end_marker_sent (mk_sess_info_endmark 0x1234 (sample_address 1 x02) (sample_address 1 x01)
    (sample_mac x0a)
    (sample_mac x0b)) sample_buffer 0 0 true 65535) as H. cbv zeta in H.
  specialize (H (sample_entry_ok false) ltac:(shape)).
  destruct (build_endmarker_and_send _ _ _ _) as [[sent seq']|] eqn:E; [|destruct H as [H _]; by destruct H].
  destruct H as (-> & _ & m & _ & _ & _ & -> & _). exists m. split; [done|].
  vm_compute in E. injection E as <-. reflexivity.
Defined.

Example router_solicitation_answered_witness : exists m,
  router_advertisement (mk_pkt ((frame false (sample_outer false) 92 72 [x00; x00] [x00; x00]
      (gtp x30 xff 48 [x00; x00; x00; x05]) ++
    user_packet [x60; x00; x00; x00] 8 [x3a;
      xff] (replicate 16 xaa) (replicate 16 xbb) (x85 :: replicate 47 x00)) ++ [xee])
    98 98) false (ntohl 0x77) (replicate 16 xcd) (replicate 16 x20) 60 = Some m /\
  take 8 (drop 42 (data m)) = [x30; xff; x00; x58; x00; x00; x00; x77] /\
  take 8 (drop 90 (data m)) = [x86; x00; xff; xff; x3c; x00; xff; xff] /\
  drop 122 (data m) = replicate 7 x20 ++ replicate 9 x00.
Proof.
  destruct (router_solicitation_answered false (sample_outer false) 92 72 [x00; x00] [x00; x00] x30 48 [x00;
    x00; x00; x05]
    [x60; x00; x00; x00] [x3a; xff] (replicate 16 xaa) (replicate 16 xbb) (x85 :: replicate 47 x00) 8 [xee] 0x77
    (replicate 16 xcd) (replicate 16 x20) 60 98) as (m & _ & _ & _ & E & _);
    [exact (sample_outer_ok false)|unfold user_ok; shape..|].
  exists m. split; [exact E|]. vm_compute in E. injection E as <-. done.
Defined.
