(* ===== verification/UpHandler.v ===== *)
(** * The packet handlers of the user plane (dp/up_pkt_handler.c)

    [wb_pkt_handler] and [eb_pkt_handler] take a burst of packets from the west-bound and
    the east-bound interface through the stages of the other files: the lookup of the
    sessions ([UpClassify]), the accounting ([UpUsage]), the tunnels and gates ([UpTunnel]),
    the packet filters ([UpClassify]), buffering ([UpDdn]) and the Ethernet header
    ([UpArp]).  The copies for lawful interception, the packet dumps and the counters of
    STATS are left out.

    The packets the pipeline is told to drop are those whose bit of [pkts_mask] is not set,
    except those hijacked before; the others leave through the other interface. *)
From S2P Require Import Prelude NodeAddr LList UpSess Mbuf UpPacket UpTunnel UpClassify UpUsage UpArp UpDdn.

Definition IPPROTO_ICMPV6 : Z := 58.
Definition ICMPv6_ROUTER_SOLICITATION : Z := 0x85.
Definition GTPU_HDR_SIZE : nat := 8.

Section Handler.
Context {mbuf : Type} `{Mbuf mbuf}.

(** ** The stages of this file *)

(** [get_pdr_from_sess_data]: the PDRs and [pkts_mask]. *)
Fixpoint get_pdr_from_sess_data_from (sessions : gmap positive pfcp_session_datat) (i : nat)
    (sess_data : list (option positive)) (pdr : list (option pdr_info)) (pkts_mask pkts_queue_mask : Z)
    : list (option pdr_info) * Z :=
  match sess_data, pdr with
  | key :: sess_data, p :: pdr =>
      let '(p, pkts_mask) :=
        if ISSET_BIT pkts_mask i || ISSET_BIT pkts_queue_mask i then
          match session_at sessions key with
          | Some si => match head (pdrs si) with
                       | None => (p, RESET_BIT pkts_mask i)
                       | Some q => (Some q, pkts_mask)
                       end
          | None => (p, RESET_BIT pkts_mask i)
          end
        else (p, pkts_mask) in
      let '(ps, pkts_mask) := get_pdr_from_sess_data_from sessions (S i) sess_data pdr pkts_mask pkts_queue_mask in
      (p :: ps, pkts_mask)
  | _, _ => (pdr, pkts_mask)
  end.

Definition get_pdr_from_sess_data sessions := get_pdr_from_sess_data_from sessions 0.

(** The user's packet in the tunnel is a router solicitation: behind a GTP-U header of 8
    bytes over IPv4, of its actual size over IPv6. *)
Definition is_router_solicitation (m : mbuf) : bool :=
  let inner :=
    if is_ether ETHER_TYPE_IPv4_be m then Some (get_mtogtpu false + GTPU_HDR_SIZE)%nat
    else if is_ether ETHER_TYPE_IPv6_be m then
      Some (get_mtogtpu true + GPDU_HDR_SIZE_DYNAMIC (load m (get_mtogtpu true) 1))%nat
    else None in
  match inner with
  | Some off =>
      bool_decide (load m (off + ipv6_proto) 1 = IPPROTO_ICMPV6) &&
      bool_decide (load m (off + IPv6_HDR_SIZE) 1 = ICMPv6_ROUTER_SOLICITATION)
  | None => false
  end.

(** [filter_router_solicitations_pkts]: every packet of the burst is tested, whatever its
    bits: [pkts_mask], [pkts_queue_mask], [decap_pkts_mask]. *)
Fixpoint filter_router_solicitations_from (i : nat) (pkts : list mbuf) (pkts_mask pkts_queue_mask decap_pkts_mask : Z)
    : Z * Z * Z :=
  match pkts with
  | [] => (pkts_mask, pkts_queue_mask, decap_pkts_mask)
  | m :: pkts =>
      let rs := is_router_solicitation m in
      filter_router_solicitations_from (S i) pkts (reset_if rs pkts_mask i) (set_if rs pkts_queue_mask i)
        (reset_if rs decap_pkts_mask i)
  end.

Definition filter_router_solicitations_pkts := filter_router_solicitations_from 0.

(** The packets of a mask, in order. *)
Fixpoint masked_from {A} (i : nat) (xs : list A) (mask : Z) : list A :=
  match xs with
  | [] => []
  | x :: xs => if ISSET_BIT mask i then x :: masked_from (S i) xs mask else masked_from (S i) xs mask
  end.
Definition masked {A} := @masked_from A 0.

(** [rte_ring_enqueue] of the packets of a mask into a ring of the given size: those that do
    not fit are lost. *)
Definition enqueue_masked (size : nat) (ring : list mbuf) (pkts : list mbuf) (mask : Z) : list mbuf :=
  take (Nat.max (length ring) (size - 1)) (ring ++ masked pkts mask).

(** ** The state of the user plane *)

Record up_plane := mk_plane {
  up_ddn : @ddn_state mbuf;
  up_usage : usage_state;
  up_acl : acl_state;
  up_arp : @arp_state mbuf;
  gtpu_seqnb : Z;
  mct_rx : list mbuf;          (* the ring of router solicitations *)
  err_ind : list mbuf          (* the packets given to [send_error_indication_pkt] *)
}.

Definition up_sessions (s : up_plane) : gmap positive pfcp_session_datat := ds_sessions (up_ddn s).
Definition set_plane_sessions (f : gmap positive pfcp_session_datat) (s : up_plane) : up_plane :=
  mk_plane (with_sessions f (up_ddn s)) (up_usage s) (up_acl s) (up_arp s) (gtpu_seqnb s) (mct_rx s) (err_ind s).
Definition set_plane_usage (u : usage_state) (s : up_plane) : up_plane :=
  mk_plane (up_ddn s) u (up_acl s) (up_arp s) (gtpu_seqnb s) (mct_rx s) (err_ind s).
Definition set_plane_acl (a : acl_state) (s : up_plane) : up_plane :=
  mk_plane (up_ddn s) (up_usage s) a (up_arp s) (gtpu_seqnb s) (mct_rx s) (err_ind s).
Definition set_plane_arp (a : @arp_state mbuf) (s : up_plane) : up_plane :=
  mk_plane (up_ddn s) (up_usage s) (up_acl s) a (gtpu_seqnb s) (mct_rx s) (err_ind s).
Definition set_plane_ddn (d : @ddn_state mbuf) (s : up_plane) : up_plane :=
  mk_plane d (up_usage s) (up_acl s) (up_arp s) (gtpu_seqnb s) (mct_rx s) (err_ind s).
Definition set_plane_seqnb (n : Z) (s : up_plane) : up_plane :=
  mk_plane (up_ddn s) (up_usage s) (up_acl s) (up_arp s) n (mct_rx s) (err_ind s).
Definition set_plane_rs (r : list mbuf) (s : up_plane) : up_plane :=
  mk_plane (up_ddn s) (up_usage s) (up_acl s) (up_arp s) (gtpu_seqnb s) r (err_ind s).
Definition set_plane_err (r : list mbuf) (s : up_plane) : up_plane :=
  mk_plane (up_ddn s) (up_usage s) (up_acl s) (up_arp s) (gtpu_seqnb s) (mct_rx s) r.

(** What a stage of a handler reads and writes: the local arrays and masks of the handler
    ([bu_li] is [pdr_li], [bu_xcap] the mask of packets to decapsulate or encapsulate,
    [bu_hijacked] the packets taken from the pipeline) and the state. *)
Record burst := mk_burst {
  bu_pkts : list mbuf;
  bu_sess : list (option positive);
  bu_pdr : list (option pdr_info);
  bu_li : list (option pdr_info);
  bu_mask : Z;
  bu_fwd : Z;
  bu_xcap : Z;
  bu_queue : Z;
  bu_err : Z;
  bu_hijacked : Z;
  bu_plane : up_plane
}.

(** ** The configuration and the outside *)

Variable app : app_params.
Variable l2 : l2_params.
Variable t : sess_tables.
Variable acl_ctx : Type.
Variable classify : acl_ctx -> mbuf -> nat -> Z.
Variable config : Z -> acl_config acl_ctx.
Variables (fuel : nat) (now : nat -> Z) (env : nat -> arp_env) (ring_create : Z -> Z -> ring_created).
Variables (shared_size mct_size : nat).
Variable error_indication_snd : bool.

(** [update_usage] of a stage: the masked packets with their PDRs. *)
Definition stage_usage (flow : gate_direction) (pdr : list (option pdr_info)) (mask : Z) (b : burst) : option burst :=
  u ← update_usage fuel now flow (bu_pkts b) pdr mask (up_usage (bu_plane b));
  Some (mk_burst (bu_pkts b) (bu_sess b) (bu_pdr b) (bu_li b) (bu_mask b) (bu_fwd b) (bu_xcap b) (bu_queue b) (bu_err b)
          (bu_hijacked b) (set_plane_usage u (bu_plane b))).

(** [update_nexthop_info] for [pkts_mask]. *)
Definition stage_nexthop (port : Z) (b : burst) : option burst :=
  '(pkts, mask, a) ← update_nexthop_info l2 app env (bu_pkts b) (bu_pdr b) (bu_mask b) port (up_arp (bu_plane b));
  Some (mk_burst pkts (bu_sess b) (bu_pdr b) (bu_li b) mask (bu_fwd b) (bu_xcap b) (bu_queue b) (bu_err b)
          (bu_hijacked b) (set_plane_arp a (bu_plane b))).

(** The error indications at the end of both handlers. *)
Definition stage_error (b : burst) : burst :=
  if bool_decide (bu_err b <> 0) && error_indication_snd then
    mk_burst (bu_pkts b) (bu_sess b) (bu_pdr b) (bu_li b) (bu_mask b) (bu_fwd b) (bu_xcap b) (bu_queue b) (bu_err b)
      (bu_hijacked b) (set_plane_err (err_ind (bu_plane b) ++ masked (bu_pkts b) (bu_err b)) (bu_plane b))
  else b.

(** ** wb_pkt_handler *)

(** The branch for [fwd_pkts_mask]. *)
Definition wb_forward (b : burst) : option burst :=
  let n := length (bu_pkts b) in
  let '(li, fwd) := get_pdr_from_sess_data (up_sessions (bu_plane b)) (bu_sess b) (bu_li b) (bu_fwd b) (bu_queue b) in
  b ← stage_usage UPLINK li fwd
        (mk_burst (bu_pkts b) (bu_sess b) (bu_pdr b) li (bu_mask b) fwd (bu_xcap b) (bu_queue b) (bu_err b)
           (bu_hijacked b) (bu_plane b));
  rs ← update_nexts5s8_info app n fwd (bu_sess b) (mk_rs (up_sessions (bu_plane b)) (bu_pkts b) (bu_pdr b) (bu_mask b) 0);
  let pl := set_plane_sessions (rs_sessions rs) (bu_plane b) in
  let loop := rs_loopback_mask rs in
  '(pkts, pl) ←
    (if bool_decide (loop <> 0) then
       '(pkts, loop, a) ← update_nexthop_info l2 app env (rs_pkts rs) (rs_pdrs rs) loop (wb_port l2) (up_arp pl);
       let ring := default [] (shared_ring a !! wb_port l2) in
       Some (pkts, set_plane_arp (set_shared (<[wb_port l2 := enqueue_masked shared_size ring pkts loop]> (shared_ring a)) a) pl)
     else Some (rs_pkts rs, pl));
  Some (mk_burst pkts (bu_sess b) (rs_pdrs rs) li (rs_pkts_mask rs) fwd (bu_xcap b) (bu_queue b) (bu_err b)
          (bu_hijacked b) pl).

(** The branch for [decap_pkts_mask]. *)
Definition wb_decap (b : burst) : option burst :=
  let '(li, decap) := get_pdr_from_sess_data (up_sessions (bu_plane b)) (bu_sess b) (bu_li b) (bu_xcap b) 0 in
  let '(mask, rs, decap) := filter_router_solicitations_pkts (bu_pkts b) (bu_mask b) 0 decap in
  b ← stage_usage UPLINK li decap
        (mk_burst (bu_pkts b) (bu_sess b) (bu_pdr b) li mask (bu_fwd b) decap (bu_queue b) (bu_err b)
           (bu_hijacked b) (bu_plane b));
  let '(pkts, mask) := gtpu_decap app (map (fun m => (m, mk_meta 0 enb_unset)) (bu_pkts b)) mask decap in
  let pkts := map fst pkts in
  '(pdr, mask, a) ← filter_ul_traffic acl_ctx classify config (up_sessions (bu_plane b)) pkts (bu_sess b) (bu_pdr b)
                      mask decap (up_acl (bu_plane b));
  let pl := set_plane_acl a (bu_plane b) in
  let pl := if bool_decide (rs <> 0) then set_plane_rs (enqueue_masked mct_size (mct_rx pl) pkts rs) pl else pl in
  Some (mk_burst pkts (bu_sess b) pdr li mask (bu_fwd b) decap (bu_queue b) (bu_err b) (Z.lor (bu_hijacked b) rs) pl).

(** The body under [if (sess_data[0] != NULL)]. *)
Definition wb_process (b : burst) : option burst :=
  b ← (if bool_decide (bu_fwd b <> 0) then wb_forward b else Some b);
  b ← (if bool_decide (bu_xcap b <> 0) then wb_decap b else Some b);
  stage_nexthop (eb_port l2) b.

(** The burst as the lookup leaves it. *)
Definition burst_of (pkts : list mbuf) (lk : lookup_state) (s : up_plane) : burst :=
  let none := replicate (length pkts) None in
  mk_burst pkts (lk_sess lk) none none (lk_pkts lk) (lk_fwd lk) (lk_xcap lk) (lk_queue lk) (lk_snd_err lk) 0 s.

Definition first_session (b : burst) : bool :=
  match bu_sess b with Some _ :: _ => true | _ => false end.

Definition wb_pkt_handler (pkts : list mbuf) (s : up_plane) : option burst :=
  lk ← ul_sess_info_get app t (up_sessions s) pkts (lookup0 (length pkts));
  let b := burst_of pkts lk s in
  b ← (if first_session b then wb_process b else Some b);
  Some (stage_error b).

(** ** eb_pkt_handler *)

(** The branch for [fwd_pkts_mask]. *)
Definition eb_forward (b : burst) : option burst :=
  let '(pdr, fwd) := get_pdr_from_sess_data (up_sessions (bu_plane b)) (bu_sess b) (bu_pdr b) (bu_fwd b) (bu_queue b) in
  rs ← update_enb_info app (length (bu_pkts b)) fwd (bu_sess b)
         (mk_rs (up_sessions (bu_plane b)) (bu_pkts b) pdr (bu_mask b) 0);
  Some (mk_burst (rs_pkts rs) (bu_sess b) (rs_pdrs rs) (bu_li b) (rs_pkts_mask rs) fwd (bu_xcap b) (bu_queue b) (bu_err b)
          (bu_hijacked b) (set_plane_sessions (rs_sessions rs) (bu_plane b))).

(** The branch for [encap_pkts_mask]. *)
Definition eb_encap (b : burst) : option burst :=
  let sessions := up_sessions (bu_plane b) in
  '(pdr, mask, a) ← filter_dl_traffic acl_ctx classify config sessions (bu_pkts b) (bu_sess b) (bu_pdr b) (bu_mask b)
                      (bu_xcap b) (up_acl (bu_plane b));
  let entries := zip_with (fun m x => mk_entry m (session_at sessions (fst x)) (snd x)) (bu_pkts b) (zip (bu_sess b) pdr) in
  let '(pkts, seqnb, mask, queue) := gtpu_encap app entries (bu_xcap b) (gtpu_seqnb (bu_plane b)) mask (bu_queue b) in
  Some (mk_burst pkts (bu_sess b) pdr (bu_li b) mask (bu_fwd b) (bu_xcap b) queue (bu_err b) (bu_hijacked b)
          (set_plane_seqnb seqnb (set_plane_acl a (bu_plane b)))).

(** The branch for [pkts_queue_mask]. *)
Definition eb_queue (b : burst) : option burst :=
  d ← enqueue_dl_pkts ring_create (bu_pdr b) (bu_sess b) (bu_pkts b) (bu_queue b) (up_ddn (bu_plane b));
  Some (mk_burst (bu_pkts b) (bu_sess b) (bu_pdr b) (bu_li b) (bu_mask b) (bu_fwd b) (bu_xcap b) (bu_queue b) (bu_err b)
          (Z.lor (bu_hijacked b) (bu_queue b)) (set_plane_ddn d (bu_plane b))).

Definition eb_process (b : burst) : option burst :=
  b ← (if bool_decide (bu_fwd b <> 0) then eb_forward b else Some b);
  b ← (if bool_decide (bu_xcap b <> 0) then eb_encap b else Some b);
  b ← (if bool_decide (bu_queue b <> 0) then eb_queue b else Some b);
  b ← stage_nexthop (wb_port l2) b;
  stage_usage DOWNLINK (bu_pdr b) (bu_mask b) b.

Definition eb_pkt_handler (pkts : list mbuf) (s : up_plane) : option burst :=
  lk ← dl_sess_info_get app t (up_sessions s) true pkts (lookup0 (length pkts));
  let b := burst_of pkts lk s in
  b ← (if first_session b then eb_process b else Some b);
  Some (stage_error b).

End Handler.

(** ** What the stages keep *)

(** A stage only takes packets out of a mask. *)
Definition mask_sub (m' m : Z) : Prop := forall j, ISSET_BIT m' j = true -> ISSET_BIT m j = true.

(** The PDR of each packet is one of its session's. *)
Definition rules_from (sessions : gmap positive pfcp_session_datat) (sess : list (option positive))
    (pdr : list (option pdr_info)) : Prop :=
  forall j r, pdr !! j = Some (Some r) ->
    exists p si, sess !! j = Some (Some p) /\ sessions !! p = Some si /\ r ∈ pdrs si.

(** The sessions have lost PDRs at most. *)
Definition shrunk (sessions sessions' : gmap positive pfcp_session_datat) : Prop :=
  forall p si', sessions' !! p = Some si' -> exists si, sessions !! p = Some si /\ forall r, r ∈ pdrs si' -> r ∈ pdrs si.

Create HintDb up_burst.

Lemma mask_sub_refl m : mask_sub m m.
Proof. by intros j. Qed.
Lemma mask_sub_trans a b c : mask_sub a b -> mask_sub b c -> mask_sub a c.
Proof. intros H1 H2 j Hj. by apply H2, H1. Qed.
Lemma mask_sub_reset b m i : mask_sub (reset_if b m i) m.
Proof. intros j. rewrite reset_if_spec. by intros [Hj _]%andb_true_iff. Qed.
Lemma shrunk_refl f : shrunk f f.
Proof. intros p si Hp. by exists si. Qed.
Lemma shrunk_trans f g h : shrunk f g -> shrunk g h -> shrunk f h.
Proof.
  intros H1 H2 p si Hp. destruct (H2 p si Hp) as (si1 & Hp1 & S1). destruct (H1 p si1 Hp1) as (si2 & Hp2 & S2).
  exists si2. split; [done|]. auto.
Qed.
#[export] Hint Resolve mask_sub_refl mask_sub_reset shrunk_refl : up_burst.
#[export] Hint Extern 2 (mask_sub (RESET_BIT ?m ?i) ?m) => exact (mask_sub_reset true m i) : up_burst.

Lemma rules_from_insert sessions sess pdr i o :
  rules_from sessions sess pdr ->
  (forall r, o = Some r -> exists p si, sess !! i = Some (Some p) /\ sessions !! p = Some si /\ r ∈ pdrs si) ->
  rules_from sessions sess (<[i := o]> pdr).
Proof.
  intros Hr Ho j r Hj. destruct (decide (i = j)) as [<-|Hij].
  - destruct (decide (i < length pdr)%nat) as [Hl|Hl].
    + rewrite list_lookup_insert_eq in Hj by done. injection Hj as Hj. by apply Ho.
    + rewrite list_insert_ge in Hj by lia. by apply Hr.
  - rewrite list_lookup_insert_ne in Hj by done. by apply Hr.
Qed.

Lemma shrunk_null sessions sessions' k si :
  shrunk sessions sessions' -> sessions' !! k = Some si -> shrunk sessions (<[k := set_pdrs_null si]> sessions').
Proof.
  intros Hs Hk p si'. destruct (decide (k = p)) as [<-|Hp].
  - rewrite lookup_insert_eq. intros [= <-]. destruct (Hs k si Hk) as (s0 & H0 & _).
    exists s0. split; [done|]. intros r Hr. by apply not_elem_of_nil in Hr.
  - rewrite lookup_insert_ne by done. apply Hs.
Qed.

Lemma head_elem {A} (xs : list A) x : head xs = Some x -> x ∈ xs.
Proof. destruct xs; [done|]. intros [= ->]. by left. Qed.

Section Stages.
Context {mbuf : Type} `{Mbuf mbuf}.
Context (sessions0 : gmap positive pfcp_session_datat) (sess : list (option positive)).

(** ** The stages of dp/up.c *)

(** What holds of the state of a relaying stage that began with mask [m]. *)
Definition relay_inv (m : Z) (st : @relay_state mbuf) : Prop :=
  mask_sub (rs_pkts_mask st) m /\ rules_from sessions0 sess (rs_pdrs st) /\ shrunk sessions0 (rs_sessions st).

Lemma session_rule k si r sessions :
  shrunk sessions0 sessions -> sessions !! k = Some si -> r ∈ pdrs si ->
  exists si0, sessions0 !! k = Some si0 /\ r ∈ pdrs si0.
Proof. intros Hs Hk Hr. destruct (Hs k si Hk) as (si0 & H0 & Hsub). exists si0. auto. Qed.

Lemma fill_pdr_inv m i key st :
  sess !! i = Some key -> relay_inv m st -> relay_inv m (fill_pdr i key st).
Proof.
  intros Hi (Hm & Hr & Hs). unfold fill_pdr. destruct key as [k|]; cbn [mbind option_bind]; [|done].
  destruct (rs_sessions st !! k) as [si|] eqn:Ek; [|done]. split_and!; [exact Hm| |exact Hs].
  apply rules_from_insert; [exact Hr|]. intros r Hh. apply head_elem in Hh.
  destruct (session_rule k si r _ Hs Ek Hh) as (si0 & H0 & Hin). by exists k, si0.
Qed.

Lemma nexts5s8_step_inv app m fwd i st st' :
  update_nexts5s8_step app fwd sess i st = Some st' -> relay_inv m st -> relay_inv m st'.
Proof.
  unfold update_nexts5s8_step. destruct (sess !! i) as [key|] eqn:Hi; cbn [mbind option_bind]; [|done].
  intros E Hinv. destruct (_ && _) in E; [|injection E as <-; by apply fill_pdr_inv].
  destruct key as [k|]; cbn [mbind option_bind] in E; [|done].
  destruct (rs_sessions st !! k) as [si|] eqn:Ek; cbn [mbind option_bind] in E; [|done].
  pose proof Hinv as (Hm & Hr & Hs). destruct (session_far si) as [[pdr fr]|].
  - destruct (rs_pkts st !! i) as [pkt|]; cbn [mbind option_bind] in E; [|done].
    assert (relay_inv m (mk_rs (rs_sessions st) (<[i := r_pkt (nexts5s8_pkt app pdr fr pkt)]> (rs_pkts st)) (rs_pdrs st)
              (reset_if (r_reset (nexts5s8_pkt app pdr fr pkt)) (rs_pkts_mask st) i)
              (set_if (r_loop (nexts5s8_pkt app pdr fr pkt)) (rs_loopback_mask st) i))) as H1.
    { split_and!; [eapply mask_sub_trans; [apply mask_sub_reset|exact Hm]|exact Hr|exact Hs]. }
    destruct (r_continue _) in E; injection E as <-; [exact H1|by apply fill_pdr_inv].
  - injection E as <-. apply fill_pdr_inv; [done|].
    split_and!; [eapply mask_sub_trans; [apply (mask_sub_reset true)|exact Hm]|exact Hr|by apply shrunk_null].
Qed.

Lemma enb_step_inv app m fd i st st' :
  update_enb_step app fd sess i st = Some st' -> relay_inv m st -> relay_inv m st'.
Proof.
  unfold update_enb_step. destruct (_ && _); [|by intros [= <-]].
  destruct (sess !! i) as [[k|]|] eqn:Hi; cbn [mbind option_bind]; [|by intros [= <-]|done].
  destruct (rs_sessions st !! k) as [si|] eqn:Ek; cbn [mbind option_bind]; [|done].
  intros E (Hm & Hr & Hs). destruct (session_far si) as [[pdr fr]|] eqn:Ef.
  - destruct (rs_pkts st !! i) as [pkt|]; cbn [mbind option_bind] in E; [|done]. injection E as <-.
    split_and!; [eapply mask_sub_trans; [apply mask_sub_reset|exact Hm]| |exact Hs]. cbn [rs_pdrs].
    destruct (snd (enb_pkt app si fr pkt)); [|exact Hr]. apply rules_from_insert; [exact Hr|]. intros r [= <-].
    unfold session_far in Ef. destruct (head (pdrs si)) as [h|] eqn:Eh; cbn [mbind option_bind] in Ef; [|done].
    destruct (far h); cbn [mbind option_bind] in Ef; [|done]. injection Ef as -> _. apply head_elem in Eh.
    destruct (session_rule k si pdr _ Hs Ek Eh) as (si0 & H0 & Hin). by exists k, si0.
  - injection E as <-.
    split_and!; [eapply mask_sub_trans; [apply (mask_sub_reset true)|exact Hm]| |by apply shrunk_null].
    apply rules_from_insert; [exact Hr|done].
Qed.

Lemma fold_inv {St} (P : St -> Prop) (f : nat -> St -> option St) is_ st st' :
  (forall i a b, f i a = Some b -> P a -> P b) ->
  foldl (fun st i => st ≫= f i) (Some st) is_ = Some st' -> P st -> P st'.
Proof.
  intros Hf. revert st. induction is_ as [|i is_ IH]; intros st E HP; [by injection E as <-|].
  cbn [foldl mbind option_bind] in E. destruct (f i st) as [st1|] eqn:E1.
  - eapply IH; [exact E|]. by eapply Hf.
  - exfalso. clear -E. induction is_ as [|j is_ IH]; [done|]. by apply IH.
Qed.

Lemma nexts5s8_inv app n m fwd st st' :
  update_nexts5s8_info app n fwd sess st = Some st' -> relay_inv m st -> relay_inv m st'.
Proof. apply fold_inv. intros i a b E. by eapply nexts5s8_step_inv. Qed.

Lemma enb_inv app n m fd st st' :
  update_enb_info app n fd sess st = Some st' -> relay_inv m st -> relay_inv m st'.
Proof. apply fold_inv. intros i a b E. by eapply enb_step_inv. Qed.

Lemma gtpu_decap_mask app i pkts m d : mask_sub (snd (gtpu_decap_from app i pkts m d)) m.
Proof.
  revert i m. induction pkts as [|p pkts IH]; intros i m; [auto with up_burst|].
  cbn [gtpu_decap_from snd]. eapply mask_sub_trans; [apply IH|auto with up_burst].
Qed.

Lemma gtpu_encap_mask app i entries fd seqnb m q : mask_sub (snd (fst (gtpu_encap_from app i entries fd seqnb m q))) m.
Proof.
  revert i seqnb m q. induction entries as [|e entries IH]; intros i seqnb m q; [auto with up_burst|].
  cbn [gtpu_encap_from snd fst]. eapply mask_sub_trans; [apply IH|auto with up_burst].
Qed.

Lemma qer_gating_mask i pdr direction m fd m' :
  qer_gating_from i pdr direction m fd = Some m' ->
  mask_sub m' m /\
  forall k r, pdr !! k = Some (Some r) -> ISSET_BIT m' (i + k) = true -> ISSET_BIT fd (i + k) = true ->
    gate_closed direction r = false.
Proof.
  revert i m. induction pdr as [|p pdr IH]; intros i m E.
  { injection E as <-. split; [auto with up_burst|]. intros k r Hk. by rewrite lookup_nil in Hk. }
  cbn [qer_gating_from] in E.
  set (b := match p with Some p => ISSET_BIT m i && ISSET_BIT fd i && gate_closed direction p | None => false end).
  assert (qer_gating_from (S i) pdr direction (reset_if b m i) fd = Some m') as E'.
  { unfold b. destruct (ISSET_BIT m i && ISSET_BIT fd i); [|by destruct p].
    destruct p as [p|]; [|done]. cbn [mbind option_bind] in E.
    destruct (if gate_closed direction p then _ else _) in E; [exact E|done]. }
  destruct (IH (S i) _ E') as [Hsub Hg]. split; [eapply mask_sub_trans; [exact Hsub|auto with up_burst]|].
  intros [|k] r Hk Hm Hf.
  - injection Hk as ->. rewrite Nat.add_0_r in *. apply Hsub in Hm. rewrite reset_if_spec in Hm. unfold b in Hm.
    apply andb_true_iff in Hm as [Hm Hc]. rewrite Hm, Hf, bool_decide_true, andb_true_r in Hc by done.
    cbn [andb] in Hc. by destruct (gate_closed direction r).
  - apply (Hg k r Hk); by rewrite Nat.add_succ_comm.
Qed.

(** ** The stages of the packet filters *)

Lemma get_pdr_info_inv sessions (j0 : nat) ss pdr prec s m fd pdr' m' :
  shrunk sessions0 sessions -> (forall k key, ss !! k = Some key -> sess !! (j0 + k)%nat = Some key) ->
  (forall k r, pdr !! k = Some (Some r) -> exists p si, sess !! (j0 + k)%nat = Some (Some p) /\ sessions0 !! p = Some si /\ r ∈ pdrs si) ->
  get_pdr_info_from sessions j0 ss pdr prec s m fd = Some (pdr', m') ->
  mask_sub m' m /\
  (forall k r, pdr' !! k = Some (Some r) -> exists p si, sess !! (j0 + k)%nat = Some (Some p) /\ sessions0 !! p = Some si /\ r ∈ pdrs si).
Proof.
  intros Hs. revert j0 pdr prec m pdr' m'.
  induction ss as [|key ss IH]; intros j0 pdr prec m pdr' m' Hss Hr E.
  { injection E as <- <-. split; [auto with up_burst|]. intros k r Hk. by rewrite lookup_nil in Hk. }
  destruct pdr as [|p pdr]; [injection E as <- <-; split; [auto with up_burst|]; intros k r Hk; by rewrite lookup_nil in Hk|].
  destruct prec as [|c prec]; [injection E as <- <-; split; [auto with up_burst|]; intros k r Hk; by rewrite lookup_nil in Hk|].
  cbn [get_pdr_info_from] in E.
  match type of E with (?o ≫= _ = _) => destruct o as [[p1 m1]|] eqn:E1 end; cbn [mbind option_bind] in E; [|done].
  destruct (get_pdr_info_from sessions (S j0) ss pdr prec s m1 fd) as [[ps m2]|] eqn:E2; cbn [mbind option_bind] in E; [|done].
  injection E as <- <-.
  destruct (IH (S j0) pdr prec m1 ps m2) as [Hm2 Hr2]; [| |exact E2|].
  - intros k k' Hk. rewrite Nat.add_succ_comm. by apply Hss.
  - intros k r Hk. rewrite Nat.add_succ_comm. by apply Hr.
  - assert (mask_sub m1 m /\ forall r, p1 = Some r -> exists p si, sess !! j0 = Some (Some p) /\ sessions0 !! p = Some si /\ r ∈ pdrs si)
      as [Hm1 Hp1].
    { assert (forall r, p = Some r -> exists p si, sess !! j0 = Some (Some p) /\ sessions0 !! p = Some si /\ r ∈ pdrs si) as Hp.
      { intros r ->. specialize (Hr 0%nat r eq_refl). by rewrite Nat.add_0_r in Hr. }
      destruct c as [c|]; [|injection E1 as <- <-; split; [auto with up_burst|exact Hp]].
      destruct (_ && _) in E1; [|injection E1 as <- <-; split; [auto with up_burst|exact Hp]].
      destruct key as [k|]; cbn [mbind option_bind] in E1; [|done].
      destruct (sessions !! k) as [si|] eqn:Ek; cbn [mbind option_bind] in E1; [|done].
      destruct (log_far _); cbn [mbind option_bind] in E1; [|done].
      injection E1 as <- <-. split; [auto with up_burst|]. intros r Hf.
      unfold get_pdr_node in Hf. apply find_some in Hf as [Hin _]. apply list_elem_of_In in Hin.
      destruct (session_rule k si r _ Hs Ek Hin) as (si0 & H0 & Hin0). exists k, si0. split; [|done].
      specialize (Hss 0%nat (Some k) eq_refl). by rewrite Nat.add_0_r in Hss. }
    split; [by eapply mask_sub_trans|]. intros [|k] r Hk.
    + injection Hk as Hk. rewrite Nat.add_0_r. by apply Hp1.
    + rewrite <- Nat.add_succ_comm. by apply Hr2.
Qed.

Lemma filter_traffic_inv acl_ctx (classify : acl_ctx -> mbuf -> nat -> Z) direction config sessions pkts pdr m fd s pdr' m' s' :
  shrunk sessions0 sessions -> rules_from sessions0 sess pdr ->
  filter_traffic acl_ctx classify direction config sessions pkts sess pdr m fd s = Some (pdr', m', s') ->
  mask_sub m' m /\ rules_from sessions0 sess pdr' /\
  forall j r, pdr' !! j = Some (Some r) -> ISSET_BIT m' j = true -> ISSET_BIT fd j = true -> gate_closed direction r = false.
Proof.
  intros Hs Hr E. unfold filter_traffic in E.
  destruct (acl_sdf_lookup _ _ _ _ _ _ _ _ _) as [[prec s1]|]; cbn [mbind option_bind] in E; [|done].
  destruct (get_pdr_info _ _ _ _ _ _ _) as [[pdr1 m1]|] eqn:E1; cbn [mbind option_bind] in E; [|done].
  destruct (qer_gating _ _ _ _) as [m2|] eqn:E2; cbn [mbind option_bind] in E; [|done]. injection E as <- <- <-.
  destruct (get_pdr_info_inv sessions 0 sess pdr prec s1 m fd pdr1 m1 Hs) as [Hm Hr1]; [done|exact Hr|exact E1|].
  destruct (qer_gating_mask 0 pdr1 direction m1 fd m2 E2) as [Hm2 Hg].
  split; [by eapply mask_sub_trans|]. split; [exact Hr1|]. exact Hg.
Qed.

(** ** The stages of this file *)

Lemma get_pdr_from_sess_data_inv sessions (j0 : nat) ss pdr m q pdr' m' :
  shrunk sessions0 sessions -> (forall k key, ss !! k = Some key -> sess !! (j0 + k)%nat = Some key) ->
  (forall k r, pdr !! k = Some (Some r) -> exists p si, sess !! (j0 + k)%nat = Some (Some p) /\ sessions0 !! p = Some si /\ r ∈ pdrs si) ->
  get_pdr_from_sess_data_from sessions j0 ss pdr m q = (pdr', m') ->
  mask_sub m' m /\
  (forall k r, pdr' !! k = Some (Some r) -> exists p si, sess !! (j0 + k)%nat = Some (Some p) /\ sessions0 !! p = Some si /\ r ∈ pdrs si).
Proof.
  intros Hs. revert j0 pdr m pdr' m'.
  induction ss as [|key ss IH]; intros j0 pdr m pdr' m' Hss Hr E; [injection E as <- <-; split; [auto with up_burst|exact Hr]|].
  destruct pdr as [|p pdr]; [injection E as <- <-; split; [auto with up_burst|exact Hr]|].
  cbn [get_pdr_from_sess_data_from] in E.
  match type of E with (let '(_, _) := ?o in _) = _ => destruct o as [p1 m1] eqn:E1 end.
  destruct (get_pdr_from_sess_data_from sessions (S j0) ss pdr m1 q) as [ps m2] eqn:E2. injection E as <- <-.
  destruct (IH (S j0) pdr m1 ps m2) as [Hm2 Hr2]; [| |exact E2|].
  - intros k k' Hk. rewrite Nat.add_succ_comm. by apply Hss.
  - intros k r Hk. rewrite Nat.add_succ_comm. by apply Hr.
  - assert (mask_sub m1 m /\ forall r, p1 = Some r -> exists p si, sess !! j0 = Some (Some p) /\ sessions0 !! p = Some si /\ r ∈ pdrs si)
      as [Hm1 Hp1].
    { assert (forall r, p = Some r -> exists p si, sess !! j0 = Some (Some p) /\ sessions0 !! p = Some si /\ r ∈ pdrs si) as Hp.
      { intros r ->. specialize (Hr 0%nat r eq_refl). by rewrite Nat.add_0_r in Hr. }
      destruct (_ || _) in E1; [|injection E1 as <- <-; split; [auto with up_burst|exact Hp]].
      unfold session_at in E1. destruct key as [k|]; cbn [mbind option_bind] in E1;
        [|injection E1 as <- <-; split; [auto with up_burst|exact Hp]].
      destruct (sessions !! k) as [si|] eqn:Ek; [|injection E1 as <- <-; split; [auto with up_burst|exact Hp]].
      destruct (head (pdrs si)) as [h|] eqn:Eh; injection E1 as <- <-; (split; [auto with up_burst|]); [|exact Hp].
      intros r [= <-]. apply head_elem in Eh.
      destruct (session_rule k si h _ Hs Ek Eh) as (si0 & H0 & Hin). exists k, si0. split; [|done].
      specialize (Hss 0%nat (Some k) eq_refl). by rewrite Nat.add_0_r in Hss. }
    split; [by eapply mask_sub_trans|]. intros [|k] r Hk.
    + injection Hk as Hk. rewrite Nat.add_0_r. by apply Hp1.
    + rewrite <- Nat.add_succ_comm. by apply Hr2.
Qed.

Lemma filter_rs_mask i pkts m q d :
  let r := filter_router_solicitations_from i pkts m q d in mask_sub (fst (fst r)) m.
Proof.
  revert i m q d. induction pkts as [|p pkts IH]; intros i m q d; [cbn; auto with up_burst|].
  cbn [filter_router_solicitations_from]. eapply mask_sub_trans; [apply IH|auto with up_burst].
Qed.

Lemma nexthop_mask l2 app env i pkts pdr m port s pkts' m' s' :
  update_nexthop_info_from l2 app env i pkts pdr m port s = Some (pkts', m', s') ->
  mask_sub m' m /\
  forall k, (k < length pkts)%nat -> (k < length pdr)%nat -> ISSET_BIT m' (i + k) = true ->
    exists r, pdr !! k = Some (Some r).
Proof.
  revert i pdr m s pkts' m' s'. induction pkts as [|p pkts IH]; intros i pdr m s pkts' m' s' E.
  { injection E as <- <- <-. split; [auto with up_burst|]. intros k Hk. cbn in Hk. lia. }
  destruct pdr as [|o pdr]; [injection E as <- <- <-; split; [auto with up_burst|]; intros k _ Hk; cbn in Hk; lia|].
  cbn [update_nexthop_info_from] in E.
  match type of E with (?o ≫= _ = _) => destruct o as [[[p1 ok] s1]|] eqn:E1 end; cbn [mbind option_bind] in E; [|done].
  destruct (update_nexthop_info_from _ _ _ (S i) _ _ _ _ _) as [[[ms m2] s2]|] eqn:E2; cbn [mbind option_bind] in E; [|done].
  injection E as <- <- <-. destruct (IH _ _ _ _ _ _ _ E2) as [Hm Hk].
  split; [eapply mask_sub_trans; [exact Hm|auto with up_burst]|].
  intros [|k] H1 H2 Hb; cbn [length] in *.
  - rewrite Nat.add_0_r in Hb. apply Hm in Hb. rewrite reset_if_spec in Hb. apply andb_true_iff in Hb as [_ Hb].
    rewrite bool_decide_true, andb_true_r in Hb by done. destruct ok; [|done].
    destruct o as [r|]; [by exists r|]. rewrite bool_decide_false, andb_false_r in E1 by (intros ?; done). done.
  - apply Hk; [lia..|]. by rewrite Nat.add_succ_comm.
Qed.

(** ** The arrays keep their length *)

Definition relay_len (n : nat) (st : @relay_state mbuf) : Prop := length (rs_pkts st) = n /\ length (rs_pdrs st) = n.

Lemma fill_pdr_len n i key st : relay_len n st -> relay_len n (fill_pdr i key st).
Proof.
  intros [H1 H2]. unfold fill_pdr. destruct (_ ≫= _); [|done]. split; [done|]. cbn. by rewrite length_insert.
Qed.

Lemma nexts5s8_len app n k fwd st st' :
  update_nexts5s8_info app k fwd sess st = Some st' -> relay_len n st -> relay_len n st'.
Proof.
  apply fold_inv. intros i a b E [H1 H2]. unfold update_nexts5s8_step in E.
  destruct (sess !! i) as [key|]; cbn [mbind option_bind] in E; [|done].
  destruct (_ && _) in E; [|injection E as <-; by apply fill_pdr_len].
  destruct key as [p|]; cbn [mbind option_bind] in E; [|done].
  destruct (rs_sessions a !! p) as [si|]; cbn [mbind option_bind] in E; [|done].
  destruct (session_far si) as [[pdr fr]|].
  - destruct (rs_pkts a !! i); cbn [mbind option_bind] in E; [|done].
    destruct (r_continue _) in E; injection E as <-; [|apply fill_pdr_len]; split; cbn; by rewrite ?length_insert.
  - injection E as <-. apply fill_pdr_len. by split.
Qed.

Lemma enb_len app n k fd st st' :
  update_enb_info app k fd sess st = Some st' -> relay_len n st -> relay_len n st'.
Proof.
  apply fold_inv. intros i a b E [H1 H2]. unfold update_enb_step in E. destruct (_ && _) in E; [|by injection E as <-].
  destruct (sess !! i) as [[p|]|]; cbn [mbind option_bind] in E; [|by injection E as <-|done].
  destruct (rs_sessions a !! p) as [si|]; cbn [mbind option_bind] in E; [|done].
  destruct (session_far si) as [[pdr fr]|].
  - destruct (rs_pkts a !! i); cbn [mbind option_bind] in E; [|done]. injection E as <-.
    split; cbn; rewrite ?length_insert; [done|]. destruct (snd _); by rewrite ?length_insert.
  - injection E as <-. split; cbn; by rewrite ?length_insert.
Qed.

Lemma gtpu_decap_len app i pkts m d : length (fst (gtpu_decap_from app i pkts m d)) = length pkts.
Proof. revert i m. induction pkts as [|p pkts IH]; intros i m; [done|]. cbn. f_equal. apply IH. Qed.

Lemma gtpu_encap_len app i entries fd seqnb m q :
  length (fst (fst (fst (gtpu_encap_from app i entries fd seqnb m q)))) = length entries.
Proof. revert i seqnb m q. induction entries as [|e entries IH]; intros i seqnb m q; [done|]. cbn. f_equal. apply IH. Qed.

Lemma acl_len acl_ctx (classify : acl_ctx -> mbuf -> nat -> Z) config pkts sessions j ss m fd s prec s' :
  acl_sdf_lookup_from acl_ctx classify config pkts sessions j ss m fd s = Some (prec, s') -> length prec = length ss.
Proof.
  revert j s prec s'. induction ss as [|key ss IH]; intros j s prec s' E; [by injection E as <- <-|].
  cbn [acl_sdf_lookup_from] in E.
  match type of E with (?o ≫= _ = _) => destruct o as [[p1 s1]|] end; cbn [mbind option_bind] in E; [|done].
  destruct (acl_sdf_lookup_from _ _ _ _ _ (S j) _ _ _ _) as [[ps s2]|] eqn:E2; cbn [mbind option_bind] in E; [|done].
  injection E as <- <-. cbn [length]. f_equal. by eapply IH.
Qed.

Lemma get_pdr_info_len sessions j ss pdr prec s m fd pdr' m' :
  length pdr = length ss -> length prec = length ss ->
  get_pdr_info_from sessions j ss pdr prec s m fd = Some (pdr', m') -> length pdr' = length ss.
Proof.
  revert j pdr prec m pdr' m'. induction ss as [|key ss IH]; intros j pdr prec m pdr' m' H1 H2 E; [by injection E as <- <-|].
  destruct pdr as [|p pdr]; [done|]. destruct prec as [|c prec]; [done|]. cbn [get_pdr_info_from] in E.
  match type of E with (?o ≫= _ = _) => destruct o as [[p1 m1]|] end; cbn [mbind option_bind] in E; [|done].
  destruct (get_pdr_info_from _ (S j) _ _ _ _ _ _) as [[ps m2]|] eqn:E2; cbn [mbind option_bind] in E; [|done].
  injection E as <- <-. cbn [length] in *. f_equal. eapply IH; [| |exact E2]; lia.
Qed.

Lemma filter_traffic_len acl_ctx (classify : acl_ctx -> mbuf -> nat -> Z) direction config sessions pkts pdr m fd s pdr' m' s' :
  length pdr = length sess ->
  filter_traffic acl_ctx classify direction config sessions pkts sess pdr m fd s = Some (pdr', m', s') ->
  length pdr' = length sess.
Proof.
  intros Hl E. unfold filter_traffic in E.
  destruct (acl_sdf_lookup _ _ _ _ _ _ _ _ _) as [[prec s1]|] eqn:E0; cbn [mbind option_bind] in E; [|done].
  apply acl_len in E0.
  destruct (get_pdr_info _ _ _ _ _ _ _) as [[pdr1 m1]|] eqn:E1; cbn [mbind option_bind] in E; [|done].
  destruct (qer_gating _ _ _ _) as [m2|]; cbn [mbind option_bind] in E; [|done]. injection E as <- <- <-.
  by eapply get_pdr_info_len.
Qed.

Lemma get_pdr_from_sess_data_len sessions j ss pdr m q :
  length (fst (get_pdr_from_sess_data_from sessions j ss pdr m q)) = length pdr.
Proof.
  revert j pdr m. induction ss as [|key ss IH]; intros j pdr m; [done|]. destruct pdr as [|p pdr]; [done|].
  cbn [get_pdr_from_sess_data_from].
  match goal with |- context [let '(_, _) := ?o in _] => destruct o as [p1 m1] end.
  specialize (IH (S j) pdr m1). destruct (get_pdr_from_sess_data_from _ _ _ _ _ _) as [ps m2]. cbn in *. by f_equal.
Qed.

Lemma nexthop_len l2 app env i pkts pdr m port s pkts' m' s' :
  update_nexthop_info_from l2 app env i pkts pdr m port s = Some (pkts', m', s') -> length pkts' = length pkts.
Proof.
  revert i pdr m s pkts' m' s'. induction pkts as [|p pkts IH]; intros i pdr m s pkts' m' s' E; [by injection E as <- <- <-|].
  destruct pdr as [|o pdr]; [by injection E as <- <- <-|]. cbn [update_nexthop_info_from] in E.
  match type of E with (?o ≫= _ = _) => destruct o as [[[p1 ok] s1]|] end; cbn [mbind option_bind] in E; [|done].
  destruct (update_nexthop_info_from _ _ _ (S i) _ _ _ _ _) as [[[ms m2] s2]|] eqn:E2; cbn [mbind option_bind] in E; [|done].
  injection E as <- <- <-. cbn. f_equal. by eapply IH.
Qed.

(** ** The handlers *)

(** What holds of a burst in a handler that began with the mask [m0], and of the packets of
    [bu_xcap] when the gates of a direction have been applied. *)
Record burst_inv (m0 : Z) (b : @burst mbuf) : Prop := mk_inv {
  inv_sess : bu_sess b = sess;
  inv_pkts : length (bu_pkts b) = length sess;
  inv_pdr : length (bu_pdr b) = length sess;
  inv_li : length (bu_li b) = length sess;
  inv_mask : mask_sub (bu_mask b) m0;
  inv_rules : rules_from sessions0 sess (bu_pdr b);
  inv_shrunk : shrunk sessions0 (up_sessions (bu_plane b))
}.

Definition gated (gate : gate_direction) (b : @burst mbuf) : Prop :=
  forall j r, bu_pdr b !! j = Some (Some r) -> ISSET_BIT (bu_mask b) j = true ->
    ISSET_BIT (bu_xcap b) j = true -> gate_closed gate r = false.

(** Every packet that is still in the burst has a PDR. *)
Definition ruled (b : @burst mbuf) : Prop :=
  forall j, (j < length (bu_pkts b))%nat -> ISSET_BIT (bu_mask b) j = true -> exists r, bu_pdr b !! j = Some (Some r).

Context (app : app_params) (l2 : l2_params) (acl_ctx : Type) (classify : acl_ctx -> mbuf -> nat -> Z).
Context (config : Z -> acl_config acl_ctx) (fuel : nat) (now : nat -> Z) (env : nat -> arp_env) (ring_create : Z -> Z -> ring_created).
Context (shared_size mct_size : nat).

Lemma stage_usage_inv flow pdr m m0 b b' :
  stage_usage fuel now flow pdr m b = Some b' ->
  (burst_inv m0 b -> burst_inv m0 b') /\ bu_pkts b' = bu_pkts b /\ bu_pdr b' = bu_pdr b /\ bu_mask b' = bu_mask b /\
  bu_xcap b' = bu_xcap b.
Proof.
  unfold stage_usage. destruct (update_usage _ _ _ _ _ _ _); cbn [mbind option_bind]; [|done]. intros [= <-].
  split; [|done]. by intros [].
Qed.

Lemma stage_nexthop_inv port m0 b b' :
  stage_nexthop app l2 env port b = Some b' -> burst_inv m0 b ->
  burst_inv m0 b' /\ ruled b' /\ forall gate, gated gate b -> gated gate b'.
Proof.
  unfold stage_nexthop, update_nexthop_info.
  destruct (update_nexthop_info_from _ _ _ _ _ _ _ _ _) as [[[pkts mask] a]|] eqn:E; cbn [mbind option_bind]; [|done].
  intros [= <-] []. pose proof (nexthop_len _ _ _ _ _ _ _ _ _ _ _ _ E) as Hl.
  apply nexthop_mask in E as [Hm Hr]. split; [|split].
  - split; cbn; [done|congruence|done|done| |done|done]. by eapply mask_sub_trans.
  - intros j Hj Hb. cbn in *. apply Hr; [lia|lia|exact Hb].
  - intros gate Hg j r Hj Hb Hx. cbn in *. eapply Hg; [exact Hj| |exact Hx]. by apply Hm.
Qed.

Lemma li_len sessions ss li m q li' m' :
  get_pdr_from_sess_data sessions ss li m q = (li', m') -> length li' = length li.
Proof.
  intros E. pose proof (get_pdr_from_sess_data_len sessions 0 ss li m q) as Hl.
  unfold get_pdr_from_sess_data in E. by rewrite E in Hl.
Qed.

Lemma wb_forward_inv m0 b b' :
  wb_forward app l2 fuel now env shared_size b = Some b' -> burst_inv m0 b -> burst_inv m0 b' /\ bu_xcap b' = bu_xcap b.
Proof.
  intros E Hi. pose proof Hi as [Hs Hp Hd Hl Hm Hr Hsh]. unfold wb_forward in E.
  destruct (get_pdr_from_sess_data _ _ _ _ _) as [li fwd] eqn:El.
  pose proof (li_len _ _ _ _ _ _ _ El) as Hll. rewrite Hl in Hll.
  match type of E with (stage_usage _ _ _ _ _ ?x ≫= _ = _) => set (b0 := x) in E end.
  destruct (stage_usage _ _ _ _ _ b0) as [b1|] eqn:Eu; cbn [mbind option_bind] in E; [|done].
  destruct (stage_usage_inv _ _ _ m0 _ _ Eu) as (Hi1 & Ep1 & Ed1 & Em1 & Ex1).
  destruct Hi1 as [Hs1 Hp1 Hd1 Hl1 Hm1 Hr1 Hsh1]; [by split|].
  rewrite Hs1 in E.
  destruct (update_nexts5s8_info _ _ _ _ _) as [rs|] eqn:Ers; cbn [mbind option_bind] in E; [|done].
  pose proof (nexts5s8_inv app _ m0 _ _ _ Ers) as [Hm2 [Hr2 Hsh2]]; [by split_and!|].
  pose proof (nexts5s8_len app (length sess) _ _ _ _ Ers) as [Hp2 Hd2]; [by split|].
  destruct (bool_decide _) in E.
  - destruct (update_nexthop_info _ _ _ _ _ _ _ _) as [[[pkts loop] a]|] eqn:En; cbn [mbind option_bind] in E; [|done].
    injection E as <-. apply nexthop_len in En. split; [|done]. split; cbn; [done|congruence|done|done|done|done|done].
  - cbn [mbind option_bind] in E. injection E as <-. split; [|done]. by split.
Qed.

Lemma wb_decap_inv m0 b b' :
  wb_decap app acl_ctx classify config fuel now mct_size b = Some b' -> burst_inv m0 b ->
  burst_inv m0 b' /\ gated UPLINK b'.
Proof.
  intros E Hi. pose proof Hi as [Hs Hp Hd Hl Hm Hr Hsh]. unfold wb_decap in E.
  destruct (get_pdr_from_sess_data _ _ _ _ _) as [li dm] eqn:El.
  pose proof (li_len _ _ _ _ _ _ _ El) as Hll. rewrite Hl in Hll.
  pose proof (filter_rs_mask 0 (bu_pkts b) (bu_mask b) 0 dm) as Hrs. cbv zeta in Hrs.
  unfold filter_router_solicitations_pkts in E.
  destruct (filter_router_solicitations_from _ _ _ _ _) as [[m1 rs] d1]. cbn [fst] in Hrs.
  match type of E with (stage_usage _ _ _ _ _ ?x ≫= _ = _) => set (b0 := x) in E end.
  destruct (stage_usage _ _ _ _ _ b0) as [b1|] eqn:Eu; cbn [mbind option_bind] in E; [|done].
  destruct (stage_usage_inv _ _ _ m0 _ _ Eu) as (Hi1 & Ep1 & Ed1 & Em1 & Ex1).
  destruct Hi1 as [Hs1 Hp1 Hd1 Hl1 Hm1 Hr1 Hsh1]; [split; cbn; try done; by eapply mask_sub_trans|].
  unfold gtpu_decap in E.
  pose proof (gtpu_decap_mask app 0 (map (fun m => (m, mk_meta 0 enb_unset)) (bu_pkts b1)) m1 d1) as Hgm.
  pose proof (gtpu_decap_len app 0 (map (fun m => (m, mk_meta 0 enb_unset)) (bu_pkts b1)) m1 d1) as Hgl.
  destruct (gtpu_decap_from _ _ _ _ _) as [pkts m2]. cbn [fst snd] in *. rewrite length_map in Hgl.
  rewrite Hs1 in E. unfold filter_ul_traffic in E.
  destruct (filter_traffic _ _ _ _ _ _ _ _ _ _ _) as [[[pdr m3] a]|] eqn:Ef; cbn [mbind option_bind] in E; [|done].
  pose proof (filter_traffic_len _ _ _ _ _ _ _ _ _ _ _ _ _ Hd1 Ef) as Hfl.
  destruct (filter_traffic_inv _ _ _ _ _ _ _ _ _ _ _ _ _ Hsh1 Hr1 Ef) as (Hm3 & Hr3 & Hg3).
  injection E as <-. split.
  - split; cbn; try done.
    + rewrite length_map. congruence.
    + eapply mask_sub_trans; [exact Hm3|]. eapply mask_sub_trans; [exact Hgm|]. by eapply mask_sub_trans.
    + by destruct (bool_decide _).
  - exact Hg3.
Qed.

Lemma eb_forward_inv m0 b b' :
  eb_forward app b = Some b' -> burst_inv m0 b -> burst_inv m0 b' /\ bu_xcap b' = bu_xcap b.
Proof.
  intros E [Hs Hp Hd Hl Hm Hr Hsh]. unfold eb_forward in E. rewrite Hs in E.
  destruct (get_pdr_from_sess_data _ _ _ _ _) as [pdr fwd] eqn:El.
  pose proof (li_len _ _ _ _ _ _ _ El) as Hll. rewrite Hd in Hll.
  destruct (get_pdr_from_sess_data_inv _ 0 sess _ _ _ _ _ Hsh (fun k key Hk => Hk) Hr El) as [_ Hr1].
  destruct (update_enb_info _ _ _ _ _) as [rs|] eqn:Ers; cbn [mbind option_bind] in E; [|done]. injection E as <-.
  destruct (enb_inv app _ m0 _ _ _ Ers) as (Hm2 & Hr2 & Hsh2); [by split_and!|].
  destruct (enb_len app (length sess) _ _ _ _ Ers) as [Hp2 Hd2]; [by split|]. split; [|done]. by split.
Qed.

Lemma eb_encap_inv m0 b b' :
  eb_encap app acl_ctx classify config b = Some b' -> burst_inv m0 b -> burst_inv m0 b' /\ gated DOWNLINK b'.
Proof.
  intros E [Hs Hp Hd Hl Hm Hr Hsh]. unfold eb_encap, filter_dl_traffic, gtpu_encap in E. rewrite Hs in E.
  destruct (filter_traffic _ _ _ _ _ _ _ _ _ _ _) as [[[pdr m1] a]|] eqn:Ef; cbn [mbind option_bind] in E; [|done].
  pose proof (filter_traffic_len _ _ _ _ _ _ _ _ _ _ _ _ _ Hd Ef) as Hfl.
  destruct (filter_traffic_inv _ _ _ _ _ _ _ _ _ _ _ _ _ Hsh Hr Ef) as (Hm1 & Hr1 & Hg1).
  match type of E with context [gtpu_encap_from app 0 ?es ?f ?q ?m ?qm] =>
    pose proof (gtpu_encap_mask app 0 es f q m qm) as Hem; pose proof (gtpu_encap_len app 0 es f q m qm) as Hel;
    destruct (gtpu_encap_from app 0 es f q m qm) as [[[pkts seqnb] m2] qm2] end.
  cbn [fst snd] in *. injection E as <-. split.
  - split; cbn; try done; [|by eapply mask_sub_trans; [exact Hem|eapply mask_sub_trans]].
    rewrite Hel, length_zip_with, length_zip_with. lia.
  - intros j r Hj Hb Hx. cbn in *. eapply Hg1; [exact Hj| |exact Hx]. by apply Hem.
Qed.

(** Queued packets change the states and rings of sessions only. *)
Lemma enqueue_dl_pkt_shrunk pdr key m (d d' : @ddn_state mbuf) :
  enqueue_dl_pkt ring_create pdr key m d = Some d' -> shrunk (ds_sessions d) (ds_sessions d').
Proof.
  assert (forall p f (a b : @ddn_state mbuf), (forall si, pdrs (f si) = pdrs si) -> write_sess p f a = Some b ->
            shrunk (ds_sessions a) (ds_sessions b)) as Hw.
  { intros p f a b Hf E. unfold write_sess in E. destruct (ds_sessions a !! p) as [si|] eqn:Ep; cbn [mbind option_bind] in E; [|done].
    injection E as <-. intros q sq Hq. cbn in Hq. destruct (decide (p = q)) as [<-|Hpq].
    - rewrite lookup_insert_eq in Hq. injection Hq as <-. exists si. split; [done|]. by rewrite Hf.
    - rewrite lookup_insert_ne in Hq by done. by exists sq. }
  unfold enqueue_dl_pkt. destruct pdr as [pdr|]; [|by intros [= <-]; auto with up_burst].
  destruct (far pdr) as [fr|]; cbn [mbind option_bind]; [|done].
  destruct (action_drop fr); [by intros [= <-]; auto with up_burst|].
  destruct (is_end_marker m); [by intros [= <-]; auto with up_burst|].
  destruct key as [p|]; cbn [mbind option_bind]; [|done].
  destruct (ds_sessions d !! p) as [si|] eqn:Ep; cbn [mbind option_bind]; [|done].
  destruct (session_ring ring_create p si pdr fr d) as [[d1 ring]|] eqn:E1; cbn [mbind option_bind]; [|done].
  assert (shrunk (ds_sessions d) (ds_sessions d1)) as H1.
  { unfold session_ring in E1. destruct (dl_ring si); [injection E1 as <- <-; auto with up_burst|].
    assert (forall z, ds_sessions (fst (allocate_ring ring_create z d)) = ds_sessions d) as Ha.
    { intros z. unfold allocate_ring. destruct (bool_decide (num_dl_rings d < _) && _); [|done]. by destruct (ring_create _ _). }
    specialize (Ha (pckt_cnt_val (session pdr))).
    destruct (allocate_ring ring_create (pckt_cnt_val (session pdr)) d) as [d2 [r|]]; cbn [fst] in Ha; [|injection E1 as <- <-; rewrite Ha; auto with up_burst].
    destruct (write_sess p (set_dl_ring (Some r)) d2) as [d3|] eqn:E3; cbn [mbind option_bind] in E1; [|done].
    pose proof (Hw p (set_dl_ring (Some r)) d2 d3 (fun _ => eq_refl) E3) as H3. rewrite Ha in H3.
    destruct (_ && _) in E1; [|injection E1 as <- <-; exact H3].
    destruct (write_sess p (set_state IN_PROGRESS) (send_ddn_request pdr d3)) as [d4|] eqn:E4; cbn [mbind option_bind] in E1; [|done].
    injection E1 as <- <-. eapply shrunk_trans; [exact H3|]. exact (Hw p (set_state IN_PROGRESS) _ _ (fun _ => eq_refl) E4). }
  destruct ring as [r|]; [|by intros [= <-]].
  destruct (_ || _); [|by intros [= <-]].
  unfold ring_enqueue. destruct (dl_rings d1 !! r) as [ring|]; cbn [mbind option_bind]; [|done].
  destruct (bool_decide _); cbn [mbind option_bind]; [by intros [= <-]|]. unfold ring_full. cbv zeta.
  destruct (write_sess p _ _) as [d5|] eqn:E5; cbn [mbind option_bind]; [|done]. intros [= <-].
  eapply shrunk_trans; [exact H1|]. exact (Hw p (fun si => set_state IDLE (set_dl_ring None si)) _ _ (fun _ => eq_refl) E5).
Qed.

Lemma enqueue_dl_pkts_shrunk i pkts m (d d' : @ddn_state mbuf) :
  enqueue_dl_pkts_from ring_create i pkts m d = Some d' -> shrunk (ds_sessions d) (ds_sessions d').
Proof.
  revert i d. induction pkts as [|[[pdr key] pkt] pkts IH]; intros i d E; [injection E as <-; auto with up_burst|].
  cbn [enqueue_dl_pkts_from] in E. destruct (ISSET_BIT m i); cbn [mbind option_bind] in E; [|by eapply IH].
  destruct (enqueue_dl_pkt ring_create pdr key pkt d) as [d1|] eqn:E1; cbn [mbind option_bind] in E; [|done].
  eapply shrunk_trans; [by eapply enqueue_dl_pkt_shrunk|by eapply IH].
Qed.

Lemma eb_queue_inv m0 b b' :
  eb_queue ring_create b = Some b' -> burst_inv m0 b -> burst_inv m0 b' /\ (forall gate, gated gate b -> gated gate b') /\ bu_xcap b' = bu_xcap b.
Proof.
  intros E [Hs Hp Hd Hl Hm Hr Hsh]. unfold eb_queue in E.
  destruct (enqueue_dl_pkts _ _ _ _ _ _) as [d|] eqn:Ed; cbn [mbind option_bind] in E; [|done]. injection E as <-.
  apply enqueue_dl_pkts_shrunk in Ed. split; [|done]. split; cbn; try done. by eapply shrunk_trans.
Qed.

Lemma gated_no_xcap gate b : bu_xcap b = 0 -> gated gate b.
Proof. intros Hx j r _ _ Hb. by rewrite Hx, ISSET_BIT_0 in Hb. Qed.

Lemma wb_process_inv m0 b b' :
  wb_process app l2 acl_ctx classify config fuel now env shared_size mct_size b = Some b' -> burst_inv m0 b ->
  burst_inv m0 b' /\ ruled b' /\ gated UPLINK b'.
Proof.
  intros E Hi. unfold wb_process in E.
  destruct (if bool_decide (bu_fwd b <> 0) then _ else _) as [b1|] eqn:E1; cbn [mbind option_bind] in E; [|done].
  assert (burst_inv m0 b1) as Hi1.
  { destruct (bool_decide (bu_fwd b <> 0)) in E1; [by destruct (wb_forward_inv m0 b b1 E1 Hi)|by injection E1 as <-]. }
  destruct (if bool_decide (bu_xcap b1 <> 0) then _ else _) as [b2|] eqn:E2; cbn [mbind option_bind] in E; [|done].
  assert (burst_inv m0 b2 /\ gated UPLINK b2) as [Hi2 Hg2].
  { destruct (decide (bu_xcap b1 = 0)) as [Hx|Hx].
    - rewrite bool_decide_false in E2 by auto. injection E2 as <-. split; [done|]. by apply gated_no_xcap.
    - rewrite bool_decide_true in E2 by done. by eapply wb_decap_inv. }
  destruct (stage_nexthop_inv _ m0 _ _ E Hi2) as (Hi3 & Hr3 & Hg3). split_and!; [done|done|by apply Hg3].
Qed.

Lemma eb_process_inv m0 b b' :
  eb_process app l2 acl_ctx classify config fuel now env ring_create b = Some b' -> burst_inv m0 b ->
  burst_inv m0 b' /\ ruled b' /\ gated DOWNLINK b'.
Proof.
  intros E Hi. unfold eb_process in E.
  destruct (if bool_decide (bu_fwd b <> 0) then _ else _) as [b1|] eqn:E1; cbn [mbind option_bind] in E; [|done].
  assert (burst_inv m0 b1) as Hi1.
  { destruct (bool_decide (bu_fwd b <> 0)) in E1; [by destruct (eb_forward_inv m0 b b1 E1 Hi)|by injection E1 as <-]. }
  destruct (if bool_decide (bu_xcap b1 <> 0) then _ else _) as [b2|] eqn:E2; cbn [mbind option_bind] in E; [|done].
  assert (burst_inv m0 b2 /\ gated DOWNLINK b2) as [Hi2 Hg2].
  { destruct (decide (bu_xcap b1 = 0)) as [Hx|Hx].
    - rewrite bool_decide_false in E2 by auto. injection E2 as <-. split; [done|]. by apply gated_no_xcap.
    - rewrite bool_decide_true in E2 by done. by eapply eb_encap_inv. }
  destruct (if bool_decide (bu_queue b2 <> 0) then _ else _) as [b3|] eqn:E3; cbn [mbind option_bind] in E; [|done].
  assert (burst_inv m0 b3 /\ gated DOWNLINK b3) as [Hi3 Hg3].
  { destruct (bool_decide (bu_queue b2 <> 0)) in E3; [|by injection E3 as <-]. destruct (eb_queue_inv m0 b2 b3 E3 Hi2) as (? & Hg & _). auto. }
  destruct (stage_nexthop _ _ _ _ b3) as [b4|] eqn:E4; cbn [mbind option_bind] in E; [|done].
  destruct (stage_nexthop_inv _ m0 _ _ E4 Hi3) as (Hi4 & Hr4 & Hg4).
  destruct (stage_usage_inv _ _ _ m0 _ _ E) as (Hi5 & Ep & Ed & Em & Ex).
  split; [by apply Hi5|]. unfold ruled, gated. rewrite Ep, Ed, Em, Ex. split; [exact Hr4|by apply Hg4].
Qed.
End Stages.

(** ** One packet on its way to the network *)

Lemma get_bytes_at {mbuf} `{MbufLaws mbuf} (m : mbuf) pre b post :
  mdata m = pre ++ b :: post -> load m (length pre) 1 = byte_to_Z b.
Proof.
  intros Hm. unfold load. rewrite peek_data by (rewrite Hm, length_app; cbn [length]; lia).
  rewrite Hm, drop_app_length. change (take 1 (b :: post)) with [b]. cbn [le_val]. lia.
Qed.

(** The Ethernet header that [construct_ether_hdr] writes. *)
Lemma set_macs_data {mbuf} `{MbufLaws mbuf} (m : mbuf) eth inner hw src type :
  mdata m = eth ++ inner -> length eth = ETH_HDR_SIZE -> length hw = 6%nat -> length src = 6%nat ->
  mdata (set_macs hw src (typed type m)) = hw ++ src ++ be_bytes 2 type ++ inner.
Proof.
  intros Hm He Hh Hs. unfold set_macs, typed, store, ether_type_off, ETH_HDR_SIZE in *.
  assert (length (le_bytes 2 (htons type)) = 2%nat) as Hle by apply length_le_bytes.
  assert (mdata (poke m 12 (le_bytes 2 (htons type))) = take 12 eth ++ be_bytes 2 type ++ inner) as H1.
  { rewrite poke_data by (rewrite Hm, length_app, He, Hle; lia). rewrite Hm, Hle.
    rewrite take_app_le, drop_app_ge by lia. replace (12 + 2 - length eth)%nat with 0%nat by lia.
    rewrite drop_0. by rewrite <- le_bytes_bswap16. }
  assert (length (take 12 eth) = 12%nat) as Ht by (rewrite length_take; lia).
  assert (mdata (poke (poke m 12 (le_bytes 2 (htons type))) 0 hw) = hw ++ drop 6 (take 12 eth) ++ be_bytes 2 type ++ inner) as H2.
  { rewrite poke_data by (rewrite H1, length_app, Ht; lia). rewrite H1, Hh, take_0. cbn [Nat.add app].
    by rewrite drop_app_le by lia. }
  assert (length (drop 6 (take 12 eth)) = 6%nat) as Hd by (rewrite length_drop; lia).
  rewrite poke_data by (rewrite H2, !length_app, Hh, Hd; lia). rewrite H2, Hs.
  rewrite take_app_length', drop_app_ge by lia. replace (6 + 6 - length hw)%nat with 6%nat by lia.
  by rewrite drop_app_length'.
Qed.

Lemma ntohl_ntohl z : 0 <= z < 2 ^ 32 -> ntohl (ntohl z) = z.
Proof. intros Hz. rewrite (ntohl_le z). by apply ntohl_be. Qed.

(** A packet that [gtpu_decap] accepts over IPv4 is looked up by the TEID it found. *)
Lemma decapped_ul_key {mbuf} `{Mbuf mbuf} app (m m' : mbuf) meta teid e :
  is_ether ETHER_TYPE_IPv4_be m = true -> rte_pktmbuf_data_len m <> 0 ->
  0 <= wb_ip app < 2 ^ 32 -> 0 <= wb_li_ip app < 2 ^ 32 ->
  gtpu_decap_pkt app m meta = (m', mk_meta teid e, false) -> ul_key app m = Some teid.
Proof.
  intros He Hl H1 H2 E. unfold ul_key. rewrite bool_decide_false, He by done. unfold is_ether in He.
  unfold gtpu_decap_pkt in E. rewrite He in E. unfold ul_tunnel_teid, wb_ipv4_dst.
  set (dst := load m (get_mtoip + ipv4_dst_addr) 4) in *.
  destruct (bool_decide (dst <> ntohl (wb_ip app)) && bool_decide (dst <> ntohl (wb_li_ip app))) eqn:Ed; [done|].
  assert (bool_decide (ntohl dst <> wb_ip app) && bool_decide (ntohl dst <> wb_li_ip app) = false) as ->.
  { apply andb_false_iff. apply andb_false_iff in Ed as [Ed|Ed]; [left|right];
      apply bool_decide_eq_false_1, dec_stable in Ed; apply bool_decide_eq_false_2; rewrite Ed, ntohl_ntohl by done; auto. }
  cbn [negb]. destruct (bool_decide (ntohs _ <> UDP_PORT_GTPU)); [done|].
  set (tb := load m (get_mtogtpu false + gtpu_teid) 4) in *.
  destruct (bool_decide (tb = 0)); cbn [orb] in *; [done|].
  destruct (bool_decide (load m (get_mtogtpu false + gtpu_msgtype) 1 <> GTP_GPDU)); cbn [andb]; [done|].
  destruct (DECAP_GTPU_HDR _ m false); [|done]. by injection E as _ <- _.
Qed.

(** The masks of a burst of one packet. *)
Lemma ul_masks_alone {mbuf} `{Mbuf mbuf} app t sessions (m : mbuf) lk :
  ul_sess_info_get app t sessions [m] (lookup0 1) = Some lk ->
  (ISSET_BIT (lk_fwd lk) 0 = false -> lk_fwd lk = 0) /\ (ISSET_BIT (lk_xcap lk) 0 = true -> lk_xcap lk = 1).
Proof.
  unfold ul_sess_info_get. cbn [map burst_loop mbind option_bind]. unfold ul_result.
  destruct (iface_lookup_uplink_data _ _) as [p|]; cbn [mbind option_bind].
  - destruct (sessions !! p) as [si|]; cbn [mbind option_bind]; [|done]. intros [= <-].
    cbn [mark put_sess lookup0 lk_fwd lk_xcap set_if].
    split; [destruct (_ && ul_fwd si); [done|done]|destruct (_ && ul_decap si); [done|done]].
  - intros [= <-]. cbn. done.
Qed.

Section Uplink.
Context {mbuf : Type} `{MbufLaws mbuf}.
Context (app : app_params) (l2 : l2_params) (t : sess_tables) (acl_ctx : Type) (classify : acl_ctx -> mbuf -> nat -> Z).
Context (config : Z -> acl_config acl_ctx) (fuel : nat) (now : nat -> Z) (env : nat -> arp_env).
Context (shared_size mct_size : nat) (snd_err : bool).

(** [wb_process] for one packet to decapsulate. *)
Lemma wb_process_alone (m m' : mbuf) p si li r hw key type l q (s : @up_plane mbuf) lk meta' :
  lk_sess lk = [Some p] -> lk_fwd lk = 0 -> lk_xcap lk = 1 -> ISSET_BIT (lk_pkts lk) 0 = true ->
  up_sessions s !! p = Some si -> head (pdrs si) = Some li -> urr_count li = 0 ->
  is_router_solicitation m = false -> gtpu_decap_pkt app m (mk_meta 0 enb_unset) = (m', meta', false) ->
  prepare_one_packet m' = Some false -> acl_table_indx si <> [] -> Forall (table_built acl_ctx config) (acl_table_indx si) ->
  get_pdr_node (pdrs si) (best_precedence (map (table_value acl_ctx classify config m' false) (acl_table_indx si))) = Some r ->
  gate_closed UPLINK r = false -> far r <> None ->
  arp_key_of l2 app m' (eb_port l2) = Some (key, type) ->
  arp_hash_handle (up_arp s) !! (eb_port l2, key) = Some l -> arp_entries (up_arp s) !! l = Some (mk_arp key hw true q) ->
  exists b, wb_process app l2 acl_ctx classify config fuel now env shared_size mct_size (burst_of [m] lk s) = Some b /\
    bu_pkts b = [set_macs hw (ports_eth_addr l2 (eb_port l2)) (typed type m')] /\ bu_pdr b = [Some r] /\
    ISSET_BIT (bu_mask b) 0 = true /\ bu_err b = lk_snd_err lk.
Proof.
  intros Hs Hf Hx Hm Hp Hli Hu Hrs Hd Hv Hne HF Hr Hg Hfar Hk Hh He.
  unfold wb_process, burst_of. cbn [bu_fwd bu_xcap]. rewrite Hf, Hx. rewrite (bool_decide_false (0 <> 0)) by auto.
  cbn [mbind option_bind bu_xcap]. rewrite (bool_decide_true (1 <> 0)) by done.
  unfold wb_decap. cbn [bu_plane bu_sess bu_li bu_xcap bu_pkts bu_mask bu_fwd bu_queue bu_err bu_hijacked bu_pdr length replicate].
  rewrite Hs. unfold get_pdr_from_sess_data. cbn [get_pdr_from_sess_data_from].
  change (ISSET_BIT 1 0) with true. cbn [orb]. unfold session_at. cbn [mbind option_bind]. rewrite Hp, Hli.
  unfold filter_router_solicitations_pkts. cbn [filter_router_solicitations_from]. rewrite Hrs. cbn [reset_if set_if].
  unfold stage_usage, update_usage. cbn [bu_pkts zip zip_with update_usage_from]. change (ISSET_BIT 1 0) with true.
  unfold update_usage_pkt. rewrite (bool_decide_true (urr_count li = 0)) by done. cbn [mbind option_bind].
  cbn [bu_pkts map bu_sess bu_pdr bu_plane]. unfold gtpu_decap. cbn [gtpu_decap_from fst snd]. change (ISSET_BIT 1 0) with true.
  cbv iota. rewrite Hd. cbn [fst snd map]. cbn [reset_if].
  change (up_sessions (set_plane_usage (up_usage s) s)) with (up_sessions s).
  destruct (filter_traffic_alone acl_ctx classify UPLINK config (up_sessions s) m' p si false None (lk_pkts lk) 1
    (up_acl (set_plane_usage (up_usage s) s)) Hp Hne HF Hv Hm eq_refl) as (s' & Ef & _).
  unfold filter_ul_traffic. rewrite Ef. rewrite Hr, Hg. destruct (far r) as [g|]; [|done]. cbn [mbind option_bind reset_if].
  rewrite (bool_decide_false (0 <> 0)) by auto. unfold stage_nexthop, update_nexthop_info.
  cbn [bu_pkts bu_pdr bu_mask bu_plane update_nexthop_info_from]. rewrite Hm, (bool_decide_true (Some r <> None)) by done.
  cbn [andb]. change (up_arp (set_plane_acl s' (set_plane_usage (up_usage s) s))) with (up_arp s).
  rewrite (construct_resolved l2 app (env 0%nat) (eb_port l2) hw key type (Some r) m' (up_arp s) l q Hh He Hk).
  cbn [mbind option_bind reset_if negb]. eexists. split; [done|]. cbn. by split_and!.
Qed.
End Uplink.

(** ** Theorems *)

Section Theorems.
Context {mbuf : Type} `{Mbuf mbuf}.

Lemma slot_of_lookup lk j o n :
  length (lk_sess lk) = n -> (j < n)%nat -> slot_of lk j = o ->
  lk_sess lk !! j = Some (sl_sess o) /\ ISSET_BIT (lk_pkts lk) j = sl_alive o.
Proof.
  intros Hl Hj <-. split; [|done]. unfold slot_of. cbn [sl_sess].
  destruct (lookup_lt_is_Some_2 (lk_sess lk) j) as [x ->]; [lia|]. done.
Qed.

(** The lookup at the start of the two handlers. *)
Lemma wb_lookup app t sessions (pkts : list mbuf) :
  tables_ok t sessions -> (length pkts <= 64)%nat ->
  exists lk, ul_sess_info_get app t sessions pkts (lookup0 (length pkts)) = Some lk /\ length (lk_sess lk) = length pkts /\
    forall j m, pkts !! j = Some m -> lk_sess lk !! j = Some (sl_sess (ul_slot app t sessions m)) /\
      ISSET_BIT (lk_pkts lk) j = sl_alive (ul_slot app t sessions m).
Proof.
  intros Ht Hn. destruct (lookup0_slots (length pkts) Hn) as [Hl H0].
  destruct (ul_sess_info_get_slots app t sessions Ht pkts _ Hl H0) as (lk & E & L & S).
  exists lk. split; [exact E|]. split; [exact L|]. intros j m Hj.
  eapply slot_of_lookup; [exact L|by eapply lookup_lt_Some|by apply S].
Qed.

Lemma eb_lookup app t sessions (pkts : list mbuf) :
  tables_ok t sessions -> (length pkts <= 64)%nat ->
  exists lk, dl_sess_info_get app t sessions true pkts (lookup0 (length pkts)) = Some lk /\ length (lk_sess lk) = length pkts /\
    forall j m, pkts !! j = Some m -> lk_sess lk !! j = Some (sl_sess (dl_slot app t sessions m)) /\
      ISSET_BIT (lk_pkts lk) j = sl_alive (dl_slot app t sessions m).
Proof.
  intros Ht Hn. destruct (lookup0_slots (length pkts) Hn) as [Hl H0].
  destruct (dl_sess_info_get_slots app t sessions Ht pkts _ Hl H0) as (lk & E & L & S).
  exists lk. split; [exact E|]. split; [exact L|]. intros j m Hj.
  eapply slot_of_lookup; [exact L|by eapply lookup_lt_Some|by apply S].
Qed.

Lemma burst_of_inv (pkts : list mbuf) lk s :
  length (lk_sess lk) = length pkts -> burst_inv (up_sessions s) (lk_sess lk) (lk_pkts lk) (burst_of pkts lk s).
Proof.
  intros Hl. split; cbn; rewrite ?length_replicate; auto with up_burst.
  intros j r Hj. apply lookup_replicate_1 in Hj as [Hj _]. done.
Qed.

Lemma first_session_lookup (pkts : list mbuf) lk s :
  first_session (burst_of pkts lk s) = true <-> exists p, lk_sess lk !! 0%nat = Some (Some p).
Proof.
  unfold first_session. cbn. destruct (lk_sess lk) as [|[p|] ss]; cbn.
  - split; [done|by intros [p E]].
  - split; [intros _; by exists p|done].
  - split; [done|by intros [p E]].
Qed.

Context (app : app_params) (l2 : l2_params) (t : sess_tables) (acl_ctx : Type) (classify : acl_ctx -> mbuf -> nat -> Z).
Context (config : Z -> acl_config acl_ctx) (fuel : nat) (now : nat -> Z) (env : nat -> arp_env) (ring_create : Z -> Z -> ring_created).
Context (shared_size mct_size : nat) (snd_err : bool).

Abbreviation wb := (wb_pkt_handler app l2 t acl_ctx classify config fuel now env shared_size mct_size snd_err).
Abbreviation eb := (eb_pkt_handler app l2 t acl_ctx classify config fuel now env ring_create snd_err).

(** A packet of a burst left with its mask bit set and the PDR it was treated by. *)
Definition forwarded (b : @burst mbuf) (j : nat) (sessions : gmap positive pfcp_session_datat) (o : slot) (gate : gate_direction) : Prop :=
  sl_alive o = true /\
  exists p si r, sl_sess o = Some p /\ sessions !! p = Some si /\ bu_pdr b !! j = Some (Some r) /\ r ∈ pdrs si /\
    (ISSET_BIT (bu_xcap b) j = true -> gate_closed gate r = false).

Lemma processed_forwarded sessions sess m0 (b : @burst mbuf) gate j o :
  burst_inv sessions sess m0 b -> ruled b -> gated gate b -> (j < length sess)%nat ->
  sess !! j = Some (sl_sess o) -> ISSET_BIT m0 j = sl_alive o -> ISSET_BIT (bu_mask b) j = true ->
  forwarded b j sessions o gate.
Proof.
  intros [Hs Hp Hd _ Hm Hr _] Hru Hg Hj Hso Hao Hb. split; [rewrite <- Hao; by apply Hm|].
  destruct (Hru j ltac:(lia) Hb) as [r Hjr]. destruct (Hr j r Hjr) as (p & si & Hsp & Hsi & Hin).
  exists p, si, r. split; [congruence|]. split; [done|]. split; [done|]. split; [done|]. intros Hx. by eapply Hg.
Qed.

Lemma stage_error_same (b : @burst mbuf) :
  bu_mask (stage_error snd_err b) = bu_mask b /\ bu_pdr (stage_error snd_err b) = bu_pdr b /\
  bu_xcap (stage_error snd_err b) = bu_xcap b /\ bu_pkts (stage_error snd_err b) = bu_pkts b.
Proof. unfold stage_error. by destruct (_ && _). Qed.

(** C11. What the user plane forwards is covered by a rule whose gate is open.  When the first
    packet of a burst has a session, every packet that leaves either handler was accepted by
    the lookup, has a session and a PDR out of that session's list, and the gate of this PDR
    is open in the packet's direction if its tunnel headers were removed or added. *)
Theorem forwarded_by_an_open_rule pkts s b m0 :
  tables_ok t (up_sessions s) -> (length pkts <= 64)%nat -> head pkts = Some m0 ->
  (sl_sess (ul_slot app t (up_sessions s) m0) <> None -> wb pkts s = Some b ->
   forall j m, pkts !! j = Some m -> ISSET_BIT (bu_mask b) j = true ->
     forwarded b j (up_sessions s) (ul_slot app t (up_sessions s) m) UPLINK) /\
  (sl_sess (dl_slot app t (up_sessions s) m0) <> None -> eb pkts s = Some b ->
   forall j m, pkts !! j = Some m -> ISSET_BIT (bu_mask b) j = true ->
     forwarded b j (up_sessions s) (dl_slot app t (up_sessions s) m) DOWNLINK).
Proof.
  intros Ht Hn H0. assert (pkts !! 0%nat = Some m0) as H00 by (destruct pkts; [done|exact H0]). split.
  - intros Hf E j m Hj Hb. destruct (wb_lookup app t _ pkts Ht Hn) as (lk & El & Hl & Hs).
    unfold wb_pkt_handler in E. rewrite El in E. cbn [mbind option_bind] in E.
    assert (first_session (burst_of pkts lk s) = true) as Hfs.
    { apply first_session_lookup. destruct (Hs 0%nat m0 H00) as [-> _]. destruct (sl_sess _) as [p|]; [by exists p|done]. }
    rewrite Hfs in E. destruct (wb_process _ _ _ _ _ _ _ _ _ _ _) as [b1|] eqn:E1; cbn [mbind option_bind] in E; [|done].
    injection E as <-. destruct (wb_process_inv _ _ _ _ _ _ _ _ _ _ _ _ _ _ _ E1 (burst_of_inv pkts lk s Hl)) as (Hi & Hr & Hg).
    destruct (stage_error_same b1) as (Em & Ed & Ex & _). rewrite Em in Hb. unfold forwarded. rewrite Ed, Ex.
    destruct (Hs j m Hj) as [Hjs Hja]. apply lookup_lt_Some in Hj as Hlt.
    eapply processed_forwarded; [exact Hi|exact Hr|exact Hg|lia|done|done|done].
  - intros Hf E j m Hj Hb. destruct (eb_lookup app t _ pkts Ht Hn) as (lk & El & Hl & Hs).
    unfold eb_pkt_handler in E. rewrite El in E. cbn [mbind option_bind] in E.
    assert (first_session (burst_of pkts lk s) = true) as Hfs.
    { apply first_session_lookup. destruct (Hs 0%nat m0 H00) as [-> _]. destruct (sl_sess _) as [p|]; [by exists p|done]. }
    rewrite Hfs in E. destruct (eb_process _ _ _ _ _ _ _ _ _ _) as [b1|] eqn:E1; cbn [mbind option_bind] in E; [|done].
    injection E as <-. destruct (eb_process_inv _ _ _ _ _ _ _ _ _ _ _ _ _ _ E1 (burst_of_inv pkts lk s Hl)) as (Hi & Hr & Hg).
    destruct (stage_error_same b1) as (Em & Ed & Ex & _). rewrite Em in Hb. unfold forwarded. rewrite Ed, Ex.
    destruct (Hs j m Hj) as [Hjs Hja]. apply lookup_lt_Some in Hj as Hlt.
    eapply processed_forwarded; [exact Hi|exact Hr|exact Hg|lia|done|done|done].
Qed.

(** The first packet of a burst decides for all: when it has no session, the others leave
    the handler as they came, those with a session as well.  They are forwarded with their
    tunnel headers neither removed nor added, without rule, gate, accounting or buffering
    and with the Ethernet header they arrived with; only error indications are sent. *)
Theorem first_packet_without_session_stops_burst pkts s m0 :
  tables_ok t (up_sessions s) -> (length pkts <= 64)%nat -> head pkts = Some m0 ->
  (sl_sess (ul_slot app t (up_sessions s) m0) = None ->
   exists b errs, wb pkts s = Some b /\ bu_pkts b = pkts /\ bu_hijacked b = 0 /\ bu_plane b = set_plane_err errs s /\
     forall j m, pkts !! j = Some m -> ISSET_BIT (bu_mask b) j = sl_alive (ul_slot app t (up_sessions s) m)) /\
  (sl_sess (dl_slot app t (up_sessions s) m0) = None ->
   exists b errs, eb pkts s = Some b /\ bu_pkts b = pkts /\ bu_hijacked b = 0 /\ bu_plane b = set_plane_err errs s /\
     forall j m, pkts !! j = Some m -> ISSET_BIT (bu_mask b) j = sl_alive (dl_slot app t (up_sessions s) m)).
Proof.
  intros Ht Hn H0. assert (pkts !! 0%nat = Some m0) as H00 by (destruct pkts; [done|exact H0]).
  assert (forall lk, lk_sess lk !! 0%nat = Some None ->
    first_session (burst_of pkts lk s) = false /\
    exists errs, bu_pkts (stage_error snd_err (burst_of pkts lk s)) = pkts /\
      bu_hijacked (stage_error snd_err (burst_of pkts lk s)) = 0 /\
      bu_plane (stage_error snd_err (burst_of pkts lk s)) = set_plane_err errs s /\
      bu_mask (stage_error snd_err (burst_of pkts lk s)) = lk_pkts lk) as Hlk.
  { intros lk Hlk. split.
    - apply not_true_iff_false. rewrite first_session_lookup. intros [p Hp]. congruence.
    - unfold stage_error. destruct (_ && _); [eexists; by split_and!|]. exists (err_ind s). split_and!; try done. by destruct s. }
  split; intros Hf.
  - destruct (wb_lookup app t _ pkts Ht Hn) as (lk & El & Hl & Hs).
    destruct (Hs 0%nat m0 H00) as [Hs0 _]. rewrite Hf in Hs0. destruct (Hlk lk Hs0) as (Hfs & errs & Hp & Hh & Hpl & Hm).
    unfold wb_pkt_handler. rewrite El. cbn [mbind option_bind]. rewrite Hfs. cbn [mbind option_bind].
    eexists _, errs. split; [done|]. rewrite Hm. do 3 (split; [done|]). intros j m Hj. by apply Hs.
  - destruct (eb_lookup app t _ pkts Ht Hn) as (lk & El & Hl & Hs).
    destruct (Hs 0%nat m0 H00) as [Hs0 _]. rewrite Hf in Hs0. destruct (Hlk lk Hs0) as (Hfs & errs & Hp & Hh & Hpl & Hm).
    unfold eb_pkt_handler. rewrite El. cbn [mbind option_bind]. rewrite Hfs. cbn [mbind option_bind].
    eexists _, errs. split; [done|]. rewrite Hm. do 3 (split; [done|]). intros j m Hj. by apply Hs.
Qed.
End Theorems.

(** C1. From the tunnel to the network.  A tunnelled IPv4 packet for one of the addresses of
    the west-bound interface that arrives alone, whose TEID has a session that removes the
    headers and is not metered, leaves as the user sent it: the bytes behind the GTP-U
    header are unchanged and stand behind an Ethernet header with the MAC address of their
    next hop, when the packet filters find for them a precedence of a PDR with a FAR and an
    open gate (a PDR without FAR crashes the program) and the next hop is known. *)
Theorem uplink_packet_reaches_network {mbuf} `{MbufLaws mbuf} app l2 t acl_ctx (classify : acl_ctx -> mbuf -> nat -> Z)
    config fuel now env shared_size mct_size snd_err (m m' : mbuf) meta' s out src dst teid seqnb inner pkt eth p si li r key type l q hw :
  tunnelled_v4 (out_mode out) src dst teid seqnb inner pkt ->
  in_mode (gtpu_seqnb_in app) = dynamic_seqnb \/ in_mode (gtpu_seqnb_in app) = out_mode out ->
  ether_is ETHER_TYPE_IPv4_be eth -> mdata m = eth ++ drop ETH_HDR_SIZE pkt -> Z.of_nat (length (mdata m)) < 2 ^ 16 ->
  0 < teid < 2 ^ 32 -> 0 <= src < 2 ^ 32 -> dst = wb_ip app \/ dst = wb_li_ip app ->
  0 <= wb_ip app < 2 ^ 32 -> 0 <= wb_li_ip app < 2 ^ 32 ->
  head inner = Some x45 -> is_router_solicitation m = false ->
  tables_ok t (up_sessions s) -> sess_by_teid_hash t !! teid = Some p -> up_sessions s !! p = Some si ->
  hdr_rvl si = GTPU_UDP_IPv4 -> head (pdrs si) = Some li -> urr_count li = 0 ->
  (m', meta') = fst (gtpu_decap_pkt app m (mk_meta 0 enb_unset)) ->
  acl_table_indx si <> [] -> Forall (table_built acl_ctx config) (acl_table_indx si) ->
  get_pdr_node (pdrs si) (best_precedence (map (table_value acl_ctx classify config m' false) (acl_table_indx si))) = Some r ->
  gate_closed UPLINK r = false -> far r <> None ->
  arp_key_of l2 app m' (eb_port l2) = Some (key, type) -> arp_hash_handle (up_arp s) !! (eb_port l2, key) = Some l ->
  arp_entries (up_arp s) !! l = Some (mk_arp key hw true q) -> length hw = 6%nat -> length (ports_eth_addr l2 (eb_port l2)) = 6%nat ->
  exists b m'', wb_pkt_handler app l2 t acl_ctx classify config fuel now env shared_size mct_size snd_err [m] s = Some b /\
    ISSET_BIT (bu_mask b) 0 = true /\ bu_pdr b = [Some r] /\ bu_pkts b = [m''] /\
    mdata m'' = hw ++ ports_eth_addr l2 (eb_port l2) ++ be_bytes 2 type ++ inner.
Proof.
  intros Htun Hmode Heth Hmd Hlen Hteid Hsrc Hdst Hw1 Hw2 Hin Hrs Ht Htp Hp Hrv Hli Hu Hdec Hne HF Hr Hg Hfar Hk Hh He Hhw Hsm.
  destruct (decap_tunnelled_v4 app m (mk_meta 0 enb_unset) out src dst teid seqnb inner pkt eth Hmode Htun Heth Hmd Hteid Hsrc Hdst)
    as (m1 & eth1 & Ed & Hm1 & Heth1).
  rewrite Ed in Hdec. cbn [fst] in Hdec. injection Hdec as -> ->.
  assert (is_ether ETHER_TYPE_IPv4_be m = true) as His.
  { destruct Heth as [Hel Het]. unfold is_ether, load. apply bool_decide_eq_true_2.
    rewrite peek_data by (rewrite Hmd, length_app, Hel; unfold ether_type_off, ETH_HDR_SIZE; lia).
    rewrite Hmd, drop_app_le by (rewrite Hel; unfold ether_type_off, ETH_HDR_SIZE; lia).
    rewrite take_app_le by (rewrite length_drop, Hel; unfold ether_type_off, ETH_HDR_SIZE; lia). exact Het. }
  assert (rte_pktmbuf_data_len m <> 0) as Hdl.
  { rewrite data_len_small by done. rewrite Hmd, length_app. destruct Heth as [-> _]. unfold ETH_HDR_SIZE. lia. }
  pose proof (decapped_ul_key app m m1 _ teid _ His Hdl Hw1 Hw2 Ed) as Hkey.
  destruct (lookup0_slots 1 ltac:(lia)) as [Hl0 H00].
  destruct (ul_sess_info_get_slots app t (up_sessions s) Ht [m] _ Hl0 H00) as (lk & El & Ll & Sl).
  specialize (Sl 0%nat m eq_refl). unfold ul_slot in Sl. rewrite Hkey in Sl. cbn [default from_option] in Sl.
  change (id teid) with teid in Sl. unfold iface_lookup_uplink_data, session_at in Sl.
  rewrite Htp in Sl. cbn [mbind option_bind] in Sl.
  rewrite Hp in Sl. unfold ul_decap, ul_fwd in Sl. rewrite Hrv in Sl. cbn in Sl. unfold slot_of in Sl.
  injection Sl as Sse Sal _ _ Sfw Sxc.
  assert (prepare_one_packet m1 = Some false) as Hv.
  { destruct inner as [|b inner]; [done|]. injection Hin as ->. unfold prepare_one_packet.
    replace ETH_HDR_SIZE with (length eth1) by done. by rewrite (get_bytes_at m1 eth1 x45 inner Hm1). }
  destruct (ul_masks_alone app t (up_sessions s) m lk El) as [Hfw Hxc].
  destruct (wb_process_alone app l2 acl_ctx classify config fuel now env shared_size mct_size m m1 p si li r hw key type l q s lk
    (mk_meta teid (enb_ipv4 src)))
    as (b & Eb & Hbp & Hbr & Hbm & _); try done.
  - destruct (lk_sess lk) as [|o [|o' ss]]; cbn in Ll; [lia| |lia]. cbn in Sse. by rewrite Sse.
  - apply Hfw, Sfw.
  - apply Hxc, Sxc.
  - unfold wb_pkt_handler. change (length [m]) with 1%nat. rewrite El. cbn [mbind option_bind].
    assert (first_session (burst_of [m] lk s) = true) as ->.
    { apply first_session_lookup. exists p. destruct (lk_sess lk) as [|o [|o' ss]]; cbn in Ll; [lia| |lia]. cbn in Sse. by rewrite Sse. }
    rewrite Eb. cbn [mbind option_bind]. destruct (stage_error_same snd_err b) as (Em & Edd & _ & Epp).
    eexists _, _. split; [done|]. rewrite Em, Edd, Epp. split; [exact Hbm|]. split; [exact Hbr|]. split; [exact Hbp|].
    by apply (set_macs_data m1 eth1 inner).
Qed.

(** ** Witnesses *)

(** A user plane with one session, of TEID 5, and a resolved next hop. *)
Definition sample_plane : @up_plane simple_mbuf :=
  mk_plane (mk_ds sample_sessions ∅ [] 0 [] []) (mk_usage ∅ []) (mk_acls ∅ [])
    (mk_arps {[ (1, key_ipv4 0) := 1%positive ]} {[ 1%positive := mk_arp (key_ipv4 0) (replicate 6 x07) true None ]} ∅ ∅ ∅)
    0 [] [].

Abbreviation sample_wb := (wb_pkt_handler (sample_app 0x0a000001 x01 0 0) sample_l2 sample_tables Z (fun _ _ _ => 10)
  (fun _ => mk_acl Z (Some (0, true)) None) 100 (fun _ => 0) (fun _ => sample_env) 16 16 true).

Lemma forwarded_by_an_open_rule_witness :
  exists b, sample_wb [sample_tunnelled 5] sample_plane = Some b /\ ISSET_BIT (bu_mask b) 0 = true /\
    forwarded b 0 sample_sessions (ul_slot (sample_app 0x0a000001 x01 0 0) sample_tables sample_sessions (sample_tunnelled 5)) UPLINK.
Proof.
  assert (is_Some (sample_wb [sample_tunnelled 5] sample_plane)) as [b E] by (apply is_Some_alt; vm_compute; exact I).
  assert (ISSET_BIT (bu_mask b) 0 = true) as Hb.
  { apply (f_equal (fun o => match o with Some b => ISSET_BIT (bu_mask b) 0 | None => false end)) in E. rewrite <- E. vm_compute. reflexivity. }
  exists b. split; [done|]. split; [exact Hb|].
  apply (proj1 (forwarded_by_an_open_rule (sample_app 0x0a000001 x01 0 0) sample_l2 sample_tables Z (fun _ _ _ => 10)
    (fun _ => mk_acl Z (Some (0, true)) None) 100 (fun _ => 0) (fun _ => sample_env) sample_create 16 16 true
    [sample_tunnelled 5] sample_plane b (sample_tunnelled 5) sample_tables_ok ltac:(cbn; lia) eq_refl)
    ltac:(vm_compute; discriminate) E 0%nat (sample_tunnelled 5) eq_refl Hb).
Defined.

(** The packet of TEID 5 follows one of an unknown TEID. *)
Lemma first_packet_without_session_stops_burst_witness :
  exists b, sample_wb [sample_tunnelled 6; sample_tunnelled 5] sample_plane = Some b /\
    bu_pkts b = [sample_tunnelled 6; sample_tunnelled 5] /\ ISSET_BIT (bu_mask b) 1 = true.
Proof.
  destruct (proj1 (first_packet_without_session_stops_burst (sample_app 0x0a000001 x01 0 0) sample_l2 sample_tables Z (fun _ _ _ => 10)
    (fun _ => mk_acl Z (Some (0, true)) None) 100 (fun _ => 0) (fun _ => sample_env) sample_create 16 16 true
    [sample_tunnelled 6; sample_tunnelled 5] sample_plane (sample_tunnelled 6) sample_tables_ok ltac:(cbn; lia) eq_refl)
    ltac:(vm_compute; reflexivity)) as (b & errs & E & Ep & _ & _ & Hb).
  exists b. split; [exact E|]. split; [exact Ep|]. rewrite (Hb 1%nat _ eq_refl). vm_compute. reflexivity.
Defined.

(** The packet of TEID 5, with the headers of a peer, for the user data [sample_inner]. *)
Definition sample_inner : list byte := x45 :: replicate 19 x00.
Definition sample_wire : list byte :=
  replicate 14 x00 ++ ipv4_header 56 IP_PROTO_UDP 0x0a000009 0x0a000001 0 ++ udp_header UDP_PORT_GTPU UDP_PORT_GTPU 36 0 ++
  gtpu_header (out_mode 0) 5 20 0 ++ sample_inner.
Definition sample_arrived : simple_mbuf := mk_simple [] (sample_ether ETHER_TYPE_IPv4_be ++ drop ETH_HDR_SIZE sample_wire).

Lemma uplink_packet_reaches_network_witness :
  exists b m'', sample_wb [sample_arrived] sample_plane = Some b /\ bu_pkts b = [m''] /\
    mdata m'' = replicate 6 x07 ++ replicate 6 x0a ++ [x08; x00] ++ sample_inner.
Proof.
  set (app := sample_app 0x0a000001 x01 0 0).
  destruct (fst (gtpu_decap_pkt app sample_arrived (mk_meta 0 enb_unset))) as [m' meta'] eqn:Ed.
  assert (m' = fst (fst (gtpu_decap_pkt app sample_arrived (mk_meta 0 enb_unset)))) as Em by (by rewrite Ed).
  vm_compute in Em.
  destruct (uplink_packet_reaches_network app sample_l2 sample_tables Z (fun _ _ _ => 10)
    (fun _ => mk_acl Z (Some (0, true)) None) 100 (fun _ => 0) (fun _ => sample_env) 16 16 true
    sample_arrived m' meta' sample_plane 0 0x0a000009 0x0a000001 5 0 sample_inner sample_wire (sample_ether ETHER_TYPE_IPv4_be)
    1%positive (mk_sess [sample_pdr (Some (sample_far 0)) 0 []] CONNECTED 4 0 0 false [7; 8] None) (sample_pdr (Some (sample_far 0)) 0 []) (sample_pdr (Some (sample_far 0)) 0 [])
    (key_ipv4 0) 0x0800 1%positive None (replicate 6 x07)) as (b & m'' & E & _ & _ & Ep & Eo);
    [..|exists b, m''; exact (conj E (conj Ep Eo))]; try (vm_compute; by repeat split); try (vm_compute; by left).
  - exists (replicate 14 x00), 0, 0. by vm_compute.
  - exact sample_tables_ok.
  - repeat constructor; try done; by eexists.
  - by rewrite Em.
Defined.
