(* ===== verification/SeidList.v ===== *)
(** * The sessions of a connection-set identifier

    [pfcp_messages/seid_llist.c], the tables [seids_by_csid_hash] and
    [seid_by_peer_csid_hash] of [pfcp_messages/csid_init.c], and the functions
    that link a session to a CSID ([pfcp_messages/csid_api.c],
    [pfcp_messages/pfcp_up_sess.c]).

    Each CSID, local or of a peer, has a list of the (control plane, user plane)
    session ids set up with it, newest first: a new node is put in front of the
    head and becomes the entry of the table.  The nodes live in a heap as in
    [LList]; an allocation's address (and, for memory that is not zeroed, its
    contents) and the return code of an insertion are arguments. *)

From S2P Require Import Prelude NodeAddr LList.

Definition ADD_NODE : Z := 0.
Definition UPDATE_NODE : Z := 1.
Definition REMOVE_NODE : Z := 2.

Record sess_csid := mk_sess_csid { cp_seid : Z; up_seid : Z }.

Record peer_csid_key_t := mk_peer_csid_key {
  iface : Z;
  peer_local_csid : Z;
  peer_node_addr : node_address_t
}.

#[export] Instance peer_csid_key_eq_decision : EqDecision peer_csid_key_t.
Proof. solve_decision. Defined.

Definition node_addr_code (a : node_address_t) : Z * Z * list Z :=
  (ip_type a, ipv4_addr a, byte_to_Z <$> ipv6_addr a).
Definition node_addr_decode (c : Z * Z * list Z) : node_address_t :=
  let '(t, v4, v6) := c in mk_node_address t v4 (byte_of_Z <$> v6).

#[export] Instance node_address_countable : Countable node_address_t.
Proof.
  apply (inj_countable' node_addr_code node_addr_decode).
  intros [t v4 v6]. cbn. f_equal. rewrite <- list_fmap_compose. rewrite <- (list_fmap_id v6) at 2.
  apply list_fmap_ext. intros i b _. apply byte_of_to_Z.
Defined.

#[export] Instance peer_csid_key_countable : Countable peer_csid_key_t :=
  inj_countable' (fun k => (iface k, peer_local_csid k, peer_node_addr k))
    (fun '(i, c, a) => mk_peer_csid_key i c a) ltac:(by intros []).

(** The key that [seids_by_csid_hash], whose keys are two bytes, takes from a
    pointer to a [peer_csid_key_t]: the packed structure starts with the byte
    [iface] and the two bytes of [peer_local_csid]. *)
Definition key16 (k : peer_csid_key_t) : Z :=
  le_val (take 2 (le_bytes 1 (iface k) ++ le_bytes 2 (peer_local_csid k))).

Record csid_state := mk_csid_state {
  seids : heap sess_csid;
  seids_by_csid_hash : gmap Z ptr;
  seid_by_peer_csid_hash : gmap peer_csid_key_t ptr
}.

Definition set_seids (s : csid_state) h := mk_csid_state h (seids_by_csid_hash s) (seid_by_peer_csid_hash s).
Definition set_by_csid (s : csid_state) m := mk_csid_state (seids s) m (seid_by_peer_csid_hash s).
Definition set_by_peer (s : csid_state) m := mk_csid_state (seids s) (seids_by_csid_hash s) m.

(** ** [seid_llist.c] *)

Definition insert_sess_csid_data_node (h : heap sess_csid) (head new_node : ptr)
    : option (heap sess_csid * Z) :=
  match new_node with
  | None => Some (h, -1)
  | Some l =>
    h ← set_next h l None;
    match head with
    | None => h ← set_next h l None; Some (h, 0)
    | Some _ => h ← set_next h l head; Some (h, 0)
    end
  end.

(** [rte_malloc_socket] does not clear the memory: its contents come with the
    address. *)
Definition add_sess_csid_data_node (s : csid_state) (head : ptr) (local_csid : Z)
    (malloc : option (loc * node sess_csid)) (add_ret : Z) : option (csid_state * ptr) :=
  match head with
  | None => Some (s, None)
  | Some _ =>
    match malloc with
    | None => Some (s, None)
    | Some (l, n) =>
      '(h, ret) ← insert_sess_csid_data_node (<[l := n]> (seids s)) head (Some l);
      if decide (ret < 0) then Some (set_seids s h, None)
      else if decide (add_ret = 0) then
        Some (set_by_csid (set_seids s h) (<[local_csid := Some l]> (seids_by_csid_hash s)), Some l)
      else Some (set_seids s h, None)
    end
  end.

Definition add_peer_csid_sess_data_node (s : csid_state) (head : ptr) (key : peer_csid_key_t)
    (malloc : option (loc * node sess_csid)) (add_ret : Z) : option (csid_state * ptr) :=
  match head with
  | None => Some (s, None)
  | Some _ =>
    match malloc with
    | None => Some (s, None)
    | Some (l, n) =>
      '(h, ret) ← insert_sess_csid_data_node (<[l := n]> (seids s)) head (Some l);
      if decide (ret < 0) then Some (set_seids s h, None)
      else if decide (add_ret = 0) then
        Some (set_by_csid (set_seids s h) (<[key16 key := Some l]> (seids_by_csid_hash s)), Some l)
      else Some (set_seids s h, None)
    end
  end.

Definition seid_match (seid : Z) (x : sess_csid) : bool :=
  bool_decide (cp_seid x = seid) || bool_decide (up_seid x = seid).

Fixpoint get_loop (fuel : nat) (h : heap sess_csid) (current : ptr) (seid : Z) : option ptr :=
  match fuel with
  | O => None
  | S fuel =>
    match current with
    | None => Some None
    | Some c => n ← h !! c; if seid_match seid (val n) then Some (Some c) else get_loop fuel h (next n) seid
    end
  end.

Definition get_sess_csid_data_node (h : heap sess_csid) (head : ptr) (seid : Z) : option ptr :=
  get_loop (fuel_of h) h head seid.

Definition remove_sess_csid_first_node (h : heap sess_csid) (head : ptr) : option (heap sess_csid * ptr) :=
  match head with
  | None => Some (h, None)
  | Some current =>
    n ← h !! current;
    let tmp := next n in
    h ← set_next h current None;
    h ← rte_free h current;
    Some (h, tmp)
  end.

Definition remove_sess_csid_last_node (h : heap sess_csid) (head : ptr) : option (heap sess_csid * ptr) :=
  match head with
  | None => Some (h, None)
  | Some hd =>
    '(last, current) ← find_last (fuel_of h) h (Some hd) hd;
    h ← match last with Some l => set_next h l None | None => Some h end;
    h ← rte_free h current;
    Some (h, head)
  end.

Fixpoint remove_loop (fuel : nat) (h : heap sess_csid) (head previous current : ptr) (seid : Z)
    : option (heap sess_csid * ptr) :=
  match fuel with
  | O => None
  | S fuel =>
    match current with
    | None => Some (h, head)
    | Some c =>
      n ← h !! c;
      if seid_match seid (val n) then
        if decide (current = head) then remove_sess_csid_first_node h head
        else match next n with
        | None => remove_sess_csid_last_node h head
        | Some _ =>
          p ← previous;
          h ← set_next h p (next n);
          h ← set_next h c None;
          h ← rte_free h c;
          Some (h, head)
        end
      else remove_loop fuel h head current (next n) seid
    end
  end.

Definition remove_sess_csid_data_node (h : heap sess_csid) (head : ptr) (seid : Z)
    : option (heap sess_csid * ptr) :=
  match head with
  | None => Some (h, None)
  | Some _ => remove_loop (fuel_of h) h head None head seid
  end.

Fixpoint flush_loop (fuel : nat) (h : heap sess_csid) (tmp : ptr) : option (heap sess_csid) :=
  match fuel with
  | O => None
  | S fuel =>
    match tmp with
    | None => Some h
    | Some c => n ← h !! c; h ← rte_free h c; flush_loop fuel h (next n)
    end
  end.

Definition flush_sess_csid_data_list (h : heap sess_csid) (head : ptr) : option (heap sess_csid * Z) :=
  match head with
  | None => Some (h, 0)
  | Some hd =>
    n ← h !! hd;
    h ← set_next h hd None;
    h ← flush_loop (fuel_of h) h (next n);
    Some (h, 0)
  end.

(** ** The tables ([csid_init.c]) *)

Section Tables.
Context {K : Type} `{Countable K}.

(** [get_sess_csid_entry] and [get_sess_peer_csid_entry] on their tables:
    heap, table and entry. *)
Definition get_entry (h : heap sess_csid) (m : gmap K ptr) (key : K) (is_mod : Z)
    (zmalloc : option loc) (add_ret : Z) : option (heap sess_csid * gmap K ptr * ptr) :=
  match m !! key with
  | Some (Some p) => Some (h, m, Some p)
  | _ =>
    if decide (is_mod <> ADD_NODE) then Some (h, m, None) else
    match zmalloc with
    | None => Some (h, m, None)
    | Some l =>
      let h := <[l := mk_node (mk_sess_csid 0 0) None]> h in
      if decide (add_ret = 0) then
        let m := <[key := Some l]> m in
        '(h, ret) ← insert_sess_csid_data_node h None (Some l);
        Some (h, m, Some l)
      else Some (h, m, None)
    end
  end.
End Tables.

Definition add_sess_csid_entry (s : csid_state) (csid : Z) (p : ptr) (add_ret : Z) : option (csid_state * Z) :=
  match seids_by_csid_hash s !! csid with
  | None =>
    if decide (add_ret = 0) then Some (set_by_csid s (<[csid := p]> (seids_by_csid_hash s)), 0)
    else Some (s, -1)
  | Some tmp =>
    t ← tmp; q ← p; n ← seids s !! q; _ ← seids s !! t;
    Some (set_seids s (<[t := n]> (seids s)), 0)
  end.

Definition get_sess_csid_entry (s : csid_state) (csid is_mod : Z) zmalloc add_ret : option (csid_state * ptr) :=
  '(h, m, p) ← get_entry (seids s) (seids_by_csid_hash s) csid is_mod zmalloc add_ret;
  Some (set_by_csid (set_seids s h) m, p).

Definition get_sess_peer_csid_entry (s : csid_state) (key : peer_csid_key_t) (is_mod : Z) zmalloc add_ret
    : option (csid_state * ptr) :=
  '(h, m, p) ← get_entry (seids s) (seid_by_peer_csid_hash s) key is_mod zmalloc add_ret;
  Some (set_by_peer (set_seids s h) m, p).

Definition del_sess_csid_entry (s : csid_state) (csid : Z) : option (csid_state * Z) :=
  match seids_by_csid_hash s !! csid with
  | None => Some (s, -1)
  | Some tmp =>
    let s := set_by_csid s (delete csid (seids_by_csid_hash s)) in
    match tmp with
    | None => Some (s, 0)
    | Some p =>
      n ← seids s !! p;
      if decide (up_seid (val n) <> 0) then h ← rte_free (seids s) p; Some (set_seids s h, 0)
      else Some (s, 0)
    end
  end.

Definition del_sess_peer_csid_entry (s : csid_state) (key : peer_csid_key_t) : option (csid_state * Z) :=
  match seid_by_peer_csid_hash s !! key with
  | None => Some (s, -1)
  | Some tmp =>
    let s := set_by_peer s (delete key (seid_by_peer_csid_hash s)) in
    match tmp with
    | None => Some (s, 0)
    | Some p =>
      n ← seids s !! p;
      if decide (up_seid (val n) <> 0 /\ next n <> None)
      then h ← rte_free (seids s) p; Some (set_seids s h, 0)
      else Some (s, 0)
    end
  end.

(** ** Linking a session to a CSID

    The allocations of one call: the zeroed node of a new entry and the node
    behind which the list of an existing one grows. *)
Record allocs := mk_allocs {
  a_zmalloc : option loc; a_zadd : Z;
  a_malloc : option (loc * node sess_csid); a_add : Z
}.

(** The two branches after the entry is found: [id] selects the session id the
    head is compared by ([up_seid] in the user plane, [cp_seid] in the control
    plane), [add] is the call that adds a node. *)
Definition link_node (id : sess_csid -> Z) (add : csid_state -> ptr -> option (csid_state * ptr))
    (s : csid_state) (tmp : ptr) (sess : sess_csid) (fail : Z) : option (csid_state * Z) :=
  match tmp with
  | None => Some (s, fail)
  | Some t =>
    n ← seids s !! t;
    if decide (id (val n) <> id sess /\ id (val n) <> 0) then
      '(s, new_node) ← add s tmp;
      match new_node with
      | None => Some (s, fail)
      | Some l => m ← seids s !! l; Some (set_seids s (<[l := mk_node sess (next m)]> (seids s)), 0)
      end
    else Some (set_seids s (<[t := mk_node sess None]> (seids s)), 0)
  end.

(** The linking of [process_up_session_estab_req] for the local CSID [csid]. *)
Definition link_dp_sess_with_local_csid (s : csid_state) (csid : Z) (sess : sess_csid) (a : allocs)
    : option (csid_state * Z) :=
  '(s, tmp) ← get_sess_csid_entry s csid ADD_NODE (a_zmalloc a) (a_zadd a);
  link_node up_seid (fun s tmp => add_sess_csid_data_node s tmp csid (a_malloc a) (a_add a)) s tmp sess (-1).

Definition link_dp_sess_with_peer_csid (s : csid_state) (key : peer_csid_key_t) (sess : sess_csid) (a : allocs)
    : option (csid_state * Z) :=
  '(s, tmp) ← get_sess_peer_csid_entry s key ADD_NODE (a_zmalloc a) (a_zadd a);
  link_node up_seid (fun s tmp => add_peer_csid_sess_data_node s tmp key (a_malloc a) (a_add a)) s tmp sess (-1).

Definition GTPV2C_CAUSE_SYSTEM_FAILURE : Z := 72.

Definition link_sess_with_peer_csid (s : csid_state) (key : peer_csid_key_t) (sess : sess_csid) (a : allocs)
    : option (csid_state * Z) :=
  '(s, tmp) ← get_sess_peer_csid_entry s key ADD_NODE (a_zmalloc a) (a_zadd a);
  link_node cp_seid (fun s tmp => add_peer_csid_sess_data_node s tmp key (a_malloc a) (a_add a)) s tmp sess
    GTPV2C_CAUSE_SYSTEM_FAILURE.

(** ** Specification *)

(** The list without its first session with the id [seid]. *)
Fixpoint drop_match (seid : Z) (xs : list (loc * sess_csid)) : list (loc * sess_csid) :=
  match xs with
  | [] => []
  | x :: xs => if seid_match seid x.2 then xs else x :: drop_match seid xs
  end.

(** The first node of [xs] with the id [seid]. *)
Fixpoint find_match (seid : Z) (xs : list (loc * sess_csid)) : ptr :=
  match xs with
  | [] => None
  | x :: xs => if seid_match seid x.2 then Some x.1 else find_match seid xs
  end.

Definition option_set (p : ptr) : gset loc := match p with Some l => {[l]} | None => ∅ end.

(** Linking the sessions [ss], in this order, to a local CSID. *)
Fixpoint link_all (s : csid_state) (csid : Z) (ss : list (sess_csid * allocs)) : option csid_state :=
  match ss with
  | [] => Some s
  | (x, a) :: ss =>
    '(s, ret) ← link_dp_sess_with_local_csid s csid x a;
    if decide (ret = 0) then link_all s csid ss else None
  end.

(** A session to link, with the address and the old contents of its node. *)
Record new_sess := mk_new { ns_sess : sess_csid; ns_loc : loc; ns_node : node sess_csid }.

Definition ns_alloc (x : new_sess) : sess_csid * allocs :=
  (ns_sess x, mk_allocs (Some (ns_loc x)) 0 (Some (ns_loc x, ns_node x)) 0).

Definition ns_entry (x : new_sess) : loc * sess_csid := (ns_loc x, ns_sess x).

(** A state whose peer CSID 5 of the node 10.0.0.1 holds one session; and two
    sessions to link. *)
Definition wit_peer_key : peer_csid_key_t :=
  mk_peer_csid_key 2 5 (mk_node_address 1 0x0100000a ipv6_zero).
Definition wit_csid_state : csid_state :=
  mk_csid_state {[ 1%positive := mk_node (mk_sess_csid 7 9) None ]} ∅ {[ wit_peer_key := Some 1%positive ]}.
Definition wit_new1 : new_sess := mk_new (mk_sess_csid 11 12) 2 (mk_node (mk_sess_csid 0 0) None).
Definition wit_new2 : new_sess := mk_new (mk_sess_csid 21 22) 3 (mk_node (mk_sess_csid 5 5) None).

(** ** Lemmas *)

Lemma get_loop_list fuel h p xs seid :
  is_list h p xs -> (length xs < fuel)%nat -> get_loop fuel h p seid = Some (find_match seid xs).
Proof.
  unfold is_list. revert fuel p; induction xs as [|[l v] xs IH]; intros [|fuel] p Hl Hf; cbn in *; try lia.
  - by subst p.
  - destruct Hl as (-> & p' & E & Hs). rewrite E. cbn. destruct (seid_match seid v); [done|].
    apply IH; [done|lia].
Qed.

Lemma get_node_list h p xs seid :
  is_list h p xs -> get_sess_csid_data_node h p seid = Some (find_match seid xs).
Proof. intros Hl. apply get_loop_list; [done|by eapply is_list_fuel]. Qed.

Lemma find_match_in seid xs l x : (l, x) ∈ xs -> seid_match seid x = true -> find_match seid xs <> None.
Proof.
  induction xs as [|y xs IH]; intros Hin Hm; [by apply not_elem_of_nil in Hin|]. cbn.
  apply elem_of_cons in Hin as [<-|Hin]; [by cbn; rewrite Hm|].
  destruct (seid_match seid y.2); [done|auto].
Qed.

Lemma last_node_agrees h hd a c w nd v :
  is_list h (Some hd) (a ++ [(c, w); (nd, v)]) -> hd <> nd ->
  remove_sess_csid_last_node h (Some hd) = remove_last_node h (Some hd).
Proof.
  intros Hl Hne. pose proof (is_list_fuel _ _ _ Hl) as Hf.
  change [(c, w); (nd, v)] with ([(c, w)] ++ [(nd, v)]) in *. rewrite app_assoc in *.
  rewrite length_app in Hf. cbn in Hf.
  unfold remove_sess_csid_last_node, remove_last_node.
  rewrite !(find_last_lseg _ _ _ _ _ _ _ Hl), !last_loc_snoc by lia. cbn.
  by rewrite decide_False.
Qed.

Lemma remove_sess_first_list h l x xs :
  is_list h (Some l) ((l, x) :: xs) ->
  exists p, remove_sess_csid_first_node h (Some l) = Some (delete l h, p) /\ is_list (delete l h) p xs.
Proof.
  intros Hl. pose proof (is_list_NoDup _ _ _ Hl) as [Hn _]%NoDup_cons.
  destruct Hl as (_ & p & E & Hs). exists p. unfold remove_sess_csid_first_node. rewrite E. cbn.
  erewrite set_next_lookup by done. cbn. erewrite rte_free_lookup by apply lookup_insert_eq. cbn.
  rewrite delete_insert_eq. split; [done|]. eapply lseg_frame; [|exact Hs].
  intros m Hm. apply lookup_delete_ne. by intros ->.
Qed.

(** What removing the first match from [xs] does to the heap. *)
Definition match_removed (seid : Z) (h h' : heap sess_csid) xs : Prop :=
  agree_off xs.*1 h h' /\ dom h' = dom h ∖ option_set (find_match seid xs) /\
  (find_match seid xs = None -> h' = h).

Lemma removed_match seid h h' nd xs :
  removed h h' nd xs -> find_match seid xs = Some nd -> match_removed seid h h' xs.
Proof.
  intros (Hn & Hag & Hd) Hf. split; [done|]. rewrite Hf. by split.
Qed.

Lemma find_match_app seid a b :
  Forall (fun x => seid_match seid x.2 = false) a -> find_match seid (a ++ b) = find_match seid b.
Proof. induction 1 as [|[l x] a Hx _ IH]; [done|]. cbn in *. by rewrite Hx. Qed.

Lemma remove_loop_list fuel h head a current b seid :
  is_list h head (a ++ b) -> lseg h head a current -> is_list h current b ->
  Forall (fun x => seid_match seid x.2 = false) a -> (length b < fuel)%nat ->
  exists h' head', remove_loop fuel h head (last_loc None a) current seid = Some (h', head')
    /\ is_list h' head' (a ++ drop_match seid b) /\ match_removed seid h h' (a ++ b).
Proof.
  revert fuel a current. induction b as [|[c x] b IH]; intros [|fuel] a current Hl Ha Hb Hna Hf; cbn in Hf; try lia.
  - cbn in Hb. subst current. cbn. exists h, head. split; [done|]. split; [done|].
    split; [done|]. rewrite find_match_app by done. cbn. split; [set_solver|done].
  - destruct Hb as (-> & r & E & Hb). cbn [remove_loop]. rewrite E. cbn [mbind option_bind val next].
    cbn [drop_match snd]. destruct (seid_match seid x) eqn:Hm.
    + assert (find_match seid (a ++ (c, x) :: b) = Some c) as Hfm by (rewrite find_match_app by done; cbn; by rewrite Hm).
      destruct a as [|y a].
      * cbn in Ha. subst head. rewrite decide_True by done.
        destruct (remove_sess_first_list h c x b Hl) as (p & Hr & Hl'). exists (delete c h), p.
        split; [done|]. split; [done|]. eapply removed_match; [|exact Hfm].
        split; [apply lookup_delete_eq|]. split; [|apply dom_delete_L].
        intros m Hm'. cbn in Hm'. apply not_elem_of_cons in Hm' as [? _]. by apply lookup_delete_ne.
      * destruct (list_nonempty_snoc y a) as (a' & [p w] & Ea). rewrite Ea in *. clear Ea y a.
        rewrite last_loc_snoc. cbn [fst mbind option_bind]. rewrite <- !app_assoc in *. cbn [app] in *.
        assert (exists hd, head = Some hd) as [hd ->] by (destruct a' as [|[??] ?]; destruct Ha; eauto).
        assert (hd <> c) as Hne.
        { intros ->. pose proof (is_list_NoDup _ _ _ Hl) as ND. rewrite fmap_app in ND.
          apply NoDup_app in ND as (_ & Hd & [Hx _]%NoDup_cons). destruct a' as [|[m u] a'].
          - destruct Ha as [[= ->] _]. apply Hx. constructor.
          - destruct Ha as [[= ->] _]. apply (Hd m); cbn; repeat constructor. }
        rewrite decide_False by congruence. destruct r as [r'|].
        { destruct (unlink_node_list h hd a' p w c x b (Some r') Hl E) as (h' & Hr & Hl' & Hrm).
          exists h', (Some hd). split; [exact Hr|]. split; [exact Hl'|].
          eapply removed_match; [exact Hrm|exact Hfm]. }
        { assert (b = []) as -> by (by destruct b as [|[??] ?]; [|destruct Hb]).
          destruct (remove_last_node_list h hd a' p w c x Hl Hne) as (h' & Hr & Hl' & Hrm).
          exists h', (Some hd). erewrite last_node_agrees by done. split; [exact Hr|]. split; [exact Hl'|].
          eapply removed_match; [exact Hrm|exact Hfm]. }
    + assert (last_loc None (a ++ [(c, x)]) = Some c) as <- by (by rewrite last_loc_snoc).
      change ((c, x) :: b) with ([(c, x)] ++ b) in *. change ((c, x) :: drop_match seid b) with ([(c, x)] ++ drop_match seid b).
      rewrite !app_assoc in *.
      apply IH; [done| |done| |lia].
      * apply lseg_snoc. by split.
      * apply Forall_app. split; [done|]. by constructor.
Qed.

Lemma flush_loop_list fuel h p xs :
  is_list h p xs -> (length xs < fuel)%nat ->
  exists h', flush_loop fuel h p = Some h' /\
    forall l, h' !! l = if decide (l ∈ xs.*1) then None else h !! l.
Proof.
  revert fuel h p; induction xs as [|[l v] xs IH]; intros [|fuel] h p Hl Hf; cbn in Hf; try lia.
  - cbn in Hl. subst p. exists h. split; [done|]. intros l. by rewrite decide_False by apply not_elem_of_nil.
  - pose proof (is_list_NoDup _ _ _ Hl) as [Hn _]%NoDup_cons.
    destruct Hl as (-> & p' & E & Hs). cbn [flush_loop]. rewrite E. cbn [mbind option_bind next].
    erewrite rte_free_lookup by done. cbn [mbind option_bind].
    destruct (IH fuel (delete l h) p') as (h' & -> & Hh); [|lia|].
    { eapply lseg_frame; [|exact Hs]. intros m Hm. apply lookup_delete_ne. by intros ->. }
    exists h'. split; [done|]. intros m. rewrite Hh. destruct (decide (m ∈ xs.*1)) as [Hm|Hm].
    + rewrite decide_True; [done|]. cbn. by right.
    + destruct (decide (m = l)) as [->|Hne].
      * rewrite decide_True by (cbn; constructor). apply lookup_delete_eq.
      * rewrite decide_False; [by apply lookup_delete_ne|]. cbn. by intros [|]%elem_of_cons.
Qed.

Lemma insert_front h l n hd :
  insert_sess_csid_data_node (<[l := n]> h) (Some hd) (Some l)
  = Some (<[l := mk_node (val n) (Some hd)]> h, 0).
Proof.
  unfold insert_sess_csid_data_node. destruct n as [v q].
  erewrite set_next_lookup by apply lookup_insert_eq. cbn.
  erewrite set_next_lookup by apply lookup_insert_eq. cbn.
  by rewrite !insert_insert_eq.
Qed.

(** An existing entry, whose head is another session, grows by a node. *)
Lemma link_node_grows id add s hd x xs sess fail l n s1 :
  is_list (seids s) (Some hd) ((hd, x) :: xs) -> id x <> id sess -> id x <> 0 ->
  seids s !! l = None ->
  add s (Some hd) = Some (s1, Some l) -> seids s1 = <[l := mk_node n (Some hd)]> (seids s) ->
  exists s', link_node id add s (Some hd) sess fail = Some (s', 0)
    /\ is_list (seids s') (Some l) ((l, sess) :: (hd, x) :: xs)
    /\ is_list (seids s') (Some hd) ((hd, x) :: xs)
    /\ agree_off [l] (seids s) (seids s')
    /\ seids_by_csid_hash s' = seids_by_csid_hash s1
    /\ seid_by_peer_csid_hash s' = seid_by_peer_csid_hash s1.
Proof.
  intros Hl H1 H2 Hn Ha Hs. pose proof Hl as (_ & r & E & _). unfold link_node. rewrite E. cbn [mbind option_bind val].
  rewrite decide_True by done. rewrite Ha. cbn [mbind option_bind]. rewrite Hs, lookup_insert_eq.
  cbn [mbind option_bind next]. rewrite insert_insert_eq. eexists. split; [done|]. cbn [seids set_seids].
  assert (is_list (<[l := mk_node sess (Some hd)]> (seids s)) (Some hd) ((hd, x) :: xs)) as Hl'.
  { eapply lseg_frame; [|exact Hl]. intros m Hm. apply lookup_insert_ne. intros <-.
    apply list_elem_of_fmap in Hm as ([? v] & -> & Hm). destruct (lseg_in _ _ _ _ _ _ Hl Hm) as [? Eq].
    cbn in Hn. congruence. }
  split; [|split; [done|split; [|done]]].
  - split; [done|]. exists (Some hd). split; [apply lookup_insert_eq|done].
  - intros m Hm. apply lookup_insert_ne. apply not_elem_of_cons in Hm as [? _]. done.
Qed.

Lemma link_local_first s csid x :
  seids_by_csid_hash s !! csid = None -> seids s !! ns_loc x = None ->
  exists s', link_dp_sess_with_local_csid s csid (ns_alloc x).1 (ns_alloc x).2 = Some (s', 0)
    /\ is_list (seids s') (Some (ns_loc x)) [ns_entry x]
    /\ agree_off [ns_loc x] (seids s) (seids s')
    /\ seids_by_csid_hash s' = <[csid := Some (ns_loc x)]> (seids_by_csid_hash s)
    /\ seid_by_peer_csid_hash s' = seid_by_peer_csid_hash s.
Proof.
  intros Ht Hn. unfold link_dp_sess_with_local_csid, get_sess_csid_entry, get_entry. cbn [ns_alloc fst snd a_zmalloc a_zadd].
  rewrite Ht, decide_False, decide_True by (unfold ADD_NODE; lia). cbn [mbind option_bind].
  unfold insert_sess_csid_data_node. erewrite set_next_lookup by apply lookup_insert_eq. cbn [mbind option_bind].
  erewrite set_next_lookup by apply lookup_insert_eq. cbn [mbind option_bind].
  unfold link_node. cbn [seids set_by_csid set_seids]. rewrite !insert_insert_eq, lookup_insert_eq.
  cbn [mbind option_bind val up_seid]. rewrite decide_False by tauto.
  eexists. split; [done|]. cbn [seids seids_by_csid_hash seid_by_peer_csid_hash set_by_csid set_seids].
  split; [|split; [|done]].
  - split; [done|]. exists None. split; [apply lookup_insert_eq|done].
  - intros m Hm. apply lookup_insert_ne. apply not_elem_of_cons in Hm as [? _]. done.
Qed.

Lemma link_local_next s csid hd y ys x :
  seids_by_csid_hash s !! csid = Some (Some hd) -> is_list (seids s) (Some hd) ((hd, y) :: ys) ->
  up_seid y <> up_seid (ns_sess x) -> up_seid y <> 0 -> seids s !! ns_loc x = None ->
  exists s', link_dp_sess_with_local_csid s csid (ns_alloc x).1 (ns_alloc x).2 = Some (s', 0)
    /\ is_list (seids s') (Some (ns_loc x)) (ns_entry x :: (hd, y) :: ys)
    /\ agree_off [ns_loc x] (seids s) (seids s')
    /\ seids_by_csid_hash s' = <[csid := Some (ns_loc x)]> (seids_by_csid_hash s)
    /\ seid_by_peer_csid_hash s' = seid_by_peer_csid_hash s.
Proof.
  intros Ht Hl H1 H2 Hn. unfold link_dp_sess_with_local_csid, get_sess_csid_entry, get_entry.
  rewrite Ht. cbn [mbind option_bind ns_alloc fst snd a_malloc a_add]. 
  replace (set_by_csid (set_seids s (seids s)) (seids_by_csid_hash s)) with s by (by destruct s).
  destruct (link_node_grows up_seid
    (fun s tmp => add_sess_csid_data_node s tmp csid (Some (ns_loc x, ns_node x)) 0)
    s hd y ys (ns_sess x) (-1) (ns_loc x) (val (ns_node x))
    (set_by_csid (set_seids s (<[ns_loc x := mk_node (val (ns_node x)) (Some hd)]> (seids s)))
      (<[csid := Some (ns_loc x)]> (seids_by_csid_hash s)))) as (s' & Hr & Hl' & _ & Hag & Hc & Hp); try done.
  { unfold add_sess_csid_data_node. by rewrite insert_front. }
  exists s'. split; [exact Hr|]. split; [exact Hl'|]. split; [done|]. by rewrite Hc, Hp.
Qed.

Lemma link_all_next s csid hd y ys xs :
  seids_by_csid_hash s !! csid = Some (Some hd) -> is_list (seids s) (Some hd) ((hd, y) :: ys) ->
  up_seid y <> 0 -> Forall (fun x => up_seid (ns_sess x) <> 0 /\ seids s !! ns_loc x = None) xs ->
  NoDup (up_seid y :: (up_seid ∘ ns_sess <$> xs)) -> NoDup (ns_loc <$> xs) ->
  exists s' head, link_all s csid (ns_alloc <$> xs) = Some s'
    /\ seids_by_csid_hash s' = <[csid := head]> (seids_by_csid_hash s)
    /\ is_list (seids s') head (reverse (ns_entry <$> xs) ++ (hd, y) :: ys)
    /\ seid_by_peer_csid_hash s' = seid_by_peer_csid_hash s.
Proof.
  revert s hd y ys. induction xs as [|x xs IH]; intros s hd y ys Ht Hl H0 Hall Hnd Hloc.
  - exists s, (Some hd). split; [done|]. by rewrite insert_id.
  - apply Forall_cons in Hall as [[Hx Hfresh] Hall].
    apply NoDup_cons in Hnd as [Hy Hnd]. pose proof Hnd as Hnd'. apply NoDup_cons in Hnd' as [Hxx _].
    apply NoDup_cons in Hloc as [Hlx Hloc].
    destruct (link_local_next s csid hd y ys x) as (s1 & Hr & Hl1 & Hag & Hc & Hp); try done.
    { intros E. apply Hy. cbn. rewrite E. constructor. }
    destruct (IH s1 (ns_loc x) (ns_sess x) ((hd, y) :: ys)) as (s' & head & Hr' & Hc' & Hl' & Hp'); try done.
    + rewrite Hc. apply lookup_insert_eq.
    + apply Forall_forall. intros z Hz. rewrite Forall_forall in Hall. destruct (Hall z Hz) as [? Hf].
      split; [done|]. rewrite Hag; [done|]. intros [E|[]%not_elem_of_nil]%elem_of_cons.
      apply Hlx. rewrite <- E. by apply list_elem_of_fmap_2.
    + exists s', head. cbn [fmap list_fmap]. unfold link_all; fold link_all.
      change (ns_alloc x) with ((ns_alloc x).1, (ns_alloc x).2). cbn match. rewrite Hr. cbn [mbind option_bind].
      rewrite decide_True by done. split; [exact Hr'|]. rewrite Hc', Hc, insert_insert_eq.
      split; [done|]. split; [|by rewrite Hp', Hp].
      rewrite reverse_cons, <- app_assoc. exact Hl'.
Qed.

(** ** Theorems *)

(** Linking sessions with different, nonzero user-plane session ids to a
    local CSID that has none: the entry of the CSID ends as the list of all of
    them, newest first, and each session is found by its id. *)
Theorem local_csid_lists_every_session s csid x xs :
  seids_by_csid_hash s !! csid = None ->
  Forall (fun y => up_seid (ns_sess y) <> 0 /\ seids s !! ns_loc y = None) (x :: xs) ->
  NoDup (up_seid ∘ ns_sess <$> x :: xs) -> NoDup (ns_loc <$> x :: xs) ->
  exists s' head, link_all s csid (ns_alloc <$> x :: xs) = Some s'
    /\ seids_by_csid_hash s' = <[csid := head]> (seids_by_csid_hash s)
    /\ is_list (seids s') head (reverse (ns_entry <$> x :: xs))
    /\ seid_by_peer_csid_hash s' = seid_by_peer_csid_hash s
    /\ forall y, y ∈ x :: xs ->
         get_sess_csid_data_node (seids s') head (up_seid (ns_sess y)) <> Some None.
Proof.
  intros Ht [[Hx Hf] Hall]%Forall_cons Hnd [Hlx Hloc]%NoDup_cons.
  destruct (link_local_first s csid x Ht Hf) as (s1 & Hr & Hl & Hag & Hc & Hp).
  destruct (link_all_next s1 csid (ns_loc x) (ns_sess x) [] xs) as (s' & head & Hr' & Hc' & Hl' & Hp'); try done.
  - rewrite Hc. apply lookup_insert_eq.
  - apply Forall_forall. intros z Hz. rewrite Forall_forall in Hall. destruct (Hall z Hz) as [? Hfz].
    split; [done|]. rewrite Hag; [done|]. intros [E|[]%not_elem_of_nil]%elem_of_cons.
    apply Hlx. rewrite <- E. by apply list_elem_of_fmap_2.
  - exists s', head. rewrite Hc, insert_insert_eq, Hp in *.
    assert (is_list (seids s') head (reverse (ns_entry <$> x :: xs))) as Hl2.
    { rewrite fmap_cons, reverse_cons. exact Hl'. }
    split; [|split; [done|split; [done|split; [done|]]]].
    + cbn [fmap list_fmap]. unfold link_all; fold link_all.
      change (ns_alloc x) with ((ns_alloc x).1, (ns_alloc x).2). cbn match. rewrite Hr. cbn [mbind option_bind].
      by rewrite decide_True by done.
    + intros y Hy. rewrite (get_node_list _ _ _ _ Hl2). intros [= E]. revert E.
      apply find_match_in with (ns_loc y) (ns_sess y).
      * apply elem_of_reverse. by apply (list_elem_of_fmap_2 ns_entry (x :: xs) y).
      * unfold seid_match. by rewrite (bool_decide_true (up_seid (ns_sess y) = _)), orb_true_r.
Qed.

(** The lists of a peer's CSID do not grow.  When the entry of a peer CSID
    holds another session, linking a session to it succeeds and builds the
    longer list, but enters its head in the table of the {e local} CSIDs, under
    the two first bytes of the peer key, where it replaces whatever that local
    CSID had; the entry of the peer CSID still holds the old list, in which the
    new session is not found unless it was there before. *)
Theorem peer_csid_loses_session s key hd y ys sess l n :
  seid_by_peer_csid_hash s !! key = Some (Some hd) -> is_list (seids s) (Some hd) ((hd, y) :: ys) ->
  up_seid y <> up_seid sess -> up_seid y <> 0 -> seids s !! l = None ->
  exists s', link_dp_sess_with_peer_csid s key sess (mk_allocs None 0 (Some (l, n)) 0) = Some (s', 0)
    /\ is_list (seids s') (Some l) ((l, sess) :: (hd, y) :: ys)
    /\ seids_by_csid_hash s' = <[key16 key := Some l]> (seids_by_csid_hash s)
    /\ (forall is_mod z r, get_sess_peer_csid_entry s' key is_mod z r = Some (s', Some hd))
    /\ is_list (seids s') (Some hd) ((hd, y) :: ys)
    /\ get_sess_csid_data_node (seids s') (Some hd) (up_seid sess)
       = Some (find_match (up_seid sess) ((hd, y) :: ys)).
Proof.
  intros Ht Hl H1 H2 Hn. unfold link_dp_sess_with_peer_csid, get_sess_peer_csid_entry, get_entry.
  rewrite Ht. cbn [mbind option_bind a_malloc a_add].
  replace (set_by_peer (set_seids s (seids s)) (seid_by_peer_csid_hash s)) with s by (by destruct s).
  destruct (link_node_grows up_seid
    (fun s tmp => add_peer_csid_sess_data_node s tmp key (Some (l, n)) 0)
    s hd y ys sess (-1) l (val n)
    (set_by_csid (set_seids s (<[l := mk_node (val n) (Some hd)]> (seids s)))
      (<[key16 key := Some l]> (seids_by_csid_hash s)))) as (s' & Hr & Hl' & Hold & Hag & Hc & Hp); try done.
  { unfold add_peer_csid_sess_data_node. by rewrite insert_front. }
  exists s'. split; [exact Hr|]. split; [exact Hl'|]. split; [by rewrite Hc|].
  cbn in Hp. split; [|split; [done|by apply get_node_list]].
  intros is_mod z r. rewrite Hp, Ht. cbn [mbind option_bind]. rewrite <- Hp. by destruct s'.
Qed.

(** Removing a session id from a list removes, and frees, the first node
    that has it as its control-plane or its user-plane id, changes nothing when
    there is none, and touches no node off the list; the loops end.  Flushing a
    list frees every node behind the head. *)
Theorem remove_sess_csid_data_node_first_match h head xs seid :
  is_list h head xs ->
  (exists h' head', remove_sess_csid_data_node h head seid = Some (h', head')
     /\ is_list h' head' (drop_match seid xs)
     /\ match_removed seid h h' xs)
  /\ (forall hd v rest, xs = (hd, v) :: rest ->
      exists h', flush_sess_csid_data_list h head = Some (h', 0)
        /\ is_list h' head [(hd, v)]
        /\ forall l, l <> hd -> h' !! l = if decide (l ∈ rest.*1) then None else h !! l).
Proof.
  intros Hl. split.
  - unfold remove_sess_csid_data_node. destruct head as [hd|].
    + apply (remove_loop_list (fuel_of h) h (Some hd) [] (Some hd) xs seid); try done.
      by eapply is_list_fuel.
    + assert (xs = []) as -> by (by destruct xs as [|[??] ?]; [|destruct Hl]).
      exists h, None. split; [done|]. split; [done|]. split; [done|]. split; [set_solver|done].
  - intros hd v rest ->. pose proof (is_list_NoDup _ _ _ Hl) as [Hn _]%NoDup_cons.
    pose proof (is_list_fuel _ _ _ Hl) as Hf. cbn in Hf.
    destruct Hl as (-> & p & E & Hs). unfold flush_sess_csid_data_list. rewrite E. cbn [mbind option_bind].
    erewrite set_next_lookup by done. cbn [mbind option_bind next].
    assert (is_list (<[hd := mk_node v None]> h) p rest) as Hs'.
    { eapply lseg_frame; [|exact Hs]. intros m Hm. apply lookup_insert_ne. by intros ->. }
    destruct (flush_loop_list (fuel_of (<[hd := mk_node v None]> h)) _ p rest Hs') as (h' & -> & Hh).
    { by eapply is_list_fuel. }
    exists h'. split; [done|]. split.
    + split; [done|]. exists None. split; [|done]. rewrite Hh, decide_False by done. apply lookup_insert_eq.
    + intros l Hne. rewrite Hh. case_decide; [done|]. by apply lookup_insert_ne.
Qed.

Lemma local_csid_lists_every_session_witness :
  exists s' head, link_all wit_csid_state 1 (ns_alloc <$> [wit_new1; wit_new2]) = Some s'
    /\ is_list (seids s') head [(3%positive, mk_sess_csid 21 22); (2%positive, mk_sess_csid 11 12)].
Proof.
  destruct (local_csid_lists_every_session wit_csid_state 1 wit_new1 [wit_new2]) as (s' & head & H1 & _ & H2 & _).
  - vm_compute. reflexivity.
  - repeat constructor; done.
  - apply (bool_decide_unpack _). vm_compute. constructor.
  - apply (bool_decide_unpack _). vm_compute. constructor.
  - eauto.
Defined.

Lemma peer_csid_loses_session_witness :
  exists s', link_dp_sess_with_peer_csid wit_csid_state wit_peer_key (mk_sess_csid 11 12)
      (mk_allocs None 0 (Some (2%positive, mk_node (mk_sess_csid 0 0) None)) 0) = Some (s', 0)
    /\ seids_by_csid_hash s' = {[ 0x0502 := Some 2%positive ]}
    /\ get_sess_csid_data_node (seids s') (Some 1%positive) 12 = Some None.
Proof.
  destruct (peer_csid_loses_session wit_csid_state wit_peer_key 1%positive (mk_sess_csid 7 9) []
    (mk_sess_csid 11 12) 2%positive (mk_node (mk_sess_csid 0 0) None)) as (s' & H1 & _ & H2 & _ & _ & H3).
  - vm_compute. reflexivity.
  - cbn. split; [done|]. eexists. split; [vm_compute; reflexivity|done].
  - done.
  - done.
  - vm_compute. reflexivity.
  - exists s'. split; [exact H1|]. split; [rewrite H2; vm_compute; reflexivity|].
    exact H3.
Defined.

Lemma remove_sess_csid_data_node_first_match_witness :
  exists h' head', remove_sess_csid_data_node (seids wit_csid_state) (Some 1%positive) 9 = Some (h', head')
    /\ is_list h' head' [].
Proof.
  destruct (remove_sess_csid_data_node_first_match (seids wit_csid_state) (Some 1%positive)
    [(1%positive, mk_sess_csid 7 9)] 9) as [(h' & head' & H1 & H2 & _) _].
  - cbn. split; [done|]. eexists. split; [vm_compute; reflexivity|done].
  - eauto.
Defined.
