(* ===== verification/CsidLink.v ===== *)
(** * Connection-set identifiers: assignment and links to the peers' identifiers

    A node gives every set of peer nodes a local CSID ([get_csid_entry],
    pfcp_messages/csid_init.c) and remembers, for each CSID that a peer sent, which local
    CSIDs were set up with it (pfcp_messages/csid_peer_init.c, csid_api.c), so that the
    sessions of a peer that fails can be found.  This file has the tables of both planes and
    the functions that keep them; [CsidUp] and [CsidCp] have the linking and the cleanup of
    the user plane and of the control plane.

    The entries are structures that only their table points at, so a table is a map to
    values.  An array [local_csid] of [MAX_CSID] entries with its counter is a list, and
    [None] stands for an access outside the array.  What the allocator and the insertion
    answer for a key is in [csid_env].  The three tables from the CSIDs of peers to local
    CSIDs are one map with the table in the key. *)

From S2P Require Import Prelude NodeAddr LList SeidList.

Definition MAX_CSID : nat := 15.
Definition S11_SGW_PORT_ID : Z := 0.
Definition S5S8_SGWC_PORT_ID : Z := 1.
Definition SX_PORT_ID : Z := 2.
Definition S5S8_PGWC_PORT_ID : Z := 3.
Definition S1U_PORT_ID : Z := 0.
Definition SGI_PORT_ID : Z := 1.
Definition ACCESS : Z := 0.
Definition CORE : Z := 1.

(** ** Data *)

(** [csid_t] and [fqcsid_t]. *)
Record fqcsid_t := mk_fqcsid { local_csid : list Z; node_addr : node_address_t }.
Definition fqcsid_zero : fqcsid_t := mk_fqcsid [] node_addr_zero.
Definition set_csids (l : list Z) (e : fqcsid_t) : fqcsid_t := mk_fqcsid l (node_addr e).
Definition set_addr (a : node_address_t) (e : fqcsid_t) : fqcsid_t := mk_fqcsid (local_csid e) a.

(** [local_csids_by_mmecsid_hash], [..._sgwcsid_hash], [..._pgwcsid_hash]. *)
Inductive csid_hash := by_mmecsid | by_sgwcsid | by_pgwcsid.
#[export] Instance csid_hash_eq_dec : EqDecision csid_hash.
Proof. solve_decision. Defined.
#[export] Instance csid_hash_countable : Countable csid_hash :=
  inj_countable' (fun h => match h with by_mmecsid => 0 | by_sgwcsid => 1 | by_pgwcsid => 2 end%nat)
    (fun n => match n with 0 => by_mmecsid | 1 => by_sgwcsid | _ => by_pgwcsid end%nat) ltac:(by intros []).

(** The choice of the table at the head of the functions of csid_peer_init.c. *)
Definition hash_of (iface : Z) : option csid_hash :=
  if iface =? S11_SGW_PORT_ID then Some by_mmecsid else
  if iface =? SX_PORT_ID then Some by_sgwcsid else
  if (iface =? S5S8_SGWC_PORT_ID) || (iface =? S5S8_PGWC_PORT_ID) then Some by_pgwcsid else None.

(** [csid_key_t]: a CSID of a node.  [csid_key]: the addresses of a set of peers. *)
Abbreviation csid_key_t := (node_address_t * Z)%type.
Abbreviation csid_key := (list node_address_t).

(** The tables, and the last CSID that was assigned. *)
Record csid_tables := mk_csid_tables {
  csid_by_peer_node_hash : gmap csid_key Z;
  local_csids_by_node_addr_hash : gmap node_address_t fqcsid_t;
  local_csids_hash : gmap (csid_hash * csid_key_t) fqcsid_t;
  peer_node_addr_hash : gmap (Z * node_address_t) node_address_t;
  last_csid : Z }.

Definition set_by_peer_node m t :=
  mk_csid_tables m (local_csids_by_node_addr_hash t) (local_csids_hash t) (peer_node_addr_hash t) (last_csid t).
Definition set_by_node_addr m t :=
  mk_csid_tables (csid_by_peer_node_hash t) m (local_csids_hash t) (peer_node_addr_hash t) (last_csid t).
Definition set_links m t :=
  mk_csid_tables (csid_by_peer_node_hash t) (local_csids_by_node_addr_hash t) m (peer_node_addr_hash t) (last_csid t).
Definition set_peer_addrs m t :=
  mk_csid_tables (csid_by_peer_node_hash t) (local_csids_by_node_addr_hash t) (local_csids_hash t) m (last_csid t).
Definition set_last n t :=
  mk_csid_tables (csid_by_peer_node_hash t) (local_csids_by_node_addr_hash t) (local_csids_hash t) (peer_node_addr_hash t) n.

(** Whether a new entry can be allocated and inserted. *)
Record csid_env := mk_csid_env {
  can_alloc_csid : bool; can_add_csid : csid_key -> bool; can_add_node : node_address_t -> bool;
  can_add_link : csid_hash * csid_key_t -> bool; can_add_peer_addr : Z * node_address_t -> bool }.

(** ** csid_init.c *)

(** [get_csid_entry]: the table entry has one CSID, and the result is an [int16_t]. *)
Definition get_csid_entry (env : csid_env) (key : csid_key) (t : csid_tables) : csid_tables * Z :=
  match csid_by_peer_node_hash t !! key with
  | Some c => (t, swrap 16 c)
  | None =>
      if negb (can_alloc_csid env) then (t, -1) else
      let c := u16 (last_csid t + 1) in
      let t := set_last c t in
      if can_add_csid env key then (set_by_peer_node (<[key := c]> (csid_by_peer_node_hash t)) t, swrap 16 c) else (t, -1)
  end.

Definition del_csid_entry (key : csid_key) (t : csid_tables) : csid_tables * Z :=
  match csid_by_peer_node_hash t !! key with
  | None => (t, -1)
  | Some _ => (set_by_peer_node (delete key (csid_by_peer_node_hash t)) t, 0)
  end.

(** ** csid_peer_init.c *)

Definition get_peer_csid_entry (env : csid_env) (key : csid_key_t) (iface is_mod : Z) (t : csid_tables)
    : csid_tables * option fqcsid_t :=
  match hash_of iface with
  | None => (t, None)
  | Some h =>
      match local_csids_hash t !! (h, key) with
      | Some e => (t, Some e)
      | None =>
          if decide (is_mod <> ADD_NODE) then (t, None) else
          if can_add_link env (h, key) then (set_links (<[(h, key) := fqcsid_zero]> (local_csids_hash t)) t, Some fqcsid_zero)
          else (t, None)
      end
  end.

(** What is written through the pointer that [get_peer_csid_entry] returned. *)
Definition put_peer_csid (iface : Z) (key : csid_key_t) (e : fqcsid_t) (t : csid_tables) : csid_tables :=
  match hash_of iface with Some h => set_links (<[(h, key) := e]> (local_csids_hash t)) t | None => t end.

Definition del_peer_csid_entry (key : csid_key_t) (iface : Z) (t : csid_tables) : csid_tables * Z :=
  match hash_of iface with
  | None => (t, -1)
  | Some h =>
      match local_csids_hash t !! (h, key) with
      | None => (t, -1)
      | Some _ => (set_links (delete (h, key) (local_csids_hash t)) t, 0)
      end
  end.

Definition get_peer_addr_csids_entry (env : csid_env) (a : node_address_t) (is_mod : Z) (t : csid_tables)
    : csid_tables * option fqcsid_t :=
  match local_csids_by_node_addr_hash t !! a with
  | Some e => (t, Some e)
  | None =>
      if decide (is_mod <> ADD_NODE) then (t, None) else
      if can_add_node env a then (set_by_node_addr (<[a := fqcsid_zero]> (local_csids_by_node_addr_hash t)) t, Some fqcsid_zero)
      else (t, None)
  end.
Definition put_node_csids (a : node_address_t) (e : fqcsid_t) (t : csid_tables) : csid_tables :=
  set_by_node_addr (<[a := e]> (local_csids_by_node_addr_hash t)) t.
Definition del_peer_addr_csids_entry (a : node_address_t) (t : csid_tables) : csid_tables * Z :=
  match local_csids_by_node_addr_hash t !! a with
  | None => (t, -1)
  | Some _ => (set_by_node_addr (delete a (local_csids_by_node_addr_hash t)) t, 0)
  end.

Definition get_peer_node_addr_entry (env : csid_env) (key : Z * node_address_t) (is_mod : Z) (t : csid_tables)
    : csid_tables * option node_address_t :=
  match peer_node_addr_hash t !! key with
  | Some e => (t, Some e)
  | None =>
      if decide (is_mod <> ADD_NODE) then (t, None) else
      if can_add_peer_addr env key then (set_peer_addrs (<[key := node_addr_zero]> (peer_node_addr_hash t)) t, Some node_addr_zero)
      else (t, None)
  end.
Definition del_peer_node_addr_entry (key : Z * node_address_t) (t : csid_tables) : csid_tables * Z :=
  match peer_node_addr_hash t !! key with
  | None => (t, -1)
  | Some _ => (set_peer_addrs (delete key (peer_node_addr_hash t)) t, 0)
  end.

(** ** Arrays of CSIDs *)

(** [a[n++] = c] *)
Definition push (c : Z) (l : list Z) : option (list Z) :=
  if bool_decide (length l < MAX_CSID)%nat then Some (l ++ [c]) else None.

(** The loop that looks for the CSID, and appends it when it is not found. *)
Definition push_new (c : Z) (l : list Z) : option (list Z) := if bool_decide (c ∈ l) then Some l else push c l.

Fixpoint push_all (push1 : Z -> list Z -> option (list Z)) (cs l : list Z) : option (list Z) :=
  match cs with [] => Some l | c :: cs => l ← push1 c l; push_all push1 cs l end.

(** The loop that removes a CSID: after a removal the index goes on to the entry behind the
    one that took the place of the removed one. *)
Fixpoint remove_csid (c : Z) (l : list Z) : list Z :=
  match l with
  | [] => []
  | x :: l =>
      if bool_decide (x = c) then match l with [] => [] | y :: l => y :: remove_csid c l end
      else x :: remove_csid c l
  end.
Definition remove_csids (cs l : list Z) : list Z := foldl (fun l c => remove_csid c l) l cs.

(** ** FQ-CSID IEs *)

(** [pfcp_fqcsid_ie_t]; [header_len] is whether the IE is there. *)
Record pfcp_fqcsid_ie := mk_fqcsid_ie {
  header_len : bool; fqcsid_node_id_type : Z; node_address : list byte; pdn_conn_set_ident : list Z }.

(** The address of the IE in a zeroed [node_address_t]. *)
Definition ie_ipv4 (ie : pfcp_fqcsid_ie) : node_address_t := mk_node_address PDN_TYPE_IPV4 (le_val (take 4 (node_address ie))) ipv6_zero.
Definition ie_ipv6 (ie : pfcp_fqcsid_ie) : node_address_t := mk_node_address PDN_TYPE_IPV6 0 (take 16 (node_address ie)).

(** ** csid_api.c, both planes *)

(** [is_present]: the second test is of an array, which has an address. *)
Definition is_present (a : node_address_t) : bool :=
  if bool_decide (ip_type a = PDN_TYPE_IPV4) then bool_decide (ipv4_addr a <> 0) else bool_decide (ip_type a = PDN_TYPE_IPV6).

(** One peer CSID of [del_csid_entry_hash]; [rm] removes it from the CSIDs of the node. *)
Definition del_csid_link (env : csid_env) (peer : node_address_t) (c : Z) (rm : list Z -> list Z) (locals : list Z) (iface : Z) (t : csid_tables)
    : csid_tables * Z :=
  let key := (peer, c) in
  match get_peer_csid_entry env key iface REMOVE_NODE t with
  | (t, None) => (t, 0)
  | (t, Some e) =>
      let l := remove_csids locals (local_csid e) in
      let t := put_peer_csid iface key (set_csids l e) t in
      if negb (bool_decide (l = [])) then (t, 0) else
      let '(t, ret) := del_peer_csid_entry key iface t in
      if negb (ret =? 0) then (t, -1) else
      match get_peer_addr_csids_entry env peer UPDATE_NODE t with
      | (t, None) => (t, 0)
      | (t, Some e) =>
          let l := rm (local_csid e) in
          let t := put_node_csids peer (set_csids l e) t in
          if bool_decide (l = []) then
            let '(t, ret) := del_peer_addr_csids_entry peer t in (t, if ret =? 0 then 0 else -1)
          else (t, 0)
      end
  end.
Fixpoint del_csid_links (env : csid_env) (peer : node_address_t) (cs locals : list Z) (iface : Z) (t : csid_tables)
    : csid_tables * Z :=
  match cs with
  | [] => (t, 0)
  | c :: cs =>
      let '(t, ret) := del_csid_link env peer c (remove_csid c) locals iface t in
      if ret =? 0 then del_csid_links env peer cs locals iface t else (t, -1)
  end.
Definition del_csid_entry_hash (env : csid_env) (peer_csids : option fqcsid_t) (local_csids : fqcsid_t) (iface : Z) (t : csid_tables)
    : csid_tables * Z :=
  match peer_csids with
  | None => (t, 0)
  | Some p => del_csid_links env (node_addr p) (local_csid p) (local_csid local_csids) iface t
  end.

(** [del_csid_entry_hash] on the entry that the table has for node [k]: the CSID that is
    looked for is read from the array that it is removed from, at index [i]; behind the end
    of the array the last value stays.  [None] is a use of the entry after it was freed. *)
Fixpoint remove_live (fuel i j : nat) (y : Z) (l : list Z) : list Z :=
  match fuel with
  | O => l
  | S fuel =>
      match l !! j with
      | None => l
      | Some x =>
          if bool_decide (x = y) then let l := delete j l in remove_live fuel i (S j) (default y (l !! i)) l
          else remove_live fuel i (S j) y l
      end
  end.
Fixpoint del_csid_entry_hash_live (fuel : nat) (env : csid_env) (k : node_address_t) (i : nat) (locals : list Z) (iface : Z) (t : csid_tables)
    : option (csid_tables * Z) :=
  match fuel with
  | O => None
  | S fuel =>
      p ← local_csids_by_node_addr_hash t !! k;
      match local_csid p !! i with
      | None => Some (t, 0)
      | Some c =>
          let rm l := if bool_decide (node_addr p = k) then remove_live (length l) i 0 c l else remove_csid c l in
          let '(t, ret) := del_csid_link env (node_addr p) c rm locals iface t in
          if ret =? 0 then del_csid_entry_hash_live fuel env k (S i) locals iface t else Some (t, -1)
      end
  end.

(** The loops over the peer CSIDs of a node that collect the local CSIDs linked with them,
    and the address of the last link: [Some (_, None)] is the result -1. *)
Fixpoint collect_csids (env : csid_env) (a : node_address_t) (cs : list Z) (iface : Z) (csids : fqcsid_t) (t : csid_tables)
    : option (option fqcsid_t) :=
  match cs with
  | [] => Some (Some csids)
  | c :: cs =>
      match snd (get_peer_csid_entry env (a, c) iface REMOVE_NODE t) with
      | None => Some None
      | Some e =>
          l ← push_all push (local_csid e) (local_csid csids);
          collect_csids env a cs iface (mk_fqcsid l (node_addr e)) t
      end
  end.


(** ** What the tables say *)

(** The local CSIDs that are linked with CSID [c] of node [a] in a table. *)
Definition linked_csids (t : csid_tables) (h : csid_hash) (a : node_address_t) (c : Z) : list Z :=
  match local_csids_hash t !! (h, (a, c)) with Some e => local_csid e | None => [] end.

(** The CSIDs stored for a node. *)
Definition node_csids (t : csid_tables) (a : node_address_t) : list Z :=
  match local_csids_by_node_addr_hash t !! a with Some e => local_csid e | None => [] end.

(** All local CSIDs that a failure of the node concerns. *)
Definition csids_of_peer (t : csid_tables) (h : csid_hash) (a : node_address_t) : list Z :=
  flat_map (linked_csids t h a) (node_csids t a).

(** Each CSID stored for the node has a link. *)
Record peer_ok (t : csid_tables) (h : csid_hash) (a : node_address_t) : Prop := mk_peer_ok {
  peer_entry : forall e, local_csids_by_node_addr_hash t !! a = Some e -> node_addr e = a;
  peer_links : forall c, c ∈ node_csids t a -> is_Some (local_csids_hash t !! (h, (a, c))) }.

(** *** Arrays *)

Lemma push_Some c l l' : push c l = Some l' <-> l' = l ++ [c] /\ (length l < MAX_CSID)%nat.
Proof. unfold push. case_bool_decide; split; [by intros [= <-]|by intros [-> ?]|done|by intros [? ?]]. Qed.

Lemma push_new_elem c l l' : push_new c l = Some l' -> c ∈ l' /\ l ⊆ l'.
Proof.
  unfold push_new. case_bool_decide as H; [by intros [= <-]|]. intros [-> _]%push_Some. split; [|intros x Hx]; apply elem_of_app; [right; by apply list_elem_of_singleton|by left].
Qed.

Lemma push_new_inv c l l' x : push_new c l = Some l' -> x ∈ l' -> x = c \/ x ∈ l.
Proof. unfold push_new. case_bool_decide as H; [intros [= <-]; by right|]. intros [-> _]%push_Some [Hx|Hx%list_elem_of_singleton]%elem_of_app; [by right|by left]. Qed.

Lemma push_all_new_elem cs : forall l l', push_all push_new cs l = Some l' -> l ⊆ l' /\ cs ⊆ l' /\ forall x, x ∈ l' -> x ∈ l \/ x ∈ cs.
Proof.
  induction cs as [|c cs IH]; intros l l' H; cbn [push_all] in H.
  - injection H as <-. split_and!; [done|set_solver|by left].
  - destruct (push_new c l) as [l1|] eqn:E; [|done]. cbn [mbind option_bind] in H.
    destruct (push_new_elem _ _ _ E) as [Hc Hl]. destruct (IH _ _ H) as (H1 & H2 & H3). split_and!.
    + by transitivity l1.
    + intros x [->|Hx]%elem_of_cons; [by apply H1|by apply H2].
    + intros x Hx. destruct (H3 x Hx) as [Hx1|Hx1]; [|right; by apply elem_of_cons; right].
      destruct (push_new_inv _ _ _ _ E Hx1) as [->|]; [right; by apply elem_of_cons; left|by left].
Qed.

Lemma push_all_app cs : forall l, (length l <= MAX_CSID)%nat ->
  push_all push cs l = if bool_decide (length (l ++ cs) <= MAX_CSID)%nat then Some (l ++ cs) else None.
Proof.
  induction cs as [|c cs IH]; intros l Hl; cbn [push_all].
  - rewrite app_nil_r. by rewrite bool_decide_true.
  - destruct (push c l) as [l1|] eqn:E; cbn [mbind option_bind].
    + apply push_Some in E as [-> H]. rewrite IH by (rewrite length_app; cbn; lia). by rewrite <- app_assoc.
    + unfold push in E. case_bool_decide; [done|]. rewrite bool_decide_false; [done|]. rewrite length_app. cbn. lia.
Qed.

(** *** Collecting *)

Lemma get_peer_csid_remove env key iface t h : hash_of iface = Some h ->
  get_peer_csid_entry env key iface REMOVE_NODE t = (t, local_csids_hash t !! (h, key)).
Proof. intros H. unfold get_peer_csid_entry. rewrite H. destruct (local_csids_hash t !! (h, key)); [done|by rewrite decide_True]. Qed.

Lemma collect_csids_spec env a iface h t : hash_of iface = Some h -> forall cs acc,
  (forall c, c ∈ cs -> is_Some (local_csids_hash t !! (h, (a, c)))) -> (length (local_csid acc) <= MAX_CSID)%nat ->
  exists n, collect_csids env a cs iface acc t =
    if bool_decide (length (local_csid acc ++ flat_map (linked_csids t h a) cs) <= MAX_CSID)%nat
    then Some (Some (mk_fqcsid (local_csid acc ++ flat_map (linked_csids t h a) cs) n)) else None.
Proof.
  intros Hh. induction cs as [|c cs IH]; intros acc Hc Hl.
  - exists (node_addr acc). cbn [collect_csids flat_map]. rewrite app_nil_r, bool_decide_true by done. by destruct acc.
  - cbn [collect_csids flat_map]. rewrite (get_peer_csid_remove env (a, c) iface t h Hh). cbn [snd].
    destruct (Hc c) as [e He]; [by apply elem_of_cons; left|]. rewrite He. rewrite push_all_app by done.
    assert (linked_csids t h a c = local_csid e) as Hlc by (unfold linked_csids; by rewrite He). rewrite Hlc.
    case_bool_decide as Hle.
    + cbn [mbind option_bind]. destruct (IH (mk_fqcsid (local_csid acc ++ local_csid e) (node_addr e))) as [n Hn].
      * intros c' Hc'. apply Hc. by apply elem_of_cons; right.
      * done.
      * exists n. rewrite Hn. cbn [local_csid]. by rewrite <- app_assoc.
    + cbn [mbind option_bind]. exists node_addr_zero. rewrite bool_decide_false; [done|].
      rewrite !length_app in *. lia.
Qed.


(** *** Linking *)

(** Nothing that was stored or linked is lost. *)
Record grows (t t' : csid_tables) : Prop := mk_grows {
  grow_links : forall h a c, linked_csids t h a c ⊆ linked_csids t' h a c;
  grow_entries : forall k, is_Some (local_csids_hash t !! k) -> is_Some (local_csids_hash t' !! k);
  grow_nodes : forall a, node_csids t a ⊆ node_csids t' a }.

Lemma grows_refl t : grows t t.
Proof. split; [set_solver|done|set_solver]. Qed.

Lemma grows_trans t1 t2 t3 : grows t1 t2 -> grows t2 t3 -> grows t1 t3.
Proof.
  intros [A1 B1 C1] [A2 B2 C2]. split; [|by auto|].
  - intros h a c. by transitivity (linked_csids t2 h a c).
  - intros a. by transitivity (node_csids t2 a).
Qed.

Lemma grows_put_link h a c e t : linked_csids t h a c ⊆ local_csid e ->
  grows t (set_links (<[(h, (a, c)) := e]> (local_csids_hash t)) t).
Proof.
  intros H. split; unfold linked_csids, node_csids; cbn.
  - intros h' a' c'. destruct (decide ((h, (a, c)) = (h', (a', c')))) as [[= <- <- <-]|Hn].
    + rewrite lookup_insert_eq. exact H.
    + by rewrite lookup_insert_ne.
  - intros k Hk. destruct (decide ((h, (a, c)) = k)) as [<-|Hn]; [rewrite lookup_insert_eq; by eexists|by rewrite lookup_insert_ne].
  - done.
Qed.

Lemma grows_put_node a e t : node_csids t a ⊆ local_csid e -> grows t (put_node_csids a e t).
Proof.
  intros H. split; [done|done|]. unfold node_csids, put_node_csids in *. cbn. intros b.
  destruct (decide (a = b)) as [->|Hn]; [by rewrite lookup_insert_eq|by rewrite lookup_insert_ne].
Qed.

(** The link of every CSID [cs] of node [a] in table [h]. *)
Definition links_to (t : csid_tables) (h : csid_hash) (a : node_address_t) (cs : list Z) (c' : Z) : Prop :=
  forall c, c ∈ cs -> c' ∈ linked_csids t h a c.

Lemma links_to_grows t t' h a cs c' : grows t t' -> links_to t h a cs c' -> links_to t' h a cs c'.
Proof. intros G H c Hc. by apply (grow_links _ _ G), H. Qed.

Lemma linked_is_Some t h a c x : x ∈ linked_csids t h a c -> is_Some (local_csids_hash t !! (h, (a, c))).
Proof. unfold linked_csids. destruct (local_csids_hash t !! _); [by eexists|by intros ?%elem_of_nil]. Qed.


(** ** The allocator of local CSIDs *)

(** Different sets of peers have different CSIDs, none above the last one assigned. *)
Record csids_ok (t : csid_tables) : Prop := mk_csids_ok {
  csids_range : forall k c, csid_by_peer_node_hash t !! k = Some c -> 0 < c <= last_csid t;
  csids_inj : forall k k' c, csid_by_peer_node_hash t !! k = Some c -> csid_by_peer_node_hash t !! k' = Some c -> k = k';
  csids_last : 0 <= last_csid t < 2 ^ 15 }.

Lemma get_csid_entry_old env k t c : csids_ok t -> csid_by_peer_node_hash t !! k = Some c -> get_csid_entry env k t = (t, c).
Proof.
  intros [Hr _ Hl] E. unfold get_csid_entry. rewrite E. destruct (Hr _ _ E). by rewrite swrap_small by lia.
Qed.

Lemma get_csid_entry_new env k t : csids_ok t -> last_csid t < 2 ^ 15 - 1 -> csid_by_peer_node_hash t !! k = None ->
  can_alloc_csid env = true -> can_add_csid env k = true ->
  get_csid_entry env k t = (set_by_peer_node (<[k := last_csid t + 1]> (csid_by_peer_node_hash t)) (set_last (last_csid t + 1) t), last_csid t + 1).
Proof.
  intros [_ _ Hl] Hlt E Ha Hb. unfold get_csid_entry. rewrite E, Ha, Hb. cbn [negb]. cbn zeta.
  rewrite (wrap_small 16) by lia. by rewrite swrap_small by lia.
Qed.

Lemma get_csid_entry_fails env k t : csid_by_peer_node_hash t !! k = None -> can_alloc_csid env && can_add_csid env k = false ->
  snd (get_csid_entry env k t) = -1 /\ csid_by_peer_node_hash (fst (get_csid_entry env k t)) = csid_by_peer_node_hash t.
Proof.
  intros E H. unfold get_csid_entry. rewrite E. destruct (can_alloc_csid env); [|done]. cbn [negb andb] in *. by rewrite H.
Qed.

Lemma csids_ok_new k t : csids_ok t -> last_csid t < 2 ^ 15 - 1 ->
  csids_ok (set_by_peer_node (<[k := last_csid t + 1]> (csid_by_peer_node_hash t)) (set_last (last_csid t + 1) t)).
Proof.
  intros [Hr Hi Hl] Hlt. split; cbn.
  - intros k' c. destruct (decide (k = k')) as [<-|Hn]; [rewrite lookup_insert_eq; intros [= <-]; lia|].
    rewrite lookup_insert_ne by done. intros E%Hr. lia.
  - intros k1 k2 c. destruct (decide (k = k1)) as [<-|H1], (decide (k = k2)) as [<-|H2]; [done| | |];
      rewrite ?lookup_insert_eq, ?lookup_insert_ne by done.
    + intros [= <-] E%Hr. lia.
    + intros E%Hr [= <-]. lia.
    + apply Hi.
  - lia.
Qed.

(** C5. As long as fewer than 2{^15} - 1 identifiers were ever assigned, [get_csid_entry]
    gives a set of peers the identifier that it had, or one that no other set has; different
    sets of peers keep different identifiers. *)
Theorem csids_identify_peer_sets env k t : csids_ok t -> last_csid t < 2 ^ 15 - 1 ->
  can_alloc_csid env = true -> can_add_csid env k = true ->
  let '(t', c) := get_csid_entry env k t in
  csids_ok t' /\ 0 < c /\ (forall k', csid_by_peer_node_hash t' !! k' = Some c <-> k' = k) /\
  (forall k' c', csid_by_peer_node_hash t !! k' = Some c' -> csid_by_peer_node_hash t' !! k' = Some c').
Proof.
  intros Hok Hlt Ha Hb. destruct (csid_by_peer_node_hash t !! k) as [c|] eqn:E.
  - rewrite (get_csid_entry_old env k t c Hok E). split_and!; [done|by destruct (csids_range t Hok k c E)| |done].
    intros k'. split; [intros E'; by apply (csids_inj t Hok k' k c)|by intros ->].
  - rewrite (get_csid_entry_new env k t) by done. pose proof (csids_ok_new k t Hok Hlt) as Hok'. destruct (csids_last t Hok). split_and!; [done|lia| |].
    + intros k'. split; [intros E'; apply (csids_inj _ Hok' k' k _ E'); cbn; by rewrite lookup_insert_eq|intros ->; cbn; by rewrite lookup_insert_eq].
    + intros k' c' E'. cbn. rewrite lookup_insert_ne; [done|congruence].
Qed.

(** The 2{^15}th identifier is negative for the caller. *)
Lemma get_csid_entry_negative env k t : csids_ok t -> last_csid t = 2 ^ 15 - 1 -> csid_by_peer_node_hash t !! k = None ->
  can_alloc_csid env = true -> can_add_csid env k = true ->
  get_csid_entry env k t = (set_by_peer_node (<[k := 2 ^ 15]> (csid_by_peer_node_hash t)) (set_last (2 ^ 15) t), - 2 ^ 15).
Proof. intros [_ _ Hl] Hlt E Ha Hb. unfold get_csid_entry. rewrite E, Ha, Hb, Hlt. reflexivity. Qed.

Lemma get_csid_entry_stays env k t : csid_by_peer_node_hash t !! k = Some (2 ^ 15) -> get_csid_entry env k t = (t, - 2 ^ 15).
Proof. intros E. unfold get_csid_entry. by rewrite E. Qed.

(** ** Witness *)

Definition env_all : csid_env := mk_csid_env true (fun _ => true) (fun _ => true) (fun _ => true) (fun _ => true).
Definition t_empty : csid_tables := mk_csid_tables ∅ ∅ ∅ ∅ 0.

Lemma csids_ok_empty : csids_ok t_empty.
Proof. split; cbn; [intros k c; by rewrite lookup_empty|intros k k' c; by rewrite lookup_empty|lia]. Qed.

Lemma csids_identify_peer_sets_witness :
  let '(t', c) := get_csid_entry env_all [node_addr_zero] t_empty in
  csids_ok t' /\ 0 < c /\ (forall k', csid_by_peer_node_hash t' !! k' = Some c <-> k' = [node_addr_zero]) /\
  (forall k' c', csid_by_peer_node_hash t_empty !! k' = Some c' -> csid_by_peer_node_hash t' !! k' = Some c').
Proof. apply (csids_identify_peer_sets env_all [node_addr_zero] t_empty); [exact csids_ok_empty|cbn; lia|reflexivity|reflexivity]. Defined.
