(* ===== verification/CsidUp.v ===== *)
(** * Connection-set identifiers in the user plane

    When a session is set up, the CSIDs that its control-plane nodes sent are stored, the
    session gets the local CSID of its set of peers, and every CSID of a peer is linked with
    it ([process_up_session_estab_req] and [fill_peer_node_info_t],
    pfcp_messages/pfcp_up_sess.c).  When a peer fails, the CSIDs stored for it lead to the
    local CSIDs whose sessions are deleted ([up_del_pfcp_peer_node_sess],
    pfcp_messages/csid_up_cleanup.c).  The lists of the sessions of a CSID are in [SeidList],
    the tables in [CsidLink]. *)

From S2P Require Import Prelude NodeAddr LList SeidList CsidLink.

Section NodeTypes.
Context (IPV4_GLOBAL_UNICAST IPV6_GLOBAL_UNICAST : Z).

(** ** Linking *)

(** [stored_recvd_peer_fqcsid]: tables, [local_fqcsid] and result. *)
Definition stored_recvd_peer_fqcsid (env : csid_env) (ie : pfcp_fqcsid_ie) (local_fqcsid : fqcsid_t) (t : csid_tables)
    : option (csid_tables * fqcsid_t * Z) :=
  let addr := if bool_decide (fqcsid_node_id_type ie = IPV4_GLOBAL_UNICAST) then Some (ie_ipv4 ie)
              else if bool_decide (fqcsid_node_id_type ie = IPV6_GLOBAL_UNICAST) then Some (ie_ipv6 ie) else None in
  match addr with
  | None => Some (t, local_fqcsid, -1)
  | Some a =>
      match get_peer_addr_csids_entry env a ADD_NODE t with
      | (t, None) => Some (t, local_fqcsid, -1)
      | (t, Some e) =>
          l ← push_all push_new (pdn_conn_set_ident ie) (local_csid e);
          l' ← push_all push (pdn_conn_set_ident ie) (local_csid local_fqcsid);
          Some (put_node_csids a (mk_fqcsid l a) t, mk_fqcsid l' a, 0)
      end
  end.

(** [link_peer_csid_with_local_csid]: every CSID of the peer is linked with the last of the
    local ones. *)
Fixpoint link_peer_csids (env : csid_env) (a : node_address_t) (cs : list Z) (local_fqcsid : fqcsid_t) (iface : Z) (t : csid_tables)
    : option (csid_tables * Z) :=
  match cs with
  | [] => Some (t, 0)
  | c :: cs =>
      match get_peer_csid_entry env (a, c) iface ADD_NODE t with
      | (t, None) => Some (t, -1)
      | (t, Some e) =>
          c' ← last (local_csid local_fqcsid);
          l ← push_new c' (local_csid e);
          link_peer_csids env a cs local_fqcsid iface (put_peer_csid iface (a, c) (mk_fqcsid l (node_addr local_fqcsid)) t)
      end
  end.
Definition link_peer_csid_with_local_csid (env : csid_env) (peer local_fqcsid : fqcsid_t) (iface : Z) (t : csid_tables)
    : option (csid_tables * Z) :=
  link_peer_csids env (node_addr peer) (local_csid peer) local_fqcsid iface t.

(** The FQ-CSIDs of [pfcp_session_t]; [sess_datas] is the list of session data: the interface
    of the first PDR, and the peers' addresses. *)
Record up_csids := mk_up_csids {
  sess_datas : list (option Z * node_address_t * node_address_t);
  wb_peer_fqcsid : option fqcsid_t; eb_peer_fqcsid : option fqcsid_t;
  mme_fqcsid : option fqcsid_t; sgw_fqcsid : option fqcsid_t; pgw_fqcsid : option fqcsid_t; up_fqcsid : fqcsid_t }.
Definition set_up l s := mk_up_csids (sess_datas s) (wb_peer_fqcsid s) (eb_peer_fqcsid s) (mme_fqcsid s) (sgw_fqcsid s) (pgw_fqcsid s) l.
Definition set_wb l s := mk_up_csids (sess_datas s) l (eb_peer_fqcsid s) (mme_fqcsid s) (sgw_fqcsid s) (pgw_fqcsid s) (up_fqcsid s).
Definition set_eb l s := mk_up_csids (sess_datas s) (wb_peer_fqcsid s) l (mme_fqcsid s) (sgw_fqcsid s) (pgw_fqcsid s) (up_fqcsid s).

(** The first session data whose first PDR has the interface. *)
Definition peer_by_intf (intf : Z) (s : up_csids) : option (node_address_t * node_address_t) :=
  (fun d => (snd (fst d), snd d)) <$> List.find (fun d => bool_decide (fst (fst d) = Some intf)) (sess_datas s).

Definition peer_info_t (s : up_csids) (cp : node_address_t) : csid_key :=
  [cp; node_addr (up_fqcsid s); default node_addr_zero (fst <$> peer_by_intf CORE s);
   default node_addr_zero (snd <$> peer_by_intf ACCESS s)].

(** The node of one side and its link; [peer] is [wb_peer_fqcsid] or [eb_peer_fqcsid], and
    [alloc] whether it can be allocated. *)
Definition link_side (env : csid_env) (alloc : bool) (a : node_address_t) (csid : Z) (peer : option fqcsid_t) (up : fqcsid_t) (iface : Z)
    (t : csid_tables) : option (csid_tables * option fqcsid_t * Z) :=
  match get_peer_addr_csids_entry env a ADD_NODE t with
  | (t, None) => Some (t, peer, -1)
  | (t, Some e) =>
      l ← push_new csid (local_csid e);
      let t := put_node_csids a (mk_fqcsid l a) t in
      match (match peer with Some p => Some p | None => if alloc then Some fqcsid_zero else None end) with
      | None => Some (t, peer, -1)
      | Some p =>
          l ← push csid (local_csid p);
          let p := mk_fqcsid l a in
          '(t, ret) ← link_peer_csid_with_local_csid env p up iface t;
          Some (t, Some p, ret)
      end
  end.

Definition link_opt (env : csid_env) (peer : option fqcsid_t) (up : fqcsid_t) (t : csid_tables) : option (csid_tables * Z) :=
  match peer with Some p => link_peer_csid_with_local_csid env p up SX_PORT_ID t | None => Some (t, 0) end.

(** [fill_peer_node_info_t]: the result is -1, or an index into [up_fqcsid]. *)
Definition fill_peer_node_info_t (env : csid_env) (alloc : bool) (s : up_csids) (cp : node_address_t) (t : csid_tables)
    : option (csid_tables * up_csids * Z) :=
  let info := peer_info_t s cp in
  let wb := default node_addr_zero (info !! 2%nat) in
  let eb := default node_addr_zero (info !! 3%nat) in
  let '(t, csid) := get_csid_entry env info t in
  if csid <? 0 then Some (t, s, -1) else
  match list_find (fun c => c = csid) (local_csid (up_fqcsid s)) with
  | Some (i, _) => Some (t, s, Z.of_nat i)
  | None =>
      l ← push csid (local_csid (up_fqcsid s));
      let s := set_up (set_csids l (up_fqcsid s)) s in
      '(t, p, ret) ← (if is_present wb then link_side env alloc wb csid (wb_peer_fqcsid s) (up_fqcsid s) S1U_PORT_ID t
                      else Some (t, wb_peer_fqcsid s, 0));
      let s := set_wb p s in
      if ret <? 0 then Some (t, s, -1) else
      '(t, p, ret) ← (if is_present eb then link_side env alloc eb csid (eb_peer_fqcsid s) (up_fqcsid s) SGI_PORT_ID t
                      else Some (t, eb_peer_fqcsid s, 0));
      let s := set_eb p s in
      if ret <? 0 then Some (t, s, -1) else
      '(t, ret) ← link_opt env (mme_fqcsid s) (up_fqcsid s) t;
      if ret <? 0 then Some (t, s, -1) else
      '(t, ret) ← link_opt env (sgw_fqcsid s) (up_fqcsid s) t;
      if ret <? 0 then Some (t, s, -1) else
      '(t, ret) ← link_opt env (pgw_fqcsid s) (up_fqcsid s) t;
      if ret <? 0 then Some (t, s, -1) else Some (t, s, 0)
  end.

(** ** The FQ-CSIDs of a session establishment *)

Definition PDN_TYPE_IPV4_IPV6 : Z := 3.
Definition PRESENT : Z := 1.

(** [add_peer_addr_entry_for_fqcsid_ie_node_addr], user plane: the node of an FQ-CSID whose
    address is not the one of the control plane that sent it. *)
Definition add_peer_addr_entry_for_fqcsid_ie_node_addr (env : csid_env) (peer : node_address_t) (ie : pfcp_fqcsid_ie) (iface : Z)
    (t : csid_tables) : csid_tables * Z :=
  let v4 := bool_decide (fqcsid_node_id_type ie = IPV4_GLOBAL_UNICAST) in
  let info := if v4 : bool then ie_ipv4 ie else ie_ipv6 ie in
  if (if v4 then bool_decide (ipv4_addr info = ipv4_addr peer) else bool_decide (ipv6_addr info = ipv6_addr peer)) then (t, 0) else
  let key := if bool_decide (ip_type peer = PDN_TYPE_IPV4) then Some (mk_node_address PDN_TYPE_IPV4 (ipv4_addr peer) ipv6_zero)
             else if bool_decide (ip_type peer = PDN_TYPE_IPV6) || bool_decide (ip_type peer = PDN_TYPE_IPV4_IPV6)
             then Some (mk_node_address PDN_TYPE_IPV6 0 (ipv6_addr peer)) else None in
  match key with
  | None => (t, PRESENT)
  | Some k =>
      match get_peer_node_addr_entry env (iface, k) ADD_NODE t with
      | (t, None) => (t, -1)
      | (t, Some e) =>
          if (if v4 then bool_decide (ipv4_addr info <> 0) && bool_decide (ipv4_addr info <> ipv4_addr e)
              else bool_decide (ipv6_addr e <> ipv6_addr info))
          then (set_peer_addrs (<[(iface, k) := info]> (peer_node_addr_hash t)) t, 0) else (t, 0)
      end
  end.

(** [get_cp_node_addr], the address of the control plane of an F-SEID. *)
Definition get_cp_node_addr (v4 v6 : bool) (ipv4_address : Z) (ipv6_address : list byte) : node_address_t :=
  let a := if v4 : bool then mk_node_address PDN_TYPE_IPV4 ipv4_address ipv6_zero else node_addr_zero in
  if v6 : bool then mk_node_address PDN_TYPE_IPV6 (ipv4_addr a) ipv6_address else a.

(** The address of this node, in the family of the control plane's. *)
Definition up_node_addr (cp : node_address_t) (dp_comm_ip : Z) (dp_comm_ipv6 : list byte) : node_address_t :=
  if bool_decide (ip_type cp = PDN_TYPE_IPV4) then mk_node_address PDN_TYPE_IPV4 dp_comm_ip ipv6_zero
  else mk_node_address PDN_TYPE_IPV6 0 dp_comm_ipv6.

(** The SGW-C's or PGW-C's FQ-CSID; [map_cp] is whether the node is remembered for the
    address [cp] of the sender.  The [else if] tests an array, so it always holds. *)
Definition store_cp_fqcsid (env : csid_env) (map_cp : bool) (cp : node_address_t) (ie : pfcp_fqcsid_ie) (p : fqcsid_t) (t : csid_tables)
    : option (csid_tables * fqcsid_t * Z) :=
  if negb (header_len ie) then Some (t, p, 0) else
  if negb (bool_decide (pdn_conn_set_ident ie = [])) then
    let '(t, ret) := if map_cp then add_peer_addr_entry_for_fqcsid_ie_node_addr env cp ie SX_PORT_ID t else (t, 0) in
    if ret <? 0 then Some (t, p, -1) else stored_recvd_peer_fqcsid env ie p t
  else
    let a := if bool_decide (fqcsid_node_id_type ie = IPV4_GLOBAL_UNICAST) then ie_ipv4 ie else ie_ipv6 ie in
    match get_peer_addr_csids_entry env a ADD_NODE t with
    | (t, None) => Some (t, p, -1)
    | (t, Some e) => Some (put_node_csids a (set_addr a e) t, set_addr a p, 0)
    end.

(** Whether the structures of the session can be allocated. *)
Record fqcsid_allocs := mk_fqcsid_allocs { al_sgw : bool; al_mme : bool; al_pgw : bool; al_up : bool; al_peer : bool }.

(** The FQ-CSIDs of [process_up_session_estab_req], up to the list of the sessions of the
    local CSID; [datas] and the wb and eb sides are as [sess->sessions] has them, [up_addr]
    is the address of this node.  The result of [link_dp_sess_with_peer_csid], which works
    on the lists of [SeidList], is ignored. *)
Definition process_up_session_estab_csids (env : csid_env) (al : fqcsid_allocs) (cp up_addr : node_address_t)
    (mme_ie sgw_ie pgw_ie : pfcp_fqcsid_ie) (datas : list (option Z * node_address_t * node_address_t)) (t : csid_tables)
    : option (csid_tables * up_csids * Z) :=
  let s := mk_up_csids datas None None None None None fqcsid_zero in
  if negb (al_sgw al) then Some (t, s, -1) else
  let s := mk_up_csids datas None None None (Some fqcsid_zero) None fqcsid_zero in
  '(t, mme, ret) ← (if header_len mme_ie && negb (bool_decide (pdn_conn_set_ident mme_ie = [])) then
                      if negb (al_mme al) then Some (t, None, -1) else
                      '(t, p, ret) ← stored_recvd_peer_fqcsid env mme_ie fqcsid_zero t; Some (t, Some p, ret)
                    else Some (t, None, 0));
  let s := mk_up_csids datas None None mme (Some fqcsid_zero) None fqcsid_zero in
  if ret <? 0 then Some (t, s, -1) else
  '(t, sgw, ret) ← store_cp_fqcsid env (negb (header_len pgw_ie)) cp sgw_ie fqcsid_zero t;
  let s := mk_up_csids datas None None mme (Some sgw) None fqcsid_zero in
  if ret <? 0 then Some (t, s, -1) else
  '(t, pgw, ret) ← (if header_len pgw_ie then
                      if negb (al_pgw al) then Some (t, None, -1) else
                      '(t, p, ret) ← store_cp_fqcsid env true cp pgw_ie fqcsid_zero t; Some (t, Some p, ret)
                    else Some (t, None, 0));
  let s := mk_up_csids datas None None mme (Some sgw) pgw fqcsid_zero in
  if ret <? 0 then Some (t, s, -1) else
  if negb (al_up al) then Some (t, s, -1) else
  let s := mk_up_csids datas None None mme (Some sgw) pgw (mk_fqcsid [] up_addr) in
  fill_peer_node_info_t env (al_peer al) s cp t.

(** ** A peer that failed *)

(** The CSIDs stored for a node, or for the node that its FQ-CSIDs name:
    [Some None] is the result 0 for a node without CSIDs. *)
Definition csids_of_node (env : csid_env) (a : node_address_t) (iface : Z) (t : csid_tables) : option fqcsid_t :=
  match snd (get_peer_addr_csids_entry env a UPDATE_NODE t) with
  | Some e => Some e
  | None =>
      match snd (get_peer_node_addr_entry env (iface, a) UPDATE_NODE t) with
      | None => None
      | Some a' => snd (get_peer_addr_csids_entry env a' UPDATE_NODE t)
      end
  end.

(** The local CSIDs that [up_del_pfcp_peer_node_sess] cleans up: [Some None] when it returns
    before. *)
Definition up_del_pfcp_peer_node_csids (env : csid_env) (a : node_address_t) (iface : Z) (t : csid_tables) : option (option fqcsid_t) :=
  match csids_of_node env a iface t with
  | None => Some None
  | Some e =>
      r ← collect_csids env (node_addr e) (local_csid e) iface fqcsid_zero t;
      Some (match r with Some c => if bool_decide (local_csid c = []) then None else Some c | None => None end)
  end.

(** [get_peer_assoc_csids] *)
Definition get_peer_assoc_csids (peer local_fqcsid : fqcsid_t) : option fqcsid_t :=
  l ← push_all push_new (local_csid peer) (local_csid local_fqcsid); Some (mk_fqcsid l (node_addr peer)).

(** [cleanup_csid_by_csid_entry] *)
Fixpoint cleanup_csid_links (env : csid_env) (a : node_address_t) (cs locals : list Z) (iface : Z) (t : csid_tables) : csid_tables * Z :=
  match cs with
  | [] => (t, 0)
  | c :: cs =>
      match get_peer_csid_entry env (a, c) iface REMOVE_NODE t with
      | (t, None) => cleanup_csid_links env a cs locals iface t
      | (t, Some e) =>
          let l := remove_csids locals (local_csid e) in
          let t := put_peer_csid iface (a, c) (set_csids l e) t in
          if bool_decide (l = []) then
            let '(t, ret) := del_peer_csid_entry (a, c) iface t in
            if ret =? 0 then cleanup_csid_links env a cs locals iface t else (t, -1)
          else cleanup_csid_links env a cs locals iface t
      end
  end.
Definition cleanup_csid_by_csid_entry (env : csid_env) (peer local_fqcsid : fqcsid_t) (iface : Z) (t : csid_tables) : csid_tables * Z :=
  cleanup_csid_links env (node_addr peer) (local_csid peer) (local_csid local_fqcsid) iface t.

(** The FQ-CSIDs of the sessions that [cleanup_sess_by_csid_entry] deletes. *)
Record assoc_csids := mk_assoc_csids { a_mme : fqcsid_t; a_sgwc : fqcsid_t; a_pgwc : fqcsid_t; a_wb : fqcsid_t; a_eb : fqcsid_t }.
Definition assoc_zero : assoc_csids := mk_assoc_csids fqcsid_zero fqcsid_zero fqcsid_zero fqcsid_zero fqcsid_zero.
Definition assoc_opt (p : option fqcsid_t) (l : fqcsid_t) : option fqcsid_t :=
  match p with Some p => get_peer_assoc_csids p l | None => Some l end.
Definition add_assoc (s : up_csids) (a : assoc_csids) : option assoc_csids :=
  m ← assoc_opt (mme_fqcsid s) (a_mme a);
  g ← assoc_opt (sgw_fqcsid s) (a_sgwc a);
  p ← assoc_opt (pgw_fqcsid s) (a_pgwc a);
  w ← assoc_opt (wb_peer_fqcsid s) (a_wb a);
  e ← assoc_opt (eb_peer_fqcsid s) (a_eb a);
  Some (mk_assoc_csids m g p w e).
Fixpoint add_assocs (ss : list up_csids) (a : assoc_csids) : option assoc_csids :=
  match ss with [] => Some a | s :: ss => a ← add_assoc s a; add_assocs ss a end.

Definition cleanup_opt (env : csid_env) (p csids : fqcsid_t) (iface : Z) (t : csid_tables) : csid_tables * Z :=
  if negb (bool_decide (local_csid p = [])) then cleanup_csid_by_csid_entry env p csids iface t else (t, 0).

(** [cleanup_sess_by_csid_entry]: [sessions c] are the sessions in the list of the local CSID
    [c]; what it does with the list and with the session is in [SeidList] and [UpSess]. *)
Definition cleanup_sess_by_csid_entry (env : csid_env) (sessions : Z -> list up_csids) (csids : fqcsid_t) (t : csid_tables)
    : option (csid_tables * Z) :=
  a ← add_assocs (flat_map sessions (local_csid csids)) assoc_zero;
  let '(t, ret) := cleanup_opt env (a_mme a) csids SX_PORT_ID t in
  if ret <? 0 then Some (t, -1) else
  let '(t, ret) := cleanup_opt env (a_sgwc a) csids SX_PORT_ID t in
  if ret <? 0 then Some (t, -1) else
  let '(t, ret) := cleanup_opt env (a_pgwc a) csids SX_PORT_ID t in
  if ret <? 0 then Some (t, -1) else
  let '(t, ret) := cleanup_opt env (a_wb a) csids S1U_PORT_ID t in
  if ret <? 0 then Some (t, -1) else
  let '(t, ret) := cleanup_opt env (a_eb a) csids SGI_PORT_ID t in
  if ret <? 0 then Some (t, -1) else Some (t, 0).

(** [up_del_pfcp_peer_node_sess], after the TEID range and before the message to the control
    planes. *)
Definition up_del_pfcp_peer_node_sess (env : csid_env) (sessions : Z -> list up_csids) (a : node_address_t) (iface : Z) (t : csid_tables)
    : option (csid_tables * Z) :=
  let mapped := bool_decide (snd (get_peer_addr_csids_entry env a UPDATE_NODE t) = None) in
  let k := if mapped then default a (snd (get_peer_node_addr_entry env (iface, a) UPDATE_NODE t)) else a in
  match csids_of_node env a iface t with
  | None => Some (t, 0)
  | Some e =>
      r ← collect_csids env (node_addr e) (local_csid e) iface fqcsid_zero t;
      match r with
      | None => Some (t, -1)
      | Some csids =>
          if bool_decide (local_csid csids = []) then Some (t, 0) else
          '(t, ret) ← cleanup_sess_by_csid_entry env sessions csids t;
          if negb (ret =? 0) then Some (t, 0) else
          '(t, ret) ← del_csid_entry_hash_live (S MAX_CSID) env k 0 (local_csid csids) iface t;
          if negb (ret =? 0) then Some (t, -1) else
          if mapped && negb (bool_decide (ip_type a = 0)) then Some (fst (del_peer_node_addr_entry (iface, a) t), 0) else Some (t, 0)
      end
  end.
End NodeTypes.
Lemma failed_peer_csids env t h a iface : hash_of iface = Some h -> peer_ok t h a -> csids_of_peer t h a <> [] ->
  exists n, up_del_pfcp_peer_node_csids env a iface t =
    if bool_decide (length (csids_of_peer t h a) <= MAX_CSID)%nat then Some (Some (mk_fqcsid (csids_of_peer t h a) n)) else None.
Proof.
  intros Hh [He Hl] Hne. unfold up_del_pfcp_peer_node_csids, csids_of_node, get_peer_addr_csids_entry.
  destruct (local_csids_by_node_addr_hash t !! a) as [e|] eqn:E.
  2: { destruct Hne. unfold csids_of_peer, node_csids. by rewrite E. }
  cbn [snd]. rewrite (He e eq_refl). assert (local_csid e = node_csids t a) as -> by (unfold node_csids; by rewrite E).
  destruct (collect_csids_spec env a iface h t Hh (node_csids t a) fqcsid_zero Hl) as [n Hn]; [cbn; lia|].
  exists n. change (local_csid fqcsid_zero ++ flat_map _ _) with (csids_of_peer t h a) in Hn. rewrite Hn. clear Hn.
  case_bool_decide; [|done]. cbn [mbind option_bind local_csid]. by rewrite bool_decide_false by done.
Qed.

Lemma link_peer_csids_links env a lf iface h c' : hash_of iface = Some h -> last (local_csid lf) = Some c' -> forall cs t t',
  link_peer_csids env a cs lf iface t = Some (t', 0) ->
  grows t t' /\ links_to t' h a cs c' /\ local_csids_by_node_addr_hash t' = local_csids_by_node_addr_hash t.
Proof.
  intros Hh Hc'. induction cs as [|c cs IH]; intros t t' E; cbn [link_peer_csids] in E.
  - injection E as <-. split_and!; [apply grows_refl|by intros c ?%elem_of_nil|done].
  - unfold get_peer_csid_entry in E. rewrite Hh in E.
    assert (exists t1 e, (t1 = t /\ local_csids_hash t !! (h, (a, c)) = Some e \/
                          t1 = set_links (<[(h, (a, c)) := e]> (local_csids_hash t)) t /\ linked_csids t h a c = [] /\ e = fqcsid_zero) /\
              (c'' ← last (local_csid lf); l ← push_new c'' (local_csid e);
               link_peer_csids env a cs lf iface (put_peer_csid iface (a, c) (mk_fqcsid l (node_addr lf)) t1)) = Some (t', 0)) as (t1 & e & Hcase & E1).
    { destruct (local_csids_hash t !! (h, (a, c))) as [e|] eqn:L.
      - exists t, e. split; [by left|exact E].
      - rewrite decide_False in E by (unfold ADD_NODE; lia). destruct (can_add_link env (h, (a, c))); [|done].
        eexists _, fqcsid_zero. split; [right|exact E]. split_and!; [done| |done]. unfold linked_csids. by rewrite L. }
    clear E. rewrite Hc' in E1. cbn [mbind option_bind] in E1. destruct (push_new c' (local_csid e)) as [l|] eqn:P; [|done].
    cbn [mbind option_bind] in E1. unfold put_peer_csid in E1. rewrite Hh in E1. destruct (push_new_elem _ _ _ P) as [Hin Hsub].
    destruct (IH _ _ E1) as (G & L & N). clear IH E1.
    set (t2 := set_links _ t1) in *.
    assert (grows t t2) as G2.
    { unfold t2. destruct Hcase as [[-> He]|(-> & He & ->)].
      - apply grows_put_link. unfold linked_csids. by rewrite He.
      - cbn [set_links local_csids_hash]. rewrite insert_insert_eq. apply (grows_put_link h a c _ t). rewrite He. set_solver. }
    assert (c' ∈ linked_csids t2 h a c) as H2.
    { unfold t2, linked_csids. cbn [set_links local_csids_hash]. by rewrite lookup_insert_eq. }
    split_and!.
    + by apply (grows_trans t t2).
    + intros x [->|Hx]%elem_of_cons; [by apply (grow_links _ _ G)|by apply L].
    + rewrite N. unfold t2. by destruct Hcase as [[-> _]|(-> & _)].
Qed.

(** *** What is stored and not linked yet *)

(** Each CSID stored for node [a] has a link in table [h], or is one of [pend]. *)
Record stored_ok (pend : list Z) (t : csid_tables) (h : csid_hash) (a : node_address_t) : Prop := mk_stored_ok {
  so_entry : forall e, local_csids_by_node_addr_hash t !! a = Some e -> node_addr e = a;
  so_links : forall c, c ∈ node_csids t a -> c ∈ pend \/ is_Some (local_csids_hash t !! (h, (a, c))) }.

(** The CSIDs of a peer's FQ-CSID that are stored for node [a]. *)
Definition csids_for (p : option fqcsid_t) (a : node_address_t) : list Z :=
  match p with Some p => if bool_decide (node_addr p = a) then local_csid p else [] | None => [] end.

Lemma peer_ok_stored t h a : peer_ok t h a <-> stored_ok [] t h a.
Proof.
  split; intros [H1 H2]; split; try done.
  - intros c Hc. right. by apply H2.
  - intros c Hc. destruct (H2 c Hc) as [Hn|]; [by apply elem_of_nil in Hn|done].
Qed.

Lemma stored_ok_weaken pend pend' t h a : pend ⊆ pend' -> stored_ok pend t h a -> stored_ok pend' t h a.
Proof. intros Hs [H1 H2]. split; [done|]. intros c Hc. destruct (H2 c Hc); [left; by apply Hs|by right]. Qed.

Lemma stored_ok_grows pend t t' h a : grows t t' -> local_csids_by_node_addr_hash t' = local_csids_by_node_addr_hash t ->
  stored_ok pend t h a -> stored_ok pend t' h a.
Proof.
  intros G N [H1 H2]. split; [by rewrite N|]. intros c. unfold node_csids. rewrite N. intros Hc.
  destruct (H2 c Hc); [by left|right; by apply (grow_entries _ _ G)].
Qed.

(** Tables that differ in the sets of peers and in the addresses of the senders. *)
Definition same_links (t t' : csid_tables) : Prop :=
  local_csids_hash t' = local_csids_hash t /\ local_csids_by_node_addr_hash t' = local_csids_by_node_addr_hash t.

Lemma same_links_grows t t' : same_links t t' -> grows t t'.
Proof. intros [H1 H2]. split; unfold linked_csids, node_csids; by rewrite ?H1, ?H2. Qed.

Lemma get_csid_entry_links env k t t' c : get_csid_entry env k t = (t', c) -> same_links t t'.
Proof.
  unfold get_csid_entry. destruct (csid_by_peer_node_hash t !! k); [by intros [= <- _]|].
  destruct (can_alloc_csid env); cbn [negb]; [|by intros [= <- _]]. destruct (can_add_csid env k); by intros [= <- _].
Qed.

(** Storing CSIDs [cs] for a node. *)
Lemma put_node_csids_spec env a t t1 e cs l pend h b : get_peer_addr_csids_entry env a ADD_NODE t = (t1, Some e) ->
  local_csid e ⊆ l -> (forall x, x ∈ l -> x ∈ local_csid e \/ x ∈ cs) ->
  let t' := put_node_csids a (mk_fqcsid l a) t1 in
  grows t t' /\ node_csids t' a = l /\ local_csids_hash t' = local_csids_hash t /\
  (stored_ok pend t h b -> stored_ok (csids_for (Some (mk_fqcsid cs a)) b ++ pend) t' h b).
Proof.
  intros E Hl Hi t'. assert (local_csids_hash t1 = local_csids_hash t /\ local_csid e = node_csids t a /\
      (forall b, a <> b -> local_csids_by_node_addr_hash t1 !! b = local_csids_by_node_addr_hash t !! b)) as (H1 & H2 & H3).
  { unfold get_peer_addr_csids_entry in E. unfold node_csids. destruct (local_csids_by_node_addr_hash t !! a) as [e'|].
    - injection E as <- <-. done.
    - rewrite decide_False in E by (unfold ADD_NODE; lia). destruct (can_add_node env a); [|done]. injection E as <- <-.
      split_and!; [done|done|]. intros b' Hb. cbn. by rewrite lookup_insert_ne. }
  assert (node_csids t' a = l) as Ha by (unfold t', node_csids; cbn; by rewrite lookup_insert_eq).
  assert (forall b, a <> b -> local_csids_by_node_addr_hash t' !! b = local_csids_by_node_addr_hash t !! b) as Hb.
  { intros b' Hn. unfold t'. cbn. rewrite lookup_insert_ne by done. by apply H3. }
  split_and!; [| done | done |].
  - split; [by unfold linked_csids, t'; cbn; rewrite H1|by unfold t'; cbn; rewrite H1|].
    intros b'. destruct (decide (a = b')) as [<-|Hn]; [rewrite Ha, <- H2; done|]. unfold node_csids. by rewrite Hb.
  - intros [S1 S2]. cbn [csids_for node_addr local_csid]. destruct (decide (a = b)) as [<-|Hn].
    + rewrite bool_decide_true by done. split.
      * intros e'. unfold t'. cbn. rewrite lookup_insert_eq. by intros [= <-].
      * rewrite Ha. intros c Hc. destruct (Hi c Hc) as [Hc'|Hc']; [|left; apply elem_of_app; by left].
        rewrite H2 in Hc'. destruct (S2 c Hc'); [left; apply elem_of_app; by right|right; unfold t'; cbn; by rewrite H1].
    + rewrite bool_decide_false by done. split; [by rewrite Hb|]. unfold node_csids. rewrite Hb by done. intros c Hc.
      destruct (S2 c Hc); [by left|right; unfold t'; cbn; by rewrite H1].
Qed.

(** What a peer's FQ-CSID leaves in the tables before it is linked. *)
Definition stored_peer (t t' : csid_tables) (p : option fqcsid_t) : Prop :=
  grows t t' /\ (forall pend h a, stored_ok pend t h a -> stored_ok (csids_for p a ++ pend) t' h a) /\
  (forall q, p = Some q -> local_csid q ⊆ node_csids t' (node_addr q)).

Lemma stored_peer_none t : stored_peer t t None.
Proof. split_and!; [apply grows_refl|done|done]. Qed.

Lemma stored_recvd_spec v4 v6 env ie t t' p a0 : stored_recvd_peer_fqcsid v4 v6 env ie (mk_fqcsid [] a0) t = Some (t', p, 0) -> stored_peer t t' (Some p).
Proof.
  unfold stored_recvd_peer_fqcsid. destruct (if bool_decide _ then _ else _) as [a|]; [|done].
  destruct (get_peer_addr_csids_entry env a ADD_NODE t) as [t1 [e|]] eqn:E; [|done].
  destruct (push_all push_new _ _) as [l|] eqn:P1; [|done]. cbn [mbind option_bind].
  rewrite push_all_app by (cbn; lia). cbn [local_csid app]. case_bool_decide; [|done]. cbn [mbind option_bind]. intros [= <- <-].
  destruct (push_all_new_elem _ _ _ P1) as (A & B & C). split_and!.
  - by apply (put_node_csids_spec env a t t1 e (pdn_conn_set_ident ie) l [] by_mmecsid a E A C).
  - intros pend h b. apply (put_node_csids_spec env a t t1 e (pdn_conn_set_ident ie) l pend h b E A C).
  - intros q [= <-]. cbn [node_addr local_csid].
    destruct (put_node_csids_spec env a t t1 e (pdn_conn_set_ident ie) l [] by_mmecsid a E A C) as (_ & -> & _). done.
Qed.

Lemma add_peer_addr_links v4 env cp ie iface t t' ret : add_peer_addr_entry_for_fqcsid_ie_node_addr v4 env cp ie iface t = (t', ret) -> same_links t t'.
Proof.
  unfold add_peer_addr_entry_for_fqcsid_ie_node_addr, get_peer_node_addr_entry. cbn zeta. intros E.
  repeat match type of E with
  | (if ?b then _ else _) = _ => destruct b
  | match ?x with Some _ => _ | None => _ end = _ => destruct x
  | context [match ?x with Some _ => _ | None => _ end] => destruct x; cbn beta iota in E
  | context [if ?x then _ else _] => destruct x; cbn beta iota in E
  end; injection E as <- _; done.
Qed.

Lemma store_cp_fqcsid_spec v4 v6 env map_cp cp ie t t' p :
  store_cp_fqcsid v4 v6 env map_cp cp ie fqcsid_zero t = Some (t', p, 0) -> stored_peer t t' (Some p).
Proof.
  unfold store_cp_fqcsid. destruct (header_len ie); cbn [negb].
  2: { intros [= <- <-]. split_and!; [apply grows_refl| |].
       - intros pend h a H. apply (stored_ok_weaken pend); [set_solver|done].
       - intros q [= <-] x Hx. by apply elem_of_nil in Hx. }
  case_bool_decide as Hi; cbn [negb].
  - set (a := if bool_decide _ then _ else _). destruct (get_peer_addr_csids_entry env a ADD_NODE t) as [t1 [e|]] eqn:E; [|done].
    intros [= <- <-]. unfold set_addr. split_and!.
    + by apply (put_node_csids_spec env a t t1 e [] (local_csid e) [] by_mmecsid a E); [|by left].
    + intros pend h b. apply (put_node_csids_spec env a t t1 e [] (local_csid e) pend h b E); [done|by left].
    + intros q [= <-] x Hx. by apply elem_of_nil in Hx.
  - destruct (if map_cp then _ else _) as [t1 r] eqn:E. destruct (r <? 0); [done|]. intros (G & S & N)%stored_recvd_spec.
    assert (same_links t t1) as L.
    { destruct map_cp; [by apply add_peer_addr_links in E|by injection E as <- _]. }
    split_and!; [apply (grows_trans t t1); [by apply same_links_grows|done]| |done].
    intros pend h a H. apply S. apply (stored_ok_grows _ t); [by apply same_links_grows|apply L|done].
Qed.

(** Linking a stored peer. *)
Lemma link_opt_spec env p up c' t t' : last (local_csid up) = Some c' -> link_opt env p up t = Some (t', 0) ->
  grows t t' /\ (forall q, p = Some q -> links_to t' by_sgwcsid (node_addr q) (local_csid q) c') /\
  (forall pend h a, (forall q, p = Some q -> node_addr q = a -> local_csid q <> [] -> h = by_sgwcsid) ->
    stored_ok (csids_for p a ++ pend) t h a -> stored_ok pend t' h a).
Proof.
  intros Hc'. unfold link_opt, link_peer_csid_with_local_csid. destruct p as [q|].
  2: { intros [= <-]. split_and!; [apply grows_refl|done|done]. }
  intros E. destruct (link_peer_csids_links env (node_addr q) up SX_PORT_ID by_sgwcsid c' eq_refl Hc' _ _ _ E) as (G & L & N).
  split_and!; [done|by intros ? [= <-]|]. intros pend h a Hh H. apply (stored_ok_grows _ t t' h a G N) in H. destruct H as [H1 H2].
  split; [done|]. intros c Hc. destruct (H2 c Hc) as [Hp|Hp]; [|by right]. apply elem_of_app in Hp as [Hp|Hp]; [|by left].
  cbn [csids_for] in Hp. case_bool_decide as Ha; [|by apply elem_of_nil in Hp]. right. subst a.
  rewrite (Hh q eq_refl eq_refl) by (intros Hn; rewrite Hn in Hp; by apply elem_of_nil in Hp). by apply (linked_is_Some _ _ _ _ c'), L.
Qed.

(** One side of the user plane: its node stores the local CSID, and links it. *)
Lemma link_side_spec env alloc a0 csid up iface h0 t t' p : hash_of iface = Some h0 -> last (local_csid up) = Some csid ->
  link_side env alloc a0 csid None up iface t = Some (t', p, 0) ->
  grows t t' /\ p = Some (mk_fqcsid [csid] a0) /\ csid ∈ node_csids t' a0 /\ csid ∈ linked_csids t' h0 a0 csid /\
  (forall pend h a, (a = a0 -> h = h0) -> stored_ok pend t h a -> stored_ok pend t' h a).
Proof.
  intros Hh Hl. unfold link_side. destruct (get_peer_addr_csids_entry env a0 ADD_NODE t) as [t1 [e|]] eqn:E; [|done].
  destruct (push_new csid (local_csid e)) as [l|] eqn:P; [|done]. cbn [mbind option_bind]. destruct alloc; [|done].
  cbn [local_csid fqcsid_zero]. change (push csid []) with (Some [csid]). cbn [mbind option_bind].
  unfold link_peer_csid_with_local_csid. cbn [node_addr local_csid].
  destruct (link_peer_csids _ _ _ _ _ _) as [[t2 r]|] eqn:L; [|done]. cbn [mbind option_bind]. intros [= -> <- ->].
  destruct (push_new_elem _ _ _ P) as [A1 A2]. pose proof (put_node_csids_spec env a0 t t1 e [csid] l) as S.
  destruct (link_peer_csids_links env a0 up iface h0 csid Hh Hl _ _ _ L) as (G & K & N).
  assert (forall x, x ∈ l -> x ∈ local_csid e \/ x ∈ [csid]) as A3.
  { intros x Hx. destruct (push_new_inv _ _ _ _ P Hx) as [->|]; [right; by apply elem_of_cons; left|by left]. }
  destruct (S [] by_mmecsid a0 E A2 A3) as (G1 & N1 & _). split_and!.
  - by eapply grows_trans.
  - done.
  - apply (grow_nodes _ _ G). by rewrite N1.
  - apply K. by apply elem_of_cons; left.
  - intros pend h a Ha H. destruct (S pend h a E A2 A3) as (_ & _ & _ & S4). apply S4 in H.
    apply (stored_ok_grows _ _ t' h a G N) in H. destruct H as [H1 H2]. split; [done|]. intros c Hc.
    destruct (H2 c Hc) as [Hp|Hp]; [|by right]. apply elem_of_app in Hp as [Hp|Hp]; [|by left].
    cbn [csids_for node_addr local_csid] in Hp. case_bool_decide as Ha'; [|by apply elem_of_nil in Hp].
    apply list_elem_of_singleton in Hp as ->. subst a. rewrite (Ha eq_refl). right. apply (linked_is_Some _ _ _ _ csid), K. by apply elem_of_cons; left.
Qed.

(** *** Results *)

Lemma link_peer_csids_ret env a lf iface : forall cs t t' r, link_peer_csids env a cs lf iface t = Some (t', r) -> r = 0 \/ r = -1.
Proof.
  induction cs as [|c cs IH]; intros t t' r; cbn [link_peer_csids]; [intros [= _ <-]; by left|].
  destruct (get_peer_csid_entry _ _ _ _ _) as [t1 [e|]]; [|intros [= _ <-]; by right].
  destruct (last _); [|done]. cbn [mbind option_bind]. destruct (push_new _ _); [|done]. cbn [mbind option_bind]. apply IH.
Qed.

Lemma link_opt_ret env p up t t' r : link_opt env p up t = Some (t', r) -> r = 0 \/ r = -1.
Proof. unfold link_opt. destruct p; [apply link_peer_csids_ret|intros [= _ <-]; by left]. Qed.

Lemma link_side_ret env alloc a c p up iface t t' p' r : link_side env alloc a c p up iface t = Some (t', p', r) -> r = 0 \/ r = -1.
Proof.
  unfold link_side. destruct (get_peer_addr_csids_entry _ _ _ _) as [t1 [e|]]; [|intros [= _ _ <-]; by right].
  destruct (push_new _ _); [|done]. cbn [mbind option_bind]. destruct (match p with Some _ => _ | None => _ end); [|intros [= _ _ <-]; by right].
  destruct (push _ _); [|done]. cbn [mbind option_bind]. destruct (link_peer_csid_with_local_csid _ _ _ _ _) as [[t2 r2]|] eqn:E; [|done].
  cbn [mbind option_bind]. intros [= _ _ <-]. by apply link_peer_csids_ret in E.
Qed.

Lemma stored_recvd_ret v4 v6 env ie lf t t' p r : stored_recvd_peer_fqcsid v4 v6 env ie lf t = Some (t', p, r) -> r = 0 \/ r = -1.
Proof.
  unfold stored_recvd_peer_fqcsid. destruct (if bool_decide _ then _ else _); [|intros [= _ _ <-]; by right].
  destruct (get_peer_addr_csids_entry _ _ _ _) as [t1 [e|]]; [|intros [= _ _ <-]; by right].
  destruct (push_all push_new _ _); [|done]. cbn [mbind option_bind]. destruct (push_all push _ _); [|done]. cbn [mbind option_bind]. intros [= _ _ <-]; by left.
Qed.

Lemma store_cp_fqcsid_ret v4 v6 env b cp ie lf t t' p r : store_cp_fqcsid v4 v6 env b cp ie lf t = Some (t', p, r) -> r = 0 \/ r = -1.
Proof.
  unfold store_cp_fqcsid. destruct (negb (header_len ie)); [intros [= _ _ <-]; by left|].
  destruct (negb (bool_decide _)).
  - destruct (if b then _ else _) as [t1 r1]. destruct (r1 <? 0); [intros [= _ _ <-]; by right|apply stored_recvd_ret].
  - destruct (get_peer_addr_csids_entry _ _ _ _) as [t1 [e|]]; intros [= _ _ <-]; [by left|by right].
Qed.

Lemma ret_success r : r = 0 \/ r = -1 -> (r <? 0) = false -> r = 0.
Proof. intros [->| ->]; done. Qed.

(** *** A session that is set up *)

Definition peer_list (p : option fqcsid_t) : list fqcsid_t := match p with Some q => [q] | None => [] end.

Lemma elem_of_peer_list q p : q ∈ peer_list p <-> p = Some q.
Proof. destruct p; cbn; rewrite ?list_elem_of_singleton, ?elem_of_nil; naive_solver. Qed.

(** The peers of a session, each with the table that its CSIDs are linked in. *)
Definition session_peers (s : up_csids) : list (csid_hash * fqcsid_t) :=
  ((pair by_mmecsid) <$> peer_list (wb_peer_fqcsid s)) ++ ((pair by_pgwcsid) <$> peer_list (eb_peer_fqcsid s)) ++
  ((pair by_sgwcsid) <$> (peer_list (mme_fqcsid s) ++ peer_list (sgw_fqcsid s) ++ peer_list (pgw_fqcsid s))).

Lemma elem_of_session_peers s h q : (h, q) ∈ session_peers s <->
  h = by_mmecsid /\ wb_peer_fqcsid s = Some q \/ h = by_pgwcsid /\ eb_peer_fqcsid s = Some q \/
  h = by_sgwcsid /\ (mme_fqcsid s = Some q \/ sgw_fqcsid s = Some q \/ pgw_fqcsid s = Some q).
Proof.
  unfold session_peers. rewrite !elem_of_app, !list_elem_of_fmap. setoid_rewrite elem_of_app. setoid_rewrite elem_of_app.
  setoid_rewrite elem_of_peer_list.
  split; [intros [(y & [= <- <-] & ?)|[(y & [= <- <-] & ?)|(y & [= <- <-] & ?)]]; tauto|].
  intros [[-> ?]|[[-> ?]|[-> ?]]]; [left|right; left|right; right]; exists q; tauto.
Qed.

(** The nodes of the peers that sent or got CSIDs are not linked in two tables. *)
Definition one_table (s : up_csids) : Prop :=
  forall h q h' q', (h, q) ∈ session_peers s -> (h', q') ∈ session_peers s -> node_addr q = node_addr q' ->
    local_csid q <> [] -> local_csid q' <> [] -> h = h'.

Lemma side_spec env (b alloc : bool) a0 csid up iface h0 t t' p r : hash_of iface = Some h0 -> last (local_csid up) = Some csid ->
  (if b then link_side env alloc a0 csid None up iface t else Some (t, None, 0)) = Some (t', p, r) -> (r <? 0) = false ->
  grows t t' /\ (p = None \/ p = Some (mk_fqcsid [csid] a0)) /\
  (forall q, p = Some q -> csid ∈ node_csids t' (node_addr q) /\ csid ∈ linked_csids t' h0 (node_addr q) csid) /\
  (forall pend h a, (forall q, p = Some q -> node_addr q = a -> h = h0) -> stored_ok pend t h a -> stored_ok pend t' h a).
Proof.
  intros Hh Hl. destruct b.
  - intros E Hr. rewrite (ret_success r) in E by (done || by eapply link_side_ret). destruct (link_side_spec _ _ _ _ _ _ _ _ _ _ Hh Hl E) as (G & -> & N & L & S).
    split_and!; [done|by right|by intros q [= <-]|]. intros pend h a Ha. apply S. intros ->. by apply (Ha _ eq_refl).
  - intros [= <- <- <-] _. split_and!; [apply grows_refl|by left|done|done].
Qed.

(** The second half of [fill_peer_node_info_t]: the CSIDs of the control-plane nodes. *)
Lemma link_three_spec env (m s1 p : option fqcsid_t) up c' t t' (s : up_csids) s' r :
  last (local_csid up) = Some c' ->
  ('(t, ret) ← link_opt env m up t; if ret <? 0 then Some (t, s, -1) else
   '(t, ret) ← link_opt env s1 up t; if ret <? 0 then Some (t, s, -1) else
   '(t, ret) ← link_opt env p up t; if ret <? 0 then Some (t, s, -1) else Some (t, s, 0)) = Some (t', s', r) -> 0 <= r ->
  grows t t' /\ s' = s /\ r = 0 /\ (forall q, q ∈ peer_list m ++ peer_list s1 ++ peer_list p -> links_to t' by_sgwcsid (node_addr q) (local_csid q) c') /\
  (forall h a, (forall q, q ∈ peer_list m ++ peer_list s1 ++ peer_list p -> node_addr q = a -> local_csid q <> [] -> h = by_sgwcsid) ->
    stored_ok (csids_for m a ++ csids_for s1 a ++ csids_for p a ++ []) t h a -> stored_ok [] t' h a).
Proof.
  intros Hl E Hr.
  destruct (link_opt env m up t) as [[t1 r1]|] eqn:E1; [|done]. cbn [mbind option_bind] in E. destruct (r1 <? 0) eqn:R1; [injection E as _ _ <-; lia|].
  rewrite (ret_success r1) in E1 by (done || by eapply link_opt_ret).
  destruct (link_opt env s1 up t1) as [[t2 r2]|] eqn:E2; [|done]. cbn [mbind option_bind] in E. destruct (r2 <? 0) eqn:R2; [injection E as _ _ <-; lia|].
  rewrite (ret_success r2) in E2 by (done || by eapply link_opt_ret).
  destruct (link_opt env p up t2) as [[t3 r3]|] eqn:E3; [|done]. cbn [mbind option_bind] in E. destruct (r3 <? 0) eqn:R3; [injection E as _ _ <-; lia|].
  rewrite (ret_success r3) in E3 by (done || by eapply link_opt_ret). injection E as <- <- <-.
  destruct (link_opt_spec _ _ _ _ _ _ Hl E1) as (G1 & L1 & S1). destruct (link_opt_spec _ _ _ _ _ _ Hl E2) as (G2 & L2 & S2).
  destruct (link_opt_spec _ _ _ _ _ _ Hl E3) as (G3 & L3 & S3). assert (grows t1 t3) as G13 by by apply (grows_trans t1 t2).
  split_and!; [by apply (grows_trans t t1)|done|done| |].
  - intros q. rewrite !elem_of_app, !elem_of_peer_list. intros [->|[->| ->]].
    + apply (links_to_grows t1); [done|by apply L1].
    + apply (links_to_grows t2); [done|by apply L2].
    + by apply L3.
  - intros h a Hq H. apply S3; [|apply S2; [|apply S1; [|done]]]; intros q Hq'; apply Hq;
      rewrite !elem_of_app, !elem_of_peer_list; auto.
Qed.

Lemma fill_peer_node_info_spec env alloc s cp t t' s' r :
  wb_peer_fqcsid s = None -> eb_peer_fqcsid s = None -> local_csid (up_fqcsid s) = [] ->
  fill_peer_node_info_t env alloc s cp t = Some (t', s', r) -> 0 <= r ->
  r = 0 /\ grows t t' /\ mme_fqcsid s' = mme_fqcsid s /\ sgw_fqcsid s' = sgw_fqcsid s /\ pgw_fqcsid s' = pgw_fqcsid s /\
  exists c', snd (get_csid_entry env (peer_info_t s cp) t) = c' /\ local_csid (up_fqcsid s') = [c'] /\
    (forall h q, (h, q) ∈ session_peers s' -> links_to t' h (node_addr q) (local_csid q) c' /\
       (local_csid q ⊆ node_csids t (node_addr q) -> local_csid q ⊆ node_csids t' (node_addr q))) /\
    (forall q, wb_peer_fqcsid s' = Some q \/ eb_peer_fqcsid s' = Some q -> local_csid q = [c'] /\ c' ∈ node_csids t' (node_addr q)) /\
    (forall h a, (forall h' q, (h', q) ∈ session_peers s' -> node_addr q = a -> local_csid q <> [] -> h = h') ->
      stored_ok (csids_for (mme_fqcsid s) a ++ csids_for (sgw_fqcsid s) a ++ csids_for (pgw_fqcsid s) a ++ []) t h a -> stored_ok [] t' h a).
Proof.
  intros Hwb Heb Hup E Hr. unfold fill_peer_node_info_t in E. cbn zeta in E.
  destruct (get_csid_entry env (peer_info_t s cp) t) as [t1 c'] eqn:Ec. cbn [fst snd].
  assert (same_links t t1) as L1 by by eapply get_csid_entry_links.
  destruct (c' <? 0); [injection E as _ _ <-; lia|]. rewrite Hup in E. cbn [list_find] in E.
  change (push c' []) with (Some [c']) in E. cbn [mbind option_bind] in E. set (s1 := set_up _ s) in *.
  change (wb_peer_fqcsid s1) with (wb_peer_fqcsid s) in E. rewrite Hwb in E.
  assert (last (local_csid (up_fqcsid s1)) = Some c') as Hl by done.
  destruct (if is_present (default _ (_ !! 2%nat)) then _ else _) as [[[t2 pw] rw]|] eqn:Ew; [|done]. cbn [mbind option_bind] in E.
  destruct (rw <? 0) eqn:Rw; [injection E as _ _ <-; lia|].
  change (eb_peer_fqcsid (set_wb pw s1)) with (eb_peer_fqcsid s) in E. rewrite Heb in E.
  destruct (if is_present (default _ (_ !! 3%nat)) then _ else _) as [[[t3 pe] re]|] eqn:Ee; [|done]. cbn [mbind option_bind] in E.
  destruct (re <? 0) eqn:Re; [injection E as _ _ <-; lia|].
  destruct (side_spec env _ alloc _ c' _ S1U_PORT_ID by_mmecsid _ _ _ _ eq_refl Hl Ew Rw) as (G2 & P2 & N2 & S2).
  destruct (side_spec env _ alloc _ c' _ SGI_PORT_ID by_pgwcsid _ _ _ _ eq_refl Hl Ee Re) as (G3 & P3 & N3 & S3).
  destruct (link_three_spec env _ _ _ _ c' _ _ _ _ _ Hl E Hr) as (G4 & -> & -> & L4 & S4). clear E Ew Ee.
  assert (grows t1 t3) as G13 by by apply (grows_trans t1 t2). assert (grows t2 t') as G24 by by apply (grows_trans t2 t3).
  assert (grows t t') as G by (apply (grows_trans t t1); [by apply same_links_grows|by apply (grows_trans t1 t3)]).
  split_and!; [done|done|done|done|done|]. exists c'. split_and!; [done|done| | |].
  - intros h q Hq. split; [|intros Hs; by etransitivity; [exact Hs|apply (grow_nodes _ _ G)]].
    apply elem_of_session_peers in Hq as [[-> Hq]|[[-> Hq]|[-> Hq]]]; cbn [wb_peer_fqcsid eb_peer_fqcsid set_eb set_wb] in Hq.
    + destruct P2 as [->| ->]; [done|]. injection Hq as <-. cbn [node_addr local_csid].
      intros x ->%list_elem_of_singleton. apply (grow_links _ _ G24). by apply (N2 _ eq_refl).
    + destruct P3 as [->| ->]; [done|]. injection Hq as <-. cbn [node_addr local_csid].
      intros x ->%list_elem_of_singleton. apply (grow_links _ _ G4). by apply (N3 _ eq_refl).
    + apply L4. by rewrite !elem_of_app, !elem_of_peer_list.
  - intros q [Hq|Hq]; cbn [wb_peer_fqcsid eb_peer_fqcsid set_eb set_wb] in Hq.
    + split; [destruct P2 as [->| ->]; [done|by injection Hq as <-]|]. apply (grow_nodes _ _ G24). by apply N2.
    + split; [destruct P3 as [->| ->]; [done|by injection Hq as <-]|]. apply (grow_nodes _ _ G4). by apply N3.
  - intros h a Hq H. assert (forall q, pw = Some q -> node_addr q = a -> h = by_mmecsid) as Hqw.
    { intros q -> Ha. apply (Hq by_mmecsid q); [|done|destruct P2 as [|P2]; [done|injection P2 as ->; done]].
      apply elem_of_session_peers. by left. }
    assert (forall q, pe = Some q -> node_addr q = a -> h = by_pgwcsid) as Hqe.
    { intros q -> Ha. apply (Hq by_pgwcsid q); [|done|destruct P3 as [|P3]; [done|injection P3 as ->; done]].
      apply elem_of_session_peers. right. by left. }
    apply (S4 h a).
    + intros q Hq'. apply Hq. apply elem_of_session_peers. rewrite !elem_of_app, !elem_of_peer_list in Hq'. by right; right.
    + apply S3; [done|]. apply S2; [done|]. by apply (stored_ok_grows _ t); [apply same_links_grows|apply L1|].
Qed.

Lemma grows_csids_of_peer t t' h a : grows t t' -> csids_of_peer t h a ⊆ csids_of_peer t' h a.
Proof.
  intros G x. unfold csids_of_peer. rewrite !list_elem_of_In, !in_flat_map. setoid_rewrite <- list_elem_of_In.
  intros (c & Hc & Hx). exists c. split; [by apply (grow_nodes _ _ G)|by apply (grow_links _ _ G)].
Qed.

Lemma csids_of_peer_elem t h a c x : c ∈ node_csids t a -> x ∈ linked_csids t h a c -> x ∈ csids_of_peer t h a.
Proof. intros H1 H2. unfold csids_of_peer. apply list_elem_of_In, in_flat_map. exists c. by rewrite <- !list_elem_of_In. Qed.

(** The tables before the peers are linked. *)
Lemma process_csids_stored v4 v6 env al cp up_addr mme_ie sgw_ie pgw_ie datas t t' s r :
  process_up_session_estab_csids v4 v6 env al cp up_addr mme_ie sgw_ie pgw_ie datas t = Some (t', s, r) -> 0 <= r ->
  exists t1 m q p, fill_peer_node_info_t env (al_peer al) (mk_up_csids datas None None m q p (mk_fqcsid [] up_addr)) cp t1 = Some (t', s, r) /\
    grows t t1 /\ (forall x, m = Some x \/ q = Some x \/ p = Some x -> local_csid x ⊆ node_csids t1 (node_addr x)) /\
    (forall h a, stored_ok [] t h a -> stored_ok (csids_for m a ++ csids_for q a ++ csids_for p a ++ []) t1 h a).
Proof.
  intros E Hr. unfold process_up_session_estab_csids in E. cbn zeta in E.
  destruct (al_sgw al); cbn [negb] in E; [|injection E as _ _ <-; lia].
  destruct (if header_len mme_ie && _ then _ else _) as [[[t1 m] rm]|] eqn:Em; [|done]. cbn [mbind option_bind] in E.
  destruct (rm <? 0) eqn:Rm; [injection E as _ _ <-; lia|].
  destruct (store_cp_fqcsid _ _ _ _ _ sgw_ie _ t1) as [[[t2 q] rq]|] eqn:Eq; [|done]. cbn [mbind option_bind] in E.
  destruct (rq <? 0) eqn:Rq; [injection E as _ _ <-; lia|].
  destruct (if header_len pgw_ie then _ else _) as [[[t3 p] rp]|] eqn:Ep; [|done]. cbn [mbind option_bind] in E.
  destruct (rp <? 0) eqn:Rp; [injection E as _ _ <-; lia|].
  destruct (al_up al); cbn [negb] in E; [|injection E as _ _ <-; lia].
  assert (stored_peer t t1 m) as (G1 & S1 & N1).
  { destruct (header_len mme_ie && _); [|injection Em as <- <- <-; apply stored_peer_none].
    destruct (al_mme al); cbn [negb] in Em; [|injection Em as _ _ <-; done].
    destruct (stored_recvd_peer_fqcsid _ _ _ _ _ t) as [[[t1' p'] r']|] eqn:E1; [|done]. cbn [mbind option_bind] in Em. injection Em as -> <- ->.
    rewrite (ret_success rm) in E1 by (done || by eapply stored_recvd_ret). by apply (stored_recvd_spec v4 v6 env mme_ie t t1 p' node_addr_zero). }
  rewrite (ret_success rq) in Eq by (done || by eapply store_cp_fqcsid_ret). apply store_cp_fqcsid_spec in Eq as (G2 & S2 & N2).
  assert (stored_peer t2 t3 p) as (G3 & S3 & N3).
  { destruct (header_len pgw_ie); [|injection Ep as <- <- <-; apply stored_peer_none].
    destruct (al_pgw al); cbn [negb] in Ep; [|injection Ep as _ _ <-; done].
    destruct (store_cp_fqcsid _ _ _ _ _ _ _ t2) as [[[t3' p'] r']|] eqn:E1; [|done]. cbn [mbind option_bind] in Ep. injection Ep as -> <- ->.
    rewrite (ret_success rp) in E1 by (done || by eapply store_cp_fqcsid_ret). by apply store_cp_fqcsid_spec in E1. }
  assert (grows t1 t3) as G13 by by apply (grows_trans t1 t2).
  exists t3, m, (Some q), p. split_and!; [done|by apply (grows_trans t t1)| |].
  - intros x [Hx|[Hx|Hx]]; [etransitivity; [by apply N1|apply (grow_nodes _ _ G13)]|etransitivity; [by apply N2|apply (grow_nodes _ _ G3)]|by apply N3].
  - intros h a H. apply S1, S2, S3 in H. eapply stored_ok_weaken; [|exact H]. intros x. rewrite !elem_of_app. tauto.
Qed.

(** C4. A session that is set up gets one local CSID, and is found by it when any of its peers
    fails: the CSIDs stored for each node that sent or got CSIDs stay linked, nothing is
    lost, and the local CSIDs that [up_del_pfcp_peer_node_sess] cleans up for the node - if
    there are at most 15, otherwise the array is overrun - contain the session's. *)
Theorem up_session_found_by_failed_peer v4 v6 env al cp up_addr mme_ie sgw_ie pgw_ie datas t t' s r :
  process_up_session_estab_csids v4 v6 env al cp up_addr mme_ie sgw_ie pgw_ie datas t = Some (t', s, r) -> 0 <= r -> one_table s ->
  exists c, local_csid (up_fqcsid s) = [c] /\ forall h q iface, (h, q) ∈ session_peers s -> local_csid q <> [] ->
    hash_of iface = Some h -> peer_ok t h (node_addr q) ->
    peer_ok t' h (node_addr q) /\ csids_of_peer t h (node_addr q) ⊆ csids_of_peer t' h (node_addr q) /\
    c ∈ csids_of_peer t' h (node_addr q) /\
    exists n, up_del_pfcp_peer_node_csids env (node_addr q) iface t' =
      if bool_decide (length (csids_of_peer t' h (node_addr q)) <= MAX_CSID)%nat then Some (Some (mk_fqcsid (csids_of_peer t' h (node_addr q)) n)) else None.
Proof.
  intros E Hr Hone. destruct (process_csids_stored _ _ _ _ _ _ _ _ _ _ _ _ _ _ E Hr) as (t1 & m & q1 & p & Ef & G1 & N1 & S1). clear E.
  set (s0 := mk_up_csids _ _ _ _ _ _ _) in Ef.
  destruct (fill_peer_node_info_spec env (al_peer al) s0 cp t1 t' s r eq_refl eq_refl eq_refl Ef Hr) as (-> & G & Em & Eq & Ep & c & _ & Ec & L & W & S). clear Ef Hr.
  exists c. split; [done|]. intros h q iface Hq Hne Hh Hok. destruct (L h q Hq) as [L1 L2].
  assert (local_csid q ⊆ node_csids t' (node_addr q)) as Nq.
  { pose proof Hq as Hq'. apply elem_of_session_peers in Hq' as [[_ Hq']|[[_ Hq']|[_ Hq']]].
    - destruct (W q (or_introl Hq')) as [-> Hc]. by intros x ->%list_elem_of_singleton.
    - destruct (W q (or_intror Hq')) as [-> Hc]. by intros x ->%list_elem_of_singleton.
    - apply L2, N1. rewrite Em, Eq, Ep in Hq'. exact Hq'. }
  assert (c ∈ csids_of_peer t' h (node_addr q)) as Hc.
  { destruct (local_csid q) as [|x l] eqn:El; [done|]. apply (csids_of_peer_elem t' h _ x); [apply Nq|apply L1]; by apply elem_of_cons; left. }
  assert (peer_ok t' h (node_addr q)) as Hok'.
  { apply peer_ok_stored, S.
    - intros h' q' Hq' Ha Hne'. by apply (Hone h q h' q').
    - by apply S1, peer_ok_stored. }
  split_and!; [done|by apply grows_csids_of_peer, (grows_trans t t1)|done|].
  apply failed_peer_csids; [done|done|]. intros Hn. rewrite Hn in Hc. by apply elem_of_nil in Hc.
Qed.

(** *** Cleaning up *)

Lemma remove_csid_notin c l : c ∉ l -> remove_csid c l = l.
Proof.
  induction l as [|x l IH]; [done|]. intros [Hx Hl]%not_elem_of_cons. cbn [remove_csid].
  rewrite bool_decide_false by congruence. by rewrite IH.
Qed.

Lemma filter_other_csids c (l : list Z) : c ∉ l -> base.filter (fun x => x <> c) l = l.
Proof.
  induction l as [|x l IH]; [done|]. intros [Hx Hl]%not_elem_of_cons. rewrite filter_cons_True by congruence. by rewrite IH.
Qed.

Lemma remove_csid_filter c l : NoDup l -> remove_csid c l = base.filter (fun x => x <> c) l.
Proof.
  induction 1 as [|x l Hx Hl IH]; [done|]. cbn [remove_csid]. case_bool_decide as E.
  - subst x. rewrite filter_cons_False by tauto. rewrite filter_other_csids by done. destruct l as [|y l]; [done|].
    apply not_elem_of_cons in Hx as [_ Hx]. by rewrite remove_csid_notin.
  - rewrite filter_cons_True by done. by f_equal.
Qed.

Lemma remove_csids_spec cs : forall l, NoDup l -> NoDup (remove_csids cs l) /\ forall x, x ∈ remove_csids cs l <-> x ∈ l /\ x ∉ cs.
Proof.
  induction cs as [|c cs IH]; intros l Hl; cbn.
  - split; [done|]. intros x. rewrite elem_of_nil. tauto.
  - destruct (IH (remove_csid c l)) as [H1 H2]; [rewrite remove_csid_filter by done; by apply NoDup_filter|].
    split; [done|]. intros x. rewrite H2, remove_csid_filter, list_elem_of_filter, elem_of_cons by done. tauto.
Qed.

(** The link of CSID [c] of node [b], where all local CSIDs are among [cs]. *)
Definition only_in (cs : list Z) (h : csid_hash) (b : node_address_t) (c : Z) (t : csid_tables) : Prop :=
  forall e, local_csids_hash t !! (h, (b, c)) = Some e -> NoDup (local_csid e) /\ local_csid e ⊆ cs.
Definition no_link (h : csid_hash) (b : node_address_t) (c : Z) (t : csid_tables) : Prop := local_csids_hash t !! (h, (b, c)) = None.

Lemma get_peer_csid_entry_remove_same env key iface t t' o : get_peer_csid_entry env key iface REMOVE_NODE t = (t', o) -> t' = t.
Proof.
  unfold get_peer_csid_entry. destruct (hash_of iface); [|by intros [= <- _]]. destruct (local_csids_hash t !! _); [by intros [= <- _]|].
  rewrite decide_True by done. by intros [= <- _].
Qed.

(** Removing [cs] from one link. *)
Lemma remove_link_spec iface h0 a x e cs t : hash_of iface = Some h0 -> local_csids_hash t !! (h0, (a, x)) = Some e ->
  let t1 := put_peer_csid iface (a, x) (set_csids (remove_csids cs (local_csid e)) e) t in
  let t2 := if bool_decide (remove_csids cs (local_csid e) = []) then fst (del_peer_csid_entry (a, x) iface t1) else t1 in
  local_csids_by_node_addr_hash t2 = local_csids_by_node_addr_hash t /\ snd (del_peer_csid_entry (a, x) iface t1) = 0 /\
  (forall h b c, only_in cs h b c t -> only_in cs h b c t2) /\ (forall h b c, no_link h b c t -> no_link h b c t2) /\
  (only_in cs h0 a x t -> no_link h0 a x t2).
Proof.
  intros Hh He t1 t2.
  assert (t1 = set_links (<[(h0, (a, x)) := set_csids (remove_csids cs (local_csid e)) e]> (local_csids_hash t)) t) as T1 by (unfold t1, put_peer_csid; by rewrite Hh).
  assert (local_csids_hash t1 = <[(h0, (a, x)) := set_csids (remove_csids cs (local_csid e)) e]> (local_csids_hash t)) as E1 by by rewrite T1.
  assert (local_csids_by_node_addr_hash t1 = local_csids_by_node_addr_hash t) as N1 by by rewrite T1.
  assert (del_peer_csid_entry (a, x) iface t1 = (set_links (delete (h0, (a, x)) (local_csids_hash t1)) t1, 0)) as D.
  { unfold del_peer_csid_entry. by rewrite Hh, E1, lookup_insert_eq. }
  assert (forall k, k <> (h0, (a, x)) -> local_csids_hash t2 !! k = local_csids_hash t !! k) as K.
  { intros k Hk. unfold t2. rewrite D. case_bool_decide; cbn [fst set_links local_csids_hash]; [rewrite lookup_delete_ne by done|]; by rewrite ?E1, lookup_insert_ne. }
  assert (local_csids_hash t2 !! (h0, (a, x)) = if bool_decide (remove_csids cs (local_csid e) = []) then None else Some (set_csids (remove_csids cs (local_csid e)) e)) as K0.
  { unfold t2. rewrite D. case_bool_decide; cbn [fst set_links local_csids_hash]; [apply lookup_delete_eq|by rewrite E1, lookup_insert_eq]. }
  assert (only_in cs h0 a x t -> remove_csids cs (local_csid e) = []) as R.
  { intros O. destruct (O e He) as [N S]. destruct (remove_csids cs (local_csid e)) as [|y l] eqn:L; [done|].
    destruct (remove_csids_spec cs (local_csid e) N) as [_ Q]. rewrite L in Q. destruct (proj1 (Q y)) as [Y1 Y2]; [by apply elem_of_cons; left|]. by apply S in Y1. }
  split_and!.
  - unfold t2. rewrite D. case_bool_decide; exact N1.
  - by rewrite D.
  - intros h b c O e' He'. destruct (decide ((h, (b, c)) = (h0, (a, x)))) as [[= -> -> ->]|Hn]; [|rewrite K in He' by done; by apply O].
    rewrite K0, (bool_decide_true _ (R O)) in He'. done.
  - intros h b c O. unfold no_link in *. destruct (decide ((h, (b, c)) = (h0, (a, x)))) as [Hk|Hn]; [|by rewrite K]. rewrite Hk in O. congruence.
  - intros O. unfold no_link. by rewrite K0, (bool_decide_true _ (R O)).
Qed.

Lemma cleanup_csid_links_spec env a locals iface h0 : hash_of iface = Some h0 -> forall cs t,
  let t' := fst (cleanup_csid_links env a cs locals iface t) in
  snd (cleanup_csid_links env a cs locals iface t) = 0 /\ local_csids_by_node_addr_hash t' = local_csids_by_node_addr_hash t /\
  (forall h b c, only_in locals h b c t -> only_in locals h b c t') /\ (forall h b c, no_link h b c t -> no_link h b c t') /\
  (forall c, c ∈ cs -> only_in locals h0 a c t -> no_link h0 a c t').
Proof.
  intros Hh. induction cs as [|x cs IH]; intros t; cbn [cleanup_csid_links].
  - split_and!; try done. by intros c ?%elem_of_nil.
  - rewrite (get_peer_csid_remove env (a, x) iface t h0 Hh). destruct (local_csids_hash t !! (h0, (a, x))) as [e|] eqn:E.
    + destruct (remove_link_spec iface h0 a x e locals t Hh E) as (N & D & S1 & S2 & S3).
      set (t1 := put_peer_csid _ _ _ t) in *. set (t2 := if bool_decide _ then _ else t1) in *.
      assert ((if bool_decide (remove_csids locals (local_csid e) = []) then
                 let '(t, ret) := del_peer_csid_entry (a, x) iface t1 in
                 if ret =? 0 then cleanup_csid_links env a cs locals iface t else (t, -1)
               else cleanup_csid_links env a cs locals iface t1) = cleanup_csid_links env a cs locals iface t2) as ->.
      { unfold t2. case_bool_decide; [|done]. destruct (del_peer_csid_entry _ _ _) as [t3 r]. cbn in D. by subst r. }
      destruct (IH t2) as (I0 & I1 & I2 & I3 & I4). split_and!; [done|by rewrite I1|by auto|by auto|].
      intros c [->|Hc]%elem_of_cons O; [by apply I3, S3|by apply I4; [|apply S1]].
    + destruct (IH t) as (I0 & I1 & I2 & I3 & I4). split_and!; try done.
      intros c [->|Hc]%elem_of_cons O; [by apply I3|by apply I4].
Qed.

Lemma cleanup_opt_spec env p csids iface h0 t : hash_of iface = Some h0 ->
  exists t', cleanup_opt env p csids iface t = (t', 0) /\ local_csids_by_node_addr_hash t' = local_csids_by_node_addr_hash t /\
  (forall h b c, only_in (local_csid csids) h b c t -> only_in (local_csid csids) h b c t') /\ (forall h b c, no_link h b c t -> no_link h b c t') /\
  (forall c, c ∈ local_csid p -> only_in (local_csid csids) h0 (node_addr p) c t -> no_link h0 (node_addr p) c t').
Proof.
  intros Hh. unfold cleanup_opt. case_bool_decide as H; cbn [negb].
  - exists t. split_and!; try done. rewrite H. by intros c ?%elem_of_nil.
  - unfold cleanup_csid_by_csid_entry. destruct (cleanup_csid_links_spec env (node_addr p) (local_csid csids) iface h0 Hh (local_csid p) t) as (E0 & S).
    destruct (cleanup_csid_links _ _ _ _ _ _) as [t' r]. cbn [fst snd] in *. subst r. by exists t'.
Qed.

Lemma del_csid_link_spec env peer c rm locals iface t t' r : del_csid_link env peer c rm locals iface t = (t', r) ->
  (forall b, b <> peer -> local_csids_by_node_addr_hash t' !! b = local_csids_by_node_addr_hash t !! b) /\
  (forall e', local_csids_by_node_addr_hash t' !! peer = Some e' -> exists e, local_csids_by_node_addr_hash t !! peer = Some e /\ node_addr e' = node_addr e) /\
  (forall h b x, no_link h b x t -> no_link h b x t').
Proof.
  unfold del_csid_link. cbn zeta. destruct (get_peer_csid_entry env (peer, c) iface REMOVE_NODE t) as [t1 [e|]] eqn:E.
  2: { apply get_peer_csid_entry_remove_same in E as ->. intros [= <- _]. split_and!; [done|by eauto|done]. }
  destruct (hash_of iface) as [h0|] eqn:Hh; [|unfold get_peer_csid_entry in E; by rewrite Hh in E].
  rewrite (get_peer_csid_remove env (peer, c) iface t h0 Hh) in E. injection E as <- E.
  destruct (remove_link_spec iface h0 peer c e locals t Hh E) as (N & D & _ & S & _).
  set (t1 := put_peer_csid _ _ _ t) in *. case_bool_decide as Hl; cbn [negb].
  2: { intros [= <- _]. split_and!; [by rewrite N|rewrite N; by eauto|done]. }
  destruct (del_peer_csid_entry (peer, c) iface t1) as [t2 r2]. cbn [fst snd] in *. subst r2. cbn [Z.eqb negb].
  unfold get_peer_addr_csids_entry. destruct (local_csids_by_node_addr_hash t2 !! peer) as [e2|] eqn:E2.
  2: { rewrite decide_True by done. intros [= <- _]. split_and!; [by rewrite N|rewrite <- N, E2; by eauto|done]. }
  rewrite N in E2. set (t3 := put_node_csids _ _ t2).
  assert (forall b, b <> peer -> local_csids_by_node_addr_hash t3 !! b = local_csids_by_node_addr_hash t !! b) as N3.
  { intros b Hb. unfold t3. cbn. by rewrite lookup_insert_ne, N. }
  assert (local_csids_by_node_addr_hash t3 !! peer = Some (set_csids (rm (local_csid e2)) e2)) as P3 by (unfold t3; cbn; by rewrite lookup_insert_eq).
  case_bool_decide.
  - unfold del_peer_addr_csids_entry. rewrite P3. intros [= <- _]. cbn [set_by_node_addr local_csids_by_node_addr_hash]. split_and!.
    + intros b Hb. rewrite lookup_delete_ne by done. by apply N3.
    + intros e'. by rewrite lookup_delete_eq.
    + intros h b x Hx. by apply S.
  - intros [= <- _]. split_and!; [done| |intros h b x Hx; by apply S].
    intros e'. rewrite P3. intros [= <-]. by eauto.
Qed.

(** The address in the entry of a node is the node's. *)
Definition nodes_ok (t : csid_tables) : Prop := forall a e, local_csids_by_node_addr_hash t !! a = Some e -> node_addr e = a.

Lemma del_csid_entry_hash_live_spec env k locals iface : forall fuel i t t' r, nodes_ok t ->
  del_csid_entry_hash_live fuel env k i locals iface t = Some (t', r) ->
  (forall b, b <> k -> local_csids_by_node_addr_hash t' !! b = local_csids_by_node_addr_hash t !! b) /\
  (forall h b x, no_link h b x t -> no_link h b x t').
Proof.
  induction fuel as [|fuel IH]; intros i t t' r Hok E; [done|]. cbn [del_csid_entry_hash_live] in E.
  destruct (local_csids_by_node_addr_hash t !! k) as [p|] eqn:Ep; [|done]. cbn [mbind option_bind] in E.
  destruct (local_csid p !! i) as [c|]; [|injection E as <- _; done]. cbn zeta in E. rewrite (Hok _ _ Ep) in E.
  destruct (del_csid_link _ _ _ _ _ _ _) as [t1 r1] eqn:E1. apply del_csid_link_spec in E1 as (N1 & P1 & S1).
  destruct (r1 =? 0); [|injection E as <- _; done]. apply IH in E as [N S].
  - split; [intros b Hb; rewrite N by done; by apply N1|auto].
  - intros a e Ha. destruct (decide (a = k)) as [->|Hn]; [|rewrite N1 in Ha by done; by apply Hok].
    destruct (P1 e Ha) as (e0 & He0 & ->). by apply Hok.
Qed.

Lemma collect_no_link env a iface h t c : hash_of iface = Some h -> no_link h a c t -> forall cs acc, c ∈ cs ->
  forall x, collect_csids env a cs iface acc t <> Some (Some x).
Proof.
  intros Hh Hn. induction cs as [|c' cs IH]; intros acc Hc x; [by apply elem_of_nil in Hc|]. cbn [collect_csids].
  rewrite (get_peer_csid_remove env (a, c') iface t h Hh). cbn [snd]. destruct (local_csids_hash t !! (h, (a, c'))) as [e|] eqn:E; [|done].
  apply elem_of_cons in Hc as [->|Hc]; [unfold no_link in Hn; congruence|].
  destruct (push_all push _ _) as [l|]; [|done]. cbn [mbind option_bind]. by apply IH.
Qed.

(** The FQ-CSIDs of the only session. *)
Lemma add_assocs_single s a : add_assocs [s] assoc_zero = Some a -> forall q, sgw_fqcsid s = Some q ->
  node_addr (a_sgwc a) = node_addr q /\ local_csid q ⊆ local_csid (a_sgwc a).
Proof.
  cbn [add_assocs]. unfold add_assoc. intros E q Hq. rewrite Hq in E. cbn [assoc_opt] in E.
  destruct (assoc_opt (mme_fqcsid s) _); [|done]. cbn [mbind option_bind] in E. unfold get_peer_assoc_csids in E.
  destruct (push_all push_new (local_csid q) _) as [l|] eqn:P; [|done]. cbn [mbind option_bind] in E.
  destruct (assoc_opt (pgw_fqcsid s) _); [|done]. cbn [mbind option_bind] in E. destruct (assoc_opt (wb_peer_fqcsid s) _); [|done]. cbn [mbind option_bind] in E.
  destruct (assoc_opt (eb_peer_fqcsid s) _); [|done]. cbn [mbind option_bind] in E. injection E as <-.
  split; [done|]. by destruct (push_all_new_elem _ _ _ P) as (_ & H & _).
Qed.

Lemma cleanup_sess_single env sessions csids s q t t' r : flat_map sessions (local_csid csids) = [s] -> sgw_fqcsid s = Some q ->
  cleanup_sess_by_csid_entry env sessions csids t = Some (t', r) ->
  local_csids_by_node_addr_hash t' = local_csids_by_node_addr_hash t /\ r = 0 /\
  forall c, c ∈ local_csid q -> only_in (local_csid csids) by_sgwcsid (node_addr q) c t -> no_link by_sgwcsid (node_addr q) c t'.
Proof.
  intros Hs Hq. unfold cleanup_sess_by_csid_entry. rewrite Hs. destruct (add_assocs [s] assoc_zero) as [a|] eqn:Ea; [|done].
  destruct (add_assocs_single s a Ea q Hq) as [A1 A2]. cbn [mbind option_bind].
  destruct (cleanup_opt_spec env (a_mme a) csids SX_PORT_ID by_sgwcsid t eq_refl) as (t1 & -> & N1 & O1 & L1 & _). cbn [Z.ltb Z.compare].
  destruct (cleanup_opt_spec env (a_sgwc a) csids SX_PORT_ID by_sgwcsid t1 eq_refl) as (t2 & -> & N2 & O2 & L2 & K2). cbn [Z.ltb Z.compare].
  destruct (cleanup_opt_spec env (a_pgwc a) csids SX_PORT_ID by_sgwcsid t2 eq_refl) as (t3 & -> & N3 & O3 & L3 & _). cbn [Z.ltb Z.compare].
  destruct (cleanup_opt_spec env (a_wb a) csids S1U_PORT_ID by_mmecsid t3 eq_refl) as (t4 & -> & N4 & O4 & L4 & _). cbn [Z.ltb Z.compare].
  destruct (cleanup_opt_spec env (a_eb a) csids SGI_PORT_ID by_pgwcsid t4 eq_refl) as (t5 & -> & N5 & O5 & L5 & _). cbn [Z.ltb Z.compare].
  intros [= <- <-]. split_and!; [congruence|done|]. intros c Hc O. rewrite A1 in K2. apply L5, L4, L3, K2; [by apply A2|by apply O1].
Qed.

(** A node that fails can make a later failure of another node go unnoticed: when the
    only session of the failed node is deleted, the links of its SGW-C's CSIDs that held no
    other local CSID are deleted as well, but the CSIDs stay stored for the SGW-C.  When the
    SGW-C fails, [up_del_pfcp_peer_node_sess] stops at the missing link with -1, or overran
    its array before: no session is deleted, whatever other CSIDs the SGW-C has. *)
Theorem cleanup_hides_later_failure env sessions sessions' a iface t t' s q c csids :
  nodes_ok t -> up_del_pfcp_peer_node_csids env a iface t = Some (Some csids) -> flat_map sessions (local_csid csids) = [s] ->
  up_del_pfcp_peer_node_sess env sessions a iface t = Some (t', 0) ->
  sgw_fqcsid s = Some q -> c ∈ local_csid q -> c ∈ node_csids t (node_addr q) -> only_in (local_csid csids) by_sgwcsid (node_addr q) c t ->
  (forall e, csids_of_node env a iface t = Some e -> node_addr e <> node_addr q) ->
  c ∈ node_csids t' (node_addr q) /\ no_link by_sgwcsid (node_addr q) c t' /\
  forall r, up_del_pfcp_peer_node_sess env sessions' (node_addr q) SX_PORT_ID t' = Some r -> r = (t', -1).
Proof.
  intros Hok Hc Hs E Hq Hcq Hcn Ho Ha. unfold up_del_pfcp_peer_node_csids in Hc. unfold up_del_pfcp_peer_node_sess in E. cbn zeta in E.
  set (mapped := bool_decide (snd (get_peer_addr_csids_entry env a UPDATE_NODE t) = None)) in *.
  set (k := if mapped then _ else a) in E.
  assert (forall e, csids_of_node env a iface t = Some e -> local_csids_by_node_addr_hash t !! k = Some e) as Hk.
  { intros e. unfold csids_of_node, k, mapped, get_peer_addr_csids_entry. destruct (local_csids_by_node_addr_hash t !! a) as [e0|] eqn:E0; cbn [snd].
    - rewrite bool_decide_false by done. intros [= <-]. done.
    - rewrite decide_True by done. cbn [snd]. rewrite bool_decide_true by done. destruct (snd (get_peer_node_addr_entry _ _ _ _)) as [a'|]; [|done].
      change (default a (Some a')) with a'. destruct (local_csids_by_node_addr_hash t !! a'); [|rewrite decide_True by done]; cbn [snd]; by intros [= <-]. }
  destruct (csids_of_node env a iface t) as [e|]; [|done]. specialize (Ha e eq_refl). specialize (Hk e eq_refl).
  destruct (collect_csids env (node_addr e) (local_csid e) iface fqcsid_zero t) as [[cs|]|]; [|done|done]. cbn [mbind option_bind] in Hc, E.
  case_bool_decide; [done|]. injection Hc as ->.
  destruct (cleanup_sess_by_csid_entry env sessions csids t) as [[t1 r1]|] eqn:E1; [|done]. cbn [mbind option_bind] in E.
  destruct (cleanup_sess_single _ _ _ _ _ _ _ _ Hs Hq E1) as (N1 & -> & L1). cbn [Z.eqb negb] in E.
  destruct (del_csid_entry_hash_live _ _ _ _ _ _ _) as [[t2 r2]|] eqn:E2; [|done]. cbn [mbind option_bind] in E.
  apply del_csid_entry_hash_live_spec in E2 as [N2 L2]; [|intros x y; rewrite N1; apply Hok].
  assert (node_addr q <> k) as Hqk by (rewrite (Hok _ _ Hk) in Ha; congruence).
  assert (same_links t2 t') as [S1 S2].
  { destruct (negb (r2 =? 0)); [by injection E|]. destruct (mapped && _); injection E as <-; [|done].
    unfold del_peer_node_addr_entry. by destruct (peer_node_addr_hash t2 !! _). }
  assert (local_csids_by_node_addr_hash t' !! node_addr q = local_csids_by_node_addr_hash t !! node_addr q) as N by (rewrite S2, N2, N1; done).
  assert (no_link by_sgwcsid (node_addr q) c t') as L by (unfold no_link; rewrite S1; apply L2, L1; done). split_and!.
  - unfold node_csids. rewrite N. exact Hcn.
  - exact L.
  - intros r. unfold up_del_pfcp_peer_node_sess, csids_of_node, get_peer_addr_csids_entry. cbn zeta.
    unfold node_csids in Hcn. rewrite N. destruct (local_csids_by_node_addr_hash t !! node_addr q) as [e'|] eqn:E'; [|by apply elem_of_nil in Hcn].
    cbn [snd]. rewrite (Hok _ _ E'). pose proof (collect_no_link env (node_addr q) SX_PORT_ID by_sgwcsid t' c eq_refl L (local_csid e') fqcsid_zero Hcn) as C.
    destruct (collect_csids _ _ _ _ _ _) as [[x|]|]; [by destruct (C x)| |done]. cbn [mbind option_bind]. by intros [= <-].
Qed.

(** The set of peers that gets the 2{^15}th identifier is never set up: the identifier is
    negative as an [int16_t], [fill_peer_node_info_t] fails, and since the entry stays in the
    table it fails for every later session with these peers; deleting entries does not help
    other sets of peers either, since the counter does not go back. *)
Theorem peer_set_32768_never_set_up env alloc s cp t : csids_ok t -> last_csid t = 2 ^ 15 - 1 ->
  csid_by_peer_node_hash t !! peer_info_t s cp = None -> can_alloc_csid env = true -> can_add_csid env (peer_info_t s cp) = true ->
  exists t', fill_peer_node_info_t env alloc s cp t = Some (t', s, -1) /\
    (forall env' alloc' s' cp' t'', peer_info_t s' cp' = peer_info_t s cp ->
      csid_by_peer_node_hash t'' !! peer_info_t s cp = csid_by_peer_node_hash t' !! peer_info_t s cp ->
      fill_peer_node_info_t env' alloc' s' cp' t'' = Some (t'', s', -1)) /\
    (forall k, last_csid (fst (del_csid_entry k t')) = 2 ^ 15).
Proof.
  intros Hok Hl E Ha Hb. eexists. split_and!.
  - unfold fill_peer_node_info_t. cbn zeta. by rewrite get_csid_entry_negative.
  - intros env' alloc' s' cp' t'' Hi. cbn [set_by_peer_node csid_by_peer_node_hash]. rewrite lookup_insert_eq. intros Hc.
    unfold fill_peer_node_info_t. cbn zeta. rewrite Hi. by rewrite get_csid_entry_stays.
  - intros k. unfold del_csid_entry. by destruct (csid_by_peer_node_hash _ !! k).
Qed.

(** ** Witnesses *)

Definition a_sgwc_node : node_address_t := mk_node_address PDN_TYPE_IPV4 1 ipv6_zero.
Definition a_enb : node_address_t := mk_node_address PDN_TYPE_IPV4 2 ipv6_zero.
Definition a_up : node_address_t := mk_node_address PDN_TYPE_IPV4 3 ipv6_zero.
Definition no_ie : pfcp_fqcsid_ie := mk_fqcsid_ie false 0 [] [].
Definition sgw_ie7 : pfcp_fqcsid_ie := mk_fqcsid_ie true 0 [x01; x00; x00; x00] [7].
Definition up_datas : list (option Z * node_address_t * node_address_t) := [(Some CORE, a_enb, node_addr_zero)].
Definition s_up : up_csids :=
  mk_up_csids up_datas (Some (mk_fqcsid [1] a_enb)) None None (Some (mk_fqcsid [7] a_sgwc_node)) None (mk_fqcsid [1] a_up).
Definition t_up : csid_tables :=
  mk_csid_tables {[ [a_sgwc_node; a_up; a_enb; node_addr_zero] := 1 ]}
    {[ a_sgwc_node := mk_fqcsid [7] a_sgwc_node; a_enb := mk_fqcsid [1] a_enb ]}
    {[ (by_sgwcsid, (a_sgwc_node, 7)) := mk_fqcsid [1] a_up; (by_mmecsid, (a_enb, 1)) := mk_fqcsid [1] a_up ]} ∅ 1.
Definition t_cleaned : csid_tables := set_links ∅ t_up.
Definition s_sessions (c : Z) : list up_csids := if c =? 1 then [s_up] else [].

Lemma nodes_ok_t_up : nodes_ok t_up.
Proof.
  intros a e. unfold t_up. cbn [local_csids_by_node_addr_hash]. rewrite lookup_insert_Some, lookup_singleton_Some.
  by intros [[<- <-]|[_ [<- <-]]].
Qed.


Lemma up_established :
  process_up_session_estab_csids 0 1 env_all (mk_fqcsid_allocs true true true true true) a_sgwc_node a_up no_ie sgw_ie7 no_ie up_datas t_empty = Some (t_up, s_up, 0).
Proof. reflexivity. Qed.

Lemma s_up_one_table : one_table s_up.
Proof.
  intros h q h' q' Hq Hq' E _ _. apply elem_of_session_peers in Hq, Hq'. cbn in Hq, Hq'.
  destruct Hq as [[-> [= <-]]|[[_ [=]]|[-> [[=]|[[= <-]|[=]]]]]]; destruct Hq' as [[-> [= <-]]|[[_ [=]]|[-> [[=]|[[= <-]|[=]]]]]]; done.
Qed.

Lemma peer_ok_empty h a : peer_ok t_empty h a.
Proof. split; [done|]. intros c. change (node_csids t_empty a) with (@nil Z). by intros ?%elem_of_nil. Qed.

(** The SGW-C fails after the session was set up. *)
Lemma up_session_found_by_failed_peer_witness :
  exists c, local_csid (up_fqcsid s_up) = [c] /\ c ∈ csids_of_peer t_up by_sgwcsid a_sgwc_node /\
    exists n, up_del_pfcp_peer_node_csids env_all a_sgwc_node SX_PORT_ID t_up = Some (Some (mk_fqcsid [1] n)).
Proof.
  destruct (up_session_found_by_failed_peer 0 1 env_all _ _ _ _ _ _ _ _ _ _ _ up_established ltac:(lia) s_up_one_table) as (c & Hc & H).
  exists c. split; [exact Hc|].
  destruct (H by_sgwcsid (mk_fqcsid [7] a_sgwc_node) SX_PORT_ID) as (_ & _ & H1 & n & H2).
  - apply elem_of_session_peers. right. right. split; [done|]. right. by left.
  - done.
  - done.
  - apply peer_ok_empty.
  - split; [exact H1|]. by exists n.
Defined.

(** The eNB fails, and its only session is deleted; then the SGW-C fails. *)
Lemma cleanup_hides_later_failure_witness :
  up_del_pfcp_peer_node_sess env_all s_sessions a_enb S1U_PORT_ID t_up = Some (t_cleaned, 0) /\
  7 ∈ node_csids t_cleaned a_sgwc_node /\
  up_del_pfcp_peer_node_sess env_all s_sessions a_sgwc_node SX_PORT_ID t_cleaned = Some (t_cleaned, -1).
Proof.
  assert (up_del_pfcp_peer_node_sess env_all s_sessions a_enb S1U_PORT_ID t_up = Some (t_cleaned, 0)) as E by reflexivity.
  destruct (cleanup_hides_later_failure env_all s_sessions s_sessions a_enb S1U_PORT_ID t_up t_cleaned s_up (mk_fqcsid [7] a_sgwc_node) 7 (mk_fqcsid [1] a_up))
    as (H1 & _ & H2).
  - exact nodes_ok_t_up.
  - reflexivity.
  - reflexivity.
  - exact E.
  - reflexivity.
  - apply elem_of_cons. by left.
  - change (node_csids t_up _) with [7]. apply elem_of_cons. by left.
  - intros e He. change (Some (mk_fqcsid [1] a_up) = Some e) in He. injection He as <-. split; [apply NoDup_singleton|done].
  - intros e He. change (Some (mk_fqcsid [1] a_enb) = Some e) in He. by injection He as <-.
  - split_and!; [exact E|exact H1|]. destruct (up_del_pfcp_peer_node_sess env_all s_sessions a_sgwc_node SX_PORT_ID t_cleaned) as [r|] eqn:E2.
    + f_equal. apply H2. exact E2.
    + discriminate.
Defined.

Definition t_full : csid_tables := set_last 32767 t_empty.
Definition s_new : up_csids := mk_up_csids up_datas None None None None None (mk_fqcsid [] a_up).

Lemma peer_set_32768_never_set_up_witness :
  exists t', fill_peer_node_info_t env_all true s_new a_sgwc_node t_full = Some (t', s_new, -1).
Proof.
  destruct (peer_set_32768_never_set_up env_all true s_new a_sgwc_node t_full) as (t' & E & _).
  - split; cbn; [intros k c; by rewrite lookup_empty|intros k k' c; by rewrite lookup_empty|lia].
  - reflexivity.
  - reflexivity.
  - reflexivity.
  - reflexivity.
  - exists t'. exact E.
Defined.
