(* ===== verification/GxMacros.v ===== *)
(** * The encoding macros of the Gx messages (cp/gx_app/src/gx_pack.c)

    The control plane and the Diameter application exchange the Gx messages
    (CCR, CCA, RAR, RAA) in a private binary format.  Three families of macros,
    [CALCLEN_*], [PACK_*] and [UNPACK_*], say how one member of a C structure
    is measured, written and read; the functions of the file are sequences of
    their calls.  This file models the macros; GxStruct.v models the structures,
    GxPack.v the functions, GxCodec.v proves them correct.

    - a member whose presence bit is 0 is [None]: no macro reads or writes it;
    - an octet string is the list of its [len] first bytes, a C list (count and
      pointer) is a list whose length is the count;
    - [res] is the outcome of a statement: it falls through, it returns 0 from
      the enclosing function, or it accesses memory outside the buffer;
    - sums with [sizeof] are 64-bit sums and do not wrap; the stored offsets and
      lengths are [uint32_t] and do;
    - whether a [malloc] succeeds is decided by [malloc_ok], from the element
      type and the count. *)
From S2P Require Import Prelude.

(** ** Outcomes *)

Inductive res (A : Type) : Type :=
| Ok (a : A)
| Return0
| OutOfBounds.
Arguments Ok {A} a.
Arguments Return0 {A}.
Arguments OutOfBounds {A}.

Definition res_bind {A B} (m : res A) (k : A -> res B) : res B :=
  match m with Ok a => k a | Return0 => Return0 | OutOfBounds => OutOfBounds end.

Declare Scope gx_scope.
Delimit Scope gx_scope with gx.
Notation "'let?' x := m 'in' k" := (res_bind m (fun x => k))
  (at level 10, x binder, m at level 100, k at level 200) : gx_scope.
Open Scope gx_scope.

Class Malloc := malloc_ok : string -> Z -> bool.

(** [MIN] of the source. *)
Definition MIN (a b : Z) : Z := if bool_decide (a < b) then a else b.

(** ** Memory *)

Definition zeros (n : nat) : list byte := replicate n x00.

Definition mem_write (buf : list byte) (off : Z) (bs : list byte) : res (list byte) :=
  if bool_decide (0 <= off /\ off + Z.of_nat (length bs) <= Z.of_nat (length buf))
  then Ok (take (Z.to_nat off) buf ++ bs ++ drop (Z.to_nat off + length bs) buf)
  else OutOfBounds.

Definition mem_read (buf : list byte) (off len : Z) : res (list byte) :=
  if bool_decide (0 <= off /\ 0 <= len /\ off + len <= Z.of_nat (length buf))
  then Ok (take (Z.to_nat len) (drop (Z.to_nat off) buf))
  else OutOfBounds.

(** ** Basic types: size, object representation, range *)

Record basic (T : Type) := mk_basic {
  bname : string;
  bsizeof : nat;
  obj_bytes : T -> list byte;
  of_bytes : list byte -> T;
  in_range : T -> bool
}.
Arguments mk_basic {T}. Arguments bname {T}. Arguments bsizeof {T}.
Arguments obj_bytes {T}. Arguments of_bytes {T}. Arguments in_range {T}.

Definition int32_t : basic Z :=
  mk_basic "int32_t" 4 (le_bytes 4) (fun bs => swrap 32 (le_val bs))
    (fun v => bool_decide (- 2 ^ 31 <= v < 2 ^ 31)).
Definition uint32_t : basic Z :=
  mk_basic "uint32_t" 4 (le_bytes 4) le_val (fun v => bool_decide (0 <= v < 2 ^ 32)).
Definition int64_t : basic Z :=
  mk_basic "int64_t" 8 (le_bytes 8) (fun bs => swrap 64 (le_val bs))
    (fun v => bool_decide (- 2 ^ 63 <= v < 2 ^ 63)).
Definition uint64_t : basic Z :=
  mk_basic "uint64_t" 8 (le_bytes 8) le_val (fun v => bool_decide (0 <= v < 2 ^ 64)).

(** [time_t] is a signed 64-bit integer; a [float] is its bit pattern. *)
Definition FdTime : basic Z :=
  mk_basic "FdTime" 8 (le_bytes 8) (fun bs => swrap 64 (le_val bs))
    (fun v => bool_decide (- 2 ^ 63 <= v < 2 ^ 63)).
Definition float : basic Z :=
  mk_basic "float" 4 (le_bytes 4) le_val (fun v => bool_decide (0 <= v < 2 ^ 32)).

Record fdAddress := mk_fdAddress { fd_type : Z; fd_address : list byte }.
Definition MAX_FD_ADDRESS_LEN : nat := 16.
Definition FdAddress : basic fdAddress :=
  mk_basic "FdAddress" (2 + MAX_FD_ADDRESS_LEN)
    (fun a => le_bytes 2 (fd_type a) ++ fd_address a)
    (fun bs => mk_fdAddress (le_val (take 2 bs)) (drop 2 bs))
    (fun a => bool_decide (0 <= fd_type a < 2 ^ 16 /\ length (fd_address a) = MAX_FD_ADDRESS_LEN)).

(** [uint8_t val[255 + 1]] of every octet-string structure. *)
Abbreviation OctetString := (list byte).
Definition sizeof_val : Z := 256.

(** ** Presence structures: one bit per member, allocated from the lowest bit,
    in 32-bit units whose other bits are zero *)

Definition present {A} (m : option A) : bool := match m with Some _ => true | None => false end.

Definition sizeof_presence (members : nat) : nat := 4 * ((members + 31) / 32).

Definition bits_val (bits : list bool) : Z :=
  foldr (fun (b : bool) v => Z.b2z b + 2 * v) 0 bits.

Fixpoint val_bits (members : nat) (v : Z) : list bool :=
  match members with O => [] | S n => Z.odd v :: val_bits n (v / 2) end.

Definition presence_bytes (bits : list bool) : list byte :=
  le_bytes (sizeof_presence (length bits)) (bits_val bits).

Definition bit (i : nat) (bits : list bool) : bool := nth i bits false.

(** ** CALCLEN_*: from the length so far to the length with the member *)

Definition CALCLEN_PRESENCE (bits : list bool) (length_ : Z) : Z :=
  length_ +[32] Z.of_nat (sizeof_presence (length bits)).

Definition CALCLEN_BASIC {T} (t : basic T) (m : option T) (length_ : Z) : Z :=
  match m with
  | None => length_
  | Some _ => length_ +[32] Z.of_nat (bsizeof t)
  end.

Definition CALCLEN_OCTETSTRING (m : option OctetString) (length_ : Z) : Z :=
  match m with
  | None => length_
  | Some s => length_ +[32] (4 + Z.of_nat (length s))
  end.

Definition CALCLEN_STRUCT {A} (calcfunc : A -> Z) (m : option A) (length_ : Z) : Z :=
  match m with
  | None => length_
  | Some d => length_ +[32] calcfunc d
  end.

Definition CALCLEN_LIST_BASIC {T} (t : basic T) (m : option (list T)) (length_ : Z) : Z :=
  match m with
  | None => length_
  | Some l => length_ +[32] (4 + Z.of_nat (bsizeof t) * Z.of_nat (length l))
  end.

Definition CALCLEN_LIST_OCTETSTRING (m : option (list OctetString)) (length_ : Z) : Z :=
  match m with
  | None => length_
  | Some l => foldl (fun n s => n +[32] (4 + Z.of_nat (length s))) (length_ +[32] 4) l
  end.

Definition CALCLEN_LIST_STRUCT {A} (calcfunc : A -> Z) (m : option (list A)) (length_ : Z) : Z :=
  match m with
  | None => length_
  | Some l => foldl (fun n d => n +[32] calcfunc d) (length_ +[32] 4) l
  end.

(** The statements of a calculation, one after the other. *)
Definition calc_all (cs : list (Z -> Z)) (length_ : Z) : Z := foldl (fun n c => c n) length_ cs.

(** ** PACK_*: [buflen], the buffer and the offset; the buffer and offset after *)

Definition packer : Type := Z -> list byte -> Z -> res (list byte * Z).

(** [memcpy(&buf[*offset], bs, n); *offset += n;] *)
Definition pack_store (bs : list byte) : packer := fun buflen buf offset =>
  let? buf := mem_write buf offset bs in
  Ok (buf, offset +[32] Z.of_nat (length bs)).

(** [if ( *offset + n > buflen) return 0;] *)
Definition pack_check (n : Z) (k : packer) : packer := fun buflen buf offset =>
  if bool_decide (buflen < offset + n) then Return0 else k buflen buf offset.

Definition pack_seq (p q : packer) : packer := fun buflen buf offset =>
  let? st := p buflen buf offset in q buflen (fst st) (snd st).
Definition pack_skip : packer := fun buflen buf offset => Ok (buf, offset).
Definition pack_all (ps : list packer) : packer := foldr pack_seq pack_skip ps.

Definition PACK_PRESENCE (bits : list bool) : packer :=
  pack_check (Z.of_nat (sizeof_presence (length bits))) (pack_store (presence_bytes bits)).

Definition PACK_BASIC {T} (t : basic T) (m : option T) : packer :=
  match m with
  | None => pack_skip
  | Some v => pack_check (Z.of_nat (bsizeof t)) (pack_store (obj_bytes t v))
  end.

Definition PACK_OCTETSTRING (m : option OctetString) : packer :=
  match m with
  | None => pack_skip
  | Some s =>
      pack_check (4 + Z.of_nat (length s))
        (pack_seq (pack_store (le_bytes 4 (Z.of_nat (length s)))) (pack_store s))
  end.

(** [if (!packfunc(&data->member, buf, buflen, offset)) return 0;] *)
Definition PACK_STRUCT {A} (packfunc : A -> packer) (m : option A) : packer :=
  match m with
  | None => pack_skip
  | Some d => packfunc d
  end.

(** The check and the store of the count of the three list macros. *)
Definition pack_count (n : nat) : packer :=
  pack_check 4 (pack_store (le_bytes 4 (Z.of_nat n))).

Definition PACK_LIST_BASIC {T} (t : basic T) (m : option (list T)) : packer :=
  match m with
  | None => pack_skip
  | Some l =>
      pack_seq (pack_count (length l))
        (pack_all (map (fun v => pack_check (Z.of_nat (bsizeof t)) (pack_store (obj_bytes t v))) l))
  end.

(** [*(uint32_t* )&buf[*offset] += n; *offset += 4;]: the length of an element
    is added to what the buffer holds there. *)
Definition pack_add_len (n : Z) : packer := fun buflen buf offset =>
  let? old := mem_read buf offset 4 in
  pack_store (le_bytes 4 (le_val old +[32] n)) buflen buf offset.

Definition PACK_LIST_OCTETSTRING (m : option (list OctetString)) : packer :=
  match m with
  | None => pack_skip
  | Some l =>
      pack_seq (pack_count (length l))
        (pack_all (map (fun s : OctetString =>
           pack_check (4 + Z.of_nat (length s))
             (pack_seq (pack_add_len (Z.of_nat (length s))) (pack_store s))) l))
  end.

Definition PACK_LIST_STRUCT {A} (packfunc : A -> packer) (m : option (list A)) : packer :=
  match m with
  | None => pack_skip
  | Some l => pack_seq (pack_count (length l)) (pack_all (map packfunc l))
  end.

(** [return *offset <= buflen;] of the structure packers. *)
Definition pack_return : packer := fun buflen buf offset =>
  if bool_decide (offset <= buflen) then Ok (buf, offset) else Return0.

(** ** UNPACK_*: [buflen], the buffer and the offset; the value and the offset after *)

Definition unpacker (A : Type) : Type := Z -> list byte -> Z -> res (A * Z).

Definition unpack_bind {A B} (u : unpacker A) (k : A -> unpacker B) : unpacker B :=
  fun buflen buf offset => let? r := u buflen buf offset in k (fst r) buflen buf (snd r).
Notation "'let!' x := u 'in' k" := (unpack_bind u (fun x => k))
  (at level 10, x name, u at level 100, k at level 200) : gx_scope.

Definition unpack_skip {A} (a : A) : unpacker A := fun buflen buf offset => Ok (a, offset).

(** [if ( *offset + n > buflen) return 0;] *)
Definition unpack_check {A} (n : Z) (k : unpacker A) : unpacker A := fun buflen buf offset =>
  if bool_decide (buflen < offset + n) then Return0 else k buflen buf offset.

(** [memcpy(dst, &buf[*offset], n); *offset += n;] *)
Definition unpack_load {A} (n : nat) (f : list byte -> A) : unpacker A := fun buflen buf offset =>
  let? bs := mem_read buf offset (Z.of_nat n) in
  Ok (f bs, offset +[32] Z.of_nat n).

Definition UNPACK_PRESENCE (members : nat) : unpacker (list bool) :=
  unpack_check (Z.of_nat (sizeof_presence members))
    (unpack_load (sizeof_presence members) (fun bs => val_bits members (le_val bs))).

Definition UNPACK_BASIC {T} (t : basic T) (p : bool) : unpacker (option T) :=
  if p
  then unpack_check (Z.of_nat (bsizeof t)) (unpack_load (bsizeof t) (fun bs => Some (of_bytes t bs)))
  else unpack_skip None.

(** The sum [*offset + __len__] of the second check and the advance are 32-bit. *)
Definition UNPACK_OCTETSTRING (p : bool) : unpacker (option OctetString) :=
  if p then
    unpack_check 4
      (let! __len__ := unpack_load 4 le_val in
       fun buflen buf offset =>
         if bool_decide (buflen < offset +[32] __len__) then Return0
         else let? val := mem_read buf offset (MIN __len__ (sizeof_val - 1)) in
              Ok (Some val, offset +[32] __len__))
  else unpack_skip None.

Definition UNPACK_STRUCT {A} (unpackfunc : unpacker A) (p : bool) : unpacker (option A) :=
  if p then (let! d := unpackfunc in unpack_skip (Some d)) else unpack_skip None.

(** [for (idx = 0; idx < count; idx++)] over the elements. *)
Fixpoint unpack_times {A} (n : nat) (u : unpacker A) : unpacker (list A) :=
  match n with
  | O => unpack_skip []
  | S n => let! x := u in let! l := unpack_times n u in unpack_skip (x :: l)
  end.

(** The allocation of [count] elements and the loop that fills them. *)
Definition unpack_elements {A} {M : Malloc} (type : string) (u : unpacker A) (count : Z)
    : unpacker (option (list A)) := fun buflen buf offset =>
  if malloc_ok type count
  then (let! l := unpack_times (Z.to_nat count) u in unpack_skip (Some l)) buflen buf offset
  else Return0.

Definition unpack_count : unpacker Z := unpack_load 4 (of_bytes int32_t).

Definition UNPACK_LIST_BASIC {M : Malloc} {T} (t : basic T) (p : bool)
    : unpacker (option (list T)) :=
  if p then
    unpack_check 4
      (let! count := unpack_count in
       unpack_elements (bname t)
         (unpack_check (Z.of_nat (bsizeof t)) (unpack_load (bsizeof t) (of_bytes t))) count)
  else unpack_skip None.

(** An element of a list of octet strings: its bytes are read without a check. *)
Definition unpack_octets_element : unpacker OctetString :=
  unpack_check 4
    (let! __len__ := unpack_load 4 le_val in
     fun buflen buf offset =>
       let? val := mem_read buf offset (MIN __len__ (sizeof_val - 1)) in
       Ok (val, offset +[32] __len__)).

(** The check before the count is [>=], not [>]. *)
Definition UNPACK_LIST_OCTETSTRING {M : Malloc} (type : string) (p : bool)
    : unpacker (option (list OctetString)) :=
  if p then fun buflen buf offset =>
    if bool_decide (buflen <= offset + 4) then Return0
    else (let! count := unpack_count in
          unpack_elements type unpack_octets_element count) buflen buf offset
  else unpack_skip None.

Definition UNPACK_LIST_STRUCT {M : Malloc} {A} (type : string) (unpackfunc : unpacker A) (p : bool)
    : unpacker (option (list A)) :=
  if p then
    unpack_check 4
      (let! count := unpack_count in unpack_elements type unpackfunc count)
  else unpack_skip None.

(** [return *offset <= buflen;] of the structure unpackers. *)
Definition unpack_return {A} (d : A) : unpacker A := fun buflen buf offset =>
  if bool_decide (offset <= buflen) then Ok (d, offset) else Return0.

(** ** The message functions around their sequences of macro calls *)

(** [uint32_t length = sizeof(uint32_t); ... return length;] *)
Definition message_calc_length (cs : list (Z -> Z)) : Z := calc_all cs 4.

(** [_offset = 4; ...; *((uint32_t* )buf) = _offset; return _offset == buflen;]:
    the returned flag and the buffer. *)
Definition message_pack (ps : list packer) (buf : list byte) (buflen : Z) : res (bool * list byte) :=
  let? st := pack_all ps buflen buf 4 in
  let? buf := mem_write (fst st) 0 (le_bytes 4 (snd st)) in
  Ok (bool_decide (snd st = buflen), buf).

(** [length = *((uint32_t* )buf); _offset = 4; ...; return length == _offset;]:
    the returned flag and the structure. *)
Definition message_unpack {A} (u : unpacker A) (buf : list byte) : res (bool * A) :=
  let? hdr := mem_read buf 0 4 in
  let? r := u (le_val hdr) buf 4 in
  Ok (bool_decide (le_val hdr = snd r), fst r).
