(* ===== verification/GxStruct.v ===== *)
(** * The structures of the Gx messages (cp/gx_app/include/gx_struct.h)

    One record per structure that has a presence field, in the order of the
    header.  A member whose presence bit is 0 is [None]; the presence structure
    itself is the list of its bits, [presence_<structure>], in their order. *)
From S2P Require Import Prelude GxMacros.

Record GxProxyInfo := mkGxProxyInfo {
  GxProxyInfo_proxy_host : option OctetString;
  GxProxyInfo_proxy_state : option OctetString
}.

Record GxPresenceReportingAreaInformation := mkGxPresenceReportingAreaInformation {
  GxPresenceReportingAreaInformation_presence_reporting_area_identifier : option OctetString;
  GxPresenceReportingAreaInformation_presence_reporting_area_status : option Z;
  GxPresenceReportingAreaInformation_presence_reporting_area_elements_list : option OctetString;
  GxPresenceReportingAreaInformation_presence_reporting_area_node : option Z
}.

Record GxRoutingRuleRemove := mkGxRoutingRuleRemove {
  GxRoutingRuleRemove_routing_rule_identifier : option (list OctetString)
}.

Record GxRoutingFilter := mkGxRoutingFilter {
  GxRoutingFilter_flow_description : option OctetString;
  GxRoutingFilter_flow_direction : option Z;
  GxRoutingFilter_tos_traffic_class : option OctetString;
  GxRoutingFilter_security_parameter_index : option OctetString;
  GxRoutingFilter_flow_label : option OctetString
}.

Record GxRoutingRuleDefinition := mkGxRoutingRuleDefinition {
  GxRoutingRuleDefinition_routing_rule_identifier : option OctetString;
  GxRoutingRuleDefinition_routing_filter : option (list GxRoutingFilter);
  GxRoutingRuleDefinition_precedence : option Z;
  GxRoutingRuleDefinition_routing_ip_address : option fdAddress;
  GxRoutingRuleDefinition_ip_can_type : option Z
}.

Record GxRoutingRuleInstall := mkGxRoutingRuleInstall {
  GxRoutingRuleInstall_routing_rule_definition : option (list GxRoutingRuleDefinition)
}.

Record GxUnitValue := mkGxUnitValue {
  GxUnitValue_value_digits : option Z;
  GxUnitValue_exponent : option Z
}.

Record GxCcMoney := mkGxCcMoney {
  GxCcMoney_unit_value : option GxUnitValue;
  GxCcMoney_currency_code : option Z
}.

Record GxUsedServiceUnit := mkGxUsedServiceUnit {
  GxUsedServiceUnit_reporting_reason : option Z;
  GxUsedServiceUnit_tariff_change_usage : option Z;
  GxUsedServiceUnit_cc_time : option Z;
  GxUsedServiceUnit_cc_money : option GxCcMoney;
  GxUsedServiceUnit_cc_total_octets : option Z;
  GxUsedServiceUnit_cc_input_octets : option Z;
  GxUsedServiceUnit_cc_output_octets : option Z;
  GxUsedServiceUnit_cc_service_specific_units : option Z;
  GxUsedServiceUnit_event_charging_timestamp : option (list Z)
}.

Record GxGrantedServiceUnit := mkGxGrantedServiceUnit {
  GxGrantedServiceUnit_tariff_time_change : option Z;
  GxGrantedServiceUnit_cc_time : option Z;
  GxGrantedServiceUnit_cc_money : option GxCcMoney;
  GxGrantedServiceUnit_cc_total_octets : option Z;
  GxGrantedServiceUnit_cc_input_octets : option Z;
  GxGrantedServiceUnit_cc_output_octets : option Z;
  GxGrantedServiceUnit_cc_service_specific_units : option Z
}.

Record GxUsageMonitoringInformation := mkGxUsageMonitoringInformation {
  GxUsageMonitoringInformation_monitoring_key : option OctetString;
  GxUsageMonitoringInformation_granted_service_unit : option (list GxGrantedServiceUnit);
  GxUsageMonitoringInformation_used_service_unit : option (list GxUsedServiceUnit);
  GxUsageMonitoringInformation_quota_consumption_time : option Z;
  GxUsageMonitoringInformation_usage_monitoring_level : option Z;
  GxUsageMonitoringInformation_usage_monitoring_report : option Z;
  GxUsageMonitoringInformation_usage_monitoring_support : option Z
}.

Record GxTunnelInformation := mkGxTunnelInformation {
  GxTunnelInformation_tunnel_header_length : option Z;
  GxTunnelInformation_tunnel_header_filter : option (list OctetString)
}.

Record GxCoaInformation := mkGxCoaInformation {
  GxCoaInformation_tunnel_information : option GxTunnelInformation;
  GxCoaInformation_coa_ip_address : option fdAddress
}.

Record GxAccessNetworkChargingIdentifierGx := mkGxAccessNetworkChargingIdentifierGx {
  GxAccessNetworkChargingIdentifierGx_access_network_charging_identifier_value : option OctetString;
  GxAccessNetworkChargingIdentifierGx_charging_rule_base_name : option (list OctetString);
  GxAccessNetworkChargingIdentifierGx_charging_rule_name : option (list OctetString);
  GxAccessNetworkChargingIdentifierGx_ip_can_session_charging_scope : option Z
}.

Record GxMbsfnArea := mkGxMbsfnArea {
  GxMbsfnArea_mbsfn_area_id : option Z;
  GxMbsfnArea_carrier_frequency : option Z
}.

Record GxAreaScope := mkGxAreaScope {
  GxAreaScope_cell_global_identity : option (list OctetString);
  GxAreaScope_e_utran_cell_global_identity : option (list OctetString);
  GxAreaScope_routing_area_identity : option (list OctetString);
  GxAreaScope_location_area_identity : option (list OctetString);
  GxAreaScope_tracking_area_identity : option (list OctetString)
}.

Record GxMdtConfiguration := mkGxMdtConfiguration {
  GxMdtConfiguration_job_type : option Z;
  GxMdtConfiguration_area_scope : option GxAreaScope;
  GxMdtConfiguration_list_of_measurements : option Z;
  GxMdtConfiguration_reporting_trigger : option Z;
  GxMdtConfiguration_report_interval : option Z;
  GxMdtConfiguration_report_amount : option Z;
  GxMdtConfiguration_event_threshold_rsrp : option Z;
  GxMdtConfiguration_event_threshold_rsrq : option Z;
  GxMdtConfiguration_logging_interval : option Z;
  GxMdtConfiguration_logging_duration : option Z;
  GxMdtConfiguration_measurement_period_lte : option Z;
  GxMdtConfiguration_measurement_period_umts : option Z;
  GxMdtConfiguration_collection_period_rrm_lte : option Z;
  GxMdtConfiguration_collection_period_rrm_umts : option Z;
  GxMdtConfiguration_positioning_method : option OctetString;
  GxMdtConfiguration_measurement_quantity : option OctetString;
  GxMdtConfiguration_event_threshold_event_1f : option Z;
  GxMdtConfiguration_event_threshold_event_1i : option Z;
  GxMdtConfiguration_mdt_allowed_plmn_id : option (list OctetString);
  GxMdtConfiguration_mbsfn_area : option (list GxMbsfnArea)
}.

Record GxTraceData := mkGxTraceData {
  GxTraceData_trace_reference : option OctetString;
  GxTraceData_trace_depth : option Z;
  GxTraceData_trace_ne_type_list : option OctetString;
  GxTraceData_trace_interface_list : option OctetString;
  GxTraceData_trace_event_list : option OctetString;
  GxTraceData_omc_id : option OctetString;
  GxTraceData_trace_collection_entity : option fdAddress;
  GxTraceData_mdt_configuration : option GxMdtConfiguration
}.

Record GxUserCsgInformation := mkGxUserCsgInformation {
  GxUserCsgInformation_csg_id : option Z;
  GxUserCsgInformation_csg_access_mode : option Z;
  GxUserCsgInformation_csg_membership_indication : option Z
}.

Record GxEventReportIndication := mkGxEventReportIndication {
  GxEventReportIndication_an_trusted : option Z;
  GxEventReportIndication_event_trigger : option (list Z);
  GxEventReportIndication_user_csg_information : option GxUserCsgInformation;
  GxEventReportIndication_ip_can_type : option Z;
  GxEventReportIndication_an_gw_address : option (list fdAddress);
  GxEventReportIndication_tgpp_sgsn_address : option OctetString;
  GxEventReportIndication_tgpp_sgsn_ipv6_address : option OctetString;
  GxEventReportIndication_tgpp_sgsn_mcc_mnc : option OctetString;
  GxEventReportIndication_framed_ip_address : option OctetString;
  GxEventReportIndication_rat_type : option Z;
  GxEventReportIndication_rai : option OctetString;
  GxEventReportIndication_tgpp_user_location_info : option OctetString;
  GxEventReportIndication_trace_data : option GxTraceData;
  GxEventReportIndication_trace_reference : option OctetString;
  GxEventReportIndication_tgpp2_bsid : option OctetString;
  GxEventReportIndication_tgpp_ms_timezone : option OctetString;
  GxEventReportIndication_routing_ip_address : option fdAddress;
  GxEventReportIndication_ue_local_ip_address : option fdAddress;
  GxEventReportIndication_henb_local_ip_address : option fdAddress;
  GxEventReportIndication_udp_source_port : option Z;
  GxEventReportIndication_presence_reporting_area_information : option GxPresenceReportingAreaInformation
}.

Record GxFlowInformation := mkGxFlowInformation {
  GxFlowInformation_flow_description : option OctetString;
  GxFlowInformation_packet_filter_identifier : option OctetString;
  GxFlowInformation_packet_filter_usage : option Z;
  GxFlowInformation_tos_traffic_class : option OctetString;
  GxFlowInformation_security_parameter_index : option OctetString;
  GxFlowInformation_flow_label : option OctetString;
  GxFlowInformation_flow_direction : option Z;
  GxFlowInformation_routing_rule_identifier : option OctetString
}.

Record GxApplicationDetectionInformation := mkGxApplicationDetectionInformation {
  GxApplicationDetectionInformation_tdf_application_identifier : option OctetString;
  GxApplicationDetectionInformation_tdf_application_instance_identifier : option OctetString;
  GxApplicationDetectionInformation_flow_information : option (list GxFlowInformation)
}.

Record GxRedirectServer := mkGxRedirectServer {
  GxRedirectServer_redirect_address_type : option Z;
  GxRedirectServer_redirect_server_address : option OctetString
}.

Record GxFinalUnitIndication := mkGxFinalUnitIndication {
  GxFinalUnitIndication_final_unit_action : option Z;
  GxFinalUnitIndication_restriction_filter_rule : option (list OctetString);
  GxFinalUnitIndication_filter_id : option (list OctetString);
  GxFinalUnitIndication_redirect_server : option GxRedirectServer
}.

Record GxChargingRuleReport := mkGxChargingRuleReport {
  GxChargingRuleReport_charging_rule_name : option (list OctetString);
  GxChargingRuleReport_charging_rule_base_name : option (list OctetString);
  GxChargingRuleReport_bearer_identifier : option OctetString;
  GxChargingRuleReport_pcc_rule_status : option Z;
  GxChargingRuleReport_rule_failure_code : option Z;
  GxChargingRuleReport_final_unit_indication : option GxFinalUnitIndication;
  GxChargingRuleReport_ran_nas_release_cause : option (list OctetString);
  GxChargingRuleReport_content_version : option (list Z)
}.

Record GxTftPacketFilterInformation := mkGxTftPacketFilterInformation {
  GxTftPacketFilterInformation_precedence : option Z;
  GxTftPacketFilterInformation_tft_filter : option OctetString;
  GxTftPacketFilterInformation_tos_traffic_class : option OctetString;
  GxTftPacketFilterInformation_security_parameter_index : option OctetString;
  GxTftPacketFilterInformation_flow_label : option OctetString;
  GxTftPacketFilterInformation_flow_direction : option Z
}.

Record GxFixedUserLocationInfo := mkGxFixedUserLocationInfo {
  GxFixedUserLocationInfo_ssid : option OctetString;
  GxFixedUserLocationInfo_bssid : option OctetString;
  GxFixedUserLocationInfo_logical_access_id : option OctetString;
  GxFixedUserLocationInfo_physical_access_id : option OctetString
}.

Record GxDefaultQosInformation := mkGxDefaultQosInformation {
  GxDefaultQosInformation_qos_class_identifier : option Z;
  GxDefaultQosInformation_max_requested_bandwidth_ul : option Z;
  GxDefaultQosInformation_max_requested_bandwidth_dl : option Z;
  GxDefaultQosInformation_default_qos_name : option OctetString
}.

Record GxAllocationRetentionPriority := mkGxAllocationRetentionPriority {
  GxAllocationRetentionPriority_priority_level : option Z;
  GxAllocationRetentionPriority_pre_emption_capability : option Z;
  GxAllocationRetentionPriority_pre_emption_vulnerability : option Z
}.

Record GxDefaultEpsBearerQos := mkGxDefaultEpsBearerQos {
  GxDefaultEpsBearerQos_qos_class_identifier : option Z;
  GxDefaultEpsBearerQos_allocation_retention_priority : option GxAllocationRetentionPriority
}.

Record GxConditionalApnAggregateMaxBitrate := mkGxConditionalApnAggregateMaxBitrate {
  GxConditionalApnAggregateMaxBitrate_apn_aggregate_max_bitrate_ul : option Z;
  GxConditionalApnAggregateMaxBitrate_apn_aggregate_max_bitrate_dl : option Z;
  GxConditionalApnAggregateMaxBitrate_extended_apn_ambr_ul : option Z;
  GxConditionalApnAggregateMaxBitrate_extended_apn_ambr_dl : option Z;
  GxConditionalApnAggregateMaxBitrate_ip_can_type : option (list Z);
  GxConditionalApnAggregateMaxBitrate_rat_type : option (list Z)
}.

Record GxQosInformation := mkGxQosInformation {
  GxQosInformation_qos_class_identifier : option Z;
  GxQosInformation_max_requested_bandwidth_ul : option Z;
  GxQosInformation_max_requested_bandwidth_dl : option Z;
  GxQosInformation_extended_max_requested_bw_ul : option Z;
  GxQosInformation_extended_max_requested_bw_dl : option Z;
  GxQosInformation_guaranteed_bitrate_ul : option Z;
  GxQosInformation_guaranteed_bitrate_dl : option Z;
  GxQosInformation_extended_gbr_ul : option Z;
  GxQosInformation_extended_gbr_dl : option Z;
  GxQosInformation_bearer_identifier : option OctetString;
  GxQosInformation_allocation_retention_priority : option GxAllocationRetentionPriority;
  GxQosInformation_apn_aggregate_max_bitrate_ul : option Z;
  GxQosInformation_apn_aggregate_max_bitrate_dl : option Z;
  GxQosInformation_extended_apn_ambr_ul : option Z;
  GxQosInformation_extended_apn_ambr_dl : option Z;
  GxQosInformation_conditional_apn_aggregate_max_bitrate : option (list GxConditionalApnAggregateMaxBitrate)
}.

Record GxUserEquipmentInfo := mkGxUserEquipmentInfo {
  GxUserEquipmentInfo_user_equipment_info_type : option Z;
  GxUserEquipmentInfo_user_equipment_info_value : option OctetString
}.

Record GxPacketFilterInformation := mkGxPacketFilterInformation {
  GxPacketFilterInformation_packet_filter_identifier : option OctetString;
  GxPacketFilterInformation_precedence : option Z;
  GxPacketFilterInformation_packet_filter_content : option OctetString;
  GxPacketFilterInformation_tos_traffic_class : option OctetString;
  GxPacketFilterInformation_security_parameter_index : option OctetString;
  GxPacketFilterInformation_flow_label : option OctetString;
  GxPacketFilterInformation_flow_direction : option Z
}.

Record GxTdfInformation := mkGxTdfInformation {
  GxTdfInformation_tdf_destination_realm : option OctetString;
  GxTdfInformation_tdf_destination_host : option OctetString;
  GxTdfInformation_tdf_ip_address : option fdAddress
}.

Record GxSupportedFeatures := mkGxSupportedFeatures {
  GxSupportedFeatures_vendor_id : option Z;
  GxSupportedFeatures_feature_list_id : option Z;
  GxSupportedFeatures_feature_list : option Z
}.

Record GxOcSupportedFeatures := mkGxOcSupportedFeatures {
  GxOcSupportedFeatures_oc_feature_vector : option Z
}.

Record GxSubscriptionId := mkGxSubscriptionId {
  GxSubscriptionId_subscription_id_type : option Z;
  GxSubscriptionId_subscription_id_data : option OctetString
}.

Record GxCCR := mkGxCCR {
  GxCCR_session_id : option OctetString;
  GxCCR_drmp : option Z;
  GxCCR_auth_application_id : option Z;
  GxCCR_origin_host : option OctetString;
  GxCCR_origin_realm : option OctetString;
  GxCCR_destination_realm : option OctetString;
  GxCCR_service_context_id : option OctetString;
  GxCCR_cc_request_type : option Z;
  GxCCR_cc_request_number : option Z;
  GxCCR_credit_management_status : option Z;
  GxCCR_destination_host : option OctetString;
  GxCCR_origin_state_id : option Z;
  GxCCR_subscription_id : option (list GxSubscriptionId);
  GxCCR_oc_supported_features : option GxOcSupportedFeatures;
  GxCCR_supported_features : option (list GxSupportedFeatures);
  GxCCR_tdf_information : option GxTdfInformation;
  GxCCR_network_request_support : option Z;
  GxCCR_packet_filter_information : option (list GxPacketFilterInformation);
  GxCCR_packet_filter_operation : option Z;
  GxCCR_bearer_identifier : option OctetString;
  GxCCR_bearer_operation : option Z;
  GxCCR_dynamic_address_flag : option Z;
  GxCCR_dynamic_address_flag_extension : option Z;
  GxCCR_pdn_connection_charging_id : option Z;
  GxCCR_framed_ip_address : option OctetString;
  GxCCR_framed_ipv6_prefix : option OctetString;
  GxCCR_ip_can_type : option Z;
  GxCCR_tgpp_rat_type : option OctetString;
  GxCCR_an_trusted : option Z;
  GxCCR_rat_type : option Z;
  GxCCR_termination_cause : option Z;
  GxCCR_user_equipment_info : option GxUserEquipmentInfo;
  GxCCR_qos_information : option GxQosInformation;
  GxCCR_qos_negotiation : option Z;
  GxCCR_qos_upgrade : option Z;
  GxCCR_default_eps_bearer_qos : option GxDefaultEpsBearerQos;
  GxCCR_default_qos_information : option GxDefaultQosInformation;
  GxCCR_an_gw_address : option (list fdAddress);
  GxCCR_an_gw_status : option Z;
  GxCCR_tgpp_sgsn_mcc_mnc : option OctetString;
  GxCCR_tgpp_sgsn_address : option OctetString;
  GxCCR_tgpp_sgsn_ipv6_address : option OctetString;
  GxCCR_tgpp_ggsn_address : option OctetString;
  GxCCR_tgpp_ggsn_ipv6_address : option OctetString;
  GxCCR_tgpp_selection_mode : option OctetString;
  GxCCR_rai : option OctetString;
  GxCCR_tgpp_user_location_info : option OctetString;
  GxCCR_fixed_user_location_info : option GxFixedUserLocationInfo;
  GxCCR_user_location_info_time : option Z;
  GxCCR_user_csg_information : option GxUserCsgInformation;
  GxCCR_twan_identifier : option OctetString;
  GxCCR_tgpp_ms_timezone : option OctetString;
  GxCCR_ran_nas_release_cause : option (list OctetString);
  GxCCR_tgpp_charging_characteristics : option OctetString;
  GxCCR_called_station_id : option OctetString;
  GxCCR_pdn_connection_id : option OctetString;
  GxCCR_bearer_usage : option Z;
  GxCCR_online : option Z;
  GxCCR_offline : option Z;
  GxCCR_tft_packet_filter_information : option (list GxTftPacketFilterInformation);
  GxCCR_charging_rule_report : option (list GxChargingRuleReport);
  GxCCR_application_detection_information : option (list GxApplicationDetectionInformation);
  GxCCR_event_trigger : option (list Z);
  GxCCR_event_report_indication : option GxEventReportIndication;
  GxCCR_access_network_charging_address : option fdAddress;
  GxCCR_access_network_charging_identifier_gx : option (list GxAccessNetworkChargingIdentifierGx);
  GxCCR_coa_information : option (list GxCoaInformation);
  GxCCR_usage_monitoring_information : option (list GxUsageMonitoringInformation);
  GxCCR_nbifom_support : option Z;
  GxCCR_nbifom_mode : option Z;
  GxCCR_default_access : option Z;
  GxCCR_origination_time_stamp : option Z;
  GxCCR_maximum_wait_time : option Z;
  GxCCR_access_availability_change_reason : option Z;
  GxCCR_routing_rule_install : option GxRoutingRuleInstall;
  GxCCR_routing_rule_remove : option GxRoutingRuleRemove;
  GxCCR_henb_local_ip_address : option fdAddress;
  GxCCR_ue_local_ip_address : option fdAddress;
  GxCCR_udp_source_port : option Z;
  GxCCR_tcp_source_port : option Z;
  GxCCR_presence_reporting_area_information : option (list GxPresenceReportingAreaInformation);
  GxCCR_logical_access_id : option OctetString;
  GxCCR_physical_access_id : option OctetString;
  GxCCR_proxy_info : option (list GxProxyInfo);
  GxCCR_route_record : option (list OctetString);
  GxCCR_tgpp_ps_data_off_status : option Z
}.

Record GxLoad := mkGxLoad {
  GxLoad_load_type : option Z;
  GxLoad_load_value : option Z;
  GxLoad_sourceid : option OctetString
}.

Record GxFailedAvp := mkGxFailedAvp {

}.

Record GxConditionalPolicyInformation := mkGxConditionalPolicyInformation {
  GxConditionalPolicyInformation_execution_time : option Z;
  GxConditionalPolicyInformation_default_eps_bearer_qos : option GxDefaultEpsBearerQos;
  GxConditionalPolicyInformation_apn_aggregate_max_bitrate_ul : option Z;
  GxConditionalPolicyInformation_apn_aggregate_max_bitrate_dl : option Z;
  GxConditionalPolicyInformation_extended_apn_ambr_ul : option Z;
  GxConditionalPolicyInformation_extended_apn_ambr_dl : option Z;
  GxConditionalPolicyInformation_conditional_apn_aggregate_max_bitrate : option (list GxConditionalApnAggregateMaxBitrate)
}.

Record GxRoutingRuleReport := mkGxRoutingRuleReport {
  GxRoutingRuleReport_routing_rule_identifier : option (list OctetString);
  GxRoutingRuleReport_pcc_rule_status : option Z;
  GxRoutingRuleReport_routing_rule_failure_code : option Z
}.

Record GxPraRemove := mkGxPraRemove {
  GxPraRemove_presence_reporting_area_identifier : option (list OctetString)
}.

Record GxPraInstall := mkGxPraInstall {
  GxPraInstall_presence_reporting_area_information : option (list GxPresenceReportingAreaInformation)
}.

Record GxChargingInformation := mkGxChargingInformation {
  GxChargingInformation_primary_event_charging_function_name : option OctetString;
  GxChargingInformation_secondary_event_charging_function_name : option OctetString;
  GxChargingInformation_primary_charging_collection_function_name : option OctetString;
  GxChargingInformation_secondary_charging_collection_function_name : option OctetString
}.

Record GxRedirectInformation := mkGxRedirectInformation {
  GxRedirectInformation_redirect_support : option Z;
  GxRedirectInformation_redirect_address_type : option Z;
  GxRedirectInformation_redirect_server_address : option OctetString
}.

Record GxFlows := mkGxFlows {
  GxFlows_media_component_number : option Z;
  GxFlows_flow_number : option (list Z);
  GxFlows_content_version : option (list Z);
  GxFlows_final_unit_action : option Z;
  GxFlows_media_component_status : option Z
}.

Record GxChargingRuleDefinition := mkGxChargingRuleDefinition {
  GxChargingRuleDefinition_charging_rule_name : option OctetString;
  GxChargingRuleDefinition_service_identifier : option Z;
  GxChargingRuleDefinition_rating_group : option Z;
  GxChargingRuleDefinition_flow_information : option (list GxFlowInformation);
  GxChargingRuleDefinition_default_bearer_indication : option Z;
  GxChargingRuleDefinition_tdf_application_identifier : option OctetString;
  GxChargingRuleDefinition_flow_status : option Z;
  GxChargingRuleDefinition_qos_information : option GxQosInformation;
  GxChargingRuleDefinition_ps_to_cs_session_continuity : option Z;
  GxChargingRuleDefinition_reporting_level : option Z;
  GxChargingRuleDefinition_online : option Z;
  GxChargingRuleDefinition_offline : option Z;
  GxChargingRuleDefinition_max_plr_dl : option Z;
  GxChargingRuleDefinition_max_plr_ul : option Z;
  GxChargingRuleDefinition_metering_method : option Z;
  GxChargingRuleDefinition_precedence : option Z;
  GxChargingRuleDefinition_af_charging_identifier : option OctetString;
  GxChargingRuleDefinition_flows : option (list GxFlows);
  GxChargingRuleDefinition_monitoring_key : option OctetString;
  GxChargingRuleDefinition_redirect_information : option GxRedirectInformation;
  GxChargingRuleDefinition_mute_notification : option Z;
  GxChargingRuleDefinition_af_signalling_protocol : option Z;
  GxChargingRuleDefinition_sponsor_identity : option OctetString;
  GxChargingRuleDefinition_application_service_provider_identity : option OctetString;
  GxChargingRuleDefinition_required_access_info : option (list Z);
  GxChargingRuleDefinition_sharing_key_dl : option Z;
  GxChargingRuleDefinition_sharing_key_ul : option Z;
  GxChargingRuleDefinition_traffic_steering_policy_identifier_dl : option OctetString;
  GxChargingRuleDefinition_traffic_steering_policy_identifier_ul : option OctetString;
  GxChargingRuleDefinition_content_version : option Z
}.

Record GxChargingRuleInstall := mkGxChargingRuleInstall {
  GxChargingRuleInstall_charging_rule_definition : option (list GxChargingRuleDefinition);
  GxChargingRuleInstall_charging_rule_name : option (list OctetString);
  GxChargingRuleInstall_charging_rule_base_name : option (list OctetString);
  GxChargingRuleInstall_bearer_identifier : option OctetString;
  GxChargingRuleInstall_monitoring_flags : option Z;
  GxChargingRuleInstall_rule_activation_time : option Z;
  GxChargingRuleInstall_rule_deactivation_time : option Z;
  GxChargingRuleInstall_resource_allocation_notification : option Z;
  GxChargingRuleInstall_charging_correlation_indicator : option Z;
  GxChargingRuleInstall_ip_can_type : option Z
}.

Record GxChargingRuleRemove := mkGxChargingRuleRemove {
  GxChargingRuleRemove_charging_rule_name : option (list OctetString);
  GxChargingRuleRemove_charging_rule_base_name : option (list OctetString);
  GxChargingRuleRemove_required_access_info : option (list Z);
  GxChargingRuleRemove_resource_release_notification : option Z
}.

Record GxOcOlr := mkGxOcOlr {
  GxOcOlr_oc_sequence_number : option Z;
  GxOcOlr_oc_report_type : option Z;
  GxOcOlr_oc_reduction_percentage : option Z;
  GxOcOlr_oc_validity_duration : option Z
}.

Record GxExperimentalResult := mkGxExperimentalResult {
  GxExperimentalResult_vendor_id : option Z;
  GxExperimentalResult_experimental_result_code : option Z
}.

Record GxCCA := mkGxCCA {
  GxCCA_session_id : option OctetString;
  GxCCA_drmp : option Z;
  GxCCA_auth_application_id : option Z;
  GxCCA_origin_host : option OctetString;
  GxCCA_origin_realm : option OctetString;
  GxCCA_result_code : option Z;
  GxCCA_experimental_result : option GxExperimentalResult;
  GxCCA_cc_request_type : option Z;
  GxCCA_cc_request_number : option Z;
  GxCCA_oc_supported_features : option GxOcSupportedFeatures;
  GxCCA_oc_olr : option GxOcOlr;
  GxCCA_supported_features : option (list GxSupportedFeatures);
  GxCCA_bearer_control_mode : option Z;
  GxCCA_event_trigger : option (list Z);
  GxCCA_event_report_indication : option GxEventReportIndication;
  GxCCA_origin_state_id : option Z;
  GxCCA_redirect_host : option (list OctetString);
  GxCCA_redirect_host_usage : option Z;
  GxCCA_redirect_max_cache_time : option Z;
  GxCCA_charging_rule_remove : option (list GxChargingRuleRemove);
  GxCCA_charging_rule_install : option (list GxChargingRuleInstall);
  GxCCA_charging_information : option GxChargingInformation;
  GxCCA_online : option Z;
  GxCCA_offline : option Z;
  GxCCA_qos_information : option (list GxQosInformation);
  GxCCA_revalidation_time : option Z;
  GxCCA_default_eps_bearer_qos : option GxDefaultEpsBearerQos;
  GxCCA_default_qos_information : option GxDefaultQosInformation;
  GxCCA_bearer_usage : option Z;
  GxCCA_usage_monitoring_information : option (list GxUsageMonitoringInformation);
  GxCCA_csg_information_reporting : option (list Z);
  GxCCA_user_csg_information : option GxUserCsgInformation;
  GxCCA_pra_install : option GxPraInstall;
  GxCCA_pra_remove : option GxPraRemove;
  GxCCA_presence_reporting_area_information : option GxPresenceReportingAreaInformation;
  GxCCA_session_release_cause : option Z;
  GxCCA_nbifom_support : option Z;
  GxCCA_nbifom_mode : option Z;
  GxCCA_default_access : option Z;
  GxCCA_ran_rule_support : option Z;
  GxCCA_routing_rule_report : option (list GxRoutingRuleReport);
  GxCCA_conditional_policy_information : option (list GxConditionalPolicyInformation);
  GxCCA_removal_of_access : option Z;
  GxCCA_ip_can_type : option Z;
  GxCCA_error_message : option OctetString;
  GxCCA_error_reporting_host : option OctetString;
  GxCCA_failed_avp : option GxFailedAvp;
  GxCCA_proxy_info : option (list GxProxyInfo);
  GxCCA_route_record : option (list OctetString);
  GxCCA_load : option (list GxLoad)
}.

Record GxRAA := mkGxRAA {
  GxRAA_session_id : option OctetString;
  GxRAA_drmp : option Z;
  GxRAA_origin_host : option OctetString;
  GxRAA_origin_realm : option OctetString;
  GxRAA_result_code : option Z;
  GxRAA_experimental_result : option GxExperimentalResult;
  GxRAA_origin_state_id : option Z;
  GxRAA_oc_supported_features : option GxOcSupportedFeatures;
  GxRAA_oc_olr : option GxOcOlr;
  GxRAA_ip_can_type : option Z;
  GxRAA_rat_type : option Z;
  GxRAA_an_trusted : option Z;
  GxRAA_an_gw_address : option (list fdAddress);
  GxRAA_tgpp_sgsn_mcc_mnc : option OctetString;
  GxRAA_tgpp_sgsn_address : option OctetString;
  GxRAA_tgpp_sgsn_ipv6_address : option OctetString;
  GxRAA_rai : option OctetString;
  GxRAA_tgpp_user_location_info : option OctetString;
  GxRAA_user_location_info_time : option Z;
  GxRAA_netloc_access_support : option Z;
  GxRAA_user_csg_information : option GxUserCsgInformation;
  GxRAA_tgpp_ms_timezone : option OctetString;
  GxRAA_default_qos_information : option GxDefaultQosInformation;
  GxRAA_charging_rule_report : option (list GxChargingRuleReport);
  GxRAA_error_message : option OctetString;
  GxRAA_error_reporting_host : option OctetString;
  GxRAA_failed_avp : option GxFailedAvp;
  GxRAA_proxy_info : option (list GxProxyInfo)
}.

Record GxRAR := mkGxRAR {
  GxRAR_session_id : option OctetString;
  GxRAR_drmp : option Z;
  GxRAR_auth_application_id : option Z;
  GxRAR_origin_host : option OctetString;
  GxRAR_origin_realm : option OctetString;
  GxRAR_destination_realm : option OctetString;
  GxRAR_destination_host : option OctetString;
  GxRAR_re_auth_request_type : option Z;
  GxRAR_session_release_cause : option Z;
  GxRAR_origin_state_id : option Z;
  GxRAR_oc_supported_features : option GxOcSupportedFeatures;
  GxRAR_event_trigger : option (list Z);
  GxRAR_event_report_indication : option GxEventReportIndication;
  GxRAR_charging_rule_remove : option (list GxChargingRuleRemove);
  GxRAR_charging_rule_install : option (list GxChargingRuleInstall);
  GxRAR_default_eps_bearer_qos : option GxDefaultEpsBearerQos;
  GxRAR_qos_information : option (list GxQosInformation);
  GxRAR_default_qos_information : option GxDefaultQosInformation;
  GxRAR_revalidation_time : option Z;
  GxRAR_usage_monitoring_information : option (list GxUsageMonitoringInformation);
  GxRAR_pcscf_restoration_indication : option Z;
  GxRAR_conditional_policy_information : option (list GxConditionalPolicyInformation);
  GxRAR_removal_of_access : option Z;
  GxRAR_ip_can_type : option Z;
  GxRAR_pra_install : option GxPraInstall;
  GxRAR_pra_remove : option GxPraRemove;
  GxRAR_csg_information_reporting : option (list Z);
  GxRAR_proxy_info : option (list GxProxyInfo);
  GxRAR_route_record : option (list OctetString)
}.

Definition presence_GxProxyInfo (data : GxProxyInfo) : list bool :=
  [present data.(GxProxyInfo_proxy_host);
   present data.(GxProxyInfo_proxy_state)].

Definition presence_GxPresenceReportingAreaInformation (data : GxPresenceReportingAreaInformation) : list bool :=
  [present data.(GxPresenceReportingAreaInformation_presence_reporting_area_identifier);
   present data.(GxPresenceReportingAreaInformation_presence_reporting_area_status);
   present data.(GxPresenceReportingAreaInformation_presence_reporting_area_elements_list);
   present data.(GxPresenceReportingAreaInformation_presence_reporting_area_node)].

Definition presence_GxRoutingRuleRemove (data : GxRoutingRuleRemove) : list bool :=
  [present data.(GxRoutingRuleRemove_routing_rule_identifier)].

Definition presence_GxRoutingFilter (data : GxRoutingFilter) : list bool :=
  [present data.(GxRoutingFilter_flow_description);
   present data.(GxRoutingFilter_flow_direction);
   present data.(GxRoutingFilter_tos_traffic_class);
   present data.(GxRoutingFilter_security_parameter_index);
   present data.(GxRoutingFilter_flow_label)].

Definition presence_GxRoutingRuleDefinition (data : GxRoutingRuleDefinition) : list bool :=
  [present data.(GxRoutingRuleDefinition_routing_rule_identifier);
   present data.(GxRoutingRuleDefinition_routing_filter);
   present data.(GxRoutingRuleDefinition_precedence);
   present data.(GxRoutingRuleDefinition_routing_ip_address);
   present data.(GxRoutingRuleDefinition_ip_can_type)].

Definition presence_GxRoutingRuleInstall (data : GxRoutingRuleInstall) : list bool :=
  [present data.(GxRoutingRuleInstall_routing_rule_definition)].

Definition presence_GxUnitValue (data : GxUnitValue) : list bool :=
  [present data.(GxUnitValue_value_digits);
   present data.(GxUnitValue_exponent)].

Definition presence_GxCcMoney (data : GxCcMoney) : list bool :=
  [present data.(GxCcMoney_unit_value);
   present data.(GxCcMoney_currency_code)].

Definition presence_GxUsedServiceUnit (data : GxUsedServiceUnit) : list bool :=
  [present data.(GxUsedServiceUnit_reporting_reason);
   present data.(GxUsedServiceUnit_tariff_change_usage);
   present data.(GxUsedServiceUnit_cc_time);
   present data.(GxUsedServiceUnit_cc_money);
   present data.(GxUsedServiceUnit_cc_total_octets);
   present data.(GxUsedServiceUnit_cc_input_octets);
   present data.(GxUsedServiceUnit_cc_output_octets);
   present data.(GxUsedServiceUnit_cc_service_specific_units);
   present data.(GxUsedServiceUnit_event_charging_timestamp)].

Definition presence_GxGrantedServiceUnit (data : GxGrantedServiceUnit) : list bool :=
  [present data.(GxGrantedServiceUnit_tariff_time_change);
   present data.(GxGrantedServiceUnit_cc_time);
   present data.(GxGrantedServiceUnit_cc_money);
   present data.(GxGrantedServiceUnit_cc_total_octets);
   present data.(GxGrantedServiceUnit_cc_input_octets);
   present data.(GxGrantedServiceUnit_cc_output_octets);
   present data.(GxGrantedServiceUnit_cc_service_specific_units)].

Definition presence_GxUsageMonitoringInformation (data : GxUsageMonitoringInformation) : list bool :=
  [present data.(GxUsageMonitoringInformation_monitoring_key);
   present data.(GxUsageMonitoringInformation_granted_service_unit);
   present data.(GxUsageMonitoringInformation_used_service_unit);
   present data.(GxUsageMonitoringInformation_quota_consumption_time);
   present data.(GxUsageMonitoringInformation_usage_monitoring_level);
   present data.(GxUsageMonitoringInformation_usage_monitoring_report);
   present data.(GxUsageMonitoringInformation_usage_monitoring_support)].

Definition presence_GxTunnelInformation (data : GxTunnelInformation) : list bool :=
  [present data.(GxTunnelInformation_tunnel_header_length);
   present data.(GxTunnelInformation_tunnel_header_filter)].

Definition presence_GxCoaInformation (data : GxCoaInformation) : list bool :=
  [present data.(GxCoaInformation_tunnel_information);
   present data.(GxCoaInformation_coa_ip_address)].

Definition presence_GxAccessNetworkChargingIdentifierGx (data : GxAccessNetworkChargingIdentifierGx) : list bool :=
  [present data.(GxAccessNetworkChargingIdentifierGx_access_network_charging_identifier_value);
   present data.(GxAccessNetworkChargingIdentifierGx_charging_rule_base_name);
   present data.(GxAccessNetworkChargingIdentifierGx_charging_rule_name);
   present data.(GxAccessNetworkChargingIdentifierGx_ip_can_session_charging_scope)].

Definition presence_GxMbsfnArea (data : GxMbsfnArea) : list bool :=
  [present data.(GxMbsfnArea_mbsfn_area_id);
   present data.(GxMbsfnArea_carrier_frequency)].

Definition presence_GxAreaScope (data : GxAreaScope) : list bool :=
  [present data.(GxAreaScope_cell_global_identity);
   present data.(GxAreaScope_e_utran_cell_global_identity);
   present data.(GxAreaScope_routing_area_identity);
   present data.(GxAreaScope_location_area_identity);
   present data.(GxAreaScope_tracking_area_identity)].

Definition presence_GxMdtConfiguration (data : GxMdtConfiguration) : list bool :=
  [present data.(GxMdtConfiguration_job_type);
   present data.(GxMdtConfiguration_area_scope);
   present data.(GxMdtConfiguration_list_of_measurements);
   present data.(GxMdtConfiguration_reporting_trigger);
   present data.(GxMdtConfiguration_report_interval);
   present data.(GxMdtConfiguration_report_amount);
   present data.(GxMdtConfiguration_event_threshold_rsrp);
   present data.(GxMdtConfiguration_event_threshold_rsrq);
   present data.(GxMdtConfiguration_logging_interval);
   present data.(GxMdtConfiguration_logging_duration);
   present data.(GxMdtConfiguration_measurement_period_lte);
   present data.(GxMdtConfiguration_measurement_period_umts);
   present data.(GxMdtConfiguration_collection_period_rrm_lte);
   present data.(GxMdtConfiguration_collection_period_rrm_umts);
   present data.(GxMdtConfiguration_positioning_method);
   present data.(GxMdtConfiguration_measurement_quantity);
   present data.(GxMdtConfiguration_event_threshold_event_1f);
   present data.(GxMdtConfiguration_event_threshold_event_1i);
   present data.(GxMdtConfiguration_mdt_allowed_plmn_id);
   present data.(GxMdtConfiguration_mbsfn_area)].

Definition presence_GxTraceData (data : GxTraceData) : list bool :=
  [present data.(GxTraceData_trace_reference);
   present data.(GxTraceData_trace_depth);
   present data.(GxTraceData_trace_ne_type_list);
   present data.(GxTraceData_trace_interface_list);
   present data.(GxTraceData_trace_event_list);
   present data.(GxTraceData_omc_id);
   present data.(GxTraceData_trace_collection_entity);
   present data.(GxTraceData_mdt_configuration)].

Definition presence_GxUserCsgInformation (data : GxUserCsgInformation) : list bool :=
  [present data.(GxUserCsgInformation_csg_id);
   present data.(GxUserCsgInformation_csg_access_mode);
   present data.(GxUserCsgInformation_csg_membership_indication)].

Definition presence_GxEventReportIndication (data : GxEventReportIndication) : list bool :=
  [present data.(GxEventReportIndication_an_trusted);
   present data.(GxEventReportIndication_event_trigger);
   present data.(GxEventReportIndication_user_csg_information);
   present data.(GxEventReportIndication_ip_can_type);
   present data.(GxEventReportIndication_an_gw_address);
   present data.(GxEventReportIndication_tgpp_sgsn_address);
   present data.(GxEventReportIndication_tgpp_sgsn_ipv6_address);
   present data.(GxEventReportIndication_tgpp_sgsn_mcc_mnc);
   present data.(GxEventReportIndication_framed_ip_address);
   present data.(GxEventReportIndication_rat_type);
   present data.(GxEventReportIndication_rai);
   present data.(GxEventReportIndication_tgpp_user_location_info);
   present data.(GxEventReportIndication_trace_data);
   present data.(GxEventReportIndication_trace_reference);
   present data.(GxEventReportIndication_tgpp2_bsid);
   present data.(GxEventReportIndication_tgpp_ms_timezone);
   present data.(GxEventReportIndication_routing_ip_address);
   present data.(GxEventReportIndication_ue_local_ip_address);
   present data.(GxEventReportIndication_henb_local_ip_address);
   present data.(GxEventReportIndication_udp_source_port);
   present data.(GxEventReportIndication_presence_reporting_area_information)].

Definition presence_GxFlowInformation (data : GxFlowInformation) : list bool :=
  [present data.(GxFlowInformation_flow_description);
   present data.(GxFlowInformation_packet_filter_identifier);
   present data.(GxFlowInformation_packet_filter_usage);
   present data.(GxFlowInformation_tos_traffic_class);
   present data.(GxFlowInformation_security_parameter_index);
   present data.(GxFlowInformation_flow_label);
   present data.(GxFlowInformation_flow_direction);
   present data.(GxFlowInformation_routing_rule_identifier)].

Definition presence_GxApplicationDetectionInformation (data : GxApplicationDetectionInformation) : list bool :=
  [present data.(GxApplicationDetectionInformation_tdf_application_identifier);
   present data.(GxApplicationDetectionInformation_tdf_application_instance_identifier);
   present data.(GxApplicationDetectionInformation_flow_information)].

Definition presence_GxRedirectServer (data : GxRedirectServer) : list bool :=
  [present data.(GxRedirectServer_redirect_address_type);
   present data.(GxRedirectServer_redirect_server_address)].

Definition presence_GxFinalUnitIndication (data : GxFinalUnitIndication) : list bool :=
  [present data.(GxFinalUnitIndication_final_unit_action);
   present data.(GxFinalUnitIndication_restriction_filter_rule);
   present data.(GxFinalUnitIndication_filter_id);
   present data.(GxFinalUnitIndication_redirect_server)].

Definition presence_GxChargingRuleReport (data : GxChargingRuleReport) : list bool :=
  [present data.(GxChargingRuleReport_charging_rule_name);
   present data.(GxChargingRuleReport_charging_rule_base_name);
   present data.(GxChargingRuleReport_bearer_identifier);
   present data.(GxChargingRuleReport_pcc_rule_status);
   present data.(GxChargingRuleReport_rule_failure_code);
   present data.(GxChargingRuleReport_final_unit_indication);
   present data.(GxChargingRuleReport_ran_nas_release_cause);
   present data.(GxChargingRuleReport_content_version)].

Definition presence_GxTftPacketFilterInformation (data : GxTftPacketFilterInformation) : list bool :=
  [present data.(GxTftPacketFilterInformation_precedence);
   present data.(GxTftPacketFilterInformation_tft_filter);
   present data.(GxTftPacketFilterInformation_tos_traffic_class);
   present data.(GxTftPacketFilterInformation_security_parameter_index);
   present data.(GxTftPacketFilterInformation_flow_label);
   present data.(GxTftPacketFilterInformation_flow_direction)].

Definition presence_GxFixedUserLocationInfo (data : GxFixedUserLocationInfo) : list bool :=
  [present data.(GxFixedUserLocationInfo_ssid);
   present data.(GxFixedUserLocationInfo_bssid);
   present data.(GxFixedUserLocationInfo_logical_access_id);
   present data.(GxFixedUserLocationInfo_physical_access_id)].

Definition presence_GxDefaultQosInformation (data : GxDefaultQosInformation) : list bool :=
  [present data.(GxDefaultQosInformation_qos_class_identifier);
   present data.(GxDefaultQosInformation_max_requested_bandwidth_ul);
   present data.(GxDefaultQosInformation_max_requested_bandwidth_dl);
   present data.(GxDefaultQosInformation_default_qos_name)].

Definition presence_GxAllocationRetentionPriority (data : GxAllocationRetentionPriority) : list bool :=
  [present data.(GxAllocationRetentionPriority_priority_level);
   present data.(GxAllocationRetentionPriority_pre_emption_capability);
   present data.(GxAllocationRetentionPriority_pre_emption_vulnerability)].

Definition presence_GxDefaultEpsBearerQos (data : GxDefaultEpsBearerQos) : list bool :=
  [present data.(GxDefaultEpsBearerQos_qos_class_identifier);
   present data.(GxDefaultEpsBearerQos_allocation_retention_priority)].

Definition presence_GxConditionalApnAggregateMaxBitrate (data : GxConditionalApnAggregateMaxBitrate) : list bool :=
  [present data.(GxConditionalApnAggregateMaxBitrate_apn_aggregate_max_bitrate_ul);
   present data.(GxConditionalApnAggregateMaxBitrate_apn_aggregate_max_bitrate_dl);
   present data.(GxConditionalApnAggregateMaxBitrate_extended_apn_ambr_ul);
   present data.(GxConditionalApnAggregateMaxBitrate_extended_apn_ambr_dl);
   present data.(GxConditionalApnAggregateMaxBitrate_ip_can_type);
   present data.(GxConditionalApnAggregateMaxBitrate_rat_type)].

Definition presence_GxQosInformation (data : GxQosInformation) : list bool :=
  [present data.(GxQosInformation_qos_class_identifier);
   present data.(GxQosInformation_max_requested_bandwidth_ul);
   present data.(GxQosInformation_max_requested_bandwidth_dl);
   present data.(GxQosInformation_extended_max_requested_bw_ul);
   present data.(GxQosInformation_extended_max_requested_bw_dl);
   present data.(GxQosInformation_guaranteed_bitrate_ul);
   present data.(GxQosInformation_guaranteed_bitrate_dl);
   present data.(GxQosInformation_extended_gbr_ul);
   present data.(GxQosInformation_extended_gbr_dl);
   present data.(GxQosInformation_bearer_identifier);
   present data.(GxQosInformation_allocation_retention_priority);
   present data.(GxQosInformation_apn_aggregate_max_bitrate_ul);
   present data.(GxQosInformation_apn_aggregate_max_bitrate_dl);
   present data.(GxQosInformation_extended_apn_ambr_ul);
   present data.(GxQosInformation_extended_apn_ambr_dl);
   present data.(GxQosInformation_conditional_apn_aggregate_max_bitrate)].

Definition presence_GxUserEquipmentInfo (data : GxUserEquipmentInfo) : list bool :=
  [present data.(GxUserEquipmentInfo_user_equipment_info_type);
   present data.(GxUserEquipmentInfo_user_equipment_info_value)].

Definition presence_GxPacketFilterInformation (data : GxPacketFilterInformation) : list bool :=
  [present data.(GxPacketFilterInformation_packet_filter_identifier);
   present data.(GxPacketFilterInformation_precedence);
   present data.(GxPacketFilterInformation_packet_filter_content);
   present data.(GxPacketFilterInformation_tos_traffic_class);
   present data.(GxPacketFilterInformation_security_parameter_index);
   present data.(GxPacketFilterInformation_flow_label);
   present data.(GxPacketFilterInformation_flow_direction)].

Definition presence_GxTdfInformation (data : GxTdfInformation) : list bool :=
  [present data.(GxTdfInformation_tdf_destination_realm);
   present data.(GxTdfInformation_tdf_destination_host);
   present data.(GxTdfInformation_tdf_ip_address)].

Definition presence_GxSupportedFeatures (data : GxSupportedFeatures) : list bool :=
  [present data.(GxSupportedFeatures_vendor_id);
   present data.(GxSupportedFeatures_feature_list_id);
   present data.(GxSupportedFeatures_feature_list)].

Definition presence_GxOcSupportedFeatures (data : GxOcSupportedFeatures) : list bool :=
  [present data.(GxOcSupportedFeatures_oc_feature_vector)].

Definition presence_GxSubscriptionId (data : GxSubscriptionId) : list bool :=
  [present data.(GxSubscriptionId_subscription_id_type);
   present data.(GxSubscriptionId_subscription_id_data)].

Definition presence_GxCCR (data : GxCCR) : list bool :=
  [present data.(GxCCR_session_id);
   present data.(GxCCR_drmp);
   present data.(GxCCR_auth_application_id);
   present data.(GxCCR_origin_host);
   present data.(GxCCR_origin_realm);
   present data.(GxCCR_destination_realm);
   present data.(GxCCR_service_context_id);
   present data.(GxCCR_cc_request_type);
   present data.(GxCCR_cc_request_number);
   present data.(GxCCR_credit_management_status);
   present data.(GxCCR_destination_host);
   present data.(GxCCR_origin_state_id);
   present data.(GxCCR_subscription_id);
   present data.(GxCCR_oc_supported_features);
   present data.(GxCCR_supported_features);
   present data.(GxCCR_tdf_information);
   present data.(GxCCR_network_request_support);
   present data.(GxCCR_packet_filter_information);
   present data.(GxCCR_packet_filter_operation);
   present data.(GxCCR_bearer_identifier);
   present data.(GxCCR_bearer_operation);
   present data.(GxCCR_dynamic_address_flag);
   present data.(GxCCR_dynamic_address_flag_extension);
   present data.(GxCCR_pdn_connection_charging_id);
   present data.(GxCCR_framed_ip_address);
   present data.(GxCCR_framed_ipv6_prefix);
   present data.(GxCCR_ip_can_type);
   present data.(GxCCR_tgpp_rat_type);
   present data.(GxCCR_an_trusted);
   present data.(GxCCR_rat_type);
   present data.(GxCCR_termination_cause);
   present data.(GxCCR_user_equipment_info);
   present data.(GxCCR_qos_information);
   present data.(GxCCR_qos_negotiation);
   present data.(GxCCR_qos_upgrade);
   present data.(GxCCR_default_eps_bearer_qos);
   present data.(GxCCR_default_qos_information);
   present data.(GxCCR_an_gw_address);
   present data.(GxCCR_an_gw_status);
   present data.(GxCCR_tgpp_sgsn_mcc_mnc);
   present data.(GxCCR_tgpp_sgsn_address);
   present data.(GxCCR_tgpp_sgsn_ipv6_address);
   present data.(GxCCR_tgpp_ggsn_address);
   present data.(GxCCR_tgpp_ggsn_ipv6_address);
   present data.(GxCCR_tgpp_selection_mode);
   present data.(GxCCR_rai);
   present data.(GxCCR_tgpp_user_location_info);
   present data.(GxCCR_fixed_user_location_info);
   present data.(GxCCR_user_location_info_time);
   present data.(GxCCR_user_csg_information);
   present data.(GxCCR_twan_identifier);
   present data.(GxCCR_tgpp_ms_timezone);
   present data.(GxCCR_ran_nas_release_cause);
   present data.(GxCCR_tgpp_charging_characteristics);
   present data.(GxCCR_called_station_id);
   present data.(GxCCR_pdn_connection_id);
   present data.(GxCCR_bearer_usage);
   present data.(GxCCR_online);
   present data.(GxCCR_offline);
   present data.(GxCCR_tft_packet_filter_information);
   present data.(GxCCR_charging_rule_report);
   present data.(GxCCR_application_detection_information);
   present data.(GxCCR_event_trigger);
   present data.(GxCCR_event_report_indication);
   present data.(GxCCR_access_network_charging_address);
   present data.(GxCCR_access_network_charging_identifier_gx);
   present data.(GxCCR_coa_information);
   present data.(GxCCR_usage_monitoring_information);
   present data.(GxCCR_nbifom_support);
   present data.(GxCCR_nbifom_mode);
   present data.(GxCCR_default_access);
   present data.(GxCCR_origination_time_stamp);
   present data.(GxCCR_maximum_wait_time);
   present data.(GxCCR_access_availability_change_reason);
   present data.(GxCCR_routing_rule_install);
   present data.(GxCCR_routing_rule_remove);
   present data.(GxCCR_henb_local_ip_address);
   present data.(GxCCR_ue_local_ip_address);
   present data.(GxCCR_udp_source_port);
   present data.(GxCCR_tcp_source_port);
   present data.(GxCCR_presence_reporting_area_information);
   present data.(GxCCR_logical_access_id);
   present data.(GxCCR_physical_access_id);
   present data.(GxCCR_proxy_info);
   present data.(GxCCR_route_record);
   present data.(GxCCR_tgpp_ps_data_off_status)].

Definition presence_GxLoad (data : GxLoad) : list bool :=
  [present data.(GxLoad_load_type);
   present data.(GxLoad_load_value);
   present data.(GxLoad_sourceid)].

Definition presence_GxFailedAvp (data : GxFailedAvp) : list bool :=
  [].

Definition presence_GxConditionalPolicyInformation (data : GxConditionalPolicyInformation) : list bool :=
  [present data.(GxConditionalPolicyInformation_execution_time);
   present data.(GxConditionalPolicyInformation_default_eps_bearer_qos);
   present data.(GxConditionalPolicyInformation_apn_aggregate_max_bitrate_ul);
   present data.(GxConditionalPolicyInformation_apn_aggregate_max_bitrate_dl);
   present data.(GxConditionalPolicyInformation_extended_apn_ambr_ul);
   present data.(GxConditionalPolicyInformation_extended_apn_ambr_dl);
   present data.(GxConditionalPolicyInformation_conditional_apn_aggregate_max_bitrate)].

Definition presence_GxRoutingRuleReport (data : GxRoutingRuleReport) : list bool :=
  [present data.(GxRoutingRuleReport_routing_rule_identifier);
   present data.(GxRoutingRuleReport_pcc_rule_status);
   present data.(GxRoutingRuleReport_routing_rule_failure_code)].

Definition presence_GxPraRemove (data : GxPraRemove) : list bool :=
  [present data.(GxPraRemove_presence_reporting_area_identifier)].

Definition presence_GxPraInstall (data : GxPraInstall) : list bool :=
  [present data.(GxPraInstall_presence_reporting_area_information)].

Definition presence_GxChargingInformation (data : GxChargingInformation) : list bool :=
  [present data.(GxChargingInformation_primary_event_charging_function_name);
   present data.(GxChargingInformation_secondary_event_charging_function_name);
   present data.(GxChargingInformation_primary_charging_collection_function_name);
   present data.(GxChargingInformation_secondary_charging_collection_function_name)].

Definition presence_GxRedirectInformation (data : GxRedirectInformation) : list bool :=
  [present data.(GxRedirectInformation_redirect_support);
   present data.(GxRedirectInformation_redirect_address_type);
   present data.(GxRedirectInformation_redirect_server_address)].

Definition presence_GxFlows (data : GxFlows) : list bool :=
  [present data.(GxFlows_media_component_number);
   present data.(GxFlows_flow_number);
   present data.(GxFlows_content_version);
   present data.(GxFlows_final_unit_action);
   present data.(GxFlows_media_component_status)].

Definition presence_GxChargingRuleDefinition (data : GxChargingRuleDefinition) : list bool :=
  [present data.(GxChargingRuleDefinition_charging_rule_name);
   present data.(GxChargingRuleDefinition_service_identifier);
   present data.(GxChargingRuleDefinition_rating_group);
   present data.(GxChargingRuleDefinition_flow_information);
   present data.(GxChargingRuleDefinition_default_bearer_indication);
   present data.(GxChargingRuleDefinition_tdf_application_identifier);
   present data.(GxChargingRuleDefinition_flow_status);
   present data.(GxChargingRuleDefinition_qos_information);
   present data.(GxChargingRuleDefinition_ps_to_cs_session_continuity);
   present data.(GxChargingRuleDefinition_reporting_level);
   present data.(GxChargingRuleDefinition_online);
   present data.(GxChargingRuleDefinition_offline);
   present data.(GxChargingRuleDefinition_max_plr_dl);
   present data.(GxChargingRuleDefinition_max_plr_ul);
   present data.(GxChargingRuleDefinition_metering_method);
   present data.(GxChargingRuleDefinition_precedence);
   present data.(GxChargingRuleDefinition_af_charging_identifier);
   present data.(GxChargingRuleDefinition_flows);
   present data.(GxChargingRuleDefinition_monitoring_key);
   present data.(GxChargingRuleDefinition_redirect_information);
   present data.(GxChargingRuleDefinition_mute_notification);
   present data.(GxChargingRuleDefinition_af_signalling_protocol);
   present data.(GxChargingRuleDefinition_sponsor_identity);
   present data.(GxChargingRuleDefinition_application_service_provider_identity);
   present data.(GxChargingRuleDefinition_required_access_info);
   present data.(GxChargingRuleDefinition_sharing_key_dl);
   present data.(GxChargingRuleDefinition_sharing_key_ul);
   present data.(GxChargingRuleDefinition_traffic_steering_policy_identifier_dl);
   present data.(GxChargingRuleDefinition_traffic_steering_policy_identifier_ul);
   present data.(GxChargingRuleDefinition_content_version)].

Definition presence_GxChargingRuleInstall (data : GxChargingRuleInstall) : list bool :=
  [present data.(GxChargingRuleInstall_charging_rule_definition);
   present data.(GxChargingRuleInstall_charging_rule_name);
   present data.(GxChargingRuleInstall_charging_rule_base_name);
   present data.(GxChargingRuleInstall_bearer_identifier);
   present data.(GxChargingRuleInstall_monitoring_flags);
   present data.(GxChargingRuleInstall_rule_activation_time);
   present data.(GxChargingRuleInstall_rule_deactivation_time);
   present data.(GxChargingRuleInstall_resource_allocation_notification);
   present data.(GxChargingRuleInstall_charging_correlation_indicator);
   present data.(GxChargingRuleInstall_ip_can_type)].

Definition presence_GxChargingRuleRemove (data : GxChargingRuleRemove) : list bool :=
  [present data.(GxChargingRuleRemove_charging_rule_name);
   present data.(GxChargingRuleRemove_charging_rule_base_name);
   present data.(GxChargingRuleRemove_required_access_info);
   present data.(GxChargingRuleRemove_resource_release_notification)].

Definition presence_GxOcOlr (data : GxOcOlr) : list bool :=
  [present data.(GxOcOlr_oc_sequence_number);
   present data.(GxOcOlr_oc_report_type);
   present data.(GxOcOlr_oc_reduction_percentage);
   present data.(GxOcOlr_oc_validity_duration)].

Definition presence_GxExperimentalResult (data : GxExperimentalResult) : list bool :=
  [present data.(GxExperimentalResult_vendor_id);
   present data.(GxExperimentalResult_experimental_result_code)].

Definition presence_GxCCA (data : GxCCA) : list bool :=
  [present data.(GxCCA_session_id);
   present data.(GxCCA_drmp);
   present data.(GxCCA_auth_application_id);
   present data.(GxCCA_origin_host);
   present data.(GxCCA_origin_realm);
   present data.(GxCCA_result_code);
   present data.(GxCCA_experimental_result);
   present data.(GxCCA_cc_request_type);
   present data.(GxCCA_cc_request_number);
   present data.(GxCCA_oc_supported_features);
   present data.(GxCCA_oc_olr);
   present data.(GxCCA_supported_features);
   present data.(GxCCA_bearer_control_mode);
   present data.(GxCCA_event_trigger);
   present data.(GxCCA_event_report_indication);
   present data.(GxCCA_origin_state_id);
   present data.(GxCCA_redirect_host);
   present data.(GxCCA_redirect_host_usage);
   present data.(GxCCA_redirect_max_cache_time);
   present data.(GxCCA_charging_rule_remove);
   present data.(GxCCA_charging_rule_install);
   present data.(GxCCA_charging_information);
   present data.(GxCCA_online);
   present data.(GxCCA_offline);
   present data.(GxCCA_qos_information);
   present data.(GxCCA_revalidation_time);
   present data.(GxCCA_default_eps_bearer_qos);
   present data.(GxCCA_default_qos_information);
   present data.(GxCCA_bearer_usage);
   present data.(GxCCA_usage_monitoring_information);
   present data.(GxCCA_csg_information_reporting);
   present data.(GxCCA_user_csg_information);
   present data.(GxCCA_pra_install);
   present data.(GxCCA_pra_remove);
   present data.(GxCCA_presence_reporting_area_information);
   present data.(GxCCA_session_release_cause);
   present data.(GxCCA_nbifom_support);
   present data.(GxCCA_nbifom_mode);
   present data.(GxCCA_default_access);
   present data.(GxCCA_ran_rule_support);
   present data.(GxCCA_routing_rule_report);
   present data.(GxCCA_conditional_policy_information);
   present data.(GxCCA_removal_of_access);
   present data.(GxCCA_ip_can_type);
   present data.(GxCCA_error_message);
   present data.(GxCCA_error_reporting_host);
   present data.(GxCCA_failed_avp);
   present data.(GxCCA_proxy_info);
   present data.(GxCCA_route_record);
   present data.(GxCCA_load)].

Definition presence_GxRAA (data : GxRAA) : list bool :=
  [present data.(GxRAA_session_id);
   present data.(GxRAA_drmp);
   present data.(GxRAA_origin_host);
   present data.(GxRAA_origin_realm);
   present data.(GxRAA_result_code);
   present data.(GxRAA_experimental_result);
   present data.(GxRAA_origin_state_id);
   present data.(GxRAA_oc_supported_features);
   present data.(GxRAA_oc_olr);
   present data.(GxRAA_ip_can_type);
   present data.(GxRAA_rat_type);
   present data.(GxRAA_an_trusted);
   present data.(GxRAA_an_gw_address);
   present data.(GxRAA_tgpp_sgsn_mcc_mnc);
   present data.(GxRAA_tgpp_sgsn_address);
   present data.(GxRAA_tgpp_sgsn_ipv6_address);
   present data.(GxRAA_rai);
   present data.(GxRAA_tgpp_user_location_info);
   present data.(GxRAA_user_location_info_time);
   present data.(GxRAA_netloc_access_support);
   present data.(GxRAA_user_csg_information);
   present data.(GxRAA_tgpp_ms_timezone);
   present data.(GxRAA_default_qos_information);
   present data.(GxRAA_charging_rule_report);
   present data.(GxRAA_error_message);
   present data.(GxRAA_error_reporting_host);
   present data.(GxRAA_failed_avp);
   present data.(GxRAA_proxy_info)].

Definition presence_GxRAR (data : GxRAR) : list bool :=
  [present data.(GxRAR_session_id);
   present data.(GxRAR_drmp);
   present data.(GxRAR_auth_application_id);
   present data.(GxRAR_origin_host);
   present data.(GxRAR_origin_realm);
   present data.(GxRAR_destination_realm);
   present data.(GxRAR_destination_host);
   present data.(GxRAR_re_auth_request_type);
   present data.(GxRAR_session_release_cause);
   present data.(GxRAR_origin_state_id);
   present data.(GxRAR_oc_supported_features);
   present data.(GxRAR_event_trigger);
   present data.(GxRAR_event_report_indication);
   present data.(GxRAR_charging_rule_remove);
   present data.(GxRAR_charging_rule_install);
   present data.(GxRAR_default_eps_bearer_qos);
   present data.(GxRAR_qos_information);
   present data.(GxRAR_default_qos_information);
   present data.(GxRAR_revalidation_time);
   present data.(GxRAR_usage_monitoring_information);
   present data.(GxRAR_pcscf_restoration_indication);
   present data.(GxRAR_conditional_policy_information);
   present data.(GxRAR_removal_of_access);
   present data.(GxRAR_ip_can_type);
   present data.(GxRAR_pra_install);
   present data.(GxRAR_pra_remove);
   present data.(GxRAR_csg_information_reporting);
   present data.(GxRAR_proxy_info);
   present data.(GxRAR_route_record)].
