(* ===== verification/GxPack.v ===== *)
(** * The length, packing and unpacking functions of the Gx messages
    (cp/gx_app/src/gx_pack.c)

    One definition per function of the file, as the sequence of its macro calls,
    the structures before the structures that contain them. *)
From S2P Require Import Prelude GxMacros GxStruct.

(** ** calc_length functions *)

Definition calcLengthGxProxyInfo (data : GxProxyInfo) : Z :=
  calc_all [
    CALCLEN_PRESENCE (presence_GxProxyInfo data);
    CALCLEN_OCTETSTRING data.(GxProxyInfo_proxy_host);
    CALCLEN_OCTETSTRING data.(GxProxyInfo_proxy_state)
  ] 0.

Definition calcLengthGxPresenceReportingAreaInformation (data : GxPresenceReportingAreaInformation) : Z :=
  calc_all [
    CALCLEN_PRESENCE (presence_GxPresenceReportingAreaInformation data);
    CALCLEN_OCTETSTRING data.(GxPresenceReportingAreaInformation_presence_reporting_area_identifier);
    CALCLEN_BASIC uint32_t data.(GxPresenceReportingAreaInformation_presence_reporting_area_status);
    CALCLEN_OCTETSTRING data.(GxPresenceReportingAreaInformation_presence_reporting_area_elements_list);
    CALCLEN_BASIC uint32_t data.(GxPresenceReportingAreaInformation_presence_reporting_area_node)
  ] 0.

Definition calcLengthGxRoutingRuleRemove (data : GxRoutingRuleRemove) : Z :=
  calc_all [
    CALCLEN_PRESENCE (presence_GxRoutingRuleRemove data);
    CALCLEN_LIST_OCTETSTRING data.(GxRoutingRuleRemove_routing_rule_identifier)
  ] 0.

Definition calcLengthGxRoutingFilter (data : GxRoutingFilter) : Z :=
  calc_all [
    CALCLEN_PRESENCE (presence_GxRoutingFilter data);
    CALCLEN_OCTETSTRING data.(GxRoutingFilter_flow_description);
    CALCLEN_BASIC int32_t data.(GxRoutingFilter_flow_direction);
    CALCLEN_OCTETSTRING data.(GxRoutingFilter_tos_traffic_class);
    CALCLEN_OCTETSTRING data.(GxRoutingFilter_security_parameter_index);
    CALCLEN_OCTETSTRING data.(GxRoutingFilter_flow_label)
  ] 0.

Definition calcLengthGxRoutingRuleDefinition (data : GxRoutingRuleDefinition) : Z :=
  calc_all [
    CALCLEN_PRESENCE (presence_GxRoutingRuleDefinition data);
    CALCLEN_OCTETSTRING data.(GxRoutingRuleDefinition_routing_rule_identifier);
    CALCLEN_LIST_STRUCT calcLengthGxRoutingFilter data.(GxRoutingRuleDefinition_routing_filter);
    CALCLEN_BASIC uint32_t data.(GxRoutingRuleDefinition_precedence);
    CALCLEN_BASIC FdAddress data.(GxRoutingRuleDefinition_routing_ip_address);
    CALCLEN_BASIC int32_t data.(GxRoutingRuleDefinition_ip_can_type)
  ] 0.

Definition calcLengthGxRoutingRuleInstall (data : GxRoutingRuleInstall) : Z :=
  calc_all [
    CALCLEN_PRESENCE (presence_GxRoutingRuleInstall data);
    CALCLEN_LIST_STRUCT calcLengthGxRoutingRuleDefinition data.(GxRoutingRuleInstall_routing_rule_definition)
  ] 0.

Definition calcLengthGxUnitValue (data : GxUnitValue) : Z :=
  calc_all [
    CALCLEN_PRESENCE (presence_GxUnitValue data);
    CALCLEN_BASIC int64_t data.(GxUnitValue_value_digits);
    CALCLEN_BASIC int32_t data.(GxUnitValue_exponent)
  ] 0.

Definition calcLengthGxCcMoney (data : GxCcMoney) : Z :=
  calc_all [
    CALCLEN_PRESENCE (presence_GxCcMoney data);
    CALCLEN_STRUCT calcLengthGxUnitValue data.(GxCcMoney_unit_value);
    CALCLEN_BASIC uint32_t data.(GxCcMoney_currency_code)
  ] 0.

Definition calcLengthGxUsedServiceUnit (data : GxUsedServiceUnit) : Z :=
  calc_all [
    CALCLEN_PRESENCE (presence_GxUsedServiceUnit data);
    CALCLEN_BASIC int32_t data.(GxUsedServiceUnit_reporting_reason);
    CALCLEN_BASIC int32_t data.(GxUsedServiceUnit_tariff_change_usage);
    CALCLEN_BASIC uint32_t data.(GxUsedServiceUnit_cc_time);
    CALCLEN_STRUCT calcLengthGxCcMoney data.(GxUsedServiceUnit_cc_money);
    CALCLEN_BASIC uint64_t data.(GxUsedServiceUnit_cc_total_octets);
    CALCLEN_BASIC uint64_t data.(GxUsedServiceUnit_cc_input_octets);
    CALCLEN_BASIC uint64_t data.(GxUsedServiceUnit_cc_output_octets);
    CALCLEN_BASIC uint64_t data.(GxUsedServiceUnit_cc_service_specific_units);
    CALCLEN_LIST_BASIC FdTime data.(GxUsedServiceUnit_event_charging_timestamp)
  ] 0.

Definition calcLengthGxGrantedServiceUnit (data : GxGrantedServiceUnit) : Z :=
  calc_all [
    CALCLEN_PRESENCE (presence_GxGrantedServiceUnit data);
    CALCLEN_BASIC FdTime data.(GxGrantedServiceUnit_tariff_time_change);
    CALCLEN_BASIC uint32_t data.(GxGrantedServiceUnit_cc_time);
    CALCLEN_STRUCT calcLengthGxCcMoney data.(GxGrantedServiceUnit_cc_money);
    CALCLEN_BASIC uint64_t data.(GxGrantedServiceUnit_cc_total_octets);
    CALCLEN_BASIC uint64_t data.(GxGrantedServiceUnit_cc_input_octets);
    CALCLEN_BASIC uint64_t data.(GxGrantedServiceUnit_cc_output_octets);
    CALCLEN_BASIC uint64_t data.(GxGrantedServiceUnit_cc_service_specific_units)
  ] 0.

Definition calcLengthGxUsageMonitoringInformation (data : GxUsageMonitoringInformation) : Z :=
  calc_all [
    CALCLEN_PRESENCE (presence_GxUsageMonitoringInformation data);
    CALCLEN_OCTETSTRING data.(GxUsageMonitoringInformation_monitoring_key);
    CALCLEN_LIST_STRUCT calcLengthGxGrantedServiceUnit data.(GxUsageMonitoringInformation_granted_service_unit);
    CALCLEN_LIST_STRUCT calcLengthGxUsedServiceUnit data.(GxUsageMonitoringInformation_used_service_unit);
    CALCLEN_BASIC uint32_t data.(GxUsageMonitoringInformation_quota_consumption_time);
    CALCLEN_BASIC int32_t data.(GxUsageMonitoringInformation_usage_monitoring_level);
    CALCLEN_BASIC int32_t data.(GxUsageMonitoringInformation_usage_monitoring_report);
    CALCLEN_BASIC int32_t data.(GxUsageMonitoringInformation_usage_monitoring_support)
  ] 0.

Definition calcLengthGxTunnelInformation (data : GxTunnelInformation) : Z :=
  calc_all [
    CALCLEN_PRESENCE (presence_GxTunnelInformation data);
    CALCLEN_BASIC uint32_t data.(GxTunnelInformation_tunnel_header_length);
    CALCLEN_LIST_OCTETSTRING data.(GxTunnelInformation_tunnel_header_filter)
  ] 0.

Definition calcLengthGxCoaInformation (data : GxCoaInformation) : Z :=
  calc_all [
    CALCLEN_PRESENCE (presence_GxCoaInformation data);
    CALCLEN_STRUCT calcLengthGxTunnelInformation data.(GxCoaInformation_tunnel_information);
    CALCLEN_BASIC FdAddress data.(GxCoaInformation_coa_ip_address)
  ] 0.

Definition calcLengthGxAccessNetworkChargingIdentifierGx (data : GxAccessNetworkChargingIdentifierGx) : Z :=
  calc_all [
    CALCLEN_PRESENCE (presence_GxAccessNetworkChargingIdentifierGx data);
    CALCLEN_OCTETSTRING data.(GxAccessNetworkChargingIdentifierGx_access_network_charging_identifier_value);
    CALCLEN_LIST_OCTETSTRING data.(GxAccessNetworkChargingIdentifierGx_charging_rule_base_name);
    CALCLEN_LIST_OCTETSTRING data.(GxAccessNetworkChargingIdentifierGx_charging_rule_name);
    CALCLEN_BASIC int32_t data.(GxAccessNetworkChargingIdentifierGx_ip_can_session_charging_scope)
  ] 0.

Definition calcLengthGxMbsfnArea (data : GxMbsfnArea) : Z :=
  calc_all [
    CALCLEN_PRESENCE (presence_GxMbsfnArea data);
    CALCLEN_BASIC uint32_t data.(GxMbsfnArea_mbsfn_area_id);
    CALCLEN_BASIC uint32_t data.(GxMbsfnArea_carrier_frequency)
  ] 0.

Definition calcLengthGxAreaScope (data : GxAreaScope) : Z :=
  calc_all [
    CALCLEN_PRESENCE (presence_GxAreaScope data);
    CALCLEN_LIST_OCTETSTRING data.(GxAreaScope_cell_global_identity);
    CALCLEN_LIST_OCTETSTRING data.(GxAreaScope_e_utran_cell_global_identity);
    CALCLEN_LIST_OCTETSTRING data.(GxAreaScope_routing_area_identity);
    CALCLEN_LIST_OCTETSTRING data.(GxAreaScope_location_area_identity);
    CALCLEN_LIST_OCTETSTRING data.(GxAreaScope_tracking_area_identity)
  ] 0.

Definition calcLengthGxMdtConfiguration (data : GxMdtConfiguration) : Z :=
  calc_all [
    CALCLEN_PRESENCE (presence_GxMdtConfiguration data);
    CALCLEN_BASIC int32_t data.(GxMdtConfiguration_job_type);
    CALCLEN_STRUCT calcLengthGxAreaScope data.(GxMdtConfiguration_area_scope);
    CALCLEN_BASIC uint32_t data.(GxMdtConfiguration_list_of_measurements);
    CALCLEN_BASIC uint32_t data.(GxMdtConfiguration_reporting_trigger);
    CALCLEN_BASIC int32_t data.(GxMdtConfiguration_report_interval);
    CALCLEN_BASIC int32_t data.(GxMdtConfiguration_report_amount);
    CALCLEN_BASIC uint32_t data.(GxMdtConfiguration_event_threshold_rsrp);
    CALCLEN_BASIC uint32_t data.(GxMdtConfiguration_event_threshold_rsrq);
    CALCLEN_BASIC int32_t data.(GxMdtConfiguration_logging_interval);
    CALCLEN_BASIC int32_t data.(GxMdtConfiguration_logging_duration);
    CALCLEN_BASIC int32_t data.(GxMdtConfiguration_measurement_period_lte);
    CALCLEN_BASIC int32_t data.(GxMdtConfiguration_measurement_period_umts);
    CALCLEN_BASIC int32_t data.(GxMdtConfiguration_collection_period_rrm_lte);
    CALCLEN_BASIC int32_t data.(GxMdtConfiguration_collection_period_rrm_umts);
    CALCLEN_OCTETSTRING data.(GxMdtConfiguration_positioning_method);
    CALCLEN_OCTETSTRING data.(GxMdtConfiguration_measurement_quantity);
    CALCLEN_BASIC int32_t data.(GxMdtConfiguration_event_threshold_event_1f);
    CALCLEN_BASIC int32_t data.(GxMdtConfiguration_event_threshold_event_1i);
    CALCLEN_LIST_OCTETSTRING data.(GxMdtConfiguration_mdt_allowed_plmn_id);
    CALCLEN_LIST_STRUCT calcLengthGxMbsfnArea data.(GxMdtConfiguration_mbsfn_area)
  ] 0.

Definition calcLengthGxTraceData (data : GxTraceData) : Z :=
  calc_all [
    CALCLEN_PRESENCE (presence_GxTraceData data);
    CALCLEN_OCTETSTRING data.(GxTraceData_trace_reference);
    CALCLEN_BASIC int32_t data.(GxTraceData_trace_depth);
    CALCLEN_OCTETSTRING data.(GxTraceData_trace_ne_type_list);
    CALCLEN_OCTETSTRING data.(GxTraceData_trace_interface_list);
    CALCLEN_OCTETSTRING data.(GxTraceData_trace_event_list);
    CALCLEN_OCTETSTRING data.(GxTraceData_omc_id);
    CALCLEN_BASIC FdAddress data.(GxTraceData_trace_collection_entity);
    CALCLEN_STRUCT calcLengthGxMdtConfiguration data.(GxTraceData_mdt_configuration)
  ] 0.

Definition calcLengthGxUserCsgInformation (data : GxUserCsgInformation) : Z :=
  calc_all [
    CALCLEN_PRESENCE (presence_GxUserCsgInformation data);
    CALCLEN_BASIC uint32_t data.(GxUserCsgInformation_csg_id);
    CALCLEN_BASIC int32_t data.(GxUserCsgInformation_csg_access_mode);
    CALCLEN_BASIC int32_t data.(GxUserCsgInformation_csg_membership_indication)
  ] 0.

Definition calcLengthGxEventReportIndication (data : GxEventReportIndication) : Z :=
  calc_all [
    CALCLEN_PRESENCE (presence_GxEventReportIndication data);
    CALCLEN_BASIC int32_t data.(GxEventReportIndication_an_trusted);
    CALCLEN_LIST_BASIC int32_t data.(GxEventReportIndication_event_trigger);
    CALCLEN_STRUCT calcLengthGxUserCsgInformation data.(GxEventReportIndication_user_csg_information);
    CALCLEN_BASIC int32_t data.(GxEventReportIndication_ip_can_type);
    CALCLEN_LIST_BASIC FdAddress data.(GxEventReportIndication_an_gw_address);
    CALCLEN_OCTETSTRING data.(GxEventReportIndication_tgpp_sgsn_address);
    CALCLEN_OCTETSTRING data.(GxEventReportIndication_tgpp_sgsn_ipv6_address);
    CALCLEN_OCTETSTRING data.(GxEventReportIndication_tgpp_sgsn_mcc_mnc);
    CALCLEN_OCTETSTRING data.(GxEventReportIndication_framed_ip_address);
    CALCLEN_BASIC int32_t data.(GxEventReportIndication_rat_type);
    CALCLEN_OCTETSTRING data.(GxEventReportIndication_rai);
    CALCLEN_OCTETSTRING data.(GxEventReportIndication_tgpp_user_location_info);
    CALCLEN_STRUCT calcLengthGxTraceData data.(GxEventReportIndication_trace_data);
    CALCLEN_OCTETSTRING data.(GxEventReportIndication_trace_reference);
    CALCLEN_OCTETSTRING data.(GxEventReportIndication_tgpp2_bsid);
    CALCLEN_OCTETSTRING data.(GxEventReportIndication_tgpp_ms_timezone);
    CALCLEN_BASIC FdAddress data.(GxEventReportIndication_routing_ip_address);
    CALCLEN_BASIC FdAddress data.(GxEventReportIndication_ue_local_ip_address);
    CALCLEN_BASIC FdAddress data.(GxEventReportIndication_henb_local_ip_address);
    CALCLEN_BASIC uint32_t data.(GxEventReportIndication_udp_source_port);
    CALCLEN_STRUCT calcLengthGxPresenceReportingAreaInformation data.(GxEventReportIndication_presence_reporting_area_information)
  ] 0.

Definition calcLengthGxFlowInformation (data : GxFlowInformation) : Z :=
  calc_all [
    CALCLEN_PRESENCE (presence_GxFlowInformation data);
    CALCLEN_OCTETSTRING data.(GxFlowInformation_flow_description);
    CALCLEN_OCTETSTRING data.(GxFlowInformation_packet_filter_identifier);
    CALCLEN_BASIC int32_t data.(GxFlowInformation_packet_filter_usage);
    CALCLEN_OCTETSTRING data.(GxFlowInformation_tos_traffic_class);
    CALCLEN_OCTETSTRING data.(GxFlowInformation_security_parameter_index);
    CALCLEN_OCTETSTRING data.(GxFlowInformation_flow_label);
    CALCLEN_BASIC int32_t data.(GxFlowInformation_flow_direction);
    CALCLEN_OCTETSTRING data.(GxFlowInformation_routing_rule_identifier)
  ] 0.

Definition calcLengthGxApplicationDetectionInformation (data : GxApplicationDetectionInformation) : Z :=
  calc_all [
    CALCLEN_PRESENCE (presence_GxApplicationDetectionInformation data);
    CALCLEN_OCTETSTRING data.(GxApplicationDetectionInformation_tdf_application_identifier);
    CALCLEN_OCTETSTRING data.(GxApplicationDetectionInformation_tdf_application_instance_identifier);
    CALCLEN_LIST_STRUCT calcLengthGxFlowInformation data.(GxApplicationDetectionInformation_flow_information)
  ] 0.

Definition calcLengthGxRedirectServer (data : GxRedirectServer) : Z :=
  calc_all [
    CALCLEN_PRESENCE (presence_GxRedirectServer data);
    CALCLEN_BASIC int32_t data.(GxRedirectServer_redirect_address_type);
    CALCLEN_OCTETSTRING data.(GxRedirectServer_redirect_server_address)
  ] 0.

Definition calcLengthGxFinalUnitIndication (data : GxFinalUnitIndication) : Z :=
  calc_all [
    CALCLEN_PRESENCE (presence_GxFinalUnitIndication data);
    CALCLEN_BASIC int32_t data.(GxFinalUnitIndication_final_unit_action);
    CALCLEN_LIST_OCTETSTRING data.(GxFinalUnitIndication_restriction_filter_rule);
    CALCLEN_LIST_OCTETSTRING data.(GxFinalUnitIndication_filter_id);
    CALCLEN_STRUCT calcLengthGxRedirectServer data.(GxFinalUnitIndication_redirect_server)
  ] 0.

Definition calcLengthGxChargingRuleReport (data : GxChargingRuleReport) : Z :=
  calc_all [
    CALCLEN_PRESENCE (presence_GxChargingRuleReport data);
    CALCLEN_LIST_OCTETSTRING data.(GxChargingRuleReport_charging_rule_name);
    CALCLEN_LIST_OCTETSTRING data.(GxChargingRuleReport_charging_rule_base_name);
    CALCLEN_OCTETSTRING data.(GxChargingRuleReport_bearer_identifier);
    CALCLEN_BASIC int32_t data.(GxChargingRuleReport_pcc_rule_status);
    CALCLEN_BASIC int32_t data.(GxChargingRuleReport_rule_failure_code);
    CALCLEN_STRUCT calcLengthGxFinalUnitIndication data.(GxChargingRuleReport_final_unit_indication);
    CALCLEN_LIST_OCTETSTRING data.(GxChargingRuleReport_ran_nas_release_cause);
    CALCLEN_LIST_BASIC uint64_t data.(GxChargingRuleReport_content_version)
  ] 0.

Definition calcLengthGxTftPacketFilterInformation (data : GxTftPacketFilterInformation) : Z :=
  calc_all [
    CALCLEN_PRESENCE (presence_GxTftPacketFilterInformation data);
    CALCLEN_BASIC uint32_t data.(GxTftPacketFilterInformation_precedence);
    CALCLEN_OCTETSTRING data.(GxTftPacketFilterInformation_tft_filter);
    CALCLEN_OCTETSTRING data.(GxTftPacketFilterInformation_tos_traffic_class);
    CALCLEN_OCTETSTRING data.(GxTftPacketFilterInformation_security_parameter_index);
    CALCLEN_OCTETSTRING data.(GxTftPacketFilterInformation_flow_label);
    CALCLEN_BASIC int32_t data.(GxTftPacketFilterInformation_flow_direction)
  ] 0.

Definition calcLengthGxFixedUserLocationInfo (data : GxFixedUserLocationInfo) : Z :=
  calc_all [
    CALCLEN_PRESENCE (presence_GxFixedUserLocationInfo data);
    CALCLEN_OCTETSTRING data.(GxFixedUserLocationInfo_ssid);
    CALCLEN_OCTETSTRING data.(GxFixedUserLocationInfo_bssid);
    CALCLEN_OCTETSTRING data.(GxFixedUserLocationInfo_logical_access_id);
    CALCLEN_OCTETSTRING data.(GxFixedUserLocationInfo_physical_access_id)
  ] 0.

Definition calcLengthGxDefaultQosInformation (data : GxDefaultQosInformation) : Z :=
  calc_all [
    CALCLEN_PRESENCE (presence_GxDefaultQosInformation data);
    CALCLEN_BASIC int32_t data.(GxDefaultQosInformation_qos_class_identifier);
    CALCLEN_BASIC uint32_t data.(GxDefaultQosInformation_max_requested_bandwidth_ul);
    CALCLEN_BASIC uint32_t data.(GxDefaultQosInformation_max_requested_bandwidth_dl);
    CALCLEN_OCTETSTRING data.(GxDefaultQosInformation_default_qos_name)
  ] 0.

Definition calcLengthGxAllocationRetentionPriority (data : GxAllocationRetentionPriority) : Z :=
  calc_all [
    CALCLEN_PRESENCE (presence_GxAllocationRetentionPriority data);
    CALCLEN_BASIC uint32_t data.(GxAllocationRetentionPriority_priority_level);
    CALCLEN_BASIC int32_t data.(GxAllocationRetentionPriority_pre_emption_capability);
    CALCLEN_BASIC int32_t data.(GxAllocationRetentionPriority_pre_emption_vulnerability)
  ] 0.

Definition calcLengthGxDefaultEpsBearerQos (data : GxDefaultEpsBearerQos) : Z :=
  calc_all [
    CALCLEN_PRESENCE (presence_GxDefaultEpsBearerQos data);
    CALCLEN_BASIC int32_t data.(GxDefaultEpsBearerQos_qos_class_identifier);
    CALCLEN_STRUCT calcLengthGxAllocationRetentionPriority data.(GxDefaultEpsBearerQos_allocation_retention_priority)
  ] 0.

Definition calcLengthGxConditionalApnAggregateMaxBitrate (data : GxConditionalApnAggregateMaxBitrate) : Z :=
  calc_all [
    CALCLEN_PRESENCE (presence_GxConditionalApnAggregateMaxBitrate data);
    CALCLEN_BASIC uint32_t data.(GxConditionalApnAggregateMaxBitrate_apn_aggregate_max_bitrate_ul);
    CALCLEN_BASIC uint32_t data.(GxConditionalApnAggregateMaxBitrate_apn_aggregate_max_bitrate_dl);
    CALCLEN_BASIC uint32_t data.(GxConditionalApnAggregateMaxBitrate_extended_apn_ambr_ul);
    CALCLEN_BASIC uint32_t data.(GxConditionalApnAggregateMaxBitrate_extended_apn_ambr_dl);
    CALCLEN_LIST_BASIC int32_t data.(GxConditionalApnAggregateMaxBitrate_ip_can_type);
    CALCLEN_LIST_BASIC int32_t data.(GxConditionalApnAggregateMaxBitrate_rat_type)
  ] 0.

Definition calcLengthGxQosInformation (data : GxQosInformation) : Z :=
  calc_all [
    CALCLEN_PRESENCE (presence_GxQosInformation data);
    CALCLEN_BASIC int32_t data.(GxQosInformation_qos_class_identifier);
    CALCLEN_BASIC uint32_t data.(GxQosInformation_max_requested_bandwidth_ul);
    CALCLEN_BASIC uint32_t data.(GxQosInformation_max_requested_bandwidth_dl);
    CALCLEN_BASIC uint32_t data.(GxQosInformation_extended_max_requested_bw_ul);
    CALCLEN_BASIC uint32_t data.(GxQosInformation_extended_max_requested_bw_dl);
    CALCLEN_BASIC uint32_t data.(GxQosInformation_guaranteed_bitrate_ul);
    CALCLEN_BASIC uint32_t data.(GxQosInformation_guaranteed_bitrate_dl);
    CALCLEN_BASIC uint32_t data.(GxQosInformation_extended_gbr_ul);
    CALCLEN_BASIC uint32_t data.(GxQosInformation_extended_gbr_dl);
    CALCLEN_OCTETSTRING data.(GxQosInformation_bearer_identifier);
    CALCLEN_STRUCT calcLengthGxAllocationRetentionPriority data.(GxQosInformation_allocation_retention_priority);
    CALCLEN_BASIC uint32_t data.(GxQosInformation_apn_aggregate_max_bitrate_ul);
    CALCLEN_BASIC uint32_t data.(GxQosInformation_apn_aggregate_max_bitrate_dl);
    CALCLEN_BASIC uint32_t data.(GxQosInformation_extended_apn_ambr_ul);
    CALCLEN_BASIC uint32_t data.(GxQosInformation_extended_apn_ambr_dl);
    CALCLEN_LIST_STRUCT calcLengthGxConditionalApnAggregateMaxBitrate data.(GxQosInformation_conditional_apn_aggregate_max_bitrate)
  ] 0.

Definition calcLengthGxUserEquipmentInfo (data : GxUserEquipmentInfo) : Z :=
  calc_all [
    CALCLEN_PRESENCE (presence_GxUserEquipmentInfo data);
    CALCLEN_BASIC int32_t data.(GxUserEquipmentInfo_user_equipment_info_type);
    CALCLEN_OCTETSTRING data.(GxUserEquipmentInfo_user_equipment_info_value)
  ] 0.

Definition calcLengthGxPacketFilterInformation (data : GxPacketFilterInformation) : Z :=
  calc_all [
    CALCLEN_PRESENCE (presence_GxPacketFilterInformation data);
    CALCLEN_OCTETSTRING data.(GxPacketFilterInformation_packet_filter_identifier);
    CALCLEN_BASIC uint32_t data.(GxPacketFilterInformation_precedence);
    CALCLEN_OCTETSTRING data.(GxPacketFilterInformation_packet_filter_content);
    CALCLEN_OCTETSTRING data.(GxPacketFilterInformation_tos_traffic_class);
    CALCLEN_OCTETSTRING data.(GxPacketFilterInformation_security_parameter_index);
    CALCLEN_OCTETSTRING data.(GxPacketFilterInformation_flow_label);
    CALCLEN_BASIC int32_t data.(GxPacketFilterInformation_flow_direction)
  ] 0.

Definition calcLengthGxTdfInformation (data : GxTdfInformation) : Z :=
  calc_all [
    CALCLEN_PRESENCE (presence_GxTdfInformation data);
    CALCLEN_OCTETSTRING data.(GxTdfInformation_tdf_destination_realm);
    CALCLEN_OCTETSTRING data.(GxTdfInformation_tdf_destination_host);
    CALCLEN_BASIC FdAddress data.(GxTdfInformation_tdf_ip_address)
  ] 0.

Definition calcLengthGxSupportedFeatures (data : GxSupportedFeatures) : Z :=
  calc_all [
    CALCLEN_PRESENCE (presence_GxSupportedFeatures data);
    CALCLEN_BASIC uint32_t data.(GxSupportedFeatures_vendor_id);
    CALCLEN_BASIC uint32_t data.(GxSupportedFeatures_feature_list_id);
    CALCLEN_BASIC uint32_t data.(GxSupportedFeatures_feature_list)
  ] 0.

Definition calcLengthGxOcSupportedFeatures (data : GxOcSupportedFeatures) : Z :=
  calc_all [
    CALCLEN_PRESENCE (presence_GxOcSupportedFeatures data);
    CALCLEN_BASIC uint64_t data.(GxOcSupportedFeatures_oc_feature_vector)
  ] 0.

Definition calcLengthGxSubscriptionId (data : GxSubscriptionId) : Z :=
  calc_all [
    CALCLEN_PRESENCE (presence_GxSubscriptionId data);
    CALCLEN_BASIC int32_t data.(GxSubscriptionId_subscription_id_type);
    CALCLEN_OCTETSTRING data.(GxSubscriptionId_subscription_id_data)
  ] 0.

Definition gx_ccr_calc_length (data : GxCCR) : Z :=
  message_calc_length [
    CALCLEN_PRESENCE (presence_GxCCR data);
    CALCLEN_OCTETSTRING data.(GxCCR_session_id);
    CALCLEN_BASIC int32_t data.(GxCCR_drmp);
    CALCLEN_BASIC uint32_t data.(GxCCR_auth_application_id);
    CALCLEN_OCTETSTRING data.(GxCCR_origin_host);
    CALCLEN_OCTETSTRING data.(GxCCR_origin_realm);
    CALCLEN_OCTETSTRING data.(GxCCR_destination_realm);
    CALCLEN_OCTETSTRING data.(GxCCR_service_context_id);
    CALCLEN_BASIC int32_t data.(GxCCR_cc_request_type);
    CALCLEN_BASIC uint32_t data.(GxCCR_cc_request_number);
    CALCLEN_BASIC uint32_t data.(GxCCR_credit_management_status);
    CALCLEN_OCTETSTRING data.(GxCCR_destination_host);
    CALCLEN_BASIC uint32_t data.(GxCCR_origin_state_id);
    CALCLEN_LIST_STRUCT calcLengthGxSubscriptionId data.(GxCCR_subscription_id);
    CALCLEN_STRUCT calcLengthGxOcSupportedFeatures data.(GxCCR_oc_supported_features);
    CALCLEN_LIST_STRUCT calcLengthGxSupportedFeatures data.(GxCCR_supported_features);
    CALCLEN_STRUCT calcLengthGxTdfInformation data.(GxCCR_tdf_information);
    CALCLEN_BASIC int32_t data.(GxCCR_network_request_support);
    CALCLEN_LIST_STRUCT calcLengthGxPacketFilterInformation data.(GxCCR_packet_filter_information);
    CALCLEN_BASIC int32_t data.(GxCCR_packet_filter_operation);
    CALCLEN_OCTETSTRING data.(GxCCR_bearer_identifier);
    CALCLEN_BASIC int32_t data.(GxCCR_bearer_operation);
    CALCLEN_BASIC int32_t data.(GxCCR_dynamic_address_flag);
    CALCLEN_BASIC int32_t data.(GxCCR_dynamic_address_flag_extension);
    CALCLEN_BASIC uint32_t data.(GxCCR_pdn_connection_charging_id);
    CALCLEN_OCTETSTRING data.(GxCCR_framed_ip_address);
    CALCLEN_OCTETSTRING data.(GxCCR_framed_ipv6_prefix);
    CALCLEN_BASIC int32_t data.(GxCCR_ip_can_type);
    CALCLEN_OCTETSTRING data.(GxCCR_tgpp_rat_type);
    CALCLEN_BASIC int32_t data.(GxCCR_an_trusted);
    CALCLEN_BASIC int32_t data.(GxCCR_rat_type);
    CALCLEN_BASIC int32_t data.(GxCCR_termination_cause);
    CALCLEN_STRUCT calcLengthGxUserEquipmentInfo data.(GxCCR_user_equipment_info);
    CALCLEN_STRUCT calcLengthGxQosInformation data.(GxCCR_qos_information);
    CALCLEN_BASIC int32_t data.(GxCCR_qos_negotiation);
    CALCLEN_BASIC int32_t data.(GxCCR_qos_upgrade);
    CALCLEN_STRUCT calcLengthGxDefaultEpsBearerQos data.(GxCCR_default_eps_bearer_qos);
    CALCLEN_STRUCT calcLengthGxDefaultQosInformation data.(GxCCR_default_qos_information);
    CALCLEN_LIST_BASIC FdAddress data.(GxCCR_an_gw_address);
    CALCLEN_BASIC int32_t data.(GxCCR_an_gw_status);
    CALCLEN_OCTETSTRING data.(GxCCR_tgpp_sgsn_mcc_mnc);
    CALCLEN_OCTETSTRING data.(GxCCR_tgpp_sgsn_address);
    CALCLEN_OCTETSTRING data.(GxCCR_tgpp_sgsn_ipv6_address);
    CALCLEN_OCTETSTRING data.(GxCCR_tgpp_ggsn_address);
    CALCLEN_OCTETSTRING data.(GxCCR_tgpp_ggsn_ipv6_address);
    CALCLEN_OCTETSTRING data.(GxCCR_tgpp_selection_mode);
    CALCLEN_OCTETSTRING data.(GxCCR_rai);
    CALCLEN_OCTETSTRING data.(GxCCR_tgpp_user_location_info);
    CALCLEN_STRUCT calcLengthGxFixedUserLocationInfo data.(GxCCR_fixed_user_location_info);
    CALCLEN_BASIC FdTime data.(GxCCR_user_location_info_time);
    CALCLEN_STRUCT calcLengthGxUserCsgInformation data.(GxCCR_user_csg_information);
    CALCLEN_OCTETSTRING data.(GxCCR_twan_identifier);
    CALCLEN_OCTETSTRING data.(GxCCR_tgpp_ms_timezone);
    CALCLEN_LIST_OCTETSTRING data.(GxCCR_ran_nas_release_cause);
    CALCLEN_OCTETSTRING data.(GxCCR_tgpp_charging_characteristics);
    CALCLEN_OCTETSTRING data.(GxCCR_called_station_id);
    CALCLEN_OCTETSTRING data.(GxCCR_pdn_connection_id);
    CALCLEN_BASIC int32_t data.(GxCCR_bearer_usage);
    CALCLEN_BASIC int32_t data.(GxCCR_online);
    CALCLEN_BASIC int32_t data.(GxCCR_offline);
    CALCLEN_LIST_STRUCT calcLengthGxTftPacketFilterInformation data.(GxCCR_tft_packet_filter_information);
    CALCLEN_LIST_STRUCT calcLengthGxChargingRuleReport data.(GxCCR_charging_rule_report);
    CALCLEN_LIST_STRUCT calcLengthGxApplicationDetectionInformation data.(GxCCR_application_detection_information);
    CALCLEN_LIST_BASIC int32_t data.(GxCCR_event_trigger);
    CALCLEN_STRUCT calcLengthGxEventReportIndication data.(GxCCR_event_report_indication);
    CALCLEN_BASIC FdAddress data.(GxCCR_access_network_charging_address);
    CALCLEN_LIST_STRUCT calcLengthGxAccessNetworkChargingIdentifierGx data.(GxCCR_access_network_charging_identifier_gx);
    CALCLEN_LIST_STRUCT calcLengthGxCoaInformation data.(GxCCR_coa_information);
    CALCLEN_LIST_STRUCT calcLengthGxUsageMonitoringInformation data.(GxCCR_usage_monitoring_information);
    CALCLEN_BASIC int32_t data.(GxCCR_nbifom_support);
    CALCLEN_BASIC int32_t data.(GxCCR_nbifom_mode);
    CALCLEN_BASIC int32_t data.(GxCCR_default_access);
    CALCLEN_BASIC uint64_t data.(GxCCR_origination_time_stamp);
    CALCLEN_BASIC uint32_t data.(GxCCR_maximum_wait_time);
    CALCLEN_BASIC uint32_t data.(GxCCR_access_availability_change_reason);
    CALCLEN_STRUCT calcLengthGxRoutingRuleInstall data.(GxCCR_routing_rule_install);
    CALCLEN_STRUCT calcLengthGxRoutingRuleRemove data.(GxCCR_routing_rule_remove);
    CALCLEN_BASIC FdAddress data.(GxCCR_henb_local_ip_address);
    CALCLEN_BASIC FdAddress data.(GxCCR_ue_local_ip_address);
    CALCLEN_BASIC uint32_t data.(GxCCR_udp_source_port);
    CALCLEN_BASIC uint32_t data.(GxCCR_tcp_source_port);
    CALCLEN_LIST_STRUCT calcLengthGxPresenceReportingAreaInformation data.(GxCCR_presence_reporting_area_information);
    CALCLEN_OCTETSTRING data.(GxCCR_logical_access_id);
    CALCLEN_OCTETSTRING data.(GxCCR_physical_access_id);
    CALCLEN_LIST_STRUCT calcLengthGxProxyInfo data.(GxCCR_proxy_info);
    CALCLEN_LIST_OCTETSTRING data.(GxCCR_route_record);
    CALCLEN_BASIC int32_t data.(GxCCR_tgpp_ps_data_off_status)
  ].

Definition calcLengthGxLoad (data : GxLoad) : Z :=
  calc_all [
    CALCLEN_PRESENCE (presence_GxLoad data);
    CALCLEN_BASIC int32_t data.(GxLoad_load_type);
    CALCLEN_BASIC uint64_t data.(GxLoad_load_value);
    CALCLEN_OCTETSTRING data.(GxLoad_sourceid)
  ] 0.

Definition calcLengthGxFailedAvp (data : GxFailedAvp) : Z :=
  calc_all [
    CALCLEN_PRESENCE (presence_GxFailedAvp data)
  ] 0.

Definition calcLengthGxConditionalPolicyInformation (data : GxConditionalPolicyInformation) : Z :=
  calc_all [
    CALCLEN_PRESENCE (presence_GxConditionalPolicyInformation data);
    CALCLEN_BASIC FdTime data.(GxConditionalPolicyInformation_execution_time);
    CALCLEN_STRUCT calcLengthGxDefaultEpsBearerQos data.(GxConditionalPolicyInformation_default_eps_bearer_qos);
    CALCLEN_BASIC uint32_t data.(GxConditionalPolicyInformation_apn_aggregate_max_bitrate_ul);
    CALCLEN_BASIC uint32_t data.(GxConditionalPolicyInformation_apn_aggregate_max_bitrate_dl);
    CALCLEN_BASIC uint32_t data.(GxConditionalPolicyInformation_extended_apn_ambr_ul);
    CALCLEN_BASIC uint32_t data.(GxConditionalPolicyInformation_extended_apn_ambr_dl);
    CALCLEN_LIST_STRUCT calcLengthGxConditionalApnAggregateMaxBitrate data.(GxConditionalPolicyInformation_conditional_apn_aggregate_max_bitrate)
  ] 0.

Definition calcLengthGxRoutingRuleReport (data : GxRoutingRuleReport) : Z :=
  calc_all [
    CALCLEN_PRESENCE (presence_GxRoutingRuleReport data);
    CALCLEN_LIST_OCTETSTRING data.(GxRoutingRuleReport_routing_rule_identifier);
    CALCLEN_BASIC int32_t data.(GxRoutingRuleReport_pcc_rule_status);
    CALCLEN_BASIC uint32_t data.(GxRoutingRuleReport_routing_rule_failure_code)
  ] 0.

Definition calcLengthGxPraRemove (data : GxPraRemove) : Z :=
  calc_all [
    CALCLEN_PRESENCE (presence_GxPraRemove data);
    CALCLEN_LIST_OCTETSTRING data.(GxPraRemove_presence_reporting_area_identifier)
  ] 0.

Definition calcLengthGxPraInstall (data : GxPraInstall) : Z :=
  calc_all [
    CALCLEN_PRESENCE (presence_GxPraInstall data);
    CALCLEN_LIST_STRUCT calcLengthGxPresenceReportingAreaInformation data.(GxPraInstall_presence_reporting_area_information)
  ] 0.

Definition calcLengthGxChargingInformation (data : GxChargingInformation) : Z :=
  calc_all [
    CALCLEN_PRESENCE (presence_GxChargingInformation data);
    CALCLEN_OCTETSTRING data.(GxChargingInformation_primary_event_charging_function_name);
    CALCLEN_OCTETSTRING data.(GxChargingInformation_secondary_event_charging_function_name);
    CALCLEN_OCTETSTRING data.(GxChargingInformation_primary_charging_collection_function_name);
    CALCLEN_OCTETSTRING data.(GxChargingInformation_secondary_charging_collection_function_name)
  ] 0.

Definition calcLengthGxRedirectInformation (data : GxRedirectInformation) : Z :=
  calc_all [
    CALCLEN_PRESENCE (presence_GxRedirectInformation data);
    CALCLEN_BASIC int32_t data.(GxRedirectInformation_redirect_support);
    CALCLEN_BASIC int32_t data.(GxRedirectInformation_redirect_address_type);
    CALCLEN_OCTETSTRING data.(GxRedirectInformation_redirect_server_address)
  ] 0.

Definition calcLengthGxFlows (data : GxFlows) : Z :=
  calc_all [
    CALCLEN_PRESENCE (presence_GxFlows data);
    CALCLEN_BASIC uint32_t data.(GxFlows_media_component_number);
    CALCLEN_LIST_BASIC uint32_t data.(GxFlows_flow_number);
    CALCLEN_LIST_BASIC uint64_t data.(GxFlows_content_version);
    CALCLEN_BASIC int32_t data.(GxFlows_final_unit_action);
    CALCLEN_BASIC uint32_t data.(GxFlows_media_component_status)
  ] 0.

Definition calcLengthGxChargingRuleDefinition (data : GxChargingRuleDefinition) : Z :=
  calc_all [
    CALCLEN_PRESENCE (presence_GxChargingRuleDefinition data);
    CALCLEN_OCTETSTRING data.(GxChargingRuleDefinition_charging_rule_name);
    CALCLEN_BASIC uint32_t data.(GxChargingRuleDefinition_service_identifier);
    CALCLEN_BASIC uint32_t data.(GxChargingRuleDefinition_rating_group);
    CALCLEN_LIST_STRUCT calcLengthGxFlowInformation data.(GxChargingRuleDefinition_flow_information);
    CALCLEN_BASIC int32_t data.(GxChargingRuleDefinition_default_bearer_indication);
    CALCLEN_OCTETSTRING data.(GxChargingRuleDefinition_tdf_application_identifier);
    CALCLEN_BASIC int32_t data.(GxChargingRuleDefinition_flow_status);
    CALCLEN_STRUCT calcLengthGxQosInformation data.(GxChargingRuleDefinition_qos_information);
    CALCLEN_BASIC int32_t data.(GxChargingRuleDefinition_ps_to_cs_session_continuity);
    CALCLEN_BASIC int32_t data.(GxChargingRuleDefinition_reporting_level);
    CALCLEN_BASIC int32_t data.(GxChargingRuleDefinition_online);
    CALCLEN_BASIC int32_t data.(GxChargingRuleDefinition_offline);
    CALCLEN_BASIC float data.(GxChargingRuleDefinition_max_plr_dl);
    CALCLEN_BASIC float data.(GxChargingRuleDefinition_max_plr_ul);
    CALCLEN_BASIC int32_t data.(GxChargingRuleDefinition_metering_method);
    CALCLEN_BASIC uint32_t data.(GxChargingRuleDefinition_precedence);
    CALCLEN_OCTETSTRING data.(GxChargingRuleDefinition_af_charging_identifier);
    CALCLEN_LIST_STRUCT calcLengthGxFlows data.(GxChargingRuleDefinition_flows);
    CALCLEN_OCTETSTRING data.(GxChargingRuleDefinition_monitoring_key);
    CALCLEN_STRUCT calcLengthGxRedirectInformation data.(GxChargingRuleDefinition_redirect_information);
    CALCLEN_BASIC int32_t data.(GxChargingRuleDefinition_mute_notification);
    CALCLEN_BASIC int32_t data.(GxChargingRuleDefinition_af_signalling_protocol);
    CALCLEN_OCTETSTRING data.(GxChargingRuleDefinition_sponsor_identity);
    CALCLEN_OCTETSTRING data.(GxChargingRuleDefinition_application_service_provider_identity);
    CALCLEN_LIST_BASIC int32_t data.(GxChargingRuleDefinition_required_access_info);
    CALCLEN_BASIC uint32_t data.(GxChargingRuleDefinition_sharing_key_dl);
    CALCLEN_BASIC uint32_t data.(GxChargingRuleDefinition_sharing_key_ul);
    CALCLEN_OCTETSTRING data.(GxChargingRuleDefinition_traffic_steering_policy_identifier_dl);
    CALCLEN_OCTETSTRING data.(GxChargingRuleDefinition_traffic_steering_policy_identifier_ul);
    CALCLEN_BASIC uint64_t data.(GxChargingRuleDefinition_content_version)
  ] 0.

Definition calcLengthGxChargingRuleInstall (data : GxChargingRuleInstall) : Z :=
  calc_all [
    CALCLEN_PRESENCE (presence_GxChargingRuleInstall data);
    CALCLEN_LIST_STRUCT calcLengthGxChargingRuleDefinition data.(GxChargingRuleInstall_charging_rule_definition);
    CALCLEN_LIST_OCTETSTRING data.(GxChargingRuleInstall_charging_rule_name);
    CALCLEN_LIST_OCTETSTRING data.(GxChargingRuleInstall_charging_rule_base_name);
    CALCLEN_OCTETSTRING data.(GxChargingRuleInstall_bearer_identifier);
    CALCLEN_BASIC uint32_t data.(GxChargingRuleInstall_monitoring_flags);
    CALCLEN_BASIC FdTime data.(GxChargingRuleInstall_rule_activation_time);
    CALCLEN_BASIC FdTime data.(GxChargingRuleInstall_rule_deactivation_time);
    CALCLEN_BASIC int32_t data.(GxChargingRuleInstall_resource_allocation_notification);
    CALCLEN_BASIC int32_t data.(GxChargingRuleInstall_charging_correlation_indicator);
    CALCLEN_BASIC int32_t data.(GxChargingRuleInstall_ip_can_type)
  ] 0.

Definition calcLengthGxChargingRuleRemove (data : GxChargingRuleRemove) : Z :=
  calc_all [
    CALCLEN_PRESENCE (presence_GxChargingRuleRemove data);
    CALCLEN_LIST_OCTETSTRING data.(GxChargingRuleRemove_charging_rule_name);
    CALCLEN_LIST_OCTETSTRING data.(GxChargingRuleRemove_charging_rule_base_name);
    CALCLEN_LIST_BASIC int32_t data.(GxChargingRuleRemove_required_access_info);
    CALCLEN_BASIC int32_t data.(GxChargingRuleRemove_resource_release_notification)
  ] 0.

Definition calcLengthGxOcOlr (data : GxOcOlr) : Z :=
  calc_all [
    CALCLEN_PRESENCE (presence_GxOcOlr data);
    CALCLEN_BASIC uint64_t data.(GxOcOlr_oc_sequence_number);
    CALCLEN_BASIC int32_t data.(GxOcOlr_oc_report_type);
    CALCLEN_BASIC uint32_t data.(GxOcOlr_oc_reduction_percentage);
    CALCLEN_BASIC uint32_t data.(GxOcOlr_oc_validity_duration)
  ] 0.

Definition calcLengthGxExperimentalResult (data : GxExperimentalResult) : Z :=
  calc_all [
    CALCLEN_PRESENCE (presence_GxExperimentalResult data);
    CALCLEN_BASIC uint32_t data.(GxExperimentalResult_vendor_id);
    CALCLEN_BASIC uint32_t data.(GxExperimentalResult_experimental_result_code)
  ] 0.

Definition gx_cca_calc_length (data : GxCCA) : Z :=
  message_calc_length [
    CALCLEN_PRESENCE (presence_GxCCA data);
    CALCLEN_OCTETSTRING data.(GxCCA_session_id);
    CALCLEN_BASIC int32_t data.(GxCCA_drmp);
    CALCLEN_BASIC uint32_t data.(GxCCA_auth_application_id);
    CALCLEN_OCTETSTRING data.(GxCCA_origin_host);
    CALCLEN_OCTETSTRING data.(GxCCA_origin_realm);
    CALCLEN_BASIC uint32_t data.(GxCCA_result_code);
    CALCLEN_STRUCT calcLengthGxExperimentalResult data.(GxCCA_experimental_result);
    CALCLEN_BASIC int32_t data.(GxCCA_cc_request_type);
    CALCLEN_BASIC uint32_t data.(GxCCA_cc_request_number);
    CALCLEN_STRUCT calcLengthGxOcSupportedFeatures data.(GxCCA_oc_supported_features);
    CALCLEN_STRUCT calcLengthGxOcOlr data.(GxCCA_oc_olr);
    CALCLEN_LIST_STRUCT calcLengthGxSupportedFeatures data.(GxCCA_supported_features);
    CALCLEN_BASIC int32_t data.(GxCCA_bearer_control_mode);
    CALCLEN_LIST_BASIC int32_t data.(GxCCA_event_trigger);
    CALCLEN_STRUCT calcLengthGxEventReportIndication data.(GxCCA_event_report_indication);
    CALCLEN_BASIC uint32_t data.(GxCCA_origin_state_id);
    CALCLEN_LIST_OCTETSTRING data.(GxCCA_redirect_host);
    CALCLEN_BASIC int32_t data.(GxCCA_redirect_host_usage);
    CALCLEN_BASIC uint32_t data.(GxCCA_redirect_max_cache_time);
    CALCLEN_LIST_STRUCT calcLengthGxChargingRuleRemove data.(GxCCA_charging_rule_remove);
    CALCLEN_LIST_STRUCT calcLengthGxChargingRuleInstall data.(GxCCA_charging_rule_install);
    CALCLEN_STRUCT calcLengthGxChargingInformation data.(GxCCA_charging_information);
    CALCLEN_BASIC int32_t data.(GxCCA_online);
    CALCLEN_BASIC int32_t data.(GxCCA_offline);
    CALCLEN_LIST_STRUCT calcLengthGxQosInformation data.(GxCCA_qos_information);
    CALCLEN_BASIC FdTime data.(GxCCA_revalidation_time);
    CALCLEN_STRUCT calcLengthGxDefaultEpsBearerQos data.(GxCCA_default_eps_bearer_qos);
    CALCLEN_STRUCT calcLengthGxDefaultQosInformation data.(GxCCA_default_qos_information);
    CALCLEN_BASIC int32_t data.(GxCCA_bearer_usage);
    CALCLEN_LIST_STRUCT calcLengthGxUsageMonitoringInformation data.(GxCCA_usage_monitoring_information);
    CALCLEN_LIST_BASIC int32_t data.(GxCCA_csg_information_reporting);
    CALCLEN_STRUCT calcLengthGxUserCsgInformation data.(GxCCA_user_csg_information);
    CALCLEN_STRUCT calcLengthGxPraInstall data.(GxCCA_pra_install);
    CALCLEN_STRUCT calcLengthGxPraRemove data.(GxCCA_pra_remove);
    CALCLEN_STRUCT calcLengthGxPresenceReportingAreaInformation data.(GxCCA_presence_reporting_area_information);
    CALCLEN_BASIC int32_t data.(GxCCA_session_release_cause);
    CALCLEN_BASIC int32_t data.(GxCCA_nbifom_support);
    CALCLEN_BASIC int32_t data.(GxCCA_nbifom_mode);
    CALCLEN_BASIC int32_t data.(GxCCA_default_access);
    CALCLEN_BASIC uint32_t data.(GxCCA_ran_rule_support);
    CALCLEN_LIST_STRUCT calcLengthGxRoutingRuleReport data.(GxCCA_routing_rule_report);
    CALCLEN_LIST_STRUCT calcLengthGxConditionalPolicyInformation data.(GxCCA_conditional_policy_information);
    CALCLEN_BASIC int32_t data.(GxCCA_removal_of_access);
    CALCLEN_BASIC int32_t data.(GxCCA_ip_can_type);
    CALCLEN_OCTETSTRING data.(GxCCA_error_message);
    CALCLEN_OCTETSTRING data.(GxCCA_error_reporting_host);
    CALCLEN_STRUCT calcLengthGxFailedAvp data.(GxCCA_failed_avp);
    CALCLEN_LIST_STRUCT calcLengthGxProxyInfo data.(GxCCA_proxy_info);
    CALCLEN_LIST_OCTETSTRING data.(GxCCA_route_record);
    CALCLEN_LIST_STRUCT calcLengthGxLoad data.(GxCCA_load)
  ].

Definition gx_raa_calc_length (data : GxRAA) : Z :=
  message_calc_length [
    CALCLEN_PRESENCE (presence_GxRAA data);
    CALCLEN_OCTETSTRING data.(GxRAA_session_id);
    CALCLEN_BASIC int32_t data.(GxRAA_drmp);
    CALCLEN_OCTETSTRING data.(GxRAA_origin_host);
    CALCLEN_OCTETSTRING data.(GxRAA_origin_realm);
    CALCLEN_BASIC uint32_t data.(GxRAA_result_code);
    CALCLEN_STRUCT calcLengthGxExperimentalResult data.(GxRAA_experimental_result);
    CALCLEN_BASIC uint32_t data.(GxRAA_origin_state_id);
    CALCLEN_STRUCT calcLengthGxOcSupportedFeatures data.(GxRAA_oc_supported_features);
    CALCLEN_STRUCT calcLengthGxOcOlr data.(GxRAA_oc_olr);
    CALCLEN_BASIC int32_t data.(GxRAA_ip_can_type);
    CALCLEN_BASIC int32_t data.(GxRAA_rat_type);
    CALCLEN_BASIC int32_t data.(GxRAA_an_trusted);
    CALCLEN_LIST_BASIC FdAddress data.(GxRAA_an_gw_address);
    CALCLEN_OCTETSTRING data.(GxRAA_tgpp_sgsn_mcc_mnc);
    CALCLEN_OCTETSTRING data.(GxRAA_tgpp_sgsn_address);
    CALCLEN_OCTETSTRING data.(GxRAA_tgpp_sgsn_ipv6_address);
    CALCLEN_OCTETSTRING data.(GxRAA_rai);
    CALCLEN_OCTETSTRING data.(GxRAA_tgpp_user_location_info);
    CALCLEN_BASIC FdTime data.(GxRAA_user_location_info_time);
    CALCLEN_BASIC uint32_t data.(GxRAA_netloc_access_support);
    CALCLEN_STRUCT calcLengthGxUserCsgInformation data.(GxRAA_user_csg_information);
    CALCLEN_OCTETSTRING data.(GxRAA_tgpp_ms_timezone);
    CALCLEN_STRUCT calcLengthGxDefaultQosInformation data.(GxRAA_default_qos_information);
    CALCLEN_LIST_STRUCT calcLengthGxChargingRuleReport data.(GxRAA_charging_rule_report);
    CALCLEN_OCTETSTRING data.(GxRAA_error_message);
    CALCLEN_OCTETSTRING data.(GxRAA_error_reporting_host);
    CALCLEN_STRUCT calcLengthGxFailedAvp data.(GxRAA_failed_avp);
    CALCLEN_LIST_STRUCT calcLengthGxProxyInfo data.(GxRAA_proxy_info)
  ].

Definition gx_rar_calc_length (data : GxRAR) : Z :=
  message_calc_length [
    CALCLEN_PRESENCE (presence_GxRAR data);
    CALCLEN_OCTETSTRING data.(GxRAR_session_id);
    CALCLEN_BASIC int32_t data.(GxRAR_drmp);
    CALCLEN_BASIC uint32_t data.(GxRAR_auth_application_id);
    CALCLEN_OCTETSTRING data.(GxRAR_origin_host);
    CALCLEN_OCTETSTRING data.(GxRAR_origin_realm);
    CALCLEN_OCTETSTRING data.(GxRAR_destination_realm);
    CALCLEN_OCTETSTRING data.(GxRAR_destination_host);
    CALCLEN_BASIC int32_t data.(GxRAR_re_auth_request_type);
    CALCLEN_BASIC int32_t data.(GxRAR_session_release_cause);
    CALCLEN_BASIC uint32_t data.(GxRAR_origin_state_id);
    CALCLEN_STRUCT calcLengthGxOcSupportedFeatures data.(GxRAR_oc_supported_features);
    CALCLEN_LIST_BASIC int32_t data.(GxRAR_event_trigger);
    CALCLEN_STRUCT calcLengthGxEventReportIndication data.(GxRAR_event_report_indication);
    CALCLEN_LIST_STRUCT calcLengthGxChargingRuleRemove data.(GxRAR_charging_rule_remove);
    CALCLEN_LIST_STRUCT calcLengthGxChargingRuleInstall data.(GxRAR_charging_rule_install);
    CALCLEN_STRUCT calcLengthGxDefaultEpsBearerQos data.(GxRAR_default_eps_bearer_qos);
    CALCLEN_LIST_STRUCT calcLengthGxQosInformation data.(GxRAR_qos_information);
    CALCLEN_STRUCT calcLengthGxDefaultQosInformation data.(GxRAR_default_qos_information);
    CALCLEN_BASIC FdTime data.(GxRAR_revalidation_time);
    CALCLEN_LIST_STRUCT calcLengthGxUsageMonitoringInformation data.(GxRAR_usage_monitoring_information);
    CALCLEN_BASIC uint32_t data.(GxRAR_pcscf_restoration_indication);
    CALCLEN_LIST_STRUCT calcLengthGxConditionalPolicyInformation data.(GxRAR_conditional_policy_information);
    CALCLEN_BASIC int32_t data.(GxRAR_removal_of_access);
    CALCLEN_BASIC int32_t data.(GxRAR_ip_can_type);
    CALCLEN_STRUCT calcLengthGxPraInstall data.(GxRAR_pra_install);
    CALCLEN_STRUCT calcLengthGxPraRemove data.(GxRAR_pra_remove);
    CALCLEN_LIST_BASIC int32_t data.(GxRAR_csg_information_reporting);
    CALCLEN_LIST_STRUCT calcLengthGxProxyInfo data.(GxRAR_proxy_info);
    CALCLEN_LIST_OCTETSTRING data.(GxRAR_route_record)
  ].

(** ** pack functions *)

Definition packGxProxyInfo (data : GxProxyInfo) : packer :=
  pack_all [
    PACK_PRESENCE (presence_GxProxyInfo data);
    PACK_OCTETSTRING data.(GxProxyInfo_proxy_host);
    PACK_OCTETSTRING data.(GxProxyInfo_proxy_state);
    pack_return
  ].

Definition packGxPresenceReportingAreaInformation (data : GxPresenceReportingAreaInformation) : packer :=
  pack_all [
    PACK_PRESENCE (presence_GxPresenceReportingAreaInformation data);
    PACK_OCTETSTRING data.(GxPresenceReportingAreaInformation_presence_reporting_area_identifier);
    PACK_BASIC uint32_t data.(GxPresenceReportingAreaInformation_presence_reporting_area_status);
    PACK_OCTETSTRING data.(GxPresenceReportingAreaInformation_presence_reporting_area_elements_list);
    PACK_BASIC uint32_t data.(GxPresenceReportingAreaInformation_presence_reporting_area_node);
    pack_return
  ].

Definition packGxRoutingRuleRemove (data : GxRoutingRuleRemove) : packer :=
  pack_all [
    PACK_PRESENCE (presence_GxRoutingRuleRemove data);
    PACK_LIST_OCTETSTRING data.(GxRoutingRuleRemove_routing_rule_identifier);
    pack_return
  ].

Definition packGxRoutingFilter (data : GxRoutingFilter) : packer :=
  pack_all [
    PACK_PRESENCE (presence_GxRoutingFilter data);
    PACK_OCTETSTRING data.(GxRoutingFilter_flow_description);
    PACK_BASIC int32_t data.(GxRoutingFilter_flow_direction);
    PACK_OCTETSTRING data.(GxRoutingFilter_tos_traffic_class);
    PACK_OCTETSTRING data.(GxRoutingFilter_security_parameter_index);
    PACK_OCTETSTRING data.(GxRoutingFilter_flow_label);
    pack_return
  ].

Definition packGxRoutingRuleDefinition (data : GxRoutingRuleDefinition) : packer :=
  pack_all [
    PACK_PRESENCE (presence_GxRoutingRuleDefinition data);
    PACK_OCTETSTRING data.(GxRoutingRuleDefinition_routing_rule_identifier);
    PACK_LIST_STRUCT packGxRoutingFilter data.(GxRoutingRuleDefinition_routing_filter);
    PACK_BASIC uint32_t data.(GxRoutingRuleDefinition_precedence);
    PACK_BASIC FdAddress data.(GxRoutingRuleDefinition_routing_ip_address);
    PACK_BASIC int32_t data.(GxRoutingRuleDefinition_ip_can_type);
    pack_return
  ].

Definition packGxRoutingRuleInstall (data : GxRoutingRuleInstall) : packer :=
  pack_all [
    PACK_PRESENCE (presence_GxRoutingRuleInstall data);
    PACK_LIST_STRUCT packGxRoutingRuleDefinition data.(GxRoutingRuleInstall_routing_rule_definition);
    pack_return
  ].

Definition packGxUnitValue (data : GxUnitValue) : packer :=
  pack_all [
    PACK_PRESENCE (presence_GxUnitValue data);
    PACK_BASIC int64_t data.(GxUnitValue_value_digits);
    PACK_BASIC int32_t data.(GxUnitValue_exponent);
    pack_return
  ].

Definition packGxCcMoney (data : GxCcMoney) : packer :=
  pack_all [
    PACK_PRESENCE (presence_GxCcMoney data);
    PACK_STRUCT packGxUnitValue data.(GxCcMoney_unit_value);
    PACK_BASIC uint32_t data.(GxCcMoney_currency_code);
    pack_return
  ].

Definition packGxUsedServiceUnit (data : GxUsedServiceUnit) : packer :=
  pack_all [
    PACK_PRESENCE (presence_GxUsedServiceUnit data);
    PACK_BASIC int32_t data.(GxUsedServiceUnit_reporting_reason);
    PACK_BASIC int32_t data.(GxUsedServiceUnit_tariff_change_usage);
    PACK_BASIC uint32_t data.(GxUsedServiceUnit_cc_time);
    PACK_STRUCT packGxCcMoney data.(GxUsedServiceUnit_cc_money);
    PACK_BASIC uint64_t data.(GxUsedServiceUnit_cc_total_octets);
    PACK_BASIC uint64_t data.(GxUsedServiceUnit_cc_input_octets);
    PACK_BASIC uint64_t data.(GxUsedServiceUnit_cc_output_octets);
    PACK_BASIC uint64_t data.(GxUsedServiceUnit_cc_service_specific_units);
    PACK_LIST_BASIC FdTime data.(GxUsedServiceUnit_event_charging_timestamp);
    pack_return
  ].

Definition packGxGrantedServiceUnit (data : GxGrantedServiceUnit) : packer :=
  pack_all [
    PACK_PRESENCE (presence_GxGrantedServiceUnit data);
    PACK_BASIC FdTime data.(GxGrantedServiceUnit_tariff_time_change);
    PACK_BASIC uint32_t data.(GxGrantedServiceUnit_cc_time);
    PACK_STRUCT packGxCcMoney data.(GxGrantedServiceUnit_cc_money);
    PACK_BASIC uint64_t data.(GxGrantedServiceUnit_cc_total_octets);
    PACK_BASIC uint64_t data.(GxGrantedServiceUnit_cc_input_octets);
    PACK_BASIC uint64_t data.(GxGrantedServiceUnit_cc_output_octets);
    PACK_BASIC uint64_t data.(GxGrantedServiceUnit_cc_service_specific_units);
    pack_return
  ].

Definition packGxUsageMonitoringInformation (data : GxUsageMonitoringInformation) : packer :=
  pack_all [
    PACK_PRESENCE (presence_GxUsageMonitoringInformation data);
    PACK_OCTETSTRING data.(GxUsageMonitoringInformation_monitoring_key);
    PACK_LIST_STRUCT packGxGrantedServiceUnit data.(GxUsageMonitoringInformation_granted_service_unit);
    PACK_LIST_STRUCT packGxUsedServiceUnit data.(GxUsageMonitoringInformation_used_service_unit);
    PACK_BASIC uint32_t data.(GxUsageMonitoringInformation_quota_consumption_time);
    PACK_BASIC int32_t data.(GxUsageMonitoringInformation_usage_monitoring_level);
    PACK_BASIC int32_t data.(GxUsageMonitoringInformation_usage_monitoring_report);
    PACK_BASIC int32_t data.(GxUsageMonitoringInformation_usage_monitoring_support);
    pack_return
  ].

Definition packGxTunnelInformation (data : GxTunnelInformation) : packer :=
  pack_all [
    PACK_PRESENCE (presence_GxTunnelInformation data);
    PACK_BASIC uint32_t data.(GxTunnelInformation_tunnel_header_length);
    PACK_LIST_OCTETSTRING data.(GxTunnelInformation_tunnel_header_filter);
    pack_return
  ].

Definition packGxCoaInformation (data : GxCoaInformation) : packer :=
  pack_all [
    PACK_PRESENCE (presence_GxCoaInformation data);
    PACK_STRUCT packGxTunnelInformation data.(GxCoaInformation_tunnel_information);
    PACK_BASIC FdAddress data.(GxCoaInformation_coa_ip_address);
    pack_return
  ].

Definition packGxAccessNetworkChargingIdentifierGx (data : GxAccessNetworkChargingIdentifierGx) : packer :=
  pack_all [
    PACK_PRESENCE (presence_GxAccessNetworkChargingIdentifierGx data);
    PACK_OCTETSTRING data.(GxAccessNetworkChargingIdentifierGx_access_network_charging_identifier_value);
    PACK_LIST_OCTETSTRING data.(GxAccessNetworkChargingIdentifierGx_charging_rule_base_name);
    PACK_LIST_OCTETSTRING data.(GxAccessNetworkChargingIdentifierGx_charging_rule_name);
    PACK_BASIC int32_t data.(GxAccessNetworkChargingIdentifierGx_ip_can_session_charging_scope);
    pack_return
  ].

Definition packGxMbsfnArea (data : GxMbsfnArea) : packer :=
  pack_all [
    PACK_PRESENCE (presence_GxMbsfnArea data);
    PACK_BASIC uint32_t data.(GxMbsfnArea_mbsfn_area_id);
    PACK_BASIC uint32_t data.(GxMbsfnArea_carrier_frequency);
    pack_return
  ].

Definition packGxAreaScope (data : GxAreaScope) : packer :=
  pack_all [
    PACK_PRESENCE (presence_GxAreaScope data);
    PACK_LIST_OCTETSTRING data.(GxAreaScope_cell_global_identity);
    PACK_LIST_OCTETSTRING data.(GxAreaScope_e_utran_cell_global_identity);
    PACK_LIST_OCTETSTRING data.(GxAreaScope_routing_area_identity);
    PACK_LIST_OCTETSTRING data.(GxAreaScope_location_area_identity);
    PACK_LIST_OCTETSTRING data.(GxAreaScope_tracking_area_identity);
    pack_return
  ].

Definition packGxMdtConfiguration (data : GxMdtConfiguration) : packer :=
  pack_all [
    PACK_PRESENCE (presence_GxMdtConfiguration data);
    PACK_BASIC int32_t data.(GxMdtConfiguration_job_type);
    PACK_STRUCT packGxAreaScope data.(GxMdtConfiguration_area_scope);
    PACK_BASIC uint32_t data.(GxMdtConfiguration_list_of_measurements);
    PACK_BASIC uint32_t data.(GxMdtConfiguration_reporting_trigger);
    PACK_BASIC int32_t data.(GxMdtConfiguration_report_interval);
    PACK_BASIC int32_t data.(GxMdtConfiguration_report_amount);
    PACK_BASIC uint32_t data.(GxMdtConfiguration_event_threshold_rsrp);
    PACK_BASIC uint32_t data.(GxMdtConfiguration_event_threshold_rsrq);
    PACK_BASIC int32_t data.(GxMdtConfiguration_logging_interval);
    PACK_BASIC int32_t data.(GxMdtConfiguration_logging_duration);
    PACK_BASIC int32_t data.(GxMdtConfiguration_measurement_period_lte);
    PACK_BASIC int32_t data.(GxMdtConfiguration_measurement_period_umts);
    PACK_BASIC int32_t data.(GxMdtConfiguration_collection_period_rrm_lte);
    PACK_BASIC int32_t data.(GxMdtConfiguration_collection_period_rrm_umts);
    PACK_OCTETSTRING data.(GxMdtConfiguration_positioning_method);
    PACK_OCTETSTRING data.(GxMdtConfiguration_measurement_quantity);
    PACK_BASIC int32_t data.(GxMdtConfiguration_event_threshold_event_1f);
    PACK_BASIC int32_t data.(GxMdtConfiguration_event_threshold_event_1i);
    PACK_LIST_OCTETSTRING data.(GxMdtConfiguration_mdt_allowed_plmn_id);
    PACK_LIST_STRUCT packGxMbsfnArea data.(GxMdtConfiguration_mbsfn_area);
    pack_return
  ].

Definition packGxTraceData (data : GxTraceData) : packer :=
  pack_all [
    PACK_PRESENCE (presence_GxTraceData data);
    PACK_OCTETSTRING data.(GxTraceData_trace_reference);
    PACK_BASIC int32_t data.(GxTraceData_trace_depth);
    PACK_OCTETSTRING data.(GxTraceData_trace_ne_type_list);
    PACK_OCTETSTRING data.(GxTraceData_trace_interface_list);
    PACK_OCTETSTRING data.(GxTraceData_trace_event_list);
    PACK_OCTETSTRING data.(GxTraceData_omc_id);
    PACK_BASIC FdAddress data.(GxTraceData_trace_collection_entity);
    PACK_STRUCT packGxMdtConfiguration data.(GxTraceData_mdt_configuration);
    pack_return
  ].

Definition packGxUserCsgInformation (data : GxUserCsgInformation) : packer :=
  pack_all [
    PACK_PRESENCE (presence_GxUserCsgInformation data);
    PACK_BASIC uint32_t data.(GxUserCsgInformation_csg_id);
    PACK_BASIC int32_t data.(GxUserCsgInformation_csg_access_mode);
    PACK_BASIC int32_t data.(GxUserCsgInformation_csg_membership_indication);
    pack_return
  ].

Definition packGxEventReportIndication (data : GxEventReportIndication) : packer :=
  pack_all [
    PACK_PRESENCE (presence_GxEventReportIndication data);
    PACK_BASIC int32_t data.(GxEventReportIndication_an_trusted);
    PACK_LIST_BASIC int32_t data.(GxEventReportIndication_event_trigger);
    PACK_STRUCT packGxUserCsgInformation data.(GxEventReportIndication_user_csg_information);
    PACK_BASIC int32_t data.(GxEventReportIndication_ip_can_type);
    PACK_LIST_BASIC FdAddress data.(GxEventReportIndication_an_gw_address);
    PACK_OCTETSTRING data.(GxEventReportIndication_tgpp_sgsn_address);
    PACK_OCTETSTRING data.(GxEventReportIndication_tgpp_sgsn_ipv6_address);
    PACK_OCTETSTRING data.(GxEventReportIndication_tgpp_sgsn_mcc_mnc);
    PACK_OCTETSTRING data.(GxEventReportIndication_framed_ip_address);
    PACK_BASIC int32_t data.(GxEventReportIndication_rat_type);
    PACK_OCTETSTRING data.(GxEventReportIndication_rai);
    PACK_OCTETSTRING data.(GxEventReportIndication_tgpp_user_location_info);
    PACK_STRUCT packGxTraceData data.(GxEventReportIndication_trace_data);
    PACK_OCTETSTRING data.(GxEventReportIndication_trace_reference);
    PACK_OCTETSTRING data.(GxEventReportIndication_tgpp2_bsid);
    PACK_OCTETSTRING data.(GxEventReportIndication_tgpp_ms_timezone);
    PACK_BASIC FdAddress data.(GxEventReportIndication_routing_ip_address);
    PACK_BASIC FdAddress data.(GxEventReportIndication_ue_local_ip_address);
    PACK_BASIC FdAddress data.(GxEventReportIndication_henb_local_ip_address);
    PACK_BASIC uint32_t data.(GxEventReportIndication_udp_source_port);
    PACK_STRUCT packGxPresenceReportingAreaInformation data.(GxEventReportIndication_presence_reporting_area_information);
    pack_return
  ].

Definition packGxFlowInformation (data : GxFlowInformation) : packer :=
  pack_all [
    PACK_PRESENCE (presence_GxFlowInformation data);
    PACK_OCTETSTRING data.(GxFlowInformation_flow_description);
    PACK_OCTETSTRING data.(GxFlowInformation_packet_filter_identifier);
    PACK_BASIC int32_t data.(GxFlowInformation_packet_filter_usage);
    PACK_OCTETSTRING data.(GxFlowInformation_tos_traffic_class);
    PACK_OCTETSTRING data.(GxFlowInformation_security_parameter_index);
    PACK_OCTETSTRING data.(GxFlowInformation_flow_label);
    PACK_BASIC int32_t data.(GxFlowInformation_flow_direction);
    PACK_OCTETSTRING data.(GxFlowInformation_routing_rule_identifier);
    pack_return
  ].

Definition packGxApplicationDetectionInformation (data : GxApplicationDetectionInformation) : packer :=
  pack_all [
    PACK_PRESENCE (presence_GxApplicationDetectionInformation data);
    PACK_OCTETSTRING data.(GxApplicationDetectionInformation_tdf_application_identifier);
    PACK_OCTETSTRING data.(GxApplicationDetectionInformation_tdf_application_instance_identifier);
    PACK_LIST_STRUCT packGxFlowInformation data.(GxApplicationDetectionInformation_flow_information);
    pack_return
  ].

Definition packGxRedirectServer (data : GxRedirectServer) : packer :=
  pack_all [
    PACK_PRESENCE (presence_GxRedirectServer data);
    PACK_BASIC int32_t data.(GxRedirectServer_redirect_address_type);
    PACK_OCTETSTRING data.(GxRedirectServer_redirect_server_address);
    pack_return
  ].

Definition packGxFinalUnitIndication (data : GxFinalUnitIndication) : packer :=
  pack_all [
    PACK_PRESENCE (presence_GxFinalUnitIndication data);
    PACK_BASIC int32_t data.(GxFinalUnitIndication_final_unit_action);
    PACK_LIST_OCTETSTRING data.(GxFinalUnitIndication_restriction_filter_rule);
    PACK_LIST_OCTETSTRING data.(GxFinalUnitIndication_filter_id);
    PACK_STRUCT packGxRedirectServer data.(GxFinalUnitIndication_redirect_server);
    pack_return
  ].

Definition packGxChargingRuleReport (data : GxChargingRuleReport) : packer :=
  pack_all [
    PACK_PRESENCE (presence_GxChargingRuleReport data);
    PACK_LIST_OCTETSTRING data.(GxChargingRuleReport_charging_rule_name);
    PACK_LIST_OCTETSTRING data.(GxChargingRuleReport_charging_rule_base_name);
    PACK_OCTETSTRING data.(GxChargingRuleReport_bearer_identifier);
    PACK_BASIC int32_t data.(GxChargingRuleReport_pcc_rule_status);
    PACK_BASIC int32_t data.(GxChargingRuleReport_rule_failure_code);
    PACK_STRUCT packGxFinalUnitIndication data.(GxChargingRuleReport_final_unit_indication);
    PACK_LIST_OCTETSTRING data.(GxChargingRuleReport_ran_nas_release_cause);
    PACK_LIST_BASIC uint64_t data.(GxChargingRuleReport_content_version);
    pack_return
  ].

Definition packGxTftPacketFilterInformation (data : GxTftPacketFilterInformation) : packer :=
  pack_all [
    PACK_PRESENCE (presence_GxTftPacketFilterInformation data);
    PACK_BASIC uint32_t data.(GxTftPacketFilterInformation_precedence);
    PACK_OCTETSTRING data.(GxTftPacketFilterInformation_tft_filter);
    PACK_OCTETSTRING data.(GxTftPacketFilterInformation_tos_traffic_class);
    PACK_OCTETSTRING data.(GxTftPacketFilterInformation_security_parameter_index);
    PACK_OCTETSTRING data.(GxTftPacketFilterInformation_flow_label);
    PACK_BASIC int32_t data.(GxTftPacketFilterInformation_flow_direction);
    pack_return
  ].

Definition packGxFixedUserLocationInfo (data : GxFixedUserLocationInfo) : packer :=
  pack_all [
    PACK_PRESENCE (presence_GxFixedUserLocationInfo data);
    PACK_OCTETSTRING data.(GxFixedUserLocationInfo_ssid);
    PACK_OCTETSTRING data.(GxFixedUserLocationInfo_bssid);
    PACK_OCTETSTRING data.(GxFixedUserLocationInfo_logical_access_id);
    PACK_OCTETSTRING data.(GxFixedUserLocationInfo_physical_access_id);
    pack_return
  ].

Definition packGxDefaultQosInformation (data : GxDefaultQosInformation) : packer :=
  pack_all [
    PACK_PRESENCE (presence_GxDefaultQosInformation data);
    PACK_BASIC int32_t data.(GxDefaultQosInformation_qos_class_identifier);
    PACK_BASIC uint32_t data.(GxDefaultQosInformation_max_requested_bandwidth_ul);
    PACK_BASIC uint32_t data.(GxDefaultQosInformation_max_requested_bandwidth_dl);
    PACK_OCTETSTRING data.(GxDefaultQosInformation_default_qos_name);
    pack_return
  ].

Definition packGxAllocationRetentionPriority (data : GxAllocationRetentionPriority) : packer :=
  pack_all [
    PACK_PRESENCE (presence_GxAllocationRetentionPriority data);
    PACK_BASIC uint32_t data.(GxAllocationRetentionPriority_priority_level);
    PACK_BASIC int32_t data.(GxAllocationRetentionPriority_pre_emption_capability);
    PACK_BASIC int32_t data.(GxAllocationRetentionPriority_pre_emption_vulnerability);
    pack_return
  ].

Definition packGxDefaultEpsBearerQos (data : GxDefaultEpsBearerQos) : packer :=
  pack_all [
    PACK_PRESENCE (presence_GxDefaultEpsBearerQos data);
    PACK_BASIC int32_t data.(GxDefaultEpsBearerQos_qos_class_identifier);
    PACK_STRUCT packGxAllocationRetentionPriority data.(GxDefaultEpsBearerQos_allocation_retention_priority);
    pack_return
  ].

Definition packGxConditionalApnAggregateMaxBitrate (data : GxConditionalApnAggregateMaxBitrate) : packer :=
  pack_all [
    PACK_PRESENCE (presence_GxConditionalApnAggregateMaxBitrate data);
    PACK_BASIC uint32_t data.(GxConditionalApnAggregateMaxBitrate_apn_aggregate_max_bitrate_ul);
    PACK_BASIC uint32_t data.(GxConditionalApnAggregateMaxBitrate_apn_aggregate_max_bitrate_dl);
    PACK_BASIC uint32_t data.(GxConditionalApnAggregateMaxBitrate_extended_apn_ambr_ul);
    PACK_BASIC uint32_t data.(GxConditionalApnAggregateMaxBitrate_extended_apn_ambr_dl);
    PACK_LIST_BASIC int32_t data.(GxConditionalApnAggregateMaxBitrate_ip_can_type);
    PACK_LIST_BASIC int32_t data.(GxConditionalApnAggregateMaxBitrate_rat_type);
    pack_return
  ].

Definition packGxQosInformation (data : GxQosInformation) : packer :=
  pack_all [
    PACK_PRESENCE (presence_GxQosInformation data);
    PACK_BASIC int32_t data.(GxQosInformation_qos_class_identifier);
    PACK_BASIC uint32_t data.(GxQosInformation_max_requested_bandwidth_ul);
    PACK_BASIC uint32_t data.(GxQosInformation_max_requested_bandwidth_dl);
    PACK_BASIC uint32_t data.(GxQosInformation_extended_max_requested_bw_ul);
    PACK_BASIC uint32_t data.(GxQosInformation_extended_max_requested_bw_dl);
    PACK_BASIC uint32_t data.(GxQosInformation_guaranteed_bitrate_ul);
    PACK_BASIC uint32_t data.(GxQosInformation_guaranteed_bitrate_dl);
    PACK_BASIC uint32_t data.(GxQosInformation_extended_gbr_ul);
    PACK_BASIC uint32_t data.(GxQosInformation_extended_gbr_dl);
    PACK_OCTETSTRING data.(GxQosInformation_bearer_identifier);
    PACK_STRUCT packGxAllocationRetentionPriority data.(GxQosInformation_allocation_retention_priority);
    PACK_BASIC uint32_t data.(GxQosInformation_apn_aggregate_max_bitrate_ul);
    PACK_BASIC uint32_t data.(GxQosInformation_apn_aggregate_max_bitrate_dl);
    PACK_BASIC uint32_t data.(GxQosInformation_extended_apn_ambr_ul);
    PACK_BASIC uint32_t data.(GxQosInformation_extended_apn_ambr_dl);
    PACK_LIST_STRUCT packGxConditionalApnAggregateMaxBitrate data.(GxQosInformation_conditional_apn_aggregate_max_bitrate);
    pack_return
  ].

Definition packGxUserEquipmentInfo (data : GxUserEquipmentInfo) : packer :=
  pack_all [
    PACK_PRESENCE (presence_GxUserEquipmentInfo data);
    PACK_BASIC int32_t data.(GxUserEquipmentInfo_user_equipment_info_type);
    PACK_OCTETSTRING data.(GxUserEquipmentInfo_user_equipment_info_value);
    pack_return
  ].

Definition packGxPacketFilterInformation (data : GxPacketFilterInformation) : packer :=
  pack_all [
    PACK_PRESENCE (presence_GxPacketFilterInformation data);
    PACK_OCTETSTRING data.(GxPacketFilterInformation_packet_filter_identifier);
    PACK_BASIC uint32_t data.(GxPacketFilterInformation_precedence);
    PACK_OCTETSTRING data.(GxPacketFilterInformation_packet_filter_content);
    PACK_OCTETSTRING data.(GxPacketFilterInformation_tos_traffic_class);
    PACK_OCTETSTRING data.(GxPacketFilterInformation_security_parameter_index);
    PACK_OCTETSTRING data.(GxPacketFilterInformation_flow_label);
    PACK_BASIC int32_t data.(GxPacketFilterInformation_flow_direction);
    pack_return
  ].

Definition packGxTdfInformation (data : GxTdfInformation) : packer :=
  pack_all [
    PACK_PRESENCE (presence_GxTdfInformation data);
    PACK_OCTETSTRING data.(GxTdfInformation_tdf_destination_realm);
    PACK_OCTETSTRING data.(GxTdfInformation_tdf_destination_host);
    PACK_BASIC FdAddress data.(GxTdfInformation_tdf_ip_address);
    pack_return
  ].

Definition packGxSupportedFeatures (data : GxSupportedFeatures) : packer :=
  pack_all [
    PACK_PRESENCE (presence_GxSupportedFeatures data);
    PACK_BASIC uint32_t data.(GxSupportedFeatures_vendor_id);
    PACK_BASIC uint32_t data.(GxSupportedFeatures_feature_list_id);
    PACK_BASIC uint32_t data.(GxSupportedFeatures_feature_list);
    pack_return
  ].

Definition packGxOcSupportedFeatures (data : GxOcSupportedFeatures) : packer :=
  pack_all [
    PACK_PRESENCE (presence_GxOcSupportedFeatures data);
    PACK_BASIC uint64_t data.(GxOcSupportedFeatures_oc_feature_vector);
    pack_return
  ].

Definition packGxSubscriptionId (data : GxSubscriptionId) : packer :=
  pack_all [
    PACK_PRESENCE (presence_GxSubscriptionId data);
    PACK_BASIC int32_t data.(GxSubscriptionId_subscription_id_type);
    PACK_OCTETSTRING data.(GxSubscriptionId_subscription_id_data);
    pack_return
  ].

Definition gx_ccr_pack (data : GxCCR) : list byte -> Z -> res (bool * list byte) :=
  message_pack [
    PACK_PRESENCE (presence_GxCCR data);
    PACK_OCTETSTRING data.(GxCCR_session_id);
    PACK_BASIC int32_t data.(GxCCR_drmp);
    PACK_BASIC uint32_t data.(GxCCR_auth_application_id);
    PACK_OCTETSTRING data.(GxCCR_origin_host);
    PACK_OCTETSTRING data.(GxCCR_origin_realm);
    PACK_OCTETSTRING data.(GxCCR_destination_realm);
    PACK_OCTETSTRING data.(GxCCR_service_context_id);
    PACK_BASIC int32_t data.(GxCCR_cc_request_type);
    PACK_BASIC uint32_t data.(GxCCR_cc_request_number);
    PACK_BASIC uint32_t data.(GxCCR_credit_management_status);
    PACK_OCTETSTRING data.(GxCCR_destination_host);
    PACK_BASIC uint32_t data.(GxCCR_origin_state_id);
    PACK_LIST_STRUCT packGxSubscriptionId data.(GxCCR_subscription_id);
    PACK_STRUCT packGxOcSupportedFeatures data.(GxCCR_oc_supported_features);
    PACK_LIST_STRUCT packGxSupportedFeatures data.(GxCCR_supported_features);
    PACK_STRUCT packGxTdfInformation data.(GxCCR_tdf_information);
    PACK_BASIC int32_t data.(GxCCR_network_request_support);
    PACK_LIST_STRUCT packGxPacketFilterInformation data.(GxCCR_packet_filter_information);
    PACK_BASIC int32_t data.(GxCCR_packet_filter_operation);
    PACK_OCTETSTRING data.(GxCCR_bearer_identifier);
    PACK_BASIC int32_t data.(GxCCR_bearer_operation);
    PACK_BASIC int32_t data.(GxCCR_dynamic_address_flag);
    PACK_BASIC int32_t data.(GxCCR_dynamic_address_flag_extension);
    PACK_BASIC uint32_t data.(GxCCR_pdn_connection_charging_id);
    PACK_OCTETSTRING data.(GxCCR_framed_ip_address);
    PACK_OCTETSTRING data.(GxCCR_framed_ipv6_prefix);
    PACK_BASIC int32_t data.(GxCCR_ip_can_type);
    PACK_OCTETSTRING data.(GxCCR_tgpp_rat_type);
    PACK_BASIC int32_t data.(GxCCR_an_trusted);
    PACK_BASIC int32_t data.(GxCCR_rat_type);
    PACK_BASIC int32_t data.(GxCCR_termination_cause);
    PACK_STRUCT packGxUserEquipmentInfo data.(GxCCR_user_equipment_info);
    PACK_STRUCT packGxQosInformation data.(GxCCR_qos_information);
    PACK_BASIC int32_t data.(GxCCR_qos_negotiation);
    PACK_BASIC int32_t data.(GxCCR_qos_upgrade);
    PACK_STRUCT packGxDefaultEpsBearerQos data.(GxCCR_default_eps_bearer_qos);
    PACK_STRUCT packGxDefaultQosInformation data.(GxCCR_default_qos_information);
    PACK_LIST_BASIC FdAddress data.(GxCCR_an_gw_address);
    PACK_BASIC int32_t data.(GxCCR_an_gw_status);
    PACK_OCTETSTRING data.(GxCCR_tgpp_sgsn_mcc_mnc);
    PACK_OCTETSTRING data.(GxCCR_tgpp_sgsn_address);
    PACK_OCTETSTRING data.(GxCCR_tgpp_sgsn_ipv6_address);
    PACK_OCTETSTRING data.(GxCCR_tgpp_ggsn_address);
    PACK_OCTETSTRING data.(GxCCR_tgpp_ggsn_ipv6_address);
    PACK_OCTETSTRING data.(GxCCR_tgpp_selection_mode);
    PACK_OCTETSTRING data.(GxCCR_rai);
    PACK_OCTETSTRING data.(GxCCR_tgpp_user_location_info);
    PACK_STRUCT packGxFixedUserLocationInfo data.(GxCCR_fixed_user_location_info);
    PACK_BASIC FdTime data.(GxCCR_user_location_info_time);
    PACK_STRUCT packGxUserCsgInformation data.(GxCCR_user_csg_information);
    PACK_OCTETSTRING data.(GxCCR_twan_identifier);
    PACK_OCTETSTRING data.(GxCCR_tgpp_ms_timezone);
    PACK_LIST_OCTETSTRING data.(GxCCR_ran_nas_release_cause);
    PACK_OCTETSTRING data.(GxCCR_tgpp_charging_characteristics);
    PACK_OCTETSTRING data.(GxCCR_called_station_id);
    PACK_OCTETSTRING data.(GxCCR_pdn_connection_id);
    PACK_BASIC int32_t data.(GxCCR_bearer_usage);
    PACK_BASIC int32_t data.(GxCCR_online);
    PACK_BASIC int32_t data.(GxCCR_offline);
    PACK_LIST_STRUCT packGxTftPacketFilterInformation data.(GxCCR_tft_packet_filter_information);
    PACK_LIST_STRUCT packGxChargingRuleReport data.(GxCCR_charging_rule_report);
    PACK_LIST_STRUCT packGxApplicationDetectionInformation data.(GxCCR_application_detection_information);
    PACK_LIST_BASIC int32_t data.(GxCCR_event_trigger);
    PACK_STRUCT packGxEventReportIndication data.(GxCCR_event_report_indication);
    PACK_BASIC FdAddress data.(GxCCR_access_network_charging_address);
    PACK_LIST_STRUCT packGxAccessNetworkChargingIdentifierGx data.(GxCCR_access_network_charging_identifier_gx);
    PACK_LIST_STRUCT packGxCoaInformation data.(GxCCR_coa_information);
    PACK_LIST_STRUCT packGxUsageMonitoringInformation data.(GxCCR_usage_monitoring_information);
    PACK_BASIC int32_t data.(GxCCR_nbifom_support);
    PACK_BASIC int32_t data.(GxCCR_nbifom_mode);
    PACK_BASIC int32_t data.(GxCCR_default_access);
    PACK_BASIC uint64_t data.(GxCCR_origination_time_stamp);
    PACK_BASIC uint32_t data.(GxCCR_maximum_wait_time);
    PACK_BASIC uint32_t data.(GxCCR_access_availability_change_reason);
    PACK_STRUCT packGxRoutingRuleInstall data.(GxCCR_routing_rule_install);
    PACK_STRUCT packGxRoutingRuleRemove data.(GxCCR_routing_rule_remove);
    PACK_BASIC FdAddress data.(GxCCR_henb_local_ip_address);
    PACK_BASIC FdAddress data.(GxCCR_ue_local_ip_address);
    PACK_BASIC uint32_t data.(GxCCR_udp_source_port);
    PACK_BASIC uint32_t data.(GxCCR_tcp_source_port);
    PACK_LIST_STRUCT packGxPresenceReportingAreaInformation data.(GxCCR_presence_reporting_area_information);
    PACK_OCTETSTRING data.(GxCCR_logical_access_id);
    PACK_OCTETSTRING data.(GxCCR_physical_access_id);
    PACK_LIST_STRUCT packGxProxyInfo data.(GxCCR_proxy_info);
    PACK_LIST_OCTETSTRING data.(GxCCR_route_record);
    PACK_BASIC int32_t data.(GxCCR_tgpp_ps_data_off_status)
  ].

Definition packGxLoad (data : GxLoad) : packer :=
  pack_all [
    PACK_PRESENCE (presence_GxLoad data);
    PACK_BASIC int32_t data.(GxLoad_load_type);
    PACK_BASIC uint64_t data.(GxLoad_load_value);
    PACK_OCTETSTRING data.(GxLoad_sourceid);
    pack_return
  ].

Definition packGxFailedAvp (data : GxFailedAvp) : packer :=
  pack_all [
    PACK_PRESENCE (presence_GxFailedAvp data);
    pack_return
  ].

Definition packGxConditionalPolicyInformation (data : GxConditionalPolicyInformation) : packer :=
  pack_all [
    PACK_PRESENCE (presence_GxConditionalPolicyInformation data);
    PACK_BASIC FdTime data.(GxConditionalPolicyInformation_execution_time);
    PACK_STRUCT packGxDefaultEpsBearerQos data.(GxConditionalPolicyInformation_default_eps_bearer_qos);
    PACK_BASIC uint32_t data.(GxConditionalPolicyInformation_apn_aggregate_max_bitrate_ul);
    PACK_BASIC uint32_t data.(GxConditionalPolicyInformation_apn_aggregate_max_bitrate_dl);
    PACK_BASIC uint32_t data.(GxConditionalPolicyInformation_extended_apn_ambr_ul);
    PACK_BASIC uint32_t data.(GxConditionalPolicyInformation_extended_apn_ambr_dl);
    PACK_LIST_STRUCT packGxConditionalApnAggregateMaxBitrate data.(GxConditionalPolicyInformation_conditional_apn_aggregate_max_bitrate);
    pack_return
  ].

Definition packGxRoutingRuleReport (data : GxRoutingRuleReport) : packer :=
  pack_all [
    PACK_PRESENCE (presence_GxRoutingRuleReport data);
    PACK_LIST_OCTETSTRING data.(GxRoutingRuleReport_routing_rule_identifier);
    PACK_BASIC int32_t data.(GxRoutingRuleReport_pcc_rule_status);
    PACK_BASIC uint32_t data.(GxRoutingRuleReport_routing_rule_failure_code);
    pack_return
  ].

Definition packGxPraRemove (data : GxPraRemove) : packer :=
  pack_all [
    PACK_PRESENCE (presence_GxPraRemove data);
    PACK_LIST_OCTETSTRING data.(GxPraRemove_presence_reporting_area_identifier);
    pack_return
  ].

Definition packGxPraInstall (data : GxPraInstall) : packer :=
  pack_all [
    PACK_PRESENCE (presence_GxPraInstall data);
    PACK_LIST_STRUCT packGxPresenceReportingAreaInformation data.(GxPraInstall_presence_reporting_area_information);
    pack_return
  ].

Definition packGxChargingInformation (data : GxChargingInformation) : packer :=
  pack_all [
    PACK_PRESENCE (presence_GxChargingInformation data);
    PACK_OCTETSTRING data.(GxChargingInformation_primary_event_charging_function_name);
    PACK_OCTETSTRING data.(GxChargingInformation_secondary_event_charging_function_name);
    PACK_OCTETSTRING data.(GxChargingInformation_primary_charging_collection_function_name);
    PACK_OCTETSTRING data.(GxChargingInformation_secondary_charging_collection_function_name);
    pack_return
  ].

Definition packGxRedirectInformation (data : GxRedirectInformation) : packer :=
  pack_all [
    PACK_PRESENCE (presence_GxRedirectInformation data);
    PACK_BASIC int32_t data.(GxRedirectInformation_redirect_support);
    PACK_BASIC int32_t data.(GxRedirectInformation_redirect_address_type);
    PACK_OCTETSTRING data.(GxRedirectInformation_redirect_server_address);
    pack_return
  ].

Definition packGxFlows (data : GxFlows) : packer :=
  pack_all [
    PACK_PRESENCE (presence_GxFlows data);
    PACK_BASIC uint32_t data.(GxFlows_media_component_number);
    PACK_LIST_BASIC uint32_t data.(GxFlows_flow_number);
    PACK_LIST_BASIC uint64_t data.(GxFlows_content_version);
    PACK_BASIC int32_t data.(GxFlows_final_unit_action);
    PACK_BASIC uint32_t data.(GxFlows_media_component_status);
    pack_return
  ].

Definition packGxChargingRuleDefinition (data : GxChargingRuleDefinition) : packer :=
  pack_all [
    PACK_PRESENCE (presence_GxChargingRuleDefinition data);
    PACK_OCTETSTRING data.(GxChargingRuleDefinition_charging_rule_name);
    PACK_BASIC uint32_t data.(GxChargingRuleDefinition_service_identifier);
    PACK_BASIC uint32_t data.(GxChargingRuleDefinition_rating_group);
    PACK_LIST_STRUCT packGxFlowInformation data.(GxChargingRuleDefinition_flow_information);
    PACK_BASIC int32_t data.(GxChargingRuleDefinition_default_bearer_indication);
    PACK_OCTETSTRING data.(GxChargingRuleDefinition_tdf_application_identifier);
    PACK_BASIC int32_t data.(GxChargingRuleDefinition_flow_status);
    PACK_STRUCT packGxQosInformation data.(GxChargingRuleDefinition_qos_information);
    PACK_BASIC int32_t data.(GxChargingRuleDefinition_ps_to_cs_session_continuity);
    PACK_BASIC int32_t data.(GxChargingRuleDefinition_reporting_level);
    PACK_BASIC int32_t data.(GxChargingRuleDefinition_online);
    PACK_BASIC int32_t data.(GxChargingRuleDefinition_offline);
    PACK_BASIC float data.(GxChargingRuleDefinition_max_plr_dl);
    PACK_BASIC float data.(GxChargingRuleDefinition_max_plr_ul);
    PACK_BASIC int32_t data.(GxChargingRuleDefinition_metering_method);
    PACK_BASIC uint32_t data.(GxChargingRuleDefinition_precedence);
    PACK_OCTETSTRING data.(GxChargingRuleDefinition_af_charging_identifier);
    PACK_LIST_STRUCT packGxFlows data.(GxChargingRuleDefinition_flows);
    PACK_OCTETSTRING data.(GxChargingRuleDefinition_monitoring_key);
    PACK_STRUCT packGxRedirectInformation data.(GxChargingRuleDefinition_redirect_information);
    PACK_BASIC int32_t data.(GxChargingRuleDefinition_mute_notification);
    PACK_BASIC int32_t data.(GxChargingRuleDefinition_af_signalling_protocol);
    PACK_OCTETSTRING data.(GxChargingRuleDefinition_sponsor_identity);
    PACK_OCTETSTRING data.(GxChargingRuleDefinition_application_service_provider_identity);
    PACK_LIST_BASIC int32_t data.(GxChargingRuleDefinition_required_access_info);
    PACK_BASIC uint32_t data.(GxChargingRuleDefinition_sharing_key_dl);
    PACK_BASIC uint32_t data.(GxChargingRuleDefinition_sharing_key_ul);
    PACK_OCTETSTRING data.(GxChargingRuleDefinition_traffic_steering_policy_identifier_dl);
    PACK_OCTETSTRING data.(GxChargingRuleDefinition_traffic_steering_policy_identifier_ul);
    PACK_BASIC uint64_t data.(GxChargingRuleDefinition_content_version);
    pack_return
  ].

Definition packGxChargingRuleInstall (data : GxChargingRuleInstall) : packer :=
  pack_all [
    PACK_PRESENCE (presence_GxChargingRuleInstall data);
    PACK_LIST_STRUCT packGxChargingRuleDefinition data.(GxChargingRuleInstall_charging_rule_definition);
    PACK_LIST_OCTETSTRING data.(GxChargingRuleInstall_charging_rule_name);
    PACK_LIST_OCTETSTRING data.(GxChargingRuleInstall_charging_rule_base_name);
    PACK_OCTETSTRING data.(GxChargingRuleInstall_bearer_identifier);
    PACK_BASIC uint32_t data.(GxChargingRuleInstall_monitoring_flags);
    PACK_BASIC FdTime data.(GxChargingRuleInstall_rule_activation_time);
    PACK_BASIC FdTime data.(GxChargingRuleInstall_rule_deactivation_time);
    PACK_BASIC int32_t data.(GxChargingRuleInstall_resource_allocation_notification);
    PACK_BASIC int32_t data.(GxChargingRuleInstall_charging_correlation_indicator);
    PACK_BASIC int32_t data.(GxChargingRuleInstall_ip_can_type);
    pack_return
  ].

Definition packGxChargingRuleRemove (data : GxChargingRuleRemove) : packer :=
  pack_all [
    PACK_PRESENCE (presence_GxChargingRuleRemove data);
    PACK_LIST_OCTETSTRING data.(GxChargingRuleRemove_charging_rule_name);
    PACK_LIST_OCTETSTRING data.(GxChargingRuleRemove_charging_rule_base_name);
    PACK_LIST_BASIC int32_t data.(GxChargingRuleRemove_required_access_info);
    PACK_BASIC int32_t data.(GxChargingRuleRemove_resource_release_notification);
    pack_return
  ].

Definition packGxOcOlr (data : GxOcOlr) : packer :=
  pack_all [
    PACK_PRESENCE (presence_GxOcOlr data);
    PACK_BASIC uint64_t data.(GxOcOlr_oc_sequence_number);
    PACK_BASIC int32_t data.(GxOcOlr_oc_report_type);
    PACK_BASIC uint32_t data.(GxOcOlr_oc_reduction_percentage);
    PACK_BASIC uint32_t data.(GxOcOlr_oc_validity_duration);
    pack_return
  ].

Definition packGxExperimentalResult (data : GxExperimentalResult) : packer :=
  pack_all [
    PACK_PRESENCE (presence_GxExperimentalResult data);
    PACK_BASIC uint32_t data.(GxExperimentalResult_vendor_id);
    PACK_BASIC uint32_t data.(GxExperimentalResult_experimental_result_code);
    pack_return
  ].

Definition gx_cca_pack (data : GxCCA) : list byte -> Z -> res (bool * list byte) :=
  message_pack [
    PACK_PRESENCE (presence_GxCCA data);
    PACK_OCTETSTRING data.(GxCCA_session_id);
    PACK_BASIC int32_t data.(GxCCA_drmp);
    PACK_BASIC uint32_t data.(GxCCA_auth_application_id);
    PACK_OCTETSTRING data.(GxCCA_origin_host);
    PACK_OCTETSTRING data.(GxCCA_origin_realm);
    PACK_BASIC uint32_t data.(GxCCA_result_code);
    PACK_STRUCT packGxExperimentalResult data.(GxCCA_experimental_result);
    PACK_BASIC int32_t data.(GxCCA_cc_request_type);
    PACK_BASIC uint32_t data.(GxCCA_cc_request_number);
    PACK_STRUCT packGxOcSupportedFeatures data.(GxCCA_oc_supported_features);
    PACK_STRUCT packGxOcOlr data.(GxCCA_oc_olr);
    PACK_LIST_STRUCT packGxSupportedFeatures data.(GxCCA_supported_features);
    PACK_BASIC int32_t data.(GxCCA_bearer_control_mode);
    PACK_LIST_BASIC int32_t data.(GxCCA_event_trigger);
    PACK_STRUCT packGxEventReportIndication data.(GxCCA_event_report_indication);
    PACK_BASIC uint32_t data.(GxCCA_origin_state_id);
    PACK_LIST_OCTETSTRING data.(GxCCA_redirect_host);
    PACK_BASIC int32_t data.(GxCCA_redirect_host_usage);
    PACK_BASIC uint32_t data.(GxCCA_redirect_max_cache_time);
    PACK_LIST_STRUCT packGxChargingRuleRemove data.(GxCCA_charging_rule_remove);
    PACK_LIST_STRUCT packGxChargingRuleInstall data.(GxCCA_charging_rule_install);
    PACK_STRUCT packGxChargingInformation data.(GxCCA_charging_information);
    PACK_BASIC int32_t data.(GxCCA_online);
    PACK_BASIC int32_t data.(GxCCA_offline);
    PACK_LIST_STRUCT packGxQosInformation data.(GxCCA_qos_information);
    PACK_BASIC FdTime data.(GxCCA_revalidation_time);
    PACK_STRUCT packGxDefaultEpsBearerQos data.(GxCCA_default_eps_bearer_qos);
    PACK_STRUCT packGxDefaultQosInformation data.(GxCCA_default_qos_information);
    PACK_BASIC int32_t data.(GxCCA_bearer_usage);
    PACK_LIST_STRUCT packGxUsageMonitoringInformation data.(GxCCA_usage_monitoring_information);
    PACK_LIST_BASIC int32_t data.(GxCCA_csg_information_reporting);
    PACK_STRUCT packGxUserCsgInformation data.(GxCCA_user_csg_information);
    PACK_STRUCT packGxPraInstall data.(GxCCA_pra_install);
    PACK_STRUCT packGxPraRemove data.(GxCCA_pra_remove);
    PACK_STRUCT packGxPresenceReportingAreaInformation data.(GxCCA_presence_reporting_area_information);
    PACK_BASIC int32_t data.(GxCCA_session_release_cause);
    PACK_BASIC int32_t data.(GxCCA_nbifom_support);
    PACK_BASIC int32_t data.(GxCCA_nbifom_mode);
    PACK_BASIC int32_t data.(GxCCA_default_access);
    PACK_BASIC uint32_t data.(GxCCA_ran_rule_support);
    PACK_LIST_STRUCT packGxRoutingRuleReport data.(GxCCA_routing_rule_report);
    PACK_LIST_STRUCT packGxConditionalPolicyInformation data.(GxCCA_conditional_policy_information);
    PACK_BASIC int32_t data.(GxCCA_removal_of_access);
    PACK_BASIC int32_t data.(GxCCA_ip_can_type);
    PACK_OCTETSTRING data.(GxCCA_error_message);
    PACK_OCTETSTRING data.(GxCCA_error_reporting_host);
    PACK_STRUCT packGxFailedAvp data.(GxCCA_failed_avp);
    PACK_LIST_STRUCT packGxProxyInfo data.(GxCCA_proxy_info);
    PACK_LIST_OCTETSTRING data.(GxCCA_route_record);
    PACK_LIST_STRUCT packGxLoad data.(GxCCA_load)
  ].

Definition gx_raa_pack (data : GxRAA) : list byte -> Z -> res (bool * list byte) :=
  message_pack [
    PACK_PRESENCE (presence_GxRAA data);
    PACK_OCTETSTRING data.(GxRAA_session_id);
    PACK_BASIC int32_t data.(GxRAA_drmp);
    PACK_OCTETSTRING data.(GxRAA_origin_host);
    PACK_OCTETSTRING data.(GxRAA_origin_realm);
    PACK_BASIC uint32_t data.(GxRAA_result_code);
    PACK_STRUCT packGxExperimentalResult data.(GxRAA_experimental_result);
    PACK_BASIC uint32_t data.(GxRAA_origin_state_id);
    PACK_STRUCT packGxOcSupportedFeatures data.(GxRAA_oc_supported_features);
    PACK_STRUCT packGxOcOlr data.(GxRAA_oc_olr);
    PACK_BASIC int32_t data.(GxRAA_ip_can_type);
    PACK_BASIC int32_t data.(GxRAA_rat_type);
    PACK_BASIC int32_t data.(GxRAA_an_trusted);
    PACK_LIST_BASIC FdAddress data.(GxRAA_an_gw_address);
    PACK_OCTETSTRING data.(GxRAA_tgpp_sgsn_mcc_mnc);
    PACK_OCTETSTRING data.(GxRAA_tgpp_sgsn_address);
    PACK_OCTETSTRING data.(GxRAA_tgpp_sgsn_ipv6_address);
    PACK_OCTETSTRING data.(GxRAA_rai);
    PACK_OCTETSTRING data.(GxRAA_tgpp_user_location_info);
    PACK_BASIC FdTime data.(GxRAA_user_location_info_time);
    PACK_BASIC uint32_t data.(GxRAA_netloc_access_support);
    PACK_STRUCT packGxUserCsgInformation data.(GxRAA_user_csg_information);
    PACK_OCTETSTRING data.(GxRAA_tgpp_ms_timezone);
    PACK_STRUCT packGxDefaultQosInformation data.(GxRAA_default_qos_information);
    PACK_LIST_STRUCT packGxChargingRuleReport data.(GxRAA_charging_rule_report);
    PACK_OCTETSTRING data.(GxRAA_error_message);
    PACK_OCTETSTRING data.(GxRAA_error_reporting_host);
    PACK_STRUCT packGxFailedAvp data.(GxRAA_failed_avp);
    PACK_LIST_STRUCT packGxProxyInfo data.(GxRAA_proxy_info)
  ].

Definition gx_rar_pack (data : GxRAR) : list byte -> Z -> res (bool * list byte) :=
  message_pack [
    PACK_PRESENCE (presence_GxRAR data);
    PACK_OCTETSTRING data.(GxRAR_session_id);
    PACK_BASIC int32_t data.(GxRAR_drmp);
    PACK_BASIC uint32_t data.(GxRAR_auth_application_id);
    PACK_OCTETSTRING data.(GxRAR_origin_host);
    PACK_OCTETSTRING data.(GxRAR_origin_realm);
    PACK_OCTETSTRING data.(GxRAR_destination_realm);
    PACK_OCTETSTRING data.(GxRAR_destination_host);
    PACK_BASIC int32_t data.(GxRAR_re_auth_request_type);
    PACK_BASIC int32_t data.(GxRAR_session_release_cause);
    PACK_BASIC uint32_t data.(GxRAR_origin_state_id);
    PACK_STRUCT packGxOcSupportedFeatures data.(GxRAR_oc_supported_features);
    PACK_LIST_BASIC int32_t data.(GxRAR_event_trigger);
    PACK_STRUCT packGxEventReportIndication data.(GxRAR_event_report_indication);
    PACK_LIST_STRUCT packGxChargingRuleRemove data.(GxRAR_charging_rule_remove);
    PACK_LIST_STRUCT packGxChargingRuleInstall data.(GxRAR_charging_rule_install);
    PACK_STRUCT packGxDefaultEpsBearerQos data.(GxRAR_default_eps_bearer_qos);
    PACK_LIST_STRUCT packGxQosInformation data.(GxRAR_qos_information);
    PACK_STRUCT packGxDefaultQosInformation data.(GxRAR_default_qos_information);
    PACK_BASIC FdTime data.(GxRAR_revalidation_time);
    PACK_LIST_STRUCT packGxUsageMonitoringInformation data.(GxRAR_usage_monitoring_information);
    PACK_BASIC uint32_t data.(GxRAR_pcscf_restoration_indication);
    PACK_LIST_STRUCT packGxConditionalPolicyInformation data.(GxRAR_conditional_policy_information);
    PACK_BASIC int32_t data.(GxRAR_removal_of_access);
    PACK_BASIC int32_t data.(GxRAR_ip_can_type);
    PACK_STRUCT packGxPraInstall data.(GxRAR_pra_install);
    PACK_STRUCT packGxPraRemove data.(GxRAR_pra_remove);
    PACK_LIST_BASIC int32_t data.(GxRAR_csg_information_reporting);
    PACK_LIST_STRUCT packGxProxyInfo data.(GxRAR_proxy_info);
    PACK_LIST_OCTETSTRING data.(GxRAR_route_record)
  ].

(** ** unpack functions *)

Section Unpack.
Context {M : Malloc}.

Definition unpackGxProxyInfo : unpacker GxProxyInfo :=
  let! presence := UNPACK_PRESENCE 2 in
  let! proxy_host := UNPACK_OCTETSTRING (bit 0 presence) in
  let! proxy_state := UNPACK_OCTETSTRING (bit 1 presence) in
  unpack_return (mkGxProxyInfo
      proxy_host proxy_state).

Definition unpackGxPresenceReportingAreaInformation : unpacker GxPresenceReportingAreaInformation :=
  let! presence := UNPACK_PRESENCE 4 in
  let! presence_reporting_area_identifier := UNPACK_OCTETSTRING (bit 0 presence) in
  let! presence_reporting_area_status := UNPACK_BASIC uint32_t (bit 1 presence) in
  let! presence_reporting_area_elements_list := UNPACK_OCTETSTRING (bit 2 presence) in
  let! presence_reporting_area_node := UNPACK_BASIC uint32_t (bit 3 presence) in
  unpack_return (mkGxPresenceReportingAreaInformation
      presence_reporting_area_identifier presence_reporting_area_status
      presence_reporting_area_elements_list presence_reporting_area_node).

Definition unpackGxRoutingRuleRemove : unpacker GxRoutingRuleRemove :=
  let! presence := UNPACK_PRESENCE 1 in
  let! routing_rule_identifier := UNPACK_LIST_OCTETSTRING "GxRoutingRuleIdentifierOctetString" (bit 0 presence) in
  unpack_return (mkGxRoutingRuleRemove
      routing_rule_identifier).

Definition unpackGxRoutingFilter : unpacker GxRoutingFilter :=
  let! presence := UNPACK_PRESENCE 5 in
  let! flow_description := UNPACK_OCTETSTRING (bit 0 presence) in
  let! flow_direction := UNPACK_BASIC int32_t (bit 1 presence) in
  let! tos_traffic_class := UNPACK_OCTETSTRING (bit 2 presence) in
  let! security_parameter_index := UNPACK_OCTETSTRING (bit 3 presence) in
  let! flow_label := UNPACK_OCTETSTRING (bit 4 presence) in
  unpack_return (mkGxRoutingFilter
      flow_description flow_direction tos_traffic_class security_parameter_index flow_label).

Definition unpackGxRoutingRuleDefinition : unpacker GxRoutingRuleDefinition :=
  let! presence := UNPACK_PRESENCE 5 in
  let! routing_rule_identifier := UNPACK_OCTETSTRING (bit 0 presence) in
  let! routing_filter := UNPACK_LIST_STRUCT "GxRoutingFilter" unpackGxRoutingFilter (bit 1 presence) in
  let! precedence := UNPACK_BASIC uint32_t (bit 2 presence) in
  let! routing_ip_address := UNPACK_BASIC FdAddress (bit 3 presence) in
  let! ip_can_type := UNPACK_BASIC int32_t (bit 4 presence) in
  unpack_return (mkGxRoutingRuleDefinition
      routing_rule_identifier routing_filter precedence routing_ip_address ip_can_type).

Definition unpackGxRoutingRuleInstall : unpacker GxRoutingRuleInstall :=
  let! presence := UNPACK_PRESENCE 1 in
  let! routing_rule_definition := UNPACK_LIST_STRUCT "GxRoutingRuleDefinition" unpackGxRoutingRuleDefinition (bit 0 presence) in
  unpack_return (mkGxRoutingRuleInstall
      routing_rule_definition).

Definition unpackGxUnitValue : unpacker GxUnitValue :=
  let! presence := UNPACK_PRESENCE 2 in
  let! value_digits := UNPACK_BASIC int64_t (bit 0 presence) in
  let! exponent := UNPACK_BASIC int32_t (bit 1 presence) in
  unpack_return (mkGxUnitValue
      value_digits exponent).

Definition unpackGxCcMoney : unpacker GxCcMoney :=
  let! presence := UNPACK_PRESENCE 2 in
  let! unit_value := UNPACK_STRUCT unpackGxUnitValue (bit 0 presence) in
  let! currency_code := UNPACK_BASIC uint32_t (bit 1 presence) in
  unpack_return (mkGxCcMoney
      unit_value currency_code).

Definition unpackGxUsedServiceUnit : unpacker GxUsedServiceUnit :=
  let! presence := UNPACK_PRESENCE 9 in
  let! reporting_reason := UNPACK_BASIC int32_t (bit 0 presence) in
  let! tariff_change_usage := UNPACK_BASIC int32_t (bit 1 presence) in
  let! cc_time := UNPACK_BASIC uint32_t (bit 2 presence) in
  let! cc_money := UNPACK_STRUCT unpackGxCcMoney (bit 3 presence) in
  let! cc_total_octets := UNPACK_BASIC uint64_t (bit 4 presence) in
  let! cc_input_octets := UNPACK_BASIC uint64_t (bit 5 presence) in
  let! cc_output_octets := UNPACK_BASIC uint64_t (bit 6 presence) in
  let! cc_service_specific_units := UNPACK_BASIC uint64_t (bit 7 presence) in
  let! event_charging_timestamp := UNPACK_LIST_BASIC FdTime (bit 8 presence) in
  unpack_return (mkGxUsedServiceUnit
      reporting_reason tariff_change_usage cc_time cc_money cc_total_octets cc_input_octets
      cc_output_octets cc_service_specific_units event_charging_timestamp).

Definition unpackGxGrantedServiceUnit : unpacker GxGrantedServiceUnit :=
  let! presence := UNPACK_PRESENCE 7 in
  let! tariff_time_change := UNPACK_BASIC FdTime (bit 0 presence) in
  let! cc_time := UNPACK_BASIC uint32_t (bit 1 presence) in
  let! cc_money := UNPACK_STRUCT unpackGxCcMoney (bit 2 presence) in
  let! cc_total_octets := UNPACK_BASIC uint64_t (bit 3 presence) in
  let! cc_input_octets := UNPACK_BASIC uint64_t (bit 4 presence) in
  let! cc_output_octets := UNPACK_BASIC uint64_t (bit 5 presence) in
  let! cc_service_specific_units := UNPACK_BASIC uint64_t (bit 6 presence) in
  unpack_return (mkGxGrantedServiceUnit
      tariff_time_change cc_time cc_money cc_total_octets cc_input_octets cc_output_octets
      cc_service_specific_units).

Definition unpackGxUsageMonitoringInformation : unpacker GxUsageMonitoringInformation :=
  let! presence := UNPACK_PRESENCE 7 in
  let! monitoring_key := UNPACK_OCTETSTRING (bit 0 presence) in
  let! granted_service_unit := UNPACK_LIST_STRUCT "GxGrantedServiceUnit" unpackGxGrantedServiceUnit (bit 1 presence) in
  let! used_service_unit := UNPACK_LIST_STRUCT "GxUsedServiceUnit" unpackGxUsedServiceUnit (bit 2 presence) in
  let! quota_consumption_time := UNPACK_BASIC uint32_t (bit 3 presence) in
  let! usage_monitoring_level := UNPACK_BASIC int32_t (bit 4 presence) in
  let! usage_monitoring_report := UNPACK_BASIC int32_t (bit 5 presence) in
  let! usage_monitoring_support := UNPACK_BASIC int32_t (bit 6 presence) in
  unpack_return (mkGxUsageMonitoringInformation
      monitoring_key granted_service_unit used_service_unit quota_consumption_time
      usage_monitoring_level usage_monitoring_report usage_monitoring_support).

Definition unpackGxTunnelInformation : unpacker GxTunnelInformation :=
  let! presence := UNPACK_PRESENCE 2 in
  let! tunnel_header_length := UNPACK_BASIC uint32_t (bit 0 presence) in
  let! tunnel_header_filter := UNPACK_LIST_OCTETSTRING "GxTunnelHeaderFilterOctetString" (bit 1 presence) in
  unpack_return (mkGxTunnelInformation
      tunnel_header_length tunnel_header_filter).

Definition unpackGxCoaInformation : unpacker GxCoaInformation :=
  let! presence := UNPACK_PRESENCE 2 in
  let! tunnel_information := UNPACK_STRUCT unpackGxTunnelInformation (bit 0 presence) in
  let! coa_ip_address := UNPACK_BASIC FdAddress (bit 1 presence) in
  unpack_return (mkGxCoaInformation
      tunnel_information coa_ip_address).

Definition unpackGxAccessNetworkChargingIdentifierGx : unpacker GxAccessNetworkChargingIdentifierGx :=
  let! presence := UNPACK_PRESENCE 4 in
  let! access_network_charging_identifier_value := UNPACK_OCTETSTRING (bit 0 presence) in
  let! charging_rule_base_name := UNPACK_LIST_OCTETSTRING "GxChargingRuleBaseNameOctetString" (bit 1 presence) in
  let! charging_rule_name := UNPACK_LIST_OCTETSTRING "GxChargingRuleNameOctetString" (bit 2 presence) in
  let! ip_can_session_charging_scope := UNPACK_BASIC int32_t (bit 3 presence) in
  unpack_return (mkGxAccessNetworkChargingIdentifierGx
      access_network_charging_identifier_value charging_rule_base_name charging_rule_name
      ip_can_session_charging_scope).

Definition unpackGxMbsfnArea : unpacker GxMbsfnArea :=
  let! presence := UNPACK_PRESENCE 2 in
  let! mbsfn_area_id := UNPACK_BASIC uint32_t (bit 0 presence) in
  let! carrier_frequency := UNPACK_BASIC uint32_t (bit 1 presence) in
  unpack_return (mkGxMbsfnArea
      mbsfn_area_id carrier_frequency).

Definition unpackGxAreaScope : unpacker GxAreaScope :=
  let! presence := UNPACK_PRESENCE 5 in
  let! cell_global_identity := UNPACK_LIST_OCTETSTRING "GxCellGlobalIdentityOctetString" (bit 0 presence) in
  let! e_utran_cell_global_identity := UNPACK_LIST_OCTETSTRING "GxEUtranCellGlobalIdentityOctetString" (bit 1 presence) in
  let! routing_area_identity := UNPACK_LIST_OCTETSTRING "GxRoutingAreaIdentityOctetString" (bit 2 presence) in
  let! location_area_identity := UNPACK_LIST_OCTETSTRING "GxLocationAreaIdentityOctetString" (bit 3 presence) in
  let! tracking_area_identity := UNPACK_LIST_OCTETSTRING "GxTrackingAreaIdentityOctetString" (bit 4 presence) in
  unpack_return (mkGxAreaScope
      cell_global_identity e_utran_cell_global_identity routing_area_identity
      location_area_identity tracking_area_identity).

Definition unpackGxMdtConfiguration : unpacker GxMdtConfiguration :=
  let! presence := UNPACK_PRESENCE 20 in
  let! job_type := UNPACK_BASIC int32_t (bit 0 presence) in
  let! area_scope := UNPACK_STRUCT unpackGxAreaScope (bit 1 presence) in
  let! list_of_measurements := UNPACK_BASIC uint32_t (bit 2 presence) in
  let! reporting_trigger := UNPACK_BASIC uint32_t (bit 3 presence) in
  let! report_interval := UNPACK_BASIC int32_t (bit 4 presence) in
  let! report_amount := UNPACK_BASIC int32_t (bit 5 presence) in
  let! event_threshold_rsrp := UNPACK_BASIC uint32_t (bit 6 presence) in
  let! event_threshold_rsrq := UNPACK_BASIC uint32_t (bit 7 presence) in
  let! logging_interval := UNPACK_BASIC int32_t (bit 8 presence) in
  let! logging_duration := UNPACK_BASIC int32_t (bit 9 presence) in
  let! measurement_period_lte := UNPACK_BASIC int32_t (bit 10 presence) in
  let! measurement_period_umts := UNPACK_BASIC int32_t (bit 11 presence) in
  let! collection_period_rrm_lte := UNPACK_BASIC int32_t (bit 12 presence) in
  let! collection_period_rrm_umts := UNPACK_BASIC int32_t (bit 13 presence) in
  let! positioning_method := UNPACK_OCTETSTRING (bit 14 presence) in
  let! measurement_quantity := UNPACK_OCTETSTRING (bit 15 presence) in
  let! event_threshold_event_1f := UNPACK_BASIC int32_t (bit 16 presence) in
  let! event_threshold_event_1i := UNPACK_BASIC int32_t (bit 17 presence) in
  let! mdt_allowed_plmn_id := UNPACK_LIST_OCTETSTRING "GxMdtAllowedPlmnIdOctetString" (bit 18 presence) in
  let! mbsfn_area := UNPACK_LIST_STRUCT "GxMbsfnArea" unpackGxMbsfnArea (bit 19 presence) in
  unpack_return (mkGxMdtConfiguration
      job_type area_scope list_of_measurements reporting_trigger report_interval report_amount
      event_threshold_rsrp event_threshold_rsrq logging_interval logging_duration
      measurement_period_lte measurement_period_umts collection_period_rrm_lte
      collection_period_rrm_umts positioning_method measurement_quantity
      event_threshold_event_1f event_threshold_event_1i mdt_allowed_plmn_id mbsfn_area).

Definition unpackGxTraceData : unpacker GxTraceData :=
  let! presence := UNPACK_PRESENCE 8 in
  let! trace_reference := UNPACK_OCTETSTRING (bit 0 presence) in
  let! trace_depth := UNPACK_BASIC int32_t (bit 1 presence) in
  let! trace_ne_type_list := UNPACK_OCTETSTRING (bit 2 presence) in
  let! trace_interface_list := UNPACK_OCTETSTRING (bit 3 presence) in
  let! trace_event_list := UNPACK_OCTETSTRING (bit 4 presence) in
  let! omc_id := UNPACK_OCTETSTRING (bit 5 presence) in
  let! trace_collection_entity := UNPACK_BASIC FdAddress (bit 6 presence) in
  let! mdt_configuration := UNPACK_STRUCT unpackGxMdtConfiguration (bit 7 presence) in
  unpack_return (mkGxTraceData
      trace_reference trace_depth trace_ne_type_list trace_interface_list trace_event_list
      omc_id trace_collection_entity mdt_configuration).

Definition unpackGxUserCsgInformation : unpacker GxUserCsgInformation :=
  let! presence := UNPACK_PRESENCE 3 in
  let! csg_id := UNPACK_BASIC uint32_t (bit 0 presence) in
  let! csg_access_mode := UNPACK_BASIC int32_t (bit 1 presence) in
  let! csg_membership_indication := UNPACK_BASIC int32_t (bit 2 presence) in
  unpack_return (mkGxUserCsgInformation
      csg_id csg_access_mode csg_membership_indication).

Definition unpackGxEventReportIndication : unpacker GxEventReportIndication :=
  let! presence := UNPACK_PRESENCE 21 in
  let! an_trusted := UNPACK_BASIC int32_t (bit 0 presence) in
  let! event_trigger := UNPACK_LIST_BASIC int32_t (bit 1 presence) in
  let! user_csg_information := UNPACK_STRUCT unpackGxUserCsgInformation (bit 2 presence) in
  let! ip_can_type := UNPACK_BASIC int32_t (bit 3 presence) in
  let! an_gw_address := UNPACK_LIST_BASIC FdAddress (bit 4 presence) in
  let! tgpp_sgsn_address := UNPACK_OCTETSTRING (bit 5 presence) in
  let! tgpp_sgsn_ipv6_address := UNPACK_OCTETSTRING (bit 6 presence) in
  let! tgpp_sgsn_mcc_mnc := UNPACK_OCTETSTRING (bit 7 presence) in
  let! framed_ip_address := UNPACK_OCTETSTRING (bit 8 presence) in
  let! rat_type := UNPACK_BASIC int32_t (bit 9 presence) in
  let! rai := UNPACK_OCTETSTRING (bit 10 presence) in
  let! tgpp_user_location_info := UNPACK_OCTETSTRING (bit 11 presence) in
  let! trace_data := UNPACK_STRUCT unpackGxTraceData (bit 12 presence) in
  let! trace_reference := UNPACK_OCTETSTRING (bit 13 presence) in
  let! tgpp2_bsid := UNPACK_OCTETSTRING (bit 14 presence) in
  let! tgpp_ms_timezone := UNPACK_OCTETSTRING (bit 15 presence) in
  let! routing_ip_address := UNPACK_BASIC FdAddress (bit 16 presence) in
  let! ue_local_ip_address := UNPACK_BASIC FdAddress (bit 17 presence) in
  let! henb_local_ip_address := UNPACK_BASIC FdAddress (bit 18 presence) in
  let! udp_source_port := UNPACK_BASIC uint32_t (bit 19 presence) in
  let! presence_reporting_area_information := UNPACK_STRUCT unpackGxPresenceReportingAreaInformation (bit 20 presence) in
  unpack_return (mkGxEventReportIndication
      an_trusted event_trigger user_csg_information ip_can_type an_gw_address tgpp_sgsn_address
      tgpp_sgsn_ipv6_address tgpp_sgsn_mcc_mnc framed_ip_address rat_type rai
      tgpp_user_location_info trace_data trace_reference tgpp2_bsid tgpp_ms_timezone
      routing_ip_address ue_local_ip_address henb_local_ip_address udp_source_port
      presence_reporting_area_information).

Definition unpackGxFlowInformation : unpacker GxFlowInformation :=
  let! presence := UNPACK_PRESENCE 8 in
  let! flow_description := UNPACK_OCTETSTRING (bit 0 presence) in
  let! packet_filter_identifier := UNPACK_OCTETSTRING (bit 1 presence) in
  let! packet_filter_usage := UNPACK_BASIC int32_t (bit 2 presence) in
  let! tos_traffic_class := UNPACK_OCTETSTRING (bit 3 presence) in
  let! security_parameter_index := UNPACK_OCTETSTRING (bit 4 presence) in
  let! flow_label := UNPACK_OCTETSTRING (bit 5 presence) in
  let! flow_direction := UNPACK_BASIC int32_t (bit 6 presence) in
  let! routing_rule_identifier := UNPACK_OCTETSTRING (bit 7 presence) in
  unpack_return (mkGxFlowInformation
      flow_description packet_filter_identifier packet_filter_usage tos_traffic_class
      security_parameter_index flow_label flow_direction routing_rule_identifier).

Definition unpackGxApplicationDetectionInformation : unpacker GxApplicationDetectionInformation :=
  let! presence := UNPACK_PRESENCE 3 in
  let! tdf_application_identifier := UNPACK_OCTETSTRING (bit 0 presence) in
  let! tdf_application_instance_identifier := UNPACK_OCTETSTRING (bit 1 presence) in
  let! flow_information := UNPACK_LIST_STRUCT "GxFlowInformation" unpackGxFlowInformation (bit 2 presence) in
  unpack_return (mkGxApplicationDetectionInformation
      tdf_application_identifier tdf_application_instance_identifier flow_information).

Definition unpackGxRedirectServer : unpacker GxRedirectServer :=
  let! presence := UNPACK_PRESENCE 2 in
  let! redirect_address_type := UNPACK_BASIC int32_t (bit 0 presence) in
  let! redirect_server_address := UNPACK_OCTETSTRING (bit 1 presence) in
  unpack_return (mkGxRedirectServer
      redirect_address_type redirect_server_address).

Definition unpackGxFinalUnitIndication : unpacker GxFinalUnitIndication :=
  let! presence := UNPACK_PRESENCE 4 in
  let! final_unit_action := UNPACK_BASIC int32_t (bit 0 presence) in
  let! restriction_filter_rule := UNPACK_LIST_OCTETSTRING "GxRestrictionFilterRuleOctetString" (bit 1 presence) in
  let! filter_id := UNPACK_LIST_OCTETSTRING "GxFilterIdOctetString" (bit 2 presence) in
  let! redirect_server := UNPACK_STRUCT unpackGxRedirectServer (bit 3 presence) in
  unpack_return (mkGxFinalUnitIndication
      final_unit_action restriction_filter_rule filter_id redirect_server).

Definition unpackGxChargingRuleReport : unpacker GxChargingRuleReport :=
  let! presence := UNPACK_PRESENCE 8 in
  let! charging_rule_name := UNPACK_LIST_OCTETSTRING "GxChargingRuleNameOctetString" (bit 0 presence) in
  let! charging_rule_base_name := UNPACK_LIST_OCTETSTRING "GxChargingRuleBaseNameOctetString" (bit 1 presence) in
  let! bearer_identifier := UNPACK_OCTETSTRING (bit 2 presence) in
  let! pcc_rule_status := UNPACK_BASIC int32_t (bit 3 presence) in
  let! rule_failure_code := UNPACK_BASIC int32_t (bit 4 presence) in
  let! final_unit_indication := UNPACK_STRUCT unpackGxFinalUnitIndication (bit 5 presence) in
  let! ran_nas_release_cause := UNPACK_LIST_OCTETSTRING "GxRanNasReleaseCauseOctetString" (bit 6 presence) in
  let! content_version := UNPACK_LIST_BASIC uint64_t (bit 7 presence) in
  unpack_return (mkGxChargingRuleReport
      charging_rule_name charging_rule_base_name bearer_identifier pcc_rule_status
      rule_failure_code final_unit_indication ran_nas_release_cause content_version).

Definition unpackGxTftPacketFilterInformation : unpacker GxTftPacketFilterInformation :=
  let! presence := UNPACK_PRESENCE 6 in
  let! precedence := UNPACK_BASIC uint32_t (bit 0 presence) in
  let! tft_filter := UNPACK_OCTETSTRING (bit 1 presence) in
  let! tos_traffic_class := UNPACK_OCTETSTRING (bit 2 presence) in
  let! security_parameter_index := UNPACK_OCTETSTRING (bit 3 presence) in
  let! flow_label := UNPACK_OCTETSTRING (bit 4 presence) in
  let! flow_direction := UNPACK_BASIC int32_t (bit 5 presence) in
  unpack_return (mkGxTftPacketFilterInformation
      precedence tft_filter tos_traffic_class security_parameter_index flow_label flow_direction).

Definition unpackGxFixedUserLocationInfo : unpacker GxFixedUserLocationInfo :=
  let! presence := UNPACK_PRESENCE 4 in
  let! ssid := UNPACK_OCTETSTRING (bit 0 presence) in
  let! bssid := UNPACK_OCTETSTRING (bit 1 presence) in
  let! logical_access_id := UNPACK_OCTETSTRING (bit 2 presence) in
  let! physical_access_id := UNPACK_OCTETSTRING (bit 3 presence) in
  unpack_return (mkGxFixedUserLocationInfo
      ssid bssid logical_access_id physical_access_id).

Definition unpackGxDefaultQosInformation : unpacker GxDefaultQosInformation :=
  let! presence := UNPACK_PRESENCE 4 in
  let! qos_class_identifier := UNPACK_BASIC int32_t (bit 0 presence) in
  let! max_requested_bandwidth_ul := UNPACK_BASIC uint32_t (bit 1 presence) in
  let! max_requested_bandwidth_dl := UNPACK_BASIC uint32_t (bit 2 presence) in
  let! default_qos_name := UNPACK_OCTETSTRING (bit 3 presence) in
  unpack_return (mkGxDefaultQosInformation
      qos_class_identifier max_requested_bandwidth_ul max_requested_bandwidth_dl
      default_qos_name).

Definition unpackGxAllocationRetentionPriority : unpacker GxAllocationRetentionPriority :=
  let! presence := UNPACK_PRESENCE 3 in
  let! priority_level := UNPACK_BASIC uint32_t (bit 0 presence) in
  let! pre_emption_capability := UNPACK_BASIC int32_t (bit 1 presence) in
  let! pre_emption_vulnerability := UNPACK_BASIC int32_t (bit 2 presence) in
  unpack_return (mkGxAllocationRetentionPriority
      priority_level pre_emption_capability pre_emption_vulnerability).

Definition unpackGxDefaultEpsBearerQos : unpacker GxDefaultEpsBearerQos :=
  let! presence := UNPACK_PRESENCE 2 in
  let! qos_class_identifier := UNPACK_BASIC int32_t (bit 0 presence) in
  let! allocation_retention_priority := UNPACK_STRUCT unpackGxAllocationRetentionPriority (bit 1 presence) in
  unpack_return (mkGxDefaultEpsBearerQos
      qos_class_identifier allocation_retention_priority).

Definition unpackGxConditionalApnAggregateMaxBitrate : unpacker GxConditionalApnAggregateMaxBitrate :=
  let! presence := UNPACK_PRESENCE 6 in
  let! apn_aggregate_max_bitrate_ul := UNPACK_BASIC uint32_t (bit 0 presence) in
  let! apn_aggregate_max_bitrate_dl := UNPACK_BASIC uint32_t (bit 1 presence) in
  let! extended_apn_ambr_ul := UNPACK_BASIC uint32_t (bit 2 presence) in
  let! extended_apn_ambr_dl := UNPACK_BASIC uint32_t (bit 3 presence) in
  let! ip_can_type := UNPACK_LIST_BASIC int32_t (bit 4 presence) in
  let! rat_type := UNPACK_LIST_BASIC int32_t (bit 5 presence) in
  unpack_return (mkGxConditionalApnAggregateMaxBitrate
      apn_aggregate_max_bitrate_ul apn_aggregate_max_bitrate_dl extended_apn_ambr_ul
      extended_apn_ambr_dl ip_can_type rat_type).

Definition unpackGxQosInformation : unpacker GxQosInformation :=
  let! presence := UNPACK_PRESENCE 16 in
  let! qos_class_identifier := UNPACK_BASIC int32_t (bit 0 presence) in
  let! max_requested_bandwidth_ul := UNPACK_BASIC uint32_t (bit 1 presence) in
  let! max_requested_bandwidth_dl := UNPACK_BASIC uint32_t (bit 2 presence) in
  let! extended_max_requested_bw_ul := UNPACK_BASIC uint32_t (bit 3 presence) in
  let! extended_max_requested_bw_dl := UNPACK_BASIC uint32_t (bit 4 presence) in
  let! guaranteed_bitrate_ul := UNPACK_BASIC uint32_t (bit 5 presence) in
  let! guaranteed_bitrate_dl := UNPACK_BASIC uint32_t (bit 6 presence) in
  let! extended_gbr_ul := UNPACK_BASIC uint32_t (bit 7 presence) in
  let! extended_gbr_dl := UNPACK_BASIC uint32_t (bit 8 presence) in
  let! bearer_identifier := UNPACK_OCTETSTRING (bit 9 presence) in
  let! allocation_retention_priority := UNPACK_STRUCT unpackGxAllocationRetentionPriority (bit 10 presence) in
  let! apn_aggregate_max_bitrate_ul := UNPACK_BASIC uint32_t (bit 11 presence) in
  let! apn_aggregate_max_bitrate_dl := UNPACK_BASIC uint32_t (bit 12 presence) in
  let! extended_apn_ambr_ul := UNPACK_BASIC uint32_t (bit 13 presence) in
  let! extended_apn_ambr_dl := UNPACK_BASIC uint32_t (bit 14 presence) in
  let! conditional_apn_aggregate_max_bitrate := UNPACK_LIST_STRUCT "GxConditionalApnAggregateMaxBitrate" unpackGxConditionalApnAggregateMaxBitrate (bit 15 presence) in
  unpack_return (mkGxQosInformation
      qos_class_identifier max_requested_bandwidth_ul max_requested_bandwidth_dl
      extended_max_requested_bw_ul extended_max_requested_bw_dl guaranteed_bitrate_ul
      guaranteed_bitrate_dl extended_gbr_ul extended_gbr_dl bearer_identifier
      allocation_retention_priority apn_aggregate_max_bitrate_ul apn_aggregate_max_bitrate_dl
      extended_apn_ambr_ul extended_apn_ambr_dl conditional_apn_aggregate_max_bitrate).

Definition unpackGxUserEquipmentInfo : unpacker GxUserEquipmentInfo :=
  let! presence := UNPACK_PRESENCE 2 in
  let! user_equipment_info_type := UNPACK_BASIC int32_t (bit 0 presence) in
  let! user_equipment_info_value := UNPACK_OCTETSTRING (bit 1 presence) in
  unpack_return (mkGxUserEquipmentInfo
      user_equipment_info_type user_equipment_info_value).

Definition unpackGxPacketFilterInformation : unpacker GxPacketFilterInformation :=
  let! presence := UNPACK_PRESENCE 7 in
  let! packet_filter_identifier := UNPACK_OCTETSTRING (bit 0 presence) in
  let! precedence := UNPACK_BASIC uint32_t (bit 1 presence) in
  let! packet_filter_content := UNPACK_OCTETSTRING (bit 2 presence) in
  let! tos_traffic_class := UNPACK_OCTETSTRING (bit 3 presence) in
  let! security_parameter_index := UNPACK_OCTETSTRING (bit 4 presence) in
  let! flow_label := UNPACK_OCTETSTRING (bit 5 presence) in
  let! flow_direction := UNPACK_BASIC int32_t (bit 6 presence) in
  unpack_return (mkGxPacketFilterInformation
      packet_filter_identifier precedence packet_filter_content tos_traffic_class
      security_parameter_index flow_label flow_direction).

Definition unpackGxTdfInformation : unpacker GxTdfInformation :=
  let! presence := UNPACK_PRESENCE 3 in
  let! tdf_destination_realm := UNPACK_OCTETSTRING (bit 0 presence) in
  let! tdf_destination_host := UNPACK_OCTETSTRING (bit 1 presence) in
  let! tdf_ip_address := UNPACK_BASIC FdAddress (bit 2 presence) in
  unpack_return (mkGxTdfInformation
      tdf_destination_realm tdf_destination_host tdf_ip_address).

Definition unpackGxSupportedFeatures : unpacker GxSupportedFeatures :=
  let! presence := UNPACK_PRESENCE 3 in
  let! vendor_id := UNPACK_BASIC uint32_t (bit 0 presence) in
  let! feature_list_id := UNPACK_BASIC uint32_t (bit 1 presence) in
  let! feature_list := UNPACK_BASIC uint32_t (bit 2 presence) in
  unpack_return (mkGxSupportedFeatures
      vendor_id feature_list_id feature_list).

Definition unpackGxOcSupportedFeatures : unpacker GxOcSupportedFeatures :=
  let! presence := UNPACK_PRESENCE 1 in
  let! oc_feature_vector := UNPACK_BASIC uint64_t (bit 0 presence) in
  unpack_return (mkGxOcSupportedFeatures
      oc_feature_vector).

Definition unpackGxSubscriptionId : unpacker GxSubscriptionId :=
  let! presence := UNPACK_PRESENCE 2 in
  let! subscription_id_type := UNPACK_BASIC int32_t (bit 0 presence) in
  let! subscription_id_data := UNPACK_OCTETSTRING (bit 1 presence) in
  unpack_return (mkGxSubscriptionId
      subscription_id_type subscription_id_data).

Definition gx_ccr_unpack (buf : list byte) : res (bool * GxCCR) :=
  message_unpack (
    let! presence := UNPACK_PRESENCE 86 in
    let! session_id := UNPACK_OCTETSTRING (bit 0 presence) in
    let! drmp := UNPACK_BASIC int32_t (bit 1 presence) in
    let! auth_application_id := UNPACK_BASIC uint32_t (bit 2 presence) in
    let! origin_host := UNPACK_OCTETSTRING (bit 3 presence) in
    let! origin_realm := UNPACK_OCTETSTRING (bit 4 presence) in
    let! destination_realm := UNPACK_OCTETSTRING (bit 5 presence) in
    let! service_context_id := UNPACK_OCTETSTRING (bit 6 presence) in
    let! cc_request_type := UNPACK_BASIC int32_t (bit 7 presence) in
    let! cc_request_number := UNPACK_BASIC uint32_t (bit 8 presence) in
    let! credit_management_status := UNPACK_BASIC uint32_t (bit 9 presence) in
    let! destination_host := UNPACK_OCTETSTRING (bit 10 presence) in
    let! origin_state_id := UNPACK_BASIC uint32_t (bit 11 presence) in
    let! subscription_id := UNPACK_LIST_STRUCT "GxSubscriptionId" unpackGxSubscriptionId (bit 12 presence) in
    let! oc_supported_features := UNPACK_STRUCT unpackGxOcSupportedFeatures (bit 13 presence) in
    let! supported_features := UNPACK_LIST_STRUCT "GxSupportedFeatures" unpackGxSupportedFeatures (bit 14 presence) in
    let! tdf_information := UNPACK_STRUCT unpackGxTdfInformation (bit 15 presence) in
    let! network_request_support := UNPACK_BASIC int32_t (bit 16 presence) in
    let! packet_filter_information := UNPACK_LIST_STRUCT "GxPacketFilterInformation" unpackGxPacketFilterInformation (bit 17 presence) in
    let! packet_filter_operation := UNPACK_BASIC int32_t (bit 18 presence) in
    let! bearer_identifier := UNPACK_OCTETSTRING (bit 19 presence) in
    let! bearer_operation := UNPACK_BASIC int32_t (bit 20 presence) in
    let! dynamic_address_flag := UNPACK_BASIC int32_t (bit 21 presence) in
    let! dynamic_address_flag_extension := UNPACK_BASIC int32_t (bit 22 presence) in
    let! pdn_connection_charging_id := UNPACK_BASIC uint32_t (bit 23 presence) in
    let! framed_ip_address := UNPACK_OCTETSTRING (bit 24 presence) in
    let! framed_ipv6_prefix := UNPACK_OCTETSTRING (bit 25 presence) in
    let! ip_can_type := UNPACK_BASIC int32_t (bit 26 presence) in
    let! tgpp_rat_type := UNPACK_OCTETSTRING (bit 27 presence) in
    let! an_trusted := UNPACK_BASIC int32_t (bit 28 presence) in
    let! rat_type := UNPACK_BASIC int32_t (bit 29 presence) in
    let! termination_cause := UNPACK_BASIC int32_t (bit 30 presence) in
    let! user_equipment_info := UNPACK_STRUCT unpackGxUserEquipmentInfo (bit 31 presence) in
    let! qos_information := UNPACK_STRUCT unpackGxQosInformation (bit 32 presence) in
    let! qos_negotiation := UNPACK_BASIC int32_t (bit 33 presence) in
    let! qos_upgrade := UNPACK_BASIC int32_t (bit 34 presence) in
    let! default_eps_bearer_qos := UNPACK_STRUCT unpackGxDefaultEpsBearerQos (bit 35 presence) in
    let! default_qos_information := UNPACK_STRUCT unpackGxDefaultQosInformation (bit 36 presence) in
    let! an_gw_address := UNPACK_LIST_BASIC FdAddress (bit 37 presence) in
    let! an_gw_status := UNPACK_BASIC int32_t (bit 38 presence) in
    let! tgpp_sgsn_mcc_mnc := UNPACK_OCTETSTRING (bit 39 presence) in
    let! tgpp_sgsn_address := UNPACK_OCTETSTRING (bit 40 presence) in
    let! tgpp_sgsn_ipv6_address := UNPACK_OCTETSTRING (bit 41 presence) in
    let! tgpp_ggsn_address := UNPACK_OCTETSTRING (bit 42 presence) in
    let! tgpp_ggsn_ipv6_address := UNPACK_OCTETSTRING (bit 43 presence) in
    let! tgpp_selection_mode := UNPACK_OCTETSTRING (bit 44 presence) in
    let! rai := UNPACK_OCTETSTRING (bit 45 presence) in
    let! tgpp_user_location_info := UNPACK_OCTETSTRING (bit 46 presence) in
    let! fixed_user_location_info := UNPACK_STRUCT unpackGxFixedUserLocationInfo (bit 47 presence) in
    let! user_location_info_time := UNPACK_BASIC FdTime (bit 48 presence) in
    let! user_csg_information := UNPACK_STRUCT unpackGxUserCsgInformation (bit 49 presence) in
    let! twan_identifier := UNPACK_OCTETSTRING (bit 50 presence) in
    let! tgpp_ms_timezone := UNPACK_OCTETSTRING (bit 51 presence) in
    let! ran_nas_release_cause := UNPACK_LIST_OCTETSTRING "GxRanNasReleaseCauseOctetString" (bit 52 presence) in
    let! tgpp_charging_characteristics := UNPACK_OCTETSTRING (bit 53 presence) in
    let! called_station_id := UNPACK_OCTETSTRING (bit 54 presence) in
    let! pdn_connection_id := UNPACK_OCTETSTRING (bit 55 presence) in
    let! bearer_usage := UNPACK_BASIC int32_t (bit 56 presence) in
    let! online := UNPACK_BASIC int32_t (bit 57 presence) in
    let! offline := UNPACK_BASIC int32_t (bit 58 presence) in
    let! tft_packet_filter_information := UNPACK_LIST_STRUCT "GxTftPacketFilterInformation" unpackGxTftPacketFilterInformation (bit 59 presence) in
    let! charging_rule_report := UNPACK_LIST_STRUCT "GxChargingRuleReport" unpackGxChargingRuleReport (bit 60 presence) in
    let! application_detection_information := UNPACK_LIST_STRUCT "GxApplicationDetectionInformation" unpackGxApplicationDetectionInformation (bit 61 presence) in
    let! event_trigger := UNPACK_LIST_BASIC int32_t (bit 62 presence) in
    let! event_report_indication := UNPACK_STRUCT unpackGxEventReportIndication (bit 63 presence) in
    let! access_network_charging_address := UNPACK_BASIC FdAddress (bit 64 presence) in
    let! access_network_charging_identifier_gx := UNPACK_LIST_STRUCT "GxAccessNetworkChargingIdentifierGx" unpackGxAccessNetworkChargingIdentifierGx (bit 65 presence) in
    let! coa_information := UNPACK_LIST_STRUCT "GxCoaInformation" unpackGxCoaInformation (bit 66 presence) in
    let! usage_monitoring_information := UNPACK_LIST_STRUCT "GxUsageMonitoringInformation" unpackGxUsageMonitoringInformation (bit 67 presence) in
    let! nbifom_support := UNPACK_BASIC int32_t (bit 68 presence) in
    let! nbifom_mode := UNPACK_BASIC int32_t (bit 69 presence) in
    let! default_access := UNPACK_BASIC int32_t (bit 70 presence) in
    let! origination_time_stamp := UNPACK_BASIC uint64_t (bit 71 presence) in
    let! maximum_wait_time := UNPACK_BASIC uint32_t (bit 72 presence) in
    let! access_availability_change_reason := UNPACK_BASIC uint32_t (bit 73 presence) in
    let! routing_rule_install := UNPACK_STRUCT unpackGxRoutingRuleInstall (bit 74 presence) in
    let! routing_rule_remove := UNPACK_STRUCT unpackGxRoutingRuleRemove (bit 75 presence) in
    let! henb_local_ip_address := UNPACK_BASIC FdAddress (bit 76 presence) in
    let! ue_local_ip_address := UNPACK_BASIC FdAddress (bit 77 presence) in
    let! udp_source_port := UNPACK_BASIC uint32_t (bit 78 presence) in
    let! tcp_source_port := UNPACK_BASIC uint32_t (bit 79 presence) in
    let! presence_reporting_area_information := UNPACK_LIST_STRUCT "GxPresenceReportingAreaInformation" unpackGxPresenceReportingAreaInformation (bit 80 presence) in
    let! logical_access_id := UNPACK_OCTETSTRING (bit 81 presence) in
    let! physical_access_id := UNPACK_OCTETSTRING (bit 82 presence) in
    let! proxy_info := UNPACK_LIST_STRUCT "GxProxyInfo" unpackGxProxyInfo (bit 83 presence) in
    let! route_record := UNPACK_LIST_OCTETSTRING "GxRouteRecordOctetString" (bit 84 presence) in
    let! tgpp_ps_data_off_status := UNPACK_BASIC int32_t (bit 85 presence) in
    unpack_skip (mkGxCCR
      session_id drmp auth_application_id origin_host origin_realm destination_realm
      service_context_id cc_request_type cc_request_number credit_management_status
      destination_host origin_state_id subscription_id oc_supported_features supported_features
      tdf_information network_request_support packet_filter_information packet_filter_operation
      bearer_identifier bearer_operation dynamic_address_flag dynamic_address_flag_extension
      pdn_connection_charging_id framed_ip_address framed_ipv6_prefix ip_can_type tgpp_rat_type
      an_trusted rat_type termination_cause user_equipment_info qos_information qos_negotiation
      qos_upgrade default_eps_bearer_qos default_qos_information an_gw_address an_gw_status
      tgpp_sgsn_mcc_mnc tgpp_sgsn_address tgpp_sgsn_ipv6_address tgpp_ggsn_address
      tgpp_ggsn_ipv6_address tgpp_selection_mode rai tgpp_user_location_info
      fixed_user_location_info user_location_info_time user_csg_information twan_identifier
      tgpp_ms_timezone ran_nas_release_cause tgpp_charging_characteristics called_station_id
      pdn_connection_id bearer_usage online offline tft_packet_filter_information
      charging_rule_report application_detection_information event_trigger
      event_report_indication access_network_charging_address
      access_network_charging_identifier_gx coa_information usage_monitoring_information
      nbifom_support nbifom_mode default_access origination_time_stamp maximum_wait_time
      access_availability_change_reason routing_rule_install routing_rule_remove
      henb_local_ip_address ue_local_ip_address udp_source_port tcp_source_port
      presence_reporting_area_information logical_access_id physical_access_id proxy_info
      route_record tgpp_ps_data_off_status)) buf.

Definition unpackGxLoad : unpacker GxLoad :=
  let! presence := UNPACK_PRESENCE 3 in
  let! load_type := UNPACK_BASIC int32_t (bit 0 presence) in
  let! load_value := UNPACK_BASIC uint64_t (bit 1 presence) in
  let! sourceid := UNPACK_OCTETSTRING (bit 2 presence) in
  unpack_return (mkGxLoad
      load_type load_value sourceid).

Definition unpackGxFailedAvp : unpacker GxFailedAvp :=
  let! presence := UNPACK_PRESENCE 0 in
  unpack_return (mkGxFailedAvp
      ).

Definition unpackGxConditionalPolicyInformation : unpacker GxConditionalPolicyInformation :=
  let! presence := UNPACK_PRESENCE 7 in
  let! execution_time := UNPACK_BASIC FdTime (bit 0 presence) in
  let! default_eps_bearer_qos := UNPACK_STRUCT unpackGxDefaultEpsBearerQos (bit 1 presence) in
  let! apn_aggregate_max_bitrate_ul := UNPACK_BASIC uint32_t (bit 2 presence) in
  let! apn_aggregate_max_bitrate_dl := UNPACK_BASIC uint32_t (bit 3 presence) in
  let! extended_apn_ambr_ul := UNPACK_BASIC uint32_t (bit 4 presence) in
  let! extended_apn_ambr_dl := UNPACK_BASIC uint32_t (bit 5 presence) in
  let! conditional_apn_aggregate_max_bitrate := UNPACK_LIST_STRUCT "GxConditionalApnAggregateMaxBitrate" unpackGxConditionalApnAggregateMaxBitrate (bit 6 presence) in
  unpack_return (mkGxConditionalPolicyInformation
      execution_time default_eps_bearer_qos apn_aggregate_max_bitrate_ul
      apn_aggregate_max_bitrate_dl extended_apn_ambr_ul extended_apn_ambr_dl
      conditional_apn_aggregate_max_bitrate).

Definition unpackGxRoutingRuleReport : unpacker GxRoutingRuleReport :=
  let! presence := UNPACK_PRESENCE 3 in
  let! routing_rule_identifier := UNPACK_LIST_OCTETSTRING "GxRoutingRuleIdentifierOctetString" (bit 0 presence) in
  let! pcc_rule_status := UNPACK_BASIC int32_t (bit 1 presence) in
  let! routing_rule_failure_code := UNPACK_BASIC uint32_t (bit 2 presence) in
  unpack_return (mkGxRoutingRuleReport
      routing_rule_identifier pcc_rule_status routing_rule_failure_code).

Definition unpackGxPraRemove : unpacker GxPraRemove :=
  let! presence := UNPACK_PRESENCE 1 in
  let! presence_reporting_area_identifier := UNPACK_LIST_OCTETSTRING "GxPresenceReportingAreaIdentifierOctetString" (bit 0 presence) in
  unpack_return (mkGxPraRemove
      presence_reporting_area_identifier).

Definition unpackGxPraInstall : unpacker GxPraInstall :=
  let! presence := UNPACK_PRESENCE 1 in
  let! presence_reporting_area_information := UNPACK_LIST_STRUCT "GxPresenceReportingAreaInformation" unpackGxPresenceReportingAreaInformation (bit 0 presence) in
  unpack_return (mkGxPraInstall
      presence_reporting_area_information).

Definition unpackGxChargingInformation : unpacker GxChargingInformation :=
  let! presence := UNPACK_PRESENCE 4 in
  let! primary_event_charging_function_name := UNPACK_OCTETSTRING (bit 0 presence) in
  let! secondary_event_charging_function_name := UNPACK_OCTETSTRING (bit 1 presence) in
  let! primary_charging_collection_function_name := UNPACK_OCTETSTRING (bit 2 presence) in
  let! secondary_charging_collection_function_name := UNPACK_OCTETSTRING (bit 3 presence) in
  unpack_return (mkGxChargingInformation
      primary_event_charging_function_name secondary_event_charging_function_name
      primary_charging_collection_function_name secondary_charging_collection_function_name).

Definition unpackGxRedirectInformation : unpacker GxRedirectInformation :=
  let! presence := UNPACK_PRESENCE 3 in
  let! redirect_support := UNPACK_BASIC int32_t (bit 0 presence) in
  let! redirect_address_type := UNPACK_BASIC int32_t (bit 1 presence) in
  let! redirect_server_address := UNPACK_OCTETSTRING (bit 2 presence) in
  unpack_return (mkGxRedirectInformation
      redirect_support redirect_address_type redirect_server_address).

Definition unpackGxFlows : unpacker GxFlows :=
  let! presence := UNPACK_PRESENCE 5 in
  let! media_component_number := UNPACK_BASIC uint32_t (bit 0 presence) in
  let! flow_number := UNPACK_LIST_BASIC uint32_t (bit 1 presence) in
  let! content_version := UNPACK_LIST_BASIC uint64_t (bit 2 presence) in
  let! final_unit_action := UNPACK_BASIC int32_t (bit 3 presence) in
  let! media_component_status := UNPACK_BASIC uint32_t (bit 4 presence) in
  unpack_return (mkGxFlows
      media_component_number flow_number content_version final_unit_action
      media_component_status).

Definition unpackGxChargingRuleDefinition : unpacker GxChargingRuleDefinition :=
  let! presence := UNPACK_PRESENCE 30 in
  let! charging_rule_name := UNPACK_OCTETSTRING (bit 0 presence) in
  let! service_identifier := UNPACK_BASIC uint32_t (bit 1 presence) in
  let! rating_group := UNPACK_BASIC uint32_t (bit 2 presence) in
  let! flow_information := UNPACK_LIST_STRUCT "GxFlowInformation" unpackGxFlowInformation (bit 3 presence) in
  let! default_bearer_indication := UNPACK_BASIC int32_t (bit 4 presence) in
  let! tdf_application_identifier := UNPACK_OCTETSTRING (bit 5 presence) in
  let! flow_status := UNPACK_BASIC int32_t (bit 6 presence) in
  let! qos_information := UNPACK_STRUCT unpackGxQosInformation (bit 7 presence) in
  let! ps_to_cs_session_continuity := UNPACK_BASIC int32_t (bit 8 presence) in
  let! reporting_level := UNPACK_BASIC int32_t (bit 9 presence) in
  let! online := UNPACK_BASIC int32_t (bit 10 presence) in
  let! offline := UNPACK_BASIC int32_t (bit 11 presence) in
  let! max_plr_dl := UNPACK_BASIC float (bit 12 presence) in
  let! max_plr_ul := UNPACK_BASIC float (bit 13 presence) in
  let! metering_method := UNPACK_BASIC int32_t (bit 14 presence) in
  let! precedence := UNPACK_BASIC uint32_t (bit 15 presence) in
  let! af_charging_identifier := UNPACK_OCTETSTRING (bit 16 presence) in
  let! flows := UNPACK_LIST_STRUCT "GxFlows" unpackGxFlows (bit 17 presence) in
  let! monitoring_key := UNPACK_OCTETSTRING (bit 18 presence) in
  let! redirect_information := UNPACK_STRUCT unpackGxRedirectInformation (bit 19 presence) in
  let! mute_notification := UNPACK_BASIC int32_t (bit 20 presence) in
  let! af_signalling_protocol := UNPACK_BASIC int32_t (bit 21 presence) in
  let! sponsor_identity := UNPACK_OCTETSTRING (bit 22 presence) in
  let! application_service_provider_identity := UNPACK_OCTETSTRING (bit 23 presence) in
  let! required_access_info := UNPACK_LIST_BASIC int32_t (bit 24 presence) in
  let! sharing_key_dl := UNPACK_BASIC uint32_t (bit 25 presence) in
  let! sharing_key_ul := UNPACK_BASIC uint32_t (bit 26 presence) in
  let! traffic_steering_policy_identifier_dl := UNPACK_OCTETSTRING (bit 27 presence) in
  let! traffic_steering_policy_identifier_ul := UNPACK_OCTETSTRING (bit 28 presence) in
  let! content_version := UNPACK_BASIC uint64_t (bit 29 presence) in
  unpack_return (mkGxChargingRuleDefinition
      charging_rule_name service_identifier rating_group flow_information
      default_bearer_indication tdf_application_identifier flow_status qos_information
      ps_to_cs_session_continuity reporting_level online offline max_plr_dl max_plr_ul
      metering_method precedence af_charging_identifier flows monitoring_key
      redirect_information mute_notification af_signalling_protocol sponsor_identity
      application_service_provider_identity required_access_info sharing_key_dl sharing_key_ul
      traffic_steering_policy_identifier_dl traffic_steering_policy_identifier_ul
      content_version).

Definition unpackGxChargingRuleInstall : unpacker GxChargingRuleInstall :=
  let! presence := UNPACK_PRESENCE 10 in
  let! charging_rule_definition := UNPACK_LIST_STRUCT "GxChargingRuleDefinition" unpackGxChargingRuleDefinition (bit 0 presence) in
  let! charging_rule_name := UNPACK_LIST_OCTETSTRING "GxChargingRuleNameOctetString" (bit 1 presence) in
  let! charging_rule_base_name := UNPACK_LIST_OCTETSTRING "GxChargingRuleBaseNameOctetString" (bit 2 presence) in
  let! bearer_identifier := UNPACK_OCTETSTRING (bit 3 presence) in
  let! monitoring_flags := UNPACK_BASIC uint32_t (bit 4 presence) in
  let! rule_activation_time := UNPACK_BASIC FdTime (bit 5 presence) in
  let! rule_deactivation_time := UNPACK_BASIC FdTime (bit 6 presence) in
  let! resource_allocation_notification := UNPACK_BASIC int32_t (bit 7 presence) in
  let! charging_correlation_indicator := UNPACK_BASIC int32_t (bit 8 presence) in
  let! ip_can_type := UNPACK_BASIC int32_t (bit 9 presence) in
  unpack_return (mkGxChargingRuleInstall
      charging_rule_definition charging_rule_name charging_rule_base_name bearer_identifier
      monitoring_flags rule_activation_time rule_deactivation_time
      resource_allocation_notification charging_correlation_indicator ip_can_type).

Definition unpackGxChargingRuleRemove : unpacker GxChargingRuleRemove :=
  let! presence := UNPACK_PRESENCE 4 in
  let! charging_rule_name := UNPACK_LIST_OCTETSTRING "GxChargingRuleNameOctetString" (bit 0 presence) in
  let! charging_rule_base_name := UNPACK_LIST_OCTETSTRING "GxChargingRuleBaseNameOctetString" (bit 1 presence) in
  let! required_access_info := UNPACK_LIST_BASIC int32_t (bit 2 presence) in
  let! resource_release_notification := UNPACK_BASIC int32_t (bit 3 presence) in
  unpack_return (mkGxChargingRuleRemove
      charging_rule_name charging_rule_base_name required_access_info
      resource_release_notification).

Definition unpackGxOcOlr : unpacker GxOcOlr :=
  let! presence := UNPACK_PRESENCE 4 in
  let! oc_sequence_number := UNPACK_BASIC uint64_t (bit 0 presence) in
  let! oc_report_type := UNPACK_BASIC int32_t (bit 1 presence) in
  let! oc_reduction_percentage := UNPACK_BASIC uint32_t (bit 2 presence) in
  let! oc_validity_duration := UNPACK_BASIC uint32_t (bit 3 presence) in
  unpack_return (mkGxOcOlr
      oc_sequence_number oc_report_type oc_reduction_percentage oc_validity_duration).

Definition unpackGxExperimentalResult : unpacker GxExperimentalResult :=
  let! presence := UNPACK_PRESENCE 2 in
  let! vendor_id := UNPACK_BASIC uint32_t (bit 0 presence) in
  let! experimental_result_code := UNPACK_BASIC uint32_t (bit 1 presence) in
  unpack_return (mkGxExperimentalResult
      vendor_id experimental_result_code).

Definition gx_cca_unpack (buf : list byte) : res (bool * GxCCA) :=
  message_unpack (
    let! presence := UNPACK_PRESENCE 50 in
    let! session_id := UNPACK_OCTETSTRING (bit 0 presence) in
    let! drmp := UNPACK_BASIC int32_t (bit 1 presence) in
    let! auth_application_id := UNPACK_BASIC uint32_t (bit 2 presence) in
    let! origin_host := UNPACK_OCTETSTRING (bit 3 presence) in
    let! origin_realm := UNPACK_OCTETSTRING (bit 4 presence) in
    let! result_code := UNPACK_BASIC uint32_t (bit 5 presence) in
    let! experimental_result := UNPACK_STRUCT unpackGxExperimentalResult (bit 6 presence) in
    let! cc_request_type := UNPACK_BASIC int32_t (bit 7 presence) in
    let! cc_request_number := UNPACK_BASIC uint32_t (bit 8 presence) in
    let! oc_supported_features := UNPACK_STRUCT unpackGxOcSupportedFeatures (bit 9 presence) in
    let! oc_olr := UNPACK_STRUCT unpackGxOcOlr (bit 10 presence) in
    let! supported_features := UNPACK_LIST_STRUCT "GxSupportedFeatures" unpackGxSupportedFeatures (bit 11 presence) in
    let! bearer_control_mode := UNPACK_BASIC int32_t (bit 12 presence) in
    let! event_trigger := UNPACK_LIST_BASIC int32_t (bit 13 presence) in
    let! event_report_indication := UNPACK_STRUCT unpackGxEventReportIndication (bit 14 presence) in
    let! origin_state_id := UNPACK_BASIC uint32_t (bit 15 presence) in
    let! redirect_host := UNPACK_LIST_OCTETSTRING "GxRedirectHostOctetString" (bit 16 presence) in
    let! redirect_host_usage := UNPACK_BASIC int32_t (bit 17 presence) in
    let! redirect_max_cache_time := UNPACK_BASIC uint32_t (bit 18 presence) in
    let! charging_rule_remove := UNPACK_LIST_STRUCT "GxChargingRuleRemove" unpackGxChargingRuleRemove (bit 19 presence) in
    let! charging_rule_install := UNPACK_LIST_STRUCT "GxChargingRuleInstall" unpackGxChargingRuleInstall (bit 20 presence) in
    let! charging_information := UNPACK_STRUCT unpackGxChargingInformation (bit 21 presence) in
    let! online := UNPACK_BASIC int32_t (bit 22 presence) in
    let! offline := UNPACK_BASIC int32_t (bit 23 presence) in
    let! qos_information := UNPACK_LIST_STRUCT "GxQosInformation" unpackGxQosInformation (bit 24 presence) in
    let! revalidation_time := UNPACK_BASIC FdTime (bit 25 presence) in
    let! default_eps_bearer_qos := UNPACK_STRUCT unpackGxDefaultEpsBearerQos (bit 26 presence) in
    let! default_qos_information := UNPACK_STRUCT unpackGxDefaultQosInformation (bit 27 presence) in
    let! bearer_usage := UNPACK_BASIC int32_t (bit 28 presence) in
    let! usage_monitoring_information := UNPACK_LIST_STRUCT "GxUsageMonitoringInformation" unpackGxUsageMonitoringInformation (bit 29 presence) in
    let! csg_information_reporting := UNPACK_LIST_BASIC int32_t (bit 30 presence) in
    let! user_csg_information := UNPACK_STRUCT unpackGxUserCsgInformation (bit 31 presence) in
    let! pra_install := UNPACK_STRUCT unpackGxPraInstall (bit 32 presence) in
    let! pra_remove := UNPACK_STRUCT unpackGxPraRemove (bit 33 presence) in
    let! presence_reporting_area_information := UNPACK_STRUCT unpackGxPresenceReportingAreaInformation (bit 34 presence) in
    let! session_release_cause := UNPACK_BASIC int32_t (bit 35 presence) in
    let! nbifom_support := UNPACK_BASIC int32_t (bit 36 presence) in
    let! nbifom_mode := UNPACK_BASIC int32_t (bit 37 presence) in
    let! default_access := UNPACK_BASIC int32_t (bit 38 presence) in
    let! ran_rule_support := UNPACK_BASIC uint32_t (bit 39 presence) in
    let! routing_rule_report := UNPACK_LIST_STRUCT "GxRoutingRuleReport" unpackGxRoutingRuleReport (bit 40 presence) in
    let! conditional_policy_information := UNPACK_LIST_STRUCT "GxConditionalPolicyInformation" unpackGxConditionalPolicyInformation (bit 41 presence) in
    let! removal_of_access := UNPACK_BASIC int32_t (bit 42 presence) in
    let! ip_can_type := UNPACK_BASIC int32_t (bit 43 presence) in
    let! error_message := UNPACK_OCTETSTRING (bit 44 presence) in
    let! error_reporting_host := UNPACK_OCTETSTRING (bit 45 presence) in
    let! failed_avp := UNPACK_STRUCT unpackGxFailedAvp (bit 46 presence) in
    let! proxy_info := UNPACK_LIST_STRUCT "GxProxyInfo" unpackGxProxyInfo (bit 47 presence) in
    let! route_record := UNPACK_LIST_OCTETSTRING "GxRouteRecordOctetString" (bit 48 presence) in
    let! load := UNPACK_LIST_STRUCT "GxLoad" unpackGxLoad (bit 49 presence) in
    unpack_skip (mkGxCCA
      session_id drmp auth_application_id origin_host origin_realm result_code
      experimental_result cc_request_type cc_request_number oc_supported_features oc_olr
      supported_features bearer_control_mode event_trigger event_report_indication
      origin_state_id redirect_host redirect_host_usage redirect_max_cache_time
      charging_rule_remove charging_rule_install charging_information online offline
      qos_information revalidation_time default_eps_bearer_qos default_qos_information
      bearer_usage usage_monitoring_information csg_information_reporting user_csg_information
      pra_install pra_remove presence_reporting_area_information session_release_cause
      nbifom_support nbifom_mode default_access ran_rule_support routing_rule_report
      conditional_policy_information removal_of_access ip_can_type error_message
      error_reporting_host failed_avp proxy_info route_record load)) buf.

Definition gx_raa_unpack (buf : list byte) : res (bool * GxRAA) :=
  message_unpack (
    let! presence := UNPACK_PRESENCE 28 in
    let! session_id := UNPACK_OCTETSTRING (bit 0 presence) in
    let! drmp := UNPACK_BASIC int32_t (bit 1 presence) in
    let! origin_host := UNPACK_OCTETSTRING (bit 2 presence) in
    let! origin_realm := UNPACK_OCTETSTRING (bit 3 presence) in
    let! result_code := UNPACK_BASIC uint32_t (bit 4 presence) in
    let! experimental_result := UNPACK_STRUCT unpackGxExperimentalResult (bit 5 presence) in
    let! origin_state_id := UNPACK_BASIC uint32_t (bit 6 presence) in
    let! oc_supported_features := UNPACK_STRUCT unpackGxOcSupportedFeatures (bit 7 presence) in
    let! oc_olr := UNPACK_STRUCT unpackGxOcOlr (bit 8 presence) in
    let! ip_can_type := UNPACK_BASIC int32_t (bit 9 presence) in
    let! rat_type := UNPACK_BASIC int32_t (bit 10 presence) in
    let! an_trusted := UNPACK_BASIC int32_t (bit 11 presence) in
    let! an_gw_address := UNPACK_LIST_BASIC FdAddress (bit 12 presence) in
    let! tgpp_sgsn_mcc_mnc := UNPACK_OCTETSTRING (bit 13 presence) in
    let! tgpp_sgsn_address := UNPACK_OCTETSTRING (bit 14 presence) in
    let! tgpp_sgsn_ipv6_address := UNPACK_OCTETSTRING (bit 15 presence) in
    let! rai := UNPACK_OCTETSTRING (bit 16 presence) in
    let! tgpp_user_location_info := UNPACK_OCTETSTRING (bit 17 presence) in
    let! user_location_info_time := UNPACK_BASIC FdTime (bit 18 presence) in
    let! netloc_access_support := UNPACK_BASIC uint32_t (bit 19 presence) in
    let! user_csg_information := UNPACK_STRUCT unpackGxUserCsgInformation (bit 20 presence) in
    let! tgpp_ms_timezone := UNPACK_OCTETSTRING (bit 21 presence) in
    let! default_qos_information := UNPACK_STRUCT unpackGxDefaultQosInformation (bit 22 presence) in
    let! charging_rule_report := UNPACK_LIST_STRUCT "GxChargingRuleReport" unpackGxChargingRuleReport (bit 23 presence) in
    let! error_message := UNPACK_OCTETSTRING (bit 24 presence) in
    let! error_reporting_host := UNPACK_OCTETSTRING (bit 25 presence) in
    let! failed_avp := UNPACK_STRUCT unpackGxFailedAvp (bit 26 presence) in
    let! proxy_info := UNPACK_LIST_STRUCT "GxProxyInfo" unpackGxProxyInfo (bit 27 presence) in
    unpack_skip (mkGxRAA
      session_id drmp origin_host origin_realm result_code experimental_result origin_state_id
      oc_supported_features oc_olr ip_can_type rat_type an_trusted an_gw_address
      tgpp_sgsn_mcc_mnc tgpp_sgsn_address tgpp_sgsn_ipv6_address rai tgpp_user_location_info
      user_location_info_time netloc_access_support user_csg_information tgpp_ms_timezone
      default_qos_information charging_rule_report error_message error_reporting_host failed_avp
      proxy_info)) buf.

Definition gx_rar_unpack (buf : list byte) : res (bool * GxRAR) :=
  message_unpack (
    let! presence := UNPACK_PRESENCE 29 in
    let! session_id := UNPACK_OCTETSTRING (bit 0 presence) in
    let! drmp := UNPACK_BASIC int32_t (bit 1 presence) in
    let! auth_application_id := UNPACK_BASIC uint32_t (bit 2 presence) in
    let! origin_host := UNPACK_OCTETSTRING (bit 3 presence) in
    let! origin_realm := UNPACK_OCTETSTRING (bit 4 presence) in
    let! destination_realm := UNPACK_OCTETSTRING (bit 5 presence) in
    let! destination_host := UNPACK_OCTETSTRING (bit 6 presence) in
    let! re_auth_request_type := UNPACK_BASIC int32_t (bit 7 presence) in
    let! session_release_cause := UNPACK_BASIC int32_t (bit 8 presence) in
    let! origin_state_id := UNPACK_BASIC uint32_t (bit 9 presence) in
    let! oc_supported_features := UNPACK_STRUCT unpackGxOcSupportedFeatures (bit 10 presence) in
    let! event_trigger := UNPACK_LIST_BASIC int32_t (bit 11 presence) in
    let! event_report_indication := UNPACK_STRUCT unpackGxEventReportIndication (bit 12 presence) in
    let! charging_rule_remove := UNPACK_LIST_STRUCT "GxChargingRuleRemove" unpackGxChargingRuleRemove (bit 13 presence) in
    let! charging_rule_install := UNPACK_LIST_STRUCT "GxChargingRuleInstall" unpackGxChargingRuleInstall (bit 14 presence) in
    let! default_eps_bearer_qos := UNPACK_STRUCT unpackGxDefaultEpsBearerQos (bit 15 presence) in
    let! qos_information := UNPACK_LIST_STRUCT "GxQosInformation" unpackGxQosInformation (bit 16 presence) in
    let! default_qos_information := UNPACK_STRUCT unpackGxDefaultQosInformation (bit 17 presence) in
    let! revalidation_time := UNPACK_BASIC FdTime (bit 18 presence) in
    let! usage_monitoring_information := UNPACK_LIST_STRUCT "GxUsageMonitoringInformation" unpackGxUsageMonitoringInformation (bit 19 presence) in
    let! pcscf_restoration_indication := UNPACK_BASIC uint32_t (bit 20 presence) in
    let! conditional_policy_information := UNPACK_LIST_STRUCT "GxConditionalPolicyInformation" unpackGxConditionalPolicyInformation (bit 21 presence) in
    let! removal_of_access := UNPACK_BASIC int32_t (bit 22 presence) in
    let! ip_can_type := UNPACK_BASIC int32_t (bit 23 presence) in
    let! pra_install := UNPACK_STRUCT unpackGxPraInstall (bit 24 presence) in
    let! pra_remove := UNPACK_STRUCT unpackGxPraRemove (bit 25 presence) in
    let! csg_information_reporting := UNPACK_LIST_BASIC int32_t (bit 26 presence) in
    let! proxy_info := UNPACK_LIST_STRUCT "GxProxyInfo" unpackGxProxyInfo (bit 27 presence) in
    let! route_record := UNPACK_LIST_OCTETSTRING "GxRouteRecordOctetString" (bit 28 presence) in
    unpack_skip (mkGxRAR
      session_id drmp auth_application_id origin_host origin_realm destination_realm
      destination_host re_auth_request_type session_release_cause origin_state_id
      oc_supported_features event_trigger event_report_indication charging_rule_remove
      charging_rule_install default_eps_bearer_qos qos_information default_qos_information
      revalidation_time usage_monitoring_information pcscf_restoration_indication
      conditional_policy_information removal_of_access ip_can_type pra_install pra_remove
      csg_information_reporting proxy_info route_record)) buf.

End Unpack.
