(* ===== verification/GxWire.v ===== *)
(** * The wire format of the Gx messages and the laws of the macros

    [wire_*] is the reference format: the bytes each kind of member occupies.
    [wf_*] says which values a member can hold: integers of their width, octet
    strings that fit their array, lists shorter than 2^31, and no empty list of
    octet strings (see [GxCodec.empty_route_record_refused]).  [codes] states what
    the three macros of one member promise each other; [fields_code] is the same
    for the sequence of macro calls of a function. *)
From S2P Require Import Prelude GxMacros.

(** ** The reference format *)

Definition wire_presence (bits : list bool) : list byte := presence_bytes bits.

Definition wire_basic {T} (t : basic T) (m : option T) : list byte :=
  match m with None => [] | Some v => obj_bytes t v end.

Definition wire_string (s : OctetString) : list byte := le_bytes 4 (Z.of_nat (length s)) ++ s.

Definition wire_octets (m : option OctetString) : list byte :=
  match m with None => [] | Some s => wire_string s end.

Definition wire_struct {A} (wire : A -> list byte) (m : option A) : list byte :=
  match m with None => [] | Some d => wire d end.

Definition wire_list {A} (wire : A -> list byte) (m : option (list A)) : list byte :=
  match m with
  | None => []
  | Some l => le_bytes 4 (Z.of_nat (length l)) ++ concat (map wire l)
  end.

Definition wire_all (bss : list (list byte)) : list byte := concat bss.

(** A message starts with its length. *)
Definition wire_message (body : list byte) : list byte :=
  le_bytes 4 (4 + Z.of_nat (length body)) ++ body.

(** ** Well-formed members *)

Definition wf_option {A} (wf : A -> bool) (m : option A) : bool :=
  match m with None => true | Some a => wf a end.

Definition wf_basic {T} (t : basic T) : option T -> bool := wf_option (in_range t).

Definition wf_string (s : OctetString) : bool := bool_decide (Z.of_nat (length s) < sizeof_val).
Definition wf_octets : option OctetString -> bool := wf_option wf_string.

Definition wf_count {A} (l : list A) : bool := bool_decide (Z.of_nat (length l) < 2 ^ 31).

Definition wf_list {A} (wf : A -> bool) : option (list A) -> bool :=
  wf_option (fun l => wf_count l && forallb wf l).

Definition wf_list_octets : option (list OctetString) -> bool :=
  wf_option (fun l => bool_decide (l <> []) && (wf_count l && forallb wf_string l)).

Definition wf_all (bs : list bool) : bool := forallb id bs.

(** ** What the macros promise *)

(** The calculation adds the size of the bytes. *)
Definition calc_adds (c : Z -> Z) (bs : list byte) : Prop :=
  forall n, 0 <= n < 2 ^ 32 -> c n = u32 (n + Z.of_nat (length bs)).

(** On a zeroed rest of buffer, the packer writes the bytes and advances past
    them when they fit, and returns 0 when they do not. *)
Definition packs (p : packer) (bs : list byte) : Prop :=
  forall pre k, Z.of_nat (length pre + k) < 2 ^ 32 ->
    p (Z.of_nat (length pre + k)) (pre ++ zeros k) (Z.of_nat (length pre)) =
    if bool_decide (length bs <= k)%nat
    then Ok (pre ++ bs ++ zeros (k - length bs), Z.of_nat (length pre + length bs))
    else Return0.

(** Where the buffer holds the bytes, the unpacker returns the value and
    advances past them. *)
Definition unpacks {A} (u : unpacker A) (bs : list byte) (a : A) : Prop :=
  forall n pre post, Z.of_nat (length pre + length bs) <= n < 2 ^ 32 ->
    u n (pre ++ bs ++ post) (Z.of_nat (length pre)) = Ok (a, Z.of_nat (length pre + length bs)).

(** The three macros of a member, under its well-formedness. *)
Definition codes {A} (wf : bool) (c : Z -> Z) (p : packer) (u : unpacker A) (bs : list byte) (a : A)
    : Prop :=
  wf = true -> calc_adds c bs /\ packs p bs /\ unpacks u bs a.

(** The three functions of a structure. *)
Definition struct_codes {A} (wf : A -> bool) (calc : A -> Z) (pack : A -> packer)
    (unpack : unpacker A) (wire : A -> list byte) : Prop :=
  forall d, wf d = true ->
    calc d = u32 (Z.of_nat (length (wire d))) /\ packs (pack d) (wire d) /\ unpacks unpack (wire d) d.

(** The sequences of macro calls of the three functions. *)
Definition fields_code {A} (wfs : list bool) (cs : list (Z -> Z)) (ps : list packer) (u : unpacker A)
    (bss : list (list byte)) (d : A) : Prop :=
  codes (wf_all wfs) (calc_all cs) (pack_all ps) u (wire_all bss) d.

(** [wire_message] in a buffer of [n] bytes: it fits exactly, with room left, or not. *)
Definition packed (wire : list byte) (n : nat) : res (bool * list byte) :=
  if bool_decide (length wire <= n)%nat
  then Ok (bool_decide (n = length wire), wire ++ zeros (n - length wire))
  else Return0.

(** What the three functions of a message promise: the calculated length is the
    wire length; a zeroed buffer of exactly that length is filled with the wire
    format and the packer returns 1, a shorter one makes it return 0 and a longer
    one makes it return 0 after writing; the unpacker returns 1 and the message,
    whatever follows it. *)
Definition message_codes {A} (wf : A -> bool) (calc : A -> Z)
    (pack : A -> list byte -> Z -> res (bool * list byte))
    (unpack : list byte -> res (bool * A)) (body : A -> list byte) : Prop :=
  forall d, wf d = true -> 4 + Z.of_nat (length (body d)) < 2 ^ 32 ->
    calc d = Z.of_nat (length (wire_message (body d))) /\
    (forall n, (4 <= n)%nat -> Z.of_nat n < 2 ^ 32 ->
       pack d (zeros n) (Z.of_nat n) = packed (wire_message (body d)) n) /\
    (forall post, unpack (wire_message (body d) ++ post) = Ok (true, d)).

Class BasicOk {T} (t : basic T) : Prop := {
  basic_length : forall v, in_range t v = true -> length (obj_bytes t v) = bsizeof t;
  basic_roundtrip : forall v, in_range t v = true -> of_bytes t (obj_bytes t v) = v
}.

(** Every allocation of a non-negative number of elements succeeds. *)
Class MallocOk (M : Malloc) : Prop :=
  malloc_succeeds : forall type n, 0 <= n -> malloc_ok type n = true.

(** ** Memory *)

Lemma length_zeros n : length (zeros n) = n.
Proof. apply length_replicate. Qed.

Lemma mem_write_zeros pre bs k :
  (length bs <= k)%nat ->
  mem_write (pre ++ zeros k) (Z.of_nat (length pre)) bs = Ok (pre ++ bs ++ zeros (k - length bs)).
Proof.
  intros H. unfold mem_write, zeros. rewrite bool_decide_true.
  2:{ rewrite length_app, length_replicate. lia. }
  rewrite Nat2Z.id, take_app_length. do 3 f_equal.
  rewrite drop_app_ge, drop_replicate by lia. f_equal. lia.
Qed.

Lemma mem_read_app pre bs post :
  mem_read (pre ++ bs ++ post) (Z.of_nat (length pre)) (Z.of_nat (length bs)) = Ok bs.
Proof.
  unfold mem_read. rewrite bool_decide_true.
  2:{ rewrite !length_app. lia. }
  by rewrite !Nat2Z.id, drop_app_length, take_app_length.
Qed.

Lemma mem_read_zeros pre n k :
  (n <= k)%nat -> mem_read (pre ++ zeros k) (Z.of_nat (length pre)) (Z.of_nat n) = Ok (zeros n).
Proof.
  intros H. replace (zeros k) with (zeros n ++ zeros (k - n)).
  2:{ unfold zeros. rewrite <- replicate_add. f_equal. lia. }
  pose proof (mem_read_app pre (zeros n) (zeros (k - n))) as E.
  by rewrite length_zeros in E.
Qed.

Lemma le_val_zeros n : le_val (zeros n) = 0.
Proof. induction n; [done|]. cbn [zeros replicate le_val]. fold (zeros n). by rewrite IHn. Qed.

(** ** Packing *)

Lemma packs_skip : packs pack_skip [].
Proof.
  intros pre k Hk. rewrite bool_decide_true by (simpl; lia).
  unfold pack_skip. cbn [length app]. by rewrite Nat.sub_0_r, Nat.add_0_r.
Qed.

Lemma packs_seq p q bs bs' : packs p bs -> packs q bs' -> packs (pack_seq p q) (bs ++ bs').
Proof.
  intros Hp Hq pre k Hk. unfold pack_seq. rewrite Hp by done. rewrite length_app.
  destruct (decide (length bs <= k)%nat) as [H|H].
  2:{ by rewrite !bool_decide_false by lia. }
  rewrite bool_decide_true by done. cbn [res_bind fst snd].
  rewrite (app_assoc pre bs), <- (length_app pre bs).
  replace (length pre + k)%nat with (length (pre ++ bs) + (k - length bs))%nat
    by (rewrite length_app; lia).
  rewrite Hq by (rewrite length_app; lia).
  destruct (decide (length bs' <= k - length bs)%nat).
  - rewrite !bool_decide_true by lia.
    rewrite <- !app_assoc, length_app, Nat.sub_add_distr, Nat.add_assoc. done.
  - by rewrite !bool_decide_false by lia.
Qed.

Lemma packs_all ps bss : Forall2 packs ps bss -> packs (pack_all ps) (concat bss).
Proof. induction 1; [apply packs_skip|]. by apply packs_seq. Qed.

(** A store after a check for at least its size. *)
Lemma packs_check_store n bs :
  n = Z.of_nat (length bs) -> packs (pack_check n (pack_store bs)) bs.
Proof.
  intros -> pre k Hk. unfold pack_check, pack_store.
  destruct (decide (length bs <= k)%nat).
  - rewrite bool_decide_false, bool_decide_true by lia.
    rewrite mem_write_zeros by done. cbn [res_bind]. rewrite wrap_small by lia. do 2 f_equal. lia.
  - by rewrite bool_decide_true, bool_decide_false by lia.
Qed.

Lemma packs_check n p bs :
  n = Z.of_nat (length bs) -> packs p bs -> packs (pack_check n p) bs.
Proof.
  intros -> Hp pre k Hk. unfold pack_check.
  destruct (decide (length bs <= k)%nat).
  - rewrite bool_decide_false by lia. by apply Hp.
  - by rewrite bool_decide_true, bool_decide_false by lia.
Qed.

(** A store without a check fits when a check before it made room. *)
Lemma packs_store_fits bs pre k :
  Z.of_nat (length pre + k) < 2 ^ 32 -> (length bs <= k)%nat ->
  pack_store bs (Z.of_nat (length pre + k)) (pre ++ zeros k) (Z.of_nat (length pre)) =
  Ok (pre ++ bs ++ zeros (k - length bs), Z.of_nat (length pre + length bs)).
Proof.
  intros Hk H. unfold pack_store. rewrite mem_write_zeros by done. cbn [res_bind].
  rewrite wrap_small by lia. do 2 f_equal. lia.
Qed.

Lemma pack_add_len_zeros n buflen pre k :
  0 <= n < 2 ^ 32 -> (4 <= k)%nat ->
  pack_add_len n buflen (pre ++ zeros k) (Z.of_nat (length pre)) =
  pack_store (le_bytes 4 n) buflen (pre ++ zeros k) (Z.of_nat (length pre)).
Proof.
  intros Hn Hk. unfold pack_add_len.
  change 4 with (Z.of_nat 4) at 1. rewrite mem_read_zeros by done. cbn [res_bind].
  by rewrite le_val_zeros, Z.add_0_l, wrap_small.
Qed.

Lemma packs_string (first : packer) s :
  Z.of_nat (length s) < 2 ^ 32 ->
  (forall buflen pre k, (4 <= k)%nat ->
     first buflen (pre ++ zeros k) (Z.of_nat (length pre)) =
     pack_store (le_bytes 4 (Z.of_nat (length s))) buflen (pre ++ zeros k) (Z.of_nat (length pre))) ->
  packs (pack_check (4 + Z.of_nat (length s)) (pack_seq first (pack_store s))) (wire_string s).
Proof.
  intros Hs Hfirst pre k Hk. unfold wire_string, pack_check.
  rewrite length_app, length_le_bytes.
  destruct (decide (4 + length s <= k)%nat).
  2:{ by rewrite bool_decide_true, bool_decide_false by lia. }
  rewrite bool_decide_false, bool_decide_true by lia.
  unfold pack_seq. rewrite Hfirst by lia.
  rewrite packs_store_fits by (rewrite ?length_le_bytes; lia). cbn [res_bind fst snd].
  rewrite length_le_bytes.
  pose proof (packs_store_fits s (pre ++ le_bytes 4 (Z.of_nat (length s))) (k - 4)) as E.
  rewrite !length_app, length_le_bytes in E.
  replace (length pre + 4 + (k - 4))%nat with (length pre + k)%nat in E by lia.
  rewrite app_assoc. rewrite E by lia.
  rewrite <- !app_assoc, Nat.sub_add_distr, Nat.add_assoc. done.
Qed.

Lemma packs_octets s : wf_string s = true -> packs (PACK_OCTETSTRING (Some s)) (wire_string s).
Proof.
  intros Hs%bool_decide_eq_true. unfold sizeof_val in Hs.
  apply packs_string; [lia|done].
Qed.

Lemma packs_count n : packs (pack_count n) (le_bytes 4 (Z.of_nat n)).
Proof. apply packs_check_store. by rewrite length_le_bytes. Qed.

Lemma packs_return : packs pack_return [].
Proof.
  intros pre k Hk. unfold pack_return. rewrite !bool_decide_true by (simpl; lia).
  cbn [length app]. by rewrite Nat.sub_0_r, Nat.add_0_r.
Qed.

(** ** Unpacking *)

Lemma unpacks_skip {A} (a : A) : unpacks (unpack_skip a) [] a.
Proof. intros n pre post Hn. unfold unpack_skip. do 2 f_equal. simpl. lia. Qed.

Lemma unpacks_return {A} (a : A) : unpacks (unpack_return a) [] a.
Proof.
  intros n pre post Hn. cbn [length] in Hn. unfold unpack_return.
  rewrite bool_decide_true by lia. do 2 f_equal. simpl. lia.
Qed.

Lemma unpacks_bind {A B} (u : unpacker A) (k : A -> unpacker B) bs bs' a b :
  unpacks u bs a -> unpacks (k a) bs' b -> unpacks (unpack_bind u k) (bs ++ bs') b.
Proof.
  intros Hu Hk n pre post Hn. rewrite length_app in *. unfold unpack_bind.
  rewrite <- app_assoc, Hu by lia. cbn [res_bind fst snd].
  pose proof (Hk n (pre ++ bs) post) as E. rewrite length_app, <- app_assoc in E.
  rewrite E by lia. by rewrite Nat.add_assoc.
Qed.

(** A continuation that reads nothing. *)
Lemma unpacks_map {A B} (u : unpacker A) (f : A -> B) bs a :
  unpacks u bs a -> unpacks (let! x := u in unpack_skip (f x)) bs (f a).
Proof.
  intros Hu. rewrite <- (app_nil_r bs). apply (unpacks_bind _ _ _ _ a); [done|].
  apply unpacks_skip.
Qed.

Lemma unpacks_load {A} n (f : list byte -> A) bs :
  n = length bs -> unpacks (unpack_load n f) bs (f bs).
Proof.
  intros -> len pre post Hn. unfold unpack_load. rewrite mem_read_app. cbn [res_bind].
  rewrite wrap_small by lia. do 2 f_equal. lia.
Qed.

Lemma unpacks_check {A} n (u : unpacker A) bs a :
  n <= Z.of_nat (length bs) -> unpacks u bs a -> unpacks (unpack_check n u) bs a.
Proof.
  intros Hn Hu m pre post Hm. unfold unpack_check. rewrite bool_decide_false by lia. by apply Hu.
Qed.

Lemma unpacks_basic {T} (t : basic T) `{!BasicOk t} v :
  in_range t v = true ->
  unpacks (unpack_check (Z.of_nat (bsizeof t)) (unpack_load (bsizeof t) (of_bytes t))) (obj_bytes t v) v.
Proof.
  intros Hv. pose proof (basic_length v Hv). apply unpacks_check; [lia|].
  rewrite <- (basic_roundtrip v Hv) at 2. by apply unpacks_load.
Qed.

Lemma le_val_length s : wf_string s = true -> le_val (le_bytes 4 (Z.of_nat (length s))) = Z.of_nat (length s).
Proof.
  intros Hs%bool_decide_eq_true. unfold sizeof_val in Hs. apply le_val_small. simpl. lia.
Qed.

(** The length of a string, then its bytes, read without truncation. *)
Lemma unpacks_string {A} (body : Z -> unpacker A) s a :
  wf_string s = true -> unpacks (body (Z.of_nat (length s))) s a ->
  unpacks (unpack_check 4 (let! __len__ := unpack_load 4 le_val in body __len__)) (wire_string s) a.
Proof.
  intros Hs Hb. unfold wire_string.
  apply unpacks_check; [rewrite length_app, length_le_bytes; lia|].
  apply (unpacks_bind _ _ _ _ (Z.of_nat (length s))); [|done].
  rewrite <- (le_val_length s Hs) at 2. by apply unpacks_load.
Qed.

Lemma MIN_string s : wf_string s = true -> MIN (Z.of_nat (length s)) (sizeof_val - 1) = Z.of_nat (length s).
Proof.
  intros Hs%bool_decide_eq_true. unfold MIN. case_bool_decide; [done|]. lia.
Qed.

Lemma unpacks_octets s :
  wf_string s = true -> unpacks (UNPACK_OCTETSTRING true) (wire_string s) (Some s).
Proof.
  intros Hs. unfold UNPACK_OCTETSTRING.
  apply (unpacks_string (fun len buflen buf offset =>
    if bool_decide (buflen < offset +[32] len) then Return0
    else let? val := mem_read buf offset (MIN len (sizeof_val - 1)) in Ok (Some val, offset +[32] len)));
    [done|].
  intros n pre post Hn. rewrite wrap_small by lia. rewrite bool_decide_false by lia.
  rewrite MIN_string, mem_read_app by done. cbn [res_bind]. do 2 f_equal. lia.
Qed.

Lemma unpacks_octets_element s :
  wf_string s = true -> unpacks unpack_octets_element (wire_string s) s.
Proof.
  intros Hs. unfold unpack_octets_element.
  apply (unpacks_string (fun len buflen buf offset =>
    let? val := mem_read buf offset (MIN len (sizeof_val - 1)) in Ok (val, offset +[32] len)));
    [done|].
  intros n pre post Hn. rewrite MIN_string, mem_read_app by done. cbn [res_bind].
  rewrite wrap_small by lia. do 2 f_equal. lia.
Qed.

Lemma unpacks_times {A} (u : unpacker A) (wire : A -> list byte) l :
  (forall x, In x l -> unpacks u (wire x) x) ->
  unpacks (unpack_times (length l) u) (concat (map wire l)) l.
Proof.
  induction l as [|x l IH]; intros Hu; cbn [length unpack_times map concat].
  { apply unpacks_skip. }
  apply (unpacks_bind _ _ _ _ x); [apply Hu; by left|].
  apply (unpacks_map _ (cons x)). apply IH. intros y Hy. apply Hu. by right.
Qed.

Lemma unpacks_count n :
  Z.of_nat n < 2 ^ 31 -> unpacks unpack_count (le_bytes 4 (Z.of_nat n)) (Z.of_nat n).
Proof.
  intros Hn.
  assert (of_bytes int32_t (le_bytes 4 (Z.of_nat n)) = Z.of_nat n) as E.
  { cbn [of_bytes int32_t]. rewrite le_val_small by (simpl; lia). apply swrap_small; lia. }
  rewrite <- E at 2. by apply unpacks_load.
Qed.

Lemma unpacks_elements {M : Malloc} {HM : MallocOk M} {A} type (u : unpacker A) (wire : A -> list byte) l :
  wf_count l = true -> (forall x, In x l -> unpacks u (wire x) x) ->
  unpacks (let! count := unpack_count in unpack_elements type u count)
          (le_bytes 4 (Z.of_nat (length l)) ++ concat (map wire l)) (Some l).
Proof.
  intros Hc%bool_decide_eq_true Hu.
  apply (unpacks_bind _ _ _ _ (Z.of_nat (length l))); [by apply unpacks_count|].
  unfold unpack_elements. intros n pre post Hn. rewrite malloc_succeeds by lia.
  rewrite Nat2Z.id. apply (unpacks_map _ Some); [|done]. by apply unpacks_times.
Qed.

(** ** Presence bits *)

Lemma val_bits_bits_val bits : val_bits (length bits) (bits_val bits) = bits.
Proof.
  induction bits as [|b bits IH]; [done|].
  cbn [length bits_val foldr val_bits]. fold (bits_val bits).
  rewrite Z.odd_add, Z.odd_mul, andb_false_l, xorb_false_r. f_equal; [by destruct b|].
  replace ((Z.b2z b + 2 * bits_val bits) / 2) with (bits_val bits); [done|].
  destruct b; cbn [Z.b2z]; zdiv.
Qed.

Lemma bits_val_range bits : 0 <= bits_val bits < 2 ^ Z.of_nat (length bits).
Proof.
  induction bits as [|b bits IH]; [done|].
  cbn [length bits_val foldr]. fold (bits_val bits).
  rewrite Nat2Z.inj_succ, Z.pow_succ_r by lia. destruct b; cbn [Z.b2z]; lia.
Qed.

Lemma sizeof_presence_bits n : (n <= 8 * sizeof_presence n)%nat.
Proof.
  unfold sizeof_presence. pose proof (Nat.div_mod (n + 31) 32). 
  pose proof (Nat.mod_upper_bound (n + 31) 32). lia.
Qed.

Lemma presence_roundtrip bits :
  val_bits (length bits) (le_val (presence_bytes bits)) = bits.
Proof.
  unfold presence_bytes. rewrite le_val_small; [apply val_bits_bits_val|].
  pose proof (bits_val_range bits). pose proof (sizeof_presence_bits (length bits)).
  split; [lia|]. change 256 with (2 ^ 8). rewrite <- Z.pow_mul_r by lia.
  eapply Z.lt_le_trans; [apply H|]. apply Z.pow_le_mono_r; lia.
Qed.

Lemma length_presence_bytes bits : length (presence_bytes bits) = sizeof_presence (length bits).
Proof. apply length_le_bytes. Qed.

(** ** Lengths *)

Lemma calc_adds_skip : calc_adds (fun n => n) [].
Proof. intros n Hn. simpl. by rewrite Z.add_0_r, wrap_small. Qed.

Lemma calc_adds_add (bs : list byte) k :
  u32 k = u32 (Z.of_nat (length bs)) -> calc_adds (fun n => n +[32] k) bs.
Proof. intros E n Hn. unfold wrap in *. rewrite Zplus_mod, E, <- Zplus_mod. done. Qed.

Lemma calc_adds_compose c c' bs bs' :
  calc_adds c bs -> calc_adds c' bs' -> calc_adds (fun n => c' (c n)) (bs ++ bs').
Proof.
  intros Hc Hc' n Hn. rewrite Hc, Hc', wrap_add_l, length_app by (try done; apply wrap_range; lia).
  f_equal. lia.
Qed.

Lemma calc_adds_all {A} (c : Z -> A -> Z) (wire : A -> list byte) l :
  (forall x, In x l -> calc_adds (fun n => c n x) (wire x)) ->
  calc_adds (fun n => foldl c n l) (concat (map wire l)).
Proof.
  induction l as [|x l IH]; intros Hl; [apply calc_adds_skip|].
  apply (calc_adds_compose (fun n => c n x) (fun n => foldl c n l)).
  - apply Hl. by left.
  - apply IH. intros y Hy. apply Hl. by right.
Qed.

Lemma calc_adds_list {A} (c : Z -> A -> Z) (wire : A -> list byte) l :
  (forall x, In x l -> calc_adds (fun n => c n x) (wire x)) ->
  calc_adds (fun n => foldl c (n +[32] 4) l) (le_bytes 4 (Z.of_nat (length l)) ++ concat (map wire l)).
Proof.
  intros Hl. apply (calc_adds_compose (fun n => n +[32] 4) (fun n => foldl c n l)).
  - apply calc_adds_add. rewrite length_le_bytes. done.
  - by apply calc_adds_all.
Qed.

Lemma length_concat_same {A} (f : A -> list byte) k l :
  (forall x, In x l -> length (f x) = k) -> length (concat (map f l)) = (k * length l)%nat.
Proof.
  induction l as [|x l IH]; intros Hl; cbn [map concat length]; [lia|].
  rewrite length_app, IH, Hl; [lia|by left|]. intros y Hy. apply Hl. by right.
Qed.

(** ** The macros of one member *)

#[export] Instance int32_ok : BasicOk int32_t.
Proof.
  split; intros v; cbn [in_range int32_t obj_bytes of_bytes bsizeof]; intros Hv%bool_decide_eq_true.
  - apply length_le_bytes.
  - rewrite le_val_le_bytes. change (256 ^ Z.of_nat 4) with (2 ^ 32). unfold swrap.
    rewrite Zmod_mod. pow2. change (32 - 1) with 31. pow2. revert Hv. pow2. intros.
    case_match; zdiv.
Qed.

Lemma signed64_ok v : - 2 ^ 63 <= v < 2 ^ 63 -> swrap 64 (le_val (le_bytes 8 v)) = v.
Proof.
  intros Hv. rewrite le_val_le_bytes. change (256 ^ Z.of_nat 8) with (2 ^ 64). unfold swrap.
  rewrite Zmod_mod. change (64 - 1) with 63. revert Hv. pow2. intros. case_match; zdiv.
Qed.

#[export] Instance int64_ok : BasicOk int64_t.
Proof.
  split; intros v Hv%bool_decide_eq_true; [apply length_le_bytes|by apply signed64_ok].
Qed.

#[export] Instance FdTime_ok : BasicOk FdTime.
Proof.
  split; intros v Hv%bool_decide_eq_true; [apply length_le_bytes|by apply signed64_ok].
Qed.

#[export] Instance uint32_ok : BasicOk uint32_t.
Proof.
  split; intros v Hv%bool_decide_eq_true; [apply length_le_bytes|by apply (le_val_small 4)].
Qed.

#[export] Instance float_ok : BasicOk float.
Proof.
  split; intros v Hv%bool_decide_eq_true; [apply length_le_bytes|by apply (le_val_small 4)].
Qed.

#[export] Instance uint64_ok : BasicOk uint64_t.
Proof.
  split; intros v Hv%bool_decide_eq_true; [apply length_le_bytes|by apply (le_val_small 8)].
Qed.

#[export] Instance FdAddress_ok : BasicOk FdAddress.
Proof.
  split; intros [ty ad] [Ht Ha]%bool_decide_eq_true; cbn [fd_type fd_address] in *.
  - cbn [obj_bytes FdAddress bsizeof fd_type fd_address]. by rewrite length_app, length_le_bytes, Ha.
  - cbn [obj_bytes FdAddress of_bytes fd_type fd_address]. 
    rewrite (take_app_length' _ _ 2), (drop_app_length' _ _ 2) by by rewrite length_le_bytes.
    by rewrite (le_val_small 2).
Qed.

Lemma codes_presence bits n :
  n = length bits ->
  codes true (CALCLEN_PRESENCE bits) (PACK_PRESENCE bits) (UNPACK_PRESENCE n) (wire_presence bits) bits.
Proof.
  intros -> _. unfold wire_presence. split_and!.
  - apply calc_adds_add. by rewrite length_presence_bytes.
  - apply packs_check_store. by rewrite length_presence_bytes.
  - apply unpacks_check; [by rewrite length_presence_bytes|].
    rewrite <- (presence_roundtrip bits) at 3.
    by apply (unpacks_load _ (fun bs => val_bits (length bits) (le_val bs)));
      rewrite length_presence_bytes.
Qed.

(** An absent member: nothing is measured, written or read. *)
Lemma codes_absent {A} wf (u : unpacker (option A)) :
  u = unpack_skip None -> codes wf (fun n => n) pack_skip u [] None.
Proof.
  intros -> _. split_and!; [apply calc_adds_skip|apply packs_skip|apply unpacks_skip].
Qed.

Lemma codes_basic {T} (t : basic T) `{!BasicOk t} m :
  codes (wf_basic t m) (CALCLEN_BASIC t m) (PACK_BASIC t m) (UNPACK_BASIC t (present m))
        (wire_basic t m) m.
Proof.
  destruct m as [v|]; [|by apply codes_absent]. intros Hv. pose proof (basic_length v Hv) as Hlen.
  split_and!.
  - apply calc_adds_add. by rewrite <- Hlen.
  - apply packs_check_store. by rewrite <- Hlen.
  - intros n pre post Hn. pose proof (unpacks_basic t v Hv n pre post Hn) as E. revert E.
    cbn [UNPACK_BASIC present wire_basic]. unfold unpack_check, unpack_load.
    case_bool_decide; [done|]. destruct (mem_read _ _ _); [|done..]. cbn [res_bind]. by intros [= -> ->].
Qed.

Lemma codes_octets m :
  codes (wf_octets m) (CALCLEN_OCTETSTRING m) (PACK_OCTETSTRING m) (UNPACK_OCTETSTRING (present m))
        (wire_octets m) m.
Proof.
  destruct m as [s|]; [|by apply codes_absent]. intros Hs. split_and!.
  - apply calc_adds_add. cbn [wire_octets]. unfold wire_string.
    rewrite length_app, length_le_bytes. f_equal. lia.
  - by apply packs_octets.
  - by apply unpacks_octets.
Qed.

Lemma codes_struct {A} wf calc pack unpack wire (m : option A) :
  struct_codes wf calc pack unpack wire ->
  codes (wf_option wf m) (CALCLEN_STRUCT calc m) (PACK_STRUCT pack m)
        (UNPACK_STRUCT unpack (present m)) (wire_struct wire m) m.
Proof.
  intros H. destruct m as [d|]; [|by apply codes_absent]. intros Hd.
  destruct (H d Hd) as (Hc & Hp & Hu). split_and!; [|done|by apply (unpacks_map _ Some)].
  apply calc_adds_add. by rewrite Hc, wrap_wrap.
Qed.

Lemma packs_list {A} (pack : A -> packer) (wire : A -> list byte) l :
  (forall x, In x l -> packs (pack x) (wire x)) ->
  packs (pack_seq (pack_count (length l)) (pack_all (map pack l)))
        (le_bytes 4 (Z.of_nat (length l)) ++ concat (map wire l)).
Proof.
  intros Hl. apply packs_seq; [apply packs_count|]. apply packs_all.
  induction l as [|x l IH]; constructor; [apply Hl; by left|]. apply IH.
  intros y Hy. apply Hl. by right.
Qed.

Lemma wf_list_elem {A} (wf : A -> bool) l x :
  forallb wf l = true -> In x l -> wf x = true.
Proof. rewrite forallb_forall. auto. Qed.

(** The check for a count before a list: the count always fits. *)
Lemma unpacks_check_count {A} (u : unpacker A) n bs a :
  unpacks u (le_bytes 4 n ++ bs) a -> unpacks (unpack_check 4 u) (le_bytes 4 n ++ bs) a.
Proof. apply unpacks_check. rewrite length_app, length_le_bytes. lia. Qed.

Lemma codes_list_basic `{MallocOk} {T} (t : basic T) `{!BasicOk t} m :
  codes (wf_list (in_range t) m) (CALCLEN_LIST_BASIC t m) (PACK_LIST_BASIC t m)
        (UNPACK_LIST_BASIC t (present m)) (wire_list (obj_bytes t) m) m.
Proof.
  destruct m as [l|]; [|by apply codes_absent]. intros [Hc Hl]%andb_true_iff.
  assert (forall x, In x l -> length (obj_bytes t x) = bsizeof t) as Hlen.
  { intros x Hx. by apply basic_length, (wf_list_elem _ l). }
  split_and!.
  - apply calc_adds_add. cbn [wire_list].
    rewrite length_app, length_le_bytes, (length_concat_same _ (bsizeof t)) by done. f_equal. lia.
  - apply packs_list. intros x Hx. apply packs_check_store. by rewrite Hlen.
  - apply unpacks_check_count, unpacks_elements; [done|].
    intros x Hx. by apply unpacks_basic; [|apply (wf_list_elem _ l)].
Qed.

Lemma codes_list_struct `{MallocOk} {A} type wf calc pack unpack wire (m : option (list A)) :
  struct_codes wf calc pack unpack wire ->
  codes (wf_list wf m) (CALCLEN_LIST_STRUCT calc m) (PACK_LIST_STRUCT pack m)
        (UNPACK_LIST_STRUCT type unpack (present m)) (wire_list wire m) m.
Proof.
  intros HA. destruct m as [l|]; [|by apply codes_absent]. intros [Hc Hl]%andb_true_iff.
  assert (forall x, In x l -> wf x = true) as Hwf by (intros x; by apply wf_list_elem).
  split_and!.
  - apply (calc_adds_list (fun n d => n +[32] calc d)). intros x Hx. apply calc_adds_add.
    by rewrite (proj1 (HA x (Hwf x Hx))), wrap_wrap.
  - apply packs_list. intros x Hx. apply (HA x (Hwf x Hx)).
  - apply unpacks_check_count, unpacks_elements; [done|].
    intros x Hx. apply (HA x (Hwf x Hx)).
Qed.

Lemma codes_list_octets `{MallocOk} type m :
  codes (wf_list_octets m) (CALCLEN_LIST_OCTETSTRING m) (PACK_LIST_OCTETSTRING m)
        (UNPACK_LIST_OCTETSTRING type (present m)) (wire_list wire_string m) m.
Proof.
  destruct m as [l|]; [|by apply codes_absent].
  intros [Hne [Hc Hl]%andb_true_iff]%andb_true_iff. apply bool_decide_eq_true in Hne.
  assert (forall s, In s l -> wf_string s = true) as Hwf by (intros s; by apply wf_list_elem).
  split_and!.
  - apply (calc_adds_list (fun n s => n +[32] (4 + Z.of_nat (length s)))). intros s Hs.
    apply calc_adds_add. unfold wire_string. rewrite length_app, length_le_bytes. f_equal. lia.
  - apply packs_list. intros s Hs. pose proof (Hwf s Hs) as Hb%bool_decide_eq_true.
    unfold sizeof_val in Hb. apply packs_string; [lia|].
    intros. apply pack_add_len_zeros; lia.
  - intros n pre post Hn. cbn [UNPACK_LIST_OCTETSTRING present]. rewrite bool_decide_false.
    + apply unpacks_elements; [done| |done]. intros s Hs. by apply unpacks_octets_element, Hwf.
    + destruct l as [|s l]; [done|]. revert Hn. cbn [wire_list map concat]. unfold wire_string.
      rewrite !length_app, !length_le_bytes. lia.
Qed.

(** ** Sequences of macro calls *)

Lemma fields_nil {A} (d d' : A) :
  d' = d -> fields_code [] [] [] (unpack_skip d') [] d.
Proof. intros ->. by intros _; split_and!; [apply calc_adds_skip|apply packs_skip|apply unpacks_skip]. Qed.

(** The end of a structure function. *)
Lemma fields_return {A} (d d' : A) :
  d' = d -> fields_code [] [] [pack_return] (unpack_return d') [] d.
Proof.
  intros -> _. split_and!; [apply calc_adds_skip| |apply unpacks_return].
  rewrite <- (app_nil_r (wire_all [])). apply packs_seq; [apply packs_return|apply packs_skip].
Qed.

Lemma fields_cons {A B} wf c p (u : unpacker B) bs b wfs cs ps (k : B -> unpacker A) bss d :
  codes wf c p u bs b -> fields_code wfs cs ps (k b) bss d ->
  fields_code (wf :: wfs) (c :: cs) (p :: ps) (unpack_bind u k) (bs :: bss) d.
Proof.
  intros H Hs [Hwf Hwfs]%andb_true_iff.
  destruct (H Hwf) as (Hc & Hp & Hu). destruct (Hs Hwfs) as (Hcs & Hps & Hus). split_and!.
  - by apply (calc_adds_compose c (calc_all cs)).
  - by apply packs_seq.
  - by apply (unpacks_bind _ _ _ _ b).
Qed.

Lemma struct_codes_intro {A} (wf : A -> bool) calc pack unpack wire
    (wfs : A -> list bool) cs ps bss :
  (forall d, wf d = wf_all (wfs d)) -> (forall d, calc d = calc_all (cs d) 0) ->
  (forall d, pack d = pack_all (ps d)) -> (forall d, wire d = wire_all (bss d)) ->
  (forall d : A, fields_code (wfs d) (cs d) (ps d) unpack (bss d) d) ->
  struct_codes wf calc pack unpack wire.
Proof.
  intros Ewf Ec Ep Ew H d Hd. rewrite Ewf in Hd. destruct (H d Hd) as (Hc & Hp & Hu).
  rewrite Ec, Ep, Ew. split_and!; [|done..]. by rewrite Hc.
Qed.

(** ** Messages *)

Lemma length_wire_message body : length (wire_message body) = (4 + length body)%nat.
Proof. unfold wire_message. by rewrite length_app, length_le_bytes. Qed.

Lemma message_packs ps body n :
  packs (pack_all ps) body -> (4 <= n)%nat -> Z.of_nat n < 2 ^ 32 ->
  4 + Z.of_nat (length body) < 2 ^ 32 ->
  message_pack ps (zeros n) (Z.of_nat n) = packed (wire_message body) n.
Proof.
  intros Hp H4 Hn Hb. unfold packed. rewrite length_wire_message.
  assert (zeros n = zeros 4 ++ zeros (n - 4)) as Ez.
  { unfold zeros. rewrite <- replicate_add. f_equal. lia. }
  pose proof (Hp (zeros 4) (n - 4)%nat) as E. rewrite length_zeros, <- Ez in E.
  replace (4 + (n - 4))%nat with n in E by lia. change (Z.of_nat 4) with 4 in E.
  unfold message_pack. rewrite E by done.
  destruct (decide (4 + length body <= n)%nat) as [H|H].
  2:{ by rewrite !bool_decide_false by lia. }
  rewrite !bool_decide_true by lia. cbn [res_bind fst snd].
  unfold mem_write. rewrite bool_decide_true.
  2:{ rewrite !length_app, !length_zeros, length_le_bytes. lia. }
  cbn [res_bind]. f_equal. f_equal.
  { apply bool_decide_ext. lia. }
  rewrite length_le_bytes. change (Z.to_nat 0) with 0%nat. rewrite take_0, app_nil_l, Nat.add_0_l.
  rewrite drop_app_length' by done. unfold wire_message. rewrite <- app_assoc, Nat2Z.inj_add.
  by rewrite Nat.sub_add_distr.
Qed.

Lemma message_unpacks {A} (u : unpacker A) body d post :
  unpacks u body d -> 4 + Z.of_nat (length body) < 2 ^ 32 ->
  message_unpack u (wire_message body ++ post) = Ok (true, d).
Proof.
  intros Hu Hb. unfold message_unpack, wire_message. rewrite <- app_assoc.
  pose proof (mem_read_app [] (le_bytes 4 (4 + Z.of_nat (length body))) (body ++ post)) as E.
  rewrite length_le_bytes in E. cbn [length app] in E. change (Z.of_nat 4) with 4 in E.
  change (Z.of_nat 0) with 0 in E. rewrite E. cbn [res_bind].
  rewrite le_val_small by (simpl; lia).
  pose proof (Hu (4 + Z.of_nat (length body)) (le_bytes 4 (4 + Z.of_nat (length body))) post) as Eu.
  rewrite length_le_bytes in Eu. change (Z.of_nat 4) with 4 in Eu.
  rewrite Eu by lia. cbn [res_bind fst snd]. by rewrite bool_decide_true by lia.
Qed.

Lemma message_codes_intro {A} (wf : A -> bool) calc pack unpack (body : A -> list byte)
    (wfs : A -> list bool) cs ps (u : unpacker A) bss :
  (forall d, wf d = wf_all (wfs d)) -> (forall d, calc d = message_calc_length (cs d)) ->
  (forall d, pack d = message_pack (ps d)) -> unpack = message_unpack u ->
  (forall d, body d = wire_all (bss d)) ->
  (forall d : A, fields_code (wfs d) (cs d) (ps d) u (bss d) d) ->
  message_codes wf calc pack unpack body.
Proof.
  intros Ewf Ec Ep -> Ew H d Hd Hb. rewrite Ewf in Hd. destruct (H d Hd) as (Hc & Hp & Hu).
  rewrite Ec, Ep. rewrite Ew in *. split_and!.
  - unfold message_calc_length. rewrite Hc, length_wire_message, wrap_small by lia. lia.
  - intros n H4 Hn. by apply message_packs.
  - intros post. by apply message_unpacks.
Qed.

(** The [struct_codes] lemmas of the structures drive the proofs of GxCodec.v. *)
Create HintDb gx_codes.

(** Walks through a sequence of macro calls. *)
Ltac gx_member :=
  lazymatch goal with
  | |- codes _ (CALCLEN_PRESENCE _) _ _ _ _ => apply codes_presence; reflexivity
  | |- codes _ (CALCLEN_BASIC _ _) _ _ _ _ => apply codes_basic; exact _
  | |- codes _ (CALCLEN_OCTETSTRING _) _ _ _ _ => apply codes_octets
  | |- codes _ (CALCLEN_STRUCT _ _) _ _ _ _ => apply codes_struct; auto with gx_codes
  | |- codes _ (CALCLEN_LIST_BASIC _ _) _ _ _ _ => apply codes_list_basic; exact _
  | |- codes _ (CALCLEN_LIST_OCTETSTRING _) _ _ _ _ => apply codes_list_octets
  | |- codes _ (CALCLEN_LIST_STRUCT _ _) _ _ _ _ => apply codes_list_struct; auto with gx_codes
  end.

Ltac gx_fields :=
  lazymatch goal with
  | |- fields_code [] _ _ (unpack_return _) _ ?d => apply fields_return; by destruct d
  | |- fields_code [] _ _ (unpack_skip _) _ ?d => apply fields_nil; by destruct d
  | |- fields_code (_ :: _) _ _ _ _ _ => eapply fields_cons; [gx_member|cbv beta; gx_fields]
  end.

Ltac gx_head u := lazymatch u with ?f _ => gx_head f | _ => u end.

(** A structure lemma: unfold the three functions, then walk through their calls. *)
Ltac gx_struct :=
  eapply struct_codes_intro; [reflexivity..|];
  intros d; cbv beta;
  match goal with |- fields_code _ _ _ ?u _ _ => let h := gx_head u in unfold h end;
  gx_fields.

Ltac gx_message :=
  eapply message_codes_intro; [reflexivity..|]; intros d; cbv beta; gx_fields.
