(* ===== verification/GxCodec.v ===== *)
(** * Correctness of the Gx codec

    [wire_<structure>] is the reference encoding of a structure, the members in
    order after the presence bits; [wf_<structure>] its well-formed values.  The
    lemmas [<structure>_codes] say, structure by structure, that the three functions
    of gx_pack.c agree on the encoding; the theorems at the end state it of the four
    messages, and what happens outside well-formed messages and zeroed buffers. *)
From S2P Require Import Prelude GxMacros GxStruct GxPack GxWire.

Definition wire_GxProxyInfo (data : GxProxyInfo) : list byte :=
  wire_all [
    wire_presence (presence_GxProxyInfo data);
    wire_octets data.(GxProxyInfo_proxy_host);
    wire_octets data.(GxProxyInfo_proxy_state)
  ].

Definition wire_GxPresenceReportingAreaInformation (data : GxPresenceReportingAreaInformation) : list byte :=
  wire_all [
    wire_presence (presence_GxPresenceReportingAreaInformation data);
    wire_octets data.(GxPresenceReportingAreaInformation_presence_reporting_area_identifier);
    wire_basic uint32_t data.(GxPresenceReportingAreaInformation_presence_reporting_area_status);
    wire_octets data.(GxPresenceReportingAreaInformation_presence_reporting_area_elements_list);
    wire_basic uint32_t data.(GxPresenceReportingAreaInformation_presence_reporting_area_node)
  ].

Definition wire_GxRoutingRuleRemove (data : GxRoutingRuleRemove) : list byte :=
  wire_all [
    wire_presence (presence_GxRoutingRuleRemove data);
    wire_list wire_string data.(GxRoutingRuleRemove_routing_rule_identifier)
  ].

Definition wire_GxRoutingFilter (data : GxRoutingFilter) : list byte :=
  wire_all [
    wire_presence (presence_GxRoutingFilter data);
    wire_octets data.(GxRoutingFilter_flow_description);
    wire_basic int32_t data.(GxRoutingFilter_flow_direction);
    wire_octets data.(GxRoutingFilter_tos_traffic_class);
    wire_octets data.(GxRoutingFilter_security_parameter_index);
    wire_octets data.(GxRoutingFilter_flow_label)
  ].

Definition wire_GxRoutingRuleDefinition (data : GxRoutingRuleDefinition) : list byte :=
  wire_all [
    wire_presence (presence_GxRoutingRuleDefinition data);
    wire_octets data.(GxRoutingRuleDefinition_routing_rule_identifier);
    wire_list wire_GxRoutingFilter data.(GxRoutingRuleDefinition_routing_filter);
    wire_basic uint32_t data.(GxRoutingRuleDefinition_precedence);
    wire_basic FdAddress data.(GxRoutingRuleDefinition_routing_ip_address);
    wire_basic int32_t data.(GxRoutingRuleDefinition_ip_can_type)
  ].

Definition wire_GxRoutingRuleInstall (data : GxRoutingRuleInstall) : list byte :=
  wire_all [
    wire_presence (presence_GxRoutingRuleInstall data);
    wire_list wire_GxRoutingRuleDefinition data.(GxRoutingRuleInstall_routing_rule_definition)
  ].

Definition wire_GxUnitValue (data : GxUnitValue) : list byte :=
  wire_all [
    wire_presence (presence_GxUnitValue data);
    wire_basic int64_t data.(GxUnitValue_value_digits);
    wire_basic int32_t data.(GxUnitValue_exponent)
  ].

Definition wire_GxCcMoney (data : GxCcMoney) : list byte :=
  wire_all [
    wire_presence (presence_GxCcMoney data);
    wire_struct wire_GxUnitValue data.(GxCcMoney_unit_value);
    wire_basic uint32_t data.(GxCcMoney_currency_code)
  ].

Definition wire_GxUsedServiceUnit (data : GxUsedServiceUnit) : list byte :=
  wire_all [
    wire_presence (presence_GxUsedServiceUnit data);
    wire_basic int32_t data.(GxUsedServiceUnit_reporting_reason);
    wire_basic int32_t data.(GxUsedServiceUnit_tariff_change_usage);
    wire_basic uint32_t data.(GxUsedServiceUnit_cc_time);
    wire_struct wire_GxCcMoney data.(GxUsedServiceUnit_cc_money);
    wire_basic uint64_t data.(GxUsedServiceUnit_cc_total_octets);
    wire_basic uint64_t data.(GxUsedServiceUnit_cc_input_octets);
    wire_basic uint64_t data.(GxUsedServiceUnit_cc_output_octets);
    wire_basic uint64_t data.(GxUsedServiceUnit_cc_service_specific_units);
    wire_list (obj_bytes FdTime) data.(GxUsedServiceUnit_event_charging_timestamp)
  ].

Definition wire_GxGrantedServiceUnit (data : GxGrantedServiceUnit) : list byte :=
  wire_all [
    wire_presence (presence_GxGrantedServiceUnit data);
    wire_basic FdTime data.(GxGrantedServiceUnit_tariff_time_change);
    wire_basic uint32_t data.(GxGrantedServiceUnit_cc_time);
    wire_struct wire_GxCcMoney data.(GxGrantedServiceUnit_cc_money);
    wire_basic uint64_t data.(GxGrantedServiceUnit_cc_total_octets);
    wire_basic uint64_t data.(GxGrantedServiceUnit_cc_input_octets);
    wire_basic uint64_t data.(GxGrantedServiceUnit_cc_output_octets);
    wire_basic uint64_t data.(GxGrantedServiceUnit_cc_service_specific_units)
  ].

Definition wire_GxUsageMonitoringInformation (data : GxUsageMonitoringInformation) : list byte :=
  wire_all [
    wire_presence (presence_GxUsageMonitoringInformation data);
    wire_octets data.(GxUsageMonitoringInformation_monitoring_key);
    wire_list wire_GxGrantedServiceUnit data.(GxUsageMonitoringInformation_granted_service_unit);
    wire_list wire_GxUsedServiceUnit data.(GxUsageMonitoringInformation_used_service_unit);
    wire_basic uint32_t data.(GxUsageMonitoringInformation_quota_consumption_time);
    wire_basic int32_t data.(GxUsageMonitoringInformation_usage_monitoring_level);
    wire_basic int32_t data.(GxUsageMonitoringInformation_usage_monitoring_report);
    wire_basic int32_t data.(GxUsageMonitoringInformation_usage_monitoring_support)
  ].

Definition wire_GxTunnelInformation (data : GxTunnelInformation) : list byte :=
  wire_all [
    wire_presence (presence_GxTunnelInformation data);
    wire_basic uint32_t data.(GxTunnelInformation_tunnel_header_length);
    wire_list wire_string data.(GxTunnelInformation_tunnel_header_filter)
  ].

Definition wire_GxCoaInformation (data : GxCoaInformation) : list byte :=
  wire_all [
    wire_presence (presence_GxCoaInformation data);
    wire_struct wire_GxTunnelInformation data.(GxCoaInformation_tunnel_information);
    wire_basic FdAddress data.(GxCoaInformation_coa_ip_address)
  ].

Definition wire_GxAccessNetworkChargingIdentifierGx (data : GxAccessNetworkChargingIdentifierGx) : list byte :=
  wire_all [
    wire_presence (presence_GxAccessNetworkChargingIdentifierGx data);
    wire_octets data.(GxAccessNetworkChargingIdentifierGx_access_network_charging_identifier_value);
    wire_list wire_string data.(GxAccessNetworkChargingIdentifierGx_charging_rule_base_name);
    wire_list wire_string data.(GxAccessNetworkChargingIdentifierGx_charging_rule_name);
    wire_basic int32_t data.(GxAccessNetworkChargingIdentifierGx_ip_can_session_charging_scope)
  ].

Definition wire_GxMbsfnArea (data : GxMbsfnArea) : list byte :=
  wire_all [
    wire_presence (presence_GxMbsfnArea data);
    wire_basic uint32_t data.(GxMbsfnArea_mbsfn_area_id);
    wire_basic uint32_t data.(GxMbsfnArea_carrier_frequency)
  ].

Definition wire_GxAreaScope (data : GxAreaScope) : list byte :=
  wire_all [
    wire_presence (presence_GxAreaScope data);
    wire_list wire_string data.(GxAreaScope_cell_global_identity);
    wire_list wire_string data.(GxAreaScope_e_utran_cell_global_identity);
    wire_list wire_string data.(GxAreaScope_routing_area_identity);
    wire_list wire_string data.(GxAreaScope_location_area_identity);
    wire_list wire_string data.(GxAreaScope_tracking_area_identity)
  ].

Definition wire_GxMdtConfiguration (data : GxMdtConfiguration) : list byte :=
  wire_all [
    wire_presence (presence_GxMdtConfiguration data);
    wire_basic int32_t data.(GxMdtConfiguration_job_type);
    wire_struct wire_GxAreaScope data.(GxMdtConfiguration_area_scope);
    wire_basic uint32_t data.(GxMdtConfiguration_list_of_measurements);
    wire_basic uint32_t data.(GxMdtConfiguration_reporting_trigger);
    wire_basic int32_t data.(GxMdtConfiguration_report_interval);
    wire_basic int32_t data.(GxMdtConfiguration_report_amount);
    wire_basic uint32_t data.(GxMdtConfiguration_event_threshold_rsrp);
    wire_basic uint32_t data.(GxMdtConfiguration_event_threshold_rsrq);
    wire_basic int32_t data.(GxMdtConfiguration_logging_interval);
    wire_basic int32_t data.(GxMdtConfiguration_logging_duration);
    wire_basic int32_t data.(GxMdtConfiguration_measurement_period_lte);
    wire_basic int32_t data.(GxMdtConfiguration_measurement_period_umts);
    wire_basic int32_t data.(GxMdtConfiguration_collection_period_rrm_lte);
    wire_basic int32_t data.(GxMdtConfiguration_collection_period_rrm_umts);
    wire_octets data.(GxMdtConfiguration_positioning_method);
    wire_octets data.(GxMdtConfiguration_measurement_quantity);
    wire_basic int32_t data.(GxMdtConfiguration_event_threshold_event_1f);
    wire_basic int32_t data.(GxMdtConfiguration_event_threshold_event_1i);
    wire_list wire_string data.(GxMdtConfiguration_mdt_allowed_plmn_id);
    wire_list wire_GxMbsfnArea data.(GxMdtConfiguration_mbsfn_area)
  ].

Definition wire_GxTraceData (data : GxTraceData) : list byte :=
  wire_all [
    wire_presence (presence_GxTraceData data);
    wire_octets data.(GxTraceData_trace_reference);
    wire_basic int32_t data.(GxTraceData_trace_depth);
    wire_octets data.(GxTraceData_trace_ne_type_list);
    wire_octets data.(GxTraceData_trace_interface_list);
    wire_octets data.(GxTraceData_trace_event_list);
    wire_octets data.(GxTraceData_omc_id);
    wire_basic FdAddress data.(GxTraceData_trace_collection_entity);
    wire_struct wire_GxMdtConfiguration data.(GxTraceData_mdt_configuration)
  ].

Definition wire_GxUserCsgInformation (data : GxUserCsgInformation) : list byte :=
  wire_all [
    wire_presence (presence_GxUserCsgInformation data);
    wire_basic uint32_t data.(GxUserCsgInformation_csg_id);
    wire_basic int32_t data.(GxUserCsgInformation_csg_access_mode);
    wire_basic int32_t data.(GxUserCsgInformation_csg_membership_indication)
  ].

Definition wire_GxEventReportIndication (data : GxEventReportIndication) : list byte :=
  wire_all [
    wire_presence (presence_GxEventReportIndication data);
    wire_basic int32_t data.(GxEventReportIndication_an_trusted);
    wire_list (obj_bytes int32_t) data.(GxEventReportIndication_event_trigger);
    wire_struct wire_GxUserCsgInformation data.(GxEventReportIndication_user_csg_information);
    wire_basic int32_t data.(GxEventReportIndication_ip_can_type);
    wire_list (obj_bytes FdAddress) data.(GxEventReportIndication_an_gw_address);
    wire_octets data.(GxEventReportIndication_tgpp_sgsn_address);
    wire_octets data.(GxEventReportIndication_tgpp_sgsn_ipv6_address);
    wire_octets data.(GxEventReportIndication_tgpp_sgsn_mcc_mnc);
    wire_octets data.(GxEventReportIndication_framed_ip_address);
    wire_basic int32_t data.(GxEventReportIndication_rat_type);
    wire_octets data.(GxEventReportIndication_rai);
    wire_octets data.(GxEventReportIndication_tgpp_user_location_info);
    wire_struct wire_GxTraceData data.(GxEventReportIndication_trace_data);
    wire_octets data.(GxEventReportIndication_trace_reference);
    wire_octets data.(GxEventReportIndication_tgpp2_bsid);
    wire_octets data.(GxEventReportIndication_tgpp_ms_timezone);
    wire_basic FdAddress data.(GxEventReportIndication_routing_ip_address);
    wire_basic FdAddress data.(GxEventReportIndication_ue_local_ip_address);
    wire_basic FdAddress data.(GxEventReportIndication_henb_local_ip_address);
    wire_basic uint32_t data.(GxEventReportIndication_udp_source_port);
    wire_struct wire_GxPresenceReportingAreaInformation data.(GxEventReportIndication_presence_reporting_area_information)
  ].

Definition wire_GxFlowInformation (data : GxFlowInformation) : list byte :=
  wire_all [
    wire_presence (presence_GxFlowInformation data);
    wire_octets data.(GxFlowInformation_flow_description);
    wire_octets data.(GxFlowInformation_packet_filter_identifier);
    wire_basic int32_t data.(GxFlowInformation_packet_filter_usage);
    wire_octets data.(GxFlowInformation_tos_traffic_class);
    wire_octets data.(GxFlowInformation_security_parameter_index);
    wire_octets data.(GxFlowInformation_flow_label);
    wire_basic int32_t data.(GxFlowInformation_flow_direction);
    wire_octets data.(GxFlowInformation_routing_rule_identifier)
  ].

Definition wire_GxApplicationDetectionInformation (data : GxApplicationDetectionInformation) : list byte :=
  wire_all [
    wire_presence (presence_GxApplicationDetectionInformation data);
    wire_octets data.(GxApplicationDetectionInformation_tdf_application_identifier);
    wire_octets data.(GxApplicationDetectionInformation_tdf_application_instance_identifier);
    wire_list wire_GxFlowInformation data.(GxApplicationDetectionInformation_flow_information)
  ].

Definition wire_GxRedirectServer (data : GxRedirectServer) : list byte :=
  wire_all [
    wire_presence (presence_GxRedirectServer data);
    wire_basic int32_t data.(GxRedirectServer_redirect_address_type);
    wire_octets data.(GxRedirectServer_redirect_server_address)
  ].

Definition wire_GxFinalUnitIndication (data : GxFinalUnitIndication) : list byte :=
  wire_all [
    wire_presence (presence_GxFinalUnitIndication data);
    wire_basic int32_t data.(GxFinalUnitIndication_final_unit_action);
    wire_list wire_string data.(GxFinalUnitIndication_restriction_filter_rule);
    wire_list wire_string data.(GxFinalUnitIndication_filter_id);
    wire_struct wire_GxRedirectServer data.(GxFinalUnitIndication_redirect_server)
  ].

Definition wire_GxChargingRuleReport (data : GxChargingRuleReport) : list byte :=
  wire_all [
    wire_presence (presence_GxChargingRuleReport data);
    wire_list wire_string data.(GxChargingRuleReport_charging_rule_name);
    wire_list wire_string data.(GxChargingRuleReport_charging_rule_base_name);
    wire_octets data.(GxChargingRuleReport_bearer_identifier);
    wire_basic int32_t data.(GxChargingRuleReport_pcc_rule_status);
    wire_basic int32_t data.(GxChargingRuleReport_rule_failure_code);
    wire_struct wire_GxFinalUnitIndication data.(GxChargingRuleReport_final_unit_indication);
    wire_list wire_string data.(GxChargingRuleReport_ran_nas_release_cause);
    wire_list (obj_bytes uint64_t) data.(GxChargingRuleReport_content_version)
  ].

Definition wire_GxTftPacketFilterInformation (data : GxTftPacketFilterInformation) : list byte :=
  wire_all [
    wire_presence (presence_GxTftPacketFilterInformation data);
    wire_basic uint32_t data.(GxTftPacketFilterInformation_precedence);
    wire_octets data.(GxTftPacketFilterInformation_tft_filter);
    wire_octets data.(GxTftPacketFilterInformation_tos_traffic_class);
    wire_octets data.(GxTftPacketFilterInformation_security_parameter_index);
    wire_octets data.(GxTftPacketFilterInformation_flow_label);
    wire_basic int32_t data.(GxTftPacketFilterInformation_flow_direction)
  ].

Definition wire_GxFixedUserLocationInfo (data : GxFixedUserLocationInfo) : list byte :=
  wire_all [
    wire_presence (presence_GxFixedUserLocationInfo data);
    wire_octets data.(GxFixedUserLocationInfo_ssid);
    wire_octets data.(GxFixedUserLocationInfo_bssid);
    wire_octets data.(GxFixedUserLocationInfo_logical_access_id);
    wire_octets data.(GxFixedUserLocationInfo_physical_access_id)
  ].

Definition wire_GxDefaultQosInformation (data : GxDefaultQosInformation) : list byte :=
  wire_all [
    wire_presence (presence_GxDefaultQosInformation data);
    wire_basic int32_t data.(GxDefaultQosInformation_qos_class_identifier);
    wire_basic uint32_t data.(GxDefaultQosInformation_max_requested_bandwidth_ul);
    wire_basic uint32_t data.(GxDefaultQosInformation_max_requested_bandwidth_dl);
    wire_octets data.(GxDefaultQosInformation_default_qos_name)
  ].

Definition wire_GxAllocationRetentionPriority (data : GxAllocationRetentionPriority) : list byte :=
  wire_all [
    wire_presence (presence_GxAllocationRetentionPriority data);
    wire_basic uint32_t data.(GxAllocationRetentionPriority_priority_level);
    wire_basic int32_t data.(GxAllocationRetentionPriority_pre_emption_capability);
    wire_basic int32_t data.(GxAllocationRetentionPriority_pre_emption_vulnerability)
  ].

Definition wire_GxDefaultEpsBearerQos (data : GxDefaultEpsBearerQos) : list byte :=
  wire_all [
    wire_presence (presence_GxDefaultEpsBearerQos data);
    wire_basic int32_t data.(GxDefaultEpsBearerQos_qos_class_identifier);
    wire_struct wire_GxAllocationRetentionPriority data.(GxDefaultEpsBearerQos_allocation_retention_priority)
  ].

Definition wire_GxConditionalApnAggregateMaxBitrate (data : GxConditionalApnAggregateMaxBitrate) : list byte :=
  wire_all [
    wire_presence (presence_GxConditionalApnAggregateMaxBitrate data);
    wire_basic uint32_t data.(GxConditionalApnAggregateMaxBitrate_apn_aggregate_max_bitrate_ul);
    wire_basic uint32_t data.(GxConditionalApnAggregateMaxBitrate_apn_aggregate_max_bitrate_dl);
    wire_basic uint32_t data.(GxConditionalApnAggregateMaxBitrate_extended_apn_ambr_ul);
    wire_basic uint32_t data.(GxConditionalApnAggregateMaxBitrate_extended_apn_ambr_dl);
    wire_list (obj_bytes int32_t) data.(GxConditionalApnAggregateMaxBitrate_ip_can_type);
    wire_list (obj_bytes int32_t) data.(GxConditionalApnAggregateMaxBitrate_rat_type)
  ].

Definition wire_GxQosInformation (data : GxQosInformation) : list byte :=
  wire_all [
    wire_presence (presence_GxQosInformation data);
    wire_basic int32_t data.(GxQosInformation_qos_class_identifier);
    wire_basic uint32_t data.(GxQosInformation_max_requested_bandwidth_ul);
    wire_basic uint32_t data.(GxQosInformation_max_requested_bandwidth_dl);
    wire_basic uint32_t data.(GxQosInformation_extended_max_requested_bw_ul);
    wire_basic uint32_t data.(GxQosInformation_extended_max_requested_bw_dl);
    wire_basic uint32_t data.(GxQosInformation_guaranteed_bitrate_ul);
    wire_basic uint32_t data.(GxQosInformation_guaranteed_bitrate_dl);
    wire_basic uint32_t data.(GxQosInformation_extended_gbr_ul);
    wire_basic uint32_t data.(GxQosInformation_extended_gbr_dl);
    wire_octets data.(GxQosInformation_bearer_identifier);
    wire_struct wire_GxAllocationRetentionPriority data.(GxQosInformation_allocation_retention_priority);
    wire_basic uint32_t data.(GxQosInformation_apn_aggregate_max_bitrate_ul);
    wire_basic uint32_t data.(GxQosInformation_apn_aggregate_max_bitrate_dl);
    wire_basic uint32_t data.(GxQosInformation_extended_apn_ambr_ul);
    wire_basic uint32_t data.(GxQosInformation_extended_apn_ambr_dl);
    wire_list wire_GxConditionalApnAggregateMaxBitrate data.(GxQosInformation_conditional_apn_aggregate_max_bitrate)
  ].

Definition wire_GxUserEquipmentInfo (data : GxUserEquipmentInfo) : list byte :=
  wire_all [
    wire_presence (presence_GxUserEquipmentInfo data);
    wire_basic int32_t data.(GxUserEquipmentInfo_user_equipment_info_type);
    wire_octets data.(GxUserEquipmentInfo_user_equipment_info_value)
  ].

Definition wire_GxPacketFilterInformation (data : GxPacketFilterInformation) : list byte :=
  wire_all [
    wire_presence (presence_GxPacketFilterInformation data);
    wire_octets data.(GxPacketFilterInformation_packet_filter_identifier);
    wire_basic uint32_t data.(GxPacketFilterInformation_precedence);
    wire_octets data.(GxPacketFilterInformation_packet_filter_content);
    wire_octets data.(GxPacketFilterInformation_tos_traffic_class);
    wire_octets data.(GxPacketFilterInformation_security_parameter_index);
    wire_octets data.(GxPacketFilterInformation_flow_label);
    wire_basic int32_t data.(GxPacketFilterInformation_flow_direction)
  ].

Definition wire_GxTdfInformation (data : GxTdfInformation) : list byte :=
  wire_all [
    wire_presence (presence_GxTdfInformation data);
    wire_octets data.(GxTdfInformation_tdf_destination_realm);
    wire_octets data.(GxTdfInformation_tdf_destination_host);
    wire_basic FdAddress data.(GxTdfInformation_tdf_ip_address)
  ].

Definition wire_GxSupportedFeatures (data : GxSupportedFeatures) : list byte :=
  wire_all [
    wire_presence (presence_GxSupportedFeatures data);
    wire_basic uint32_t data.(GxSupportedFeatures_vendor_id);
    wire_basic uint32_t data.(GxSupportedFeatures_feature_list_id);
    wire_basic uint32_t data.(GxSupportedFeatures_feature_list)
  ].

Definition wire_GxOcSupportedFeatures (data : GxOcSupportedFeatures) : list byte :=
  wire_all [
    wire_presence (presence_GxOcSupportedFeatures data);
    wire_basic uint64_t data.(GxOcSupportedFeatures_oc_feature_vector)
  ].

Definition wire_GxSubscriptionId (data : GxSubscriptionId) : list byte :=
  wire_all [
    wire_presence (presence_GxSubscriptionId data);
    wire_basic int32_t data.(GxSubscriptionId_subscription_id_type);
    wire_octets data.(GxSubscriptionId_subscription_id_data)
  ].

Definition wire_GxCCR (data : GxCCR) : list byte :=
  wire_all [
    wire_presence (presence_GxCCR data);
    wire_octets data.(GxCCR_session_id);
    wire_basic int32_t data.(GxCCR_drmp);
    wire_basic uint32_t data.(GxCCR_auth_application_id);
    wire_octets data.(GxCCR_origin_host);
    wire_octets data.(GxCCR_origin_realm);
    wire_octets data.(GxCCR_destination_realm);
    wire_octets data.(GxCCR_service_context_id);
    wire_basic int32_t data.(GxCCR_cc_request_type);
    wire_basic uint32_t data.(GxCCR_cc_request_number);
    wire_basic uint32_t data.(GxCCR_credit_management_status);
    wire_octets data.(GxCCR_destination_host);
    wire_basic uint32_t data.(GxCCR_origin_state_id);
    wire_list wire_GxSubscriptionId data.(GxCCR_subscription_id);
    wire_struct wire_GxOcSupportedFeatures data.(GxCCR_oc_supported_features);
    wire_list wire_GxSupportedFeatures data.(GxCCR_supported_features);
    wire_struct wire_GxTdfInformation data.(GxCCR_tdf_information);
    wire_basic int32_t data.(GxCCR_network_request_support);
    wire_list wire_GxPacketFilterInformation data.(GxCCR_packet_filter_information);
    wire_basic int32_t data.(GxCCR_packet_filter_operation);
    wire_octets data.(GxCCR_bearer_identifier);
    wire_basic int32_t data.(GxCCR_bearer_operation);
    wire_basic int32_t data.(GxCCR_dynamic_address_flag);
    wire_basic int32_t data.(GxCCR_dynamic_address_flag_extension);
    wire_basic uint32_t data.(GxCCR_pdn_connection_charging_id);
    wire_octets data.(GxCCR_framed_ip_address);
    wire_octets data.(GxCCR_framed_ipv6_prefix);
    wire_basic int32_t data.(GxCCR_ip_can_type);
    wire_octets data.(GxCCR_tgpp_rat_type);
    wire_basic int32_t data.(GxCCR_an_trusted);
    wire_basic int32_t data.(GxCCR_rat_type);
    wire_basic int32_t data.(GxCCR_termination_cause);
    wire_struct wire_GxUserEquipmentInfo data.(GxCCR_user_equipment_info);
    wire_struct wire_GxQosInformation data.(GxCCR_qos_information);
    wire_basic int32_t data.(GxCCR_qos_negotiation);
    wire_basic int32_t data.(GxCCR_qos_upgrade);
    wire_struct wire_GxDefaultEpsBearerQos data.(GxCCR_default_eps_bearer_qos);
    wire_struct wire_GxDefaultQosInformation data.(GxCCR_default_qos_information);
    wire_list (obj_bytes FdAddress) data.(GxCCR_an_gw_address);
    wire_basic int32_t data.(GxCCR_an_gw_status);
    wire_octets data.(GxCCR_tgpp_sgsn_mcc_mnc);
    wire_octets data.(GxCCR_tgpp_sgsn_address);
    wire_octets data.(GxCCR_tgpp_sgsn_ipv6_address);
    wire_octets data.(GxCCR_tgpp_ggsn_address);
    wire_octets data.(GxCCR_tgpp_ggsn_ipv6_address);
    wire_octets data.(GxCCR_tgpp_selection_mode);
    wire_octets data.(GxCCR_rai);
    wire_octets data.(GxCCR_tgpp_user_location_info);
    wire_struct wire_GxFixedUserLocationInfo data.(GxCCR_fixed_user_location_info);
    wire_basic FdTime data.(GxCCR_user_location_info_time);
    wire_struct wire_GxUserCsgInformation data.(GxCCR_user_csg_information);
    wire_octets data.(GxCCR_twan_identifier);
    wire_octets data.(GxCCR_tgpp_ms_timezone);
    wire_list wire_string data.(GxCCR_ran_nas_release_cause);
    wire_octets data.(GxCCR_tgpp_charging_characteristics);
    wire_octets data.(GxCCR_called_station_id);
    wire_octets data.(GxCCR_pdn_connection_id);
    wire_basic int32_t data.(GxCCR_bearer_usage);
    wire_basic int32_t data.(GxCCR_online);
    wire_basic int32_t data.(GxCCR_offline);
    wire_list wire_GxTftPacketFilterInformation data.(GxCCR_tft_packet_filter_information);
    wire_list wire_GxChargingRuleReport data.(GxCCR_charging_rule_report);
    wire_list wire_GxApplicationDetectionInformation data.(GxCCR_application_detection_information);
    wire_list (obj_bytes int32_t) data.(GxCCR_event_trigger);
    wire_struct wire_GxEventReportIndication data.(GxCCR_event_report_indication);
    wire_basic FdAddress data.(GxCCR_access_network_charging_address);
    wire_list wire_GxAccessNetworkChargingIdentifierGx data.(GxCCR_access_network_charging_identifier_gx);
    wire_list wire_GxCoaInformation data.(GxCCR_coa_information);
    wire_list wire_GxUsageMonitoringInformation data.(GxCCR_usage_monitoring_information);
    wire_basic int32_t data.(GxCCR_nbifom_support);
    wire_basic int32_t data.(GxCCR_nbifom_mode);
    wire_basic int32_t data.(GxCCR_default_access);
    wire_basic uint64_t data.(GxCCR_origination_time_stamp);
    wire_basic uint32_t data.(GxCCR_maximum_wait_time);
    wire_basic uint32_t data.(GxCCR_access_availability_change_reason);
    wire_struct wire_GxRoutingRuleInstall data.(GxCCR_routing_rule_install);
    wire_struct wire_GxRoutingRuleRemove data.(GxCCR_routing_rule_remove);
    wire_basic FdAddress data.(GxCCR_henb_local_ip_address);
    wire_basic FdAddress data.(GxCCR_ue_local_ip_address);
    wire_basic uint32_t data.(GxCCR_udp_source_port);
    wire_basic uint32_t data.(GxCCR_tcp_source_port);
    wire_list wire_GxPresenceReportingAreaInformation data.(GxCCR_presence_reporting_area_information);
    wire_octets data.(GxCCR_logical_access_id);
    wire_octets data.(GxCCR_physical_access_id);
    wire_list wire_GxProxyInfo data.(GxCCR_proxy_info);
    wire_list wire_string data.(GxCCR_route_record);
    wire_basic int32_t data.(GxCCR_tgpp_ps_data_off_status)
  ].

Definition wire_GxLoad (data : GxLoad) : list byte :=
  wire_all [
    wire_presence (presence_GxLoad data);
    wire_basic int32_t data.(GxLoad_load_type);
    wire_basic uint64_t data.(GxLoad_load_value);
    wire_octets data.(GxLoad_sourceid)
  ].

Definition wire_GxFailedAvp (data : GxFailedAvp) : list byte :=
  wire_all [
    wire_presence (presence_GxFailedAvp data)
  ].

Definition wire_GxConditionalPolicyInformation (data : GxConditionalPolicyInformation) : list byte :=
  wire_all [
    wire_presence (presence_GxConditionalPolicyInformation data);
    wire_basic FdTime data.(GxConditionalPolicyInformation_execution_time);
    wire_struct wire_GxDefaultEpsBearerQos data.(GxConditionalPolicyInformation_default_eps_bearer_qos);
    wire_basic uint32_t data.(GxConditionalPolicyInformation_apn_aggregate_max_bitrate_ul);
    wire_basic uint32_t data.(GxConditionalPolicyInformation_apn_aggregate_max_bitrate_dl);
    wire_basic uint32_t data.(GxConditionalPolicyInformation_extended_apn_ambr_ul);
    wire_basic uint32_t data.(GxConditionalPolicyInformation_extended_apn_ambr_dl);
    wire_list wire_GxConditionalApnAggregateMaxBitrate data.(GxConditionalPolicyInformation_conditional_apn_aggregate_max_bitrate)
  ].

Definition wire_GxRoutingRuleReport (data : GxRoutingRuleReport) : list byte :=
  wire_all [
    wire_presence (presence_GxRoutingRuleReport data);
    wire_list wire_string data.(GxRoutingRuleReport_routing_rule_identifier);
    wire_basic int32_t data.(GxRoutingRuleReport_pcc_rule_status);
    wire_basic uint32_t data.(GxRoutingRuleReport_routing_rule_failure_code)
  ].

Definition wire_GxPraRemove (data : GxPraRemove) : list byte :=
  wire_all [
    wire_presence (presence_GxPraRemove data);
    wire_list wire_string data.(GxPraRemove_presence_reporting_area_identifier)
  ].

Definition wire_GxPraInstall (data : GxPraInstall) : list byte :=
  wire_all [
    wire_presence (presence_GxPraInstall data);
    wire_list wire_GxPresenceReportingAreaInformation data.(GxPraInstall_presence_reporting_area_information)
  ].

Definition wire_GxChargingInformation (data : GxChargingInformation) : list byte :=
  wire_all [
    wire_presence (presence_GxChargingInformation data);
    wire_octets data.(GxChargingInformation_primary_event_charging_function_name);
    wire_octets data.(GxChargingInformation_secondary_event_charging_function_name);
    wire_octets data.(GxChargingInformation_primary_charging_collection_function_name);
    wire_octets data.(GxChargingInformation_secondary_charging_collection_function_name)
  ].

Definition wire_GxRedirectInformation (data : GxRedirectInformation) : list byte :=
  wire_all [
    wire_presence (presence_GxRedirectInformation data);
    wire_basic int32_t data.(GxRedirectInformation_redirect_support);
    wire_basic int32_t data.(GxRedirectInformation_redirect_address_type);
    wire_octets data.(GxRedirectInformation_redirect_server_address)
  ].

Definition wire_GxFlows (data : GxFlows) : list byte :=
  wire_all [
    wire_presence (presence_GxFlows data);
    wire_basic uint32_t data.(GxFlows_media_component_number);
    wire_list (obj_bytes uint32_t) data.(GxFlows_flow_number);
    wire_list (obj_bytes uint64_t) data.(GxFlows_content_version);
    wire_basic int32_t data.(GxFlows_final_unit_action);
    wire_basic uint32_t data.(GxFlows_media_component_status)
  ].

Definition wire_GxChargingRuleDefinition (data : GxChargingRuleDefinition) : list byte :=
  wire_all [
    wire_presence (presence_GxChargingRuleDefinition data);
    wire_octets data.(GxChargingRuleDefinition_charging_rule_name);
    wire_basic uint32_t data.(GxChargingRuleDefinition_service_identifier);
    wire_basic uint32_t data.(GxChargingRuleDefinition_rating_group);
    wire_list wire_GxFlowInformation data.(GxChargingRuleDefinition_flow_information);
    wire_basic int32_t data.(GxChargingRuleDefinition_default_bearer_indication);
    wire_octets data.(GxChargingRuleDefinition_tdf_application_identifier);
    wire_basic int32_t data.(GxChargingRuleDefinition_flow_status);
    wire_struct wire_GxQosInformation data.(GxChargingRuleDefinition_qos_information);
    wire_basic int32_t data.(GxChargingRuleDefinition_ps_to_cs_session_continuity);
    wire_basic int32_t data.(GxChargingRuleDefinition_reporting_level);
    wire_basic int32_t data.(GxChargingRuleDefinition_online);
    wire_basic int32_t data.(GxChargingRuleDefinition_offline);
    wire_basic float data.(GxChargingRuleDefinition_max_plr_dl);
    wire_basic float data.(GxChargingRuleDefinition_max_plr_ul);
    wire_basic int32_t data.(GxChargingRuleDefinition_metering_method);
    wire_basic uint32_t data.(GxChargingRuleDefinition_precedence);
    wire_octets data.(GxChargingRuleDefinition_af_charging_identifier);
    wire_list wire_GxFlows data.(GxChargingRuleDefinition_flows);
    wire_octets data.(GxChargingRuleDefinition_monitoring_key);
    wire_struct wire_GxRedirectInformation data.(GxChargingRuleDefinition_redirect_information);
    wire_basic int32_t data.(GxChargingRuleDefinition_mute_notification);
    wire_basic int32_t data.(GxChargingRuleDefinition_af_signalling_protocol);
    wire_octets data.(GxChargingRuleDefinition_sponsor_identity);
    wire_octets data.(GxChargingRuleDefinition_application_service_provider_identity);
    wire_list (obj_bytes int32_t) data.(GxChargingRuleDefinition_required_access_info);
    wire_basic uint32_t data.(GxChargingRuleDefinition_sharing_key_dl);
    wire_basic uint32_t data.(GxChargingRuleDefinition_sharing_key_ul);
    wire_octets data.(GxChargingRuleDefinition_traffic_steering_policy_identifier_dl);
    wire_octets data.(GxChargingRuleDefinition_traffic_steering_policy_identifier_ul);
    wire_basic uint64_t data.(GxChargingRuleDefinition_content_version)
  ].

Definition wire_GxChargingRuleInstall (data : GxChargingRuleInstall) : list byte :=
  wire_all [
    wire_presence (presence_GxChargingRuleInstall data);
    wire_list wire_GxChargingRuleDefinition data.(GxChargingRuleInstall_charging_rule_definition);
    wire_list wire_string data.(GxChargingRuleInstall_charging_rule_name);
    wire_list wire_string data.(GxChargingRuleInstall_charging_rule_base_name);
    wire_octets data.(GxChargingRuleInstall_bearer_identifier);
    wire_basic uint32_t data.(GxChargingRuleInstall_monitoring_flags);
    wire_basic FdTime data.(GxChargingRuleInstall_rule_activation_time);
    wire_basic FdTime data.(GxChargingRuleInstall_rule_deactivation_time);
    wire_basic int32_t data.(GxChargingRuleInstall_resource_allocation_notification);
    wire_basic int32_t data.(GxChargingRuleInstall_charging_correlation_indicator);
    wire_basic int32_t data.(GxChargingRuleInstall_ip_can_type)
  ].

Definition wire_GxChargingRuleRemove (data : GxChargingRuleRemove) : list byte :=
  wire_all [
    wire_presence (presence_GxChargingRuleRemove data);
    wire_list wire_string data.(GxChargingRuleRemove_charging_rule_name);
    wire_list wire_string data.(GxChargingRuleRemove_charging_rule_base_name);
    wire_list (obj_bytes int32_t) data.(GxChargingRuleRemove_required_access_info);
    wire_basic int32_t data.(GxChargingRuleRemove_resource_release_notification)
  ].

Definition wire_GxOcOlr (data : GxOcOlr) : list byte :=
  wire_all [
    wire_presence (presence_GxOcOlr data);
    wire_basic uint64_t data.(GxOcOlr_oc_sequence_number);
    wire_basic int32_t data.(GxOcOlr_oc_report_type);
    wire_basic uint32_t data.(GxOcOlr_oc_reduction_percentage);
    wire_basic uint32_t data.(GxOcOlr_oc_validity_duration)
  ].

Definition wire_GxExperimentalResult (data : GxExperimentalResult) : list byte :=
  wire_all [
    wire_presence (presence_GxExperimentalResult data);
    wire_basic uint32_t data.(GxExperimentalResult_vendor_id);
    wire_basic uint32_t data.(GxExperimentalResult_experimental_result_code)
  ].

Definition wire_GxCCA (data : GxCCA) : list byte :=
  wire_all [
    wire_presence (presence_GxCCA data);
    wire_octets data.(GxCCA_session_id);
    wire_basic int32_t data.(GxCCA_drmp);
    wire_basic uint32_t data.(GxCCA_auth_application_id);
    wire_octets data.(GxCCA_origin_host);
    wire_octets data.(GxCCA_origin_realm);
    wire_basic uint32_t data.(GxCCA_result_code);
    wire_struct wire_GxExperimentalResult data.(GxCCA_experimental_result);
    wire_basic int32_t data.(GxCCA_cc_request_type);
    wire_basic uint32_t data.(GxCCA_cc_request_number);
    wire_struct wire_GxOcSupportedFeatures data.(GxCCA_oc_supported_features);
    wire_struct wire_GxOcOlr data.(GxCCA_oc_olr);
    wire_list wire_GxSupportedFeatures data.(GxCCA_supported_features);
    wire_basic int32_t data.(GxCCA_bearer_control_mode);
    wire_list (obj_bytes int32_t) data.(GxCCA_event_trigger);
    wire_struct wire_GxEventReportIndication data.(GxCCA_event_report_indication);
    wire_basic uint32_t data.(GxCCA_origin_state_id);
    wire_list wire_string data.(GxCCA_redirect_host);
    wire_basic int32_t data.(GxCCA_redirect_host_usage);
    wire_basic uint32_t data.(GxCCA_redirect_max_cache_time);
    wire_list wire_GxChargingRuleRemove data.(GxCCA_charging_rule_remove);
    wire_list wire_GxChargingRuleInstall data.(GxCCA_charging_rule_install);
    wire_struct wire_GxChargingInformation data.(GxCCA_charging_information);
    wire_basic int32_t data.(GxCCA_online);
    wire_basic int32_t data.(GxCCA_offline);
    wire_list wire_GxQosInformation data.(GxCCA_qos_information);
    wire_basic FdTime data.(GxCCA_revalidation_time);
    wire_struct wire_GxDefaultEpsBearerQos data.(GxCCA_default_eps_bearer_qos);
    wire_struct wire_GxDefaultQosInformation data.(GxCCA_default_qos_information);
    wire_basic int32_t data.(GxCCA_bearer_usage);
    wire_list wire_GxUsageMonitoringInformation data.(GxCCA_usage_monitoring_information);
    wire_list (obj_bytes int32_t) data.(GxCCA_csg_information_reporting);
    wire_struct wire_GxUserCsgInformation data.(GxCCA_user_csg_information);
    wire_struct wire_GxPraInstall data.(GxCCA_pra_install);
    wire_struct wire_GxPraRemove data.(GxCCA_pra_remove);
    wire_struct wire_GxPresenceReportingAreaInformation data.(GxCCA_presence_reporting_area_information);
    wire_basic int32_t data.(GxCCA_session_release_cause);
    wire_basic int32_t data.(GxCCA_nbifom_support);
    wire_basic int32_t data.(GxCCA_nbifom_mode);
    wire_basic int32_t data.(GxCCA_default_access);
    wire_basic uint32_t data.(GxCCA_ran_rule_support);
    wire_list wire_GxRoutingRuleReport data.(GxCCA_routing_rule_report);
    wire_list wire_GxConditionalPolicyInformation data.(GxCCA_conditional_policy_information);
    wire_basic int32_t data.(GxCCA_removal_of_access);
    wire_basic int32_t data.(GxCCA_ip_can_type);
    wire_octets data.(GxCCA_error_message);
    wire_octets data.(GxCCA_error_reporting_host);
    wire_struct wire_GxFailedAvp data.(GxCCA_failed_avp);
    wire_list wire_GxProxyInfo data.(GxCCA_proxy_info);
    wire_list wire_string data.(GxCCA_route_record);
    wire_list wire_GxLoad data.(GxCCA_load)
  ].

Definition wire_GxRAA (data : GxRAA) : list byte :=
  wire_all [
    wire_presence (presence_GxRAA data);
    wire_octets data.(GxRAA_session_id);
    wire_basic int32_t data.(GxRAA_drmp);
    wire_octets data.(GxRAA_origin_host);
    wire_octets data.(GxRAA_origin_realm);
    wire_basic uint32_t data.(GxRAA_result_code);
    wire_struct wire_GxExperimentalResult data.(GxRAA_experimental_result);
    wire_basic uint32_t data.(GxRAA_origin_state_id);
    wire_struct wire_GxOcSupportedFeatures data.(GxRAA_oc_supported_features);
    wire_struct wire_GxOcOlr data.(GxRAA_oc_olr);
    wire_basic int32_t data.(GxRAA_ip_can_type);
    wire_basic int32_t data.(GxRAA_rat_type);
    wire_basic int32_t data.(GxRAA_an_trusted);
    wire_list (obj_bytes FdAddress) data.(GxRAA_an_gw_address);
    wire_octets data.(GxRAA_tgpp_sgsn_mcc_mnc);
    wire_octets data.(GxRAA_tgpp_sgsn_address);
    wire_octets data.(GxRAA_tgpp_sgsn_ipv6_address);
    wire_octets data.(GxRAA_rai);
    wire_octets data.(GxRAA_tgpp_user_location_info);
    wire_basic FdTime data.(GxRAA_user_location_info_time);
    wire_basic uint32_t data.(GxRAA_netloc_access_support);
    wire_struct wire_GxUserCsgInformation data.(GxRAA_user_csg_information);
    wire_octets data.(GxRAA_tgpp_ms_timezone);
    wire_struct wire_GxDefaultQosInformation data.(GxRAA_default_qos_information);
    wire_list wire_GxChargingRuleReport data.(GxRAA_charging_rule_report);
    wire_octets data.(GxRAA_error_message);
    wire_octets data.(GxRAA_error_reporting_host);
    wire_struct wire_GxFailedAvp data.(GxRAA_failed_avp);
    wire_list wire_GxProxyInfo data.(GxRAA_proxy_info)
  ].

Definition wire_GxRAR (data : GxRAR) : list byte :=
  wire_all [
    wire_presence (presence_GxRAR data);
    wire_octets data.(GxRAR_session_id);
    wire_basic int32_t data.(GxRAR_drmp);
    wire_basic uint32_t data.(GxRAR_auth_application_id);
    wire_octets data.(GxRAR_origin_host);
    wire_octets data.(GxRAR_origin_realm);
    wire_octets data.(GxRAR_destination_realm);
    wire_octets data.(GxRAR_destination_host);
    wire_basic int32_t data.(GxRAR_re_auth_request_type);
    wire_basic int32_t data.(GxRAR_session_release_cause);
    wire_basic uint32_t data.(GxRAR_origin_state_id);
    wire_struct wire_GxOcSupportedFeatures data.(GxRAR_oc_supported_features);
    wire_list (obj_bytes int32_t) data.(GxRAR_event_trigger);
    wire_struct wire_GxEventReportIndication data.(GxRAR_event_report_indication);
    wire_list wire_GxChargingRuleRemove data.(GxRAR_charging_rule_remove);
    wire_list wire_GxChargingRuleInstall data.(GxRAR_charging_rule_install);
    wire_struct wire_GxDefaultEpsBearerQos data.(GxRAR_default_eps_bearer_qos);
    wire_list wire_GxQosInformation data.(GxRAR_qos_information);
    wire_struct wire_GxDefaultQosInformation data.(GxRAR_default_qos_information);
    wire_basic FdTime data.(GxRAR_revalidation_time);
    wire_list wire_GxUsageMonitoringInformation data.(GxRAR_usage_monitoring_information);
    wire_basic uint32_t data.(GxRAR_pcscf_restoration_indication);
    wire_list wire_GxConditionalPolicyInformation data.(GxRAR_conditional_policy_information);
    wire_basic int32_t data.(GxRAR_removal_of_access);
    wire_basic int32_t data.(GxRAR_ip_can_type);
    wire_struct wire_GxPraInstall data.(GxRAR_pra_install);
    wire_struct wire_GxPraRemove data.(GxRAR_pra_remove);
    wire_list (obj_bytes int32_t) data.(GxRAR_csg_information_reporting);
    wire_list wire_GxProxyInfo data.(GxRAR_proxy_info);
    wire_list wire_string data.(GxRAR_route_record)
  ].

Definition wf_GxProxyInfo (data : GxProxyInfo) : bool :=
  wf_all [
    true;
    wf_octets data.(GxProxyInfo_proxy_host);
    wf_octets data.(GxProxyInfo_proxy_state)
  ].

Definition wf_GxPresenceReportingAreaInformation (data : GxPresenceReportingAreaInformation) : bool :=
  wf_all [
    true;
    wf_octets data.(GxPresenceReportingAreaInformation_presence_reporting_area_identifier);
    wf_basic uint32_t data.(GxPresenceReportingAreaInformation_presence_reporting_area_status);
    wf_octets data.(GxPresenceReportingAreaInformation_presence_reporting_area_elements_list);
    wf_basic uint32_t data.(GxPresenceReportingAreaInformation_presence_reporting_area_node)
  ].

Definition wf_GxRoutingRuleRemove (data : GxRoutingRuleRemove) : bool :=
  wf_all [
    true;
    wf_list_octets data.(GxRoutingRuleRemove_routing_rule_identifier)
  ].

Definition wf_GxRoutingFilter (data : GxRoutingFilter) : bool :=
  wf_all [
    true;
    wf_octets data.(GxRoutingFilter_flow_description);
    wf_basic int32_t data.(GxRoutingFilter_flow_direction);
    wf_octets data.(GxRoutingFilter_tos_traffic_class);
    wf_octets data.(GxRoutingFilter_security_parameter_index);
    wf_octets data.(GxRoutingFilter_flow_label)
  ].

Definition wf_GxRoutingRuleDefinition (data : GxRoutingRuleDefinition) : bool :=
  wf_all [
    true;
    wf_octets data.(GxRoutingRuleDefinition_routing_rule_identifier);
    wf_list wf_GxRoutingFilter data.(GxRoutingRuleDefinition_routing_filter);
    wf_basic uint32_t data.(GxRoutingRuleDefinition_precedence);
    wf_basic FdAddress data.(GxRoutingRuleDefinition_routing_ip_address);
    wf_basic int32_t data.(GxRoutingRuleDefinition_ip_can_type)
  ].

Definition wf_GxRoutingRuleInstall (data : GxRoutingRuleInstall) : bool :=
  wf_all [
    true;
    wf_list wf_GxRoutingRuleDefinition data.(GxRoutingRuleInstall_routing_rule_definition)
  ].

Definition wf_GxUnitValue (data : GxUnitValue) : bool :=
  wf_all [
    true;
    wf_basic int64_t data.(GxUnitValue_value_digits);
    wf_basic int32_t data.(GxUnitValue_exponent)
  ].

Definition wf_GxCcMoney (data : GxCcMoney) : bool :=
  wf_all [
    true;
    wf_option wf_GxUnitValue data.(GxCcMoney_unit_value);
    wf_basic uint32_t data.(GxCcMoney_currency_code)
  ].

Definition wf_GxUsedServiceUnit (data : GxUsedServiceUnit) : bool :=
  wf_all [
    true;
    wf_basic int32_t data.(GxUsedServiceUnit_reporting_reason);
    wf_basic int32_t data.(GxUsedServiceUnit_tariff_change_usage);
    wf_basic uint32_t data.(GxUsedServiceUnit_cc_time);
    wf_option wf_GxCcMoney data.(GxUsedServiceUnit_cc_money);
    wf_basic uint64_t data.(GxUsedServiceUnit_cc_total_octets);
    wf_basic uint64_t data.(GxUsedServiceUnit_cc_input_octets);
    wf_basic uint64_t data.(GxUsedServiceUnit_cc_output_octets);
    wf_basic uint64_t data.(GxUsedServiceUnit_cc_service_specific_units);
    wf_list (in_range FdTime) data.(GxUsedServiceUnit_event_charging_timestamp)
  ].

Definition wf_GxGrantedServiceUnit (data : GxGrantedServiceUnit) : bool :=
  wf_all [
    true;
    wf_basic FdTime data.(GxGrantedServiceUnit_tariff_time_change);
    wf_basic uint32_t data.(GxGrantedServiceUnit_cc_time);
    wf_option wf_GxCcMoney data.(GxGrantedServiceUnit_cc_money);
    wf_basic uint64_t data.(GxGrantedServiceUnit_cc_total_octets);
    wf_basic uint64_t data.(GxGrantedServiceUnit_cc_input_octets);
    wf_basic uint64_t data.(GxGrantedServiceUnit_cc_output_octets);
    wf_basic uint64_t data.(GxGrantedServiceUnit_cc_service_specific_units)
  ].

Definition wf_GxUsageMonitoringInformation (data : GxUsageMonitoringInformation) : bool :=
  wf_all [
    true;
    wf_octets data.(GxUsageMonitoringInformation_monitoring_key);
    wf_list wf_GxGrantedServiceUnit data.(GxUsageMonitoringInformation_granted_service_unit);
    wf_list wf_GxUsedServiceUnit data.(GxUsageMonitoringInformation_used_service_unit);
    wf_basic uint32_t data.(GxUsageMonitoringInformation_quota_consumption_time);
    wf_basic int32_t data.(GxUsageMonitoringInformation_usage_monitoring_level);
    wf_basic int32_t data.(GxUsageMonitoringInformation_usage_monitoring_report);
    wf_basic int32_t data.(GxUsageMonitoringInformation_usage_monitoring_support)
  ].

Definition wf_GxTunnelInformation (data : GxTunnelInformation) : bool :=
  wf_all [
    true;
    wf_basic uint32_t data.(GxTunnelInformation_tunnel_header_length);
    wf_list_octets data.(GxTunnelInformation_tunnel_header_filter)
  ].

Definition wf_GxCoaInformation (data : GxCoaInformation) : bool :=
  wf_all [
    true;
    wf_option wf_GxTunnelInformation data.(GxCoaInformation_tunnel_information);
    wf_basic FdAddress data.(GxCoaInformation_coa_ip_address)
  ].

Definition wf_GxAccessNetworkChargingIdentifierGx (data : GxAccessNetworkChargingIdentifierGx) : bool :=
  wf_all [
    true;
    wf_octets data.(GxAccessNetworkChargingIdentifierGx_access_network_charging_identifier_value);
    wf_list_octets data.(GxAccessNetworkChargingIdentifierGx_charging_rule_base_name);
    wf_list_octets data.(GxAccessNetworkChargingIdentifierGx_charging_rule_name);
    wf_basic int32_t data.(GxAccessNetworkChargingIdentifierGx_ip_can_session_charging_scope)
  ].

Definition wf_GxMbsfnArea (data : GxMbsfnArea) : bool :=
  wf_all [
    true;
    wf_basic uint32_t data.(GxMbsfnArea_mbsfn_area_id);
    wf_basic uint32_t data.(GxMbsfnArea_carrier_frequency)
  ].

Definition wf_GxAreaScope (data : GxAreaScope) : bool :=
  wf_all [
    true;
    wf_list_octets data.(GxAreaScope_cell_global_identity);
    wf_list_octets data.(GxAreaScope_e_utran_cell_global_identity);
    wf_list_octets data.(GxAreaScope_routing_area_identity);
    wf_list_octets data.(GxAreaScope_location_area_identity);
    wf_list_octets data.(GxAreaScope_tracking_area_identity)
  ].

Definition wf_GxMdtConfiguration (data : GxMdtConfiguration) : bool :=
  wf_all [
    true;
    wf_basic int32_t data.(GxMdtConfiguration_job_type);
    wf_option wf_GxAreaScope data.(GxMdtConfiguration_area_scope);
    wf_basic uint32_t data.(GxMdtConfiguration_list_of_measurements);
    wf_basic uint32_t data.(GxMdtConfiguration_reporting_trigger);
    wf_basic int32_t data.(GxMdtConfiguration_report_interval);
    wf_basic int32_t data.(GxMdtConfiguration_report_amount);
    wf_basic uint32_t data.(GxMdtConfiguration_event_threshold_rsrp);
    wf_basic uint32_t data.(GxMdtConfiguration_event_threshold_rsrq);
    wf_basic int32_t data.(GxMdtConfiguration_logging_interval);
    wf_basic int32_t data.(GxMdtConfiguration_logging_duration);
    wf_basic int32_t data.(GxMdtConfiguration_measurement_period_lte);
    wf_basic int32_t data.(GxMdtConfiguration_measurement_period_umts);
    wf_basic int32_t data.(GxMdtConfiguration_collection_period_rrm_lte);
    wf_basic int32_t data.(GxMdtConfiguration_collection_period_rrm_umts);
    wf_octets data.(GxMdtConfiguration_positioning_method);
    wf_octets data.(GxMdtConfiguration_measurement_quantity);
    wf_basic int32_t data.(GxMdtConfiguration_event_threshold_event_1f);
    wf_basic int32_t data.(GxMdtConfiguration_event_threshold_event_1i);
    wf_list_octets data.(GxMdtConfiguration_mdt_allowed_plmn_id);
    wf_list wf_GxMbsfnArea data.(GxMdtConfiguration_mbsfn_area)
  ].

Definition wf_GxTraceData (data : GxTraceData) : bool :=
  wf_all [
    true;
    wf_octets data.(GxTraceData_trace_reference);
    wf_basic int32_t data.(GxTraceData_trace_depth);
    wf_octets data.(GxTraceData_trace_ne_type_list);
    wf_octets data.(GxTraceData_trace_interface_list);
    wf_octets data.(GxTraceData_trace_event_list);
    wf_octets data.(GxTraceData_omc_id);
    wf_basic FdAddress data.(GxTraceData_trace_collection_entity);
    wf_option wf_GxMdtConfiguration data.(GxTraceData_mdt_configuration)
  ].

Definition wf_GxUserCsgInformation (data : GxUserCsgInformation) : bool :=
  wf_all [
    true;
    wf_basic uint32_t data.(GxUserCsgInformation_csg_id);
    wf_basic int32_t data.(GxUserCsgInformation_csg_access_mode);
    wf_basic int32_t data.(GxUserCsgInformation_csg_membership_indication)
  ].

Definition wf_GxEventReportIndication (data : GxEventReportIndication) : bool :=
  wf_all [
    true;
    wf_basic int32_t data.(GxEventReportIndication_an_trusted);
    wf_list (in_range int32_t) data.(GxEventReportIndication_event_trigger);
    wf_option wf_GxUserCsgInformation data.(GxEventReportIndication_user_csg_information);
    wf_basic int32_t data.(GxEventReportIndication_ip_can_type);
    wf_list (in_range FdAddress) data.(GxEventReportIndication_an_gw_address);
    wf_octets data.(GxEventReportIndication_tgpp_sgsn_address);
    wf_octets data.(GxEventReportIndication_tgpp_sgsn_ipv6_address);
    wf_octets data.(GxEventReportIndication_tgpp_sgsn_mcc_mnc);
    wf_octets data.(GxEventReportIndication_framed_ip_address);
    wf_basic int32_t data.(GxEventReportIndication_rat_type);
    wf_octets data.(GxEventReportIndication_rai);
    wf_octets data.(GxEventReportIndication_tgpp_user_location_info);
    wf_option wf_GxTraceData data.(GxEventReportIndication_trace_data);
    wf_octets data.(GxEventReportIndication_trace_reference);
    wf_octets data.(GxEventReportIndication_tgpp2_bsid);
    wf_octets data.(GxEventReportIndication_tgpp_ms_timezone);
    wf_basic FdAddress data.(GxEventReportIndication_routing_ip_address);
    wf_basic FdAddress data.(GxEventReportIndication_ue_local_ip_address);
    wf_basic FdAddress data.(GxEventReportIndication_henb_local_ip_address);
    wf_basic uint32_t data.(GxEventReportIndication_udp_source_port);
    wf_option wf_GxPresenceReportingAreaInformation data.(GxEventReportIndication_presence_reporting_area_information)
  ].

Definition wf_GxFlowInformation (data : GxFlowInformation) : bool :=
  wf_all [
    true;
    wf_octets data.(GxFlowInformation_flow_description);
    wf_octets data.(GxFlowInformation_packet_filter_identifier);
    wf_basic int32_t data.(GxFlowInformation_packet_filter_usage);
    wf_octets data.(GxFlowInformation_tos_traffic_class);
    wf_octets data.(GxFlowInformation_security_parameter_index);
    wf_octets data.(GxFlowInformation_flow_label);
    wf_basic int32_t data.(GxFlowInformation_flow_direction);
    wf_octets data.(GxFlowInformation_routing_rule_identifier)
  ].

Definition wf_GxApplicationDetectionInformation (data : GxApplicationDetectionInformation) : bool :=
  wf_all [
    true;
    wf_octets data.(GxApplicationDetectionInformation_tdf_application_identifier);
    wf_octets data.(GxApplicationDetectionInformation_tdf_application_instance_identifier);
    wf_list wf_GxFlowInformation data.(GxApplicationDetectionInformation_flow_information)
  ].

Definition wf_GxRedirectServer (data : GxRedirectServer) : bool :=
  wf_all [
    true;
    wf_basic int32_t data.(GxRedirectServer_redirect_address_type);
    wf_octets data.(GxRedirectServer_redirect_server_address)
  ].

Definition wf_GxFinalUnitIndication (data : GxFinalUnitIndication) : bool :=
  wf_all [
    true;
    wf_basic int32_t data.(GxFinalUnitIndication_final_unit_action);
    wf_list_octets data.(GxFinalUnitIndication_restriction_filter_rule);
    wf_list_octets data.(GxFinalUnitIndication_filter_id);
    wf_option wf_GxRedirectServer data.(GxFinalUnitIndication_redirect_server)
  ].

Definition wf_GxChargingRuleReport (data : GxChargingRuleReport) : bool :=
  wf_all [
    true;
    wf_list_octets data.(GxChargingRuleReport_charging_rule_name);
    wf_list_octets data.(GxChargingRuleReport_charging_rule_base_name);
    wf_octets data.(GxChargingRuleReport_bearer_identifier);
    wf_basic int32_t data.(GxChargingRuleReport_pcc_rule_status);
    wf_basic int32_t data.(GxChargingRuleReport_rule_failure_code);
    wf_option wf_GxFinalUnitIndication data.(GxChargingRuleReport_final_unit_indication);
    wf_list_octets data.(GxChargingRuleReport_ran_nas_release_cause);
    wf_list (in_range uint64_t) data.(GxChargingRuleReport_content_version)
  ].

Definition wf_GxTftPacketFilterInformation (data : GxTftPacketFilterInformation) : bool :=
  wf_all [
    true;
    wf_basic uint32_t data.(GxTftPacketFilterInformation_precedence);
    wf_octets data.(GxTftPacketFilterInformation_tft_filter);
    wf_octets data.(GxTftPacketFilterInformation_tos_traffic_class);
    wf_octets data.(GxTftPacketFilterInformation_security_parameter_index);
    wf_octets data.(GxTftPacketFilterInformation_flow_label);
    wf_basic int32_t data.(GxTftPacketFilterInformation_flow_direction)
  ].

Definition wf_GxFixedUserLocationInfo (data : GxFixedUserLocationInfo) : bool :=
  wf_all [
    true;
    wf_octets data.(GxFixedUserLocationInfo_ssid);
    wf_octets data.(GxFixedUserLocationInfo_bssid);
    wf_octets data.(GxFixedUserLocationInfo_logical_access_id);
    wf_octets data.(GxFixedUserLocationInfo_physical_access_id)
  ].

Definition wf_GxDefaultQosInformation (data : GxDefaultQosInformation) : bool :=
  wf_all [
    true;
    wf_basic int32_t data.(GxDefaultQosInformation_qos_class_identifier);
    wf_basic uint32_t data.(GxDefaultQosInformation_max_requested_bandwidth_ul);
    wf_basic uint32_t data.(GxDefaultQosInformation_max_requested_bandwidth_dl);
    wf_octets data.(GxDefaultQosInformation_default_qos_name)
  ].

Definition wf_GxAllocationRetentionPriority (data : GxAllocationRetentionPriority) : bool :=
  wf_all [
    true;
    wf_basic uint32_t data.(GxAllocationRetentionPriority_priority_level);
    wf_basic int32_t data.(GxAllocationRetentionPriority_pre_emption_capability);
    wf_basic int32_t data.(GxAllocationRetentionPriority_pre_emption_vulnerability)
  ].

Definition wf_GxDefaultEpsBearerQos (data : GxDefaultEpsBearerQos) : bool :=
  wf_all [
    true;
    wf_basic int32_t data.(GxDefaultEpsBearerQos_qos_class_identifier);
    wf_option wf_GxAllocationRetentionPriority data.(GxDefaultEpsBearerQos_allocation_retention_priority)
  ].

Definition wf_GxConditionalApnAggregateMaxBitrate (data : GxConditionalApnAggregateMaxBitrate) : bool :=
  wf_all [
    true;
    wf_basic uint32_t data.(GxConditionalApnAggregateMaxBitrate_apn_aggregate_max_bitrate_ul);
    wf_basic uint32_t data.(GxConditionalApnAggregateMaxBitrate_apn_aggregate_max_bitrate_dl);
    wf_basic uint32_t data.(GxConditionalApnAggregateMaxBitrate_extended_apn_ambr_ul);
    wf_basic uint32_t data.(GxConditionalApnAggregateMaxBitrate_extended_apn_ambr_dl);
    wf_list (in_range int32_t) data.(GxConditionalApnAggregateMaxBitrate_ip_can_type);
    wf_list (in_range int32_t) data.(GxConditionalApnAggregateMaxBitrate_rat_type)
  ].

Definition wf_GxQosInformation (data : GxQosInformation) : bool :=
  wf_all [
    true;
    wf_basic int32_t data.(GxQosInformation_qos_class_identifier);
    wf_basic uint32_t data.(GxQosInformation_max_requested_bandwidth_ul);
    wf_basic uint32_t data.(GxQosInformation_max_requested_bandwidth_dl);
    wf_basic uint32_t data.(GxQosInformation_extended_max_requested_bw_ul);
    wf_basic uint32_t data.(GxQosInformation_extended_max_requested_bw_dl);
    wf_basic uint32_t data.(GxQosInformation_guaranteed_bitrate_ul);
    wf_basic uint32_t data.(GxQosInformation_guaranteed_bitrate_dl);
    wf_basic uint32_t data.(GxQosInformation_extended_gbr_ul);
    wf_basic uint32_t data.(GxQosInformation_extended_gbr_dl);
    wf_octets data.(GxQosInformation_bearer_identifier);
    wf_option wf_GxAllocationRetentionPriority data.(GxQosInformation_allocation_retention_priority);
    wf_basic uint32_t data.(GxQosInformation_apn_aggregate_max_bitrate_ul);
    wf_basic uint32_t data.(GxQosInformation_apn_aggregate_max_bitrate_dl);
    wf_basic uint32_t data.(GxQosInformation_extended_apn_ambr_ul);
    wf_basic uint32_t data.(GxQosInformation_extended_apn_ambr_dl);
    wf_list wf_GxConditionalApnAggregateMaxBitrate data.(GxQosInformation_conditional_apn_aggregate_max_bitrate)
  ].

Definition wf_GxUserEquipmentInfo (data : GxUserEquipmentInfo) : bool :=
  wf_all [
    true;
    wf_basic int32_t data.(GxUserEquipmentInfo_user_equipment_info_type);
    wf_octets data.(GxUserEquipmentInfo_user_equipment_info_value)
  ].

Definition wf_GxPacketFilterInformation (data : GxPacketFilterInformation) : bool :=
  wf_all [
    true;
    wf_octets data.(GxPacketFilterInformation_packet_filter_identifier);
    wf_basic uint32_t data.(GxPacketFilterInformation_precedence);
    wf_octets data.(GxPacketFilterInformation_packet_filter_content);
    wf_octets data.(GxPacketFilterInformation_tos_traffic_class);
    wf_octets data.(GxPacketFilterInformation_security_parameter_index);
    wf_octets data.(GxPacketFilterInformation_flow_label);
    wf_basic int32_t data.(GxPacketFilterInformation_flow_direction)
  ].

Definition wf_GxTdfInformation (data : GxTdfInformation) : bool :=
  wf_all [
    true;
    wf_octets data.(GxTdfInformation_tdf_destination_realm);
    wf_octets data.(GxTdfInformation_tdf_destination_host);
    wf_basic FdAddress data.(GxTdfInformation_tdf_ip_address)
  ].

Definition wf_GxSupportedFeatures (data : GxSupportedFeatures) : bool :=
  wf_all [
    true;
    wf_basic uint32_t data.(GxSupportedFeatures_vendor_id);
    wf_basic uint32_t data.(GxSupportedFeatures_feature_list_id);
    wf_basic uint32_t data.(GxSupportedFeatures_feature_list)
  ].

Definition wf_GxOcSupportedFeatures (data : GxOcSupportedFeatures) : bool :=
  wf_all [
    true;
    wf_basic uint64_t data.(GxOcSupportedFeatures_oc_feature_vector)
  ].

Definition wf_GxSubscriptionId (data : GxSubscriptionId) : bool :=
  wf_all [
    true;
    wf_basic int32_t data.(GxSubscriptionId_subscription_id_type);
    wf_octets data.(GxSubscriptionId_subscription_id_data)
  ].

Definition wf_GxCCR (data : GxCCR) : bool :=
  wf_all [
    true;
    wf_octets data.(GxCCR_session_id);
    wf_basic int32_t data.(GxCCR_drmp);
    wf_basic uint32_t data.(GxCCR_auth_application_id);
    wf_octets data.(GxCCR_origin_host);
    wf_octets data.(GxCCR_origin_realm);
    wf_octets data.(GxCCR_destination_realm);
    wf_octets data.(GxCCR_service_context_id);
    wf_basic int32_t data.(GxCCR_cc_request_type);
    wf_basic uint32_t data.(GxCCR_cc_request_number);
    wf_basic uint32_t data.(GxCCR_credit_management_status);
    wf_octets data.(GxCCR_destination_host);
    wf_basic uint32_t data.(GxCCR_origin_state_id);
    wf_list wf_GxSubscriptionId data.(GxCCR_subscription_id);
    wf_option wf_GxOcSupportedFeatures data.(GxCCR_oc_supported_features);
    wf_list wf_GxSupportedFeatures data.(GxCCR_supported_features);
    wf_option wf_GxTdfInformation data.(GxCCR_tdf_information);
    wf_basic int32_t data.(GxCCR_network_request_support);
    wf_list wf_GxPacketFilterInformation data.(GxCCR_packet_filter_information);
    wf_basic int32_t data.(GxCCR_packet_filter_operation);
    wf_octets data.(GxCCR_bearer_identifier);
    wf_basic int32_t data.(GxCCR_bearer_operation);
    wf_basic int32_t data.(GxCCR_dynamic_address_flag);
    wf_basic int32_t data.(GxCCR_dynamic_address_flag_extension);
    wf_basic uint32_t data.(GxCCR_pdn_connection_charging_id);
    wf_octets data.(GxCCR_framed_ip_address);
    wf_octets data.(GxCCR_framed_ipv6_prefix);
    wf_basic int32_t data.(GxCCR_ip_can_type);
    wf_octets data.(GxCCR_tgpp_rat_type);
    wf_basic int32_t data.(GxCCR_an_trusted);
    wf_basic int32_t data.(GxCCR_rat_type);
    wf_basic int32_t data.(GxCCR_termination_cause);
    wf_option wf_GxUserEquipmentInfo data.(GxCCR_user_equipment_info);
    wf_option wf_GxQosInformation data.(GxCCR_qos_information);
    wf_basic int32_t data.(GxCCR_qos_negotiation);
    wf_basic int32_t data.(GxCCR_qos_upgrade);
    wf_option wf_GxDefaultEpsBearerQos data.(GxCCR_default_eps_bearer_qos);
    wf_option wf_GxDefaultQosInformation data.(GxCCR_default_qos_information);
    wf_list (in_range FdAddress) data.(GxCCR_an_gw_address);
    wf_basic int32_t data.(GxCCR_an_gw_status);
    wf_octets data.(GxCCR_tgpp_sgsn_mcc_mnc);
    wf_octets data.(GxCCR_tgpp_sgsn_address);
    wf_octets data.(GxCCR_tgpp_sgsn_ipv6_address);
    wf_octets data.(GxCCR_tgpp_ggsn_address);
    wf_octets data.(GxCCR_tgpp_ggsn_ipv6_address);
    wf_octets data.(GxCCR_tgpp_selection_mode);
    wf_octets data.(GxCCR_rai);
    wf_octets data.(GxCCR_tgpp_user_location_info);
    wf_option wf_GxFixedUserLocationInfo data.(GxCCR_fixed_user_location_info);
    wf_basic FdTime data.(GxCCR_user_location_info_time);
    wf_option wf_GxUserCsgInformation data.(GxCCR_user_csg_information);
    wf_octets data.(GxCCR_twan_identifier);
    wf_octets data.(GxCCR_tgpp_ms_timezone);
    wf_list_octets data.(GxCCR_ran_nas_release_cause);
    wf_octets data.(GxCCR_tgpp_charging_characteristics);
    wf_octets data.(GxCCR_called_station_id);
    wf_octets data.(GxCCR_pdn_connection_id);
    wf_basic int32_t data.(GxCCR_bearer_usage);
    wf_basic int32_t data.(GxCCR_online);
    wf_basic int32_t data.(GxCCR_offline);
    wf_list wf_GxTftPacketFilterInformation data.(GxCCR_tft_packet_filter_information);
    wf_list wf_GxChargingRuleReport data.(GxCCR_charging_rule_report);
    wf_list wf_GxApplicationDetectionInformation data.(GxCCR_application_detection_information);
    wf_list (in_range int32_t) data.(GxCCR_event_trigger);
    wf_option wf_GxEventReportIndication data.(GxCCR_event_report_indication);
    wf_basic FdAddress data.(GxCCR_access_network_charging_address);
    wf_list wf_GxAccessNetworkChargingIdentifierGx data.(GxCCR_access_network_charging_identifier_gx);
    wf_list wf_GxCoaInformation data.(GxCCR_coa_information);
    wf_list wf_GxUsageMonitoringInformation data.(GxCCR_usage_monitoring_information);
    wf_basic int32_t data.(GxCCR_nbifom_support);
    wf_basic int32_t data.(GxCCR_nbifom_mode);
    wf_basic int32_t data.(GxCCR_default_access);
    wf_basic uint64_t data.(GxCCR_origination_time_stamp);
    wf_basic uint32_t data.(GxCCR_maximum_wait_time);
    wf_basic uint32_t data.(GxCCR_access_availability_change_reason);
    wf_option wf_GxRoutingRuleInstall data.(GxCCR_routing_rule_install);
    wf_option wf_GxRoutingRuleRemove data.(GxCCR_routing_rule_remove);
    wf_basic FdAddress data.(GxCCR_henb_local_ip_address);
    wf_basic FdAddress data.(GxCCR_ue_local_ip_address);
    wf_basic uint32_t data.(GxCCR_udp_source_port);
    wf_basic uint32_t data.(GxCCR_tcp_source_port);
    wf_list wf_GxPresenceReportingAreaInformation data.(GxCCR_presence_reporting_area_information);
    wf_octets data.(GxCCR_logical_access_id);
    wf_octets data.(GxCCR_physical_access_id);
    wf_list wf_GxProxyInfo data.(GxCCR_proxy_info);
    wf_list_octets data.(GxCCR_route_record);
    wf_basic int32_t data.(GxCCR_tgpp_ps_data_off_status)
  ].

Definition wf_GxLoad (data : GxLoad) : bool :=
  wf_all [
    true;
    wf_basic int32_t data.(GxLoad_load_type);
    wf_basic uint64_t data.(GxLoad_load_value);
    wf_octets data.(GxLoad_sourceid)
  ].

Definition wf_GxFailedAvp (data : GxFailedAvp) : bool :=
  wf_all [
    true
  ].

Definition wf_GxConditionalPolicyInformation (data : GxConditionalPolicyInformation) : bool :=
  wf_all [
    true;
    wf_basic FdTime data.(GxConditionalPolicyInformation_execution_time);
    wf_option wf_GxDefaultEpsBearerQos data.(GxConditionalPolicyInformation_default_eps_bearer_qos);
    wf_basic uint32_t data.(GxConditionalPolicyInformation_apn_aggregate_max_bitrate_ul);
    wf_basic uint32_t data.(GxConditionalPolicyInformation_apn_aggregate_max_bitrate_dl);
    wf_basic uint32_t data.(GxConditionalPolicyInformation_extended_apn_ambr_ul);
    wf_basic uint32_t data.(GxConditionalPolicyInformation_extended_apn_ambr_dl);
    wf_list wf_GxConditionalApnAggregateMaxBitrate data.(GxConditionalPolicyInformation_conditional_apn_aggregate_max_bitrate)
  ].

Definition wf_GxRoutingRuleReport (data : GxRoutingRuleReport) : bool :=
  wf_all [
    true;
    wf_list_octets data.(GxRoutingRuleReport_routing_rule_identifier);
    wf_basic int32_t data.(GxRoutingRuleReport_pcc_rule_status);
    wf_basic uint32_t data.(GxRoutingRuleReport_routing_rule_failure_code)
  ].

Definition wf_GxPraRemove (data : GxPraRemove) : bool :=
  wf_all [
    true;
    wf_list_octets data.(GxPraRemove_presence_reporting_area_identifier)
  ].

Definition wf_GxPraInstall (data : GxPraInstall) : bool :=
  wf_all [
    true;
    wf_list wf_GxPresenceReportingAreaInformation data.(GxPraInstall_presence_reporting_area_information)
  ].

Definition wf_GxChargingInformation (data : GxChargingInformation) : bool :=
  wf_all [
    true;
    wf_octets data.(GxChargingInformation_primary_event_charging_function_name);
    wf_octets data.(GxChargingInformation_secondary_event_charging_function_name);
    wf_octets data.(GxChargingInformation_primary_charging_collection_function_name);
    wf_octets data.(GxChargingInformation_secondary_charging_collection_function_name)
  ].

Definition wf_GxRedirectInformation (data : GxRedirectInformation) : bool :=
  wf_all [
    true;
    wf_basic int32_t data.(GxRedirectInformation_redirect_support);
    wf_basic int32_t data.(GxRedirectInformation_redirect_address_type);
    wf_octets data.(GxRedirectInformation_redirect_server_address)
  ].

Definition wf_GxFlows (data : GxFlows) : bool :=
  wf_all [
    true;
    wf_basic uint32_t data.(GxFlows_media_component_number);
    wf_list (in_range uint32_t) data.(GxFlows_flow_number);
    wf_list (in_range uint64_t) data.(GxFlows_content_version);
    wf_basic int32_t data.(GxFlows_final_unit_action);
    wf_basic uint32_t data.(GxFlows_media_component_status)
  ].

Definition wf_GxChargingRuleDefinition (data : GxChargingRuleDefinition) : bool :=
  wf_all [
    true;
    wf_octets data.(GxChargingRuleDefinition_charging_rule_name);
    wf_basic uint32_t data.(GxChargingRuleDefinition_service_identifier);
    wf_basic uint32_t data.(GxChargingRuleDefinition_rating_group);
    wf_list wf_GxFlowInformation data.(GxChargingRuleDefinition_flow_information);
    wf_basic int32_t data.(GxChargingRuleDefinition_default_bearer_indication);
    wf_octets data.(GxChargingRuleDefinition_tdf_application_identifier);
    wf_basic int32_t data.(GxChargingRuleDefinition_flow_status);
    wf_option wf_GxQosInformation data.(GxChargingRuleDefinition_qos_information);
    wf_basic int32_t data.(GxChargingRuleDefinition_ps_to_cs_session_continuity);
    wf_basic int32_t data.(GxChargingRuleDefinition_reporting_level);
    wf_basic int32_t data.(GxChargingRuleDefinition_online);
    wf_basic int32_t data.(GxChargingRuleDefinition_offline);
    wf_basic float data.(GxChargingRuleDefinition_max_plr_dl);
    wf_basic float data.(GxChargingRuleDefinition_max_plr_ul);
    wf_basic int32_t data.(GxChargingRuleDefinition_metering_method);
    wf_basic uint32_t data.(GxChargingRuleDefinition_precedence);
    wf_octets data.(GxChargingRuleDefinition_af_charging_identifier);
    wf_list wf_GxFlows data.(GxChargingRuleDefinition_flows);
    wf_octets data.(GxChargingRuleDefinition_monitoring_key);
    wf_option wf_GxRedirectInformation data.(GxChargingRuleDefinition_redirect_information);
    wf_basic int32_t data.(GxChargingRuleDefinition_mute_notification);
    wf_basic int32_t data.(GxChargingRuleDefinition_af_signalling_protocol);
    wf_octets data.(GxChargingRuleDefinition_sponsor_identity);
    wf_octets data.(GxChargingRuleDefinition_application_service_provider_identity);
    wf_list (in_range int32_t) data.(GxChargingRuleDefinition_required_access_info);
    wf_basic uint32_t data.(GxChargingRuleDefinition_sharing_key_dl);
    wf_basic uint32_t data.(GxChargingRuleDefinition_sharing_key_ul);
    wf_octets data.(GxChargingRuleDefinition_traffic_steering_policy_identifier_dl);
    wf_octets data.(GxChargingRuleDefinition_traffic_steering_policy_identifier_ul);
    wf_basic uint64_t data.(GxChargingRuleDefinition_content_version)
  ].

Definition wf_GxChargingRuleInstall (data : GxChargingRuleInstall) : bool :=
  wf_all [
    true;
    wf_list wf_GxChargingRuleDefinition data.(GxChargingRuleInstall_charging_rule_definition);
    wf_list_octets data.(GxChargingRuleInstall_charging_rule_name);
    wf_list_octets data.(GxChargingRuleInstall_charging_rule_base_name);
    wf_octets data.(GxChargingRuleInstall_bearer_identifier);
    wf_basic uint32_t data.(GxChargingRuleInstall_monitoring_flags);
    wf_basic FdTime data.(GxChargingRuleInstall_rule_activation_time);
    wf_basic FdTime data.(GxChargingRuleInstall_rule_deactivation_time);
    wf_basic int32_t data.(GxChargingRuleInstall_resource_allocation_notification);
    wf_basic int32_t data.(GxChargingRuleInstall_charging_correlation_indicator);
    wf_basic int32_t data.(GxChargingRuleInstall_ip_can_type)
  ].

Definition wf_GxChargingRuleRemove (data : GxChargingRuleRemove) : bool :=
  wf_all [
    true;
    wf_list_octets data.(GxChargingRuleRemove_charging_rule_name);
    wf_list_octets data.(GxChargingRuleRemove_charging_rule_base_name);
    wf_list (in_range int32_t) data.(GxChargingRuleRemove_required_access_info);
    wf_basic int32_t data.(GxChargingRuleRemove_resource_release_notification)
  ].

Definition wf_GxOcOlr (data : GxOcOlr) : bool :=
  wf_all [
    true;
    wf_basic uint64_t data.(GxOcOlr_oc_sequence_number);
    wf_basic int32_t data.(GxOcOlr_oc_report_type);
    wf_basic uint32_t data.(GxOcOlr_oc_reduction_percentage);
    wf_basic uint32_t data.(GxOcOlr_oc_validity_duration)
  ].

Definition wf_GxExperimentalResult (data : GxExperimentalResult) : bool :=
  wf_all [
    true;
    wf_basic uint32_t data.(GxExperimentalResult_vendor_id);
    wf_basic uint32_t data.(GxExperimentalResult_experimental_result_code)
  ].

Definition wf_GxCCA (data : GxCCA) : bool :=
  wf_all [
    true;
    wf_octets data.(GxCCA_session_id);
    wf_basic int32_t data.(GxCCA_drmp);
    wf_basic uint32_t data.(GxCCA_auth_application_id);
    wf_octets data.(GxCCA_origin_host);
    wf_octets data.(GxCCA_origin_realm);
    wf_basic uint32_t data.(GxCCA_result_code);
    wf_option wf_GxExperimentalResult data.(GxCCA_experimental_result);
    wf_basic int32_t data.(GxCCA_cc_request_type);
    wf_basic uint32_t data.(GxCCA_cc_request_number);
    wf_option wf_GxOcSupportedFeatures data.(GxCCA_oc_supported_features);
    wf_option wf_GxOcOlr data.(GxCCA_oc_olr);
    wf_list wf_GxSupportedFeatures data.(GxCCA_supported_features);
    wf_basic int32_t data.(GxCCA_bearer_control_mode);
    wf_list (in_range int32_t) data.(GxCCA_event_trigger);
    wf_option wf_GxEventReportIndication data.(GxCCA_event_report_indication);
    wf_basic uint32_t data.(GxCCA_origin_state_id);
    wf_list_octets data.(GxCCA_redirect_host);
    wf_basic int32_t data.(GxCCA_redirect_host_usage);
    wf_basic uint32_t data.(GxCCA_redirect_max_cache_time);
    wf_list wf_GxChargingRuleRemove data.(GxCCA_charging_rule_remove);
    wf_list wf_GxChargingRuleInstall data.(GxCCA_charging_rule_install);
    wf_option wf_GxChargingInformation data.(GxCCA_charging_information);
    wf_basic int32_t data.(GxCCA_online);
    wf_basic int32_t data.(GxCCA_offline);
    wf_list wf_GxQosInformation data.(GxCCA_qos_information);
    wf_basic FdTime data.(GxCCA_revalidation_time);
    wf_option wf_GxDefaultEpsBearerQos data.(GxCCA_default_eps_bearer_qos);
    wf_option wf_GxDefaultQosInformation data.(GxCCA_default_qos_information);
    wf_basic int32_t data.(GxCCA_bearer_usage);
    wf_list wf_GxUsageMonitoringInformation data.(GxCCA_usage_monitoring_information);
    wf_list (in_range int32_t) data.(GxCCA_csg_information_reporting);
    wf_option wf_GxUserCsgInformation data.(GxCCA_user_csg_information);
    wf_option wf_GxPraInstall data.(GxCCA_pra_install);
    wf_option wf_GxPraRemove data.(GxCCA_pra_remove);
    wf_option wf_GxPresenceReportingAreaInformation data.(GxCCA_presence_reporting_area_information);
    wf_basic int32_t data.(GxCCA_session_release_cause);
    wf_basic int32_t data.(GxCCA_nbifom_support);
    wf_basic int32_t data.(GxCCA_nbifom_mode);
    wf_basic int32_t data.(GxCCA_default_access);
    wf_basic uint32_t data.(GxCCA_ran_rule_support);
    wf_list wf_GxRoutingRuleReport data.(GxCCA_routing_rule_report);
    wf_list wf_GxConditionalPolicyInformation data.(GxCCA_conditional_policy_information);
    wf_basic int32_t data.(GxCCA_removal_of_access);
    wf_basic int32_t data.(GxCCA_ip_can_type);
    wf_octets data.(GxCCA_error_message);
    wf_octets data.(GxCCA_error_reporting_host);
    wf_option wf_GxFailedAvp data.(GxCCA_failed_avp);
    wf_list wf_GxProxyInfo data.(GxCCA_proxy_info);
    wf_list_octets data.(GxCCA_route_record);
    wf_list wf_GxLoad data.(GxCCA_load)
  ].

Definition wf_GxRAA (data : GxRAA) : bool :=
  wf_all [
    true;
    wf_octets data.(GxRAA_session_id);
    wf_basic int32_t data.(GxRAA_drmp);
    wf_octets data.(GxRAA_origin_host);
    wf_octets data.(GxRAA_origin_realm);
    wf_basic uint32_t data.(GxRAA_result_code);
    wf_option wf_GxExperimentalResult data.(GxRAA_experimental_result);
    wf_basic uint32_t data.(GxRAA_origin_state_id);
    wf_option wf_GxOcSupportedFeatures data.(GxRAA_oc_supported_features);
    wf_option wf_GxOcOlr data.(GxRAA_oc_olr);
    wf_basic int32_t data.(GxRAA_ip_can_type);
    wf_basic int32_t data.(GxRAA_rat_type);
    wf_basic int32_t data.(GxRAA_an_trusted);
    wf_list (in_range FdAddress) data.(GxRAA_an_gw_address);
    wf_octets data.(GxRAA_tgpp_sgsn_mcc_mnc);
    wf_octets data.(GxRAA_tgpp_sgsn_address);
    wf_octets data.(GxRAA_tgpp_sgsn_ipv6_address);
    wf_octets data.(GxRAA_rai);
    wf_octets data.(GxRAA_tgpp_user_location_info);
    wf_basic FdTime data.(GxRAA_user_location_info_time);
    wf_basic uint32_t data.(GxRAA_netloc_access_support);
    wf_option wf_GxUserCsgInformation data.(GxRAA_user_csg_information);
    wf_octets data.(GxRAA_tgpp_ms_timezone);
    wf_option wf_GxDefaultQosInformation data.(GxRAA_default_qos_information);
    wf_list wf_GxChargingRuleReport data.(GxRAA_charging_rule_report);
    wf_octets data.(GxRAA_error_message);
    wf_octets data.(GxRAA_error_reporting_host);
    wf_option wf_GxFailedAvp data.(GxRAA_failed_avp);
    wf_list wf_GxProxyInfo data.(GxRAA_proxy_info)
  ].

Definition wf_GxRAR (data : GxRAR) : bool :=
  wf_all [
    true;
    wf_octets data.(GxRAR_session_id);
    wf_basic int32_t data.(GxRAR_drmp);
    wf_basic uint32_t data.(GxRAR_auth_application_id);
    wf_octets data.(GxRAR_origin_host);
    wf_octets data.(GxRAR_origin_realm);
    wf_octets data.(GxRAR_destination_realm);
    wf_octets data.(GxRAR_destination_host);
    wf_basic int32_t data.(GxRAR_re_auth_request_type);
    wf_basic int32_t data.(GxRAR_session_release_cause);
    wf_basic uint32_t data.(GxRAR_origin_state_id);
    wf_option wf_GxOcSupportedFeatures data.(GxRAR_oc_supported_features);
    wf_list (in_range int32_t) data.(GxRAR_event_trigger);
    wf_option wf_GxEventReportIndication data.(GxRAR_event_report_indication);
    wf_list wf_GxChargingRuleRemove data.(GxRAR_charging_rule_remove);
    wf_list wf_GxChargingRuleInstall data.(GxRAR_charging_rule_install);
    wf_option wf_GxDefaultEpsBearerQos data.(GxRAR_default_eps_bearer_qos);
    wf_list wf_GxQosInformation data.(GxRAR_qos_information);
    wf_option wf_GxDefaultQosInformation data.(GxRAR_default_qos_information);
    wf_basic FdTime data.(GxRAR_revalidation_time);
    wf_list wf_GxUsageMonitoringInformation data.(GxRAR_usage_monitoring_information);
    wf_basic uint32_t data.(GxRAR_pcscf_restoration_indication);
    wf_list wf_GxConditionalPolicyInformation data.(GxRAR_conditional_policy_information);
    wf_basic int32_t data.(GxRAR_removal_of_access);
    wf_basic int32_t data.(GxRAR_ip_can_type);
    wf_option wf_GxPraInstall data.(GxRAR_pra_install);
    wf_option wf_GxPraRemove data.(GxRAR_pra_remove);
    wf_list (in_range int32_t) data.(GxRAR_csg_information_reporting);
    wf_list wf_GxProxyInfo data.(GxRAR_proxy_info);
    wf_list_octets data.(GxRAR_route_record)
  ].

(** An allocator that never runs out of memory. *)

#[local] Instance malloc_any : Malloc := fun _ n => bool_decide (0 <= n).

(** Messages with members of every kind. *)

Definition sample_ccr : GxCCR :=
    mkGxCCR
      (Some [x73; x31]) None None None None None None (Some 1) (Some 0) None None None
      (Some [mkGxSubscriptionId (Some 1) (Some [x39; x39])]) None None None None None None None
      None None None None None None None None None None None None None None None None None
      (Some [mk_fdAddress 1 (replicate 16 x0a)]) None None None None None None None None None
      None None None None None (Some [[x00; x01]]) None None None None None None None None None
      (Some []) None None None None None None None None None None None None None None None None
      None None None None None (Some [[x61]; [x62; x63]]) (Some (-1)).

Definition sample_cca : GxCCA :=
    mkGxCCA
      (Some [x73; x31]) None None None None None None (Some 1) None None None None None
      (Some [17; 18]) None None None None None
      (Some [mkGxChargingRuleRemove (Some [[x72]]) None None None]) None None None None None
      (Some 1600000000) None None None None None None None None None None None None None None
      None None None None None None (Some mkGxFailedAvp) None (Some [[x61]; [x62; x63]]) None.

Definition sample_rar : GxRAR :=
    mkGxRAR
      (Some [x73; x31]) None (Some 16777238) None None None None None None None None (Some [17])
      None None None None None None None None None None None None None None None None
      (Some [[x61]; [x62; x63]]).

Definition sample_raa : GxRAA :=
    mkGxRAA
      (Some [x73; x31]) None None None (Some 2001) None None None None None (Some 1004) None
      (Some [mk_fdAddress 1 (replicate 16 x0a)]) None None None None None None None None None
      None None None None None None.

(** A message with its [route_record] replaced. *)
Definition rar_with_route_record (data : GxRAR) (rr : option (list OctetString)) : GxRAR :=
    mkGxRAR
      data.(GxRAR_session_id) data.(GxRAR_drmp) data.(GxRAR_auth_application_id)
      data.(GxRAR_origin_host) data.(GxRAR_origin_realm) data.(GxRAR_destination_realm)
      data.(GxRAR_destination_host) data.(GxRAR_re_auth_request_type)
      data.(GxRAR_session_release_cause) data.(GxRAR_origin_state_id)
      data.(GxRAR_oc_supported_features) data.(GxRAR_event_trigger)
      data.(GxRAR_event_report_indication) data.(GxRAR_charging_rule_remove)
      data.(GxRAR_charging_rule_install) data.(GxRAR_default_eps_bearer_qos)
      data.(GxRAR_qos_information) data.(GxRAR_default_qos_information)
      data.(GxRAR_revalidation_time) data.(GxRAR_usage_monitoring_information)
      data.(GxRAR_pcscf_restoration_indication) data.(GxRAR_conditional_policy_information)
      data.(GxRAR_removal_of_access) data.(GxRAR_ip_can_type) data.(GxRAR_pra_install)
      data.(GxRAR_pra_remove) data.(GxRAR_csg_information_reporting) data.(GxRAR_proxy_info) rr.

(** The unpacker returns 0 where the rest of the buffer is [bs]. *)
Definition refuses {A} (u : unpacker A) (bs : list byte) : Prop :=
  forall pre, Z.of_nat (length pre + length bs) < 2 ^ 32 ->
    u (Z.of_nat (length pre + length bs)) (pre ++ bs) (Z.of_nat (length pre)) = Return0.

(** A sequence of macro calls whose encoding is sent but not accepted. *)
Definition fields_refused {A} (wfs : list bool) (cs : list (Z -> Z)) (ps : list packer)
    (u : unpacker A) (bss : list (list byte)) : Prop :=
  wf_all wfs = true ->
  calc_adds (calc_all cs) (wire_all bss) /\ packs (pack_all ps) (wire_all bss) /\
  refuses u (wire_all bss).

Section Codes.
Context {M : Malloc} {HM : MallocOk M}.

Lemma GxProxyInfo_codes : struct_codes wf_GxProxyInfo calcLengthGxProxyInfo packGxProxyInfo unpackGxProxyInfo wire_GxProxyInfo.
Proof. gx_struct. Qed.
#[local] Hint Resolve GxProxyInfo_codes : gx_codes.

Lemma GxPresenceReportingAreaInformation_codes : struct_codes wf_GxPresenceReportingAreaInformation calcLengthGxPresenceReportingAreaInformation packGxPresenceReportingAreaInformation unpackGxPresenceReportingAreaInformation wire_GxPresenceReportingAreaInformation.
Proof. gx_struct. Qed.
#[local] Hint Resolve GxPresenceReportingAreaInformation_codes : gx_codes.

Lemma GxRoutingRuleRemove_codes : struct_codes wf_GxRoutingRuleRemove calcLengthGxRoutingRuleRemove packGxRoutingRuleRemove unpackGxRoutingRuleRemove wire_GxRoutingRuleRemove.
Proof. gx_struct. Qed.
#[local] Hint Resolve GxRoutingRuleRemove_codes : gx_codes.

Lemma GxRoutingFilter_codes : struct_codes wf_GxRoutingFilter calcLengthGxRoutingFilter packGxRoutingFilter unpackGxRoutingFilter wire_GxRoutingFilter.
Proof. gx_struct. Qed.
#[local] Hint Resolve GxRoutingFilter_codes : gx_codes.

Lemma GxRoutingRuleDefinition_codes : struct_codes wf_GxRoutingRuleDefinition calcLengthGxRoutingRuleDefinition packGxRoutingRuleDefinition unpackGxRoutingRuleDefinition wire_GxRoutingRuleDefinition.
Proof. gx_struct. Qed.
#[local] Hint Resolve GxRoutingRuleDefinition_codes : gx_codes.

Lemma GxRoutingRuleInstall_codes : struct_codes wf_GxRoutingRuleInstall calcLengthGxRoutingRuleInstall packGxRoutingRuleInstall unpackGxRoutingRuleInstall wire_GxRoutingRuleInstall.
Proof. gx_struct. Qed.
#[local] Hint Resolve GxRoutingRuleInstall_codes : gx_codes.

Lemma GxUnitValue_codes : struct_codes wf_GxUnitValue calcLengthGxUnitValue packGxUnitValue unpackGxUnitValue wire_GxUnitValue.
Proof. gx_struct. Qed.
#[local] Hint Resolve GxUnitValue_codes : gx_codes.

Lemma GxCcMoney_codes : struct_codes wf_GxCcMoney calcLengthGxCcMoney packGxCcMoney unpackGxCcMoney wire_GxCcMoney.
Proof. gx_struct. Qed.
#[local] Hint Resolve GxCcMoney_codes : gx_codes.

Lemma GxUsedServiceUnit_codes : struct_codes wf_GxUsedServiceUnit calcLengthGxUsedServiceUnit packGxUsedServiceUnit unpackGxUsedServiceUnit wire_GxUsedServiceUnit.
Proof. gx_struct. Qed.
#[local] Hint Resolve GxUsedServiceUnit_codes : gx_codes.

Lemma GxGrantedServiceUnit_codes : struct_codes wf_GxGrantedServiceUnit calcLengthGxGrantedServiceUnit packGxGrantedServiceUnit unpackGxGrantedServiceUnit wire_GxGrantedServiceUnit.
Proof. gx_struct. Qed.
#[local] Hint Resolve GxGrantedServiceUnit_codes : gx_codes.

Lemma GxUsageMonitoringInformation_codes : struct_codes wf_GxUsageMonitoringInformation calcLengthGxUsageMonitoringInformation packGxUsageMonitoringInformation unpackGxUsageMonitoringInformation wire_GxUsageMonitoringInformation.
Proof. gx_struct. Qed.
#[local] Hint Resolve GxUsageMonitoringInformation_codes : gx_codes.

Lemma GxTunnelInformation_codes : struct_codes wf_GxTunnelInformation calcLengthGxTunnelInformation packGxTunnelInformation unpackGxTunnelInformation wire_GxTunnelInformation.
Proof. gx_struct. Qed.
#[local] Hint Resolve GxTunnelInformation_codes : gx_codes.

Lemma GxCoaInformation_codes : struct_codes wf_GxCoaInformation calcLengthGxCoaInformation packGxCoaInformation unpackGxCoaInformation wire_GxCoaInformation.
Proof. gx_struct. Qed.
#[local] Hint Resolve GxCoaInformation_codes : gx_codes.

Lemma GxAccessNetworkChargingIdentifierGx_codes : struct_codes wf_GxAccessNetworkChargingIdentifierGx calcLengthGxAccessNetworkChargingIdentifierGx packGxAccessNetworkChargingIdentifierGx unpackGxAccessNetworkChargingIdentifierGx wire_GxAccessNetworkChargingIdentifierGx.
Proof. gx_struct. Qed.
#[local] Hint Resolve GxAccessNetworkChargingIdentifierGx_codes : gx_codes.

Lemma GxMbsfnArea_codes : struct_codes wf_GxMbsfnArea calcLengthGxMbsfnArea packGxMbsfnArea unpackGxMbsfnArea wire_GxMbsfnArea.
Proof. gx_struct. Qed.
#[local] Hint Resolve GxMbsfnArea_codes : gx_codes.

Lemma GxAreaScope_codes : struct_codes wf_GxAreaScope calcLengthGxAreaScope packGxAreaScope unpackGxAreaScope wire_GxAreaScope.
Proof. gx_struct. Qed.
#[local] Hint Resolve GxAreaScope_codes : gx_codes.

Lemma GxMdtConfiguration_codes : struct_codes wf_GxMdtConfiguration calcLengthGxMdtConfiguration packGxMdtConfiguration unpackGxMdtConfiguration wire_GxMdtConfiguration.
Proof. gx_struct. Qed.
#[local] Hint Resolve GxMdtConfiguration_codes : gx_codes.

Lemma GxTraceData_codes : struct_codes wf_GxTraceData calcLengthGxTraceData packGxTraceData unpackGxTraceData wire_GxTraceData.
Proof. gx_struct. Qed.
#[local] Hint Resolve GxTraceData_codes : gx_codes.

Lemma GxUserCsgInformation_codes : struct_codes wf_GxUserCsgInformation calcLengthGxUserCsgInformation packGxUserCsgInformation unpackGxUserCsgInformation wire_GxUserCsgInformation.
Proof. gx_struct. Qed.
#[local] Hint Resolve GxUserCsgInformation_codes : gx_codes.

Lemma GxEventReportIndication_codes : struct_codes wf_GxEventReportIndication calcLengthGxEventReportIndication packGxEventReportIndication unpackGxEventReportIndication wire_GxEventReportIndication.
Proof. gx_struct. Qed.
#[local] Hint Resolve GxEventReportIndication_codes : gx_codes.

Lemma GxFlowInformation_codes : struct_codes wf_GxFlowInformation calcLengthGxFlowInformation packGxFlowInformation unpackGxFlowInformation wire_GxFlowInformation.
Proof. gx_struct. Qed.
#[local] Hint Resolve GxFlowInformation_codes : gx_codes.

Lemma GxApplicationDetectionInformation_codes : struct_codes wf_GxApplicationDetectionInformation calcLengthGxApplicationDetectionInformation packGxApplicationDetectionInformation unpackGxApplicationDetectionInformation wire_GxApplicationDetectionInformation.
Proof. gx_struct. Qed.
#[local] Hint Resolve GxApplicationDetectionInformation_codes : gx_codes.

Lemma GxRedirectServer_codes : struct_codes wf_GxRedirectServer calcLengthGxRedirectServer packGxRedirectServer unpackGxRedirectServer wire_GxRedirectServer.
Proof. gx_struct. Qed.
#[local] Hint Resolve GxRedirectServer_codes : gx_codes.

Lemma GxFinalUnitIndication_codes : struct_codes wf_GxFinalUnitIndication calcLengthGxFinalUnitIndication packGxFinalUnitIndication unpackGxFinalUnitIndication wire_GxFinalUnitIndication.
Proof. gx_struct. Qed.
#[local] Hint Resolve GxFinalUnitIndication_codes : gx_codes.

Lemma GxChargingRuleReport_codes : struct_codes wf_GxChargingRuleReport calcLengthGxChargingRuleReport packGxChargingRuleReport unpackGxChargingRuleReport wire_GxChargingRuleReport.
Proof. gx_struct. Qed.
#[local] Hint Resolve GxChargingRuleReport_codes : gx_codes.

Lemma GxTftPacketFilterInformation_codes : struct_codes wf_GxTftPacketFilterInformation calcLengthGxTftPacketFilterInformation packGxTftPacketFilterInformation unpackGxTftPacketFilterInformation wire_GxTftPacketFilterInformation.
Proof. gx_struct. Qed.
#[local] Hint Resolve GxTftPacketFilterInformation_codes : gx_codes.

Lemma GxFixedUserLocationInfo_codes : struct_codes wf_GxFixedUserLocationInfo calcLengthGxFixedUserLocationInfo packGxFixedUserLocationInfo unpackGxFixedUserLocationInfo wire_GxFixedUserLocationInfo.
Proof. gx_struct. Qed.
#[local] Hint Resolve GxFixedUserLocationInfo_codes : gx_codes.

Lemma GxDefaultQosInformation_codes : struct_codes wf_GxDefaultQosInformation calcLengthGxDefaultQosInformation packGxDefaultQosInformation unpackGxDefaultQosInformation wire_GxDefaultQosInformation.
Proof. gx_struct. Qed.
#[local] Hint Resolve GxDefaultQosInformation_codes : gx_codes.

Lemma GxAllocationRetentionPriority_codes : struct_codes wf_GxAllocationRetentionPriority calcLengthGxAllocationRetentionPriority packGxAllocationRetentionPriority unpackGxAllocationRetentionPriority wire_GxAllocationRetentionPriority.
Proof. gx_struct. Qed.
#[local] Hint Resolve GxAllocationRetentionPriority_codes : gx_codes.

Lemma GxDefaultEpsBearerQos_codes : struct_codes wf_GxDefaultEpsBearerQos calcLengthGxDefaultEpsBearerQos packGxDefaultEpsBearerQos unpackGxDefaultEpsBearerQos wire_GxDefaultEpsBearerQos.
Proof. gx_struct. Qed.
#[local] Hint Resolve GxDefaultEpsBearerQos_codes : gx_codes.

Lemma GxConditionalApnAggregateMaxBitrate_codes : struct_codes wf_GxConditionalApnAggregateMaxBitrate calcLengthGxConditionalApnAggregateMaxBitrate packGxConditionalApnAggregateMaxBitrate unpackGxConditionalApnAggregateMaxBitrate wire_GxConditionalApnAggregateMaxBitrate.
Proof. gx_struct. Qed.
#[local] Hint Resolve GxConditionalApnAggregateMaxBitrate_codes : gx_codes.

Lemma GxQosInformation_codes : struct_codes wf_GxQosInformation calcLengthGxQosInformation packGxQosInformation unpackGxQosInformation wire_GxQosInformation.
Proof. gx_struct. Qed.
#[local] Hint Resolve GxQosInformation_codes : gx_codes.

Lemma GxUserEquipmentInfo_codes : struct_codes wf_GxUserEquipmentInfo calcLengthGxUserEquipmentInfo packGxUserEquipmentInfo unpackGxUserEquipmentInfo wire_GxUserEquipmentInfo.
Proof. gx_struct. Qed.
#[local] Hint Resolve GxUserEquipmentInfo_codes : gx_codes.

Lemma GxPacketFilterInformation_codes : struct_codes wf_GxPacketFilterInformation calcLengthGxPacketFilterInformation packGxPacketFilterInformation unpackGxPacketFilterInformation wire_GxPacketFilterInformation.
Proof. gx_struct. Qed.
#[local] Hint Resolve GxPacketFilterInformation_codes : gx_codes.

Lemma GxTdfInformation_codes : struct_codes wf_GxTdfInformation calcLengthGxTdfInformation packGxTdfInformation unpackGxTdfInformation wire_GxTdfInformation.
Proof. gx_struct. Qed.
#[local] Hint Resolve GxTdfInformation_codes : gx_codes.

Lemma GxSupportedFeatures_codes : struct_codes wf_GxSupportedFeatures calcLengthGxSupportedFeatures packGxSupportedFeatures unpackGxSupportedFeatures wire_GxSupportedFeatures.
Proof. gx_struct. Qed.
#[local] Hint Resolve GxSupportedFeatures_codes : gx_codes.

Lemma GxOcSupportedFeatures_codes : struct_codes wf_GxOcSupportedFeatures calcLengthGxOcSupportedFeatures packGxOcSupportedFeatures unpackGxOcSupportedFeatures wire_GxOcSupportedFeatures.
Proof. gx_struct. Qed.
#[local] Hint Resolve GxOcSupportedFeatures_codes : gx_codes.

Lemma GxSubscriptionId_codes : struct_codes wf_GxSubscriptionId calcLengthGxSubscriptionId packGxSubscriptionId unpackGxSubscriptionId wire_GxSubscriptionId.
Proof. gx_struct. Qed.
#[local] Hint Resolve GxSubscriptionId_codes : gx_codes.

Lemma GxCCR_codes : message_codes wf_GxCCR gx_ccr_calc_length gx_ccr_pack gx_ccr_unpack wire_GxCCR.
Proof. gx_message. Qed.

Lemma GxLoad_codes : struct_codes wf_GxLoad calcLengthGxLoad packGxLoad unpackGxLoad wire_GxLoad.
Proof. gx_struct. Qed.
#[local] Hint Resolve GxLoad_codes : gx_codes.

Lemma GxFailedAvp_codes : struct_codes wf_GxFailedAvp calcLengthGxFailedAvp packGxFailedAvp unpackGxFailedAvp wire_GxFailedAvp.
Proof. gx_struct. Qed.
#[local] Hint Resolve GxFailedAvp_codes : gx_codes.

Lemma GxConditionalPolicyInformation_codes : struct_codes wf_GxConditionalPolicyInformation calcLengthGxConditionalPolicyInformation packGxConditionalPolicyInformation unpackGxConditionalPolicyInformation wire_GxConditionalPolicyInformation.
Proof. gx_struct. Qed.
#[local] Hint Resolve GxConditionalPolicyInformation_codes : gx_codes.

Lemma GxRoutingRuleReport_codes : struct_codes wf_GxRoutingRuleReport calcLengthGxRoutingRuleReport packGxRoutingRuleReport unpackGxRoutingRuleReport wire_GxRoutingRuleReport.
Proof. gx_struct. Qed.
#[local] Hint Resolve GxRoutingRuleReport_codes : gx_codes.

Lemma GxPraRemove_codes : struct_codes wf_GxPraRemove calcLengthGxPraRemove packGxPraRemove unpackGxPraRemove wire_GxPraRemove.
Proof. gx_struct. Qed.
#[local] Hint Resolve GxPraRemove_codes : gx_codes.

Lemma GxPraInstall_codes : struct_codes wf_GxPraInstall calcLengthGxPraInstall packGxPraInstall unpackGxPraInstall wire_GxPraInstall.
Proof. gx_struct. Qed.
#[local] Hint Resolve GxPraInstall_codes : gx_codes.

Lemma GxChargingInformation_codes : struct_codes wf_GxChargingInformation calcLengthGxChargingInformation packGxChargingInformation unpackGxChargingInformation wire_GxChargingInformation.
Proof. gx_struct. Qed.
#[local] Hint Resolve GxChargingInformation_codes : gx_codes.

Lemma GxRedirectInformation_codes : struct_codes wf_GxRedirectInformation calcLengthGxRedirectInformation packGxRedirectInformation unpackGxRedirectInformation wire_GxRedirectInformation.
Proof. gx_struct. Qed.
#[local] Hint Resolve GxRedirectInformation_codes : gx_codes.

Lemma GxFlows_codes : struct_codes wf_GxFlows calcLengthGxFlows packGxFlows unpackGxFlows wire_GxFlows.
Proof. gx_struct. Qed.
#[local] Hint Resolve GxFlows_codes : gx_codes.

Lemma GxChargingRuleDefinition_codes : struct_codes wf_GxChargingRuleDefinition calcLengthGxChargingRuleDefinition packGxChargingRuleDefinition unpackGxChargingRuleDefinition wire_GxChargingRuleDefinition.
Proof. gx_struct. Qed.
#[local] Hint Resolve GxChargingRuleDefinition_codes : gx_codes.

Lemma GxChargingRuleInstall_codes : struct_codes wf_GxChargingRuleInstall calcLengthGxChargingRuleInstall packGxChargingRuleInstall unpackGxChargingRuleInstall wire_GxChargingRuleInstall.
Proof. gx_struct. Qed.
#[local] Hint Resolve GxChargingRuleInstall_codes : gx_codes.

Lemma GxChargingRuleRemove_codes : struct_codes wf_GxChargingRuleRemove calcLengthGxChargingRuleRemove packGxChargingRuleRemove unpackGxChargingRuleRemove wire_GxChargingRuleRemove.
Proof. gx_struct. Qed.
#[local] Hint Resolve GxChargingRuleRemove_codes : gx_codes.

Lemma GxOcOlr_codes : struct_codes wf_GxOcOlr calcLengthGxOcOlr packGxOcOlr unpackGxOcOlr wire_GxOcOlr.
Proof. gx_struct. Qed.
#[local] Hint Resolve GxOcOlr_codes : gx_codes.

Lemma GxExperimentalResult_codes : struct_codes wf_GxExperimentalResult calcLengthGxExperimentalResult packGxExperimentalResult unpackGxExperimentalResult wire_GxExperimentalResult.
Proof. gx_struct. Qed.
#[local] Hint Resolve GxExperimentalResult_codes : gx_codes.

Lemma GxCCA_codes : message_codes wf_GxCCA gx_cca_calc_length gx_cca_pack gx_cca_unpack wire_GxCCA.
Proof. gx_message. Qed.

Lemma GxRAA_codes : message_codes wf_GxRAA gx_raa_calc_length gx_raa_pack gx_raa_unpack wire_GxRAA.
Proof. gx_message. Qed.

Lemma GxRAR_codes : message_codes wf_GxRAR gx_rar_calc_length gx_rar_pack gx_rar_unpack wire_GxRAR.
Proof. gx_message. Qed.

End Codes.

#[export] Hint Resolve GxProxyInfo_codes GxPresenceReportingAreaInformation_codes GxRoutingRuleRemove_codes
  GxRoutingFilter_codes GxRoutingRuleDefinition_codes GxRoutingRuleInstall_codes
  GxUnitValue_codes GxCcMoney_codes GxUsedServiceUnit_codes GxGrantedServiceUnit_codes
  GxUsageMonitoringInformation_codes GxTunnelInformation_codes GxCoaInformation_codes
  GxAccessNetworkChargingIdentifierGx_codes GxMbsfnArea_codes GxAreaScope_codes
  GxMdtConfiguration_codes GxTraceData_codes GxUserCsgInformation_codes
  GxEventReportIndication_codes GxFlowInformation_codes
  GxApplicationDetectionInformation_codes GxRedirectServer_codes GxFinalUnitIndication_codes
  GxChargingRuleReport_codes GxTftPacketFilterInformation_codes
  GxFixedUserLocationInfo_codes GxDefaultQosInformation_codes
  GxAllocationRetentionPriority_codes GxDefaultEpsBearerQos_codes
  GxConditionalApnAggregateMaxBitrate_codes GxQosInformation_codes GxUserEquipmentInfo_codes
  GxPacketFilterInformation_codes GxTdfInformation_codes GxSupportedFeatures_codes
  GxOcSupportedFeatures_codes GxSubscriptionId_codes GxLoad_codes GxFailedAvp_codes
  GxConditionalPolicyInformation_codes GxRoutingRuleReport_codes GxPraRemove_codes
  GxPraInstall_codes GxChargingInformation_codes GxRedirectInformation_codes GxFlows_codes
  GxChargingRuleDefinition_codes GxChargingRuleInstall_codes GxChargingRuleRemove_codes
  GxOcOlr_codes GxExperimentalResult_codes : gx_codes.

(** ** The exchanges of the four messages *)

(** A message packed in a zeroed buffer of the calculated length fills it, and what
    the reader of a buffer that starts with it returns. *)
Definition exchanged {A} (calc : A -> Z) (pack : A -> list byte -> Z -> res (bool * list byte))
    (unpack : list byte -> res (bool * A)) (d : A) : Prop :=
  exists buf, pack d (zeros (Z.to_nat (calc d))) (calc d) = Ok (true, buf) /\
    Z.of_nat (length buf) = calc d /\ forall post, unpack (buf ++ post) = Ok (true, d).

Lemma exchange_of_codes {A} wf calc pack unpack (body : A -> list byte) d :
  message_codes wf calc pack unpack body -> wf d = true ->
  4 + Z.of_nat (length (body d)) < 2 ^ 32 -> exchanged calc pack unpack d.
Proof.
  intros H Hwf Hd. destruct (H d Hwf Hd) as (Hc & Hp & Hu). exists (wire_message (body d)).
  split_and!; [|done|done]. rewrite Hc, Nat2Z.id, Hp by (rewrite length_wire_message; lia).
  unfold packed. rewrite !bool_decide_true by lia. by rewrite Nat.sub_diag, app_nil_r.
Qed.

Lemma gx_ccr_exchange {M : Malloc} {HM : MallocOk M} d :
  wf_GxCCR d = true -> 4 + Z.of_nat (length (wire_GxCCR d)) < 2 ^ 32 ->
  exchanged gx_ccr_calc_length gx_ccr_pack gx_ccr_unpack d.
Proof. apply exchange_of_codes with (1 := GxCCR_codes). Qed.

Lemma gx_cca_exchange {M : Malloc} {HM : MallocOk M} d :
  wf_GxCCA d = true -> 4 + Z.of_nat (length (wire_GxCCA d)) < 2 ^ 32 ->
  exchanged gx_cca_calc_length gx_cca_pack gx_cca_unpack d.
Proof. apply exchange_of_codes with (1 := GxCCA_codes). Qed.

Lemma gx_rar_exchange {M : Malloc} {HM : MallocOk M} d :
  wf_GxRAR d = true -> 4 + Z.of_nat (length (wire_GxRAR d)) < 2 ^ 32 ->
  exchanged gx_rar_calc_length gx_rar_pack gx_rar_unpack d.
Proof. apply exchange_of_codes with (1 := GxRAR_codes). Qed.

Lemma gx_raa_exchange {M : Malloc} {HM : MallocOk M} d :
  wf_GxRAA d = true -> 4 + Z.of_nat (length (wire_GxRAA d)) < 2 ^ 32 ->
  exchanged gx_raa_calc_length gx_raa_pack gx_raa_unpack d.
Proof. apply exchange_of_codes with (1 := GxRAA_codes). Qed.

(** C36. A message of any of the four kinds packed in a zeroed buffer of the calculated
    length fills it, and unpacking a buffer that starts with those bytes gives back the
    message. *)
Theorem gx_messages_exchange {M : Malloc} {HM : MallocOk M} ccr cca rar raa :
  (wf_GxCCR ccr = true -> 4 + Z.of_nat (length (wire_GxCCR ccr)) < 2 ^ 32 ->
   exchanged gx_ccr_calc_length gx_ccr_pack gx_ccr_unpack ccr) /\
  (wf_GxCCA cca = true -> 4 + Z.of_nat (length (wire_GxCCA cca)) < 2 ^ 32 ->
   exchanged gx_cca_calc_length gx_cca_pack gx_cca_unpack cca) /\
  (wf_GxRAR rar = true -> 4 + Z.of_nat (length (wire_GxRAR rar)) < 2 ^ 32 ->
   exchanged gx_rar_calc_length gx_rar_pack gx_rar_unpack rar) /\
  (wf_GxRAA raa = true -> 4 + Z.of_nat (length (wire_GxRAA raa)) < 2 ^ 32 ->
   exchanged gx_raa_calc_length gx_raa_pack gx_raa_unpack raa).
Proof.
  split_and!; [apply gx_ccr_exchange|apply gx_cca_exchange|apply gx_rar_exchange|apply gx_raa_exchange].
Qed.

Lemma pack_short_of_codes {A} wf calc pack unpack (body : A -> list byte) d n :
  message_codes wf calc pack unpack body -> wf d = true ->
  4 + Z.of_nat (length (body d)) < 2 ^ 32 -> (4 <= n)%nat -> Z.of_nat n < calc d ->
  pack d (zeros n) (Z.of_nat n) = Return0.
Proof.
  intros H Hwf Hd H4 Hn. destruct (H d Hwf Hd) as (Hc & Hp & _). rewrite Hc in Hn.
  rewrite Hp by (rewrite length_wire_message in *; lia). unfold packed. by rewrite bool_decide_false by lia.
Qed.

(** In a buffer shorter than the calculated length the packers of the requests
    return 0: nothing is written past its end. *)
Theorem gx_pack_short_buffer {M : Malloc} {HM : MallocOk M} ccr rar n :
  wf_GxCCR ccr = true -> 4 + Z.of_nat (length (wire_GxCCR ccr)) < 2 ^ 32 ->
  wf_GxRAR rar = true -> 4 + Z.of_nat (length (wire_GxRAR rar)) < 2 ^ 32 ->
  (4 <= n)%nat ->
  (Z.of_nat n < gx_ccr_calc_length ccr -> gx_ccr_pack ccr (zeros n) (Z.of_nat n) = Return0) /\
  (Z.of_nat n < gx_rar_calc_length rar -> gx_rar_pack rar (zeros n) (Z.of_nat n) = Return0).
Proof.
  intros. split; [apply (pack_short_of_codes _ _ _ _ _ _ _ GxCCR_codes)|
                  apply (pack_short_of_codes _ _ _ _ _ _ _ GxRAR_codes)]; done.
Qed.

(** ** Outside the well-formed messages *)

Lemma refuses_bind {A B} (u : unpacker B) bs b (k : B -> unpacker A) bs' :
  unpacks u bs b -> refuses (k b) bs' -> refuses (unpack_bind u k) (bs ++ bs').
Proof.
  intros Hu Hk pre Hn. unfold unpack_bind.
  rewrite length_app in *. rewrite Hu by lia. cbn [res_bind fst snd].
  rewrite app_assoc, <- (length_app pre bs), Nat.add_assoc, <- (length_app pre bs). apply Hk.
  rewrite length_app. lia.
Qed.

Lemma refused_cons {A B} wf c p (u : unpacker B) bs b wfs cs ps (k : B -> unpacker A) bss :
  codes wf c p u bs b -> fields_refused wfs cs ps (k b) bss ->
  fields_refused (wf :: wfs) (c :: cs) (p :: ps) (unpack_bind u k) (bs :: bss).
Proof.
  intros H Hs [Hwf Hwfs]%andb_true_iff.
  destruct (H Hwf) as (Hc & Hp & Hu). destruct (Hs Hwfs) as (Hcs & Hps & Hus). split_and!.
  - by apply (calc_adds_compose c (calc_all cs)).
  - by apply packs_seq.
  - by apply (refuses_bind _ _ b).
Qed.

(** An empty list of octet strings at the end of the message: it is measured and
    written as its count, but the check before the count wants one byte more. *)
Lemma refused_empty_list {M : Malloc} {A} wfs type (k : option (list OctetString) -> unpacker A) :
  fields_refused wfs [CALCLEN_LIST_OCTETSTRING (Some [])] [PACK_LIST_OCTETSTRING (Some [])]
    (unpack_bind (UNPACK_LIST_OCTETSTRING type true) k) [wire_list wire_string (Some [])].
Proof.
  intros _. split_and!.
  - by apply (calc_adds_add (le_bytes 4 0)).
  - apply packs_seq; [|apply packs_skip]. by apply (packs_list (fun _ => pack_skip) wire_string []).
  - intros pre Hn. unfold unpack_bind, UNPACK_LIST_OCTETSTRING.
    change (length (wire_all _)) with 4%nat. by rewrite bool_decide_true by lia.
Qed.

Ltac gx_refused :=
  first [ apply refused_empty_list
        | eapply refused_cons; [gx_member|cbv beta; gx_refused] ].

Lemma rar_fields_refused {M : Malloc} {HM : MallocOk M} data :
  exists ps cs u,
    gx_rar_pack (rar_with_route_record data (Some [])) = message_pack ps /\
    gx_rar_calc_length (rar_with_route_record data (Some [])) = message_calc_length cs /\
    (forall buf, gx_rar_unpack buf = message_unpack u buf) /\
    (wf_GxRAR (rar_with_route_record data None) = true ->
     calc_adds (calc_all cs) (wire_GxRAR (rar_with_route_record data (Some []))) /\
     packs (pack_all ps) (wire_GxRAR (rar_with_route_record data (Some []))) /\
     refuses u (wire_GxRAR (rar_with_route_record data (Some [])))).
Proof.
  do 3 eexists. do 3 (split; [reflexivity|]).
  unfold wf_GxRAR, wire_GxRAR.
  match goal with |- wf_all ?w = true -> calc_adds (calc_all ?c) (wire_all ?b) /\ packs (pack_all ?p) _ /\ refuses ?u _ =>
    change (fields_refused w c p u b) end.
  gx_refused.
Qed.

(** A Re-Auth-Request whose route-record list is present and empty, the list being
    the last member, is packed, and the receiver refuses the packed message. *)
Theorem empty_route_record_refused {M : Malloc} {HM : MallocOk M} data :
  wf_GxRAR (rar_with_route_record data None) = true ->
  4 + Z.of_nat (length (wire_GxRAR (rar_with_route_record data (Some [])))) < 2 ^ 32 ->
  exists buf,
    gx_rar_pack (rar_with_route_record data (Some []))
      (zeros (Z.to_nat (gx_rar_calc_length (rar_with_route_record data (Some [])))))
      (gx_rar_calc_length (rar_with_route_record data (Some []))) = Ok (true, buf) /\
    gx_rar_unpack buf = Return0.
Proof.
  intros Hwf Hlen. destruct (rar_fields_refused data) as (ps & cs & u & -> & -> & Eu & H).
  destruct (H Hwf) as (Hc & Hp & Hu). clear H Hwf.
  set (body := wire_GxRAR _) in *. clearbody body. exists (wire_message body).
  assert (message_calc_length cs = Z.of_nat (length (wire_message body))) as ->.
  { unfold message_calc_length. rewrite Hc, length_wire_message, wrap_small by lia. lia. }
  rewrite Nat2Z.id. split.
  - rewrite (message_packs ps body) by (done || rewrite length_wire_message; lia).
    unfold packed. rewrite !bool_decide_true by lia. by rewrite Nat.sub_diag, app_nil_r.
  - rewrite Eu. unfold message_unpack, wire_message.
    pose proof (mem_read_app [] (le_bytes 4 (4 + Z.of_nat (length body))) body) as E.
    rewrite length_le_bytes in E. cbn [length app] in E. change (Z.of_nat 4) with 4 in E.
    change (Z.of_nat 0) with 0 in E. rewrite E. cbn [res_bind].
    rewrite le_val_small by (simpl; lia).
    pose proof (Hu (le_bytes 4 (4 + Z.of_nat (length body)))) as F.
    rewrite length_le_bytes, Nat2Z.inj_add in F. change (Z.of_nat 4) with 4 in F.
    by rewrite F by lia.
Qed.

Lemma mem_write_over pre old post bs :
  length old = length bs ->
  mem_write (pre ++ old ++ post) (Z.of_nat (length pre)) bs = Ok (pre ++ bs ++ post).
Proof.
  intros Hold. unfold mem_write. rewrite bool_decide_true by (rewrite !length_app; lia).
  rewrite Nat2Z.id, take_app_length. do 3 f_equal.
  rewrite app_assoc, drop_app_length'; [done|]. rewrite length_app. lia.
Qed.

(** The packer of a list of octet strings adds the length of an element to the
    four bytes the buffer already holds there: only a zeroed buffer gets the length. *)
Lemma list_octets_adds_to_buffer pre count junk old post s n :
  length count = 4%nat -> length old = length s -> 0 <= junk < 2 ^ 32 ->
  Z.of_nat (length pre + 8 + length s) <= n < 2 ^ 32 ->
  PACK_LIST_OCTETSTRING (Some [s]) n (pre ++ count ++ le_bytes 4 junk ++ old ++ post)
      (Z.of_nat (length pre)) =
    Ok (pre ++ le_bytes 4 1 ++ le_bytes 4 (junk +[32] Z.of_nat (length s)) ++ s ++ post,
        Z.of_nat (length pre + 8 + length s)).
Proof.
  intros Hc Ho Hj Hn. unfold PACK_LIST_OCTETSTRING, pack_seq, pack_count, pack_check, pack_store, pack_add_len.
  rewrite bool_decide_false by lia.
  rewrite mem_write_over by (by rewrite length_le_bytes). cbn [res_bind fst snd length map pack_all foldr].
  rewrite length_le_bytes, wrap_small by lia. unfold pack_seq.
  change (Z.of_nat 1) with 1. rewrite bool_decide_false by lia.
  replace (Z.of_nat (length pre) + Z.of_nat 4) with (Z.of_nat (length (pre ++ le_bytes 4 1)))
    by (rewrite length_app, length_le_bytes; lia).
  rewrite (app_assoc pre).
  pose proof (mem_read_app (pre ++ le_bytes 4 1) (le_bytes 4 junk) (old ++ post)) as E.
  rewrite length_le_bytes in E. change (Z.of_nat 4) with 4 in E. rewrite E. cbn [res_bind].
  rewrite le_val_small by (simpl; lia).
  unfold pack_store.
  rewrite mem_write_over by (by rewrite !length_le_bytes). cbn [res_bind fst snd].
  rewrite length_le_bytes, (wrap_small 32 (Z.of_nat (length (pre ++ _)) + _))
    by (rewrite length_app, length_le_bytes; lia).
  replace (Z.of_nat (length (pre ++ le_bytes 4 1)) + Z.of_nat 4)
    with (Z.of_nat (length ((pre ++ le_bytes 4 1) ++ le_bytes 4 (junk +[32] Z.of_nat (length s)))))
    by (rewrite (length_app (pre ++ _)), length_le_bytes; lia).
  rewrite (app_assoc (pre ++ _)).
  rewrite mem_write_over by done. cbn [res_bind fst snd]. unfold pack_skip.
  rewrite <- !app_assoc. f_equal. f_equal.
  rewrite !length_app, !length_le_bytes. rewrite wrap_small by lia. lia.
Qed.

(** An octet string longer than its array is cut to 255 bytes and the reader goes
    on after all of it. *)
Lemma octets_truncated s pre post n :
  (255 < length s)%nat -> Z.of_nat (length pre + 4 + length s) <= n < 2 ^ 32 ->
  UNPACK_OCTETSTRING true n (pre ++ wire_string s ++ post) (Z.of_nat (length pre)) =
  Ok (Some (take 255 s), Z.of_nat (length pre + 4 + length s)).
Proof.
  intros Hs Hn. unfold UNPACK_OCTETSTRING, unpack_check, unpack_bind, wire_string.
  rewrite bool_decide_false by lia. rewrite <- app_assoc.
  rewrite (unpacks_load 4 le_val (le_bytes 4 (Z.of_nat (length s))) eq_refl n)
    by (rewrite length_le_bytes; lia). cbn [res_bind fst snd].
  rewrite le_val_small, length_le_bytes, wrap_small by (simpl; lia).
  rewrite bool_decide_false by lia. unfold MIN, sizeof_val. rewrite bool_decide_false by lia.
  pose proof (mem_read_app (pre ++ le_bytes 4 (Z.of_nat (length s))) (take 255 s) (drop 255 s ++ post)) as E.
  rewrite length_app, length_le_bytes, length_take, Nat.min_l, (app_assoc (take 255 s)), take_drop,
    <- app_assoc in E by lia.
  change (256 - 1) with (Z.of_nat 255). rewrite E. cbn [res_bind]. do 2 f_equal. lia.
Qed.

(** Neither reader of octet strings keeps to its buffer: the sum of the offset and
    an announced length of almost 2^32 wraps around and passes the check, and the
    elements of a list are not checked at all; with fewer bytes left than are copied
    the copy reads past the buffer. *)
Lemma octets_read_past_buffer len pre post n :
  255 <= len < 2 ^ 32 -> (length post < 255)%nat -> n = Z.of_nat (length pre + 4 + length post) ->
  n < 2 ^ 32 ->
  (2 ^ 32 <= Z.of_nat (length pre) + 4 + len ->
   UNPACK_OCTETSTRING true n (pre ++ le_bytes 4 len ++ post) (Z.of_nat (length pre)) = OutOfBounds) /\
  unpack_octets_element n (pre ++ le_bytes 4 len ++ post) (Z.of_nat (length pre)) = OutOfBounds.
Proof.
  intros Hlen Hpost -> Hn.
  assert (mem_read (pre ++ le_bytes 4 len ++ post) (Z.of_nat (length pre + 4)) (MIN len (sizeof_val - 1))
          = OutOfBounds) as Hread.
  { unfold mem_read, MIN, sizeof_val. rewrite !length_app, length_le_bytes.
    rewrite bool_decide_false; [done|]. case_bool_decide; lia. }
  unfold UNPACK_OCTETSTRING, unpack_octets_element, unpack_check, unpack_bind.
  rewrite bool_decide_false by lia.
  rewrite (unpacks_load 4 le_val (le_bytes 4 len) eq_refl)
    by (rewrite length_le_bytes; lia).
  cbn [res_bind fst snd]. rewrite le_val_small, length_le_bytes by (simpl; lia).
  rewrite Hread. split; [|done]. intros Hwrap.
  replace (Z.of_nat (length pre + 4) +[32] len) with (Z.of_nat (length pre + 4) + len - 2 ^ 32).
  - by rewrite bool_decide_false by lia.
  - unfold wrap. apply Zmod_unique with 1; lia.
Qed.

(** Where octet strings leave the format: the packer of a list adds the length of an
    element to what the buffer holds there, so only a zeroed buffer gets the length; a
    string longer than its array is cut to 255 bytes and the reader goes on after all of
    it; and a length near 2^32 passes the wrapped check of the single reader, and any
    length the missing one of the list's, so that the copy reads past the buffer. *)
Theorem octet_strings_out_of_format pre post s n :
  (forall count junk old, length count = 4%nat -> length old = length s -> 0 <= junk < 2 ^ 32 ->
     Z.of_nat (length pre + 8 + length s) <= n < 2 ^ 32 ->
     PACK_LIST_OCTETSTRING (Some [s]) n (pre ++ count ++ le_bytes 4 junk ++ old ++ post)
         (Z.of_nat (length pre)) =
       Ok (pre ++ le_bytes 4 1 ++ le_bytes 4 (junk +[32] Z.of_nat (length s)) ++ s ++ post,
           Z.of_nat (length pre + 8 + length s))) /\
  ((255 < length s)%nat -> Z.of_nat (length pre + 4 + length s) <= n < 2 ^ 32 ->
     UNPACK_OCTETSTRING true n (pre ++ wire_string s ++ post) (Z.of_nat (length pre)) =
     Ok (Some (take 255 s), Z.of_nat (length pre + 4 + length s))) /\
  (forall len, 255 <= len < 2 ^ 32 -> (length post < 255)%nat ->
     n = Z.of_nat (length pre + 4 + length post) -> n < 2 ^ 32 ->
     (2 ^ 32 <= Z.of_nat (length pre) + 4 + len ->
      UNPACK_OCTETSTRING true n (pre ++ le_bytes 4 len ++ post) (Z.of_nat (length pre)) = OutOfBounds) /\
     unpack_octets_element n (pre ++ le_bytes 4 len ++ post) (Z.of_nat (length pre)) = OutOfBounds).
Proof.
  split; [|split].
  - intros. by apply list_octets_adds_to_buffer.
  - intros. by apply octets_truncated.
  - intros. by apply octets_read_past_buffer.
Qed.

(** ** Witnesses *)

#[local] Instance malloc_any_ok : MallocOk malloc_any.
Proof. intros type n Hn. by apply bool_decide_true. Qed.

Example gx_messages_exchange_witness :
  (gx_ccr_calc_length sample_ccr = 103 /\ exchanged gx_ccr_calc_length gx_ccr_pack gx_ccr_unpack sample_ccr) /\
  (gx_cca_calc_length sample_cca = 74 /\ exchanged gx_cca_calc_length gx_cca_pack gx_cca_unpack sample_cca) /\
  (gx_rar_calc_length sample_rar = 41 /\ exchanged gx_rar_calc_length gx_rar_pack gx_rar_unpack sample_rar) /\
  (gx_raa_calc_length sample_raa = 44 /\ exchanged gx_raa_calc_length gx_raa_pack gx_raa_unpack sample_raa).
Proof.
  destruct (gx_messages_exchange sample_ccr sample_cca sample_rar sample_raa) as (H1 & H2 & H3 & H4).
  split_and!; [reflexivity|apply H1|reflexivity|apply H2|reflexivity|apply H3|reflexivity|apply H4];
    vm_compute; reflexivity.
Defined.

Example gx_pack_short_buffer_witness :
  gx_ccr_pack sample_ccr (zeros 60) 60 = Return0 /\ gx_rar_pack sample_rar (zeros 40) 40 = Return0.
Proof.
  destruct (gx_pack_short_buffer sample_ccr sample_rar 60) as [H _];
    try (vm_compute; reflexivity); [lia|].
  destruct (gx_pack_short_buffer sample_ccr sample_rar 40) as [_ H'];
    try (vm_compute; reflexivity); [lia|].
  split; [apply H|apply H']; vm_compute; reflexivity.
Defined.

Example empty_route_record_refused_witness :
  exists buf,
    gx_rar_pack (rar_with_route_record sample_rar (Some []))
      (zeros (Z.to_nat (gx_rar_calc_length (rar_with_route_record sample_rar (Some [])))))
      (gx_rar_calc_length (rar_with_route_record sample_rar (Some []))) = Ok (true, buf) /\
    gx_rar_unpack buf = Return0.
Proof. apply (empty_route_record_refused sample_rar); vm_compute; reflexivity. Defined.

Example octet_strings_out_of_format_witness :
  PACK_LIST_OCTETSTRING (Some [[x61; x62]]) 10 (zeros 4 ++ le_bytes 4 5 ++ [x00; x00]) 0 =
    Ok (le_bytes 4 1 ++ le_bytes 4 7 ++ [x61; x62], 10) /\
  UNPACK_OCTETSTRING true 304 (wire_string (replicate 300 x61)) 0 =
    Ok (Some (replicate 255 x61), 304) /\
  UNPACK_OCTETSTRING true 18 (zeros 8 ++ le_bytes 4 (2 ^ 32 - 1) ++ zeros 6) 8 = OutOfBounds.
Proof.
  split; [|split].
  - apply (proj1 (octet_strings_out_of_format [] [] [x61; x62] 10) (zeros 4) 5 [x00; x00]); simpl; lia.
  - apply (proj1 (proj2 (octet_strings_out_of_format [] [] (replicate 300 x61) 304)));
      vm_compute; repeat split; discriminate || reflexivity || lia.
  - apply (proj2 (proj2 (octet_strings_out_of_format (zeros 8) (zeros 6) [] 18)) (2 ^ 32 - 1));
      [split; [discriminate|reflexivity]|simpl; lia|reflexivity|reflexivity|discriminate].
Defined.
