(* ===== verification/GxDict.v ===== *)
(** * The Diameter dictionary of the Gx application (cp/gx_app/src/gx_init.c)

    [davp] names the AVPs of the structure [GxDict] of gx.h, one constructor per
    field; [gxInit] looks up the vendors, the application, the commands and the AVPs
    in freeDiameter's dictionary, then reads the codes of the AVPs, in the order of
    the source and stopping at the first failure.  The dictionary is a parameter:
    [fd_dict_search] gives the object of a key, or nothing, and [fd_dict_getval] the
    code of an AVP's object.  The objects themselves, which no modelled code reads,
    are not kept. *)
From S2P Require Import Prelude.

Inductive davp : Set :=
| davp_tdf_destination_host | davp_pre_emption_capability | davp_packet_filter_content |
  davp_feature_list_id | davp_resource_release_notification | davp_service_identifier |
  davp_physical_access_id | davp_csg_access_mode | davp_henb_local_ip_address |
  davp_dynamic_address_flag_extension | davp_apn_aggregate_max_bitrate_ul |
  davp_network_request_support | davp_termination_cause | davp_exponent | davp_3gpp_rat_type |
  davp_af_signalling_protocol | davp_packet_filter_usage | davp_usage_monitoring_support |
  davp_tracking_area_identity | davp_load_value | davp_feature_list | davp_omc_id | davp_rai |
  davp_oc_report_type | davp_experimental_result | davp_cc_request_type |
  davp_service_context_id | davp_secondary_event_charging_function_name |
  davp_pcscf_restoration_indication | davp_tdf_ip_address | davp_load_type |
  davp_extended_gbr_dl | davp_oc_feature_vector | davp_origin_host | davp_pra_remove |
  davp_maximum_wait_time | davp_list_of_measurements | davp_qos_information |
  davp_final_unit_action | davp_conditional_policy_information | davp_drmp | davp_pra_install |
  davp_logical_access_id | davp_resource_allocation_notification | davp_rule_deactivation_time |
  davp_flow_status | davp_priority_level | davp_pre_emption_vulnerability | davp_bearer_usage |
  davp_reporting_reason | davp_qos_class_identifier | davp_3gpp_sgsn_mcc_mnc | davp_area_scope |
  davp_re_auth_request_type | davp_precedence | davp_flow_number |
  davp_pdn_connection_charging_id | davp_3gpp_ps_data_off_status | davp_redirect_host_usage |
  davp_an_gw_address | davp_tunnel_header_filter | davp_access_network_charging_identifier_value |
  davp_secondary_charging_collection_function_name | davp_tcp_source_port |
  davp_destination_host | davp_3gpp_selection_mode | davp_location_area_identity |
  davp_logging_interval | davp_flow_information | davp_ue_local_ip_address |
  davp_extended_apn_ambr_dl | davp_tdf_application_identifier | davp_tunnel_information |
  davp_media_component_status | davp_tft_packet_filter_information | davp_guaranteed_bitrate_ul |
  davp_online | davp_mbsfn_area | davp_extended_apn_ambr_ul | davp_extended_gbr_ul |
  davp_content_version | davp_usage_monitoring_report | davp_event_report_indication |
  davp_job_type | davp_bearer_operation | davp_user_equipment_info_type | davp_tdf_information |
  davp_cc_request_number | davp_framed_ipv6_prefix | davp_packet_filter_operation |
  davp_coa_ip_address | davp_3gpp_charging_characteristics | davp_proxy_info |
  davp_used_service_unit | davp_charging_rule_install | davp_mdt_allowed_plmn_id |
  davp_origin_realm | davp_twan_identifier | davp_charging_rule_definition | davp_flow_label |
  davp_3gpp_ggsn_ipv6_address | davp_guaranteed_bitrate_dl | davp_restriction_filter_rule |
  davp_3gpp_sgsn_address | davp_redirect_address_type | davp_tdf_destination_realm |
  davp_user_location_info_time | davp_subscription_id_data | davp_redirect_server_address |
  davp_nbifom_mode | davp_final_unit_indication | davp_3gpp_sgsn_ipv6_address | davp_3gpp2_bsid |
  davp_trace_collection_entity | davp_session_release_cause | davp_ran_rule_support |
  davp_unit_value | davp_charging_rule_base_name | davp_report_interval |
  davp_presence_reporting_area_node | davp_user_equipment_info_value | davp_route_record |
  davp_presence_reporting_area_identifier | davp_csg_information_reporting | davp_filter_id |
  davp_presence_reporting_area_information | davp_an_gw_status | davp_ssid |
  davp_metering_method | davp_flow_description | davp_logging_duration |
  davp_apn_aggregate_max_bitrate_dl | davp_conditional_apn_aggregate_max_bitrate |
  davp_access_network_charging_identifier_gx | davp_positioning_method | davp_oc_olr |
  davp_routing_rule_install | davp_presence_reporting_area_status | davp_trace_data |
  davp_sourceid | davp_carrier_frequency | davp_mbsfn_area_id | davp_subscription_id_type |
  davp_usage_monitoring_level | davp_bearer_identifier | davp_sponsor_identity |
  davp_oc_reduction_percentage | davp_default_qos_name | davp_routing_rule_definition |
  davp_traffic_steering_policy_identifier_ul | davp_mdt_configuration |
  davp_error_reporting_host | davp_charging_rule_remove | davp_charging_correlation_indicator |
  davp_nbifom_support | davp_max_plr_dl | davp_event_threshold_event_1i | davp_rating_group |
  davp_rat_type | davp_event_charging_timestamp | davp_default_access |
  davp_event_threshold_event_1f | davp_reporting_level | davp_allocation_retention_priority |
  davp_bearer_control_mode | davp_cell_global_identity | davp_max_plr_ul |
  davp_oc_validity_duration | davp_application_service_provider_identity |
  davp_csg_membership_indication | davp_flow_direction | davp_sharing_key_dl |
  davp_default_eps_bearer_qos | davp_trace_ne_type_list | davp_extended_max_requested_bw_dl |
  davp_redirect_host | davp_measurement_period_lte | davp_routing_rule_report |
  davp_max_requested_bandwidth_dl | davp_user_equipment_info | davp_quota_consumption_time |
  davp_origin_state_id | davp_qos_negotiation | davp_cc_output_octets |
  davp_ran_nas_release_cause | davp_sharing_key_ul | davp_netloc_access_support |
  davp_trace_event_list | davp_supported_features | davp_3gpp_user_location_info |
  davp_value_digits | davp_security_parameter_index | davp_result_code |
  davp_trace_interface_list | davp_fixed_user_location_info | davp_default_qos_information |
  davp_traffic_steering_policy_identifier_dl | davp_redirect_max_cache_time |
  davp_rule_activation_time | davp_load | davp_3gpp_ggsn_address | davp_redirect_server |
  davp_an_trusted | davp_e_utran_cell_global_identity | davp_called_station_id | davp_csg_id |
  davp_framed_ip_address | davp_oc_supported_features | davp_packet_filter_identifier |
  davp_pcc_rule_status | davp_tdf_application_instance_identifier | davp_proxy_host |
  davp_event_threshold_rsrp | davp_event_threshold_rsrq | davp_packet_filter_information |
  davp_subscription_id | davp_experimental_result_code | davp_collection_period_rrm_lte |
  davp_pdn_connection_id | davp_access_network_charging_address | davp_auth_application_id |
  davp_revalidation_time | davp_execution_time | davp_event_trigger |
  davp_extended_max_requested_bw_ul | davp_presence_reporting_area_elements_list |
  davp_charging_information | davp_monitoring_key | davp_3gpp_ms_timezone |
  davp_charging_rule_name | davp_access_availability_change_reason | davp_dynamic_address_flag |
  davp_monitoring_flags | davp_collection_period_rrm_umts | davp_usage_monitoring_information |
  davp_charging_rule_report | davp_ip_can_type | davp_offline | davp_udp_source_port |
  davp_routing_ip_address | davp_redirect_information | davp_mute_notification |
  davp_media_component_number | davp_tariff_time_change | davp_error_message |
  davp_credit_management_status | davp_required_access_info | davp_ip_can_session_charging_scope |
  davp_reporting_trigger | davp_failed_avp | davp_routing_area_identity |
  davp_routing_rule_remove | davp_tft_filter | davp_trace_reference |
  davp_cc_service_specific_units | davp_cc_time | davp_currency_code | davp_cc_input_octets |
  davp_measurement_quantity | davp_removal_of_access | davp_routing_filter | davp_trace_depth |
  davp_proxy_state | davp_rule_failure_code | davp_af_charging_identifier |
  davp_tunnel_header_length | davp_routing_rule_failure_code | davp_coa_information |
  davp_default_bearer_indication | davp_vendor_id | davp_granted_service_unit |
  davp_max_requested_bandwidth_ul | davp_oc_sequence_number | davp_routing_rule_identifier |
  davp_redirect_support | davp_destination_realm | davp_session_id | davp_tos_traffic_class |
  davp_origination_time_stamp | davp_bssid | davp_cc_money |
  davp_application_detection_information | davp_qos_upgrade | davp_tariff_change_usage |
  davp_report_amount | davp_primary_event_charging_function_name | davp_cc_total_octets |
  davp_measurement_period_umts | davp_flows | davp_ps_to_cs_session_continuity |
  davp_primary_charging_collection_function_name | davp_user_csg_information.

Inductive dict_search_how : Set := AVP_BY_NAME | AVP_BY_NAME_ALL_VENDORS.

(** The position of a field in the structure. *)
Definition davp_index (d : davp) : nat :=
  match d with
  | davp_tdf_destination_host => 0
  | davp_pre_emption_capability => 1
  | davp_packet_filter_content => 2
  | davp_feature_list_id => 3
  | davp_resource_release_notification => 4
  | davp_service_identifier => 5
  | davp_physical_access_id => 6
  | davp_csg_access_mode => 7
  | davp_henb_local_ip_address => 8
  | davp_dynamic_address_flag_extension => 9
  | davp_apn_aggregate_max_bitrate_ul => 10
  | davp_network_request_support => 11
  | davp_termination_cause => 12
  | davp_exponent => 13
  | davp_3gpp_rat_type => 14
  | davp_af_signalling_protocol => 15
  | davp_packet_filter_usage => 16
  | davp_usage_monitoring_support => 17
  | davp_tracking_area_identity => 18
  | davp_load_value => 19
  | davp_feature_list => 20
  | davp_omc_id => 21
  | davp_rai => 22
  | davp_oc_report_type => 23
  | davp_experimental_result => 24
  | davp_cc_request_type => 25
  | davp_service_context_id => 26
  | davp_secondary_event_charging_function_name => 27
  | davp_pcscf_restoration_indication => 28
  | davp_tdf_ip_address => 29
  | davp_load_type => 30
  | davp_extended_gbr_dl => 31
  | davp_oc_feature_vector => 32
  | davp_origin_host => 33
  | davp_pra_remove => 34
  | davp_maximum_wait_time => 35
  | davp_list_of_measurements => 36
  | davp_qos_information => 37
  | davp_final_unit_action => 38
  | davp_conditional_policy_information => 39
  | davp_drmp => 40
  | davp_pra_install => 41
  | davp_logical_access_id => 42
  | davp_resource_allocation_notification => 43
  | davp_rule_deactivation_time => 44
  | davp_flow_status => 45
  | davp_priority_level => 46
  | davp_pre_emption_vulnerability => 47
  | davp_bearer_usage => 48
  | davp_reporting_reason => 49
  | davp_qos_class_identifier => 50
  | davp_3gpp_sgsn_mcc_mnc => 51
  | davp_area_scope => 52
  | davp_re_auth_request_type => 53
  | davp_precedence => 54
  | davp_flow_number => 55
  | davp_pdn_connection_charging_id => 56
  | davp_3gpp_ps_data_off_status => 57
  | davp_redirect_host_usage => 58
  | davp_an_gw_address => 59
  | davp_tunnel_header_filter => 60
  | davp_access_network_charging_identifier_value => 61
  | davp_secondary_charging_collection_function_name => 62
  | davp_tcp_source_port => 63
  | davp_destination_host => 64
  | davp_3gpp_selection_mode => 65
  | davp_location_area_identity => 66
  | davp_logging_interval => 67
  | davp_flow_information => 68
  | davp_ue_local_ip_address => 69
  | davp_extended_apn_ambr_dl => 70
  | davp_tdf_application_identifier => 71
  | davp_tunnel_information => 72
  | davp_media_component_status => 73
  | davp_tft_packet_filter_information => 74
  | davp_guaranteed_bitrate_ul => 75
  | davp_online => 76
  | davp_mbsfn_area => 77
  | davp_extended_apn_ambr_ul => 78
  | davp_extended_gbr_ul => 79
  | davp_content_version => 80
  | davp_usage_monitoring_report => 81
  | davp_event_report_indication => 82
  | davp_job_type => 83
  | davp_bearer_operation => 84
  | davp_user_equipment_info_type => 85
  | davp_tdf_information => 86
  | davp_cc_request_number => 87
  | davp_framed_ipv6_prefix => 88
  | davp_packet_filter_operation => 89
  | davp_coa_ip_address => 90
  | davp_3gpp_charging_characteristics => 91
  | davp_proxy_info => 92
  | davp_used_service_unit => 93
  | davp_charging_rule_install => 94
  | davp_mdt_allowed_plmn_id => 95
  | davp_origin_realm => 96
  | davp_twan_identifier => 97
  | davp_charging_rule_definition => 98
  | davp_flow_label => 99
  | davp_3gpp_ggsn_ipv6_address => 100
  | davp_guaranteed_bitrate_dl => 101
  | davp_restriction_filter_rule => 102
  | davp_3gpp_sgsn_address => 103
  | davp_redirect_address_type => 104
  | davp_tdf_destination_realm => 105
  | davp_user_location_info_time => 106
  | davp_subscription_id_data => 107
  | davp_redirect_server_address => 108
  | davp_nbifom_mode => 109
  | davp_final_unit_indication => 110
  | davp_3gpp_sgsn_ipv6_address => 111
  | davp_3gpp2_bsid => 112
  | davp_trace_collection_entity => 113
  | davp_session_release_cause => 114
  | davp_ran_rule_support => 115
  | davp_unit_value => 116
  | davp_charging_rule_base_name => 117
  | davp_report_interval => 118
  | davp_presence_reporting_area_node => 119
  | davp_user_equipment_info_value => 120
  | davp_route_record => 121
  | davp_presence_reporting_area_identifier => 122
  | davp_csg_information_reporting => 123
  | davp_filter_id => 124
  | davp_presence_reporting_area_information => 125
  | davp_an_gw_status => 126
  | davp_ssid => 127
  | davp_metering_method => 128
  | davp_flow_description => 129
  | davp_logging_duration => 130
  | davp_apn_aggregate_max_bitrate_dl => 131
  | davp_conditional_apn_aggregate_max_bitrate => 132
  | davp_access_network_charging_identifier_gx => 133
  | davp_positioning_method => 134
  | davp_oc_olr => 135
  | davp_routing_rule_install => 136
  | davp_presence_reporting_area_status => 137
  | davp_trace_data => 138
  | davp_sourceid => 139
  | davp_carrier_frequency => 140
  | davp_mbsfn_area_id => 141
  | davp_subscription_id_type => 142
  | davp_usage_monitoring_level => 143
  | davp_bearer_identifier => 144
  | davp_sponsor_identity => 145
  | davp_oc_reduction_percentage => 146
  | davp_default_qos_name => 147
  | davp_routing_rule_definition => 148
  | davp_traffic_steering_policy_identifier_ul => 149
  | davp_mdt_configuration => 150
  | davp_error_reporting_host => 151
  | davp_charging_rule_remove => 152
  | davp_charging_correlation_indicator => 153
  | davp_nbifom_support => 154
  | davp_max_plr_dl => 155
  | davp_event_threshold_event_1i => 156
  | davp_rating_group => 157
  | davp_rat_type => 158
  | davp_event_charging_timestamp => 159
  | davp_default_access => 160
  | davp_event_threshold_event_1f => 161
  | davp_reporting_level => 162
  | davp_allocation_retention_priority => 163
  | davp_bearer_control_mode => 164
  | davp_cell_global_identity => 165
  | davp_max_plr_ul => 166
  | davp_oc_validity_duration => 167
  | davp_application_service_provider_identity => 168
  | davp_csg_membership_indication => 169
  | davp_flow_direction => 170
  | davp_sharing_key_dl => 171
  | davp_default_eps_bearer_qos => 172
  | davp_trace_ne_type_list => 173
  | davp_extended_max_requested_bw_dl => 174
  | davp_redirect_host => 175
  | davp_measurement_period_lte => 176
  | davp_routing_rule_report => 177
  | davp_max_requested_bandwidth_dl => 178
  | davp_user_equipment_info => 179
  | davp_quota_consumption_time => 180
  | davp_origin_state_id => 181
  | davp_qos_negotiation => 182
  | davp_cc_output_octets => 183
  | davp_ran_nas_release_cause => 184
  | davp_sharing_key_ul => 185
  | davp_netloc_access_support => 186
  | davp_trace_event_list => 187
  | davp_supported_features => 188
  | davp_3gpp_user_location_info => 189
  | davp_value_digits => 190
  | davp_security_parameter_index => 191
  | davp_result_code => 192
  | davp_trace_interface_list => 193
  | davp_fixed_user_location_info => 194
  | davp_default_qos_information => 195
  | davp_traffic_steering_policy_identifier_dl => 196
  | davp_redirect_max_cache_time => 197
  | davp_rule_activation_time => 198
  | davp_load => 199
  | davp_3gpp_ggsn_address => 200
  | davp_redirect_server => 201
  | davp_an_trusted => 202
  | davp_e_utran_cell_global_identity => 203
  | davp_called_station_id => 204
  | davp_csg_id => 205
  | davp_framed_ip_address => 206
  | davp_oc_supported_features => 207
  | davp_packet_filter_identifier => 208
  | davp_pcc_rule_status => 209
  | davp_tdf_application_instance_identifier => 210
  | davp_proxy_host => 211
  | davp_event_threshold_rsrp => 212
  | davp_event_threshold_rsrq => 213
  | davp_packet_filter_information => 214
  | davp_subscription_id => 215
  | davp_experimental_result_code => 216
  | davp_collection_period_rrm_lte => 217
  | davp_pdn_connection_id => 218
  | davp_access_network_charging_address => 219
  | davp_auth_application_id => 220
  | davp_revalidation_time => 221
  | davp_execution_time => 222
  | davp_event_trigger => 223
  | davp_extended_max_requested_bw_ul => 224
  | davp_presence_reporting_area_elements_list => 225
  | davp_charging_information => 226
  | davp_monitoring_key => 227
  | davp_3gpp_ms_timezone => 228
  | davp_charging_rule_name => 229
  | davp_access_availability_change_reason => 230
  | davp_dynamic_address_flag => 231
  | davp_monitoring_flags => 232
  | davp_collection_period_rrm_umts => 233
  | davp_usage_monitoring_information => 234
  | davp_charging_rule_report => 235
  | davp_ip_can_type => 236
  | davp_offline => 237
  | davp_udp_source_port => 238
  | davp_routing_ip_address => 239
  | davp_redirect_information => 240
  | davp_mute_notification => 241
  | davp_media_component_number => 242
  | davp_tariff_time_change => 243
  | davp_error_message => 244
  | davp_credit_management_status => 245
  | davp_required_access_info => 246
  | davp_ip_can_session_charging_scope => 247
  | davp_reporting_trigger => 248
  | davp_failed_avp => 249
  | davp_routing_area_identity => 250
  | davp_routing_rule_remove => 251
  | davp_tft_filter => 252
  | davp_trace_reference => 253
  | davp_cc_service_specific_units => 254
  | davp_cc_time => 255
  | davp_currency_code => 256
  | davp_cc_input_octets => 257
  | davp_measurement_quantity => 258
  | davp_removal_of_access => 259
  | davp_routing_filter => 260
  | davp_trace_depth => 261
  | davp_proxy_state => 262
  | davp_rule_failure_code => 263
  | davp_af_charging_identifier => 264
  | davp_tunnel_header_length => 265
  | davp_routing_rule_failure_code => 266
  | davp_coa_information => 267
  | davp_default_bearer_indication => 268
  | davp_vendor_id => 269
  | davp_granted_service_unit => 270
  | davp_max_requested_bandwidth_ul => 271
  | davp_oc_sequence_number => 272
  | davp_routing_rule_identifier => 273
  | davp_redirect_support => 274
  | davp_destination_realm => 275
  | davp_session_id => 276
  | davp_tos_traffic_class => 277
  | davp_origination_time_stamp => 278
  | davp_bssid => 279
  | davp_cc_money => 280
  | davp_application_detection_information => 281
  | davp_qos_upgrade => 282
  | davp_tariff_change_usage => 283
  | davp_report_amount => 284
  | davp_primary_event_charging_function_name => 285
  | davp_cc_total_octets => 286
  | davp_measurement_period_umts => 287
  | davp_flows => 288
  | davp_ps_to_cs_session_continuity => 289
  | davp_primary_charging_collection_function_name => 290
  | davp_user_csg_information => 291
  end.

Definition all_davps : list davp :=
  [davp_tdf_destination_host; davp_pre_emption_capability; davp_packet_filter_content;
   davp_feature_list_id; davp_resource_release_notification; davp_service_identifier;
   davp_physical_access_id; davp_csg_access_mode; davp_henb_local_ip_address;
   davp_dynamic_address_flag_extension; davp_apn_aggregate_max_bitrate_ul;
   davp_network_request_support; davp_termination_cause; davp_exponent; davp_3gpp_rat_type;
   davp_af_signalling_protocol; davp_packet_filter_usage; davp_usage_monitoring_support;
   davp_tracking_area_identity; davp_load_value; davp_feature_list; davp_omc_id; davp_rai;
   davp_oc_report_type; davp_experimental_result; davp_cc_request_type; davp_service_context_id;
   davp_secondary_event_charging_function_name; davp_pcscf_restoration_indication;
   davp_tdf_ip_address; davp_load_type; davp_extended_gbr_dl; davp_oc_feature_vector;
   davp_origin_host; davp_pra_remove; davp_maximum_wait_time; davp_list_of_measurements;
   davp_qos_information; davp_final_unit_action; davp_conditional_policy_information; davp_drmp;
   davp_pra_install; davp_logical_access_id; davp_resource_allocation_notification;
   davp_rule_deactivation_time; davp_flow_status; davp_priority_level;
   davp_pre_emption_vulnerability; davp_bearer_usage; davp_reporting_reason;
   davp_qos_class_identifier; davp_3gpp_sgsn_mcc_mnc; davp_area_scope; davp_re_auth_request_type;
   davp_precedence; davp_flow_number; davp_pdn_connection_charging_id;
   davp_3gpp_ps_data_off_status; davp_redirect_host_usage; davp_an_gw_address;
   davp_tunnel_header_filter; davp_access_network_charging_identifier_value;
   davp_secondary_charging_collection_function_name; davp_tcp_source_port; davp_destination_host;
   davp_3gpp_selection_mode; davp_location_area_identity; davp_logging_interval;
   davp_flow_information; davp_ue_local_ip_address; davp_extended_apn_ambr_dl;
   davp_tdf_application_identifier; davp_tunnel_information; davp_media_component_status;
   davp_tft_packet_filter_information; davp_guaranteed_bitrate_ul; davp_online; davp_mbsfn_area;
   davp_extended_apn_ambr_ul; davp_extended_gbr_ul; davp_content_version;
   davp_usage_monitoring_report; davp_event_report_indication; davp_job_type;
   davp_bearer_operation; davp_user_equipment_info_type; davp_tdf_information;
   davp_cc_request_number; davp_framed_ipv6_prefix; davp_packet_filter_operation;
   davp_coa_ip_address; davp_3gpp_charging_characteristics; davp_proxy_info;
   davp_used_service_unit; davp_charging_rule_install; davp_mdt_allowed_plmn_id;
   davp_origin_realm; davp_twan_identifier; davp_charging_rule_definition; davp_flow_label;
   davp_3gpp_ggsn_ipv6_address; davp_guaranteed_bitrate_dl; davp_restriction_filter_rule;
   davp_3gpp_sgsn_address; davp_redirect_address_type; davp_tdf_destination_realm;
   davp_user_location_info_time; davp_subscription_id_data; davp_redirect_server_address;
   davp_nbifom_mode; davp_final_unit_indication; davp_3gpp_sgsn_ipv6_address; davp_3gpp2_bsid;
   davp_trace_collection_entity; davp_session_release_cause; davp_ran_rule_support;
   davp_unit_value; davp_charging_rule_base_name; davp_report_interval;
   davp_presence_reporting_area_node; davp_user_equipment_info_value; davp_route_record;
   davp_presence_reporting_area_identifier; davp_csg_information_reporting; davp_filter_id;
   davp_presence_reporting_area_information; davp_an_gw_status; davp_ssid; davp_metering_method;
   davp_flow_description; davp_logging_duration; davp_apn_aggregate_max_bitrate_dl;
   davp_conditional_apn_aggregate_max_bitrate; davp_access_network_charging_identifier_gx;
   davp_positioning_method; davp_oc_olr; davp_routing_rule_install;
   davp_presence_reporting_area_status; davp_trace_data; davp_sourceid; davp_carrier_frequency;
   davp_mbsfn_area_id; davp_subscription_id_type; davp_usage_monitoring_level;
   davp_bearer_identifier; davp_sponsor_identity; davp_oc_reduction_percentage;
   davp_default_qos_name; davp_routing_rule_definition;
   davp_traffic_steering_policy_identifier_ul; davp_mdt_configuration; davp_error_reporting_host;
   davp_charging_rule_remove; davp_charging_correlation_indicator; davp_nbifom_support;
   davp_max_plr_dl; davp_event_threshold_event_1i; davp_rating_group; davp_rat_type;
   davp_event_charging_timestamp; davp_default_access; davp_event_threshold_event_1f;
   davp_reporting_level; davp_allocation_retention_priority; davp_bearer_control_mode;
   davp_cell_global_identity; davp_max_plr_ul; davp_oc_validity_duration;
   davp_application_service_provider_identity; davp_csg_membership_indication;
   davp_flow_direction; davp_sharing_key_dl; davp_default_eps_bearer_qos;
   davp_trace_ne_type_list; davp_extended_max_requested_bw_dl; davp_redirect_host;
   davp_measurement_period_lte; davp_routing_rule_report; davp_max_requested_bandwidth_dl;
   davp_user_equipment_info; davp_quota_consumption_time; davp_origin_state_id;
   davp_qos_negotiation; davp_cc_output_octets; davp_ran_nas_release_cause; davp_sharing_key_ul;
   davp_netloc_access_support; davp_trace_event_list; davp_supported_features;
   davp_3gpp_user_location_info; davp_value_digits; davp_security_parameter_index;
   davp_result_code; davp_trace_interface_list; davp_fixed_user_location_info;
   davp_default_qos_information; davp_traffic_steering_policy_identifier_dl;
   davp_redirect_max_cache_time; davp_rule_activation_time; davp_load; davp_3gpp_ggsn_address;
   davp_redirect_server; davp_an_trusted; davp_e_utran_cell_global_identity;
   davp_called_station_id; davp_csg_id; davp_framed_ip_address; davp_oc_supported_features;
   davp_packet_filter_identifier; davp_pcc_rule_status; davp_tdf_application_instance_identifier;
   davp_proxy_host; davp_event_threshold_rsrp; davp_event_threshold_rsrq;
   davp_packet_filter_information; davp_subscription_id; davp_experimental_result_code;
   davp_collection_period_rrm_lte; davp_pdn_connection_id; davp_access_network_charging_address;
   davp_auth_application_id; davp_revalidation_time; davp_execution_time; davp_event_trigger;
   davp_extended_max_requested_bw_ul; davp_presence_reporting_area_elements_list;
   davp_charging_information; davp_monitoring_key; davp_3gpp_ms_timezone;
   davp_charging_rule_name; davp_access_availability_change_reason; davp_dynamic_address_flag;
   davp_monitoring_flags; davp_collection_period_rrm_umts; davp_usage_monitoring_information;
   davp_charging_rule_report; davp_ip_can_type; davp_offline; davp_udp_source_port;
   davp_routing_ip_address; davp_redirect_information; davp_mute_notification;
   davp_media_component_number; davp_tariff_time_change; davp_error_message;
   davp_credit_management_status; davp_required_access_info; davp_ip_can_session_charging_scope;
   davp_reporting_trigger; davp_failed_avp; davp_routing_area_identity; davp_routing_rule_remove;
   davp_tft_filter; davp_trace_reference; davp_cc_service_specific_units; davp_cc_time;
   davp_currency_code; davp_cc_input_octets; davp_measurement_quantity; davp_removal_of_access;
   davp_routing_filter; davp_trace_depth; davp_proxy_state; davp_rule_failure_code;
   davp_af_charging_identifier; davp_tunnel_header_length; davp_routing_rule_failure_code;
   davp_coa_information; davp_default_bearer_indication; davp_vendor_id;
   davp_granted_service_unit; davp_max_requested_bandwidth_ul; davp_oc_sequence_number;
   davp_routing_rule_identifier; davp_redirect_support; davp_destination_realm; davp_session_id;
   davp_tos_traffic_class; davp_origination_time_stamp; davp_bssid; davp_cc_money;
   davp_application_detection_information; davp_qos_upgrade; davp_tariff_change_usage;
   davp_report_amount; davp_primary_event_charging_function_name; davp_cc_total_octets;
   davp_measurement_period_umts; davp_flows; davp_ps_to_cs_session_continuity;
   davp_primary_charging_collection_function_name; davp_user_csg_information].

(** The lookups of [gxInit], in its order. *)
Definition avp_lookups : list (dict_search_how * string * davp) :=
  [
    (AVP_BY_NAME_ALL_VENDORS, "TDF-Destination-Host"%string, davp_tdf_destination_host);
    (AVP_BY_NAME_ALL_VENDORS, "Pre-emption-Capability"%string, davp_pre_emption_capability);
    (AVP_BY_NAME_ALL_VENDORS, "Packet-Filter-Content"%string, davp_packet_filter_content);
    (AVP_BY_NAME_ALL_VENDORS, "Feature-List-ID"%string, davp_feature_list_id);
    (AVP_BY_NAME_ALL_VENDORS, "Resource-Release-Notification"%string, davp_resource_release_notification);
    (AVP_BY_NAME, "Service-Identifier"%string, davp_service_identifier);
    (AVP_BY_NAME_ALL_VENDORS, "Physical-Access-Id"%string, davp_physical_access_id);
    (AVP_BY_NAME_ALL_VENDORS, "CSG-Access-Mode"%string, davp_csg_access_mode);
    (AVP_BY_NAME_ALL_VENDORS, "HeNB-Local-IP-Address"%string, davp_henb_local_ip_address);
    (AVP_BY_NAME_ALL_VENDORS, "Dynamic-Address-Flag-Extension"%string, davp_dynamic_address_flag_extension);
    (AVP_BY_NAME_ALL_VENDORS, "APN-Aggregate-Max-Bitrate-UL"%string, davp_apn_aggregate_max_bitrate_ul);
    (AVP_BY_NAME_ALL_VENDORS, "Network-Request-Support"%string, davp_network_request_support);
    (AVP_BY_NAME, "Termination-Cause"%string, davp_termination_cause);
    (AVP_BY_NAME, "Exponent"%string, davp_exponent);
    (AVP_BY_NAME_ALL_VENDORS, "3GPP-RAT-Type"%string, davp_3gpp_rat_type);
    (AVP_BY_NAME_ALL_VENDORS, "AF-Signalling-Protocol"%string, davp_af_signalling_protocol);
    (AVP_BY_NAME_ALL_VENDORS, "Packet-Filter-Usage"%string, davp_packet_filter_usage);
    (AVP_BY_NAME_ALL_VENDORS, "Usage-Monitoring-Support"%string, davp_usage_monitoring_support);
    (AVP_BY_NAME_ALL_VENDORS, "Tracking-Area-Identity"%string, davp_tracking_area_identity);
    (AVP_BY_NAME, "Load-Value"%string, davp_load_value);
    (AVP_BY_NAME_ALL_VENDORS, "Feature-List"%string, davp_feature_list);
    (AVP_BY_NAME_ALL_VENDORS, "OMC-Id"%string, davp_omc_id);
    (AVP_BY_NAME_ALL_VENDORS, "RAI"%string, davp_rai);
    (AVP_BY_NAME, "OC-Report-Type"%string, davp_oc_report_type);
    (AVP_BY_NAME, "Experimental-Result"%string, davp_experimental_result);
    (AVP_BY_NAME, "Service-Context-Id"%string, davp_service_context_id);
    (AVP_BY_NAME, "CC-Request-Type"%string, davp_cc_request_type);
    (AVP_BY_NAME_ALL_VENDORS, "Secondary-Event-Charging-Function-Name"%string, davp_secondary_event_charging_function_name);
    (AVP_BY_NAME_ALL_VENDORS, "PCSCF-Restoration-Indication"%string, davp_pcscf_restoration_indication);
    (AVP_BY_NAME_ALL_VENDORS, "TDF-IP-Address"%string, davp_tdf_ip_address);
    (AVP_BY_NAME, "Load-Type"%string, davp_load_type);
    (AVP_BY_NAME_ALL_VENDORS, "Extended-GBR-DL"%string, davp_extended_gbr_dl);
    (AVP_BY_NAME, "OC-Feature-Vector"%string, davp_oc_feature_vector);
    (AVP_BY_NAME, "Origin-Host"%string, davp_origin_host);
    (AVP_BY_NAME_ALL_VENDORS, "PRA-Remove"%string, davp_pra_remove);
    (AVP_BY_NAME_ALL_VENDORS, "Maximum-Wait-Time"%string, davp_maximum_wait_time);
    (AVP_BY_NAME_ALL_VENDORS, "List-Of-Measurements"%string, davp_list_of_measurements);
    (AVP_BY_NAME_ALL_VENDORS, "QoS-Information"%string, davp_qos_information);
    (AVP_BY_NAME, "Final-Unit-Action"%string, davp_final_unit_action);
    (AVP_BY_NAME_ALL_VENDORS, "Conditional-Policy-Information"%string, davp_conditional_policy_information);
    (AVP_BY_NAME, "DRMP"%string, davp_drmp);
    (AVP_BY_NAME_ALL_VENDORS, "PRA-Install"%string, davp_pra_install);
    (AVP_BY_NAME_ALL_VENDORS, "Logical-Access-Id"%string, davp_logical_access_id);
    (AVP_BY_NAME_ALL_VENDORS, "Resource-Allocation-Notification"%string, davp_resource_allocation_notification);
    (AVP_BY_NAME_ALL_VENDORS, "Rule-Deactivation-Time"%string, davp_rule_deactivation_time);
    (AVP_BY_NAME_ALL_VENDORS, "Flow-Status"%string, davp_flow_status);
    (AVP_BY_NAME_ALL_VENDORS, "Priority-Level"%string, davp_priority_level);
    (AVP_BY_NAME_ALL_VENDORS, "Pre-emption-Vulnerability"%string, davp_pre_emption_vulnerability);
    (AVP_BY_NAME_ALL_VENDORS, "Bearer-Usage"%string, davp_bearer_usage);
    (AVP_BY_NAME_ALL_VENDORS, "Reporting-Reason"%string, davp_reporting_reason);
    (AVP_BY_NAME_ALL_VENDORS, "QoS-Class-Identifier"%string, davp_qos_class_identifier);
    (AVP_BY_NAME_ALL_VENDORS, "3GPP-SGSN-MCC-MNC"%string, davp_3gpp_sgsn_mcc_mnc);
    (AVP_BY_NAME_ALL_VENDORS, "Area-Scope"%string, davp_area_scope);
    (AVP_BY_NAME, "Re-Auth-Request-Type"%string, davp_re_auth_request_type);
    (AVP_BY_NAME_ALL_VENDORS, "Precedence"%string, davp_precedence);
    (AVP_BY_NAME_ALL_VENDORS, "Flow-Number"%string, davp_flow_number);
    (AVP_BY_NAME_ALL_VENDORS, "PDN-Connection-Charging-ID"%string, davp_pdn_connection_charging_id);
    (AVP_BY_NAME_ALL_VENDORS, "3GPP-PS-Data-Off-Status"%string, davp_3gpp_ps_data_off_status);
    (AVP_BY_NAME, "Redirect-Host-Usage"%string, davp_redirect_host_usage);
    (AVP_BY_NAME_ALL_VENDORS, "AN-GW-Address"%string, davp_an_gw_address);
    (AVP_BY_NAME_ALL_VENDORS, "Tunnel-Header-Filter"%string, davp_tunnel_header_filter);
    (AVP_BY_NAME_ALL_VENDORS, "Access-Network-Charging-Identifier-Value"%string, davp_access_network_charging_identifier_value);
    (AVP_BY_NAME_ALL_VENDORS, "Secondary-Charging-Collection-Function-Name"%string, davp_secondary_charging_collection_function_name);
    (AVP_BY_NAME_ALL_VENDORS, "TCP-Source-Port"%string, davp_tcp_source_port);
    (AVP_BY_NAME, "Destination-Host"%string, davp_destination_host);
    (AVP_BY_NAME_ALL_VENDORS, "3GPP-Selection-Mode"%string, davp_3gpp_selection_mode);
    (AVP_BY_NAME_ALL_VENDORS, "Location-Area-Identity"%string, davp_location_area_identity);
    (AVP_BY_NAME_ALL_VENDORS, "Logging-Interval"%string, davp_logging_interval);
    (AVP_BY_NAME_ALL_VENDORS, "Flow-Information"%string, davp_flow_information);
    (AVP_BY_NAME_ALL_VENDORS, "UE-Local-IP-Address"%string, davp_ue_local_ip_address);
    (AVP_BY_NAME_ALL_VENDORS, "Extended-APN-AMBR-DL"%string, davp_extended_apn_ambr_dl);
    (AVP_BY_NAME_ALL_VENDORS, "TDF-Application-Identifier"%string, davp_tdf_application_identifier);
    (AVP_BY_NAME_ALL_VENDORS, "Tunnel-Information"%string, davp_tunnel_information);
    (AVP_BY_NAME_ALL_VENDORS, "Media-Component-Status"%string, davp_media_component_status);
    (AVP_BY_NAME_ALL_VENDORS, "TFT-Packet-Filter-Information"%string, davp_tft_packet_filter_information);
    (AVP_BY_NAME_ALL_VENDORS, "Guaranteed-Bitrate-UL"%string, davp_guaranteed_bitrate_ul);
    (AVP_BY_NAME_ALL_VENDORS, "Online"%string, davp_online);
    (AVP_BY_NAME_ALL_VENDORS, "MBSFN-Area"%string, davp_mbsfn_area);
    (AVP_BY_NAME_ALL_VENDORS, "Extended-APN-AMBR-UL"%string, davp_extended_apn_ambr_ul);
    (AVP_BY_NAME_ALL_VENDORS, "Extended-GBR-UL"%string, davp_extended_gbr_ul);
    (AVP_BY_NAME_ALL_VENDORS, "Content-Version"%string, davp_content_version);
    (AVP_BY_NAME_ALL_VENDORS, "Usage-Monitoring-Report"%string, davp_usage_monitoring_report);
    (AVP_BY_NAME_ALL_VENDORS, "Event-Report-Indication"%string, davp_event_report_indication);
    (AVP_BY_NAME_ALL_VENDORS, "Job-Type"%string, davp_job_type);
    (AVP_BY_NAME_ALL_VENDORS, "Bearer-Operation"%string, davp_bearer_operation);
    (AVP_BY_NAME, "User-Equipment-Info-Type"%string, davp_user_equipment_info_type);
    (AVP_BY_NAME_ALL_VENDORS, "TDF-Information"%string, davp_tdf_information);
    (AVP_BY_NAME, "CC-Request-Number"%string, davp_cc_request_number);
    (AVP_BY_NAME, "Framed-IPv6-Prefix"%string, davp_framed_ipv6_prefix);
    (AVP_BY_NAME_ALL_VENDORS, "Packet-Filter-Operation"%string, davp_packet_filter_operation);
    (AVP_BY_NAME_ALL_VENDORS, "CoA-IP-Address"%string, davp_coa_ip_address);
    (AVP_BY_NAME_ALL_VENDORS, "3GPP-Charging-Characteristics"%string, davp_3gpp_charging_characteristics);
    (AVP_BY_NAME, "Proxy-Info"%string, davp_proxy_info);
    (AVP_BY_NAME, "Used-Service-Unit"%string, davp_used_service_unit);
    (AVP_BY_NAME_ALL_VENDORS, "Charging-Rule-Install"%string, davp_charging_rule_install);
    (AVP_BY_NAME_ALL_VENDORS, "MDT-Allowed-PLMN-Id"%string, davp_mdt_allowed_plmn_id);
    (AVP_BY_NAME, "Origin-Realm"%string, davp_origin_realm);
    (AVP_BY_NAME_ALL_VENDORS, "TWAN-Identifier"%string, davp_twan_identifier);
    (AVP_BY_NAME_ALL_VENDORS, "Charging-Rule-Definition"%string, davp_charging_rule_definition);
    (AVP_BY_NAME_ALL_VENDORS, "Flow-Label"%string, davp_flow_label);
    (AVP_BY_NAME_ALL_VENDORS, "3GPP-GGSN-Ipv6-Address"%string, davp_3gpp_ggsn_ipv6_address);
    (AVP_BY_NAME_ALL_VENDORS, "Guaranteed-Bitrate-DL"%string, davp_guaranteed_bitrate_dl);
    (AVP_BY_NAME, "Restriction-Filter-Rule"%string, davp_restriction_filter_rule);
    (AVP_BY_NAME_ALL_VENDORS, "3GPP-SGSN-Address"%string, davp_3gpp_sgsn_address);
    (AVP_BY_NAME, "Redirect-Address-Type"%string, davp_redirect_address_type);
    (AVP_BY_NAME_ALL_VENDORS, "TDF-Destination-Realm"%string, davp_tdf_destination_realm);
    (AVP_BY_NAME_ALL_VENDORS, "User-Location-Info-Time"%string, davp_user_location_info_time);
    (AVP_BY_NAME, "Subscription-Id-Data"%string, davp_subscription_id_data);
    (AVP_BY_NAME, "Redirect-Server-Address"%string, davp_redirect_server_address);
    (AVP_BY_NAME_ALL_VENDORS, "NBIFOM-Mode"%string, davp_nbifom_mode);
    (AVP_BY_NAME, "Final-Unit-Indication"%string, davp_final_unit_indication);
    (AVP_BY_NAME_ALL_VENDORS, "3GPP-SGSN-Ipv6-Address"%string, davp_3gpp_sgsn_ipv6_address);
    (AVP_BY_NAME_ALL_VENDORS, "3GPP2-BSID"%string, davp_3gpp2_bsid);
    (AVP_BY_NAME_ALL_VENDORS, "Trace-Collection-Entity"%string, davp_trace_collection_entity);
    (AVP_BY_NAME_ALL_VENDORS, "Session-Release-Cause"%string, davp_session_release_cause);
    (AVP_BY_NAME_ALL_VENDORS, "RAN-Rule-Support"%string, davp_ran_rule_support);
    (AVP_BY_NAME, "Unit-Value"%string, davp_unit_value);
    (AVP_BY_NAME_ALL_VENDORS, "Charging-Rule-Base-Name"%string, davp_charging_rule_base_name);
    (AVP_BY_NAME_ALL_VENDORS, "Report-Interval"%string, davp_report_interval);
    (AVP_BY_NAME_ALL_VENDORS, "Presence-Reporting-Area-Node"%string, davp_presence_reporting_area_node);
    (AVP_BY_NAME, "User-Equipment-Info-Value"%string, davp_user_equipment_info_value);
    (AVP_BY_NAME, "Route-Record"%string, davp_route_record);
    (AVP_BY_NAME_ALL_VENDORS, "Presence-Reporting-Area-Identifier"%string, davp_presence_reporting_area_identifier);
    (AVP_BY_NAME_ALL_VENDORS, "CSG-Information-Reporting"%string, davp_csg_information_reporting);
    (AVP_BY_NAME, "Filter-Id"%string, davp_filter_id);
    (AVP_BY_NAME_ALL_VENDORS, "Presence-Reporting-Area-Information"%string, davp_presence_reporting_area_information);
    (AVP_BY_NAME_ALL_VENDORS, "AN-GW-Status"%string, davp_an_gw_status);
    (AVP_BY_NAME_ALL_VENDORS, "SSID"%string, davp_ssid);
    (AVP_BY_NAME_ALL_VENDORS, "Metering-Method"%string, davp_metering_method);
    (AVP_BY_NAME_ALL_VENDORS, "Flow-Description"%string, davp_flow_description);
    (AVP_BY_NAME_ALL_VENDORS, "Logging-Duration"%string, davp_logging_duration);
    (AVP_BY_NAME_ALL_VENDORS, "APN-Aggregate-Max-Bitrate-DL"%string, davp_apn_aggregate_max_bitrate_dl);
    (AVP_BY_NAME_ALL_VENDORS, "Conditional-APN-Aggregate-Max-Bitrate"%string, davp_conditional_apn_aggregate_max_bitrate);
    (AVP_BY_NAME_ALL_VENDORS, "Access-Network-Charging-Identifier-Gx"%string, davp_access_network_charging_identifier_gx);
    (AVP_BY_NAME_ALL_VENDORS, "Positioning-Method"%string, davp_positioning_method);
    (AVP_BY_NAME, "OC-OLR"%string, davp_oc_olr);
    (AVP_BY_NAME_ALL_VENDORS, "Routing-Rule-Install"%string, davp_routing_rule_install);
    (AVP_BY_NAME_ALL_VENDORS, "Presence-Reporting-Area-Status"%string, davp_presence_reporting_area_status);
    (AVP_BY_NAME_ALL_VENDORS, "Trace-Data"%string, davp_trace_data);
    (AVP_BY_NAME, "SourceID"%string, davp_sourceid);
    (AVP_BY_NAME_ALL_VENDORS, "Carrier-Frequency"%string, davp_carrier_frequency);
    (AVP_BY_NAME_ALL_VENDORS, "MBSFN-Area-ID"%string, davp_mbsfn_area_id);
    (AVP_BY_NAME, "Subscription-Id-Type"%string, davp_subscription_id_type);
    (AVP_BY_NAME_ALL_VENDORS, "Usage-Monitoring-Level"%string, davp_usage_monitoring_level);
    (AVP_BY_NAME_ALL_VENDORS, "Bearer-Identifier"%string, davp_bearer_identifier);
    (AVP_BY_NAME_ALL_VENDORS, "Sponsor-Identity"%string, davp_sponsor_identity);
    (AVP_BY_NAME, "OC-Reduction-Percentage"%string, davp_oc_reduction_percentage);
    (AVP_BY_NAME_ALL_VENDORS, "Default-QoS-Name"%string, davp_default_qos_name);
    (AVP_BY_NAME_ALL_VENDORS, "Routing-Rule-Definition"%string, davp_routing_rule_definition);
    (AVP_BY_NAME_ALL_VENDORS, "Traffic-Steering-Policy-Identifier-UL"%string, davp_traffic_steering_policy_identifier_ul);
    (AVP_BY_NAME_ALL_VENDORS, "MDT-Configuration"%string, davp_mdt_configuration);
    (AVP_BY_NAME, "Error-Reporting-Host"%string, davp_error_reporting_host);
    (AVP_BY_NAME_ALL_VENDORS, "Charging-Rule-Remove"%string, davp_charging_rule_remove);
    (AVP_BY_NAME_ALL_VENDORS, "Charging-Correlation-Indicator"%string, davp_charging_correlation_indicator);
    (AVP_BY_NAME_ALL_VENDORS, "NBIFOM-Support"%string, davp_nbifom_support);
    (AVP_BY_NAME_ALL_VENDORS, "Max-PLR-DL"%string, davp_max_plr_dl);
    (AVP_BY_NAME_ALL_VENDORS, "Event-Threshold-Event-1I"%string, davp_event_threshold_event_1i);
    (AVP_BY_NAME, "Rating-Group"%string, davp_rating_group);
    (AVP_BY_NAME_ALL_VENDORS, "RAT-Type"%string, davp_rat_type);
    (AVP_BY_NAME_ALL_VENDORS, "Event-Charging-TimeStamp"%string, davp_event_charging_timestamp);
    (AVP_BY_NAME_ALL_VENDORS, "Default-Access"%string, davp_default_access);
    (AVP_BY_NAME_ALL_VENDORS, "Event-Threshold-Event-1F"%string, davp_event_threshold_event_1f);
    (AVP_BY_NAME_ALL_VENDORS, "Reporting-Level"%string, davp_reporting_level);
    (AVP_BY_NAME_ALL_VENDORS, "Allocation-Retention-Priority"%string, davp_allocation_retention_priority);
    (AVP_BY_NAME_ALL_VENDORS, "Bearer-Control-Mode"%string, davp_bearer_control_mode);
    (AVP_BY_NAME_ALL_VENDORS, "Cell-Global-Identity"%string, davp_cell_global_identity);
    (AVP_BY_NAME_ALL_VENDORS, "Max-PLR-UL"%string, davp_max_plr_ul);
    (AVP_BY_NAME, "OC-Validity-Duration"%string, davp_oc_validity_duration);
    (AVP_BY_NAME_ALL_VENDORS, "Application-Service-Provider-Identity"%string, davp_application_service_provider_identity);
    (AVP_BY_NAME_ALL_VENDORS, "CSG-Membership-Indication"%string, davp_csg_membership_indication);
    (AVP_BY_NAME_ALL_VENDORS, "Flow-Direction"%string, davp_flow_direction);
    (AVP_BY_NAME_ALL_VENDORS, "Sharing-Key-DL"%string, davp_sharing_key_dl);
    (AVP_BY_NAME_ALL_VENDORS, "Default-EPS-Bearer-QoS"%string, davp_default_eps_bearer_qos);
    (AVP_BY_NAME_ALL_VENDORS, "Trace-NE-Type-List"%string, davp_trace_ne_type_list);
    (AVP_BY_NAME_ALL_VENDORS, "Extended-Max-Requested-BW-DL"%string, davp_extended_max_requested_bw_dl);
    (AVP_BY_NAME, "Redirect-Host"%string, davp_redirect_host);
    (AVP_BY_NAME_ALL_VENDORS, "Measurement-Period-LTE"%string, davp_measurement_period_lte);
    (AVP_BY_NAME_ALL_VENDORS, "Routing-Rule-Report"%string, davp_routing_rule_report);
    (AVP_BY_NAME_ALL_VENDORS, "Max-Requested-Bandwidth-DL"%string, davp_max_requested_bandwidth_dl);
    (AVP_BY_NAME, "User-Equipment-Info"%string, davp_user_equipment_info);
    (AVP_BY_NAME_ALL_VENDORS, "Quota-Consumption-Time"%string, davp_quota_consumption_time);
    (AVP_BY_NAME, "Origin-State-Id"%string, davp_origin_state_id);
    (AVP_BY_NAME_ALL_VENDORS, "QoS-Negotiation"%string, davp_qos_negotiation);
    (AVP_BY_NAME, "CC-Output-Octets"%string, davp_cc_output_octets);
    (AVP_BY_NAME_ALL_VENDORS, "RAN-NAS-Release-Cause"%string, davp_ran_nas_release_cause);
    (AVP_BY_NAME_ALL_VENDORS, "Sharing-Key-UL"%string, davp_sharing_key_ul);
    (AVP_BY_NAME_ALL_VENDORS, "NetLoc-Access-Support"%string, davp_netloc_access_support);
    (AVP_BY_NAME_ALL_VENDORS, "Trace-Event-List"%string, davp_trace_event_list);
    (AVP_BY_NAME_ALL_VENDORS, "Supported-Features"%string, davp_supported_features);
    (AVP_BY_NAME_ALL_VENDORS, "3GPP-User-Location-Info"%string, davp_3gpp_user_location_info);
    (AVP_BY_NAME, "Value-Digits"%string, davp_value_digits);
    (AVP_BY_NAME_ALL_VENDORS, "Security-Parameter-Index"%string, davp_security_parameter_index);
    (AVP_BY_NAME, "Result-Code"%string, davp_result_code);
    (AVP_BY_NAME_ALL_VENDORS, "Trace-Interface-List"%string, davp_trace_interface_list);
    (AVP_BY_NAME_ALL_VENDORS, "Fixed-User-Location-Info"%string, davp_fixed_user_location_info);
    (AVP_BY_NAME_ALL_VENDORS, "Default-QoS-Information"%string, davp_default_qos_information);
    (AVP_BY_NAME_ALL_VENDORS, "Traffic-Steering-Policy-Identifier-DL"%string, davp_traffic_steering_policy_identifier_dl);
    (AVP_BY_NAME, "Redirect-Max-Cache-Time"%string, davp_redirect_max_cache_time);
    (AVP_BY_NAME_ALL_VENDORS, "Rule-Activation-Time"%string, davp_rule_activation_time);
    (AVP_BY_NAME, "Load"%string, davp_load);
    (AVP_BY_NAME_ALL_VENDORS, "3GPP-GGSN-Address"%string, davp_3gpp_ggsn_address);
    (AVP_BY_NAME, "Redirect-Server"%string, davp_redirect_server);
    (AVP_BY_NAME_ALL_VENDORS, "AN-Trusted"%string, davp_an_trusted);
    (AVP_BY_NAME_ALL_VENDORS, "E-UTRAN-Cell-Global-Identity"%string, davp_e_utran_cell_global_identity);
    (AVP_BY_NAME, "Called-Station-Id"%string, davp_called_station_id);
    (AVP_BY_NAME_ALL_VENDORS, "CSG-Id"%string, davp_csg_id);
    (AVP_BY_NAME, "Framed-IP-Address"%string, davp_framed_ip_address);
    (AVP_BY_NAME, "OC-Supported-Features"%string, davp_oc_supported_features);
    (AVP_BY_NAME_ALL_VENDORS, "Packet-Filter-Identifier"%string, davp_packet_filter_identifier);
    (AVP_BY_NAME_ALL_VENDORS, "PCC-Rule-Status"%string, davp_pcc_rule_status);
    (AVP_BY_NAME_ALL_VENDORS, "TDF-Application-Instance-Identifier"%string, davp_tdf_application_instance_identifier);
    (AVP_BY_NAME, "Proxy-Host"%string, davp_proxy_host);
    (AVP_BY_NAME_ALL_VENDORS, "Event-Threshold-RSRP"%string, davp_event_threshold_rsrp);
    (AVP_BY_NAME_ALL_VENDORS, "Event-Threshold-RSRQ"%string, davp_event_threshold_rsrq);
    (AVP_BY_NAME_ALL_VENDORS, "Packet-Filter-Information"%string, davp_packet_filter_information);
    (AVP_BY_NAME, "Subscription-Id"%string, davp_subscription_id);
    (AVP_BY_NAME, "Experimental-Result-Code"%string, davp_experimental_result_code);
    (AVP_BY_NAME_ALL_VENDORS, "Collection-Period-RRM-LTE"%string, davp_collection_period_rrm_lte);
    (AVP_BY_NAME_ALL_VENDORS, "PDN-Connection-ID"%string, davp_pdn_connection_id);
    (AVP_BY_NAME_ALL_VENDORS, "Access-Network-Charging-Address"%string, davp_access_network_charging_address);
    (AVP_BY_NAME, "Auth-Application-Id"%string, davp_auth_application_id);
    (AVP_BY_NAME_ALL_VENDORS, "Revalidation-Time"%string, davp_revalidation_time);
    (AVP_BY_NAME_ALL_VENDORS, "Execution-Time"%string, davp_execution_time);
    (AVP_BY_NAME_ALL_VENDORS, "Event-Trigger"%string, davp_event_trigger);
    (AVP_BY_NAME_ALL_VENDORS, "Extended-Max-Requested-BW-UL"%string, davp_extended_max_requested_bw_ul);
    (AVP_BY_NAME_ALL_VENDORS, "Presence-Reporting-Area-Elements-List"%string, davp_presence_reporting_area_elements_list);
    (AVP_BY_NAME_ALL_VENDORS, "Charging-Information"%string, davp_charging_information);
    (AVP_BY_NAME_ALL_VENDORS, "Monitoring-Key"%string, davp_monitoring_key);
    (AVP_BY_NAME_ALL_VENDORS, "3GPP-MS-TimeZone"%string, davp_3gpp_ms_timezone);
    (AVP_BY_NAME_ALL_VENDORS, "Charging-Rule-Name"%string, davp_charging_rule_name);
    (AVP_BY_NAME_ALL_VENDORS, "Access-Availability-Change-Reason"%string, davp_access_availability_change_reason);
    (AVP_BY_NAME_ALL_VENDORS, "Dynamic-Address-Flag"%string, davp_dynamic_address_flag);
    (AVP_BY_NAME_ALL_VENDORS, "Monitoring-Flags"%string, davp_monitoring_flags);
    (AVP_BY_NAME_ALL_VENDORS, "Collection-Period-RRM-UMTS"%string, davp_collection_period_rrm_umts);
    (AVP_BY_NAME_ALL_VENDORS, "Usage-Monitoring-Information"%string, davp_usage_monitoring_information);
    (AVP_BY_NAME_ALL_VENDORS, "Charging-Rule-Report"%string, davp_charging_rule_report);
    (AVP_BY_NAME_ALL_VENDORS, "IP-CAN-Type"%string, davp_ip_can_type);
    (AVP_BY_NAME_ALL_VENDORS, "Offline"%string, davp_offline);
    (AVP_BY_NAME_ALL_VENDORS, "UDP-Source-Port"%string, davp_udp_source_port);
    (AVP_BY_NAME_ALL_VENDORS, "Routing-IP-Address"%string, davp_routing_ip_address);
    (AVP_BY_NAME_ALL_VENDORS, "Redirect-Information"%string, davp_redirect_information);
    (AVP_BY_NAME_ALL_VENDORS, "Mute-Notification"%string, davp_mute_notification);
    (AVP_BY_NAME_ALL_VENDORS, "Media-Component-Number"%string, davp_media_component_number);
    (AVP_BY_NAME, "Tariff-Time-Change"%string, davp_tariff_time_change);
    (AVP_BY_NAME, "Error-Message"%string, davp_error_message);
    (AVP_BY_NAME_ALL_VENDORS, "Credit-Management-Status"%string, davp_credit_management_status);
    (AVP_BY_NAME_ALL_VENDORS, "Required-Access-Info"%string, davp_required_access_info);
    (AVP_BY_NAME_ALL_VENDORS, "IP-CAN-Session-Charging-Scope"%string, davp_ip_can_session_charging_scope);
    (AVP_BY_NAME_ALL_VENDORS, "Reporting-Trigger"%string, davp_reporting_trigger);
    (AVP_BY_NAME, "Failed-AVP"%string, davp_failed_avp);
    (AVP_BY_NAME_ALL_VENDORS, "Routing-Area-Identity"%string, davp_routing_area_identity);
    (AVP_BY_NAME_ALL_VENDORS, "Routing-Rule-Remove"%string, davp_routing_rule_remove);
    (AVP_BY_NAME_ALL_VENDORS, "TFT-Filter"%string, davp_tft_filter);
    (AVP_BY_NAME_ALL_VENDORS, "Trace-Reference"%string, davp_trace_reference);
    (AVP_BY_NAME, "CC-Service-Specific-Units"%string, davp_cc_service_specific_units);
    (AVP_BY_NAME, "CC-Time"%string, davp_cc_time);
    (AVP_BY_NAME, "Currency-Code"%string, davp_currency_code);
    (AVP_BY_NAME, "CC-Input-Octets"%string, davp_cc_input_octets);
    (AVP_BY_NAME_ALL_VENDORS, "Measurement-Quantity"%string, davp_measurement_quantity);
    (AVP_BY_NAME_ALL_VENDORS, "Removal-Of-Access"%string, davp_removal_of_access);
    (AVP_BY_NAME_ALL_VENDORS, "Routing-Filter"%string, davp_routing_filter);
    (AVP_BY_NAME_ALL_VENDORS, "Trace-Depth"%string, davp_trace_depth);
    (AVP_BY_NAME, "Proxy-State"%string, davp_proxy_state);
    (AVP_BY_NAME_ALL_VENDORS, "Rule-Failure-Code"%string, davp_rule_failure_code);
    (AVP_BY_NAME_ALL_VENDORS, "AF-Charging-Identifier"%string, davp_af_charging_identifier);
    (AVP_BY_NAME_ALL_VENDORS, "Tunnel-Header-Length"%string, davp_tunnel_header_length);
    (AVP_BY_NAME_ALL_VENDORS, "Routing-Rule-Failure-Code"%string, davp_routing_rule_failure_code);
    (AVP_BY_NAME_ALL_VENDORS, "CoA-Information"%string, davp_coa_information);
    (AVP_BY_NAME_ALL_VENDORS, "Default-Bearer-Indication"%string, davp_default_bearer_indication);
    (AVP_BY_NAME, "Vendor-Id"%string, davp_vendor_id);
    (AVP_BY_NAME, "Granted-Service-Unit"%string, davp_granted_service_unit);
    (AVP_BY_NAME_ALL_VENDORS, "Max-Requested-Bandwidth-UL"%string, davp_max_requested_bandwidth_ul);
    (AVP_BY_NAME, "OC-Sequence-Number"%string, davp_oc_sequence_number);
    (AVP_BY_NAME_ALL_VENDORS, "Routing-Rule-Identifier"%string, davp_routing_rule_identifier);
    (AVP_BY_NAME_ALL_VENDORS, "Redirect-Support"%string, davp_redirect_support);
    (AVP_BY_NAME, "Destination-Realm"%string, davp_destination_realm);
    (AVP_BY_NAME, "Session-Id"%string, davp_session_id);
    (AVP_BY_NAME_ALL_VENDORS, "ToS-Traffic-Class"%string, davp_tos_traffic_class);
    (AVP_BY_NAME_ALL_VENDORS, "Origination-Time-Stamp"%string, davp_origination_time_stamp);
    (AVP_BY_NAME_ALL_VENDORS, "BSSID"%string, davp_bssid);
    (AVP_BY_NAME, "CC-Money"%string, davp_cc_money);
    (AVP_BY_NAME_ALL_VENDORS, "Application-Detection-Information"%string, davp_application_detection_information);
    (AVP_BY_NAME_ALL_VENDORS, "QoS-Upgrade"%string, davp_qos_upgrade);
    (AVP_BY_NAME, "Tariff-Change-Usage"%string, davp_tariff_change_usage);
    (AVP_BY_NAME_ALL_VENDORS, "Report-Amount"%string, davp_report_amount);
    (AVP_BY_NAME_ALL_VENDORS, "Primary-Event-Charging-Function-Name"%string, davp_primary_event_charging_function_name);
    (AVP_BY_NAME, "CC-Total-Octets"%string, davp_cc_total_octets);
    (AVP_BY_NAME_ALL_VENDORS, "Measurement-Period-UMTS"%string, davp_measurement_period_umts);
    (AVP_BY_NAME_ALL_VENDORS, "Flows"%string, davp_flows);
    (AVP_BY_NAME_ALL_VENDORS, "PS-to-CS-Session-Continuity"%string, davp_ps_to_cs_session_continuity);
    (AVP_BY_NAME_ALL_VENDORS, "Primary-Charging-Collection-Function-Name"%string, davp_primary_charging_collection_function_name);
    (AVP_BY_NAME_ALL_VENDORS, "User-CSG-Information"%string, davp_user_csg_information)
  ].

(** The codes the parsers compare with: [gxDict.davp_x.avp_code]. *)
Class GxDict := gxDict : davp -> Z.

#[export] Instance davp_eq_dec : EqDecision davp.
Proof.
  refine (fun a b => cast_if (decide (davp_index a = davp_index b))); [|by intros ->].
  assert (forall d, all_davps !! davp_index d = Some d) as H by (by intros []).
  pose proof (H a) as Ha. pose proof (H b) as Hb. congruence.
Defined.

Definition FD_REASON_DICT_GETVAL : Z := 5.
Definition FD_REASON_DICT_SEARCH : Z := 6.

(** What is looked up, and how. *)
Inductive dict_key : Set :=
| VENDOR_BY_ID (id : Z)
| APPLICATION_BY_ID (id : Z)
| CMD_BY_NAME (name : string)
| avp_key (how : dict_search_how) (name : string).

#[export] Instance dict_search_how_eq_dec : EqDecision dict_search_how.
Proof. solve_decision. Defined.
#[export] Instance dict_key_eq_dec : EqDecision dict_key.
Proof. solve_decision. Defined.

Definition vnd_etsi : Z := 13019.
Definition vnd_3gpp2 : Z := 5535.
Definition vnd_3gpp : Z := 10415.
Definition app_gx : Z := 16777238.

Definition gx_objects : list dict_key :=
  [VENDOR_BY_ID vnd_etsi; VENDOR_BY_ID vnd_3gpp2; VENDOR_BY_ID vnd_3gpp; APPLICATION_BY_ID app_gx;
   CMD_BY_NAME "Re-Auth-Request"%string; CMD_BY_NAME "Re-Auth-Answer"%string;
   CMD_BY_NAME "Credit-Control-Answer"%string; CMD_BY_NAME "Credit-Control-Request"%string].

Section Init.
Context {object : Type} (fd_dict_search : dict_key -> option object) (fd_dict_getval : object -> option Z).

Definition FDCHECK_FCT_DICT (key : dict_key) : Z + object :=
  match fd_dict_search key with Some o => inr o | None => inl FD_REASON_DICT_SEARCH end.
Definition FDCHECK_FCT_DICT_GETVAL (o : object) : Z + Z :=
  match fd_dict_getval o with Some code => inr code | None => inl FD_REASON_DICT_GETVAL end.

(** The lookups of the vendors, the application and the commands. *)
Fixpoint lookup_objects (keys : list dict_key) : Z + unit :=
  match keys with
  | [] => inr tt
  | key :: keys => match FDCHECK_FCT_DICT key with inl r => inl r | inr _ => lookup_objects keys end
  end.

(** The lookups of the AVPs, with the field each is for. *)
Fixpoint lookup_avps (ls : list (dict_search_how * string * davp)) : Z + list (object * davp) :=
  match ls with
  | [] => inr []
  | l :: ls =>
      match FDCHECK_FCT_DICT (avp_key l.1.1 l.1.2) with
      | inl r => inl r
      | inr o => match lookup_avps ls with inl r => inl r | inr os => inr ((o, l.2) :: os) end
      end
  end.

(** The codes of the AVPs that were found, in the order they were looked up (the source
    takes Service-Context-Id and CC-Request-Type the other way round here). *)
Fixpoint get_codes (G : GxDict) (os : list (object * davp)) : Z + GxDict :=
  match os with
  | [] => inr G
  | (o, d) :: os =>
      match FDCHECK_FCT_DICT_GETVAL o with
      | inl r => inl r
      | inr code => get_codes (fun d' => if decide (d' = d) then code else G d') os
      end
  end.

(** The error code of the first failure, or the dictionary. *)
Definition gxInit : Z + GxDict :=
  match lookup_objects gx_objects with
  | inl r => inl r
  | inr _ => match lookup_avps avp_lookups with inl r => inl r | inr os => get_codes (fun _ => 0) os end
  end.

(** ** What the start-up needs *)

Definition gx_keys : list dict_key := gx_objects ++ map (fun l => avp_key l.1.1 l.1.2) avp_lookups.

(** The code that the dictionary has for an AVP. *)
Definition avp_code_of (how : dict_search_how) (name : string) : option Z :=
  fd_dict_search (avp_key how name) ≫= fd_dict_getval.

(** What the registries of AVP codes promise of the AVPs of Gx: different names have
    different codes. *)
Definition codes_distinct : Prop :=
  forall l l' c, l ∈ avp_lookups -> l' ∈ avp_lookups ->
    avp_code_of l.1.1 l.1.2 = Some c -> avp_code_of l'.1.1 l'.1.2 = Some c -> l.1.2 = l'.1.2.
End Init.

Class GxDictOk (G : GxDict) := gx_dict_inj : Inj (=) (=) (gxDict (GxDict := G)).

(** ** The table *)

Lemma all_davps_complete d : d ∈ all_davps.
Proof. apply (list_elem_of_lookup_2 _ (davp_index d)). by destruct d. Qed.

Lemma avp_lookups_complete d : exists k n, (k, n, d) ∈ avp_lookups.
Proof.
  assert (Forall (fun d => d ∈ map snd avp_lookups) all_davps) as H
    by (apply (bool_decide_unpack _); vm_compute; exact I).
  pose proof (proj1 (Forall_forall _ _) H d (all_davps_complete d)) as Hd.
  apply list_elem_of_fmap in Hd as ([[k n] d'] & -> & Hin). eauto.
Qed.

Lemma avp_lookups_fields_nodup : NoDup (map snd avp_lookups).
Proof. apply (bool_decide_unpack _). vm_compute. exact I. Qed.

Lemma avp_lookups_names_nodup : NoDup (map (fun l => l.1.2) avp_lookups).
Proof. apply (bool_decide_unpack _). vm_compute. exact I. Qed.

(** ** The lookups *)

Section Lookups.
Context {object : Type} (fd_dict_search : dict_key -> option object) (fd_dict_getval : object -> option Z).
Abbreviation search := fd_dict_search.

Lemma lookup_objects_spec keys :
  match lookup_objects search keys with
  | inl r => r = FD_REASON_DICT_SEARCH /\ exists key, key ∈ keys /\ search key = None
  | inr _ => forall key, key ∈ keys -> is_Some (search key)
  end.
Proof.
  induction keys as [|key keys IH]; cbn [lookup_objects]; [by intros ? ?%not_elem_of_nil|]. unfold FDCHECK_FCT_DICT.
  destruct (search key) eqn:E; [|split; [done|]; exists key; by split; [left|]].
  destruct (lookup_objects search keys).
  - destruct IH as [-> (k & Hin & H)]. split; [done|]. exists k. by split; [right|].
  - intros k [->|Hin]%elem_of_cons; [by eexists|by apply IH].
Qed.

Lemma lookup_avps_spec ls :
  match lookup_avps search ls with
  | inl r => r = FD_REASON_DICT_SEARCH /\ exists l, l ∈ ls /\ search (avp_key l.1.1 l.1.2) = None
  | inr os => Forall2 (fun l o => search (avp_key l.1.1 l.1.2) = Some o.1 /\ o.2 = l.2) ls os
  end.
Proof.
  induction ls as [|l ls IH]; cbn [lookup_avps]; [constructor|]. unfold FDCHECK_FCT_DICT.
  destruct (search _) eqn:E; [|split; [done|]; exists l; by split; [left|]].
  destruct (lookup_avps search ls).
  - destruct IH as [-> (k & Hin & H)]. split; [done|]. exists k. by split; [right|].
  - by constructor.
Qed.

Lemma get_codes_other G os G' d :
  get_codes fd_dict_getval G os = inr G' -> d ∉ map snd os -> G' d = G d.
Proof.
  revert G. induction os as [|[o d'] os IH]; intros G; cbn; [by intros [= ->]|].
  unfold FDCHECK_FCT_DICT_GETVAL. destruct (fd_dict_getval o); [|done].
  intros H [Hd Hos]%not_elem_of_cons. rewrite (IH _ H Hos). by rewrite decide_False.
Qed.

Lemma get_codes_spec G os :
  NoDup (map snd os) ->
  match get_codes fd_dict_getval G os with
  | inl r => r = FD_REASON_DICT_GETVAL /\ exists o, o ∈ os /\ fd_dict_getval o.1 = None
  | inr G' => forall o, o ∈ os -> fd_dict_getval o.1 = Some (G' o.2)
  end.
Proof.
  revert G. induction os as [|[o d] os IH]; intros G Hn; cbn [get_codes]; [by intros ? ?%not_elem_of_nil|].
  apply NoDup_cons in Hn as [Hd Hn]. unfold FDCHECK_FCT_DICT_GETVAL.
  destruct (fd_dict_getval o) as [c|] eqn:E; [|split; [done|]; exists (o, d); by split; [left|]].
  set (G1 := fun d' => _). specialize (IH G1 Hn). destruct (get_codes _ G1 os) as [r|G'] eqn:E1.
  - destruct IH as [-> (k & Hin & H)]. split; [done|]. exists k. by split; [right|].
  - intros k [->|Hin]%elem_of_cons; [|by apply IH]. cbn [fst snd].
    rewrite E, (get_codes_other G1 os G' d E1 Hd). unfold G1. by rewrite decide_True.
Qed.

(** Start-up, case by case. *)
Lemma gxInit_cases :
  match gxInit search fd_dict_getval with
  | inl r =>
      (r = FD_REASON_DICT_SEARCH /\ exists key, key ∈ gx_keys /\ search key = None) \/
      (r = FD_REASON_DICT_GETVAL /\ (forall key, key ∈ gx_keys -> is_Some (search key)) /\
       exists l, l ∈ avp_lookups /\ avp_code_of search fd_dict_getval l.1.1 l.1.2 = None)
  | inr G =>
      (forall key, key ∈ gx_keys -> is_Some (search key)) /\
      forall l, l ∈ avp_lookups -> avp_code_of search fd_dict_getval l.1.1 l.1.2 = Some (G l.2)
  end.
Proof.
  unfold gxInit. pose proof (lookup_objects_spec gx_objects) as Ho.
  destruct (lookup_objects search gx_objects).
  { destruct Ho as [-> (key & Hin & H)]. left. split; [done|]. exists key. split; [|done].
    apply elem_of_app. by left. }
  pose proof (lookup_avps_spec avp_lookups) as Ha. destruct (lookup_avps search avp_lookups) as [r|os].
  { destruct Ha as [-> (l & Hin & H)]. left. split; [done|]. eexists. split; [|exact H].
    apply elem_of_app. right. apply list_elem_of_fmap. by exists l. }
  assert (map snd os = map snd avp_lookups) as Hs.
  { clear -Ha. induction Ha as [|l o ls os [_ E] _ IH]; [done|]. cbn. by rewrite E, IH. }
  pose proof (get_codes_spec (fun _ => 0) os) as Hg. rewrite Hs in Hg. specialize (Hg avp_lookups_fields_nodup).
  assert (forall l, l ∈ avp_lookups -> exists o, o ∈ os /\ search (avp_key l.1.1 l.1.2) = Some o.1 /\ o.2 = l.2) as Hl.
  { intros l [i Hi]%list_elem_of_lookup. destruct (Forall2_lookup_l _ _ _ _ _ Ha Hi) as (o & Ho' & H).
    exists o. split; [by eapply list_elem_of_lookup_2|done]. }
  assert (forall key, key ∈ gx_keys -> is_Some (search key)) as Hk.
  { intros key [Hin|(l & -> & Hin)%list_elem_of_fmap]%elem_of_app; [by apply Ho|].
    destruct (Hl l Hin) as (o & _ & E & _). rewrite E. by eexists. }
  destruct (get_codes _ _ os) as [r|G].
  - right. destruct Hg as [-> (o & [i Hi]%list_elem_of_lookup & H)]. split; [done|]. split; [done|].
    destruct (Forall2_lookup_r _ _ _ _ _ Ha Hi) as (l & Hli & E & _). exists l. split; [by eapply list_elem_of_lookup_2|].
    unfold avp_code_of. by rewrite E.
  - split; [done|]. intros l Hin. destruct (Hl l Hin) as (o & Hino & E & E2). unfold avp_code_of.
    rewrite E. cbn [mbind option_bind]. by rewrite (Hg o Hino), E2.
Qed.
End Lookups.

Lemma names_injective k n k' n' d d' :
  (k, n, d) ∈ avp_lookups -> (k', n', d') ∈ avp_lookups -> n = n' -> d = d'.
Proof.
  intros [i Hi]%list_elem_of_lookup [j Hj]%list_elem_of_lookup ->.
  assert (i = j) as ->; [|congruence].
  eapply (NoDup_lookup _ i j n' avp_lookups_names_nodup).
  - rewrite list_lookup_fmap, Hi. done.
  - rewrite list_lookup_fmap, Hj. done.
Qed.

(** C40. Start-up of the Gx application fills the whole dictionary or fails: it fails with
    the code of a failed search exactly when freeDiameter's dictionary lacks one of the 3
    vendors, the Gx application, one of the 4 commands or one of the 292 AVPs, and with
    that of a failed access exactly when it has all of them but gives no code for one of
    the AVPs.  Otherwise every code the parsers compare with is the code of that AVP's name,
    and no two fields share a code as long as the dictionary gives the AVPs of Gx different
    codes. *)
Theorem gxInit_fills_dictionary {object} (search : dict_key -> option object) getval :
  match gxInit search getval with
  | inl r =>
      (r = FD_REASON_DICT_SEARCH /\ exists key, key ∈ gx_keys /\ search key = None) \/
      (r = FD_REASON_DICT_GETVAL /\ (forall key, key ∈ gx_keys -> is_Some (search key)) /\
       exists l, l ∈ avp_lookups /\ avp_code_of search getval l.1.1 l.1.2 = None)
  | inr G =>
      (forall key, key ∈ gx_keys -> is_Some (search key)) /\
      (forall d, exists k n, (k, n, d) ∈ avp_lookups /\ avp_code_of search getval k n = Some (G d)) /\
      (codes_distinct search getval -> Inj (=) (=) G)
  end.
Proof.
  pose proof (gxInit_cases search getval) as H. destruct (gxInit search getval) as [r|G]; [done|].
  destruct H as [Hk HG]. split; [done|]. split.
  - intros d. destruct (avp_lookups_complete d) as (k & n & Hin). exists k, n. split; [done|]. exact (HG _ Hin).
  - intros Hs d d' E. destruct (avp_lookups_complete d) as (k & n & Hin). destruct (avp_lookups_complete d') as (k' & n' & Hin').
    pose proof (HG _ Hin) as H. pose proof (HG _ Hin') as H'. cbn [fst snd] in H, H'. rewrite E in H.
    eapply names_injective; [exact Hin|exact Hin'|]. exact (Hs _ _ _ Hin Hin' H H').
Qed.

(** ** A dictionary to evaluate with: the object of an AVP is its name, its code the number
    of the name in the table, from 1 *)
Definition sample_search (key : dict_key) : option string :=
  match key with
  | avp_key _ n => Some n
  | CMD_BY_NAME n => Some n
  | _ => Some EmptyString
  end.
Definition sample_getval (n : string) : option Z :=
  i ← list_find (fun l => l.1.2 = n) avp_lookups; Some (Z.of_nat (S i.1)).

(** Codes by the position of the field. *)
#[export] Instance sample_dict : GxDict := fun d => Z.of_nat (davp_index d) + 1.

#[export] Instance sample_dict_ok : GxDictOk sample_dict.
Proof.
  intros d d' E. unfold gxDict, sample_dict in E.
  assert (forall d, all_davps !! davp_index d = Some d) as H by (by intros []).
  pose proof (H d) as Hd. pose proof (H d') as Hd'.
  replace (davp_index d) with (davp_index d') in Hd by lia. congruence.
Qed.

Lemma sample_codes_distinct : codes_distinct sample_search sample_getval.
Proof.
  intros l l' c _ _. unfold avp_code_of. cbn [sample_search mbind option_bind]. unfold sample_getval.
  destruct (list_find _ _) as [[i x]|] eqn:E; [|done]. destruct (list_find (fun l0 => l0.1.2 = l'.1.2) _) as [[j x']|] eqn:E'; [|done].
  cbn [mbind option_bind fst]. intros [= <-] H%(inj Some). assert (i = j) as -> by lia.
  apply list_find_Some in E as (? & <- & _), E' as (? & <- & _). congruence.
Qed.

Example gxInit_fills_dictionary_witness :
  codes_distinct sample_search sample_getval /\ exists G, gxInit sample_search sample_getval = inr G /\ Inj (=) (=) G.
Proof.
  split; [exact sample_codes_distinct|].
  pose proof (gxInit_fills_dictionary sample_search sample_getval) as H.
  assert (match gxInit sample_search sample_getval with inr _ => true | inl _ => false end = true) as Hsome
    by (vm_compute; reflexivity).
  destruct (gxInit sample_search sample_getval) as [r|G]; [discriminate|].
  exists G. split; [done|]. exact (proj2 (proj2 H) sample_codes_distinct).
Defined.
