(* ===== verification/GxAvp.v ===== *)
(** * Reading the AVPs of a Gx message (cp/gx_app/include/fd.h and the pattern of
    cp/gx_app/src/gx_parsers.c)

    A Diameter message or grouped AVP, as freeDiameter hands it over, is a tree of
    AVPs ([avp]): a code, the union [avp_value] when the AVP has one, and the AVPs
    inside.  The functions of gx_parsers.c all have the same two loops over the
    AVPs inside, and differ by the members they store; [parse_group] is that body,
    a [member] what one branch of its chains stores, and GxParse.v gives the members
    of each function.

    - [fd_msg_browse] walks the siblings in their order and cannot fail on a parsed
      message, so the loops are recursions on the list of AVPs.
    - A member of the structure is [None] until its presence bit is set.  During a
      parse a list also has a number: of its AVPs counted so far in the first loop,
      of the elements allocated in the second ([slot]).
    - Reading a member of [avp_value] that is not the one in use, or a value that is
      not there, has no defined result: it is [OutOfBounds]. *)
From S2P Require Import Prelude GxMacros GxWire GxDict.

(** ** AVPs *)

(** The octet string of the union, or the object bytes of the number in it. *)
Inductive avp_value := AvpOctets (os : list byte) | AvpNumber (obj : list byte).

Inductive avp := Avp (code : Z) (value : option avp_value) (children : list avp).

Definition avp_code (a : avp) : Z := let 'Avp code _ _ := a in code.
Definition avp_val (a : avp) : option avp_value := let 'Avp _ value _ := a in value.
Definition avp_children (a : avp) : list avp := let 'Avp _ _ children := a in children.

(** ** The macros of fd.h *)

Definition fdmin (lval rval : Z) : Z := if bool_decide (lval < rval) then lval else rval.

(** The length is converted to [int] for [fdmin], its result to [uint32_t]. *)
Definition FD_PARSE_OCTETSTRING (v : option avp_value) (c : Z) : res OctetString :=
  match v with
  | Some (AvpOctets os) =>
      let len := u32 (fdmin (swrap 32 (Z.of_nat (length os))) c) in
      if bool_decide (len <= sizeof_val) then mem_read os 0 len else OutOfBounds
  | _ => OutOfBounds
  end.

(** Seconds since 1900 in network order, to [time_t]. *)
Definition FD_PARSE_TIME (v : option avp_value) : res Z :=
  match v with
  | Some (AvpOctets os) =>
      let? bs := mem_read os 0 4 in Ok (bswap32 (le_val bs) - 2208988800)
  | _ => OutOfBounds
  end.

(** [((a[1] << 8) | a[0])], the definition for a little-endian machine. *)
Definition FD_NETWORK_TO16 (a : list byte) : Z :=
  match a with
  | a0 :: a1 :: _ => Z.lor (Z.shiftl (byte_to_Z a1) 8) (byte_to_Z a0)
  | _ => 0
  end.

Definition FD_PARSE_ADDRESS (v : option avp_value) : res fdAddress :=
  match v with
  | Some (AvpOctets os) =>
      let? t := mem_read os 0 2 in
      let rest := drop 2 os in
      if bool_decide (length rest <= MAX_FD_ADDRESS_LEN)%nat
      then Ok (mk_fdAddress (FD_NETWORK_TO16 t) (rest ++ zeros (MAX_FD_ADDRESS_LEN - length rest)))
      else OutOfBounds
  | _ => OutOfBounds
  end.

(** [hdr->avp_value->i32] and the like. *)
Definition avp_number {T} (t : basic T) (v : option avp_value) : res T :=
  match v with
  | Some (AvpNumber obj) => let? bs := mem_read obj 0 (Z.of_nat (bsizeof t)) in Ok (of_bytes t bs)
  | _ => OutOfBounds
  end.

(** ** Members *)

(** What one AVP stores: the new value of a single member from its old one, or the
    value of a new element of a list. *)
Inductive member : Type :=
| One (d : davp) (X : Type) (store : option X -> avp -> res X)
| Many (d : davp) (X : Type) (element : avp -> res X).

Definition member_avp (m : member) : davp := match m with One d _ _ => d | Many d _ _ => d end.

Definition NUMBER (d : davp) {T} (t : basic T) : member :=
  One d T (fun _ a => avp_number t (avp_val a)).
Definition OCTETSTRING (d : davp) (len : Z) : member :=
  One d OctetString (fun _ a => FD_PARSE_OCTETSTRING (avp_val a) len).
Definition TIME (d : davp) : member := One d Z (fun _ a => FD_PARSE_TIME (avp_val a)).
Definition ADDRESS (d : davp) : member := One d fdAddress (fun _ a => FD_PARSE_ADDRESS (avp_val a)).

(** A member that is a structure keeps what an earlier AVP of its code stored. *)
Definition PARSE_DIRECT (d : davp) {X} (parse : avp -> X -> res X) (zero : X) : member :=
  One d X (fun m a => parse a (default zero m)).

Definition LIST_NUMBER (d : davp) {T} (t : basic T) : member :=
  Many d T (fun a => avp_number t (avp_val a)).
Definition LIST_OCTETSTRING (d : davp) (len : Z) : member :=
  Many d OctetString (fun a => FD_PARSE_OCTETSTRING (avp_val a) len).
Definition LIST_TIME (d : davp) : member := Many d Z (fun a => FD_PARSE_TIME (avp_val a)).
Definition LIST_ADDRESS (d : davp) : member := Many d fdAddress (fun a => FD_PARSE_ADDRESS (avp_val a)).
Definition LIST_PARSE_DIRECT (d : davp) {X} (parse : avp -> X -> res X) (zero : X) : member :=
  Many d X (fun a => parse a zero).

(** ** The members of a structure, and during a parse *)

Definition member_data (m : member) : Type :=
  match m with One _ X _ => option X | Many _ X _ => option (list X) end.

Fixpoint data (ms : list member) : Type :=
  match ms with [] => unit | m :: ms => (member_data m * data ms)%type end.

Definition slot (m : member) : Type :=
  match m with One _ X _ => option X | Many _ X _ => (option (list X) * nat)%type end.

Fixpoint slots (ms : list member) : Type :=
  match ms with [] => unit | m :: ms => (slot m * slots ms)%type end.

Definition start_slot (m : member) : member_data m -> slot m :=
  match m with One _ _ _ => fun x => x | Many _ _ _ => fun l => (l, 0%nat) end.

Definition finish_slot (m : member) : slot m -> member_data m :=
  match m with One _ _ _ => fun x => x | Many _ _ _ => fun s => fst s end.

Fixpoint start (ms : list member) : data ms -> slots ms :=
  match ms with
  | [] => fun _ => tt
  | m :: ms => fun d => (start_slot m (fst d), start ms (snd d))
  end.

Fixpoint finish (ms : list member) : slots ms -> data ms :=
  match ms with
  | [] => fun _ => tt
  | m :: ms => fun s => (finish_slot m (fst s), finish ms (snd s))
  end.

(** [FD_ALLOC_LIST]: a list with a count gets that many zeroed elements, and none
    of them is in use.  Assumed: [malloc] finds the memory (the macro does not look at
    its result, so that without memory its [memset] crashes the program). *)
Definition FD_ALLOC_LIST (m : member) : slot m -> slot m :=
  match m with
  | One _ _ _ => fun x => x
  | Many _ _ _ => fun s =>
      let count := (length (default [] (fst s)) + snd s)%nat in
      if bool_decide (0 < count)%nat then (Some [], count) else (fst s, 0%nat)
  end.

Fixpoint alloc_lists (ms : list member) : slots ms -> slots ms :=
  match ms with
  | [] => fun _ => tt
  | m :: ms => fun s => (FD_ALLOC_LIST m (fst s), alloc_lists ms (snd s))
  end.

(** ** The chains of [if (IS_AVP(...)) ... else if ...] *)

(** What a branch does: the member after it, and what it adds to [cnt]. *)
Definition branch (m : member) : Type := avp -> slot m -> res (slot m * Z).

(** First loop: single members are stored, the AVPs of lists counted. *)
Definition first_branch (m : member) : option (branch m) :=
  Some match m return branch m with
       | One _ _ store => fun a x => let? x := store x a in Ok (Some x, 0)
       | Many _ _ _ => fun _ s => Ok ((fst s, S (snd s)), 1)
       end.

(** Second loop: it has branches for the lists only; [list[count]] is inside the
    allocated elements or not. *)
Definition second_branch (m : member) : option (branch m) :=
  match m return option (branch m) with
  | One _ _ _ => None
  | Many _ _ element => Some (fun a s =>
      if bool_decide (length (default [] (fst s)) < snd s)%nat
      then let? x := element a in Ok ((Some (default [] (fst s) ++ [x]), snd s), 0)
      else OutOfBounds)
  end.

Section Parse.
Context {G : GxDict}.

Definition IS_AVP (d : davp) (hdr : avp) : bool := bool_decide (gxDict d = avp_code hdr).

Fixpoint chain (branches : forall m, option (branch m)) (ms : list member) (a : avp)
    : slots ms -> res (slots ms * Z) :=
  match ms with
  | [] => fun s => Ok (s, 0)
  | m :: ms => fun s =>
      let others := let? r := chain branches ms a (snd s) in Ok ((fst s, fst r), snd r) in
      match branches m with
      | Some br =>
          if IS_AVP (member_avp m) a
          then let? r := br a (fst s) in Ok ((fst r, snd s), snd r)
          else others
      | None => others
      end
  end.

(** [while (child_avp)]: the members after the loop, and [cnt]. *)
Fixpoint browse (branches : forall m, option (branch m)) (ms : list member) (children : list avp)
    (s : slots ms) (cnt : Z) : res (slots ms * Z) :=
  match children with
  | [] => Ok (s, cnt)
  | a :: children =>
      let? r := chain branches ms a s in browse branches ms children (fst r) (cnt + snd r)
  end.

Definition parse_group (ms : list member) (children : list avp) (d : data ms) : res (data ms) :=
  let? r := browse first_branch ms children (start ms d) 0 in
  if bool_decide (0 < snd r)
  then let? r := browse second_branch ms children (alloc_lists ms (fst r)) 0 in
       Ok (finish ms (fst r))
  else Ok (finish ms (fst r)).

(** ** What a list of AVPs says about the members of a structure *)

Definition with_code (d : davp) (children : list avp) : list avp :=
  filter (fun a => gxDict d = avp_code a) children.

(** One AVP of the code whose content is the member, or none and it is absent. *)
Definition one_avp {X} (children : list avp) (d : davp) (R : avp -> X -> Prop) (m : option X) : Prop :=
  match m with
  | None => with_code d children = []
  | Some x => exists a, with_code d children = [a] /\ R a x
  end.

(** The AVPs of the code, in their order, are the elements of the list. *)
Definition many_avp {X} (children : list avp) (d : davp) (R : avp -> X -> Prop)
    (m : option (list X)) : Prop :=
  match m with
  | None => with_code d children = []
  | Some l => l <> [] /\ Forall2 R (with_code d children) l
  end.

(** The contents of an AVP of each basic kind. *)
Definition is_number {T} (t : basic T) (a : avp) (x : T) : Prop :=
  avp_val a = Some (AvpNumber (obj_bytes t x)) /\ in_range t x = true.

(** Freediameter's lengths have 24 bits; what exceeds [len] bytes is cut off. *)
Definition is_octets (len : Z) (a : avp) (s : OctetString) : Prop :=
  exists os, avp_val a = Some (AvpOctets os) /\ Z.of_nat (length os) < 2 ^ 24 /\
    s = take (Z.to_nat len) os.

Definition is_time (a : avp) (t : Z) : Prop :=
  avp_val a = Some (AvpOctets (be_bytes 4 (t + 2208988800))) /\ 0 <= t + 2208988800 < 2 ^ 32.

(** The two bytes of the address type come out as a little-endian number. *)
Definition is_address (a : avp) (x : fdAddress) : Prop :=
  exists n, (n <= MAX_FD_ADDRESS_LEN)%nat /\ 0 <= fd_type x < 2 ^ 16 /\
    avp_val a = Some (AvpOctets (le_bytes 2 (fd_type x) ++ take n (fd_address x))) /\
    length (fd_address x) = MAX_FD_ADDRESS_LEN /\
    drop n (fd_address x) = zeros (MAX_FD_ADDRESS_LEN - n).

(** A structure read from the AVPs, member by member. *)
Fixpoint reads (ms : list member) (children : list avp) : data ms -> Prop :=
  match ms with
  | [] => fun _ => True
  | m :: ms => fun d =>
      match m return member_data m -> Prop with
      | One d _ store => one_avp children d (fun a x => store None a = Ok x)
      | Many d _ element => many_avp children d (fun a x => element a = Ok x)
      end (fst d) /\ reads ms children (snd d)
  end.

Fixpoint empty_data (ms : list member) : data ms :=
  match ms with
  | [] => tt
  | m :: ms => (match m return member_data m with One _ _ _ => None | Many _ _ _ => None end, empty_data ms)
  end.

(** ** The loops, member by member *)

Fixpoint run_branch {m} (br : branch m) (l : list avp) (s : slot m) : res (slot m * Z) :=
  match l with
  | [] => Ok (s, 0)
  | a :: l => let? r := br a s in let? r' := run_branch br l (fst r) in Ok (fst r', snd r + snd r')
  end.

Definition run_member (branches : forall m, option (branch m)) (m : member) (children : list avp)
    (s : slot m) : res (slot m * Z) :=
  match branches m with
  | Some br => run_branch br (with_code (member_avp m) children) s
  | None => Ok (s, 0)
  end.

Fixpoint run_members (branches : forall m, option (branch m)) (ms : list member) (children : list avp)
    : slots ms -> res (slots ms * Z) :=
  match ms with
  | [] => fun s => Ok (s, 0)
  | m :: ms => fun s =>
      let? r := run_member branches m children (fst s) in
      let? r' := run_members branches ms children (snd s) in
      Ok ((fst r, fst r'), snd r + snd r')
  end.
End Parse.

Section Laws.
Context {G : GxDict} {HG : GxDictOk G}.

Lemma with_code_cons d a children :
  with_code d (a :: children) =
  if IS_AVP d a then a :: with_code d children else with_code d children.
Proof.
  unfold with_code, IS_AVP. case_bool_decide; [by rewrite filter_cons_True|by rewrite filter_cons_False].
Qed.

Lemma IS_AVP_inj d d' a : IS_AVP d a = true -> IS_AVP d' a = true -> d = d'.
Proof. intros ?%bool_decide_eq_true ?%bool_decide_eq_true. apply gx_dict_inj. congruence. Qed.

Lemma IS_AVP_others m ms a :
  member_avp m ∉ map member_avp ms -> IS_AVP (member_avp m) a = true ->
  Forall (fun m' => IS_AVP (member_avp m') a = false) ms.
Proof.
  intros Hm Ha. apply Forall_forall. intros m' Hin. apply not_true_iff_false. intros Ha'.
  apply Hm. rewrite (IS_AVP_inj _ _ _ Ha Ha'). by apply list_elem_of_fmap_2.
Qed.

Lemma run_member_other br m a children s :
  IS_AVP (member_avp m) a = false -> run_member br m (a :: children) s = run_member br m children s.
Proof. intros H. unfold run_member. by rewrite with_code_cons, H. Qed.

Lemma run_members_others br ms a children s :
  Forall (fun m => IS_AVP (member_avp m) a = false) ms ->
  run_members br ms (a :: children) s = run_members br ms children s.
Proof.
  induction 1 as [|m ms Hm _ IH]; cbn [run_members]; [done|].
  by rewrite run_member_other, IH by done.
Qed.

Lemma res_bind_Ok {A B} (x : res A) (k : A -> res B) b :
  (let? a := x in k a) = Ok b -> exists a, x = Ok a /\ k a = Ok b.
Proof. destruct x; [eauto|done..]. Qed.

(** One AVP through the chain is one AVP of the member it belongs to. *)
Lemma chain_step br ms a children s r :
  NoDup (map member_avp ms) -> run_members br ms (a :: children) s = Ok r ->
  exists s1 n1 r', chain br ms a s = Ok (s1, n1) /\ run_members br ms children s1 = Ok r' /\
    r = (fst r', n1 + snd r').
Proof.
  induction ms as [|m ms IH] in s, r |- *; cbn [run_members chain].
  { intros _ [= <-]. by exists s, 0, (s, 0). }
  intros [Hm Hnd]%NoDup_cons (rm & Hrm & (rs & Hrs & [= <-])%res_bind_Ok)%res_bind_Ok.
  unfold run_member in *. destruct (br m) as [b|].
  - rewrite with_code_cons in Hrm. destruct (IS_AVP (member_avp m) a) eqn:Ha.
    + rewrite (run_members_others br ms a children _ (IS_AVP_others _ _ _ Hm Ha)) in Hrs.
      cbn [run_branch] in Hrm.
      apply res_bind_Ok in Hrm as (r1 & E1 & (r2 & E2 & [= <-])%res_bind_Ok).
      exists (fst r1, snd s), (snd r1), ((fst r2, fst rs), snd r2 + snd rs). rewrite E1. split; [done|].
      cbn [fst snd]. rewrite E2. cbn [res_bind]. rewrite Hrs. split; [done|]. cbn [fst snd].
      f_equal. lia.
    + destruct (IH _ _ Hnd Hrs) as (s1 & n1 & r' & E1 & E2 & ->). rewrite E1.
      exists (fst s, s1), n1, ((fst rm, fst r'), snd rm + snd r'). split; [done|]. cbn [fst snd].
      rewrite Hrm, E2. split; [done|]. cbn [fst snd]. f_equal. lia.
  - destruct (IH _ _ Hnd Hrs) as (s1 & n1 & r' & E1 & E2 & ->). rewrite E1.
    exists (fst s, s1), n1, ((fst rm, fst r'), snd rm + snd r'). split; [done|]. cbn [fst snd].
    rewrite Hrm, E2. split; [done|]. cbn [fst snd]. f_equal. lia.
Qed.

Lemma run_members_nil br ms s : run_members br ms [] s = Ok (s, 0).
Proof.
  induction ms as [|m ms IH]; cbn [run_members]; [done|].
  unfold run_member, with_code. rewrite filter_nil.
  assert ((match br m with Some b => run_branch b [] (fst s) | None => Ok (fst s, 0) end) = Ok (fst s, 0))
    as -> by (by destruct (br m)).
  cbn [res_bind]. rewrite IH. by destruct s.
Qed.

Lemma browse_run br ms children s cnt r :
  NoDup (map member_avp ms) -> run_members br ms children s = Ok r ->
  browse br ms children s cnt = Ok (fst r, cnt + snd r).
Proof.
  intros Hnd. induction children as [|a children IH] in s, cnt, r |- *; cbn [browse].
  - rewrite run_members_nil. intros [= <-]. cbn. by rewrite Z.add_0_r.
  - intros (s1 & n1 & r' & -> & Hr' & ->)%chain_step; [|done]. cbn [res_bind fst snd].
    rewrite (IH _ _ _ Hr'). cbn [fst snd]. do 2 f_equal. lia.
Qed.

(** ** The two loops on the AVPs of one member *)

Lemma count_run d X element l s :
  run_branch (m := Many d X element) (fun _ s => Ok ((fst s, S (snd s)), 1)) l s =
  Ok ((fst s, (snd s + length l)%nat), Z.of_nat (length l)).
Proof.
  induction l as [|a l IH] in s |- *; cbn [run_branch].
  - rewrite Nat.add_0_r. by destruct s.
  - cbn [res_bind fst snd]. rewrite IH. cbn [res_bind fst snd length]. do 3 f_equal; lia.
Qed.

Lemma fill_run d X element l xs acc allocated br :
  second_branch (Many d X element) = Some br ->
  Forall2 (fun a x => element a = Ok x) l xs -> (length acc + length xs <= allocated)%nat ->
  run_branch br l (Some acc, allocated) = Ok ((Some (acc ++ xs), allocated), 0).
Proof.
  intros [= <-] H. induction H as [|a x l xs Hx _ IH] in acc |- *; cbn [run_branch].
  - by rewrite app_nil_r.
  - cbn [fst snd default length]. intros Hlen. rewrite bool_decide_true by (cbn; lia).
    rewrite Hx. cbn [res_bind fst snd]. rewrite IH by (rewrite length_app; cbn; lia).
    cbn [res_bind fst snd]. by rewrite <- app_assoc.
Qed.

Lemma member_run m ms children (d : data (m :: ms)) :
  reads (m :: ms) children d ->
  exists s1 n, run_member first_branch m children (start_slot m (fst (empty_data (m :: ms)))) = Ok (s1, n) /\
    0 <= n /\ (n = 0 -> finish_slot m s1 = fst d) /\
    exists s2, run_member second_branch m children (FD_ALLOC_LIST m s1) = Ok (s2, 0) /\
      finish_slot m s2 = fst d.
Proof.
  intros [H _]. unfold run_member. destruct m as [dd X store|dd X element]; cbn in d;
    destruct d as [x d]; cbn in H |- *.
  - unfold one_avp in H. destruct x as [x|].
    + destruct H as (a & -> & Hx). cbn. rewrite Hx. cbn. exists (Some x), 0. repeat split; [lia|by eexists].
    + rewrite H. cbn. exists None, 0. repeat split; [lia|by eexists].
  - rewrite count_run. cbn [fst snd member_avp]. eexists _, _. split; [done|]. split; [lia|].
    unfold many_avp in H. cbn [FD_ALLOC_LIST finish_slot fst snd default length Nat.add].
    destruct x as [xs|].
    + destruct H as [Hxs Hl]. pose proof (Forall2_length _ _ _ Hl) as Hlen.
      assert (0 < length xs)%nat by (destruct xs; [done|cbn; lia]).
      split; [intros; lia|]. rewrite bool_decide_true by lia.
      exists (Some xs, length (with_code dd children)). split; [|done].
      apply (fill_run dd X element _ xs [] _ _ eq_refl Hl). cbn; lia.
    + rewrite H. split; [done|]. cbn. by eexists.
Qed.

Lemma reads_run ms children d :
  reads ms children d ->
  exists s1 n, run_members first_branch ms children (start ms (empty_data ms)) = Ok (s1, n) /\
    0 <= n /\ (n = 0 -> finish ms s1 = d) /\
    exists s2, run_members second_branch ms children (alloc_lists ms s1) = Ok (s2, 0) /\ finish ms s2 = d.
Proof.
  induction ms as [|m ms IH]; intros H.
  { exists tt, 0. destruct d. cbn. split; [done|]. split; [lia|]. split; [done|]. by exists tt. }
  destruct (member_run _ _ _ _ H) as (s1 & n & E1 & Hn & Hfin & s2 & E2 & Hfin2).
  destruct (IH (snd d) (proj2 H)) as (t1 & k & F1 & Hk & Hfint & t2 & F2 & Hfint2).
  exists (s1, t1), (n + k). cbn [run_members start empty_data fst snd] in *. rewrite E1. cbn [res_bind].
  rewrite F1. cbn [res_bind]. split; [done|]. split; [lia|]. cbn [finish alloc_lists fst snd]. split.
  - intros ?. rewrite Hfin, Hfint by lia. by destruct d.
  - exists (s2, t2). rewrite E2. cbn [res_bind fst snd]. rewrite F2. cbn [res_bind fst snd].
    split; [done|]. rewrite Hfin2, Hfint2. by destruct d.
Qed.

(** The two loops store what the AVPs say. *)
Lemma parse_group_reads ms children d :
  NoDup (map member_avp ms) -> reads ms children d ->
  parse_group ms children (empty_data ms) = Ok d.
Proof.
  intros Hnd (s1 & n & E1 & Hn & Hfin & s2 & E2 & Hfin2)%reads_run. unfold parse_group.
  rewrite (browse_run _ _ _ _ _ _ Hnd E1). cbn [res_bind fst snd]. case_bool_decide.
  - rewrite (browse_run _ _ _ _ _ _ Hnd E2). cbn [res_bind fst snd]. by rewrite Hfin2.
  - by rewrite Hfin by lia.
Qed.

(** ** The macros read the contents they are meant for *)

Lemma mem_read_start bs post : mem_read (bs ++ post) 0 (Z.of_nat (length bs)) = Ok bs.
Proof. exact (mem_read_app [] bs post). Qed.

Lemma avp_number_spec {T} (t : basic T) `{!BasicOk t} a x :
  is_number t a x -> avp_number t (avp_val a) = Ok x.
Proof.
  intros [-> Hx]. unfold avp_number. rewrite <- (basic_length x Hx).
  pose proof (mem_read_start (obj_bytes t x) []) as E. rewrite app_nil_r in E. rewrite E. cbn [res_bind].
  by rewrite basic_roundtrip.
Qed.

Lemma octets_spec len a s :
  0 <= len <= sizeof_val -> is_octets len a s -> FD_PARSE_OCTETSTRING (avp_val a) len = Ok s.
Proof.
  intros Hlen (os & -> & Hos & ->). unfold FD_PARSE_OCTETSTRING, sizeof_val in *.
  change (2 ^ 24) with 16777216 in Hos.
  rewrite swrap_small by (pow2; lia). unfold fdmin.
  assert (Hcut : forall n, (n <= length os)%nat ->
    mem_read os 0 (Z.of_nat n) = Ok (take n os)).
  { intros n Hn. unfold mem_read. rewrite bool_decide_true by lia. by rewrite Nat2Z.id. }
  destruct (bool_decide_reflect (Z.of_nat (length os) < len));
    rewrite wrap_small by (pow2; lia); rewrite bool_decide_true by lia.
  - rewrite Hcut by lia. by rewrite !take_ge by lia.
  - rewrite <- (Z2Nat.id len) at 1 by lia. by rewrite Hcut by lia.
Qed.

Lemma bswap32_be_bytes z : 0 <= z < 2 ^ 32 -> bswap32 (le_val (be_bytes 4 z)) = z.
Proof.
  intros Hz. unfold bswap32, be_val.
  rewrite <- (length_be_bytes 4 z) at 1. rewrite le_bytes_le_val. unfold be_bytes.
  by rewrite reverse_involutive, le_val_small.
Qed.

Lemma time_spec a t : is_time a t -> FD_PARSE_TIME (avp_val a) = Ok t.
Proof.
  intros [-> Ht]. unfold FD_PARSE_TIME.
  pose proof (mem_read_start (be_bytes 4 (t + 2208988800)) []) as E.
  rewrite app_nil_r, length_be_bytes in E. change (Z.of_nat 4) with 4 in E. rewrite E. cbn [res_bind].
  rewrite bswap32_be_bytes by done. f_equal. lia.
Qed.

Lemma FD_NETWORK_TO16_le z : 0 <= z < 2 ^ 16 -> FD_NETWORK_TO16 (le_bytes 2 z) = z.
Proof.
  intros Hz. cbn [le_bytes FD_NETWORK_TO16]. rewrite Z.lor_comm, !byte_to_of_Z.
  rewrite Z.shiftl_mul_pow2, lor_disjoint by (try apply wrap_range; lia).
  unfold wrap. change (2 ^ 8) with 256 in *. change (2 ^ 16) with 65536 in *. zdiv.
Qed.

Lemma address_spec a x : is_address a x -> FD_PARSE_ADDRESS (avp_val a) = Ok x.
Proof.
  intros (n & Hn & Ht & -> & Hx & Hz). unfold FD_PARSE_ADDRESS.
  pose proof (mem_read_start (le_bytes 2 (fd_type x)) (take n (fd_address x))) as E.
  rewrite length_le_bytes in E. change (Z.of_nat 2) with 2 in E. rewrite E. cbn [res_bind].
  replace (drop 2 (le_bytes 2 (fd_type x) ++ take n (fd_address x))) with (take n (fd_address x)) by done.
  rewrite length_take, bool_decide_true by lia. rewrite FD_NETWORK_TO16_le by done.
  replace (n `min` length (fd_address x))%nat with n by lia.
  rewrite <- Hz, take_drop. by destruct x.
Qed.

(** ** Members of a structure *)

Lemma one_avp_mono {X} children d (R R' : avp -> X -> Prop) m :
  (forall a x, R a x -> R' a x) -> one_avp children d R m -> one_avp children d R' m.
Proof. intros H. destruct m; cbn; [|done]. intros (a & ? & ?). eauto. Qed.

Lemma many_avp_mono {X} children d (R R' : avp -> X -> Prop) m :
  (forall a x, R a x -> R' a x) -> many_avp children d R m -> many_avp children d R' m.
Proof. intros H. destruct m; cbn; [|done]. intros [? ?]. split; [done|]. eapply Forall2_impl; eauto. Qed.

End Laws.
