(* ===== verification/GxParse.v ===== *)
(** * The parsers of the Gx messages (cp/gx_app/src/gx_parsers.c)

    For each structure, in the order of gx_struct.h: [<structure>_members] lists the
    branches of its function's chains in their order (the chain of the second loop
    has the branches of the lists, in the same order), [<structure>_data] and
    [<structure>_of] are the members of the structure in that order, and
    [parse<structure>] is the function.  The chain of [gx_ccr_parse] has a second
    branch for CC-Request-Type, which is never reached and is left out.  The lengths
    are those of gx_def.h. *)
From S2P Require Import Prelude GxMacros GxStruct GxDict GxAvp.

Definition GX_TDF_DESTINATION_HOST_LEN : Z := 255.
Definition GX_PACKET_FILTER_CONTENT_LEN : Z := 255.
Definition GX_PHYSICAL_ACCESS_ID_LEN : Z := 255.
Definition GX_3GPP_RAT_TYPE_LEN : Z := 255.
Definition GX_TRACKING_AREA_IDENTITY_LEN : Z := 255.
Definition GX_OMC_ID_LEN : Z := 255.
Definition GX_RAI_LEN : Z := 255.
Definition GX_SECONDARY_EVENT_CHARGING_FUNCTION_NAME_LEN : Z := 255.
Definition GX_ORIGIN_HOST_LEN : Z := 255.
Definition GX_SERVICE_CONTEXT_ID_LEN : Z := 255.
Definition GX_LOGICAL_ACCESS_ID_LEN : Z := 255.
Definition GX_3GPP_SGSN_MCC_MNC_LEN : Z := 255.
Definition GX_TUNNEL_HEADER_FILTER_LEN : Z := 255.
Definition GX_ACCESS_NETWORK_CHARGING_IDENTIFIER_VALUE_LEN : Z := 255.
Definition GX_SECONDARY_CHARGING_COLLECTION_FUNCTION_NAME_LEN : Z := 255.
Definition GX_DESTINATION_HOST_LEN : Z := 255.
Definition GX_3GPP_SELECTION_MODE_LEN : Z := 255.
Definition GX_LOCATION_AREA_IDENTITY_LEN : Z := 255.
Definition GX_TDF_APPLICATION_IDENTIFIER_LEN : Z := 255.
Definition GX_FRAMED_IPV6_PREFIX_LEN : Z := 255.
Definition GX_3GPP_CHARGING_CHARACTERISTICS_LEN : Z := 255.
Definition GX_MDT_ALLOWED_PLMN_ID_LEN : Z := 255.
Definition GX_ORIGIN_REALM_LEN : Z := 255.
Definition GX_TWAN_IDENTIFIER_LEN : Z := 255.
Definition GX_FLOW_LABEL_LEN : Z := 255.
Definition GX_3GPP_GGSN_IPV6_ADDRESS_LEN : Z := 255.
Definition GX_RESTRICTION_FILTER_RULE_LEN : Z := 255.
Definition GX_3GPP_SGSN_ADDRESS_LEN : Z := 255.
Definition GX_TDF_DESTINATION_REALM_LEN : Z := 255.
Definition GX_SUBSCRIPTION_ID_DATA_LEN : Z := 255.
Definition GX_REDIRECT_SERVER_ADDRESS_LEN : Z := 255.
Definition GX_3GPP_SGSN_IPV6_ADDRESS_LEN : Z := 255.
Definition GX_3GPP2_BSID_LEN : Z := 255.
Definition GX_CHARGING_RULE_BASE_NAME_LEN : Z := 255.
Definition GX_USER_EQUIPMENT_INFO_VALUE_LEN : Z := 255.
Definition GX_ROUTE_RECORD_LEN : Z := 255.
Definition GX_PRESENCE_REPORTING_AREA_IDENTIFIER_LEN : Z := 255.
Definition GX_FILTER_ID_LEN : Z := 255.
Definition GX_SSID_LEN : Z := 255.
Definition GX_FLOW_DESCRIPTION_LEN : Z := 255.
Definition GX_POSITIONING_METHOD_LEN : Z := 255.
Definition GX_SOURCEID_LEN : Z := 255.
Definition GX_BEARER_IDENTIFIER_LEN : Z := 255.
Definition GX_SPONSOR_IDENTITY_LEN : Z := 255.
Definition GX_DEFAULT_QOS_NAME_LEN : Z := 255.
Definition GX_TRAFFIC_STEERING_POLICY_IDENTIFIER_UL_LEN : Z := 255.
Definition GX_ERROR_REPORTING_HOST_LEN : Z := 255.
Definition GX_CELL_GLOBAL_IDENTITY_LEN : Z := 255.
Definition GX_APPLICATION_SERVICE_PROVIDER_IDENTITY_LEN : Z := 255.
Definition GX_TRACE_NE_TYPE_LIST_LEN : Z := 255.
Definition GX_REDIRECT_HOST_LEN : Z := 255.
Definition GX_RAN_NAS_RELEASE_CAUSE_LEN : Z := 255.
Definition GX_TRACE_EVENT_LIST_LEN : Z := 255.
Definition GX_3GPP_USER_LOCATION_INFO_LEN : Z := 255.
Definition GX_SECURITY_PARAMETER_INDEX_LEN : Z := 255.
Definition GX_TRACE_INTERFACE_LIST_LEN : Z := 255.
Definition GX_TRAFFIC_STEERING_POLICY_IDENTIFIER_DL_LEN : Z := 255.
Definition GX_3GPP_GGSN_ADDRESS_LEN : Z := 255.
Definition GX_E_UTRAN_CELL_GLOBAL_IDENTITY_LEN : Z := 255.
Definition GX_CALLED_STATION_ID_LEN : Z := 255.
Definition GX_FRAMED_IP_ADDRESS_LEN : Z := 255.
Definition GX_PACKET_FILTER_IDENTIFIER_LEN : Z := 255.
Definition GX_TDF_APPLICATION_INSTANCE_IDENTIFIER_LEN : Z := 255.
Definition GX_PROXY_HOST_LEN : Z := 255.
Definition GX_PDN_CONNECTION_ID_LEN : Z := 255.
Definition GX_PRESENCE_REPORTING_AREA_ELEMENTS_LIST_LEN : Z := 255.
Definition GX_MONITORING_KEY_LEN : Z := 255.
Definition GX_3GPP_MS_TIMEZONE_LEN : Z := 255.
Definition GX_CHARGING_RULE_NAME_LEN : Z := 255.
Definition GX_ERROR_MESSAGE_LEN : Z := 255.
Definition GX_ROUTING_AREA_IDENTITY_LEN : Z := 255.
Definition GX_TFT_FILTER_LEN : Z := 255.
Definition GX_TRACE_REFERENCE_LEN : Z := 255.
Definition GX_MEASUREMENT_QUANTITY_LEN : Z := 255.
Definition GX_PROXY_STATE_LEN : Z := 255.
Definition GX_AF_CHARGING_IDENTIFIER_LEN : Z := 255.
Definition GX_ROUTING_RULE_IDENTIFIER_LEN : Z := 255.
Definition GX_DESTINATION_REALM_LEN : Z := 255.
Definition GX_SESSION_ID_LEN : Z := 255.
Definition GX_TOS_TRAFFIC_CLASS_LEN : Z := 255.
Definition GX_BSSID_LEN : Z := 255.
Definition GX_PRIMARY_EVENT_CHARGING_FUNCTION_NAME_LEN : Z := 255.
Definition GX_PRIMARY_CHARGING_COLLECTION_FUNCTION_NAME_LEN : Z := 255.

Section Parsers.
Context {G : GxDict}.

Definition zero_GxProxyInfo : GxProxyInfo :=
  mkGxProxyInfo None None.

Definition GxProxyInfo_members : list member :=
  [OCTETSTRING davp_proxy_host GX_PROXY_HOST_LEN;
   OCTETSTRING davp_proxy_state GX_PROXY_STATE_LEN].

Definition GxProxyInfo_data (d : GxProxyInfo) : data GxProxyInfo_members :=
  (d.(GxProxyInfo_proxy_host), (d.(GxProxyInfo_proxy_state), tt)).

Definition GxProxyInfo_of (t : data GxProxyInfo_members) : GxProxyInfo :=
  let '(proxy_host, (proxy_state, tt)) := t in
  mkGxProxyInfo proxy_host proxy_state.

Definition parseGxProxyInfo (avp : avp) (data : GxProxyInfo) : res GxProxyInfo :=
  let? t := parse_group GxProxyInfo_members (avp_children avp) (GxProxyInfo_data data) in Ok (GxProxyInfo_of t).

Definition zero_GxPresenceReportingAreaInformation : GxPresenceReportingAreaInformation :=
  mkGxPresenceReportingAreaInformation None None None None.

Definition GxPresenceReportingAreaInformation_members : list member :=
  [OCTETSTRING davp_presence_reporting_area_identifier GX_PRESENCE_REPORTING_AREA_IDENTIFIER_LEN;
   NUMBER davp_presence_reporting_area_status uint32_t;
   OCTETSTRING davp_presence_reporting_area_elements_list GX_PRESENCE_REPORTING_AREA_ELEMENTS_LIST_LEN;
   NUMBER davp_presence_reporting_area_node uint32_t].

Definition GxPresenceReportingAreaInformation_data (d : GxPresenceReportingAreaInformation) : data GxPresenceReportingAreaInformation_members :=
  (d.(GxPresenceReportingAreaInformation_presence_reporting_area_identifier),
   (d.(GxPresenceReportingAreaInformation_presence_reporting_area_status),
   (d.(GxPresenceReportingAreaInformation_presence_reporting_area_elements_list),
   (d.(GxPresenceReportingAreaInformation_presence_reporting_area_node), tt)))).

Definition GxPresenceReportingAreaInformation_of (t : data GxPresenceReportingAreaInformation_members) : GxPresenceReportingAreaInformation :=
  let '(presence_reporting_area_identifier, (presence_reporting_area_status,
    (presence_reporting_area_elements_list, (presence_reporting_area_node, tt)))) := t in
  mkGxPresenceReportingAreaInformation presence_reporting_area_identifier presence_reporting_area_status
    presence_reporting_area_elements_list presence_reporting_area_node.

Definition parseGxPresenceReportingAreaInformation (avp : avp) (data : GxPresenceReportingAreaInformation) : res GxPresenceReportingAreaInformation :=
  let? t := parse_group GxPresenceReportingAreaInformation_members (avp_children avp) (GxPresenceReportingAreaInformation_data data) in Ok (GxPresenceReportingAreaInformation_of t).

Definition zero_GxRoutingRuleRemove : GxRoutingRuleRemove :=
  mkGxRoutingRuleRemove None.

Definition GxRoutingRuleRemove_members : list member :=
  [LIST_OCTETSTRING davp_routing_rule_identifier GX_ROUTING_RULE_IDENTIFIER_LEN].

Definition GxRoutingRuleRemove_data (d : GxRoutingRuleRemove) : data GxRoutingRuleRemove_members :=
  (d.(GxRoutingRuleRemove_routing_rule_identifier), tt).

Definition GxRoutingRuleRemove_of (t : data GxRoutingRuleRemove_members) : GxRoutingRuleRemove :=
  let '(routing_rule_identifier, tt) := t in
  mkGxRoutingRuleRemove routing_rule_identifier.

Definition parseGxRoutingRuleRemove (avp : avp) (data : GxRoutingRuleRemove) : res GxRoutingRuleRemove :=
  let? t := parse_group GxRoutingRuleRemove_members (avp_children avp) (GxRoutingRuleRemove_data data) in Ok (GxRoutingRuleRemove_of t).

Definition zero_GxRoutingFilter : GxRoutingFilter :=
  mkGxRoutingFilter None None None None None.

Definition GxRoutingFilter_members : list member :=
  [OCTETSTRING davp_flow_description GX_FLOW_DESCRIPTION_LEN;
   NUMBER davp_flow_direction int32_t;
   OCTETSTRING davp_tos_traffic_class GX_TOS_TRAFFIC_CLASS_LEN;
   OCTETSTRING davp_security_parameter_index GX_SECURITY_PARAMETER_INDEX_LEN;
   OCTETSTRING davp_flow_label GX_FLOW_LABEL_LEN].

Definition GxRoutingFilter_data (d : GxRoutingFilter) : data GxRoutingFilter_members :=
  (d.(GxRoutingFilter_flow_description), (d.(GxRoutingFilter_flow_direction),
   (d.(GxRoutingFilter_tos_traffic_class), (d.(GxRoutingFilter_security_parameter_index),
   (d.(GxRoutingFilter_flow_label), tt))))).

Definition GxRoutingFilter_of (t : data GxRoutingFilter_members) : GxRoutingFilter :=
  let '(flow_description, (flow_direction, (tos_traffic_class, (security_parameter_index,
    (flow_label, tt))))) := t in
  mkGxRoutingFilter flow_description flow_direction tos_traffic_class security_parameter_index flow_label.

Definition parseGxRoutingFilter (avp : avp) (data : GxRoutingFilter) : res GxRoutingFilter :=
  let? t := parse_group GxRoutingFilter_members (avp_children avp) (GxRoutingFilter_data data) in Ok (GxRoutingFilter_of t).

Definition zero_GxRoutingRuleDefinition : GxRoutingRuleDefinition :=
  mkGxRoutingRuleDefinition None None None None None.

Definition GxRoutingRuleDefinition_members : list member :=
  [OCTETSTRING davp_routing_rule_identifier GX_ROUTING_RULE_IDENTIFIER_LEN;
   LIST_PARSE_DIRECT davp_routing_filter parseGxRoutingFilter zero_GxRoutingFilter;
   NUMBER davp_precedence uint32_t;
   ADDRESS davp_routing_ip_address;
   NUMBER davp_ip_can_type int32_t].

Definition GxRoutingRuleDefinition_data (d : GxRoutingRuleDefinition) : data GxRoutingRuleDefinition_members :=
  (d.(GxRoutingRuleDefinition_routing_rule_identifier),
   (d.(GxRoutingRuleDefinition_routing_filter), (d.(GxRoutingRuleDefinition_precedence),
   (d.(GxRoutingRuleDefinition_routing_ip_address), (d.(GxRoutingRuleDefinition_ip_can_type),
   tt))))).

Definition GxRoutingRuleDefinition_of (t : data GxRoutingRuleDefinition_members) : GxRoutingRuleDefinition :=
  let '(routing_rule_identifier, (routing_filter, (precedence, (routing_ip_address, (ip_can_type,
    tt))))) := t in
  mkGxRoutingRuleDefinition routing_rule_identifier routing_filter precedence routing_ip_address ip_can_type.

Definition parseGxRoutingRuleDefinition (avp : avp) (data : GxRoutingRuleDefinition) : res GxRoutingRuleDefinition :=
  let? t := parse_group GxRoutingRuleDefinition_members (avp_children avp) (GxRoutingRuleDefinition_data data) in Ok (GxRoutingRuleDefinition_of t).

Definition zero_GxRoutingRuleInstall : GxRoutingRuleInstall :=
  mkGxRoutingRuleInstall None.

Definition GxRoutingRuleInstall_members : list member :=
  [LIST_PARSE_DIRECT davp_routing_rule_definition parseGxRoutingRuleDefinition zero_GxRoutingRuleDefinition].

Definition GxRoutingRuleInstall_data (d : GxRoutingRuleInstall) : data GxRoutingRuleInstall_members :=
  (d.(GxRoutingRuleInstall_routing_rule_definition), tt).

Definition GxRoutingRuleInstall_of (t : data GxRoutingRuleInstall_members) : GxRoutingRuleInstall :=
  let '(routing_rule_definition, tt) := t in
  mkGxRoutingRuleInstall routing_rule_definition.

Definition parseGxRoutingRuleInstall (avp : avp) (data : GxRoutingRuleInstall) : res GxRoutingRuleInstall :=
  let? t := parse_group GxRoutingRuleInstall_members (avp_children avp) (GxRoutingRuleInstall_data data) in Ok (GxRoutingRuleInstall_of t).

Definition zero_GxUnitValue : GxUnitValue :=
  mkGxUnitValue None None.

Definition GxUnitValue_members : list member :=
  [NUMBER davp_value_digits int64_t;
   NUMBER davp_exponent int32_t].

Definition GxUnitValue_data (d : GxUnitValue) : data GxUnitValue_members :=
  (d.(GxUnitValue_value_digits), (d.(GxUnitValue_exponent), tt)).

Definition GxUnitValue_of (t : data GxUnitValue_members) : GxUnitValue :=
  let '(value_digits, (exponent, tt)) := t in
  mkGxUnitValue value_digits exponent.

Definition parseGxUnitValue (avp : avp) (data : GxUnitValue) : res GxUnitValue :=
  let? t := parse_group GxUnitValue_members (avp_children avp) (GxUnitValue_data data) in Ok (GxUnitValue_of t).

Definition zero_GxCcMoney : GxCcMoney :=
  mkGxCcMoney None None.

Definition GxCcMoney_members : list member :=
  [PARSE_DIRECT davp_unit_value parseGxUnitValue zero_GxUnitValue;
   NUMBER davp_currency_code uint32_t].

Definition GxCcMoney_data (d : GxCcMoney) : data GxCcMoney_members :=
  (d.(GxCcMoney_unit_value), (d.(GxCcMoney_currency_code), tt)).

Definition GxCcMoney_of (t : data GxCcMoney_members) : GxCcMoney :=
  let '(unit_value, (currency_code, tt)) := t in
  mkGxCcMoney unit_value currency_code.

Definition parseGxCcMoney (avp : avp) (data : GxCcMoney) : res GxCcMoney :=
  let? t := parse_group GxCcMoney_members (avp_children avp) (GxCcMoney_data data) in Ok (GxCcMoney_of t).

Definition zero_GxUsedServiceUnit : GxUsedServiceUnit := {|
  GxUsedServiceUnit_reporting_reason := None; GxUsedServiceUnit_tariff_change_usage := None;
  GxUsedServiceUnit_cc_time := None; GxUsedServiceUnit_cc_money := None;
  GxUsedServiceUnit_cc_total_octets := None; GxUsedServiceUnit_cc_input_octets := None;
  GxUsedServiceUnit_cc_output_octets := None; GxUsedServiceUnit_cc_service_specific_units := None;
  GxUsedServiceUnit_event_charging_timestamp := None |}.

Definition GxUsedServiceUnit_members : list member :=
  [NUMBER davp_reporting_reason int32_t;
   NUMBER davp_tariff_change_usage int32_t;
   NUMBER davp_cc_time uint32_t;
   PARSE_DIRECT davp_cc_money parseGxCcMoney zero_GxCcMoney;
   NUMBER davp_cc_total_octets uint64_t;
   NUMBER davp_cc_input_octets uint64_t;
   NUMBER davp_cc_output_octets uint64_t;
   NUMBER davp_cc_service_specific_units uint64_t;
   LIST_TIME davp_event_charging_timestamp].

Definition GxUsedServiceUnit_data (d : GxUsedServiceUnit) : data GxUsedServiceUnit_members :=
  (d.(GxUsedServiceUnit_reporting_reason), (d.(GxUsedServiceUnit_tariff_change_usage),
   (d.(GxUsedServiceUnit_cc_time), (d.(GxUsedServiceUnit_cc_money),
   (d.(GxUsedServiceUnit_cc_total_octets), (d.(GxUsedServiceUnit_cc_input_octets),
   (d.(GxUsedServiceUnit_cc_output_octets), (d.(GxUsedServiceUnit_cc_service_specific_units),
   (d.(GxUsedServiceUnit_event_charging_timestamp), tt))))))))).

Definition GxUsedServiceUnit_of (t : data GxUsedServiceUnit_members) : GxUsedServiceUnit :=
  let '(reporting_reason, (tariff_change_usage, (cc_time, (cc_money, (cc_total_octets,
    (cc_input_octets, (cc_output_octets, (cc_service_specific_units, (event_charging_timestamp,
    tt))))))))) := t in
  mkGxUsedServiceUnit reporting_reason tariff_change_usage cc_time cc_money cc_total_octets cc_input_octets
    cc_output_octets cc_service_specific_units event_charging_timestamp.

Definition parseGxUsedServiceUnit (avp : avp) (data : GxUsedServiceUnit) : res GxUsedServiceUnit :=
  let? t := parse_group GxUsedServiceUnit_members (avp_children avp) (GxUsedServiceUnit_data data) in Ok (GxUsedServiceUnit_of t).

Definition zero_GxGrantedServiceUnit : GxGrantedServiceUnit :=
  mkGxGrantedServiceUnit None None None None None None None.

Definition GxGrantedServiceUnit_members : list member :=
  [TIME davp_tariff_time_change;
   NUMBER davp_cc_time uint32_t;
   PARSE_DIRECT davp_cc_money parseGxCcMoney zero_GxCcMoney;
   NUMBER davp_cc_total_octets uint64_t;
   NUMBER davp_cc_input_octets uint64_t;
   NUMBER davp_cc_output_octets uint64_t;
   NUMBER davp_cc_service_specific_units uint64_t].

Definition GxGrantedServiceUnit_data (d : GxGrantedServiceUnit) : data GxGrantedServiceUnit_members :=
  (d.(GxGrantedServiceUnit_tariff_time_change), (d.(GxGrantedServiceUnit_cc_time),
   (d.(GxGrantedServiceUnit_cc_money), (d.(GxGrantedServiceUnit_cc_total_octets),
   (d.(GxGrantedServiceUnit_cc_input_octets), (d.(GxGrantedServiceUnit_cc_output_octets),
   (d.(GxGrantedServiceUnit_cc_service_specific_units), tt))))))).

Definition GxGrantedServiceUnit_of (t : data GxGrantedServiceUnit_members) : GxGrantedServiceUnit :=
  let '(tariff_time_change, (cc_time, (cc_money, (cc_total_octets, (cc_input_octets,
    (cc_output_octets, (cc_service_specific_units, tt))))))) := t in
  mkGxGrantedServiceUnit tariff_time_change cc_time cc_money cc_total_octets cc_input_octets cc_output_octets
    cc_service_specific_units.

Definition parseGxGrantedServiceUnit (avp : avp) (data : GxGrantedServiceUnit) : res GxGrantedServiceUnit :=
  let? t := parse_group GxGrantedServiceUnit_members (avp_children avp) (GxGrantedServiceUnit_data data) in Ok (GxGrantedServiceUnit_of t).

Definition zero_GxUsageMonitoringInformation : GxUsageMonitoringInformation :=
  mkGxUsageMonitoringInformation None None None None None None None.

Definition GxUsageMonitoringInformation_members : list member :=
  [OCTETSTRING davp_monitoring_key GX_MONITORING_KEY_LEN;
   LIST_PARSE_DIRECT davp_granted_service_unit parseGxGrantedServiceUnit zero_GxGrantedServiceUnit;
   LIST_PARSE_DIRECT davp_used_service_unit parseGxUsedServiceUnit zero_GxUsedServiceUnit;
   NUMBER davp_quota_consumption_time uint32_t;
   NUMBER davp_usage_monitoring_level int32_t;
   NUMBER davp_usage_monitoring_report int32_t;
   NUMBER davp_usage_monitoring_support int32_t].

Definition GxUsageMonitoringInformation_data (d : GxUsageMonitoringInformation) : data GxUsageMonitoringInformation_members :=
  (d.(GxUsageMonitoringInformation_monitoring_key),
   (d.(GxUsageMonitoringInformation_granted_service_unit),
   (d.(GxUsageMonitoringInformation_used_service_unit),
   (d.(GxUsageMonitoringInformation_quota_consumption_time),
   (d.(GxUsageMonitoringInformation_usage_monitoring_level),
   (d.(GxUsageMonitoringInformation_usage_monitoring_report),
   (d.(GxUsageMonitoringInformation_usage_monitoring_support), tt))))))).

Definition GxUsageMonitoringInformation_of (t : data GxUsageMonitoringInformation_members) : GxUsageMonitoringInformation :=
  let '(monitoring_key, (granted_service_unit, (used_service_unit, (quota_consumption_time,
    (usage_monitoring_level, (usage_monitoring_report, (usage_monitoring_support, tt))))))) := t in
  mkGxUsageMonitoringInformation monitoring_key granted_service_unit used_service_unit quota_consumption_time
    usage_monitoring_level usage_monitoring_report usage_monitoring_support.

Definition parseGxUsageMonitoringInformation (avp : avp) (data : GxUsageMonitoringInformation) : res GxUsageMonitoringInformation :=
  let? t := parse_group GxUsageMonitoringInformation_members (avp_children avp) (GxUsageMonitoringInformation_data data) in Ok (GxUsageMonitoringInformation_of t).

Definition zero_GxTunnelInformation : GxTunnelInformation :=
  mkGxTunnelInformation None None.

Definition GxTunnelInformation_members : list member :=
  [NUMBER davp_tunnel_header_length uint32_t;
   LIST_OCTETSTRING davp_tunnel_header_filter GX_TUNNEL_HEADER_FILTER_LEN].

Definition GxTunnelInformation_data (d : GxTunnelInformation) : data GxTunnelInformation_members :=
  (d.(GxTunnelInformation_tunnel_header_length), (d.(GxTunnelInformation_tunnel_header_filter),
   tt)).

Definition GxTunnelInformation_of (t : data GxTunnelInformation_members) : GxTunnelInformation :=
  let '(tunnel_header_length, (tunnel_header_filter, tt)) := t in
  mkGxTunnelInformation tunnel_header_length tunnel_header_filter.

Definition parseGxTunnelInformation (avp : avp) (data : GxTunnelInformation) : res GxTunnelInformation :=
  let? t := parse_group GxTunnelInformation_members (avp_children avp) (GxTunnelInformation_data data) in Ok (GxTunnelInformation_of t).

Definition zero_GxCoaInformation : GxCoaInformation :=
  mkGxCoaInformation None None.

Definition GxCoaInformation_members : list member :=
  [PARSE_DIRECT davp_tunnel_information parseGxTunnelInformation zero_GxTunnelInformation;
   ADDRESS davp_coa_ip_address].

Definition GxCoaInformation_data (d : GxCoaInformation) : data GxCoaInformation_members :=
  (d.(GxCoaInformation_tunnel_information), (d.(GxCoaInformation_coa_ip_address), tt)).

Definition GxCoaInformation_of (t : data GxCoaInformation_members) : GxCoaInformation :=
  let '(tunnel_information, (coa_ip_address, tt)) := t in
  mkGxCoaInformation tunnel_information coa_ip_address.

Definition parseGxCoaInformation (avp : avp) (data : GxCoaInformation) : res GxCoaInformation :=
  let? t := parse_group GxCoaInformation_members (avp_children avp) (GxCoaInformation_data data) in Ok (GxCoaInformation_of t).

Definition zero_GxAccessNetworkChargingIdentifierGx : GxAccessNetworkChargingIdentifierGx :=
  mkGxAccessNetworkChargingIdentifierGx None None None None.

Definition GxAccessNetworkChargingIdentifierGx_members : list member :=
  [OCTETSTRING davp_access_network_charging_identifier_value GX_ACCESS_NETWORK_CHARGING_IDENTIFIER_VALUE_LEN;
   LIST_OCTETSTRING davp_charging_rule_base_name GX_CHARGING_RULE_BASE_NAME_LEN;
   LIST_OCTETSTRING davp_charging_rule_name GX_CHARGING_RULE_NAME_LEN;
   NUMBER davp_ip_can_session_charging_scope int32_t].

Definition GxAccessNetworkChargingIdentifierGx_data (d : GxAccessNetworkChargingIdentifierGx) : data GxAccessNetworkChargingIdentifierGx_members :=
  (d.(GxAccessNetworkChargingIdentifierGx_access_network_charging_identifier_value),
   (d.(GxAccessNetworkChargingIdentifierGx_charging_rule_base_name),
   (d.(GxAccessNetworkChargingIdentifierGx_charging_rule_name),
   (d.(GxAccessNetworkChargingIdentifierGx_ip_can_session_charging_scope), tt)))).

Definition GxAccessNetworkChargingIdentifierGx_of (t : data GxAccessNetworkChargingIdentifierGx_members) : GxAccessNetworkChargingIdentifierGx :=
  let '(access_network_charging_identifier_value, (charging_rule_base_name, (charging_rule_name,
    (ip_can_session_charging_scope, tt)))) := t in
  mkGxAccessNetworkChargingIdentifierGx access_network_charging_identifier_value charging_rule_base_name charging_rule_name
    ip_can_session_charging_scope.

Definition parseGxAccessNetworkChargingIdentifierGx (avp : avp) (data : GxAccessNetworkChargingIdentifierGx) : res GxAccessNetworkChargingIdentifierGx :=
  let? t := parse_group GxAccessNetworkChargingIdentifierGx_members (avp_children avp) (GxAccessNetworkChargingIdentifierGx_data data) in Ok (GxAccessNetworkChargingIdentifierGx_of t).

Definition zero_GxMbsfnArea : GxMbsfnArea :=
  mkGxMbsfnArea None None.

Definition GxMbsfnArea_members : list member :=
  [NUMBER davp_mbsfn_area_id uint32_t;
   NUMBER davp_carrier_frequency uint32_t].

Definition GxMbsfnArea_data (d : GxMbsfnArea) : data GxMbsfnArea_members :=
  (d.(GxMbsfnArea_mbsfn_area_id), (d.(GxMbsfnArea_carrier_frequency), tt)).

Definition GxMbsfnArea_of (t : data GxMbsfnArea_members) : GxMbsfnArea :=
  let '(mbsfn_area_id, (carrier_frequency, tt)) := t in
  mkGxMbsfnArea mbsfn_area_id carrier_frequency.

Definition parseGxMbsfnArea (avp : avp) (data : GxMbsfnArea) : res GxMbsfnArea :=
  let? t := parse_group GxMbsfnArea_members (avp_children avp) (GxMbsfnArea_data data) in Ok (GxMbsfnArea_of t).

Definition zero_GxAreaScope : GxAreaScope :=
  mkGxAreaScope None None None None None.

Definition GxAreaScope_members : list member :=
  [LIST_OCTETSTRING davp_cell_global_identity GX_CELL_GLOBAL_IDENTITY_LEN;
   LIST_OCTETSTRING davp_e_utran_cell_global_identity GX_E_UTRAN_CELL_GLOBAL_IDENTITY_LEN;
   LIST_OCTETSTRING davp_routing_area_identity GX_ROUTING_AREA_IDENTITY_LEN;
   LIST_OCTETSTRING davp_location_area_identity GX_LOCATION_AREA_IDENTITY_LEN;
   LIST_OCTETSTRING davp_tracking_area_identity GX_TRACKING_AREA_IDENTITY_LEN].

Definition GxAreaScope_data (d : GxAreaScope) : data GxAreaScope_members :=
  (d.(GxAreaScope_cell_global_identity), (d.(GxAreaScope_e_utran_cell_global_identity),
   (d.(GxAreaScope_routing_area_identity), (d.(GxAreaScope_location_area_identity),
   (d.(GxAreaScope_tracking_area_identity), tt))))).

Definition GxAreaScope_of (t : data GxAreaScope_members) : GxAreaScope :=
  let '(cell_global_identity, (e_utran_cell_global_identity, (routing_area_identity,
    (location_area_identity, (tracking_area_identity, tt))))) := t in
  mkGxAreaScope cell_global_identity e_utran_cell_global_identity routing_area_identity
    location_area_identity tracking_area_identity.

Definition parseGxAreaScope (avp : avp) (data : GxAreaScope) : res GxAreaScope :=
  let? t := parse_group GxAreaScope_members (avp_children avp) (GxAreaScope_data data) in Ok (GxAreaScope_of t).

Definition zero_GxMdtConfiguration : GxMdtConfiguration := {|
  GxMdtConfiguration_job_type := None; GxMdtConfiguration_area_scope := None;
  GxMdtConfiguration_list_of_measurements := None; GxMdtConfiguration_reporting_trigger := None;
  GxMdtConfiguration_report_interval := None; GxMdtConfiguration_report_amount := None;
  GxMdtConfiguration_event_threshold_rsrp := None; GxMdtConfiguration_event_threshold_rsrq := None;
  GxMdtConfiguration_logging_interval := None; GxMdtConfiguration_logging_duration := None;
  GxMdtConfiguration_measurement_period_lte := None;
  GxMdtConfiguration_measurement_period_umts := None;
  GxMdtConfiguration_collection_period_rrm_lte := None;
  GxMdtConfiguration_collection_period_rrm_umts := None;
  GxMdtConfiguration_positioning_method := None; GxMdtConfiguration_measurement_quantity := None;
  GxMdtConfiguration_event_threshold_event_1f := None;
  GxMdtConfiguration_event_threshold_event_1i := None;
  GxMdtConfiguration_mdt_allowed_plmn_id := None; GxMdtConfiguration_mbsfn_area := None |}.

Definition GxMdtConfiguration_members : list member :=
  [NUMBER davp_job_type int32_t;
   PARSE_DIRECT davp_area_scope parseGxAreaScope zero_GxAreaScope;
   NUMBER davp_list_of_measurements uint32_t;
   NUMBER davp_reporting_trigger uint32_t;
   NUMBER davp_report_interval int32_t;
   NUMBER davp_report_amount int32_t;
   NUMBER davp_event_threshold_rsrp uint32_t;
   NUMBER davp_event_threshold_rsrq uint32_t;
   NUMBER davp_logging_interval int32_t;
   NUMBER davp_logging_duration int32_t;
   NUMBER davp_measurement_period_lte int32_t;
   NUMBER davp_measurement_period_umts int32_t;
   NUMBER davp_collection_period_rrm_lte int32_t;
   NUMBER davp_collection_period_rrm_umts int32_t;
   OCTETSTRING davp_positioning_method GX_POSITIONING_METHOD_LEN;
   OCTETSTRING davp_measurement_quantity GX_MEASUREMENT_QUANTITY_LEN;
   NUMBER davp_event_threshold_event_1f int32_t;
   NUMBER davp_event_threshold_event_1i int32_t;
   LIST_OCTETSTRING davp_mdt_allowed_plmn_id GX_MDT_ALLOWED_PLMN_ID_LEN;
   LIST_PARSE_DIRECT davp_mbsfn_area parseGxMbsfnArea zero_GxMbsfnArea].

Definition GxMdtConfiguration_data (d : GxMdtConfiguration) : data GxMdtConfiguration_members :=
  (d.(GxMdtConfiguration_job_type), (d.(GxMdtConfiguration_area_scope),
   (d.(GxMdtConfiguration_list_of_measurements), (d.(GxMdtConfiguration_reporting_trigger),
   (d.(GxMdtConfiguration_report_interval), (d.(GxMdtConfiguration_report_amount),
   (d.(GxMdtConfiguration_event_threshold_rsrp), (d.(GxMdtConfiguration_event_threshold_rsrq),
   (d.(GxMdtConfiguration_logging_interval), (d.(GxMdtConfiguration_logging_duration),
   (d.(GxMdtConfiguration_measurement_period_lte),
   (d.(GxMdtConfiguration_measurement_period_umts),
   (d.(GxMdtConfiguration_collection_period_rrm_lte),
   (d.(GxMdtConfiguration_collection_period_rrm_umts),
   (d.(GxMdtConfiguration_positioning_method), (d.(GxMdtConfiguration_measurement_quantity),
   (d.(GxMdtConfiguration_event_threshold_event_1f),
   (d.(GxMdtConfiguration_event_threshold_event_1i),
   (d.(GxMdtConfiguration_mdt_allowed_plmn_id), (d.(GxMdtConfiguration_mbsfn_area),
   tt)))))))))))))))))))).

Definition GxMdtConfiguration_of (t : data GxMdtConfiguration_members) : GxMdtConfiguration :=
  let '(job_type, (area_scope, (list_of_measurements, (reporting_trigger, (report_interval,
    (report_amount, (event_threshold_rsrp, (event_threshold_rsrq, (logging_interval,
    (logging_duration, (measurement_period_lte, (measurement_period_umts,
    (collection_period_rrm_lte, (collection_period_rrm_umts, (positioning_method,
    (measurement_quantity, (event_threshold_event_1f, (event_threshold_event_1i,
    (mdt_allowed_plmn_id, (mbsfn_area, tt)))))))))))))))))))) := t in
  mkGxMdtConfiguration job_type area_scope list_of_measurements reporting_trigger report_interval report_amount
    event_threshold_rsrp event_threshold_rsrq logging_interval logging_duration
    measurement_period_lte measurement_period_umts collection_period_rrm_lte
    collection_period_rrm_umts positioning_method measurement_quantity event_threshold_event_1f
    event_threshold_event_1i mdt_allowed_plmn_id mbsfn_area.

Definition parseGxMdtConfiguration (avp : avp) (data : GxMdtConfiguration) : res GxMdtConfiguration :=
  let? t := parse_group GxMdtConfiguration_members (avp_children avp) (GxMdtConfiguration_data data) in Ok (GxMdtConfiguration_of t).

Definition zero_GxTraceData : GxTraceData :=
  mkGxTraceData None None None None None None None None.

Definition GxTraceData_members : list member :=
  [OCTETSTRING davp_trace_reference GX_TRACE_REFERENCE_LEN;
   NUMBER davp_trace_depth int32_t;
   OCTETSTRING davp_trace_ne_type_list GX_TRACE_NE_TYPE_LIST_LEN;
   OCTETSTRING davp_trace_interface_list GX_TRACE_INTERFACE_LIST_LEN;
   OCTETSTRING davp_trace_event_list GX_TRACE_EVENT_LIST_LEN;
   OCTETSTRING davp_omc_id GX_OMC_ID_LEN;
   ADDRESS davp_trace_collection_entity;
   PARSE_DIRECT davp_mdt_configuration parseGxMdtConfiguration zero_GxMdtConfiguration].

Definition GxTraceData_data (d : GxTraceData) : data GxTraceData_members :=
  (d.(GxTraceData_trace_reference), (d.(GxTraceData_trace_depth),
   (d.(GxTraceData_trace_ne_type_list), (d.(GxTraceData_trace_interface_list),
   (d.(GxTraceData_trace_event_list), (d.(GxTraceData_omc_id),
   (d.(GxTraceData_trace_collection_entity), (d.(GxTraceData_mdt_configuration), tt)))))))).

Definition GxTraceData_of (t : data GxTraceData_members) : GxTraceData :=
  let '(trace_reference, (trace_depth, (trace_ne_type_list, (trace_interface_list,
    (trace_event_list, (omc_id, (trace_collection_entity, (mdt_configuration, tt)))))))) := t in
  mkGxTraceData trace_reference trace_depth trace_ne_type_list trace_interface_list trace_event_list omc_id
    trace_collection_entity mdt_configuration.

Definition parseGxTraceData (avp : avp) (data : GxTraceData) : res GxTraceData :=
  let? t := parse_group GxTraceData_members (avp_children avp) (GxTraceData_data data) in Ok (GxTraceData_of t).

Definition zero_GxUserCsgInformation : GxUserCsgInformation :=
  mkGxUserCsgInformation None None None.

Definition GxUserCsgInformation_members : list member :=
  [NUMBER davp_csg_id uint32_t;
   NUMBER davp_csg_access_mode int32_t;
   NUMBER davp_csg_membership_indication int32_t].

Definition GxUserCsgInformation_data (d : GxUserCsgInformation) : data GxUserCsgInformation_members :=
  (d.(GxUserCsgInformation_csg_id), (d.(GxUserCsgInformation_csg_access_mode),
   (d.(GxUserCsgInformation_csg_membership_indication), tt))).

Definition GxUserCsgInformation_of (t : data GxUserCsgInformation_members) : GxUserCsgInformation :=
  let '(csg_id, (csg_access_mode, (csg_membership_indication, tt))) := t in
  mkGxUserCsgInformation csg_id csg_access_mode csg_membership_indication.

Definition parseGxUserCsgInformation (avp : avp) (data : GxUserCsgInformation) : res GxUserCsgInformation :=
  let? t := parse_group GxUserCsgInformation_members (avp_children avp) (GxUserCsgInformation_data data) in Ok (GxUserCsgInformation_of t).

Definition zero_GxEventReportIndication : GxEventReportIndication := {|
  GxEventReportIndication_an_trusted := None; GxEventReportIndication_event_trigger := None;
  GxEventReportIndication_user_csg_information := None; GxEventReportIndication_ip_can_type := None;
  GxEventReportIndication_an_gw_address := None; GxEventReportIndication_tgpp_sgsn_address := None;
  GxEventReportIndication_tgpp_sgsn_ipv6_address := None;
  GxEventReportIndication_tgpp_sgsn_mcc_mnc := None;
  GxEventReportIndication_framed_ip_address := None; GxEventReportIndication_rat_type := None;
  GxEventReportIndication_rai := None; GxEventReportIndication_tgpp_user_location_info := None;
  GxEventReportIndication_trace_data := None; GxEventReportIndication_trace_reference := None;
  GxEventReportIndication_tgpp2_bsid := None; GxEventReportIndication_tgpp_ms_timezone := None;
  GxEventReportIndication_routing_ip_address := None;
  GxEventReportIndication_ue_local_ip_address := None;
  GxEventReportIndication_henb_local_ip_address := None;
  GxEventReportIndication_udp_source_port := None;
  GxEventReportIndication_presence_reporting_area_information := None |}.

Definition GxEventReportIndication_members : list member :=
  [NUMBER davp_an_trusted int32_t;
   LIST_NUMBER davp_event_trigger int32_t;
   PARSE_DIRECT davp_user_csg_information parseGxUserCsgInformation zero_GxUserCsgInformation;
   NUMBER davp_ip_can_type int32_t;
   LIST_ADDRESS davp_an_gw_address;
   OCTETSTRING davp_3gpp_sgsn_address GX_3GPP_SGSN_ADDRESS_LEN;
   OCTETSTRING davp_3gpp_sgsn_ipv6_address GX_3GPP_SGSN_IPV6_ADDRESS_LEN;
   OCTETSTRING davp_3gpp_sgsn_mcc_mnc GX_3GPP_SGSN_MCC_MNC_LEN;
   OCTETSTRING davp_framed_ip_address GX_FRAMED_IP_ADDRESS_LEN;
   NUMBER davp_rat_type int32_t;
   OCTETSTRING davp_rai GX_RAI_LEN;
   OCTETSTRING davp_3gpp_user_location_info GX_3GPP_USER_LOCATION_INFO_LEN;
   PARSE_DIRECT davp_trace_data parseGxTraceData zero_GxTraceData;
   OCTETSTRING davp_trace_reference GX_TRACE_REFERENCE_LEN;
   OCTETSTRING davp_3gpp2_bsid GX_3GPP2_BSID_LEN;
   OCTETSTRING davp_3gpp_ms_timezone GX_3GPP_MS_TIMEZONE_LEN;
   ADDRESS davp_routing_ip_address;
   ADDRESS davp_ue_local_ip_address;
   ADDRESS davp_henb_local_ip_address;
   NUMBER davp_udp_source_port uint32_t;
   PARSE_DIRECT davp_presence_reporting_area_information parseGxPresenceReportingAreaInformation zero_GxPresenceReportingAreaInformation].

Definition GxEventReportIndication_data (d : GxEventReportIndication) : data GxEventReportIndication_members :=
  (d.(GxEventReportIndication_an_trusted), (d.(GxEventReportIndication_event_trigger),
   (d.(GxEventReportIndication_user_csg_information), (d.(GxEventReportIndication_ip_can_type),
   (d.(GxEventReportIndication_an_gw_address), (d.(GxEventReportIndication_tgpp_sgsn_address),
   (d.(GxEventReportIndication_tgpp_sgsn_ipv6_address),
   (d.(GxEventReportIndication_tgpp_sgsn_mcc_mnc),
   (d.(GxEventReportIndication_framed_ip_address), (d.(GxEventReportIndication_rat_type),
   (d.(GxEventReportIndication_rai), (d.(GxEventReportIndication_tgpp_user_location_info),
   (d.(GxEventReportIndication_trace_data), (d.(GxEventReportIndication_trace_reference),
   (d.(GxEventReportIndication_tgpp2_bsid), (d.(GxEventReportIndication_tgpp_ms_timezone),
   (d.(GxEventReportIndication_routing_ip_address),
   (d.(GxEventReportIndication_ue_local_ip_address),
   (d.(GxEventReportIndication_henb_local_ip_address),
   (d.(GxEventReportIndication_udp_source_port),
   (d.(GxEventReportIndication_presence_reporting_area_information), tt))))))))))))))))))))).

Definition GxEventReportIndication_of (t : data GxEventReportIndication_members) : GxEventReportIndication :=
  let '(an_trusted, (event_trigger, (user_csg_information, (ip_can_type, (an_gw_address,
    (tgpp_sgsn_address, (tgpp_sgsn_ipv6_address, (tgpp_sgsn_mcc_mnc, (framed_ip_address,
    (rat_type, (rai, (tgpp_user_location_info, (trace_data, (trace_reference, (tgpp2_bsid,
    (tgpp_ms_timezone, (routing_ip_address, (ue_local_ip_address, (henb_local_ip_address,
    (udp_source_port, (presence_reporting_area_information, tt))))))))))))))))))))) := t in
  mkGxEventReportIndication an_trusted event_trigger user_csg_information ip_can_type an_gw_address tgpp_sgsn_address
    tgpp_sgsn_ipv6_address tgpp_sgsn_mcc_mnc framed_ip_address rat_type rai
    tgpp_user_location_info trace_data trace_reference tgpp2_bsid tgpp_ms_timezone
    routing_ip_address ue_local_ip_address henb_local_ip_address udp_source_port
    presence_reporting_area_information.

Definition parseGxEventReportIndication (avp : avp) (data : GxEventReportIndication) : res GxEventReportIndication :=
  let? t := parse_group GxEventReportIndication_members (avp_children avp) (GxEventReportIndication_data data) in Ok (GxEventReportIndication_of t).

Definition zero_GxFlowInformation : GxFlowInformation :=
  mkGxFlowInformation None None None None None None None None.

Definition GxFlowInformation_members : list member :=
  [OCTETSTRING davp_flow_description GX_FLOW_DESCRIPTION_LEN;
   OCTETSTRING davp_packet_filter_identifier GX_PACKET_FILTER_IDENTIFIER_LEN;
   NUMBER davp_packet_filter_usage int32_t;
   OCTETSTRING davp_tos_traffic_class GX_TOS_TRAFFIC_CLASS_LEN;
   OCTETSTRING davp_security_parameter_index GX_SECURITY_PARAMETER_INDEX_LEN;
   OCTETSTRING davp_flow_label GX_FLOW_LABEL_LEN;
   NUMBER davp_flow_direction int32_t;
   OCTETSTRING davp_routing_rule_identifier GX_ROUTING_RULE_IDENTIFIER_LEN].

Definition GxFlowInformation_data (d : GxFlowInformation) : data GxFlowInformation_members :=
  (d.(GxFlowInformation_flow_description), (d.(GxFlowInformation_packet_filter_identifier),
   (d.(GxFlowInformation_packet_filter_usage), (d.(GxFlowInformation_tos_traffic_class),
   (d.(GxFlowInformation_security_parameter_index), (d.(GxFlowInformation_flow_label),
   (d.(GxFlowInformation_flow_direction), (d.(GxFlowInformation_routing_rule_identifier),
   tt)))))))).

Definition GxFlowInformation_of (t : data GxFlowInformation_members) : GxFlowInformation :=
  let '(flow_description, (packet_filter_identifier, (packet_filter_usage, (tos_traffic_class,
    (security_parameter_index, (flow_label, (flow_direction, (routing_rule_identifier,
    tt)))))))) := t in
  mkGxFlowInformation flow_description packet_filter_identifier packet_filter_usage tos_traffic_class
    security_parameter_index flow_label flow_direction routing_rule_identifier.

Definition parseGxFlowInformation (avp : avp) (data : GxFlowInformation) : res GxFlowInformation :=
  let? t := parse_group GxFlowInformation_members (avp_children avp) (GxFlowInformation_data data) in Ok (GxFlowInformation_of t).

Definition zero_GxApplicationDetectionInformation : GxApplicationDetectionInformation :=
  mkGxApplicationDetectionInformation None None None.

Definition GxApplicationDetectionInformation_members : list member :=
  [OCTETSTRING davp_tdf_application_identifier GX_TDF_APPLICATION_IDENTIFIER_LEN;
   OCTETSTRING davp_tdf_application_instance_identifier GX_TDF_APPLICATION_INSTANCE_IDENTIFIER_LEN;
   LIST_PARSE_DIRECT davp_flow_information parseGxFlowInformation zero_GxFlowInformation].

Definition GxApplicationDetectionInformation_data (d : GxApplicationDetectionInformation) : data GxApplicationDetectionInformation_members :=
  (d.(GxApplicationDetectionInformation_tdf_application_identifier),
   (d.(GxApplicationDetectionInformation_tdf_application_instance_identifier),
   (d.(GxApplicationDetectionInformation_flow_information), tt))).

Definition GxApplicationDetectionInformation_of (t : data GxApplicationDetectionInformation_members) : GxApplicationDetectionInformation :=
  let '(tdf_application_identifier, (tdf_application_instance_identifier, (flow_information, tt))) := t in
  mkGxApplicationDetectionInformation tdf_application_identifier tdf_application_instance_identifier flow_information.

Definition parseGxApplicationDetectionInformation (avp : avp) (data : GxApplicationDetectionInformation) : res GxApplicationDetectionInformation :=
  let? t := parse_group GxApplicationDetectionInformation_members (avp_children avp) (GxApplicationDetectionInformation_data data) in Ok (GxApplicationDetectionInformation_of t).

Definition zero_GxRedirectServer : GxRedirectServer :=
  mkGxRedirectServer None None.

Definition GxRedirectServer_members : list member :=
  [NUMBER davp_redirect_address_type int32_t;
   OCTETSTRING davp_redirect_server_address GX_REDIRECT_SERVER_ADDRESS_LEN].

Definition GxRedirectServer_data (d : GxRedirectServer) : data GxRedirectServer_members :=
  (d.(GxRedirectServer_redirect_address_type), (d.(GxRedirectServer_redirect_server_address),
   tt)).

Definition GxRedirectServer_of (t : data GxRedirectServer_members) : GxRedirectServer :=
  let '(redirect_address_type, (redirect_server_address, tt)) := t in
  mkGxRedirectServer redirect_address_type redirect_server_address.

Definition parseGxRedirectServer (avp : avp) (data : GxRedirectServer) : res GxRedirectServer :=
  let? t := parse_group GxRedirectServer_members (avp_children avp) (GxRedirectServer_data data) in Ok (GxRedirectServer_of t).

Definition zero_GxFinalUnitIndication : GxFinalUnitIndication :=
  mkGxFinalUnitIndication None None None None.

Definition GxFinalUnitIndication_members : list member :=
  [NUMBER davp_final_unit_action int32_t;
   LIST_OCTETSTRING davp_restriction_filter_rule GX_RESTRICTION_FILTER_RULE_LEN;
   LIST_OCTETSTRING davp_filter_id GX_FILTER_ID_LEN;
   PARSE_DIRECT davp_redirect_server parseGxRedirectServer zero_GxRedirectServer].

Definition GxFinalUnitIndication_data (d : GxFinalUnitIndication) : data GxFinalUnitIndication_members :=
  (d.(GxFinalUnitIndication_final_unit_action),
   (d.(GxFinalUnitIndication_restriction_filter_rule), (d.(GxFinalUnitIndication_filter_id),
   (d.(GxFinalUnitIndication_redirect_server), tt)))).

Definition GxFinalUnitIndication_of (t : data GxFinalUnitIndication_members) : GxFinalUnitIndication :=
  let '(final_unit_action, (restriction_filter_rule, (filter_id, (redirect_server, tt)))) := t in
  mkGxFinalUnitIndication final_unit_action restriction_filter_rule filter_id redirect_server.

Definition parseGxFinalUnitIndication (avp : avp) (data : GxFinalUnitIndication) : res GxFinalUnitIndication :=
  let? t := parse_group GxFinalUnitIndication_members (avp_children avp) (GxFinalUnitIndication_data data) in Ok (GxFinalUnitIndication_of t).

Definition zero_GxChargingRuleReport : GxChargingRuleReport :=
  mkGxChargingRuleReport None None None None None None None None.

Definition GxChargingRuleReport_members : list member :=
  [LIST_OCTETSTRING davp_charging_rule_name GX_CHARGING_RULE_NAME_LEN;
   LIST_OCTETSTRING davp_charging_rule_base_name GX_CHARGING_RULE_BASE_NAME_LEN;
   OCTETSTRING davp_bearer_identifier GX_BEARER_IDENTIFIER_LEN;
   NUMBER davp_pcc_rule_status int32_t;
   NUMBER davp_rule_failure_code int32_t;
   PARSE_DIRECT davp_final_unit_indication parseGxFinalUnitIndication zero_GxFinalUnitIndication;
   LIST_OCTETSTRING davp_ran_nas_release_cause GX_RAN_NAS_RELEASE_CAUSE_LEN;
   LIST_NUMBER davp_content_version uint64_t].

Definition GxChargingRuleReport_data (d : GxChargingRuleReport) : data GxChargingRuleReport_members :=
  (d.(GxChargingRuleReport_charging_rule_name),
   (d.(GxChargingRuleReport_charging_rule_base_name),
   (d.(GxChargingRuleReport_bearer_identifier), (d.(GxChargingRuleReport_pcc_rule_status),
   (d.(GxChargingRuleReport_rule_failure_code), (d.(GxChargingRuleReport_final_unit_indication),
   (d.(GxChargingRuleReport_ran_nas_release_cause), (d.(GxChargingRuleReport_content_version),
   tt)))))))).

Definition GxChargingRuleReport_of (t : data GxChargingRuleReport_members) : GxChargingRuleReport :=
  let '(charging_rule_name, (charging_rule_base_name, (bearer_identifier, (pcc_rule_status,
    (rule_failure_code, (final_unit_indication, (ran_nas_release_cause, (content_version,
    tt)))))))) := t in
  mkGxChargingRuleReport charging_rule_name charging_rule_base_name bearer_identifier pcc_rule_status
    rule_failure_code final_unit_indication ran_nas_release_cause content_version.

Definition parseGxChargingRuleReport (avp : avp) (data : GxChargingRuleReport) : res GxChargingRuleReport :=
  let? t := parse_group GxChargingRuleReport_members (avp_children avp) (GxChargingRuleReport_data data) in Ok (GxChargingRuleReport_of t).

Definition zero_GxTftPacketFilterInformation : GxTftPacketFilterInformation :=
  mkGxTftPacketFilterInformation None None None None None None.

Definition GxTftPacketFilterInformation_members : list member :=
  [NUMBER davp_precedence uint32_t;
   OCTETSTRING davp_tft_filter GX_TFT_FILTER_LEN;
   OCTETSTRING davp_tos_traffic_class GX_TOS_TRAFFIC_CLASS_LEN;
   OCTETSTRING davp_security_parameter_index GX_SECURITY_PARAMETER_INDEX_LEN;
   OCTETSTRING davp_flow_label GX_FLOW_LABEL_LEN;
   NUMBER davp_flow_direction int32_t].

Definition GxTftPacketFilterInformation_data (d : GxTftPacketFilterInformation) : data GxTftPacketFilterInformation_members :=
  (d.(GxTftPacketFilterInformation_precedence), (d.(GxTftPacketFilterInformation_tft_filter),
   (d.(GxTftPacketFilterInformation_tos_traffic_class),
   (d.(GxTftPacketFilterInformation_security_parameter_index),
   (d.(GxTftPacketFilterInformation_flow_label),
   (d.(GxTftPacketFilterInformation_flow_direction), tt)))))).

Definition GxTftPacketFilterInformation_of (t : data GxTftPacketFilterInformation_members) : GxTftPacketFilterInformation :=
  let '(precedence, (tft_filter, (tos_traffic_class, (security_parameter_index, (flow_label,
    (flow_direction, tt)))))) := t in
  mkGxTftPacketFilterInformation precedence tft_filter tos_traffic_class security_parameter_index flow_label flow_direction.

Definition parseGxTftPacketFilterInformation (avp : avp) (data : GxTftPacketFilterInformation) : res GxTftPacketFilterInformation :=
  let? t := parse_group GxTftPacketFilterInformation_members (avp_children avp) (GxTftPacketFilterInformation_data data) in Ok (GxTftPacketFilterInformation_of t).

Definition zero_GxFixedUserLocationInfo : GxFixedUserLocationInfo :=
  mkGxFixedUserLocationInfo None None None None.

Definition GxFixedUserLocationInfo_members : list member :=
  [OCTETSTRING davp_ssid GX_SSID_LEN;
   OCTETSTRING davp_bssid GX_BSSID_LEN;
   OCTETSTRING davp_logical_access_id GX_LOGICAL_ACCESS_ID_LEN;
   OCTETSTRING davp_physical_access_id GX_PHYSICAL_ACCESS_ID_LEN].

Definition GxFixedUserLocationInfo_data (d : GxFixedUserLocationInfo) : data GxFixedUserLocationInfo_members :=
  (d.(GxFixedUserLocationInfo_ssid), (d.(GxFixedUserLocationInfo_bssid),
   (d.(GxFixedUserLocationInfo_logical_access_id),
   (d.(GxFixedUserLocationInfo_physical_access_id), tt)))).

Definition GxFixedUserLocationInfo_of (t : data GxFixedUserLocationInfo_members) : GxFixedUserLocationInfo :=
  let '(ssid, (bssid, (logical_access_id, (physical_access_id, tt)))) := t in
  mkGxFixedUserLocationInfo ssid bssid logical_access_id physical_access_id.

Definition parseGxFixedUserLocationInfo (avp : avp) (data : GxFixedUserLocationInfo) : res GxFixedUserLocationInfo :=
  let? t := parse_group GxFixedUserLocationInfo_members (avp_children avp) (GxFixedUserLocationInfo_data data) in Ok (GxFixedUserLocationInfo_of t).

Definition zero_GxDefaultQosInformation : GxDefaultQosInformation :=
  mkGxDefaultQosInformation None None None None.

Definition GxDefaultQosInformation_members : list member :=
  [NUMBER davp_qos_class_identifier int32_t;
   NUMBER davp_max_requested_bandwidth_ul uint32_t;
   NUMBER davp_max_requested_bandwidth_dl uint32_t;
   OCTETSTRING davp_default_qos_name GX_DEFAULT_QOS_NAME_LEN].

Definition GxDefaultQosInformation_data (d : GxDefaultQosInformation) : data GxDefaultQosInformation_members :=
  (d.(GxDefaultQosInformation_qos_class_identifier),
   (d.(GxDefaultQosInformation_max_requested_bandwidth_ul),
   (d.(GxDefaultQosInformation_max_requested_bandwidth_dl),
   (d.(GxDefaultQosInformation_default_qos_name), tt)))).

Definition GxDefaultQosInformation_of (t : data GxDefaultQosInformation_members) : GxDefaultQosInformation :=
  let '(qos_class_identifier, (max_requested_bandwidth_ul, (max_requested_bandwidth_dl,
    (default_qos_name, tt)))) := t in
  mkGxDefaultQosInformation qos_class_identifier max_requested_bandwidth_ul max_requested_bandwidth_dl default_qos_name.

Definition parseGxDefaultQosInformation (avp : avp) (data : GxDefaultQosInformation) : res GxDefaultQosInformation :=
  let? t := parse_group GxDefaultQosInformation_members (avp_children avp) (GxDefaultQosInformation_data data) in Ok (GxDefaultQosInformation_of t).

Definition zero_GxAllocationRetentionPriority : GxAllocationRetentionPriority :=
  mkGxAllocationRetentionPriority None None None.

Definition GxAllocationRetentionPriority_members : list member :=
  [NUMBER davp_priority_level uint32_t;
   NUMBER davp_pre_emption_capability int32_t;
   NUMBER davp_pre_emption_vulnerability int32_t].

Definition GxAllocationRetentionPriority_data (d : GxAllocationRetentionPriority) : data GxAllocationRetentionPriority_members :=
  (d.(GxAllocationRetentionPriority_priority_level),
   (d.(GxAllocationRetentionPriority_pre_emption_capability),
   (d.(GxAllocationRetentionPriority_pre_emption_vulnerability), tt))).

Definition GxAllocationRetentionPriority_of (t : data GxAllocationRetentionPriority_members) : GxAllocationRetentionPriority :=
  let '(priority_level, (pre_emption_capability, (pre_emption_vulnerability, tt))) := t in
  mkGxAllocationRetentionPriority priority_level pre_emption_capability pre_emption_vulnerability.

Definition parseGxAllocationRetentionPriority (avp : avp) (data : GxAllocationRetentionPriority) : res GxAllocationRetentionPriority :=
  let? t := parse_group GxAllocationRetentionPriority_members (avp_children avp) (GxAllocationRetentionPriority_data data) in Ok (GxAllocationRetentionPriority_of t).

Definition zero_GxDefaultEpsBearerQos : GxDefaultEpsBearerQos :=
  mkGxDefaultEpsBearerQos None None.

Definition GxDefaultEpsBearerQos_members : list member :=
  [NUMBER davp_qos_class_identifier int32_t;
   PARSE_DIRECT davp_allocation_retention_priority parseGxAllocationRetentionPriority zero_GxAllocationRetentionPriority].

Definition GxDefaultEpsBearerQos_data (d : GxDefaultEpsBearerQos) : data GxDefaultEpsBearerQos_members :=
  (d.(GxDefaultEpsBearerQos_qos_class_identifier),
   (d.(GxDefaultEpsBearerQos_allocation_retention_priority), tt)).

Definition GxDefaultEpsBearerQos_of (t : data GxDefaultEpsBearerQos_members) : GxDefaultEpsBearerQos :=
  let '(qos_class_identifier, (allocation_retention_priority, tt)) := t in
  mkGxDefaultEpsBearerQos qos_class_identifier allocation_retention_priority.

Definition parseGxDefaultEpsBearerQos (avp : avp) (data : GxDefaultEpsBearerQos) : res GxDefaultEpsBearerQos :=
  let? t := parse_group GxDefaultEpsBearerQos_members (avp_children avp) (GxDefaultEpsBearerQos_data data) in Ok (GxDefaultEpsBearerQos_of t).

Definition zero_GxConditionalApnAggregateMaxBitrate : GxConditionalApnAggregateMaxBitrate :=
  mkGxConditionalApnAggregateMaxBitrate None None None None None None.

Definition GxConditionalApnAggregateMaxBitrate_members : list member :=
  [NUMBER davp_apn_aggregate_max_bitrate_ul uint32_t;
   NUMBER davp_apn_aggregate_max_bitrate_dl uint32_t;
   NUMBER davp_extended_apn_ambr_ul uint32_t;
   NUMBER davp_extended_apn_ambr_dl uint32_t;
   LIST_NUMBER davp_ip_can_type int32_t;
   LIST_NUMBER davp_rat_type int32_t].

Definition GxConditionalApnAggregateMaxBitrate_data (d : GxConditionalApnAggregateMaxBitrate) : data GxConditionalApnAggregateMaxBitrate_members :=
  (d.(GxConditionalApnAggregateMaxBitrate_apn_aggregate_max_bitrate_ul),
   (d.(GxConditionalApnAggregateMaxBitrate_apn_aggregate_max_bitrate_dl),
   (d.(GxConditionalApnAggregateMaxBitrate_extended_apn_ambr_ul),
   (d.(GxConditionalApnAggregateMaxBitrate_extended_apn_ambr_dl),
   (d.(GxConditionalApnAggregateMaxBitrate_ip_can_type),
   (d.(GxConditionalApnAggregateMaxBitrate_rat_type), tt)))))).

Definition GxConditionalApnAggregateMaxBitrate_of (t : data GxConditionalApnAggregateMaxBitrate_members) : GxConditionalApnAggregateMaxBitrate :=
  let '(apn_aggregate_max_bitrate_ul, (apn_aggregate_max_bitrate_dl, (extended_apn_ambr_ul,
    (extended_apn_ambr_dl, (ip_can_type, (rat_type, tt)))))) := t in
  mkGxConditionalApnAggregateMaxBitrate apn_aggregate_max_bitrate_ul apn_aggregate_max_bitrate_dl extended_apn_ambr_ul
    extended_apn_ambr_dl ip_can_type rat_type.

Definition parseGxConditionalApnAggregateMaxBitrate (avp : avp) (data : GxConditionalApnAggregateMaxBitrate) : res GxConditionalApnAggregateMaxBitrate :=
  let? t := parse_group GxConditionalApnAggregateMaxBitrate_members (avp_children avp) (GxConditionalApnAggregateMaxBitrate_data data) in Ok (GxConditionalApnAggregateMaxBitrate_of t).

Definition zero_GxQosInformation : GxQosInformation := {|
  GxQosInformation_qos_class_identifier := None;
  GxQosInformation_max_requested_bandwidth_ul := None;
  GxQosInformation_max_requested_bandwidth_dl := None;
  GxQosInformation_extended_max_requested_bw_ul := None;
  GxQosInformation_extended_max_requested_bw_dl := None;
  GxQosInformation_guaranteed_bitrate_ul := None; GxQosInformation_guaranteed_bitrate_dl := None;
  GxQosInformation_extended_gbr_ul := None; GxQosInformation_extended_gbr_dl := None;
  GxQosInformation_bearer_identifier := None;
  GxQosInformation_allocation_retention_priority := None;
  GxQosInformation_apn_aggregate_max_bitrate_ul := None;
  GxQosInformation_apn_aggregate_max_bitrate_dl := None;
  GxQosInformation_extended_apn_ambr_ul := None; GxQosInformation_extended_apn_ambr_dl := None;
  GxQosInformation_conditional_apn_aggregate_max_bitrate := None |}.

Definition GxQosInformation_members : list member :=
  [NUMBER davp_qos_class_identifier int32_t;
   NUMBER davp_max_requested_bandwidth_ul uint32_t;
   NUMBER davp_max_requested_bandwidth_dl uint32_t;
   NUMBER davp_extended_max_requested_bw_ul uint32_t;
   NUMBER davp_extended_max_requested_bw_dl uint32_t;
   NUMBER davp_guaranteed_bitrate_ul uint32_t;
   NUMBER davp_guaranteed_bitrate_dl uint32_t;
   NUMBER davp_extended_gbr_ul uint32_t;
   NUMBER davp_extended_gbr_dl uint32_t;
   OCTETSTRING davp_bearer_identifier GX_BEARER_IDENTIFIER_LEN;
   PARSE_DIRECT davp_allocation_retention_priority parseGxAllocationRetentionPriority zero_GxAllocationRetentionPriority;
   NUMBER davp_apn_aggregate_max_bitrate_ul uint32_t;
   NUMBER davp_apn_aggregate_max_bitrate_dl uint32_t;
   NUMBER davp_extended_apn_ambr_ul uint32_t;
   NUMBER davp_extended_apn_ambr_dl uint32_t;
   LIST_PARSE_DIRECT davp_conditional_apn_aggregate_max_bitrate parseGxConditionalApnAggregateMaxBitrate zero_GxConditionalApnAggregateMaxBitrate].

Definition GxQosInformation_data (d : GxQosInformation) : data GxQosInformation_members :=
  (d.(GxQosInformation_qos_class_identifier), (d.(GxQosInformation_max_requested_bandwidth_ul),
   (d.(GxQosInformation_max_requested_bandwidth_dl),
   (d.(GxQosInformation_extended_max_requested_bw_ul),
   (d.(GxQosInformation_extended_max_requested_bw_dl),
   (d.(GxQosInformation_guaranteed_bitrate_ul), (d.(GxQosInformation_guaranteed_bitrate_dl),
   (d.(GxQosInformation_extended_gbr_ul), (d.(GxQosInformation_extended_gbr_dl),
   (d.(GxQosInformation_bearer_identifier), (d.(GxQosInformation_allocation_retention_priority),
   (d.(GxQosInformation_apn_aggregate_max_bitrate_ul),
   (d.(GxQosInformation_apn_aggregate_max_bitrate_dl),
   (d.(GxQosInformation_extended_apn_ambr_ul), (d.(GxQosInformation_extended_apn_ambr_dl),
   (d.(GxQosInformation_conditional_apn_aggregate_max_bitrate), tt)))))))))))))))).

Definition GxQosInformation_of (t : data GxQosInformation_members) : GxQosInformation :=
  let '(qos_class_identifier, (max_requested_bandwidth_ul, (max_requested_bandwidth_dl,
    (extended_max_requested_bw_ul, (extended_max_requested_bw_dl, (guaranteed_bitrate_ul,
    (guaranteed_bitrate_dl, (extended_gbr_ul, (extended_gbr_dl, (bearer_identifier,
    (allocation_retention_priority, (apn_aggregate_max_bitrate_ul,
    (apn_aggregate_max_bitrate_dl, (extended_apn_ambr_ul, (extended_apn_ambr_dl,
    (conditional_apn_aggregate_max_bitrate, tt)))))))))))))))) := t in
  mkGxQosInformation qos_class_identifier max_requested_bandwidth_ul max_requested_bandwidth_dl
    extended_max_requested_bw_ul extended_max_requested_bw_dl guaranteed_bitrate_ul
    guaranteed_bitrate_dl extended_gbr_ul extended_gbr_dl bearer_identifier
    allocation_retention_priority apn_aggregate_max_bitrate_ul apn_aggregate_max_bitrate_dl
    extended_apn_ambr_ul extended_apn_ambr_dl conditional_apn_aggregate_max_bitrate.

Definition parseGxQosInformation (avp : avp) (data : GxQosInformation) : res GxQosInformation :=
  let? t := parse_group GxQosInformation_members (avp_children avp) (GxQosInformation_data data) in Ok (GxQosInformation_of t).

Definition zero_GxUserEquipmentInfo : GxUserEquipmentInfo :=
  mkGxUserEquipmentInfo None None.

Definition GxUserEquipmentInfo_members : list member :=
  [NUMBER davp_user_equipment_info_type int32_t;
   OCTETSTRING davp_user_equipment_info_value GX_USER_EQUIPMENT_INFO_VALUE_LEN].

Definition GxUserEquipmentInfo_data (d : GxUserEquipmentInfo) : data GxUserEquipmentInfo_members :=
  (d.(GxUserEquipmentInfo_user_equipment_info_type),
   (d.(GxUserEquipmentInfo_user_equipment_info_value), tt)).

Definition GxUserEquipmentInfo_of (t : data GxUserEquipmentInfo_members) : GxUserEquipmentInfo :=
  let '(user_equipment_info_type, (user_equipment_info_value, tt)) := t in
  mkGxUserEquipmentInfo user_equipment_info_type user_equipment_info_value.

Definition parseGxUserEquipmentInfo (avp : avp) (data : GxUserEquipmentInfo) : res GxUserEquipmentInfo :=
  let? t := parse_group GxUserEquipmentInfo_members (avp_children avp) (GxUserEquipmentInfo_data data) in Ok (GxUserEquipmentInfo_of t).

Definition zero_GxPacketFilterInformation : GxPacketFilterInformation :=
  mkGxPacketFilterInformation None None None None None None None.

Definition GxPacketFilterInformation_members : list member :=
  [OCTETSTRING davp_packet_filter_identifier GX_PACKET_FILTER_IDENTIFIER_LEN;
   NUMBER davp_precedence uint32_t;
   OCTETSTRING davp_packet_filter_content GX_PACKET_FILTER_CONTENT_LEN;
   OCTETSTRING davp_tos_traffic_class GX_TOS_TRAFFIC_CLASS_LEN;
   OCTETSTRING davp_security_parameter_index GX_SECURITY_PARAMETER_INDEX_LEN;
   OCTETSTRING davp_flow_label GX_FLOW_LABEL_LEN;
   NUMBER davp_flow_direction int32_t].

Definition GxPacketFilterInformation_data (d : GxPacketFilterInformation) : data GxPacketFilterInformation_members :=
  (d.(GxPacketFilterInformation_packet_filter_identifier),
   (d.(GxPacketFilterInformation_precedence),
   (d.(GxPacketFilterInformation_packet_filter_content),
   (d.(GxPacketFilterInformation_tos_traffic_class),
   (d.(GxPacketFilterInformation_security_parameter_index),
   (d.(GxPacketFilterInformation_flow_label), (d.(GxPacketFilterInformation_flow_direction),
   tt))))))).

Definition GxPacketFilterInformation_of (t : data GxPacketFilterInformation_members) : GxPacketFilterInformation :=
  let '(packet_filter_identifier, (precedence, (packet_filter_content, (tos_traffic_class,
    (security_parameter_index, (flow_label, (flow_direction, tt))))))) := t in
  mkGxPacketFilterInformation packet_filter_identifier precedence packet_filter_content tos_traffic_class
    security_parameter_index flow_label flow_direction.

Definition parseGxPacketFilterInformation (avp : avp) (data : GxPacketFilterInformation) : res GxPacketFilterInformation :=
  let? t := parse_group GxPacketFilterInformation_members (avp_children avp) (GxPacketFilterInformation_data data) in Ok (GxPacketFilterInformation_of t).

Definition zero_GxTdfInformation : GxTdfInformation :=
  mkGxTdfInformation None None None.

Definition GxTdfInformation_members : list member :=
  [OCTETSTRING davp_tdf_destination_realm GX_TDF_DESTINATION_REALM_LEN;
   OCTETSTRING davp_tdf_destination_host GX_TDF_DESTINATION_HOST_LEN;
   ADDRESS davp_tdf_ip_address].

Definition GxTdfInformation_data (d : GxTdfInformation) : data GxTdfInformation_members :=
  (d.(GxTdfInformation_tdf_destination_realm), (d.(GxTdfInformation_tdf_destination_host),
   (d.(GxTdfInformation_tdf_ip_address), tt))).

Definition GxTdfInformation_of (t : data GxTdfInformation_members) : GxTdfInformation :=
  let '(tdf_destination_realm, (tdf_destination_host, (tdf_ip_address, tt))) := t in
  mkGxTdfInformation tdf_destination_realm tdf_destination_host tdf_ip_address.

Definition parseGxTdfInformation (avp : avp) (data : GxTdfInformation) : res GxTdfInformation :=
  let? t := parse_group GxTdfInformation_members (avp_children avp) (GxTdfInformation_data data) in Ok (GxTdfInformation_of t).

Definition zero_GxSupportedFeatures : GxSupportedFeatures :=
  mkGxSupportedFeatures None None None.

Definition GxSupportedFeatures_members : list member :=
  [NUMBER davp_vendor_id uint32_t;
   NUMBER davp_feature_list_id uint32_t;
   NUMBER davp_feature_list uint32_t].

Definition GxSupportedFeatures_data (d : GxSupportedFeatures) : data GxSupportedFeatures_members :=
  (d.(GxSupportedFeatures_vendor_id), (d.(GxSupportedFeatures_feature_list_id),
   (d.(GxSupportedFeatures_feature_list), tt))).

Definition GxSupportedFeatures_of (t : data GxSupportedFeatures_members) : GxSupportedFeatures :=
  let '(vendor_id, (feature_list_id, (feature_list, tt))) := t in
  mkGxSupportedFeatures vendor_id feature_list_id feature_list.

Definition parseGxSupportedFeatures (avp : avp) (data : GxSupportedFeatures) : res GxSupportedFeatures :=
  let? t := parse_group GxSupportedFeatures_members (avp_children avp) (GxSupportedFeatures_data data) in Ok (GxSupportedFeatures_of t).

Definition zero_GxOcSupportedFeatures : GxOcSupportedFeatures :=
  mkGxOcSupportedFeatures None.

Definition GxOcSupportedFeatures_members : list member :=
  [NUMBER davp_oc_feature_vector uint64_t].

Definition GxOcSupportedFeatures_data (d : GxOcSupportedFeatures) : data GxOcSupportedFeatures_members :=
  (d.(GxOcSupportedFeatures_oc_feature_vector), tt).

Definition GxOcSupportedFeatures_of (t : data GxOcSupportedFeatures_members) : GxOcSupportedFeatures :=
  let '(oc_feature_vector, tt) := t in
  mkGxOcSupportedFeatures oc_feature_vector.

Definition parseGxOcSupportedFeatures (avp : avp) (data : GxOcSupportedFeatures) : res GxOcSupportedFeatures :=
  let? t := parse_group GxOcSupportedFeatures_members (avp_children avp) (GxOcSupportedFeatures_data data) in Ok (GxOcSupportedFeatures_of t).

Definition zero_GxSubscriptionId : GxSubscriptionId :=
  mkGxSubscriptionId None None.

Definition GxSubscriptionId_members : list member :=
  [NUMBER davp_subscription_id_type int32_t;
   OCTETSTRING davp_subscription_id_data GX_SUBSCRIPTION_ID_DATA_LEN].

Definition GxSubscriptionId_data (d : GxSubscriptionId) : data GxSubscriptionId_members :=
  (d.(GxSubscriptionId_subscription_id_type), (d.(GxSubscriptionId_subscription_id_data), tt)).

Definition GxSubscriptionId_of (t : data GxSubscriptionId_members) : GxSubscriptionId :=
  let '(subscription_id_type, (subscription_id_data, tt)) := t in
  mkGxSubscriptionId subscription_id_type subscription_id_data.

Definition parseGxSubscriptionId (avp : avp) (data : GxSubscriptionId) : res GxSubscriptionId :=
  let? t := parse_group GxSubscriptionId_members (avp_children avp) (GxSubscriptionId_data data) in Ok (GxSubscriptionId_of t).

Definition zero_GxCCR : GxCCR := {|
  GxCCR_session_id := None; GxCCR_drmp := None; GxCCR_auth_application_id := None;
  GxCCR_origin_host := None; GxCCR_origin_realm := None; GxCCR_destination_realm := None;
  GxCCR_service_context_id := None; GxCCR_cc_request_type := None; GxCCR_cc_request_number := None;
  GxCCR_credit_management_status := None; GxCCR_destination_host := None;
  GxCCR_origin_state_id := None; GxCCR_subscription_id := None; GxCCR_oc_supported_features := None;
  GxCCR_supported_features := None; GxCCR_tdf_information := None;
  GxCCR_network_request_support := None; GxCCR_packet_filter_information := None;
  GxCCR_packet_filter_operation := None; GxCCR_bearer_identifier := None;
  GxCCR_bearer_operation := None; GxCCR_dynamic_address_flag := None;
  GxCCR_dynamic_address_flag_extension := None; GxCCR_pdn_connection_charging_id := None;
  GxCCR_framed_ip_address := None; GxCCR_framed_ipv6_prefix := None; GxCCR_ip_can_type := None;
  GxCCR_tgpp_rat_type := None; GxCCR_an_trusted := None; GxCCR_rat_type := None;
  GxCCR_termination_cause := None; GxCCR_user_equipment_info := None; GxCCR_qos_information := None;
  GxCCR_qos_negotiation := None; GxCCR_qos_upgrade := None; GxCCR_default_eps_bearer_qos := None;
  GxCCR_default_qos_information := None; GxCCR_an_gw_address := None; GxCCR_an_gw_status := None;
  GxCCR_tgpp_sgsn_mcc_mnc := None; GxCCR_tgpp_sgsn_address := None;
  GxCCR_tgpp_sgsn_ipv6_address := None; GxCCR_tgpp_ggsn_address := None;
  GxCCR_tgpp_ggsn_ipv6_address := None; GxCCR_tgpp_selection_mode := None; GxCCR_rai := None;
  GxCCR_tgpp_user_location_info := None; GxCCR_fixed_user_location_info := None;
  GxCCR_user_location_info_time := None; GxCCR_user_csg_information := None;
  GxCCR_twan_identifier := None; GxCCR_tgpp_ms_timezone := None;
  GxCCR_ran_nas_release_cause := None; GxCCR_tgpp_charging_characteristics := None;
  GxCCR_called_station_id := None; GxCCR_pdn_connection_id := None; GxCCR_bearer_usage := None;
  GxCCR_online := None; GxCCR_offline := None; GxCCR_tft_packet_filter_information := None;
  GxCCR_charging_rule_report := None; GxCCR_application_detection_information := None;
  GxCCR_event_trigger := None; GxCCR_event_report_indication := None;
  GxCCR_access_network_charging_address := None;
  GxCCR_access_network_charging_identifier_gx := None; GxCCR_coa_information := None;
  GxCCR_usage_monitoring_information := None; GxCCR_nbifom_support := None;
  GxCCR_nbifom_mode := None; GxCCR_default_access := None; GxCCR_origination_time_stamp := None;
  GxCCR_maximum_wait_time := None; GxCCR_access_availability_change_reason := None;
  GxCCR_routing_rule_install := None; GxCCR_routing_rule_remove := None;
  GxCCR_henb_local_ip_address := None; GxCCR_ue_local_ip_address := None;
  GxCCR_udp_source_port := None; GxCCR_tcp_source_port := None;
  GxCCR_presence_reporting_area_information := None; GxCCR_logical_access_id := None;
  GxCCR_physical_access_id := None; GxCCR_proxy_info := None; GxCCR_route_record := None;
  GxCCR_tgpp_ps_data_off_status := None |}.

Definition GxCCR_members : list member :=
  [OCTETSTRING davp_session_id GX_SESSION_ID_LEN;
   NUMBER davp_drmp int32_t;
   NUMBER davp_auth_application_id uint32_t;
   OCTETSTRING davp_origin_host GX_ORIGIN_HOST_LEN;
   OCTETSTRING davp_origin_realm GX_ORIGIN_REALM_LEN;
   OCTETSTRING davp_destination_realm GX_DESTINATION_REALM_LEN;
   OCTETSTRING davp_service_context_id GX_SERVICE_CONTEXT_ID_LEN;
   NUMBER davp_cc_request_type int32_t;
   NUMBER davp_cc_request_number uint32_t;
   NUMBER davp_credit_management_status uint32_t;
   OCTETSTRING davp_destination_host GX_DESTINATION_HOST_LEN;
   NUMBER davp_origin_state_id uint32_t;
   LIST_PARSE_DIRECT davp_subscription_id parseGxSubscriptionId zero_GxSubscriptionId;
   PARSE_DIRECT davp_oc_supported_features parseGxOcSupportedFeatures zero_GxOcSupportedFeatures;
   LIST_PARSE_DIRECT davp_supported_features parseGxSupportedFeatures zero_GxSupportedFeatures;
   PARSE_DIRECT davp_tdf_information parseGxTdfInformation zero_GxTdfInformation;
   NUMBER davp_network_request_support int32_t;
   LIST_PARSE_DIRECT davp_packet_filter_information parseGxPacketFilterInformation zero_GxPacketFilterInformation;
   NUMBER davp_packet_filter_operation int32_t;
   OCTETSTRING davp_bearer_identifier GX_BEARER_IDENTIFIER_LEN;
   NUMBER davp_bearer_operation int32_t;
   NUMBER davp_dynamic_address_flag int32_t;
   NUMBER davp_dynamic_address_flag_extension int32_t;
   NUMBER davp_pdn_connection_charging_id uint32_t;
   OCTETSTRING davp_framed_ip_address GX_FRAMED_IP_ADDRESS_LEN;
   OCTETSTRING davp_framed_ipv6_prefix GX_FRAMED_IPV6_PREFIX_LEN;
   NUMBER davp_ip_can_type int32_t;
   OCTETSTRING davp_3gpp_rat_type GX_3GPP_RAT_TYPE_LEN;
   NUMBER davp_an_trusted int32_t;
   NUMBER davp_rat_type int32_t;
   NUMBER davp_termination_cause int32_t;
   PARSE_DIRECT davp_user_equipment_info parseGxUserEquipmentInfo zero_GxUserEquipmentInfo;
   PARSE_DIRECT davp_qos_information parseGxQosInformation zero_GxQosInformation;
   NUMBER davp_qos_negotiation int32_t;
   NUMBER davp_qos_upgrade int32_t;
   PARSE_DIRECT davp_default_eps_bearer_qos parseGxDefaultEpsBearerQos zero_GxDefaultEpsBearerQos;
   PARSE_DIRECT davp_default_qos_information parseGxDefaultQosInformation zero_GxDefaultQosInformation;
   LIST_ADDRESS davp_an_gw_address;
   NUMBER davp_an_gw_status int32_t;
   OCTETSTRING davp_3gpp_sgsn_mcc_mnc GX_3GPP_SGSN_MCC_MNC_LEN;
   OCTETSTRING davp_3gpp_sgsn_address GX_3GPP_SGSN_ADDRESS_LEN;
   OCTETSTRING davp_3gpp_sgsn_ipv6_address GX_3GPP_SGSN_IPV6_ADDRESS_LEN;
   OCTETSTRING davp_3gpp_ggsn_address GX_3GPP_GGSN_ADDRESS_LEN;
   OCTETSTRING davp_3gpp_ggsn_ipv6_address GX_3GPP_GGSN_IPV6_ADDRESS_LEN;
   OCTETSTRING davp_3gpp_selection_mode GX_3GPP_SELECTION_MODE_LEN;
   OCTETSTRING davp_rai GX_RAI_LEN;
   OCTETSTRING davp_3gpp_user_location_info GX_3GPP_USER_LOCATION_INFO_LEN;
   PARSE_DIRECT davp_fixed_user_location_info parseGxFixedUserLocationInfo zero_GxFixedUserLocationInfo;
   TIME davp_user_location_info_time;
   PARSE_DIRECT davp_user_csg_information parseGxUserCsgInformation zero_GxUserCsgInformation;
   OCTETSTRING davp_twan_identifier GX_TWAN_IDENTIFIER_LEN;
   OCTETSTRING davp_3gpp_ms_timezone GX_3GPP_MS_TIMEZONE_LEN;
   LIST_OCTETSTRING davp_ran_nas_release_cause GX_RAN_NAS_RELEASE_CAUSE_LEN;
   OCTETSTRING davp_3gpp_charging_characteristics GX_3GPP_CHARGING_CHARACTERISTICS_LEN;
   OCTETSTRING davp_called_station_id GX_CALLED_STATION_ID_LEN;
   OCTETSTRING davp_pdn_connection_id GX_PDN_CONNECTION_ID_LEN;
   NUMBER davp_bearer_usage int32_t;
   NUMBER davp_online int32_t;
   NUMBER davp_offline int32_t;
   LIST_PARSE_DIRECT davp_tft_packet_filter_information parseGxTftPacketFilterInformation zero_GxTftPacketFilterInformation;
   LIST_PARSE_DIRECT davp_charging_rule_report parseGxChargingRuleReport zero_GxChargingRuleReport;
   LIST_PARSE_DIRECT davp_application_detection_information parseGxApplicationDetectionInformation zero_GxApplicationDetectionInformation;
   LIST_NUMBER davp_event_trigger int32_t;
   PARSE_DIRECT davp_event_report_indication parseGxEventReportIndication zero_GxEventReportIndication;
   ADDRESS davp_access_network_charging_address;
   LIST_PARSE_DIRECT davp_access_network_charging_identifier_gx parseGxAccessNetworkChargingIdentifierGx zero_GxAccessNetworkChargingIdentifierGx;
   LIST_PARSE_DIRECT davp_coa_information parseGxCoaInformation zero_GxCoaInformation;
   LIST_PARSE_DIRECT davp_usage_monitoring_information parseGxUsageMonitoringInformation zero_GxUsageMonitoringInformation;
   NUMBER davp_nbifom_support int32_t;
   NUMBER davp_nbifom_mode int32_t;
   NUMBER davp_default_access int32_t;
   NUMBER davp_origination_time_stamp uint64_t;
   NUMBER davp_maximum_wait_time uint32_t;
   NUMBER davp_access_availability_change_reason uint32_t;
   PARSE_DIRECT davp_routing_rule_install parseGxRoutingRuleInstall zero_GxRoutingRuleInstall;
   PARSE_DIRECT davp_routing_rule_remove parseGxRoutingRuleRemove zero_GxRoutingRuleRemove;
   ADDRESS davp_henb_local_ip_address;
   ADDRESS davp_ue_local_ip_address;
   NUMBER davp_udp_source_port uint32_t;
   NUMBER davp_tcp_source_port uint32_t;
   LIST_PARSE_DIRECT davp_presence_reporting_area_information parseGxPresenceReportingAreaInformation zero_GxPresenceReportingAreaInformation;
   OCTETSTRING davp_logical_access_id GX_LOGICAL_ACCESS_ID_LEN;
   OCTETSTRING davp_physical_access_id GX_PHYSICAL_ACCESS_ID_LEN;
   LIST_PARSE_DIRECT davp_proxy_info parseGxProxyInfo zero_GxProxyInfo;
   LIST_OCTETSTRING davp_route_record GX_ROUTE_RECORD_LEN;
   NUMBER davp_3gpp_ps_data_off_status int32_t].

Definition GxCCR_data (d : GxCCR) : data GxCCR_members :=
  (d.(GxCCR_session_id), (d.(GxCCR_drmp), (d.(GxCCR_auth_application_id),
   (d.(GxCCR_origin_host), (d.(GxCCR_origin_realm), (d.(GxCCR_destination_realm),
   (d.(GxCCR_service_context_id), (d.(GxCCR_cc_request_type), (d.(GxCCR_cc_request_number),
   (d.(GxCCR_credit_management_status), (d.(GxCCR_destination_host), (d.(GxCCR_origin_state_id),
   (d.(GxCCR_subscription_id), (d.(GxCCR_oc_supported_features), (d.(GxCCR_supported_features),
   (d.(GxCCR_tdf_information), (d.(GxCCR_network_request_support),
   (d.(GxCCR_packet_filter_information), (d.(GxCCR_packet_filter_operation),
   (d.(GxCCR_bearer_identifier), (d.(GxCCR_bearer_operation), (d.(GxCCR_dynamic_address_flag),
   (d.(GxCCR_dynamic_address_flag_extension), (d.(GxCCR_pdn_connection_charging_id),
   (d.(GxCCR_framed_ip_address), (d.(GxCCR_framed_ipv6_prefix), (d.(GxCCR_ip_can_type),
   (d.(GxCCR_tgpp_rat_type), (d.(GxCCR_an_trusted), (d.(GxCCR_rat_type),
   (d.(GxCCR_termination_cause), (d.(GxCCR_user_equipment_info), (d.(GxCCR_qos_information),
   (d.(GxCCR_qos_negotiation), (d.(GxCCR_qos_upgrade), (d.(GxCCR_default_eps_bearer_qos),
   (d.(GxCCR_default_qos_information), (d.(GxCCR_an_gw_address), (d.(GxCCR_an_gw_status),
   (d.(GxCCR_tgpp_sgsn_mcc_mnc), (d.(GxCCR_tgpp_sgsn_address),
   (d.(GxCCR_tgpp_sgsn_ipv6_address), (d.(GxCCR_tgpp_ggsn_address),
   (d.(GxCCR_tgpp_ggsn_ipv6_address), (d.(GxCCR_tgpp_selection_mode), (d.(GxCCR_rai),
   (d.(GxCCR_tgpp_user_location_info), (d.(GxCCR_fixed_user_location_info),
   (d.(GxCCR_user_location_info_time), (d.(GxCCR_user_csg_information),
   (d.(GxCCR_twan_identifier), (d.(GxCCR_tgpp_ms_timezone), (d.(GxCCR_ran_nas_release_cause),
   (d.(GxCCR_tgpp_charging_characteristics), (d.(GxCCR_called_station_id),
   (d.(GxCCR_pdn_connection_id), (d.(GxCCR_bearer_usage), (d.(GxCCR_online), (d.(GxCCR_offline),
   (d.(GxCCR_tft_packet_filter_information), (d.(GxCCR_charging_rule_report),
   (d.(GxCCR_application_detection_information), (d.(GxCCR_event_trigger),
   (d.(GxCCR_event_report_indication), (d.(GxCCR_access_network_charging_address),
   (d.(GxCCR_access_network_charging_identifier_gx), (d.(GxCCR_coa_information),
   (d.(GxCCR_usage_monitoring_information), (d.(GxCCR_nbifom_support), (d.(GxCCR_nbifom_mode),
   (d.(GxCCR_default_access), (d.(GxCCR_origination_time_stamp), (d.(GxCCR_maximum_wait_time),
   (d.(GxCCR_access_availability_change_reason), (d.(GxCCR_routing_rule_install),
   (d.(GxCCR_routing_rule_remove), (d.(GxCCR_henb_local_ip_address),
   (d.(GxCCR_ue_local_ip_address), (d.(GxCCR_udp_source_port), (d.(GxCCR_tcp_source_port),
   (d.(GxCCR_presence_reporting_area_information), (d.(GxCCR_logical_access_id),
   (d.(GxCCR_physical_access_id), (d.(GxCCR_proxy_info), (d.(GxCCR_route_record),
   (d.(GxCCR_tgpp_ps_data_off_status),
   tt)))))))))))))))))))))))))))))))))))))))))))))))))))))))))))))))))))))))))))))))))))))).

Definition GxCCR_of (t : data GxCCR_members) : GxCCR :=
  let '(session_id, (drmp, (auth_application_id, (origin_host, (origin_realm, (destination_realm,
    (service_context_id, (cc_request_type, (cc_request_number, (credit_management_status,
    (destination_host, (origin_state_id, (subscription_id, (oc_supported_features,
    (supported_features, (tdf_information, (network_request_support, (packet_filter_information,
    (packet_filter_operation, (bearer_identifier, (bearer_operation, (dynamic_address_flag,
    (dynamic_address_flag_extension, (pdn_connection_charging_id, (framed_ip_address,
    (framed_ipv6_prefix, (ip_can_type, (tgpp_rat_type, (an_trusted, (rat_type,
    (termination_cause, (user_equipment_info, (qos_information, (qos_negotiation, (qos_upgrade,
    (default_eps_bearer_qos, (default_qos_information, (an_gw_address, (an_gw_status,
    (tgpp_sgsn_mcc_mnc, (tgpp_sgsn_address, (tgpp_sgsn_ipv6_address, (tgpp_ggsn_address,
    (tgpp_ggsn_ipv6_address, (tgpp_selection_mode, (rai, (tgpp_user_location_info,
    (fixed_user_location_info, (user_location_info_time, (user_csg_information,
    (twan_identifier, (tgpp_ms_timezone, (ran_nas_release_cause, (tgpp_charging_characteristics,
    (called_station_id, (pdn_connection_id, (bearer_usage, (online, (offline,
    (tft_packet_filter_information, (charging_rule_report, (application_detection_information,
    (event_trigger, (event_report_indication, (access_network_charging_address,
    (access_network_charging_identifier_gx, (coa_information, (usage_monitoring_information,
    (nbifom_support, (nbifom_mode, (default_access, (origination_time_stamp, (maximum_wait_time,
    (access_availability_change_reason, (routing_rule_install, (routing_rule_remove,
    (henb_local_ip_address, (ue_local_ip_address, (udp_source_port, (tcp_source_port,
    (presence_reporting_area_information, (logical_access_id, (physical_access_id, (proxy_info,
    (route_record, (tgpp_ps_data_off_status,
    tt)))))))))))))))))))))))))))))))))))))))))))))))))))))))))))))))))))))))))))))))))))))) := t in
  mkGxCCR session_id drmp auth_application_id origin_host origin_realm destination_realm
    service_context_id cc_request_type cc_request_number credit_management_status
    destination_host origin_state_id subscription_id oc_supported_features supported_features
    tdf_information network_request_support packet_filter_information packet_filter_operation
    bearer_identifier bearer_operation dynamic_address_flag dynamic_address_flag_extension
    pdn_connection_charging_id framed_ip_address framed_ipv6_prefix ip_can_type tgpp_rat_type
    an_trusted rat_type termination_cause user_equipment_info qos_information qos_negotiation
    qos_upgrade default_eps_bearer_qos default_qos_information an_gw_address an_gw_status
    tgpp_sgsn_mcc_mnc tgpp_sgsn_address tgpp_sgsn_ipv6_address tgpp_ggsn_address
    tgpp_ggsn_ipv6_address tgpp_selection_mode rai tgpp_user_location_info
    fixed_user_location_info user_location_info_time user_csg_information twan_identifier
    tgpp_ms_timezone ran_nas_release_cause tgpp_charging_characteristics called_station_id
    pdn_connection_id bearer_usage online offline tft_packet_filter_information
    charging_rule_report application_detection_information event_trigger event_report_indication
    access_network_charging_address access_network_charging_identifier_gx coa_information
    usage_monitoring_information nbifom_support nbifom_mode default_access
    origination_time_stamp maximum_wait_time access_availability_change_reason
    routing_rule_install routing_rule_remove henb_local_ip_address ue_local_ip_address
    udp_source_port tcp_source_port presence_reporting_area_information logical_access_id
    physical_access_id proxy_info route_record tgpp_ps_data_off_status.

Definition gx_ccr_parse (msg : list avp) : res GxCCR :=
  let? t := parse_group GxCCR_members msg (GxCCR_data zero_GxCCR) in Ok (GxCCR_of t).

Definition zero_GxLoad : GxLoad :=
  mkGxLoad None None None.

Definition GxLoad_members : list member :=
  [NUMBER davp_load_type int32_t;
   NUMBER davp_load_value uint64_t;
   OCTETSTRING davp_sourceid GX_SOURCEID_LEN].

Definition GxLoad_data (d : GxLoad) : data GxLoad_members :=
  (d.(GxLoad_load_type), (d.(GxLoad_load_value), (d.(GxLoad_sourceid), tt))).

Definition GxLoad_of (t : data GxLoad_members) : GxLoad :=
  let '(load_type, (load_value, (sourceid, tt))) := t in
  mkGxLoad load_type load_value sourceid.

Definition parseGxLoad (avp : avp) (data : GxLoad) : res GxLoad :=
  let? t := parse_group GxLoad_members (avp_children avp) (GxLoad_data data) in Ok (GxLoad_of t).

Definition zero_GxFailedAvp : GxFailedAvp :=
  mkGxFailedAvp .

Definition GxFailedAvp_members : list member :=
  [].

Definition GxFailedAvp_data (d : GxFailedAvp) : data GxFailedAvp_members :=
  tt.

Definition GxFailedAvp_of (t : data GxFailedAvp_members) : GxFailedAvp :=
  let 'tt := t in
  mkGxFailedAvp .

Definition parseGxFailedAvp (avp : avp) (data : GxFailedAvp) : res GxFailedAvp :=
  let? t := parse_group GxFailedAvp_members (avp_children avp) (GxFailedAvp_data data) in Ok (GxFailedAvp_of t).

Definition zero_GxConditionalPolicyInformation : GxConditionalPolicyInformation :=
  mkGxConditionalPolicyInformation None None None None None None None.

Definition GxConditionalPolicyInformation_members : list member :=
  [TIME davp_execution_time;
   PARSE_DIRECT davp_default_eps_bearer_qos parseGxDefaultEpsBearerQos zero_GxDefaultEpsBearerQos;
   NUMBER davp_apn_aggregate_max_bitrate_ul uint32_t;
   NUMBER davp_apn_aggregate_max_bitrate_dl uint32_t;
   NUMBER davp_extended_apn_ambr_ul uint32_t;
   NUMBER davp_extended_apn_ambr_dl uint32_t;
   LIST_PARSE_DIRECT davp_conditional_apn_aggregate_max_bitrate parseGxConditionalApnAggregateMaxBitrate zero_GxConditionalApnAggregateMaxBitrate].

Definition GxConditionalPolicyInformation_data (d : GxConditionalPolicyInformation) : data GxConditionalPolicyInformation_members :=
  (d.(GxConditionalPolicyInformation_execution_time),
   (d.(GxConditionalPolicyInformation_default_eps_bearer_qos),
   (d.(GxConditionalPolicyInformation_apn_aggregate_max_bitrate_ul),
   (d.(GxConditionalPolicyInformation_apn_aggregate_max_bitrate_dl),
   (d.(GxConditionalPolicyInformation_extended_apn_ambr_ul),
   (d.(GxConditionalPolicyInformation_extended_apn_ambr_dl),
   (d.(GxConditionalPolicyInformation_conditional_apn_aggregate_max_bitrate), tt))))))).

Definition GxConditionalPolicyInformation_of (t : data GxConditionalPolicyInformation_members) : GxConditionalPolicyInformation :=
  let '(execution_time, (default_eps_bearer_qos, (apn_aggregate_max_bitrate_ul,
    (apn_aggregate_max_bitrate_dl, (extended_apn_ambr_ul, (extended_apn_ambr_dl,
    (conditional_apn_aggregate_max_bitrate, tt))))))) := t in
  mkGxConditionalPolicyInformation execution_time default_eps_bearer_qos apn_aggregate_max_bitrate_ul
    apn_aggregate_max_bitrate_dl extended_apn_ambr_ul extended_apn_ambr_dl
    conditional_apn_aggregate_max_bitrate.

Definition parseGxConditionalPolicyInformation (avp : avp) (data : GxConditionalPolicyInformation) : res GxConditionalPolicyInformation :=
  let? t := parse_group GxConditionalPolicyInformation_members (avp_children avp) (GxConditionalPolicyInformation_data data) in Ok (GxConditionalPolicyInformation_of t).

Definition zero_GxRoutingRuleReport : GxRoutingRuleReport :=
  mkGxRoutingRuleReport None None None.

Definition GxRoutingRuleReport_members : list member :=
  [LIST_OCTETSTRING davp_routing_rule_identifier GX_ROUTING_RULE_IDENTIFIER_LEN;
   NUMBER davp_pcc_rule_status int32_t;
   NUMBER davp_routing_rule_failure_code uint32_t].

Definition GxRoutingRuleReport_data (d : GxRoutingRuleReport) : data GxRoutingRuleReport_members :=
  (d.(GxRoutingRuleReport_routing_rule_identifier), (d.(GxRoutingRuleReport_pcc_rule_status),
   (d.(GxRoutingRuleReport_routing_rule_failure_code), tt))).

Definition GxRoutingRuleReport_of (t : data GxRoutingRuleReport_members) : GxRoutingRuleReport :=
  let '(routing_rule_identifier, (pcc_rule_status, (routing_rule_failure_code, tt))) := t in
  mkGxRoutingRuleReport routing_rule_identifier pcc_rule_status routing_rule_failure_code.

Definition parseGxRoutingRuleReport (avp : avp) (data : GxRoutingRuleReport) : res GxRoutingRuleReport :=
  let? t := parse_group GxRoutingRuleReport_members (avp_children avp) (GxRoutingRuleReport_data data) in Ok (GxRoutingRuleReport_of t).

Definition zero_GxPraRemove : GxPraRemove :=
  mkGxPraRemove None.

Definition GxPraRemove_members : list member :=
  [LIST_OCTETSTRING davp_presence_reporting_area_identifier GX_PRESENCE_REPORTING_AREA_IDENTIFIER_LEN].

Definition GxPraRemove_data (d : GxPraRemove) : data GxPraRemove_members :=
  (d.(GxPraRemove_presence_reporting_area_identifier), tt).

Definition GxPraRemove_of (t : data GxPraRemove_members) : GxPraRemove :=
  let '(presence_reporting_area_identifier, tt) := t in
  mkGxPraRemove presence_reporting_area_identifier.

Definition parseGxPraRemove (avp : avp) (data : GxPraRemove) : res GxPraRemove :=
  let? t := parse_group GxPraRemove_members (avp_children avp) (GxPraRemove_data data) in Ok (GxPraRemove_of t).

Definition zero_GxPraInstall : GxPraInstall :=
  mkGxPraInstall None.

Definition GxPraInstall_members : list member :=
  [LIST_PARSE_DIRECT davp_presence_reporting_area_information parseGxPresenceReportingAreaInformation zero_GxPresenceReportingAreaInformation].

Definition GxPraInstall_data (d : GxPraInstall) : data GxPraInstall_members :=
  (d.(GxPraInstall_presence_reporting_area_information), tt).

Definition GxPraInstall_of (t : data GxPraInstall_members) : GxPraInstall :=
  let '(presence_reporting_area_information, tt) := t in
  mkGxPraInstall presence_reporting_area_information.

Definition parseGxPraInstall (avp : avp) (data : GxPraInstall) : res GxPraInstall :=
  let? t := parse_group GxPraInstall_members (avp_children avp) (GxPraInstall_data data) in Ok (GxPraInstall_of t).

Definition zero_GxChargingInformation : GxChargingInformation :=
  mkGxChargingInformation None None None None.

Definition GxChargingInformation_members : list member :=
  [OCTETSTRING davp_primary_event_charging_function_name GX_PRIMARY_EVENT_CHARGING_FUNCTION_NAME_LEN;
   OCTETSTRING davp_secondary_event_charging_function_name GX_SECONDARY_EVENT_CHARGING_FUNCTION_NAME_LEN;
   OCTETSTRING davp_primary_charging_collection_function_name GX_PRIMARY_CHARGING_COLLECTION_FUNCTION_NAME_LEN;
   OCTETSTRING davp_secondary_charging_collection_function_name GX_SECONDARY_CHARGING_COLLECTION_FUNCTION_NAME_LEN].

Definition GxChargingInformation_data (d : GxChargingInformation) : data GxChargingInformation_members :=
  (d.(GxChargingInformation_primary_event_charging_function_name),
   (d.(GxChargingInformation_secondary_event_charging_function_name),
   (d.(GxChargingInformation_primary_charging_collection_function_name),
   (d.(GxChargingInformation_secondary_charging_collection_function_name), tt)))).

Definition GxChargingInformation_of (t : data GxChargingInformation_members) : GxChargingInformation :=
  let '(primary_event_charging_function_name, (secondary_event_charging_function_name,
    (primary_charging_collection_function_name, (secondary_charging_collection_function_name,
    tt)))) := t in
  mkGxChargingInformation primary_event_charging_function_name secondary_event_charging_function_name
    primary_charging_collection_function_name secondary_charging_collection_function_name.

Definition parseGxChargingInformation (avp : avp) (data : GxChargingInformation) : res GxChargingInformation :=
  let? t := parse_group GxChargingInformation_members (avp_children avp) (GxChargingInformation_data data) in Ok (GxChargingInformation_of t).

Definition zero_GxRedirectInformation : GxRedirectInformation :=
  mkGxRedirectInformation None None None.

Definition GxRedirectInformation_members : list member :=
  [NUMBER davp_redirect_support int32_t;
   NUMBER davp_redirect_address_type int32_t;
   OCTETSTRING davp_redirect_server_address GX_REDIRECT_SERVER_ADDRESS_LEN].

Definition GxRedirectInformation_data (d : GxRedirectInformation) : data GxRedirectInformation_members :=
  (d.(GxRedirectInformation_redirect_support),
   (d.(GxRedirectInformation_redirect_address_type),
   (d.(GxRedirectInformation_redirect_server_address), tt))).

Definition GxRedirectInformation_of (t : data GxRedirectInformation_members) : GxRedirectInformation :=
  let '(redirect_support, (redirect_address_type, (redirect_server_address, tt))) := t in
  mkGxRedirectInformation redirect_support redirect_address_type redirect_server_address.

Definition parseGxRedirectInformation (avp : avp) (data : GxRedirectInformation) : res GxRedirectInformation :=
  let? t := parse_group GxRedirectInformation_members (avp_children avp) (GxRedirectInformation_data data) in Ok (GxRedirectInformation_of t).

Definition zero_GxFlows : GxFlows :=
  mkGxFlows None None None None None.

Definition GxFlows_members : list member :=
  [NUMBER davp_media_component_number uint32_t;
   LIST_NUMBER davp_flow_number uint32_t;
   LIST_NUMBER davp_content_version uint64_t;
   NUMBER davp_final_unit_action int32_t;
   NUMBER davp_media_component_status uint32_t].

Definition GxFlows_data (d : GxFlows) : data GxFlows_members :=
  (d.(GxFlows_media_component_number), (d.(GxFlows_flow_number), (d.(GxFlows_content_version),
   (d.(GxFlows_final_unit_action), (d.(GxFlows_media_component_status), tt))))).

Definition GxFlows_of (t : data GxFlows_members) : GxFlows :=
  let '(media_component_number, (flow_number, (content_version, (final_unit_action,
    (media_component_status, tt))))) := t in
  mkGxFlows media_component_number flow_number content_version final_unit_action media_component_status.

Definition parseGxFlows (avp : avp) (data : GxFlows) : res GxFlows :=
  let? t := parse_group GxFlows_members (avp_children avp) (GxFlows_data data) in Ok (GxFlows_of t).

Definition zero_GxChargingRuleDefinition : GxChargingRuleDefinition := {|
  GxChargingRuleDefinition_charging_rule_name := None;
  GxChargingRuleDefinition_service_identifier := None;
  GxChargingRuleDefinition_rating_group := None; GxChargingRuleDefinition_flow_information := None;
  GxChargingRuleDefinition_default_bearer_indication := None;
  GxChargingRuleDefinition_tdf_application_identifier := None;
  GxChargingRuleDefinition_flow_status := None; GxChargingRuleDefinition_qos_information := None;
  GxChargingRuleDefinition_ps_to_cs_session_continuity := None;
  GxChargingRuleDefinition_reporting_level := None; GxChargingRuleDefinition_online := None;
  GxChargingRuleDefinition_offline := None; GxChargingRuleDefinition_max_plr_dl := None;
  GxChargingRuleDefinition_max_plr_ul := None; GxChargingRuleDefinition_metering_method := None;
  GxChargingRuleDefinition_precedence := None;
  GxChargingRuleDefinition_af_charging_identifier := None; GxChargingRuleDefinition_flows := None;
  GxChargingRuleDefinition_monitoring_key := None;
  GxChargingRuleDefinition_redirect_information := None;
  GxChargingRuleDefinition_mute_notification := None;
  GxChargingRuleDefinition_af_signalling_protocol := None;
  GxChargingRuleDefinition_sponsor_identity := None;
  GxChargingRuleDefinition_application_service_provider_identity := None;
  GxChargingRuleDefinition_required_access_info := None;
  GxChargingRuleDefinition_sharing_key_dl := None; GxChargingRuleDefinition_sharing_key_ul := None;
  GxChargingRuleDefinition_traffic_steering_policy_identifier_dl := None;
  GxChargingRuleDefinition_traffic_steering_policy_identifier_ul := None;
  GxChargingRuleDefinition_content_version := None |}.

Definition GxChargingRuleDefinition_members : list member :=
  [OCTETSTRING davp_charging_rule_name GX_CHARGING_RULE_NAME_LEN;
   NUMBER davp_service_identifier uint32_t;
   NUMBER davp_rating_group uint32_t;
   LIST_PARSE_DIRECT davp_flow_information parseGxFlowInformation zero_GxFlowInformation;
   NUMBER davp_default_bearer_indication int32_t;
   OCTETSTRING davp_tdf_application_identifier GX_TDF_APPLICATION_IDENTIFIER_LEN;
   NUMBER davp_flow_status int32_t;
   PARSE_DIRECT davp_qos_information parseGxQosInformation zero_GxQosInformation;
   NUMBER davp_ps_to_cs_session_continuity int32_t;
   NUMBER davp_reporting_level int32_t;
   NUMBER davp_online int32_t;
   NUMBER davp_offline int32_t;
   NUMBER davp_max_plr_dl float;
   NUMBER davp_max_plr_ul float;
   NUMBER davp_metering_method int32_t;
   NUMBER davp_precedence uint32_t;
   OCTETSTRING davp_af_charging_identifier GX_AF_CHARGING_IDENTIFIER_LEN;
   LIST_PARSE_DIRECT davp_flows parseGxFlows zero_GxFlows;
   OCTETSTRING davp_monitoring_key GX_MONITORING_KEY_LEN;
   PARSE_DIRECT davp_redirect_information parseGxRedirectInformation zero_GxRedirectInformation;
   NUMBER davp_mute_notification int32_t;
   NUMBER davp_af_signalling_protocol int32_t;
   OCTETSTRING davp_sponsor_identity GX_SPONSOR_IDENTITY_LEN;
   OCTETSTRING davp_application_service_provider_identity GX_APPLICATION_SERVICE_PROVIDER_IDENTITY_LEN;
   LIST_NUMBER davp_required_access_info int32_t;
   NUMBER davp_sharing_key_dl uint32_t;
   NUMBER davp_sharing_key_ul uint32_t;
   OCTETSTRING davp_traffic_steering_policy_identifier_dl GX_TRAFFIC_STEERING_POLICY_IDENTIFIER_DL_LEN;
   OCTETSTRING davp_traffic_steering_policy_identifier_ul GX_TRAFFIC_STEERING_POLICY_IDENTIFIER_UL_LEN;
   NUMBER davp_content_version uint64_t].

Definition GxChargingRuleDefinition_data (d : GxChargingRuleDefinition) : data GxChargingRuleDefinition_members :=
  (d.(GxChargingRuleDefinition_charging_rule_name),
   (d.(GxChargingRuleDefinition_service_identifier), (d.(GxChargingRuleDefinition_rating_group),
   (d.(GxChargingRuleDefinition_flow_information),
   (d.(GxChargingRuleDefinition_default_bearer_indication),
   (d.(GxChargingRuleDefinition_tdf_application_identifier),
   (d.(GxChargingRuleDefinition_flow_status), (d.(GxChargingRuleDefinition_qos_information),
   (d.(GxChargingRuleDefinition_ps_to_cs_session_continuity),
   (d.(GxChargingRuleDefinition_reporting_level), (d.(GxChargingRuleDefinition_online),
   (d.(GxChargingRuleDefinition_offline), (d.(GxChargingRuleDefinition_max_plr_dl),
   (d.(GxChargingRuleDefinition_max_plr_ul), (d.(GxChargingRuleDefinition_metering_method),
   (d.(GxChargingRuleDefinition_precedence),
   (d.(GxChargingRuleDefinition_af_charging_identifier), (d.(GxChargingRuleDefinition_flows),
   (d.(GxChargingRuleDefinition_monitoring_key),
   (d.(GxChargingRuleDefinition_redirect_information),
   (d.(GxChargingRuleDefinition_mute_notification),
   (d.(GxChargingRuleDefinition_af_signalling_protocol),
   (d.(GxChargingRuleDefinition_sponsor_identity),
   (d.(GxChargingRuleDefinition_application_service_provider_identity),
   (d.(GxChargingRuleDefinition_required_access_info),
   (d.(GxChargingRuleDefinition_sharing_key_dl), (d.(GxChargingRuleDefinition_sharing_key_ul),
   (d.(GxChargingRuleDefinition_traffic_steering_policy_identifier_dl),
   (d.(GxChargingRuleDefinition_traffic_steering_policy_identifier_ul),
   (d.(GxChargingRuleDefinition_content_version), tt)))))))))))))))))))))))))))))).

Definition GxChargingRuleDefinition_of (t : data GxChargingRuleDefinition_members) : GxChargingRuleDefinition :=
  let '(charging_rule_name, (service_identifier, (rating_group, (flow_information,
    (default_bearer_indication, (tdf_application_identifier, (flow_status, (qos_information,
    (ps_to_cs_session_continuity, (reporting_level, (online, (offline, (max_plr_dl, (max_plr_ul,
    (metering_method, (precedence, (af_charging_identifier, (flows, (monitoring_key,
    (redirect_information, (mute_notification, (af_signalling_protocol, (sponsor_identity,
    (application_service_provider_identity, (required_access_info, (sharing_key_dl,
    (sharing_key_ul, (traffic_steering_policy_identifier_dl,
    (traffic_steering_policy_identifier_ul, (content_version, tt)))))))))))))))))))))))))))))) := t in
  mkGxChargingRuleDefinition charging_rule_name service_identifier rating_group flow_information
    default_bearer_indication tdf_application_identifier flow_status qos_information
    ps_to_cs_session_continuity reporting_level online offline max_plr_dl max_plr_ul
    metering_method precedence af_charging_identifier flows monitoring_key redirect_information
    mute_notification af_signalling_protocol sponsor_identity
    application_service_provider_identity required_access_info sharing_key_dl sharing_key_ul
    traffic_steering_policy_identifier_dl traffic_steering_policy_identifier_ul content_version.

Definition parseGxChargingRuleDefinition (avp : avp) (data : GxChargingRuleDefinition) : res GxChargingRuleDefinition :=
  let? t := parse_group GxChargingRuleDefinition_members (avp_children avp) (GxChargingRuleDefinition_data data) in Ok (GxChargingRuleDefinition_of t).

Definition zero_GxChargingRuleInstall : GxChargingRuleInstall := {|
  GxChargingRuleInstall_charging_rule_definition := None;
  GxChargingRuleInstall_charging_rule_name := None;
  GxChargingRuleInstall_charging_rule_base_name := None;
  GxChargingRuleInstall_bearer_identifier := None; GxChargingRuleInstall_monitoring_flags := None;
  GxChargingRuleInstall_rule_activation_time := None;
  GxChargingRuleInstall_rule_deactivation_time := None;
  GxChargingRuleInstall_resource_allocation_notification := None;
  GxChargingRuleInstall_charging_correlation_indicator := None;
  GxChargingRuleInstall_ip_can_type := None |}.

Definition GxChargingRuleInstall_members : list member :=
  [LIST_PARSE_DIRECT davp_charging_rule_definition parseGxChargingRuleDefinition zero_GxChargingRuleDefinition;
   LIST_OCTETSTRING davp_charging_rule_name GX_CHARGING_RULE_NAME_LEN;
   LIST_OCTETSTRING davp_charging_rule_base_name GX_CHARGING_RULE_BASE_NAME_LEN;
   OCTETSTRING davp_bearer_identifier GX_BEARER_IDENTIFIER_LEN;
   NUMBER davp_monitoring_flags uint32_t;
   TIME davp_rule_activation_time;
   TIME davp_rule_deactivation_time;
   NUMBER davp_resource_allocation_notification int32_t;
   NUMBER davp_charging_correlation_indicator int32_t;
   NUMBER davp_ip_can_type int32_t].

Definition GxChargingRuleInstall_data (d : GxChargingRuleInstall) : data GxChargingRuleInstall_members :=
  (d.(GxChargingRuleInstall_charging_rule_definition),
   (d.(GxChargingRuleInstall_charging_rule_name),
   (d.(GxChargingRuleInstall_charging_rule_base_name),
   (d.(GxChargingRuleInstall_bearer_identifier), (d.(GxChargingRuleInstall_monitoring_flags),
   (d.(GxChargingRuleInstall_rule_activation_time),
   (d.(GxChargingRuleInstall_rule_deactivation_time),
   (d.(GxChargingRuleInstall_resource_allocation_notification),
   (d.(GxChargingRuleInstall_charging_correlation_indicator),
   (d.(GxChargingRuleInstall_ip_can_type), tt)))))))))).

Definition GxChargingRuleInstall_of (t : data GxChargingRuleInstall_members) : GxChargingRuleInstall :=
  let '(charging_rule_definition, (charging_rule_name, (charging_rule_base_name,
    (bearer_identifier, (monitoring_flags, (rule_activation_time, (rule_deactivation_time,
    (resource_allocation_notification, (charging_correlation_indicator, (ip_can_type,
    tt)))))))))) := t in
  mkGxChargingRuleInstall charging_rule_definition charging_rule_name charging_rule_base_name bearer_identifier
    monitoring_flags rule_activation_time rule_deactivation_time
    resource_allocation_notification charging_correlation_indicator ip_can_type.

Definition parseGxChargingRuleInstall (avp : avp) (data : GxChargingRuleInstall) : res GxChargingRuleInstall :=
  let? t := parse_group GxChargingRuleInstall_members (avp_children avp) (GxChargingRuleInstall_data data) in Ok (GxChargingRuleInstall_of t).

Definition zero_GxChargingRuleRemove : GxChargingRuleRemove :=
  mkGxChargingRuleRemove None None None None.

Definition GxChargingRuleRemove_members : list member :=
  [LIST_OCTETSTRING davp_charging_rule_name GX_CHARGING_RULE_NAME_LEN;
   LIST_OCTETSTRING davp_charging_rule_base_name GX_CHARGING_RULE_BASE_NAME_LEN;
   LIST_NUMBER davp_required_access_info int32_t;
   NUMBER davp_resource_release_notification int32_t].

Definition GxChargingRuleRemove_data (d : GxChargingRuleRemove) : data GxChargingRuleRemove_members :=
  (d.(GxChargingRuleRemove_charging_rule_name),
   (d.(GxChargingRuleRemove_charging_rule_base_name),
   (d.(GxChargingRuleRemove_required_access_info),
   (d.(GxChargingRuleRemove_resource_release_notification), tt)))).

Definition GxChargingRuleRemove_of (t : data GxChargingRuleRemove_members) : GxChargingRuleRemove :=
  let '(charging_rule_name, (charging_rule_base_name, (required_access_info,
    (resource_release_notification, tt)))) := t in
  mkGxChargingRuleRemove charging_rule_name charging_rule_base_name required_access_info
    resource_release_notification.

Definition parseGxChargingRuleRemove (avp : avp) (data : GxChargingRuleRemove) : res GxChargingRuleRemove :=
  let? t := parse_group GxChargingRuleRemove_members (avp_children avp) (GxChargingRuleRemove_data data) in Ok (GxChargingRuleRemove_of t).

Definition zero_GxOcOlr : GxOcOlr :=
  mkGxOcOlr None None None None.

Definition GxOcOlr_members : list member :=
  [NUMBER davp_oc_sequence_number uint64_t;
   NUMBER davp_oc_report_type int32_t;
   NUMBER davp_oc_reduction_percentage uint32_t;
   NUMBER davp_oc_validity_duration uint32_t].

Definition GxOcOlr_data (d : GxOcOlr) : data GxOcOlr_members :=
  (d.(GxOcOlr_oc_sequence_number), (d.(GxOcOlr_oc_report_type),
   (d.(GxOcOlr_oc_reduction_percentage), (d.(GxOcOlr_oc_validity_duration), tt)))).

Definition GxOcOlr_of (t : data GxOcOlr_members) : GxOcOlr :=
  let '(oc_sequence_number, (oc_report_type, (oc_reduction_percentage, (oc_validity_duration,
    tt)))) := t in
  mkGxOcOlr oc_sequence_number oc_report_type oc_reduction_percentage oc_validity_duration.

Definition parseGxOcOlr (avp : avp) (data : GxOcOlr) : res GxOcOlr :=
  let? t := parse_group GxOcOlr_members (avp_children avp) (GxOcOlr_data data) in Ok (GxOcOlr_of t).

Definition zero_GxExperimentalResult : GxExperimentalResult :=
  mkGxExperimentalResult None None.

Definition GxExperimentalResult_members : list member :=
  [NUMBER davp_vendor_id uint32_t;
   NUMBER davp_experimental_result_code uint32_t].

Definition GxExperimentalResult_data (d : GxExperimentalResult) : data GxExperimentalResult_members :=
  (d.(GxExperimentalResult_vendor_id), (d.(GxExperimentalResult_experimental_result_code), tt)).

Definition GxExperimentalResult_of (t : data GxExperimentalResult_members) : GxExperimentalResult :=
  let '(vendor_id, (experimental_result_code, tt)) := t in
  mkGxExperimentalResult vendor_id experimental_result_code.

Definition parseGxExperimentalResult (avp : avp) (data : GxExperimentalResult) : res GxExperimentalResult :=
  let? t := parse_group GxExperimentalResult_members (avp_children avp) (GxExperimentalResult_data data) in Ok (GxExperimentalResult_of t).

Definition zero_GxCCA : GxCCA := {|
  GxCCA_session_id := None; GxCCA_drmp := None; GxCCA_auth_application_id := None;
  GxCCA_origin_host := None; GxCCA_origin_realm := None; GxCCA_result_code := None;
  GxCCA_experimental_result := None; GxCCA_cc_request_type := None; GxCCA_cc_request_number := None;
  GxCCA_oc_supported_features := None; GxCCA_oc_olr := None; GxCCA_supported_features := None;
  GxCCA_bearer_control_mode := None; GxCCA_event_trigger := None;
  GxCCA_event_report_indication := None; GxCCA_origin_state_id := None; GxCCA_redirect_host := None;
  GxCCA_redirect_host_usage := None; GxCCA_redirect_max_cache_time := None;
  GxCCA_charging_rule_remove := None; GxCCA_charging_rule_install := None;
  GxCCA_charging_information := None; GxCCA_online := None; GxCCA_offline := None;
  GxCCA_qos_information := None; GxCCA_revalidation_time := None;
  GxCCA_default_eps_bearer_qos := None; GxCCA_default_qos_information := None;
  GxCCA_bearer_usage := None; GxCCA_usage_monitoring_information := None;
  GxCCA_csg_information_reporting := None; GxCCA_user_csg_information := None;
  GxCCA_pra_install := None; GxCCA_pra_remove := None;
  GxCCA_presence_reporting_area_information := None; GxCCA_session_release_cause := None;
  GxCCA_nbifom_support := None; GxCCA_nbifom_mode := None; GxCCA_default_access := None;
  GxCCA_ran_rule_support := None; GxCCA_routing_rule_report := None;
  GxCCA_conditional_policy_information := None; GxCCA_removal_of_access := None;
  GxCCA_ip_can_type := None; GxCCA_error_message := None; GxCCA_error_reporting_host := None;
  GxCCA_failed_avp := None; GxCCA_proxy_info := None; GxCCA_route_record := None; GxCCA_load := None |}.

Definition GxCCA_members : list member :=
  [OCTETSTRING davp_session_id GX_SESSION_ID_LEN;
   NUMBER davp_drmp int32_t;
   NUMBER davp_auth_application_id uint32_t;
   OCTETSTRING davp_origin_host GX_ORIGIN_HOST_LEN;
   OCTETSTRING davp_origin_realm GX_ORIGIN_REALM_LEN;
   NUMBER davp_result_code uint32_t;
   PARSE_DIRECT davp_experimental_result parseGxExperimentalResult zero_GxExperimentalResult;
   NUMBER davp_cc_request_type int32_t;
   NUMBER davp_cc_request_number uint32_t;
   PARSE_DIRECT davp_oc_supported_features parseGxOcSupportedFeatures zero_GxOcSupportedFeatures;
   PARSE_DIRECT davp_oc_olr parseGxOcOlr zero_GxOcOlr;
   LIST_PARSE_DIRECT davp_supported_features parseGxSupportedFeatures zero_GxSupportedFeatures;
   NUMBER davp_bearer_control_mode int32_t;
   LIST_NUMBER davp_event_trigger int32_t;
   PARSE_DIRECT davp_event_report_indication parseGxEventReportIndication zero_GxEventReportIndication;
   NUMBER davp_origin_state_id uint32_t;
   LIST_OCTETSTRING davp_redirect_host GX_REDIRECT_HOST_LEN;
   NUMBER davp_redirect_host_usage int32_t;
   NUMBER davp_redirect_max_cache_time uint32_t;
   LIST_PARSE_DIRECT davp_charging_rule_remove parseGxChargingRuleRemove zero_GxChargingRuleRemove;
   LIST_PARSE_DIRECT davp_charging_rule_install parseGxChargingRuleInstall zero_GxChargingRuleInstall;
   PARSE_DIRECT davp_charging_information parseGxChargingInformation zero_GxChargingInformation;
   NUMBER davp_online int32_t;
   NUMBER davp_offline int32_t;
   LIST_PARSE_DIRECT davp_qos_information parseGxQosInformation zero_GxQosInformation;
   TIME davp_revalidation_time;
   PARSE_DIRECT davp_default_eps_bearer_qos parseGxDefaultEpsBearerQos zero_GxDefaultEpsBearerQos;
   PARSE_DIRECT davp_default_qos_information parseGxDefaultQosInformation zero_GxDefaultQosInformation;
   NUMBER davp_bearer_usage int32_t;
   LIST_PARSE_DIRECT davp_usage_monitoring_information parseGxUsageMonitoringInformation zero_GxUsageMonitoringInformation;
   LIST_NUMBER davp_csg_information_reporting int32_t;
   PARSE_DIRECT davp_user_csg_information parseGxUserCsgInformation zero_GxUserCsgInformation;
   PARSE_DIRECT davp_pra_install parseGxPraInstall zero_GxPraInstall;
   PARSE_DIRECT davp_pra_remove parseGxPraRemove zero_GxPraRemove;
   PARSE_DIRECT davp_presence_reporting_area_information parseGxPresenceReportingAreaInformation zero_GxPresenceReportingAreaInformation;
   NUMBER davp_session_release_cause int32_t;
   NUMBER davp_nbifom_support int32_t;
   NUMBER davp_nbifom_mode int32_t;
   NUMBER davp_default_access int32_t;
   NUMBER davp_ran_rule_support uint32_t;
   LIST_PARSE_DIRECT davp_routing_rule_report parseGxRoutingRuleReport zero_GxRoutingRuleReport;
   LIST_PARSE_DIRECT davp_conditional_policy_information parseGxConditionalPolicyInformation zero_GxConditionalPolicyInformation;
   NUMBER davp_removal_of_access int32_t;
   NUMBER davp_ip_can_type int32_t;
   OCTETSTRING davp_error_message GX_ERROR_MESSAGE_LEN;
   OCTETSTRING davp_error_reporting_host GX_ERROR_REPORTING_HOST_LEN;
   PARSE_DIRECT davp_failed_avp parseGxFailedAvp zero_GxFailedAvp;
   LIST_PARSE_DIRECT davp_proxy_info parseGxProxyInfo zero_GxProxyInfo;
   LIST_OCTETSTRING davp_route_record GX_ROUTE_RECORD_LEN;
   LIST_PARSE_DIRECT davp_load parseGxLoad zero_GxLoad].

Definition GxCCA_data (d : GxCCA) : data GxCCA_members :=
  (d.(GxCCA_session_id), (d.(GxCCA_drmp), (d.(GxCCA_auth_application_id),
   (d.(GxCCA_origin_host), (d.(GxCCA_origin_realm), (d.(GxCCA_result_code),
   (d.(GxCCA_experimental_result), (d.(GxCCA_cc_request_type), (d.(GxCCA_cc_request_number),
   (d.(GxCCA_oc_supported_features), (d.(GxCCA_oc_olr), (d.(GxCCA_supported_features),
   (d.(GxCCA_bearer_control_mode), (d.(GxCCA_event_trigger), (d.(GxCCA_event_report_indication),
   (d.(GxCCA_origin_state_id), (d.(GxCCA_redirect_host), (d.(GxCCA_redirect_host_usage),
   (d.(GxCCA_redirect_max_cache_time), (d.(GxCCA_charging_rule_remove),
   (d.(GxCCA_charging_rule_install), (d.(GxCCA_charging_information), (d.(GxCCA_online),
   (d.(GxCCA_offline), (d.(GxCCA_qos_information), (d.(GxCCA_revalidation_time),
   (d.(GxCCA_default_eps_bearer_qos), (d.(GxCCA_default_qos_information),
   (d.(GxCCA_bearer_usage), (d.(GxCCA_usage_monitoring_information),
   (d.(GxCCA_csg_information_reporting), (d.(GxCCA_user_csg_information),
   (d.(GxCCA_pra_install), (d.(GxCCA_pra_remove),
   (d.(GxCCA_presence_reporting_area_information), (d.(GxCCA_session_release_cause),
   (d.(GxCCA_nbifom_support), (d.(GxCCA_nbifom_mode), (d.(GxCCA_default_access),
   (d.(GxCCA_ran_rule_support), (d.(GxCCA_routing_rule_report),
   (d.(GxCCA_conditional_policy_information), (d.(GxCCA_removal_of_access),
   (d.(GxCCA_ip_can_type), (d.(GxCCA_error_message), (d.(GxCCA_error_reporting_host),
   (d.(GxCCA_failed_avp), (d.(GxCCA_proxy_info), (d.(GxCCA_route_record), (d.(GxCCA_load),
   tt)))))))))))))))))))))))))))))))))))))))))))))))))).

Definition GxCCA_of (t : data GxCCA_members) : GxCCA :=
  let '(session_id, (drmp, (auth_application_id, (origin_host, (origin_realm, (result_code,
    (experimental_result, (cc_request_type, (cc_request_number, (oc_supported_features, (oc_olr,
    (supported_features, (bearer_control_mode, (event_trigger, (event_report_indication,
    (origin_state_id, (redirect_host, (redirect_host_usage, (redirect_max_cache_time,
    (charging_rule_remove, (charging_rule_install, (charging_information, (online, (offline,
    (qos_information, (revalidation_time, (default_eps_bearer_qos, (default_qos_information,
    (bearer_usage, (usage_monitoring_information, (csg_information_reporting,
    (user_csg_information, (pra_install, (pra_remove, (presence_reporting_area_information,
    (session_release_cause, (nbifom_support, (nbifom_mode, (default_access, (ran_rule_support,
    (routing_rule_report, (conditional_policy_information, (removal_of_access, (ip_can_type,
    (error_message, (error_reporting_host, (failed_avp, (proxy_info, (route_record, (load,
    tt)))))))))))))))))))))))))))))))))))))))))))))))))) := t in
  mkGxCCA session_id drmp auth_application_id origin_host origin_realm result_code experimental_result
    cc_request_type cc_request_number oc_supported_features oc_olr supported_features
    bearer_control_mode event_trigger event_report_indication origin_state_id redirect_host
    redirect_host_usage redirect_max_cache_time charging_rule_remove charging_rule_install
    charging_information online offline qos_information revalidation_time default_eps_bearer_qos
    default_qos_information bearer_usage usage_monitoring_information csg_information_reporting
    user_csg_information pra_install pra_remove presence_reporting_area_information
    session_release_cause nbifom_support nbifom_mode default_access ran_rule_support
    routing_rule_report conditional_policy_information removal_of_access ip_can_type
    error_message error_reporting_host failed_avp proxy_info route_record load.

Definition gx_cca_parse (msg : list avp) : res GxCCA :=
  let? t := parse_group GxCCA_members msg (GxCCA_data zero_GxCCA) in Ok (GxCCA_of t).

Definition zero_GxRAA : GxRAA := {|
  GxRAA_session_id := None; GxRAA_drmp := None; GxRAA_origin_host := None;
  GxRAA_origin_realm := None; GxRAA_result_code := None; GxRAA_experimental_result := None;
  GxRAA_origin_state_id := None; GxRAA_oc_supported_features := None; GxRAA_oc_olr := None;
  GxRAA_ip_can_type := None; GxRAA_rat_type := None; GxRAA_an_trusted := None;
  GxRAA_an_gw_address := None; GxRAA_tgpp_sgsn_mcc_mnc := None; GxRAA_tgpp_sgsn_address := None;
  GxRAA_tgpp_sgsn_ipv6_address := None; GxRAA_rai := None; GxRAA_tgpp_user_location_info := None;
  GxRAA_user_location_info_time := None; GxRAA_netloc_access_support := None;
  GxRAA_user_csg_information := None; GxRAA_tgpp_ms_timezone := None;
  GxRAA_default_qos_information := None; GxRAA_charging_rule_report := None;
  GxRAA_error_message := None; GxRAA_error_reporting_host := None; GxRAA_failed_avp := None;
  GxRAA_proxy_info := None |}.

Definition GxRAA_members : list member :=
  [OCTETSTRING davp_session_id GX_SESSION_ID_LEN;
   NUMBER davp_drmp int32_t;
   OCTETSTRING davp_origin_host GX_ORIGIN_HOST_LEN;
   OCTETSTRING davp_origin_realm GX_ORIGIN_REALM_LEN;
   NUMBER davp_result_code uint32_t;
   PARSE_DIRECT davp_experimental_result parseGxExperimentalResult zero_GxExperimentalResult;
   NUMBER davp_origin_state_id uint32_t;
   PARSE_DIRECT davp_oc_supported_features parseGxOcSupportedFeatures zero_GxOcSupportedFeatures;
   PARSE_DIRECT davp_oc_olr parseGxOcOlr zero_GxOcOlr;
   NUMBER davp_ip_can_type int32_t;
   NUMBER davp_rat_type int32_t;
   NUMBER davp_an_trusted int32_t;
   LIST_ADDRESS davp_an_gw_address;
   OCTETSTRING davp_3gpp_sgsn_mcc_mnc GX_3GPP_SGSN_MCC_MNC_LEN;
   OCTETSTRING davp_3gpp_sgsn_address GX_3GPP_SGSN_ADDRESS_LEN;
   OCTETSTRING davp_3gpp_sgsn_ipv6_address GX_3GPP_SGSN_IPV6_ADDRESS_LEN;
   OCTETSTRING davp_rai GX_RAI_LEN;
   OCTETSTRING davp_3gpp_user_location_info GX_3GPP_USER_LOCATION_INFO_LEN;
   TIME davp_user_location_info_time;
   NUMBER davp_netloc_access_support uint32_t;
   PARSE_DIRECT davp_user_csg_information parseGxUserCsgInformation zero_GxUserCsgInformation;
   OCTETSTRING davp_3gpp_ms_timezone GX_3GPP_MS_TIMEZONE_LEN;
   PARSE_DIRECT davp_default_qos_information parseGxDefaultQosInformation zero_GxDefaultQosInformation;
   LIST_PARSE_DIRECT davp_charging_rule_report parseGxChargingRuleReport zero_GxChargingRuleReport;
   OCTETSTRING davp_error_message GX_ERROR_MESSAGE_LEN;
   OCTETSTRING davp_error_reporting_host GX_ERROR_REPORTING_HOST_LEN;
   PARSE_DIRECT davp_failed_avp parseGxFailedAvp zero_GxFailedAvp;
   LIST_PARSE_DIRECT davp_proxy_info parseGxProxyInfo zero_GxProxyInfo].

Definition GxRAA_data (d : GxRAA) : data GxRAA_members :=
  (d.(GxRAA_session_id), (d.(GxRAA_drmp), (d.(GxRAA_origin_host), (d.(GxRAA_origin_realm),
   (d.(GxRAA_result_code), (d.(GxRAA_experimental_result), (d.(GxRAA_origin_state_id),
   (d.(GxRAA_oc_supported_features), (d.(GxRAA_oc_olr), (d.(GxRAA_ip_can_type),
   (d.(GxRAA_rat_type), (d.(GxRAA_an_trusted), (d.(GxRAA_an_gw_address),
   (d.(GxRAA_tgpp_sgsn_mcc_mnc), (d.(GxRAA_tgpp_sgsn_address),
   (d.(GxRAA_tgpp_sgsn_ipv6_address), (d.(GxRAA_rai), (d.(GxRAA_tgpp_user_location_info),
   (d.(GxRAA_user_location_info_time), (d.(GxRAA_netloc_access_support),
   (d.(GxRAA_user_csg_information), (d.(GxRAA_tgpp_ms_timezone),
   (d.(GxRAA_default_qos_information), (d.(GxRAA_charging_rule_report),
   (d.(GxRAA_error_message), (d.(GxRAA_error_reporting_host), (d.(GxRAA_failed_avp),
   (d.(GxRAA_proxy_info), tt)))))))))))))))))))))))))))).

Definition GxRAA_of (t : data GxRAA_members) : GxRAA :=
  let '(session_id, (drmp, (origin_host, (origin_realm, (result_code, (experimental_result,
    (origin_state_id, (oc_supported_features, (oc_olr, (ip_can_type, (rat_type, (an_trusted,
    (an_gw_address, (tgpp_sgsn_mcc_mnc, (tgpp_sgsn_address, (tgpp_sgsn_ipv6_address, (rai,
    (tgpp_user_location_info, (user_location_info_time, (netloc_access_support,
    (user_csg_information, (tgpp_ms_timezone, (default_qos_information, (charging_rule_report,
    (error_message, (error_reporting_host, (failed_avp, (proxy_info,
    tt)))))))))))))))))))))))))))) := t in
  mkGxRAA session_id drmp origin_host origin_realm result_code experimental_result origin_state_id
    oc_supported_features oc_olr ip_can_type rat_type an_trusted an_gw_address tgpp_sgsn_mcc_mnc
    tgpp_sgsn_address tgpp_sgsn_ipv6_address rai tgpp_user_location_info user_location_info_time
    netloc_access_support user_csg_information tgpp_ms_timezone default_qos_information
    charging_rule_report error_message error_reporting_host failed_avp proxy_info.

Definition gx_raa_parse (msg : list avp) : res GxRAA :=
  let? t := parse_group GxRAA_members msg (GxRAA_data zero_GxRAA) in Ok (GxRAA_of t).

Definition zero_GxRAR : GxRAR := {|
  GxRAR_session_id := None; GxRAR_drmp := None; GxRAR_auth_application_id := None;
  GxRAR_origin_host := None; GxRAR_origin_realm := None; GxRAR_destination_realm := None;
  GxRAR_destination_host := None; GxRAR_re_auth_request_type := None;
  GxRAR_session_release_cause := None; GxRAR_origin_state_id := None;
  GxRAR_oc_supported_features := None; GxRAR_event_trigger := None;
  GxRAR_event_report_indication := None; GxRAR_charging_rule_remove := None;
  GxRAR_charging_rule_install := None; GxRAR_default_eps_bearer_qos := None;
  GxRAR_qos_information := None; GxRAR_default_qos_information := None;
  GxRAR_revalidation_time := None; GxRAR_usage_monitoring_information := None;
  GxRAR_pcscf_restoration_indication := None; GxRAR_conditional_policy_information := None;
  GxRAR_removal_of_access := None; GxRAR_ip_can_type := None; GxRAR_pra_install := None;
  GxRAR_pra_remove := None; GxRAR_csg_information_reporting := None; GxRAR_proxy_info := None;
  GxRAR_route_record := None |}.

Definition GxRAR_members : list member :=
  [OCTETSTRING davp_session_id GX_SESSION_ID_LEN;
   NUMBER davp_drmp int32_t;
   NUMBER davp_auth_application_id uint32_t;
   OCTETSTRING davp_origin_host GX_ORIGIN_HOST_LEN;
   OCTETSTRING davp_origin_realm GX_ORIGIN_REALM_LEN;
   OCTETSTRING davp_destination_realm GX_DESTINATION_REALM_LEN;
   OCTETSTRING davp_destination_host GX_DESTINATION_HOST_LEN;
   NUMBER davp_re_auth_request_type int32_t;
   NUMBER davp_session_release_cause int32_t;
   NUMBER davp_origin_state_id uint32_t;
   PARSE_DIRECT davp_oc_supported_features parseGxOcSupportedFeatures zero_GxOcSupportedFeatures;
   LIST_NUMBER davp_event_trigger int32_t;
   PARSE_DIRECT davp_event_report_indication parseGxEventReportIndication zero_GxEventReportIndication;
   LIST_PARSE_DIRECT davp_charging_rule_remove parseGxChargingRuleRemove zero_GxChargingRuleRemove;
   LIST_PARSE_DIRECT davp_charging_rule_install parseGxChargingRuleInstall zero_GxChargingRuleInstall;
   PARSE_DIRECT davp_default_eps_bearer_qos parseGxDefaultEpsBearerQos zero_GxDefaultEpsBearerQos;
   LIST_PARSE_DIRECT davp_qos_information parseGxQosInformation zero_GxQosInformation;
   PARSE_DIRECT davp_default_qos_information parseGxDefaultQosInformation zero_GxDefaultQosInformation;
   TIME davp_revalidation_time;
   LIST_PARSE_DIRECT davp_usage_monitoring_information parseGxUsageMonitoringInformation zero_GxUsageMonitoringInformation;
   NUMBER davp_pcscf_restoration_indication uint32_t;
   LIST_PARSE_DIRECT davp_conditional_policy_information parseGxConditionalPolicyInformation zero_GxConditionalPolicyInformation;
   NUMBER davp_removal_of_access int32_t;
   NUMBER davp_ip_can_type int32_t;
   PARSE_DIRECT davp_pra_install parseGxPraInstall zero_GxPraInstall;
   PARSE_DIRECT davp_pra_remove parseGxPraRemove zero_GxPraRemove;
   LIST_NUMBER davp_csg_information_reporting int32_t;
   LIST_PARSE_DIRECT davp_proxy_info parseGxProxyInfo zero_GxProxyInfo;
   LIST_OCTETSTRING davp_route_record GX_ROUTE_RECORD_LEN].

Definition GxRAR_data (d : GxRAR) : data GxRAR_members :=
  (d.(GxRAR_session_id), (d.(GxRAR_drmp), (d.(GxRAR_auth_application_id),
   (d.(GxRAR_origin_host), (d.(GxRAR_origin_realm), (d.(GxRAR_destination_realm),
   (d.(GxRAR_destination_host), (d.(GxRAR_re_auth_request_type),
   (d.(GxRAR_session_release_cause), (d.(GxRAR_origin_state_id),
   (d.(GxRAR_oc_supported_features), (d.(GxRAR_event_trigger),
   (d.(GxRAR_event_report_indication), (d.(GxRAR_charging_rule_remove),
   (d.(GxRAR_charging_rule_install), (d.(GxRAR_default_eps_bearer_qos),
   (d.(GxRAR_qos_information), (d.(GxRAR_default_qos_information), (d.(GxRAR_revalidation_time),
   (d.(GxRAR_usage_monitoring_information), (d.(GxRAR_pcscf_restoration_indication),
   (d.(GxRAR_conditional_policy_information), (d.(GxRAR_removal_of_access),
   (d.(GxRAR_ip_can_type), (d.(GxRAR_pra_install), (d.(GxRAR_pra_remove),
   (d.(GxRAR_csg_information_reporting), (d.(GxRAR_proxy_info), (d.(GxRAR_route_record),
   tt))))))))))))))))))))))))))))).

Definition GxRAR_of (t : data GxRAR_members) : GxRAR :=
  let '(session_id, (drmp, (auth_application_id, (origin_host, (origin_realm, (destination_realm,
    (destination_host, (re_auth_request_type, (session_release_cause, (origin_state_id,
    (oc_supported_features, (event_trigger, (event_report_indication, (charging_rule_remove,
    (charging_rule_install, (default_eps_bearer_qos, (qos_information, (default_qos_information,
    (revalidation_time, (usage_monitoring_information, (pcscf_restoration_indication,
    (conditional_policy_information, (removal_of_access, (ip_can_type, (pra_install,
    (pra_remove, (csg_information_reporting, (proxy_info, (route_record,
    tt))))))))))))))))))))))))))))) := t in
  mkGxRAR session_id drmp auth_application_id origin_host origin_realm destination_realm
    destination_host re_auth_request_type session_release_cause origin_state_id
    oc_supported_features event_trigger event_report_indication charging_rule_remove
    charging_rule_install default_eps_bearer_qos qos_information default_qos_information
    revalidation_time usage_monitoring_information pcscf_restoration_indication
    conditional_policy_information removal_of_access ip_can_type pra_install pra_remove
    csg_information_reporting proxy_info route_record.

Definition gx_rar_parse (msg : list avp) : res GxRAR :=
  let? t := parse_group GxRAR_members msg (GxRAR_data zero_GxRAR) in Ok (GxRAR_of t).

End Parsers.
