(* ===== verification/GxParseOk.v ===== *)
(** * What the Gx parsers read (cp/gx_app/src/gx_parsers.c)

    [avps_<structure> children d]: the AVPs of a message, or inside a grouped AVP, say
    that the structure is [d], whatever their order and with any AVPs of other codes
    between them.  The lemmas say that every parser stores that structure. *)
From S2P Require Import Prelude GxMacros GxStruct GxWire GxDict GxAvp GxParse.

Section Specs.
Context {G : GxDict}.

Definition avps_GxProxyInfo (children : list avp) (d : GxProxyInfo) : Prop :=
  one_avp children davp_proxy_host (is_octets GX_PROXY_HOST_LEN) d.(GxProxyInfo_proxy_host) /\
  one_avp children davp_proxy_state (is_octets GX_PROXY_STATE_LEN) d.(GxProxyInfo_proxy_state) /\
  True.

Definition is_GxProxyInfo (a : avp) (d : GxProxyInfo) : Prop := avps_GxProxyInfo (avp_children a) d.

Definition avps_GxPresenceReportingAreaInformation (children : list avp) (d : GxPresenceReportingAreaInformation) : Prop :=
  one_avp children davp_presence_reporting_area_identifier (is_octets GX_PRESENCE_REPORTING_AREA_IDENTIFIER_LEN) d.(GxPresenceReportingAreaInformation_presence_reporting_area_identifier) /\
  one_avp children davp_presence_reporting_area_status (is_number uint32_t) d.(GxPresenceReportingAreaInformation_presence_reporting_area_status) /\
  one_avp children davp_presence_reporting_area_elements_list (is_octets GX_PRESENCE_REPORTING_AREA_ELEMENTS_LIST_LEN) d.(GxPresenceReportingAreaInformation_presence_reporting_area_elements_list) /\
  one_avp children davp_presence_reporting_area_node (is_number uint32_t) d.(GxPresenceReportingAreaInformation_presence_reporting_area_node) /\
  True.

Definition is_GxPresenceReportingAreaInformation (a : avp) (d : GxPresenceReportingAreaInformation) : Prop := avps_GxPresenceReportingAreaInformation (avp_children a) d.

Definition avps_GxRoutingRuleRemove (children : list avp) (d : GxRoutingRuleRemove) : Prop :=
  many_avp children davp_routing_rule_identifier (is_octets GX_ROUTING_RULE_IDENTIFIER_LEN) d.(GxRoutingRuleRemove_routing_rule_identifier) /\
  True.

Definition is_GxRoutingRuleRemove (a : avp) (d : GxRoutingRuleRemove) : Prop := avps_GxRoutingRuleRemove (avp_children a) d.

Definition avps_GxRoutingFilter (children : list avp) (d : GxRoutingFilter) : Prop :=
  one_avp children davp_flow_description (is_octets GX_FLOW_DESCRIPTION_LEN) d.(GxRoutingFilter_flow_description) /\
  one_avp children davp_flow_direction (is_number int32_t) d.(GxRoutingFilter_flow_direction) /\
  one_avp children davp_tos_traffic_class (is_octets GX_TOS_TRAFFIC_CLASS_LEN) d.(GxRoutingFilter_tos_traffic_class) /\
  one_avp children davp_security_parameter_index (is_octets GX_SECURITY_PARAMETER_INDEX_LEN) d.(GxRoutingFilter_security_parameter_index) /\
  one_avp children davp_flow_label (is_octets GX_FLOW_LABEL_LEN) d.(GxRoutingFilter_flow_label) /\
  True.

Definition is_GxRoutingFilter (a : avp) (d : GxRoutingFilter) : Prop := avps_GxRoutingFilter (avp_children a) d.

Definition avps_GxRoutingRuleDefinition (children : list avp) (d : GxRoutingRuleDefinition) : Prop :=
  one_avp children davp_routing_rule_identifier (is_octets GX_ROUTING_RULE_IDENTIFIER_LEN) d.(GxRoutingRuleDefinition_routing_rule_identifier) /\
  many_avp children davp_routing_filter is_GxRoutingFilter d.(GxRoutingRuleDefinition_routing_filter) /\
  one_avp children davp_precedence (is_number uint32_t) d.(GxRoutingRuleDefinition_precedence) /\
  one_avp children davp_routing_ip_address is_address d.(GxRoutingRuleDefinition_routing_ip_address) /\
  one_avp children davp_ip_can_type (is_number int32_t) d.(GxRoutingRuleDefinition_ip_can_type) /\
  True.

Definition is_GxRoutingRuleDefinition (a : avp) (d : GxRoutingRuleDefinition) : Prop := avps_GxRoutingRuleDefinition (avp_children a) d.

Definition avps_GxRoutingRuleInstall (children : list avp) (d : GxRoutingRuleInstall) : Prop :=
  many_avp children davp_routing_rule_definition is_GxRoutingRuleDefinition d.(GxRoutingRuleInstall_routing_rule_definition) /\
  True.

Definition is_GxRoutingRuleInstall (a : avp) (d : GxRoutingRuleInstall) : Prop := avps_GxRoutingRuleInstall (avp_children a) d.

Definition avps_GxUnitValue (children : list avp) (d : GxUnitValue) : Prop :=
  one_avp children davp_value_digits (is_number int64_t) d.(GxUnitValue_value_digits) /\
  one_avp children davp_exponent (is_number int32_t) d.(GxUnitValue_exponent) /\
  True.

Definition is_GxUnitValue (a : avp) (d : GxUnitValue) : Prop := avps_GxUnitValue (avp_children a) d.

Definition avps_GxCcMoney (children : list avp) (d : GxCcMoney) : Prop :=
  one_avp children davp_unit_value is_GxUnitValue d.(GxCcMoney_unit_value) /\
  one_avp children davp_currency_code (is_number uint32_t) d.(GxCcMoney_currency_code) /\
  True.

Definition is_GxCcMoney (a : avp) (d : GxCcMoney) : Prop := avps_GxCcMoney (avp_children a) d.

Definition avps_GxUsedServiceUnit (children : list avp) (d : GxUsedServiceUnit) : Prop :=
  one_avp children davp_reporting_reason (is_number int32_t) d.(GxUsedServiceUnit_reporting_reason) /\
  one_avp children davp_tariff_change_usage (is_number int32_t) d.(GxUsedServiceUnit_tariff_change_usage) /\
  one_avp children davp_cc_time (is_number uint32_t) d.(GxUsedServiceUnit_cc_time) /\
  one_avp children davp_cc_money is_GxCcMoney d.(GxUsedServiceUnit_cc_money) /\
  one_avp children davp_cc_total_octets (is_number uint64_t) d.(GxUsedServiceUnit_cc_total_octets) /\
  one_avp children davp_cc_input_octets (is_number uint64_t) d.(GxUsedServiceUnit_cc_input_octets) /\
  one_avp children davp_cc_output_octets (is_number uint64_t) d.(GxUsedServiceUnit_cc_output_octets) /\
  one_avp children davp_cc_service_specific_units (is_number uint64_t) d.(GxUsedServiceUnit_cc_service_specific_units) /\
  many_avp children davp_event_charging_timestamp is_time d.(GxUsedServiceUnit_event_charging_timestamp) /\
  True.

Definition is_GxUsedServiceUnit (a : avp) (d : GxUsedServiceUnit) : Prop := avps_GxUsedServiceUnit (avp_children a) d.

Definition avps_GxGrantedServiceUnit (children : list avp) (d : GxGrantedServiceUnit) : Prop :=
  one_avp children davp_tariff_time_change is_time d.(GxGrantedServiceUnit_tariff_time_change) /\
  one_avp children davp_cc_time (is_number uint32_t) d.(GxGrantedServiceUnit_cc_time) /\
  one_avp children davp_cc_money is_GxCcMoney d.(GxGrantedServiceUnit_cc_money) /\
  one_avp children davp_cc_total_octets (is_number uint64_t) d.(GxGrantedServiceUnit_cc_total_octets) /\
  one_avp children davp_cc_input_octets (is_number uint64_t) d.(GxGrantedServiceUnit_cc_input_octets) /\
  one_avp children davp_cc_output_octets (is_number uint64_t) d.(GxGrantedServiceUnit_cc_output_octets) /\
  one_avp children davp_cc_service_specific_units (is_number uint64_t) d.(GxGrantedServiceUnit_cc_service_specific_units) /\
  True.

Definition is_GxGrantedServiceUnit (a : avp) (d : GxGrantedServiceUnit) : Prop := avps_GxGrantedServiceUnit (avp_children a) d.

Definition avps_GxUsageMonitoringInformation (children : list avp) (d : GxUsageMonitoringInformation) : Prop :=
  one_avp children davp_monitoring_key (is_octets GX_MONITORING_KEY_LEN) d.(GxUsageMonitoringInformation_monitoring_key) /\
  many_avp children davp_granted_service_unit is_GxGrantedServiceUnit d.(GxUsageMonitoringInformation_granted_service_unit) /\
  many_avp children davp_used_service_unit is_GxUsedServiceUnit d.(GxUsageMonitoringInformation_used_service_unit) /\
  one_avp children davp_quota_consumption_time (is_number uint32_t) d.(GxUsageMonitoringInformation_quota_consumption_time) /\
  one_avp children davp_usage_monitoring_level (is_number int32_t) d.(GxUsageMonitoringInformation_usage_monitoring_level) /\
  one_avp children davp_usage_monitoring_report (is_number int32_t) d.(GxUsageMonitoringInformation_usage_monitoring_report) /\
  one_avp children davp_usage_monitoring_support (is_number int32_t) d.(GxUsageMonitoringInformation_usage_monitoring_support) /\
  True.

Definition is_GxUsageMonitoringInformation (a : avp) (d : GxUsageMonitoringInformation) : Prop := avps_GxUsageMonitoringInformation (avp_children a) d.

Definition avps_GxTunnelInformation (children : list avp) (d : GxTunnelInformation) : Prop :=
  one_avp children davp_tunnel_header_length (is_number uint32_t) d.(GxTunnelInformation_tunnel_header_length) /\
  many_avp children davp_tunnel_header_filter (is_octets GX_TUNNEL_HEADER_FILTER_LEN) d.(GxTunnelInformation_tunnel_header_filter) /\
  True.

Definition is_GxTunnelInformation (a : avp) (d : GxTunnelInformation) : Prop := avps_GxTunnelInformation (avp_children a) d.

Definition avps_GxCoaInformation (children : list avp) (d : GxCoaInformation) : Prop :=
  one_avp children davp_tunnel_information is_GxTunnelInformation d.(GxCoaInformation_tunnel_information) /\
  one_avp children davp_coa_ip_address is_address d.(GxCoaInformation_coa_ip_address) /\
  True.

Definition is_GxCoaInformation (a : avp) (d : GxCoaInformation) : Prop := avps_GxCoaInformation (avp_children a) d.

Definition avps_GxAccessNetworkChargingIdentifierGx (children : list avp) (d : GxAccessNetworkChargingIdentifierGx) : Prop :=
  one_avp children davp_access_network_charging_identifier_value (is_octets GX_ACCESS_NETWORK_CHARGING_IDENTIFIER_VALUE_LEN) d.(GxAccessNetworkChargingIdentifierGx_access_network_charging_identifier_value) /\
  many_avp children davp_charging_rule_base_name (is_octets GX_CHARGING_RULE_BASE_NAME_LEN) d.(GxAccessNetworkChargingIdentifierGx_charging_rule_base_name) /\
  many_avp children davp_charging_rule_name (is_octets GX_CHARGING_RULE_NAME_LEN) d.(GxAccessNetworkChargingIdentifierGx_charging_rule_name) /\
  one_avp children davp_ip_can_session_charging_scope (is_number int32_t) d.(GxAccessNetworkChargingIdentifierGx_ip_can_session_charging_scope) /\
  True.

Definition is_GxAccessNetworkChargingIdentifierGx (a : avp) (d : GxAccessNetworkChargingIdentifierGx) : Prop := avps_GxAccessNetworkChargingIdentifierGx (avp_children a) d.

Definition avps_GxMbsfnArea (children : list avp) (d : GxMbsfnArea) : Prop :=
  one_avp children davp_mbsfn_area_id (is_number uint32_t) d.(GxMbsfnArea_mbsfn_area_id) /\
  one_avp children davp_carrier_frequency (is_number uint32_t) d.(GxMbsfnArea_carrier_frequency) /\
  True.

Definition is_GxMbsfnArea (a : avp) (d : GxMbsfnArea) : Prop := avps_GxMbsfnArea (avp_children a) d.

Definition avps_GxAreaScope (children : list avp) (d : GxAreaScope) : Prop :=
  many_avp children davp_cell_global_identity (is_octets GX_CELL_GLOBAL_IDENTITY_LEN) d.(GxAreaScope_cell_global_identity) /\
  many_avp children davp_e_utran_cell_global_identity (is_octets GX_E_UTRAN_CELL_GLOBAL_IDENTITY_LEN) d.(GxAreaScope_e_utran_cell_global_identity) /\
  many_avp children davp_routing_area_identity (is_octets GX_ROUTING_AREA_IDENTITY_LEN) d.(GxAreaScope_routing_area_identity) /\
  many_avp children davp_location_area_identity (is_octets GX_LOCATION_AREA_IDENTITY_LEN) d.(GxAreaScope_location_area_identity) /\
  many_avp children davp_tracking_area_identity (is_octets GX_TRACKING_AREA_IDENTITY_LEN) d.(GxAreaScope_tracking_area_identity) /\
  True.

Definition is_GxAreaScope (a : avp) (d : GxAreaScope) : Prop := avps_GxAreaScope (avp_children a) d.

Definition avps_GxMdtConfiguration (children : list avp) (d : GxMdtConfiguration) : Prop :=
  one_avp children davp_job_type (is_number int32_t) d.(GxMdtConfiguration_job_type) /\
  one_avp children davp_area_scope is_GxAreaScope d.(GxMdtConfiguration_area_scope) /\
  one_avp children davp_list_of_measurements (is_number uint32_t) d.(GxMdtConfiguration_list_of_measurements) /\
  one_avp children davp_reporting_trigger (is_number uint32_t) d.(GxMdtConfiguration_reporting_trigger) /\
  one_avp children davp_report_interval (is_number int32_t) d.(GxMdtConfiguration_report_interval) /\
  one_avp children davp_report_amount (is_number int32_t) d.(GxMdtConfiguration_report_amount) /\
  one_avp children davp_event_threshold_rsrp (is_number uint32_t) d.(GxMdtConfiguration_event_threshold_rsrp) /\
  one_avp children davp_event_threshold_rsrq (is_number uint32_t) d.(GxMdtConfiguration_event_threshold_rsrq) /\
  one_avp children davp_logging_interval (is_number int32_t) d.(GxMdtConfiguration_logging_interval) /\
  one_avp children davp_logging_duration (is_number int32_t) d.(GxMdtConfiguration_logging_duration) /\
  one_avp children davp_measurement_period_lte (is_number int32_t) d.(GxMdtConfiguration_measurement_period_lte) /\
  one_avp children davp_measurement_period_umts (is_number int32_t) d.(GxMdtConfiguration_measurement_period_umts) /\
  one_avp children davp_collection_period_rrm_lte (is_number int32_t) d.(GxMdtConfiguration_collection_period_rrm_lte) /\
  one_avp children davp_collection_period_rrm_umts (is_number int32_t) d.(GxMdtConfiguration_collection_period_rrm_umts) /\
  one_avp children davp_positioning_method (is_octets GX_POSITIONING_METHOD_LEN) d.(GxMdtConfiguration_positioning_method) /\
  one_avp children davp_measurement_quantity (is_octets GX_MEASUREMENT_QUANTITY_LEN) d.(GxMdtConfiguration_measurement_quantity) /\
  one_avp children davp_event_threshold_event_1f (is_number int32_t) d.(GxMdtConfiguration_event_threshold_event_1f) /\
  one_avp children davp_event_threshold_event_1i (is_number int32_t) d.(GxMdtConfiguration_event_threshold_event_1i) /\
  many_avp children davp_mdt_allowed_plmn_id (is_octets GX_MDT_ALLOWED_PLMN_ID_LEN) d.(GxMdtConfiguration_mdt_allowed_plmn_id) /\
  many_avp children davp_mbsfn_area is_GxMbsfnArea d.(GxMdtConfiguration_mbsfn_area) /\
  True.

Definition is_GxMdtConfiguration (a : avp) (d : GxMdtConfiguration) : Prop := avps_GxMdtConfiguration (avp_children a) d.

Definition avps_GxTraceData (children : list avp) (d : GxTraceData) : Prop :=
  one_avp children davp_trace_reference (is_octets GX_TRACE_REFERENCE_LEN) d.(GxTraceData_trace_reference) /\
  one_avp children davp_trace_depth (is_number int32_t) d.(GxTraceData_trace_depth) /\
  one_avp children davp_trace_ne_type_list (is_octets GX_TRACE_NE_TYPE_LIST_LEN) d.(GxTraceData_trace_ne_type_list) /\
  one_avp children davp_trace_interface_list (is_octets GX_TRACE_INTERFACE_LIST_LEN) d.(GxTraceData_trace_interface_list) /\
  one_avp children davp_trace_event_list (is_octets GX_TRACE_EVENT_LIST_LEN) d.(GxTraceData_trace_event_list) /\
  one_avp children davp_omc_id (is_octets GX_OMC_ID_LEN) d.(GxTraceData_omc_id) /\
  one_avp children davp_trace_collection_entity is_address d.(GxTraceData_trace_collection_entity) /\
  one_avp children davp_mdt_configuration is_GxMdtConfiguration d.(GxTraceData_mdt_configuration) /\
  True.

Definition is_GxTraceData (a : avp) (d : GxTraceData) : Prop := avps_GxTraceData (avp_children a) d.

Definition avps_GxUserCsgInformation (children : list avp) (d : GxUserCsgInformation) : Prop :=
  one_avp children davp_csg_id (is_number uint32_t) d.(GxUserCsgInformation_csg_id) /\
  one_avp children davp_csg_access_mode (is_number int32_t) d.(GxUserCsgInformation_csg_access_mode) /\
  one_avp children davp_csg_membership_indication (is_number int32_t) d.(GxUserCsgInformation_csg_membership_indication) /\
  True.

Definition is_GxUserCsgInformation (a : avp) (d : GxUserCsgInformation) : Prop := avps_GxUserCsgInformation (avp_children a) d.

Definition avps_GxEventReportIndication (children : list avp) (d : GxEventReportIndication) : Prop :=
  one_avp children davp_an_trusted (is_number int32_t) d.(GxEventReportIndication_an_trusted) /\
  many_avp children davp_event_trigger (is_number int32_t) d.(GxEventReportIndication_event_trigger) /\
  one_avp children davp_user_csg_information is_GxUserCsgInformation d.(GxEventReportIndication_user_csg_information) /\
  one_avp children davp_ip_can_type (is_number int32_t) d.(GxEventReportIndication_ip_can_type) /\
  many_avp children davp_an_gw_address is_address d.(GxEventReportIndication_an_gw_address) /\
  one_avp children davp_3gpp_sgsn_address (is_octets GX_3GPP_SGSN_ADDRESS_LEN) d.(GxEventReportIndication_tgpp_sgsn_address) /\
  one_avp children davp_3gpp_sgsn_ipv6_address (is_octets GX_3GPP_SGSN_IPV6_ADDRESS_LEN) d.(GxEventReportIndication_tgpp_sgsn_ipv6_address) /\
  one_avp children davp_3gpp_sgsn_mcc_mnc (is_octets GX_3GPP_SGSN_MCC_MNC_LEN) d.(GxEventReportIndication_tgpp_sgsn_mcc_mnc) /\
  one_avp children davp_framed_ip_address (is_octets GX_FRAMED_IP_ADDRESS_LEN) d.(GxEventReportIndication_framed_ip_address) /\
  one_avp children davp_rat_type (is_number int32_t) d.(GxEventReportIndication_rat_type) /\
  one_avp children davp_rai (is_octets GX_RAI_LEN) d.(GxEventReportIndication_rai) /\
  one_avp children davp_3gpp_user_location_info (is_octets GX_3GPP_USER_LOCATION_INFO_LEN) d.(GxEventReportIndication_tgpp_user_location_info) /\
  one_avp children davp_trace_data is_GxTraceData d.(GxEventReportIndication_trace_data) /\
  one_avp children davp_trace_reference (is_octets GX_TRACE_REFERENCE_LEN) d.(GxEventReportIndication_trace_reference) /\
  one_avp children davp_3gpp2_bsid (is_octets GX_3GPP2_BSID_LEN) d.(GxEventReportIndication_tgpp2_bsid) /\
  one_avp children davp_3gpp_ms_timezone (is_octets GX_3GPP_MS_TIMEZONE_LEN) d.(GxEventReportIndication_tgpp_ms_timezone) /\
  one_avp children davp_routing_ip_address is_address d.(GxEventReportIndication_routing_ip_address) /\
  one_avp children davp_ue_local_ip_address is_address d.(GxEventReportIndication_ue_local_ip_address) /\
  one_avp children davp_henb_local_ip_address is_address d.(GxEventReportIndication_henb_local_ip_address) /\
  one_avp children davp_udp_source_port (is_number uint32_t) d.(GxEventReportIndication_udp_source_port) /\
  one_avp children davp_presence_reporting_area_information is_GxPresenceReportingAreaInformation d.(GxEventReportIndication_presence_reporting_area_information) /\
  True.

Definition is_GxEventReportIndication (a : avp) (d : GxEventReportIndication) : Prop := avps_GxEventReportIndication (avp_children a) d.

Definition avps_GxFlowInformation (children : list avp) (d : GxFlowInformation) : Prop :=
  one_avp children davp_flow_description (is_octets GX_FLOW_DESCRIPTION_LEN) d.(GxFlowInformation_flow_description) /\
  one_avp children davp_packet_filter_identifier (is_octets GX_PACKET_FILTER_IDENTIFIER_LEN) d.(GxFlowInformation_packet_filter_identifier) /\
  one_avp children davp_packet_filter_usage (is_number int32_t) d.(GxFlowInformation_packet_filter_usage) /\
  one_avp children davp_tos_traffic_class (is_octets GX_TOS_TRAFFIC_CLASS_LEN) d.(GxFlowInformation_tos_traffic_class) /\
  one_avp children davp_security_parameter_index (is_octets GX_SECURITY_PARAMETER_INDEX_LEN) d.(GxFlowInformation_security_parameter_index) /\
  one_avp children davp_flow_label (is_octets GX_FLOW_LABEL_LEN) d.(GxFlowInformation_flow_label) /\
  one_avp children davp_flow_direction (is_number int32_t) d.(GxFlowInformation_flow_direction) /\
  one_avp children davp_routing_rule_identifier (is_octets GX_ROUTING_RULE_IDENTIFIER_LEN) d.(GxFlowInformation_routing_rule_identifier) /\
  True.

Definition is_GxFlowInformation (a : avp) (d : GxFlowInformation) : Prop := avps_GxFlowInformation (avp_children a) d.

Definition avps_GxApplicationDetectionInformation (children : list avp) (d : GxApplicationDetectionInformation) : Prop :=
  one_avp children davp_tdf_application_identifier (is_octets GX_TDF_APPLICATION_IDENTIFIER_LEN) d.(GxApplicationDetectionInformation_tdf_application_identifier) /\
  one_avp children davp_tdf_application_instance_identifier (is_octets GX_TDF_APPLICATION_INSTANCE_IDENTIFIER_LEN) d.(GxApplicationDetectionInformation_tdf_application_instance_identifier) /\
  many_avp children davp_flow_information is_GxFlowInformation d.(GxApplicationDetectionInformation_flow_information) /\
  True.

Definition is_GxApplicationDetectionInformation (a : avp) (d : GxApplicationDetectionInformation) : Prop := avps_GxApplicationDetectionInformation (avp_children a) d.

Definition avps_GxRedirectServer (children : list avp) (d : GxRedirectServer) : Prop :=
  one_avp children davp_redirect_address_type (is_number int32_t) d.(GxRedirectServer_redirect_address_type) /\
  one_avp children davp_redirect_server_address (is_octets GX_REDIRECT_SERVER_ADDRESS_LEN) d.(GxRedirectServer_redirect_server_address) /\
  True.

Definition is_GxRedirectServer (a : avp) (d : GxRedirectServer) : Prop := avps_GxRedirectServer (avp_children a) d.

Definition avps_GxFinalUnitIndication (children : list avp) (d : GxFinalUnitIndication) : Prop :=
  one_avp children davp_final_unit_action (is_number int32_t) d.(GxFinalUnitIndication_final_unit_action) /\
  many_avp children davp_restriction_filter_rule (is_octets GX_RESTRICTION_FILTER_RULE_LEN) d.(GxFinalUnitIndication_restriction_filter_rule) /\
  many_avp children davp_filter_id (is_octets GX_FILTER_ID_LEN) d.(GxFinalUnitIndication_filter_id) /\
  one_avp children davp_redirect_server is_GxRedirectServer d.(GxFinalUnitIndication_redirect_server) /\
  True.

Definition is_GxFinalUnitIndication (a : avp) (d : GxFinalUnitIndication) : Prop := avps_GxFinalUnitIndication (avp_children a) d.

Definition avps_GxChargingRuleReport (children : list avp) (d : GxChargingRuleReport) : Prop :=
  many_avp children davp_charging_rule_name (is_octets GX_CHARGING_RULE_NAME_LEN) d.(GxChargingRuleReport_charging_rule_name) /\
  many_avp children davp_charging_rule_base_name (is_octets GX_CHARGING_RULE_BASE_NAME_LEN) d.(GxChargingRuleReport_charging_rule_base_name) /\
  one_avp children davp_bearer_identifier (is_octets GX_BEARER_IDENTIFIER_LEN) d.(GxChargingRuleReport_bearer_identifier) /\
  one_avp children davp_pcc_rule_status (is_number int32_t) d.(GxChargingRuleReport_pcc_rule_status) /\
  one_avp children davp_rule_failure_code (is_number int32_t) d.(GxChargingRuleReport_rule_failure_code) /\
  one_avp children davp_final_unit_indication is_GxFinalUnitIndication d.(GxChargingRuleReport_final_unit_indication) /\
  many_avp children davp_ran_nas_release_cause (is_octets GX_RAN_NAS_RELEASE_CAUSE_LEN) d.(GxChargingRuleReport_ran_nas_release_cause) /\
  many_avp children davp_content_version (is_number uint64_t) d.(GxChargingRuleReport_content_version) /\
  True.

Definition is_GxChargingRuleReport (a : avp) (d : GxChargingRuleReport) : Prop := avps_GxChargingRuleReport (avp_children a) d.

Definition avps_GxTftPacketFilterInformation (children : list avp) (d : GxTftPacketFilterInformation) : Prop :=
  one_avp children davp_precedence (is_number uint32_t) d.(GxTftPacketFilterInformation_precedence) /\
  one_avp children davp_tft_filter (is_octets GX_TFT_FILTER_LEN) d.(GxTftPacketFilterInformation_tft_filter) /\
  one_avp children davp_tos_traffic_class (is_octets GX_TOS_TRAFFIC_CLASS_LEN) d.(GxTftPacketFilterInformation_tos_traffic_class) /\
  one_avp children davp_security_parameter_index (is_octets GX_SECURITY_PARAMETER_INDEX_LEN) d.(GxTftPacketFilterInformation_security_parameter_index) /\
  one_avp children davp_flow_label (is_octets GX_FLOW_LABEL_LEN) d.(GxTftPacketFilterInformation_flow_label) /\
  one_avp children davp_flow_direction (is_number int32_t) d.(GxTftPacketFilterInformation_flow_direction) /\
  True.

Definition is_GxTftPacketFilterInformation (a : avp) (d : GxTftPacketFilterInformation) : Prop := avps_GxTftPacketFilterInformation (avp_children a) d.

Definition avps_GxFixedUserLocationInfo (children : list avp) (d : GxFixedUserLocationInfo) : Prop :=
  one_avp children davp_ssid (is_octets GX_SSID_LEN) d.(GxFixedUserLocationInfo_ssid) /\
  one_avp children davp_bssid (is_octets GX_BSSID_LEN) d.(GxFixedUserLocationInfo_bssid) /\
  one_avp children davp_logical_access_id (is_octets GX_LOGICAL_ACCESS_ID_LEN) d.(GxFixedUserLocationInfo_logical_access_id) /\
  one_avp children davp_physical_access_id (is_octets GX_PHYSICAL_ACCESS_ID_LEN) d.(GxFixedUserLocationInfo_physical_access_id) /\
  True.

Definition is_GxFixedUserLocationInfo (a : avp) (d : GxFixedUserLocationInfo) : Prop := avps_GxFixedUserLocationInfo (avp_children a) d.

Definition avps_GxDefaultQosInformation (children : list avp) (d : GxDefaultQosInformation) : Prop :=
  one_avp children davp_qos_class_identifier (is_number int32_t) d.(GxDefaultQosInformation_qos_class_identifier) /\
  one_avp children davp_max_requested_bandwidth_ul (is_number uint32_t) d.(GxDefaultQosInformation_max_requested_bandwidth_ul) /\
  one_avp children davp_max_requested_bandwidth_dl (is_number uint32_t) d.(GxDefaultQosInformation_max_requested_bandwidth_dl) /\
  one_avp children davp_default_qos_name (is_octets GX_DEFAULT_QOS_NAME_LEN) d.(GxDefaultQosInformation_default_qos_name) /\
  True.

Definition is_GxDefaultQosInformation (a : avp) (d : GxDefaultQosInformation) : Prop := avps_GxDefaultQosInformation (avp_children a) d.

Definition avps_GxAllocationRetentionPriority (children : list avp) (d : GxAllocationRetentionPriority) : Prop :=
  one_avp children davp_priority_level (is_number uint32_t) d.(GxAllocationRetentionPriority_priority_level) /\
  one_avp children davp_pre_emption_capability (is_number int32_t) d.(GxAllocationRetentionPriority_pre_emption_capability) /\
  one_avp children davp_pre_emption_vulnerability (is_number int32_t) d.(GxAllocationRetentionPriority_pre_emption_vulnerability) /\
  True.

Definition is_GxAllocationRetentionPriority (a : avp) (d : GxAllocationRetentionPriority) : Prop := avps_GxAllocationRetentionPriority (avp_children a) d.

Definition avps_GxDefaultEpsBearerQos (children : list avp) (d : GxDefaultEpsBearerQos) : Prop :=
  one_avp children davp_qos_class_identifier (is_number int32_t) d.(GxDefaultEpsBearerQos_qos_class_identifier) /\
  one_avp children davp_allocation_retention_priority is_GxAllocationRetentionPriority d.(GxDefaultEpsBearerQos_allocation_retention_priority) /\
  True.

Definition is_GxDefaultEpsBearerQos (a : avp) (d : GxDefaultEpsBearerQos) : Prop := avps_GxDefaultEpsBearerQos (avp_children a) d.

Definition avps_GxConditionalApnAggregateMaxBitrate (children : list avp) (d : GxConditionalApnAggregateMaxBitrate) : Prop :=
  one_avp children davp_apn_aggregate_max_bitrate_ul (is_number uint32_t) d.(GxConditionalApnAggregateMaxBitrate_apn_aggregate_max_bitrate_ul) /\
  one_avp children davp_apn_aggregate_max_bitrate_dl (is_number uint32_t) d.(GxConditionalApnAggregateMaxBitrate_apn_aggregate_max_bitrate_dl) /\
  one_avp children davp_extended_apn_ambr_ul (is_number uint32_t) d.(GxConditionalApnAggregateMaxBitrate_extended_apn_ambr_ul) /\
  one_avp children davp_extended_apn_ambr_dl (is_number uint32_t) d.(GxConditionalApnAggregateMaxBitrate_extended_apn_ambr_dl) /\
  many_avp children davp_ip_can_type (is_number int32_t) d.(GxConditionalApnAggregateMaxBitrate_ip_can_type) /\
  many_avp children davp_rat_type (is_number int32_t) d.(GxConditionalApnAggregateMaxBitrate_rat_type) /\
  True.

Definition is_GxConditionalApnAggregateMaxBitrate (a : avp) (d : GxConditionalApnAggregateMaxBitrate) : Prop := avps_GxConditionalApnAggregateMaxBitrate (avp_children a) d.

Definition avps_GxQosInformation (children : list avp) (d : GxQosInformation) : Prop :=
  one_avp children davp_qos_class_identifier (is_number int32_t) d.(GxQosInformation_qos_class_identifier) /\
  one_avp children davp_max_requested_bandwidth_ul (is_number uint32_t) d.(GxQosInformation_max_requested_bandwidth_ul) /\
  one_avp children davp_max_requested_bandwidth_dl (is_number uint32_t) d.(GxQosInformation_max_requested_bandwidth_dl) /\
  one_avp children davp_extended_max_requested_bw_ul (is_number uint32_t) d.(GxQosInformation_extended_max_requested_bw_ul) /\
  one_avp children davp_extended_max_requested_bw_dl (is_number uint32_t) d.(GxQosInformation_extended_max_requested_bw_dl) /\
  one_avp children davp_guaranteed_bitrate_ul (is_number uint32_t) d.(GxQosInformation_guaranteed_bitrate_ul) /\
  one_avp children davp_guaranteed_bitrate_dl (is_number uint32_t) d.(GxQosInformation_guaranteed_bitrate_dl) /\
  one_avp children davp_extended_gbr_ul (is_number uint32_t) d.(GxQosInformation_extended_gbr_ul) /\
  one_avp children davp_extended_gbr_dl (is_number uint32_t) d.(GxQosInformation_extended_gbr_dl) /\
  one_avp children davp_bearer_identifier (is_octets GX_BEARER_IDENTIFIER_LEN) d.(GxQosInformation_bearer_identifier) /\
  one_avp children davp_allocation_retention_priority is_GxAllocationRetentionPriority d.(GxQosInformation_allocation_retention_priority) /\
  one_avp children davp_apn_aggregate_max_bitrate_ul (is_number uint32_t) d.(GxQosInformation_apn_aggregate_max_bitrate_ul) /\
  one_avp children davp_apn_aggregate_max_bitrate_dl (is_number uint32_t) d.(GxQosInformation_apn_aggregate_max_bitrate_dl) /\
  one_avp children davp_extended_apn_ambr_ul (is_number uint32_t) d.(GxQosInformation_extended_apn_ambr_ul) /\
  one_avp children davp_extended_apn_ambr_dl (is_number uint32_t) d.(GxQosInformation_extended_apn_ambr_dl) /\
  many_avp children davp_conditional_apn_aggregate_max_bitrate is_GxConditionalApnAggregateMaxBitrate d.(GxQosInformation_conditional_apn_aggregate_max_bitrate) /\
  True.

Definition is_GxQosInformation (a : avp) (d : GxQosInformation) : Prop := avps_GxQosInformation (avp_children a) d.

Definition avps_GxUserEquipmentInfo (children : list avp) (d : GxUserEquipmentInfo) : Prop :=
  one_avp children davp_user_equipment_info_type (is_number int32_t) d.(GxUserEquipmentInfo_user_equipment_info_type) /\
  one_avp children davp_user_equipment_info_value (is_octets GX_USER_EQUIPMENT_INFO_VALUE_LEN) d.(GxUserEquipmentInfo_user_equipment_info_value) /\
  True.

Definition is_GxUserEquipmentInfo (a : avp) (d : GxUserEquipmentInfo) : Prop := avps_GxUserEquipmentInfo (avp_children a) d.

Definition avps_GxPacketFilterInformation (children : list avp) (d : GxPacketFilterInformation) : Prop :=
  one_avp children davp_packet_filter_identifier (is_octets GX_PACKET_FILTER_IDENTIFIER_LEN) d.(GxPacketFilterInformation_packet_filter_identifier) /\
  one_avp children davp_precedence (is_number uint32_t) d.(GxPacketFilterInformation_precedence) /\
  one_avp children davp_packet_filter_content (is_octets GX_PACKET_FILTER_CONTENT_LEN) d.(GxPacketFilterInformation_packet_filter_content) /\
  one_avp children davp_tos_traffic_class (is_octets GX_TOS_TRAFFIC_CLASS_LEN) d.(GxPacketFilterInformation_tos_traffic_class) /\
  one_avp children davp_security_parameter_index (is_octets GX_SECURITY_PARAMETER_INDEX_LEN) d.(GxPacketFilterInformation_security_parameter_index) /\
  one_avp children davp_flow_label (is_octets GX_FLOW_LABEL_LEN) d.(GxPacketFilterInformation_flow_label) /\
  one_avp children davp_flow_direction (is_number int32_t) d.(GxPacketFilterInformation_flow_direction) /\
  True.

Definition is_GxPacketFilterInformation (a : avp) (d : GxPacketFilterInformation) : Prop := avps_GxPacketFilterInformation (avp_children a) d.

Definition avps_GxTdfInformation (children : list avp) (d : GxTdfInformation) : Prop :=
  one_avp children davp_tdf_destination_realm (is_octets GX_TDF_DESTINATION_REALM_LEN) d.(GxTdfInformation_tdf_destination_realm) /\
  one_avp children davp_tdf_destination_host (is_octets GX_TDF_DESTINATION_HOST_LEN) d.(GxTdfInformation_tdf_destination_host) /\
  one_avp children davp_tdf_ip_address is_address d.(GxTdfInformation_tdf_ip_address) /\
  True.

Definition is_GxTdfInformation (a : avp) (d : GxTdfInformation) : Prop := avps_GxTdfInformation (avp_children a) d.

Definition avps_GxSupportedFeatures (children : list avp) (d : GxSupportedFeatures) : Prop :=
  one_avp children davp_vendor_id (is_number uint32_t) d.(GxSupportedFeatures_vendor_id) /\
  one_avp children davp_feature_list_id (is_number uint32_t) d.(GxSupportedFeatures_feature_list_id) /\
  one_avp children davp_feature_list (is_number uint32_t) d.(GxSupportedFeatures_feature_list) /\
  True.

Definition is_GxSupportedFeatures (a : avp) (d : GxSupportedFeatures) : Prop := avps_GxSupportedFeatures (avp_children a) d.

Definition avps_GxOcSupportedFeatures (children : list avp) (d : GxOcSupportedFeatures) : Prop :=
  one_avp children davp_oc_feature_vector (is_number uint64_t) d.(GxOcSupportedFeatures_oc_feature_vector) /\
  True.

Definition is_GxOcSupportedFeatures (a : avp) (d : GxOcSupportedFeatures) : Prop := avps_GxOcSupportedFeatures (avp_children a) d.

Definition avps_GxSubscriptionId (children : list avp) (d : GxSubscriptionId) : Prop :=
  one_avp children davp_subscription_id_type (is_number int32_t) d.(GxSubscriptionId_subscription_id_type) /\
  one_avp children davp_subscription_id_data (is_octets GX_SUBSCRIPTION_ID_DATA_LEN) d.(GxSubscriptionId_subscription_id_data) /\
  True.

Definition is_GxSubscriptionId (a : avp) (d : GxSubscriptionId) : Prop := avps_GxSubscriptionId (avp_children a) d.

Definition avps_GxCCR (children : list avp) (d : GxCCR) : Prop :=
  one_avp children davp_session_id (is_octets GX_SESSION_ID_LEN) d.(GxCCR_session_id) /\
  one_avp children davp_drmp (is_number int32_t) d.(GxCCR_drmp) /\
  one_avp children davp_auth_application_id (is_number uint32_t) d.(GxCCR_auth_application_id) /\
  one_avp children davp_origin_host (is_octets GX_ORIGIN_HOST_LEN) d.(GxCCR_origin_host) /\
  one_avp children davp_origin_realm (is_octets GX_ORIGIN_REALM_LEN) d.(GxCCR_origin_realm) /\
  one_avp children davp_destination_realm (is_octets GX_DESTINATION_REALM_LEN) d.(GxCCR_destination_realm) /\
  one_avp children davp_service_context_id (is_octets GX_SERVICE_CONTEXT_ID_LEN) d.(GxCCR_service_context_id) /\
  one_avp children davp_cc_request_type (is_number int32_t) d.(GxCCR_cc_request_type) /\
  one_avp children davp_cc_request_number (is_number uint32_t) d.(GxCCR_cc_request_number) /\
  one_avp children davp_credit_management_status (is_number uint32_t) d.(GxCCR_credit_management_status) /\
  one_avp children davp_destination_host (is_octets GX_DESTINATION_HOST_LEN) d.(GxCCR_destination_host) /\
  one_avp children davp_origin_state_id (is_number uint32_t) d.(GxCCR_origin_state_id) /\
  many_avp children davp_subscription_id is_GxSubscriptionId d.(GxCCR_subscription_id) /\
  one_avp children davp_oc_supported_features is_GxOcSupportedFeatures d.(GxCCR_oc_supported_features) /\
  many_avp children davp_supported_features is_GxSupportedFeatures d.(GxCCR_supported_features) /\
  one_avp children davp_tdf_information is_GxTdfInformation d.(GxCCR_tdf_information) /\
  one_avp children davp_network_request_support (is_number int32_t) d.(GxCCR_network_request_support) /\
  many_avp children davp_packet_filter_information is_GxPacketFilterInformation d.(GxCCR_packet_filter_information) /\
  one_avp children davp_packet_filter_operation (is_number int32_t) d.(GxCCR_packet_filter_operation) /\
  one_avp children davp_bearer_identifier (is_octets GX_BEARER_IDENTIFIER_LEN) d.(GxCCR_bearer_identifier) /\
  one_avp children davp_bearer_operation (is_number int32_t) d.(GxCCR_bearer_operation) /\
  one_avp children davp_dynamic_address_flag (is_number int32_t) d.(GxCCR_dynamic_address_flag) /\
  one_avp children davp_dynamic_address_flag_extension (is_number int32_t) d.(GxCCR_dynamic_address_flag_extension) /\
  one_avp children davp_pdn_connection_charging_id (is_number uint32_t) d.(GxCCR_pdn_connection_charging_id) /\
  one_avp children davp_framed_ip_address (is_octets GX_FRAMED_IP_ADDRESS_LEN) d.(GxCCR_framed_ip_address) /\
  one_avp children davp_framed_ipv6_prefix (is_octets GX_FRAMED_IPV6_PREFIX_LEN) d.(GxCCR_framed_ipv6_prefix) /\
  one_avp children davp_ip_can_type (is_number int32_t) d.(GxCCR_ip_can_type) /\
  one_avp children davp_3gpp_rat_type (is_octets GX_3GPP_RAT_TYPE_LEN) d.(GxCCR_tgpp_rat_type) /\
  one_avp children davp_an_trusted (is_number int32_t) d.(GxCCR_an_trusted) /\
  one_avp children davp_rat_type (is_number int32_t) d.(GxCCR_rat_type) /\
  one_avp children davp_termination_cause (is_number int32_t) d.(GxCCR_termination_cause) /\
  one_avp children davp_user_equipment_info is_GxUserEquipmentInfo d.(GxCCR_user_equipment_info) /\
  one_avp children davp_qos_information is_GxQosInformation d.(GxCCR_qos_information) /\
  one_avp children davp_qos_negotiation (is_number int32_t) d.(GxCCR_qos_negotiation) /\
  one_avp children davp_qos_upgrade (is_number int32_t) d.(GxCCR_qos_upgrade) /\
  one_avp children davp_default_eps_bearer_qos is_GxDefaultEpsBearerQos d.(GxCCR_default_eps_bearer_qos) /\
  one_avp children davp_default_qos_information is_GxDefaultQosInformation d.(GxCCR_default_qos_information) /\
  many_avp children davp_an_gw_address is_address d.(GxCCR_an_gw_address) /\
  one_avp children davp_an_gw_status (is_number int32_t) d.(GxCCR_an_gw_status) /\
  one_avp children davp_3gpp_sgsn_mcc_mnc (is_octets GX_3GPP_SGSN_MCC_MNC_LEN) d.(GxCCR_tgpp_sgsn_mcc_mnc) /\
  one_avp children davp_3gpp_sgsn_address (is_octets GX_3GPP_SGSN_ADDRESS_LEN) d.(GxCCR_tgpp_sgsn_address) /\
  one_avp children davp_3gpp_sgsn_ipv6_address (is_octets GX_3GPP_SGSN_IPV6_ADDRESS_LEN) d.(GxCCR_tgpp_sgsn_ipv6_address) /\
  one_avp children davp_3gpp_ggsn_address (is_octets GX_3GPP_GGSN_ADDRESS_LEN) d.(GxCCR_tgpp_ggsn_address) /\
  one_avp children davp_3gpp_ggsn_ipv6_address (is_octets GX_3GPP_GGSN_IPV6_ADDRESS_LEN) d.(GxCCR_tgpp_ggsn_ipv6_address) /\
  one_avp children davp_3gpp_selection_mode (is_octets GX_3GPP_SELECTION_MODE_LEN) d.(GxCCR_tgpp_selection_mode) /\
  one_avp children davp_rai (is_octets GX_RAI_LEN) d.(GxCCR_rai) /\
  one_avp children davp_3gpp_user_location_info (is_octets GX_3GPP_USER_LOCATION_INFO_LEN) d.(GxCCR_tgpp_user_location_info) /\
  one_avp children davp_fixed_user_location_info is_GxFixedUserLocationInfo d.(GxCCR_fixed_user_location_info) /\
  one_avp children davp_user_location_info_time is_time d.(GxCCR_user_location_info_time) /\
  one_avp children davp_user_csg_information is_GxUserCsgInformation d.(GxCCR_user_csg_information) /\
  one_avp children davp_twan_identifier (is_octets GX_TWAN_IDENTIFIER_LEN) d.(GxCCR_twan_identifier) /\
  one_avp children davp_3gpp_ms_timezone (is_octets GX_3GPP_MS_TIMEZONE_LEN) d.(GxCCR_tgpp_ms_timezone) /\
  many_avp children davp_ran_nas_release_cause (is_octets GX_RAN_NAS_RELEASE_CAUSE_LEN) d.(GxCCR_ran_nas_release_cause) /\
  one_avp children davp_3gpp_charging_characteristics (is_octets GX_3GPP_CHARGING_CHARACTERISTICS_LEN) d.(GxCCR_tgpp_charging_characteristics) /\
  one_avp children davp_called_station_id (is_octets GX_CALLED_STATION_ID_LEN) d.(GxCCR_called_station_id) /\
  one_avp children davp_pdn_connection_id (is_octets GX_PDN_CONNECTION_ID_LEN) d.(GxCCR_pdn_connection_id) /\
  one_avp children davp_bearer_usage (is_number int32_t) d.(GxCCR_bearer_usage) /\
  one_avp children davp_online (is_number int32_t) d.(GxCCR_online) /\
  one_avp children davp_offline (is_number int32_t) d.(GxCCR_offline) /\
  many_avp children davp_tft_packet_filter_information is_GxTftPacketFilterInformation d.(GxCCR_tft_packet_filter_information) /\
  many_avp children davp_charging_rule_report is_GxChargingRuleReport d.(GxCCR_charging_rule_report) /\
  many_avp children davp_application_detection_information is_GxApplicationDetectionInformation d.(GxCCR_application_detection_information) /\
  many_avp children davp_event_trigger (is_number int32_t) d.(GxCCR_event_trigger) /\
  one_avp children davp_event_report_indication is_GxEventReportIndication d.(GxCCR_event_report_indication) /\
  one_avp children davp_access_network_charging_address is_address d.(GxCCR_access_network_charging_address) /\
  many_avp children davp_access_network_charging_identifier_gx is_GxAccessNetworkChargingIdentifierGx d.(GxCCR_access_network_charging_identifier_gx) /\
  many_avp children davp_coa_information is_GxCoaInformation d.(GxCCR_coa_information) /\
  many_avp children davp_usage_monitoring_information is_GxUsageMonitoringInformation d.(GxCCR_usage_monitoring_information) /\
  one_avp children davp_nbifom_support (is_number int32_t) d.(GxCCR_nbifom_support) /\
  one_avp children davp_nbifom_mode (is_number int32_t) d.(GxCCR_nbifom_mode) /\
  one_avp children davp_default_access (is_number int32_t) d.(GxCCR_default_access) /\
  one_avp children davp_origination_time_stamp (is_number uint64_t) d.(GxCCR_origination_time_stamp) /\
  one_avp children davp_maximum_wait_time (is_number uint32_t) d.(GxCCR_maximum_wait_time) /\
  one_avp children davp_access_availability_change_reason (is_number uint32_t) d.(GxCCR_access_availability_change_reason) /\
  one_avp children davp_routing_rule_install is_GxRoutingRuleInstall d.(GxCCR_routing_rule_install) /\
  one_avp children davp_routing_rule_remove is_GxRoutingRuleRemove d.(GxCCR_routing_rule_remove) /\
  one_avp children davp_henb_local_ip_address is_address d.(GxCCR_henb_local_ip_address) /\
  one_avp children davp_ue_local_ip_address is_address d.(GxCCR_ue_local_ip_address) /\
  one_avp children davp_udp_source_port (is_number uint32_t) d.(GxCCR_udp_source_port) /\
  one_avp children davp_tcp_source_port (is_number uint32_t) d.(GxCCR_tcp_source_port) /\
  many_avp children davp_presence_reporting_area_information is_GxPresenceReportingAreaInformation d.(GxCCR_presence_reporting_area_information) /\
  one_avp children davp_logical_access_id (is_octets GX_LOGICAL_ACCESS_ID_LEN) d.(GxCCR_logical_access_id) /\
  one_avp children davp_physical_access_id (is_octets GX_PHYSICAL_ACCESS_ID_LEN) d.(GxCCR_physical_access_id) /\
  many_avp children davp_proxy_info is_GxProxyInfo d.(GxCCR_proxy_info) /\
  many_avp children davp_route_record (is_octets GX_ROUTE_RECORD_LEN) d.(GxCCR_route_record) /\
  one_avp children davp_3gpp_ps_data_off_status (is_number int32_t) d.(GxCCR_tgpp_ps_data_off_status) /\
  True.

Definition avps_GxLoad (children : list avp) (d : GxLoad) : Prop :=
  one_avp children davp_load_type (is_number int32_t) d.(GxLoad_load_type) /\
  one_avp children davp_load_value (is_number uint64_t) d.(GxLoad_load_value) /\
  one_avp children davp_sourceid (is_octets GX_SOURCEID_LEN) d.(GxLoad_sourceid) /\
  True.

Definition is_GxLoad (a : avp) (d : GxLoad) : Prop := avps_GxLoad (avp_children a) d.

Definition avps_GxFailedAvp (children : list avp) (d : GxFailedAvp) : Prop :=
  True.

Definition is_GxFailedAvp (a : avp) (d : GxFailedAvp) : Prop := avps_GxFailedAvp (avp_children a) d.

Definition avps_GxConditionalPolicyInformation (children : list avp) (d : GxConditionalPolicyInformation) : Prop :=
  one_avp children davp_execution_time is_time d.(GxConditionalPolicyInformation_execution_time) /\
  one_avp children davp_default_eps_bearer_qos is_GxDefaultEpsBearerQos d.(GxConditionalPolicyInformation_default_eps_bearer_qos) /\
  one_avp children davp_apn_aggregate_max_bitrate_ul (is_number uint32_t) d.(GxConditionalPolicyInformation_apn_aggregate_max_bitrate_ul) /\
  one_avp children davp_apn_aggregate_max_bitrate_dl (is_number uint32_t) d.(GxConditionalPolicyInformation_apn_aggregate_max_bitrate_dl) /\
  one_avp children davp_extended_apn_ambr_ul (is_number uint32_t) d.(GxConditionalPolicyInformation_extended_apn_ambr_ul) /\
  one_avp children davp_extended_apn_ambr_dl (is_number uint32_t) d.(GxConditionalPolicyInformation_extended_apn_ambr_dl) /\
  many_avp children davp_conditional_apn_aggregate_max_bitrate is_GxConditionalApnAggregateMaxBitrate d.(GxConditionalPolicyInformation_conditional_apn_aggregate_max_bitrate) /\
  True.

Definition is_GxConditionalPolicyInformation (a : avp) (d : GxConditionalPolicyInformation) : Prop := avps_GxConditionalPolicyInformation (avp_children a) d.

Definition avps_GxRoutingRuleReport (children : list avp) (d : GxRoutingRuleReport) : Prop :=
  many_avp children davp_routing_rule_identifier (is_octets GX_ROUTING_RULE_IDENTIFIER_LEN) d.(GxRoutingRuleReport_routing_rule_identifier) /\
  one_avp children davp_pcc_rule_status (is_number int32_t) d.(GxRoutingRuleReport_pcc_rule_status) /\
  one_avp children davp_routing_rule_failure_code (is_number uint32_t) d.(GxRoutingRuleReport_routing_rule_failure_code) /\
  True.

Definition is_GxRoutingRuleReport (a : avp) (d : GxRoutingRuleReport) : Prop := avps_GxRoutingRuleReport (avp_children a) d.

Definition avps_GxPraRemove (children : list avp) (d : GxPraRemove) : Prop :=
  many_avp children davp_presence_reporting_area_identifier (is_octets GX_PRESENCE_REPORTING_AREA_IDENTIFIER_LEN) d.(GxPraRemove_presence_reporting_area_identifier) /\
  True.

Definition is_GxPraRemove (a : avp) (d : GxPraRemove) : Prop := avps_GxPraRemove (avp_children a) d.

Definition avps_GxPraInstall (children : list avp) (d : GxPraInstall) : Prop :=
  many_avp children davp_presence_reporting_area_information is_GxPresenceReportingAreaInformation d.(GxPraInstall_presence_reporting_area_information) /\
  True.

Definition is_GxPraInstall (a : avp) (d : GxPraInstall) : Prop := avps_GxPraInstall (avp_children a) d.

Definition avps_GxChargingInformation (children : list avp) (d : GxChargingInformation) : Prop :=
  one_avp children davp_primary_event_charging_function_name (is_octets GX_PRIMARY_EVENT_CHARGING_FUNCTION_NAME_LEN) d.(GxChargingInformation_primary_event_charging_function_name) /\
  one_avp children davp_secondary_event_charging_function_name (is_octets GX_SECONDARY_EVENT_CHARGING_FUNCTION_NAME_LEN) d.(GxChargingInformation_secondary_event_charging_function_name) /\
  one_avp children davp_primary_charging_collection_function_name (is_octets GX_PRIMARY_CHARGING_COLLECTION_FUNCTION_NAME_LEN) d.(GxChargingInformation_primary_charging_collection_function_name) /\
  one_avp children davp_secondary_charging_collection_function_name (is_octets GX_SECONDARY_CHARGING_COLLECTION_FUNCTION_NAME_LEN) d.(GxChargingInformation_secondary_charging_collection_function_name) /\
  True.

Definition is_GxChargingInformation (a : avp) (d : GxChargingInformation) : Prop := avps_GxChargingInformation (avp_children a) d.

Definition avps_GxRedirectInformation (children : list avp) (d : GxRedirectInformation) : Prop :=
  one_avp children davp_redirect_support (is_number int32_t) d.(GxRedirectInformation_redirect_support) /\
  one_avp children davp_redirect_address_type (is_number int32_t) d.(GxRedirectInformation_redirect_address_type) /\
  one_avp children davp_redirect_server_address (is_octets GX_REDIRECT_SERVER_ADDRESS_LEN) d.(GxRedirectInformation_redirect_server_address) /\
  True.

Definition is_GxRedirectInformation (a : avp) (d : GxRedirectInformation) : Prop := avps_GxRedirectInformation (avp_children a) d.

Definition avps_GxFlows (children : list avp) (d : GxFlows) : Prop :=
  one_avp children davp_media_component_number (is_number uint32_t) d.(GxFlows_media_component_number) /\
  many_avp children davp_flow_number (is_number uint32_t) d.(GxFlows_flow_number) /\
  many_avp children davp_content_version (is_number uint64_t) d.(GxFlows_content_version) /\
  one_avp children davp_final_unit_action (is_number int32_t) d.(GxFlows_final_unit_action) /\
  one_avp children davp_media_component_status (is_number uint32_t) d.(GxFlows_media_component_status) /\
  True.

Definition is_GxFlows (a : avp) (d : GxFlows) : Prop := avps_GxFlows (avp_children a) d.

Definition avps_GxChargingRuleDefinition (children : list avp) (d : GxChargingRuleDefinition) : Prop :=
  one_avp children davp_charging_rule_name (is_octets GX_CHARGING_RULE_NAME_LEN) d.(GxChargingRuleDefinition_charging_rule_name) /\
  one_avp children davp_service_identifier (is_number uint32_t) d.(GxChargingRuleDefinition_service_identifier) /\
  one_avp children davp_rating_group (is_number uint32_t) d.(GxChargingRuleDefinition_rating_group) /\
  many_avp children davp_flow_information is_GxFlowInformation d.(GxChargingRuleDefinition_flow_information) /\
  one_avp children davp_default_bearer_indication (is_number int32_t) d.(GxChargingRuleDefinition_default_bearer_indication) /\
  one_avp children davp_tdf_application_identifier (is_octets GX_TDF_APPLICATION_IDENTIFIER_LEN) d.(GxChargingRuleDefinition_tdf_application_identifier) /\
  one_avp children davp_flow_status (is_number int32_t) d.(GxChargingRuleDefinition_flow_status) /\
  one_avp children davp_qos_information is_GxQosInformation d.(GxChargingRuleDefinition_qos_information) /\
  one_avp children davp_ps_to_cs_session_continuity (is_number int32_t) d.(GxChargingRuleDefinition_ps_to_cs_session_continuity) /\
  one_avp children davp_reporting_level (is_number int32_t) d.(GxChargingRuleDefinition_reporting_level) /\
  one_avp children davp_online (is_number int32_t) d.(GxChargingRuleDefinition_online) /\
  one_avp children davp_offline (is_number int32_t) d.(GxChargingRuleDefinition_offline) /\
  one_avp children davp_max_plr_dl (is_number float) d.(GxChargingRuleDefinition_max_plr_dl) /\
  one_avp children davp_max_plr_ul (is_number float) d.(GxChargingRuleDefinition_max_plr_ul) /\
  one_avp children davp_metering_method (is_number int32_t) d.(GxChargingRuleDefinition_metering_method) /\
  one_avp children davp_precedence (is_number uint32_t) d.(GxChargingRuleDefinition_precedence) /\
  one_avp children davp_af_charging_identifier (is_octets GX_AF_CHARGING_IDENTIFIER_LEN) d.(GxChargingRuleDefinition_af_charging_identifier) /\
  many_avp children davp_flows is_GxFlows d.(GxChargingRuleDefinition_flows) /\
  one_avp children davp_monitoring_key (is_octets GX_MONITORING_KEY_LEN) d.(GxChargingRuleDefinition_monitoring_key) /\
  one_avp children davp_redirect_information is_GxRedirectInformation d.(GxChargingRuleDefinition_redirect_information) /\
  one_avp children davp_mute_notification (is_number int32_t) d.(GxChargingRuleDefinition_mute_notification) /\
  one_avp children davp_af_signalling_protocol (is_number int32_t) d.(GxChargingRuleDefinition_af_signalling_protocol) /\
  one_avp children davp_sponsor_identity (is_octets GX_SPONSOR_IDENTITY_LEN) d.(GxChargingRuleDefinition_sponsor_identity) /\
  one_avp children davp_application_service_provider_identity (is_octets GX_APPLICATION_SERVICE_PROVIDER_IDENTITY_LEN) d.(GxChargingRuleDefinition_application_service_provider_identity) /\
  many_avp children davp_required_access_info (is_number int32_t) d.(GxChargingRuleDefinition_required_access_info) /\
  one_avp children davp_sharing_key_dl (is_number uint32_t) d.(GxChargingRuleDefinition_sharing_key_dl) /\
  one_avp children davp_sharing_key_ul (is_number uint32_t) d.(GxChargingRuleDefinition_sharing_key_ul) /\
  one_avp children davp_traffic_steering_policy_identifier_dl (is_octets GX_TRAFFIC_STEERING_POLICY_IDENTIFIER_DL_LEN) d.(GxChargingRuleDefinition_traffic_steering_policy_identifier_dl) /\
  one_avp children davp_traffic_steering_policy_identifier_ul (is_octets GX_TRAFFIC_STEERING_POLICY_IDENTIFIER_UL_LEN) d.(GxChargingRuleDefinition_traffic_steering_policy_identifier_ul) /\
  one_avp children davp_content_version (is_number uint64_t) d.(GxChargingRuleDefinition_content_version) /\
  True.

Definition is_GxChargingRuleDefinition (a : avp) (d : GxChargingRuleDefinition) : Prop := avps_GxChargingRuleDefinition (avp_children a) d.

Definition avps_GxChargingRuleInstall (children : list avp) (d : GxChargingRuleInstall) : Prop :=
  many_avp children davp_charging_rule_definition is_GxChargingRuleDefinition d.(GxChargingRuleInstall_charging_rule_definition) /\
  many_avp children davp_charging_rule_name (is_octets GX_CHARGING_RULE_NAME_LEN) d.(GxChargingRuleInstall_charging_rule_name) /\
  many_avp children davp_charging_rule_base_name (is_octets GX_CHARGING_RULE_BASE_NAME_LEN) d.(GxChargingRuleInstall_charging_rule_base_name) /\
  one_avp children davp_bearer_identifier (is_octets GX_BEARER_IDENTIFIER_LEN) d.(GxChargingRuleInstall_bearer_identifier) /\
  one_avp children davp_monitoring_flags (is_number uint32_t) d.(GxChargingRuleInstall_monitoring_flags) /\
  one_avp children davp_rule_activation_time is_time d.(GxChargingRuleInstall_rule_activation_time) /\
  one_avp children davp_rule_deactivation_time is_time d.(GxChargingRuleInstall_rule_deactivation_time) /\
  one_avp children davp_resource_allocation_notification (is_number int32_t) d.(GxChargingRuleInstall_resource_allocation_notification) /\
  one_avp children davp_charging_correlation_indicator (is_number int32_t) d.(GxChargingRuleInstall_charging_correlation_indicator) /\
  one_avp children davp_ip_can_type (is_number int32_t) d.(GxChargingRuleInstall_ip_can_type) /\
  True.

Definition is_GxChargingRuleInstall (a : avp) (d : GxChargingRuleInstall) : Prop := avps_GxChargingRuleInstall (avp_children a) d.

Definition avps_GxChargingRuleRemove (children : list avp) (d : GxChargingRuleRemove) : Prop :=
  many_avp children davp_charging_rule_name (is_octets GX_CHARGING_RULE_NAME_LEN) d.(GxChargingRuleRemove_charging_rule_name) /\
  many_avp children davp_charging_rule_base_name (is_octets GX_CHARGING_RULE_BASE_NAME_LEN) d.(GxChargingRuleRemove_charging_rule_base_name) /\
  many_avp children davp_required_access_info (is_number int32_t) d.(GxChargingRuleRemove_required_access_info) /\
  one_avp children davp_resource_release_notification (is_number int32_t) d.(GxChargingRuleRemove_resource_release_notification) /\
  True.

Definition is_GxChargingRuleRemove (a : avp) (d : GxChargingRuleRemove) : Prop := avps_GxChargingRuleRemove (avp_children a) d.

Definition avps_GxOcOlr (children : list avp) (d : GxOcOlr) : Prop :=
  one_avp children davp_oc_sequence_number (is_number uint64_t) d.(GxOcOlr_oc_sequence_number) /\
  one_avp children davp_oc_report_type (is_number int32_t) d.(GxOcOlr_oc_report_type) /\
  one_avp children davp_oc_reduction_percentage (is_number uint32_t) d.(GxOcOlr_oc_reduction_percentage) /\
  one_avp children davp_oc_validity_duration (is_number uint32_t) d.(GxOcOlr_oc_validity_duration) /\
  True.

Definition is_GxOcOlr (a : avp) (d : GxOcOlr) : Prop := avps_GxOcOlr (avp_children a) d.

Definition avps_GxExperimentalResult (children : list avp) (d : GxExperimentalResult) : Prop :=
  one_avp children davp_vendor_id (is_number uint32_t) d.(GxExperimentalResult_vendor_id) /\
  one_avp children davp_experimental_result_code (is_number uint32_t) d.(GxExperimentalResult_experimental_result_code) /\
  True.

Definition is_GxExperimentalResult (a : avp) (d : GxExperimentalResult) : Prop := avps_GxExperimentalResult (avp_children a) d.

Definition avps_GxCCA (children : list avp) (d : GxCCA) : Prop :=
  one_avp children davp_session_id (is_octets GX_SESSION_ID_LEN) d.(GxCCA_session_id) /\
  one_avp children davp_drmp (is_number int32_t) d.(GxCCA_drmp) /\
  one_avp children davp_auth_application_id (is_number uint32_t) d.(GxCCA_auth_application_id) /\
  one_avp children davp_origin_host (is_octets GX_ORIGIN_HOST_LEN) d.(GxCCA_origin_host) /\
  one_avp children davp_origin_realm (is_octets GX_ORIGIN_REALM_LEN) d.(GxCCA_origin_realm) /\
  one_avp children davp_result_code (is_number uint32_t) d.(GxCCA_result_code) /\
  one_avp children davp_experimental_result is_GxExperimentalResult d.(GxCCA_experimental_result) /\
  one_avp children davp_cc_request_type (is_number int32_t) d.(GxCCA_cc_request_type) /\
  one_avp children davp_cc_request_number (is_number uint32_t) d.(GxCCA_cc_request_number) /\
  one_avp children davp_oc_supported_features is_GxOcSupportedFeatures d.(GxCCA_oc_supported_features) /\
  one_avp children davp_oc_olr is_GxOcOlr d.(GxCCA_oc_olr) /\
  many_avp children davp_supported_features is_GxSupportedFeatures d.(GxCCA_supported_features) /\
  one_avp children davp_bearer_control_mode (is_number int32_t) d.(GxCCA_bearer_control_mode) /\
  many_avp children davp_event_trigger (is_number int32_t) d.(GxCCA_event_trigger) /\
  one_avp children davp_event_report_indication is_GxEventReportIndication d.(GxCCA_event_report_indication) /\
  one_avp children davp_origin_state_id (is_number uint32_t) d.(GxCCA_origin_state_id) /\
  many_avp children davp_redirect_host (is_octets GX_REDIRECT_HOST_LEN) d.(GxCCA_redirect_host) /\
  one_avp children davp_redirect_host_usage (is_number int32_t) d.(GxCCA_redirect_host_usage) /\
  one_avp children davp_redirect_max_cache_time (is_number uint32_t) d.(GxCCA_redirect_max_cache_time) /\
  many_avp children davp_charging_rule_remove is_GxChargingRuleRemove d.(GxCCA_charging_rule_remove) /\
  many_avp children davp_charging_rule_install is_GxChargingRuleInstall d.(GxCCA_charging_rule_install) /\
  one_avp children davp_charging_information is_GxChargingInformation d.(GxCCA_charging_information) /\
  one_avp children davp_online (is_number int32_t) d.(GxCCA_online) /\
  one_avp children davp_offline (is_number int32_t) d.(GxCCA_offline) /\
  many_avp children davp_qos_information is_GxQosInformation d.(GxCCA_qos_information) /\
  one_avp children davp_revalidation_time is_time d.(GxCCA_revalidation_time) /\
  one_avp children davp_default_eps_bearer_qos is_GxDefaultEpsBearerQos d.(GxCCA_default_eps_bearer_qos) /\
  one_avp children davp_default_qos_information is_GxDefaultQosInformation d.(GxCCA_default_qos_information) /\
  one_avp children davp_bearer_usage (is_number int32_t) d.(GxCCA_bearer_usage) /\
  many_avp children davp_usage_monitoring_information is_GxUsageMonitoringInformation d.(GxCCA_usage_monitoring_information) /\
  many_avp children davp_csg_information_reporting (is_number int32_t) d.(GxCCA_csg_information_reporting) /\
  one_avp children davp_user_csg_information is_GxUserCsgInformation d.(GxCCA_user_csg_information) /\
  one_avp children davp_pra_install is_GxPraInstall d.(GxCCA_pra_install) /\
  one_avp children davp_pra_remove is_GxPraRemove d.(GxCCA_pra_remove) /\
  one_avp children davp_presence_reporting_area_information is_GxPresenceReportingAreaInformation d.(GxCCA_presence_reporting_area_information) /\
  one_avp children davp_session_release_cause (is_number int32_t) d.(GxCCA_session_release_cause) /\
  one_avp children davp_nbifom_support (is_number int32_t) d.(GxCCA_nbifom_support) /\
  one_avp children davp_nbifom_mode (is_number int32_t) d.(GxCCA_nbifom_mode) /\
  one_avp children davp_default_access (is_number int32_t) d.(GxCCA_default_access) /\
  one_avp children davp_ran_rule_support (is_number uint32_t) d.(GxCCA_ran_rule_support) /\
  many_avp children davp_routing_rule_report is_GxRoutingRuleReport d.(GxCCA_routing_rule_report) /\
  many_avp children davp_conditional_policy_information is_GxConditionalPolicyInformation d.(GxCCA_conditional_policy_information) /\
  one_avp children davp_removal_of_access (is_number int32_t) d.(GxCCA_removal_of_access) /\
  one_avp children davp_ip_can_type (is_number int32_t) d.(GxCCA_ip_can_type) /\
  one_avp children davp_error_message (is_octets GX_ERROR_MESSAGE_LEN) d.(GxCCA_error_message) /\
  one_avp children davp_error_reporting_host (is_octets GX_ERROR_REPORTING_HOST_LEN) d.(GxCCA_error_reporting_host) /\
  one_avp children davp_failed_avp is_GxFailedAvp d.(GxCCA_failed_avp) /\
  many_avp children davp_proxy_info is_GxProxyInfo d.(GxCCA_proxy_info) /\
  many_avp children davp_route_record (is_octets GX_ROUTE_RECORD_LEN) d.(GxCCA_route_record) /\
  many_avp children davp_load is_GxLoad d.(GxCCA_load) /\
  True.

Definition avps_GxRAA (children : list avp) (d : GxRAA) : Prop :=
  one_avp children davp_session_id (is_octets GX_SESSION_ID_LEN) d.(GxRAA_session_id) /\
  one_avp children davp_drmp (is_number int32_t) d.(GxRAA_drmp) /\
  one_avp children davp_origin_host (is_octets GX_ORIGIN_HOST_LEN) d.(GxRAA_origin_host) /\
  one_avp children davp_origin_realm (is_octets GX_ORIGIN_REALM_LEN) d.(GxRAA_origin_realm) /\
  one_avp children davp_result_code (is_number uint32_t) d.(GxRAA_result_code) /\
  one_avp children davp_experimental_result is_GxExperimentalResult d.(GxRAA_experimental_result) /\
  one_avp children davp_origin_state_id (is_number uint32_t) d.(GxRAA_origin_state_id) /\
  one_avp children davp_oc_supported_features is_GxOcSupportedFeatures d.(GxRAA_oc_supported_features) /\
  one_avp children davp_oc_olr is_GxOcOlr d.(GxRAA_oc_olr) /\
  one_avp children davp_ip_can_type (is_number int32_t) d.(GxRAA_ip_can_type) /\
  one_avp children davp_rat_type (is_number int32_t) d.(GxRAA_rat_type) /\
  one_avp children davp_an_trusted (is_number int32_t) d.(GxRAA_an_trusted) /\
  many_avp children davp_an_gw_address is_address d.(GxRAA_an_gw_address) /\
  one_avp children davp_3gpp_sgsn_mcc_mnc (is_octets GX_3GPP_SGSN_MCC_MNC_LEN) d.(GxRAA_tgpp_sgsn_mcc_mnc) /\
  one_avp children davp_3gpp_sgsn_address (is_octets GX_3GPP_SGSN_ADDRESS_LEN) d.(GxRAA_tgpp_sgsn_address) /\
  one_avp children davp_3gpp_sgsn_ipv6_address (is_octets GX_3GPP_SGSN_IPV6_ADDRESS_LEN) d.(GxRAA_tgpp_sgsn_ipv6_address) /\
  one_avp children davp_rai (is_octets GX_RAI_LEN) d.(GxRAA_rai) /\
  one_avp children davp_3gpp_user_location_info (is_octets GX_3GPP_USER_LOCATION_INFO_LEN) d.(GxRAA_tgpp_user_location_info) /\
  one_avp children davp_user_location_info_time is_time d.(GxRAA_user_location_info_time) /\
  one_avp children davp_netloc_access_support (is_number uint32_t) d.(GxRAA_netloc_access_support) /\
  one_avp children davp_user_csg_information is_GxUserCsgInformation d.(GxRAA_user_csg_information) /\
  one_avp children davp_3gpp_ms_timezone (is_octets GX_3GPP_MS_TIMEZONE_LEN) d.(GxRAA_tgpp_ms_timezone) /\
  one_avp children davp_default_qos_information is_GxDefaultQosInformation d.(GxRAA_default_qos_information) /\
  many_avp children davp_charging_rule_report is_GxChargingRuleReport d.(GxRAA_charging_rule_report) /\
  one_avp children davp_error_message (is_octets GX_ERROR_MESSAGE_LEN) d.(GxRAA_error_message) /\
  one_avp children davp_error_reporting_host (is_octets GX_ERROR_REPORTING_HOST_LEN) d.(GxRAA_error_reporting_host) /\
  one_avp children davp_failed_avp is_GxFailedAvp d.(GxRAA_failed_avp) /\
  many_avp children davp_proxy_info is_GxProxyInfo d.(GxRAA_proxy_info) /\
  True.

Definition avps_GxRAR (children : list avp) (d : GxRAR) : Prop :=
  one_avp children davp_session_id (is_octets GX_SESSION_ID_LEN) d.(GxRAR_session_id) /\
  one_avp children davp_drmp (is_number int32_t) d.(GxRAR_drmp) /\
  one_avp children davp_auth_application_id (is_number uint32_t) d.(GxRAR_auth_application_id) /\
  one_avp children davp_origin_host (is_octets GX_ORIGIN_HOST_LEN) d.(GxRAR_origin_host) /\
  one_avp children davp_origin_realm (is_octets GX_ORIGIN_REALM_LEN) d.(GxRAR_origin_realm) /\
  one_avp children davp_destination_realm (is_octets GX_DESTINATION_REALM_LEN) d.(GxRAR_destination_realm) /\
  one_avp children davp_destination_host (is_octets GX_DESTINATION_HOST_LEN) d.(GxRAR_destination_host) /\
  one_avp children davp_re_auth_request_type (is_number int32_t) d.(GxRAR_re_auth_request_type) /\
  one_avp children davp_session_release_cause (is_number int32_t) d.(GxRAR_session_release_cause) /\
  one_avp children davp_origin_state_id (is_number uint32_t) d.(GxRAR_origin_state_id) /\
  one_avp children davp_oc_supported_features is_GxOcSupportedFeatures d.(GxRAR_oc_supported_features) /\
  many_avp children davp_event_trigger (is_number int32_t) d.(GxRAR_event_trigger) /\
  one_avp children davp_event_report_indication is_GxEventReportIndication d.(GxRAR_event_report_indication) /\
  many_avp children davp_charging_rule_remove is_GxChargingRuleRemove d.(GxRAR_charging_rule_remove) /\
  many_avp children davp_charging_rule_install is_GxChargingRuleInstall d.(GxRAR_charging_rule_install) /\
  one_avp children davp_default_eps_bearer_qos is_GxDefaultEpsBearerQos d.(GxRAR_default_eps_bearer_qos) /\
  many_avp children davp_qos_information is_GxQosInformation d.(GxRAR_qos_information) /\
  one_avp children davp_default_qos_information is_GxDefaultQosInformation d.(GxRAR_default_qos_information) /\
  one_avp children davp_revalidation_time is_time d.(GxRAR_revalidation_time) /\
  many_avp children davp_usage_monitoring_information is_GxUsageMonitoringInformation d.(GxRAR_usage_monitoring_information) /\
  one_avp children davp_pcscf_restoration_indication (is_number uint32_t) d.(GxRAR_pcscf_restoration_indication) /\
  many_avp children davp_conditional_policy_information is_GxConditionalPolicyInformation d.(GxRAR_conditional_policy_information) /\
  one_avp children davp_removal_of_access (is_number int32_t) d.(GxRAR_removal_of_access) /\
  one_avp children davp_ip_can_type (is_number int32_t) d.(GxRAR_ip_can_type) /\
  one_avp children davp_pra_install is_GxPraInstall d.(GxRAR_pra_install) /\
  one_avp children davp_pra_remove is_GxPraRemove d.(GxRAR_pra_remove) /\
  many_avp children davp_csg_information_reporting (is_number int32_t) d.(GxRAR_csg_information_reporting) /\
  many_avp children davp_proxy_info is_GxProxyInfo d.(GxRAR_proxy_info) /\
  many_avp children davp_route_record (is_octets GX_ROUTE_RECORD_LEN) d.(GxRAR_route_record) /\
  True.

End Specs.

(** ** Messages to evaluate with *)

(** A Re-Auth-Request: session, two event triggers around an AVP of an unknown code,
    a default QoS inside a grouped AVP. *)
Definition number_avp (d : davp) (z : Z) : avp := Avp (gxDict d) (Some (AvpNumber (le_bytes 4 z))) [].
Definition octets_avp (d : davp) (os : list byte) : avp := Avp (gxDict d) (Some (AvpOctets os)) [].

Definition sample_rar_avps : list avp :=
  [octets_avp davp_session_id [x73; x31];
   number_avp davp_event_trigger 17;
   Avp 70000 None [];
   Avp (gxDict davp_default_eps_bearer_qos) None [number_avp davp_qos_class_identifier 9];
   number_avp davp_event_trigger 18].

Definition sample_received_rar : GxRAR :=
  mkGxRAR (Some [x73; x31]) None None None None None None None None None None
    (Some [17; 18]) None None None (Some (mkGxDefaultEpsBearerQos (Some 9) None)) None None None None
    None None None None None None None None None.

Definition sample_cca_avps : list avp := [number_avp davp_cc_request_type 1; octets_avp davp_session_id [x61]].

Definition sample_received_cca : GxCCA :=
  mkGxCCA (Some [x61]) None None None None None None (Some 1) None None None None None None None None
    None None None None None None None None None None None None None None None None None None None None
    None None None None None None None None None None None None None None.


(** ** One tactic for all structures *)

Ltac gx_read_member :=
  intros ? ? ?; cbn beta;
  lazymatch goal with
  | |- avp_number _ _ = _ => apply avp_number_spec; [exact _|assumption]
  | |- FD_PARSE_OCTETSTRING _ _ = _ => apply octets_spec; [split; [done|by vm_compute]|done]
  | |- FD_PARSE_TIME _ = _ => by apply time_spec
  | |- FD_PARSE_ADDRESS _ = _ => by apply address_spec
  | |- _ => cbn [default from_option id]; solve [eauto with gx_parse]
  end.

Ltac gx_reads H :=
  cbn [reads fst snd NUMBER OCTETSTRING TIME ADDRESS PARSE_DIRECT
    LIST_NUMBER LIST_OCTETSTRING LIST_TIME LIST_ADDRESS LIST_PARSE_DIRECT];
  hnf in H;
  repeat (let H1 := fresh in lazymatch type of H with _ /\ _ => idtac end; destruct H as [H1 H]; split;
    [first [eapply one_avp_mono; [|exact H1] | eapply many_avp_mono; [|exact H1]]; gx_read_member
    |clear H1]);
  exact I.

(** [parse] the parser unfolded, [of] and [to] the two views of the structure. *)
Ltac gx_parses H d to zero ms :=
  change (to zero) with (empty_data ms);
  rewrite (parse_group_reads ms _ (to d));
  [by destruct d
  |apply (bool_decide_unpack _); vm_compute; exact I
  |].

Create HintDb gx_parse.

Section Parsers.
Context {G : GxDict} {HG : GxDictOk G}.

Lemma parseGxProxyInfo_reads a d : is_GxProxyInfo a d -> parseGxProxyInfo a zero_GxProxyInfo = Ok d.
Proof. intros H. unfold parseGxProxyInfo. gx_parses H d GxProxyInfo_data zero_GxProxyInfo GxProxyInfo_members.
  unfold GxProxyInfo_data, GxProxyInfo_members. gx_reads H.
Qed.
#[local] Hint Resolve parseGxProxyInfo_reads : gx_parse.

Lemma parseGxPresenceReportingAreaInformation_reads a d : is_GxPresenceReportingAreaInformation a d -> parseGxPresenceReportingAreaInformation a zero_GxPresenceReportingAreaInformation = Ok d.
Proof. intros H. unfold parseGxPresenceReportingAreaInformation. gx_parses H d GxPresenceReportingAreaInformation_data zero_GxPresenceReportingAreaInformation GxPresenceReportingAreaInformation_members.
  unfold GxPresenceReportingAreaInformation_data, GxPresenceReportingAreaInformation_members. gx_reads H.
Qed.
#[local] Hint Resolve parseGxPresenceReportingAreaInformation_reads : gx_parse.

Lemma parseGxRoutingRuleRemove_reads a d : is_GxRoutingRuleRemove a d -> parseGxRoutingRuleRemove a zero_GxRoutingRuleRemove = Ok d.
Proof. intros H. unfold parseGxRoutingRuleRemove. gx_parses H d GxRoutingRuleRemove_data zero_GxRoutingRuleRemove GxRoutingRuleRemove_members.
  unfold GxRoutingRuleRemove_data, GxRoutingRuleRemove_members. gx_reads H.
Qed.
#[local] Hint Resolve parseGxRoutingRuleRemove_reads : gx_parse.

Lemma parseGxRoutingFilter_reads a d : is_GxRoutingFilter a d -> parseGxRoutingFilter a zero_GxRoutingFilter = Ok d.
Proof. intros H. unfold parseGxRoutingFilter. gx_parses H d GxRoutingFilter_data zero_GxRoutingFilter GxRoutingFilter_members.
  unfold GxRoutingFilter_data, GxRoutingFilter_members. gx_reads H.
Qed.
#[local] Hint Resolve parseGxRoutingFilter_reads : gx_parse.

Lemma parseGxRoutingRuleDefinition_reads a d : is_GxRoutingRuleDefinition a d -> parseGxRoutingRuleDefinition a zero_GxRoutingRuleDefinition = Ok d.
Proof. intros H. unfold parseGxRoutingRuleDefinition. gx_parses H d GxRoutingRuleDefinition_data zero_GxRoutingRuleDefinition GxRoutingRuleDefinition_members.
  unfold GxRoutingRuleDefinition_data, GxRoutingRuleDefinition_members. gx_reads H.
Qed.
#[local] Hint Resolve parseGxRoutingRuleDefinition_reads : gx_parse.

Lemma parseGxRoutingRuleInstall_reads a d : is_GxRoutingRuleInstall a d -> parseGxRoutingRuleInstall a zero_GxRoutingRuleInstall = Ok d.
Proof. intros H. unfold parseGxRoutingRuleInstall. gx_parses H d GxRoutingRuleInstall_data zero_GxRoutingRuleInstall GxRoutingRuleInstall_members.
  unfold GxRoutingRuleInstall_data, GxRoutingRuleInstall_members. gx_reads H.
Qed.
#[local] Hint Resolve parseGxRoutingRuleInstall_reads : gx_parse.

Lemma parseGxUnitValue_reads a d : is_GxUnitValue a d -> parseGxUnitValue a zero_GxUnitValue = Ok d.
Proof. intros H. unfold parseGxUnitValue. gx_parses H d GxUnitValue_data zero_GxUnitValue GxUnitValue_members.
  unfold GxUnitValue_data, GxUnitValue_members. gx_reads H.
Qed.
#[local] Hint Resolve parseGxUnitValue_reads : gx_parse.

Lemma parseGxCcMoney_reads a d : is_GxCcMoney a d -> parseGxCcMoney a zero_GxCcMoney = Ok d.
Proof. intros H. unfold parseGxCcMoney. gx_parses H d GxCcMoney_data zero_GxCcMoney GxCcMoney_members.
  unfold GxCcMoney_data, GxCcMoney_members. gx_reads H.
Qed.
#[local] Hint Resolve parseGxCcMoney_reads : gx_parse.

Lemma parseGxUsedServiceUnit_reads a d : is_GxUsedServiceUnit a d -> parseGxUsedServiceUnit a zero_GxUsedServiceUnit = Ok d.
Proof. intros H. unfold parseGxUsedServiceUnit. gx_parses H d GxUsedServiceUnit_data zero_GxUsedServiceUnit GxUsedServiceUnit_members.
  unfold GxUsedServiceUnit_data, GxUsedServiceUnit_members. gx_reads H.
Qed.
#[local] Hint Resolve parseGxUsedServiceUnit_reads : gx_parse.

Lemma parseGxGrantedServiceUnit_reads a d : is_GxGrantedServiceUnit a d -> parseGxGrantedServiceUnit a zero_GxGrantedServiceUnit = Ok d.
Proof. intros H. unfold parseGxGrantedServiceUnit. gx_parses H d GxGrantedServiceUnit_data zero_GxGrantedServiceUnit GxGrantedServiceUnit_members.
  unfold GxGrantedServiceUnit_data, GxGrantedServiceUnit_members. gx_reads H.
Qed.
#[local] Hint Resolve parseGxGrantedServiceUnit_reads : gx_parse.

Lemma parseGxUsageMonitoringInformation_reads a d : is_GxUsageMonitoringInformation a d -> parseGxUsageMonitoringInformation a zero_GxUsageMonitoringInformation = Ok d.
Proof. intros H. unfold parseGxUsageMonitoringInformation. gx_parses H d GxUsageMonitoringInformation_data zero_GxUsageMonitoringInformation GxUsageMonitoringInformation_members.
  unfold GxUsageMonitoringInformation_data, GxUsageMonitoringInformation_members. gx_reads H.
Qed.
#[local] Hint Resolve parseGxUsageMonitoringInformation_reads : gx_parse.

Lemma parseGxTunnelInformation_reads a d : is_GxTunnelInformation a d -> parseGxTunnelInformation a zero_GxTunnelInformation = Ok d.
Proof. intros H. unfold parseGxTunnelInformation. gx_parses H d GxTunnelInformation_data zero_GxTunnelInformation GxTunnelInformation_members.
  unfold GxTunnelInformation_data, GxTunnelInformation_members. gx_reads H.
Qed.
#[local] Hint Resolve parseGxTunnelInformation_reads : gx_parse.

Lemma parseGxCoaInformation_reads a d : is_GxCoaInformation a d -> parseGxCoaInformation a zero_GxCoaInformation = Ok d.
Proof. intros H. unfold parseGxCoaInformation. gx_parses H d GxCoaInformation_data zero_GxCoaInformation GxCoaInformation_members.
  unfold GxCoaInformation_data, GxCoaInformation_members. gx_reads H.
Qed.
#[local] Hint Resolve parseGxCoaInformation_reads : gx_parse.

Lemma parseGxAccessNetworkChargingIdentifierGx_reads a d : is_GxAccessNetworkChargingIdentifierGx a d -> parseGxAccessNetworkChargingIdentifierGx a zero_GxAccessNetworkChargingIdentifierGx = Ok d.
Proof. intros H. unfold parseGxAccessNetworkChargingIdentifierGx. gx_parses H d GxAccessNetworkChargingIdentifierGx_data zero_GxAccessNetworkChargingIdentifierGx GxAccessNetworkChargingIdentifierGx_members.
  unfold GxAccessNetworkChargingIdentifierGx_data, GxAccessNetworkChargingIdentifierGx_members. gx_reads H.
Qed.
#[local] Hint Resolve parseGxAccessNetworkChargingIdentifierGx_reads : gx_parse.

Lemma parseGxMbsfnArea_reads a d : is_GxMbsfnArea a d -> parseGxMbsfnArea a zero_GxMbsfnArea = Ok d.
Proof. intros H. unfold parseGxMbsfnArea. gx_parses H d GxMbsfnArea_data zero_GxMbsfnArea GxMbsfnArea_members.
  unfold GxMbsfnArea_data, GxMbsfnArea_members. gx_reads H.
Qed.
#[local] Hint Resolve parseGxMbsfnArea_reads : gx_parse.

Lemma parseGxAreaScope_reads a d : is_GxAreaScope a d -> parseGxAreaScope a zero_GxAreaScope = Ok d.
Proof. intros H. unfold parseGxAreaScope. gx_parses H d GxAreaScope_data zero_GxAreaScope GxAreaScope_members.
  unfold GxAreaScope_data, GxAreaScope_members. gx_reads H.
Qed.
#[local] Hint Resolve parseGxAreaScope_reads : gx_parse.

Lemma parseGxMdtConfiguration_reads a d : is_GxMdtConfiguration a d -> parseGxMdtConfiguration a zero_GxMdtConfiguration = Ok d.
Proof. intros H. unfold parseGxMdtConfiguration. gx_parses H d GxMdtConfiguration_data zero_GxMdtConfiguration GxMdtConfiguration_members.
  unfold GxMdtConfiguration_data, GxMdtConfiguration_members. gx_reads H.
Qed.
#[local] Hint Resolve parseGxMdtConfiguration_reads : gx_parse.

Lemma parseGxTraceData_reads a d : is_GxTraceData a d -> parseGxTraceData a zero_GxTraceData = Ok d.
Proof. intros H. unfold parseGxTraceData. gx_parses H d GxTraceData_data zero_GxTraceData GxTraceData_members.
  unfold GxTraceData_data, GxTraceData_members. gx_reads H.
Qed.
#[local] Hint Resolve parseGxTraceData_reads : gx_parse.

Lemma parseGxUserCsgInformation_reads a d : is_GxUserCsgInformation a d -> parseGxUserCsgInformation a zero_GxUserCsgInformation = Ok d.
Proof. intros H. unfold parseGxUserCsgInformation. gx_parses H d GxUserCsgInformation_data zero_GxUserCsgInformation GxUserCsgInformation_members.
  unfold GxUserCsgInformation_data, GxUserCsgInformation_members. gx_reads H.
Qed.
#[local] Hint Resolve parseGxUserCsgInformation_reads : gx_parse.

Lemma parseGxEventReportIndication_reads a d : is_GxEventReportIndication a d -> parseGxEventReportIndication a zero_GxEventReportIndication = Ok d.
Proof. intros H. unfold parseGxEventReportIndication. gx_parses H d GxEventReportIndication_data zero_GxEventReportIndication GxEventReportIndication_members.
  unfold GxEventReportIndication_data, GxEventReportIndication_members. gx_reads H.
Qed.
#[local] Hint Resolve parseGxEventReportIndication_reads : gx_parse.

Lemma parseGxFlowInformation_reads a d : is_GxFlowInformation a d -> parseGxFlowInformation a zero_GxFlowInformation = Ok d.
Proof. intros H. unfold parseGxFlowInformation. gx_parses H d GxFlowInformation_data zero_GxFlowInformation GxFlowInformation_members.
  unfold GxFlowInformation_data, GxFlowInformation_members. gx_reads H.
Qed.
#[local] Hint Resolve parseGxFlowInformation_reads : gx_parse.

Lemma parseGxApplicationDetectionInformation_reads a d : is_GxApplicationDetectionInformation a d -> parseGxApplicationDetectionInformation a zero_GxApplicationDetectionInformation = Ok d.
Proof. intros H. unfold parseGxApplicationDetectionInformation. gx_parses H d GxApplicationDetectionInformation_data zero_GxApplicationDetectionInformation GxApplicationDetectionInformation_members.
  unfold GxApplicationDetectionInformation_data, GxApplicationDetectionInformation_members. gx_reads H.
Qed.
#[local] Hint Resolve parseGxApplicationDetectionInformation_reads : gx_parse.

Lemma parseGxRedirectServer_reads a d : is_GxRedirectServer a d -> parseGxRedirectServer a zero_GxRedirectServer = Ok d.
Proof. intros H. unfold parseGxRedirectServer. gx_parses H d GxRedirectServer_data zero_GxRedirectServer GxRedirectServer_members.
  unfold GxRedirectServer_data, GxRedirectServer_members. gx_reads H.
Qed.
#[local] Hint Resolve parseGxRedirectServer_reads : gx_parse.

Lemma parseGxFinalUnitIndication_reads a d : is_GxFinalUnitIndication a d -> parseGxFinalUnitIndication a zero_GxFinalUnitIndication = Ok d.
Proof. intros H. unfold parseGxFinalUnitIndication. gx_parses H d GxFinalUnitIndication_data zero_GxFinalUnitIndication GxFinalUnitIndication_members.
  unfold GxFinalUnitIndication_data, GxFinalUnitIndication_members. gx_reads H.
Qed.
#[local] Hint Resolve parseGxFinalUnitIndication_reads : gx_parse.

Lemma parseGxChargingRuleReport_reads a d : is_GxChargingRuleReport a d -> parseGxChargingRuleReport a zero_GxChargingRuleReport = Ok d.
Proof. intros H. unfold parseGxChargingRuleReport. gx_parses H d GxChargingRuleReport_data zero_GxChargingRuleReport GxChargingRuleReport_members.
  unfold GxChargingRuleReport_data, GxChargingRuleReport_members. gx_reads H.
Qed.
#[local] Hint Resolve parseGxChargingRuleReport_reads : gx_parse.

Lemma parseGxTftPacketFilterInformation_reads a d : is_GxTftPacketFilterInformation a d -> parseGxTftPacketFilterInformation a zero_GxTftPacketFilterInformation = Ok d.
Proof. intros H. unfold parseGxTftPacketFilterInformation. gx_parses H d GxTftPacketFilterInformation_data zero_GxTftPacketFilterInformation GxTftPacketFilterInformation_members.
  unfold GxTftPacketFilterInformation_data, GxTftPacketFilterInformation_members. gx_reads H.
Qed.
#[local] Hint Resolve parseGxTftPacketFilterInformation_reads : gx_parse.

Lemma parseGxFixedUserLocationInfo_reads a d : is_GxFixedUserLocationInfo a d -> parseGxFixedUserLocationInfo a zero_GxFixedUserLocationInfo = Ok d.
Proof. intros H. unfold parseGxFixedUserLocationInfo. gx_parses H d GxFixedUserLocationInfo_data zero_GxFixedUserLocationInfo GxFixedUserLocationInfo_members.
  unfold GxFixedUserLocationInfo_data, GxFixedUserLocationInfo_members. gx_reads H.
Qed.
#[local] Hint Resolve parseGxFixedUserLocationInfo_reads : gx_parse.

Lemma parseGxDefaultQosInformation_reads a d : is_GxDefaultQosInformation a d -> parseGxDefaultQosInformation a zero_GxDefaultQosInformation = Ok d.
Proof. intros H. unfold parseGxDefaultQosInformation. gx_parses H d GxDefaultQosInformation_data zero_GxDefaultQosInformation GxDefaultQosInformation_members.
  unfold GxDefaultQosInformation_data, GxDefaultQosInformation_members. gx_reads H.
Qed.
#[local] Hint Resolve parseGxDefaultQosInformation_reads : gx_parse.

Lemma parseGxAllocationRetentionPriority_reads a d : is_GxAllocationRetentionPriority a d -> parseGxAllocationRetentionPriority a zero_GxAllocationRetentionPriority = Ok d.
Proof. intros H. unfold parseGxAllocationRetentionPriority. gx_parses H d GxAllocationRetentionPriority_data zero_GxAllocationRetentionPriority GxAllocationRetentionPriority_members.
  unfold GxAllocationRetentionPriority_data, GxAllocationRetentionPriority_members. gx_reads H.
Qed.
#[local] Hint Resolve parseGxAllocationRetentionPriority_reads : gx_parse.

Lemma parseGxDefaultEpsBearerQos_reads a d : is_GxDefaultEpsBearerQos a d -> parseGxDefaultEpsBearerQos a zero_GxDefaultEpsBearerQos = Ok d.
Proof. intros H. unfold parseGxDefaultEpsBearerQos. gx_parses H d GxDefaultEpsBearerQos_data zero_GxDefaultEpsBearerQos GxDefaultEpsBearerQos_members.
  unfold GxDefaultEpsBearerQos_data, GxDefaultEpsBearerQos_members. gx_reads H.
Qed.
#[local] Hint Resolve parseGxDefaultEpsBearerQos_reads : gx_parse.

Lemma parseGxConditionalApnAggregateMaxBitrate_reads a d : is_GxConditionalApnAggregateMaxBitrate a d -> parseGxConditionalApnAggregateMaxBitrate a zero_GxConditionalApnAggregateMaxBitrate = Ok d.
Proof. intros H. unfold parseGxConditionalApnAggregateMaxBitrate. gx_parses H d GxConditionalApnAggregateMaxBitrate_data zero_GxConditionalApnAggregateMaxBitrate GxConditionalApnAggregateMaxBitrate_members.
  unfold GxConditionalApnAggregateMaxBitrate_data, GxConditionalApnAggregateMaxBitrate_members. gx_reads H.
Qed.
#[local] Hint Resolve parseGxConditionalApnAggregateMaxBitrate_reads : gx_parse.

Lemma parseGxQosInformation_reads a d : is_GxQosInformation a d -> parseGxQosInformation a zero_GxQosInformation = Ok d.
Proof. intros H. unfold parseGxQosInformation. gx_parses H d GxQosInformation_data zero_GxQosInformation GxQosInformation_members.
  unfold GxQosInformation_data, GxQosInformation_members. gx_reads H.
Qed.
#[local] Hint Resolve parseGxQosInformation_reads : gx_parse.

Lemma parseGxUserEquipmentInfo_reads a d : is_GxUserEquipmentInfo a d -> parseGxUserEquipmentInfo a zero_GxUserEquipmentInfo = Ok d.
Proof. intros H. unfold parseGxUserEquipmentInfo. gx_parses H d GxUserEquipmentInfo_data zero_GxUserEquipmentInfo GxUserEquipmentInfo_members.
  unfold GxUserEquipmentInfo_data, GxUserEquipmentInfo_members. gx_reads H.
Qed.
#[local] Hint Resolve parseGxUserEquipmentInfo_reads : gx_parse.

Lemma parseGxPacketFilterInformation_reads a d : is_GxPacketFilterInformation a d -> parseGxPacketFilterInformation a zero_GxPacketFilterInformation = Ok d.
Proof. intros H. unfold parseGxPacketFilterInformation. gx_parses H d GxPacketFilterInformation_data zero_GxPacketFilterInformation GxPacketFilterInformation_members.
  unfold GxPacketFilterInformation_data, GxPacketFilterInformation_members. gx_reads H.
Qed.
#[local] Hint Resolve parseGxPacketFilterInformation_reads : gx_parse.

Lemma parseGxTdfInformation_reads a d : is_GxTdfInformation a d -> parseGxTdfInformation a zero_GxTdfInformation = Ok d.
Proof. intros H. unfold parseGxTdfInformation. gx_parses H d GxTdfInformation_data zero_GxTdfInformation GxTdfInformation_members.
  unfold GxTdfInformation_data, GxTdfInformation_members. gx_reads H.
Qed.
#[local] Hint Resolve parseGxTdfInformation_reads : gx_parse.

Lemma parseGxSupportedFeatures_reads a d : is_GxSupportedFeatures a d -> parseGxSupportedFeatures a zero_GxSupportedFeatures = Ok d.
Proof. intros H. unfold parseGxSupportedFeatures. gx_parses H d GxSupportedFeatures_data zero_GxSupportedFeatures GxSupportedFeatures_members.
  unfold GxSupportedFeatures_data, GxSupportedFeatures_members. gx_reads H.
Qed.
#[local] Hint Resolve parseGxSupportedFeatures_reads : gx_parse.

Lemma parseGxOcSupportedFeatures_reads a d : is_GxOcSupportedFeatures a d -> parseGxOcSupportedFeatures a zero_GxOcSupportedFeatures = Ok d.
Proof. intros H. unfold parseGxOcSupportedFeatures. gx_parses H d GxOcSupportedFeatures_data zero_GxOcSupportedFeatures GxOcSupportedFeatures_members.
  unfold GxOcSupportedFeatures_data, GxOcSupportedFeatures_members. gx_reads H.
Qed.
#[local] Hint Resolve parseGxOcSupportedFeatures_reads : gx_parse.

Lemma parseGxSubscriptionId_reads a d : is_GxSubscriptionId a d -> parseGxSubscriptionId a zero_GxSubscriptionId = Ok d.
Proof. intros H. unfold parseGxSubscriptionId. gx_parses H d GxSubscriptionId_data zero_GxSubscriptionId GxSubscriptionId_members.
  unfold GxSubscriptionId_data, GxSubscriptionId_members. gx_reads H.
Qed.
#[local] Hint Resolve parseGxSubscriptionId_reads : gx_parse.

Lemma gx_ccr_parse_reads msg d : avps_GxCCR msg d -> gx_ccr_parse msg = Ok d.
Proof. intros H. unfold gx_ccr_parse. gx_parses H d GxCCR_data zero_GxCCR GxCCR_members.
  unfold GxCCR_data, GxCCR_members. gx_reads H.
Qed.

Lemma parseGxLoad_reads a d : is_GxLoad a d -> parseGxLoad a zero_GxLoad = Ok d.
Proof. intros H. unfold parseGxLoad. gx_parses H d GxLoad_data zero_GxLoad GxLoad_members.
  unfold GxLoad_data, GxLoad_members. gx_reads H.
Qed.
#[local] Hint Resolve parseGxLoad_reads : gx_parse.

Lemma parseGxFailedAvp_reads a d : is_GxFailedAvp a d -> parseGxFailedAvp a zero_GxFailedAvp = Ok d.
Proof. intros H. unfold parseGxFailedAvp. gx_parses H d GxFailedAvp_data zero_GxFailedAvp GxFailedAvp_members.
  unfold GxFailedAvp_data, GxFailedAvp_members. gx_reads H.
Qed.
#[local] Hint Resolve parseGxFailedAvp_reads : gx_parse.

Lemma parseGxConditionalPolicyInformation_reads a d : is_GxConditionalPolicyInformation a d -> parseGxConditionalPolicyInformation a zero_GxConditionalPolicyInformation = Ok d.
Proof. intros H. unfold parseGxConditionalPolicyInformation. gx_parses H d GxConditionalPolicyInformation_data zero_GxConditionalPolicyInformation GxConditionalPolicyInformation_members.
  unfold GxConditionalPolicyInformation_data, GxConditionalPolicyInformation_members. gx_reads H.
Qed.
#[local] Hint Resolve parseGxConditionalPolicyInformation_reads : gx_parse.

Lemma parseGxRoutingRuleReport_reads a d : is_GxRoutingRuleReport a d -> parseGxRoutingRuleReport a zero_GxRoutingRuleReport = Ok d.
Proof. intros H. unfold parseGxRoutingRuleReport. gx_parses H d GxRoutingRuleReport_data zero_GxRoutingRuleReport GxRoutingRuleReport_members.
  unfold GxRoutingRuleReport_data, GxRoutingRuleReport_members. gx_reads H.
Qed.
#[local] Hint Resolve parseGxRoutingRuleReport_reads : gx_parse.

Lemma parseGxPraRemove_reads a d : is_GxPraRemove a d -> parseGxPraRemove a zero_GxPraRemove = Ok d.
Proof. intros H. unfold parseGxPraRemove. gx_parses H d GxPraRemove_data zero_GxPraRemove GxPraRemove_members.
  unfold GxPraRemove_data, GxPraRemove_members. gx_reads H.
Qed.
#[local] Hint Resolve parseGxPraRemove_reads : gx_parse.

Lemma parseGxPraInstall_reads a d : is_GxPraInstall a d -> parseGxPraInstall a zero_GxPraInstall = Ok d.
Proof. intros H. unfold parseGxPraInstall. gx_parses H d GxPraInstall_data zero_GxPraInstall GxPraInstall_members.
  unfold GxPraInstall_data, GxPraInstall_members. gx_reads H.
Qed.
#[local] Hint Resolve parseGxPraInstall_reads : gx_parse.

Lemma parseGxChargingInformation_reads a d : is_GxChargingInformation a d -> parseGxChargingInformation a zero_GxChargingInformation = Ok d.
Proof. intros H. unfold parseGxChargingInformation. gx_parses H d GxChargingInformation_data zero_GxChargingInformation GxChargingInformation_members.
  unfold GxChargingInformation_data, GxChargingInformation_members. gx_reads H.
Qed.
#[local] Hint Resolve parseGxChargingInformation_reads : gx_parse.

Lemma parseGxRedirectInformation_reads a d : is_GxRedirectInformation a d -> parseGxRedirectInformation a zero_GxRedirectInformation = Ok d.
Proof. intros H. unfold parseGxRedirectInformation. gx_parses H d GxRedirectInformation_data zero_GxRedirectInformation GxRedirectInformation_members.
  unfold GxRedirectInformation_data, GxRedirectInformation_members. gx_reads H.
Qed.
#[local] Hint Resolve parseGxRedirectInformation_reads : gx_parse.

Lemma parseGxFlows_reads a d : is_GxFlows a d -> parseGxFlows a zero_GxFlows = Ok d.
Proof. intros H. unfold parseGxFlows. gx_parses H d GxFlows_data zero_GxFlows GxFlows_members.
  unfold GxFlows_data, GxFlows_members. gx_reads H.
Qed.
#[local] Hint Resolve parseGxFlows_reads : gx_parse.

Lemma parseGxChargingRuleDefinition_reads a d : is_GxChargingRuleDefinition a d -> parseGxChargingRuleDefinition a zero_GxChargingRuleDefinition = Ok d.
Proof. intros H. unfold parseGxChargingRuleDefinition. gx_parses H d GxChargingRuleDefinition_data zero_GxChargingRuleDefinition GxChargingRuleDefinition_members.
  unfold GxChargingRuleDefinition_data, GxChargingRuleDefinition_members. gx_reads H.
Qed.
#[local] Hint Resolve parseGxChargingRuleDefinition_reads : gx_parse.

Lemma parseGxChargingRuleInstall_reads a d : is_GxChargingRuleInstall a d -> parseGxChargingRuleInstall a zero_GxChargingRuleInstall = Ok d.
Proof. intros H. unfold parseGxChargingRuleInstall. gx_parses H d GxChargingRuleInstall_data zero_GxChargingRuleInstall GxChargingRuleInstall_members.
  unfold GxChargingRuleInstall_data, GxChargingRuleInstall_members. gx_reads H.
Qed.
#[local] Hint Resolve parseGxChargingRuleInstall_reads : gx_parse.

Lemma parseGxChargingRuleRemove_reads a d : is_GxChargingRuleRemove a d -> parseGxChargingRuleRemove a zero_GxChargingRuleRemove = Ok d.
Proof. intros H. unfold parseGxChargingRuleRemove. gx_parses H d GxChargingRuleRemove_data zero_GxChargingRuleRemove GxChargingRuleRemove_members.
  unfold GxChargingRuleRemove_data, GxChargingRuleRemove_members. gx_reads H.
Qed.
#[local] Hint Resolve parseGxChargingRuleRemove_reads : gx_parse.

Lemma parseGxOcOlr_reads a d : is_GxOcOlr a d -> parseGxOcOlr a zero_GxOcOlr = Ok d.
Proof. intros H. unfold parseGxOcOlr. gx_parses H d GxOcOlr_data zero_GxOcOlr GxOcOlr_members.
  unfold GxOcOlr_data, GxOcOlr_members. gx_reads H.
Qed.
#[local] Hint Resolve parseGxOcOlr_reads : gx_parse.

Lemma parseGxExperimentalResult_reads a d : is_GxExperimentalResult a d -> parseGxExperimentalResult a zero_GxExperimentalResult = Ok d.
Proof. intros H. unfold parseGxExperimentalResult. gx_parses H d GxExperimentalResult_data zero_GxExperimentalResult GxExperimentalResult_members.
  unfold GxExperimentalResult_data, GxExperimentalResult_members. gx_reads H.
Qed.
#[local] Hint Resolve parseGxExperimentalResult_reads : gx_parse.

Lemma gx_cca_parse_reads msg d : avps_GxCCA msg d -> gx_cca_parse msg = Ok d.
Proof. intros H. unfold gx_cca_parse. gx_parses H d GxCCA_data zero_GxCCA GxCCA_members.
  unfold GxCCA_data, GxCCA_members. gx_reads H.
Qed.

Lemma gx_raa_parse_reads msg d : avps_GxRAA msg d -> gx_raa_parse msg = Ok d.
Proof. intros H. unfold gx_raa_parse. gx_parses H d GxRAA_data zero_GxRAA GxRAA_members.
  unfold GxRAA_data, GxRAA_members. gx_reads H.
Qed.

Lemma gx_rar_parse_reads msg d : avps_GxRAR msg d -> gx_rar_parse msg = Ok d.
Proof. intros H. unfold gx_rar_parse. gx_parses H d GxRAR_data zero_GxRAR GxRAR_members.
  unfold GxRAR_data, GxRAR_members. gx_reads H.
Qed.

End Parsers.
(** Walks through the members of a literal structure; what is left are the contents
    of the AVPs. *)
Ltac reads_members :=
  repeat (split;
    [lazymatch goal with
     | |- one_avp _ _ _ ?m => lazymatch eval hnf in m with
       | None => vm_compute; reflexivity
       | Some _ => eexists; split; [vm_compute; reflexivity|]
       end
     | |- many_avp _ _ _ ?m => lazymatch eval hnf in m with
       | None => vm_compute; reflexivity
       | Some _ => split; [discriminate|repeat constructor]
       end
     end|]); try exact I.

Lemma sample_rar_says : avps_GxRAR sample_rar_avps sample_received_rar.
Proof.
  unfold avps_GxRAR. reads_members.
  - eexists. split; [reflexivity|]. split; [reflexivity|reflexivity].
  - split; reflexivity.
Qed.

Lemma sample_cca_says : avps_GxCCA sample_cca_avps sample_received_cca.
Proof.
  unfold avps_GxCCA. reads_members.
  - eexists. split; [reflexivity|]. split; [reflexivity|reflexivity].
  - split; reflexivity.
Qed.

(** ** Properties *)

(** C37. The parsers of the four messages store exactly the structure that the AVPs of
    the message announce, whatever the order of the AVPs, with AVPs of other codes
    between them, and with the AVPs of each list in their order. *)
Theorem gx_messages_parsed {G : GxDict} {HG : GxDictOk G} msg rar raa cca ccr :
  (avps_GxRAR msg rar -> gx_rar_parse msg = Ok rar) /\
  (avps_GxRAA msg raa -> gx_raa_parse msg = Ok raa) /\
  (avps_GxCCA msg cca -> gx_cca_parse msg = Ok cca) /\
  (avps_GxCCR msg ccr -> gx_ccr_parse msg = Ok ccr).
Proof.
  split_and!; [apply gx_rar_parse_reads|apply gx_raa_parse_reads|apply gx_cca_parse_reads|apply gx_ccr_parse_reads].
Qed.

(** Values that leave the Diameter formats: an address type, which Diameter sends in
    network order, is stored with its bytes swapped; an address of more than 16 bytes
    is copied past its array; and an address of less than 2 bytes or a time of less
    than 4 is read past its end. *)
Theorem gx_values_out_of_format os t rest :
  (0 <= t < 2 ^ 16 -> (length rest <= 16)%nat ->
   FD_PARSE_ADDRESS (Some (AvpOctets (be_bytes 2 t ++ rest))) =
   Ok (mk_fdAddress (bswap16 t) (rest ++ zeros (16 - length rest)))) /\
  ((18 < length os)%nat -> FD_PARSE_ADDRESS (Some (AvpOctets os)) = OutOfBounds) /\
  ((length os < 2)%nat -> FD_PARSE_ADDRESS (Some (AvpOctets os)) = OutOfBounds) /\
  ((length os < 4)%nat -> FD_PARSE_TIME (Some (AvpOctets os)) = OutOfBounds).
Proof.
  split_and!.
  - intros Ht Hr. unfold FD_PARSE_ADDRESS.
    pose proof (mem_read_start (be_bytes 2 t) rest) as E. rewrite length_be_bytes in E.
    change (Z.of_nat 2) with 2 in E. rewrite E. cbn [res_bind].
    rewrite drop_app_length' by (by rewrite length_be_bytes).
    unfold MAX_FD_ADDRESS_LEN. rewrite bool_decide_true by done. do 2 f_equal.
    unfold bswap16. assert (be_bytes 2 t = le_bytes 2 (be_val (le_bytes 2 t))) as ->.
    { unfold be_bytes, be_val. pose proof (le_bytes_le_val (reverse (le_bytes 2 t))) as Eb.
      rewrite length_reverse, length_le_bytes in Eb. by rewrite Eb. }
    apply FD_NETWORK_TO16_le. unfold be_val.
    pose proof (le_val_range (reverse (le_bytes 2 t))) as Hv. rewrite length_reverse, length_le_bytes in Hv.
    exact Hv.
  - intros H. unfold FD_PARSE_ADDRESS, mem_read. rewrite bool_decide_true by lia. cbn [res_bind].
    rewrite bool_decide_false; [done|]. rewrite length_drop. unfold MAX_FD_ADDRESS_LEN. lia.
  - intros H. unfold FD_PARSE_ADDRESS, mem_read. by rewrite bool_decide_false by lia.
  - intros H. unfold FD_PARSE_TIME, mem_read. by rewrite bool_decide_false by lia.
Qed.

(** ** Witnesses *)

Example gx_messages_parsed_witness :
  gx_rar_parse sample_rar_avps = Ok sample_received_rar /\
  gx_cca_parse sample_cca_avps = Ok sample_received_cca.
Proof.
  split.
  - exact (proj1 (gx_messages_parsed sample_rar_avps sample_received_rar zero_GxRAA zero_GxCCA zero_GxCCR)
      sample_rar_says).
  - exact (proj1 (proj2 (proj2 (gx_messages_parsed sample_cca_avps zero_GxRAR zero_GxRAA sample_received_cca
      zero_GxCCR))) sample_cca_says).
Defined.

Example gx_values_out_of_format_witness :
  FD_PARSE_ADDRESS (Some (AvpOctets [x00; x01; x0a; x00; x00; x01])) =
    Ok (mk_fdAddress 256 ([x0a; x00; x00; x01] ++ zeros 12)) /\
  FD_PARSE_ADDRESS (Some (AvpOctets (zeros 19))) = OutOfBounds /\
  FD_PARSE_TIME (Some (AvpOctets [x00])) = OutOfBounds.
Proof.
  split; [|split].
  - apply (proj1 (gx_values_out_of_format [] 1 [x0a; x00; x00; x01])); [split; [discriminate|reflexivity]|simpl; lia].
  - apply (proj1 (proj2 (gx_values_out_of_format (zeros 19) 0 []))). rewrite length_zeros. lia.
  - apply (proj2 (proj2 (proj2 (gx_values_out_of_format [x00] 0 [])))). simpl. lia.
Defined.
