(* ===== verification/GxSend.v ===== *)
(** * Sending a CCR (cp/gx_app/src/gx_ccr.c, [gx_send_ccr], and [add_fd_msg] of
    cp/gx_app/src/gx_rar.c)

    The Diameter process unpacks the CCR that the CP packed (GxPack.v) and builds the
    message tree that freeDiameter sends, the kind of tree that GxAvp.v reads.  One
    definition per part of the function, [ccr_<member>], in its order.

    - A statement ([stmt]) takes the local variables [msg], [avp_ptr] and [val] of the
      function, and goes on, leaves by [goto err] or [return], or has no defined result
      ([NotDefined]): a read outside an object, or of a value that was never stored.
    - freeDiameter is the class [FreeDiameter]: the base type of each AVP in its
      dictionary, which of its calls fail, and the AVPs of [fd_msg_add_origin].
    - [avp_ptr] is an index into the AVPs of [msg]; an AVP that [add_fd_msg] creates and
      cannot add is lost, as its callers drop its result.
    - [if (presence)] is [when]; a member read without its bit is zero, as [gx_ccr] is
      zeroed.  The part inside [#if 0] is left out. *)
From S2P Require Import Prelude GxMacros GxStruct GxPack GxDict GxAvp GxParse.

(** ** freeDiameter *)

Inductive dict_avp_basetype :=
| AVP_TYPE_GROUPED | AVP_TYPE_OCTETSTRING | AVP_TYPE_INTEGER32 | AVP_TYPE_INTEGER64
| AVP_TYPE_UNSIGNED32 | AVP_TYPE_UNSIGNED64 | AVP_TYPE_FLOAT32 | AVP_TYPE_FLOAT64.

(** The bytes of the union that a number of the type uses. *)
Definition basetype_size (t : dict_avp_basetype) : option nat :=
  match t with
  | AVP_TYPE_GROUPED | AVP_TYPE_OCTETSTRING => None
  | AVP_TYPE_INTEGER32 | AVP_TYPE_UNSIGNED32 | AVP_TYPE_FLOAT32 => Some 4%nat
  | AVP_TYPE_INTEGER64 | AVP_TYPE_UNSIGNED64 | AVP_TYPE_FLOAT64 => Some 8%nat
  end.

Class FreeDiameter := {
  avp_basetype : davp -> dict_avp_basetype;
  (* the calls that succeed: the n-th AVP created, an AVP added to the message or to
     another AVP, the message created and sent *)
  fd_avp_new_ok : nat -> bool;
  fd_avp_add_ok : option davp -> bool;
  fd_msg_new_appl_ok : bool;
  fd_msg_send_ok : list avp -> bool;
  fd_msg_add_origin : list avp -> option (list avp);
  (* fd_g_config, and the value of the pointer gxDict.appGX *)
  cnf_diamrlm : list byte;
  cnf_orstateid : Z;
  appGX_pointer : list byte
}.

(** ** The local variables *)

(** The first 8 bytes of [union avp_value]: a pointer, with its bytes where they are
    known and the bytes readable from it, or what a number stored there; then the
    length, which numbers do not change. *)
Inductive first_word := Pointer (address : option (list byte)) (object : list byte) | Number (obj : list byte).

Record avp_union := mk_avp_union { u_first : option first_word; u_len : option Z }.

(** [struct avp *], or the message: where an AVP is added. *)
Inductive fd_ref := NoAvp | MSG | AvpAt (d : davp) (path : list nat).

Record sending := mk_sending {
  s_msg : list avp;
  s_avp_ptr : fd_ref;
  s_val : avp_union;
  s_created : nat
}.

Definition FD_REASON_OK : Z := 0.
Definition FD_REASON_MSG_SEND_FAIL : Z := 9.
Definition FD_REASON_MSG_ADD_ORIGIN_FAIL : Z := 10.
Definition FD_REASON_MSG_NEW_FAIL_APPL : Z := 12.
Definition FD_REASON_AVP_NEW_FAIL : Z := 13.
Definition FD_REASON_AVP_ADD_FAIL : Z := 14.
Definition FD_REASON_AVP_SETVALUE_FAIL : Z := 15.

Inductive flow := Next (s : sending) | GotoErr (rval : Z) | Return (rval : Z) | NotDefined.

Definition stmt := sending -> flow.

Fixpoint block (body : list stmt) : stmt :=
  match body with
  | [] => Next
  | st :: body => fun s => match st s with Next s => block body s | other => other end
  end.

Definition when {X} (m : option X) (body : X -> list stmt) : stmt :=
  match m with Some x => block (body x) | None => block [] end.

Definition for_each {X} (l : list X) (body : X -> list stmt) : stmt :=
  block (map (fun x => block (body x)) l).

Definition for_index (count : nat) (body : nat -> list stmt) : stmt :=
  block (map (fun i => block (body i)) (seq 0 count)).

(** A loop whose bound is not the length of the list it reads. *)
Definition for_count {X} (count : nat) (l : list X) (body : X -> list stmt) : stmt :=
  for_index count (fun k => match l !! k with Some x => body x | None => [fun _ => NotDefined] end).

(** ** The union *)

Definition val_num (t : basic Z) (n : Z) : stmt :=
  fun s => Next (mk_sending (s_msg s) (s_avp_ptr s) (mk_avp_union (Some (Number (obj_bytes t n))) (u_len
    (s_val s))) (s_created s)).
Definition val_os_len (len : Z) : stmt :=
  fun s => Next (mk_sending (s_msg s) (s_avp_ptr s) (mk_avp_union (u_first (s_val s)) (Some len))
    (s_created s)).
Definition val_os_data (p : first_word) : stmt :=
  fun s => Next (mk_sending (s_msg s) (s_avp_ptr s) (mk_avp_union (Some p) (u_len (s_val s))) (s_created s)).

Definition val_of (os : OctetString) : first_word := Pointer None os.
Definition octet_len (os : OctetString) : Z := Z.of_nat (length os).
Definition address_of (a : fdAddress) : first_word := Pointer None (fd_address a).

(** From the address of element [r] to the end of the allocated list. *)
Definition list_address (l : list fdAddress) (r : nat) : first_word :=
  Pointer None (drop 2 (concat (map (obj_bytes FdAddress) (drop r l)))).
Definition sizeof_FdAddress : Z := Z.of_nat (bsizeof FdAddress).
Definition zero_address : fdAddress := mk_fdAddress 0 (zeros MAX_FD_ADDRESS_LEN).

Fixpoint strnlen (s : list byte) (maxlen : nat) : Z :=
  match maxlen, s with
  | O, _ | _, [] => 0
  | S n, c :: s => if Byte.eqb c x00 then 0 else 1 + strnlen s n
  end.

(** [val.os.len = x.len; val.os.data = x.val;] and the same for an address. *)
Definition val_os (os : OctetString) : stmt := block [val_os_len (octet_len os); val_os_data (val_of os)].
Definition val_os_address (a : fdAddress) : stmt :=
  block [val_os_len (strnlen (fd_address a) MAX_FD_ADDRESS_LEN); val_os_data (address_of a)].

Section Send.
Context {G : GxDict} {FD : FreeDiameter}.

(** ** The calls of freeDiameter *)

(** The bytes come from [os.data], or the number from the union, by the type of the
    dictionary; [Ok None] is the error for a grouped AVP. *)
Definition fd_msg_avp_setvalue (d : davp) (u : avp_union) : res (option avp_value) :=
  match avp_basetype d with
  | AVP_TYPE_GROUPED => Ok None
  | AVP_TYPE_OCTETSTRING =>
      match u_first u, u_len u with
      | Some (Pointer _ object), Some len => let? os := mem_read object 0 len in Ok (Some (AvpOctets os))
      | _, _ => OutOfBounds
      end
  | t =>
      match u_first u, basetype_size t with
      | Some (Number obj), Some n | Some (Pointer (Some obj) _), Some n =>
          let? bs := mem_read obj 0 (Z.of_nat n) in Ok (Some (AvpNumber bs))
      | _, _ => OutOfBounds
      end
  end.

Fixpoint add_at (path : list nat) (a : avp) (l : list avp) : list avp :=
  match path with
  | [] => l ++ [a]
  | i :: path => alter (fun '(Avp c v children) => Avp c v (add_at path a children)) i l
  end.

Definition fd_msg_avp_add (ref : fd_ref) (a : avp) (l : list avp) : option (list avp) :=
  match ref with
  | NoAvp => None
  | MSG => if fd_avp_add_ok None then Some (add_at [] a l) else None
  | AvpAt d path => if fd_avp_add_ok (Some d) then Some (add_at path a l) else None
  end.

Definition set_msg (s : sending) (l : list avp) : sending :=
  mk_sending l (s_avp_ptr s) (s_val s) (s_created s).
Definition created (s : sending) : sending :=
  mk_sending (s_msg s) (s_avp_ptr s) (s_val s) (S (s_created s)).

(** [add_fd_msg(&val, obj, (struct msg** )&avp_ptr);] *)
Definition add_fd_msg (obj : davp) : stmt := fun s =>
  if fd_avp_new_ok (s_created s) then
    match fd_msg_avp_setvalue obj (s_val s) with
    | Ok (Some v) =>
        match fd_msg_avp_add (s_avp_ptr s) (Avp (gxDict obj) (Some v) []) (s_msg s) with
        | Some l => Next (set_msg (created s) l)
        | None => Next (created s)
        end
    | Ok None => Next (created s)
    | _ => NotDefined
    end
  else Next (created s).

(** [CHECK_FCT_DO(fd_msg_avp_new(d, 0, &avp_ptr), return -1);
    CHECK_FCT_DO(fd_msg_avp_add(msg, MSG_BRW_LAST_CHILD, avp_ptr), return -1);] *)
Definition new_avp_ptr (d : davp) : stmt := fun s =>
  if fd_avp_new_ok (s_created s) then
    match fd_msg_avp_add MSG (Avp (gxDict d) None []) (s_msg s) with
    | Some l => Next (mk_sending l (AvpAt d [length (s_msg s)]) (s_val s) (S (s_created s)))
    | None => Return (-1)
    end
  else Return (-1).

(** The macros of fd.h.  An AVP is added behind the children of [ref]. *)
Definition MSG_ADD_AVP (d : davp) (ref : fd_ref) (u : avp_union) : stmt := fun s =>
  if fd_avp_new_ok (s_created s) then
    match fd_msg_avp_setvalue d u with
    | Ok (Some v) =>
        match fd_msg_avp_add ref (Avp (gxDict d) (Some v) []) (s_msg s) with
        | Some l => Next (set_msg (created s) l)
        | None => GotoErr FD_REASON_AVP_ADD_FAIL
        end
    | Ok None => GotoErr FD_REASON_AVP_SETVALUE_FAIL
    | _ => NotDefined
    end
  else GotoErr FD_REASON_AVP_NEW_FAIL.

Definition MSG_ADD_AVP_OSTR (d : davp) (ref : fd_ref) (p : first_word) (len : Z) : stmt :=
  MSG_ADD_AVP d ref (mk_avp_union (Some p) (Some len)).
Definition MSG_ADD_AVP_U32 (d : davp) (ref : fd_ref) (n : Z) : stmt :=
  MSG_ADD_AVP d ref (mk_avp_union (Some (Number (obj_bytes uint32_t n))) None).
Definition MSG_ADD_AVP_S32 (d : davp) (ref : fd_ref) (n : Z) : stmt :=
  MSG_ADD_AVP d ref (mk_avp_union (Some (Number (obj_bytes int32_t n))) None).

(** The number of AVPs inside the message or the AVP: the index of the next one. *)
Fixpoint children_at (path : list nat) (l : list avp) : nat :=
  match path with
  | [] => length l
  | i :: path => match l !! i with Some (Avp _ _ children) => children_at path children | None => O end
  end.

Definition MSG_ADD_AVP_GROUPED_2 (d : davp) (ref : fd_ref) (rest : fd_ref -> list stmt) : stmt := fun s =>
  if fd_avp_new_ok (s_created s) then
    match fd_msg_avp_add ref (Avp (gxDict d) None []) (s_msg s) with
    | Some l =>
        let path := match ref with AvpAt _ path => path | _ => [] end in
        block (rest (AvpAt d (path ++ [children_at path (s_msg s)]))) (set_msg (created s) l)
    | None => GotoErr FD_REASON_AVP_ADD_FAIL
    end
  else GotoErr FD_REASON_AVP_NEW_FAIL.

Definition MSG_NEW_APPL : stmt := fun s =>
  if fd_msg_new_appl_ok then Next (set_msg s []) else GotoErr FD_REASON_MSG_NEW_FAIL_APPL.

Definition MSG_ADD_ORIGIN : stmt := fun s =>
  match fd_msg_add_origin (s_msg s) with
  | Some l => Next (set_msg s l)
  | None => GotoErr FD_REASON_MSG_ADD_ORIGIN_FAIL
  end.

(** [gxDict.appGX] is a pointer into freeDiameter's dictionary, whose object is not
    known here. *)
Definition appGX : first_word := Pointer (Some appGX_pointer) [].
Definition sizeof_pointer : Z := 8.

(** ** The parts of the function *)

Definition ccr_header (gx_ccr : GxCCR) : stmt :=
  block [
    MSG_NEW_APPL;
    when gx_ccr.(GxCCR_session_id) (fun session_id => [
      MSG_ADD_AVP_OSTR davp_session_id MSG (val_of session_id) (octet_len session_id)]);
    MSG_ADD_ORIGIN;
    MSG_ADD_AVP_OSTR davp_destination_realm MSG (val_of cnf_diamrlm) (octet_len cnf_diamrlm);
    MSG_ADD_AVP_OSTR davp_auth_application_id MSG appGX sizeof_pointer;
    when gx_ccr.(GxCCR_cc_request_number) (fun cc_request_number => [
      MSG_ADD_AVP_U32 davp_cc_request_number MSG cc_request_number]);
    when gx_ccr.(GxCCR_cc_request_type) (fun cc_request_type => [
      MSG_ADD_AVP_S32 davp_cc_request_type MSG cc_request_type]);
    when gx_ccr.(GxCCR_credit_management_status) (fun credit_management_status => [
      MSG_ADD_AVP_U32 davp_credit_management_status MSG credit_management_status]);
    when gx_ccr.(GxCCR_origin_state_id) (fun _ => [
      MSG_ADD_AVP_U32 davp_origin_state_id MSG cnf_orstateid]);
    when gx_ccr.(GxCCR_network_request_support) (fun network_request_support => [
      MSG_ADD_AVP_S32 davp_network_request_support MSG network_request_support]);
    when gx_ccr.(GxCCR_packet_filter_operation) (fun packet_filter_operation => [
      MSG_ADD_AVP_S32 davp_packet_filter_operation MSG packet_filter_operation]);
    when gx_ccr.(GxCCR_bearer_operation) (fun bearer_operation => [
      MSG_ADD_AVP_S32 davp_bearer_operation MSG bearer_operation]);
    when gx_ccr.(GxCCR_dynamic_address_flag) (fun dynamic_address_flag => [
      MSG_ADD_AVP_S32 davp_dynamic_address_flag MSG dynamic_address_flag]);
    when gx_ccr.(GxCCR_dynamic_address_flag_extension) (fun dynamic_address_flag_extension => [
      MSG_ADD_AVP_S32 davp_dynamic_address_flag_extension MSG dynamic_address_flag_extension]);
    when gx_ccr.(GxCCR_pdn_connection_charging_id) (fun pdn_connection_charging_id => [
      MSG_ADD_AVP_U32 davp_pdn_connection_charging_id MSG pdn_connection_charging_id]);
    when gx_ccr.(GxCCR_ip_can_type) (fun ip_can_type => [
      MSG_ADD_AVP_S32 davp_ip_can_type MSG ip_can_type]);
    when gx_ccr.(GxCCR_an_trusted) (fun an_trusted => [MSG_ADD_AVP_S32 davp_an_trusted MSG an_trusted]);
    when gx_ccr.(GxCCR_rat_type) (fun rat_type => [MSG_ADD_AVP_S32 davp_rat_type MSG rat_type]);
    when gx_ccr.(GxCCR_termination_cause) (fun termination_cause => [
      MSG_ADD_AVP_S32 davp_termination_cause MSG termination_cause]);
    when gx_ccr.(GxCCR_qos_negotiation) (fun qos_negotiation => [
      MSG_ADD_AVP_S32 davp_qos_negotiation MSG qos_negotiation]);
    when gx_ccr.(GxCCR_qos_upgrade) (fun qos_upgrade => [
      MSG_ADD_AVP_S32 davp_qos_upgrade MSG qos_upgrade]);
    when gx_ccr.(GxCCR_an_gw_status) (fun an_gw_status => [
      MSG_ADD_AVP_S32 davp_an_gw_status MSG an_gw_status]);
    when gx_ccr.(GxCCR_rai) (fun rai => [MSG_ADD_AVP_OSTR davp_rai MSG (val_of rai) (octet_len rai)])].

Definition ccr_details (gx_ccr : GxCCR) : stmt :=
  block [
    when gx_ccr.(GxCCR_bearer_usage) (fun bearer_usage => [
      MSG_ADD_AVP_S32 davp_bearer_usage MSG bearer_usage]);
    when gx_ccr.(GxCCR_online) (fun online => [MSG_ADD_AVP_S32 davp_online MSG online]);
    when gx_ccr.(GxCCR_offline) (fun offline => [MSG_ADD_AVP_S32 davp_offline MSG offline]);
    when gx_ccr.(GxCCR_nbifom_support) (fun nbifom_support => [
      MSG_ADD_AVP_S32 davp_nbifom_support MSG nbifom_support]);
    when gx_ccr.(GxCCR_nbifom_mode) (fun nbifom_mode => [
      MSG_ADD_AVP_S32 davp_nbifom_mode MSG nbifom_mode]);
    when gx_ccr.(GxCCR_default_access) (fun default_access => [
      MSG_ADD_AVP_S32 davp_default_access MSG default_access]);
    when gx_ccr.(GxCCR_origination_time_stamp) (fun origination_time_stamp => [
      MSG_ADD_AVP_U32 davp_origination_time_stamp MSG origination_time_stamp]);
    when gx_ccr.(GxCCR_maximum_wait_time) (fun maximum_wait_time => [
      MSG_ADD_AVP_U32 davp_maximum_wait_time MSG maximum_wait_time]);
    when gx_ccr.(GxCCR_access_availability_change_reason) (fun access_availability_change_reason => [
      MSG_ADD_AVP_U32 davp_access_availability_change_reason MSG access_availability_change_reason]);
    when gx_ccr.(GxCCR_user_location_info_time) (fun user_location_info_time => [
      MSG_ADD_AVP_U32 davp_user_location_info_time MSG user_location_info_time]);
    when gx_ccr.(GxCCR_udp_source_port) (fun udp_source_port => [
      MSG_ADD_AVP_U32 davp_udp_source_port MSG udp_source_port]);
    when gx_ccr.(GxCCR_tcp_source_port) (fun tcp_source_port => [
      MSG_ADD_AVP_U32 davp_tcp_source_port MSG tcp_source_port]);
    when gx_ccr.(GxCCR_access_network_charging_address) (fun access_network_charging_address => [
      MSG_ADD_AVP_OSTR davp_access_network_charging_address MSG (address_of access_network_charging_address)
        (strnlen access_network_charging_address.(fd_address) MAX_FD_ADDRESS_LEN)]);
    when gx_ccr.(GxCCR_bearer_identifier) (fun bearer_identifier => [
      MSG_ADD_AVP_OSTR davp_bearer_identifier MSG (val_of bearer_identifier) (octet_len bearer_identifier)]);
    when gx_ccr.(GxCCR_tgpp_charging_characteristics) (fun tgpp_charging_characteristics => [
      MSG_ADD_AVP_OSTR davp_3gpp_charging_characteristics MSG (val_of tgpp_charging_characteristics)
        (octet_len tgpp_charging_characteristics)]);
    when gx_ccr.(GxCCR_called_station_id) (fun called_station_id => [
      MSG_ADD_AVP_OSTR davp_called_station_id MSG (val_of called_station_id) (octet_len called_station_id)]);
    when gx_ccr.(GxCCR_pdn_connection_id) (fun pdn_connection_id => [
      MSG_ADD_AVP_OSTR davp_pdn_connection_id MSG (val_of pdn_connection_id) (octet_len pdn_connection_id)]);
    when gx_ccr.(GxCCR_framed_ip_address) (fun framed_ip_address => [
      MSG_ADD_AVP_OSTR davp_framed_ip_address MSG (val_of framed_ip_address) (octet_len framed_ip_address)]);
    when gx_ccr.(GxCCR_framed_ipv6_prefix) (fun framed_ipv6_prefix => [
      MSG_ADD_AVP_OSTR davp_framed_ipv6_prefix MSG (val_of framed_ipv6_prefix) (octet_len framed_ipv6_prefix)]);
    when gx_ccr.(GxCCR_tgpp_rat_type) (fun tgpp_rat_type => [
      MSG_ADD_AVP_OSTR davp_3gpp_rat_type MSG (val_of tgpp_rat_type) (octet_len tgpp_rat_type)]);
    when gx_ccr.(GxCCR_twan_identifier) (fun twan_identifier => [
      MSG_ADD_AVP_OSTR davp_twan_identifier MSG (val_of twan_identifier) (octet_len twan_identifier)]);
    when gx_ccr.(GxCCR_tgpp_ms_timezone) (fun tgpp_ms_timezone => [
      MSG_ADD_AVP_OSTR davp_3gpp_ms_timezone MSG (val_of tgpp_ms_timezone) (octet_len tgpp_ms_timezone)]);
    when gx_ccr.(GxCCR_tgpp_user_location_info) (fun tgpp_user_location_info => [
      MSG_ADD_AVP_OSTR davp_3gpp_user_location_info MSG (val_of tgpp_user_location_info)
        (octet_len tgpp_user_location_info)]);
    when gx_ccr.(GxCCR_event_trigger) (fun event_trigger => [
      for_each event_trigger (fun n => [
        val_num uint32_t n;
        MSG_ADD_AVP_U32 davp_event_trigger MSG n])])].

Definition ccr_fixed_user_location_info (gx_ccr : GxCCR) : stmt :=
  when gx_ccr.(GxCCR_fixed_user_location_info) (fun fixed_user_location_info => [
    when fixed_user_location_info.(GxFixedUserLocationInfo_ssid) (fun ssid => [
      val_os ssid; add_fd_msg davp_ssid]);
    when fixed_user_location_info.(GxFixedUserLocationInfo_bssid) (fun bssid => [
      val_os bssid; add_fd_msg davp_bssid]);
    when fixed_user_location_info.(GxFixedUserLocationInfo_logical_access_id) (fun logical_access_id => [
      val_os logical_access_id; add_fd_msg davp_logical_access_id]);
    when fixed_user_location_info.(GxFixedUserLocationInfo_physical_access_id) (fun physical_access_id => [
      val_os physical_access_id; add_fd_msg davp_physical_access_id])]).

Definition ccr_user_csg_information (gx_ccr : GxCCR) : stmt :=
  when gx_ccr.(GxCCR_user_csg_information) (fun user_csg_information => [
    when user_csg_information.(GxUserCsgInformation_csg_id) (fun csg_id => [
      val_num uint32_t csg_id; add_fd_msg davp_csg_id]);
    when user_csg_information.(GxUserCsgInformation_csg_access_mode) (fun csg_access_mode => [
      val_num int32_t csg_access_mode; add_fd_msg davp_csg_access_mode]);
    when user_csg_information.(GxUserCsgInformation_csg_membership_indication)
      (fun csg_membership_indication => [
      val_num int32_t csg_membership_indication; add_fd_msg davp_csg_membership_indication])]).

Definition ccr_oc_supported_features (gx_ccr : GxCCR) : stmt :=
  when gx_ccr.(GxCCR_oc_supported_features) (fun oc_supported_features => [
    when oc_supported_features.(GxOcSupportedFeatures_oc_feature_vector) (fun oc_feature_vector => [
      new_avp_ptr davp_oc_supported_features;
      val_num uint64_t oc_feature_vector; add_fd_msg davp_oc_feature_vector])]).

Definition ccr_tdf_information (gx_ccr : GxCCR) : stmt :=
  when gx_ccr.(GxCCR_tdf_information) (fun tdf_information => [
    new_avp_ptr davp_tdf_information;
    when tdf_information.(GxTdfInformation_tdf_destination_realm) (fun tdf_destination_realm => [
      val_os tdf_destination_realm; add_fd_msg davp_tdf_destination_realm]);
    when tdf_information.(GxTdfInformation_tdf_destination_host) (fun tdf_destination_host => [
      val_os tdf_destination_host; add_fd_msg davp_tdf_destination_host]);
    when tdf_information.(GxTdfInformation_tdf_ip_address) (fun tdf_ip_address => [
      val_os_data (address_of tdf_ip_address); add_fd_msg davp_tdf_ip_address])]).

Definition ccr_user_equipment_info (gx_ccr : GxCCR) : stmt :=
  when gx_ccr.(GxCCR_user_equipment_info) (fun user_equipment_info => [
    new_avp_ptr davp_user_equipment_info;
    when user_equipment_info.(GxUserEquipmentInfo_user_equipment_info_type) (fun user_equipment_info_type => [
      val_num int32_t user_equipment_info_type; add_fd_msg davp_user_equipment_info_type]);
    when user_equipment_info.(GxUserEquipmentInfo_user_equipment_info_value) (fun user_equipment_info_value => [
      val_os user_equipment_info_value; add_fd_msg davp_user_equipment_info_value])]).

Definition ccr_subscription_id (gx_ccr : GxCCR) : stmt :=
  when gx_ccr.(GxCCR_subscription_id) (fun subscription_id => [
    new_avp_ptr davp_subscription_id;
    for_each subscription_id (fun x => [
      when x.(GxSubscriptionId_subscription_id_type) (fun subscription_id_type => [
        val_num int32_t subscription_id_type; add_fd_msg davp_subscription_id_type]);
      when x.(GxSubscriptionId_subscription_id_data) (fun subscription_id_data => [
        val_os subscription_id_data; add_fd_msg davp_subscription_id_data])])]).

Definition ccr_supported_features (gx_ccr : GxCCR) : stmt :=
  when gx_ccr.(GxCCR_supported_features) (fun supported_features => [
    new_avp_ptr davp_supported_features;
    for_each supported_features (fun x => [
      when x.(GxSupportedFeatures_vendor_id) (fun vendor_id => [
        val_num uint32_t vendor_id; add_fd_msg davp_vendor_id]);
      when x.(GxSupportedFeatures_feature_list_id) (fun feature_list_id => [
        val_num uint32_t feature_list_id; add_fd_msg davp_feature_list_id]);
      when x.(GxSupportedFeatures_feature_list) (fun feature_list => [
        val_num uint32_t feature_list; add_fd_msg davp_feature_list])])]).

Definition ccr_packet_filter_information (gx_ccr : GxCCR) : stmt :=
  when gx_ccr.(GxCCR_packet_filter_information) (fun packet_filter_information => [
    for_each packet_filter_information (fun x => [
      new_avp_ptr davp_packet_filter_information;
      when x.(GxPacketFilterInformation_packet_filter_identifier) (fun packet_filter_identifier => [
        val_os packet_filter_identifier; add_fd_msg davp_packet_filter_identifier]);
      when x.(GxPacketFilterInformation_precedence) (fun precedence => [
        val_num uint32_t precedence; add_fd_msg davp_precedence]);
      when x.(GxPacketFilterInformation_packet_filter_content) (fun packet_filter_content => [
        val_os packet_filter_content; add_fd_msg davp_packet_filter_content]);
      when x.(GxPacketFilterInformation_tos_traffic_class) (fun tos_traffic_class => [
        val_os tos_traffic_class; add_fd_msg davp_tos_traffic_class]);
      when x.(GxPacketFilterInformation_security_parameter_index) (fun security_parameter_index => [
        val_os security_parameter_index; add_fd_msg davp_security_parameter_index]);
      when x.(GxPacketFilterInformation_flow_label) (fun flow_label => [
        val_os flow_label; add_fd_msg davp_flow_label]);
      when x.(GxPacketFilterInformation_flow_direction) (fun flow_direction => [
        val_num int32_t flow_direction; add_fd_msg davp_flow_direction])])]).

Definition ccr_conditional_apn_ambr (qos_information : GxQosInformation) : stmt :=
  when qos_information.(GxQosInformation_conditional_apn_aggregate_max_bitrate)
    (fun conditional_apn_aggregate_max_bitrate => [
    for_each conditional_apn_aggregate_max_bitrate (fun x => [
      when x.(GxConditionalApnAggregateMaxBitrate_apn_aggregate_max_bitrate_ul)
        (fun apn_aggregate_max_bitrate_ul => [
        val_num uint32_t apn_aggregate_max_bitrate_ul; add_fd_msg davp_apn_aggregate_max_bitrate_ul]);
      when x.(GxConditionalApnAggregateMaxBitrate_apn_aggregate_max_bitrate_dl)
        (fun apn_aggregate_max_bitrate_dl => [
        val_num uint32_t apn_aggregate_max_bitrate_dl; add_fd_msg davp_apn_aggregate_max_bitrate_dl]);
      when x.(GxConditionalApnAggregateMaxBitrate_extended_apn_ambr_ul) (fun extended_apn_ambr_ul => [
        val_num uint32_t extended_apn_ambr_ul; add_fd_msg davp_extended_apn_ambr_ul]);
      when x.(GxConditionalApnAggregateMaxBitrate_extended_apn_ambr_dl) (fun extended_apn_ambr_dl => [
        val_num uint32_t extended_apn_ambr_dl; add_fd_msg davp_extended_apn_ambr_dl]);
      when x.(GxConditionalApnAggregateMaxBitrate_ip_can_type) (fun ip_can_type => [
        for_each ip_can_type (fun n => [val_num uint32_t n; add_fd_msg davp_ip_can_type])]);
      when x.(GxConditionalApnAggregateMaxBitrate_rat_type) (fun rat_type => [
        for_each rat_type (fun n => [val_num uint32_t n; add_fd_msg davp_rat_type])])])]).

Definition ccr_qos_information (gx_ccr : GxCCR) : stmt :=
  when gx_ccr.(GxCCR_qos_information) (fun qos_information => [
    new_avp_ptr davp_qos_information;
    when qos_information.(GxQosInformation_qos_class_identifier) (fun qos_class_identifier => [
      val_num int32_t qos_class_identifier; add_fd_msg davp_qos_class_identifier]);
    when qos_information.(GxQosInformation_max_requested_bandwidth_ul) (fun max_requested_bandwidth_ul => [
      val_num uint32_t max_requested_bandwidth_ul; add_fd_msg davp_max_requested_bandwidth_ul]);
    when qos_information.(GxQosInformation_max_requested_bandwidth_dl) (fun max_requested_bandwidth_dl => [
      val_num uint32_t max_requested_bandwidth_dl; add_fd_msg davp_max_requested_bandwidth_dl]);
    when qos_information.(GxQosInformation_extended_max_requested_bw_ul) (fun extended_max_requested_bw_ul => [
      val_num uint32_t extended_max_requested_bw_ul; add_fd_msg davp_extended_max_requested_bw_ul]);
    when qos_information.(GxQosInformation_extended_max_requested_bw_dl) (fun extended_max_requested_bw_dl => [
      val_num uint32_t extended_max_requested_bw_dl; add_fd_msg davp_extended_max_requested_bw_dl]);
    when qos_information.(GxQosInformation_guaranteed_bitrate_ul) (fun guaranteed_bitrate_ul => [
      val_num uint32_t guaranteed_bitrate_ul; add_fd_msg davp_guaranteed_bitrate_ul]);
    when qos_information.(GxQosInformation_guaranteed_bitrate_dl) (fun guaranteed_bitrate_dl => [
      val_num uint32_t guaranteed_bitrate_dl; add_fd_msg davp_guaranteed_bitrate_dl]);
    when qos_information.(GxQosInformation_extended_gbr_ul) (fun extended_gbr_ul => [
      val_num uint32_t extended_gbr_ul; add_fd_msg davp_extended_gbr_ul]);
    when qos_information.(GxQosInformation_extended_gbr_dl) (fun extended_gbr_dl => [
      val_num uint32_t extended_gbr_dl; add_fd_msg davp_extended_gbr_dl]);
    when qos_information.(GxQosInformation_bearer_identifier) (fun bearer_identifier => [
      val_os bearer_identifier; add_fd_msg davp_bearer_identifier]);
    when (default zero_GxAllocationRetentionPriority
      qos_information.(GxQosInformation_allocation_retention_priority)).(GxAllocationRetentionPriority_priority_level) (fun priority_level => [
      val_num uint32_t priority_level; add_fd_msg davp_priority_level]);
    when (default zero_GxAllocationRetentionPriority
      qos_information.(GxQosInformation_allocation_retention_priority)).(GxAllocationRetentionPriority_pre_emption_capability) (fun pre_emption_capability => [
      val_num int32_t pre_emption_capability; add_fd_msg davp_pre_emption_capability]);
    when (default zero_GxAllocationRetentionPriority
      qos_information.(GxQosInformation_allocation_retention_priority)).(GxAllocationRetentionPriority_pre_emption_vulnerability) (fun pre_emption_vulnerability => [
      val_num int32_t pre_emption_vulnerability; add_fd_msg davp_pre_emption_vulnerability]);
    when qos_information.(GxQosInformation_apn_aggregate_max_bitrate_ul) (fun apn_aggregate_max_bitrate_ul => [
      val_num uint32_t apn_aggregate_max_bitrate_ul; add_fd_msg davp_apn_aggregate_max_bitrate_ul]);
    when qos_information.(GxQosInformation_apn_aggregate_max_bitrate_dl) (fun apn_aggregate_max_bitrate_dl => [
      val_num uint32_t apn_aggregate_max_bitrate_dl; add_fd_msg davp_apn_aggregate_max_bitrate_dl]);
    when qos_information.(GxQosInformation_extended_apn_ambr_ul) (fun extended_apn_ambr_ul => [
      val_num uint32_t extended_apn_ambr_ul; add_fd_msg davp_extended_apn_ambr_ul]);
    when qos_information.(GxQosInformation_extended_apn_ambr_dl) (fun extended_apn_ambr_dl => [
      val_num uint32_t extended_apn_ambr_dl; add_fd_msg davp_extended_apn_ambr_dl]);
    ccr_conditional_apn_ambr qos_information]).

Definition ccr_an_gw_address (gx_ccr : GxCCR) : stmt :=
  when gx_ccr.(GxCCR_an_gw_address) (fun an_gw_address => [
    for_index (length an_gw_address) (fun r => [
      val_os_len (Z.of_nat (length an_gw_address) * sizeof_FdAddress);
        val_os_data (list_address an_gw_address r); add_fd_msg davp_an_gw_address])]).

Definition ccr_ran_nas_release_cause (gx_ccr : GxCCR) : stmt :=
  when gx_ccr.(GxCCR_ran_nas_release_cause) (fun ran_nas_release_cause => [
    for_each ran_nas_release_cause (fun s => [val_os s; add_fd_msg davp_ran_nas_release_cause])]).

Definition ccr_tft_packet_filter_information (gx_ccr : GxCCR) : stmt :=
  when gx_ccr.(GxCCR_tft_packet_filter_information) (fun tft_packet_filter_information => [
    new_avp_ptr davp_tft_packet_filter_information;
    for_each tft_packet_filter_information (fun x => [
      when x.(GxTftPacketFilterInformation_precedence) (fun precedence => [
        val_num uint32_t precedence; add_fd_msg davp_precedence]);
      when x.(GxTftPacketFilterInformation_tft_filter) (fun tft_filter => [
        val_os tft_filter; add_fd_msg davp_tft_filter]);
      when x.(GxTftPacketFilterInformation_tos_traffic_class) (fun tos_traffic_class => [
        val_os tos_traffic_class; add_fd_msg davp_tos_traffic_class]);
      when x.(GxTftPacketFilterInformation_security_parameter_index) (fun security_parameter_index => [
        val_os security_parameter_index; add_fd_msg davp_security_parameter_index]);
      when x.(GxTftPacketFilterInformation_flow_label) (fun flow_label => [
        val_os flow_label; add_fd_msg davp_flow_label]);
      when x.(GxTftPacketFilterInformation_flow_direction) (fun flow_direction => [
        val_num int32_t flow_direction; add_fd_msg davp_flow_direction])])]).

Definition ccr_final_unit_indication (charging_rule_report : GxChargingRuleReport) : stmt :=
  when charging_rule_report.(GxChargingRuleReport_final_unit_indication) (fun final_unit_indication => [
    when final_unit_indication.(GxFinalUnitIndication_final_unit_action) (fun final_unit_action => [
      val_num int32_t final_unit_action; add_fd_msg davp_final_unit_action]);
    when final_unit_indication.(GxFinalUnitIndication_restriction_filter_rule) (fun restriction_filter_rule => [
      for_each restriction_filter_rule (fun s => [val_os s; add_fd_msg davp_restriction_filter_rule])]);
    when final_unit_indication.(GxFinalUnitIndication_filter_id) (fun filter_id => [
      for_each filter_id (fun s => [val_os s; add_fd_msg davp_filter_id])]);
    when final_unit_indication.(GxFinalUnitIndication_redirect_server) (fun redirect_server => [
      when redirect_server.(GxRedirectServer_redirect_address_type) (fun redirect_address_type => [
        val_num int32_t redirect_address_type; add_fd_msg davp_redirect_address_type]);
      when redirect_server.(GxRedirectServer_redirect_server_address) (fun redirect_server_address => [
        val_os redirect_server_address; add_fd_msg davp_redirect_server_address])])]).

Definition ccr_charging_rule_report (gx_ccr : GxCCR) : stmt :=
  when gx_ccr.(GxCCR_charging_rule_report) (fun charging_rule_report => [
    for_each charging_rule_report (fun x => [
      new_avp_ptr davp_charging_rule_report;
      when x.(GxChargingRuleReport_charging_rule_name) (fun charging_rule_name => [
        for_each charging_rule_name (fun s => [val_os s; add_fd_msg davp_charging_rule_name])]);
      when x.(GxChargingRuleReport_charging_rule_base_name) (fun charging_rule_base_name => [
        for_each charging_rule_base_name (fun s => [val_os s; add_fd_msg davp_charging_rule_base_name])]);
      when x.(GxChargingRuleReport_bearer_identifier) (fun bearer_identifier => [
        val_os bearer_identifier; add_fd_msg davp_bearer_identifier]);
      when x.(GxChargingRuleReport_pcc_rule_status) (fun pcc_rule_status => [
        val_num int32_t pcc_rule_status; add_fd_msg davp_pcc_rule_status]);
      when x.(GxChargingRuleReport_rule_failure_code) (fun rule_failure_code => [
        val_num int32_t rule_failure_code; add_fd_msg davp_rule_failure_code]);
      ccr_final_unit_indication x;
      when x.(GxChargingRuleReport_ran_nas_release_cause) (fun ran_nas_release_cause => [
        for_each ran_nas_release_cause (fun s => [val_os s; add_fd_msg davp_ran_nas_release_cause])]);
      when x.(GxChargingRuleReport_content_version) (fun content_version => [
        for_each content_version (fun n => [val_num uint64_t n; add_fd_msg davp_content_version])])])]).

Definition ccr_flow_information
  (application_detection_information : GxApplicationDetectionInformation) : stmt :=
  when application_detection_information.(GxApplicationDetectionInformation_flow_information)
    (fun flow_information => [
    for_each flow_information (fun x => [
      when x.(GxFlowInformation_flow_description) (fun flow_description => [
        val_os flow_description; add_fd_msg davp_flow_description]);
      when x.(GxFlowInformation_packet_filter_identifier) (fun packet_filter_identifier => [
        val_os packet_filter_identifier; add_fd_msg davp_packet_filter_identifier]);
      when x.(GxFlowInformation_packet_filter_usage) (fun packet_filter_usage => [
        val_num int32_t packet_filter_usage; add_fd_msg davp_packet_filter_usage]);
      when x.(GxFlowInformation_tos_traffic_class) (fun tos_traffic_class => [
        val_os tos_traffic_class; add_fd_msg davp_tos_traffic_class]);
      when x.(GxFlowInformation_security_parameter_index) (fun security_parameter_index => [
        val_os security_parameter_index; add_fd_msg davp_security_parameter_index]);
      when x.(GxFlowInformation_flow_label) (fun flow_label => [
        val_os flow_label; add_fd_msg davp_flow_label]);
      when x.(GxFlowInformation_flow_direction) (fun flow_direction => [
        val_num int32_t flow_direction; add_fd_msg davp_flow_direction]);
      when x.(GxFlowInformation_routing_rule_identifier) (fun routing_rule_identifier => [
        val_os routing_rule_identifier; add_fd_msg davp_routing_rule_identifier])])]).

Definition ccr_application_detection_information (gx_ccr : GxCCR) : stmt :=
  when gx_ccr.(GxCCR_application_detection_information) (fun application_detection_information => [
    new_avp_ptr davp_application_detection_information;
    for_each application_detection_information (fun x => [
      when x.(GxApplicationDetectionInformation_tdf_application_identifier) (fun tdf_application_identifier => [
        val_os tdf_application_identifier; add_fd_msg davp_tdf_application_identifier]);
      when x.(GxApplicationDetectionInformation_tdf_application_instance_identifier)
        (fun tdf_application_instance_identifier => [
        val_os tdf_application_instance_identifier; add_fd_msg davp_tdf_application_instance_identifier]);
      ccr_flow_information x])]).

Definition ccr_area_scope (mdt_configuration : GxMdtConfiguration) : stmt :=
  when mdt_configuration.(GxMdtConfiguration_area_scope) (fun area_scope => [
    when area_scope.(GxAreaScope_cell_global_identity) (fun cell_global_identity => [
      for_each cell_global_identity (fun s => [val_os s; add_fd_msg davp_cell_global_identity])]);
    when area_scope.(GxAreaScope_e_utran_cell_global_identity) (fun e_utran_cell_global_identity => [
      for_each e_utran_cell_global_identity (fun s => [
        val_os s; add_fd_msg davp_e_utran_cell_global_identity])]);
    when area_scope.(GxAreaScope_routing_area_identity) (fun routing_area_identity => [
      for_each routing_area_identity (fun s => [val_os s; add_fd_msg davp_routing_area_identity])]);
    when area_scope.(GxAreaScope_tracking_area_identity) (fun tracking_area_identity => [
      for_each tracking_area_identity (fun s => [val_os s; add_fd_msg davp_tracking_area_identity])]);
    when area_scope.(GxAreaScope_location_area_identity) (fun location_area_identity => [
      for_each location_area_identity (fun s => [val_os s; add_fd_msg davp_location_area_identity])])]).

Definition ccr_mdt_settings (mdt_configuration : GxMdtConfiguration) : stmt :=
  block [
    when mdt_configuration.(GxMdtConfiguration_list_of_measurements) (fun list_of_measurements => [
      val_num uint32_t list_of_measurements; add_fd_msg davp_list_of_measurements]);
    when mdt_configuration.(GxMdtConfiguration_reporting_trigger) (fun reporting_trigger => [
      val_num uint32_t reporting_trigger; add_fd_msg davp_reporting_trigger]);
    when mdt_configuration.(GxMdtConfiguration_report_interval) (fun report_interval => [
      val_num int32_t report_interval; add_fd_msg davp_report_interval]);
    when mdt_configuration.(GxMdtConfiguration_report_amount) (fun report_amount => [
      val_num int32_t report_amount; add_fd_msg davp_report_amount]);
    when mdt_configuration.(GxMdtConfiguration_event_threshold_rsrp) (fun event_threshold_rsrp => [
      val_num uint32_t event_threshold_rsrp; add_fd_msg davp_event_threshold_rsrp]);
    when mdt_configuration.(GxMdtConfiguration_event_threshold_rsrq) (fun event_threshold_rsrq => [
      val_num uint32_t event_threshold_rsrq; add_fd_msg davp_event_threshold_rsrq]);
    when mdt_configuration.(GxMdtConfiguration_logging_interval) (fun logging_interval => [
      val_num int32_t logging_interval; add_fd_msg davp_logging_interval]);
    when mdt_configuration.(GxMdtConfiguration_logging_duration) (fun logging_duration => [
      val_num int32_t logging_duration; add_fd_msg davp_logging_duration]);
    when mdt_configuration.(GxMdtConfiguration_measurement_period_lte) (fun measurement_period_lte => [
      val_num int32_t measurement_period_lte; add_fd_msg davp_measurement_period_lte]);
    when mdt_configuration.(GxMdtConfiguration_measurement_period_umts) (fun measurement_period_umts => [
      val_num int32_t measurement_period_umts; add_fd_msg davp_measurement_period_umts]);
    when mdt_configuration.(GxMdtConfiguration_collection_period_rrm_lte) (fun collection_period_rrm_lte => [
      val_num int32_t collection_period_rrm_lte; add_fd_msg davp_collection_period_rrm_lte]);
    when mdt_configuration.(GxMdtConfiguration_collection_period_rrm_umts) (fun collection_period_rrm_umts => [
      val_num int32_t collection_period_rrm_umts; add_fd_msg davp_collection_period_rrm_umts]);
    when mdt_configuration.(GxMdtConfiguration_positioning_method) (fun positioning_method => [
      val_os positioning_method; add_fd_msg davp_positioning_method]);
    when mdt_configuration.(GxMdtConfiguration_measurement_quantity) (fun measurement_quantity => [
      val_os measurement_quantity; add_fd_msg davp_measurement_quantity]);
    when mdt_configuration.(GxMdtConfiguration_event_threshold_event_1f) (fun event_threshold_event_1f => [
      val_num int32_t event_threshold_event_1f; add_fd_msg davp_event_threshold_event_1f]);
    when mdt_configuration.(GxMdtConfiguration_event_threshold_event_1i) (fun event_threshold_event_1i => [
      val_num int32_t event_threshold_event_1i; add_fd_msg davp_event_threshold_event_1i]);
    when mdt_configuration.(GxMdtConfiguration_mdt_allowed_plmn_id) (fun mdt_allowed_plmn_id => [
      for_each mdt_allowed_plmn_id (fun s => [val_os s; add_fd_msg davp_mdt_allowed_plmn_id])]);
    when mdt_configuration.(GxMdtConfiguration_mbsfn_area) (fun mbsfn_area => [
      for_each mbsfn_area (fun x => [
        when x.(GxMbsfnArea_mbsfn_area_id) (fun mbsfn_area_id => [
          val_num uint32_t mbsfn_area_id; add_fd_msg davp_mbsfn_area_id]);
        when x.(GxMbsfnArea_carrier_frequency) (fun carrier_frequency => [
          val_num uint32_t carrier_frequency; add_fd_msg davp_carrier_frequency])])])].

Definition ccr_mdt_configuration (trace_data : GxTraceData) : stmt :=
  when trace_data.(GxTraceData_mdt_configuration) (fun mdt_configuration => [
    when mdt_configuration.(GxMdtConfiguration_job_type) (fun job_type => [
      val_num int32_t job_type; add_fd_msg davp_job_type]);
    ccr_area_scope mdt_configuration;
    ccr_mdt_settings mdt_configuration]).

Definition ccr_trace_data (event_report_indication : GxEventReportIndication) : stmt :=
  when event_report_indication.(GxEventReportIndication_trace_data) (fun trace_data => [
    when trace_data.(GxTraceData_trace_reference) (fun trace_reference => [
      val_os trace_reference; add_fd_msg davp_trace_reference]);
    when trace_data.(GxTraceData_trace_depth) (fun trace_depth => [
      val_num int32_t trace_depth; add_fd_msg davp_trace_depth]);
    when trace_data.(GxTraceData_trace_ne_type_list) (fun trace_ne_type_list => [
      val_os trace_ne_type_list; add_fd_msg davp_trace_ne_type_list]);
    when trace_data.(GxTraceData_trace_ne_type_list) (fun trace_ne_type_list => [
      val_os trace_ne_type_list; add_fd_msg davp_trace_ne_type_list]);
    when trace_data.(GxTraceData_trace_interface_list) (fun trace_interface_list => [
      val_os trace_interface_list; add_fd_msg davp_trace_interface_list]);
    when trace_data.(GxTraceData_trace_event_list) (fun trace_event_list => [
      val_os trace_event_list; add_fd_msg davp_trace_event_list]);
    when trace_data.(GxTraceData_omc_id) (fun omc_id => [val_os omc_id; add_fd_msg davp_omc_id]);
    when trace_data.(GxTraceData_trace_collection_entity) (fun trace_collection_entity => [
      val_os_address trace_collection_entity; add_fd_msg davp_trace_collection_entity]);
    ccr_mdt_configuration trace_data]).

Definition ccr_event_report_1 (event_report_indication : GxEventReportIndication) : stmt :=
  block [
    when event_report_indication.(GxEventReportIndication_an_trusted) (fun an_trusted => [
      val_num int32_t an_trusted; add_fd_msg davp_an_trusted]);
    when event_report_indication.(GxEventReportIndication_event_trigger) (fun event_trigger => [
      for_each event_trigger (fun n => [val_num uint32_t n; add_fd_msg davp_event_trigger])]);
    when event_report_indication.(GxEventReportIndication_user_csg_information) (fun user_csg_information => [
      when user_csg_information.(GxUserCsgInformation_csg_id) (fun csg_id => [
        val_num uint32_t csg_id; add_fd_msg davp_csg_id]);
      when user_csg_information.(GxUserCsgInformation_csg_access_mode) (fun csg_access_mode => [
        val_num int32_t csg_access_mode; add_fd_msg davp_csg_access_mode]);
      when user_csg_information.(GxUserCsgInformation_csg_membership_indication)
        (fun csg_membership_indication => [
        val_num int32_t csg_membership_indication; add_fd_msg davp_csg_membership_indication])]);
    when event_report_indication.(GxEventReportIndication_ip_can_type) (fun ip_can_type => [
      val_num int32_t ip_can_type; add_fd_msg davp_ip_can_type]);
    when event_report_indication.(GxEventReportIndication_an_gw_address) (fun an_gw_address => [
      for_index (length an_gw_address) (fun r => [
        val_os_len (Z.of_nat (length an_gw_address) * sizeof_FdAddress);
          val_os_data (list_address an_gw_address r); add_fd_msg davp_an_gw_address])]);
    when event_report_indication.(GxEventReportIndication_tgpp_sgsn_address) (fun tgpp_sgsn_address => [
      val_os tgpp_sgsn_address; add_fd_msg davp_3gpp_sgsn_address]);
    when event_report_indication.(GxEventReportIndication_tgpp_sgsn_ipv6_address)
      (fun tgpp_sgsn_ipv6_address => [
      val_os tgpp_sgsn_ipv6_address; add_fd_msg davp_3gpp_sgsn_ipv6_address]);
    when event_report_indication.(GxEventReportIndication_tgpp_sgsn_mcc_mnc) (fun tgpp_sgsn_mcc_mnc => [
      val_os tgpp_sgsn_mcc_mnc; add_fd_msg davp_3gpp_sgsn_mcc_mnc]);
    when event_report_indication.(GxEventReportIndication_framed_ip_address) (fun framed_ip_address => [
      val_os framed_ip_address; add_fd_msg davp_framed_ip_address]);
    when event_report_indication.(GxEventReportIndication_rat_type) (fun rat_type => [
      val_num int32_t rat_type; add_fd_msg davp_rat_type]);
    when event_report_indication.(GxEventReportIndication_rai) (fun rai => [
      val_os rai; add_fd_msg davp_rai]);
    when event_report_indication.(GxEventReportIndication_tgpp_user_location_info)
      (fun tgpp_user_location_info => [
      val_os tgpp_user_location_info; add_fd_msg davp_3gpp_user_location_info]);
    when event_report_indication.(GxEventReportIndication_rai) (fun rai => [
      val_os rai; add_fd_msg davp_rai])].

Definition ccr_event_report_2 (event_report_indication : GxEventReportIndication) : stmt :=
  block [
    when event_report_indication.(GxEventReportIndication_trace_reference) (fun trace_reference => [
      val_os trace_reference; add_fd_msg davp_trace_reference]);
    when event_report_indication.(GxEventReportIndication_tgpp2_bsid) (fun tgpp2_bsid => [
      val_os tgpp2_bsid; add_fd_msg davp_3gpp2_bsid]);
    when event_report_indication.(GxEventReportIndication_tgpp_ms_timezone) (fun tgpp_ms_timezone => [
      val_os tgpp_ms_timezone; add_fd_msg davp_3gpp_ms_timezone]);
    when event_report_indication.(GxEventReportIndication_routing_ip_address) (fun routing_ip_address => [
      val_os_address routing_ip_address; add_fd_msg davp_routing_ip_address]);
    when event_report_indication.(GxEventReportIndication_ue_local_ip_address) (fun ue_local_ip_address => [
      val_os_address ue_local_ip_address; add_fd_msg davp_ue_local_ip_address]);
    when event_report_indication.(GxEventReportIndication_henb_local_ip_address) (fun henb_local_ip_address => [
      val_os_address henb_local_ip_address; add_fd_msg davp_henb_local_ip_address]);
    when event_report_indication.(GxEventReportIndication_udp_source_port) (fun udp_source_port => [
      val_num uint32_t udp_source_port; add_fd_msg davp_udp_source_port]);
    when event_report_indication.(GxEventReportIndication_presence_reporting_area_information)
      (fun presence_reporting_area_information => [
      when presence_reporting_area_information.(GxPresenceReportingAreaInformation_presence_reporting_area_identifier) (fun presence_reporting_area_identifier => [
        val_os presence_reporting_area_identifier; add_fd_msg davp_presence_reporting_area_identifier]);
      when presence_reporting_area_information.(GxPresenceReportingAreaInformation_presence_reporting_area_status) (fun presence_reporting_area_status => [
        val_num uint32_t presence_reporting_area_status; add_fd_msg davp_presence_reporting_area_status]);
      when presence_reporting_area_information.(GxPresenceReportingAreaInformation_presence_reporting_area_elements_list) (fun presence_reporting_area_elements_list => [
        val_os presence_reporting_area_elements_list; add_fd_msg davp_presence_reporting_area_elements_list]);
      when presence_reporting_area_information.(GxPresenceReportingAreaInformation_presence_reporting_area_node) (fun presence_reporting_area_node => [
        val_num uint32_t presence_reporting_area_node; add_fd_msg davp_presence_reporting_area_node])])].

Definition ccr_event_report_indication (gx_ccr : GxCCR) : stmt :=
  when gx_ccr.(GxCCR_event_report_indication) (fun event_report_indication => [
    new_avp_ptr davp_event_report_indication;
    ccr_event_report_1 event_report_indication;
    ccr_trace_data event_report_indication;
    ccr_event_report_2 event_report_indication]).

Definition ccr_access_network_charging_identifier_gx (gx_ccr : GxCCR) : stmt :=
  when gx_ccr.(GxCCR_access_network_charging_identifier_gx) (fun access_network_charging_identifier_gx => [
    new_avp_ptr davp_access_network_charging_identifier_gx;
    for_each access_network_charging_identifier_gx (fun x => [
      when x.(GxAccessNetworkChargingIdentifierGx_access_network_charging_identifier_value)
        (fun access_network_charging_identifier_value => [
        val_os access_network_charging_identifier_value;
          add_fd_msg davp_access_network_charging_identifier_value]);
      when x.(GxAccessNetworkChargingIdentifierGx_charging_rule_base_name) (fun charging_rule_base_name => [
        for_count (length (default [] x.(GxAccessNetworkChargingIdentifierGx_charging_rule_name)))
          charging_rule_base_name (fun s => [
          val_os s; add_fd_msg davp_charging_rule_base_name])]);
      when x.(GxAccessNetworkChargingIdentifierGx_charging_rule_name) (fun charging_rule_name => [
        for_each charging_rule_name (fun s => [val_os s; add_fd_msg davp_charging_rule_name])]);
      when x.(GxAccessNetworkChargingIdentifierGx_ip_can_session_charging_scope)
        (fun ip_can_session_charging_scope => [
        val_num int32_t ip_can_session_charging_scope; add_fd_msg davp_ip_can_session_charging_scope])])]).

Definition ccr_coa_information (gx_ccr : GxCCR) : stmt :=
  when gx_ccr.(GxCCR_coa_information) (fun coa_information => [
    new_avp_ptr davp_coa_information;
    for_each coa_information (fun x => [
      when x.(GxCoaInformation_tunnel_information) (fun tunnel_information => [
        when tunnel_information.(GxTunnelInformation_tunnel_header_length) (fun tunnel_header_length => [
          val_num int32_t tunnel_header_length; add_fd_msg davp_tunnel_header_length]);
        when tunnel_information.(GxTunnelInformation_tunnel_header_filter) (fun tunnel_header_filter => [
          for_each tunnel_header_filter (fun s => [val_os s; add_fd_msg davp_tunnel_header_filter])])]);
      when x.(GxCoaInformation_coa_ip_address) (fun coa_ip_address => [
        val_os_address coa_ip_address; add_fd_msg davp_coa_ip_address])])]).

Definition ccr_granted_service_unit (usage_monitoring_information : GxUsageMonitoringInformation) : stmt :=
  when usage_monitoring_information.(GxUsageMonitoringInformation_granted_service_unit)
    (fun granted_service_unit => [
    for_each granted_service_unit (fun x => [
      when x.(GxGrantedServiceUnit_tariff_time_change) (fun tariff_time_change => [
        val_num uint32_t tariff_time_change; add_fd_msg davp_tariff_time_change]);
      when x.(GxGrantedServiceUnit_cc_time) (fun cc_time => [
        val_num uint32_t cc_time; add_fd_msg davp_cc_time]);
      when x.(GxGrantedServiceUnit_cc_money) (fun cc_money => [
        when cc_money.(GxCcMoney_unit_value) (fun unit_value => [
          when unit_value.(GxUnitValue_value_digits) (fun value_digits => [
            val_num uint32_t value_digits; add_fd_msg davp_value_digits]);
          when unit_value.(GxUnitValue_exponent) (fun exponent => [
            val_num uint32_t exponent; add_fd_msg davp_exponent])]);
        when cc_money.(GxCcMoney_currency_code) (fun currency_code => [
          val_num uint32_t currency_code; add_fd_msg davp_currency_code])]);
      when x.(GxGrantedServiceUnit_cc_total_octets) (fun cc_total_octets => [
        val_num uint64_t cc_total_octets; add_fd_msg davp_cc_total_octets]);
      when x.(GxGrantedServiceUnit_cc_input_octets) (fun cc_input_octets => [
        val_num uint64_t cc_input_octets; add_fd_msg davp_cc_input_octets]);
      when x.(GxGrantedServiceUnit_cc_output_octets) (fun cc_output_octets => [
        val_num uint64_t cc_output_octets; add_fd_msg davp_cc_output_octets]);
      when x.(GxGrantedServiceUnit_cc_service_specific_units) (fun cc_service_specific_units => [
        val_num uint64_t cc_service_specific_units; add_fd_msg davp_cc_service_specific_units])])]).

Definition ccr_used_service_unit (usage_monitoring_information : GxUsageMonitoringInformation) : stmt :=
  when usage_monitoring_information.(GxUsageMonitoringInformation_used_service_unit) (fun used_service_unit => [
    for_each used_service_unit (fun x => [
      when x.(GxUsedServiceUnit_reporting_reason) (fun reporting_reason => [
        val_num int32_t reporting_reason; add_fd_msg davp_reporting_reason]);
      when x.(GxUsedServiceUnit_tariff_change_usage) (fun tariff_change_usage => [
        val_num int32_t tariff_change_usage; add_fd_msg davp_tariff_change_usage]);
      when x.(GxUsedServiceUnit_cc_time) (fun cc_time => [
        val_num uint32_t cc_time; add_fd_msg davp_cc_time]);
      when x.(GxUsedServiceUnit_cc_money) (fun cc_money => [
        when cc_money.(GxCcMoney_unit_value) (fun unit_value => [
          when unit_value.(GxUnitValue_value_digits) (fun value_digits => [
            val_num uint32_t value_digits; add_fd_msg davp_value_digits]);
          when unit_value.(GxUnitValue_exponent) (fun exponent => [
            val_num uint32_t exponent; add_fd_msg davp_exponent])]);
        when cc_money.(GxCcMoney_currency_code) (fun currency_code => [
          val_num uint32_t currency_code; add_fd_msg davp_currency_code])]);
      when x.(GxUsedServiceUnit_cc_total_octets) (fun cc_total_octets => [
        val_num uint64_t cc_total_octets; add_fd_msg davp_cc_total_octets]);
      when x.(GxUsedServiceUnit_cc_input_octets) (fun cc_input_octets => [
        val_num uint64_t cc_input_octets; add_fd_msg davp_cc_input_octets]);
      when x.(GxUsedServiceUnit_cc_output_octets) (fun cc_output_octets => [
        val_num uint64_t cc_output_octets; add_fd_msg davp_cc_output_octets]);
      when x.(GxUsedServiceUnit_cc_service_specific_units) (fun cc_service_specific_units => [
        val_num uint64_t cc_service_specific_units; add_fd_msg davp_cc_service_specific_units]);
      when x.(GxUsedServiceUnit_event_charging_timestamp) (fun event_charging_timestamp => [
        for_each event_charging_timestamp (fun n => [
          val_num uint64_t n; add_fd_msg davp_event_charging_timestamp])])])]).

Definition ccr_usage_monitoring_information (gx_ccr : GxCCR) : stmt :=
  when gx_ccr.(GxCCR_usage_monitoring_information) (fun usage_monitoring_information => [
    new_avp_ptr davp_usage_monitoring_information;
    for_each usage_monitoring_information (fun x => [
      when x.(GxUsageMonitoringInformation_monitoring_key) (fun monitoring_key => [
        val_os monitoring_key; add_fd_msg davp_monitoring_key]);
      ccr_granted_service_unit x;
      ccr_used_service_unit x;
      when x.(GxUsageMonitoringInformation_quota_consumption_time) (fun quota_consumption_time => [
        val_num uint32_t quota_consumption_time; add_fd_msg davp_quota_consumption_time]);
      when x.(GxUsageMonitoringInformation_usage_monitoring_level) (fun usage_monitoring_level => [
        val_num int32_t usage_monitoring_level; add_fd_msg davp_usage_monitoring_level]);
      when x.(GxUsageMonitoringInformation_usage_monitoring_report) (fun usage_monitoring_report => [
        val_num int32_t usage_monitoring_report; add_fd_msg davp_usage_monitoring_report]);
      when x.(GxUsageMonitoringInformation_usage_monitoring_support) (fun usage_monitoring_support => [
        val_num int32_t usage_monitoring_support; add_fd_msg davp_usage_monitoring_support])])]).

Definition ccr_routing_filter (routing_rule_definition : GxRoutingRuleDefinition) : stmt :=
  when routing_rule_definition.(GxRoutingRuleDefinition_routing_filter) (fun routing_filter => [
    for_each routing_filter (fun x => [
      when x.(GxRoutingFilter_flow_description) (fun flow_description => [
        val_os flow_description; add_fd_msg davp_flow_description]);
      when x.(GxRoutingFilter_flow_direction) (fun flow_direction => [
        val_num int32_t flow_direction; add_fd_msg davp_flow_direction]);
      when x.(GxRoutingFilter_tos_traffic_class) (fun tos_traffic_class => [
        val_os tos_traffic_class; add_fd_msg davp_tos_traffic_class]);
      when x.(GxRoutingFilter_security_parameter_index) (fun security_parameter_index => [
        val_os security_parameter_index; add_fd_msg davp_security_parameter_index]);
      when x.(GxRoutingFilter_flow_label) (fun flow_label => [
        val_os flow_label; add_fd_msg davp_flow_label])])]).

Definition ccr_routing_rule_install (gx_ccr : GxCCR) : stmt :=
  when gx_ccr.(GxCCR_routing_rule_install) (fun routing_rule_install => [
    new_avp_ptr davp_routing_rule_install;
    when routing_rule_install.(GxRoutingRuleInstall_routing_rule_definition) (fun routing_rule_definition => [
      for_each routing_rule_definition (fun x => [
        when x.(GxRoutingRuleDefinition_routing_rule_identifier) (fun routing_rule_identifier => [
          val_os routing_rule_identifier; add_fd_msg davp_routing_rule_identifier]);
        ccr_routing_filter x;
        when x.(GxRoutingRuleDefinition_precedence) (fun precedence => [
          val_num uint32_t precedence; add_fd_msg davp_precedence]);
        when x.(GxRoutingRuleDefinition_routing_ip_address) (fun routing_ip_address => [
          val_os_address routing_ip_address; add_fd_msg davp_routing_ip_address]);
        when x.(GxRoutingRuleDefinition_ip_can_type) (fun ip_can_type => [
          val_num int32_t ip_can_type; add_fd_msg davp_ip_can_type])])])]).

Definition ccr_routing_rule_remove (gx_ccr : GxCCR) : stmt :=
  when gx_ccr.(GxCCR_routing_rule_remove) (fun routing_rule_remove => [
    new_avp_ptr davp_routing_rule_remove;
    for_each (default [] routing_rule_remove.(GxRoutingRuleRemove_routing_rule_identifier)) (fun s => [
      val_os s; add_fd_msg davp_routing_rule_identifier])]).

Definition ccr_presence_reporting_area_information (gx_ccr : GxCCR) : stmt :=
  when gx_ccr.(GxCCR_presence_reporting_area_information) (fun presence_reporting_area_information => [
    new_avp_ptr davp_presence_reporting_area_information;
    for_each presence_reporting_area_information (fun x => [
      when x.(GxPresenceReportingAreaInformation_presence_reporting_area_identifier)
        (fun presence_reporting_area_identifier => [
        val_os presence_reporting_area_identifier; add_fd_msg davp_presence_reporting_area_identifier]);
      when x.(GxPresenceReportingAreaInformation_presence_reporting_area_status)
        (fun presence_reporting_area_status => [
        val_num uint32_t presence_reporting_area_status; add_fd_msg davp_presence_reporting_area_status]);
      when x.(GxPresenceReportingAreaInformation_presence_reporting_area_elements_list)
        (fun presence_reporting_area_elements_list => [
        val_os presence_reporting_area_elements_list; add_fd_msg davp_presence_reporting_area_elements_list]);
      when x.(GxPresenceReportingAreaInformation_presence_reporting_area_node)
        (fun presence_reporting_area_node => [
        val_num uint32_t presence_reporting_area_node; add_fd_msg davp_presence_reporting_area_node])])]).

Definition ccr_proxy_info (gx_ccr : GxCCR) : stmt :=
  when gx_ccr.(GxCCR_proxy_info) (fun proxy_info => [
    new_avp_ptr davp_proxy_info;
    for_each proxy_info (fun x => [
      when x.(GxProxyInfo_proxy_host) (fun proxy_host => [val_os proxy_host; add_fd_msg davp_proxy_host]);
      when x.(GxProxyInfo_proxy_state) (fun proxy_state => [
        val_os proxy_state; add_fd_msg davp_proxy_state])])]).

Definition ccr_route_record (gx_ccr : GxCCR) : stmt :=
  when gx_ccr.(GxCCR_route_record) (fun route_record => [
    new_avp_ptr davp_route_record;
    for_each route_record (fun s => [val_os s; add_fd_msg davp_route_record])]).

Definition ccr_default_eps_bearer_qos (gx_ccr : GxCCR) : stmt :=
  when gx_ccr.(GxCCR_default_eps_bearer_qos) (fun default_eps_bearer_qos => [
    MSG_ADD_AVP_GROUPED_2 davp_default_eps_bearer_qos MSG (fun default_eps_bearer_qos_avp => [
      when default_eps_bearer_qos.(GxDefaultEpsBearerQos_qos_class_identifier) (fun qos_class_identifier => [
        MSG_ADD_AVP_S32 davp_qos_class_identifier default_eps_bearer_qos_avp qos_class_identifier]);
      when default_eps_bearer_qos.(GxDefaultEpsBearerQos_allocation_retention_priority)
        (fun allocation_retention_priority => [
        MSG_ADD_AVP_GROUPED_2 davp_allocation_retention_priority default_eps_bearer_qos_avp
          (fun allocation_retention_priority_avp => [
          when allocation_retention_priority.(GxAllocationRetentionPriority_pre_emption_capability) (fun _ => [
            MSG_ADD_AVP_U32 davp_priority_level allocation_retention_priority_avp
              (default 0 allocation_retention_priority.(GxAllocationRetentionPriority_priority_level))]);
          when allocation_retention_priority.(GxAllocationRetentionPriority_pre_emption_capability)
            (fun pre_emption_capability => [
            MSG_ADD_AVP_S32 davp_pre_emption_capability allocation_retention_priority_avp
              pre_emption_capability]);
          when allocation_retention_priority.(GxAllocationRetentionPriority_pre_emption_vulnerability)
            (fun pre_emption_vulnerability => [
            MSG_ADD_AVP_S32 davp_pre_emption_vulnerability allocation_retention_priority_avp
              pre_emption_vulnerability])])])])]).

Definition ccr_default_qos_information (gx_ccr : GxCCR) : stmt :=
  when gx_ccr.(GxCCR_default_qos_information) (fun default_qos_information => [
    when default_qos_information.(GxDefaultQosInformation_qos_class_identifier) (fun qos_class_identifier => [
      val_num int32_t qos_class_identifier; add_fd_msg davp_qos_class_identifier]);
    when default_qos_information.(GxDefaultQosInformation_max_requested_bandwidth_ul)
      (fun max_requested_bandwidth_ul => [
      val_num uint32_t max_requested_bandwidth_ul; add_fd_msg davp_max_requested_bandwidth_ul]);
    when default_qos_information.(GxDefaultQosInformation_max_requested_bandwidth_dl)
      (fun max_requested_bandwidth_dl => [
      val_num uint32_t max_requested_bandwidth_dl; add_fd_msg davp_max_requested_bandwidth_dl]);
    when default_qos_information.(GxDefaultQosInformation_default_qos_name) (fun default_qos_name => [
      val_os default_qos_name; add_fd_msg davp_default_qos_name])]).

Definition gx_ccr_message (gx_ccr : GxCCR) : stmt :=
  block [
    ccr_header gx_ccr;
    ccr_details gx_ccr;
    ccr_fixed_user_location_info gx_ccr;
    ccr_user_csg_information gx_ccr;
    ccr_oc_supported_features gx_ccr;
    ccr_tdf_information gx_ccr;
    ccr_user_equipment_info gx_ccr;
    ccr_subscription_id gx_ccr;
    ccr_supported_features gx_ccr;
    ccr_packet_filter_information gx_ccr;
    ccr_qos_information gx_ccr;
    ccr_an_gw_address gx_ccr;
    ccr_ran_nas_release_cause gx_ccr;
    ccr_tft_packet_filter_information gx_ccr;
    ccr_charging_rule_report gx_ccr;
    ccr_application_detection_information gx_ccr;
    ccr_event_report_indication gx_ccr;
    ccr_access_network_charging_identifier_gx gx_ccr;
    ccr_coa_information gx_ccr;
    ccr_usage_monitoring_information gx_ccr;
    ccr_routing_rule_install gx_ccr;
    ccr_routing_rule_remove gx_ccr;
    ccr_presence_reporting_area_information gx_ccr;
    ccr_proxy_info gx_ccr;
    ccr_route_record gx_ccr;
    ccr_default_eps_bearer_qos gx_ccr;
    ccr_default_qos_information gx_ccr].

(** What becomes of the message: sent, freed at [err] or left behind by [return -1]. *)
Inductive ccr_outcome := CcrSent (msg : list avp) | CcrFreed (rval : Z) | CcrLeft (rval : Z).

(** The result of the unpacking is not looked at. *)
Definition gx_send_ccr {M : Malloc} (data : list byte) : res ccr_outcome :=
  let? r := gx_ccr_unpack data in
  match gx_ccr_message (snd r) (mk_sending [] NoAvp (mk_avp_union None None) 0) with
  | Next s =>
      if fd_msg_send_ok (s_msg s) then Ok (CcrSent (s_msg s)) else Ok (CcrFreed FD_REASON_MSG_SEND_FAIL)
  | GotoErr rval => Ok (CcrFreed rval)
  | Return rval => Ok (CcrLeft rval)
  | NotDefined => OutOfBounds
  end.
End Send.
