(* ===== verification/GxSendOk.v ===== *)
(** * The message that [gx_send_ccr] sends (GxSend.v)

    [ccr_fields] is the reference: the AVPs that stand for the members of a CCR, in the
    order in which they are added, for the members that the code sends in the form its
    own parsers read.  [adds] and [fills] say what a part of the function adds to the
    message; [gx_ccr_message_avps] composes them.  The parsers of GxParse.v read the
    AVPs back ([ccr_avps_say]), which with the codec of GxCodec.v gives the way of a
    CCR from the control plane to the PCRF ([ccr_reaches_pcrf]). *)
From S2P Require Import Prelude GxMacros GxStruct GxWire GxPack GxCodec GxDict GxAvp GxParse GxParseOk GxSend.


(** ** The message that stands for a CCR

    The AVPs of a message or group by the field they come from, in the order in which
    [gx_send_ccr] adds them, for the members that it sends as the parsers read them. *)
Abbreviation field := (davp * list avp)%type.

(** The types that the Diameter specifications give to those AVPs, and the AVPs that are groups. *)
Definition ccr_basetypes : list (davp * dict_avp_basetype) :=
  [(davp_session_id, AVP_TYPE_OCTETSTRING);
   (davp_origin_host, AVP_TYPE_OCTETSTRING);
   (davp_origin_realm, AVP_TYPE_OCTETSTRING);
   (davp_destination_realm, AVP_TYPE_OCTETSTRING);
   (davp_auth_application_id, AVP_TYPE_UNSIGNED32);
   (davp_cc_request_number, AVP_TYPE_UNSIGNED32);
   (davp_cc_request_type, AVP_TYPE_INTEGER32);
   (davp_credit_management_status, AVP_TYPE_UNSIGNED32);
   (davp_origin_state_id, AVP_TYPE_UNSIGNED32);
   (davp_network_request_support, AVP_TYPE_INTEGER32);
   (davp_packet_filter_operation, AVP_TYPE_INTEGER32);
   (davp_bearer_operation, AVP_TYPE_INTEGER32);
   (davp_dynamic_address_flag, AVP_TYPE_INTEGER32);
   (davp_dynamic_address_flag_extension, AVP_TYPE_INTEGER32);
   (davp_pdn_connection_charging_id, AVP_TYPE_UNSIGNED32);
   (davp_ip_can_type, AVP_TYPE_INTEGER32);
   (davp_an_trusted, AVP_TYPE_INTEGER32);
   (davp_rat_type, AVP_TYPE_INTEGER32);
   (davp_termination_cause, AVP_TYPE_INTEGER32);
   (davp_qos_negotiation, AVP_TYPE_INTEGER32);
   (davp_qos_upgrade, AVP_TYPE_INTEGER32);
   (davp_an_gw_status, AVP_TYPE_INTEGER32);
   (davp_rai, AVP_TYPE_OCTETSTRING);
   (davp_bearer_usage, AVP_TYPE_INTEGER32);
   (davp_online, AVP_TYPE_INTEGER32);
   (davp_offline, AVP_TYPE_INTEGER32);
   (davp_nbifom_support, AVP_TYPE_INTEGER32);
   (davp_nbifom_mode, AVP_TYPE_INTEGER32);
   (davp_default_access, AVP_TYPE_INTEGER32);
   (davp_maximum_wait_time, AVP_TYPE_UNSIGNED32);
   (davp_access_availability_change_reason, AVP_TYPE_UNSIGNED32);
   (davp_udp_source_port, AVP_TYPE_UNSIGNED32);
   (davp_tcp_source_port, AVP_TYPE_UNSIGNED32);
   (davp_bearer_identifier, AVP_TYPE_OCTETSTRING);
   (davp_3gpp_charging_characteristics, AVP_TYPE_OCTETSTRING);
   (davp_called_station_id, AVP_TYPE_OCTETSTRING);
   (davp_pdn_connection_id, AVP_TYPE_OCTETSTRING);
   (davp_framed_ip_address, AVP_TYPE_OCTETSTRING);
   (davp_framed_ipv6_prefix, AVP_TYPE_OCTETSTRING);
   (davp_3gpp_rat_type, AVP_TYPE_OCTETSTRING);
   (davp_twan_identifier, AVP_TYPE_OCTETSTRING);
   (davp_3gpp_ms_timezone, AVP_TYPE_OCTETSTRING);
   (davp_3gpp_user_location_info, AVP_TYPE_OCTETSTRING);
   (davp_event_trigger, AVP_TYPE_INTEGER32);
   (davp_user_equipment_info_type, AVP_TYPE_INTEGER32);
   (davp_user_equipment_info_value, AVP_TYPE_OCTETSTRING);
   (davp_subscription_id_type, AVP_TYPE_INTEGER32);
   (davp_subscription_id_data, AVP_TYPE_OCTETSTRING);
   (davp_packet_filter_identifier, AVP_TYPE_OCTETSTRING);
   (davp_precedence, AVP_TYPE_UNSIGNED32);
   (davp_packet_filter_content, AVP_TYPE_OCTETSTRING);
   (davp_tos_traffic_class, AVP_TYPE_OCTETSTRING);
   (davp_security_parameter_index, AVP_TYPE_OCTETSTRING);
   (davp_flow_label, AVP_TYPE_OCTETSTRING);
   (davp_flow_direction, AVP_TYPE_INTEGER32);
   (davp_qos_class_identifier, AVP_TYPE_INTEGER32);
   (davp_max_requested_bandwidth_ul, AVP_TYPE_UNSIGNED32);
   (davp_max_requested_bandwidth_dl, AVP_TYPE_UNSIGNED32);
   (davp_extended_max_requested_bw_ul, AVP_TYPE_UNSIGNED32);
   (davp_extended_max_requested_bw_dl, AVP_TYPE_UNSIGNED32);
   (davp_guaranteed_bitrate_ul, AVP_TYPE_UNSIGNED32);
   (davp_guaranteed_bitrate_dl, AVP_TYPE_UNSIGNED32);
   (davp_extended_gbr_ul, AVP_TYPE_UNSIGNED32);
   (davp_extended_gbr_dl, AVP_TYPE_UNSIGNED32);
   (davp_apn_aggregate_max_bitrate_ul, AVP_TYPE_UNSIGNED32);
   (davp_apn_aggregate_max_bitrate_dl, AVP_TYPE_UNSIGNED32);
   (davp_extended_apn_ambr_ul, AVP_TYPE_UNSIGNED32);
   (davp_extended_apn_ambr_dl, AVP_TYPE_UNSIGNED32);
   (davp_charging_rule_name, AVP_TYPE_OCTETSTRING);
   (davp_charging_rule_base_name, AVP_TYPE_OCTETSTRING);
   (davp_pcc_rule_status, AVP_TYPE_INTEGER32);
   (davp_rule_failure_code, AVP_TYPE_INTEGER32);
   (davp_ran_nas_release_cause, AVP_TYPE_OCTETSTRING);
   (davp_content_version, AVP_TYPE_UNSIGNED64);
   (davp_presence_reporting_area_identifier, AVP_TYPE_OCTETSTRING);
   (davp_presence_reporting_area_status, AVP_TYPE_UNSIGNED32);
   (davp_presence_reporting_area_elements_list, AVP_TYPE_OCTETSTRING);
   (davp_presence_reporting_area_node, AVP_TYPE_UNSIGNED32);
   (davp_priority_level, AVP_TYPE_UNSIGNED32);
   (davp_pre_emption_capability, AVP_TYPE_INTEGER32);
   (davp_pre_emption_vulnerability, AVP_TYPE_INTEGER32)].

Definition ccr_groups : list davp :=
  [davp_user_equipment_info;
   davp_subscription_id;
   davp_packet_filter_information;
   davp_qos_information;
   davp_charging_rule_report;
   davp_presence_reporting_area_information;
   davp_default_eps_bearer_qos;
   davp_allocation_retention_priority].

Section Fields.
Context {G : GxDict} {FD : FreeDiameter}.
Context (origin_host origin_realm : OctetString).

Definition num_avp (t : basic Z) (d : davp) (n : Z) : avp := Avp (gxDict d) (Some (AvpNumber
  (obj_bytes t n))) [].
Definition os_avp (d : davp) (os : OctetString) : avp := Avp (gxDict d) (Some (AvpOctets os)) [].
Definition avps_of (fields : list field) : list avp := concat (map snd fields).
Definition group_avp {X} (d : davp) (fields : X -> list field) (x : X) : avp :=
  Avp (gxDict d) None (avps_of (fields x)).

(** The AVP of a member that is there. *)
Definition one {X} (m : option X) (f : X -> avp) : list avp := match m with Some x => [f x] | None => [] end.
Definition many {X} (m : option (list X)) (f : X -> avp) : list avp := map f (default [] m).

Definition num_field t d (m : option Z) : field := (d, one m (num_avp t d)).
Definition os_field d (m : option OctetString) : field := (d, one m (os_avp d)).
Definition group_field {X} d (fields : X -> list field) (m : option X) : field := (d, one m
  (group_avp d fields)).
Definition num_list_field t d (m : option (list Z)) : field := (d, many m (num_avp t d)).
Definition os_list_field d (m : option (list OctetString)) : field := (d, many m (os_avp d)).
Definition group_list_field {X} d (fields : X -> list field) (m : option (list X)) : field := (d, many m
  (group_avp d fields)).

Definition GxUserEquipmentInfo_fields (x : GxUserEquipmentInfo) : list field :=
  [num_field int32_t davp_user_equipment_info_type x.(GxUserEquipmentInfo_user_equipment_info_type);
   os_field davp_user_equipment_info_value x.(GxUserEquipmentInfo_user_equipment_info_value)].

Definition GxSubscriptionId_fields (x : GxSubscriptionId) : list field :=
  [num_field int32_t davp_subscription_id_type x.(GxSubscriptionId_subscription_id_type);
   os_field davp_subscription_id_data x.(GxSubscriptionId_subscription_id_data)].

Definition GxPacketFilterInformation_fields (x : GxPacketFilterInformation) : list field :=
  [os_field davp_packet_filter_identifier x.(GxPacketFilterInformation_packet_filter_identifier);
   num_field uint32_t davp_precedence x.(GxPacketFilterInformation_precedence);
   os_field davp_packet_filter_content x.(GxPacketFilterInformation_packet_filter_content);
   os_field davp_tos_traffic_class x.(GxPacketFilterInformation_tos_traffic_class);
   os_field davp_security_parameter_index x.(GxPacketFilterInformation_security_parameter_index);
   os_field davp_flow_label x.(GxPacketFilterInformation_flow_label);
   num_field int32_t davp_flow_direction x.(GxPacketFilterInformation_flow_direction)].

Definition GxQosInformation_fields (x : GxQosInformation) : list field :=
  [num_field int32_t davp_qos_class_identifier x.(GxQosInformation_qos_class_identifier);
   num_field uint32_t davp_max_requested_bandwidth_ul x.(GxQosInformation_max_requested_bandwidth_ul);
   num_field uint32_t davp_max_requested_bandwidth_dl x.(GxQosInformation_max_requested_bandwidth_dl);
   num_field uint32_t davp_extended_max_requested_bw_ul x.(GxQosInformation_extended_max_requested_bw_ul);
   num_field uint32_t davp_extended_max_requested_bw_dl x.(GxQosInformation_extended_max_requested_bw_dl);
   num_field uint32_t davp_guaranteed_bitrate_ul x.(GxQosInformation_guaranteed_bitrate_ul);
   num_field uint32_t davp_guaranteed_bitrate_dl x.(GxQosInformation_guaranteed_bitrate_dl);
   num_field uint32_t davp_extended_gbr_ul x.(GxQosInformation_extended_gbr_ul);
   num_field uint32_t davp_extended_gbr_dl x.(GxQosInformation_extended_gbr_dl);
   os_field davp_bearer_identifier x.(GxQosInformation_bearer_identifier);
   num_field uint32_t davp_apn_aggregate_max_bitrate_ul x.(GxQosInformation_apn_aggregate_max_bitrate_ul);
   num_field uint32_t davp_apn_aggregate_max_bitrate_dl x.(GxQosInformation_apn_aggregate_max_bitrate_dl);
   num_field uint32_t davp_extended_apn_ambr_ul x.(GxQosInformation_extended_apn_ambr_ul);
   num_field uint32_t davp_extended_apn_ambr_dl x.(GxQosInformation_extended_apn_ambr_dl)].

Definition GxChargingRuleReport_fields (x : GxChargingRuleReport) : list field :=
  [os_list_field davp_charging_rule_name x.(GxChargingRuleReport_charging_rule_name);
   os_list_field davp_charging_rule_base_name x.(GxChargingRuleReport_charging_rule_base_name);
   os_field davp_bearer_identifier x.(GxChargingRuleReport_bearer_identifier);
   num_field int32_t davp_pcc_rule_status x.(GxChargingRuleReport_pcc_rule_status);
   num_field int32_t davp_rule_failure_code x.(GxChargingRuleReport_rule_failure_code);
   os_list_field davp_ran_nas_release_cause x.(GxChargingRuleReport_ran_nas_release_cause);
   num_list_field uint64_t davp_content_version x.(GxChargingRuleReport_content_version)].

Definition GxPresenceReportingAreaInformation_fields (x : GxPresenceReportingAreaInformation) : list field :=
  [os_field davp_presence_reporting_area_identifier
    x.(GxPresenceReportingAreaInformation_presence_reporting_area_identifier);
   num_field uint32_t davp_presence_reporting_area_status
     x.(GxPresenceReportingAreaInformation_presence_reporting_area_status);
   os_field davp_presence_reporting_area_elements_list
     x.(GxPresenceReportingAreaInformation_presence_reporting_area_elements_list);
   num_field uint32_t davp_presence_reporting_area_node
     x.(GxPresenceReportingAreaInformation_presence_reporting_area_node)].

Definition GxAllocationRetentionPriority_fields (x : GxAllocationRetentionPriority) : list field :=
  [num_field uint32_t davp_priority_level x.(GxAllocationRetentionPriority_priority_level);
   num_field int32_t davp_pre_emption_capability x.(GxAllocationRetentionPriority_pre_emption_capability);
   num_field int32_t davp_pre_emption_vulnerability
     x.(GxAllocationRetentionPriority_pre_emption_vulnerability)].

Definition GxDefaultEpsBearerQos_fields (x : GxDefaultEpsBearerQos) : list field :=
  [num_field int32_t davp_qos_class_identifier x.(GxDefaultEpsBearerQos_qos_class_identifier);
   group_field davp_allocation_retention_priority GxAllocationRetentionPriority_fields
     x.(GxDefaultEpsBearerQos_allocation_retention_priority)].

Definition header_fields (ccr : GxCCR) : list field :=
  [os_field davp_session_id ccr.(GxCCR_session_id);
   os_field davp_origin_host (Some origin_host);
   os_field davp_origin_realm (Some origin_realm);
   os_field davp_destination_realm (Some cnf_diamrlm);
   (davp_auth_application_id, [Avp (gxDict davp_auth_application_id) (Some (AvpNumber
     (take 4 appGX_pointer))) []]);
   num_field uint32_t davp_cc_request_number ccr.(GxCCR_cc_request_number);
   num_field int32_t davp_cc_request_type ccr.(GxCCR_cc_request_type);
   num_field uint32_t davp_credit_management_status ccr.(GxCCR_credit_management_status);
   num_field uint32_t davp_origin_state_id ((fun _ => cnf_orstateid) <$> ccr.(GxCCR_origin_state_id));
   num_field int32_t davp_network_request_support ccr.(GxCCR_network_request_support);
   num_field int32_t davp_packet_filter_operation ccr.(GxCCR_packet_filter_operation);
   num_field int32_t davp_bearer_operation ccr.(GxCCR_bearer_operation);
   num_field int32_t davp_dynamic_address_flag ccr.(GxCCR_dynamic_address_flag);
   num_field int32_t davp_dynamic_address_flag_extension ccr.(GxCCR_dynamic_address_flag_extension);
   num_field uint32_t davp_pdn_connection_charging_id ccr.(GxCCR_pdn_connection_charging_id);
   num_field int32_t davp_ip_can_type ccr.(GxCCR_ip_can_type);
   num_field int32_t davp_an_trusted ccr.(GxCCR_an_trusted);
   num_field int32_t davp_rat_type ccr.(GxCCR_rat_type);
   num_field int32_t davp_termination_cause ccr.(GxCCR_termination_cause);
   num_field int32_t davp_qos_negotiation ccr.(GxCCR_qos_negotiation);
   num_field int32_t davp_qos_upgrade ccr.(GxCCR_qos_upgrade);
   num_field int32_t davp_an_gw_status ccr.(GxCCR_an_gw_status);
   os_field davp_rai ccr.(GxCCR_rai)].

Definition detail_fields (ccr : GxCCR) : list field :=
  [num_field int32_t davp_bearer_usage ccr.(GxCCR_bearer_usage);
   num_field int32_t davp_online ccr.(GxCCR_online);
   num_field int32_t davp_offline ccr.(GxCCR_offline);
   num_field int32_t davp_nbifom_support ccr.(GxCCR_nbifom_support);
   num_field int32_t davp_nbifom_mode ccr.(GxCCR_nbifom_mode);
   num_field int32_t davp_default_access ccr.(GxCCR_default_access);
   num_field uint32_t davp_maximum_wait_time ccr.(GxCCR_maximum_wait_time);
   num_field uint32_t davp_access_availability_change_reason ccr.(GxCCR_access_availability_change_reason);
   num_field uint32_t davp_udp_source_port ccr.(GxCCR_udp_source_port);
   num_field uint32_t davp_tcp_source_port ccr.(GxCCR_tcp_source_port);
   os_field davp_bearer_identifier ccr.(GxCCR_bearer_identifier);
   os_field davp_3gpp_charging_characteristics ccr.(GxCCR_tgpp_charging_characteristics);
   os_field davp_called_station_id ccr.(GxCCR_called_station_id);
   os_field davp_pdn_connection_id ccr.(GxCCR_pdn_connection_id);
   os_field davp_framed_ip_address ccr.(GxCCR_framed_ip_address);
   os_field davp_framed_ipv6_prefix ccr.(GxCCR_framed_ipv6_prefix);
   os_field davp_3gpp_rat_type ccr.(GxCCR_tgpp_rat_type);
   os_field davp_twan_identifier ccr.(GxCCR_twan_identifier);
   os_field davp_3gpp_ms_timezone ccr.(GxCCR_tgpp_ms_timezone);
   os_field davp_3gpp_user_location_info ccr.(GxCCR_tgpp_user_location_info);
   num_list_field int32_t davp_event_trigger ccr.(GxCCR_event_trigger)].

Definition group_fields (ccr : GxCCR) : list field :=
  [group_field davp_user_equipment_info GxUserEquipmentInfo_fields ccr.(GxCCR_user_equipment_info);
   group_list_field davp_subscription_id GxSubscriptionId_fields ccr.(GxCCR_subscription_id);
   group_list_field davp_packet_filter_information GxPacketFilterInformation_fields
     ccr.(GxCCR_packet_filter_information);
   group_field davp_qos_information GxQosInformation_fields ccr.(GxCCR_qos_information);
   group_list_field davp_charging_rule_report GxChargingRuleReport_fields ccr.(GxCCR_charging_rule_report);
   group_list_field davp_presence_reporting_area_information GxPresenceReportingAreaInformation_fields
     ccr.(GxCCR_presence_reporting_area_information);
   group_field davp_default_eps_bearer_qos GxDefaultEpsBearerQos_fields ccr.(GxCCR_default_eps_bearer_qos)].

Definition ccr_fields (ccr : GxCCR) : list field :=
  header_fields ccr ++ detail_fields ccr ++ group_fields ccr.
Definition ccr_avps (ccr : GxCCR) : list avp := avps_of (ccr_fields ccr).
End Fields.

(** What is relied on: the types that the Diameter specifications give those AVPs. *)
Class FreeDiameterOk (G : GxDict) (FD : FreeDiameter) (origin_host origin_realm : OctetString) : Prop := {
  fd_basetypes : Forall (fun dt => avp_basetype dt.1 = dt.2) ccr_basetypes;
  fd_new : forall n, fd_avp_new_ok n = true;
  fd_add : fd_avp_add_ok None = true /\ Forall (fun d => fd_avp_add_ok (Some d) = true) ccr_groups;
  fd_new_appl : fd_msg_new_appl_ok = true;
  fd_send : forall l, fd_msg_send_ok l = true;
  fd_origin : forall l, fd_msg_add_origin l =
    Some (l ++ [os_avp davp_origin_host origin_host; os_avp davp_origin_realm origin_realm]);
  fd_pointer : length appGX_pointer = 8%nat;
  fd_identity : wf_string origin_host = true /\ wf_string origin_realm = true /\ wf_string cnf_diamrlm = true /\
    in_range uint32_t cnf_orstateid = true
}.

(** ** What a part adds *)

Section Adds.
Context {G : GxDict} {FD : FreeDiameter} {origin_host origin_realm : OctetString}.
Context {HFD : FreeDiameterOk G FD origin_host origin_realm}.

Definition add_list (path : list nat) (new l : list avp) : list avp := foldl (fun l a => add_at path a l) l new.

(** The statement adds the AVPs at the path of the message, ... *)
Definition adds (path : list nat) (st : stmt) (new : list avp) : Prop :=
  forall s, exists s', st s = Next s' /\ s_msg s' = add_list path new (s_msg s).

(** ... and at the AVP that [avp_ptr] points to, which it keeps. *)
Definition fills (d : davp) (path : list nat) (st : stmt) (new : list avp) : Prop :=
  forall s, s_avp_ptr s = AvpAt d path ->
    exists s', st s = Next s' /\ s_msg s' = add_list path new (s_msg s) /\ s_avp_ptr s' = AvpAt d path.

Lemma add_list_app path l1 l2 l : add_list path (l1 ++ l2) l = add_list path l2 (add_list path l1 l).
Proof. apply foldl_app. Qed.

Lemma add_list_top new l : add_list [] new l = l ++ new.
Proof. unfold add_list. induction new as [|a new IH] in l |- *; cbn;
  [by rewrite app_nil_r|]. by rewrite IH, <- app_assoc. Qed.

(** The AVP added last at a path is the one that the next index names. *)
Lemma add_at_last path c v children a l :
  add_at (path ++ [children_at path l]) a (add_at path (Avp c v children) l) =
  add_at path (Avp c v (children ++ [a])) l.
Proof.
  induction path as [|i path IH] in l |- *; cbn [app add_at children_at].
  - rewrite alter_app_r_alt by lia. by rewrite Nat.sub_diag.
  - rewrite list_alter_alter_eq. destruct (l !! i) as [[c0 v0 ch0]|] eqn:Hi.
    + apply list_alter_ext; [|done]. intros x Hx. rewrite Hi in Hx. injection Hx as <-. cbn. by rewrite IH.
    + apply list_alter_ext; [|done]. intros x Hx. by rewrite Hi in Hx.
Qed.

Lemma add_list_group path c v new children l :
  add_list (path ++ [children_at path l]) new (add_at path (Avp c v children) l) =
  add_at path (Avp c v (children ++ new)) l.
Proof.
  induction new as [|a new IH] in children |- *; cbn; [by rewrite app_nil_r|].
  rewrite add_at_last. unfold add_list in IH. rewrite IH. by rewrite <- app_assoc.
Qed.

Lemma adds_nil path : adds path (block []) [].
Proof. intros s. by exists s. Qed.

Lemma adds_cons path st body l1 l2 :
  adds path st l1 -> adds path (block body) l2 -> adds path (block (st :: body)) (l1 ++ l2).
Proof.
  intros H1 H2 s. destruct (H1 s) as (s1 & E1 & Hs1). destruct (H2 s1) as (s2 & E2 & Hs2).
  exists s2. cbn [block]. rewrite E1. split; [done|]. by rewrite Hs2, Hs1, add_list_app.
Qed.

Lemma adds_cons_eq path st body l1 l2 l :
  adds path st l1 -> l1 ++ l2 = l -> adds path (block body) l2 -> adds path (block (st :: body)) l.
Proof. intros H1 <- H2. by apply adds_cons. Qed.

Lemma fills_nil d path : fills d path (block []) [].
Proof. intros s. by exists s. Qed.

Lemma fills_cons d path st body l1 l2 :
  fills d path st l1 -> fills d path (block body) l2 -> fills d path (block (st :: body)) (l1 ++ l2).
Proof.
  intros H1 H2 s Hs. destruct (H1 s Hs) as (s1 & E1 & Hs1 & Hp1). destruct (H2 s1 Hp1) as (s2 & E2 & Hs2 & Hp2).
  exists s2. cbn [block]. rewrite E1. split; [done|]. split; [|done]. by rewrite Hs2, Hs1, add_list_app.
Qed.

Lemma adds_when {X} path (m : option X) body f :
  (forall x, m = Some x -> adds path (block (body x)) [f x]) -> adds path (when m body) (one m f).
Proof. intros H. destruct m as [x|]; [by apply H|apply adds_nil]. Qed.

Lemma fills_when {X} d path (m : option X) body f :
  (forall x, fills d path (block (body x)) [f x]) -> fills d path (when m body) (one m f).
Proof. intros H. destruct m as [x|]; [by apply H|apply fills_nil]. Qed.

Lemma adds_each {X} path (l : list X) body f :
  (forall x, adds path (block (body x)) [f x]) -> adds path (for_each l body) (map f l).
Proof.
  intros H. unfold for_each. induction l as [|x l IH]; cbn [map]; [apply adds_nil|].
  apply (adds_cons path _ _ [f x]); [apply H|apply IH].
Qed.

Lemma fills_each {X} d path (l : list X) body f :
  (forall x, fills d path (block (body x)) [f x]) -> fills d path (for_each l body) (map f l).
Proof.
  intros H. unfold for_each. induction l as [|x l IH]; cbn [map]; [apply fills_nil|].
  apply (fills_cons d path _ _ [f x]); [apply H|apply IH].
Qed.

Lemma adds_single path st l : adds path st l -> adds path (block [st]) l.
Proof. intros H. rewrite <- (app_nil_r l). apply adds_cons; [done|apply adds_nil]. Qed.

Lemma fills_single d path st l : fills d path st l -> fills d path (block [st]) l.
Proof. intros H. rewrite <- (app_nil_r l). apply fills_cons; [done|apply fills_nil]. Qed.

(** A list of AVPs under the presence bit of the list. *)
Lemma adds_many {X} path (m : option (list X)) body f :
  (forall x, adds path (block (body x)) [f x]) ->
  adds path (when m (fun l => [for_each l body])) (many m f).
Proof. intros H. destruct m as [l|]; [by apply adds_single, adds_each|apply adds_nil]. Qed.

Lemma fills_many {X} d path (m : option (list X)) body f :
  (forall x, fills d path (block (body x)) [f x]) ->
  fills d path (when m (fun l => [for_each l body])) (many m f).
Proof. intros H. destruct m as [l|]; [by apply fills_single, fills_each|apply fills_nil]. Qed.

(** ** Values *)

Lemma basetype_of d t : In (d, t) ccr_basetypes -> avp_basetype d = t.
Proof.
  intros H. pose proof fd_basetypes as F. rewrite List.Forall_forall in F. exact (F _ H).
Qed.

Lemma add_ok_of d : In d ccr_groups -> fd_avp_add_ok (Some d) = true.
Proof. intros H. pose proof (proj2 fd_add) as F. rewrite List.Forall_forall in F. exact (F _ H). Qed.

Lemma mem_read_all bs : mem_read bs 0 (Z.of_nat (length bs)) = Ok bs.
Proof.
  unfold mem_read. rewrite bool_decide_true by lia.
  by rewrite Nat2Z.id, drop_0, firstn_all.
Qed.

Lemma setvalue_os d a os len :
  avp_basetype d = AVP_TYPE_OCTETSTRING -> len = octet_len os ->
  fd_msg_avp_setvalue d (mk_avp_union (Some (Pointer a os)) (Some len)) = Ok (Some (AvpOctets os)).
Proof. intros Hd ->. unfold fd_msg_avp_setvalue, octet_len. rewrite Hd. cbn. by rewrite mem_read_all. Qed.

(** The numbers that have the size of the AVP's type. *)
Inductive number_type : basic Z -> dict_avp_basetype -> Prop :=
| number_int32 : number_type int32_t AVP_TYPE_INTEGER32
| number_uint32 : number_type uint32_t AVP_TYPE_UNSIGNED32
| number_uint64 : number_type uint64_t AVP_TYPE_UNSIGNED64
| number_event : number_type uint32_t AVP_TYPE_INTEGER32.

Lemma setvalue_num d t n len :
  number_type t (avp_basetype d) ->
  fd_msg_avp_setvalue d (mk_avp_union (Some (Number (obj_bytes t n))) len) = Ok (Some (AvpNumber
    (obj_bytes t n))).
Proof.
  unfold fd_msg_avp_setvalue. intros H. destruct H; cbn [u_first u_len basetype_size];
    match goal with |- context [mem_read ?bs 0 _] => pose proof (mem_read_all bs) as E end;
    cbn [obj_bytes int32_t uint32_t uint64_t] in *; rewrite length_le_bytes in E; by rewrite E.
Qed.

Lemma adds_MSG_ADD_AVP ref path d u v :
  (ref = MSG /\ path = []) \/ (exists g, ref = AvpAt g path /\ fd_avp_add_ok (Some g) = true) ->
  fd_msg_avp_setvalue d u = Ok (Some v) -> adds path (MSG_ADD_AVP d ref u) [Avp (gxDict d) (Some v) []].
Proof.
  intros Hp Hv s. unfold MSG_ADD_AVP. rewrite fd_new, Hv.
  destruct Hp as [[-> ->]|(g & -> & Hg)]; cbn [fd_msg_avp_add]; [rewrite (proj1 fd_add)|rewrite Hg];
    eexists; (split; [reflexivity|]); done.
Qed.

(** What follows a statement that only sets the union. *)
Lemma fills_add_fd_msg d path obj st v :
  fd_avp_add_ok (Some d) = true ->
  (forall s, exists u, st s = Next (mk_sending (s_msg s) (s_avp_ptr s) u (s_created s)) /\
     fd_msg_avp_setvalue obj u = Ok (Some v)) ->
  fills d path (block [st; add_fd_msg obj]) [Avp (gxDict obj) (Some v) []].
Proof.
  intros Hd Hst s Hs. destruct (Hst s) as (u & E & Hv). cbn [block]. rewrite E.
  unfold add_fd_msg. rewrite fd_new. cbn [s_val s_avp_ptr s_msg]. rewrite Hv, Hs. cbn [fd_msg_avp_add]. rewrite
    Hd.
  eexists. split; [reflexivity|]. by split.
Qed.

Lemma fills_os d path obj os :
  fd_avp_add_ok (Some d) = true -> avp_basetype obj = AVP_TYPE_OCTETSTRING ->
  fills d path (block [val_os os; add_fd_msg obj]) [os_avp obj os].
Proof.
  intros Hd Hobj. apply fills_add_fd_msg; [done|]. intros s. eexists. split; [reflexivity|].
  by apply setvalue_os.
Qed.

Lemma fills_num d path obj t n :
  fd_avp_add_ok (Some d) = true -> number_type t (avp_basetype obj) ->
  fills d path (block [val_num t n; add_fd_msg obj]) [num_avp t obj n].
Proof.
  intros Hd Hobj. apply fills_add_fd_msg; [done|]. intros s. eexists. split; [reflexivity|].
  by apply setvalue_num.
Qed.

Lemma fills_skip d path st body l :
  st = block [] -> fills d path (block body) l -> fills d path (block (st :: body)) l.
Proof. intros ->. apply (fills_cons d path (block []) body []), fills_nil. Qed.

Lemma adds_skip path st body l :
  st = block [] -> adds path (block body) l -> adds path (block (st :: body)) l.
Proof. intros ->. apply (adds_cons path (block []) body []), adds_nil. Qed.

Lemma adds_os d os :
  avp_basetype d = AVP_TYPE_OCTETSTRING ->
  adds [] (block [MSG_ADD_AVP_OSTR d MSG (val_of os) (octet_len os)]) [os_avp d os].
Proof. intros Hd. apply adds_single, adds_MSG_ADD_AVP; [by left|]. by apply setvalue_os. Qed.

Lemma adds_u32 d n :
  number_type uint32_t (avp_basetype d) ->
  adds [] (block [MSG_ADD_AVP_U32 d MSG n]) [num_avp uint32_t d n].
Proof. intros Hd. apply adds_single, adds_MSG_ADD_AVP; [by left|]. by apply setvalue_num. Qed.

Lemma adds_s32 d n :
  number_type int32_t (avp_basetype d) ->
  adds [] (block [MSG_ADD_AVP_S32 d MSG n]) [num_avp int32_t d n].
Proof. intros Hd. apply adds_single, adds_MSG_ADD_AVP; [by left|]. by apply setvalue_num. Qed.

Lemma adds_val_num path t n : adds path (val_num t n) [].
Proof. intros s. eexists. by split. Qed.

(** The message starts with nothing in it. *)
Lemma adds_new body l s : adds [] (block body) l ->
  exists s', block (MSG_NEW_APPL :: body) s = Next s' /\ s_msg s' = l.
Proof.
  intros H. cbn [block]. unfold MSG_NEW_APPL. rewrite fd_new_appl.
  destruct (H (set_msg s [])) as (s' & E & Hm). exists s'. split; [done|]. by rewrite Hm, add_list_top.
Qed.

Lemma adds_MSG_ADD_ORIGIN :
  adds [] MSG_ADD_ORIGIN [os_avp davp_origin_host origin_host; os_avp davp_origin_realm origin_realm].
Proof. intros s. unfold MSG_ADD_ORIGIN. rewrite fd_origin. eexists. split;
  [reflexivity|]. by rewrite add_list_top. Qed.

(** A grouped AVP, filled through [avp_ptr] ... *)
Lemma adds_new_avp_ptr d body new :
  (forall path, fills d path (block body) new) ->
  adds [] (block (new_avp_ptr d :: body)) [Avp (gxDict d) None new].
Proof.
  intros H s. cbn [block]. unfold new_avp_ptr. rewrite fd_new. cbn [fd_msg_avp_add]. rewrite (proj1 fd_add).
  destruct (H [length (s_msg s)] (mk_sending (add_at [] (Avp (gxDict d) None []) (s_msg s))
    (AvpAt d [length (s_msg s)]) (s_val s) (S (s_created s))) eq_refl) as (s' & E & Hm & _).
  exists s'. split; [done|]. rewrite Hm. cbn [s_msg]. apply (add_list_group []).
Qed.

(** ... and through the pointer of the macro. *)
Lemma adds_GROUPED_2 ref path d rest new :
  (ref = MSG /\ path = []) \/ (exists g, ref = AvpAt g path /\ fd_avp_add_ok (Some g) = true) ->
  (forall path, adds path (block (rest (AvpAt d path))) new) ->
  adds path (block [MSG_ADD_AVP_GROUPED_2 d ref rest]) [Avp (gxDict d) None new].
Proof.
  intros Hp H s. cbn [block]. unfold MSG_ADD_AVP_GROUPED_2. rewrite fd_new.
  assert (fd_msg_avp_add ref (Avp (gxDict d) None []) (s_msg s) = Some (add_at path (Avp (gxDict d) None [])
    (s_msg s))
    /\ match ref with AvpAt _ p => p | _ => [] end = path) as [-> ->].
  { destruct Hp as [[-> ->]|(g & -> & Hg)]; cbn [fd_msg_avp_add]; [rewrite (proj1 fd_add)|rewrite Hg]; done. }
  destruct (H (path ++ [children_at path (s_msg s)]) (set_msg (created s) (add_at path (Avp
    (gxDict d) None []) (s_msg s))))
    as (s' & E & Hm).
  exists s'. rewrite E. split; [done|]. rewrite Hm. cbn [set_msg s_msg]. apply add_list_group.
Qed.
End Adds.

(** ** The CCRs that are sent whole

    The members that [gx_send_ccr] leaves out or sends in another form are absent, and
    a list is not empty.  A subscription identifier and a presence reporting area are
    single, because all of a list would share one group. *)
Record plain_ccr (ccr : GxCCR) : Prop := {
  plain_drmp : ccr.(GxCCR_drmp) = None;
  plain_service_context_id : ccr.(GxCCR_service_context_id) = None;
  plain_destination_host : ccr.(GxCCR_destination_host) = None;
  plain_oc_supported_features : ccr.(GxCCR_oc_supported_features) = None;
  plain_supported_features : ccr.(GxCCR_supported_features) = None;
  plain_tdf_information : ccr.(GxCCR_tdf_information) = None;
  plain_default_qos_information : ccr.(GxCCR_default_qos_information) = None;
  plain_an_gw_address : ccr.(GxCCR_an_gw_address) = None;
  plain_tgpp_sgsn_mcc_mnc : ccr.(GxCCR_tgpp_sgsn_mcc_mnc) = None;
  plain_tgpp_sgsn_address : ccr.(GxCCR_tgpp_sgsn_address) = None;
  plain_tgpp_sgsn_ipv6_address : ccr.(GxCCR_tgpp_sgsn_ipv6_address) = None;
  plain_tgpp_ggsn_address : ccr.(GxCCR_tgpp_ggsn_address) = None;
  plain_tgpp_ggsn_ipv6_address : ccr.(GxCCR_tgpp_ggsn_ipv6_address) = None;
  plain_tgpp_selection_mode : ccr.(GxCCR_tgpp_selection_mode) = None;
  plain_fixed_user_location_info : ccr.(GxCCR_fixed_user_location_info) = None;
  plain_user_location_info_time : ccr.(GxCCR_user_location_info_time) = None;
  plain_user_csg_information : ccr.(GxCCR_user_csg_information) = None;
  plain_ran_nas_release_cause : ccr.(GxCCR_ran_nas_release_cause) = None;
  plain_tft_packet_filter_information : ccr.(GxCCR_tft_packet_filter_information) = None;
  plain_application_detection_information : ccr.(GxCCR_application_detection_information) = None;
  plain_event_report_indication : ccr.(GxCCR_event_report_indication) = None;
  plain_access_network_charging_address : ccr.(GxCCR_access_network_charging_address) = None;
  plain_access_network_charging_identifier_gx : ccr.(GxCCR_access_network_charging_identifier_gx) = None;
  plain_coa_information : ccr.(GxCCR_coa_information) = None;
  plain_usage_monitoring_information : ccr.(GxCCR_usage_monitoring_information) = None;
  plain_origination_time_stamp : ccr.(GxCCR_origination_time_stamp) = None;
  plain_routing_rule_install : ccr.(GxCCR_routing_rule_install) = None;
  plain_routing_rule_remove : ccr.(GxCCR_routing_rule_remove) = None;
  plain_henb_local_ip_address : ccr.(GxCCR_henb_local_ip_address) = None;
  plain_ue_local_ip_address : ccr.(GxCCR_ue_local_ip_address) = None;
  plain_logical_access_id : ccr.(GxCCR_logical_access_id) = None;
  plain_physical_access_id : ccr.(GxCCR_physical_access_id) = None;
  plain_proxy_info : ccr.(GxCCR_proxy_info) = None;
  plain_route_record : ccr.(GxCCR_route_record) = None;
  plain_tgpp_ps_data_off_status : ccr.(GxCCR_tgpp_ps_data_off_status) = None;
  plain_event_trigger : ccr.(GxCCR_event_trigger) <> Some [];
  plain_subscription_id : forall l, ccr.(GxCCR_subscription_id) = Some l -> length l = 1%nat;
  plain_packet_filter_information : ccr.(GxCCR_packet_filter_information) <> Some [];
  plain_qos_information : forall q, ccr.(GxCCR_qos_information) = Some q ->
    q.(GxQosInformation_allocation_retention_priority) = None /\
    q.(GxQosInformation_conditional_apn_aggregate_max_bitrate) = None;
  plain_charging_rule_report : forall l, ccr.(GxCCR_charging_rule_report) = Some l ->
    l <> [] /\ Forall (fun r => r.(GxChargingRuleReport_final_unit_indication) = None /\
      r.(GxChargingRuleReport_content_version) <> Some []) l;
  plain_presence_reporting_area_information : forall l,
    ccr.(GxCCR_presence_reporting_area_information) = Some l -> length l = 1%nat;
  plain_default_eps_bearer_qos : forall q a, ccr.(GxCCR_default_eps_bearer_qos) = Some q ->
    q.(GxDefaultEpsBearerQos_allocation_retention_priority) = Some a ->
    present a.(GxAllocationRetentionPriority_priority_level) =
    present a.(GxAllocationRetentionPriority_pre_emption_capability)
}.

(** What the receiver reads: the CCR with the identity of this node, the realm of the
    configuration and, as application, half of a pointer. *)
Definition sent_ccr {FD : FreeDiameter} (origin_host origin_realm : OctetString) (ccr : GxCCR) : GxCCR := {|
  GxCCR_session_id := ccr.(GxCCR_session_id);
  GxCCR_drmp := ccr.(GxCCR_drmp);
  GxCCR_auth_application_id := Some (le_val (take 4 appGX_pointer));
  GxCCR_origin_host := Some origin_host;
  GxCCR_origin_realm := Some origin_realm;
  GxCCR_destination_realm := Some cnf_diamrlm;
  GxCCR_service_context_id := ccr.(GxCCR_service_context_id);
  GxCCR_cc_request_type := ccr.(GxCCR_cc_request_type);
  GxCCR_cc_request_number := ccr.(GxCCR_cc_request_number);
  GxCCR_credit_management_status := ccr.(GxCCR_credit_management_status);
  GxCCR_destination_host := ccr.(GxCCR_destination_host);
  GxCCR_origin_state_id := (fun _ => cnf_orstateid) <$> ccr.(GxCCR_origin_state_id);
  GxCCR_subscription_id := ccr.(GxCCR_subscription_id);
  GxCCR_oc_supported_features := ccr.(GxCCR_oc_supported_features);
  GxCCR_supported_features := ccr.(GxCCR_supported_features);
  GxCCR_tdf_information := ccr.(GxCCR_tdf_information);
  GxCCR_network_request_support := ccr.(GxCCR_network_request_support);
  GxCCR_packet_filter_information := ccr.(GxCCR_packet_filter_information);
  GxCCR_packet_filter_operation := ccr.(GxCCR_packet_filter_operation);
  GxCCR_bearer_identifier := ccr.(GxCCR_bearer_identifier);
  GxCCR_bearer_operation := ccr.(GxCCR_bearer_operation);
  GxCCR_dynamic_address_flag := ccr.(GxCCR_dynamic_address_flag);
  GxCCR_dynamic_address_flag_extension := ccr.(GxCCR_dynamic_address_flag_extension);
  GxCCR_pdn_connection_charging_id := ccr.(GxCCR_pdn_connection_charging_id);
  GxCCR_framed_ip_address := ccr.(GxCCR_framed_ip_address);
  GxCCR_framed_ipv6_prefix := ccr.(GxCCR_framed_ipv6_prefix);
  GxCCR_ip_can_type := ccr.(GxCCR_ip_can_type);
  GxCCR_tgpp_rat_type := ccr.(GxCCR_tgpp_rat_type);
  GxCCR_an_trusted := ccr.(GxCCR_an_trusted);
  GxCCR_rat_type := ccr.(GxCCR_rat_type);
  GxCCR_termination_cause := ccr.(GxCCR_termination_cause);
  GxCCR_user_equipment_info := ccr.(GxCCR_user_equipment_info);
  GxCCR_qos_information := ccr.(GxCCR_qos_information);
  GxCCR_qos_negotiation := ccr.(GxCCR_qos_negotiation);
  GxCCR_qos_upgrade := ccr.(GxCCR_qos_upgrade);
  GxCCR_default_eps_bearer_qos := ccr.(GxCCR_default_eps_bearer_qos);
  GxCCR_default_qos_information := ccr.(GxCCR_default_qos_information);
  GxCCR_an_gw_address := ccr.(GxCCR_an_gw_address);
  GxCCR_an_gw_status := ccr.(GxCCR_an_gw_status);
  GxCCR_tgpp_sgsn_mcc_mnc := ccr.(GxCCR_tgpp_sgsn_mcc_mnc);
  GxCCR_tgpp_sgsn_address := ccr.(GxCCR_tgpp_sgsn_address);
  GxCCR_tgpp_sgsn_ipv6_address := ccr.(GxCCR_tgpp_sgsn_ipv6_address);
  GxCCR_tgpp_ggsn_address := ccr.(GxCCR_tgpp_ggsn_address);
  GxCCR_tgpp_ggsn_ipv6_address := ccr.(GxCCR_tgpp_ggsn_ipv6_address);
  GxCCR_tgpp_selection_mode := ccr.(GxCCR_tgpp_selection_mode);
  GxCCR_rai := ccr.(GxCCR_rai);
  GxCCR_tgpp_user_location_info := ccr.(GxCCR_tgpp_user_location_info);
  GxCCR_fixed_user_location_info := ccr.(GxCCR_fixed_user_location_info);
  GxCCR_user_location_info_time := ccr.(GxCCR_user_location_info_time);
  GxCCR_user_csg_information := ccr.(GxCCR_user_csg_information);
  GxCCR_twan_identifier := ccr.(GxCCR_twan_identifier);
  GxCCR_tgpp_ms_timezone := ccr.(GxCCR_tgpp_ms_timezone);
  GxCCR_ran_nas_release_cause := ccr.(GxCCR_ran_nas_release_cause);
  GxCCR_tgpp_charging_characteristics := ccr.(GxCCR_tgpp_charging_characteristics);
  GxCCR_called_station_id := ccr.(GxCCR_called_station_id);
  GxCCR_pdn_connection_id := ccr.(GxCCR_pdn_connection_id);
  GxCCR_bearer_usage := ccr.(GxCCR_bearer_usage);
  GxCCR_online := ccr.(GxCCR_online);
  GxCCR_offline := ccr.(GxCCR_offline);
  GxCCR_tft_packet_filter_information := ccr.(GxCCR_tft_packet_filter_information);
  GxCCR_charging_rule_report := ccr.(GxCCR_charging_rule_report);
  GxCCR_application_detection_information := ccr.(GxCCR_application_detection_information);
  GxCCR_event_trigger := ccr.(GxCCR_event_trigger);
  GxCCR_event_report_indication := ccr.(GxCCR_event_report_indication);
  GxCCR_access_network_charging_address := ccr.(GxCCR_access_network_charging_address);
  GxCCR_access_network_charging_identifier_gx := ccr.(GxCCR_access_network_charging_identifier_gx);
  GxCCR_coa_information := ccr.(GxCCR_coa_information);
  GxCCR_usage_monitoring_information := ccr.(GxCCR_usage_monitoring_information);
  GxCCR_nbifom_support := ccr.(GxCCR_nbifom_support);
  GxCCR_nbifom_mode := ccr.(GxCCR_nbifom_mode);
  GxCCR_default_access := ccr.(GxCCR_default_access);
  GxCCR_origination_time_stamp := ccr.(GxCCR_origination_time_stamp);
  GxCCR_maximum_wait_time := ccr.(GxCCR_maximum_wait_time);
  GxCCR_access_availability_change_reason := ccr.(GxCCR_access_availability_change_reason);
  GxCCR_routing_rule_install := ccr.(GxCCR_routing_rule_install);
  GxCCR_routing_rule_remove := ccr.(GxCCR_routing_rule_remove);
  GxCCR_henb_local_ip_address := ccr.(GxCCR_henb_local_ip_address);
  GxCCR_ue_local_ip_address := ccr.(GxCCR_ue_local_ip_address);
  GxCCR_udp_source_port := ccr.(GxCCR_udp_source_port);
  GxCCR_tcp_source_port := ccr.(GxCCR_tcp_source_port);
  GxCCR_presence_reporting_area_information := ccr.(GxCCR_presence_reporting_area_information);
  GxCCR_logical_access_id := ccr.(GxCCR_logical_access_id);
  GxCCR_physical_access_id := ccr.(GxCCR_physical_access_id);
  GxCCR_proxy_info := ccr.(GxCCR_proxy_info);
  GxCCR_route_record := ccr.(GxCCR_route_record);
  GxCCR_tgpp_ps_data_off_status := ccr.(GxCCR_tgpp_ps_data_off_status)
|}.

Section Runs.
Context {G : GxDict} {FD : FreeDiameter} {origin_host origin_realm : OctetString}.
Context {HFD : FreeDiameterOk G FD origin_host origin_realm}.

Ltac listed := cbv [ccr_basetypes ccr_groups]; repeat (first [left; reflexivity | right]).
Ltac add_ok := apply add_ok_of; listed.
Ltac os_type := apply basetype_of; listed.
Ltac num_type :=
  match goal with |- number_type _ (avp_basetype ?d) =>
    first [ rewrite (basetype_of d AVP_TYPE_INTEGER32) by listed; constructor
          | rewrite (basetype_of d AVP_TYPE_UNSIGNED32) by listed; constructor
          | rewrite (basetype_of d AVP_TYPE_UNSIGNED64) by listed; constructor ] end.

(** One statement that fills a group, or adds to the message. *)
Ltac fills_value := first [apply fills_os; [add_ok|os_type] | apply fills_num; [add_ok|num_type]].
Ltac fills_part := first [apply fills_when; intros ?; fills_value | apply fills_many; intros ?; fills_value].
Ltac fills_body := cbn [when]; repeat (first [apply fills_skip; [reflexivity|] | eapply fills_cons;
  [fills_part|]]); apply fills_nil.
Ltac adds_value := first [apply adds_os; os_type | apply adds_u32; num_type | apply adds_s32; num_type].
Ltac adds_body := repeat (eapply adds_cons; [apply adds_when; intros ? _; adds_value|]).

Lemma adds_group {X} d (m : option X) body fields :
  (forall x, m = Some x -> forall path, fills d path (block (body x)) (avps_of (fields x))) ->
  adds [] (when m (fun x => new_avp_ptr d :: body x)) (one m (group_avp d fields)).
Proof. intros H. apply adds_when. intros x Hx. apply adds_new_avp_ptr, H, Hx. Qed.

Lemma adds_groups {X} d (m : option (list X)) body fields :
  (forall x, (exists l, m = Some l /\ x ∈ l) -> forall path, fills d path (block (body x)) (avps_of
    (fields x))) ->
  adds [] (when m (fun l => [for_each l (fun x => new_avp_ptr d :: body x)])) (many m (group_avp d fields)).
Proof.
  intros H. destruct m as [l|]; [|apply adds_nil]. apply adds_single. unfold for_each, many. cbn [default].
  assert (forall x, x ∈ l -> adds [] (block (new_avp_ptr d :: body x)) [group_avp d fields x]) as Hx.
  { intros x Hx. apply adds_new_avp_ptr, H. eauto. }
  clear H. induction l as [|x l IH]; cbn [map]; [apply adds_nil|].
  apply (adds_cons [] _ _ [group_avp d fields x]); [apply Hx; left|apply IH]. intros y Hy. apply Hx. by right.
Qed.

(** The single element of a list whose elements share the group. *)
Lemma adds_shared {X} d (m : option (list X)) body fields :
  (forall l, m = Some l -> length l = 1%nat) ->
  (forall x path, fills d path (block (body x)) (avps_of (fields x))) ->
  adds [] (when m (fun l => [new_avp_ptr d; for_each l body])) (many m (group_avp d fields)).
Proof.
  intros Hl H. destruct m as [l|]; [|apply adds_nil]. pose proof (Hl l eq_refl) as H1.
  destruct l as [|x [|? ?]]; [done| |done]. apply adds_new_avp_ptr. intros path. apply fills_single.
  apply (fills_single d path (block (body x))), H.
Qed.

Lemma adds_user_equipment_info ccr :
  adds [] (ccr_user_equipment_info ccr) (one ccr.(GxCCR_user_equipment_info)
    (group_avp davp_user_equipment_info GxUserEquipmentInfo_fields)).
Proof. apply adds_group. intros x _ path. fills_body. Qed.

Lemma adds_subscription_id ccr : plain_ccr ccr ->
  adds [] (ccr_subscription_id ccr) (many ccr.(GxCCR_subscription_id)
    (group_avp davp_subscription_id GxSubscriptionId_fields)).
Proof. intros H. apply adds_shared; [apply plain_subscription_id, H|]. intros x path. fills_body. Qed.

Lemma adds_packet_filter_information ccr :
  adds [] (ccr_packet_filter_information ccr)
    (many ccr.(GxCCR_packet_filter_information)
      (group_avp davp_packet_filter_information GxPacketFilterInformation_fields)).
Proof. apply adds_groups. intros x _ path. fills_body. Qed.

Lemma adds_qos_information ccr : plain_ccr ccr ->
  adds [] (ccr_qos_information ccr) (one ccr.(GxCCR_qos_information)
    (group_avp davp_qos_information GxQosInformation_fields)).
Proof.
  intros H. apply adds_group. intros q Hq path. destruct (plain_qos_information _ H q Hq) as [E1 E2].
  unfold ccr_conditional_apn_ambr. rewrite E1, E2. cbn [default]. fills_body.
Qed.

Lemma adds_charging_rule_report ccr : plain_ccr ccr ->
  adds [] (ccr_charging_rule_report ccr)
    (many ccr.(GxCCR_charging_rule_report) (group_avp davp_charging_rule_report GxChargingRuleReport_fields)).
Proof.
  intros H. apply adds_groups. intros r (l & Hl & Hr) path.
  destruct (plain_charging_rule_report _ H l Hl) as [_ F]. rewrite Forall_forall in F. destruct
    (F r Hr) as [E _].
  unfold ccr_final_unit_indication. rewrite E. fills_body.
Qed.

Lemma adds_presence_reporting_area_information ccr : plain_ccr ccr ->
  adds [] (ccr_presence_reporting_area_information ccr)
    (many ccr.(GxCCR_presence_reporting_area_information)
      (group_avp davp_presence_reporting_area_information GxPresenceReportingAreaInformation_fields)).
Proof. intros H. apply adds_shared;
  [apply plain_presence_reporting_area_information, H|]. intros x path. fills_body. Qed.

Lemma adds_default_eps_bearer_qos ccr : plain_ccr ccr ->
  adds [] (ccr_default_eps_bearer_qos ccr)
    (one ccr.(GxCCR_default_eps_bearer_qos)
      (group_avp davp_default_eps_bearer_qos GxDefaultEpsBearerQos_fields)).
Proof.
  intros H. apply adds_when. intros q Hq. apply (adds_GROUPED_2 _ [] _ _ (avps_of
    (GxDefaultEpsBearerQos_fields q))); [by left|].
  intros path. eapply adds_cons.
  { apply adds_when. intros n _. apply adds_single, adds_MSG_ADD_AVP; [right; eexists; split;
    [reflexivity|add_ok]|].
    apply setvalue_num. num_type. }
  eapply adds_cons; [|apply adds_nil]. apply adds_when. intros a Ha.
  pose proof (plain_default_eps_bearer_qos _ H q a Hq Ha) as Hpl.
  apply (adds_GROUPED_2 _ path _ _ (avps_of (GxAllocationRetentionPriority_fields a)));
    [right; eexists; split; [reflexivity|add_ok]|].
  clear path. intros path. destruct a as [pl cap vul]. cbn in Hpl.
  assert (forall d t n, number_type t (avp_basetype d) ->
    adds path (block [MSG_ADD_AVP d (AvpAt davp_allocation_retention_priority path)
      (mk_avp_union (Some (Number (obj_bytes t n))) None)]) [num_avp t d n]) as Hn.
  { intros d t n Ht. apply adds_single, adds_MSG_ADD_AVP; [right; eexists; split; [reflexivity|add_ok]|].
    by apply setvalue_num. }
  apply (adds_cons path _ _ (one pl (num_avp uint32_t davp_priority_level)));
    [|eapply adds_cons; [|eapply adds_cons; [|apply adds_nil]]].
  - destruct pl, cap; try discriminate; [|apply adds_nil]. apply Hn. num_type.
  - apply adds_when. intros n _. apply Hn. num_type.
  - apply adds_when. intros n _. apply Hn. num_type.
Qed.

Lemma adds_details ccr : plain_ccr ccr -> adds [] (ccr_details ccr) (avps_of (detail_fields ccr)).
Proof.
  intros H. unfold ccr_details.
  rewrite (plain_origination_time_stamp _ H), (plain_user_location_info_time _ H),
    (plain_access_network_charging_address _ H).
  repeat (first [apply adds_skip; [reflexivity|] | eapply adds_cons; [apply adds_when; intros ? _;
    adds_value|]]).
  eapply adds_cons; [|apply adds_nil]. apply adds_many. intros n.
  apply (adds_cons [] _ _ [] [num_avp int32_t davp_event_trigger n]); [apply adds_val_num|].
  apply adds_single, (adds_MSG_ADD_AVP MSG [] davp_event_trigger); [by left|].
  apply (setvalue_num davp_event_trigger uint32_t). rewrite
    (basetype_of davp_event_trigger AVP_TYPE_INTEGER32) by listed.
  constructor.
Qed.

Lemma header_adds ccr s :
  exists s', ccr_header ccr s = Next s' /\ s_msg s' = avps_of (header_fields origin_host origin_realm ccr).
Proof.
  apply adds_new. eapply adds_cons; [apply adds_when; intros ? _; adds_value|].
  eapply adds_cons_eq; [apply adds_MSG_ADD_ORIGIN|reflexivity|].
  eapply adds_cons.
  { apply adds_MSG_ADD_AVP; [by left|]. apply setvalue_os; [os_type|done]. }
  eapply adds_cons.
  { apply adds_MSG_ADD_AVP; [by left|]. unfold fd_msg_avp_setvalue, appGX.
    rewrite (basetype_of davp_auth_application_id AVP_TYPE_UNSIGNED32) by listed. cbn [u_first u_len
      basetype_size].
    unfold mem_read. rewrite bool_decide_true by (rewrite fd_pointer; lia). reflexivity. }
  do 3 (eapply adds_cons; [apply adds_when; intros ? _; adds_value|]).
  eapply (adds_cons [] _ _ (one _ _)).
  { destruct (GxCCR_origin_state_id ccr);
    [|apply adds_nil]. cbn [fmap option_fmap option_map one when]. adds_value. }
  repeat (eapply adds_cons; [apply adds_when; intros ? _; adds_value|]). apply adds_nil.
Qed.

Lemma block_cons st body s s' : st s = Next s' -> block (st :: body) s = block body s'.
Proof. intros E. cbn [block]. by rewrite E. Qed.

(** A part whose member is absent. *)
Ltac absent :=
  match goal with H : plain_ccr _ |- _ =>
    first [ unfold ccr_fixed_user_location_info; rewrite (plain_fixed_user_location_info _ H)
          | unfold ccr_user_csg_information; rewrite (plain_user_csg_information _ H)
          | unfold ccr_oc_supported_features; rewrite (plain_oc_supported_features _ H)
          | unfold ccr_tdf_information; rewrite (plain_tdf_information _ H)
          | unfold ccr_supported_features; rewrite (plain_supported_features _ H)
          | unfold ccr_an_gw_address; rewrite (plain_an_gw_address _ H)
          | unfold ccr_ran_nas_release_cause; rewrite (plain_ran_nas_release_cause _ H)
          | unfold ccr_tft_packet_filter_information; rewrite (plain_tft_packet_filter_information _ H)
          | unfold ccr_application_detection_information; rewrite (plain_application_detection_information _ H)
          | unfold ccr_event_report_indication; rewrite (plain_event_report_indication _ H)
          | unfold ccr_access_network_charging_identifier_gx;
            rewrite (plain_access_network_charging_identifier_gx _ H)
          | unfold ccr_coa_information; rewrite (plain_coa_information _ H)
          | unfold ccr_usage_monitoring_information; rewrite (plain_usage_monitoring_information _ H)
          | unfold ccr_routing_rule_install; rewrite (plain_routing_rule_install _ H)
          | unfold ccr_routing_rule_remove; rewrite (plain_routing_rule_remove _ H)
          | unfold ccr_proxy_info; rewrite (plain_proxy_info _ H)
          | unfold ccr_route_record; rewrite (plain_route_record _ H)
          | unfold ccr_default_qos_information; rewrite (plain_default_qos_information _ H) ];
    reflexivity
  end.

(** The whole message of a plain CCR. *)
Lemma gx_ccr_message_avps ccr s : plain_ccr ccr ->
  exists s', gx_ccr_message ccr s = Next s' /\ s_msg s' = ccr_avps origin_host origin_realm ccr.
Proof.
  intros H. unfold gx_ccr_message.
  match goal with |- context [block (_ :: ?body)] =>
    assert (adds [] (block body) (avps_of (detail_fields ccr) ++ avps_of (group_fields ccr))) as Hb end.
  { eapply adds_cons; [apply adds_details, H|].
    do 4 (apply adds_skip; [absent|]).
    eapply adds_cons; [apply adds_user_equipment_info|]. eapply adds_cons; [apply adds_subscription_id, H|].
    apply adds_skip; [absent|].
    eapply adds_cons; [apply adds_packet_filter_information|]. eapply adds_cons;
      [apply adds_qos_information, H|].
    do 3 (apply adds_skip; [absent|]). eapply adds_cons; [apply adds_charging_rule_report, H|].
    do 7 (apply adds_skip; [absent|]). eapply adds_cons; [apply adds_presence_reporting_area_information, H|].
    do 2 (apply adds_skip; [absent|]). eapply adds_cons; [apply adds_default_eps_bearer_qos, H|].
    apply adds_skip; [absent|]. apply adds_nil. }
  destruct (header_adds ccr s) as (s1 & E1 & Hm1). destruct (Hb s1) as (s2 & E2 & Hm2). exists s2.
  split; [by rewrite (block_cons _ _ _ _ E1)|]. rewrite Hm2, add_list_top, Hm1.
  unfold ccr_avps, ccr_fields, avps_of. by rewrite !map_app, !concat_app.
Qed.
End Runs.

(** ** The parsers on such a message *)

Section Reads.
Context {G : GxDict} {HG : GxDictOk G} {FD : FreeDiameter}.

Definition coded (f : field) : Prop := Forall (fun a => avp_code a = gxDict f.1) f.2.

(** Each AVP is in one field, and has its code. *)
Definition apart (fields : list field) : Prop := NoDup (map fst fields) /\ Forall coded fields.

Lemma with_code_app d l1 l2 : with_code d (l1 ++ l2) = with_code d l1 ++ with_code d l2.
Proof. apply filter_app. Qed.

Lemma with_code_same (f : field) : coded f -> with_code f.1 f.2 = f.2.
Proof.
  unfold coded. destruct f as [d l]. cbn [fst snd]. induction 1 as [|a l Ha _ IH]; [done|].
  rewrite with_code_cons. unfold IS_AVP. rewrite bool_decide_true by done. by rewrite IH.
Qed.

Lemma with_code_other d (f : field) : coded f -> d <> f.1 -> with_code d f.2 = [].
Proof.
  unfold coded. destruct f as [d' l]. cbn [fst snd]. intros H Hd. induction H as [|a l Ha _ IH]; [done|].
  rewrite with_code_cons. unfold IS_AVP. rewrite bool_decide_false;
    [done|]. rewrite Ha. by intros ?%gx_dict_inj.
Qed.

Lemma with_code_out d fields : Forall coded fields -> ~ In d (map fst fields) -> with_code d
  (avps_of fields) = [].
Proof.
  intros H Hd. unfold avps_of. induction H as [|f fields Hf _ IH]; [done|]. cbn [map concat In] in Hd |- *.
  rewrite with_code_app, IH by tauto. rewrite (with_code_other _ _ Hf) by (intros ->; tauto). done.
Qed.

Lemma with_code_in d l fields : apart fields -> In (d, l) fields -> with_code d (avps_of fields) = l.
Proof.
  intros [Hnd Hc] Hin. unfold avps_of. induction Hc as [|f fields Hf Hc IH]; [done|].
  cbn [map concat]. cbn [map] in Hnd. apply NoDup_cons in Hnd as [Hf1 Hnd]. rewrite with_code_app. destruct Hin
    as [->|Hin].
  - pose proof (with_code_same _ Hf) as E. cbn [fst snd] in E, Hf1 |- *. rewrite E.
    rewrite list_elem_of_In in Hf1. fold (avps_of fields). rewrite with_code_out by done. by rewrite app_nil_r.
  - rewrite (with_code_other d f Hf); [by apply IH|]. intros ->. apply Hf1.
    apply list_elem_of_In, in_map_iff. by exists (f.1, l).
Qed.

Lemma coded_one {X} d (m : option X) f : (forall x, avp_code (f x) = gxDict d) -> coded (d, one m f).
Proof. intros H. destruct m; repeat constructor. apply H. Qed.

Lemma coded_many {X} d (m : option (list X)) f : (forall x, avp_code (f x) = gxDict d) -> coded (d, many m f).
Proof. intros H. unfold coded, many. cbn [fst snd]. apply Forall_fmap, Forall_true. apply H. Qed.

(** ** One member of a structure *)

Section Member.
Context (fields : list field) (Hf : apart fields).

Lemma one_absent {X} d (R : avp -> X -> Prop) m :
  ~ In d (map fst fields) -> m = None -> one_avp (avps_of fields) d R m.
Proof. intros Hd ->. apply with_code_out; [apply Hf|done]. Qed.

Lemma many_absent {X} d (R : avp -> X -> Prop) m :
  ~ In d (map fst fields) -> m = None -> many_avp (avps_of fields) d R m.
Proof. intros Hd ->. apply with_code_out; [apply Hf|done]. Qed.

Lemma one_in {X} d f (R : avp -> X -> Prop) m :
  In (d, one m f) fields -> (forall x, m = Some x -> R (f x) x) -> one_avp (avps_of fields) d R m.
Proof. intros Hin H. destruct m as [x|]; cbn; [exists (f x); split; [|by apply H]|]; by apply with_code_in. Qed.

Lemma many_in {X} d f (R : avp -> X -> Prop) m :
  In (d, many m f) fields -> m <> Some [] -> (forall l x, m = Some l -> x ∈ l -> R (f x) x) ->
  many_avp (avps_of fields) d R m.
Proof.
  intros Hin Hm H. destruct m as [l|]; cbn; [|by apply with_code_in].
  split; [by intros ->|]. rewrite (with_code_in _ _ _ Hf Hin). unfold many. cbn [default].
  specialize (H l). clear Hin Hm. induction l as [|x l IH]; cbn; constructor.
  - apply H; [done|left].
  - apply IH. intros y _ Hy. apply H; [done|by right].
Qed.

Lemma is_octets_os d os : wf_string os = true -> is_octets 255 (os_avp d os) os.
Proof.
  intros H%bool_decide_eq_true. unfold sizeof_val in H. exists os. split; [done|]. split; [lia|].
  rewrite take_ge; [done|lia].
Qed.

Lemma one_num t d m : In (num_field t d m) fields -> wf_basic t m = true -> one_avp (avps_of fields) d
  (is_number t) m.
Proof. intros Hin Hm. apply (one_in _ _ _ _ Hin). intros n ->. by split. Qed.

Lemma one_os d m : In (os_field d m) fields -> wf_octets m = true -> one_avp (avps_of fields) d
  (is_octets 255) m.
Proof. intros Hin Hm. apply (one_in _ _ _ _ Hin). intros os ->. by apply is_octets_os. Qed.

Lemma many_num t d m :
  In (num_list_field t d m) fields -> m <> Some [] -> wf_list (in_range t) m = true ->
  many_avp (avps_of fields) d (is_number t) m.
Proof.
  intros Hin Hne Hm. apply (many_in _ _ _ _ Hin Hne). intros l n -> Hn. split; [done|].
  apply andb_true_iff in Hm as [_ Hm]. apply (wf_list_elem _ _ _ Hm). by apply list_elem_of_In.
Qed.

Lemma many_os d m :
  In (os_list_field d m) fields -> wf_list_octets m = true -> many_avp (avps_of fields) d (is_octets 255) m.
Proof.
  intros Hin Hm. apply (many_in _ _ _ _ Hin).
  - by intros ->.
  - intros l os -> Hos. apply is_octets_os. unfold wf_list_octets, wf_option in Hm.
    apply andb_true_iff in Hm as [_ [_ Hm]%andb_true_iff]. apply
      (wf_list_elem wf_string l os Hm). by apply list_elem_of_In.
Qed.
End Member.

(** ** The groups and the message *)

Definition key_in (d : davp) (keys : list davp) : bool := existsb
  (fun k => Nat.eqb (davp_index d) (davp_index k)) keys.

Lemma not_key d keys : key_in d keys = false -> ~ In d keys.
Proof.
  intros H Hin. assert (key_in d keys = true); [|congruence]. apply existsb_exists. exists d.
  split; [done|apply Nat.eqb_refl].
Qed.

Ltac apart_fields := split; [apply (bool_decide_unpack _); vm_compute; exact I
  | repeat (constructor; [first [apply coded_one; reflexivity | apply coded_many;
    reflexivity | repeat constructor]|]); constructor].
Ltac absent_key := apply not_key; vm_compute; reflexivity.
Ltac in_fields := solve [repeat (first [left; reflexivity | right])].
Ltac wf_member := repeat match goal with H : context [wf_all] |- _ => unfold wf_all in H end; eauto.

(** The claims of a structure about its members, in their order. *)
Ltac member :=
  first [ apply one_num; [assumption|in_fields|assumption]
        | apply one_os; [assumption|in_fields|assumption]
        | apply one_absent; [assumption|absent_key|assumption]
        | apply many_absent; [assumption|absent_key|assumption]
        | apply many_os; [assumption|in_fields|assumption]
        | apply many_num; [assumption|in_fields|assumption|assumption] ].

Ltac split_wf H :=
  unfold wf_all in H; cbn [forallb id] in H;
  repeat match goal with
  | H : (_ && _)%bool = true |- _ => apply andb_true_iff in H as [? H]
  end.

Ltac structure_reads H fields :=
  split_wf H; match goal with |- _ (avp_children (group_avp _ _ ?x)) _ =>
    assert (apart (fields x)) by apart_fields end;
  cbn [avp_children group_avp].

Lemma GxUserEquipmentInfo_reads d x : wf_GxUserEquipmentInfo x = true -> is_GxUserEquipmentInfo
  (group_avp d GxUserEquipmentInfo_fields x) x.
Proof.
  intros H. unfold is_GxUserEquipmentInfo, avps_GxUserEquipmentInfo. unfold wf_GxUserEquipmentInfo in H.
    split_wf H.
  assert (apart (GxUserEquipmentInfo_fields x)) by apart_fields. cbn [avp_children group_avp].
  repeat (refine (conj _ _); [member|]). exact I.
Qed.

Lemma GxSubscriptionId_reads d x : wf_GxSubscriptionId x = true -> is_GxSubscriptionId
  (group_avp d GxSubscriptionId_fields x) x.
Proof.
  intros H. unfold is_GxSubscriptionId, avps_GxSubscriptionId. unfold wf_GxSubscriptionId in H. split_wf H.
  assert (apart (GxSubscriptionId_fields x)) by apart_fields. cbn [avp_children group_avp].
  repeat (refine (conj _ _); [member|]). exact I.
Qed.

Lemma GxPacketFilterInformation_reads d x : wf_GxPacketFilterInformation x = true ->
  is_GxPacketFilterInformation (group_avp d GxPacketFilterInformation_fields x) x.
Proof.
  intros H. unfold is_GxPacketFilterInformation, avps_GxPacketFilterInformation. unfold
    wf_GxPacketFilterInformation in H. split_wf H.
  assert (apart (GxPacketFilterInformation_fields x)) by apart_fields. cbn [avp_children group_avp].
  repeat (refine (conj _ _); [member|]). exact I.
Qed.

Lemma GxPresenceReportingAreaInformation_reads d x : wf_GxPresenceReportingAreaInformation x = true ->
  is_GxPresenceReportingAreaInformation (group_avp d GxPresenceReportingAreaInformation_fields x) x.
Proof.
  intros H. unfold is_GxPresenceReportingAreaInformation, avps_GxPresenceReportingAreaInformation. unfold
    wf_GxPresenceReportingAreaInformation in H. split_wf H.
  assert (apart (GxPresenceReportingAreaInformation_fields x)) by apart_fields. cbn [avp_children group_avp].
  repeat (refine (conj _ _); [member|]). exact I.
Qed.

Lemma GxAllocationRetentionPriority_reads d x : wf_GxAllocationRetentionPriority x = true ->
  is_GxAllocationRetentionPriority (group_avp d GxAllocationRetentionPriority_fields x) x.
Proof.
  intros H. unfold is_GxAllocationRetentionPriority, avps_GxAllocationRetentionPriority. unfold
    wf_GxAllocationRetentionPriority in H. split_wf H.
  assert (apart (GxAllocationRetentionPriority_fields x)) by apart_fields. cbn [avp_children group_avp].
  repeat (refine (conj _ _); [member|]). exact I.
Qed.
Lemma GxQosInformation_reads d x :
  x.(GxQosInformation_allocation_retention_priority) = None ->
  x.(GxQosInformation_conditional_apn_aggregate_max_bitrate) = None ->
  wf_GxQosInformation x = true -> is_GxQosInformation (group_avp d GxQosInformation_fields x) x.
Proof.
  intros ? ? H. unfold is_GxQosInformation, avps_GxQosInformation. unfold wf_GxQosInformation in H. split_wf H.
  assert (apart (GxQosInformation_fields x)) by apart_fields. cbn [avp_children group_avp].
  repeat (refine (conj _ _); [member|]). exact I.
Qed.

Lemma GxChargingRuleReport_reads d x :
  x.(GxChargingRuleReport_final_unit_indication) = None ->
  x.(GxChargingRuleReport_content_version) <> Some [] ->
  wf_GxChargingRuleReport x = true -> is_GxChargingRuleReport (group_avp d GxChargingRuleReport_fields x) x.
Proof.
  intros ? ? H. unfold is_GxChargingRuleReport, avps_GxChargingRuleReport. unfold wf_GxChargingRuleReport in H.
    split_wf H.
  assert (apart (GxChargingRuleReport_fields x)) by apart_fields. cbn [avp_children group_avp].
  repeat (refine (conj _ _); [member|]). exact I.
Qed.

Lemma GxDefaultEpsBearerQos_reads d x :
  wf_GxDefaultEpsBearerQos x = true -> is_GxDefaultEpsBearerQos (group_avp d GxDefaultEpsBearerQos_fields x) x.
Proof.
  intros H. unfold is_GxDefaultEpsBearerQos, avps_GxDefaultEpsBearerQos. unfold wf_GxDefaultEpsBearerQos in H.
    split_wf H.
  assert (apart (GxDefaultEpsBearerQos_fields x)) by apart_fields. cbn [avp_children group_avp].
  refine (conj _ _); [member|]. refine (conj _ I).
  apply one_in with (f := group_avp davp_allocation_retention_priority GxAllocationRetentionPriority_fields);
    [assumption|in_fields|].
  intros a Ha. apply GxAllocationRetentionPriority_reads.
  match goal with W : wf_option wf_GxAllocationRetentionPriority _ = true |- _ => rewrite Ha in W; exact W end.
Qed.

(** A grouped member of the message. *)
Lemma wf_option_some {X} (wf : X -> bool) m x : wf_option wf m = true -> m = Some x -> wf x = true.
Proof. by intros H ->. Qed.

Lemma wf_list_some {X} (wf : X -> bool) m l x : wf_list wf m = true -> m = Some l -> x ∈ l -> wf x = true.
Proof.
  intros H ->. apply andb_true_iff in H as [_ H]. intros Hx. apply
    (wf_list_elem _ _ _ H). by apply list_elem_of_In.
Qed.

Lemma le_bytes_take bs : length bs = 8%nat -> le_bytes 4 (le_val (take 4 bs)) = take 4 bs.
Proof.
  intros H. pose proof (le_bytes_le_val (take 4 bs)) as E. by rewrite length_take, H in E.
Qed.

Lemma ccr_avps_say ccr origin_host origin_realm :
  wf_GxCCR ccr = true -> plain_ccr ccr -> wf_string origin_host = true -> wf_string origin_realm = true ->
  wf_string cnf_diamrlm = true -> in_range uint32_t cnf_orstateid = true -> length appGX_pointer = 8%nat ->
  avps_GxCCR (ccr_avps origin_host origin_realm ccr) (sent_ccr origin_host origin_realm ccr).
Proof.
  intros H Hp Hoh Hor Hrl Hos Hptr. unfold avps_GxCCR, ccr_avps. unfold wf_GxCCR in H. split_wf H.
  assert (apart (ccr_fields origin_host origin_realm ccr)) by apart_fields.
  destruct Hp.

  do 2 (refine (conj _ _); [member|]).
  refine (conj _ _).
  { exists (Avp (gxDict davp_auth_application_id) (Some (AvpNumber (take 4 appGX_pointer))) []).
    split; [apply with_code_in; [assumption|in_fields]|]. split; [|].
    - cbn [avp_val obj_bytes uint32_t]. by rewrite le_bytes_take.
    - cbn [in_range uint32_t]. apply bool_decide_eq_true. pose proof (le_val_range (take 4 appGX_pointer)) as E.
      rewrite length_take, Hptr in E. exact E. }
  do 8 (refine (conj _ _); [member|]).
  refine (conj _ _).
  { apply one_num; [assumption|in_fields|]. cbn [sent_ccr GxCCR_origin_state_id].
    destruct (GxCCR_origin_state_id ccr); [exact Hos|reflexivity]. }
  refine (conj _ _).
  { apply many_in with (f := group_avp davp_subscription_id GxSubscriptionId_fields);
    [assumption|in_fields|intros E; by specialize (plain_subscription_id0 _ E)|]. intros l x Hl Hx.
    apply GxSubscriptionId_reads.
    eapply wf_list_some; [|exact Hl|exact Hx]. assumption. }
  do 4 (refine (conj _ _); [member|]).
  refine (conj _ _).
  { apply many_in with (f := group_avp davp_packet_filter_information GxPacketFilterInformation_fields);
    [assumption|in_fields|assumption|]. intros l x Hl Hx.
    apply GxPacketFilterInformation_reads.
    eapply wf_list_some; [|exact Hl|exact Hx]. assumption. }
  do 13 (refine (conj _ _); [member|]).
  refine (conj _ _).
  { apply one_in with (f := group_avp davp_user_equipment_info GxUserEquipmentInfo_fields);
    [assumption|in_fields|]. intros x Hx.
    apply GxUserEquipmentInfo_reads.
    eapply wf_option_some; [|exact Hx]. assumption. }
  refine (conj _ _).
  { apply one_in with (f := group_avp davp_qos_information GxQosInformation_fields);
    [assumption|in_fields|]. intros x Hx.
    apply GxQosInformation_reads; [by apply (plain_qos_information0 x)..|].
    eapply wf_option_some; [|exact Hx]. assumption. }
  do 2 (refine (conj _ _); [member|]).
  refine (conj _ _).
  { apply one_in with (f := group_avp davp_default_eps_bearer_qos GxDefaultEpsBearerQos_fields);
    [assumption|in_fields|]. intros x Hx.
    apply GxDefaultEpsBearerQos_reads.
    eapply wf_option_some; [|exact Hx]. assumption. }
  do 24 (refine (conj _ _); [member|]).
  refine (conj _ _).
  { apply many_in with (f := group_avp davp_charging_rule_report GxChargingRuleReport_fields);
    [assumption|in_fields|intros E; by destruct (plain_charging_rule_report0 _ E)|]. intros l x Hl Hx.
    destruct (plain_charging_rule_report0 _ Hl) as [_ F]. rewrite Forall_forall in F. destruct (F x Hx).
    apply GxChargingRuleReport_reads; [done..|].
    eapply wf_list_some; [|exact Hl|exact Hx]. assumption. }
  do 19 (refine (conj _ _); [member|]).
  refine (conj _ _).
  { apply many_in with (f := group_avp davp_presence_reporting_area_information GxPresenceReportingAreaInformation_fields); [assumption|in_fields|intros E; by specialize (plain_presence_reporting_area_information0 _ E)|]. intros l x Hl Hx.
    apply GxPresenceReportingAreaInformation_reads.
    eapply wf_list_some; [|exact Hl|exact Hx]. assumption. }
  do 5 (refine (conj _ _); [member|]).
  exact I.
Qed.

(** ** Several subscription identifiers *)

Definition subscription (t : Z) (os : OctetString) : GxSubscriptionId := mkGxSubscriptionId (Some t) (Some os).

Lemma fills_subscriptions {origin_host origin_realm} {HFD : FreeDiameterOk G FD origin_host origin_realm} path
  l :
  fills davp_subscription_id path (for_each l (fun x => [
      when x.(GxSubscriptionId_subscription_id_type) (fun subscription_id_type => [
        val_num int32_t subscription_id_type; add_fd_msg davp_subscription_id_type]);
      when x.(GxSubscriptionId_subscription_id_data) (fun subscription_id_data => [
        val_os subscription_id_data; add_fd_msg davp_subscription_id_data])]))
    (flat_map (fun x => avps_of (GxSubscriptionId_fields x)) l).
Proof.
  unfold for_each. induction l as [|x l IH]; cbn [map flat_map]; [apply fills_nil|].
  apply fills_cons; [|exact IH].
  assert (fd_avp_add_ok (Some davp_subscription_id) = true) as Hg by (apply add_ok_of; in_fields).
  eapply fills_cons; [|eapply fills_cons; [|apply fills_nil]]; apply fills_when; intros v.
  - apply fills_num; [done|].
    rewrite (basetype_of davp_subscription_id_type AVP_TYPE_INTEGER32) by in_fields. constructor.
  - apply fills_os; [done|apply basetype_of; in_fields].
Qed.

(** All elements of the list go to the AVP that was created before the loop. *)
Lemma adds_subscription_ids {origin_host origin_realm} {HFD : FreeDiameterOk G FD origin_host origin_realm} ccr
  l :
  ccr.(GxCCR_subscription_id) = Some l ->
  adds [] (ccr_subscription_id ccr)
    [Avp (gxDict davp_subscription_id) None (flat_map (fun x => avps_of (GxSubscriptionId_fields x)) l)].
Proof.
  intros Hl. unfold ccr_subscription_id. rewrite Hl. cbn [when]. apply adds_new_avp_ptr. intros path.
  apply fills_single, fills_subscriptions.
Qed.

Lemma is_avp_of d d' v ch : IS_AVP d (Avp (gxDict d') v ch) = bool_decide (d = d').
Proof.
  unfold IS_AVP. cbn [avp_code]. apply bool_decide_ext. split; [by intros ?%gx_dict_inj|by intros ->].
Qed.

Lemma chain_type t s : in_range int32_t t = true ->
  chain first_branch GxSubscriptionId_members (num_avp int32_t davp_subscription_id_type t) s = Ok
    ((Some t, snd s), 0).
Proof.
  intros Ht. unfold GxSubscriptionId_members, num_avp. cbn [chain first_branch NUMBER member_avp].
  rewrite is_avp_of, bool_decide_true by done. rewrite (avp_number_spec int32_t _ t) by
    (by split). by destruct s.
Qed.

Lemma chain_data os s : wf_string os = true ->
  chain first_branch GxSubscriptionId_members (os_avp davp_subscription_id_data os) s = Ok ((fst s,
    (Some os, snd (snd s))), 0).
Proof.
  intros Hos. unfold GxSubscriptionId_members, os_avp. cbn [chain first_branch NUMBER OCTETSTRING member_avp].
  rewrite !is_avp_of, bool_decide_false, bool_decide_true by done.
  rewrite (octets_spec 255 _ os); [by destruct s as [? [? ?]]|unfold sizeof_val; lia|].
  by apply (is_octets_os davp_subscription_id_data).
Qed.

Definition subscriptions (l : list (Z * OctetString)) : list GxSubscriptionId := map
  (fun p => subscription p.1 p.2) l.

Lemma browse_subscriptions l t os s :
  Forall (fun p => in_range int32_t p.1 = true /\ wf_string p.2 = true) (l ++ [(t, os)]) ->
  browse first_branch GxSubscriptionId_members
    (flat_map (fun x => avps_of (GxSubscriptionId_fields x)) (subscriptions (l ++ [(t, os)]))) s 0 =
  Ok ((Some t, (Some os, tt)), 0).
Proof.
  induction l as [|[t' os'] l IH] in s |- *; cbn [app]; intros H; apply Forall_cons in H as [[Ht Hos] H];
    cbn [subscriptions map flat_map subscription fst snd] in Ht, Hos |- *;
    change (avps_of (GxSubscriptionId_fields (subscription ?a ?b))) with
      [num_avp int32_t davp_subscription_id_type a; os_avp davp_subscription_id_data b];
    cbn [app browse]; rewrite chain_type by done; cbn [res_bind fst snd browse]; rewrite chain_data by done;
    cbn [res_bind fst snd Z.add].
  - by destruct s as [? [? []]].
  - by apply IH.
Qed.

(** Subscription identifiers sent in one CCR share a single grouped AVP, and the
    receiver reads one identifier from it, the last of the list: of the IMSI and the
    MSISDN of a user only the MSISDN arrives. *)
Theorem only_last_subscription_id_arrives {origin_host origin_realm}
    {HFD : FreeDiameterOk G FD origin_host origin_realm} ccr l t os s :
  ccr.(GxCCR_subscription_id) = Some (subscriptions (l ++ [(t, os)])) ->
  Forall (fun p => in_range int32_t p.1 = true /\ wf_string p.2 = true) (l ++ [(t, os)]) ->
  exists s' a, ccr_subscription_id ccr s = Next s' /\ s_msg s' = s_msg s ++ [a] /\
    parseGxSubscriptionId a zero_GxSubscriptionId = Ok (subscription t os).
Proof.
  intros Hl H. destruct (adds_subscription_ids ccr _ Hl s) as (s' & E & Hm). exists s'. eexists.
  rewrite add_list_top in Hm. split; [done|]. split; [exact Hm|].
  unfold parseGxSubscriptionId, parse_group. cbn [avp_children start GxSubscriptionId_data
    zero_GxSubscriptionId].
  rewrite browse_subscriptions by done. done.
Qed.

(** ** Sending and receiving a CCR *)

Lemma ccr_sent_and_read {M : Malloc} {HM : MallocOk M} {origin_host origin_realm}
    {HFD : FreeDiameterOk G FD origin_host origin_realm} ccr :
  plain_ccr ccr -> wf_GxCCR ccr = true -> 4 + Z.of_nat (length (wire_GxCCR ccr)) < 2 ^ 32 ->
  exists buf msg,
    gx_ccr_pack ccr (zeros (Z.to_nat (gx_ccr_calc_length ccr))) (gx_ccr_calc_length ccr) = Ok (true, buf) /\
    gx_send_ccr buf = Ok (CcrSent msg) /\ gx_ccr_parse msg = Ok (sent_ccr origin_host origin_realm ccr).
Proof.
  intros Hp Hwf Hlen. destruct (gx_ccr_exchange ccr Hwf Hlen) as (buf & Hbuf & _ & Hu).
  exists buf, (ccr_avps origin_host origin_realm ccr). split; [done|].
  pose proof (Hu []) as E. rewrite app_nil_r in E. unfold gx_send_ccr. rewrite E. cbn [res_bind snd].
  destruct (gx_ccr_message_avps ccr (mk_sending [] NoAvp (mk_avp_union None None) 0) Hp) as (s & -> & ->).
  rewrite fd_send. split; [done|]. apply gx_ccr_parse_reads. destruct fd_identity as (? & ? & ? & ?).
  apply ccr_avps_say; try done. apply fd_pointer.
Qed.

(** A CCR that uses the members which the code supports reaches the PCRF: the control
    plane packs it, the Diameter process unpacks it and sends a message, and the
    message reads as that CCR, with the node's own identity, the realm of the
    configuration, and as application identifier the low half of a pointer. *)
Theorem ccr_reaches_pcrf {M : Malloc} {HM : MallocOk M} {origin_host origin_realm}
    {HFD : FreeDiameterOk G FD origin_host origin_realm} ccr :
  plain_ccr ccr -> wf_GxCCR ccr = true -> 4 + Z.of_nat (length (wire_GxCCR ccr)) < 2 ^ 32 ->
  exists buf msg,
    gx_ccr_pack ccr (zeros (Z.to_nat (gx_ccr_calc_length ccr))) (gx_ccr_calc_length ccr) = Ok (true, buf) /\
    gx_send_ccr buf = Ok (CcrSent msg) /\ gx_ccr_parse msg = Ok (sent_ccr origin_host origin_realm ccr).
Proof. apply ccr_sent_and_read. Qed.

(** ** Members that do not arrive *)

(** A part that runs before any group was created changes nothing. *)
Definition lost (st : stmt) : Prop := forall s, s_avp_ptr s = NoAvp ->
  match st s with
  | Next s' => s_msg s' = s_msg s /\ s_avp_ptr s' = NoAvp
  | NotDefined => True
  | _ => False
  end.

Lemma lost_nil : lost (block []).
Proof. by intros s Hs. Qed.

Lemma lost_cons st body : lost st -> lost (block body) -> lost (block (st :: body)).
Proof.
  intros H1 H2 s Hs. cbn [block]. specialize (H1 s Hs). destruct (st s) as [s'| | |]; [|done..].
  destruct H1 as [Hm Hp]. specialize (H2 s' Hp). by rewrite <- Hm.
Qed.

Lemma lost_when {X} (m : option X) body : (forall x, lost (block (body x))) -> lost (when m body).
Proof. intros H. destruct m as [x|]; [exact (H x)|apply lost_nil]. Qed.

Lemma lost_set st : (forall s, exists u, st s = Next (mk_sending (s_msg s) (s_avp_ptr s) u
  (s_created s))) -> lost st.
Proof. intros H s Hs. destruct (H s) as (u & ->). done. Qed.

Lemma lost_add_fd_msg d : lost (add_fd_msg d).
Proof.
  intros s Hs. unfold add_fd_msg. destruct (fd_avp_new_ok _); [|done].
  destruct (fd_msg_avp_setvalue _ _) as [[v|]| |]; try done. by rewrite Hs.
Qed.

Ltac lost_body := repeat first
  [ apply lost_when; intros ? | apply lost_cons | apply lost_nil | apply lost_add_fd_msg
  | apply lost_set; intros; eexists; reflexivity ].

(** The location of the user in a fixed network and the group of its cell are added to
    [avp_ptr], which points nowhere yet: no CCR carries them. *)
Lemma location_and_csg_lost ccr :
  lost (ccr_fixed_user_location_info ccr) /\ lost (ccr_user_csg_information ccr).
Proof. split; [unfold ccr_fixed_user_location_info|unfold ccr_user_csg_information]; lost_body. Qed.

Lemma length_addresses l : Forall (fun a => length (fd_address a) = MAX_FD_ADDRESS_LEN) l ->
  length (concat (map (obj_bytes FdAddress) l)) = (18 * length l)%nat.
Proof.
  induction 1 as [|b bs Hb _ IH]; [done|]. cbn [map concat length]. rewrite length_app, IH.
  assert (length (obj_bytes FdAddress b) = 18%nat) as ->; [|lia].
  cbn [obj_bytes FdAddress]. by rewrite length_app, length_le_bytes, Hb.
Qed.

(** Every gateway address is read past the end of its list, which is as long as all of
    them. *)
Lemma gateway_address_overread ccr l s :
  ccr.(GxCCR_an_gw_address) = Some l -> l <> [] ->
  Forall (fun a => length (fd_address a) = MAX_FD_ADDRESS_LEN) l ->
  avp_basetype davp_an_gw_address = AVP_TYPE_OCTETSTRING -> fd_avp_new_ok (s_created s) = true ->
  ccr_an_gw_address ccr s = NotDefined.
Proof.
  intros Hl Hne Hlen Hty Hnew. unfold ccr_an_gw_address, for_index. rewrite Hl. destruct l as [|a l]; [done|].
  cbn [when block length seq map val_os_len val_os_data]. unfold add_fd_msg. cbn [s_created s_val u_first
    u_len]. rewrite Hnew.
  unfold fd_msg_avp_setvalue, list_address. rewrite Hty. cbn [u_first u_len].
  pose proof (length_addresses _ Hlen) as Hc.
  unfold mem_read. rewrite bool_decide_false; [done|]. cbn [drop]. rewrite length_drop, Hc.
  unfold sizeof_FdAddress. cbn [bsizeof FdAddress length]. unfold MAX_FD_ADDRESS_LEN. lia.
Qed.

(** A time is an octet string in the dictionary, and is stored in the union as a number:
    freeDiameter takes it for the address of the bytes. *)
Lemma time_taken_for_an_address d n s :
  avp_basetype d = AVP_TYPE_OCTETSTRING -> fd_avp_new_ok (s_created s) = true ->
  MSG_ADD_AVP_U32 d MSG n s = NotDefined.
Proof.
  intros Hd Hs. unfold MSG_ADD_AVP_U32, MSG_ADD_AVP. rewrite Hs. unfold fd_msg_avp_setvalue. by rewrite Hd.
Qed.
End Reads.

(** ** An instance to evaluate with *)

#[local] Instance malloc_any : Malloc := fun _ _ => true.
#[local] Instance malloc_any_ok : MallocOk malloc_any.
Proof. by intros n k H. Qed.

Definition sample_host : OctetString := [x70; x67; x77].
Definition sample_realm : OctetString := [x65; x70; x63].

#[local] Instance sample_fd : FreeDiameter := {|
  avp_basetype := fun d =>
    default AVP_TYPE_GROUPED (snd <$> List.find
      (fun p => Nat.eqb (davp_index p.1) (davp_index d)) ccr_basetypes);
  fd_avp_new_ok := fun _ => true;
  fd_avp_add_ok := fun _ => true;
  fd_msg_new_appl_ok := true;
  fd_msg_send_ok := fun _ => true;
  fd_msg_add_origin := fun l => Some (l ++ [os_avp davp_origin_host sample_host;
    os_avp davp_origin_realm sample_realm]);
  cnf_diamrlm := sample_realm;
  cnf_orstateid := 7;
  appGX_pointer := [x10; x20; x30; x40; x50; x7f; x00; x00]
|}.

#[local] Instance sample_fd_ok : FreeDiameterOk sample_dict sample_fd sample_host sample_realm.
Proof.
  split; try done.
  - repeat constructor.
  - split; [done|]. repeat constructor.
Qed.

(** The CCR of an attached user: its session, type, number, subscription, quality of
    service and two packet filters. *)
Definition sample_arp : GxAllocationRetentionPriority := mkGxAllocationRetentionPriority (Some 9) (Some 1)
  (Some 0).
Definition sample_filter (precedence : Z) : GxPacketFilterInformation :=
  mkGxPacketFilterInformation None (Some precedence) (Some [x61; x6e; x79]) None None None (Some 3).

Definition sample_sent_ccr : GxCCR := {|
  GxCCR_session_id := Some [x63; x70];
  GxCCR_drmp := None;
  GxCCR_auth_application_id := None;
  GxCCR_origin_host := None;
  GxCCR_origin_realm := None;
  GxCCR_destination_realm := None;
  GxCCR_service_context_id := None;
  GxCCR_cc_request_type := Some 1;
  GxCCR_cc_request_number := Some 0;
  GxCCR_credit_management_status := None;
  GxCCR_destination_host := None;
  GxCCR_origin_state_id := Some 0;
  GxCCR_subscription_id := Some [mkGxSubscriptionId (Some 1) (Some [x34; x30; x34])];
  GxCCR_oc_supported_features := None;
  GxCCR_supported_features := None;
  GxCCR_tdf_information := None;
  GxCCR_network_request_support := None;
  GxCCR_packet_filter_information := Some [sample_filter 10; sample_filter 11];
  GxCCR_packet_filter_operation := None;
  GxCCR_bearer_identifier := None;
  GxCCR_bearer_operation := None;
  GxCCR_dynamic_address_flag := None;
  GxCCR_dynamic_address_flag_extension := None;
  GxCCR_pdn_connection_charging_id := None;
  GxCCR_framed_ip_address := None;
  GxCCR_framed_ipv6_prefix := None;
  GxCCR_ip_can_type := Some 0;
  GxCCR_tgpp_rat_type := None;
  GxCCR_an_trusted := None;
  GxCCR_rat_type := Some 1004;
  GxCCR_termination_cause := None;
  GxCCR_user_equipment_info := None;
  GxCCR_qos_information := None;
  GxCCR_qos_negotiation := None;
  GxCCR_qos_upgrade := None;
  GxCCR_default_eps_bearer_qos := Some (mkGxDefaultEpsBearerQos (Some 9) (Some sample_arp));
  GxCCR_default_qos_information := None;
  GxCCR_an_gw_address := None;
  GxCCR_an_gw_status := None;
  GxCCR_tgpp_sgsn_mcc_mnc := None;
  GxCCR_tgpp_sgsn_address := None;
  GxCCR_tgpp_sgsn_ipv6_address := None;
  GxCCR_tgpp_ggsn_address := None;
  GxCCR_tgpp_ggsn_ipv6_address := None;
  GxCCR_tgpp_selection_mode := None;
  GxCCR_rai := None;
  GxCCR_tgpp_user_location_info := None;
  GxCCR_fixed_user_location_info := None;
  GxCCR_user_location_info_time := None;
  GxCCR_user_csg_information := None;
  GxCCR_twan_identifier := None;
  GxCCR_tgpp_ms_timezone := None;
  GxCCR_ran_nas_release_cause := None;
  GxCCR_tgpp_charging_characteristics := None;
  GxCCR_called_station_id := Some [x61; x70; x6e];
  GxCCR_pdn_connection_id := None;
  GxCCR_bearer_usage := None;
  GxCCR_online := None;
  GxCCR_offline := None;
  GxCCR_tft_packet_filter_information := None;
  GxCCR_charging_rule_report := None;
  GxCCR_application_detection_information := None;
  GxCCR_event_trigger := Some [2; 13];
  GxCCR_event_report_indication := None;
  GxCCR_access_network_charging_address := None;
  GxCCR_access_network_charging_identifier_gx := None;
  GxCCR_coa_information := None;
  GxCCR_usage_monitoring_information := None;
  GxCCR_nbifom_support := None;
  GxCCR_nbifom_mode := None;
  GxCCR_default_access := None;
  GxCCR_origination_time_stamp := None;
  GxCCR_maximum_wait_time := None;
  GxCCR_access_availability_change_reason := None;
  GxCCR_routing_rule_install := None;
  GxCCR_routing_rule_remove := None;
  GxCCR_henb_local_ip_address := None;
  GxCCR_ue_local_ip_address := None;
  GxCCR_udp_source_port := None;
  GxCCR_tcp_source_port := None;
  GxCCR_presence_reporting_area_information := None;
  GxCCR_logical_access_id := None;
  GxCCR_physical_access_id := None;
  GxCCR_proxy_info := None;
  GxCCR_route_record := None;
  GxCCR_tgpp_ps_data_off_status := None
|}.

Definition ccr_with_subscriptions (ccr : GxCCR) (l : list (Z * OctetString)) : GxCCR := {|
  GxCCR_session_id := ccr.(GxCCR_session_id);
  GxCCR_drmp := ccr.(GxCCR_drmp);
  GxCCR_auth_application_id := ccr.(GxCCR_auth_application_id);
  GxCCR_origin_host := ccr.(GxCCR_origin_host);
  GxCCR_origin_realm := ccr.(GxCCR_origin_realm);
  GxCCR_destination_realm := ccr.(GxCCR_destination_realm);
  GxCCR_service_context_id := ccr.(GxCCR_service_context_id);
  GxCCR_cc_request_type := ccr.(GxCCR_cc_request_type);
  GxCCR_cc_request_number := ccr.(GxCCR_cc_request_number);
  GxCCR_credit_management_status := ccr.(GxCCR_credit_management_status);
  GxCCR_destination_host := ccr.(GxCCR_destination_host);
  GxCCR_origin_state_id := ccr.(GxCCR_origin_state_id);
  GxCCR_subscription_id := Some (subscriptions l);
  GxCCR_oc_supported_features := ccr.(GxCCR_oc_supported_features);
  GxCCR_supported_features := ccr.(GxCCR_supported_features);
  GxCCR_tdf_information := ccr.(GxCCR_tdf_information);
  GxCCR_network_request_support := ccr.(GxCCR_network_request_support);
  GxCCR_packet_filter_information := ccr.(GxCCR_packet_filter_information);
  GxCCR_packet_filter_operation := ccr.(GxCCR_packet_filter_operation);
  GxCCR_bearer_identifier := ccr.(GxCCR_bearer_identifier);
  GxCCR_bearer_operation := ccr.(GxCCR_bearer_operation);
  GxCCR_dynamic_address_flag := ccr.(GxCCR_dynamic_address_flag);
  GxCCR_dynamic_address_flag_extension := ccr.(GxCCR_dynamic_address_flag_extension);
  GxCCR_pdn_connection_charging_id := ccr.(GxCCR_pdn_connection_charging_id);
  GxCCR_framed_ip_address := ccr.(GxCCR_framed_ip_address);
  GxCCR_framed_ipv6_prefix := ccr.(GxCCR_framed_ipv6_prefix);
  GxCCR_ip_can_type := ccr.(GxCCR_ip_can_type);
  GxCCR_tgpp_rat_type := ccr.(GxCCR_tgpp_rat_type);
  GxCCR_an_trusted := ccr.(GxCCR_an_trusted);
  GxCCR_rat_type := ccr.(GxCCR_rat_type);
  GxCCR_termination_cause := ccr.(GxCCR_termination_cause);
  GxCCR_user_equipment_info := ccr.(GxCCR_user_equipment_info);
  GxCCR_qos_information := ccr.(GxCCR_qos_information);
  GxCCR_qos_negotiation := ccr.(GxCCR_qos_negotiation);
  GxCCR_qos_upgrade := ccr.(GxCCR_qos_upgrade);
  GxCCR_default_eps_bearer_qos := ccr.(GxCCR_default_eps_bearer_qos);
  GxCCR_default_qos_information := ccr.(GxCCR_default_qos_information);
  GxCCR_an_gw_address := ccr.(GxCCR_an_gw_address);
  GxCCR_an_gw_status := ccr.(GxCCR_an_gw_status);
  GxCCR_tgpp_sgsn_mcc_mnc := ccr.(GxCCR_tgpp_sgsn_mcc_mnc);
  GxCCR_tgpp_sgsn_address := ccr.(GxCCR_tgpp_sgsn_address);
  GxCCR_tgpp_sgsn_ipv6_address := ccr.(GxCCR_tgpp_sgsn_ipv6_address);
  GxCCR_tgpp_ggsn_address := ccr.(GxCCR_tgpp_ggsn_address);
  GxCCR_tgpp_ggsn_ipv6_address := ccr.(GxCCR_tgpp_ggsn_ipv6_address);
  GxCCR_tgpp_selection_mode := ccr.(GxCCR_tgpp_selection_mode);
  GxCCR_rai := ccr.(GxCCR_rai);
  GxCCR_tgpp_user_location_info := ccr.(GxCCR_tgpp_user_location_info);
  GxCCR_fixed_user_location_info := ccr.(GxCCR_fixed_user_location_info);
  GxCCR_user_location_info_time := ccr.(GxCCR_user_location_info_time);
  GxCCR_user_csg_information := ccr.(GxCCR_user_csg_information);
  GxCCR_twan_identifier := ccr.(GxCCR_twan_identifier);
  GxCCR_tgpp_ms_timezone := ccr.(GxCCR_tgpp_ms_timezone);
  GxCCR_ran_nas_release_cause := ccr.(GxCCR_ran_nas_release_cause);
  GxCCR_tgpp_charging_characteristics := ccr.(GxCCR_tgpp_charging_characteristics);
  GxCCR_called_station_id := ccr.(GxCCR_called_station_id);
  GxCCR_pdn_connection_id := ccr.(GxCCR_pdn_connection_id);
  GxCCR_bearer_usage := ccr.(GxCCR_bearer_usage);
  GxCCR_online := ccr.(GxCCR_online);
  GxCCR_offline := ccr.(GxCCR_offline);
  GxCCR_tft_packet_filter_information := ccr.(GxCCR_tft_packet_filter_information);
  GxCCR_charging_rule_report := ccr.(GxCCR_charging_rule_report);
  GxCCR_application_detection_information := ccr.(GxCCR_application_detection_information);
  GxCCR_event_trigger := ccr.(GxCCR_event_trigger);
  GxCCR_event_report_indication := ccr.(GxCCR_event_report_indication);
  GxCCR_access_network_charging_address := ccr.(GxCCR_access_network_charging_address);
  GxCCR_access_network_charging_identifier_gx := ccr.(GxCCR_access_network_charging_identifier_gx);
  GxCCR_coa_information := ccr.(GxCCR_coa_information);
  GxCCR_usage_monitoring_information := ccr.(GxCCR_usage_monitoring_information);
  GxCCR_nbifom_support := ccr.(GxCCR_nbifom_support);
  GxCCR_nbifom_mode := ccr.(GxCCR_nbifom_mode);
  GxCCR_default_access := ccr.(GxCCR_default_access);
  GxCCR_origination_time_stamp := ccr.(GxCCR_origination_time_stamp);
  GxCCR_maximum_wait_time := ccr.(GxCCR_maximum_wait_time);
  GxCCR_access_availability_change_reason := ccr.(GxCCR_access_availability_change_reason);
  GxCCR_routing_rule_install := ccr.(GxCCR_routing_rule_install);
  GxCCR_routing_rule_remove := ccr.(GxCCR_routing_rule_remove);
  GxCCR_henb_local_ip_address := ccr.(GxCCR_henb_local_ip_address);
  GxCCR_ue_local_ip_address := ccr.(GxCCR_ue_local_ip_address);
  GxCCR_udp_source_port := ccr.(GxCCR_udp_source_port);
  GxCCR_tcp_source_port := ccr.(GxCCR_tcp_source_port);
  GxCCR_presence_reporting_area_information := ccr.(GxCCR_presence_reporting_area_information);
  GxCCR_logical_access_id := ccr.(GxCCR_logical_access_id);
  GxCCR_physical_access_id := ccr.(GxCCR_physical_access_id);
  GxCCR_proxy_info := ccr.(GxCCR_proxy_info);
  GxCCR_route_record := ccr.(GxCCR_route_record);
  GxCCR_tgpp_ps_data_off_status := ccr.(GxCCR_tgpp_ps_data_off_status)
|}.

Lemma sample_sent_plain : plain_ccr sample_sent_ccr.
Proof. split; try reflexivity; try discriminate; intros; by simplify_eq/=. Qed.

Example ccr_reaches_pcrf_witness : exists buf msg,
  gx_ccr_pack sample_sent_ccr (zeros (Z.to_nat (gx_ccr_calc_length sample_sent_ccr)))
    (gx_ccr_calc_length sample_sent_ccr) = Ok (true, buf) /\
  gx_send_ccr buf = Ok (CcrSent msg) /\ length msg = 17%nat /\
  gx_ccr_parse msg = Ok (sent_ccr sample_host sample_realm sample_sent_ccr).
Proof.
  destruct (ccr_reaches_pcrf sample_sent_ccr sample_sent_plain) as (buf & msg & Hb & Hm & Hp);
    [vm_compute; reflexivity|vm_compute; reflexivity|].
  exists buf, msg. split; [exact Hb|]. split; [exact Hm|]. split; [|exact Hp].
  vm_compute in Hb. injection Hb as <-. vm_compute in Hm. injection Hm as <-. reflexivity.
Defined.

Example only_last_subscription_id_arrives_witness : exists s' a,
  ccr_subscription_id (ccr_with_subscriptions sample_sent_ccr [(1, [x34; x30; x34]); (0, [x31; x32])])
    (mk_sending [] NoAvp (mk_avp_union None None) 0) = Next s' /\
  s_msg s' = [a] /\ parseGxSubscriptionId a zero_GxSubscriptionId = Ok (subscription 0 [x31; x32]).
Proof.
  destruct (only_last_subscription_id_arrives (ccr_with_subscriptions sample_sent_ccr [(1, [x34; x30; x34]);
    (0, [x31; x32])])
    [(1, [x34; x30; x34])] 0 [x31; x32] (mk_sending [] NoAvp (mk_avp_union None None) 0) eq_refl)
    as (s' & a & E & Hm & Hp); [repeat constructor|].
  exists s', a. split; [exact E|]. split; [exact Hm|exact Hp].
Defined.
