(* ===== verification/CcrFill.v ===== *)
(** * Filling a CCR (cp/cp_app.c, [fill_ccr_request] and its parts) and the first CCR of a
    session (pfcp_messages/pfcp_session.c, [gen_ccr_request])

    The control plane describes a PDN connection and its user to the PCRF.  Of the
    context, the bearer and the connection the records hold the members that the code
    reads.  A string is the bytes of its array.  The values of the RAT types are those of
    libgtpv2c, a submodule, and [apn_name_label] is what the configuration stored.

    - [log10] of a bearer identifier counts its decimal digits; [strncpy] then copies as
      many bytes from the bearer, so what follows the identifier there is a member too.
    - [GX_..] and the like are the enumerations of gx_def.h; what [rte_malloc_socket]
      returns is an argument. *)
From S2P Require Import Prelude CText GxMacros GxStruct GxWire GxPack GxCodec GxDict.
From S2P Require Import GxAvp GxParse GxSend GxSendOk.

(** ** Constants *)

Definition GX_WLAN : Z := 0.
Definition GX_VIRTUAL : Z := 1.
Definition GX_UTRAN : Z := 1000.
Definition GX_GERAN : Z := 1001.
Definition GX_GAN : Z := 1002.
Definition GX_HSPA_EVOLUTION : Z := 1003.
Definition GX_EUTRAN : Z := 1004.
Definition INITIAL_REQUEST : Z := 1.
Definition UPDATE_REQUEST : Z := 2.
Definition TERMINATION_REQUEST : Z := 3.
Definition TGPP_GPRS : Z := 0.
Definition ESTABLISHMENT : Z := 1.
Definition NETWORK_REQUEST_SUPPORTED : Z := 1.
Definition IMEISV : Z := 0.
Definition END_USER_E164 : Z := 0.
Definition END_USER_IMSI : Z := 1.
Definition PRA_IN_AREA : Z := 0.
Definition PRA_OUT_AREA : Z := 1.
Definition PRA_INACTIVE : Z := 2.
Definition BINARY_IMSI_LEN : nat := 8.
Definition STR_IMSI_LEN : nat := 16.
Definition BINARY_MSISDN_LEN : nat := 6.
Definition STR_MSISDN_LEN : nat := 12.
Definition MAX_NB_DPN : nat := 64.
Definition MAX_APN_LEN : nat := 64.
Definition MAX_LEN : nat := 128.
Definition CHANGE_OF_UE_PRESENCE_IN_PRESENCE_REPORTING_AREA_REPORT : Z := 48.

(** The enumeration of libgtpv2c. *)
Class RatTypes := {
  EUTRAN_ : Z; UTRAN : Z; GERAN : Z; WLAN : Z; VIRTUAL : Z; GAN : Z; HSPA_EVOLUTION : Z
}.

(** ** What is read *)

Record ar_priority_ie := mk_ar_priority_ie {
  priority_level : Z; preemption_capability : Z; preemption_vulnerability : Z
}.

Record bearer_qos_ie := mk_bearer_qos_ie {
  qci : Z; ul_mbr : Z; dl_mbr : Z; ul_gbr : Z; dl_gbr : Z; arp : ar_priority_ie
}.

Record ambr_ie := mk_ambr_ie { ambr_uplink : Z; ambr_downlink : Z }.

Record apn := mk_apn { apn_name_length : Z; apn_name_label : list byte }.

Record pdn_connection := mk_pdn_connection { apn_in_use : option apn; apn_ambr : ambr_ie }.

(** [eps_bearer_t] starts with these three bytes. *)
Record eps_bearer := mk_eps_bearer {
  eps_bearer_id : Z; pdr_count : Z; qer_count : Z;
  b_qos : bearer_qos_ie; b_pdn : option pdn_connection
}.

Record presence_reporting_area := mk_presence_reporting_area { pra_identifier : Z; opra : Z; ipra : Z }.

Record ue_context := mk_ue_context {
  imsi : Z; msisdn : Z; mei : Z; rat_type_len : Z; rat_type : Z; event_trigger : Z; pra_flag : Z;
  pre_rptng_area_info : presence_reporting_area;
  eps_bearers : Z -> option eps_bearer
}.

Definition MAX_BEARERS : Z := 14.
Definition GET_PDN (x : ue_context) (i : Z) : option pdn_connection :=
  if bool_decide (0 <= i < MAX_BEARERS * 2) then bearer ← x.(eps_bearers) i; bearer.(b_pdn) else None.

(** ** The parts *)

Section Fill.
Context {RT : RatTypes}.

Definition fill_rat_type_ie (ccr_rat_type csr_rat_type : Z) : Z :=
  if bool_decide (csr_rat_type = EUTRAN_) then GX_EUTRAN
  else if bool_decide (csr_rat_type = UTRAN) then GX_UTRAN
  else if bool_decide (csr_rat_type = GERAN) then GX_GERAN
  else if bool_decide (csr_rat_type = WLAN) then GX_WLAN
  else if bool_decide (csr_rat_type = VIRTUAL) then GX_VIRTUAL
  else if bool_decide (csr_rat_type = GAN) then GX_GAN
  else if bool_decide (csr_rat_type = HSPA_EVOLUTION) then GX_HSPA_EVOLUTION
  else ccr_rat_type.

(** [1 + (uint32_t)log10(id)] of a [uint8_t]; the logarithm of 0 has no integer value. *)
Definition log10_len (id : Z) : res nat :=
  if bool_decide (id <= 0) then OutOfBounds
  else Ok (if bool_decide (id < 10) then 1%nat else if bool_decide (id < 100) then 2%nat else 3%nat).

(** The bytes before the first NUL, then zeros. *)
Fixpoint strncpy (n : nat) (src : list byte) : list byte :=
  match n, src with
  | O, _ => []
  | _, [] => zeros n
  | S k, c :: src => if Byte.eqb c x00 then zeros n else c :: strncpy k src
  end.

(** [strncpy(val, (char* )&bearer->eps_bearer_id, len)] *)
Definition bearer_identifier (bearer : eps_bearer) : res OctetString :=
  let? len := log10_len bearer.(eps_bearer_id) in
  Ok (strncpy len (map byte_of_Z [bearer.(eps_bearer_id); bearer.(pdr_count); bearer.(qer_count)])).

Definition fill_qos_info (q : GxQosInformation) (bearer : eps_bearer)
  (apn_ambr : ambr_ie) : res GxQosInformation :=
  let? id := bearer_identifier bearer in
  Ok {|
    GxQosInformation_qos_class_identifier := q.(GxQosInformation_qos_class_identifier);
    GxQosInformation_max_requested_bandwidth_ul := Some (u32 bearer.(b_qos).(ul_mbr));
    GxQosInformation_max_requested_bandwidth_dl := Some (u32 bearer.(b_qos).(dl_mbr));
    GxQosInformation_extended_max_requested_bw_ul := q.(GxQosInformation_extended_max_requested_bw_ul);
    GxQosInformation_extended_max_requested_bw_dl := q.(GxQosInformation_extended_max_requested_bw_dl);
    GxQosInformation_guaranteed_bitrate_ul := Some (u32 bearer.(b_qos).(ul_gbr));
    GxQosInformation_guaranteed_bitrate_dl := Some (u32 bearer.(b_qos).(dl_gbr));
    GxQosInformation_extended_gbr_ul := q.(GxQosInformation_extended_gbr_ul);
    GxQosInformation_extended_gbr_dl := q.(GxQosInformation_extended_gbr_dl);
    GxQosInformation_bearer_identifier := Some id;
    GxQosInformation_allocation_retention_priority := q.(GxQosInformation_allocation_retention_priority);
    GxQosInformation_apn_aggregate_max_bitrate_ul := Some apn_ambr.(ambr_uplink);
    GxQosInformation_apn_aggregate_max_bitrate_dl := Some apn_ambr.(ambr_downlink);
    GxQosInformation_extended_apn_ambr_ul := q.(GxQosInformation_extended_apn_ambr_ul);
    GxQosInformation_extended_apn_ambr_dl := q.(GxQosInformation_extended_apn_ambr_dl);
    GxQosInformation_conditional_apn_aggregate_max_bitrate :=
      q.(GxQosInformation_conditional_apn_aggregate_max_bitrate)
  |}.

Definition gx_qci (n : Z) : bool :=
  bool_decide (1 <= n <= 9) || bool_decide (n = 65) || bool_decide (n = 66) || bool_decide (n = 69) ||
  bool_decide (n = 70).

Definition fill_default_eps_bearer_qos (q : GxDefaultEpsBearerQos)
  (bearer : eps_bearer) : GxDefaultEpsBearerQos :=
  let a := bearer.(b_qos).(arp) in
  mkGxDefaultEpsBearerQos
    (if gx_qci bearer.(b_qos).(qci) then Some bearer.(b_qos).(qci)
     else q.(GxDefaultEpsBearerQos_qos_class_identifier))
    (Some (mkGxAllocationRetentionPriority (Some a.(priority_level)) (Some a.(preemption_capability))
       (Some a.(preemption_vulnerability)))).

(** The two characters of a byte. *)
Definition nibbles (b : byte) : list byte :=
  [byte_of_Z (48 + Z.land (byte_to_Z b) 15); byte_of_Z (48 + Z.land (Z.shiftr (byte_to_Z b) 4) 15)].

(** [s_val] with its [s_len] bytes; the last character of [b_val] makes room for NUL. *)
Definition bin_to_str (b_val : list byte) (b_len s_len : nat) : list byte :=
  let s := concat (map nibbles (take b_len b_val)) in
  take (b_len * 2 - 1) s ++ [x00] ++ zeros (s_len - b_len * 2).

(** What [snprintf(buf, 32, "%" PRIu64, n)] writes. *)
Definition fmt_u64 (n : Z) : list byte := map (fun c => byte_of_Z (char_code c)) (dec_digits 20 n).

Definition low_nibble (buf : list byte) (i : nat) : Z := Z.land (byte_to_Z (nth i buf x00)) 15.

Definition encode_imsi_to_bin (imsi : Z) (imsi_len : nat) : list byte :=
  let buf := fmt_u64 imsi ++ zeros (32 - length (fmt_u64 imsi)) in
  let bin := map (fun i => byte_of_Z (Z.lor (Z.shiftl (low_nibble buf (i * 2 + 1)) 4) (low_nibble buf (i * 2))))
    (seq 0 imsi_len) in
  if Nat.odd (length (fmt_u64 imsi))
  then <[(imsi_len - 1)%nat := byte_of_Z (Z.lor (Z.shiftl 15 4) (low_nibble buf ((imsi_len - 1) * 2)))]> bin
  else bin.

(** One identifier, the IMSI if there is one; [list_ok]: its memory was allocated. *)
Definition fill_subscription_id (list_ok : bool) (imsi msisdn : Z) : res (list GxSubscriptionId) :=
  if bool_decide (imsi <> 0) then
    if list_ok then
      Ok [mkGxSubscriptionId (Some END_USER_IMSI)
            (Some (take (STR_IMSI_LEN - 1)
               (bin_to_str (encode_imsi_to_bin imsi BINARY_IMSI_LEN) BINARY_IMSI_LEN STR_IMSI_LEN)))]
    else OutOfBounds
  else if bool_decide (msisdn <> 0) then
    if list_ok then
      Ok [mkGxSubscriptionId (Some END_USER_E164)
            (Some (take STR_MSISDN_LEN (bin_to_str (le_bytes 8 msisdn) BINARY_MSISDN_LEN STR_MSISDN_LEN)))]
    else OutOfBounds
  else Ok [].

Definition fill_user_equipment_info (csr_imei : Z) : GxUserEquipmentInfo :=
  mkGxUserEquipmentInfo (Some IMEISV) (Some (le_bytes 8 csr_imei)).

Definition fill_presence_rprtng_area_info (list_ok : bool) (pra : presence_reporting_area)
    : list GxPresenceReportingAreaInformation :=
  if list_ok then
    [mkGxPresenceReportingAreaInformation (Some (take 3 (le_bytes 4 pra.(pra_identifier))))
       (Some (if bool_decide (pra.(ipra) <> 0) then PRA_IN_AREA
              else if bool_decide (pra.(opra) <> 0) then PRA_OUT_AREA else PRA_INACTIVE)) None None]
  else [].

(** ** [get_apn_name] (cp/cp_config.c) *)

(** [for(j = i; j < i + len; j++) apn_name[j] = apn_name_label[j + 1];] *)
Fixpoint copy_label (n : nat) (label apn_name : list byte) (j : Z) : res (list byte) :=
  match n with
  | O => Ok apn_name
  | S n =>
      let? c := mem_read label (j + 1) 1 in
      let? apn_name := mem_write apn_name j c in
      copy_label n label apn_name (j + 1)
  end.

Fixpoint get_apn_name_loop (fuel : nat) (length_ : Z) (label apn_name : list byte) (i : Z) : option (res
  (list byte)) :=
  match fuel with
  | O => None
  | S fuel =>
      if bool_decide (i < length_) then
        let step :=
          let? l := mem_read label i 1 in
          let len := le_val l in
          let? apn_name := (if bool_decide (i <> 0) then mem_write apn_name (i - 1) [x2e] else Ok apn_name) in
          let? apn_name := copy_label (Z.to_nat len) label apn_name i in
          Ok (len, apn_name) in
        match step with
        | Ok (len, apn_name) => get_apn_name_loop fuel length_ label apn_name (u8 (u8 (i + len) + 1))
        | Return0 => Some Return0
        | OutOfBounds => Some OutOfBounds
        end
      else Some (Ok apn_name)
  end.

(** The label is NUL-terminated; each round takes a byte of it. *)
Definition get_apn_name (label apn_name : list byte) : option (res (list byte)) :=
  get_apn_name_loop (S (length label)) (u8 (strnlen label MAX_NB_DPN)) label apn_name 0.

(** The members that [fill_ccr_request] writes; the others stay. *)
Record ccr_members := mk_ccr_members {
  m_session_id : option OctetString;
  m_cc_request_number : option Z;
  m_ip_can_type : option Z;
  m_called_station_id : option OctetString;
  m_rat_type : option Z;
  m_default_eps_bearer_qos : option GxDefaultEpsBearerQos;
  m_qos_information : option GxQosInformation;
  m_subscription_id : option (list GxSubscriptionId);
  m_user_equipment_info : option GxUserEquipmentInfo;
  m_presence_reporting_area_information : option (list GxPresenceReportingAreaInformation)
}.

Definition members_of (ccr : GxCCR) : ccr_members :=
  mk_ccr_members ccr.(GxCCR_session_id) ccr.(GxCCR_cc_request_number) ccr.(GxCCR_ip_can_type)
    ccr.(GxCCR_called_station_id) ccr.(GxCCR_rat_type) ccr.(GxCCR_default_eps_bearer_qos)
      ccr.(GxCCR_qos_information) ccr.(GxCCR_subscription_id) ccr.(GxCCR_user_equipment_info)
        ccr.(GxCCR_presence_reporting_area_information).

Definition with_members (ccr : GxCCR) (m : ccr_members) : GxCCR := {|
  GxCCR_session_id := m.(m_session_id);
  GxCCR_drmp := ccr.(GxCCR_drmp);
  GxCCR_auth_application_id := ccr.(GxCCR_auth_application_id);
  GxCCR_origin_host := ccr.(GxCCR_origin_host);
  GxCCR_origin_realm := ccr.(GxCCR_origin_realm);
  GxCCR_destination_realm := ccr.(GxCCR_destination_realm);
  GxCCR_service_context_id := ccr.(GxCCR_service_context_id);
  GxCCR_cc_request_type := ccr.(GxCCR_cc_request_type);
  GxCCR_cc_request_number := m.(m_cc_request_number);
  GxCCR_credit_management_status := ccr.(GxCCR_credit_management_status);
  GxCCR_destination_host := ccr.(GxCCR_destination_host);
  GxCCR_origin_state_id := ccr.(GxCCR_origin_state_id);
  GxCCR_subscription_id := m.(m_subscription_id);
  GxCCR_oc_supported_features := ccr.(GxCCR_oc_supported_features);
  GxCCR_supported_features := ccr.(GxCCR_supported_features);
  GxCCR_tdf_information := ccr.(GxCCR_tdf_information);
  GxCCR_network_request_support := ccr.(GxCCR_network_request_support);
  GxCCR_packet_filter_information := ccr.(GxCCR_packet_filter_information);
  GxCCR_packet_filter_operation := ccr.(GxCCR_packet_filter_operation);
  GxCCR_bearer_identifier := ccr.(GxCCR_bearer_identifier);
  GxCCR_bearer_operation := ccr.(GxCCR_bearer_operation);
  GxCCR_dynamic_address_flag := ccr.(GxCCR_dynamic_address_flag);
  GxCCR_dynamic_address_flag_extension := ccr.(GxCCR_dynamic_address_flag_extension);
  GxCCR_pdn_connection_charging_id := ccr.(GxCCR_pdn_connection_charging_id);
  GxCCR_framed_ip_address := ccr.(GxCCR_framed_ip_address);
  GxCCR_framed_ipv6_prefix := ccr.(GxCCR_framed_ipv6_prefix);
  GxCCR_ip_can_type := m.(m_ip_can_type);
  GxCCR_tgpp_rat_type := ccr.(GxCCR_tgpp_rat_type);
  GxCCR_an_trusted := ccr.(GxCCR_an_trusted);
  GxCCR_rat_type := m.(m_rat_type);
  GxCCR_termination_cause := ccr.(GxCCR_termination_cause);
  GxCCR_user_equipment_info := m.(m_user_equipment_info);
  GxCCR_qos_information := m.(m_qos_information);
  GxCCR_qos_negotiation := ccr.(GxCCR_qos_negotiation);
  GxCCR_qos_upgrade := ccr.(GxCCR_qos_upgrade);
  GxCCR_default_eps_bearer_qos := m.(m_default_eps_bearer_qos);
  GxCCR_default_qos_information := ccr.(GxCCR_default_qos_information);
  GxCCR_an_gw_address := ccr.(GxCCR_an_gw_address);
  GxCCR_an_gw_status := ccr.(GxCCR_an_gw_status);
  GxCCR_tgpp_sgsn_mcc_mnc := ccr.(GxCCR_tgpp_sgsn_mcc_mnc);
  GxCCR_tgpp_sgsn_address := ccr.(GxCCR_tgpp_sgsn_address);
  GxCCR_tgpp_sgsn_ipv6_address := ccr.(GxCCR_tgpp_sgsn_ipv6_address);
  GxCCR_tgpp_ggsn_address := ccr.(GxCCR_tgpp_ggsn_address);
  GxCCR_tgpp_ggsn_ipv6_address := ccr.(GxCCR_tgpp_ggsn_ipv6_address);
  GxCCR_tgpp_selection_mode := ccr.(GxCCR_tgpp_selection_mode);
  GxCCR_rai := ccr.(GxCCR_rai);
  GxCCR_tgpp_user_location_info := ccr.(GxCCR_tgpp_user_location_info);
  GxCCR_fixed_user_location_info := ccr.(GxCCR_fixed_user_location_info);
  GxCCR_user_location_info_time := ccr.(GxCCR_user_location_info_time);
  GxCCR_user_csg_information := ccr.(GxCCR_user_csg_information);
  GxCCR_twan_identifier := ccr.(GxCCR_twan_identifier);
  GxCCR_tgpp_ms_timezone := ccr.(GxCCR_tgpp_ms_timezone);
  GxCCR_ran_nas_release_cause := ccr.(GxCCR_ran_nas_release_cause);
  GxCCR_tgpp_charging_characteristics := ccr.(GxCCR_tgpp_charging_characteristics);
  GxCCR_called_station_id := m.(m_called_station_id);
  GxCCR_pdn_connection_id := ccr.(GxCCR_pdn_connection_id);
  GxCCR_bearer_usage := ccr.(GxCCR_bearer_usage);
  GxCCR_online := ccr.(GxCCR_online);
  GxCCR_offline := ccr.(GxCCR_offline);
  GxCCR_tft_packet_filter_information := ccr.(GxCCR_tft_packet_filter_information);
  GxCCR_charging_rule_report := ccr.(GxCCR_charging_rule_report);
  GxCCR_application_detection_information := ccr.(GxCCR_application_detection_information);
  GxCCR_event_trigger := ccr.(GxCCR_event_trigger);
  GxCCR_event_report_indication := ccr.(GxCCR_event_report_indication);
  GxCCR_access_network_charging_address := ccr.(GxCCR_access_network_charging_address);
  GxCCR_access_network_charging_identifier_gx := ccr.(GxCCR_access_network_charging_identifier_gx);
  GxCCR_coa_information := ccr.(GxCCR_coa_information);
  GxCCR_usage_monitoring_information := ccr.(GxCCR_usage_monitoring_information);
  GxCCR_nbifom_support := ccr.(GxCCR_nbifom_support);
  GxCCR_nbifom_mode := ccr.(GxCCR_nbifom_mode);
  GxCCR_default_access := ccr.(GxCCR_default_access);
  GxCCR_origination_time_stamp := ccr.(GxCCR_origination_time_stamp);
  GxCCR_maximum_wait_time := ccr.(GxCCR_maximum_wait_time);
  GxCCR_access_availability_change_reason := ccr.(GxCCR_access_availability_change_reason);
  GxCCR_routing_rule_install := ccr.(GxCCR_routing_rule_install);
  GxCCR_routing_rule_remove := ccr.(GxCCR_routing_rule_remove);
  GxCCR_henb_local_ip_address := ccr.(GxCCR_henb_local_ip_address);
  GxCCR_ue_local_ip_address := ccr.(GxCCR_ue_local_ip_address);
  GxCCR_udp_source_port := ccr.(GxCCR_udp_source_port);
  GxCCR_tcp_source_port := ccr.(GxCCR_tcp_source_port);
  GxCCR_presence_reporting_area_information := m.(m_presence_reporting_area_information);
  GxCCR_logical_access_id := ccr.(GxCCR_logical_access_id);
  GxCCR_physical_access_id := ccr.(GxCCR_physical_access_id);
  GxCCR_proxy_info := ccr.(GxCCR_proxy_info);
  GxCCR_route_record := ccr.(GxCCR_route_record);
  GxCCR_tgpp_ps_data_off_status := ccr.(GxCCR_tgpp_ps_data_off_status)
|}.

(** ** [fill_ccr_request] *)

(** The members of the request type; [None]: an unknown type. *)
Definition fill_request_type (type cc_request_number : Z) (m : ccr_members) : option (ccr_members * Z) :=
  let with_number n ip := mk_ccr_members m.(m_session_id) (Some n) ip m.(m_called_station_id) m.(m_rat_type)
    m.(m_default_eps_bearer_qos) m.(m_qos_information) m.(m_subscription_id) m.(m_user_equipment_info)
    m.(m_presence_reporting_area_information) in
  if bool_decide (type = INITIAL_REQUEST) then Some (with_number 0 (Some TGPP_GPRS), cc_request_number)
  else if bool_decide (type = UPDATE_REQUEST) then
    Some (with_number (cc_request_number +[32] 1) m.(m_ip_can_type), cc_request_number +[32] 1)
  else if bool_decide (type = TERMINATION_REQUEST) then
    Some (with_number (cc_request_number +[32] 1) (Some TGPP_GPRS), cc_request_number +[32] 1)
  else None.

Definition fill_called_station (a : apn) (m : option OctetString) : option (res (option OctetString)) :=
  if bool_decide (a.(apn_name_length) <> 0) then
    name ← get_apn_name a.(apn_name_label) (zeros MAX_APN_LEN);
    Some (let? name := name in Ok (Some (take (Z.to_nat (strnlen name MAX_APN_LEN)) name)))
  else Some (Ok m).

(** The members written after the request type. *)
Definition fill_members (sub_ok pra_ok : bool) (context : ue_context) (bearer : eps_bearer)
  (pdn : pdn_connection)
    (flow_flag : Z) (called : option OctetString) (m : ccr_members) : res (ccr_members * Z) :=
  let rat := if bool_decide (context.(rat_type_len) <> 0)
             then Some (fill_rat_type_ie (default 0 m.(m_rat_type)) context.(rat_type)) else m.(m_rat_type) in
  let deqos := fill_default_eps_bearer_qos
    (default zero_GxDefaultEpsBearerQos m.(m_default_eps_bearer_qos)) bearer in
  let? qos := (if bool_decide (flow_flag <> 1)
               then let? q := fill_qos_info
                 (default zero_GxQosInformation m.(m_qos_information)) bearer pdn.(apn_ambr) in
                    Ok (Some q)
               else Ok m.(m_qos_information)) in
  let? subs := (if bool_decide (context.(imsi) <> 0 \/ context.(msisdn) <> 0)
                then let? l := fill_subscription_id sub_ok context.(imsi) context.(msisdn) in Ok (Some l)
                else Ok m.(m_subscription_id)) in
  let uei := if bool_decide (context.(mei) <> 0) then Some (fill_user_equipment_info context.(mei))
             else m.(m_user_equipment_info) in
  let pra := bool_decide (context.(pra_flag) <> 0) &&
    Z.testbit context.(event_trigger) CHANGE_OF_UE_PRESENCE_IN_PRESENCE_REPORTING_AREA_REPORT in
  Ok (mk_ccr_members m.(m_session_id) m.(m_cc_request_number) m.(m_ip_can_type) called rat
    (Some deqos) qos subs uei
        (if pra then Some (fill_presence_rprtng_area_info pra_ok context.(pre_rptng_area_info))
         else m.(m_presence_reporting_area_information)),
      if pra then 0 else context.(pra_flag)).

(** The value returned, the CCR, the counter of requests and the flag of the context;
    [None] would be a text that never ends. *)
Definition fill_ccr_request (sub_ok pra_ok : bool) (ccr : GxCCR) (context : ue_context) (ebi_index : Z)
    (sess_id : option (list byte)) (flow_flag cc_request_number : Z) : option (res (Z * GxCCR * Z * Z)) :=
  if bool_decide (0 < ebi_index) then
    match context.(eps_bearers) ebi_index, GET_PDN context ebi_index with
    | Some bearer, Some pdn =>
        let m := members_of ccr in
        let m := mk_ccr_members
          (match sess_id with
           | Some s => Some (take (Z.to_nat (strnlen s MAX_LEN)) s)
           | None => m.(m_session_id)
           end) m.(m_cc_request_number) m.(m_ip_can_type) m.(m_called_station_id) m.(m_rat_type)
          m.(m_default_eps_bearer_qos) m.(m_qos_information) m.(m_subscription_id) m.(m_user_equipment_info)
          m.(m_presence_reporting_area_information) in
        let typed := match ccr.(GxCCR_cc_request_type) with
                     | Some type => fill_request_type type cc_request_number m
                     | None => Some (m, cc_request_number)
                     end in
        match typed with
        | None => Some (Ok (-1, with_members ccr m, cc_request_number, context.(pra_flag)))
        | Some (m, number) =>
            match pdn.(apn_in_use) with
            | None => Some OutOfBounds
            | Some a =>
                called ← fill_called_station a m.(m_called_station_id);
                Some (let? called := called in
                      let? r := fill_members sub_ok pra_ok context bearer pdn flow_flag called m in
                      Ok (0, with_members ccr (fst r), number, snd r))
            end
        end
    | _, _ => Some (Ok (-1, ccr, cc_request_number, context.(pra_flag)))
    end
  else Some (Ok (-1, ccr, cc_request_number, context.(pra_flag))).

(** ** [gen_ccr_request]: the first CCR of a connection, as it is given to the socket *)

(** The CCR before [fill_ccr_request], of the bearer identifier [id]. *)
Definition initial_ccr_of (id : OctetString) : GxCCR := {|
  GxCCR_session_id := None;
  GxCCR_drmp := None;
  GxCCR_auth_application_id := None;
  GxCCR_origin_host := None;
  GxCCR_origin_realm := None;
  GxCCR_destination_realm := None;
  GxCCR_service_context_id := None;
  GxCCR_cc_request_type := Some INITIAL_REQUEST;
  GxCCR_cc_request_number := None;
  GxCCR_credit_management_status := None;
  GxCCR_destination_host := None;
  GxCCR_origin_state_id := None;
  GxCCR_subscription_id := None;
  GxCCR_oc_supported_features := None;
  GxCCR_supported_features := None;
  GxCCR_tdf_information := None;
  GxCCR_network_request_support := Some NETWORK_REQUEST_SUPPORTED;
  GxCCR_packet_filter_information := None;
  GxCCR_packet_filter_operation := None;
  GxCCR_bearer_identifier := Some id;
  GxCCR_bearer_operation := Some ESTABLISHMENT;
  GxCCR_dynamic_address_flag := None;
  GxCCR_dynamic_address_flag_extension := None;
  GxCCR_pdn_connection_charging_id := None;
  GxCCR_framed_ip_address := None;
  GxCCR_framed_ipv6_prefix := None;
  GxCCR_ip_can_type := None;
  GxCCR_tgpp_rat_type := None;
  GxCCR_an_trusted := None;
  GxCCR_rat_type := None;
  GxCCR_termination_cause := None;
  GxCCR_user_equipment_info := None;
  GxCCR_qos_information := None;
  GxCCR_qos_negotiation := None;
  GxCCR_qos_upgrade := None;
  GxCCR_default_eps_bearer_qos := None;
  GxCCR_default_qos_information := None;
  GxCCR_an_gw_address := None;
  GxCCR_an_gw_status := None;
  GxCCR_tgpp_sgsn_mcc_mnc := None;
  GxCCR_tgpp_sgsn_address := None;
  GxCCR_tgpp_sgsn_ipv6_address := None;
  GxCCR_tgpp_ggsn_address := None;
  GxCCR_tgpp_ggsn_ipv6_address := None;
  GxCCR_tgpp_selection_mode := None;
  GxCCR_rai := None;
  GxCCR_tgpp_user_location_info := None;
  GxCCR_fixed_user_location_info := None;
  GxCCR_user_location_info_time := None;
  GxCCR_user_csg_information := None;
  GxCCR_twan_identifier := None;
  GxCCR_tgpp_ms_timezone := None;
  GxCCR_ran_nas_release_cause := None;
  GxCCR_tgpp_charging_characteristics := None;
  GxCCR_called_station_id := None;
  GxCCR_pdn_connection_id := None;
  GxCCR_bearer_usage := None;
  GxCCR_online := None;
  GxCCR_offline := None;
  GxCCR_tft_packet_filter_information := None;
  GxCCR_charging_rule_report := None;
  GxCCR_application_detection_information := None;
  GxCCR_event_trigger := None;
  GxCCR_event_report_indication := None;
  GxCCR_access_network_charging_address := None;
  GxCCR_access_network_charging_identifier_gx := None;
  GxCCR_coa_information := None;
  GxCCR_usage_monitoring_information := None;
  GxCCR_nbifom_support := None;
  GxCCR_nbifom_mode := None;
  GxCCR_default_access := None;
  GxCCR_origination_time_stamp := None;
  GxCCR_maximum_wait_time := None;
  GxCCR_access_availability_change_reason := None;
  GxCCR_routing_rule_install := None;
  GxCCR_routing_rule_remove := None;
  GxCCR_henb_local_ip_address := None;
  GxCCR_ue_local_ip_address := None;
  GxCCR_udp_source_port := None;
  GxCCR_tcp_source_port := None;
  GxCCR_presence_reporting_area_information := None;
  GxCCR_logical_access_id := None;
  GxCCR_physical_access_id := None;
  GxCCR_proxy_info := None;
  GxCCR_route_record := None;
  GxCCR_tgpp_ps_data_off_status := None
|}.

Definition initial_ccr (bearer : eps_bearer) : res GxCCR :=
  let? id := bearer_identifier bearer in Ok (initial_ccr_of id).
End Fill.

(** ** Lemmas *)

(** *** Digits *)

Lemma nibble_pairs :
  forallb (fun x => forallb (fun y =>
    bool_decide (nibbles (byte_of_Z (Z.lor (Z.shiftl x 4) y)) = [byte_of_Z (48 + y); byte_of_Z (48 + x)]))
    (map Z.of_nat (seq 0 16))) (map Z.of_nat (seq 0 16)) = true.
Proof. vm_compute. reflexivity. Qed.

Lemma nibbles_pack x y : 0 <= x < 16 -> 0 <= y < 16 ->
  nibbles (byte_of_Z (Z.lor (Z.shiftl x 4) y)) = [byte_of_Z (48 + y); byte_of_Z (48 + x)].
Proof.
  intros Hx Hy. pose proof nibble_pairs as H. rewrite forallb_forall in H.
  assert (forall z, 0 <= z < 16 -> In z (map Z.of_nat (seq 0 16))) as Hin.
  { intros z Hz. apply in_map_iff. exists (Z.to_nat z). split; [lia|]. apply in_seq. lia. }
  specialize (H x (Hin x Hx)). rewrite forallb_forall in H. pose proof (H y (Hin y Hy)) as E.
  by apply bool_decide_eq_true in E.
Qed.

Lemma low_nibble_range buf i : 0 <= low_nibble buf i < 16.
Proof. unfold low_nibble. change 15 with
  (Z.ones 4). rewrite Z.land_ones by lia. apply Z.mod_pos_bound. lia. Qed.

(** A digit character, or NUL, becomes the digit of its low nibble. *)
Definition digit_of (b : byte) : byte := byte_of_Z (48 + Z.land (byte_to_Z b) 15).

(** The characters of a packed buffer are the digits of the buffer. *)
Lemma concat_nibbles (buf : list byte) n k :
  concat (map nibbles (map
    (fun i => byte_of_Z (Z.lor (Z.shiftl (low_nibble buf (i * 2 + 1)) 4) (low_nibble buf (i * 2))))
    (seq k n))) = map (fun i => digit_of (nth i buf x00)) (seq (k * 2) (n * 2)).
Proof.
  induction n as [|n IH] in k |- *; [done|]. cbn [seq map concat Nat.mul].
  rewrite nibbles_pack by apply low_nibble_range. cbn [app]. rewrite IH. cbn [Nat.mul seq map].
  do 2 f_equal. by rewrite Nat.add_1_r.
Qed.

Lemma is_digit_of c : isdigit c = true -> digit_of (byte_of_Z (char_code c)) = byte_of_Z (char_code c).
Proof.
  intros H. assert (forallb (fun n => let c := Ascii.ascii_of_nat n in
    implb (isdigit c) (Byte.eqb (digit_of (byte_of_Z (char_code c))) (byte_of_Z (char_code c))))
      (seq 0 256) = true) as F
    by (vm_compute; reflexivity).
  rewrite forallb_forall in F. specialize (F (Ascii.nat_of_ascii c)). cbv zeta in F.
  rewrite Ascii.ascii_nat_embedding, H in F. apply Byte.byte_dec_bl, F, in_seq.
  pose proof (Ascii.nat_ascii_bounded c). lia.
Qed.

Lemma nth_take {A} (l : list A) d n : (n <= length l)%nat -> map (fun i => nth i l d) (seq 0 n) = take n l.
Proof.
  intros Hn. apply list_eq. intros i. rewrite list_lookup_fmap.
  destruct (decide (i < n)%nat) as [Hi|Hi].
  - rewrite lookup_seq_lt, lookup_take_lt by done. cbn. symmetry.
    rewrite nth_lookup. destruct (lookup_lt_is_Some_2 l i ltac:(lia)) as [x E]. by rewrite E.
  - rewrite lookup_seq_ge by lia. rewrite lookup_take_ge by lia. done.
Qed.

Lemma dec_digits_short k fuel z : 0 <= z < 10 ^ Z.of_nat k -> (0 < k)%nat -> (length
  (dec_digits fuel z) <= k)%nat.
Proof.
  induction fuel as [|fuel IH] in k, z |- *; intros Hz Hk; cbn [dec_digits]; [cbn; lia|].
  destruct (Z.ltb_spec z 10); [cbn; lia|]. destruct k as [|[|k]]; [lia|change (10 ^ Z.of_nat 1) with 10 in Hz;
    lia|].
  rewrite length_app. cbn [length]. specialize (IH (S k) (z / 10)).
  rewrite Nat2Z.inj_succ, Z.pow_succ_r in Hz by lia.
  assert (0 <= z / 10 < 10 ^ Z.of_nat (S k)) by (split; [apply Z.div_pos|apply Z.div_lt_upper_bound]; lia). lia.
Qed.

Lemma fmt_u64_digits n : 0 <= n -> map digit_of (fmt_u64 n) = fmt_u64 n.
Proof.
  intros Hn. unfold fmt_u64. rewrite map_map. pose proof (dec_digits_isdigit 20 n Hn) as H.
  induction H as [|c l Hc _ IH]; [done|]. cbn [map]. by rewrite is_digit_of, IH.
Qed.

Lemma take_bin_to_str (bin : list byte) : length bin = 8%nat ->
  take 15 (bin_to_str bin BINARY_IMSI_LEN STR_IMSI_LEN) = take 15 (concat (map nibbles bin)).
Proof.
  intros H. unfold bin_to_str, BINARY_IMSI_LEN, STR_IMSI_LEN. rewrite
    (take_ge bin 8) by lia. cbn [Nat.mul Nat.add Nat.sub].
  assert (length (concat (map nibbles bin)) = 16%nat).
  { destruct bin as [|? [|? [|? [|? [|? [|? [|? [|? [|]]]]]]]]]; try discriminate. done. }
  rewrite take_app_le by (rewrite length_take; lia). by rewrite take_take.
Qed.

(** The last high nibble is not among the characters sent. *)
Lemma nibbles_of_imsi imsi :
  take 15 (concat (map nibbles (encode_imsi_to_bin imsi BINARY_IMSI_LEN))) =
  map (fun i => digit_of (nth i (fmt_u64 imsi ++ zeros (32 - length (fmt_u64 imsi))) x00)) (seq 0 15).
Proof.
  unfold encode_imsi_to_bin, BINARY_IMSI_LEN. cbv zeta.
  set (buf := fmt_u64 imsi ++ zeros _).
  assert (forall x, 0 <= x < 16 -> take 15 (concat (map nibbles
      (map (fun i => byte_of_Z (Z.lor (Z.shiftl (low_nibble buf (i * 2 + 1)) 4) (low_nibble buf (i * 2))))
        (seq 0 7) ++
       [byte_of_Z (Z.lor (Z.shiftl x 4) (low_nibble buf (7 * 2)))]))) =
    map (fun i => digit_of (nth i buf x00)) (seq 0 15)) as H.
  { intros x Hx. rewrite map_app, concat_app, concat_nibbles. cbn [map concat app].
    rewrite nibbles_pack by (done || apply low_nibble_range). cbn [Nat.mul Nat.add seq map app take]. done. }
  destruct (Nat.odd _).
  - rewrite <- (H 15) by lia. done.
  - rewrite <- (H (low_nibble buf (7 * 2 + 1))) by apply low_nibble_range. done.
Qed.

(** An IMSI is sent as its decimal digits, filled up with zeros behind them. *)
Lemma imsi_characters imsi : 0 <= imsi < 10 ^ 15 ->
  take 15 (bin_to_str (encode_imsi_to_bin imsi BINARY_IMSI_LEN) BINARY_IMSI_LEN STR_IMSI_LEN) =
  take 15 (fmt_u64 imsi ++ replicate 15 x30).
Proof.
  intros H. rewrite take_bin_to_str.
  2:{ unfold encode_imsi_to_bin, BINARY_IMSI_LEN. cbv zeta. destruct (Nat.odd _); [rewrite length_insert|];
    by rewrite length_map. }
  assert (length (fmt_u64 imsi) <= 15)%nat as Hl.
  { unfold fmt_u64. rewrite length_map. apply (dec_digits_short 15); [exact H|lia]. }
  rewrite nibbles_of_imsi, <- (map_map (fun i => nth i _ x00) digit_of), nth_take.
  2:{ rewrite length_app, length_zeros. lia. }
  rewrite <- firstn_map, map_app, fmt_u64_digits by lia.
  unfold zeros. rewrite (fmap_replicate digit_of). change (digit_of x00) with x30.
  replace (32 - length (fmt_u64 imsi))%nat with (15 + (17 - length (fmt_u64 imsi)))%nat by lia.
  rewrite replicate_add, app_assoc. rewrite take_app_le; [done|]. rewrite length_app, length_replicate. lia.
Qed.

(** *** Names of access points *)

(** A name as in DNS: each label with its length before it; and with dots. *)
Definition encoded (labels : list (list byte)) : list byte :=
  concat (map (fun l => byte_of_Z (Z.of_nat (length l)) :: l) labels).

Definition dotted (labels : list (list byte)) : list byte :=
  match labels with [] => [] | l :: ls => l ++ concat (map (cons x2e) ls) end.

Definition good_labels (labels : list (list byte)) : Prop :=
  Forall (fun l => l <> [] /\ x00 ∉ l) labels /\ (length (encoded labels) <= MAX_NB_DPN)%nat.

Lemma strnlen_all (s post : list byte) n :
  x00 ∉ s -> (length s <= n)%nat -> (post = [] \/ head post = Some x00 \/ n = length s) ->
  strnlen (s ++ post) n = Z.of_nat (length s).
Proof.
  intros Hs Hn Hpost. induction s as [|c s IH] in n, Hs, Hn, Hpost |- *.
  - cbn [app length]. destruct n as [|n], post as [|c post]; try done. cbn [strnlen].
    destruct Hpost as [?|[[= ->]|?]]; [done|done|discriminate].
  - apply not_elem_of_cons in Hs as [Hc Hs]. cbn [length] in Hn. destruct n as [|n];
    [lia|]. cbn [app strnlen length].
    destruct (Byte.eqb c x00) eqn:E; [apply Byte.byte_dec_bl in E; congruence|].
    rewrite IH; [lia|done|lia|]. destruct Hpost as [?|[?|Hl]]; [by left|by right; left|right; right; cbn in Hl;
      lia].
Qed.

Lemma mem_read_at (pre bs post : list byte) n :
  n = Z.of_nat (length pre) -> mem_read (pre ++ bs ++ post) n (Z.of_nat (length bs)) = Ok bs.
Proof.
  intros ->. unfold mem_read. rewrite bool_decide_true by (rewrite !length_app; lia).
  rewrite !Nat2Z.id, drop_app_length, take_app_length. done.
Qed.

Lemma mem_write_at (pre old bs post : list byte) n :
  n = Z.of_nat (length pre) -> length old = length bs -> mem_write (pre ++ old ++ post) n bs = Ok
    (pre ++ bs ++ post).
Proof.
  intros -> Hl. unfold mem_write. rewrite bool_decide_true by (rewrite !length_app; lia).
  rewrite !Nat2Z.id, take_app_length.
  by rewrite (app_assoc pre old post), drop_app_length' by (rewrite length_app; lia).
Qed.

Lemma zeros_cons k : (0 < k)%nat -> zeros k = [x00] ++ zeros (k - 1).
Proof. intros Hk. destruct k; [lia|]. unfold zeros. cbn. by rewrite Nat.sub_0_r. Qed.

Lemma copy_label_copies (l pre post a : list byte) k j :
  j = Z.of_nat (length a) -> length pre = S (length a) -> (length l <= k)%nat ->
  copy_label (length l) (pre ++ l ++ post) (a ++ zeros k) j = Ok (a ++ l ++ zeros (k - length l)).
Proof.
  induction l as [|c l IH] in pre, a, k, j |- *; intros -> Hpre Hk; cbn [length copy_label].
  { by rewrite Nat.sub_0_r. }
  cbn [length] in Hk. change ((c :: l) ++ post) with ([c] ++ (l ++ post)).
  pose proof (mem_read_at pre [c] (l ++ post) (Z.of_nat (length a) + 1) ltac:(lia)) as E.
  change (Z.of_nat (length [c])) with 1 in E. rewrite E. cbn [res_bind].
  rewrite (zeros_cons k) by lia. rewrite (mem_write_at a [x00] [c]) by done. cbn [res_bind].
  rewrite (app_assoc pre), (app_assoc a [c]). rewrite IH.
  - f_equal. rewrite <- app_assoc. cbn [app]. do 3 f_equal. f_equal. lia.
  - rewrite length_app. cbn. lia.
  - rewrite !length_app. cbn. lia.
  - lia.
Qed.

Definition separated (first : bool) (labels : list (list byte)) : list byte :=
  if first then dotted labels else concat (map (cons x2e) labels).

Lemma length_encoded_cons l ls : length (encoded (l :: ls)) = S (length l + length (encoded ls)).
Proof. unfold encoded. cbn [map concat app length]. by rewrite length_app. Qed.

Lemma length_separated ls : ls <> [] -> S (length (separated true ls)) = length (encoded ls).
Proof.
  destruct ls as [|l ls];
    [done|]. intros _. rewrite length_encoded_cons. cbn [separated dotted]. rewrite length_app. do 2 f_equal.
  unfold encoded. induction ls as [|l' ls IH];
    [done|]. cbn [map concat app length]. rewrite !length_app. cbn [length]. lia.
Qed.

Lemma get_apn_name_reads ls : forall fuel pre d post n label i name,
  Forall (fun l => l <> [] /\ x00 ∉ l) ls -> (length pre + length (encoded ls) <= 64)%nat ->
    (length ls < fuel)%nat ->
  length d = (length pre - 1)%nat -> n = Z.of_nat (length pre + length (encoded ls)) ->
  label = pre ++ encoded ls ++ post -> name = d ++ zeros (64 - length d) -> i = Z.of_nat (length pre) ->
  get_apn_name_loop fuel n label name i =
  Some (Ok (d ++ separated (bool_decide (pre = [])) ls ++
    zeros (64 - length d - length (separated (bool_decide (pre = [])) ls)))).
Proof.
  induction ls as [|l ls IH]; intros fuel pre d post n label i name Hls Hlen Hfuel Hd -> -> -> ->;
    destruct fuel as [|fuel]; [cbn in *; lia|..|cbn in Hfuel; lia|].
  - cbn [get_apn_name_loop]. cbn. rewrite bool_decide_false by (cbn; lia).
    assert (separated (bool_decide (pre = [])) [] = []) as -> by (by case_bool_decide). by rewrite Nat.sub_0_r.
  - apply Forall_cons in Hls as [[Hne Hnul] Hls]. rewrite length_encoded_cons in Hlen |- *. cbn
    [get_apn_name_loop].
    rewrite bool_decide_true by lia.
    change (encoded (l :: ls)) with ([byte_of_Z (Z.of_nat (length l))] ++ (l ++ encoded ls)).
    pose proof (mem_read_at pre [byte_of_Z (Z.of_nat (length l))] ((l ++ encoded ls) ++ post) _ eq_refl) as E.
    change (Z.of_nat (length [_])) with 1 in E.
    rewrite <- app_assoc, E. cbn [res_bind le_val]. rewrite byte_to_of_Z, wrap_small by lia.
    set (a := if bool_decide (pre = []) then [] else d ++ [x2e]).
    assert (length a = length pre) as Ha.
    { unfold a. case_bool_decide; [by subst|]. rewrite length_app, Hd. destruct pre; [done|]. cbn. lia. }
    match goal with |- context [res_bind ?w] =>
      match w with (if _ then mem_write _ _ _ else _) =>
        assert (w = Ok (a ++ zeros (64 - length a))) as -> end end.
    { unfold a. destruct pre as [|p pre].
      - rewrite bool_decide_false by (cbn; lia). rewrite bool_decide_true by done. by destruct d.
      - rewrite bool_decide_true by (cbn; lia). rewrite bool_decide_false by done. cbn [length] in *.
        rewrite (zeros_cons (64 - length d)) by lia. rewrite (mem_write_at d [x00] [x2e]) by (done || lia).
        rewrite length_app. cbn [length]. rewrite <- app_assoc. do 4 f_equal. lia. }
    cbn [res_bind]. replace (Z.to_nat (Z.of_nat (length l) + 256 * 0)) with (length l) by lia.
    replace (Z.of_nat (length l) + 256 * 0) with (Z.of_nat (length l)) by lia.
    rewrite <- (app_assoc l), (app_assoc pre [_]).
    rewrite copy_label_copies by (rewrite ?length_app; cbn; lia). cbn [res_bind].
    rewrite (wrap_small 8 (Z.of_nat (length pre) + Z.of_nat (length l))), wrap_small by lia.
    rewrite (IH fuel ((pre ++ [byte_of_Z (Z.of_nat (length l))]) ++ l) (a ++ l) post).
    2-9: rewrite ?length_app; cbn [length]; try done; try lia.
    2:{ cbn in Hfuel. lia. }
    2:{ by rewrite <- !app_assoc. }
    2:{ rewrite <- app_assoc. do 3 f_equal. lia. }
    rewrite bool_decide_false by (by destruct pre). f_equal. f_equal.
    rewrite <- !app_assoc. unfold a. case_bool_decide as Hp.
    + subst. cbn [separated dotted app]. destruct d;
      [|done]. cbn [app length]. rewrite <- app_assoc. do 3 f_equal.
      rewrite !length_app. lia.
    + cbn [separated map concat]. rewrite <- !app_assoc. cbn [app]. do 4 f_equal. f_equal.
      rewrite !length_app. cbn [length]. rewrite !length_app. lia.
Qed.

Lemma encoded_no_nul labels : good_labels labels -> x00 ∉ encoded labels.
Proof.
  intros [H Hlen]. unfold MAX_NB_DPN in Hlen. induction H as [|l ls [Hne Hl] _ IH]; [by apply not_elem_of_nil|].
  rewrite length_encoded_cons in Hlen. unfold encoded in *. cbn [map concat app].
  intros [E|[Hin|Hin]%elem_of_app]%elem_of_cons; [|done|apply IH; [lia|done]].
  apply (f_equal byte_to_Z) in E. rewrite byte_to_of_Z, wrap_small in E by lia.
  destruct l; [done|]. cbn [length] in E. change (byte_to_Z x00) with 0 in E. lia.
Qed.

Lemma dotted_no_nul labels : good_labels labels -> x00 ∉ dotted labels.
Proof.
  intros [H _]. destruct H as [|l ls [_ Hl] H]; [by apply not_elem_of_nil|]. cbn [dotted].
  intros [Hin|Hin]%elem_of_app; [done|]. induction H as [|l' ls [_ Hl'] _ IH]; cbn in Hin;
    [by apply not_elem_of_nil in Hin|].
  apply elem_of_cons in Hin as [?|[?|?]%elem_of_app]; [done|done|by apply IH].
Qed.

Lemma length_dotted labels : (length (dotted labels) <= length (encoded labels))%nat.
Proof. destruct labels as [|l ls];
  [done|]. rewrite <- (length_separated (l :: ls)) by done. cbn [separated]. lia. Qed.

Lemma length_labels labels : (length labels <= length (encoded labels))%nat.
Proof. induction labels as [|l ls IH]; [done|]. rewrite length_encoded_cons. cbn [length]. lia. Qed.

(** The name with dots, behind it the zeros of the array. *)
Lemma get_apn_name_dotted labels post : good_labels labels ->
  get_apn_name (encoded labels ++ x00 :: post) (zeros MAX_APN_LEN) =
  Some (Ok (dotted labels ++ zeros (64 - length (dotted labels)))).
Proof.
  intros H. pose proof (encoded_no_nul _ H) as Hn. destruct H as [Hl Hlen]. unfold MAX_NB_DPN in Hlen.
  unfold get_apn_name. rewrite strnlen_all by (done || (right; left; done)). rewrite wrap_small by lia.
  pose proof (length_labels labels).
  rewrite (get_apn_name_reads labels _ [] [] (x00 :: post)); [|done|cbn; lia|rewrite length_app; lia|done..].
  rewrite bool_decide_true by done. done.
Qed.

Lemma take_text (s post : list byte) n :
  x00 ∉ s -> (length s <= n)%nat -> (post = [] \/ head post = Some x00 \/ n = length s) ->
  take (Z.to_nat (strnlen (s ++ post) n)) (s ++ post) = s.
Proof. intros. rewrite strnlen_all, Nat2Z.id, take_app_length by done. done. Qed.

Lemma fill_called_station_dotted n labels post m : good_labels labels -> n <> 0 ->
  fill_called_station (mk_apn n (encoded labels ++ x00 :: post)) m = Some (Ok (Some (dotted labels))).
Proof.
  intros H Hn. unfold fill_called_station. cbn [apn_name_length apn_name_label]. rewrite bool_decide_true by
    done.
  rewrite get_apn_name_dotted by done. cbn [mbind option_bind res_bind]. do 3 f_equal.
  pose proof (length_dotted labels). pose proof (proj2 H) as Hlen. unfold MAX_NB_DPN, MAX_APN_LEN in *.
  apply take_text; [by apply dotted_no_nul|lia|].
  destruct (decide (length (dotted labels) = 64%nat)) as [E|E]; [by right; right|].
  right; left. by rewrite zeros_cons by lia.
Qed.

(** *** What is filled can be sent *)

Lemma size_int32 m : (length (wire_basic int32_t m) <= 4)%nat.
Proof. destruct m; cbn [wire_basic obj_bytes int32_t]; [by rewrite length_le_bytes|cbn; lia]. Qed.
Lemma size_uint32 m : (length (wire_basic uint32_t m) <= 4)%nat.
Proof. destruct m; cbn [wire_basic obj_bytes uint32_t]; [by rewrite length_le_bytes|cbn; lia]. Qed.
Lemma size_octets m : wf_octets m = true -> (length (wire_octets m) <= 259)%nat.
Proof.
  destruct m as [s|]; cbn [wire_octets]; [|cbn; lia]. intros H%bool_decide_eq_true. unfold sizeof_val in H.
  unfold wire_string. rewrite length_app, length_le_bytes. lia.
Qed.
Lemma size_struct {A} (wire : A -> list byte) n m :
  (forall x, m = Some x -> (length (wire x) <= n)%nat) -> (length (wire_struct wire m) <= n)%nat.
Proof. intros H. destruct m as [x|]; [by apply H|cbn; lia]. Qed.
Lemma size_single {A} (wire : A -> list byte) n m :
  (forall x, m = Some [x] -> (length (wire x) <= n)%nat) -> (forall l, m = Some l -> length l = 1%nat) ->
  (length (wire_list wire m) <= 4 + n)%nat.
Proof.
  intros H Hl. destruct m as [l|]; [|cbn; lia]. pose proof (Hl l eq_refl).
  destruct l as [|x [|]];
    [done| |done]. cbn [wire_list map concat]. rewrite app_nil_r, length_app, length_le_bytes.
  specialize (H x eq_refl). lia.
Qed.

Lemma wf_list_single {A} (wf : A -> bool) m x : wf_list wf m = true -> m = Some [x] -> wf x = true.
Proof. intros H ->. unfold wf_list in H. cbn in H. apply andb_true_iff in H as [_ H]. by rewrite andb_true_r in
  H. Qed.
Lemma wf_option_member {A} (wf : A -> bool) m x : wf_option wf m = true -> m = Some x -> wf x = true.
Proof. by intros H ->. Qed.

(** The sizes of the members in a goal, as facts about numbers. *)
Ltac sizes :=
  repeat match goal with
  | |- context [length (wire_basic int32_t ?m)] =>
      pose proof (size_int32 m); generalize dependent (length (wire_basic int32_t m)); intros
  | |- context [length (wire_basic uint32_t ?m)] =>
      pose proof (size_uint32 m); generalize dependent (length (wire_basic uint32_t m)); intros
  | H : wf_octets ?m = true |- context [length (wire_octets ?m)] =>
      pose proof (size_octets m H); generalize dependent (length (wire_octets m)); intros
  end.
Ltac size_of H := unfold wf_all in H; cbn [forallb id] in H;
  repeat match goal with H : (_ && _)%bool = true |- _ => apply andb_true_iff in H as [? H] end;
  unfold wire_all, wire_presence; cbn [concat]; rewrite !length_app, length_presence_bytes.

Lemma size_subscription x : wf_GxSubscriptionId x = true -> (length (wire_GxSubscriptionId x) <= 300)%nat.
Proof. intros H. unfold wf_GxSubscriptionId in H. unfold wire_GxSubscriptionId. size_of H. sizes. cbn. lia. Qed.
Lemma size_equipment x : wf_GxUserEquipmentInfo x = true -> (length (wire_GxUserEquipmentInfo x) <= 300)%nat.
Proof. intros H. unfold wf_GxUserEquipmentInfo in H. unfold wire_GxUserEquipmentInfo. size_of H. sizes. cbn.
  lia. Qed.
Lemma size_pra x : wf_GxPresenceReportingAreaInformation x = true -> (length
  (wire_GxPresenceReportingAreaInformation x) <= 600)%nat.
Proof.
  intros H. unfold wf_GxPresenceReportingAreaInformation in H. unfold wire_GxPresenceReportingAreaInformation.
  size_of H. sizes. cbn. lia.
Qed.
Lemma size_arp x : (length (wire_GxAllocationRetentionPriority x) <= 100)%nat.
Proof.
  unfold wire_GxAllocationRetentionPriority, wire_all, wire_presence; cbn [concat].
  rewrite !length_app, length_presence_bytes. sizes. cbn. lia.
Qed.
Lemma size_deqos x : (length (wire_GxDefaultEpsBearerQos x) <= 200)%nat.
Proof.
  unfold wire_GxDefaultEpsBearerQos, wire_all, wire_presence; cbn [concat].
  rewrite !length_app, length_presence_bytes. pose proof (size_struct wire_GxAllocationRetentionPriority 100
    x.(GxDefaultEpsBearerQos_allocation_retention_priority) (fun y _ => size_arp y)). sizes. cbn. lia.
Qed.
Lemma size_qos x : wf_GxQosInformation x = true ->
  x.(GxQosInformation_allocation_retention_priority) = None ->
  x.(GxQosInformation_conditional_apn_aggregate_max_bitrate) = None -> (length
    (wire_GxQosInformation x) <= 600)%nat.
Proof.
  intros H E1 E2. unfold wf_GxQosInformation in H. unfold wire_GxQosInformation. rewrite E1, E2. size_of H.
  cbn [wire_struct wire_list length]. sizes. cbn. lia.
Qed.

(** The members that [fill_ccr_request] may write in the first CCR. *)
Record members_ok (m : ccr_members) : Prop := {
  ok_session_id : wf_octets m.(m_session_id) = true;
  ok_cc_request_number : wf_basic uint32_t m.(m_cc_request_number) = true;
  ok_ip_can_type : wf_basic int32_t m.(m_ip_can_type) = true;
  ok_called_station_id : wf_octets m.(m_called_station_id) = true;
  ok_rat_type : wf_basic int32_t m.(m_rat_type) = true;
  ok_default_eps_bearer_qos : wf_option wf_GxDefaultEpsBearerQos m.(m_default_eps_bearer_qos) = true /\
    forall q a, m.(m_default_eps_bearer_qos) = Some q ->
      q.(GxDefaultEpsBearerQos_allocation_retention_priority) = Some a ->
      present a.(GxAllocationRetentionPriority_priority_level) =
      present a.(GxAllocationRetentionPriority_pre_emption_capability);
  ok_qos_information : wf_option wf_GxQosInformation m.(m_qos_information) = true /\
    forall q, m.(m_qos_information) = Some q ->
      q.(GxQosInformation_allocation_retention_priority) = None /\
      q.(GxQosInformation_conditional_apn_aggregate_max_bitrate) = None;
  ok_subscription_id : wf_list wf_GxSubscriptionId m.(m_subscription_id) = true /\
    forall l, m.(m_subscription_id) = Some l -> length l = 1%nat;
  ok_user_equipment_info : wf_option wf_GxUserEquipmentInfo m.(m_user_equipment_info) = true;
  ok_pra : wf_list wf_GxPresenceReportingAreaInformation m.(m_presence_reporting_area_information) = true /\
    forall l, m.(m_presence_reporting_area_information) = Some l -> length l = 1%nat
}.

Section First.
Context (id : OctetString) (m : ccr_members) (Hid : wf_string id = true) (Hm : members_ok m).

Lemma first_ccr_plain : plain_ccr (with_members (initial_ccr_of id) m).
Proof.
  destruct Hm as [? ? ? ? ? [? ?] [? ?] [? ?] ? [? ?]].
  split; try reflexivity; try discriminate; assumption.
Qed.

Lemma first_ccr_wf : wf_GxCCR (with_members (initial_ccr_of id) m) = true.
Proof.
  destruct Hm as [? ? ? ? ? [? ?] [? ?] [? ?] ? [? ?]]. unfold wf_GxCCR, wf_all. cbn [forallb].
  repeat (apply andb_true_iff; split; [first [reflexivity|assumption]|]). reflexivity.
Qed.

Lemma first_ccr_size : 4 + Z.of_nat (length (wire_GxCCR (with_members (initial_ccr_of id) m))) < 2 ^ 32.
Proof.
  assert (Z.of_nat (length (wire_GxCCR (with_members (initial_ccr_of id) m))) <= 5000) as H; [|lia].
  destruct Hm as [? ? ? ? ? [? ?] [Hq H1] [Hs ?] Hu [Hp ?]].
  unfold wire_GxCCR, wire_all, wire_presence. cbn [concat]. rewrite !length_app, length_presence_bytes.
  match goal with |- context [length (presence_GxCCR ?x)] =>
    let n := eval vm_compute in (length (presence_GxCCR zero_GxCCR)) in assert (length
      (presence_GxCCR x) = n) as -> by reflexivity end.
  cbn -[wire_octets wire_basic wire_struct wire_list length Nat.add Z.of_nat Z.le wire_GxSubscriptionId
    wire_GxQosInformation wire_GxDefaultEpsBearerQos wire_GxUserEquipmentInfo
      wire_GxPresenceReportingAreaInformation].
  repeat match goal with
  | |- context [wire_octets None] => change (wire_octets None) with (@nil byte)
  | |- context [wire_basic ?t None] => change (wire_basic t None) with (@nil byte)
  | |- context [wire_struct ?w None] => change (wire_struct w None) with (@nil byte)
  | |- context [wire_list ?w None] => change (wire_list w None) with (@nil byte)
  end.
  pose proof (size_single wire_GxSubscriptionId 300 (m_subscription_id m)
    (fun x E => size_subscription x (wf_list_single _ _ x Hs E)) ltac:(assumption)).
  pose proof (size_single wire_GxPresenceReportingAreaInformation 600 (m_presence_reporting_area_information m)
    (fun x E => size_pra x (wf_list_single _ _ x Hp E)) ltac:(assumption)).
  pose proof (size_struct wire_GxUserEquipmentInfo 300 (m_user_equipment_info m)
    (fun x E => size_equipment x (wf_option_member _ _ x Hu E))).
  pose proof (size_struct wire_GxDefaultEpsBearerQos 200 (m_default_eps_bearer_qos m)
    (fun x _ => size_deqos x)).
  assert (length (wire_struct wire_GxQosInformation (m_qos_information m)) <= 600)%nat.
  { apply size_struct. intros q Eq. destruct (H1 q Eq). apply size_qos;
    [|done|done]. by apply (wf_option_member _ _ q Hq). }
  assert (wf_octets (Some id) = true) by exact Hid.
  repeat match goal with H : wf_octets ?o = true |- _ => apply size_octets in H end.
  repeat match goal with |- context [wire_basic int32_t ?b] =>
    lazymatch goal with _ : (length (wire_basic int32_t b) <= _)%nat |- _ => fail | _ =>
      pose proof (size_int32 b) end end.
  pose proof (size_uint32 (m_cc_request_number m)).
  change (Nat.divmod (86 + 31) 31 0 31).1 with 3%nat. cbn [length]. lia.
Qed.
End First.

(** *** The IMSI has fifteen digits *)

Lemma dec_digits_long k fuel z : 10 ^ Z.of_nat k <= z -> (k < fuel)%nat -> (k < length (dec_digits fuel z))%nat.
Proof.
  induction k as [|k IH] in fuel, z |- *; intros Hz Hf; (destruct fuel as [|fuel]; [lia|]); cbn [dec_digits].
  - destruct (z <? 10); [cbn; lia|]. rewrite length_app. cbn. lia.
  - rewrite Nat2Z.inj_succ, Z.pow_succ_r in Hz by lia.
    pose proof (Z.pow_pos_nonneg 10 (Z.of_nat k) ltac:(lia) ltac:(lia)).
    destruct (Z.ltb_spec z 10); [lia|]. rewrite length_app. cbn [length].
    specialize (IH fuel (z / 10)). assert (10 ^ Z.of_nat k <= z / 10) by (apply Z.div_le_lower_bound; lia). lia.
Qed.

Lemma imsi_sent imsi : 10 ^ 14 <= imsi < 10 ^ 15 ->
  take 15 (bin_to_str (encode_imsi_to_bin imsi BINARY_IMSI_LEN) BINARY_IMSI_LEN STR_IMSI_LEN) = fmt_u64 imsi /\
  length (fmt_u64 imsi) = 15%nat.
Proof.
  intros H. assert (length (fmt_u64 imsi) = 15%nat) as Hl.
  { unfold fmt_u64. rewrite length_map. pose proof (dec_digits_long 14 20 imsi ltac:(apply H) ltac:(lia)).
    pose proof (dec_digits_short 15 20 imsi ltac:(split; [lia|apply H]) ltac:(lia)). lia. }
  split; [|done]. rewrite imsi_characters by lia. rewrite take_app_le by lia. apply take_ge. lia.
Qed.

(** *** The first CCR of a user *)

(** A user with an IMSI of fifteen digits attaches: the members of the context and of the
    bearer are in their types, and the access point has a proper name. *)
Record attach (context : ue_context) (ebi_index : Z) (bearer : eps_bearer) (pdn : pdn_connection)
    (labels : list (list byte)) (session sess_id : list byte) : Prop := {
  at_index : 0 < ebi_index < MAX_BEARERS * 2;
  at_bearer : context.(eps_bearers) ebi_index = Some bearer;
  at_pdn : bearer.(b_pdn) = Some pdn;
  at_apn : exists n post, n <> 0 /\ pdn.(apn_in_use) = Some (mk_apn n (encoded labels ++ x00 :: post));
  at_labels : good_labels labels;
  at_session : exists post, sess_id = session ++ x00 :: post /\ (x00 ∉ session) /\
    (length session <= MAX_LEN)%nat;
  at_imsi : 10 ^ 14 <= context.(imsi) < 10 ^ 15;
  at_ebi : 1 <= bearer.(eps_bearer_id) <= 15;
  at_qci : 0 <= bearer.(b_qos).(qci) < 256;
  at_level : 0 <= bearer.(b_qos).(arp).(priority_level) < 16;
  at_capability : 0 <= bearer.(b_qos).(arp).(preemption_capability) < 2;
  at_vulnerability : 0 <= bearer.(b_qos).(arp).(preemption_vulnerability) < 2;
  at_ambr_uplink : 0 <= pdn.(apn_ambr).(ambr_uplink) < 2 ^ 32;
  at_ambr_downlink : 0 <= pdn.(apn_ambr).(ambr_downlink) < 2 ^ 32
}.

(** What the PCRF is told about the user. *)
Definition describes (ccr : GxCCR) (context : ue_context) (bearer : eps_bearer) (labels : list (list byte))
    (session : list byte) : Prop :=
  ccr.(GxCCR_session_id) = Some session /\
  ccr.(GxCCR_cc_request_type) = Some INITIAL_REQUEST /\
  ccr.(GxCCR_cc_request_number) = Some 0 /\
  ccr.(GxCCR_subscription_id) = Some [mkGxSubscriptionId (Some END_USER_IMSI) (Some
    (fmt_u64 context.(imsi)))] /\
  ccr.(GxCCR_called_station_id) = Some (dotted labels) /\
  ccr.(GxCCR_default_eps_bearer_qos) = Some
    (mkGxDefaultEpsBearerQos (if gx_qci bearer.(b_qos).(qci) then Some bearer.(b_qos).(qci) else None)
      (Some (mkGxAllocationRetentionPriority (Some bearer.(b_qos).(arp).(priority_level))
        (Some bearer.(b_qos).(arp).(preemption_capability))
          (Some bearer.(b_qos).(arp).(preemption_vulnerability))))).

Lemma bearer_identifier_short bearer : 1 <= bearer.(eps_bearer_id) <= 15 ->
  exists id, bearer_identifier bearer = Ok id /\ wf_string id = true.
Proof.
  intros H. unfold bearer_identifier, log10_len. rewrite bool_decide_false by lia. cbn [res_bind].
  eexists. split; [done|]. unfold wf_string. apply bool_decide_eq_true.
  assert (forall n l, length (strncpy n l) = n) as ->.
  { induction n as [|n IH]; intros l; [done|]. destruct l as [|c l]; cbn [strncpy]; [apply length_zeros|].
    destruct (Byte.eqb c x00); [apply length_zeros|]. cbn. by rewrite IH. }
  unfold sizeof_val. repeat case_bool_decide; lia.
Qed.

Section Attach.
Context {RT : RatTypes} (context : ue_context) (ebi_index : Z) (bearer : eps_bearer) (pdn : pdn_connection)
  (labels : list (list byte)) (session sess_id : list byte).
Context (HA : attach context ebi_index bearer pdn labels session sess_id).

Lemma fill_rat_type_range csr : in_range int32_t (fill_rat_type_ie 0 csr) = true.
Proof. unfold fill_rat_type_ie. repeat case_bool_decide; reflexivity. Qed.

(** The members as the code computes them. *)
Definition first_members (id : OctetString) : ccr_members :=
  mk_ccr_members (Some session) (Some 0) (Some TGPP_GPRS) (Some (dotted labels))
    (if bool_decide (context.(rat_type_len) <> 0) then Some (fill_rat_type_ie 0 context.(rat_type)) else None)
    (Some (fill_default_eps_bearer_qos zero_GxDefaultEpsBearerQos bearer))
    (Some (mkGxQosInformation None (Some (u32 bearer.(b_qos).(ul_mbr))) (Some (u32 bearer.(b_qos).(dl_mbr)))
       None None (Some (u32 bearer.(b_qos).(ul_gbr))) (Some (u32 bearer.(b_qos).(dl_gbr))) None None (Some id)
       None (Some pdn.(apn_ambr).(ambr_uplink)) (Some pdn.(apn_ambr).(ambr_downlink)) None None None))
    (Some [mkGxSubscriptionId (Some END_USER_IMSI) (Some (fmt_u64 context.(imsi)))])
    (if bool_decide (context.(mei) <> 0) then Some (fill_user_equipment_info context.(mei)) else None)
    (if bool_decide (context.(pra_flag) <> 0) &&
        Z.testbit context.(event_trigger) CHANGE_OF_UE_PRESENCE_IN_PRESENCE_REPORTING_AREA_REPORT
     then Some (fill_presence_rprtng_area_info true context.(pre_rptng_area_info)) else None).

Lemma short_octets (s : OctetString) n : (length s <= n)%nat -> (n <= 255)%nat -> wf_octets (Some s) = true.
Proof. intros. apply bool_decide_eq_true. unfold sizeof_val. lia. Qed.
Lemma in_u32 z : 0 <= z < 2 ^ 32 -> wf_basic uint32_t (Some z) = true.
Proof. intros. apply bool_decide_eq_true. done. Qed.
Lemma in_i32 z : 0 <= z < 2 ^ 31 -> wf_basic int32_t (Some z) = true.
Proof. intros. apply bool_decide_eq_true. lia. Qed.

Lemma deqos_ok : wf_GxDefaultEpsBearerQos
  (fill_default_eps_bearer_qos zero_GxDefaultEpsBearerQos bearer) = true.
Proof.
  destruct HA. unfold wf_GxDefaultEpsBearerQos, wf_all. cbn [forallb id]. rewrite !andb_true_iff. repeat split.
  - cbn. destruct (gx_qci _); [|done]. apply in_i32. lia.
  - unfold fill_default_eps_bearer_qos, wf_option, GxDefaultEpsBearerQos_allocation_retention_priority,
      wf_GxAllocationRetentionPriority, wf_all. cbn [forallb id]. rewrite !andb_true_iff.
    repeat split; first [apply in_u32|apply in_i32]; cbn; lia.
Qed.

Lemma first_members_ok id : wf_string id = true -> members_ok (first_members id).
Proof.
  intros Hid. pose proof deqos_ok. destruct HA as [_ _ _ _ Hl (post' & _ & _ & Hslen) Himsi _ _ _ _ _ Hu Hd].
  destruct (imsi_sent _ Himsi) as [_ Hlen]. pose proof (length_dotted labels). pose proof (proj2 Hl) as Hll.
  unfold MAX_NB_DPN, MAX_LEN in *.
  split; cbn [first_members m_session_id m_cc_request_number m_ip_can_type m_called_station_id m_rat_type
    m_default_eps_bearer_qos m_qos_information m_subscription_id m_user_equipment_info
    m_presence_reporting_area_information]; try reflexivity.
  - by apply (short_octets _ 128); [|lia].
  - apply (short_octets _ 64); lia.
  - case_bool_decide; [apply fill_rat_type_range|done].
  - split; [done|]. intros q a [= <-] [= <-]. done.
  - split; [|intros q [= <-]; done]. unfold wf_option, wf_GxQosInformation, wf_all. cbn [forallb Datatypes.id].
    rewrite !andb_true_iff. repeat split; try reflexivity; try (apply in_u32; cbn; first [apply wrap_range;
      lia|lia]).
    exact Hid.
  - split; [|by intros l [= <-]]. unfold wf_list, wf_option, wf_GxSubscriptionId, wf_all.
    cbn [forallb Datatypes.id]. rewrite !andb_true_iff. repeat split. apply (short_octets _ 15);
      [|lia]. exact (eq_ind_r (fun n => (n <= 15)%nat) (le_n 15) Hlen).
  - case_bool_decide; [|done]. unfold wf_option, wf_GxUserEquipmentInfo, wf_all. cbn [forallb Datatypes.id].
    rewrite !andb_true_iff. repeat split.
  - destruct (_ && _)%bool; [|done]. split; [|by intros l [= <-]]. unfold wf_list, wf_option,
      fill_presence_rprtng_area_info, wf_GxPresenceReportingAreaInformation, wf_all. cbn [forallb Datatypes.id].
    rewrite !andb_true_iff. repeat split.
    apply in_u32. unfold PRA_IN_AREA, PRA_OUT_AREA, PRA_INACTIVE. repeat case_bool_decide; lia.
Qed.

Lemma attach_fills number : exists id flag,
  initial_ccr bearer = Ok (initial_ccr_of id) /\ wf_string id = true /\
  fill_ccr_request true true (initial_ccr_of id) context ebi_index (Some sess_id) 0 number =
    Some (Ok (0, with_members (initial_ccr_of id) (first_members id), number, flag)).
Proof.
  destruct HA as [Hi Hb Hp (n & post & Hn & Ha) Hl (post' & Hs & Hnul & Hslen) Himsi Hebi _ _ _ _ _ _].
  destruct (bearer_identifier_short bearer Hebi) as (id & Hid & Hwf).
  destruct (imsi_sent _ Himsi) as [Hdigits Hlen].
  exists id. eexists. unfold initial_ccr. rewrite Hid. cbn [res_bind]. split; [done|]. split; [done|].
  unfold fill_ccr_request, GET_PDN. rewrite !bool_decide_true by lia.
  rewrite Hb. cbn [mbind option_bind]. rewrite Hp, Ha. cbn [initial_ccr_of GxCCR_cc_request_type].
  unfold fill_request_type at 1. rewrite bool_decide_true by done. cbn [m_called_station_id].
  rewrite fill_called_station_dotted by done. cbn [mbind option_bind res_bind].
  unfold fill_members, fill_qos_info, fill_subscription_id. rewrite Hid.
  rewrite (bool_decide_true (0 <> 1)) by done. rewrite (bool_decide_true (_ \/ _)) by lia.
  rewrite (bool_decide_true (imsi context <> 0)) by lia. cbn [res_bind fst snd].
  change (STR_IMSI_LEN - 1)%nat with 15%nat. rewrite Hdigits, Hs, take_text by (done || (right; left; done)).
  reflexivity.
Qed.

Lemma attach_describes id :
  describes (with_members (initial_ccr_of id) (first_members id)) context bearer labels session.
Proof. repeat split. Qed.
End Attach.

(** C2. A user with an IMSI of fifteen digits attaches: the control plane fills the first
    Credit-Control-Request, packs it and sends it to the Diameter process, which unpacks it
    and sends a message; a PCRF that reads the message by the dictionary finds the digits
    of the IMSI, the access point name with dots, the session, the request number 0
    and the QoS of the default bearer. *)
Theorem attach_reaches_pcrf {RT : RatTypes} {M : Malloc} {HM : MallocOk M} {G : GxDict} {HG : GxDictOk G}
    {FD : FreeDiameter} {origin_host origin_realm} {HFD : FreeDiameterOk G FD origin_host origin_realm} context
      ebi_index bearer pdn labels session sess_id number :
  attach context ebi_index bearer pdn labels session sess_id ->
  exists initial ccr flag buf msg,
    initial_ccr bearer = Ok initial /\
    fill_ccr_request true true initial context ebi_index (Some sess_id) 0 number = Some (Ok
      (0, ccr, number, flag)) /\
    gx_ccr_pack ccr (zeros (Z.to_nat (gx_ccr_calc_length ccr))) (gx_ccr_calc_length ccr) = Ok (true, buf) /\
    gx_send_ccr buf = Ok (CcrSent msg) /\
    exists received, gx_ccr_parse msg = Ok received /\ describes received context bearer labels session.
Proof.
  intros HA. destruct (attach_fills _ _ _ _ _ _ _ HA number) as (id & flag & Hi & Hid & Hf).
  pose proof (first_members_ok _ _ _ _ _ _ _ HA id Hid) as Hm.
  destruct (ccr_sent_and_read (with_members (initial_ccr_of id)
    (first_members context bearer pdn labels session id)))
    as (buf & msg & Hb & Hs & Hp).
  - by apply first_ccr_plain.
  - by apply first_ccr_wf.
  - by apply first_ccr_size.
  - eexists _, _, flag, buf, msg. do 4 (split; [eassumption|]). eexists. split; [exact Hp|].
    destruct (attach_describes context bearer pdn labels session id) as (? & ? & ? & ? & ? & ?). done.
Qed.

(** ** A user *)

#[local] Existing Instances malloc_any malloc_any_ok sample_fd sample_fd_ok.

#[local] Instance sample_rat_types : RatTypes := {|
  EUTRAN_ := 6; UTRAN := 1; GERAN := 2; WLAN := 3; VIRTUAL := 7; GAN := 4; HSPA_EVOLUTION := 5
|}.

Definition sample_labels : list (list byte) := [[x69; x6d; x73]; [x6c; x61; x62]].
Definition sample_sess_id : list byte := [x63; x70; x31] ++ zeros 5.
Definition sample_pdn : pdn_connection :=
  mk_pdn_connection (Some (mk_apn 8 (encoded sample_labels ++ zeros 8))) (mk_ambr_ie 50000 100000).
Definition sample_bearer : eps_bearer := mk_eps_bearer 5 2 1
  (mk_bearer_qos_ie 9 0 0 0 0 (mk_ar_priority_ie 8 1 0)) (Some sample_pdn).
Definition sample_context : ue_context := mk_ue_context 404112345678901 0 0 1 6 0 0
  (mk_presence_reporting_area 0 0 0) (fun i => if bool_decide (i = 5) then Some sample_bearer else None).

Lemma sample_attach : attach sample_context 5 sample_bearer sample_pdn sample_labels [x63; x70;
  x31] sample_sess_id.
Proof.
  split; try (cbn; lia); try reflexivity; try done.
  - exists 8, (zeros 7). split; [lia|reflexivity].
  - split; [by apply (bool_decide_unpack _); vm_compute|by apply Nat.leb_le; vm_compute].
  - exists (zeros 4). split; [reflexivity|]. split; [by apply (bool_decide_unpack _);
    vm_compute|by apply Nat.leb_le; vm_compute].
Qed.

Example attach_reaches_pcrf_witness : exists initial ccr flag buf msg received,
  initial_ccr sample_bearer = Ok initial /\
  fill_ccr_request true true initial sample_context 5 (Some sample_sess_id) 0 3 = Some (Ok (0, ccr, 3, flag)) /\
  gx_ccr_pack ccr (zeros (Z.to_nat (gx_ccr_calc_length ccr))) (gx_ccr_calc_length ccr) = Ok (true, buf) /\
  gx_send_ccr buf = Ok (CcrSent msg) /\ gx_ccr_parse msg = Ok received /\
  received.(GxCCR_called_station_id) = Some [x69; x6d; x73; x2e; x6c; x61; x62] /\
  received.(GxCCR_subscription_id) = Some [mkGxSubscriptionId (Some 1)
    (Some [x34; x30; x34; x31; x31; x32; x33; x34; x35; x36; x37; x38; x39; x30; x31])].
Proof.
  destruct (attach_reaches_pcrf sample_context 5 sample_bearer sample_pdn sample_labels [x63; x70; x31]
    sample_sess_id 3 sample_attach) as
      (initial & ccr & flag & buf & msg & Hi & Hf & Hb & Hm & received & Hr & H).
  exists initial, ccr, flag, buf, msg, received. destruct H as (_ & _ & _ & Hs & Hc & _).
  do 5 (split; [assumption|]). split; [exact Hc|exact Hs].
Defined.
