(* ===== verification/GxFree.v ===== *)
(** * Freeing the Gx messages (cp/gx_app/src/gx_parsers.c and fd.h)

    The parser allocates an array for every list of a message that has elements.
    Each [free*] function is modelled with its macro calls in their order: the
    structure after it, and how many arrays it released.  [blocks_<structure>]
    counts, from the shape of the structures alone, the arrays of a value. *)
From S2P Require Import Prelude GxMacros GxStruct.

(** ** The macros: the member after, and the arrays released *)

Definition FD_CALLFREE_STRUCT {A} (free : A -> A * Z) (a : option A) : option A * Z :=
  match a with None => (None, 0) | Some d => (Some (fst (free d)), snd (free d)) end.

Fixpoint sum (ns : list Z) : Z := match ns with [] => 0 | n :: ns => n + sum ns end.

Definition FD_CALLFREE_LIST {A} (free : A -> A * Z) (a : option (list A)) : option (list A) * Z :=
  match a with
  | None => (None, 0)
  | Some l => (Some (map (fun d => fst (free d)) l), sum (map (fun d => snd (free d)) l))
  end.

(** A list without elements has no array: [FD_ALLOC_LIST] allocates none. *)
Definition FD_FREE_LIST {A} (a : option (list A)) : option (list A) * Z :=
  match a with None => (None, 0) | Some [] => (Some [], 0) | Some (_ :: _) => (Some [], 1) end.

(** ** The functions *)

Definition freeGxRoutingRuleRemove (data : GxRoutingRuleRemove) : GxRoutingRuleRemove * Z :=
  let routing_rule_identifier := FD_FREE_LIST data.(GxRoutingRuleRemove_routing_rule_identifier) in
  (mkGxRoutingRuleRemove
    (fst routing_rule_identifier),
   snd routing_rule_identifier).

Definition freeGxRoutingRuleDefinition (data : GxRoutingRuleDefinition) : GxRoutingRuleDefinition * Z :=
  let routing_filter := FD_FREE_LIST data.(GxRoutingRuleDefinition_routing_filter) in
  (mkGxRoutingRuleDefinition
    data.(GxRoutingRuleDefinition_routing_rule_identifier) (fst routing_filter)
    data.(GxRoutingRuleDefinition_precedence) data.(GxRoutingRuleDefinition_routing_ip_address)
    data.(GxRoutingRuleDefinition_ip_can_type),
   snd routing_filter).

Definition freeGxRoutingRuleInstall (data : GxRoutingRuleInstall) : GxRoutingRuleInstall * Z :=
  let routing_rule_definition := FD_CALLFREE_LIST freeGxRoutingRuleDefinition data.(GxRoutingRuleInstall_routing_rule_definition) in
  let routing_rule_definition' := FD_FREE_LIST (fst routing_rule_definition) in
  (mkGxRoutingRuleInstall
    (fst routing_rule_definition'),
   snd routing_rule_definition + snd routing_rule_definition').

Definition freeGxUsedServiceUnit (data : GxUsedServiceUnit) : GxUsedServiceUnit * Z :=
  let event_charging_timestamp := FD_FREE_LIST data.(GxUsedServiceUnit_event_charging_timestamp) in
  (mkGxUsedServiceUnit
    data.(GxUsedServiceUnit_reporting_reason) data.(GxUsedServiceUnit_tariff_change_usage)
    data.(GxUsedServiceUnit_cc_time) data.(GxUsedServiceUnit_cc_money)
    data.(GxUsedServiceUnit_cc_total_octets) data.(GxUsedServiceUnit_cc_input_octets)
    data.(GxUsedServiceUnit_cc_output_octets) data.(GxUsedServiceUnit_cc_service_specific_units)
    (fst event_charging_timestamp),
   snd event_charging_timestamp).

Definition freeGxUsageMonitoringInformation (data : GxUsageMonitoringInformation) : GxUsageMonitoringInformation * Z :=
  let used_service_unit := FD_CALLFREE_LIST freeGxUsedServiceUnit data.(GxUsageMonitoringInformation_used_service_unit) in
  let granted_service_unit := FD_FREE_LIST data.(GxUsageMonitoringInformation_granted_service_unit) in
  let used_service_unit' := FD_FREE_LIST (fst used_service_unit) in
  (mkGxUsageMonitoringInformation
    data.(GxUsageMonitoringInformation_monitoring_key) (fst granted_service_unit)
    (fst used_service_unit') data.(GxUsageMonitoringInformation_quota_consumption_time)
    data.(GxUsageMonitoringInformation_usage_monitoring_level)
    data.(GxUsageMonitoringInformation_usage_monitoring_report)
    data.(GxUsageMonitoringInformation_usage_monitoring_support),
   snd used_service_unit + snd granted_service_unit + snd used_service_unit').

Definition freeGxTunnelInformation (data : GxTunnelInformation) : GxTunnelInformation * Z :=
  let tunnel_header_filter := FD_FREE_LIST data.(GxTunnelInformation_tunnel_header_filter) in
  (mkGxTunnelInformation
    data.(GxTunnelInformation_tunnel_header_length) (fst tunnel_header_filter),
   snd tunnel_header_filter).

Definition freeGxCoaInformation (data : GxCoaInformation) : GxCoaInformation * Z :=
  let tunnel_information := FD_CALLFREE_STRUCT freeGxTunnelInformation data.(GxCoaInformation_tunnel_information) in
  (mkGxCoaInformation
    (fst tunnel_information) data.(GxCoaInformation_coa_ip_address),
   snd tunnel_information).

Definition freeGxAccessNetworkChargingIdentifierGx (data : GxAccessNetworkChargingIdentifierGx) : GxAccessNetworkChargingIdentifierGx * Z :=
  let charging_rule_base_name := FD_FREE_LIST data.(GxAccessNetworkChargingIdentifierGx_charging_rule_base_name) in
  let charging_rule_name := FD_FREE_LIST data.(GxAccessNetworkChargingIdentifierGx_charging_rule_name) in
  (mkGxAccessNetworkChargingIdentifierGx
    data.(GxAccessNetworkChargingIdentifierGx_access_network_charging_identifier_value)
    (fst charging_rule_base_name) (fst charging_rule_name)
    data.(GxAccessNetworkChargingIdentifierGx_ip_can_session_charging_scope),
   snd charging_rule_base_name + snd charging_rule_name).

Definition freeGxAreaScope (data : GxAreaScope) : GxAreaScope * Z :=
  let cell_global_identity := FD_FREE_LIST data.(GxAreaScope_cell_global_identity) in
  let e_utran_cell_global_identity := FD_FREE_LIST data.(GxAreaScope_e_utran_cell_global_identity) in
  let routing_area_identity := FD_FREE_LIST data.(GxAreaScope_routing_area_identity) in
  let location_area_identity := FD_FREE_LIST data.(GxAreaScope_location_area_identity) in
  let tracking_area_identity := FD_FREE_LIST data.(GxAreaScope_tracking_area_identity) in
  (mkGxAreaScope
    (fst cell_global_identity) (fst e_utran_cell_global_identity) (fst routing_area_identity)
    (fst location_area_identity) (fst tracking_area_identity),
   snd cell_global_identity + snd e_utran_cell_global_identity + snd routing_area_identity +
   snd location_area_identity + snd tracking_area_identity).

Definition freeGxMdtConfiguration (data : GxMdtConfiguration) : GxMdtConfiguration * Z :=
  let area_scope := FD_CALLFREE_STRUCT freeGxAreaScope data.(GxMdtConfiguration_area_scope) in
  let mdt_allowed_plmn_id := FD_FREE_LIST data.(GxMdtConfiguration_mdt_allowed_plmn_id) in
  let mbsfn_area := FD_FREE_LIST data.(GxMdtConfiguration_mbsfn_area) in
  (mkGxMdtConfiguration
    data.(GxMdtConfiguration_job_type) (fst area_scope)
    data.(GxMdtConfiguration_list_of_measurements) data.(GxMdtConfiguration_reporting_trigger)
    data.(GxMdtConfiguration_report_interval) data.(GxMdtConfiguration_report_amount)
    data.(GxMdtConfiguration_event_threshold_rsrp)
    data.(GxMdtConfiguration_event_threshold_rsrq) data.(GxMdtConfiguration_logging_interval)
    data.(GxMdtConfiguration_logging_duration) data.(GxMdtConfiguration_measurement_period_lte)
    data.(GxMdtConfiguration_measurement_period_umts)
    data.(GxMdtConfiguration_collection_period_rrm_lte)
    data.(GxMdtConfiguration_collection_period_rrm_umts)
    data.(GxMdtConfiguration_positioning_method) data.(GxMdtConfiguration_measurement_quantity)
    data.(GxMdtConfiguration_event_threshold_event_1f)
    data.(GxMdtConfiguration_event_threshold_event_1i) (fst mdt_allowed_plmn_id)
    (fst mbsfn_area),
   snd area_scope + snd mdt_allowed_plmn_id + snd mbsfn_area).

Definition freeGxTraceData (data : GxTraceData) : GxTraceData * Z :=
  let mdt_configuration := FD_CALLFREE_STRUCT freeGxMdtConfiguration data.(GxTraceData_mdt_configuration) in
  (mkGxTraceData
    data.(GxTraceData_trace_reference) data.(GxTraceData_trace_depth)
    data.(GxTraceData_trace_ne_type_list) data.(GxTraceData_trace_interface_list)
    data.(GxTraceData_trace_event_list) data.(GxTraceData_omc_id)
    data.(GxTraceData_trace_collection_entity) (fst mdt_configuration),
   snd mdt_configuration).

Definition freeGxEventReportIndication (data : GxEventReportIndication) : GxEventReportIndication * Z :=
  let trace_data := FD_CALLFREE_STRUCT freeGxTraceData data.(GxEventReportIndication_trace_data) in
  let event_trigger := FD_FREE_LIST data.(GxEventReportIndication_event_trigger) in
  let an_gw_address := FD_FREE_LIST data.(GxEventReportIndication_an_gw_address) in
  (mkGxEventReportIndication
    data.(GxEventReportIndication_an_trusted) (fst event_trigger)
    data.(GxEventReportIndication_user_csg_information)
    data.(GxEventReportIndication_ip_can_type) (fst an_gw_address)
    data.(GxEventReportIndication_tgpp_sgsn_address)
    data.(GxEventReportIndication_tgpp_sgsn_ipv6_address)
    data.(GxEventReportIndication_tgpp_sgsn_mcc_mnc)
    data.(GxEventReportIndication_framed_ip_address) data.(GxEventReportIndication_rat_type)
    data.(GxEventReportIndication_rai) data.(GxEventReportIndication_tgpp_user_location_info)
    (fst trace_data) data.(GxEventReportIndication_trace_reference)
    data.(GxEventReportIndication_tgpp2_bsid) data.(GxEventReportIndication_tgpp_ms_timezone)
    data.(GxEventReportIndication_routing_ip_address)
    data.(GxEventReportIndication_ue_local_ip_address)
    data.(GxEventReportIndication_henb_local_ip_address)
    data.(GxEventReportIndication_udp_source_port)
    data.(GxEventReportIndication_presence_reporting_area_information),
   snd trace_data + snd event_trigger + snd an_gw_address).

Definition freeGxApplicationDetectionInformation (data : GxApplicationDetectionInformation) : GxApplicationDetectionInformation * Z :=
  let flow_information := FD_FREE_LIST data.(GxApplicationDetectionInformation_flow_information) in
  (mkGxApplicationDetectionInformation
    data.(GxApplicationDetectionInformation_tdf_application_identifier)
    data.(GxApplicationDetectionInformation_tdf_application_instance_identifier)
    (fst flow_information),
   snd flow_information).

Definition freeGxFinalUnitIndication (data : GxFinalUnitIndication) : GxFinalUnitIndication * Z :=
  let restriction_filter_rule := FD_FREE_LIST data.(GxFinalUnitIndication_restriction_filter_rule) in
  let filter_id := FD_FREE_LIST data.(GxFinalUnitIndication_filter_id) in
  (mkGxFinalUnitIndication
    data.(GxFinalUnitIndication_final_unit_action) (fst restriction_filter_rule) (fst filter_id)
    data.(GxFinalUnitIndication_redirect_server),
   snd restriction_filter_rule + snd filter_id).

Definition freeGxChargingRuleReport (data : GxChargingRuleReport) : GxChargingRuleReport * Z :=
  let final_unit_indication := FD_CALLFREE_STRUCT freeGxFinalUnitIndication data.(GxChargingRuleReport_final_unit_indication) in
  let charging_rule_name := FD_FREE_LIST data.(GxChargingRuleReport_charging_rule_name) in
  let charging_rule_base_name := FD_FREE_LIST data.(GxChargingRuleReport_charging_rule_base_name) in
  let ran_nas_release_cause := FD_FREE_LIST data.(GxChargingRuleReport_ran_nas_release_cause) in
  let content_version := FD_FREE_LIST data.(GxChargingRuleReport_content_version) in
  (mkGxChargingRuleReport
    (fst charging_rule_name) (fst charging_rule_base_name)
    data.(GxChargingRuleReport_bearer_identifier) data.(GxChargingRuleReport_pcc_rule_status)
    data.(GxChargingRuleReport_rule_failure_code) (fst final_unit_indication)
    (fst ran_nas_release_cause) (fst content_version),
   snd final_unit_indication + snd charging_rule_name + snd charging_rule_base_name +
   snd ran_nas_release_cause + snd content_version).

Definition freeGxConditionalApnAggregateMaxBitrate (data : GxConditionalApnAggregateMaxBitrate) : GxConditionalApnAggregateMaxBitrate * Z :=
  let ip_can_type := FD_FREE_LIST data.(GxConditionalApnAggregateMaxBitrate_ip_can_type) in
  let rat_type := FD_FREE_LIST data.(GxConditionalApnAggregateMaxBitrate_rat_type) in
  (mkGxConditionalApnAggregateMaxBitrate
    data.(GxConditionalApnAggregateMaxBitrate_apn_aggregate_max_bitrate_ul)
    data.(GxConditionalApnAggregateMaxBitrate_apn_aggregate_max_bitrate_dl)
    data.(GxConditionalApnAggregateMaxBitrate_extended_apn_ambr_ul)
    data.(GxConditionalApnAggregateMaxBitrate_extended_apn_ambr_dl) (fst ip_can_type)
    (fst rat_type),
   snd ip_can_type + snd rat_type).

Definition freeGxQosInformation (data : GxQosInformation) : GxQosInformation * Z :=
  let conditional_apn_aggregate_max_bitrate := FD_CALLFREE_LIST freeGxConditionalApnAggregateMaxBitrate data.(GxQosInformation_conditional_apn_aggregate_max_bitrate) in
  let conditional_apn_aggregate_max_bitrate' := FD_FREE_LIST (fst conditional_apn_aggregate_max_bitrate) in
  (mkGxQosInformation
    data.(GxQosInformation_qos_class_identifier)
    data.(GxQosInformation_max_requested_bandwidth_ul)
    data.(GxQosInformation_max_requested_bandwidth_dl)
    data.(GxQosInformation_extended_max_requested_bw_ul)
    data.(GxQosInformation_extended_max_requested_bw_dl)
    data.(GxQosInformation_guaranteed_bitrate_ul) data.(GxQosInformation_guaranteed_bitrate_dl)
    data.(GxQosInformation_extended_gbr_ul) data.(GxQosInformation_extended_gbr_dl)
    data.(GxQosInformation_bearer_identifier)
    data.(GxQosInformation_allocation_retention_priority)
    data.(GxQosInformation_apn_aggregate_max_bitrate_ul)
    data.(GxQosInformation_apn_aggregate_max_bitrate_dl)
    data.(GxQosInformation_extended_apn_ambr_ul) data.(GxQosInformation_extended_apn_ambr_dl)
    (fst conditional_apn_aggregate_max_bitrate'),
   snd conditional_apn_aggregate_max_bitrate + snd conditional_apn_aggregate_max_bitrate').

Definition gx_ccr_free (data : GxCCR) : GxCCR * Z :=
  let qos_information := FD_CALLFREE_STRUCT freeGxQosInformation data.(GxCCR_qos_information) in
  let charging_rule_report := FD_CALLFREE_LIST freeGxChargingRuleReport data.(GxCCR_charging_rule_report) in
  let application_detection_information := FD_CALLFREE_LIST freeGxApplicationDetectionInformation data.(GxCCR_application_detection_information) in
  let event_report_indication := FD_CALLFREE_STRUCT freeGxEventReportIndication data.(GxCCR_event_report_indication) in
  let access_network_charging_identifier_gx := FD_CALLFREE_LIST freeGxAccessNetworkChargingIdentifierGx data.(GxCCR_access_network_charging_identifier_gx) in
  let coa_information := FD_CALLFREE_LIST freeGxCoaInformation data.(GxCCR_coa_information) in
  let usage_monitoring_information := FD_CALLFREE_LIST freeGxUsageMonitoringInformation data.(GxCCR_usage_monitoring_information) in
  let routing_rule_install := FD_CALLFREE_STRUCT freeGxRoutingRuleInstall data.(GxCCR_routing_rule_install) in
  let routing_rule_remove := FD_CALLFREE_STRUCT freeGxRoutingRuleRemove data.(GxCCR_routing_rule_remove) in
  let subscription_id := FD_FREE_LIST data.(GxCCR_subscription_id) in
  let supported_features := FD_FREE_LIST data.(GxCCR_supported_features) in
  let packet_filter_information := FD_FREE_LIST data.(GxCCR_packet_filter_information) in
  let an_gw_address := FD_FREE_LIST data.(GxCCR_an_gw_address) in
  let ran_nas_release_cause := FD_FREE_LIST data.(GxCCR_ran_nas_release_cause) in
  let tft_packet_filter_information := FD_FREE_LIST data.(GxCCR_tft_packet_filter_information) in
  let charging_rule_report' := FD_FREE_LIST (fst charging_rule_report) in
  let application_detection_information' := FD_FREE_LIST (fst application_detection_information) in
  let event_trigger := FD_FREE_LIST data.(GxCCR_event_trigger) in
  let access_network_charging_identifier_gx' := FD_FREE_LIST (fst access_network_charging_identifier_gx) in
  let coa_information' := FD_FREE_LIST (fst coa_information) in
  let usage_monitoring_information' := FD_FREE_LIST (fst usage_monitoring_information) in
  let presence_reporting_area_information := FD_FREE_LIST data.(GxCCR_presence_reporting_area_information) in
  let proxy_info := FD_FREE_LIST data.(GxCCR_proxy_info) in
  let route_record := FD_FREE_LIST data.(GxCCR_route_record) in
  (mkGxCCR
    data.(GxCCR_session_id) data.(GxCCR_drmp) data.(GxCCR_auth_application_id)
    data.(GxCCR_origin_host) data.(GxCCR_origin_realm) data.(GxCCR_destination_realm)
    data.(GxCCR_service_context_id) data.(GxCCR_cc_request_type) data.(GxCCR_cc_request_number)
    data.(GxCCR_credit_management_status) data.(GxCCR_destination_host)
    data.(GxCCR_origin_state_id) (fst subscription_id) data.(GxCCR_oc_supported_features)
    (fst supported_features) data.(GxCCR_tdf_information) data.(GxCCR_network_request_support)
    (fst packet_filter_information) data.(GxCCR_packet_filter_operation)
    data.(GxCCR_bearer_identifier) data.(GxCCR_bearer_operation)
    data.(GxCCR_dynamic_address_flag) data.(GxCCR_dynamic_address_flag_extension)
    data.(GxCCR_pdn_connection_charging_id) data.(GxCCR_framed_ip_address)
    data.(GxCCR_framed_ipv6_prefix) data.(GxCCR_ip_can_type) data.(GxCCR_tgpp_rat_type)
    data.(GxCCR_an_trusted) data.(GxCCR_rat_type) data.(GxCCR_termination_cause)
    data.(GxCCR_user_equipment_info) (fst qos_information) data.(GxCCR_qos_negotiation)
    data.(GxCCR_qos_upgrade) data.(GxCCR_default_eps_bearer_qos)
    data.(GxCCR_default_qos_information) (fst an_gw_address) data.(GxCCR_an_gw_status)
    data.(GxCCR_tgpp_sgsn_mcc_mnc) data.(GxCCR_tgpp_sgsn_address)
    data.(GxCCR_tgpp_sgsn_ipv6_address) data.(GxCCR_tgpp_ggsn_address)
    data.(GxCCR_tgpp_ggsn_ipv6_address) data.(GxCCR_tgpp_selection_mode) data.(GxCCR_rai)
    data.(GxCCR_tgpp_user_location_info) data.(GxCCR_fixed_user_location_info)
    data.(GxCCR_user_location_info_time) data.(GxCCR_user_csg_information)
    data.(GxCCR_twan_identifier) data.(GxCCR_tgpp_ms_timezone) (fst ran_nas_release_cause)
    data.(GxCCR_tgpp_charging_characteristics) data.(GxCCR_called_station_id)
    data.(GxCCR_pdn_connection_id) data.(GxCCR_bearer_usage) data.(GxCCR_online)
    data.(GxCCR_offline) (fst tft_packet_filter_information) (fst charging_rule_report')
    (fst application_detection_information') (fst event_trigger) (fst event_report_indication)
    data.(GxCCR_access_network_charging_address) (fst access_network_charging_identifier_gx')
    (fst coa_information') (fst usage_monitoring_information') data.(GxCCR_nbifom_support)
    data.(GxCCR_nbifom_mode) data.(GxCCR_default_access) data.(GxCCR_origination_time_stamp)
    data.(GxCCR_maximum_wait_time) data.(GxCCR_access_availability_change_reason)
    (fst routing_rule_install) (fst routing_rule_remove) data.(GxCCR_henb_local_ip_address)
    data.(GxCCR_ue_local_ip_address) data.(GxCCR_udp_source_port) data.(GxCCR_tcp_source_port)
    (fst presence_reporting_area_information) data.(GxCCR_logical_access_id)
    data.(GxCCR_physical_access_id) (fst proxy_info) (fst route_record)
    data.(GxCCR_tgpp_ps_data_off_status),
   snd qos_information + snd charging_rule_report + snd application_detection_information +
   snd event_report_indication + snd access_network_charging_identifier_gx + snd coa_information +
   snd usage_monitoring_information + snd routing_rule_install + snd routing_rule_remove +
   snd subscription_id + snd supported_features + snd packet_filter_information +
   snd an_gw_address + snd ran_nas_release_cause + snd tft_packet_filter_information +
   snd charging_rule_report' + snd application_detection_information' + snd event_trigger +
   snd access_network_charging_identifier_gx' + snd coa_information' +
   snd usage_monitoring_information' + snd presence_reporting_area_information + snd proxy_info +
   snd route_record).

Definition freeGxConditionalPolicyInformation (data : GxConditionalPolicyInformation) : GxConditionalPolicyInformation * Z :=
  let conditional_apn_aggregate_max_bitrate := FD_CALLFREE_LIST freeGxConditionalApnAggregateMaxBitrate data.(GxConditionalPolicyInformation_conditional_apn_aggregate_max_bitrate) in
  let conditional_apn_aggregate_max_bitrate' := FD_FREE_LIST (fst conditional_apn_aggregate_max_bitrate) in
  (mkGxConditionalPolicyInformation
    data.(GxConditionalPolicyInformation_execution_time)
    data.(GxConditionalPolicyInformation_default_eps_bearer_qos)
    data.(GxConditionalPolicyInformation_apn_aggregate_max_bitrate_ul)
    data.(GxConditionalPolicyInformation_apn_aggregate_max_bitrate_dl)
    data.(GxConditionalPolicyInformation_extended_apn_ambr_ul)
    data.(GxConditionalPolicyInformation_extended_apn_ambr_dl)
    (fst conditional_apn_aggregate_max_bitrate'),
   snd conditional_apn_aggregate_max_bitrate + snd conditional_apn_aggregate_max_bitrate').

Definition freeGxRoutingRuleReport (data : GxRoutingRuleReport) : GxRoutingRuleReport * Z :=
  let routing_rule_identifier := FD_FREE_LIST data.(GxRoutingRuleReport_routing_rule_identifier) in
  (mkGxRoutingRuleReport
    (fst routing_rule_identifier) data.(GxRoutingRuleReport_pcc_rule_status)
    data.(GxRoutingRuleReport_routing_rule_failure_code),
   snd routing_rule_identifier).

Definition freeGxPraRemove (data : GxPraRemove) : GxPraRemove * Z :=
  let presence_reporting_area_identifier := FD_FREE_LIST data.(GxPraRemove_presence_reporting_area_identifier) in
  (mkGxPraRemove
    (fst presence_reporting_area_identifier),
   snd presence_reporting_area_identifier).

Definition freeGxPraInstall (data : GxPraInstall) : GxPraInstall * Z :=
  let presence_reporting_area_information := FD_FREE_LIST data.(GxPraInstall_presence_reporting_area_information) in
  (mkGxPraInstall
    (fst presence_reporting_area_information),
   snd presence_reporting_area_information).

Definition freeGxFlows (data : GxFlows) : GxFlows * Z :=
  let flow_number := FD_FREE_LIST data.(GxFlows_flow_number) in
  let content_version := FD_FREE_LIST data.(GxFlows_content_version) in
  (mkGxFlows
    data.(GxFlows_media_component_number) (fst flow_number) (fst content_version)
    data.(GxFlows_final_unit_action) data.(GxFlows_media_component_status),
   snd flow_number + snd content_version).

Definition freeGxChargingRuleDefinition (data : GxChargingRuleDefinition) : GxChargingRuleDefinition * Z :=
  let qos_information := FD_CALLFREE_STRUCT freeGxQosInformation data.(GxChargingRuleDefinition_qos_information) in
  let flows := FD_CALLFREE_LIST freeGxFlows data.(GxChargingRuleDefinition_flows) in
  let flow_information := FD_FREE_LIST data.(GxChargingRuleDefinition_flow_information) in
  let flows' := FD_FREE_LIST (fst flows) in
  let required_access_info := FD_FREE_LIST data.(GxChargingRuleDefinition_required_access_info) in
  (mkGxChargingRuleDefinition
    data.(GxChargingRuleDefinition_charging_rule_name)
    data.(GxChargingRuleDefinition_service_identifier)
    data.(GxChargingRuleDefinition_rating_group) (fst flow_information)
    data.(GxChargingRuleDefinition_default_bearer_indication)
    data.(GxChargingRuleDefinition_tdf_application_identifier)
    data.(GxChargingRuleDefinition_flow_status) (fst qos_information)
    data.(GxChargingRuleDefinition_ps_to_cs_session_continuity)
    data.(GxChargingRuleDefinition_reporting_level) data.(GxChargingRuleDefinition_online)
    data.(GxChargingRuleDefinition_offline) data.(GxChargingRuleDefinition_max_plr_dl)
    data.(GxChargingRuleDefinition_max_plr_ul) data.(GxChargingRuleDefinition_metering_method)
    data.(GxChargingRuleDefinition_precedence)
    data.(GxChargingRuleDefinition_af_charging_identifier) (fst flows')
    data.(GxChargingRuleDefinition_monitoring_key)
    data.(GxChargingRuleDefinition_redirect_information)
    data.(GxChargingRuleDefinition_mute_notification)
    data.(GxChargingRuleDefinition_af_signalling_protocol)
    data.(GxChargingRuleDefinition_sponsor_identity)
    data.(GxChargingRuleDefinition_application_service_provider_identity)
    (fst required_access_info) data.(GxChargingRuleDefinition_sharing_key_dl)
    data.(GxChargingRuleDefinition_sharing_key_ul)
    data.(GxChargingRuleDefinition_traffic_steering_policy_identifier_dl)
    data.(GxChargingRuleDefinition_traffic_steering_policy_identifier_ul)
    data.(GxChargingRuleDefinition_content_version),
   snd qos_information + snd flows + snd flow_information + snd flows' +
   snd required_access_info).

Definition freeGxChargingRuleInstall (data : GxChargingRuleInstall) : GxChargingRuleInstall * Z :=
  let charging_rule_definition := FD_CALLFREE_LIST freeGxChargingRuleDefinition data.(GxChargingRuleInstall_charging_rule_definition) in
  let charging_rule_definition' := FD_FREE_LIST (fst charging_rule_definition) in
  let charging_rule_name := FD_FREE_LIST data.(GxChargingRuleInstall_charging_rule_name) in
  let charging_rule_base_name := FD_FREE_LIST data.(GxChargingRuleInstall_charging_rule_base_name) in
  (mkGxChargingRuleInstall
    (fst charging_rule_definition') (fst charging_rule_name) (fst charging_rule_base_name)
    data.(GxChargingRuleInstall_bearer_identifier) data.(GxChargingRuleInstall_monitoring_flags)
    data.(GxChargingRuleInstall_rule_activation_time)
    data.(GxChargingRuleInstall_rule_deactivation_time)
    data.(GxChargingRuleInstall_resource_allocation_notification)
    data.(GxChargingRuleInstall_charging_correlation_indicator)
    data.(GxChargingRuleInstall_ip_can_type),
   snd charging_rule_definition + snd charging_rule_definition' + snd charging_rule_name +
   snd charging_rule_base_name).

Definition freeGxChargingRuleRemove (data : GxChargingRuleRemove) : GxChargingRuleRemove * Z :=
  let charging_rule_name := FD_FREE_LIST data.(GxChargingRuleRemove_charging_rule_name) in
  let charging_rule_base_name := FD_FREE_LIST data.(GxChargingRuleRemove_charging_rule_base_name) in
  let required_access_info := FD_FREE_LIST data.(GxChargingRuleRemove_required_access_info) in
  (mkGxChargingRuleRemove
    (fst charging_rule_name) (fst charging_rule_base_name) (fst required_access_info)
    data.(GxChargingRuleRemove_resource_release_notification),
   snd charging_rule_name + snd charging_rule_base_name + snd required_access_info).

Definition gx_cca_free (data : GxCCA) : GxCCA * Z :=
  let event_report_indication := FD_CALLFREE_STRUCT freeGxEventReportIndication data.(GxCCA_event_report_indication) in
  let charging_rule_remove := FD_CALLFREE_LIST freeGxChargingRuleRemove data.(GxCCA_charging_rule_remove) in
  let charging_rule_install := FD_CALLFREE_LIST freeGxChargingRuleInstall data.(GxCCA_charging_rule_install) in
  let qos_information := FD_CALLFREE_LIST freeGxQosInformation data.(GxCCA_qos_information) in
  let usage_monitoring_information := FD_CALLFREE_LIST freeGxUsageMonitoringInformation data.(GxCCA_usage_monitoring_information) in
  let pra_install := FD_CALLFREE_STRUCT freeGxPraInstall data.(GxCCA_pra_install) in
  let pra_remove := FD_CALLFREE_STRUCT freeGxPraRemove data.(GxCCA_pra_remove) in
  let routing_rule_report := FD_CALLFREE_LIST freeGxRoutingRuleReport data.(GxCCA_routing_rule_report) in
  let conditional_policy_information := FD_CALLFREE_LIST freeGxConditionalPolicyInformation data.(GxCCA_conditional_policy_information) in
  let supported_features := FD_FREE_LIST data.(GxCCA_supported_features) in
  let event_trigger := FD_FREE_LIST data.(GxCCA_event_trigger) in
  let redirect_host := FD_FREE_LIST data.(GxCCA_redirect_host) in
  let charging_rule_remove' := FD_FREE_LIST (fst charging_rule_remove) in
  let charging_rule_install' := FD_FREE_LIST (fst charging_rule_install) in
  let qos_information' := FD_FREE_LIST (fst qos_information) in
  let usage_monitoring_information' := FD_FREE_LIST (fst usage_monitoring_information) in
  let csg_information_reporting := FD_FREE_LIST data.(GxCCA_csg_information_reporting) in
  let routing_rule_report' := FD_FREE_LIST (fst routing_rule_report) in
  let conditional_policy_information' := FD_FREE_LIST (fst conditional_policy_information) in
  let proxy_info := FD_FREE_LIST data.(GxCCA_proxy_info) in
  let route_record := FD_FREE_LIST data.(GxCCA_route_record) in
  let load := FD_FREE_LIST data.(GxCCA_load) in
  (mkGxCCA
    data.(GxCCA_session_id) data.(GxCCA_drmp) data.(GxCCA_auth_application_id)
    data.(GxCCA_origin_host) data.(GxCCA_origin_realm) data.(GxCCA_result_code)
    data.(GxCCA_experimental_result) data.(GxCCA_cc_request_type) data.(GxCCA_cc_request_number)
    data.(GxCCA_oc_supported_features) data.(GxCCA_oc_olr) (fst supported_features)
    data.(GxCCA_bearer_control_mode) (fst event_trigger) (fst event_report_indication)
    data.(GxCCA_origin_state_id) (fst redirect_host) data.(GxCCA_redirect_host_usage)
    data.(GxCCA_redirect_max_cache_time) (fst charging_rule_remove')
    (fst charging_rule_install') data.(GxCCA_charging_information) data.(GxCCA_online)
    data.(GxCCA_offline) (fst qos_information') data.(GxCCA_revalidation_time)
    data.(GxCCA_default_eps_bearer_qos) data.(GxCCA_default_qos_information)
    data.(GxCCA_bearer_usage) (fst usage_monitoring_information')
    (fst csg_information_reporting) data.(GxCCA_user_csg_information) (fst pra_install)
    (fst pra_remove) data.(GxCCA_presence_reporting_area_information)
    data.(GxCCA_session_release_cause) data.(GxCCA_nbifom_support) data.(GxCCA_nbifom_mode)
    data.(GxCCA_default_access) data.(GxCCA_ran_rule_support) (fst routing_rule_report')
    (fst conditional_policy_information') data.(GxCCA_removal_of_access)
    data.(GxCCA_ip_can_type) data.(GxCCA_error_message) data.(GxCCA_error_reporting_host)
    data.(GxCCA_failed_avp) (fst proxy_info) (fst route_record) (fst load),
   snd event_report_indication + snd charging_rule_remove + snd charging_rule_install +
   snd qos_information + snd usage_monitoring_information + snd pra_install + snd pra_remove +
   snd routing_rule_report + snd conditional_policy_information + snd supported_features +
   snd event_trigger + snd redirect_host + snd charging_rule_remove' +
   snd charging_rule_install' + snd qos_information' + snd usage_monitoring_information' +
   snd csg_information_reporting + snd routing_rule_report' +
   snd conditional_policy_information' + snd proxy_info + snd route_record + snd load).

Definition gx_raa_free (data : GxRAA) : GxRAA * Z :=
  let charging_rule_report := FD_CALLFREE_LIST freeGxChargingRuleReport data.(GxRAA_charging_rule_report) in
  let an_gw_address := FD_FREE_LIST data.(GxRAA_an_gw_address) in
  let charging_rule_report' := FD_FREE_LIST (fst charging_rule_report) in
  let proxy_info := FD_FREE_LIST data.(GxRAA_proxy_info) in
  (mkGxRAA
    data.(GxRAA_session_id) data.(GxRAA_drmp) data.(GxRAA_origin_host) data.(GxRAA_origin_realm)
    data.(GxRAA_result_code) data.(GxRAA_experimental_result) data.(GxRAA_origin_state_id)
    data.(GxRAA_oc_supported_features) data.(GxRAA_oc_olr) data.(GxRAA_ip_can_type)
    data.(GxRAA_rat_type) data.(GxRAA_an_trusted) (fst an_gw_address)
    data.(GxRAA_tgpp_sgsn_mcc_mnc) data.(GxRAA_tgpp_sgsn_address)
    data.(GxRAA_tgpp_sgsn_ipv6_address) data.(GxRAA_rai) data.(GxRAA_tgpp_user_location_info)
    data.(GxRAA_user_location_info_time) data.(GxRAA_netloc_access_support)
    data.(GxRAA_user_csg_information) data.(GxRAA_tgpp_ms_timezone)
    data.(GxRAA_default_qos_information) (fst charging_rule_report') data.(GxRAA_error_message)
    data.(GxRAA_error_reporting_host) data.(GxRAA_failed_avp) (fst proxy_info),
   snd charging_rule_report + snd an_gw_address + snd charging_rule_report' + snd proxy_info).

Definition gx_rar_free (data : GxRAR) : GxRAR * Z :=
  let event_report_indication := FD_CALLFREE_STRUCT freeGxEventReportIndication data.(GxRAR_event_report_indication) in
  let charging_rule_remove := FD_CALLFREE_LIST freeGxChargingRuleRemove data.(GxRAR_charging_rule_remove) in
  let charging_rule_install := FD_CALLFREE_LIST freeGxChargingRuleInstall data.(GxRAR_charging_rule_install) in
  let qos_information := FD_CALLFREE_LIST freeGxQosInformation data.(GxRAR_qos_information) in
  let usage_monitoring_information := FD_CALLFREE_LIST freeGxUsageMonitoringInformation data.(GxRAR_usage_monitoring_information) in
  let conditional_policy_information := FD_CALLFREE_LIST freeGxConditionalPolicyInformation data.(GxRAR_conditional_policy_information) in
  let pra_install := FD_CALLFREE_STRUCT freeGxPraInstall data.(GxRAR_pra_install) in
  let pra_remove := FD_CALLFREE_STRUCT freeGxPraRemove data.(GxRAR_pra_remove) in
  let event_trigger := FD_FREE_LIST data.(GxRAR_event_trigger) in
  let charging_rule_remove' := FD_FREE_LIST (fst charging_rule_remove) in
  let charging_rule_install' := FD_FREE_LIST (fst charging_rule_install) in
  let qos_information' := FD_FREE_LIST (fst qos_information) in
  let usage_monitoring_information' := FD_FREE_LIST (fst usage_monitoring_information) in
  let conditional_policy_information' := FD_FREE_LIST (fst conditional_policy_information) in
  let csg_information_reporting := FD_FREE_LIST data.(GxRAR_csg_information_reporting) in
  let proxy_info := FD_FREE_LIST data.(GxRAR_proxy_info) in
  let route_record := FD_FREE_LIST data.(GxRAR_route_record) in
  (mkGxRAR
    data.(GxRAR_session_id) data.(GxRAR_drmp) data.(GxRAR_auth_application_id)
    data.(GxRAR_origin_host) data.(GxRAR_origin_realm) data.(GxRAR_destination_realm)
    data.(GxRAR_destination_host) data.(GxRAR_re_auth_request_type)
    data.(GxRAR_session_release_cause) data.(GxRAR_origin_state_id)
    data.(GxRAR_oc_supported_features) (fst event_trigger) (fst event_report_indication)
    (fst charging_rule_remove') (fst charging_rule_install') data.(GxRAR_default_eps_bearer_qos)
    (fst qos_information') data.(GxRAR_default_qos_information) data.(GxRAR_revalidation_time)
    (fst usage_monitoring_information') data.(GxRAR_pcscf_restoration_indication)
    (fst conditional_policy_information') data.(GxRAR_removal_of_access)
    data.(GxRAR_ip_can_type) (fst pra_install) (fst pra_remove) (fst csg_information_reporting)
    (fst proxy_info) (fst route_record),
   snd event_report_indication + snd charging_rule_remove + snd charging_rule_install +
   snd qos_information + snd usage_monitoring_information + snd conditional_policy_information +
   snd pra_install + snd pra_remove + snd event_trigger + snd charging_rule_remove' +
   snd charging_rule_install' + snd qos_information' + snd usage_monitoring_information' +
   snd conditional_policy_information' + snd csg_information_reporting + snd proxy_info +
   snd route_record).

(** ** The arrays of a value *)

Definition blocks_list {A} (blocks : A -> Z) (a : option (list A)) : Z :=
  match a with None | Some [] => 0 | Some l => 1 + sum (map blocks l) end.

Definition blocks_struct {A} (blocks : A -> Z) (a : option A) : Z :=
  match a with None => 0 | Some d => blocks d end.

Definition no_blocks {A} (_ : A) : Z := 0.

Definition blocks_GxProxyInfo (data : GxProxyInfo) : Z :=
  sum [].

Definition blocks_GxPresenceReportingAreaInformation (data : GxPresenceReportingAreaInformation) : Z :=
  sum [].

Definition blocks_GxRoutingRuleRemove (data : GxRoutingRuleRemove) : Z :=
  sum [blocks_list no_blocks data.(GxRoutingRuleRemove_routing_rule_identifier)].

Definition blocks_GxRoutingFilter (data : GxRoutingFilter) : Z :=
  sum [].

Definition blocks_GxRoutingRuleDefinition (data : GxRoutingRuleDefinition) : Z :=
  sum [blocks_list blocks_GxRoutingFilter data.(GxRoutingRuleDefinition_routing_filter)].

Definition blocks_GxRoutingRuleInstall (data : GxRoutingRuleInstall) : Z :=
  sum [blocks_list blocks_GxRoutingRuleDefinition data.(GxRoutingRuleInstall_routing_rule_definition)].

Definition blocks_GxUnitValue (data : GxUnitValue) : Z :=
  sum [].

Definition blocks_GxCcMoney (data : GxCcMoney) : Z :=
  sum [blocks_struct blocks_GxUnitValue data.(GxCcMoney_unit_value)].

Definition blocks_GxUsedServiceUnit (data : GxUsedServiceUnit) : Z :=
  sum [blocks_struct blocks_GxCcMoney data.(GxUsedServiceUnit_cc_money);
       blocks_list no_blocks data.(GxUsedServiceUnit_event_charging_timestamp)].

Definition blocks_GxGrantedServiceUnit (data : GxGrantedServiceUnit) : Z :=
  sum [blocks_struct blocks_GxCcMoney data.(GxGrantedServiceUnit_cc_money)].

Definition blocks_GxUsageMonitoringInformation (data : GxUsageMonitoringInformation) : Z :=
  sum [blocks_list blocks_GxGrantedServiceUnit data.(GxUsageMonitoringInformation_granted_service_unit);
       blocks_list blocks_GxUsedServiceUnit data.(GxUsageMonitoringInformation_used_service_unit)].

Definition blocks_GxTunnelInformation (data : GxTunnelInformation) : Z :=
  sum [blocks_list no_blocks data.(GxTunnelInformation_tunnel_header_filter)].

Definition blocks_GxCoaInformation (data : GxCoaInformation) : Z :=
  sum [blocks_struct blocks_GxTunnelInformation data.(GxCoaInformation_tunnel_information)].

Definition blocks_GxAccessNetworkChargingIdentifierGx (data : GxAccessNetworkChargingIdentifierGx) : Z :=
  sum [blocks_list no_blocks data.(GxAccessNetworkChargingIdentifierGx_charging_rule_base_name);
       blocks_list no_blocks data.(GxAccessNetworkChargingIdentifierGx_charging_rule_name)].

Definition blocks_GxMbsfnArea (data : GxMbsfnArea) : Z :=
  sum [].

Definition blocks_GxAreaScope (data : GxAreaScope) : Z :=
  sum [blocks_list no_blocks data.(GxAreaScope_cell_global_identity);
       blocks_list no_blocks data.(GxAreaScope_e_utran_cell_global_identity);
       blocks_list no_blocks data.(GxAreaScope_routing_area_identity);
       blocks_list no_blocks data.(GxAreaScope_location_area_identity);
       blocks_list no_blocks data.(GxAreaScope_tracking_area_identity)].

Definition blocks_GxMdtConfiguration (data : GxMdtConfiguration) : Z :=
  sum [blocks_struct blocks_GxAreaScope data.(GxMdtConfiguration_area_scope);
       blocks_list no_blocks data.(GxMdtConfiguration_mdt_allowed_plmn_id);
       blocks_list blocks_GxMbsfnArea data.(GxMdtConfiguration_mbsfn_area)].

Definition blocks_GxTraceData (data : GxTraceData) : Z :=
  sum [blocks_struct blocks_GxMdtConfiguration data.(GxTraceData_mdt_configuration)].

Definition blocks_GxUserCsgInformation (data : GxUserCsgInformation) : Z :=
  sum [].

Definition blocks_GxEventReportIndication (data : GxEventReportIndication) : Z :=
  sum [blocks_list no_blocks data.(GxEventReportIndication_event_trigger);
       blocks_struct blocks_GxUserCsgInformation data.(GxEventReportIndication_user_csg_information);
       blocks_list no_blocks data.(GxEventReportIndication_an_gw_address);
       blocks_struct blocks_GxTraceData data.(GxEventReportIndication_trace_data);
       blocks_struct blocks_GxPresenceReportingAreaInformation data.(GxEventReportIndication_presence_reporting_area_information)].

Definition blocks_GxFlowInformation (data : GxFlowInformation) : Z :=
  sum [].

Definition blocks_GxApplicationDetectionInformation (data : GxApplicationDetectionInformation) : Z :=
  sum [blocks_list blocks_GxFlowInformation data.(GxApplicationDetectionInformation_flow_information)].

Definition blocks_GxRedirectServer (data : GxRedirectServer) : Z :=
  sum [].

Definition blocks_GxFinalUnitIndication (data : GxFinalUnitIndication) : Z :=
  sum [blocks_list no_blocks data.(GxFinalUnitIndication_restriction_filter_rule);
       blocks_list no_blocks data.(GxFinalUnitIndication_filter_id);
       blocks_struct blocks_GxRedirectServer data.(GxFinalUnitIndication_redirect_server)].

Definition blocks_GxChargingRuleReport (data : GxChargingRuleReport) : Z :=
  sum [blocks_list no_blocks data.(GxChargingRuleReport_charging_rule_name);
       blocks_list no_blocks data.(GxChargingRuleReport_charging_rule_base_name);
       blocks_struct blocks_GxFinalUnitIndication data.(GxChargingRuleReport_final_unit_indication);
       blocks_list no_blocks data.(GxChargingRuleReport_ran_nas_release_cause);
       blocks_list no_blocks data.(GxChargingRuleReport_content_version)].

Definition blocks_GxTftPacketFilterInformation (data : GxTftPacketFilterInformation) : Z :=
  sum [].

Definition blocks_GxFixedUserLocationInfo (data : GxFixedUserLocationInfo) : Z :=
  sum [].

Definition blocks_GxDefaultQosInformation (data : GxDefaultQosInformation) : Z :=
  sum [].

Definition blocks_GxAllocationRetentionPriority (data : GxAllocationRetentionPriority) : Z :=
  sum [].

Definition blocks_GxDefaultEpsBearerQos (data : GxDefaultEpsBearerQos) : Z :=
  sum [blocks_struct blocks_GxAllocationRetentionPriority data.(GxDefaultEpsBearerQos_allocation_retention_priority)].

Definition blocks_GxConditionalApnAggregateMaxBitrate (data : GxConditionalApnAggregateMaxBitrate) : Z :=
  sum [blocks_list no_blocks data.(GxConditionalApnAggregateMaxBitrate_ip_can_type);
       blocks_list no_blocks data.(GxConditionalApnAggregateMaxBitrate_rat_type)].

Definition blocks_GxQosInformation (data : GxQosInformation) : Z :=
  sum [blocks_struct blocks_GxAllocationRetentionPriority data.(GxQosInformation_allocation_retention_priority);
       blocks_list blocks_GxConditionalApnAggregateMaxBitrate data.(GxQosInformation_conditional_apn_aggregate_max_bitrate)].

Definition blocks_GxUserEquipmentInfo (data : GxUserEquipmentInfo) : Z :=
  sum [].

Definition blocks_GxPacketFilterInformation (data : GxPacketFilterInformation) : Z :=
  sum [].

Definition blocks_GxTdfInformation (data : GxTdfInformation) : Z :=
  sum [].

Definition blocks_GxSupportedFeatures (data : GxSupportedFeatures) : Z :=
  sum [].

Definition blocks_GxOcSupportedFeatures (data : GxOcSupportedFeatures) : Z :=
  sum [].

Definition blocks_GxSubscriptionId (data : GxSubscriptionId) : Z :=
  sum [].

Definition blocks_GxCCR (data : GxCCR) : Z :=
  sum [blocks_list blocks_GxSubscriptionId data.(GxCCR_subscription_id);
       blocks_struct blocks_GxOcSupportedFeatures data.(GxCCR_oc_supported_features);
       blocks_list blocks_GxSupportedFeatures data.(GxCCR_supported_features);
       blocks_struct blocks_GxTdfInformation data.(GxCCR_tdf_information);
       blocks_list blocks_GxPacketFilterInformation data.(GxCCR_packet_filter_information);
       blocks_struct blocks_GxUserEquipmentInfo data.(GxCCR_user_equipment_info);
       blocks_struct blocks_GxQosInformation data.(GxCCR_qos_information);
       blocks_struct blocks_GxDefaultEpsBearerQos data.(GxCCR_default_eps_bearer_qos);
       blocks_struct blocks_GxDefaultQosInformation data.(GxCCR_default_qos_information);
       blocks_list no_blocks data.(GxCCR_an_gw_address);
       blocks_struct blocks_GxFixedUserLocationInfo data.(GxCCR_fixed_user_location_info);
       blocks_struct blocks_GxUserCsgInformation data.(GxCCR_user_csg_information);
       blocks_list no_blocks data.(GxCCR_ran_nas_release_cause);
       blocks_list blocks_GxTftPacketFilterInformation data.(GxCCR_tft_packet_filter_information);
       blocks_list blocks_GxChargingRuleReport data.(GxCCR_charging_rule_report);
       blocks_list blocks_GxApplicationDetectionInformation data.(GxCCR_application_detection_information);
       blocks_list no_blocks data.(GxCCR_event_trigger);
       blocks_struct blocks_GxEventReportIndication data.(GxCCR_event_report_indication);
       blocks_list blocks_GxAccessNetworkChargingIdentifierGx data.(GxCCR_access_network_charging_identifier_gx);
       blocks_list blocks_GxCoaInformation data.(GxCCR_coa_information);
       blocks_list blocks_GxUsageMonitoringInformation data.(GxCCR_usage_monitoring_information);
       blocks_struct blocks_GxRoutingRuleInstall data.(GxCCR_routing_rule_install);
       blocks_struct blocks_GxRoutingRuleRemove data.(GxCCR_routing_rule_remove);
       blocks_list blocks_GxPresenceReportingAreaInformation data.(GxCCR_presence_reporting_area_information);
       blocks_list blocks_GxProxyInfo data.(GxCCR_proxy_info);
       blocks_list no_blocks data.(GxCCR_route_record)].

Definition blocks_GxLoad (data : GxLoad) : Z :=
  sum [].

Definition blocks_GxFailedAvp (data : GxFailedAvp) : Z :=
  sum [].

Definition blocks_GxConditionalPolicyInformation (data : GxConditionalPolicyInformation) : Z :=
  sum [blocks_struct blocks_GxDefaultEpsBearerQos data.(GxConditionalPolicyInformation_default_eps_bearer_qos);
       blocks_list blocks_GxConditionalApnAggregateMaxBitrate data.(GxConditionalPolicyInformation_conditional_apn_aggregate_max_bitrate)].

Definition blocks_GxRoutingRuleReport (data : GxRoutingRuleReport) : Z :=
  sum [blocks_list no_blocks data.(GxRoutingRuleReport_routing_rule_identifier)].

Definition blocks_GxPraRemove (data : GxPraRemove) : Z :=
  sum [blocks_list no_blocks data.(GxPraRemove_presence_reporting_area_identifier)].

Definition blocks_GxPraInstall (data : GxPraInstall) : Z :=
  sum [blocks_list blocks_GxPresenceReportingAreaInformation data.(GxPraInstall_presence_reporting_area_information)].

Definition blocks_GxChargingInformation (data : GxChargingInformation) : Z :=
  sum [].

Definition blocks_GxRedirectInformation (data : GxRedirectInformation) : Z :=
  sum [].

Definition blocks_GxFlows (data : GxFlows) : Z :=
  sum [blocks_list no_blocks data.(GxFlows_flow_number);
       blocks_list no_blocks data.(GxFlows_content_version)].

Definition blocks_GxChargingRuleDefinition (data : GxChargingRuleDefinition) : Z :=
  sum [blocks_list blocks_GxFlowInformation data.(GxChargingRuleDefinition_flow_information);
       blocks_struct blocks_GxQosInformation data.(GxChargingRuleDefinition_qos_information);
       blocks_list blocks_GxFlows data.(GxChargingRuleDefinition_flows);
       blocks_struct blocks_GxRedirectInformation data.(GxChargingRuleDefinition_redirect_information);
       blocks_list no_blocks data.(GxChargingRuleDefinition_required_access_info)].

Definition blocks_GxChargingRuleInstall (data : GxChargingRuleInstall) : Z :=
  sum [blocks_list blocks_GxChargingRuleDefinition data.(GxChargingRuleInstall_charging_rule_definition);
       blocks_list no_blocks data.(GxChargingRuleInstall_charging_rule_name);
       blocks_list no_blocks data.(GxChargingRuleInstall_charging_rule_base_name)].

Definition blocks_GxChargingRuleRemove (data : GxChargingRuleRemove) : Z :=
  sum [blocks_list no_blocks data.(GxChargingRuleRemove_charging_rule_name);
       blocks_list no_blocks data.(GxChargingRuleRemove_charging_rule_base_name);
       blocks_list no_blocks data.(GxChargingRuleRemove_required_access_info)].

Definition blocks_GxOcOlr (data : GxOcOlr) : Z :=
  sum [].

Definition blocks_GxExperimentalResult (data : GxExperimentalResult) : Z :=
  sum [].

Definition blocks_GxCCA (data : GxCCA) : Z :=
  sum [blocks_struct blocks_GxExperimentalResult data.(GxCCA_experimental_result);
       blocks_struct blocks_GxOcSupportedFeatures data.(GxCCA_oc_supported_features);
       blocks_struct blocks_GxOcOlr data.(GxCCA_oc_olr);
       blocks_list blocks_GxSupportedFeatures data.(GxCCA_supported_features);
       blocks_list no_blocks data.(GxCCA_event_trigger);
       blocks_struct blocks_GxEventReportIndication data.(GxCCA_event_report_indication);
       blocks_list no_blocks data.(GxCCA_redirect_host);
       blocks_list blocks_GxChargingRuleRemove data.(GxCCA_charging_rule_remove);
       blocks_list blocks_GxChargingRuleInstall data.(GxCCA_charging_rule_install);
       blocks_struct blocks_GxChargingInformation data.(GxCCA_charging_information);
       blocks_list blocks_GxQosInformation data.(GxCCA_qos_information);
       blocks_struct blocks_GxDefaultEpsBearerQos data.(GxCCA_default_eps_bearer_qos);
       blocks_struct blocks_GxDefaultQosInformation data.(GxCCA_default_qos_information);
       blocks_list blocks_GxUsageMonitoringInformation data.(GxCCA_usage_monitoring_information);
       blocks_list no_blocks data.(GxCCA_csg_information_reporting);
       blocks_struct blocks_GxUserCsgInformation data.(GxCCA_user_csg_information);
       blocks_struct blocks_GxPraInstall data.(GxCCA_pra_install);
       blocks_struct blocks_GxPraRemove data.(GxCCA_pra_remove);
       blocks_struct blocks_GxPresenceReportingAreaInformation data.(GxCCA_presence_reporting_area_information);
       blocks_list blocks_GxRoutingRuleReport data.(GxCCA_routing_rule_report);
       blocks_list blocks_GxConditionalPolicyInformation data.(GxCCA_conditional_policy_information);
       blocks_struct blocks_GxFailedAvp data.(GxCCA_failed_avp);
       blocks_list blocks_GxProxyInfo data.(GxCCA_proxy_info);
       blocks_list no_blocks data.(GxCCA_route_record);
       blocks_list blocks_GxLoad data.(GxCCA_load)].

Definition blocks_GxRAA (data : GxRAA) : Z :=
  sum [blocks_struct blocks_GxExperimentalResult data.(GxRAA_experimental_result);
       blocks_struct blocks_GxOcSupportedFeatures data.(GxRAA_oc_supported_features);
       blocks_struct blocks_GxOcOlr data.(GxRAA_oc_olr);
       blocks_list no_blocks data.(GxRAA_an_gw_address);
       blocks_struct blocks_GxUserCsgInformation data.(GxRAA_user_csg_information);
       blocks_struct blocks_GxDefaultQosInformation data.(GxRAA_default_qos_information);
       blocks_list blocks_GxChargingRuleReport data.(GxRAA_charging_rule_report);
       blocks_struct blocks_GxFailedAvp data.(GxRAA_failed_avp);
       blocks_list blocks_GxProxyInfo data.(GxRAA_proxy_info)].

Definition blocks_GxRAR (data : GxRAR) : Z :=
  sum [blocks_struct blocks_GxOcSupportedFeatures data.(GxRAR_oc_supported_features);
       blocks_list no_blocks data.(GxRAR_event_trigger);
       blocks_struct blocks_GxEventReportIndication data.(GxRAR_event_report_indication);
       blocks_list blocks_GxChargingRuleRemove data.(GxRAR_charging_rule_remove);
       blocks_list blocks_GxChargingRuleInstall data.(GxRAR_charging_rule_install);
       blocks_struct blocks_GxDefaultEpsBearerQos data.(GxRAR_default_eps_bearer_qos);
       blocks_list blocks_GxQosInformation data.(GxRAR_qos_information);
       blocks_struct blocks_GxDefaultQosInformation data.(GxRAR_default_qos_information);
       blocks_list blocks_GxUsageMonitoringInformation data.(GxRAR_usage_monitoring_information);
       blocks_list blocks_GxConditionalPolicyInformation data.(GxRAR_conditional_policy_information);
       blocks_struct blocks_GxPraInstall data.(GxRAR_pra_install);
       blocks_struct blocks_GxPraRemove data.(GxRAR_pra_remove);
       blocks_list no_blocks data.(GxRAR_csg_information_reporting);
       blocks_list blocks_GxProxyInfo data.(GxRAR_proxy_info);
       blocks_list no_blocks data.(GxRAR_route_record)].

(** ** What a free function promises: it releases every array, and none is left *)

Class Frees {A} (free : A -> A * Z) (blocks : A -> Z) : Prop :=
  frees : forall d, snd (free d) = blocks d /\ blocks (fst (free d)) = 0.

Class NoBlocks {A} (blocks : A -> Z) : Prop := no_block : forall d : A, blocks d = 0.

#[export] Instance no_blocks_ok {A} : NoBlocks (@no_blocks A).
Proof. done. Qed.

Lemma sum_zero {A} (f : A -> Z) l : (forall x, f x = 0) -> sum (map f l) = 0.
Proof. intros H. induction l as [|x l IH]; cbn; [done|]. rewrite H, IH. done. Qed.

Lemma sum_ext {A} (f g : A -> Z) l : (forall x, f x = g x) -> sum (map f l) = sum (map g l).
Proof. intros H. induction l as [|x l IH]; cbn; [done|]. by rewrite H, IH. Qed.

Lemma blocks_list_plain {A} (blocks : A -> Z) `{!NoBlocks blocks} a :
  blocks_list blocks a = snd (FD_FREE_LIST a).
Proof.
  destruct a as [[|x l]|]; [done| |done]. cbn [blocks_list FD_FREE_LIST snd].
  rewrite (sum_zero blocks) by (intros d; exact (no_block d)). done.
Qed.

Lemma blocks_list_frees {A} (free : A -> A * Z) blocks `{!Frees free blocks} a :
  blocks_list blocks a =
  snd (FD_CALLFREE_LIST free a) + snd (FD_FREE_LIST (fst (FD_CALLFREE_LIST free a))).
Proof.
  destruct a as [[|x l]|]; [done| |done]. cbn [blocks_list FD_CALLFREE_LIST FD_FREE_LIST fst snd map sum].
  rewrite (sum_ext (fun d => snd (free d)) blocks) by (intros; apply frees).
  rewrite (proj1 (frees x)). lia.
Qed.

Lemma blocks_struct_frees {A} (free : A -> A * Z) blocks `{!Frees free blocks} a :
  blocks_struct blocks a = snd (FD_CALLFREE_STRUCT free a).
Proof. destruct a as [d|]; [|done]. symmetry. exact (proj1 (frees d)). Qed.

Lemma blocks_struct_plain {A} (blocks : A -> Z) `{!NoBlocks blocks} a : blocks_struct blocks a = 0.
Proof. destruct a as [d|]; [exact (no_block d)|done]. Qed.

Lemma freed_list {A} (blocks : A -> Z) a : blocks_list blocks (fst (FD_FREE_LIST a)) = 0.
Proof. by destruct a as [[]|]. Qed.

Lemma freed_struct {A} (free : A -> A * Z) blocks `{!Frees free blocks} a :
  blocks_struct blocks (fst (FD_CALLFREE_STRUCT free a)) = 0.
Proof. destruct a as [d|]; [|done]. exact (proj2 (frees d)). Qed.

Ltac rewrite_blocks :=
  repeat match goal with
  | |- context [blocks_list ?b (fst (FD_FREE_LIST ?a))] => rewrite (freed_list b a)
  | |- context [blocks_struct ?b (fst (FD_CALLFREE_STRUCT ?f ?a))] => rewrite (freed_struct f b a)
  | |- context [blocks_struct ?b ?a] =>
      first [rewrite (blocks_struct_plain b a) | rewrite (blocks_struct_frees _ b a)]
  | |- context [blocks_list ?b ?a] =>
      first [rewrite (blocks_list_plain b a) | rewrite (blocks_list_frees _ b a)]
  end.

(** Unfolds the two functions [free] and [blocks] and adds up the members. *)
Ltac solve_frees :=
  intros d;
  match goal with |- snd (?free d) = ?blocks d /\ _ => unfold free, blocks end;
  cbv zeta; cbn -[FD_FREE_LIST FD_CALLFREE_LIST FD_CALLFREE_STRUCT blocks_list blocks_struct Z.add];
  rewrite_blocks; split; lia.

Ltac solve_no_blocks :=
  intros d; match goal with |- ?blocks d = _ => unfold blocks end;
  cbn -[blocks_struct Z.add]; rewrite_blocks; lia.

#[export] Instance GxProxyInfo_no_blocks : NoBlocks blocks_GxProxyInfo.
Proof. solve_no_blocks. Qed.

#[export] Instance GxPresenceReportingAreaInformation_no_blocks : NoBlocks blocks_GxPresenceReportingAreaInformation.
Proof. solve_no_blocks. Qed.

#[export] Instance freeGxRoutingRuleRemove_frees : Frees freeGxRoutingRuleRemove blocks_GxRoutingRuleRemove.
Proof. solve_frees. Qed.

#[export] Instance GxRoutingFilter_no_blocks : NoBlocks blocks_GxRoutingFilter.
Proof. solve_no_blocks. Qed.

#[export] Instance freeGxRoutingRuleDefinition_frees : Frees freeGxRoutingRuleDefinition blocks_GxRoutingRuleDefinition.
Proof. solve_frees. Qed.

#[export] Instance freeGxRoutingRuleInstall_frees : Frees freeGxRoutingRuleInstall blocks_GxRoutingRuleInstall.
Proof. solve_frees. Qed.

#[export] Instance GxUnitValue_no_blocks : NoBlocks blocks_GxUnitValue.
Proof. solve_no_blocks. Qed.

#[export] Instance GxCcMoney_no_blocks : NoBlocks blocks_GxCcMoney.
Proof. solve_no_blocks. Qed.

#[export] Instance freeGxUsedServiceUnit_frees : Frees freeGxUsedServiceUnit blocks_GxUsedServiceUnit.
Proof. solve_frees. Qed.

#[export] Instance GxGrantedServiceUnit_no_blocks : NoBlocks blocks_GxGrantedServiceUnit.
Proof. solve_no_blocks. Qed.

#[export] Instance freeGxUsageMonitoringInformation_frees : Frees freeGxUsageMonitoringInformation blocks_GxUsageMonitoringInformation.
Proof. solve_frees. Qed.

#[export] Instance freeGxTunnelInformation_frees : Frees freeGxTunnelInformation blocks_GxTunnelInformation.
Proof. solve_frees. Qed.

#[export] Instance freeGxCoaInformation_frees : Frees freeGxCoaInformation blocks_GxCoaInformation.
Proof. solve_frees. Qed.

#[export] Instance freeGxAccessNetworkChargingIdentifierGx_frees : Frees freeGxAccessNetworkChargingIdentifierGx blocks_GxAccessNetworkChargingIdentifierGx.
Proof. solve_frees. Qed.

#[export] Instance GxMbsfnArea_no_blocks : NoBlocks blocks_GxMbsfnArea.
Proof. solve_no_blocks. Qed.

#[export] Instance freeGxAreaScope_frees : Frees freeGxAreaScope blocks_GxAreaScope.
Proof. solve_frees. Qed.

#[export] Instance freeGxMdtConfiguration_frees : Frees freeGxMdtConfiguration blocks_GxMdtConfiguration.
Proof. solve_frees. Qed.

#[export] Instance freeGxTraceData_frees : Frees freeGxTraceData blocks_GxTraceData.
Proof. solve_frees. Qed.

#[export] Instance GxUserCsgInformation_no_blocks : NoBlocks blocks_GxUserCsgInformation.
Proof. solve_no_blocks. Qed.

#[export] Instance freeGxEventReportIndication_frees : Frees freeGxEventReportIndication blocks_GxEventReportIndication.
Proof. solve_frees. Qed.

#[export] Instance GxFlowInformation_no_blocks : NoBlocks blocks_GxFlowInformation.
Proof. solve_no_blocks. Qed.

#[export] Instance freeGxApplicationDetectionInformation_frees : Frees freeGxApplicationDetectionInformation blocks_GxApplicationDetectionInformation.
Proof. solve_frees. Qed.

#[export] Instance GxRedirectServer_no_blocks : NoBlocks blocks_GxRedirectServer.
Proof. solve_no_blocks. Qed.

#[export] Instance freeGxFinalUnitIndication_frees : Frees freeGxFinalUnitIndication blocks_GxFinalUnitIndication.
Proof. solve_frees. Qed.

#[export] Instance freeGxChargingRuleReport_frees : Frees freeGxChargingRuleReport blocks_GxChargingRuleReport.
Proof. solve_frees. Qed.

#[export] Instance GxTftPacketFilterInformation_no_blocks : NoBlocks blocks_GxTftPacketFilterInformation.
Proof. solve_no_blocks. Qed.

#[export] Instance GxFixedUserLocationInfo_no_blocks : NoBlocks blocks_GxFixedUserLocationInfo.
Proof. solve_no_blocks. Qed.

#[export] Instance GxDefaultQosInformation_no_blocks : NoBlocks blocks_GxDefaultQosInformation.
Proof. solve_no_blocks. Qed.

#[export] Instance GxAllocationRetentionPriority_no_blocks : NoBlocks blocks_GxAllocationRetentionPriority.
Proof. solve_no_blocks. Qed.

#[export] Instance GxDefaultEpsBearerQos_no_blocks : NoBlocks blocks_GxDefaultEpsBearerQos.
Proof. solve_no_blocks. Qed.

#[export] Instance freeGxConditionalApnAggregateMaxBitrate_frees : Frees freeGxConditionalApnAggregateMaxBitrate blocks_GxConditionalApnAggregateMaxBitrate.
Proof. solve_frees. Qed.

#[export] Instance freeGxQosInformation_frees : Frees freeGxQosInformation blocks_GxQosInformation.
Proof. solve_frees. Qed.

#[export] Instance GxUserEquipmentInfo_no_blocks : NoBlocks blocks_GxUserEquipmentInfo.
Proof. solve_no_blocks. Qed.

#[export] Instance GxPacketFilterInformation_no_blocks : NoBlocks blocks_GxPacketFilterInformation.
Proof. solve_no_blocks. Qed.

#[export] Instance GxTdfInformation_no_blocks : NoBlocks blocks_GxTdfInformation.
Proof. solve_no_blocks. Qed.

#[export] Instance GxSupportedFeatures_no_blocks : NoBlocks blocks_GxSupportedFeatures.
Proof. solve_no_blocks. Qed.

#[export] Instance GxOcSupportedFeatures_no_blocks : NoBlocks blocks_GxOcSupportedFeatures.
Proof. solve_no_blocks. Qed.

#[export] Instance GxSubscriptionId_no_blocks : NoBlocks blocks_GxSubscriptionId.
Proof. solve_no_blocks. Qed.

#[export] Instance gx_ccr_free_frees : Frees gx_ccr_free blocks_GxCCR.
Proof. solve_frees. Qed.

#[export] Instance GxLoad_no_blocks : NoBlocks blocks_GxLoad.
Proof. solve_no_blocks. Qed.

#[export] Instance GxFailedAvp_no_blocks : NoBlocks blocks_GxFailedAvp.
Proof. solve_no_blocks. Qed.

#[export] Instance freeGxConditionalPolicyInformation_frees : Frees freeGxConditionalPolicyInformation blocks_GxConditionalPolicyInformation.
Proof. solve_frees. Qed.

#[export] Instance freeGxRoutingRuleReport_frees : Frees freeGxRoutingRuleReport blocks_GxRoutingRuleReport.
Proof. solve_frees. Qed.

#[export] Instance freeGxPraRemove_frees : Frees freeGxPraRemove blocks_GxPraRemove.
Proof. solve_frees. Qed.

#[export] Instance freeGxPraInstall_frees : Frees freeGxPraInstall blocks_GxPraInstall.
Proof. solve_frees. Qed.

#[export] Instance GxChargingInformation_no_blocks : NoBlocks blocks_GxChargingInformation.
Proof. solve_no_blocks. Qed.

#[export] Instance GxRedirectInformation_no_blocks : NoBlocks blocks_GxRedirectInformation.
Proof. solve_no_blocks. Qed.

#[export] Instance freeGxFlows_frees : Frees freeGxFlows blocks_GxFlows.
Proof. solve_frees. Qed.

#[export] Instance freeGxChargingRuleDefinition_frees : Frees freeGxChargingRuleDefinition blocks_GxChargingRuleDefinition.
Proof. solve_frees. Qed.

#[export] Instance freeGxChargingRuleInstall_frees : Frees freeGxChargingRuleInstall blocks_GxChargingRuleInstall.
Proof. solve_frees. Qed.

#[export] Instance freeGxChargingRuleRemove_frees : Frees freeGxChargingRuleRemove blocks_GxChargingRuleRemove.
Proof. solve_frees. Qed.

#[export] Instance GxOcOlr_no_blocks : NoBlocks blocks_GxOcOlr.
Proof. solve_no_blocks. Qed.

#[export] Instance GxExperimentalResult_no_blocks : NoBlocks blocks_GxExperimentalResult.
Proof. solve_no_blocks. Qed.

#[export] Instance gx_cca_free_frees : Frees gx_cca_free blocks_GxCCA.
Proof. solve_frees. Qed.

#[export] Instance gx_raa_free_frees : Frees gx_raa_free blocks_GxRAA.
Proof. solve_frees. Qed.

#[export] Instance gx_rar_free_frees : Frees gx_rar_free blocks_GxRAR.
Proof. solve_frees. Qed.

(** Freeing a Gx message releases every array of its lists, those of the lists
    inside its structures and list elements included, each of them once, and leaves
    no list with an array. *)
Theorem gx_free_releases_all (rar : GxRAR) (raa : GxRAA) (cca : GxCCA) (ccr : GxCCR) :
  (snd (gx_rar_free rar) = blocks_GxRAR rar /\ blocks_GxRAR (fst (gx_rar_free rar)) = 0) /\
  (snd (gx_raa_free raa) = blocks_GxRAA raa /\ blocks_GxRAA (fst (gx_raa_free raa)) = 0) /\
  (snd (gx_cca_free cca) = blocks_GxCCA cca /\ blocks_GxCCA (fst (gx_cca_free cca)) = 0) /\
  (snd (gx_ccr_free ccr) = blocks_GxCCR ccr /\ blocks_GxCCR (fst (gx_ccr_free ccr)) = 0).
Proof. split_and!; apply frees. Qed.
