(* ===== verification/GxChannel.v ===== *)
(** * Gx messages between freeDiameter and the control plane (cp/gx_app/src/gx_cca.c,
    gx_rar.c, gx_app.c, cp/cp_app.c and cp/state_machine/sm_gx_pcnd.c)

    The Gx application turns a received Credit-Control-Answer or Re-Auth-Request into
    one message on a Unix stream socket: a type byte, a 16-bit length, the packed
    structure and, for a request, the pointer that its answer needs.  The control
    plane receives up to [BUFFSIZE] bytes at once and walks over the messages in
    them; the Gx application does the same in the other direction.

    - [gx_cca_cb] and [gx_rar_cb] are the callbacks up to the bytes they send.  An
      allocation that fails is dereferenced, and a failed packing frees the buffer of
      an answer twice: both are [OutOfBounds].
    - [gx_pcnd_decode] is what [gx_pcnd_check] reads from a message; the look-up of
      contexts and the state machine behind it are the argument [on_message] of the
      loops.
    - The loops have fuel; [None] means that it ran out. *)
From S2P Require Import Prelude GxMacros GxStruct GxPack GxWire GxCodec GxDict GxAvp GxParse GxParseOk.

Definition BUFFSIZE : Z := 50 * 1024.
Definition GX_HEADER_LEN : nat := 1 + 2.

Definition GX_RAR_MSG : Z := 0.
Definition GX_RAA_MSG : Z := 1.
Definition GX_CCR_MSG : Z := 2.
Definition GX_CCA_MSG : Z := 3.

(** The packed structure [gx_msg] without its union. *)
Definition gx_header (msg_type msg_len : Z) : list byte := byte_of_Z msg_type :: le_bytes 2 msg_len.

Section Callbacks.
Context {G : GxDict} {M : Malloc}.

Definition gx_cca_cb (msg : list avp) : res (list byte) :=
  let? d := gx_cca_parse msg in
  let buflen := gx_cca_calc_length d in
  let msg_len := u16 (buflen + Z.of_nat GX_HEADER_LEN) in
  if malloc_ok "uint8_t" (u32 (buflen + Z.of_nat GX_HEADER_LEN)) then
    match gx_cca_pack d (zeros (Z.to_nat buflen)) buflen with
    | Ok (true, buf) => Ok (gx_header GX_CCA_MSG msg_len ++ buf)
    | _ => OutOfBounds
    end
  else Ok [].

(** A failed packing is only reported. [rqst] is the value of the pointer. *)
Definition gx_rar_cb (msg : list avp) (rqst : Z) : res (list byte) :=
  let? d := gx_rar_parse msg in
  let buflen := gx_rar_calc_length d in
  let msg_len := u16 (buflen + Z.of_nat GX_HEADER_LEN + 8) in
  if malloc_ok "uint8_t" (buflen + Z.of_nat GX_HEADER_LEN + 8) then
    match gx_rar_pack d (zeros (Z.to_nat buflen)) buflen with
    | Ok (_, buf) => Ok (gx_header GX_RAR_MSG msg_len ++ buf ++ le_bytes 8 rqst)
    | _ => OutOfBounds
    end
  else OutOfBounds.
End Callbacks.

(** ** The control plane's reading of a message *)

Inductive gx_event : Type :=
| RcvdCCA (d : GxCCA)
| RcvdRAR (d : GxRAR) (rqst_ptr : Z)
| Discarded.

Section Decode.
Context {M : Malloc}.

(** [gx_rx] is the receive buffer from the message on. *)
Definition gx_pcnd_decode (gx_rx : list byte) : res gx_event :=
  let? t := mem_read gx_rx 0 1 in
  let body := drop GX_HEADER_LEN gx_rx in
  if bool_decide (le_val t = GX_CCA_MSG) then
    match gx_cca_unpack body with
    | Ok (true, d) => Ok (RcvdCCA d)
    | OutOfBounds => OutOfBounds
    | _ => Ok Discarded
    end
  else if bool_decide (le_val t = GX_RAR_MSG) then
    match gx_rar_unpack body with
    | Ok (true, d) =>
        let? ptr := mem_read gx_rx (Z.of_nat GX_HEADER_LEN + gx_rar_calc_length d) 8 in
        Ok (RcvdRAR d (le_val ptr))
    | OutOfBounds => OutOfBounds
    | _ => Ok Discarded
    end
  else Ok Discarded.
End Decode.

(** ** The receiving loops *)

Section Loop.
Context {S : Type} (on_message : S -> list byte -> res (S * Z)).

(** [while (bytes_rx > 0)] of [msg_handler_gx]: the cursor [msg_len] is a
    [uint16_t]; a message that failed ends the loop when it is the last.  The
    result is the state and the value returned. *)
Fixpoint msg_handler_gx_loop (fuel : nat) (recv_buf : list byte) (msg_len bytes_rx : Z) (s : S)
    : option (res (S * Z)) :=
  match fuel with
  | O => None
  | Datatypes.S fuel =>
      if bool_decide (bytes_rx <= 0) then Some (Ok (s, 0))
      else
        match mem_read recv_buf (msg_len + 1) 2 with
        | Ok l =>
            match on_message s (drop (Z.to_nat msg_len) recv_buf) with
            | Ok (s, ret) =>
                if bool_decide (ret <> 0 /\ bytes_rx = le_val l) then Some (Ok (s, -1))
                else msg_handler_gx_loop fuel recv_buf (u16 (msg_len + le_val l)) (bytes_rx - le_val l) s
            | _ => Some OutOfBounds
            end
        | _ => Some OutOfBounds
        end
  end.

(** The loop of [recv_msg_handler]: the cursor is an [int], nothing ends it early. *)
Fixpoint recv_msg_handler_loop (fuel : nat) (buf : list byte) (msg_len bytes_recv : Z) (s : S)
    : option (res S) :=
  match fuel with
  | O => None
  | Datatypes.S fuel =>
      if bool_decide (bytes_recv <= 0) then Some (Ok s)
      else
        match mem_read buf (msg_len + 1) 2 with
        | Ok l =>
            match on_message s (drop (Z.to_nat msg_len) buf) with
            | Ok (s, _) => recv_msg_handler_loop fuel buf (msg_len + le_val l) (bytes_recv - le_val l) s
            | _ => Some OutOfBounds
            end
        | _ => Some OutOfBounds
        end
  end.

(** [recv_buf[BUFFSIZE] = {0}] after a [recv] of [bytes]. *)
Definition received_in (n : nat) (bytes : list byte) : list byte := bytes ++ zeros (n - length bytes).

Definition received (bytes : list byte) : list byte := received_in (Z.to_nat BUFFSIZE) bytes.

Definition msg_handler_gx (fuel : nat) (bytes : list byte) (s : S) : option (res (S * Z)) :=
  msg_handler_gx_loop fuel (received bytes) 0 (Z.of_nat (length bytes)) s.

Definition recv_msg_handler (fuel : nat) (bytes : list byte) (s : S) : option (res S) :=
  recv_msg_handler_loop fuel (received bytes) 0 (Z.of_nat (length bytes)) s.
End Loop.

(** ** Messages in a buffer *)

(** A message whose header says how long it is. *)
Definition framed (f : list byte) : Prop :=
  exists t body, f = gx_header t (Z.of_nat (length f)) ++ body /\ Z.of_nat (length f) < 2 ^ 16.

(** Where the loops look for a header: after as many bytes as the headers before it
    announce. *)
Inductive message_at (buf : list byte) : Z -> Prop :=
| first_message : message_at buf 0
| next_message off l :
    message_at buf off -> mem_read buf (off + 1) 2 = Ok l -> message_at buf (off + le_val l).

(** One call per message, in their order, each with the buffer from that message on. *)
Fixpoint each_message {S} (on_message : S -> list byte -> res (S * Z)) (fs : list (list byte))
    (post : list byte) (s : S) : res S :=
  match fs with
  | [] => Ok s
  | f :: fs => let? r := on_message s (concat (f :: fs) ++ post) in each_message on_message fs post (fst r)
  end.

(** What the control plane reads, message after message. *)
Definition log_event {M : Malloc} (s : list gx_event) (gx_rx : list byte) : res (list gx_event * Z) :=
  let? e := gx_pcnd_decode gx_rx in Ok (s ++ [e], 0).

Inductive diameter_msg : Type :=
| DiameterCCA (msg : list avp)
| DiameterRAR (msg : list avp) (rqst : Z).

Definition gx_cb {G : GxDict} {M : Malloc} (m : diameter_msg) : res (list byte) :=
  match m with DiameterCCA msg => gx_cca_cb msg | DiameterRAR msg rqst => gx_rar_cb msg rqst end.

(** The AVPs of the message say what the event holds; its packed size fits [n] bytes. *)
Definition announces {G : GxDict} (n : Z) (m : diameter_msg) (e : gx_event) : Prop :=
  match m, e with
  | DiameterCCA msg, RcvdCCA d =>
      avps_GxCCA msg d /\ wf_GxCCA d = true /\ 4 + Z.of_nat (length (wire_GxCCA d)) + 3 <= n
  | DiameterRAR msg rqst, RcvdRAR d ptr =>
      avps_GxRAR msg d /\ wf_GxRAR d = true /\ 4 + Z.of_nat (length (wire_GxRAR d)) + 11 <= n /\
      0 <= rqst < 2 ^ 64 /\ ptr = rqst
  | _, _ => False
  end.

(** ** Headers *)

Lemma length_gx_header t l : length (gx_header t l) = GX_HEADER_LEN.
Proof. unfold gx_header. cbn [length]. by rewrite length_le_bytes. Qed.

Lemma drop_gx_header t l post : drop GX_HEADER_LEN (gx_header t l ++ post) = post.
Proof. by rewrite drop_app_length' by (by rewrite length_gx_header). Qed.

Lemma read_header_type t l post : 0 <= t < 256 ->
  mem_read (gx_header t l ++ post) 0 1 = Ok [byte_of_Z t].
Proof. intros _. exact (mem_read_app [] [byte_of_Z t] (le_bytes 2 l ++ post)). Qed.

Lemma read_header_len pre t l post :
  mem_read (pre ++ gx_header t l ++ post) (Z.of_nat (length pre) + 1) 2 = Ok (le_bytes 2 l).
Proof.
  pose proof (mem_read_app (pre ++ [byte_of_Z t]) (le_bytes 2 l) post) as E.
  rewrite <- !app_assoc, length_app, Nat2Z.inj_add, length_le_bytes in E. exact E.
Qed.

Lemma le_val_type t : 0 <= t < 256 -> le_val [byte_of_Z t] = t.
Proof. intros H. cbn [le_val]. rewrite byte_to_of_Z, wrap_small by (pow2; lia). lia. Qed.

Lemma framed_length f : framed f -> (GX_HEADER_LEN <= length f)%nat.
Proof. intros (t & body & -> & _). rewrite length_app, length_gx_header. lia. Qed.

Lemma framed_read pre f post : framed f ->
  exists l, mem_read (pre ++ f ++ post) (Z.of_nat (length pre) + 1) 2 = Ok l /\ le_val l = Z.of_nat (length f).
Proof.
  intros (t & body & Ef & Hlen). exists (le_bytes 2 (Z.of_nat (length f))). split.
  - rewrite Ef at 1. rewrite <- app_assoc. apply read_header_len.
  - apply le_val_small. change (256 ^ Z.of_nat 2) with (2 ^ 16). lia.
Qed.

Lemma received_app n bytes : received_in n bytes = [] ++ bytes ++ zeros (n - length bytes).
Proof. done. Qed.

(** ** The loops call the handler once per message *)

Section Loops.
Context {S : Type} (on_message : S -> list byte -> res (S * Z)).

Lemma gx_loop_messages fs : forall recv_buf pre post s s' fuel,
  recv_buf = pre ++ concat fs ++ post -> Forall framed fs -> Z.of_nat (length pre + length (concat fs)) < 2 ^ 16 ->
  each_message on_message fs post s = Ok s' -> (length fs < fuel)%nat ->
  exists ret, msg_handler_gx_loop on_message fuel recv_buf (Z.of_nat (length pre))
      (Z.of_nat (length (concat fs))) s = Some (Ok (s', ret)).
Proof.
  induction fs as [|f fs IH]; intros recv_buf pre post s s' fuel -> Hfs Hlen He Hfuel; destruct fuel as [|fuel]; try lia.
  { cbn. injection He as <-. eauto. }
  apply Forall_cons in Hfs as [Hf Hfs]. pose proof (framed_length f Hf) as Hf3. unfold GX_HEADER_LEN in Hf3.
  cbn [each_message] in He. apply res_bind_Ok in He as ([s1 ret1] & E1 & He). cbn [fst] in He.
  cbn [concat] in Hlen. rewrite length_app in Hlen.
  cbn [msg_handler_gx_loop concat]. rewrite length_app, bool_decide_false by lia.
  rewrite <- !app_assoc. destruct (framed_read pre f (concat fs ++ post) Hf) as (l & -> & El).
  rewrite Nat2Z.id, drop_app_length. cbn [concat] in E1. rewrite <- app_assoc in E1. rewrite E1, El.
  case_bool_decide as Hlast.
  - destruct fs as [|f' fs].
    + cbn in He. injection He as <-. eauto.
    + pose proof (framed_length f' (Forall_inv Hfs)) as H3. unfold GX_HEADER_LEN in H3.
      cbn [concat] in Hlast. rewrite length_app in Hlast. lia.
  - rewrite wrap_small by (pow2; lia).
    pose proof (IH (pre ++ f ++ concat fs ++ post) (pre ++ f) post s1 s' fuel) as IH'.
    rewrite length_app, <- app_assoc in IH'.
    replace (Z.of_nat (length pre) + Z.of_nat (length f)) with (Z.of_nat (length pre + length f)) by lia.
    replace (Z.of_nat (length f + length (concat fs)) - Z.of_nat (length f))
      with (Z.of_nat (length (concat fs))) by lia.
    apply IH'; [done|done|lia|done|cbn in Hfuel; lia].
Qed.

Lemma recv_loop_messages fs : forall buf pre post s s' fuel,
  buf = pre ++ concat fs ++ post -> Forall framed fs -> each_message on_message fs post s = Ok s' -> (length fs < fuel)%nat ->
  recv_msg_handler_loop on_message fuel buf (Z.of_nat (length pre))
      (Z.of_nat (length (concat fs))) s = Some (Ok s').
Proof.
  induction fs as [|f fs IH]; intros buf pre post s s' fuel -> Hfs He Hfuel; destruct fuel as [|fuel]; try lia.
  { cbn. by injection He as <-. }
  apply Forall_cons in Hfs as [Hf Hfs]. pose proof (framed_length f Hf) as Hf3. unfold GX_HEADER_LEN in Hf3.
  cbn [each_message] in He. apply res_bind_Ok in He as ([s1 ret1] & E1 & He). cbn [fst] in He.
  cbn [recv_msg_handler_loop concat]. rewrite length_app, bool_decide_false by lia.
  rewrite <- !app_assoc. destruct (framed_read pre f (concat fs ++ post) Hf) as (l & -> & El).
  rewrite Nat2Z.id, drop_app_length. cbn [concat] in E1. rewrite <- app_assoc in E1. rewrite E1, El.
  pose proof (IH (pre ++ f ++ concat fs ++ post) (pre ++ f) post s1 s' fuel) as IH'.
  rewrite length_app, <- app_assoc in IH'.
  replace (Z.of_nat (length pre) + Z.of_nat (length f)) with (Z.of_nat (length pre + length f)) by lia.
  replace (Z.of_nat (length f + length (concat fs)) - Z.of_nat (length f))
    with (Z.of_nat (length (concat fs))) by lia.
  apply IH'; [done|done|done|cbn in Hfuel; lia].
Qed.

(** Every round takes the length of a header off [bytes_rx]. *)
Lemma gx_loop_terminates buf n :
  n < 2 ^ 16 ->
  (forall off l, message_at buf off -> off < n -> mem_read buf (off + 1) 2 = Ok l -> 0 < le_val l) ->
  forall fuel off bytes_rx s, Z.max 0 bytes_rx < Z.of_nat fuel ->
  (0 < bytes_rx -> message_at buf off /\ 0 <= off /\ bytes_rx = n - off) ->
  msg_handler_gx_loop on_message fuel buf off bytes_rx s <> None /\
  recv_msg_handler_loop on_message fuel buf off bytes_rx s <> None.
Proof.
  intros Hn Hpos fuel. induction fuel as [|fuel IH]; intros off bytes_rx s Hfuel Hat; [lia|].
  cbn [msg_handler_gx_loop recv_msg_handler_loop]. case_bool_decide; [done|].
  destruct Hat as (Hat & Hoff & ->); [lia|].
  destruct (mem_read buf _ _) as [l| |] eqn:El; [|done..].
  pose proof (Hpos off l Hat ltac:(lia) El) as Hl.
  destruct (on_message _ _) as [[s1 ret]| |]; [|done..].
  assert (0 < n - off - le_val l ->
    message_at buf (off + le_val l) /\ 0 <= off + le_val l /\ n - off - le_val l = n - (off + le_val l)) as Hnext.
  { intros _. split; [by apply next_message|lia]. }
  split; [case_bool_decide; [done|]|]; apply IH; try lia; [|done].
  intros H'. rewrite wrap_small by lia. by apply Hnext.
Qed.

(** A message of length 0 is handled again and again. *)
Lemma gx_loop_stuck recv_buf bytes_rx l :
  mem_read recv_buf 1 2 = Ok l -> le_val l = 0 -> 0 < bytes_rx ->
  (forall s, exists s' ret, on_message s recv_buf = Ok (s', ret)) ->
  forall fuel s, msg_handler_gx_loop on_message fuel recv_buf 0 bytes_rx s = None /\
    recv_msg_handler_loop on_message fuel recv_buf 0 bytes_rx s = None.
Proof.
  intros El Hl Hrx Hok fuel. induction fuel as [|fuel IH]; intros s; [done|].
  cbn [msg_handler_gx_loop recv_msg_handler_loop]. rewrite bool_decide_false by lia.
  change (0 + 1) with 1. rewrite El. change (drop (Z.to_nat 0) recv_buf) with recv_buf.
  destruct (Hok s) as (s' & ret & ->). rewrite Hl, bool_decide_false, Z.sub_0_r by lia.
  apply IH.
Qed.
End Loops.

(** ** The callbacks send what the control plane reads *)

Section Delivery.
Context {G : GxDict} {HG : GxDictOk G} {M : Malloc} {HM : MallocOk M}.

Lemma gx_header_framed t n body :
  Z.of_nat (length body) + 3 = n -> n < 2 ^ 16 -> framed (gx_header t (u16 n) ++ body).
Proof.
  intros Hn H16. exists t, body. rewrite length_app, length_gx_header. unfold GX_HEADER_LEN.
  rewrite wrap_small by lia. split; [|lia]. do 2 f_equal. lia.
Qed.

Lemma decode_header t l body : 0 <= t < 256 ->
  gx_pcnd_decode (gx_header t l ++ body) =
  if bool_decide (t = GX_CCA_MSG) then
    match gx_cca_unpack body with
    | Ok (true, d) => Ok (RcvdCCA d) | OutOfBounds => OutOfBounds | _ => Ok Discarded
    end
  else if bool_decide (t = GX_RAR_MSG) then
    match gx_rar_unpack body with
    | Ok (true, d) =>
        let? ptr := mem_read (gx_header t l ++ body) (Z.of_nat GX_HEADER_LEN + gx_rar_calc_length d) 8 in
        Ok (RcvdRAR d (le_val ptr))
    | OutOfBounds => OutOfBounds
    | _ => Ok Discarded
    end
  else Ok Discarded.
Proof.
  intros Ht. unfold gx_pcnd_decode. rewrite read_header_type by done. cbn [res_bind].
  by rewrite le_val_type, drop_gx_header.
Qed.

Lemma cca_sent msg d :
  avps_GxCCA msg d -> wf_GxCCA d = true -> 4 + Z.of_nat (length (wire_GxCCA d)) < 2 ^ 32 ->
  exists buf, gx_cca_cb msg = Ok (gx_header GX_CCA_MSG (u16 (Z.of_nat (length buf) + 3)) ++ buf) /\
    Z.of_nat (length buf) = 4 + Z.of_nat (length (wire_GxCCA d)) /\
    forall post, gx_cca_unpack (buf ++ post) = Ok (true, d).
Proof.
  intros Ha Hwf Hlen. destruct (GxCCA_codes d Hwf Hlen) as (Hc & _).
  destruct (gx_cca_exchange d Hwf Hlen) as (buf & Hp & Hb & Hu).
  rewrite Hc, length_wire_message in Hb.
  exists buf. split; [|split; [lia|done]].
  unfold gx_cca_cb. rewrite (gx_cca_parse_reads msg d Ha). cbn [res_bind].
  rewrite malloc_succeeds by (apply wrap_range; lia). rewrite Hp, Hc, length_wire_message.
  do 4 f_equal. unfold GX_HEADER_LEN. lia.
Qed.

Lemma rar_sent msg rqst d :
  avps_GxRAR msg d -> wf_GxRAR d = true -> 4 + Z.of_nat (length (wire_GxRAR d)) < 2 ^ 32 ->
  exists buf, gx_rar_cb msg rqst =
      Ok (gx_header GX_RAR_MSG (u16 (Z.of_nat (length buf) + 3 + 8)) ++ buf ++ le_bytes 8 rqst) /\
    Z.of_nat (length buf) = 4 + Z.of_nat (length (wire_GxRAR d)) /\
    gx_rar_calc_length d = Z.of_nat (length buf) /\
    forall post, gx_rar_unpack (buf ++ post) = Ok (true, d).
Proof.
  intros Ha Hwf Hlen. destruct (GxRAR_codes d Hwf Hlen) as (Hc & _).
  destruct (gx_rar_exchange d Hwf Hlen) as (buf & Hp & Hb & Hu).
  pose proof Hb as Hb'. rewrite Hc, length_wire_message in Hb'.
  exists buf. split; [|split; [lia|split; [done|done]]].
  unfold gx_rar_cb. rewrite (gx_rar_parse_reads msg d Ha). cbn [res_bind].
  rewrite malloc_succeeds by (rewrite Hc; lia). rewrite Hp, <- Hb. done.
Qed.

(** One message: framed, as long as announced, and read back whatever follows it. *)
Lemma gx_cb_announced n m e : n < 2 ^ 16 -> announces n m e ->
  exists f, gx_cb m = Ok f /\ framed f /\ Z.of_nat (length f) <= n /\
    forall post, gx_pcnd_decode (f ++ post) = Ok e.
Proof.
  intros Hn H. destruct m as [msg|msg rqst], e as [d|d ptr|]; try done; cbn [announces gx_cb] in *.
  - destruct H as (Ha & Hwf & Hlen).
    destruct (cca_sent msg d Ha Hwf) as (buf & -> & Hb & Hu); [pow2; lia|].
    eexists. split; [done|]. split; [apply gx_header_framed; lia|]. split.
    { rewrite length_app, length_gx_header. unfold GX_HEADER_LEN. lia. }
    intros post. rewrite <- app_assoc, decode_header by done. by rewrite bool_decide_true, Hu by done.
  - destruct H as (Ha & Hwf & Hlen & Hr & ->).
    destruct (rar_sent msg rqst d Ha Hwf) as (buf & -> & Hb & Hc & Hu); [pow2; lia|].
    eexists. split; [done|]. split.
    { apply gx_header_framed; [rewrite length_app, length_le_bytes|]; lia. } split.
    { rewrite !length_app, length_gx_header, length_le_bytes. unfold GX_HEADER_LEN. lia. }
    intros post. rewrite <- !app_assoc, decode_header by done.
    rewrite bool_decide_false, bool_decide_true, Hu, Hc by done.
    pose proof (mem_read_app (gx_header GX_RAR_MSG (u16 (Z.of_nat (length buf) + 3 + 8)) ++ buf)
      (le_bytes 8 rqst) post) as E.
    rewrite <- app_assoc, length_app, length_gx_header, Nat2Z.inj_add, length_le_bytes in E.
    change (Z.of_nat 8) with 8 in E. rewrite E. cbn [res_bind].
    rewrite le_val_small by (change (256 ^ Z.of_nat 8) with (2 ^ 64); done). done.
Qed.

Lemma gx_cb_all n ms es : n < 2 ^ 16 -> Forall2 (announces n) ms es ->
  exists fs, Forall2 (fun m f => gx_cb m = Ok f) ms fs /\ Forall framed fs /\
    Forall (fun f => Z.of_nat (length f) <= n) fs /\
    forall post s, each_message log_event fs post s = Ok (s ++ es).
Proof.
  intros Hn H. induction H as [|m e ms es Hm _ IH].
  { exists []. split_and!; [constructor..|]. intros post s. cbn. by rewrite app_nil_r. }
  destruct IH as (fs & H1 & H2 & H3 & H4). destruct (gx_cb_announced n m e Hn Hm) as (f & F1 & F2 & F3 & F4).
  exists (f :: fs). split_and!; [by constructor..|].
  intros post s. cbn [each_message concat]. unfold log_event at 1. rewrite <- app_assoc, F4. cbn [res_bind fst].
  rewrite H4. by rewrite <- app_assoc.
Qed.
End Delivery.

(** ** Properties *)

(** C34. From Diameter to the control plane: answers and requests whose AVPs announce
    structures are packed, sent, received together and read back as those structures,
    one after the other in the order of their sending, as long as they fit the receive
    buffer; a request comes with the pointer its answer needs. *)
Theorem gx_messages_delivered_in_order {G : GxDict} {HG : GxDictOk G} {M : Malloc} {HM : MallocOk M} ms es :
  Forall2 (announces BUFFSIZE) ms es ->
  exists fs, Forall2 (fun m f => gx_cb m = Ok f) ms fs /\
    (Z.of_nat (length (concat fs)) <= BUFFSIZE ->
     exists ret, msg_handler_gx log_event (S (length ms)) (concat fs) [] = Some (Ok (es, ret))).
Proof.
  intros H. destruct (gx_cb_all BUFFSIZE ms es) as (fs & H1 & H2 & _ & H4); [done|done|].
  exists fs. split; [done|]. intros Hlen. unfold BUFFSIZE in Hlen.
  destruct (gx_loop_messages log_event fs _ [] _ [] es (S (length ms)) (received_app (Z.to_nat BUFFSIZE) (concat fs)) H2)
    as [ret E].
  - cbn [length Nat.add]. pow2. lia.
  - apply H4.
  - rewrite (Forall2_length _ _ _ H1). lia.
  - exists ret. unfold msg_handler_gx. change (Z.of_nat (length (A := byte) [])) with 0 in E. exact E.
Qed.

(** The receiving loops of both programs end after at most one round per received
    byte when none of the messages they come to announces the length 0.  When the first one
    does, they handle it for ever; and a Credit-Control-Answer that packs to 65533
    bytes announces exactly that, its length being kept in 16 bits. *)
Theorem gx_receive_loops_terminate {S} (on_message : S -> list byte -> res (S * Z)) bytes s :
  (Z.of_nat (length bytes) <= BUFFSIZE ->
   (forall off l, message_at (received bytes) off -> off < Z.of_nat (length bytes) ->
      mem_read (received bytes) (off + 1) 2 = Ok l -> 0 < le_val l) ->
   msg_handler_gx on_message (Datatypes.S (length bytes)) bytes s <> None /\
   recv_msg_handler on_message (Datatypes.S (length bytes)) bytes s <> None) /\
  (forall l, mem_read (received bytes) 1 2 = Ok l -> le_val l = 0 -> bytes <> [] ->
   (forall s, exists s' ret, on_message s (received bytes) = Ok (s', ret)) ->
   forall fuel, msg_handler_gx on_message fuel bytes s = None /\ recv_msg_handler on_message fuel bytes s = None) /\
  (forall (G : GxDict) (HG : GxDictOk G) (M : Malloc) (HM : MallocOk M) msg d,
   avps_GxCCA msg d -> wf_GxCCA d = true -> 4 + Z.of_nat (length (wire_GxCCA d)) = 65533 ->
   exists body, gx_cca_cb msg = Ok (gx_header GX_CCA_MSG 0 ++ body)).
Proof.
  split_and!.
  - intros Hlen Hpos. apply (gx_loop_terminates on_message _ (Z.of_nat (length bytes))).
    + unfold BUFFSIZE in Hlen. pow2. lia.
    + done.
    + lia.
    + intros _. split; [apply first_message|lia].
  - intros l El Hl Hb Hok fuel. apply (gx_loop_stuck on_message _ _ l); try done.
    clear - Hb. destruct bytes; [congruence|cbn [length]; lia].
  - intros G HG M HM msg d Ha Hwf Hlen.
    destruct (cca_sent msg d Ha Hwf) as (buf & -> & Hb & _); [pow2; lia|].
    exists buf. by rewrite Hb, Hlen.
Qed.

(** ** Witnesses *)

#[local] Instance malloc_any : Malloc := fun _ _ => true.
#[local] Instance malloc_any_ok : MallocOk malloc_any.
Proof. done. Qed.

Lemma sample_rar_announced : announces BUFFSIZE (DiameterRAR sample_rar_avps 77) (RcvdRAR sample_received_rar 77).
Proof.
  split; [exact sample_rar_says|]. split; [vm_compute; reflexivity|].
  split; [vm_compute; discriminate|split; [split; [discriminate|reflexivity]|reflexivity]].
Qed.

Lemma sample_cca_announced : announces BUFFSIZE (DiameterCCA sample_cca_avps) (RcvdCCA sample_received_cca).
Proof.
  split; [exact sample_cca_says|]. split; [vm_compute; reflexivity|vm_compute; discriminate].
Qed.

Example gx_messages_delivered_in_order_witness :
  exists fs ret, map length fs = [45%nat; 24%nat] /\
    msg_handler_gx log_event 3 (concat fs) [] =
      Some (Ok ([RcvdRAR sample_received_rar 77; RcvdCCA sample_received_cca], ret)).
Proof.
  destruct (gx_messages_delivered_in_order [DiameterRAR sample_rar_avps 77; DiameterCCA sample_cca_avps]
    [RcvdRAR sample_received_rar 77; RcvdCCA sample_received_cca]) as (fs & Hfs & H).
  { constructor; [exact sample_rar_announced|]. constructor; [exact sample_cca_announced|]. constructor. }
  inversion Hfs as [|m1 f1 ms1 fs1 E1 Hfs1]; subst. inversion Hfs1 as [|m2 f2 ms2 fs2 E2 Hfs2]; subst.
  inversion Hfs2; subst. vm_compute in E1, E2. injection E1 as <-. injection E2 as <-.
  destruct H as [ret H]; [vm_compute; discriminate|].
  eexists _, ret. split; [|exact H]. reflexivity.
Defined.

(** Two messages: their headers are the only ones. *)
Lemma two_messages_at off :
  message_at (received [x03; x04; x00; x01; x00; x03; x00]) off -> off = 0 \/ off = 4 \/ 7 <= off.
Proof.
  induction 1 as [|off l _ IH Hl]; [by left|]. pose proof (le_val_range l).
  destruct IH as [->|[->|IH]]; [| |lia].
  - vm_compute in Hl. injection Hl as <-. by right; left.
  - vm_compute in Hl. injection Hl as <-. right; right. vm_compute. discriminate.
Qed.

Example gx_receive_loops_terminate_witness :
  msg_handler_gx (fun s _ => Ok (s + 1, 0)) 8 [x03; x04; x00; x01; x00; x03; x00] 5 <> None /\
  (forall fuel, msg_handler_gx (fun s _ => Ok (s + 1, 0)) fuel [x03; x00; x00; x07] 5 = None).
Proof.
  split.
  - refine (proj1 (proj1 (gx_receive_loops_terminate (fun s _ => Ok (s + 1, 0)) [x03; x04; x00; x01; x00; x03; x00] 5) _ _)).
    + vm_compute. discriminate.
    + intros off l [->|[->|H7]]%two_messages_at Hoff Hl; [| |cbn in Hoff; lia];
        vm_compute in Hl; injection Hl as <-; reflexivity.
  - intros fuel. refine (proj1 (proj1 (proj2 (gx_receive_loops_terminate (fun s _ => Ok (s + 1, 0)) [x03; x00; x00; x07] 5))
      [x00; x00] _ _ _ _ fuel)); [vm_compute; reflexivity|reflexivity|discriminate|eauto].
Defined.
