(* ===== verification/SmTable.v ===== *)
(** * The tables of the control plane's state machine (cp/state_machine/sm_enum.h, sm_arr.h
    and the names of sm_init.c)

    For each mode of the gateway (SGW-C, PGW-C, SAEGW-C) a three-dimensional array of
    function pointers says which handler runs for a procedure, a state and an event.
    A function pointer is a constructor of [Fn.event_handler]; an element that the
    initializer does not give is [NULL], here a missing element of a list.

    Every row of the arrays has [process_rpt_req_handler] at
    [PFCP_SESS_RPT_REQ_RCVD_EVNT]; [procedure n rows] has [n] rows that are
    [process_default_handler] everywhere else, but for the elements that [rows] lists
    under their state. *)
From S2P Require Import Prelude CText.

Inductive sm_proc : Set :=
| NONE_PROC | INITIAL_PDN_ATTACH_PROC | SERVICE_REQUEST_PROC | SGW_RELOCATION_PROC
  | CONN_SUSPEND_PROC | DETACH_PROC | DED_BER_ACTIVATION_PROC | PDN_GW_INIT_BEARER_DEACTIVATION
  | MME_INI_DEDICATED_BEARER_DEACTIVATION_PROC | UPDATE_BEARER_PROC | RESTORATION_RECOVERY_PROC
  | MODIFY_BEARER_PROCEDURE | ATTACH_DEDICATED_PROC | MODIFY_ACCESS_BEARER_PROC
  | CHANGE_NOTIFICATION_PROC | UPDATE_PDN_CONNECTION_PROC | UE_REQ_BER_RSRC_MOD_PROC
  | HSS_INITIATED_SUB_QOS_MOD | S1_HANDOVER_PROC | CREATE_INDIRECT_TUNNEL_PROC
  | DELETE_INDIRECT_TUNNEL_PROC | END_PROC.

Definition proc_code (x : sm_proc) : Z :=
  match x with
  | NONE_PROC => 0 | INITIAL_PDN_ATTACH_PROC => 1 | SERVICE_REQUEST_PROC => 2
  | SGW_RELOCATION_PROC => 3 | CONN_SUSPEND_PROC => 4 | DETACH_PROC => 5
  | DED_BER_ACTIVATION_PROC => 6 | PDN_GW_INIT_BEARER_DEACTIVATION => 7
  | MME_INI_DEDICATED_BEARER_DEACTIVATION_PROC => 8 | UPDATE_BEARER_PROC => 9
  | RESTORATION_RECOVERY_PROC => 10 | MODIFY_BEARER_PROCEDURE => 11 | ATTACH_DEDICATED_PROC => 12
  | MODIFY_ACCESS_BEARER_PROC => 13 | CHANGE_NOTIFICATION_PROC => 14
  | UPDATE_PDN_CONNECTION_PROC => 15 | UE_REQ_BER_RSRC_MOD_PROC => 16
  | HSS_INITIATED_SUB_QOS_MOD => 17 | S1_HANDOVER_PROC => 18 | CREATE_INDIRECT_TUNNEL_PROC => 19
  | DELETE_INDIRECT_TUNNEL_PROC => 20 | END_PROC => 21
  end.

Coercion proc_code : sm_proc >-> Z.

Inductive sm_state : Set :=
| SGWC_NONE_STATE | PFCP_ASSOC_REQ_SNT_STATE | PFCP_ASSOC_RESP_RCVD_STATE
  | PFCP_SESS_EST_REQ_SNT_STATE | PFCP_SESS_EST_RESP_RCVD_STATE | CONNECTED_STATE | IDEL_STATE
  | CS_REQ_SNT_STATE | CS_RESP_RCVD_STATE | PFCP_SESS_MOD_REQ_SNT_STATE
  | PFCP_SESS_MOD_RESP_RCVD_STATE | PFCP_SESS_DEL_REQ_SNT_STATE | PFCP_SESS_DEL_RESP_RCVD_STATE
  | DS_REQ_SNT_STATE | DS_RESP_RCVD_STATE | DDN_REQ_SNT_STATE | DDN_ACK_RCVD_STATE
  | MBR_REQ_SNT_STATE | MBR_RESP_RCVD_STATE | CREATE_BER_REQ_SNT_STATE | RE_AUTH_ANS_SNT_STATE
  | PGWC_NONE_STATE | CCR_SNT_STATE | CREATE_BER_RESP_SNT_STATE | PFCP_PFD_MGMT_RESP_RCVD_STATE
  | ERROR_OCCURED_STATE | UPDATE_BEARER_REQ_SNT_STATE | UPDATE_BEARER_RESP_SNT_STATE
  | DELETE_BER_REQ_SNT_STATE | CCRU_SNT_STATE | PGW_RSTRT_NOTIF_REQ_SNT_STATE
  | UPD_PDN_CONN_SET_REQ_SNT_STATE | DEL_PDN_CONN_SET_REQ_SNT_STATE
  | DEL_PDN_CONN_SET_REQ_RCVD_STATE | PFCP_SESS_SET_DEL_REQ_SNT_STATE
  | PFCP_SESS_SET_DEL_REQ_RCVD_STATE | DNS_SENT_STATE | PROVISION_ACK_SNT_STATE | END_STATE.

Definition state_code (x : sm_state) : Z :=
  match x with
  | SGWC_NONE_STATE => 0 | PFCP_ASSOC_REQ_SNT_STATE => 1 | PFCP_ASSOC_RESP_RCVD_STATE => 2
  | PFCP_SESS_EST_REQ_SNT_STATE => 3 | PFCP_SESS_EST_RESP_RCVD_STATE => 4 | CONNECTED_STATE => 5
  | IDEL_STATE => 6 | CS_REQ_SNT_STATE => 7 | CS_RESP_RCVD_STATE => 8
  | PFCP_SESS_MOD_REQ_SNT_STATE => 9 | PFCP_SESS_MOD_RESP_RCVD_STATE => 10
  | PFCP_SESS_DEL_REQ_SNT_STATE => 11 | PFCP_SESS_DEL_RESP_RCVD_STATE => 12
  | DS_REQ_SNT_STATE => 13 | DS_RESP_RCVD_STATE => 14 | DDN_REQ_SNT_STATE => 15
  | DDN_ACK_RCVD_STATE => 16 | MBR_REQ_SNT_STATE => 17 | MBR_RESP_RCVD_STATE => 18
  | CREATE_BER_REQ_SNT_STATE => 19 | RE_AUTH_ANS_SNT_STATE => 20 | PGWC_NONE_STATE => 21
  | CCR_SNT_STATE => 22 | CREATE_BER_RESP_SNT_STATE => 23 | PFCP_PFD_MGMT_RESP_RCVD_STATE => 24
  | ERROR_OCCURED_STATE => 25 | UPDATE_BEARER_REQ_SNT_STATE => 26
  | UPDATE_BEARER_RESP_SNT_STATE => 27 | DELETE_BER_REQ_SNT_STATE => 28 | CCRU_SNT_STATE => 29
  | PGW_RSTRT_NOTIF_REQ_SNT_STATE => 30 | UPD_PDN_CONN_SET_REQ_SNT_STATE => 31
  | DEL_PDN_CONN_SET_REQ_SNT_STATE => 32 | DEL_PDN_CONN_SET_REQ_RCVD_STATE => 33
  | PFCP_SESS_SET_DEL_REQ_SNT_STATE => 34 | PFCP_SESS_SET_DEL_REQ_RCVD_STATE => 35
  | DNS_SENT_STATE => 36 | PROVISION_ACK_SNT_STATE => 37 | END_STATE => 38
  end.

Coercion state_code : sm_state >-> Z.

Inductive sm_event : Set :=
| NONE_EVNT | CS_REQ_RCVD_EVNT | PFCP_ASSOC_SETUP_SNT_EVNT | PFCP_ASSOC_SETUP_RESP_RCVD_EVNT
  | PFCP_SESS_EST_REQ_RCVD_EVNT | PFCP_SESS_EST_RESP_RCVD_EVNT | CS_RESP_RCVD_EVNT
  | MB_REQ_RCVD_EVNT | PFCP_SESS_MOD_REQ_RCVD_EVNT | PFCP_SESS_MOD_RESP_RCVD_EVNT
  | MB_RESP_RCVD_EVNT | REL_ACC_BER_REQ_RCVD_EVNT | DS_REQ_RCVD_EVNT | PFCP_SESS_DEL_REQ_RCVD_EVNT
  | PFCP_SESS_DEL_RESP_RCVD_EVNT | DS_RESP_RCVD_EVNT | ECHO_REQ_RCVD_EVNT | ECHO_RESP_RCVD_EVNT
  | DDN_ACK_RESP_RCVD_EVNT | PFCP_SESS_RPT_REQ_RCVD_EVNT | RE_AUTH_REQ_RCVD_EVNT
  | CREATE_BER_RESP_RCVD_EVNT | CCA_RCVD_EVNT | CREATE_BER_REQ_RCVD_EVNT
  | PFCP_PFD_MGMT_RESP_RCVD_EVNT | ERROR_OCCURED_EVNT | UPDATE_BEARER_REQ_RCVD_EVNT
  | UPDATE_BEARER_RSP_RCVD_EVNT | DELETE_BER_REQ_RCVD_EVNT | DELETE_BER_RESP_RCVD_EVNT
  | DELETE_BER_CMD_RCVD_EVNT | CCAU_RCVD_EVNT | PGW_RSTRT_NOTIF_ACK_RCVD_EVNT
  | UPD_PDN_CONN_SET_REQ_RCVD_EVNT | UPD_PDN_CONN_SET_RESP_RCVD_EVNT
  | DEL_PDN_CONN_SET_REQ_RCVD_EVNT | DEL_PDN_CONN_SET_RESP_RCVD_EVNT
  | PFCP_SESS_SET_DEL_REQ_RCVD_EVNT | PFCP_SESS_SET_DEL_RESP_RCVD_EVNT
  | CHANGE_NOTIFICATION_REQ_RCVD_EVNT | CHANGE_NOTIFICATION_RSP_RCVD_EVNT
  | BEARER_RSRC_CMD_RCVD_EVNT | MODIFY_BEARER_CMD_RCVD_EVNT
  | CREATE_INDIR_DATA_FRWRD_TUN_REQ_RCVD_EVNT | DELETE_INDIR_DATA_FRWD_TUN_REQ_RCVD_EVNT
  | MAB_REQ_RCVD_EVNT | DDN_FAILURE_INDIC_EVNT | END_EVNT.

Definition event_code (x : sm_event) : Z :=
  match x with
  | NONE_EVNT => 0 | CS_REQ_RCVD_EVNT => 1 | PFCP_ASSOC_SETUP_SNT_EVNT => 2
  | PFCP_ASSOC_SETUP_RESP_RCVD_EVNT => 3 | PFCP_SESS_EST_REQ_RCVD_EVNT => 4
  | PFCP_SESS_EST_RESP_RCVD_EVNT => 5 | CS_RESP_RCVD_EVNT => 6 | MB_REQ_RCVD_EVNT => 7
  | PFCP_SESS_MOD_REQ_RCVD_EVNT => 8 | PFCP_SESS_MOD_RESP_RCVD_EVNT => 9 | MB_RESP_RCVD_EVNT => 10
  | REL_ACC_BER_REQ_RCVD_EVNT => 11 | DS_REQ_RCVD_EVNT => 12 | PFCP_SESS_DEL_REQ_RCVD_EVNT => 13
  | PFCP_SESS_DEL_RESP_RCVD_EVNT => 14 | DS_RESP_RCVD_EVNT => 15 | ECHO_REQ_RCVD_EVNT => 16
  | ECHO_RESP_RCVD_EVNT => 17 | DDN_ACK_RESP_RCVD_EVNT => 18 | PFCP_SESS_RPT_REQ_RCVD_EVNT => 19
  | RE_AUTH_REQ_RCVD_EVNT => 20 | CREATE_BER_RESP_RCVD_EVNT => 21 | CCA_RCVD_EVNT => 22
  | CREATE_BER_REQ_RCVD_EVNT => 23 | PFCP_PFD_MGMT_RESP_RCVD_EVNT => 24 | ERROR_OCCURED_EVNT => 25
  | UPDATE_BEARER_REQ_RCVD_EVNT => 26 | UPDATE_BEARER_RSP_RCVD_EVNT => 27
  | DELETE_BER_REQ_RCVD_EVNT => 28 | DELETE_BER_RESP_RCVD_EVNT => 29
  | DELETE_BER_CMD_RCVD_EVNT => 30 | CCAU_RCVD_EVNT => 31 | PGW_RSTRT_NOTIF_ACK_RCVD_EVNT => 32
  | UPD_PDN_CONN_SET_REQ_RCVD_EVNT => 33 | UPD_PDN_CONN_SET_RESP_RCVD_EVNT => 34
  | DEL_PDN_CONN_SET_REQ_RCVD_EVNT => 35 | DEL_PDN_CONN_SET_RESP_RCVD_EVNT => 36
  | PFCP_SESS_SET_DEL_REQ_RCVD_EVNT => 37 | PFCP_SESS_SET_DEL_RESP_RCVD_EVNT => 38
  | CHANGE_NOTIFICATION_REQ_RCVD_EVNT => 39 | CHANGE_NOTIFICATION_RSP_RCVD_EVNT => 40
  | BEARER_RSRC_CMD_RCVD_EVNT => 41 | MODIFY_BEARER_CMD_RCVD_EVNT => 42
  | CREATE_INDIR_DATA_FRWRD_TUN_REQ_RCVD_EVNT => 43
  | DELETE_INDIR_DATA_FRWD_TUN_REQ_RCVD_EVNT => 44 | MAB_REQ_RCVD_EVNT => 45
  | DDN_FAILURE_INDIC_EVNT => 46 | END_EVNT => 47
  end.

Coercion event_code : sm_event >-> Z.

(** ** Names *)

(** A [switch] whose cases copy a literal. *)
Definition name_of (cases : list (Z * string)) (default : string) (value : Z) : text :=
  match List.find (fun c => value =? c.1) cases with
  | Some c => lit c.2
  | None => lit default
  end.

Definition get_proc_string (value : Z) : text :=
  name_of
    [(NONE_PROC : Z, "NONE_PROC"); (INITIAL_PDN_ATTACH_PROC : Z, "INITIAL_PDN_ATTACH_PROC");
     (SERVICE_REQUEST_PROC : Z, "SERVICE_REQUEST_PROC");
     (SGW_RELOCATION_PROC : Z, "SGW_RELOCATION_PROC"); (S1_HANDOVER_PROC : Z, "S1_HANDOVER_PROC");
     (CONN_SUSPEND_PROC : Z, "CONN_SUSPEND_PROC"); (DETACH_PROC : Z, "DETACH_PROC");
     (DED_BER_ACTIVATION_PROC : Z, "DED_BER_ACTIVATION_PROC");
     (PDN_GW_INIT_BEARER_DEACTIVATION : Z, "PDN_GW_INIT_BEARER_DEACTIVATION");
     (MME_INI_DEDICATED_BEARER_DEACTIVATION_PROC : Z, "MME_INI_DEDICATED_BEARER_DEACTIVATION_PROC");
     (UPDATE_BEARER_PROC : Z, "UPDATE_BEARER_PROC");
     (RESTORATION_RECOVERY_PROC : Z, "RESTORATION_RECOVERY_PROC");
     (MODIFY_BEARER_PROCEDURE : Z, "MODIFY_BEARER_PROCEDURE");
     (ATTACH_DEDICATED_PROC : Z, "ATTACH_DEDICATED_PROC");
     (MODIFY_ACCESS_BEARER_PROC : Z, "MODIFY ACCESS Bearer Response");
     (CHANGE_NOTIFICATION_PROC : Z, "CHANGE_NOTIFICATION_PROC");
     (UPDATE_PDN_CONNECTION_PROC : Z, "UPDATE_PDN_CONNECTION_PROC");
     (UE_REQ_BER_RSRC_MOD_PROC : Z, "UE_REQ_BEARER_MOD_PROC");
     (CREATE_INDIRECT_TUNNEL_PROC : Z, "CREATE_INDIRECT_TUNNEL_PROC");
     (DELETE_INDIRECT_TUNNEL_PROC : Z, "DELETE_INDIRECT_TUNNEL_PROC"); (END_PROC : Z, "END_PROC")]
    "UNDEFINED PROC" value.

Definition get_state_string (value : Z) : text :=
  name_of
    [(SGWC_NONE_STATE : Z, "SGWC_NONE_STATE");
     (PFCP_ASSOC_REQ_SNT_STATE : Z, "PFCP_ASSOC_REQ_SNT_STATE");
     (PFCP_ASSOC_RESP_RCVD_STATE : Z, "PFCP_ASSOC_RESP_RCVD_STATE");
     (PFCP_SESS_EST_REQ_SNT_STATE : Z, "PFCP_SESS_EST_REQ_SNT_STATE");
     (PFCP_SESS_EST_RESP_RCVD_STATE : Z, "PFCP_SESS_EST_RESP_RCVD_STATE");
     (CONNECTED_STATE : Z, "CONNECTED_STATE"); (IDEL_STATE : Z, "IDEL_STATE");
     (CS_REQ_SNT_STATE : Z, "CS_REQ_SNT_STATE"); (CS_RESP_RCVD_STATE : Z, "CS_RESP_RCVD_STATE");
     (PFCP_SESS_MOD_REQ_SNT_STATE : Z, "PFCP_SESS_MOD_REQ_SNT_STATE");
     (PFCP_SESS_MOD_RESP_RCVD_STATE : Z, "PFCP_SESS_MOD_RESP_RCVD_STATE");
     (PFCP_SESS_DEL_REQ_SNT_STATE : Z, "PFCP_SESS_DEL_REQ_SNT_STATE");
     (PFCP_SESS_DEL_RESP_RCVD_STATE : Z, "PFCP_SESS_DEL_RESP_RCVD_STATE");
     (DS_REQ_SNT_STATE : Z, "DS_REQ_SNT_STATE"); (DS_RESP_RCVD_STATE : Z, "DS_RESP_RCVD_STATE");
     (DDN_REQ_SNT_STATE : Z, "DDN_REQ_SNT_STATE"); (DDN_ACK_RCVD_STATE : Z, "DDN_ACK_RCVD_STATE");
     (MBR_REQ_SNT_STATE : Z, "MBR_REQ_SNT_STATE");
     (MBR_RESP_RCVD_STATE : Z, "MBR_RESP_RCVD_STATE");
     (CREATE_BER_REQ_SNT_STATE : Z, "CREATE_BER_REQ_SNT_STATE");
     (RE_AUTH_ANS_SNT_STATE : Z, "RE_AUTH_ANS_SNT_STATE");
     (PGWC_NONE_STATE : Z, "PGWC_NONE_STATE"); (CCR_SNT_STATE : Z, "CCR_SNT_STATE");
     (CREATE_BER_RESP_SNT_STATE : Z, "CREATE_BER_RESP_SNT_STATE");
     (PFCP_PFD_MGMT_RESP_RCVD_STATE : Z, "PFCP_PFD_MGMT_RESP_RCVD_STATE");
     (ERROR_OCCURED_STATE : Z, "ERROR_OCCURED_STATE");
     (UPDATE_BEARER_REQ_SNT_STATE : Z, "UPDATE_BEARER_REQ_SNT_STATE");
     (UPDATE_BEARER_RESP_SNT_STATE : Z, "UPDATE_BEARER_RESP_SNT_STATE");
     (DELETE_BER_REQ_SNT_STATE : Z, "DELETE_BER_REQ_SNT_STATE");
     (CCRU_SNT_STATE : Z, "CCRU_SNT_STATE");
     (PGW_RSTRT_NOTIF_REQ_SNT_STATE : Z, "PGW_RSTRT_NOTIF_REQ_SNT_STATE");
     (UPD_PDN_CONN_SET_REQ_SNT_STATE : Z, "UPD_PDN_CONN_SET_REQ_SNT_STATE");
     (DEL_PDN_CONN_SET_REQ_SNT_STATE : Z, "DEL_PDN_CONN_SET_REQ_SNT_STATE");
     (DEL_PDN_CONN_SET_REQ_RCVD_STATE : Z, "DEL_PDN_CONN_SET_REQ_RCVD_STATE");
     (PFCP_SESS_SET_DEL_REQ_SNT_STATE : Z, "PFCP_SESS_SET_DEL_REQ_SNT_STATE");
     (PFCP_SESS_SET_DEL_REQ_RCVD_STATE : Z, "PFCP_SESS_SET_DEL_REQ_RCVD_STATE");
     (END_STATE : Z, "END_STATE"); (PROVISION_ACK_SNT_STATE : Z, "PROVISION_ACK_SNT_STATE")]
    "UNDEFINED STATE" value.

Definition get_event_string (value : Z) : text :=
  name_of
    [(NONE_EVNT : Z, "NONE_EVNT"); (CS_REQ_RCVD_EVNT : Z, "CS_REQ_RCVD_EVNT");
     (PFCP_ASSOC_SETUP_SNT_EVNT : Z, "PFCP_ASSOC_SETUP_SNT_EVNT");
     (PFCP_ASSOC_SETUP_RESP_RCVD_EVNT : Z, "PFCP_ASSOC_SETUP_RESP_RCVD_EVNT");
     (PFCP_SESS_EST_REQ_RCVD_EVNT : Z, "PFCP_SESS_EST_REQ_RCVD_EVNT");
     (PFCP_SESS_EST_RESP_RCVD_EVNT : Z, "PFCP_SESS_EST_RESP_RCVD_EVNT");
     (CS_RESP_RCVD_EVNT : Z, "CS_RESP_RCVD_EVNT"); (MB_REQ_RCVD_EVNT : Z, "MB_REQ_RCVD_EVNT");
     (PFCP_SESS_MOD_REQ_RCVD_EVNT : Z, "PFCP_SESS_MOD_REQ_RCVD_EVNT");
     (PFCP_SESS_MOD_RESP_RCVD_EVNT : Z, "PFCP_SESS_MOD_RESP_RCVD_EVNT");
     (MB_RESP_RCVD_EVNT : Z, "MB_RESP_RCVD_EVNT");
     (REL_ACC_BER_REQ_RCVD_EVNT : Z, "REL_ACC_BER_REQ_RCVD_EVNT");
     (DS_REQ_RCVD_EVNT : Z, "DS_REQ_RCVD_EVNT");
     (PFCP_SESS_DEL_REQ_RCVD_EVNT : Z, "PFCP_SESS_DEL_REQ_RCVD_EVNT");
     (PFCP_SESS_DEL_RESP_RCVD_EVNT : Z, "PFCP_SESS_DEL_RESP_RCVD_EVNT");
     (DS_RESP_RCVD_EVNT : Z, "DS_RESP_RCVD_EVNT"); (ECHO_REQ_RCVD_EVNT : Z, "DDN_ACK_RCVD_EVNT");
     (ECHO_RESP_RCVD_EVNT : Z, "ECHO_RESP_RCVD_EVNT");
     (DDN_ACK_RESP_RCVD_EVNT : Z, "DDN_ACK_RESP_RCVD_EVNT");
     (PFCP_SESS_RPT_REQ_RCVD_EVNT : Z, "PFCP_SESS_RPT_REQ_RCVD_EVNT");
     (RE_AUTH_REQ_RCVD_EVNT : Z, "RE_AUTH_REQ_RCVD_EVNT");
     (CREATE_BER_RESP_RCVD_EVNT : Z, "CREATE_BER_RESP_RCVD_EVNT");
     (CCA_RCVD_EVNT : Z, "CCA_RCVD_EVNT");
     (CREATE_BER_REQ_RCVD_EVNT : Z, "CREATE_BER_REQ_RCVD_EVNT");
     (PFCP_PFD_MGMT_RESP_RCVD_EVNT : Z, "PFCP_PFD_MGMT_RESP_RCVD_EVNT");
     (ERROR_OCCURED_EVNT : Z, "ERROR_OCCURED_EVNT");
     (UPDATE_BEARER_REQ_RCVD_EVNT : Z, "UPDATE_BEARER_REQ_RCVD_EVNT");
     (UPDATE_BEARER_RSP_RCVD_EVNT : Z, "UPDATE_BEARER_RSP_RCVD_EVNT");
     (DELETE_BER_REQ_RCVD_EVNT : Z, "DELETE_BER_REQ_RCVD_EVNT");
     (DELETE_BER_RESP_RCVD_EVNT : Z, "DELETE_BER_RESP_RCVD_EVNT");
     (DELETE_BER_CMD_RCVD_EVNT : Z, "DELETE_BER_CMD_RCVD_EVNT");
     (CCAU_RCVD_EVNT : Z, "CCAU_RCVD_EVNT");
     (PFCP_SESS_SET_DEL_REQ_RCVD_EVNT : Z, "PFCP_SESS_SET_DEL_REQ_RCVD_EVNT");
     (PFCP_SESS_SET_DEL_RESP_RCVD_EVNT : Z, "PFCP_SESS_SET_DEL_RSEP_RCVD_EVNT");
     (PGW_RSTRT_NOTIF_ACK_RCVD_EVNT : Z, "PGW_RSTRT_NOTIF_ACK_RCVD_EVNT");
     (UPD_PDN_CONN_SET_REQ_RCVD_EVNT : Z, "UPD_PDN_CONN_SET_REQ_RCVD_EVNT");
     (UPD_PDN_CONN_SET_RESP_RCVD_EVNT : Z, "UPD_PDN_CONN_SET_RESP_RCVD_EVNT");
     (DEL_PDN_CONN_SET_REQ_RCVD_EVNT : Z, "DEL_PDN_CONN_SET_REQ_RCVD_EVNT");
     (DEL_PDN_CONN_SET_RESP_RCVD_EVNT : Z, "DEL_PDN_CONN_SET_RESP_RCVD_EVNT");
     (CREATE_INDIR_DATA_FRWRD_TUN_REQ_RCVD_EVNT : Z, "CREATE_INDIR_DATA_FRWRD_TUN_REQ_RCVD_EVNT");
     (DELETE_INDIR_DATA_FRWD_TUN_REQ_RCVD_EVNT : Z, "DELETE_INDIR_DATA_FRWD_TUN_REQ_RCVD_EVNT");
     (END_EVNT : Z, "END_EVNT"); (DDN_FAILURE_INDIC_EVNT : Z, "DDN_FAILURE_INDIC_EVNT")]
    "UNDEFINED_EVNT" value.

(** ** The arrays *)

Module Fn.
Inductive event_handler : Set :=
| association_setup_handler | cca_msg_handler | cca_t_msg_handler | cca_u_msg_handler
  | del_bearer_cmd_ccau_handler | gx_setup_handler | pfd_management_handler
  | process_assoc_resp_handler | process_bearer_resource_cmd_error_handler
  | process_bearer_resource_command_handler | process_cbr_error_occured_handler
  | process_change_noti_req_handler | process_change_noti_resp_handler
  | process_create_bearer_request_handler | process_create_bearer_response_handler
  | process_create_indir_data_frwd_req_handler | process_cs_resp_dedicated_handler
  | process_cs_resp_handler | process_dbr_error_occured_handler | process_ddn_ack_resp_handler
  | process_ddn_failure_handler | process_default_handler | process_del_indirect_tunnel_req_handler
  | process_del_pdn_conn_set_req | process_del_pdn_conn_set_rsp
  | process_delete_bearer_command_handler | process_delete_bearer_request_handler
  | process_delete_bearer_resp_handler | process_ds_req_handler | process_ds_resp_handler
  | process_error_occured_handler | process_mb_req_handler | process_mb_req_sgw_reloc_handler
  | process_mb_request_cb_resp_handler | process_mb_resp_handler
  | process_mbr_resp_handover_handler | process_mod_resp_delete_handler
  | process_modify_access_bearer_handler | process_modify_bearer_command_handler
  | process_pfcp_del_resp_del_indirect_handler
  | process_pfcp_sess_del_resp_context_replacement_handler | process_pfcp_sess_del_resp_dbr_handler
  | process_pfcp_sess_mod_resp_brc_handler | process_pfcp_sess_mod_resp_cbr_handler
  | process_pfcp_sess_mod_resp_cs_dedicated_handler | process_pfcp_sess_mod_resp_dbr_handler
  | process_pfcp_sess_mod_resp_ubr_handler | process_pfcp_sess_mod_resp_upd_handler
  | process_pfcp_sess_set_del_req | process_pfcp_sess_set_del_rsp | process_pgw_rstrt_notif_ack
  | process_rar_request_handler | process_recov_asso_resp_handler | process_recov_est_resp_handler
  | process_rel_access_ber_req_handler | process_rpt_req_handler | process_sess_del_resp_handler
  | process_sess_est_resp_dedicated_handler | process_sess_est_resp_handler
  | process_sess_est_resp_sgw_reloc_handler | process_sess_mod_resp_ddn_fail_handler
  | process_sess_mod_resp_dl_buf_dur_handler | process_sess_mod_resp_handler
  | process_sess_mod_resp_li_handler | process_sess_mod_resp_sgw_reloc_handler
  | process_upd_pdn_conn_set_req | process_upd_pdn_conn_set_rsp
  | process_upd_pdn_set_response_handler | process_update_bearer_request_handler
  | process_update_bearer_response_handler | process_update_pdn_set_req_handler
  | provision_ack_ccau_handler.
End Fn.
Import Fn.

Definition base_row : list event_handler :=
  <[Z.to_nat PFCP_SESS_RPT_REQ_RCVD_EVNT := process_rpt_req_handler]>
    (replicate 48 process_default_handler).

Definition row (hs : list (sm_event * event_handler)) : list event_handler :=
  foldr (fun eh r => <[Z.to_nat (eh.1 : sm_event) := eh.2]> r) base_row hs.

Definition procedure (n : nat) (rows : list (sm_state * list (sm_event * event_handler)))
    : list (list event_handler) :=
  foldr (fun sr t => <[Z.to_nat (sr.1 : sm_state) := row sr.2]> t) (replicate n (row [])) rows.

Abbreviation EventHandler := (list (list (list event_handler))).

Definition sgwc_NONE_PROC : list (list event_handler) := procedure 39 [].

Definition sgwc_INITIAL_PDN_ATTACH_PROC : list (list event_handler) :=
  procedure 39 [
   (SGWC_NONE_STATE,
     [(CS_REQ_RCVD_EVNT, association_setup_handler)]);
   (PFCP_ASSOC_REQ_SNT_STATE,
     [(PFCP_ASSOC_SETUP_RESP_RCVD_EVNT, process_assoc_resp_handler)]);
   (PFCP_ASSOC_RESP_RCVD_STATE,
     [(PFCP_ASSOC_SETUP_RESP_RCVD_EVNT, process_assoc_resp_handler)]);
   (PFCP_SESS_EST_REQ_SNT_STATE,
     [(PFCP_SESS_EST_RESP_RCVD_EVNT, process_sess_est_resp_handler)]);
   (CONNECTED_STATE,
     [(MB_REQ_RCVD_EVNT, process_mb_req_handler);
      (PFCP_SESS_MOD_RESP_RCVD_EVNT, process_sess_mod_resp_li_handler);
      (CHANGE_NOTIFICATION_REQ_RCVD_EVNT, process_change_noti_req_handler);
      (CHANGE_NOTIFICATION_RSP_RCVD_EVNT, process_change_noti_resp_handler)]);
   (IDEL_STATE,
     [(MB_REQ_RCVD_EVNT, process_mb_req_handler)]);
   (CS_REQ_SNT_STATE,
     [(CS_RESP_RCVD_EVNT, process_cs_resp_handler)]);
   (PFCP_SESS_MOD_REQ_SNT_STATE,
     [(PFCP_SESS_MOD_RESP_RCVD_EVNT, process_sess_mod_resp_handler)]);
   (PFCP_SESS_DEL_REQ_SNT_STATE,
     [(PFCP_SESS_DEL_RESP_RCVD_EVNT, process_pfcp_sess_del_resp_context_replacement_handler)]);
   (DDN_ACK_RCVD_STATE,
     [(MB_REQ_RCVD_EVNT, process_mb_req_handler)]);
   (PFCP_PFD_MGMT_RESP_RCVD_STATE,
     [(PFCP_PFD_MGMT_RESP_RCVD_EVNT, pfd_management_handler)]);
   (ERROR_OCCURED_STATE,
     [(PFCP_SESS_DEL_RESP_RCVD_EVNT, process_error_occured_handler);
      (ERROR_OCCURED_EVNT, process_error_occured_handler)])].

Definition sgwc_SERVICE_REQUEST_PROC : list (list event_handler) :=
  procedure 39 [
   (CONNECTED_STATE,
     [(PFCP_SESS_MOD_RESP_RCVD_EVNT, process_sess_mod_resp_li_handler)])].

Definition sgwc_SGW_RELOCATION_PROC : list (list event_handler) :=
  procedure 39 [
   (SGWC_NONE_STATE,
     [(CS_REQ_RCVD_EVNT, association_setup_handler)]);
   (PFCP_ASSOC_REQ_SNT_STATE,
     [(PFCP_ASSOC_SETUP_RESP_RCVD_EVNT, process_assoc_resp_handler)]);
   (PFCP_ASSOC_RESP_RCVD_STATE,
     [(PFCP_ASSOC_SETUP_RESP_RCVD_EVNT, process_assoc_resp_handler)]);
   (PFCP_SESS_EST_REQ_SNT_STATE,
     [(PFCP_SESS_EST_RESP_RCVD_EVNT, process_sess_est_resp_sgw_reloc_handler)]);
   (CONNECTED_STATE,
     [(MB_REQ_RCVD_EVNT, process_mb_req_handler);
      (PFCP_SESS_MOD_RESP_RCVD_EVNT, process_sess_mod_resp_li_handler)]);
   (IDEL_STATE,
     [(MB_REQ_RCVD_EVNT, process_mb_req_handler)]);
   (CS_REQ_SNT_STATE,
     [(CS_RESP_RCVD_EVNT, process_cs_resp_handler)]);
   (PFCP_SESS_MOD_REQ_SNT_STATE,
     [(PFCP_SESS_MOD_RESP_RCVD_EVNT, process_sess_mod_resp_handler)]);
   (MBR_REQ_SNT_STATE,
     [(MB_RESP_RCVD_EVNT, process_mbr_resp_handover_handler)])].

Definition sgwc_CONN_SUSPEND_PROC : list (list event_handler) :=
  procedure 39 [
   (CONNECTED_STATE,
     [(MB_REQ_RCVD_EVNT, process_mb_req_handler);
      (PFCP_SESS_MOD_RESP_RCVD_EVNT, process_sess_mod_resp_li_handler);
      (REL_ACC_BER_REQ_RCVD_EVNT, process_rel_access_ber_req_handler)]);
   (IDEL_STATE,
     [(MB_REQ_RCVD_EVNT, process_mb_req_handler);
      (PFCP_SESS_MOD_RESP_RCVD_EVNT, process_sess_mod_resp_dl_buf_dur_handler)]);
   (PFCP_SESS_MOD_REQ_SNT_STATE,
     [(PFCP_SESS_MOD_RESP_RCVD_EVNT, process_sess_mod_resp_handler)]);
   (DDN_REQ_SNT_STATE,
     [(PFCP_SESS_MOD_RESP_RCVD_EVNT, process_sess_mod_resp_ddn_fail_handler);
      (DDN_ACK_RESP_RCVD_EVNT, process_ddn_ack_resp_handler);
      (DDN_FAILURE_INDIC_EVNT, process_ddn_failure_handler)]);
   (DDN_ACK_RCVD_STATE,
     [(MB_REQ_RCVD_EVNT, process_mb_req_handler)])].

Definition sgwc_DETACH_PROC : list (list event_handler) :=
  procedure 39 [
   (CONNECTED_STATE,
     [(PFCP_SESS_MOD_RESP_RCVD_EVNT, process_sess_mod_resp_li_handler);
      (DS_REQ_RCVD_EVNT, process_ds_req_handler)]);
   (IDEL_STATE,
     [(DS_REQ_RCVD_EVNT, process_ds_req_handler)]);
   (PFCP_SESS_MOD_REQ_SNT_STATE,
     [(PFCP_SESS_MOD_RESP_RCVD_EVNT, process_mod_resp_delete_handler)]);
   (PFCP_SESS_DEL_REQ_SNT_STATE,
     [(PFCP_SESS_DEL_RESP_RCVD_EVNT, process_sess_del_resp_handler)]);
   (DS_REQ_SNT_STATE,
     [(DS_RESP_RCVD_EVNT, process_ds_resp_handler)]);
   (ERROR_OCCURED_STATE,
     [(PFCP_SESS_DEL_RESP_RCVD_EVNT, process_error_occured_handler)])].

Definition sgwc_DED_BER_ACTIVATION_PROC : list (list event_handler) :=
  procedure 39 [
   (CONNECTED_STATE,
     [(PFCP_SESS_MOD_RESP_RCVD_EVNT, process_sess_mod_resp_li_handler);
      (CREATE_BER_REQ_RCVD_EVNT, process_create_bearer_request_handler)]);
   (IDEL_STATE,
     [(CREATE_BER_REQ_RCVD_EVNT, process_create_bearer_request_handler)]);
   (PFCP_SESS_MOD_REQ_SNT_STATE,
     [(PFCP_SESS_MOD_RESP_RCVD_EVNT, process_pfcp_sess_mod_resp_cbr_handler)]);
   (CREATE_BER_REQ_SNT_STATE,
     [(CREATE_BER_RESP_RCVD_EVNT, process_create_bearer_response_handler)]);
   (ERROR_OCCURED_STATE,
     [(PFCP_SESS_MOD_RESP_RCVD_EVNT, process_cbr_error_occured_handler)])].

Definition sgwc_PDN_GW_INIT_BEARER_DEACTIVATION : list (list event_handler) :=
  procedure 39 [
   (CONNECTED_STATE,
     [(PFCP_SESS_MOD_RESP_RCVD_EVNT, process_sess_mod_resp_li_handler);
      (DELETE_BER_REQ_RCVD_EVNT, process_delete_bearer_request_handler)]);
   (IDEL_STATE,
     [(DELETE_BER_REQ_RCVD_EVNT, process_delete_bearer_request_handler)]);
   (PFCP_SESS_MOD_REQ_SNT_STATE,
     [(PFCP_SESS_MOD_RESP_RCVD_EVNT, process_pfcp_sess_mod_resp_dbr_handler)]);
   (PFCP_SESS_DEL_REQ_SNT_STATE,
     [(PFCP_SESS_DEL_RESP_RCVD_EVNT, process_pfcp_sess_del_resp_dbr_handler)]);
   (ERROR_OCCURED_STATE,
     [(PFCP_SESS_MOD_RESP_RCVD_EVNT, process_dbr_error_occured_handler)]);
   (DELETE_BER_REQ_SNT_STATE,
     [(DELETE_BER_RESP_RCVD_EVNT, process_delete_bearer_resp_handler)])].

Definition sgwc_MME_INI_DEDICATED_BEARER_DEACTIVATION_PROC : list (list event_handler) :=
  procedure 39 [
   (CONNECTED_STATE,
     [(PFCP_SESS_MOD_RESP_RCVD_EVNT, process_sess_mod_resp_li_handler);
      (DELETE_BER_REQ_RCVD_EVNT, process_delete_bearer_request_handler);
      (DELETE_BER_CMD_RCVD_EVNT, process_delete_bearer_command_handler)]);
   (PFCP_SESS_MOD_REQ_SNT_STATE,
     [(PFCP_SESS_MOD_RESP_RCVD_EVNT, process_pfcp_sess_mod_resp_dbr_handler)]);
   (ERROR_OCCURED_STATE,
     [(PFCP_SESS_MOD_RESP_RCVD_EVNT, process_dbr_error_occured_handler)]);
   (DELETE_BER_REQ_SNT_STATE,
     [(DELETE_BER_RESP_RCVD_EVNT, process_delete_bearer_resp_handler)])].

Definition sgwc_UPDATE_BEARER_PROC : list (list event_handler) :=
  procedure 39 [
   (CONNECTED_STATE,
     [(PFCP_SESS_MOD_RESP_RCVD_EVNT, process_sess_mod_resp_li_handler);
      (UPDATE_BEARER_REQ_RCVD_EVNT, process_update_bearer_request_handler)]);
   (IDEL_STATE,
     [(UPDATE_BEARER_REQ_RCVD_EVNT, process_update_bearer_request_handler)]);
   (UPDATE_BEARER_REQ_SNT_STATE,
     [(UPDATE_BEARER_RSP_RCVD_EVNT, process_update_bearer_response_handler)])].

Definition sgwc_RESTORATION_RECOVERY_PROC : list (list event_handler) :=
  procedure 39 [
   (PFCP_ASSOC_REQ_SNT_STATE,
     [(PFCP_ASSOC_SETUP_RESP_RCVD_EVNT, process_recov_asso_resp_handler)]);
   (PFCP_ASSOC_RESP_RCVD_STATE,
     [(PFCP_ASSOC_SETUP_RESP_RCVD_EVNT, process_recov_asso_resp_handler)]);
   (PFCP_SESS_EST_REQ_SNT_STATE,
     [(PFCP_SESS_EST_RESP_RCVD_EVNT, process_recov_est_resp_handler)]);
   (CONNECTED_STATE,
     [(PFCP_SESS_MOD_RESP_RCVD_EVNT, process_sess_mod_resp_li_handler);
      (UPD_PDN_CONN_SET_REQ_RCVD_EVNT, process_upd_pdn_conn_set_req)]);
   (PGW_RSTRT_NOTIF_REQ_SNT_STATE,
     [(PGW_RSTRT_NOTIF_ACK_RCVD_EVNT, process_pgw_rstrt_notif_ack)]);
   (UPD_PDN_CONN_SET_REQ_SNT_STATE,
     [(UPD_PDN_CONN_SET_RESP_RCVD_EVNT, process_upd_pdn_conn_set_rsp)]);
   (DEL_PDN_CONN_SET_REQ_SNT_STATE,
     [(DEL_PDN_CONN_SET_RESP_RCVD_EVNT, process_del_pdn_conn_set_rsp)]);
   (DEL_PDN_CONN_SET_REQ_RCVD_STATE,
     [(DEL_PDN_CONN_SET_REQ_RCVD_EVNT, process_del_pdn_conn_set_req)]);
   (PFCP_SESS_SET_DEL_REQ_SNT_STATE,
     [(PFCP_SESS_SET_DEL_RESP_RCVD_EVNT, process_pfcp_sess_set_del_rsp)]);
   (PFCP_SESS_SET_DEL_REQ_RCVD_STATE,
     [(PFCP_SESS_SET_DEL_REQ_RCVD_EVNT, process_pfcp_sess_set_del_req)])].

Definition sgwc_MODIFY_BEARER_PROCEDURE : list (list event_handler) :=
  procedure 39 [
   (CONNECTED_STATE,
     [(MB_REQ_RCVD_EVNT, process_mb_req_handler);
      (PFCP_SESS_MOD_RESP_RCVD_EVNT, process_sess_mod_resp_li_handler);
      (MB_RESP_RCVD_EVNT, process_mb_resp_handler)]);
   (IDEL_STATE,
     [(MB_REQ_RCVD_EVNT, process_mb_req_handler);
      (MB_RESP_RCVD_EVNT, process_mb_resp_handler)]);
   (PFCP_SESS_MOD_REQ_SNT_STATE,
     [(PFCP_SESS_MOD_RESP_RCVD_EVNT, process_sess_mod_resp_handler)]);
   (MBR_REQ_SNT_STATE,
     [(MB_RESP_RCVD_EVNT, process_mb_resp_handler)]);
   (UPD_PDN_CONN_SET_REQ_SNT_STATE,
     [(UPD_PDN_CONN_SET_RESP_RCVD_EVNT, process_upd_pdn_set_response_handler)])].

Definition sgwc_ATTACH_DEDICATED_PROC : list (list event_handler) :=
  procedure 39 [
   (CONNECTED_STATE,
     [(PFCP_SESS_MOD_RESP_RCVD_EVNT, process_sess_mod_resp_li_handler)]);
   (CS_REQ_SNT_STATE,
     [(CREATE_BER_REQ_RCVD_EVNT, process_cs_resp_dedicated_handler)]);
   (PFCP_SESS_MOD_REQ_SNT_STATE,
     [(PFCP_SESS_MOD_RESP_RCVD_EVNT, process_pfcp_sess_mod_resp_cs_dedicated_handler)]);
   (CREATE_BER_REQ_SNT_STATE,
     [(MB_REQ_RCVD_EVNT, process_mb_request_cb_resp_handler)])].

Definition sgwc_MODIFY_ACCESS_BEARER_PROC : list (list event_handler) :=
  procedure 39 [
   (CONNECTED_STATE,
     [(MAB_REQ_RCVD_EVNT, process_modify_access_bearer_handler)]);
   (IDEL_STATE,
     [(MAB_REQ_RCVD_EVNT, process_modify_access_bearer_handler)]);
   (PFCP_SESS_MOD_REQ_SNT_STATE,
     [(PFCP_SESS_MOD_RESP_RCVD_EVNT, process_sess_mod_resp_handler)]);
   (UPD_PDN_CONN_SET_REQ_SNT_STATE,
     [(UPD_PDN_CONN_SET_RESP_RCVD_EVNT, process_upd_pdn_set_response_handler)])].

Definition sgwc_CHANGE_NOTIFICATION_PROC : list (list event_handler) :=
  procedure 39 [
   (CONNECTED_STATE,
     [(CHANGE_NOTIFICATION_REQ_RCVD_EVNT, process_change_noti_req_handler);
      (CHANGE_NOTIFICATION_RSP_RCVD_EVNT, process_change_noti_resp_handler)]);
   (IDEL_STATE,
     [(CHANGE_NOTIFICATION_REQ_RCVD_EVNT, process_change_noti_req_handler);
      (CHANGE_NOTIFICATION_RSP_RCVD_EVNT, process_change_noti_resp_handler)])].

Definition sgwc_UPDATE_PDN_CONNECTION_PROC : list (list event_handler) := procedure 38 [].

Definition sgwc_UE_REQ_BER_RSRC_MOD_PROC : list (list event_handler) :=
  procedure 39 [
   (CONNECTED_STATE,
     [(CREATE_BER_REQ_RCVD_EVNT, process_create_bearer_request_handler);
      (UPDATE_BEARER_REQ_RCVD_EVNT, process_update_bearer_request_handler);
      (DELETE_BER_REQ_RCVD_EVNT, process_delete_bearer_request_handler);
      (BEARER_RSRC_CMD_RCVD_EVNT, process_bearer_resource_command_handler)]);
   (IDEL_STATE,
     [(CREATE_BER_REQ_RCVD_EVNT, process_create_bearer_request_handler);
      (UPDATE_BEARER_REQ_RCVD_EVNT, process_update_bearer_request_handler);
      (DELETE_BER_REQ_RCVD_EVNT, process_delete_bearer_request_handler)]);
   (PFCP_SESS_MOD_REQ_SNT_STATE,
     [(PFCP_SESS_MOD_RESP_RCVD_EVNT, process_pfcp_sess_mod_resp_brc_handler)]);
   (CREATE_BER_REQ_SNT_STATE,
     [(CREATE_BER_RESP_RCVD_EVNT, process_create_bearer_response_handler)]);
   (UPDATE_BEARER_REQ_SNT_STATE,
     [(UPDATE_BEARER_RSP_RCVD_EVNT, process_update_bearer_response_handler)]);
   (DELETE_BER_REQ_SNT_STATE,
     [(DELETE_BER_RESP_RCVD_EVNT, process_delete_bearer_resp_handler)])].

Definition sgwc_HSS_INITIATED_SUB_QOS_MOD : list (list event_handler) :=
  procedure 39 [
   (CONNECTED_STATE,
     [(UPDATE_BEARER_REQ_RCVD_EVNT, process_update_bearer_request_handler);
      (MODIFY_BEARER_CMD_RCVD_EVNT, process_modify_bearer_command_handler)]);
   (UPDATE_BEARER_REQ_SNT_STATE,
     [(UPDATE_BEARER_RSP_RCVD_EVNT, process_update_bearer_response_handler)])].

Definition sgwc_S1_HANDOVER_PROC : list (list event_handler) :=
  procedure 39 [
   (SGWC_NONE_STATE,
     [(CS_REQ_RCVD_EVNT, association_setup_handler)]);
   (PFCP_SESS_EST_REQ_SNT_STATE,
     [(PFCP_SESS_EST_RESP_RCVD_EVNT, process_sess_est_resp_handler)])].

Definition sgwc_CREATE_INDIRECT_TUNNEL_PROC : list (list event_handler) :=
  procedure 39 [
   (SGWC_NONE_STATE,
     [(CREATE_INDIR_DATA_FRWRD_TUN_REQ_RCVD_EVNT, process_create_indir_data_frwd_req_handler)]);
   (PFCP_ASSOC_REQ_SNT_STATE,
     [(PFCP_ASSOC_SETUP_RESP_RCVD_EVNT, process_assoc_resp_handler)]);
   (PFCP_SESS_EST_REQ_SNT_STATE,
     [(PFCP_SESS_EST_RESP_RCVD_EVNT, process_sess_est_resp_handler)]);
   (CONNECTED_STATE,
     [(CREATE_INDIR_DATA_FRWRD_TUN_REQ_RCVD_EVNT, process_create_indir_data_frwd_req_handler)])].

Definition sgwc_DELETE_INDIRECT_TUNNEL_PROC : list (list event_handler) :=
  procedure 39 [
   (CONNECTED_STATE,
     [(DELETE_INDIR_DATA_FRWD_TUN_REQ_RCVD_EVNT, process_del_indirect_tunnel_req_handler)]);
   (PFCP_SESS_DEL_REQ_SNT_STATE,
     [(PFCP_SESS_DEL_RESP_RCVD_EVNT, process_pfcp_del_resp_del_indirect_handler)])].

Definition sgwc_END_PROC : list (list event_handler) := procedure 39 [].

Definition state_machine_sgwc : EventHandler :=
  [sgwc_NONE_PROC; sgwc_INITIAL_PDN_ATTACH_PROC; sgwc_SERVICE_REQUEST_PROC; sgwc_SGW_RELOCATION_PROC;
   sgwc_CONN_SUSPEND_PROC; sgwc_DETACH_PROC; sgwc_DED_BER_ACTIVATION_PROC;
   sgwc_PDN_GW_INIT_BEARER_DEACTIVATION; sgwc_MME_INI_DEDICATED_BEARER_DEACTIVATION_PROC;
   sgwc_UPDATE_BEARER_PROC; sgwc_RESTORATION_RECOVERY_PROC; sgwc_MODIFY_BEARER_PROCEDURE;
   sgwc_ATTACH_DEDICATED_PROC; sgwc_MODIFY_ACCESS_BEARER_PROC; sgwc_CHANGE_NOTIFICATION_PROC;
   sgwc_UPDATE_PDN_CONNECTION_PROC; sgwc_UE_REQ_BER_RSRC_MOD_PROC; sgwc_HSS_INITIATED_SUB_QOS_MOD;
   sgwc_S1_HANDOVER_PROC; sgwc_CREATE_INDIRECT_TUNNEL_PROC; sgwc_DELETE_INDIRECT_TUNNEL_PROC;
   sgwc_END_PROC].

Definition pgwc_NONE_PROC : list (list event_handler) :=
  procedure 39 [
   (CS_RESP_RCVD_STATE,
     [(CS_REQ_RCVD_EVNT, process_pfcp_sess_del_resp_dbr_handler)])].

Definition pgwc_INITIAL_PDN_ATTACH_PROC : list (list event_handler) :=
  procedure 39 [
   (SGWC_NONE_STATE,
     [(CS_REQ_RCVD_EVNT, association_setup_handler)]);
   (PFCP_ASSOC_REQ_SNT_STATE,
     [(PFCP_ASSOC_SETUP_RESP_RCVD_EVNT, process_assoc_resp_handler)]);
   (PFCP_ASSOC_RESP_RCVD_STATE,
     [(PFCP_ASSOC_SETUP_RESP_RCVD_EVNT, process_assoc_resp_handler)]);
   (PFCP_SESS_EST_REQ_SNT_STATE,
     [(PFCP_SESS_EST_RESP_RCVD_EVNT, process_sess_est_resp_handler)]);
   (CONNECTED_STATE,
     [(PFCP_SESS_MOD_RESP_RCVD_EVNT, process_sess_mod_resp_li_handler);
      (CHANGE_NOTIFICATION_REQ_RCVD_EVNT, process_change_noti_req_handler)]);
   (CS_REQ_SNT_STATE,
     [(CS_RESP_RCVD_EVNT, process_cs_resp_handler)]);
   (PFCP_SESS_DEL_REQ_SNT_STATE,
     [(PFCP_SESS_DEL_RESP_RCVD_EVNT, process_pfcp_sess_del_resp_context_replacement_handler)]);
   (PGWC_NONE_STATE,
     [(CS_REQ_RCVD_EVNT, gx_setup_handler)]);
   (CCR_SNT_STATE,
     [(CCA_RCVD_EVNT, cca_msg_handler)]);
   (PFCP_PFD_MGMT_RESP_RCVD_STATE,
     [(PFCP_PFD_MGMT_RESP_RCVD_EVNT, pfd_management_handler)]);
   (ERROR_OCCURED_STATE,
     [(ERROR_OCCURED_EVNT, process_error_occured_handler)]);
   (CCRU_SNT_STATE,
     [(CCA_RCVD_EVNT, cca_msg_handler)])].

Definition pgwc_SERVICE_REQUEST_PROC : list (list event_handler) :=
  procedure 39 [
   (CONNECTED_STATE,
     [(PFCP_SESS_MOD_RESP_RCVD_EVNT, process_sess_mod_resp_li_handler)])].

Definition pgwc_SGW_RELOCATION_PROC : list (list event_handler) :=
  procedure 39 [
   (SGWC_NONE_STATE,
     [(CS_REQ_RCVD_EVNT, association_setup_handler)]);
   (PFCP_ASSOC_REQ_SNT_STATE,
     [(PFCP_ASSOC_SETUP_RESP_RCVD_EVNT, process_assoc_resp_handler)]);
   (PFCP_ASSOC_RESP_RCVD_STATE,
     [(PFCP_ASSOC_SETUP_RESP_RCVD_EVNT, process_assoc_resp_handler)]);
   (PFCP_SESS_EST_REQ_SNT_STATE,
     [(PFCP_SESS_EST_RESP_RCVD_EVNT, process_sess_est_resp_sgw_reloc_handler)]);
   (CONNECTED_STATE,
     [(MB_REQ_RCVD_EVNT, process_mb_req_sgw_reloc_handler);
      (PFCP_SESS_MOD_RESP_RCVD_EVNT, process_sess_mod_resp_li_handler)]);
   (IDEL_STATE,
     [(MB_REQ_RCVD_EVNT, process_mb_req_sgw_reloc_handler)]);
   (CS_REQ_SNT_STATE,
     [(CS_RESP_RCVD_EVNT, process_cs_resp_handler)]);
   (PFCP_SESS_MOD_REQ_SNT_STATE,
     [(PFCP_SESS_MOD_RESP_RCVD_EVNT, process_sess_mod_resp_sgw_reloc_handler)]);
   (CCRU_SNT_STATE,
     [(CCA_RCVD_EVNT, cca_u_msg_handler)])].

Definition pgwc_CONN_SUSPEND_PROC : list (list event_handler) :=
  procedure 39 [
   (CONNECTED_STATE,
     [(PFCP_SESS_MOD_RESP_RCVD_EVNT, process_sess_mod_resp_li_handler)])].

Definition pgwc_DETACH_PROC : list (list event_handler) :=
  procedure 39 [
   (CONNECTED_STATE,
     [(PFCP_SESS_MOD_RESP_RCVD_EVNT, process_sess_mod_resp_li_handler);
      (DS_REQ_RCVD_EVNT, process_ds_req_handler)]);
   (IDEL_STATE,
     [(DS_REQ_RCVD_EVNT, process_ds_req_handler)]);
   (PFCP_SESS_DEL_REQ_SNT_STATE,
     [(PFCP_SESS_DEL_RESP_RCVD_EVNT, process_sess_del_resp_handler)]);
   (CCR_SNT_STATE,
     [(CCA_RCVD_EVNT, cca_t_msg_handler)])].

Definition pgwc_DED_BER_ACTIVATION_PROC : list (list event_handler) :=
  procedure 39 [
   (CONNECTED_STATE,
     [(PFCP_SESS_MOD_RESP_RCVD_EVNT, process_sess_mod_resp_li_handler);
      (RE_AUTH_REQ_RCVD_EVNT, process_rar_request_handler)]);
   (IDEL_STATE,
     [(RE_AUTH_REQ_RCVD_EVNT, process_rar_request_handler)]);
   (PFCP_SESS_MOD_REQ_SNT_STATE,
     [(PFCP_SESS_MOD_RESP_RCVD_EVNT, process_pfcp_sess_mod_resp_cbr_handler)]);
   (CREATE_BER_REQ_SNT_STATE,
     [(CREATE_BER_RESP_RCVD_EVNT, process_create_bearer_response_handler)]);
   (ERROR_OCCURED_STATE,
     [(PFCP_SESS_MOD_RESP_RCVD_EVNT, process_cbr_error_occured_handler)])].

Definition pgwc_PDN_GW_INIT_BEARER_DEACTIVATION : list (list event_handler) :=
  procedure 39 [
   (CONNECTED_STATE,
     [(PFCP_SESS_MOD_RESP_RCVD_EVNT, process_sess_mod_resp_li_handler);
      (RE_AUTH_REQ_RCVD_EVNT, process_rar_request_handler)]);
   (IDEL_STATE,
     [(RE_AUTH_REQ_RCVD_EVNT, process_rar_request_handler)]);
   (PFCP_SESS_MOD_REQ_SNT_STATE,
     [(PFCP_SESS_MOD_RESP_RCVD_EVNT, process_pfcp_sess_mod_resp_dbr_handler)]);
   (PFCP_SESS_DEL_REQ_SNT_STATE,
     [(PFCP_SESS_DEL_RESP_RCVD_EVNT, process_pfcp_sess_del_resp_dbr_handler)]);
   (CCR_SNT_STATE,
     [(CCA_RCVD_EVNT, cca_t_msg_handler)]);
   (ERROR_OCCURED_STATE,
     [(PFCP_SESS_MOD_RESP_RCVD_EVNT, process_dbr_error_occured_handler)]);
   (DELETE_BER_REQ_SNT_STATE,
     [(DELETE_BER_RESP_RCVD_EVNT, process_delete_bearer_resp_handler)])].

Definition pgwc_MME_INI_DEDICATED_BEARER_DEACTIVATION_PROC : list (list event_handler) :=
  procedure 39 [
   (CONNECTED_STATE,
     [(PFCP_SESS_MOD_RESP_RCVD_EVNT, process_sess_mod_resp_li_handler);
      (DELETE_BER_CMD_RCVD_EVNT, process_delete_bearer_command_handler)]);
   (PFCP_SESS_MOD_REQ_SNT_STATE,
     [(PFCP_SESS_MOD_RESP_RCVD_EVNT, process_pfcp_sess_mod_resp_dbr_handler)]);
   (ERROR_OCCURED_STATE,
     [(PFCP_SESS_MOD_RESP_RCVD_EVNT, process_dbr_error_occured_handler)]);
   (DELETE_BER_REQ_SNT_STATE,
     [(DELETE_BER_RESP_RCVD_EVNT, process_delete_bearer_resp_handler)]);
   (CCRU_SNT_STATE,
     [(CCA_RCVD_EVNT, del_bearer_cmd_ccau_handler)]);
   (PROVISION_ACK_SNT_STATE,
     [(CCA_RCVD_EVNT, provision_ack_ccau_handler)])].

Definition pgwc_UPDATE_BEARER_PROC : list (list event_handler) :=
  procedure 39 [
   (CONNECTED_STATE,
     [(PFCP_SESS_MOD_RESP_RCVD_EVNT, process_sess_mod_resp_li_handler)]);
   (PFCP_SESS_MOD_REQ_SNT_STATE,
     [(PFCP_SESS_MOD_RESP_RCVD_EVNT, process_pfcp_sess_mod_resp_ubr_handler)]);
   (UPDATE_BEARER_REQ_SNT_STATE,
     [(UPDATE_BEARER_RSP_RCVD_EVNT, process_update_bearer_response_handler)])].

Definition pgwc_RESTORATION_RECOVERY_PROC : list (list event_handler) :=
  procedure 39 [
   (PFCP_ASSOC_REQ_SNT_STATE,
     [(PFCP_ASSOC_SETUP_RESP_RCVD_EVNT, process_recov_asso_resp_handler)]);
   (PFCP_ASSOC_RESP_RCVD_STATE,
     [(PFCP_ASSOC_SETUP_RESP_RCVD_EVNT, process_recov_asso_resp_handler)]);
   (PFCP_SESS_EST_REQ_SNT_STATE,
     [(PFCP_SESS_EST_RESP_RCVD_EVNT, process_recov_est_resp_handler)]);
   (CONNECTED_STATE,
     [(PFCP_SESS_MOD_RESP_RCVD_EVNT, process_sess_mod_resp_li_handler);
      (UPD_PDN_CONN_SET_REQ_RCVD_EVNT, process_upd_pdn_conn_set_req)]);
   (PGW_RSTRT_NOTIF_REQ_SNT_STATE,
     [(PGW_RSTRT_NOTIF_ACK_RCVD_EVNT, process_pgw_rstrt_notif_ack)]);
   (UPD_PDN_CONN_SET_REQ_SNT_STATE,
     [(UPD_PDN_CONN_SET_RESP_RCVD_EVNT, process_upd_pdn_conn_set_rsp)]);
   (DEL_PDN_CONN_SET_REQ_SNT_STATE,
     [(DEL_PDN_CONN_SET_RESP_RCVD_EVNT, process_del_pdn_conn_set_rsp)]);
   (DEL_PDN_CONN_SET_REQ_RCVD_STATE,
     [(DEL_PDN_CONN_SET_REQ_RCVD_EVNT, process_del_pdn_conn_set_req)]);
   (PFCP_SESS_SET_DEL_REQ_SNT_STATE,
     [(PFCP_SESS_SET_DEL_RESP_RCVD_EVNT, process_pfcp_sess_set_del_rsp)]);
   (PFCP_SESS_SET_DEL_REQ_RCVD_STATE,
     [(PFCP_SESS_SET_DEL_REQ_RCVD_EVNT, process_pfcp_sess_set_del_req)])].

Definition pgwc_MODIFY_BEARER_PROCEDURE : list (list event_handler) :=
  procedure 39 [
   (CONNECTED_STATE,
     [(MB_REQ_RCVD_EVNT, process_mb_req_handler);
      (PFCP_SESS_MOD_RESP_RCVD_EVNT, process_sess_mod_resp_li_handler);
      (MB_RESP_RCVD_EVNT, process_mb_resp_handler)]);
   (IDEL_STATE,
     [(MB_REQ_RCVD_EVNT, process_mb_req_handler);
      (MB_RESP_RCVD_EVNT, process_mb_resp_handler)]);
   (PFCP_SESS_MOD_REQ_SNT_STATE,
     [(PFCP_SESS_MOD_RESP_RCVD_EVNT, process_sess_mod_resp_handler)]);
   (MBR_REQ_SNT_STATE,
     [(MB_RESP_RCVD_EVNT, process_mb_resp_handler)]);
   (CCRU_SNT_STATE,
     [(CCA_RCVD_EVNT, cca_u_msg_handler)])].

Definition pgwc_ATTACH_DEDICATED_PROC : list (list event_handler) :=
  procedure 39 [
   (PFCP_ASSOC_REQ_SNT_STATE,
     [(PFCP_ASSOC_SETUP_RESP_RCVD_EVNT, process_assoc_resp_handler)]);
   (PFCP_ASSOC_RESP_RCVD_STATE,
     [(PFCP_ASSOC_SETUP_RESP_RCVD_EVNT, process_assoc_resp_handler)]);
   (PFCP_SESS_EST_REQ_SNT_STATE,
     [(PFCP_SESS_EST_RESP_RCVD_EVNT, process_sess_est_resp_dedicated_handler)]);
   (CONNECTED_STATE,
     [(PFCP_SESS_MOD_RESP_RCVD_EVNT, process_sess_mod_resp_li_handler)]);
   (PFCP_SESS_MOD_REQ_SNT_STATE,
     [(PFCP_SESS_MOD_RESP_RCVD_EVNT, process_pfcp_sess_mod_resp_cbr_handler)]);
   (CREATE_BER_REQ_SNT_STATE,
     [(CREATE_BER_RESP_RCVD_EVNT, process_create_bearer_response_handler)]);
   (ERROR_OCCURED_STATE,
     [(PFCP_SESS_DEL_RESP_RCVD_EVNT, process_error_occured_handler)]);
   (PROVISION_ACK_SNT_STATE,
     [(CCA_RCVD_EVNT, provision_ack_ccau_handler)])].

Definition pgwc_MODIFY_ACCESS_BEARER_PROC : list (list event_handler) :=
  procedure 39 [
   (CONNECTED_STATE,
     [(MAB_REQ_RCVD_EVNT, process_modify_access_bearer_handler)]);
   (IDEL_STATE,
     [(MAB_REQ_RCVD_EVNT, process_modify_access_bearer_handler)]);
   (PFCP_SESS_MOD_REQ_SNT_STATE,
     [(PFCP_SESS_MOD_RESP_RCVD_EVNT, process_sess_mod_resp_handler)]);
   (UPD_PDN_CONN_SET_REQ_SNT_STATE,
     [(UPD_PDN_CONN_SET_RESP_RCVD_EVNT, process_upd_pdn_set_response_handler)])].

Definition pgwc_CHANGE_NOTIFICATION_PROC : list (list event_handler) :=
  procedure 39 [
   (CONNECTED_STATE,
     [(CHANGE_NOTIFICATION_REQ_RCVD_EVNT, process_change_noti_req_handler)]);
   (CCRU_SNT_STATE,
     [(CCA_RCVD_EVNT, cca_msg_handler)])].

Definition pgwc_UPDATE_PDN_CONNECTION_PROC : list (list event_handler) :=
  procedure 38 [
   (CONNECTED_STATE,
     [(UPD_PDN_CONN_SET_REQ_RCVD_EVNT, process_update_pdn_set_req_handler);
      (CHANGE_NOTIFICATION_REQ_RCVD_EVNT, process_change_noti_req_handler)]);
   (PFCP_SESS_MOD_REQ_SNT_STATE,
     [(PFCP_SESS_MOD_RESP_RCVD_EVNT, process_pfcp_sess_mod_resp_upd_handler)]);
   (CCRU_SNT_STATE,
     [(CCA_RCVD_EVNT, cca_msg_handler)])].

Definition pgwc_UE_REQ_BER_RSRC_MOD_PROC : list (list event_handler) :=
  procedure 39 [
   (CONNECTED_STATE,
     [(BEARER_RSRC_CMD_RCVD_EVNT, process_bearer_resource_command_handler)]);
   (PFCP_SESS_MOD_REQ_SNT_STATE,
     [(PFCP_SESS_MOD_RESP_RCVD_EVNT, process_pfcp_sess_mod_resp_brc_handler)]);
   (CREATE_BER_REQ_SNT_STATE,
     [(CREATE_BER_RESP_RCVD_EVNT, process_create_bearer_response_handler)]);
   (ERROR_OCCURED_STATE,
     [(PFCP_SESS_MOD_RESP_RCVD_EVNT, process_bearer_resource_cmd_error_handler)]);
   (UPDATE_BEARER_REQ_SNT_STATE,
     [(UPDATE_BEARER_RSP_RCVD_EVNT, process_update_bearer_response_handler)]);
   (DELETE_BER_REQ_SNT_STATE,
     [(DELETE_BER_RESP_RCVD_EVNT, process_delete_bearer_resp_handler)]);
   (CCRU_SNT_STATE,
     [(CCA_RCVD_EVNT, cca_msg_handler)]);
   (PROVISION_ACK_SNT_STATE,
     [(CCA_RCVD_EVNT, provision_ack_ccau_handler)])].

Definition pgwc_HSS_INITIATED_SUB_QOS_MOD : list (list event_handler) :=
  procedure 39 [
   (CONNECTED_STATE,
     [(MODIFY_BEARER_CMD_RCVD_EVNT, process_modify_bearer_command_handler)]);
   (PFCP_SESS_MOD_REQ_SNT_STATE,
     [(PFCP_SESS_MOD_RESP_RCVD_EVNT, process_pfcp_sess_mod_resp_ubr_handler)]);
   (UPDATE_BEARER_REQ_SNT_STATE,
     [(UPDATE_BEARER_RSP_RCVD_EVNT, process_update_bearer_response_handler)]);
   (CCRU_SNT_STATE,
     [(CCA_RCVD_EVNT, cca_msg_handler)]);
   (PROVISION_ACK_SNT_STATE,
     [(CCA_RCVD_EVNT, provision_ack_ccau_handler)])].

Definition pgwc_S1_HANDOVER_PROC : list (list event_handler) :=
  procedure 39 [
   (SGWC_NONE_STATE,
     [(CS_REQ_RCVD_EVNT, association_setup_handler)]);
   (PFCP_SESS_EST_REQ_SNT_STATE,
     [(PFCP_SESS_EST_RESP_RCVD_EVNT, process_sess_est_resp_handler)])].

Definition pgwc_CREATE_INDIRECT_TUNNEL_PROC : list (list event_handler) :=
  procedure 39 [
   (SGWC_NONE_STATE,
     [(CREATE_INDIR_DATA_FRWRD_TUN_REQ_RCVD_EVNT, process_create_indir_data_frwd_req_handler)]);
   (PFCP_ASSOC_REQ_SNT_STATE,
     [(PFCP_ASSOC_SETUP_RESP_RCVD_EVNT, process_assoc_resp_handler)]);
   (PFCP_SESS_EST_REQ_SNT_STATE,
     [(PFCP_SESS_EST_RESP_RCVD_EVNT, process_sess_est_resp_handler)]);
   (CONNECTED_STATE,
     [(CREATE_INDIR_DATA_FRWRD_TUN_REQ_RCVD_EVNT, process_create_indir_data_frwd_req_handler)])].

Definition pgwc_DELETE_INDIRECT_TUNNEL_PROC : list (list event_handler) :=
  procedure 39 [
   (CONNECTED_STATE,
     [(DELETE_INDIR_DATA_FRWD_TUN_REQ_RCVD_EVNT, process_del_indirect_tunnel_req_handler)]);
   (PFCP_SESS_DEL_REQ_SNT_STATE,
     [(PFCP_SESS_DEL_RESP_RCVD_EVNT, process_pfcp_del_resp_del_indirect_handler)])].

Definition pgwc_END_PROC : list (list event_handler) := procedure 39 [].

Definition state_machine_pgwc : EventHandler :=
  [pgwc_NONE_PROC; pgwc_INITIAL_PDN_ATTACH_PROC; pgwc_SERVICE_REQUEST_PROC; pgwc_SGW_RELOCATION_PROC;
   pgwc_CONN_SUSPEND_PROC; pgwc_DETACH_PROC; pgwc_DED_BER_ACTIVATION_PROC;
   pgwc_PDN_GW_INIT_BEARER_DEACTIVATION; pgwc_MME_INI_DEDICATED_BEARER_DEACTIVATION_PROC;
   pgwc_UPDATE_BEARER_PROC; pgwc_RESTORATION_RECOVERY_PROC; pgwc_MODIFY_BEARER_PROCEDURE;
   pgwc_ATTACH_DEDICATED_PROC; pgwc_MODIFY_ACCESS_BEARER_PROC; pgwc_CHANGE_NOTIFICATION_PROC;
   pgwc_UPDATE_PDN_CONNECTION_PROC; pgwc_UE_REQ_BER_RSRC_MOD_PROC; pgwc_HSS_INITIATED_SUB_QOS_MOD;
   pgwc_S1_HANDOVER_PROC; pgwc_CREATE_INDIRECT_TUNNEL_PROC; pgwc_DELETE_INDIRECT_TUNNEL_PROC;
   pgwc_END_PROC].

Definition saegwc_NONE_PROC : list (list event_handler) := procedure 39 [].

Definition saegwc_INITIAL_PDN_ATTACH_PROC : list (list event_handler) :=
  procedure 39 [
   (SGWC_NONE_STATE,
     [(CS_REQ_RCVD_EVNT, association_setup_handler)]);
   (PFCP_ASSOC_REQ_SNT_STATE,
     [(PFCP_ASSOC_SETUP_RESP_RCVD_EVNT, process_assoc_resp_handler)]);
   (PFCP_ASSOC_RESP_RCVD_STATE,
     [(PFCP_ASSOC_SETUP_RESP_RCVD_EVNT, process_assoc_resp_handler)]);
   (PFCP_SESS_EST_REQ_SNT_STATE,
     [(PFCP_SESS_EST_RESP_RCVD_EVNT, process_sess_est_resp_handler)]);
   (CONNECTED_STATE,
     [(MB_REQ_RCVD_EVNT, process_mb_req_handler);
      (PFCP_SESS_MOD_RESP_RCVD_EVNT, process_sess_mod_resp_li_handler);
      (CHANGE_NOTIFICATION_REQ_RCVD_EVNT, process_change_noti_req_handler)]);
   (IDEL_STATE,
     [(MB_REQ_RCVD_EVNT, process_mb_req_handler)]);
   (CS_REQ_SNT_STATE,
     [(CS_RESP_RCVD_EVNT, process_cs_resp_handler)]);
   (PFCP_SESS_MOD_REQ_SNT_STATE,
     [(PFCP_SESS_MOD_RESP_RCVD_EVNT, process_sess_mod_resp_handler)]);
   (PFCP_SESS_DEL_REQ_SNT_STATE,
     [(PFCP_SESS_DEL_RESP_RCVD_EVNT, process_pfcp_sess_del_resp_context_replacement_handler)]);
   (DDN_ACK_RCVD_STATE,
     [(MB_REQ_RCVD_EVNT, process_mb_req_handler)]);
   (PGWC_NONE_STATE,
     [(CS_REQ_RCVD_EVNT, gx_setup_handler)]);
   (CCR_SNT_STATE,
     [(CCA_RCVD_EVNT, cca_msg_handler)]);
   (PFCP_PFD_MGMT_RESP_RCVD_STATE,
     [(PFCP_PFD_MGMT_RESP_RCVD_EVNT, pfd_management_handler)]);
   (ERROR_OCCURED_STATE,
     [(ERROR_OCCURED_EVNT, process_error_occured_handler)]);
   (CCRU_SNT_STATE,
     [(CCA_RCVD_EVNT, cca_msg_handler)])].

Definition saegwc_SERVICE_REQUEST_PROC : list (list event_handler) :=
  procedure 39 [
   (CONNECTED_STATE,
     [(PFCP_SESS_MOD_RESP_RCVD_EVNT, process_sess_mod_resp_li_handler)])].

Definition saegwc_SGW_RELOCATION_PROC : list (list event_handler) :=
  procedure 39 [
   (SGWC_NONE_STATE,
     [(CS_REQ_RCVD_EVNT, association_setup_handler)]);
   (PFCP_ASSOC_REQ_SNT_STATE,
     [(PFCP_ASSOC_SETUP_RESP_RCVD_EVNT, process_assoc_resp_handler)]);
   (PFCP_ASSOC_RESP_RCVD_STATE,
     [(PFCP_ASSOC_SETUP_RESP_RCVD_EVNT, process_assoc_resp_handler)]);
   (PFCP_SESS_EST_REQ_SNT_STATE,
     [(PFCP_SESS_EST_RESP_RCVD_EVNT, process_sess_est_resp_sgw_reloc_handler)]);
   (CONNECTED_STATE,
     [(MB_REQ_RCVD_EVNT, process_mb_req_sgw_reloc_handler);
      (PFCP_SESS_MOD_RESP_RCVD_EVNT, process_sess_mod_resp_li_handler)]);
   (IDEL_STATE,
     [(MB_REQ_RCVD_EVNT, process_mb_req_sgw_reloc_handler)]);
   (CS_REQ_SNT_STATE,
     [(CS_RESP_RCVD_EVNT, process_cs_resp_handler)]);
   (PFCP_SESS_MOD_REQ_SNT_STATE,
     [(PFCP_SESS_MOD_RESP_RCVD_EVNT, process_sess_mod_resp_handler)]);
   (DDN_ACK_RCVD_STATE,
     [(MB_REQ_RCVD_EVNT, process_mb_req_handler)])].

Definition saegwc_CONN_SUSPEND_PROC : list (list event_handler) :=
  procedure 39 [
   (CONNECTED_STATE,
     [(MB_REQ_RCVD_EVNT, process_mb_req_handler);
      (PFCP_SESS_MOD_RESP_RCVD_EVNT, process_sess_mod_resp_li_handler);
      (REL_ACC_BER_REQ_RCVD_EVNT, process_rel_access_ber_req_handler)]);
   (IDEL_STATE,
     [(MB_REQ_RCVD_EVNT, process_mb_req_handler);
      (PFCP_SESS_MOD_RESP_RCVD_EVNT, process_sess_mod_resp_dl_buf_dur_handler)]);
   (PFCP_SESS_MOD_REQ_SNT_STATE,
     [(PFCP_SESS_MOD_RESP_RCVD_EVNT, process_sess_mod_resp_handler)]);
   (DDN_REQ_SNT_STATE,
     [(PFCP_SESS_MOD_RESP_RCVD_EVNT, process_sess_mod_resp_ddn_fail_handler);
      (DDN_ACK_RESP_RCVD_EVNT, process_ddn_ack_resp_handler);
      (DDN_FAILURE_INDIC_EVNT, process_ddn_failure_handler)]);
   (DDN_ACK_RCVD_STATE,
     [(MB_REQ_RCVD_EVNT, process_mb_req_handler)])].

Definition saegwc_DETACH_PROC : list (list event_handler) :=
  procedure 39 [
   (CONNECTED_STATE,
     [(PFCP_SESS_MOD_RESP_RCVD_EVNT, process_sess_mod_resp_li_handler);
      (DS_REQ_RCVD_EVNT, process_ds_req_handler)]);
   (IDEL_STATE,
     [(DS_REQ_RCVD_EVNT, process_ds_req_handler)]);
   (PFCP_SESS_DEL_REQ_SNT_STATE,
     [(PFCP_SESS_DEL_RESP_RCVD_EVNT, process_sess_del_resp_handler)]);
   (DS_REQ_SNT_STATE,
     [(DS_RESP_RCVD_EVNT, process_ds_resp_handler)]);
   (CCR_SNT_STATE,
     [(CCA_RCVD_EVNT, cca_t_msg_handler)])].

Definition saegwc_DED_BER_ACTIVATION_PROC : list (list event_handler) :=
  procedure 39 [
   (CONNECTED_STATE,
     [(PFCP_SESS_MOD_RESP_RCVD_EVNT, process_sess_mod_resp_li_handler);
      (RE_AUTH_REQ_RCVD_EVNT, process_rar_request_handler)]);
   (IDEL_STATE,
     [(RE_AUTH_REQ_RCVD_EVNT, process_rar_request_handler)]);
   (PFCP_SESS_MOD_REQ_SNT_STATE,
     [(PFCP_SESS_MOD_RESP_RCVD_EVNT, process_pfcp_sess_mod_resp_cbr_handler)]);
   (CREATE_BER_REQ_SNT_STATE,
     [(CREATE_BER_RESP_RCVD_EVNT, process_create_bearer_response_handler)]);
   (ERROR_OCCURED_STATE,
     [(PFCP_SESS_MOD_RESP_RCVD_EVNT, process_cbr_error_occured_handler)])].

Definition saegwc_PDN_GW_INIT_BEARER_DEACTIVATION : list (list event_handler) :=
  procedure 39 [
   (CONNECTED_STATE,
     [(PFCP_SESS_MOD_RESP_RCVD_EVNT, process_sess_mod_resp_li_handler);
      (RE_AUTH_REQ_RCVD_EVNT, process_rar_request_handler)]);
   (IDEL_STATE,
     [(RE_AUTH_REQ_RCVD_EVNT, process_rar_request_handler)]);
   (PFCP_SESS_MOD_REQ_SNT_STATE,
     [(PFCP_SESS_MOD_RESP_RCVD_EVNT, process_pfcp_sess_mod_resp_dbr_handler)]);
   (PFCP_SESS_DEL_REQ_SNT_STATE,
     [(PFCP_SESS_DEL_RESP_RCVD_EVNT, process_pfcp_sess_del_resp_dbr_handler)]);
   (CCR_SNT_STATE,
     [(CCA_RCVD_EVNT, cca_t_msg_handler)]);
   (ERROR_OCCURED_STATE,
     [(PFCP_SESS_MOD_RESP_RCVD_EVNT, process_dbr_error_occured_handler)]);
   (DELETE_BER_REQ_SNT_STATE,
     [(DELETE_BER_RESP_RCVD_EVNT, process_delete_bearer_resp_handler)])].

Definition saegwc_MME_INI_DEDICATED_BEARER_DEACTIVATION_PROC : list (list event_handler) :=
  procedure 39 [
   (CONNECTED_STATE,
     [(PFCP_SESS_MOD_RESP_RCVD_EVNT, process_sess_mod_resp_li_handler);
      (DELETE_BER_CMD_RCVD_EVNT, process_delete_bearer_command_handler)]);
   (PFCP_SESS_MOD_REQ_SNT_STATE,
     [(PFCP_SESS_MOD_RESP_RCVD_EVNT, process_pfcp_sess_mod_resp_dbr_handler)]);
   (ERROR_OCCURED_STATE,
     [(PFCP_SESS_MOD_RESP_RCVD_EVNT, process_dbr_error_occured_handler)]);
   (DELETE_BER_REQ_SNT_STATE,
     [(DELETE_BER_RESP_RCVD_EVNT, process_delete_bearer_resp_handler)]);
   (CCRU_SNT_STATE,
     [(CCA_RCVD_EVNT, del_bearer_cmd_ccau_handler)]);
   (PROVISION_ACK_SNT_STATE,
     [(CCA_RCVD_EVNT, provision_ack_ccau_handler)])].

Definition saegwc_UPDATE_BEARER_PROC : list (list event_handler) :=
  procedure 39 [
   (CONNECTED_STATE,
     [(PFCP_SESS_MOD_RESP_RCVD_EVNT, process_sess_mod_resp_li_handler)]);
   (PFCP_SESS_MOD_REQ_SNT_STATE,
     [(PFCP_SESS_MOD_RESP_RCVD_EVNT, process_pfcp_sess_mod_resp_ubr_handler)]);
   (UPDATE_BEARER_REQ_SNT_STATE,
     [(UPDATE_BEARER_RSP_RCVD_EVNT, process_update_bearer_response_handler)])].

Definition saegwc_RESTORATION_RECOVERY_PROC : list (list event_handler) :=
  procedure 39 [
   (PFCP_ASSOC_REQ_SNT_STATE,
     [(PFCP_ASSOC_SETUP_RESP_RCVD_EVNT, process_recov_asso_resp_handler)]);
   (PFCP_ASSOC_RESP_RCVD_STATE,
     [(PFCP_ASSOC_SETUP_RESP_RCVD_EVNT, process_recov_asso_resp_handler)]);
   (PFCP_SESS_EST_REQ_SNT_STATE,
     [(PFCP_SESS_EST_RESP_RCVD_EVNT, process_recov_est_resp_handler)]);
   (CONNECTED_STATE,
     [(PFCP_SESS_MOD_RESP_RCVD_EVNT, process_sess_mod_resp_li_handler);
      (UPD_PDN_CONN_SET_REQ_RCVD_EVNT, process_upd_pdn_conn_set_req)]);
   (PGW_RSTRT_NOTIF_REQ_SNT_STATE,
     [(PGW_RSTRT_NOTIF_ACK_RCVD_EVNT, process_pgw_rstrt_notif_ack)]);
   (UPD_PDN_CONN_SET_REQ_SNT_STATE,
     [(UPD_PDN_CONN_SET_RESP_RCVD_EVNT, process_upd_pdn_conn_set_rsp)]);
   (DEL_PDN_CONN_SET_REQ_SNT_STATE,
     [(DEL_PDN_CONN_SET_RESP_RCVD_EVNT, process_del_pdn_conn_set_rsp)]);
   (DEL_PDN_CONN_SET_REQ_RCVD_STATE,
     [(DEL_PDN_CONN_SET_REQ_RCVD_EVNT, process_del_pdn_conn_set_req)]);
   (PFCP_SESS_SET_DEL_REQ_SNT_STATE,
     [(PFCP_SESS_SET_DEL_RESP_RCVD_EVNT, process_pfcp_sess_set_del_rsp)]);
   (PFCP_SESS_SET_DEL_REQ_RCVD_STATE,
     [(PFCP_SESS_SET_DEL_REQ_RCVD_EVNT, process_pfcp_sess_set_del_req)])].

Definition saegwc_MODIFY_BEARER_PROCEDURE : list (list event_handler) :=
  procedure 39 [
   (CONNECTED_STATE,
     [(MB_REQ_RCVD_EVNT, process_mb_req_handler);
      (PFCP_SESS_MOD_RESP_RCVD_EVNT, process_sess_mod_resp_li_handler);
      (MB_RESP_RCVD_EVNT, process_mb_resp_handler)]);
   (IDEL_STATE,
     [(MB_REQ_RCVD_EVNT, process_mb_req_handler);
      (MB_RESP_RCVD_EVNT, process_mb_resp_handler)]);
   (PFCP_SESS_MOD_REQ_SNT_STATE,
     [(PFCP_SESS_MOD_RESP_RCVD_EVNT, process_sess_mod_resp_handler)]);
   (MBR_REQ_SNT_STATE,
     [(MB_RESP_RCVD_EVNT, process_mb_resp_handler)]);
   (CCRU_SNT_STATE,
     [(CCA_RCVD_EVNT, cca_u_msg_handler)])].

Definition saegwc_ATTACH_DEDICATED_PROC : list (list event_handler) :=
  procedure 39 [
   (PFCP_ASSOC_REQ_SNT_STATE,
     [(PFCP_ASSOC_SETUP_RESP_RCVD_EVNT, process_assoc_resp_handler)]);
   (PFCP_ASSOC_RESP_RCVD_STATE,
     [(PFCP_ASSOC_SETUP_RESP_RCVD_EVNT, process_assoc_resp_handler)]);
   (PFCP_SESS_EST_REQ_SNT_STATE,
     [(PFCP_SESS_EST_RESP_RCVD_EVNT, process_sess_est_resp_dedicated_handler)]);
   (CONNECTED_STATE,
     [(PFCP_SESS_MOD_RESP_RCVD_EVNT, process_sess_mod_resp_li_handler)]);
   (PFCP_SESS_MOD_REQ_SNT_STATE,
     [(PFCP_SESS_MOD_RESP_RCVD_EVNT, process_pfcp_sess_mod_resp_cs_dedicated_handler)]);
   (CREATE_BER_REQ_SNT_STATE,
     [(MB_REQ_RCVD_EVNT, process_mb_request_cb_resp_handler)]);
   (PROVISION_ACK_SNT_STATE,
     [(CCA_RCVD_EVNT, provision_ack_ccau_handler)])].

Definition saegwc_MODIFY_ACCESS_BEARER_PROC : list (list event_handler) :=
  procedure 39 [
   (CONNECTED_STATE,
     [(MAB_REQ_RCVD_EVNT, process_modify_access_bearer_handler)]);
   (IDEL_STATE,
     [(MAB_REQ_RCVD_EVNT, process_modify_access_bearer_handler)]);
   (PFCP_SESS_MOD_REQ_SNT_STATE,
     [(PFCP_SESS_MOD_RESP_RCVD_EVNT, process_sess_mod_resp_handler)]);
   (UPD_PDN_CONN_SET_REQ_SNT_STATE,
     [(UPD_PDN_CONN_SET_RESP_RCVD_EVNT, process_upd_pdn_set_response_handler)])].

Definition saegwc_CHANGE_NOTIFICATION_PROC : list (list event_handler) :=
  procedure 39 [
   (CONNECTED_STATE,
     [(CHANGE_NOTIFICATION_REQ_RCVD_EVNT, process_change_noti_req_handler)]);
   (IDEL_STATE,
     [(CHANGE_NOTIFICATION_REQ_RCVD_EVNT, process_change_noti_req_handler)]);
   (CCRU_SNT_STATE,
     [(CCA_RCVD_EVNT, cca_msg_handler)])].

Definition saegwc_UPDATE_PDN_CONNECTION_PROC : list (list event_handler) :=
  procedure 38 [
   (CONNECTED_STATE,
     [(UPD_PDN_CONN_SET_REQ_RCVD_EVNT, process_update_pdn_set_req_handler)]);
   (PFCP_SESS_MOD_REQ_SNT_STATE,
     [(PFCP_SESS_MOD_RESP_RCVD_EVNT, process_pfcp_sess_mod_resp_upd_handler)]);
   (CCRU_SNT_STATE,
     [(CCA_RCVD_EVNT, cca_msg_handler)])].

Definition saegwc_UE_REQ_BER_RSRC_MOD_PROC : list (list event_handler) :=
  procedure 39 [
   (CONNECTED_STATE,
     [(BEARER_RSRC_CMD_RCVD_EVNT, process_bearer_resource_command_handler)]);
   (PFCP_SESS_MOD_REQ_SNT_STATE,
     [(PFCP_SESS_MOD_RESP_RCVD_EVNT, process_pfcp_sess_mod_resp_brc_handler)]);
   (CREATE_BER_REQ_SNT_STATE,
     [(CREATE_BER_RESP_RCVD_EVNT, process_create_bearer_response_handler)]);
   (ERROR_OCCURED_STATE,
     [(PFCP_SESS_MOD_RESP_RCVD_EVNT, process_bearer_resource_cmd_error_handler)]);
   (UPDATE_BEARER_REQ_SNT_STATE,
     [(UPDATE_BEARER_RSP_RCVD_EVNT, process_update_bearer_response_handler)]);
   (DELETE_BER_REQ_SNT_STATE,
     [(DELETE_BER_RESP_RCVD_EVNT, process_delete_bearer_resp_handler)]);
   (CCRU_SNT_STATE,
     [(CCA_RCVD_EVNT, cca_msg_handler)]);
   (PROVISION_ACK_SNT_STATE,
     [(CCA_RCVD_EVNT, provision_ack_ccau_handler)])].

Definition saegwc_HSS_INITIATED_SUB_QOS_MOD : list (list event_handler) :=
  procedure 39 [
   (CONNECTED_STATE,
     [(MODIFY_BEARER_CMD_RCVD_EVNT, process_modify_bearer_command_handler)]);
   (PFCP_SESS_MOD_REQ_SNT_STATE,
     [(PFCP_SESS_MOD_RESP_RCVD_EVNT, process_pfcp_sess_mod_resp_ubr_handler)]);
   (UPDATE_BEARER_REQ_SNT_STATE,
     [(UPDATE_BEARER_RSP_RCVD_EVNT, process_update_bearer_response_handler)]);
   (CCRU_SNT_STATE,
     [(CCA_RCVD_EVNT, cca_msg_handler)]);
   (PROVISION_ACK_SNT_STATE,
     [(CCA_RCVD_EVNT, provision_ack_ccau_handler)])].

Definition saegwc_S1_HANDOVER_PROC : list (list event_handler) :=
  procedure 39 [
   (SGWC_NONE_STATE,
     [(CS_REQ_RCVD_EVNT, association_setup_handler)]);
   (PFCP_SESS_EST_REQ_SNT_STATE,
     [(PFCP_SESS_EST_RESP_RCVD_EVNT, process_sess_est_resp_handler)])].

Definition saegwc_CREATE_INDIRECT_TUNNEL_PROC : list (list event_handler) :=
  procedure 39 [
   (SGWC_NONE_STATE,
     [(CREATE_INDIR_DATA_FRWRD_TUN_REQ_RCVD_EVNT, process_create_indir_data_frwd_req_handler)]);
   (PFCP_ASSOC_REQ_SNT_STATE,
     [(PFCP_ASSOC_SETUP_RESP_RCVD_EVNT, process_assoc_resp_handler)]);
   (PFCP_SESS_EST_REQ_SNT_STATE,
     [(PFCP_SESS_EST_RESP_RCVD_EVNT, process_sess_est_resp_handler)]);
   (CONNECTED_STATE,
     [(CREATE_INDIR_DATA_FRWRD_TUN_REQ_RCVD_EVNT, process_create_indir_data_frwd_req_handler)])].

Definition saegwc_DELETE_INDIRECT_TUNNEL_PROC : list (list event_handler) :=
  procedure 39 [
   (CONNECTED_STATE,
     [(DELETE_INDIR_DATA_FRWD_TUN_REQ_RCVD_EVNT, process_del_indirect_tunnel_req_handler)]);
   (PFCP_SESS_DEL_REQ_SNT_STATE,
     [(PFCP_SESS_DEL_RESP_RCVD_EVNT, process_pfcp_del_resp_del_indirect_handler)])].

Definition saegwc_END_PROC : list (list event_handler) := procedure 39 [].

Definition state_machine_saegwc : EventHandler :=
  [saegwc_NONE_PROC; saegwc_INITIAL_PDN_ATTACH_PROC; saegwc_SERVICE_REQUEST_PROC;
   saegwc_SGW_RELOCATION_PROC; saegwc_CONN_SUSPEND_PROC; saegwc_DETACH_PROC;
   saegwc_DED_BER_ACTIVATION_PROC; saegwc_PDN_GW_INIT_BEARER_DEACTIVATION;
   saegwc_MME_INI_DEDICATED_BEARER_DEACTIVATION_PROC; saegwc_UPDATE_BEARER_PROC;
   saegwc_RESTORATION_RECOVERY_PROC; saegwc_MODIFY_BEARER_PROCEDURE; saegwc_ATTACH_DEDICATED_PROC;
   saegwc_MODIFY_ACCESS_BEARER_PROC; saegwc_CHANGE_NOTIFICATION_PROC;
   saegwc_UPDATE_PDN_CONNECTION_PROC; saegwc_UE_REQ_BER_RSRC_MOD_PROC;
   saegwc_HSS_INITIATED_SUB_QOS_MOD; saegwc_S1_HANDOVER_PROC; saegwc_CREATE_INDIRECT_TUNNEL_PROC;
   saegwc_DELETE_INDIRECT_TUNNEL_PROC; saegwc_END_PROC].

(** ** Dispatch *)

#[export] Instance event_handler_eq_decision : EqDecision event_handler.
Proof. solve_decision. Defined.

Definition SGWC : Z := 1.
Definition PGWC : Z := 2.
Definition SAEGWC : Z := 3.

Definition handler_at (t : EventHandler) (proc state event : Z) : option event_handler :=
  rows ← t !! Z.to_nat proc; r ← rows !! Z.to_nat state; r !! Z.to_nat event.

Definition machine (cp_mode : Z) : option EventHandler :=
  if bool_decide (SGWC = cp_mode) then Some state_machine_sgwc
  else if bool_decide (PGWC = cp_mode) then Some state_machine_pgwc
  else if bool_decide (SAEGWC = cp_mode) then Some state_machine_saegwc
  else None.

Inductive dispatch : Set :=
| Call (h : event_handler) | NullCall | InvalidMode | InvalidIndex.

(** The guarded call that [msg_handler_s11], [msg_handler_s5s8], [msg_handler_gx] and
    [process_pfcp_msg] share. *)
Definition sm_dispatch (cp_mode proc state event : Z) : dispatch :=
  if bool_decide (proc < END_PROC) && bool_decide (state < END_STATE) && bool_decide (event < END_EVNT)
  then match machine cp_mode with
       | Some t => match handler_at t proc state event with Some h => Call h | None => NullCall end
       | None => InvalidMode
       end
  else InvalidIndex.

(** ** Lemmas *)

(** The elements that the guard of [sm_dispatch] lets through are there. *)
Definition filled (t : EventHandler) : bool :=
  forallb (fun rows => bool_decide (38 <= length rows)%nat &&
    forallb (fun r => bool_decide (length r = 48%nat) &&
                      bool_decide (r !! 19%nat = Some process_rpt_req_handler)) rows) t
  && bool_decide (length t = 22%nat).

Lemma machines_filled m t : machine m = Some t -> filled t = true.
Proof.
  unfold machine. intros H.
  repeat case_bool_decide; simplify_eq; vm_compute; reflexivity.
Qed.

Lemma filled_handler t p s : filled t = true -> 0 <= p < 22 -> 0 <= s < 38 ->
  exists r, (forall e, handler_at t p s e = r !! Z.to_nat e) /\
    length r = 48%nat /\ r !! 19%nat = Some process_rpt_req_handler.
Proof.
  unfold filled. rewrite andb_true_iff, forallb_forall, bool_decide_eq_true.
  intros [Hrows Hlen] Hp Hs.
  destruct (lookup_lt_is_Some_2 t (Z.to_nat p)) as [rows Er]; [lia|].
  specialize (Hrows rows). rewrite andb_true_iff, forallb_forall, bool_decide_eq_true in Hrows.
  destruct Hrows as [H1 H2]; [by apply list_elem_of_In; eapply list_elem_of_lookup_2|].
  destruct (lookup_lt_is_Some_2 rows (Z.to_nat s)) as [r Es]; [lia|].
  specialize (H2 r). rewrite andb_true_iff, !bool_decide_eq_true in H2.
  destruct H2 as [H2 H3]; [by apply list_elem_of_In; eapply list_elem_of_lookup_2|].
  exists r. split_and!; [|done|done]. intros e. unfold handler_at. by rewrite Er; simpl; rewrite Es.
Qed.

(** ** Theorems *)

(** C33. The guard of the dispatchers is exactly what the tables need: behind it no
    [NULL] pointer is called, whatever the bytes of the message structure are; a handler
    is called if and only if the mode is one of the three and the indices pass the
    guard; the element behind the guard's bound, [END_STATE] of the procedure
    [UPDATE_PDN_CONNECTION_PROC], is [NULL] in all three tables; and a session report is
    handled in every procedure and every state. *)
Theorem dispatch_never_calls_null (cp_mode proc state event : Z) :
  0 <= proc -> 0 <= state -> 0 <= event ->
  sm_dispatch cp_mode proc state event <> NullCall /\
  ((exists h, sm_dispatch cp_mode proc state event = Call h) <->
   (cp_mode = SGWC \/ cp_mode = PGWC \/ cp_mode = SAEGWC) /\
   proc < END_PROC /\ state < END_STATE /\ event < END_EVNT) /\
  (forall t, machine cp_mode = Some t ->
     handler_at t UPDATE_PDN_CONNECTION_PROC END_STATE event = None /\
     (proc < END_PROC -> state < END_STATE ->
      sm_dispatch cp_mode proc state PFCP_SESS_RPT_REQ_RCVD_EVNT = Call process_rpt_req_handler)).
Proof.
  intros Hp Hs He.
  assert (machine cp_mode = None \/ exists t, machine cp_mode = Some t /\
    (cp_mode = SGWC \/ cp_mode = PGWC \/ cp_mode = SAEGWC)) as Hm.
  { unfold machine. repeat case_bool_decide; eauto 6. }
  assert (machine cp_mode = None -> ~ (cp_mode = SGWC \/ cp_mode = PGWC \/ cp_mode = SAEGWC)) as Hn.
  { unfold machine. intros H [-> | [-> | ->]]; discriminate. }
  unfold sm_dispatch. split; [|split].
  - repeat case_bool_decide; simpl; try done. destruct Hm as [-> | (t & Ht & _)]; [done|].
    rewrite Ht. destruct (filled_handler t proc state) as (r & Hr & Hl & _);
      [by eapply machines_filled|simpl in *; lia..|].
    rewrite Hr. destruct (lookup_lt_is_Some_2 r (Z.to_nat event)) as [h ->]; [simpl in *; lia|done].
  - repeat case_bool_decide; simpl; try (split; [by intros []|intros (_ & ? & ? & ?); simpl in *; lia]).
    destruct Hm as [Hm | (t & Ht & Hmode)].
    + rewrite Hm. split; [by intros []|]. intros []. by destruct (Hn Hm).
    + rewrite Ht. split; [done|]. intros _.
      destruct (filled_handler t proc state) as (r & Hr & Hl & _);
        [by eapply machines_filled|simpl in *; lia..|].
      rewrite Hr. destruct (lookup_lt_is_Some_2 r (Z.to_nat event)) as [h ->]; [simpl in *; lia|eauto].
  - intros t Ht. split.
    + unfold handler_at. unfold machine in Ht. repeat case_bool_decide; simplify_eq; reflexivity.
    + intros Hp' Hs'. rewrite !bool_decide_true by (done || lia). simpl. rewrite Ht.
      destruct (filled_handler t proc state) as (r & Hr & _ & Hrpt);
        [by eapply machines_filled|simpl in *; lia..|].
      rewrite Hr. change (Z.to_nat 19) with 19%nat. by rewrite Hrpt.
Qed.

Lemma dispatch_never_calls_null_witness :
  sm_dispatch SGWC 5 5 47 <> NullCall /\
  sm_dispatch PGWC UPDATE_BEARER_PROC DNS_SENT_STATE PFCP_SESS_RPT_REQ_RCVD_EVNT = Call process_rpt_req_handler.
Proof.
  split.
  - apply (dispatch_never_calls_null SGWC 5 5 47); lia.
  - eapply (dispatch_never_calls_null PGWC UPDATE_BEARER_PROC DNS_SENT_STATE 0); [simpl; lia..|reflexivity|simpl; lia|simpl; lia].
Defined.
