(* ===== verification/CsidCp.v ===== *)
(** * Connection-set identifiers in the control plane

    What the control plane does with the FQ-CSIDs of its peers and with its own
    (pfcp_messages/csid_api.c, csid_peer_init.c): the FQ-CSID lists of a UE context
    ([sess_fqcsid_t]) and of a PDN connection, the local CSID of a set of peers
    ([fill_peer_node_info], [delete_peer_node_info]), the links ([link_gtpc_peer_csids],
    [update_peer_csid_link]), the FQ-CSID IEs of the PFCP requests, and the CSIDs that a
    failed peer leads to.  An array with its counter is the whole array and the counter where
    the code leaves values behind the counter that it reads later. *)

From S2P Require Import Prelude NodeAddr LList SeidList CsidLink CsidUp SmTable.

Definition GTPV2C_CAUSE_SYSTEM_FAILURE : Z := 72.

Section NodeTypes.
Context (IPV4_GLOBAL_UNICAST IPV6_GLOBAL_UNICAST : Z).

(** ** Addresses *)

Definition set_v4 (v4 : Z) (a : node_address_t) : node_address_t := mk_node_address PDN_TYPE_IPV4 v4 (ipv6_addr a).
Definition set_v6 (v6 : list byte) (a : node_address_t) : node_address_t := mk_node_address PDN_TYPE_IPV6 (ipv4_addr a) v6.

Definition fill_node_addr_info (dst src : node_address_t) : node_address_t :=
  if bool_decide (ip_type src = IPV4_GLOBAL_UNICAST) || bool_decide (ip_type src = PDN_TYPE_IPV4)
  then mk_node_address (ip_type src) (ipv4_addr src) (ipv6_addr dst)
  else mk_node_address (ip_type src) (ipv4_addr dst) (ipv6_addr src).
Definition node_of (src : node_address_t) : node_address_t := fill_node_addr_info node_addr_zero src.

(** [COMPARE_IP_ADDRESS(src, dst) == 0] *)
Definition COMPARE_IP_ADDRESS (src dst : node_address_t) : bool :=
  if bool_decide (ip_type dst = IPV4_GLOBAL_UNICAST) || bool_decide (ip_type dst = PDN_TYPE_IPV4)
  then bool_decide (ipv4_addr dst = ipv4_addr src) else bool_decide (ipv6_addr dst = ipv6_addr src).

(** The address of an FQ-CSID IE, written into an address. *)
Definition ie_addr (ie : pfcp_fqcsid_ie) (a : node_address_t) : node_address_t :=
  if bool_decide (fqcsid_node_id_type ie = IPV4_GLOBAL_UNICAST) then set_v4 (ipv4_addr (ie_ipv4 ie)) a else set_v6 (ipv6_addr (ie_ipv6 ie)) a.

(** ** The list of a UE context *)

Record sess_fqcsid_t := mk_sess_fqcsid { num_csid : nat; s_csids : list Z; s_addrs : list node_address_t }.

Definition set_entry (i : nat) (c : Z) (f : node_address_t -> node_address_t) (s : sess_fqcsid_t) : option sess_fqcsid_t :=
  a ← s_addrs s !! i;
  if bool_decide (i < MAX_CSID)%nat then Some (mk_sess_fqcsid (num_csid s) (<[i := c]> (s_csids s)) (<[i := f a]> (s_addrs s))) else None.
Definition set_num (n : nat) (s : sess_fqcsid_t) : sess_fqcsid_t := mk_sess_fqcsid n (s_csids s) (s_addrs s).
Definition csids_of (s : sess_fqcsid_t) : list Z := take (num_csid s) (s_csids s).
Definition last_node (s : sess_fqcsid_t) : option node_address_t := s_addrs s !! (num_csid s - 1)%nat.

(** The loop that writes the CSIDs of an IE behind index [n]; [known] are those not written. *)
Fixpoint write_csids (known : Z -> bool) (ie : pfcp_fqcsid_ie) (cs : list Z) (n : nat) (s : sess_fqcsid_t) : option (nat * sess_fqcsid_t) :=
  match cs with
  | [] => Some (n, s)
  | c :: cs =>
      if known c then write_csids known ie cs n s else
      s ← set_entry n c (ie_addr ie) s; write_csids known ie cs (S n) s
  end.
Definition add_sess_fqcsid (ie : pfcp_fqcsid_ie) (s : sess_fqcsid_t) : option sess_fqcsid_t :=
  '(n, s) ← write_csids (fun _ => false) ie (pdn_conn_set_ident ie) (num_csid s) s; Some (set_num n s).

(** A CSID counts as known when it is in the list and the address is, in any entry. *)
Definition match_and_add_sess_fqcsid (ie : pfcp_fqcsid_ie) (s : sess_fqcsid_t) : option sess_fqcsid_t :=
  let known c := bool_decide (c ∈ csids_of s) &&
    existsb (fun a => COMPARE_IP_ADDRESS a (ie_addr ie node_addr_zero)) (take (num_csid s) (s_addrs s)) in
  '(n, s) ← write_csids known ie (pdn_conn_set_ident ie) (num_csid s) s; Some (set_num n s).

(** [add_fqcsid_entry]: the node's table entry, and the list of the context. *)
Definition add_fqcsid_entry (env : csid_env) (ie : pfcp_fqcsid_ie) (s : sess_fqcsid_t) (t : csid_tables)
    : option (csid_tables * sess_fqcsid_t * Z) :=
  if negb (bool_decide (fqcsid_node_id_type ie = IPV4_GLOBAL_UNICAST)) && negb (bool_decide (fqcsid_node_id_type ie = IPV6_GLOBAL_UNICAST))
  then Some (t, s, GTPV2C_CAUSE_SYSTEM_FAILURE) else
  let a := ie_addr ie node_addr_zero in
  match get_peer_addr_csids_entry env a ADD_NODE t with
  | (t, None) => Some (t, s, GTPV2C_CAUSE_SYSTEM_FAILURE)
  | (t, Some e) =>
      l ← push_all push_new (pdn_conn_set_ident ie) (local_csid e);
      let t := put_node_csids a (mk_fqcsid l a) t in
      s ← (if bool_decide (num_csid s = 0%nat) then add_sess_fqcsid ie s else match_and_add_sess_fqcsid ie s);
      Some (t, s, 0)
  end.

(** [remove_csid_from_cntx]: the entries behind move one to the left, the CSID and the member
    of the address that the type of the moved entry selects; the type stays where it is. *)
Definition shift_entry (i : nat) (s : sess_fqcsid_t) : option sess_fqcsid_t :=
  c ← s_csids s !! S i; a ← s_addrs s !! S i; a0 ← s_addrs s !! i;
  let a' := if bool_decide (ip_type a = PDN_TYPE_IPV4) then mk_node_address (ip_type a0) (ipv4_addr a) (ipv6_addr a0)
            else mk_node_address (ip_type a0) (ipv4_addr a0) (ipv6_addr a) in
  Some (mk_sess_fqcsid (num_csid s) (<[i := c]> (s_csids s)) (<[i := a']> (s_addrs s))).
Fixpoint shift_entries (n i : nat) (s : sess_fqcsid_t) : option sess_fqcsid_t :=
  match n with O => Some s | S n => s ← shift_entry i s; shift_entries n (S i) s end.
Fixpoint remove_from_cntx (fuel i : nat) (c : Z) (a : node_address_t) (s : sess_fqcsid_t) : option sess_fqcsid_t :=
  match fuel with
  | O => Some s
  | S fuel =>
      if negb (bool_decide (i < num_csid s)%nat) then Some s else
      x ← s_csids s !! i; b ← s_addrs s !! i;
      if bool_decide (x = c) && COMPARE_IP_ADDRESS b a then
        s ← shift_entries (num_csid s - 1 - i) i s;
        remove_from_cntx fuel (S i) c a (set_num (num_csid s - 1) s)
      else remove_from_cntx fuel (S i) c a s
  end.
Definition remove_csid_from_cntx (s : sess_fqcsid_t) (p : fqcsid_t) : option sess_fqcsid_t :=
  c ← last (local_csid p); remove_from_cntx (num_csid s) 0 c (node_addr p) s.

(** [fill_pdn_fqcsid_info]: the last entry of the context for the PDN connection. *)
Definition fill_pdn_fqcsid_info (p : fqcsid_t) (s : sess_fqcsid_t) : option fqcsid_t :=
  c ← s_csids s !! (num_csid s - 1)%nat; a ← last_node s;
  Some (mk_fqcsid [c] (if bool_decide (ip_type a = PDN_TYPE_IPV4) then set_v4 (ipv4_addr a) (node_addr p) else set_v6 (ipv6_addr a) (node_addr p))).

(** ** Links *)

(** [link_gtpc_peer_csids]: a peer CSID that already has the local one ends the function. *)
Fixpoint link_gtpc_csids (env : csid_env) (a : node_address_t) (cs : list Z) (local_fqcsid : fqcsid_t) (iface : Z) (t : csid_tables)
    : option (csid_tables * Z) :=
  match cs with
  | [] => Some (t, 0)
  | c :: cs =>
      match get_peer_csid_entry env (a, c) iface ADD_NODE t with
      | (t, None) => Some (t, -1)
      | (t, Some e) =>
          c' ← last (local_csid local_fqcsid);
          if bool_decide (c' ∈ local_csid e) then Some (t, 0) else
          l ← push c' (local_csid e);
          link_gtpc_csids env a cs local_fqcsid iface
            (put_peer_csid iface (a, c) (mk_fqcsid l (fill_node_addr_info (node_addr e) (node_addr local_fqcsid))) t)
      end
  end.
Definition link_gtpc_peer_csids (env : csid_env) (peer local_fqcsid : fqcsid_t) (iface : Z) (t : csid_tables) : option (csid_tables * Z) :=
  link_gtpc_csids env (node_of (node_addr peer)) (local_csid peer) local_fqcsid iface t.

(** The loop of [update_peer_csid_link]: the CSID is appended at every entry before the first
    that is equal to it, and an appended one is equal. *)
Fixpoint append_at_each (fuel i : nat) (c : Z) (l : list Z) : option (list Z) :=
  match fuel with
  | O => None
  | S fuel =>
      match l !! i with
      | None => Some l
      | Some x => if bool_decide (x <> c) then l ← push c l; append_at_each fuel (S i) c l else Some l
      end
  end.
Definition update_link (c : Z) (l : list Z) : option (list Z) :=
  if bool_decide (l = []) then push c l else append_at_each (S (length l)) 0 c l.
Fixpoint update_links (env : csid_env) (a : node_address_t) (cs : list Z) (local_fqcsid : fqcsid_t) (t : csid_tables) : option (csid_tables * Z) :=
  match cs with
  | [] => Some (t, 0)
  | c :: cs =>
      match get_peer_csid_entry env (a, c) SX_PORT_ID ADD_NODE t with
      | (t, None) => Some (t, -1)
      | (t, Some e) =>
          c' ← last (local_csid local_fqcsid);
          l ← update_link c' (local_csid e);
          update_links env a cs local_fqcsid (put_peer_csid SX_PORT_ID (a, c) (mk_fqcsid l (node_addr local_fqcsid)) t)
      end
  end.
Definition update_peer_csid_link (env : csid_env) (fqcsid local_fqcsid : fqcsid_t) (t : csid_tables) : option (csid_tables * Z) :=
  update_links env (node_addr fqcsid) (local_csid fqcsid) local_fqcsid t.

(** [add_local_csid] *)
Definition add_local_csid (env : csid_env) (a : node_address_t) (s : sess_fqcsid_t) (t : csid_tables) : option csid_tables :=
  match get_peer_addr_csids_entry env a UPDATE_NODE t with
  | (t, None) => Some t
  | (t, Some e) => l ← push_all push_new (csids_of s) (local_csid e); Some (put_node_csids a (set_csids l e) t)
  end.

(** ** The local CSID of a PDN connection *)

(** The addresses that [fill_peer_node_info] reads, of the UE context, the PDN connection, the
    bearer and the configuration. *)
Record peer_addrs := mk_peer_addrs {
  cp_mode : Z; cp_mode_flag : bool; s11tf : bool;
  s11_mme_gtpc_ip : node_address_t; s11_sgw_gtpc_ip : node_address_t; s5s8_sgw_gtpc_ip : node_address_t; s5s8_pgw_gtpc_ip : node_address_t;
  upf_ip : node_address_t; s11u_mme_gtpu_ip : node_address_t; s1u_enb_gtpu_ip : node_address_t;
  s5s8_pgw_gtpu_ip : node_address_t; s5s8_sgw_gtpu_ip : node_address_t;
  cfg_s11_ip : Z; cfg_s11_ip_v6 : list byte; cfg_s5s8_ip : Z; cfg_s5s8_ip_v6 : list byte }.

(** The FQ-CSIDs of the context ([x_]) and of the PDN connection. *)
Record cp_csids := mk_cp_csids {
  x_mme : sess_fqcsid_t; x_sgw : sess_fqcsid_t; x_pgw : sess_fqcsid_t;
  mme_csid : fqcsid_t; sgw_csid : fqcsid_t; pgw_csid : fqcsid_t; flag_fqcsid_modified : bool }.
Definition set_sgw (s : sess_fqcsid_t) (p : fqcsid_t) (x : cp_csids) : cp_csids := mk_cp_csids (x_mme x) s (x_pgw x) (mme_csid x) p (pgw_csid x) true.
Definition set_pgw (s : sess_fqcsid_t) (p : fqcsid_t) (x : cp_csids) : cp_csids := mk_cp_csids (x_mme x) (x_sgw x) s (mme_csid x) (sgw_csid x) p true.

(** [peer_info] of [fill_peer_node_info] and of [delete_peer_node_info]. *)
Definition peer_info (m : peer_addrs) (x : cp_csids) : option csid_key :=
  let not_pgwc := negb (bool_decide (cp_mode m = PGWC)) in
  mme ← (if not_pgwc then
           if bool_decide (num_csid (x_mme x) = 0%nat) then Some (node_of (s11_mme_gtpc_ip m)) else node_of <$> last_node (x_mme x)
         else Some node_addr_zero);
  sgwc ← (if bool_decide (num_csid (x_sgw x) = 0%nat) then
            Some (node_of (if bool_decide (cp_mode m = SGWC) || bool_decide (cp_mode m = SAEGWC) then s11_sgw_gtpc_ip m else s5s8_sgw_gtpc_ip m))
          else node_of <$> last_node (x_sgw x));
  let enodeb := if not_pgwc then node_of (if s11tf m then s11u_mme_gtpu_ip m else s1u_enb_gtpu_ip m) else node_addr_zero in
  let pgwc := node_of (s5s8_pgw_gtpc_ip m) in
  let sgwu := if bool_decide (cp_mode m = SAEGWC) || bool_decide (cp_mode m = SGWC) then node_of (upf_ip m) else node_addr_zero in
  let pgwu := if bool_decide (cp_mode m = PGWC) then node_of (upf_ip m) else node_addr_zero in
  let pgwu := if bool_decide (cp_mode m = SGWC) && is_present (s5s8_pgw_gtpu_ip m) then node_of (s5s8_pgw_gtpu_ip m) else pgwu in
  let sgwu := if bool_decide (cp_mode m = PGWC) && is_present (s5s8_sgw_gtpu_ip m) then node_of (s5s8_sgw_gtpu_ip m) else sgwu in
  Some [mme; sgwc; sgwu; pgwc; pgwu; enodeb].

(** This node's own address, in the family of the peer. *)
Definition own_addr (v4 : bool) (ip : Z) (ip6 : list byte) (a : node_address_t) : node_address_t := if v4 : bool then set_v4 ip a else set_v6 ip6 a.

Definition link_pdn (env : csid_env) (peer local_fqcsid : fqcsid_t) (iface : Z) (t : csid_tables) : option (csid_tables * Z) :=
  if bool_decide (local_csid peer = []) then Some (t, 0) else link_gtpc_peer_csids env peer local_fqcsid iface t.

Definition fill_peer_node_info (env : csid_env) (m : peer_addrs) (x : cp_csids) (t : csid_tables) : option (csid_tables * cp_csids * Z) :=
  info ← peer_info m x;
  let '(t, csid) := get_csid_entry env info t in
  if csid <? 0 then Some (t, x, -1) else
  let not_pgwc := negb (bool_decide (cp_mode m = PGWC)) in
  if bool_decide (csid ∈ csids_of (if not_pgwc then x_sgw x else x_pgw x)) then Some (t, x, 0) else
  '(t, x) ←
    (if not_pgwc then
       let f := own_addr (bool_decide (ip_type (s11_mme_gtpc_ip m) = PDN_TYPE_IPV4)) (cfg_s11_ip m) (cfg_s11_ip_v6 m) in
       s ← set_entry (num_csid (x_sgw x)) csid f (x_sgw x);
       let s := set_num (S (num_csid s)) s in
       t ← add_local_csid env (s11_sgw_gtpc_ip m) s t;
       Some (t, set_sgw s (mk_fqcsid [csid] (f (node_addr (sgw_csid x)))) x)
     else
       let f := own_addr (bool_decide (ip_type (s5s8_sgw_gtpc_ip m) = PDN_TYPE_IPV4))
                  (if cp_mode_flag m then cfg_s11_ip m else cfg_s5s8_ip m) (if cp_mode_flag m then cfg_s11_ip_v6 m else cfg_s5s8_ip_v6 m) in
       s ← set_entry (num_csid (x_pgw x)) csid f (x_pgw x);
       let s := set_num (S (num_csid s)) s in
       t ← add_local_csid env (s5s8_pgw_gtpc_ip m) s t;
       Some (t, set_pgw s (mk_fqcsid [csid] (f (node_addr (pgw_csid x)))) x));
  '(t, ret) ← (if not_pgwc then link_pdn env (mme_csid x) (sgw_csid x) S11_SGW_PORT_ID t
               else link_pdn env (mme_csid x) (pgw_csid x) S5S8_PGWC_PORT_ID t);
  if negb (ret =? 0) then Some (t, x, -1) else
  '(t, ret) ← (if not_pgwc then Some (t, 0) else link_pdn env (sgw_csid x) (pgw_csid x) S5S8_PGWC_PORT_ID t);
  if negb (ret =? 0) then Some (t, x, -1) else
  '(t, ret) ← (if not_pgwc then link_pdn env (pgw_csid x) (sgw_csid x) S5S8_SGWC_PORT_ID t else Some (t, 0));
  if negb (ret =? 0) then Some (t, x, -1) else Some (t, x, 0).

(** [delete_peer_node_info]: the CSID of the peers, and the one without the eNB. *)
Definition delete_peer_node_info (m : peer_addrs) (x : cp_csids) (t : csid_tables) : option (csid_tables * Z) :=
  info ← peer_info m x;
  let '(t, ret) := del_csid_entry info t in
  if bool_decide (cp_mode m = PGWC) then Some (t, ret) else
  let info := <[5%nat := node_addr_zero]> info in
  let info := if bool_decide (cp_mode m = SGWC) then <[4%nat := node_addr_zero]> info else info in
  Some (del_csid_entry info t).

(** ** PFCP requests *)

(** [set_fq_csid_t] *)
Definition set_fq_csid_t (p : fqcsid_t) : pfcp_fqcsid_ie :=
  if bool_decide (ip_type (node_addr p) = PDN_TYPE_IPV4) || bool_decide (ip_type (node_addr p) = IPV4_GLOBAL_UNICAST)
  then mk_fqcsid_ie true IPV4_GLOBAL_UNICAST (le_bytes 4 (ipv4_addr (node_addr p))) (local_csid p)
  else mk_fqcsid_ie true IPV6_GLOBAL_UNICAST (ipv6_addr (node_addr p)) (local_csid p).
Definition absent_ie : pfcp_fqcsid_ie := mk_fqcsid_ie false 0 [] [].

(** The FQ-CSIDs of a session establishment request: MME, SGW-C, PGW-C. *)
Definition fill_fqcsid_sess_est_req (m : peer_addrs) (x : cp_csids) : pfcp_fqcsid_ie * pfcp_fqcsid_ie * pfcp_fqcsid_ie :=
  let sgw := set_fq_csid_t (if bool_decide (local_csid (sgw_csid x) = []) then fqcsid_zero else sgw_csid x) in
  if negb (bool_decide (cp_mode m = PGWC)) then
    (if bool_decide (local_csid (mme_csid x) = []) then absent_ie else set_fq_csid_t (mme_csid x), sgw, absent_ie)
  else
    (set_fq_csid_t (if bool_decide (local_csid (mme_csid x) = []) then fqcsid_zero else mme_csid x), sgw,
     set_fq_csid_t (if bool_decide (local_csid (pgw_csid x) = []) then fqcsid_zero else pgw_csid x)).

(** Those of a session modification request: SGW-C, PGW-C. *)
Definition fill_fqcsid_sess_mod_req (update_sgw_fteid : bool) (x : cp_csids) : pfcp_fqcsid_ie * pfcp_fqcsid_ie :=
  if bool_decide (local_csid (sgw_csid x) = []) then (absent_ie, absent_ie)
  else (set_fq_csid_t (sgw_csid x), if update_sgw_fteid then absent_ie else set_fq_csid_t (pgw_csid x)).

(** ** A peer that failed *)

(** The local CSIDs that [del_pfcp_peer_node_sess] names in its message: [Some (inl r)] when
    it returns [r] before, [None] also when it reads through the pointer that it found to be
    null. *)
Definition del_pfcp_peer_node_csids (env : csid_env) (a : node_address_t) (iface : Z) (t : csid_tables) : option (Z + fqcsid_t) :=
  let found := snd (get_peer_addr_csids_entry env a UPDATE_NODE t) in
  let key := if bool_decide (ip_type a = PDN_TYPE_IPV4) then mk_node_address PDN_TYPE_IPV4 (ipv4_addr a) ipv6_zero
             else mk_node_address PDN_TYPE_IPV6 0 (ipv6_addr a) in
  let mapped := snd (get_peer_node_addr_entry env (iface, key) UPDATE_NODE t) in
  if bool_decide (found = None) && bool_decide (mapped = None) then Some (inl 0) else
  e ← match found with Some e => Some e | None => a' ← mapped; snd (get_peer_addr_csids_entry env a' UPDATE_NODE t) end;
  r ← collect_csids env (node_addr e) (local_csid e) iface fqcsid_zero t;
  Some (match r with None => inl (-1) | Some c => if bool_decide (local_csid c = []) then inl 0 else inr c end).
End NodeTypes.

(** ** Links that grow *)

Lemma update_link_again x y n : x <> y -> update_link y (x :: replicate n y) =
  if bool_decide (n < 14)%nat then Some (x :: replicate (S n) y) else None.
Proof.
  intros Hn. unfold update_link. rewrite bool_decide_false by done. cbn [append_at_each lookup list_lookup].
  rewrite bool_decide_true by done. unfold push. cbn [length]. rewrite length_replicate. unfold MAX_CSID.
  destruct (decide (n < 14)%nat) as [Hlt|Hge]; [rewrite !bool_decide_true by lia|by rewrite !bool_decide_false by lia].
  cbn [mbind option_bind app]. change (x :: replicate n y ++ [y]) with ([x] ++ (replicate n y ++ [y])). rewrite <- replicate_cons_app. cbn [app].
  cbn [append_at_each lookup list_lookup replicate]. by rewrite bool_decide_false by tauto.
Qed.

(** [n] sessions with the same local CSID that are set up on a user plane. *)
Fixpoint update_times (n : nat) (env : csid_env) (up local_fqcsid : fqcsid_t) (t : csid_tables) : option csid_tables :=
  match n with
  | O => Some t
  | S n => '(t, _) ← update_peer_csid_link env up local_fqcsid t; update_times n env up local_fqcsid t
  end.

Lemma update_times_link env a u p y x n : last (local_csid p) = Some y -> x <> y -> forall k t, linked_csids t by_sgwcsid a u = x :: replicate k y ->
  (k + n <= 14)%nat -> exists t', update_times n env (mk_fqcsid [u] a) p t = Some t' /\ linked_csids t' by_sgwcsid a u = x :: replicate (k + n) y.
Proof.
  intros Hl Hn. induction n as [|n IH]; intros k t Hk Hlt; cbn [update_times].
  - exists t. by rewrite Nat.add_0_r.
  - unfold update_peer_csid_link. cbn [node_addr local_csid update_links]. unfold linked_csids in Hk.
    destruct (local_csids_hash t !! (by_sgwcsid, (a, u))) as [e|] eqn:E; [|done].
    assert (get_peer_csid_entry env (a, u) SX_PORT_ID ADD_NODE t = (t, Some e)) as -> by (unfold get_peer_csid_entry; cbn; by rewrite E).
    rewrite Hl. cbn [mbind option_bind]. rewrite Hk, update_link_again by done. rewrite bool_decide_true by lia. cbn [mbind option_bind].
    destruct (IH (S k) (put_peer_csid SX_PORT_ID (a, u) (mk_fqcsid (x :: replicate (S k) y) (node_addr p)) t)) as (t' & H1 & H2).
    + unfold linked_csids. cbn. by rewrite lookup_insert_eq.
    + lia.
    + exists t'. split; [done|]. rewrite H2. do 2 f_equal. lia.
Qed.

(** When a CSID of a user plane is linked with another local CSID, every session that is
    set up with local CSID [y] appends [y] once more to the link: after [n] sessions, up to 14,
    the link holds [n] copies, and the 15th session writes outside the array. *)
Theorem duplicate_links_overrun env a u p x y t : linked_csids t by_sgwcsid a u = [x] -> last (local_csid p) = Some y -> x <> y ->
  (forall n, (n <= 14)%nat -> exists t', update_times n env (mk_fqcsid [u] a) p t = Some t' /\ linked_csids t' by_sgwcsid a u = x :: replicate n y) /\
  (forall t', update_times 14 env (mk_fqcsid [u] a) p t = Some t' -> update_peer_csid_link env (mk_fqcsid [u] a) p t' = None).
Proof.
  intros Hk Hl Hn. split.
  - intros n Hlt. apply (update_times_link env a u p y x n Hl Hn 0 t Hk Hlt).
  - intros t' E. destruct (update_times_link env a u p y x 14 Hl Hn 0 t Hk ltac:(lia)) as (t1 & E1 & L). rewrite E in E1. injection E1 as <-.
    unfold update_peer_csid_link. cbn [node_addr local_csid update_links]. unfold linked_csids in L.
    destruct (local_csids_hash t' !! (by_sgwcsid, (a, u))) as [e|] eqn:E1; [|done].
    assert (get_peer_csid_entry env (a, u) SX_PORT_ID ADD_NODE t' = (t', Some e)) as -> by (unfold get_peer_csid_entry; cbn; by rewrite E1).
    rewrite Hl. cbn [mbind option_bind]. rewrite L. change (0 + 14)%nat with 14%nat. by rewrite update_link_again.
Qed.

(** ** Links that are missing *)

Lemma cp_collect_no_link env a iface h t c e : hash_of iface = Some h -> local_csids_by_node_addr_hash t !! a = Some e -> node_addr e = a ->
  c ∈ local_csid e -> no_link h a c t -> forall x, del_pfcp_peer_node_csids env a iface t <> Some (inr x).
Proof.
  intros Hh He Ha Hc Hn x. unfold del_pfcp_peer_node_csids, get_peer_addr_csids_entry. cbn zeta. rewrite He. cbn [snd].
  rewrite (bool_decide_false (Some e = None)) by done. cbn [andb mbind option_bind]. rewrite Ha.
  pose proof (collect_no_link env a iface h t c Hh Hn (local_csid e) fqcsid_zero Hc) as C.
  destruct (collect_csids _ _ _ _ _ _) as [[y|]|]; [by destruct (C y)|done|done].
Qed.

(** [link_gtpc_peer_csids] ends with success at the first CSID of the peer that already
    has the local CSID: the CSIDs after it are stored for the peer, but not linked.  When the
    peer fails, the missing link stops the search, and no session is deleted. *)
Theorem later_peer_csid_not_linked v4 env p lf iface h t c cs c2 c' e : hash_of iface = Some h -> node_of v4 (node_addr p) = node_addr p ->
  local_csid p = c :: cs -> last (local_csid lf) = Some c' -> c' ∈ linked_csids t h (node_addr p) c ->
  local_csids_by_node_addr_hash t !! node_addr p = Some e -> node_addr e = node_addr p -> c2 ∈ local_csid e -> c2 ∈ cs -> no_link h (node_addr p) c2 t ->
  link_gtpc_peer_csids v4 env p lf iface t = Some (t, 0) /\
  forall x, del_pfcp_peer_node_csids env (node_addr p) iface t <> Some (inr x).
Proof.
  intros Hh Ha Hp Hl Hc He Hn H2 _ Hno. split; [|by apply (cp_collect_no_link env _ iface h t c2 e)].
  unfold link_gtpc_peer_csids. rewrite Ha, Hp. cbn [link_gtpc_csids]. unfold linked_csids in Hc.
  destruct (local_csids_hash t !! (h, (node_addr p, c))) as [e1|] eqn:E; [|by apply elem_of_nil in Hc].
  assert (get_peer_csid_entry env (node_addr p, c) iface ADD_NODE t = (t, Some e1)) as -> by (unfold get_peer_csid_entry; by rewrite Hh, E).
  rewrite Hl. cbn [mbind option_bind]. by rewrite bool_decide_true.
Qed.

(** ** The request read back *)

(** An address as an IE can carry it. *)
Definition addr_in_ie (a : node_address_t) : Prop :=
  ip_type a = PDN_TYPE_IPV4 /\ 0 <= ipv4_addr a < 2 ^ 32 /\ ipv6_addr a = ipv6_zero \/
  ip_type a = PDN_TYPE_IPV6 /\ ipv4_addr a = 0 /\ length (ipv6_addr a) = 16%nat.

Lemma stored_recvd_value v4 v6 env ie t t' q r : stored_recvd_peer_fqcsid v4 v6 env ie fqcsid_zero t = Some (t', q, r) -> 0 <= r ->
  local_csid q = pdn_conn_set_ident ie /\ node_addr q = (if bool_decide (fqcsid_node_id_type ie = v4) then ie_ipv4 ie else ie_ipv6 ie).
Proof.
  unfold stored_recvd_peer_fqcsid. intros E Hr. destruct (bool_decide (fqcsid_node_id_type ie = v4)); [|destruct (bool_decide (fqcsid_node_id_type ie = v6)); [|injection E as _ _ <-; lia]];
    (destruct (get_peer_addr_csids_entry _ _ _ _) as [t1 [e|]]; [|injection E as _ _ <-; lia]);
    (destruct (push_all push_new _ _) as [l|]; [|done]); cbn [mbind option_bind] in E; rewrite push_all_app in E by (cbn; lia);
    cbn [local_csid fqcsid_zero app] in E; case_bool_decide; try done; cbn [mbind option_bind] in E; by injection E as _ <- _.
Qed.

Lemma set_fq_csid_value v4 v6 p : v4 <> v6 -> v4 <> PDN_TYPE_IPV6 -> addr_in_ie (node_addr p) ->
  (if bool_decide (fqcsid_node_id_type (set_fq_csid_t v4 v6 p) = v4) then ie_ipv4 (set_fq_csid_t v4 v6 p) else ie_ipv6 (set_fq_csid_t v4 v6 p)) = node_addr p /\
  pdn_conn_set_ident (set_fq_csid_t v4 v6 p) = local_csid p /\ header_len (set_fq_csid_t v4 v6 p) = true.
Proof.
  intros H1 H2 [(Ht & Hr & H6)|(Ht & H4 & Hlen)]; unfold set_fq_csid_t; rewrite Ht.
  - rewrite (bool_decide_true (PDN_TYPE_IPV4 = PDN_TYPE_IPV4)) by done. cbn [orb fqcsid_node_id_type pdn_conn_set_ident header_len]. rewrite bool_decide_true by done.
    split_and!; [|done|done]. unfold ie_ipv4. cbn [node_address]. change (take 4 (le_bytes 4 (ipv4_addr (node_addr p)))) with (le_bytes 4 (ipv4_addr (node_addr p))).
    rewrite le_val_small by (cbn; lia). destruct (node_addr p). cbn in *. by subst.
  - rewrite !(bool_decide_false (PDN_TYPE_IPV6 = _)) by (done || congruence). cbn [orb fqcsid_node_id_type pdn_conn_set_ident header_len].
    rewrite bool_decide_false by congruence. split_and!; [|done|done]. unfold ie_ipv6. cbn [node_address]. rewrite take_ge by lia.
    destruct (node_addr p). cbn in *. by subst.
Qed.

(** What the user plane makes of an FQ-CSID without CSIDs, and of one with. *)
Definition no_csids (v4 : Z) : fqcsid_t :=
  mk_fqcsid [] (mk_node_address (if bool_decide (0 = v4) then PDN_TYPE_IPV4 else PDN_TYPE_IPV6) 0 ipv6_zero).
Definition received (v4 : Z) (p : fqcsid_t) : fqcsid_t := if bool_decide (local_csid p = []) then no_csids v4 else p.

Lemma set_fq_csid_zero v4 v6 : set_fq_csid_t v4 v6 fqcsid_zero =
  if bool_decide (0 = v4) then mk_fqcsid_ie true v4 [x00; x00; x00; x00] [] else mk_fqcsid_ie true v6 ipv6_zero [].
Proof. unfold set_fq_csid_t. cbn [node_addr fqcsid_zero ip_type node_addr_zero]. by destruct (bool_decide (0 = v4)). Qed.

Lemma store_cp_value v4 v6 env b cp p t t' q r : v4 <> v6 -> v4 <> PDN_TYPE_IPV6 ->
  (local_csid p <> [] -> addr_in_ie (node_addr p)) ->
  store_cp_fqcsid v4 v6 env b cp (set_fq_csid_t v4 v6 (if bool_decide (local_csid p = []) then fqcsid_zero else p)) fqcsid_zero t = Some (t', q, r) -> 0 <= r ->
  q = received v4 p.
Proof.
  intros H1 H2 Ha E Hr. unfold received. unfold store_cp_fqcsid in E. case_bool_decide as Hp.
  - rewrite set_fq_csid_zero in E. unfold no_csids. case_bool_decide as H0; cbn [header_len pdn_conn_set_ident fqcsid_node_id_type negb] in E;
      rewrite bool_decide_true in E by done; cbn [negb] in E.
    + rewrite bool_decide_true in E by done. by destruct (get_peer_addr_csids_entry _ _ _ _) as [t1 [e|]]; injection E as _ <- <-.
    + rewrite bool_decide_false in E by congruence. by destruct (get_peer_addr_csids_entry _ _ _ _) as [t1 [e|]]; injection E as _ <- <-.
  - destruct (set_fq_csid_value v4 v6 p H1 H2 (Ha Hp)) as (A & C & Hh). rewrite Hh, C in E. cbn [negb] in E. rewrite bool_decide_false in E by done. cbn [negb] in E.
    destruct (if b then _ else _) as [t1 r1]. destruct (r1 <? 0); [injection E as _ _ <-; lia|].
    destruct (stored_recvd_value _ _ _ _ _ _ _ _ E Hr) as [L N]. rewrite A in N. rewrite C in L. destruct p, q. cbn in *. by subst.
Qed.

Lemma process_csids_values v4 v6 env al cp up_addr mme_ie sgw_ie pgw_ie datas t t' s r :
  process_up_session_estab_csids v4 v6 env al cp up_addr mme_ie sgw_ie pgw_ie datas t = Some (t', s, r) -> 0 <= r ->
  (exists t1, if header_len mme_ie && negb (bool_decide (pdn_conn_set_ident mme_ie = [])) then
     exists q, mme_fqcsid s = Some q /\ stored_recvd_peer_fqcsid v4 v6 env mme_ie fqcsid_zero t = Some (t1, q, 0) else mme_fqcsid s = None) /\
  (exists t1 t2 q, sgw_fqcsid s = Some q /\ store_cp_fqcsid v4 v6 env (negb (header_len pgw_ie)) cp sgw_ie fqcsid_zero t1 = Some (t2, q, 0)) /\
  (exists t1 t2, if header_len pgw_ie then exists q, pgw_fqcsid s = Some q /\ store_cp_fqcsid v4 v6 env true cp pgw_ie fqcsid_zero t1 = Some (t2, q, 0)
     else pgw_fqcsid s = None).
Proof.
  intros E Hr. unfold process_up_session_estab_csids in E. cbn zeta in E.
  destruct (al_sgw al); cbn [negb] in E; [|injection E as _ _ <-; lia].
  destruct (if header_len mme_ie && _ then _ else _) as [[[t1 m] rm]|] eqn:Em; [|done]. cbn [mbind option_bind] in E.
  destruct (rm <? 0) eqn:Rm; [injection E as _ _ <-; lia|].
  destruct (store_cp_fqcsid _ _ _ _ _ sgw_ie _ t1) as [[[t2 q] rq]|] eqn:Eq; [|done]. cbn [mbind option_bind] in E.
  destruct (rq <? 0) eqn:Rq; [injection E as _ _ <-; lia|].
  destruct (if header_len pgw_ie then _ else _) as [[[t3 p] rp]|] eqn:Ep; [|done]. cbn [mbind option_bind] in E.
  destruct (rp <? 0) eqn:Rp; [injection E as _ _ <-; lia|].
  destruct (al_up al); cbn [negb] in E; [|injection E as _ _ <-; lia].
  set (s0 := mk_up_csids _ _ _ _ _ _ _) in E.
  destruct (fill_peer_node_info_spec env (al_peer al) s0 cp t3 t' s r eq_refl eq_refl eq_refl E Hr) as (_ & _ & -> & -> & -> & _). split_and!.
  - exists t1. destruct (header_len mme_ie && _); [|by injection Em as _ <- _].
    destruct (al_mme al); cbn [negb] in Em; [|by injection Em as _ _ <-].
    destruct (stored_recvd_peer_fqcsid _ _ _ mme_ie _ t) as [[[t1' p'] r']|] eqn:E1; [|done]. cbn [mbind option_bind] in Em. injection Em as -> <- ->.
    rewrite (ret_success rm) by (done || by eapply stored_recvd_ret). by exists p'.
  - exists t1, t2, q. split; [done|]. by rewrite (ret_success rq) in Eq by (done || by eapply store_cp_fqcsid_ret).
  - exists t2, t3. destruct (header_len pgw_ie); [|by injection Ep as _ <- _].
    destruct (al_pgw al); cbn [negb] in Ep; [|by injection Ep as _ _ <-].
    destruct (store_cp_fqcsid _ _ _ true _ pgw_ie _ t2) as [[[t3' p'] r']|] eqn:E1; [|done]. cbn [mbind option_bind] in Ep. injection Ep as -> <- ->.
    rewrite (ret_success rp) by (done || by eapply store_cp_fqcsid_ret). by exists p'.
Qed.

(** C6. The FQ-CSIDs of a PDN connection, written into a session establishment request and
    stored by the user plane, are the ones the session has there: those of the MME if it sent
    any, those of the SGW-C, and those of the PGW-C in a request of a PGW-C; a node without
    CSIDs, whatever its address, arrives with the address zero.  The address of a node
    with CSIDs is one that an IE can carry. *)
Theorem request_csids_read_back v4 v6 env al cp up_addr m x datas t t' s r : v4 <> v6 -> v4 <> PDN_TYPE_IPV6 ->
  (local_csid (mme_csid x) <> [] -> addr_in_ie (node_addr (mme_csid x))) ->
  (local_csid (sgw_csid x) <> [] -> addr_in_ie (node_addr (sgw_csid x))) ->
  (local_csid (pgw_csid x) <> [] -> addr_in_ie (node_addr (pgw_csid x))) ->
  (let '(mme_ie, sgw_ie, pgw_ie) := fill_fqcsid_sess_est_req v4 v6 m x in
   process_up_session_estab_csids v4 v6 env al cp up_addr mme_ie sgw_ie pgw_ie datas t) = Some (t', s, r) -> 0 <= r ->
  mme_fqcsid s = (if bool_decide (local_csid (mme_csid x) = []) then None else Some (mme_csid x)) /\
  sgw_fqcsid s = Some (received v4 (sgw_csid x)) /\
  pgw_fqcsid s = (if bool_decide (cp_mode m = PGWC) then Some (received v4 (pgw_csid x)) else None).
Proof.
  intros H1 H2 Hm Hs Hp E Hr.
  assert (forall p, addr_in_ie (node_addr p) -> local_csid p <> [] ->
    forall t t' q, stored_recvd_peer_fqcsid v4 v6 env (set_fq_csid_t v4 v6 p) fqcsid_zero t = Some (t', q, 0) -> q = p) as R.
  { intros p Ha _ ta tb q Eq. destruct (set_fq_csid_value v4 v6 p H1 H2 Ha) as (A & C & _).
    destruct (stored_recvd_value _ _ _ _ _ _ _ _ Eq ltac:(lia)) as [L N]. rewrite A in N. rewrite C in L. destruct p, q. cbn in *. by subst. }
  unfold fill_fqcsid_sess_est_req in E. destruct (bool_decide (cp_mode m = PGWC)) eqn:Em; cbn [negb] in E;
    apply (process_csids_values _ _ _ _ _ _ _ _ _ _ _ _ _ _ E) in Hr as ((t1 & M) & (t2 & t3 & q & Eq & S) & (t4 & t5 & P)); clear E.
  - apply store_cp_value in S as ->; [|done|done|done|lia]. rewrite Eq. split_and!; [|done|].
    + destruct (decide (local_csid (mme_csid x) = [])) as [Hl|Hl]; [rewrite (bool_decide_true _ Hl)|rewrite (bool_decide_false _ Hl)].
      * rewrite (bool_decide_true _ Hl), set_fq_csid_zero in M. by destruct (bool_decide (0 = v4)).
      * rewrite (bool_decide_false _ Hl) in M. destruct (set_fq_csid_value v4 v6 (mme_csid x) H1 H2 (Hm Hl)) as (_ & C & Hh). rewrite C, Hh, bool_decide_false in M by done. cbn [andb negb] in M.
        destruct M as (q' & -> & Eq'). f_equal. by apply (R _ (Hm Hl) Hl t t1).
    + assert (header_len (set_fq_csid_t v4 v6 (if bool_decide (local_csid (pgw_csid x) = []) then fqcsid_zero else pgw_csid x)) = true) as Hh
        by (unfold set_fq_csid_t; by destruct (_ || _)). rewrite Hh in P. destruct P as (q' & -> & P). f_equal. by apply store_cp_value in P.
  - apply store_cp_value in S as ->; [|done|done|done|lia]. rewrite Eq. split_and!; [|done|done].
    destruct (decide (local_csid (mme_csid x) = [])) as [Hl|Hl]; [by rewrite (bool_decide_true _ Hl) in M |- *|]. rewrite (bool_decide_false _ Hl) in M |- *.
    destruct (set_fq_csid_value v4 v6 (mme_csid x) H1 H2 (Hm Hl)) as (_ & C & Hh). rewrite C, Hh, bool_decide_false in M by done. cbn [andb negb] in M.
    destruct M as (q' & -> & Eq'). f_equal. by apply (R _ (Hm Hl) Hl t t1).
Qed.

(** ** Witnesses *)

Definition t_linked : csid_tables := set_links {[ (by_sgwcsid, (a_up, 3)) := mk_fqcsid [5] a_sgwc_node ]} t_empty.

Lemma duplicate_links_overrun_witness :
  exists t', update_times 14 env_all (mk_fqcsid [3] a_up) (mk_fqcsid [6] a_sgwc_node) t_linked = Some t' /\
    update_peer_csid_link env_all (mk_fqcsid [3] a_up) (mk_fqcsid [6] a_sgwc_node) t' = None.
Proof.
  destruct (duplicate_links_overrun env_all a_up 3 (mk_fqcsid [6] a_sgwc_node) 5 6 t_linked) as [H1 H2].
  - reflexivity.
  - reflexivity.
  - lia.
  - destruct (H1 14%nat) as (t' & E & _); [lia|]. exists t'. split; [exact E|apply H2; exact E].
Defined.

(** The MME has CSIDs 1 and 2, and only 1 is linked with the local CSID 9. *)
Definition a_mme_node : node_address_t := mk_node_address PDN_TYPE_IPV4 4 ipv6_zero.
Definition t_mme : csid_tables :=
  set_by_node_addr {[ a_mme_node := mk_fqcsid [1; 2] a_mme_node ]} (set_links {[ (by_mmecsid, (a_mme_node, 1)) := mk_fqcsid [9] a_sgwc_node ]} t_empty).

Lemma later_peer_csid_not_linked_witness :
  link_gtpc_peer_csids 0 env_all (mk_fqcsid [1; 2] a_mme_node) (mk_fqcsid [9] a_sgwc_node) S11_SGW_PORT_ID t_mme = Some (t_mme, 0) /\
  forall x, del_pfcp_peer_node_csids env_all a_mme_node S11_SGW_PORT_ID t_mme <> Some (inr x).
Proof.
  apply (later_peer_csid_not_linked 0 env_all (mk_fqcsid [1; 2] a_mme_node) (mk_fqcsid [9] a_sgwc_node) S11_SGW_PORT_ID by_mmecsid t_mme 1 [2] 2 9
    (mk_fqcsid [1; 2] a_mme_node)).
  - reflexivity.
  - reflexivity.
  - reflexivity.
  - reflexivity.
  - change (linked_csids _ _ _ _) with [9]. apply elem_of_cons. by left.
  - reflexivity.
  - reflexivity.
  - apply elem_of_cons. right. apply elem_of_cons. by left.
  - apply elem_of_cons. by left.
  - reflexivity.
Defined.

Definition m_saegwc : peer_addrs :=
  mk_peer_addrs SAEGWC false false a_mme_node a_sgwc_node a_sgwc_node node_addr_zero a_up node_addr_zero a_enb node_addr_zero node_addr_zero 1 ipv6_zero 1 ipv6_zero.
Definition no_list : sess_fqcsid_t := mk_sess_fqcsid 0 (replicate 15 0) (replicate 15 node_addr_zero).
Definition x_pdn : cp_csids := mk_cp_csids no_list no_list no_list (mk_fqcsid [] a_mme_node) (mk_fqcsid [7] a_sgwc_node) fqcsid_zero true.

Lemma addr_in_ie_v4 v4 : 0 <= v4 < 2 ^ 32 -> addr_in_ie (mk_node_address PDN_TYPE_IPV4 v4 ipv6_zero).
Proof. intros H. by left. Qed.

Lemma request_csids_read_back_witness :
  mme_fqcsid s_up = None /\ sgw_fqcsid s_up = Some (received 0 (sgw_csid x_pdn)) /\ pgw_fqcsid s_up = None.
Proof.
  apply (request_csids_read_back 0 1 env_all (mk_fqcsid_allocs true true true true true) a_sgwc_node a_up m_saegwc x_pdn up_datas t_empty t_up s_up 0).
  - lia.
  - discriminate.
  - intros H. by destruct H.
  - intros _. apply addr_in_ie_v4. lia.
  - intros H. by destruct H.
  - reflexivity.
  - lia.
Defined.
