(* ===== verification/CpTables.v ===== *)
(** * The tables and identifiers of the control plane (pfcp_messages/pfcp_init.c,
    cp_dp_api/vepc_cp_dp_api.h)

    A hash table of DPDK whose values are pointers is an index, a [gmap] from keys to
    addresses, over the cells of its type, a [gmap] from addresses to values.
    [rte_hash_del_key] on a key that is present succeeds; the return code of
    [rte_hash_add_key_data] is an argument.  The result is [None] where the code reads,
    writes or frees memory that is not allocated.

    - [add_entry], [del_entry]: the bodies that the PDN, rule-name, PDR and QER tables
      share; each C function is the instance with its name.
    - [teid_key], [add_seq_number_for_teid] and its siblings: the table from a procedure
      and a sequence number to a TEID, which is made for keys of four bytes.
    - [int_to_str], [gen_sess_id_string], [retrieve_call_id]: the session ids of Gx.
    - [SESS_ID], [UE_SESS_ID], [UE_BEAR_ID], [generate_dp_sess_id]: the ids of PFCP
      sessions. *)
From S2P Require Import Prelude CText LList SmTable.
From Stdlib Require Import Ascii.

Definition GTPV2C_CAUSE_SYSTEM_FAILURE : Z := 72.

(** ** Tables of pointers *)

Section Table.
Context {K V : Type} `{Countable K}.
Implicit Types (cells : gmap loc V) (index : gmap K loc) (key : K) (p : loc) (add_ret : Z).

(** [add_X_entry(key, p)]: an entry that is present gets the content of [*p]. *)
Definition add_entry cells index key p add_ret (failed : Z) : option (gmap loc V * gmap K loc * Z) :=
  match index !! key with
  | None =>
      if bool_decide (add_ret <> 0) then Some (cells, index, failed)
      else Some (cells, <[key := p]> index, 0)
  | Some tmp =>
      v ← cells !! p; _ ← cells !! tmp;
      Some (<[tmp := v]> cells, index, 0)
  end.

(** [del_X_entry(key)]: the entry leaves the table and its value is freed. *)
Definition del_entry cells index key (absent : Z) : option (gmap loc V * gmap K loc * Z) :=
  match index !! key with
  | None => Some (cells, index, absent)
  | Some p => _ ← cells !! p; Some (delete p cells, delete key index, 0)
  end.
End Table.

Section Instances.
Context {pdn_connection bearer_id_t pdr_t qer_t : Type}.

Definition add_pdn_conn_entry (cells : gmap loc pdn_connection) (pdn_conn_hash : gmap Z loc)
    (call_id : Z) (pdn : loc) (add_ret : Z) :=
  add_entry cells pdn_conn_hash call_id pdn add_ret GTPV2C_CAUSE_SYSTEM_FAILURE.

Definition get_pdn_conn_entry (pdn_conn_hash : gmap Z loc) (call_id : Z) : ptr :=
  pdn_conn_hash !! call_id.

Definition del_pdn_conn_entry (cells : gmap loc pdn_connection) (pdn_conn_hash : gmap Z loc)
    (call_id : Z) :=
  del_entry cells pdn_conn_hash call_id 0.

Definition add_rule_name_entry (cells : gmap loc bearer_id_t) (rule_name_bearer_id_map_hash : gmap text loc)
    (rule_key : text) (bearer : loc) (add_ret : Z) :=
  add_entry cells rule_name_bearer_id_map_hash rule_key bearer add_ret (u8 (-1)).

Definition del_rule_name_entry (cells : gmap loc bearer_id_t) (rule_name_bearer_id_map_hash : gmap text loc)
    (rule_key : text) :=
  del_entry cells rule_name_bearer_id_map_hash rule_key 0.

(** [rule_key_t]: the rule and the session. *)
Definition add_pdr_entry (cells : gmap loc pdr_t) (pdr_entry_hash : gmap (Z * Z) loc)
    (rule_id : Z) (cntxt : loc) (cp_seid add_ret : Z) :=
  add_entry cells pdr_entry_hash (rule_id, cp_seid) cntxt add_ret (u8 (-1)).

Definition get_pdr_entry (pdr_entry_hash : gmap (Z * Z) loc) (rule_id cp_seid : Z) : ptr :=
  pdr_entry_hash !! (rule_id, cp_seid).

Definition del_pdr_entry (cells : gmap loc pdr_t) (pdr_entry_hash : gmap (Z * Z) loc)
    (rule_id cp_seid : Z) :=
  del_entry cells pdr_entry_hash (rule_id, cp_seid) (u8 (-1)).

Definition add_qer_entry (cells : gmap loc qer_t) (qer_entry_hash : gmap (Z * Z) loc)
    (qer_id : Z) (cntxt : loc) (cp_seid add_ret : Z) :=
  add_entry cells qer_entry_hash (qer_id, cp_seid) cntxt add_ret (u8 (-1)).

Definition get_qer_entry (qer_entry_hash : gmap (Z * Z) loc) (qer_id cp_seid : Z) : ptr :=
  qer_entry_hash !! (qer_id, cp_seid).

Definition del_qer_entry (cells : gmap loc qer_t) (qer_entry_hash : gmap (Z * Z) loc)
    (qer_id cp_seid : Z) :=
  del_entry cells qer_entry_hash (qer_id, cp_seid) 0.
End Instances.

(** [get_rule_name_entry]: the bearer id as an [int8_t], -1 for no entry. *)
Definition get_rule_name_entry (cells : gmap loc Z) (rule_name_bearer_id_map_hash : gmap text loc)
    (rule_key : text) : option Z :=
  match rule_name_bearer_id_map_hash !! rule_key with
  | None => Some (-1)
  | Some p => b ← cells !! p; Some (swrap 8 b)
  end.

(** ** The TEIDs of requests that wait for a response *)

Record teid_value_t := mk_teid_value { tv_teid : Z; tv_msg_type : Z }.

Definition PROC_LEN : nat := 64.
Definition NUL : ascii := "000".

Definition fmt_d (z : Z) : text := if bool_decide (z < 0) then "-"%char :: fmt_u (- z) else fmt_u z.

(** [snprintf(teid_key.teid_key, PROC_LEN, "%s%d", proc, seq)] *)
Definition teid_key (proc : text) (seq : Z) : text := take (PROC_LEN - 1) (proc ++ fmt_d (swrap 32 seq)).

(** [ds_seq_key_with_teid] is created with [key_len = sizeof(uint32_t)]: of the 256
    bytes of a [teid_key_t], zeroed before, it hashes and compares the first four. *)
Definition ds_key (key : text) : text := take 4 (key ++ replicate 4 NUL).

Section SeqTable.
(** The numeric value of a pointer. *)
Variable addr : loc -> Z.
Implicit Types (cells : gmap loc teid_value_t) (ds_seq_key_with_teid : gmap text loc).

(** The five bytes of a [teid_value_t] read at the pointer itself. *)
Definition teid_value_at_pointer (p : loc) : teid_value_t :=
  mk_teid_value (u32 (addr p)) (u8 (Z.shiftr (addr p) 32)).

(** An entry that is present is overwritten by
    [memcpy(tmp, &teid_value, sizeof(struct teid_value_t))]. *)
Definition add_seq_number_for_teid cells ds_seq_key_with_teid (key : text) (teid_value : loc) (add_ret : Z)
    : option (gmap loc teid_value_t * gmap text loc * Z) :=
  match ds_seq_key_with_teid !! ds_key key with
  | None =>
      if bool_decide (add_ret <> 0) then Some (cells, ds_seq_key_with_teid, -1)
      else Some (cells, <[ds_key key := teid_value]> ds_seq_key_with_teid, 0)
  | Some tmp =>
      _ ← cells !! tmp;
      Some (<[tmp := teid_value_at_pointer teid_value]> cells, ds_seq_key_with_teid, 0)
  end.

Definition get_teid_for_seq_number ds_seq_key_with_teid (key : text) : ptr :=
  ds_seq_key_with_teid !! ds_key key.

Definition delete_teid_entry_for_seq cells ds_seq_key_with_teid (key : text) :=
  del_entry cells ds_seq_key_with_teid (ds_key key) 0.
End SeqTable.

(** ** Identifiers *)

Definition generate_bar_id (bar_rule_id_offset : Z) : Z * Z :=
  let off := u8 (bar_rule_id_offset + 1) in (u8 (0 + off), off).
Definition generate_pdr_id (pdr_rule_id_offset : Z) : Z * Z :=
  let off := u16 (pdr_rule_id_offset + 1) in (u16 (0 + off), off).
Definition generate_far_id (far_rule_id_offset : Z) : Z * Z :=
  let off := u32 (far_rule_id_offset + 1) in (u32 (0 + off), off).
Definition generate_urr_id (urr_rule_id_offset : Z) : Z * Z :=
  let off := u32 (urr_rule_id_offset + 1) in (u32 (0 + off), off).
Definition generate_qer_id (qer_rule_id_offset : Z) : Z * Z :=
  let off := u32 (qer_rule_id_offset + 1) in (u32 (0 + off), off).
Definition generate_seq_number (seq_number_offset : Z) : Z * Z :=
  let off := u32 (seq_number_offset + 1) in (u32 (0 + off), off).
Definition generate_call_id (call_id_offset : Z) : Z * Z :=
  let off := u32 (call_id_offset + 1) in (u32 (0 + off), off).

(** The macro's value for a time [epoch]. *)
Definition SESS_ID (epoch ue_id br_id : Z) : Z :=
  Z.lor (u64 (Z.shiftl epoch 32))
        (Z.land 0xfffffff (Z.lor (u64 (Z.shiftl ue_id 4)) (Z.land 0xf br_id))).
Definition UE_SESS_ID (x : Z) : Z := Z.shiftr (Z.land x 0xfffffff) 4.
Definition UE_BEAR_ID (x : Z) : Z := Z.land x 0xf.

Definition generate_dp_sess_id (dp_sess_id_offset cp_sess_id : Z) : Z * Z :=
  let off := u64 (dp_sess_id_offset + 1) in (Z.lor (u64 (Z.shiftl off 32)) cp_sess_id, off).

(** ** The session ids of Gx *)

Definition TIMESTAMP_LEN : nat := 14.
Definition MAX_LEN : nat := 128.
Definition GX_SESS_ID_LEN : nat := 256.

(** [while(val)]: the digits of [val], the last one first. *)
Fixpoint tmp_digits (fuel : nat) (val : Z) : text :=
  match fuel with
  | O => []
  | S fuel => if bool_decide (val = 0) then [] else digit_char (val mod 10) :: tmp_digits fuel (val / 10)
  end.

(** [tmp_buf] has ten bytes, the last of which the terminator needs. *)
Definition int_to_str (val : Z) : option text :=
  let tmp_buf := tmp_digits 10 val in
  if bool_decide (length tmp_buf < 10)%nat then Some (reverse tmp_buf) else None.

(** The text that [str_buf] holds, or its old one, and the value returned. *)
Definition gen_sess_id_string (str_buf timestamp : text) (value : Z) : option (text * Z) :=
  buf ← int_to_str value;
  match buf with
  | [] => Some (str_buf, -1)
  | _ => Some (take (GX_SESS_ID_LEN - 1) (timestamp ++ buf), 0)
  end.

(** [gen_sess_id_for_ccr]; [timestamp] is what [strftime] wrote. *)
Definition gen_sess_id_for_ccr (sess_id timestamp : text) (call_id : Z) : option (text * Z) :=
  '(sess_id, ret) ← gen_sess_id_string sess_id timestamp call_id;
  Some (sess_id, if bool_decide (ret < 0) then -1 else 0).

(** [for(;str[idx] != '\0'; ++idx) buf[index++] = str[idx]] where [str] has the bytes
    [str] from [idx] on.  Without the last byte of [buf] zero, [atoi] has no end. *)
Fixpoint copy_call_id (room : nat) (str : text) {struct str} : option text :=
  match str with
  | [] => None
  | c :: str =>
      if bool_decide (c = NUL) then Some []
      else match room with
           | O => None
           | S room => buf ← copy_call_id room str; Some (c :: buf)
           end
  end.

(** [str] is the memory from the pointer on.  Result: the call id, the value returned. *)
Definition retrieve_call_id (str : text) : option (Z * Z) :=
  buf ← copy_call_id (MAX_LEN - 1) (drop TIMESTAMP_LEN str);
  let call_id := u32 (atoi buf) in
  Some (call_id, if bool_decide (call_id = 0) then -1 else 0).

(** ** Lemmas *)

(** *** Session ids *)

Lemma lor_disjoint' n lo hi : 0 <= n -> 0 <= lo < 2 ^ n -> Z.lor (hi * 2 ^ n) lo = lo + hi * 2 ^ n.
Proof. intros. rewrite Z.lor_comm. by apply lor_disjoint. Qed.

Lemma shiftl_wrap w n z : 0 <= n -> 0 <= z -> z * 2 ^ n < 2 ^ w -> wrap w (Z.shiftl z n) = z * 2 ^ n.
Proof. intros. rewrite Z.shiftl_mul_pow2 by done. apply wrap_small. lia. Qed.

Lemma SESS_ID_value epoch ue_id br_id :
  0 <= epoch < 2 ^ 32 -> 0 <= ue_id < 2 ^ 32 ->
  SESS_ID epoch ue_id br_id = (ue_id mod 2 ^ 24) * 16 + br_id mod 16 + epoch * 2 ^ 32.
Proof.
  intros He Hu. unfold SESS_ID.
  rewrite shiftl_wrap by (revert He; pow2; lia). rewrite shiftl_wrap by (revert Hu; pow2; lia).
  rewrite (Z.land_comm 0xf). rewrite (land_mask 4) by lia.
  rewrite (lor_disjoint' 4) by (revert Hu; pow2; zdiv).
  rewrite Z.land_comm. rewrite (land_mask 28) by lia.
  rewrite (lor_disjoint' 32) by (revert Hu; pow2; zdiv). pow2. zdiv.
Qed.

Lemma UE_SESS_ID_value x : UE_SESS_ID x = (x mod 2 ^ 28) / 16.
Proof.
  unfold UE_SESS_ID. rewrite (land_mask 28) by lia. by rewrite Z.shiftr_div_pow2 by lia.
Qed.

Lemma UE_BEAR_ID_value x : UE_BEAR_ID x = x mod 16.
Proof. apply (land_mask 4). lia. Qed.

(** *** Decimal numbers *)

Lemma tmp_digits_dec fuel z :
  0 < z < 10 ^ Z.of_nat fuel -> reverse (tmp_digits fuel z) = dec_digits fuel z.
Proof.
  revert z; induction fuel as [|fuel IH]; intros z Hz; cbn [tmp_digits dec_digits].
  { change (10 ^ Z.of_nat 0) with 1 in Hz. lia. }
  rewrite Nat2Z.inj_succ, Z.pow_succ_r in Hz by lia.
  rewrite bool_decide_false, reverse_cons by lia.
  destruct (Z.ltb_spec z 10).
  - rewrite Z.div_small, Z.mod_small by lia. by destruct fuel.
  - by rewrite IH by zdiv.
Qed.

Lemma tmp_digits_length fuel n z : (n < fuel)%nat -> 0 <= z ->
  (length (tmp_digits fuel z) <= n)%nat <-> z < 10 ^ Z.of_nat n.
Proof.
  revert n z; induction fuel as [|fuel IH]; intros n z Hn Hz; [lia|]. cbn [tmp_digits].
  assert (0 < 10 ^ Z.of_nat n) by lia.
  case_bool_decide; [simpl; lia|]. simpl. destruct n as [|n].
  - split; [lia|]. change (10 ^ Z.of_nat 0) with 1. lia.
  - rewrite Nat2Z.inj_succ, Z.pow_succ_r by lia.
    rewrite <- Nat.succ_le_mono, (IH n (z / 10)) by zdiv. zdiv.
Qed.

Lemma int_to_str_small z : 0 < z < 10 ^ 9 -> int_to_str z = Some (fmt_u z).
Proof.
  intros Hz. unfold int_to_str. rewrite tmp_digits_dec by lia.
  pose proof (tmp_digits_length 10 9 z). rewrite bool_decide_true by lia. done.
Qed.

Lemma int_to_str_large z : 10 ^ 9 <= z -> int_to_str z = None.
Proof.
  intros Hz. unfold int_to_str. pose proof (tmp_digits_length 10 9 z).
  rewrite bool_decide_false; [done|]. lia.
Qed.

(** *** Names as keys *)

Lemma name_of_In cases default value :
  exists s, In s (default :: map snd cases) /\ name_of cases default value = lit s.
Proof.
  unfold name_of. destruct (List.find _ _) as [c|] eqn:E.
  - apply find_some in E as [E _]. exists c.2. split; [right; by apply in_map|done].
  - exists default. split; [by left|done].
Qed.

Lemma proc_string_length value : (4 <= length (get_proc_string value))%nat.
Proof.
  unfold get_proc_string. edestruct name_of_In as (s & H & ->).
  revert s H. apply List.Forall_forall. repeat constructor; vm_compute; lia.
Qed.

Lemma ds_key_prefix (proc : text) seq : (4 <= length proc)%nat -> ds_key (teid_key proc seq) = take 4 proc.
Proof.
  intros H. unfold ds_key, teid_key.
  rewrite take_app_le by (rewrite length_take, length_app; unfold PROC_LEN; lia).
  rewrite take_take, take_app_le by (unfold PROC_LEN; lia). done.
Qed.

(** *** Texts in memory *)

Lemma copy_call_id_text room s rest :
  NUL ∉ s -> (length s <= room)%nat -> copy_call_id room (s ++ NUL :: rest) = Some s.
Proof.
  revert room; induction s as [|c s IH]; intros room Hs Hl; cbn [copy_call_id app length] in *.
  { by destruct room. }
  rewrite not_elem_of_cons in Hs. destruct Hs as [Hc Hs]. rewrite bool_decide_false by congruence.
  destruct room as [|room]; [lia|]. rewrite IH; [done|done|lia].
Qed.

Lemma copy_call_id_overflows room s :
  NUL ∉ s -> (room < length s)%nat -> forall rest, copy_call_id room (s ++ rest) = None.
Proof.
  revert room; induction s as [|c s IH]; intros room Hs Hl rest;
    cbn [copy_call_id app length] in *; [lia|].
  rewrite not_elem_of_cons in Hs. destruct Hs as [Hc Hs]. rewrite bool_decide_false by congruence.
  destruct room as [|room]; [done|]. rewrite IH; [done|done|lia].
Qed.

Lemma fmt_u_no_nul z : 0 <= z -> NUL ∉ fmt_u z.
Proof.
  intros Hz Hin. pose proof (dec_digits_isdigit 10 z Hz) as H.
  rewrite List.Forall_forall in H. specialize (H NUL).
  rewrite list_elem_of_In in Hin. by specialize (H Hin).
Qed.

Lemma atoi_digits z : 0 <= z < 2 ^ 31 -> atoi (fmt_u z) = z.
Proof.
  intros Hz. pose proof (atoi_fmt_u [] z []) as E. rewrite app_nil_r in E. simpl app in E.
  rewrite E; [|lia|done|done]. apply swrap_small; lia.
Qed.

(** ** Theorems *)

(** The Gx session id that is generated for a call id of at most nine digits is a
    time stamp and those digits, and the call id is read back from it, whatever follows
    in memory; a call id of ten digits is written past the end of [tmp_buf]; the call id
    0 gives no session id; and a session id with more than 127 characters behind the
    time stamp, which is what the PCRF sent, overflows the buffer of the reader. *)
Theorem gx_session_id_holds_call_id (call_id : Z) (old timestamp rest : text) :
  0 <= call_id < 2 ^ 32 -> length timestamp = TIMESTAMP_LEN -> NUL ∉ timestamp ->
  (0 < call_id < 10 ^ 9 ->
     exists s, gen_sess_id_for_ccr old timestamp call_id = Some (s, 0) /\
       retrieve_call_id (s ++ NUL :: rest) = Some (call_id, 0)) /\
  (10 ^ 9 <= call_id -> gen_sess_id_for_ccr old timestamp call_id = None) /\
  gen_sess_id_for_ccr old timestamp 0 = Some (old, -1) /\
  (forall s, NUL ∉ s -> (127 < length s)%nat -> retrieve_call_id (timestamp ++ s ++ rest) = None).
Proof.
  intros Hc Hlen Hts. split_and!.
  - intros Hs. unfold gen_sess_id_for_ccr, gen_sess_id_string. rewrite int_to_str_small by done.
    destruct (dec_digits_nonempty 10 call_id) as (c & l & E); [lia|].
    pose proof (fmt_u_length call_id) as Hl. cbn [mbind option_bind].
    change (dec_digits 10 call_id) with (fmt_u call_id) in E. rewrite E, <- E.
    exists (timestamp ++ fmt_u call_id). unfold TIMESTAMP_LEN in Hlen.
    rewrite take_ge by (rewrite length_app; unfold GX_SESS_ID_LEN; lia). split; [done|].
    unfold retrieve_call_id. rewrite <- app_assoc, drop_app_length' by done.
    rewrite copy_call_id_text by (try apply fmt_u_no_nul; unfold MAX_LEN; lia). cbn [mbind option_bind].
    rewrite atoi_digits by lia. rewrite (wrap_small 32) by lia. by rewrite bool_decide_false by lia.
  - intros Hs. unfold gen_sess_id_for_ccr, gen_sess_id_string. by rewrite int_to_str_large.
  - done.
  - intros s Hs Hl. unfold retrieve_call_id. rewrite drop_app_length' by done.
    by rewrite copy_call_id_overflows by (try done; unfold MAX_LEN; lia).
Qed.

(** The sequence number is no part of the key that finds a TEID again: all requests
    of one procedure share an entry.  When a request of a second session is added, the
    entry of the first is overwritten with the bytes of a pointer, both sequence numbers
    find that entry, and the response to either deletes it. *)
Theorem sequence_numbers_share_an_entry (addr : loc -> Z) cells index (proc s1 s2 ret : Z) p1 p2 v1 :
  index !! ds_key (teid_key (get_proc_string proc) s1) = None -> cells !! p1 = Some v1 ->
  exists cells2 index2,
    add_seq_number_for_teid addr cells index (teid_key (get_proc_string proc) s1) p1 0
      = Some (cells, index2, 0) /\
    add_seq_number_for_teid addr cells index2 (teid_key (get_proc_string proc) s2) p2 ret
      = Some (cells2, index2, 0) /\
    get_teid_for_seq_number index2 (teid_key (get_proc_string proc) s1) = Some p1 /\
    get_teid_for_seq_number index2 (teid_key (get_proc_string proc) s2) = Some p1 /\
    cells2 !! p1 = Some (mk_teid_value (u32 (addr p2)) (u8 (Z.shiftr (addr p2) 32))) /\
    delete_teid_entry_for_seq cells2 index2 (teid_key (get_proc_string proc) s2)
      = Some (delete p1 cells2, index, 0).
Proof.
  pose proof (proc_string_length proc) as Hl. intros Hi Hc.
  unfold add_seq_number_for_teid, get_teid_for_seq_number, delete_teid_entry_for_seq, del_entry.
  rewrite !ds_key_prefix in * by done. rewrite Hi. simpl.
  eexists _, _. split; [done|]. rewrite lookup_insert_eq, Hc. simpl.
  split_and!; [reflexivity|done|done|by rewrite lookup_insert_eq|].
  rewrite lookup_insert_eq. simpl. by rewrite (delete_insert_id _ _ _ Hi).
Qed.

(** A PFCP session id holds the bearer id and the low 24 bits of the UE id, no more:
    two UEs whose ids agree in those bits get the same session id for the same bearer in
    the same second.  The id that the CP proposes for the user plane keeps the low half
    of the session id, and its counter is lost in the bits that the time has set. *)
Theorem session_id_fields (epoch ue_id br_id ue_id' br_id' off off' : Z) :
  0 <= epoch < 2 ^ 32 -> 0 <= ue_id < 2 ^ 32 -> 0 <= br_id < 16 ->
  0 <= ue_id' < 2 ^ 32 -> 0 <= br_id' < 16 ->
  let s := SESS_ID epoch ue_id br_id in
  UE_BEAR_ID s = br_id /\ UE_SESS_ID s = ue_id mod 2 ^ 24 /\
  (s = SESS_ID epoch ue_id' br_id' <-> ue_id mod 2 ^ 24 = ue_id' mod 2 ^ 24 /\ br_id = br_id') /\
  (generate_dp_sess_id off s).1 mod 2 ^ 32 = s mod 2 ^ 32 /\
  (Z.lor (u32 (off + 1)) epoch = Z.lor (u32 (off' + 1)) epoch ->
   (generate_dp_sess_id off s).1 = (generate_dp_sess_id off' s).1).
Proof.
  intros He Hu Hb Hu' Hb' s.
  assert (s = (ue_id mod 2 ^ 24) * 16 + br_id + epoch * 2 ^ 32) as Es.
  { unfold s. rewrite SESS_ID_value, (Z.mod_small br_id) by done. done. }
  assert (forall o, (generate_dp_sess_id o s).1 =
    (ue_id mod 2 ^ 24) * 16 + br_id + Z.lor (u32 (o + 1)) epoch * 2 ^ 32) as Ed.
  { intros o. unfold generate_dp_sess_id. cbn [fst].
    assert (u64 (Z.shiftl (u64 (o + 1)) 32) = Z.shiftl (u32 (o + 1)) 32) as ->.
    { rewrite !Z.shiftl_mul_pow2 by lia. unfold wrap. pow2. zdiv. }
    assert (0 <= ue_id mod 2 ^ 24 * 16 + br_id < 2 ^ 32) as Hlo by (clear -Hb; revert Hb; pow2; zdiv).
    rewrite Es, <- !(lor_disjoint' 32) by (done || lia).
    by rewrite <- !Z.shiftl_mul_pow2, Z.shiftl_lor, Z.lor_assoc by lia. }
  split_and!.
  - rewrite UE_BEAR_ID_value, Es. clear Es Ed. revert Hb. pow2. zdiv.
  - rewrite UE_SESS_ID_value, Es. clear Es Ed. revert Hb. pow2. zdiv.
  - rewrite Es, SESS_ID_value by done. clear Es Ed. revert Hb Hb'. pow2. zdiv.
  - rewrite Ed, Es. clear Es Ed. pow2. zdiv.
  - intros E. by rewrite !Ed, E.
Qed.

(** ** Witnesses *)

Definition sample_timestamp : text := lit "20200311093000".

Lemma gx_session_id_holds_call_id_witness :
  exists s, gen_sess_id_for_ccr [] sample_timestamp 4711 = Some (s, 0) /\
    retrieve_call_id (s ++ NUL :: lit "#") = Some (4711, 0).
Proof.
  apply (gx_session_id_holds_call_id 4711 [] sample_timestamp (lit "#")); [lia|reflexivity| |lia].
  rewrite list_elem_of_In. vm_compute. intuition discriminate.
Defined.

Lemma sequence_numbers_share_an_entry_witness :
  exists (cells2 : gmap loc teid_value_t) index2,
    get_teid_for_seq_number index2 (teid_key (get_proc_string MODIFY_BEARER_PROCEDURE) 8) = Some 1%positive /\
    cells2 !! 1%positive = Some (mk_teid_value 0x00000020 0x7f).
Proof.
  destruct (sequence_numbers_share_an_entry (fun _ => 0x7f00000020) {[1%positive := mk_teid_value 5 34]} ∅
    MODIFY_BEARER_PROCEDURE 7 8 0 1%positive 2%positive (mk_teid_value 5 34)) as (c & i & _ & _ & _ & H1 & H2 & _).
  - vm_compute. reflexivity.
  - vm_compute. reflexivity.
  - exists c, i. split; [exact H1|]. rewrite H2. vm_compute. reflexivity.
Defined.

Lemma session_id_fields_witness :
  UE_SESS_ID (SESS_ID 0x5e68b2d0 0xC0FFEE 5) = 0xC0FFEE /\
  (generate_dp_sess_id 0x0f (SESS_ID 0x5e68b2d0 0xC0FFEE 5)).1 =
  (generate_dp_sess_id 0xcf (SESS_ID 0x5e68b2d0 0xC0FFEE 5)).1.
Proof.
  destruct (session_id_fields 0x5e68b2d0 0xC0FFEE 5 0xC0FFEE 5 0x0f 0xcf) as (_ & H1 & _ & _ & H2); [lia..|].
  split; [rewrite H1; reflexivity|]. apply H2. reflexivity.
Defined.
