(* ===== verification/CMonad.v ===== *)
(** * C functions with early returns

    The body of a C function over a state [S] that returns an [R] is a command: it goes
    on with a value, or it has returned, or it has done what C does not define (it
    dereferenced [NULL] or a freed object, or indexed outside an array).  [run] is the
    whole function; [call] is a call of a function from the body of another. *)
From S2P Require Import Prelude.

Inductive outcome (S R A : Type) : Type :=
| Next (s : S) (a : A)
| Return (s : S) (r : R)
| Fault.
Arguments Next {S R A}.
Arguments Return {S R A}.
Arguments Fault {S R A}.

Definition cmd (S R A : Type) : Type := S -> outcome S R A.

Section Commands.
Context {S R : Type}.

Definition skip {A} (a : A) : cmd S R A := fun s => Next s a.

Definition bind {A B} (m : cmd S R A) (k : A -> cmd S R B) : cmd S R B :=
  fun s => match m s with
           | Next s a => k a s
           | Return s r => Return s r
           | Fault => Fault
           end.

Definition read {A} (f : S -> A) : cmd S R A := fun s => Next s (f s).
Definition modify (f : S -> S) : cmd S R unit := fun s => Next (f s) tt.
Definition return_ {A} (r : R) : cmd S R A := fun s => Return s r.
Definition fault {A} : cmd S R A := fun _ => Fault.

(** A value that is there, or a fault. *)
Definition deref {A} (o : option A) : cmd S R A :=
  match o with Some a => skip a | None => fault end.

(** A change of the state that can fault. *)
Definition update (f : S -> option S) : cmd S R unit :=
  fun s => match f s with Some s => Next s tt | None => Fault end.

Definition call {A} (f : S -> option (S * A)) : cmd S R A :=
  fun s => match f s with Some (s, a) => Next s a | None => Fault end.

Definition run (m : cmd S R R) (s : S) : option (S * R) :=
  match m s with
  | Next s r | Return s r => Some (s, r)
  | Fault => None
  end.

(** [m] does not fault from [s]; [P] holds where it goes on, [Q] where it returns. *)
Definition ok {A} (P : S -> A -> Prop) (Q : S -> R -> Prop) (m : cmd S R A) (s : S) : Prop :=
  match m s with
  | Next s a => P s a
  | Return s r => Q s r
  | Fault => False
  end.
End Commands.

Declare Scope cmd_scope.
Delimit Scope cmd_scope with cmd.
Notation "'do' x <- m ; k" := (bind m (fun x => k))
  (at level 200, x name, m at level 100, k at level 200, right associativity) : cmd_scope.
Notation "'do' ' p <- m ; k" := (bind m (fun p => k))
  (at level 200, p strict pattern, m at level 100, k at level 200, right associativity) : cmd_scope.
Notation "m ;; k" := (bind m (fun _ => k)) (at level 100, k at level 200, right associativity) : cmd_scope.
Notation "'when' b 'then_' m" := (if b then m else skip tt) (at level 200, b at level 100, m at level 100) : cmd_scope.
#[global] Open Scope cmd_scope.

Section Lemmas.
Context {S R : Type}.

Lemma ok_bind {A B} (P : S -> B -> Prop) Q (m : cmd S R A) (k : A -> cmd S R B) s :
  ok (fun s a => ok P Q (k a) s) Q m s -> ok P Q (bind m k) s.
Proof. unfold ok, bind. by destruct (m s). Qed.

Lemma ok_mono {A} (P P' : S -> A -> Prop) (Q Q' : S -> R -> Prop) (m : cmd S R A) s :
  ok P Q m s -> (forall s a, P s a -> P' s a) -> (forall s r, Q s r -> Q' s r) -> ok P' Q' m s.
Proof. unfold ok. destruct (m s); auto. Qed.

Lemma ok_skip {A} (P : S -> A -> Prop) (Q : S -> R -> Prop) a s : P s a -> ok P Q (skip a) s.
Proof. done. Qed.

Lemma ok_read {A} (P : S -> A -> Prop) (Q : S -> R -> Prop) f s : P s (f s) -> ok P Q (read f) s.
Proof. done. Qed.

Lemma ok_modify (P : S -> unit -> Prop) (Q : S -> R -> Prop) f s : P (f s) tt -> ok P Q (modify f) s.
Proof. done. Qed.

Lemma ok_return {A} (P : S -> A -> Prop) (Q : S -> R -> Prop) r s : Q s r -> ok P Q (return_ r) s.
Proof. done. Qed.

Lemma ok_deref {A} (P : S -> A -> Prop) (Q : S -> R -> Prop) o a s :
  o = Some a -> P s a -> ok P Q (deref o) s.
Proof. by intros ->. Qed.

Lemma ok_update (P : S -> unit -> Prop) (Q : S -> R -> Prop) f s s' :
  f s = Some s' -> P s' tt -> ok P Q (update f) s.
Proof. unfold ok, update. by intros ->. Qed.

Lemma ok_call {A} (P : S -> A -> Prop) Q (f : S -> option (S * A)) s :
  ok P Q (call (R := R) f) s <-> exists s' a, f s = Some (s', a) /\ P s' a.
Proof.
  unfold ok, call. destruct (f s) as [[s' a]|]; split; try done; [by eauto| |].
  - by intros (? & ? & [= -> ->] & ?).
  - by intros (? & ? & ? & ?).
Qed.

Lemma ok_run (Q : S -> R -> Prop) (m : cmd S R R) s :
  ok Q Q m s <-> exists s' r, run m s = Some (s', r) /\ Q s' r.
Proof.
  unfold ok, run. destruct (m s); split; try done; eauto.
  - by intros (? & ? & [= -> ->] & ?).
  - by intros (? & ? & [= -> ->] & ?).
  - by intros (? & ? & ? & ?).
Qed.
End Lemmas.

(** One command of a body: what it needs is left as a goal. *)
Ltac cstep :=
  cbv beta iota;
  match goal with
  | |- ok _ _ (bind _ _) _ => apply ok_bind
  | |- ok _ _ (skip _) _ => apply ok_skip
  | |- ok _ _ (read _) _ => apply ok_read
  | |- ok _ _ (modify _) _ => apply ok_modify
  | |- ok _ _ (return_ _) _ => apply ok_return
  | |- ok _ _ (deref _) _ => eapply ok_deref
  | |- ok _ _ (update _) _ => eapply ok_update
  end; cbv beta iota.
