(* ===== verification/UeContext.v ===== *)
(** * UE contexts, PDN connections and bearers (cp/ue.c, cp/ue.h, cp/state_machine/sm_init.c)

    The control plane keeps a context per UE, with pointers to the PDN connections and
    the bearers of the UE; a bearer points to its PDN connection, which points to its
    bearers and back to the context.  The objects live in heaps, one per type; the hash
    tables give their addresses.  A pointer is an [option] of an address; following
    [NULL] or the address of a freed object, or indexing outside an array, is a fault
    ([CMonad]).  The member that follows an array in a structure does not belong to it.

    The records hold the members that the modelled functions use.  The outcomes of
    allocations and hash insertions are arguments. *)
From S2P Require Import Prelude CText LList NodeAddr Teid SmTable CpTables CMonad.
From Stdlib Require Import Ascii.

Definition MAX_BEARERS : nat := 14.
Definition MAX_FILTERS_PER_UE : nat := 16.
Definition ENOENT : Z := 2.
Definition GTPC_RE_TRANSMITTED_REQ : Z := -2.
Definition GTPV2C_CAUSE_CONTEXT_NOT_FOUND : Z := 64.
Definition GTPV2C_CAUSE_ALL_DYNAMIC_ADDRESSES_OCCUPIED : Z := 84.
Definition LDB_ENTRIES_DEFAULT : Z := 1024 * 512.

(** ** Data *)

Record apn_t := mk_apn {
  apn_name_label : option text;
  apn_name_length : Z
}.


Record eps_bearer := mk_bearer {
  eb_eps_bearer_id : Z;
  eb_packet_filter_map : list Z;
  eb_pdn : ptr
}.

Definition set_eb_eps_bearer_id (v : Z) (r : eps_bearer) : eps_bearer :=
  mk_bearer v (eb_packet_filter_map r) (eb_pdn r).
Definition set_eb_packet_filter_map (v : list Z) (r : eps_bearer) : eps_bearer :=
  mk_bearer (eb_eps_bearer_id r) v (eb_pdn r).
Definition set_eb_pdn (v : ptr) (r : eps_bearer) : eps_bearer :=
  mk_bearer (eb_eps_bearer_id r) (eb_packet_filter_map r) v.

Record pdn_connection := mk_pdn {
  pdn_proc : Z;
  pdn_state : Z;
  pdn_default_bearer_id : Z;
  pdn_num_bearer : Z;
  pdn_csr_sequence : Z;
  pdn_seid : Z;
  pdn_apn_in_use : ptr;
  pdn_eps_bearers : list ptr;
  pdn_context : ptr
}.

Definition set_pdn_proc (v : Z) (r : pdn_connection) : pdn_connection :=
  mk_pdn v (pdn_state r) (pdn_default_bearer_id r) (pdn_num_bearer r) (pdn_csr_sequence r) (pdn_seid
    r) (pdn_apn_in_use r) (pdn_eps_bearers r) (pdn_context r).
Definition set_pdn_state (v : Z) (r : pdn_connection) : pdn_connection :=
  mk_pdn (pdn_proc r) v (pdn_default_bearer_id r) (pdn_num_bearer r) (pdn_csr_sequence r) (pdn_seid
    r) (pdn_apn_in_use r) (pdn_eps_bearers r) (pdn_context r).
Definition set_pdn_default_bearer_id (v : Z) (r : pdn_connection) : pdn_connection :=
  mk_pdn (pdn_proc r) (pdn_state r) v (pdn_num_bearer r) (pdn_csr_sequence r) (pdn_seid r)
    (pdn_apn_in_use r) (pdn_eps_bearers r) (pdn_context r).
Definition set_pdn_num_bearer (v : Z) (r : pdn_connection) : pdn_connection :=
  mk_pdn (pdn_proc r) (pdn_state r) (pdn_default_bearer_id r) v (pdn_csr_sequence r) (pdn_seid r)
    (pdn_apn_in_use r) (pdn_eps_bearers r) (pdn_context r).
Definition set_pdn_apn_in_use (v : ptr) (r : pdn_connection) : pdn_connection :=
  mk_pdn (pdn_proc r) (pdn_state r) (pdn_default_bearer_id r) (pdn_num_bearer r) (pdn_csr_sequence r)
    (pdn_seid r) v (pdn_eps_bearers r) (pdn_context r).
Definition set_pdn_eps_bearers (v : list ptr) (r : pdn_connection) : pdn_connection :=
  mk_pdn (pdn_proc r) (pdn_state r) (pdn_default_bearer_id r) (pdn_num_bearer r) (pdn_csr_sequence r)
    (pdn_seid r) (pdn_apn_in_use r) v (pdn_context r).

Record ue_context := mk_ue {
  ue_imsi : Z;
  ue_imsi_len : Z;
  ue_cp_mode : Z;
  ue_cp_mode_flag : bool;
  ue_piggyback : bool;
  ue_dupl : Z;
  ue_procedure : Z;
  ue_pfcp_sess_count : Z;
  ue_is_sent_bearer_rsc_failure_indc : Z;
  ue_initiated_seq_no : Z;
  ue_s11_sgw_gtpc_teid : Z;
  ue_num_pdns : Z;
  ue_bearer_bitmap : Z;
  ue_pdns : list ptr;
  ue_eps_bearers : list ptr;
  ue_indirect_tunnel_pdn : option ptr
}.

Definition set_ue_imsi (v : Z) (r : ue_context) : ue_context :=
  mk_ue v (ue_imsi_len r) (ue_cp_mode r) (ue_cp_mode_flag r) (ue_piggyback r) (ue_dupl r)
    (ue_procedure r) (ue_pfcp_sess_count r) (ue_is_sent_bearer_rsc_failure_indc r)
    (ue_initiated_seq_no r) (ue_s11_sgw_gtpc_teid r) (ue_num_pdns r) (ue_bearer_bitmap r)
    (ue_pdns r) (ue_eps_bearers r) (ue_indirect_tunnel_pdn r).
Definition set_ue_imsi_len (v : Z) (r : ue_context) : ue_context :=
  mk_ue (ue_imsi r) v (ue_cp_mode r) (ue_cp_mode_flag r) (ue_piggyback r) (ue_dupl r) (ue_procedure
    r) (ue_pfcp_sess_count r) (ue_is_sent_bearer_rsc_failure_indc r) (ue_initiated_seq_no r)
    (ue_s11_sgw_gtpc_teid r) (ue_num_pdns r) (ue_bearer_bitmap r) (ue_pdns r)
    (ue_eps_bearers r) (ue_indirect_tunnel_pdn r).
Definition set_ue_cp_mode (v : Z) (r : ue_context) : ue_context :=
  mk_ue (ue_imsi r) (ue_imsi_len r) v (ue_cp_mode_flag r) (ue_piggyback r) (ue_dupl r) (ue_procedure
    r) (ue_pfcp_sess_count r) (ue_is_sent_bearer_rsc_failure_indc r) (ue_initiated_seq_no r)
    (ue_s11_sgw_gtpc_teid r) (ue_num_pdns r) (ue_bearer_bitmap r) (ue_pdns r)
    (ue_eps_bearers r) (ue_indirect_tunnel_pdn r).
Definition set_ue_cp_mode_flag (v : bool) (r : ue_context) : ue_context :=
  mk_ue (ue_imsi r) (ue_imsi_len r) (ue_cp_mode r) v (ue_piggyback r) (ue_dupl r) (ue_procedure r)
    (ue_pfcp_sess_count r) (ue_is_sent_bearer_rsc_failure_indc r) (ue_initiated_seq_no r)
    (ue_s11_sgw_gtpc_teid r) (ue_num_pdns r) (ue_bearer_bitmap r) (ue_pdns r)
    (ue_eps_bearers r) (ue_indirect_tunnel_pdn r).
Definition set_ue_piggyback (v : bool) (r : ue_context) : ue_context :=
  mk_ue (ue_imsi r) (ue_imsi_len r) (ue_cp_mode r) (ue_cp_mode_flag r) v (ue_dupl r) (ue_procedure
    r) (ue_pfcp_sess_count r) (ue_is_sent_bearer_rsc_failure_indc r) (ue_initiated_seq_no r)
    (ue_s11_sgw_gtpc_teid r) (ue_num_pdns r) (ue_bearer_bitmap r) (ue_pdns r)
    (ue_eps_bearers r) (ue_indirect_tunnel_pdn r).
Definition set_ue_pfcp_sess_count (v : Z) (r : ue_context) : ue_context :=
  mk_ue (ue_imsi r) (ue_imsi_len r) (ue_cp_mode r) (ue_cp_mode_flag r) (ue_piggyback r) (ue_dupl r)
    (ue_procedure r) v (ue_is_sent_bearer_rsc_failure_indc r) (ue_initiated_seq_no r)
    (ue_s11_sgw_gtpc_teid r) (ue_num_pdns r) (ue_bearer_bitmap r) (ue_pdns r)
    (ue_eps_bearers r) (ue_indirect_tunnel_pdn r).
Definition set_ue_s11_sgw_gtpc_teid (v : Z) (r : ue_context) : ue_context :=
  mk_ue (ue_imsi r) (ue_imsi_len r) (ue_cp_mode r) (ue_cp_mode_flag r) (ue_piggyback r) (ue_dupl r)
    (ue_procedure r) (ue_pfcp_sess_count r) (ue_is_sent_bearer_rsc_failure_indc r)
    (ue_initiated_seq_no r) v (ue_num_pdns r) (ue_bearer_bitmap r) (ue_pdns r)
    (ue_eps_bearers r) (ue_indirect_tunnel_pdn r).
Definition set_ue_num_pdns (v : Z) (r : ue_context) : ue_context :=
  mk_ue (ue_imsi r) (ue_imsi_len r) (ue_cp_mode r) (ue_cp_mode_flag r) (ue_piggyback r) (ue_dupl r)
    (ue_procedure r) (ue_pfcp_sess_count r) (ue_is_sent_bearer_rsc_failure_indc r)
    (ue_initiated_seq_no r) (ue_s11_sgw_gtpc_teid r) v (ue_bearer_bitmap r) (ue_pdns r)
    (ue_eps_bearers r) (ue_indirect_tunnel_pdn r).
Definition set_ue_bearer_bitmap (v : Z) (r : ue_context) : ue_context :=
  mk_ue (ue_imsi r) (ue_imsi_len r) (ue_cp_mode r) (ue_cp_mode_flag r) (ue_piggyback r) (ue_dupl r)
    (ue_procedure r) (ue_pfcp_sess_count r) (ue_is_sent_bearer_rsc_failure_indc r)
    (ue_initiated_seq_no r) (ue_s11_sgw_gtpc_teid r) (ue_num_pdns r) v (ue_pdns r)
    (ue_eps_bearers r) (ue_indirect_tunnel_pdn r).
Definition set_ue_pdns (v : list ptr) (r : ue_context) : ue_context :=
  mk_ue (ue_imsi r) (ue_imsi_len r) (ue_cp_mode r) (ue_cp_mode_flag r) (ue_piggyback r) (ue_dupl r)
    (ue_procedure r) (ue_pfcp_sess_count r) (ue_is_sent_bearer_rsc_failure_indc r)
    (ue_initiated_seq_no r) (ue_s11_sgw_gtpc_teid r) (ue_num_pdns r) (ue_bearer_bitmap r) v
    (ue_eps_bearers r) (ue_indirect_tunnel_pdn r).
Definition set_ue_eps_bearers (v : list ptr) (r : ue_context) : ue_context :=
  mk_ue (ue_imsi r) (ue_imsi_len r) (ue_cp_mode r) (ue_cp_mode_flag r) (ue_piggyback r) (ue_dupl r)
    (ue_procedure r) (ue_pfcp_sess_count r) (ue_is_sent_bearer_rsc_failure_indc r)
    (ue_initiated_seq_no r) (ue_s11_sgw_gtpc_teid r) (ue_num_pdns r) (ue_bearer_bitmap r)
    (ue_pdns r) v (ue_indirect_tunnel_pdn r).

(** Objects as [rte_zmalloc] returns them. *)
Definition zero_bearer : eps_bearer := mk_bearer 0 (replicate MAX_FILTERS_PER_UE 0) None.
Definition zero_pdn : pdn_connection :=
  mk_pdn 0 0 0 0 0 0 None (replicate (MAX_BEARERS * 2) None) None.
Definition zero_ue : ue_context :=
  mk_ue 0 0 0 false false 0 0 0 0 0 0 0 0 (replicate MAX_BEARERS None)
    (replicate (MAX_BEARERS * 2) None) None.

Record ue_store := mk_store {
  contexts : gmap loc ue_context;
  pdns : gmap loc pdn_connection;
  bearers : gmap loc eps_bearer;
  apns : gmap loc apn_t;
  ue_context_by_imsi_hash : gmap Z loc;
  ue_context_by_fteid_hash : gmap Z loc;
  ue_context_by_sender_teid_hash : gmap Z loc;
  bearer_by_fteid_hash : gmap Z loc;
  teids : Teid.state
}.

Definition set_contexts (v : gmap loc ue_context) (r : ue_store) : ue_store :=
  mk_store v (pdns r) (bearers r) (apns r) (ue_context_by_imsi_hash r) (ue_context_by_fteid_hash r)
    (ue_context_by_sender_teid_hash r) (bearer_by_fteid_hash r) (teids r).
Definition set_pdns (v : gmap loc pdn_connection) (r : ue_store) : ue_store :=
  mk_store (contexts r) v (bearers r) (apns r) (ue_context_by_imsi_hash r) (ue_context_by_fteid_hash r)
    (ue_context_by_sender_teid_hash r) (bearer_by_fteid_hash r) (teids r).
Definition set_bearers (v : gmap loc eps_bearer) (r : ue_store) : ue_store :=
  mk_store (contexts r) (pdns r) v (apns r) (ue_context_by_imsi_hash r) (ue_context_by_fteid_hash r)
    (ue_context_by_sender_teid_hash r) (bearer_by_fteid_hash r) (teids r).
Definition set_ue_context_by_imsi_hash (v : gmap Z loc) (r : ue_store) : ue_store :=
  mk_store (contexts r) (pdns r) (bearers r) (apns r) v (ue_context_by_fteid_hash r)
    (ue_context_by_sender_teid_hash r) (bearer_by_fteid_hash r) (teids r).
Definition set_ue_context_by_fteid_hash (v : gmap Z loc) (r : ue_store) : ue_store :=
  mk_store (contexts r) (pdns r) (bearers r) (apns r) (ue_context_by_imsi_hash r) v
    (ue_context_by_sender_teid_hash r) (bearer_by_fteid_hash r) (teids r).
Definition set_bearer_by_fteid_hash (v : gmap Z loc) (r : ue_store) : ue_store :=
  mk_store (contexts r) (pdns r) (bearers r) (apns r) (ue_context_by_imsi_hash r)
    (ue_context_by_fteid_hash r) (ue_context_by_sender_teid_hash r) v (teids r).
Definition set_teids (v : Teid.state) (r : ue_store) : ue_store :=
  mk_store (contexts r) (pdns r) (bearers r) (apns r) (ue_context_by_imsi_hash r)
    (ue_context_by_fteid_hash r) (ue_context_by_sender_teid_hash r) (bearer_by_fteid_hash r)
    v.

(** ** Access *)

Definition array_get (l : list ptr) (i : Z) : option ptr := if bool_decide (0 <= i) then l !! Z.to_nat i else None.

Definition array_set (l : list ptr) (i : Z) (v : ptr) : option (list ptr) :=
  if bool_decide (0 <= i < Z.of_nat (length l)) then Some (<[Z.to_nat i := v]> l) else None.

(** [*c], [*p] and [*b], and their modification. *)
Definition ue_at (c : loc) (s : ue_store) : option ue_context := contexts s !! c.
Definition pdn_at (p : loc) (s : ue_store) : option pdn_connection := pdns s !! p.
Definition bearer_at (b : loc) (s : ue_store) : option eps_bearer := bearers s !! b.

Definition change_ue (c : loc) (f : ue_context -> option ue_context) (s : ue_store) : option ue_store :=
  v ← ue_at c s; v ← f v; Some (set_contexts (<[c := v]> (contexts s)) s).
Definition change_pdn (p : loc) (f : pdn_connection -> option pdn_connection) (s : ue_store) : option ue_store :=
  v ← pdn_at p s; v ← f v; Some (set_pdns (<[p := v]> (pdns s)) s).
Definition change_bearer (b : loc) (f : eps_bearer -> option eps_bearer) (s : ue_store) : option ue_store :=
  v ← bearer_at b s; v ← f v; Some (set_bearers (<[b := v]> (bearers s)) s).

Definition ue_bearer_slot (i : Z) (b : ptr) (u : ue_context) : option ue_context :=
  l ← array_set (ue_eps_bearers u) i b; Some (set_ue_eps_bearers l u).
Definition ue_pdn_slot (i : Z) (p : ptr) (u : ue_context) : option ue_context :=
  l ← array_set (ue_pdns u) i p; Some (set_ue_pdns l u).
Definition pdn_bearer_slot (i : Z) (b : ptr) (p : pdn_connection) : option pdn_connection :=
  l ← array_set (pdn_eps_bearers p) i b; Some (set_pdn_eps_bearers l p).

Definition GET_EBI_INDEX (a : Z) : Z :=
  if bool_decide (1 <= a <= Z.of_nat MAX_BEARERS * 2) then a - 1 else -1.

(** The macro on a context that is there: the PDN connection of the bearer, [Some None]
    for [NULL]. *)
Definition GET_PDN (s : ue_store) (u : ue_context) (i : Z) : option ptr :=
  if bool_decide (0 <= i < Z.of_nat MAX_BEARERS * 2) then
    b ← array_get (ue_eps_bearers u) i;
    match b with
    | Some b => br ← bearer_at b s; Some (eb_pdn br)
    | None => Some None
    end
  else Some None.

(** ** Look-ups (sm_init.c) *)

(** [get_ue_context] and [get_sender_teid_context]: 0 and the context, or -1. *)
Definition get_ue_context (teid_key : Z) (s : ue_store) : Z * ptr :=
  match ue_context_by_fteid_hash s !! teid_key with
  | Some c => (0, Some c)
  | None => (-1, None)
  end.

Definition get_sender_teid_context (teid_key : Z) (s : ue_store) : Z * ptr :=
  match ue_context_by_sender_teid_hash s !! teid_key with
  | Some c => (0, Some c)
  | None => (-1, None)
  end.

Definition get_bearer_by_teid (teid_key : Z) (s : ue_store) : Z * ptr :=
  match bearer_by_fteid_hash s !! teid_key with
  | Some b => (0, Some b)
  | None => (-1, None)
  end.

(** [bearer->pdn->context], if both pointers are there. *)
Definition context_of_bearer (b : loc) (s : ue_store) : option ptr :=
  br ← bearer_at b s;
  match eb_pdn br with
  | None => Some None
  | Some p => pd ← pdn_at p s; Some (pdn_context pd)
  end.

Definition get_ue_context_by_sgw_s5s8_teid (teid_key : Z) (s : ue_store) : option (Z * ptr) :=
  match get_bearer_by_teid teid_key s with
  | (_, None) => Some (GTPV2C_CAUSE_CONTEXT_NOT_FOUND, None)
  | (_, Some b) =>
      c ← context_of_bearer b s;
      match c with
      | Some c => Some (0, Some c)
      | None => Some (-1, None)
      end
  end.

(** [*context] is [NULL] before. *)
Definition get_ue_context_while_error (teid_key : Z) (s : ue_store) : option (Z * ptr) :=
  match ue_context_by_fteid_hash s !! teid_key with
  | Some c => Some (0, Some c)
  | None =>
      match get_bearer_by_teid teid_key s with
      | (_, None) => Some (-1, None)
      | (_, Some b) =>
          c ← context_of_bearer b s;
          match c with
          | Some c => Some (0, Some c)
          | None => Some (-1, None)
          end
      end
  end.

(** The loop of [get_pdn]: the PDN connections of the context from a slot on. *)
Fixpoint get_pdn_loop (s : ue_store) (apn_requested : apn_t) (ps : list ptr) : option ptr :=
  match ps with
  | [] => Some None
  | None :: ps => get_pdn_loop s apn_requested ps
  | Some p :: ps =>
      pd ← pdn_at p s; a ← pdn_apn_in_use pd; a ← apns s !! a;
      used ← apn_name_label a; requested ← apn_name_label apn_requested;
      if strncmp_eq (Z.to_nat (apn_name_length apn_requested)) used requested then Some (Some p)
      else get_pdn_loop s apn_requested ps
  end.

Definition get_pdn (u : ue_context) (apn_requested : apn_t) (s : ue_store) : option ptr :=
  get_pdn_loop s apn_requested (ue_pdns u).

(** [update_ue_state], [update_ue_proc] and [get_ue_state] return a [uint8_t]: -1 is 255. *)
Definition update_ue_state (c : loc) (st ebi_index : Z) (s : ue_store) : option (ue_store * Z) :=
  u ← ue_at c s; p ← GET_PDN s u ebi_index;
  match p with
  | None => Some (s, u8 (-1))
  | Some p => s ← change_pdn p (fun pd => Some (set_pdn_state st pd)) s; Some (s, 0)
  end.

Definition update_ue_proc (c : loc) (proc ebi_index : Z) (s : ue_store) : option (ue_store * Z) :=
  u ← ue_at c s; p ← GET_PDN s u ebi_index;
  match p with
  | None => Some (s, u8 (-1))
  | Some p => s ← change_pdn p (fun pd => Some (set_pdn_proc proc pd)) s; Some (s, 0)
  end.

Definition get_ue_state (teid_key ebi_index : Z) (s : ue_store) : option Z :=
  match ue_context_by_fteid_hash s !! teid_key with
  | None => Some (u8 (-1))
  | Some c =>
      u ← ue_at c s; p ← GET_PDN s u ebi_index;
      match p with
      | None => Some (u8 (-1))
      | Some p => pd ← pdn_at p s; Some (pdn_state pd)
      end
  end.

(** ** Creation (ue.c) *)

Definition add_bearer_entry_by_sgw_s5s8_tied (fteid_key : Z) (bearer : loc) (add_ret : Z) (s : ue_store)
    : ue_store * Z :=
  if bool_decide (swrap 8 add_ret < 0) then (s, GTPV2C_CAUSE_SYSTEM_FAILURE)
  else (set_bearer_by_fteid_hash (<[fteid_key := bearer]> (bearer_by_fteid_hash s)) s, 0).

(** What [create_ue_context] asks for, in the order of the code. *)
Record ue_env := mk_env {
  malloc_context : ptr;
  add_imsi_ret : Z;
  add_fteid_ret : Z;
  malloc_bearer : ptr;
  malloc_pdn : ptr
}.

(** [memcpy(&imsi, imsi_val, imsi_len)] over [UINT64_MAX]. *)
Definition imsi_key (imsi_val imsi_len : Z) : option Z :=
  if bool_decide (imsi_len <= 8) then
    Some (2 ^ 64 - 2 ^ (8 * imsi_len) + imsi_val mod 2 ^ (8 * imsi_len))
  else None.

(** The loop that frees the dedicated bearers of a session that is created again. *)
Fixpoint free_old_bearers (n : nat) (i : Z) (c bearer pdn : loc) (ebi_index : Z) (s : ue_store)
    : option ue_store :=
  match n with
  | O => Some s
  | S n =>
      pd ← pdn_at pdn s; b ← array_get (pdn_eps_bearers pd) i;
      s ← match b with
          | None => Some s
          | Some b =>
              if bool_decide (i = ebi_index) then change_bearer bearer (fun _ => Some zero_bearer) s
              else
                _ ← bearer_at b s;
                s ← change_pdn pdn (pdn_bearer_slot i None) (set_bearers (delete b (bearers s)) s);
                s ← change_ue c (ue_bearer_slot i None) s;
                change_ue c (fun u =>
                  Some (set_ue_bearer_bitmap (Z.ldiff (ue_bearer_bitmap u) (u16 (Z.shiftl 1 ebi_index))) u)) s
          end;
      free_old_bearers n (i + 1) c bearer pdn ebi_index s
  end.

Section Create.
Variables (env : ue_env) (imsi_val imsi_len ebi : Z) (apn_requested : loc) (sequence cp_type : Z).

Abbreviation ue_cmd := (cmd ue_store Z).

(** The context of the IMSI, a new one if there is none.  Result: the context, the flag
    [*check_if_ue_hash_exist] and the PDN connection of its bearer. *)
Definition find_or_create (imsi ebi_index check : Z) : ue_cmd (loc * Z * ptr) :=
  do found <- read (fun s => ue_context_by_imsi_hash s !! imsi);
  match found with
  | None =>
      match malloc_context env with
      | None => return_ GTPV2C_CAUSE_SYSTEM_FAILURE
      | Some c =>
          if bool_decide (add_imsi_ret env < 0) then return_ GTPV2C_CAUSE_SYSTEM_FAILURE
          else
            modify (fun s => set_contexts (<[c := set_ue_imsi imsi (set_ue_imsi_len imsi_len zero_ue)]> (contexts s)) s);;
            modify (fun s => set_ue_context_by_imsi_hash (<[imsi := c]> (ue_context_by_imsi_hash s)) s);;
            skip (c, check, None)
      end
  | Some c =>
      do s <- read id;
      do u <- deref (ue_at c s);
      do b <- deref (array_get (ue_eps_bearers u) ebi_index);
      match b with
      | None => skip (c, 1, None)
      | Some b =>
          do br <- deref (bearer_at b s);
          match eb_pdn br with
          | None => skip (c, 1, None)
          | Some p =>
              do pd <- deref (pdn_at p s);
              if bool_decide (pdn_csr_sequence pd = sequence) then return_ GTPC_RE_TRANSMITTED_REQ
              else skip (c, 1, Some p)
          end
      end
  end.

(** The TEID of the context, and its entry in the table. *)
Definition assign_teid (c : loc) (check : Z) : ue_cmd unit :=
  do s <- read id;
  do u <- deref (ue_at c s);
  let '(teid, ts) := get_s11_sgw_gtpc_teid check cp_type (ue_s11_sgw_gtpc_teid u) (teids s) in
  modify (set_teids ts);;
  update (change_ue c (fun u => Some (set_ue_s11_sgw_gtpc_teid teid u)));;
  if bool_decide (add_fteid_ret env < 0) then
    modify (fun s => set_ue_context_by_imsi_hash (delete (ue_imsi u) (ue_context_by_imsi_hash s)) s);;
    modify (fun s => set_contexts (delete c (contexts s)) s);;
    return_ GTPV2C_CAUSE_SYSTEM_FAILURE
  else modify (fun s => set_ue_context_by_fteid_hash (<[teid := c]> (ue_context_by_fteid_hash s)) s).

(** [num_pdns] and [num_bearer] are [uint8_t]. *)
Definition count_bearer (pd : pdn_connection) : option pdn_connection :=
  Some (set_pdn_num_bearer (u8 (pdn_num_bearer pd + 1)) pd).
Definition count_pdn (u : ue_context) : option ue_context :=
  Some (set_ue_num_pdns (u8 (ue_num_pdns u + 1)) u).

(** A bearer in place of another: the PDN connection it then has. *)
Definition replace_bearer (c b : loc) (pdn : ptr) (ebi_index : Z) : ue_cmd (loc * loc) :=
  match pdn with
  | Some p =>
      update (free_old_bearers MAX_BEARERS 0 c b p ebi_index);;
      skip (b, p)
  | None =>
      do s <- read id;
      do br <- deref (bearer_at b s);
      do old <- deref (eb_pdn br);
      update (change_pdn old (pdn_bearer_slot ebi_index None));;
      update (change_bearer b (fun _ => Some zero_bearer));;
      match malloc_pdn env with
      | None => return_ GTPV2C_CAUSE_SYSTEM_FAILURE
      | Some p =>
          modify (fun s => set_pdns (<[p := zero_pdn]> (pdns s)) s);;
          update (change_pdn p count_bearer);;
          update (change_ue c (ue_pdn_slot ebi_index (Some p)));;
          update (change_ue c count_pdn);;
          update (change_pdn p (pdn_bearer_slot ebi_index (Some b)));;
          skip (b, p)
      end
  end.

(** A new bearer, in the PDN connection of the APN or in a new one. *)
Definition new_bearer (c : loc) (ebi_index : Z) : ue_cmd (loc * loc) :=
  match malloc_bearer env with
  | None => return_ GTPV2C_CAUSE_SYSTEM_FAILURE
  | Some b =>
      modify (fun s => set_bearers (<[b := set_eb_eps_bearer_id ebi zero_bearer]> (bearers s)) s);;
      do s <- read id;
      do u <- deref (ue_at c s);
      do a <- deref (apns s !! apn_requested);
      do found <- deref (get_pdn u a s);
      match found with
      | None =>
          match malloc_pdn env with
          | None => return_ GTPV2C_CAUSE_SYSTEM_FAILURE
          | Some p =>
              modify (fun s => set_pdns (<[p := zero_pdn]> (pdns s)) s);;
              update (change_pdn p count_bearer);;
              update (change_ue c (ue_bearer_slot ebi_index (Some b)));;
              update (change_ue c (ue_pdn_slot ebi_index (Some p)));;
              update (change_ue c count_pdn);;
              update (change_ue c (fun u =>
                Some (set_ue_bearer_bitmap (Z.lor (ue_bearer_bitmap u) (u16 (Z.shiftl 1 ebi_index))) u)));;
              update (change_pdn p (pdn_bearer_slot ebi_index (Some b)));;
              update (change_pdn p (fun pd => Some (set_pdn_default_bearer_id ebi pd)));;
              skip (b, p)
          end
      | Some p =>
          update (change_pdn p count_bearer);;
          update (change_ue c (ue_bearer_slot ebi_index (Some b)));;
          update (change_pdn p (pdn_bearer_slot ebi_index (Some b)));;
          skip (b, p)
      end
  end.

Definition link_bearer (b p : loc) : ue_cmd unit :=
  update (change_bearer b (fun br =>
    Some (set_eb_packet_filter_map (replicate MAX_FILTERS_PER_UE (- ENOENT)) br)));;
  update (change_bearer b (fun br => Some (set_eb_pdn (Some p) br)));;
  update (change_bearer b (fun br => Some (set_eb_eps_bearer_id ebi br)));;
  update (change_pdn p (fun pd => Some (set_pdn_apn_in_use (Some apn_requested) pd))).

(** Result: [*check_if_ue_hash_exist] and [*context] are read off the store. *)
Definition create_ue_context (check : Z) : ue_store -> option (ue_store * Z) :=
  run (do imsi <- deref (imsi_key imsi_val imsi_len);
       let ebi_index := GET_EBI_INDEX ebi in
       (when bool_decide (ebi_index = -1) then_ return_ GTPV2C_CAUSE_SYSTEM_FAILURE);;
       do '(c, check, pdn) <- find_or_create imsi ebi_index check;
       assign_teid c check;;
       do u <- read (ue_at c);
       do u <- deref u;
       do b <- deref (array_get (ue_eps_bearers u) ebi_index);
       do '(b, p) <- match b with
                     | Some b => replace_bearer c b pdn ebi_index
                     | None => new_bearer c ebi_index
                     end;
       link_bearer b p;;
       skip 0).
End Create.

(** ** Addresses of UEs *)

(** [GET_UE_IP]: the pool's broadcast address, less the index and one, computed on the
    addresses in network order. *)
Definition GET_UE_IP (ip_pool ip_pool_mask ue_index : Z) : Z :=
  u32 (Z.lor ip_pool (u32 (- ip_pool_mask - 1)) - bswap32 ue_index - 0x01000000).

(** Result: the next index, the address if there is one, the value returned. *)
Definition acquire_ip (next_ip_index ip_pool ip_pool_mask : Z) : Z * option Z * Z :=
  if bool_decide (next_ip_index = LDB_ENTRIES_DEFAULT)
  then (next_ip_index, None, GTPV2C_CAUSE_ALL_DYNAMIC_ADDRESSES_OCCUPIED)
  else (u32 (next_ip_index + 1), Some (GET_UE_IP ip_pool ip_pool_mask next_ip_index), 0).

Definition IPV6_ADDRESS_LEN : nat := 16.

(** [memcpy] of [IPV6_ADDRESS_LEN - prefix_len] bytes of the eight-byte index. *)
Definition fill_ipv6 (next_ipv6_index : Z) (prefix_len : nat) : option (Z * list byte) :=
  let next_ipv6_index := u64 (next_ipv6_index + 1) in
  if bool_decide (8 <= prefix_len <= IPV6_ADDRESS_LEN)%nat
  then Some (next_ipv6_index, le_bytes (IPV6_ADDRESS_LEN - prefix_len) next_ipv6_index)
  else None.

(** [prefix_len] is a number of bytes. *)
Definition acquire_ipv6 (next_ipv6_index : Z) (ipv6_network_id : list byte) (prefix_len : nat)
    : option (Z * list byte * Z) :=
  '(next_ipv6_index, low) ← fill_ipv6 next_ipv6_index prefix_len;
  Some (next_ipv6_index, take prefix_len ipv6_network_id ++ low, 0).

(** ** Well-formed stores *)

Definition ue_slot (u : ue_context) (i : nat) (b : loc) : Prop := ue_eps_bearers u !! i = Some (Some b).
Definition pd_slot (pd : pdn_connection) (i : nat) (b : loc) : Prop := pdn_eps_bearers pd !! i = Some (Some b).

(** The APN of a PDN connection has a name. *)
Definition named_apn (s : ue_store) (a : ptr) : Prop :=
  exists l ap label, a = Some l /\ apns s !! l = Some ap /\ apn_name_label ap = Some label.

(** A context has a PDN connection in its array, or through one of its bearers. *)
Definition owns (s : ue_store) (u : ue_context) (p : loc) : Prop :=
  (exists i, ue_pdns u !! i = Some (Some p)) \/
  (exists i b br, ue_slot u i b /\ bearers s !! b = Some br /\ eb_pdn br = Some p).

Record ue_wf (s : ue_store) : Prop := {
  wf_ue_size c u : contexts s !! c = Some u ->
    length (ue_pdns u) = MAX_BEARERS /\ length (ue_eps_bearers u) = (MAX_BEARERS * 2)%nat;
  wf_pdn_size p pd : pdns s !! p = Some pd -> length (pdn_eps_bearers pd) = (MAX_BEARERS * 2)%nat;
  wf_owned c u p : contexts s !! c = Some u -> owns s u p ->
    exists pd, pdns s !! p = Some pd /\ named_apn s (pdn_apn_in_use pd) /\
      forall i b, pd_slot pd i b ->
        ue_slot u i b /\ exists br, bearers s !! b = Some br /\ eb_pdn br = Some p;
  wf_bearer c u i b : contexts s !! c = Some u -> ue_slot u i b ->
    exists br p pd, bearers s !! b = Some br /\ eb_pdn br = Some p /\ pdns s !! p = Some pd /\ pd_slot pd i b;
  wf_exclusive c c' u u' p : contexts s !! c = Some u -> contexts s !! c' = Some u' ->
    owns s u p -> owns s u' p -> c = c';
  wf_distinct c u i j b : contexts s !! c = Some u -> ue_slot u i b -> ue_slot u j b -> i = j;
  wf_imsi k c : ue_context_by_imsi_hash s !! k = Some c -> is_Some (contexts s !! c);
  wf_fteid k c : ue_context_by_fteid_hash s !! k = Some c -> is_Some (contexts s !! c)
}.

(** *** Access on well-formed stores *)

Lemma array_get_nat l (i : Z) : 0 <= i -> array_get l i = l !! Z.to_nat i.
Proof. intros. unfold array_get. by rewrite bool_decide_true. Qed.

Lemma array_set_nat l (i : Z) v :
  0 <= i < Z.of_nat (length l) -> array_set l i v = Some (<[Z.to_nat i := v]> l).
Proof. intros. unfold array_set. by rewrite bool_decide_true. Qed.

Lemma owns_slot s u i b br p :
  ue_slot u i b -> bearers s !! b = Some br -> eb_pdn br = Some p -> owns s u p.
Proof. intros. right. eauto 6. Qed.

(** Only the contents of the heaps and tables matter. *)
Lemma slot_insert (l : list ptr) (i j : nat) (x y : loc) :
  <[i := Some x]> l !! j = Some (Some y) -> (i = j /\ x = y) \/ (i <> j /\ l !! j = Some (Some y)).
Proof.
  intros H. destruct (decide (i = j)) as [->|Hne].
  - left. apply list_lookup_insert_Some in H as [(_ & [= ->] & _) | (? & _)]; done.
  - right. by rewrite list_lookup_insert_ne in H.
Qed.

Lemma slot_clear (l : list ptr) (i j : nat) (y : loc) :
  <[i := None]> l !! j = Some (Some y) <-> i <> j /\ l !! j = Some (Some y).
Proof.
  rewrite list_lookup_insert_Some. split.
  - intros [(_ & [=] & _) | [? ?]]; done.
  - intros [? ?]. by right.
Qed.

(** *** A fresh bearer in a slot of a context and of one of its PDN connections *)

Section Attach.
Variables (s s' : ue_store) (c b p : loc) (i : nat) (u u' : ue_context) (pd' : pdn_connection) (br' : eps_bearer).
Hypothesis Hwf : ue_wf s.
Hypothesis Hc : contexts s !! c = Some u.
Hypothesis Hfree : ue_eps_bearers u !! i = Some None.
Hypothesis Hb : bearers s !! b = None.
Hypothesis Hp :
  (exists pd, owns s u p /\ pdns s !! p = Some pd /\
     pdn_eps_bearers pd' = <[i := Some b]> (pdn_eps_bearers pd)) \/
  (pdns s !! p = None /\ pdn_eps_bearers pd' = <[i := Some b]> (replicate (MAX_BEARERS * 2) None)).
Hypothesis Hapn : named_apn s (pdn_apn_in_use pd').
Hypothesis Hu : ue_eps_bearers u' = <[i := Some b]> (ue_eps_bearers u).
Hypothesis Hup : ue_pdns u' = ue_pdns u \/ exists k, ue_pdns u' = <[k := Some p]> (ue_pdns u).
Hypothesis Hbr : eb_pdn br' = Some p.
Hypothesis Hs' : contexts s' = <[c := u']> (contexts s) /\ pdns s' = <[p := pd']> (pdns s) /\
  bearers s' = <[b := br']> (bearers s) /\ apns s' = apns s /\
  ue_context_by_imsi_hash s' = ue_context_by_imsi_hash s /\
  ue_context_by_fteid_hash s' = ue_context_by_fteid_hash s.

Lemma attach_slot j y : ue_slot u' j y -> (j = i /\ y = b) \/ (j <> i /\ ue_slot u j y).
Proof. unfold ue_slot. rewrite Hu. intros [[-> ->] | [? ?]]%slot_insert; auto. Qed.

Lemma attach_live c0 u0 j y : contexts s !! c0 = Some u0 -> ue_slot u0 j y -> y <> b.
Proof.
  intros H0 Hy ->. destruct (wf_bearer s Hwf c0 u0 j b H0 Hy) as (? & ? & ? & H & _). congruence.
Qed.

Lemma attach_index : (i < MAX_BEARERS * 2)%nat.
Proof. apply lookup_lt_Some in Hfree. by destruct (wf_ue_size s Hwf c u Hc) as [_ <-]. Qed.

Lemma attach_pd_size : length (pdn_eps_bearers pd') = (MAX_BEARERS * 2)%nat.
Proof.
  destruct Hp as [(pd & _ & H1 & ->) | [_ ->]]; rewrite length_insert.
  - by eapply wf_pdn_size. - by rewrite length_replicate.
Qed.

Lemma attach_pd_slot : pd_slot pd' i b.
Proof.
  pose proof attach_index. pose proof attach_pd_size as Hl. unfold pd_slot.
  destruct Hp as [(pd & _ & H1 & E) | [_ E]]; rewrite E in *; rewrite length_insert in Hl;
    rewrite list_lookup_insert_eq; (done || lia).
Qed.

Lemma attach_pd_old j y : pd_slot pd' j y -> (j = i /\ y = b) \/
  (j <> i /\ ue_slot u j y /\ exists br, bearers s !! y = Some br /\ eb_pdn br = Some p).
Proof.
  unfold pd_slot. destruct Hp as [(pd & Ho & H1 & ->) | [_ ->]]; intros [[-> ->] | [? H]]%slot_insert; auto.
  - right. split; [done|]. destruct (wf_owned s Hwf c u p Hc Ho) as (pd0 & E & _ & Hsl).
    rewrite H1 in E. injection E as <-. by apply Hsl.
  - apply lookup_replicate in H as [[=] _].
Qed.

Lemma attach_owns_old c0 u0 p0 : contexts s !! c0 = Some u0 -> owns s' u0 p0 -> owns s u0 p0.
Proof.
  destruct Hs' as (_ & _ & Eb & _). intros H0 [H | (j & y & br & H1 & H2 & H3)]; [by left|].
  rewrite Eb, lookup_insert_ne in H2 by (apply not_eq_sym; by eapply attach_live). right; eauto 6.
Qed.

Lemma attach_owns_new p0 : owns s' u' p0 -> p0 = p \/ owns s u p0.
Proof.
  destruct Hs' as (_ & _ & Eb & _). intros [[j H] | (j & y & br & H1 & H2 & H3)].
  - destruct Hup as [E | [k E]]; rewrite E in H; [by right; left; eauto|].
    apply slot_insert in H as [[_ ->] | [_ H]]; [by left|right; left; eauto].
  - destruct (attach_slot j y H1) as [[-> ->] | [_ Hj]].
    + rewrite Eb, lookup_insert_eq in H2. left. congruence.
    + rewrite Eb, lookup_insert_ne in H2 by (apply not_eq_sym; by eapply attach_live). right; right; eauto 6.
Qed.

(** Nobody else has [p]. *)
Lemma attach_exclusive c0 u0 : contexts s !! c0 = Some u0 -> owns s u0 p -> c0 = c.
Proof.
  intros H0 Ho. destruct Hp as [(pd & Hop & _) | [Hn _]].
  - by eapply (wf_exclusive s Hwf).
  - destruct (wf_owned s Hwf c0 u0 p H0 Ho) as (? & ? & _). congruence.
Qed.

Lemma attach_wf : ue_wf s'.
Proof.
  destruct Hs' as (Ec & Ep & Eb & Ea & Ei & Ef).
  assert (Hpdn : forall c0 u0, contexts s !! c0 = Some u0 -> c0 <> c -> forall p0, owns s u0 p0 -> p0 <> p).
  { intros c0 u0 H0 Hne p0 Ho ->. by apply Hne, (attach_exclusive c0 u0). }
  constructor.
  - intros c0 u0. rewrite Ec, lookup_insert_Some. intros [[-> <-] | [_ H]]; [|by eapply wf_ue_size].
    destruct (wf_ue_size s Hwf c0 u Hc) as [H1 H2]. split.
    + destruct Hup as [-> | [k ->]]; [done|by rewrite length_insert].
    + by rewrite Hu, length_insert.
  - intros p0 pd0. rewrite Ep, lookup_insert_Some. intros [[_ <-] | [_ H]]; [apply attach_pd_size|by eapply wf_pdn_size].
  - intros c0 u0 p0. rewrite Ec, lookup_insert_Some. unfold named_apn. rewrite Ea.
    intros [[<- <-] | [Hne H0]] Ho.
    + apply attach_owns_new in Ho. destruct (decide (p0 = p)) as [->|Hp0].
      * exists pd'. rewrite Ep, Eb, lookup_insert_eq. split_and!; [done|exact Hapn|].
        intros j y [[-> ->] | (Hj & Hy & Hbr')]%attach_pd_old; unfold ue_slot; rewrite Hu.
        { rewrite list_lookup_insert_eq by (by eapply lookup_lt_Some).
          rewrite lookup_insert_eq. split; [done|by exists br']. }
        rewrite list_lookup_insert_ne by done.
        rewrite lookup_insert_ne by (apply not_eq_sym; by eapply attach_live). done.
      * destruct Ho as [?|Ho]; [done|]. destruct (wf_owned s Hwf c u p0 Hc Ho) as (pd0 & H1 & H2 & H3).
        exists pd0. rewrite Ep, Eb, lookup_insert_ne by done. split_and!; [done|exact H2|].
        intros j y Hj. destruct (H3 j y Hj) as [H4 H5].
        rewrite lookup_insert_ne by (apply not_eq_sym; by eapply attach_live).
        unfold ue_slot in *. rewrite Hu, list_lookup_insert_ne; [done|]. intros ->. congruence.
    + apply (attach_owns_old c0 u0) in Ho; [|done]. pose proof (Hpdn c0 u0 H0 (not_eq_sym Hne) p0 Ho).
      destruct (wf_owned s Hwf c0 u0 p0 H0 Ho) as (pd0 & H1 & H2 & H3).
      exists pd0. rewrite Ep, Eb, lookup_insert_ne by done. split_and!; [done..|].
      intros j y Hj. destruct (H3 j y Hj) as [H4 H5].
      by rewrite lookup_insert_ne by (apply not_eq_sym; by eapply attach_live).
  - intros c0 u0 j y. rewrite Ec, lookup_insert_Some. intros [[<- <-] | [Hne H0]] Hy.
    + destruct (attach_slot j y Hy) as [[-> ->] | [Hj Hy']].
      * exists br', p, pd'. rewrite Eb, Ep, !lookup_insert_eq. split_and!; [done..|apply attach_pd_slot].
      * destruct (wf_bearer s Hwf c u j y Hc Hy') as (br & p0 & pd0 & H1 & H2 & H3 & H4).
        assert (y <> b) by (by eapply attach_live). destruct (decide (p0 = p)) as [->|].
        -- exists br, p, pd'. rewrite Eb, Ep, lookup_insert_ne, lookup_insert_eq by done.
           split_and!; try done. destruct Hp as [(pd & _ & E1 & E2) | [E1 _]]; [|congruence].
           unfold pd_slot. rewrite E2, list_lookup_insert_ne by done. rewrite E1 in H3. by injection H3 as ->.
        -- exists br, p0, pd0. rewrite Eb, Ep, !lookup_insert_ne by done. done.
    + destruct (wf_bearer s Hwf c0 u0 j y H0 Hy) as (br & p0 & pd0 & H1 & H2 & H3 & H4).
      assert (y <> b) by (by eapply attach_live).
      pose proof (Hpdn c0 u0 H0 (not_eq_sym Hne) p0 (owns_slot s u0 j y br p0 Hy H1 H2)).
      exists br, p0, pd0. rewrite Eb, Ep, !lookup_insert_ne by done. done.
  - intros c0 c1 u0 u1 p0. rewrite Ec, !lookup_insert_Some.
    intros [[<- <-] | [Hn0 H0]] [[<- <-] | [Hn1 H1]] Ho0 Ho1; [done| | |].
    + apply (attach_owns_old c1 u1) in Ho1; [|done]. apply attach_owns_new in Ho0 as [->|Ho0].
      * by rewrite (attach_exclusive c1 u1). * by eapply (wf_exclusive s Hwf).
    + apply (attach_owns_old c0 u0) in Ho0; [|done]. apply attach_owns_new in Ho1 as [->|Ho1].
      * by rewrite (attach_exclusive c0 u0). * by eapply (wf_exclusive s Hwf).
    + apply (attach_owns_old c0 u0) in Ho0; [|done]. apply (attach_owns_old c1 u1) in Ho1; [|done].
      by eapply (wf_exclusive s Hwf).
  - intros c0 u0 j k y. rewrite Ec, lookup_insert_Some. intros [[<- <-] | [_ H0]]; [|by eapply wf_distinct].
    intros [[-> ->] | [Hj Hy]]%attach_slot [[-> E] | [Hk Hy']]%attach_slot.
    + done. + by destruct (attach_live c u k b Hc Hy'). + subst. by destruct (attach_live c u j b Hc Hy).
    + by eapply wf_distinct.
  - intros k c0. rewrite Ei, Ec, lookup_insert_is_Some'. intros H. right. by eapply wf_imsi.
  - intros k c0. rewrite Ef, Ec, lookup_insert_is_Some'. intros H. right. by eapply wf_fteid.
Qed.
End Attach.

(** *** A bearer taken from its slot and freed *)

Section Detach.
Variables (s s' : ue_store) (c b p : loc) (i : nat) (u u' : ue_context) (pd pd' : pdn_connection).
Hypothesis Hwf : ue_wf s.
Hypothesis Hc : contexts s !! c = Some u.
Hypothesis Ho : owns s u p.
Hypothesis Hp : pdns s !! p = Some pd.
Hypothesis Hi : pd_slot pd i b.
Hypothesis Hpd : pdn_eps_bearers pd' = <[i := None]> (pdn_eps_bearers pd) /\
  pdn_apn_in_use pd' = pdn_apn_in_use pd.
Hypothesis Hu : ue_eps_bearers u' = <[i := None]> (ue_eps_bearers u) /\ ue_pdns u' = ue_pdns u.
Hypothesis Hs' : contexts s' = <[c := u']> (contexts s) /\ pdns s' = <[p := pd']> (pdns s) /\
  bearers s' = delete b (bearers s) /\ apns s' = apns s /\
  ue_context_by_imsi_hash s' = ue_context_by_imsi_hash s /\
  ue_context_by_fteid_hash s' = ue_context_by_fteid_hash s.

Lemma detach_slot j y : ue_slot u' j y <-> j <> i /\ ue_slot u j y.
Proof. unfold ue_slot. destruct Hu as [-> _]. rewrite slot_clear. split; intros [? ?]; auto. Qed.

Lemma detach_pd_slot j y : pd_slot pd' j y <-> j <> i /\ pd_slot pd j y.
Proof. unfold pd_slot. destruct Hpd as [-> _]. rewrite slot_clear. split; intros [? ?]; auto. Qed.

Lemma detach_ue_slot : ue_slot u i b.
Proof.
  destruct (wf_owned s Hwf c u p Hc Ho) as (pd0 & E & _ & H). rewrite Hp in E. injection E as <-. by apply H in Hi as [].
Qed.

Lemma detach_owns c0 u0 p0 : contexts s !! c0 = Some u0 -> owns s' u0 p0 -> owns s u0 p0.
Proof.
  destruct Hs' as (_ & _ & Eb & _). intros H0 [H | (j & y & br & H1 & H2 & H3)]; [by left|].
  rewrite Eb, lookup_delete_Some in H2. destruct H2 as [_ H2]. right; eauto 6.
Qed.

Lemma detach_owns_new p0 : owns s' u' p0 -> owns s u p0.
Proof.
  destruct Hs' as (_ & _ & Eb & _). destruct Hu as [_ Ep]. unfold owns. rewrite Ep, Eb.
  intros [H | (j & y & br & H1 & H2 & H3)]; [by left|].
  apply detach_slot in H1 as [_ H1]. rewrite lookup_delete_Some in H2. destruct H2 as [_ H2]. right; eauto 6.
Qed.

(** The freed bearer is in no other slot. *)
Lemma detach_other c0 u0 j y : contexts s !! c0 = Some u0 -> ue_slot u0 j y -> c0 <> c \/ j <> i -> y <> b.
Proof.
  intros H0 Hy Hne ->. destruct (wf_bearer s Hwf c u i b Hc detach_ue_slot) as (br & p1 & _ & H1 & H2 & _).
  assert (c0 = c) as ->.
  { eapply (wf_exclusive s Hwf _ _ _ _ p1); [done|exact Hc|by eapply owns_slot|].
    eapply owns_slot; [apply detach_ue_slot|done..]. }
  destruct Hne as [?|Hne]; [done|]. apply Hne. rewrite Hc in H0. injection H0 as <-.
  by eapply (wf_distinct s Hwf); [exact Hc| |apply detach_ue_slot].
Qed.

Lemma detach_wf : ue_wf s'.
Proof.
  destruct Hs' as (Ec & Ep & Eb & Ea & Ei & Ef). destruct Hu as [Eu Eup]. destruct Hpd as [Epd Eapn].
  constructor.
  - intros c0 u0. rewrite Ec, lookup_insert_Some. intros [[-> <-] | [_ H]]; [|by eapply wf_ue_size].
    rewrite Eu, Eup, length_insert. by eapply wf_ue_size.
  - intros p0 pd0. rewrite Ep, lookup_insert_Some. intros [[_ <-] | [_ H]]; [|by eapply wf_pdn_size].
    rewrite Epd, length_insert. by eapply wf_pdn_size.
  - intros c0 u0 p0. rewrite Ec, lookup_insert_Some. unfold named_apn. rewrite Ea.
    assert (forall u1, contexts s !! c0 = Some u1 -> owns s u1 p0 ->
      exists pd0, pdns s' !! p0 = Some pd0 /\ named_apn s (pdn_apn_in_use pd0) /\
        forall j y, pd_slot pd0 j y -> ue_slot u1 j y /\ (c0 <> c \/ j <> i) /\
          exists br, bearers s' !! y = Some br /\ eb_pdn br = Some p0) as Hgen.
    { intros u1 H1 Ho1. destruct (wf_owned s Hwf c0 u1 p0 H1 Ho1) as (pd0 & E1 & E2 & E3).
      rewrite Ep. destruct (decide (p0 = p)) as [->|Hne].
      - exists pd'. rewrite lookup_insert_eq, Eapn. rewrite Hp in E1. injection E1 as <-.
        split_and!; [done..|]. intros j y Hj. apply detach_pd_slot in Hj as [Hj Hy].
        destruct (E3 j y Hy) as [E4 E5]. split_and!; [done|by right|].
        rewrite Eb, lookup_delete_ne; [done|]. apply not_eq_sym. eapply detach_other; eauto.
      - exists pd0. rewrite lookup_insert_ne by done. split_and!; [done..|]. intros j y Hj.
        destruct (E3 j y Hj) as (E4 & br & E5 & E6).
        assert (y <> b) as Hy.
        { intros ->. destruct (wf_owned s Hwf c u p Hc Ho) as (pd1 & F1 & _ & F2).
          rewrite Hp in F1. injection F1 as <-. destruct (F2 i b Hi) as (_ & br1 & F3 & F4). congruence. }
        split_and!; [done| |exists br; by rewrite Eb, lookup_delete_ne].
        destruct (decide (c0 = c)) as [->|]; [right|by left]. intros ->. apply Hy.
        rewrite Hc in H1. injection H1 as <-. pose proof detach_ue_slot as Hb. unfold ue_slot in *. congruence. }
    intros [[<- <-] | [Hne H0]] Ho0.
    + apply detach_owns_new in Ho0. destruct (Hgen u Hc Ho0) as (pd0 & E1 & E2 & E3).
      exists pd0. split_and!; [done..|]. intros j y Hj. destruct (E3 j y Hj) as (H1 & [?|H2] & H3); [done|].
      split; [by apply detach_slot|done].
    + apply (detach_owns c0 u0) in Ho0; [|done]. destruct (Hgen u0 H0 Ho0) as (pd0 & E1 & E2 & E3).
      exists pd0. split_and!; [done..|]. intros j y Hj. destruct (E3 j y Hj) as (? & _ & ?). done.
  - intros c0 u0 j y. rewrite Ec, lookup_insert_Some.
    assert (forall u1, contexts s !! c0 = Some u1 -> ue_slot u1 j y -> c0 <> c \/ j <> i ->
      exists br p0 pd0, bearers s' !! y = Some br /\ eb_pdn br = Some p0 /\ pdns s' !! p0 = Some pd0 /\
        pd_slot pd0 j y) as Hgen.
    { intros u1 H1 Hy Hne. destruct (wf_bearer s Hwf c0 u1 j y H1 Hy) as (br & p0 & pd0 & B1 & B2 & B3 & B4).
      pose proof (detach_other c0 u1 j y H1 Hy Hne) as Hyb.
      destruct (decide (p0 = p)) as [->|Hp0].
      - exists br, p, pd'. rewrite Eb, Ep, lookup_delete_ne, lookup_insert_eq by done. split_and!; [done..|].
        rewrite Hp in B3. injection B3 as <-. apply detach_pd_slot. split; [|done].
        intros ->. unfold pd_slot in *. congruence.
      - exists br, p0, pd0. rewrite Eb, Ep, lookup_delete_ne, lookup_insert_ne by done. done. }
    intros [[<- <-] | [Hne H0]] Hy.
    + apply detach_slot in Hy as [Hj Hy]. apply (Hgen u); auto.
    + apply (Hgen u0); auto.
  - intros c0 c1 u0 u1 p0. rewrite Ec, !lookup_insert_Some.
    intros [[<- <-] | [Hn0 H0]] [[<- <-] | [Hn1 H1]] Ho0 Ho1; [done| | |];
      repeat match goal with
      | H : owns s' u' _ |- _ => apply detach_owns_new in H
      | H : owns s' ?v _, H0 : contexts s !! ?d = Some ?v |- _ => apply (detach_owns d v) in H; [|exact H0]
      end; by eapply (wf_exclusive s Hwf).
  - intros c0 u0 j k y. rewrite Ec, lookup_insert_Some. intros [[<- <-] | [_ H0]]; [|by eapply wf_distinct].
    rewrite !detach_slot. intros [_ ?] [_ ?]. by eapply wf_distinct.
  - intros k c0. rewrite Ei, Ec, lookup_insert_is_Some'. intros H. right. by eapply wf_imsi.
  - intros k c0. rewrite Ef, Ec, lookup_insert_is_Some'. intros H. right. by eapply wf_fteid.
Qed.
End Detach.

(** *** Changes that the invariant does not see *)

Definition ue_links (u : ue_context) : list ptr * list ptr := (ue_pdns u, ue_eps_bearers u).

Section View.
Variables (s s' : ue_store).
Hypothesis Hwf : ue_wf s.
Hypothesis Hue : forall c, ue_links <$> contexts s' !! c = ue_links <$> contexts s !! c.
Hypothesis Hpd : forall p, pdn_eps_bearers <$> pdns s' !! p = pdn_eps_bearers <$> pdns s !! p.
Hypothesis Hapn : forall p pd pd', pdns s !! p = Some pd -> pdns s' !! p = Some pd' ->
  named_apn s (pdn_apn_in_use pd) -> named_apn s' (pdn_apn_in_use pd').
Hypothesis Hbr : forall b br, bearers s !! b = Some br ->
  exists br', bearers s' !! b = Some br' /\ eb_pdn br' = eb_pdn br.
Hypothesis Himsi : forall k c, ue_context_by_imsi_hash s' !! k = Some c -> is_Some (contexts s !! c).
Hypothesis Hfteid : forall k c, ue_context_by_fteid_hash s' !! k = Some c -> is_Some (contexts s !! c).

Lemma view_ue c u' : contexts s' !! c = Some u' ->
  exists u, contexts s !! c = Some u /\ ue_pdns u' = ue_pdns u /\ ue_eps_bearers u' = ue_eps_bearers u.
Proof.
  intros H. specialize (Hue c). rewrite H in Hue. destruct (contexts s !! c) as [u|]; [|done].
  exists u. unfold ue_links in Hue. simpl in Hue. split; [done|]. by injection Hue.
Qed.

Lemma view_pd p pd : pdns s !! p = Some pd ->
  exists pd', pdns s' !! p = Some pd' /\ pdn_eps_bearers pd' = pdn_eps_bearers pd.
Proof.
  intros H. specialize (Hpd p). rewrite H in Hpd. destruct (pdns s' !! p) as [pd'|]; [|done].
  exists pd'. split; [done|]. by injection Hpd.
Qed.

Lemma view_owns c u u' p : contexts s !! c = Some u ->
  ue_pdns u' = ue_pdns u -> ue_eps_bearers u' = ue_eps_bearers u -> owns s' u' p -> owns s u p.
Proof.
  unfold owns, ue_slot. intros Hc -> ->. intros [H | (j & b & br & H1 & H2 & H3)]; [by left|].
  destruct (wf_bearer s Hwf c u j b Hc H1) as (br0 & _ & _ & H4 & _).
  destruct (Hbr b br0 H4) as (br1 & H5 & H6). right. exists j, b, br0. split_and!; congruence.
Qed.

Lemma view_wf : ue_wf s'.
Proof.
  constructor.
  - intros c u' (u & H & -> & ->)%view_ue. by eapply wf_ue_size.
  - intros p pd' H. specialize (Hpd p). rewrite H in Hpd. destruct (pdns s !! p) as [pd|] eqn:E; [|done].
    injection Hpd as ->. by eapply wf_pdn_size.
  - intros c u' p (u & H & E1 & E2)%view_ue Ho. apply (view_owns c u) in Ho; [|done..].
    destruct (wf_owned s Hwf c u p H Ho) as (pd & P1 & P2 & P3).
    destruct (view_pd p pd P1) as (pd' & P4 & P5). exists pd'. split_and!; [done|by eapply Hapn|].
    unfold pd_slot, ue_slot. rewrite P5, E2. intros i b Hi. destruct (P3 i b Hi) as (Hs & br & B1 & B2).
    destruct (Hbr b br B1) as (br' & B3 & B4). split; [done|]. exists br'. split; congruence.
  - intros c u' i b (u & H & E1 & E2)%view_ue. unfold ue_slot. rewrite E2. intros Hi.
    destruct (wf_bearer s Hwf c u i b H Hi) as (br & p & pd & B1 & B2 & B3 & B4).
    destruct (Hbr b br B1) as (br' & B5 & B6). destruct (view_pd p pd B3) as (pd' & B7 & B8).
    exists br', p, pd'. unfold pd_slot. rewrite B8. split_and!; congruence.
  - intros c c' u v p (u0 & H & E1 & E2)%view_ue (v0 & H' & E3 & E4)%view_ue Ho Ho'.
    apply (view_owns c u0) in Ho; [|done..]. apply (view_owns c' v0) in Ho'; [|done..].
    by eapply wf_exclusive.
  - intros c u' i j b (u & H & E1 & E2)%view_ue. unfold ue_slot. rewrite E2. intros. by eapply wf_distinct.
  - intros k c H. apply Himsi in H as [u H]. specialize (Hue c). rewrite H in Hue.
    destruct (contexts s' !! c); [by eexists|done].
  - intros k c H. apply Hfteid in H as [u H]. specialize (Hue c). rewrite H in Hue.
    destruct (contexts s' !! c); [by eexists|done].
Qed.
End View.

(** *** A new context *)

Lemma new_context_wf s s' c u k :
  ue_wf s -> contexts s !! c = None -> ue_links u = ue_links zero_ue ->
  contexts s' = <[c := u]> (contexts s) -> pdns s' = pdns s -> bearers s' = bearers s -> apns s' = apns s ->
  ue_context_by_imsi_hash s' = <[k := c]> (ue_context_by_imsi_hash s) ->
  ue_context_by_fteid_hash s' = ue_context_by_fteid_hash s -> ue_wf s'.
Proof.
  intros Hwf Hc Hu Ec Ep Eb Ea Ei Ef.
  pose proof (f_equal fst Hu : ue_pdns u = replicate MAX_BEARERS None) as Hu1.
  pose proof (f_equal snd Hu : ue_eps_bearers u = replicate (MAX_BEARERS * 2) None) as Hu2.
  assert (Hslot : forall i b, ~ ue_slot u i b).
  { unfold ue_slot. rewrite Hu2. intros i b [[=] _]%lookup_replicate. }
  assert (Hown : forall p, ~ owns s' u p).
  { intros p [[i H] | (i & b & br & H & _)]; [|by eapply Hslot].
    rewrite Hu1 in H. by apply lookup_replicate in H as [[=] _]. }
  assert (Howns : forall u0 p, owns s' u0 p <-> owns s u0 p) by (intros; unfold owns; by rewrite Eb).
  constructor.
  - intros c0 u0. rewrite Ec, lookup_insert_Some. intros [[_ <-] | [_ H]]; [|by eapply wf_ue_size].
    by rewrite Hu1, Hu2, !length_replicate.
  - rewrite Ep. apply (wf_pdn_size s Hwf).
  - intros c0 u0 p. rewrite Ec, Ep, Eb, lookup_insert_Some. unfold named_apn. rewrite Ea.
    intros [[_ <-] | [_ H]] Ho; [by destruct (Hown p)|]. apply Howns in Ho. by eapply (wf_owned s).
  - intros c0 u0 i b. rewrite Ec, Eb, Ep, lookup_insert_Some. intros [[_ <-] | [_ H]] Hi; [by destruct (Hslot i b)|].
    by eapply (wf_bearer s).
  - intros c0 c1 u0 u1 p. rewrite Ec, !lookup_insert_Some.
    intros [[<- <-] | [_ H0]] [[<- <-] | [_ H1]] Ho0 Ho1; try done; try by destruct (Hown p).
    apply Howns in Ho0, Ho1. by eapply (wf_exclusive s).
  - intros c0 u0 i j b. rewrite Ec, lookup_insert_Some. intros [[_ <-] | [_ H]] Hi Hj; [by destruct (Hslot i b)|].
    by eapply (wf_distinct s).
  - intros k0 c0. rewrite Ei, Ec, lookup_insert_Some, lookup_insert_is_Some'. intros [[_ <-] | [_ H]]; [by left|].
    right. by eapply (wf_imsi s).
  - intros k0 c0. rewrite Ef, Ec, lookup_insert_is_Some'. intros H. right. by eapply (wf_fteid s).
Qed.

(** *** The parts of [create_ue_context] *)

Lemma change_ue_eq c f s u u' : contexts s !! c = Some u -> f u = Some u' ->
  change_ue c f s = Some (set_contexts (<[c := u']> (contexts s)) s).
Proof. unfold change_ue, ue_at. intros -> H. simpl. by rewrite H. Qed.

Lemma change_pdn_eq p f s pd pd' : pdns s !! p = Some pd -> f pd = Some pd' ->
  change_pdn p f s = Some (set_pdns (<[p := pd']> (pdns s)) s).
Proof. unfold change_pdn, pdn_at. intros -> H. simpl. by rewrite H. Qed.

Lemma change_bearer_eq b f s br br' : bearers s !! b = Some br -> f br = Some br' ->
  change_bearer b f s = Some (set_bearers (<[b := br']> (bearers s)) s).
Proof. unfold change_bearer, bearer_at. intros -> H. simpl. by rewrite H. Qed.

Lemma ue_bearer_slot_eq i b u : 0 <= i < Z.of_nat (length (ue_eps_bearers u)) ->
  ue_bearer_slot i b u = Some (set_ue_eps_bearers (<[Z.to_nat i := b]> (ue_eps_bearers u)) u).
Proof. intros. unfold ue_bearer_slot. by rewrite array_set_nat. Qed.

Lemma ue_pdn_slot_eq i p u : 0 <= i < Z.of_nat (length (ue_pdns u)) ->
  ue_pdn_slot i p u = Some (set_ue_pdns (<[Z.to_nat i := p]> (ue_pdns u)) u).
Proof. intros. unfold ue_pdn_slot. by rewrite array_set_nat. Qed.

Lemma pdn_bearer_slot_eq i b pd : 0 <= i < Z.of_nat (length (pdn_eps_bearers pd)) ->
  pdn_bearer_slot i b pd = Some (set_pdn_eps_bearers (<[Z.to_nat i := b]> (pdn_eps_bearers pd)) pd).
Proof. intros. unfold pdn_bearer_slot. by rewrite array_set_nat. Qed.

(** Only TEIDs, tables and members without links differ. *)
Lemma relabel_wf s s' :
  ue_wf s -> (forall c, ue_links <$> contexts s' !! c = ue_links <$> contexts s !! c) ->
  pdns s' = pdns s -> bearers s' = bearers s -> apns s' = apns s ->
  (forall k c, ue_context_by_imsi_hash s' !! k = Some c -> is_Some (contexts s !! c)) ->
  (forall k c, ue_context_by_fteid_hash s' !! k = Some c -> is_Some (contexts s !! c)) ->
  ue_wf s'.
Proof.
  intros Hwf Hue Ep Eb Ea Hi Hf. apply (view_wf s); try done.
  - by rewrite Ep.
  - intros p pd pd' H. rewrite Ep, H. intros [= ->]. unfold named_apn. by rewrite Ea.
  - intros b br H. rewrite Eb. eauto.
Qed.

(** The slot of the context that [create_ue_context] fills is free, or its bearer has
    the PDN connection that was found. *)
Definition slot_found (s : ue_store) (c : loc) (pdn : ptr) (i : nat) : Prop :=
  exists u, contexts s !! c = Some u /\
    (ue_eps_bearers u !! i = Some None \/
     exists b br p, ue_slot u i b /\ bearers s !! b = Some br /\ eb_pdn br = Some p /\ pdn = Some p).

Section CreateOk.
Variables (env : ue_env) (imsi_val imsi_len ebi : Z) (apn_requested : loc) (sequence cp_type : Z).

(** Allocations give memory that is not in use. *)
Definition env_fresh (s : ue_store) : Prop :=
  (forall c, malloc_context env = Some c -> contexts s !! c = None) /\
  (forall b, malloc_bearer env = Some b -> bearers s !! b = None) /\
  (forall p, malloc_pdn env = Some p -> pdns s !! p = None).

Definition same_objects (s s' : ue_store) : Prop :=
  pdns s' = pdns s /\ bearers s' = bearers s /\ apns s' = apns s.

Lemma find_or_create_ok s imsi (i : nat) check :
  ue_wf s -> env_fresh s -> (i < MAX_BEARERS * 2)%nat ->
  ok (fun s' '(c, check', pdn) => ue_wf s' /\ same_objects s s' /\ slot_found s' c pdn i /\
        (ue_context_by_imsi_hash s !! imsi = None -> exists u, contexts s !! c = None /\
           ue_imsi u = imsi /\ contexts s' = <[c := u]> (contexts s) /\
           ue_context_by_imsi_hash s' = <[imsi := c]> (ue_context_by_imsi_hash s) /\
           ue_context_by_fteid_hash s' = ue_context_by_fteid_hash s))
     (fun s' _ => s' = s)
     (find_or_create env imsi_len sequence imsi (Z.of_nat i) check) s.
Proof.
  intros Hwf (Hf & _) Hi. unfold find_or_create. do 2 cstep.
  destruct (ue_context_by_imsi_hash s !! imsi) as [c|] eqn:Ei.
  - destruct (wf_imsi s Hwf imsi c Ei) as [u Hu]. destruct (wf_ue_size s Hwf c u Hu) as [_ Hl].
    destruct (lookup_lt_is_Some_2 (ue_eps_bearers u) i) as [[b|] Hb]; [lia| |].
    + destruct (wf_bearer s Hwf c u i b Hu Hb) as (br & p & pd & B1 & B2 & B3 & B4).
      do 2 cstep. do 2 cstep; [exact Hu|]. do 2 cstep; [rewrite array_get_nat, Nat2Z.id by lia; exact Hb|].
      do 2 cstep; [exact B1|]. rewrite B2. do 2 cstep; [exact B3|]. case_bool_decide; cstep; [done|].
      split_and!; [done|done| |done]. exists u. split; [done|]. right. by exists b, br, p.
    + do 2 cstep. do 2 cstep; [exact Hu|]. do 2 cstep; [rewrite array_get_nat, Nat2Z.id by lia; exact Hb|].
      cstep. split_and!; [done|done| |done]. exists u. split; [done|by left].
  - destruct (malloc_context env) as [c|] eqn:Em; [|by cstep].
    case_bool_decide; [by cstep|]. do 5 cstep. pose proof (Hf c eq_refl) as Hc. split; [|split; [done|split]].
    + by apply (new_context_wf s _ c (set_ue_imsi imsi (set_ue_imsi_len imsi_len zero_ue)) imsi).
    + eexists. cbn. rewrite lookup_insert_eq. split; [done|]. left. by apply lookup_replicate_2.
    + intros _. exists (set_ue_imsi imsi (set_ue_imsi_len imsi_len zero_ue)). done.
Qed.

Lemma slot_found_same s s' c pdn i :
  slot_found s c pdn i -> (forall b, bearers s' !! b = bearers s !! b) ->
  (forall u, contexts s !! c = Some u -> exists u', contexts s' !! c = Some u' /\ ue_links u' = ue_links u) ->
  slot_found s' c pdn i.
Proof.
  intros (u & Hu & Hs) Hb Hc. destruct (Hc u Hu) as (u' & Hu' & El). exists u'. split; [done|].
  pose proof (f_equal snd El : ue_eps_bearers u' = ue_eps_bearers u) as E. unfold ue_slot. rewrite E.
  destruct Hs as [Hs | (b & br & p & H1 & H2 & H3)]; [by left|].
  right. exists b, br, p. by rewrite Hb.
Qed.

Lemma assign_teid_ok s0 s imsi c check pdn (i : nat) :
  ue_wf s0 -> ue_wf s -> same_objects s0 s -> slot_found s c pdn i ->
  (add_fteid_ret env < 0 -> exists u, contexts s0 !! c = None /\ ue_imsi u = imsi /\
     ue_context_by_imsi_hash s0 !! imsi = None /\ contexts s = <[c := u]> (contexts s0) /\
     ue_context_by_imsi_hash s = <[imsi := c]> (ue_context_by_imsi_hash s0) /\
     ue_context_by_fteid_hash s = ue_context_by_fteid_hash s0) ->
  ok (fun s' _ => ue_wf s' /\ same_objects s0 s' /\ slot_found s' c pdn i)
     (fun s' _ => ue_wf s') (assign_teid env cp_type c check) s.
Proof.
  intros Hwf0 Hwf (E1 & E2 & E3) Hs Hnew. pose proof Hs as (u & Hu & _).
  unfold assign_teid. do 2 cstep. do 2 cstep; [exact Hu|].
  destruct (get_s11_sgw_gtpc_teid _ _ _ _) as [teid ts]. do 3 cstep.
  cstep; [by apply (change_ue_eq c _ _ u)|]. case_bool_decide as Hret.
  - destruct Hnew as (u0 & N1 & N2 & N3 & N4 & N5 & N6); [done|].
    do 4 cstep. cstep. rewrite N4, lookup_insert_eq in Hu. injection Hu as <-.
    apply (relabel_wf s0); cbn; try done.
    + intros c1. by rewrite delete_insert_eq, N4, delete_insert_id.
    + rewrite N5, N2, delete_insert_id by done. apply (wf_imsi s0 Hwf0).
    + rewrite N6. apply (wf_fteid s0 Hwf0).
  - cstep. set (s1 := set_ue_context_by_fteid_hash _ _).
    assert (forall c1, ue_links <$> contexts s1 !! c1 = ue_links <$> contexts s !! c1) as Hl.
    { intros c1. cbn. destruct (decide (c = c1)) as [<-|].
      - by rewrite lookup_insert_eq, Hu. - by rewrite lookup_insert_ne. }
    split; [|split; [done|]].
    + apply (relabel_wf s); try done.
      * apply (wf_imsi s Hwf).
      * intros k c1. cbn. rewrite lookup_insert_Some. intros [[_ E] | [_ H]]; [exists u; congruence|by apply (wf_fteid s Hwf k)].
    + apply (slot_found_same s); try done. intros u1 Hu1. specialize (Hl c). rewrite Hu1 in Hl.
      destruct (contexts s1 !! c) as [u'|]; [|done]. exists u'. split; [done|]. cbn in Hl. congruence.
Qed.

(** *** The bearer in its place *)

(** The store in which the bearer and the PDN connection are linked, as [link_bearer]
    does. *)
Definition linked (b p : loc) (br : eps_bearer) (pd : pdn_connection) (s : ue_store) : ue_store :=
  set_pdns (<[p := set_pdn_apn_in_use (Some apn_requested) pd]> (pdns s))
    (set_bearers (<[b := set_eb_pdn (Some p) br]> (bearers s)) s).

(** The invariant, up to that link. *)
Definition loop_inv (c b p : loc) (i : nat) (s : ue_store) : Prop :=
  exists u br pd, contexts s !! c = Some u /\ ue_slot u i b /\ bearers s !! b = Some br /\
    pdns s !! p = Some pd /\ ue_wf (linked b p br pd s).

Lemma relink_wf s s' b p br br' pd pd' :
  bearers s !! b = Some br -> pdns s !! p = Some pd -> ue_wf (linked b p br pd s) ->
  eb_pdn br' = Some p -> pdn_eps_bearers pd' = pdn_eps_bearers pd ->
  pdn_apn_in_use pd' = Some apn_requested ->
  contexts s' = contexts s -> pdns s' = <[p := pd']> (pdns s) -> bearers s' = <[b := br']> (bearers s) ->
  apns s' = apns s -> ue_context_by_imsi_hash s' = ue_context_by_imsi_hash s ->
  ue_context_by_fteid_hash s' = ue_context_by_fteid_hash s -> ue_wf s'.
Proof.
  intros Hb Hp Hwf Hbr Hpd Hapn Ec Ep Eb Ea Ei Ef. eapply view_wf; [exact Hwf|..]; cbn.
  - by rewrite Ec.
  - intros p0. rewrite Ep. destruct (decide (p = p0)) as [<-|].
    + rewrite !lookup_insert_eq. simpl. by rewrite Hpd. + by rewrite !lookup_insert_ne.
  - intros p0 pd0 pd1. rewrite Ep, !lookup_insert_Some. unfold named_apn. rewrite Ea. cbn.
    intros [[<- <-] | [? H0]] [[? <-] | [? H1]]; try done; cbn.
    + by rewrite Hapn. + assert (pd0 = pd1) as -> by congruence. done.
  - intros b0 br0. rewrite Eb, !lookup_insert_Some. intros [[<- <-] | [Hne H]].
    + exists br'. rewrite lookup_insert_eq. by split.
    + exists br0. by rewrite lookup_insert_ne.
  - rewrite Ei. apply (wf_imsi _ Hwf).
  - rewrite Ef. apply (wf_fteid _ Hwf).
Qed.

Lemma free_old_step (c b p : loc) (i : nat) s (j : Z) :
  loop_inv c b p i s -> 0 <= j < 28 ->
  exists pd b1, pdn_at p s = Some pd /\ array_get (pdn_eps_bearers pd) j = Some b1 /\
    match b1 with
    | None => True
    | Some b1 =>
        if bool_decide (j = Z.of_nat i) then
          exists s', change_bearer b (fun _ => Some zero_bearer) s = Some s' /\ loop_inv c b p i s'
        else
          exists br1 s1 s2 s3, bearer_at b1 s = Some br1 /\
            change_pdn p (pdn_bearer_slot j None) (set_bearers (delete b1 (bearers s)) s) = Some s1 /\
            change_ue c (ue_bearer_slot j None) s1 = Some s2 /\
            change_ue c (fun u => Some (set_ue_bearer_bitmap
              (Z.ldiff (ue_bearer_bitmap u) (u16 (Z.shiftl 1 (Z.of_nat i)))) u)) s2 = Some s3 /\
            loop_inv c b p i s3
    end.
Proof.
  intros (u & br & pd & Hu & Hi & Hb & Hp & Hwf) Hj. set (pd' := set_pdn_apn_in_use (Some apn_requested) pd).
  assert (Hp' : pdns (linked b p br pd s) !! p = Some pd') by (cbn; by rewrite lookup_insert_eq).
  pose proof (wf_pdn_size _ Hwf p pd' Hp') as Hl. pose proof (wf_ue_size _ Hwf c u Hu) as [_ Hlu].
  change (pdn_eps_bearers pd') with (pdn_eps_bearers pd) in Hl.
  destruct (lookup_lt_is_Some_2 (pdn_eps_bearers pd) (Z.to_nat j)) as [b1 Hb1]; [unfold MAX_BEARERS in Hl; lia|].
  exists pd, b1. split; [done|]. rewrite array_get_nat by lia. split; [done|].
  destruct b1 as [b1|]; [|done]. case_bool_decide as Hji.
  - eexists. split; [by eapply change_bearer_eq|]. exists u, zero_bearer, pd. cbn.
    rewrite lookup_insert_eq. split_and!; try done.
    eapply (relink_wf s _ b p br (set_eb_pdn (Some p) zero_bearer) pd pd' Hb Hp Hwf); try reflexivity.
    cbn. by rewrite insert_insert_eq.
  - assert (owns (linked b p br pd s) u p) as Ho.
    { right. exists i, b, (set_eb_pdn (Some p) br). cbn. by rewrite lookup_insert_eq. }
    destruct (wf_owned _ Hwf c u p Hu Ho) as (pd0 & E & _ & Hsl). rewrite Hp' in E. injection E as <-.
    destruct (Hsl _ _ Hb1) as (Hu1 & br1 & Hbr1 & Hbr1'). cbn in Hbr1.
    assert (b1 <> b) as Hne.
    { intros ->. apply Hji. pose proof (wf_distinct _ Hwf c u _ _ b Hu Hi Hu1). lia. }
    rewrite lookup_insert_ne in Hbr1 by done.
    eexists br1, _, _, _. split; [done|]. split.
    { apply (change_pdn_eq p _ _ pd); [done|]. apply pdn_bearer_slot_eq. unfold MAX_BEARERS in Hl. lia. }
    split. { apply (change_ue_eq c _ _ u); [done|]. apply ue_bearer_slot_eq. unfold MAX_BEARERS in Hlu. lia. }
    split. { eapply change_ue_eq; [|done]. cbn. apply lookup_insert_eq. }
    eexists _, br, _. cbn. rewrite !insert_insert_eq, !lookup_insert_eq. split; [done|]. split.
    { unfold ue_slot. cbn. rewrite list_lookup_insert_ne; [done|]. lia. }
    rewrite lookup_delete_ne by done. split; [done|]. split; [done|].
    eapply (detach_wf (linked b p br pd s) _ c b1 p (Z.to_nat j) u _ pd' _ Hwf Hu Ho Hp' Hb1); cycle 2.
    { cbn. rewrite !insert_insert_eq. split_and!; try reflexivity. by rewrite delete_insert_ne. }
    all: split; reflexivity.
Qed.

Lemma free_old_bearers_ok (c b p : loc) (i n : nat) s (j : Z) :
  loop_inv c b p i s -> 0 <= j -> j + Z.of_nat n <= 28 ->
  exists s', free_old_bearers n j c b p (Z.of_nat i) s = Some s' /\ loop_inv c b p i s'.
Proof.
  revert s j; induction n as [|n IH]; intros s j Hinv Hj Hn; [by exists s|].
  cbn [free_old_bearers].
  destruct (free_old_step c b p i s j Hinv) as (pd & b1 & -> & Hg & Hstep); [lia|]. cbn [mbind option_bind].
  rewrite Hg. cbn [mbind option_bind]. destruct b1 as [b1|]; [|apply IH; [done|lia..]].
  case_bool_decide.
  - destruct Hstep as (s' & -> & Hs'). apply IH; [done|lia..].
  - destruct Hstep as (br1 & s1 & s2 & s3 & -> & E1 & E2 & E3 & Hs'). cbn [mbind option_bind].
    rewrite E1. cbn [mbind option_bind]. rewrite E2. cbn [mbind option_bind]. rewrite E3. apply IH; [done|lia..].
Qed.

Lemma link_bearer_ok c b p i s :
  loop_inv c b p i s -> ok (fun s' _ => ue_wf s') (fun _ _ => False) (link_bearer ebi apn_requested b p) s.
Proof.
  intros (u & br & pd & _ & _ & Hb & Hp & Hwf). unfold link_bearer.
  do 2 cstep; [by apply (change_bearer_eq b _ _ br)|].
  do 2 cstep; [eapply change_bearer_eq; [cbn; by rewrite lookup_insert_eq|done]|].
  do 2 cstep; [eapply change_bearer_eq; [cbn; by rewrite lookup_insert_eq|done]|].
  cstep; [by apply (change_pdn_eq p _ _ pd)|].
  eapply (relink_wf s _ b p br _ pd _ Hb Hp Hwf); cbn; cycle 4; try reflexivity.
  { by rewrite !insert_insert_eq. } all: reflexivity.
Qed.

Lemma replace_bearer_ok c b p i s u br :
  ue_wf s -> named_apn s (Some apn_requested) -> contexts s !! c = Some u -> ue_slot u i b ->
  bearers s !! b = Some br -> eb_pdn br = Some p ->
  ok (fun s' '(b, p) => loop_inv c b p i s') (fun _ _ => False) (replace_bearer env c b (Some p) (Z.of_nat i)) s.
Proof.
  intros Hwf Hapn Hu Hi Hb Hbr.
  destruct (wf_bearer s Hwf c u i b Hu Hi) as (br0 & p0 & pd & H1 & H2 & Hp & _).
  assert (p0 = p) as -> by congruence. unfold replace_bearer.
  destruct (free_old_bearers_ok c b p i MAX_BEARERS s 0) as (s' & E & Hinv); [|done|done|].
  - exists u, br, pd. split_and!; [done..|].
    apply (view_wf s); try done; cbn.
    + intros p1. destruct (decide (p = p1)) as [<-|].
      * by rewrite lookup_insert_eq, Hp. * by rewrite lookup_insert_ne.
    + intros p1 pd0 pd1 G0. rewrite lookup_insert_Some. intros [[_ <-] | [_ G1]]; [done|].
      assert (pd0 = pd1) as -> by congruence. done.
    + intros b1 br1 G. destruct (decide (b = b1)) as [<-|].
      * rewrite lookup_insert_eq. eexists. split; [done|]. cbn. congruence.
      * rewrite lookup_insert_ne by done. eauto.
    + apply (wf_imsi s Hwf).
    + apply (wf_fteid s Hwf).
  - do 2 cstep; [done|]. by cstep.
Qed.

Lemma get_pdn_ok s c u a label :
  ue_wf s -> contexts s !! c = Some u -> apns s !! apn_requested = Some a -> apn_name_label a = Some label ->
  exists r, get_pdn u a s = Some r /\ forall p, r = Some p -> exists k, ue_pdns u !! k = Some (Some p).
Proof.
  intros Hwf Hu Ha Hl. unfold get_pdn.
  assert (forall p, Some p ∈ ue_pdns u -> exists pd, pdns s !! p = Some pd /\ named_apn s (pdn_apn_in_use pd)) as H.
  { intros p [k Hk]%list_elem_of_lookup. destruct (wf_owned s Hwf c u p Hu) as (pd & ? & ? & _); [by left; exists k|].
    by exists pd. }
  setoid_rewrite <- list_elem_of_lookup. induction (ue_pdns u) as [|q ps IH]; [by exists None|].
  destruct IH as (r & E & Hr). { intros p Hp. apply H. by right. }
  assert (forall p, r = Some p -> Some p ∈ q :: ps) by (intros; right; auto).
  destruct q as [q|]; simpl; [|by exists r].
  destruct (H q) as (pd & Hpd & l & ap & lab & H1 & H2 & H3); [by left|].
  unfold pdn_at. rewrite Hpd. simpl. rewrite H1. simpl. rewrite H2. simpl. rewrite H3, Hl. simpl.
  destruct (strncmp_eq _ _ _); [|by exists r]. exists (Some q). split; [done|]. intros p [= ->]. by left.
Qed.

(** An unreferenced object more. *)
Lemma spare_bearer_wf s s' b br :
  ue_wf s -> bearers s !! b = None -> contexts s' = contexts s -> pdns s' = pdns s ->
  bearers s' = <[b := br]> (bearers s) -> apns s' = apns s ->
  ue_context_by_imsi_hash s' = ue_context_by_imsi_hash s ->
  ue_context_by_fteid_hash s' = ue_context_by_fteid_hash s -> ue_wf s'.
Proof.
  intros Hwf Hb Ec Ep Eb Ea Ei Ef. apply (view_wf s); try done.
  - by rewrite Ec.
  - by rewrite Ep.
  - intros p pd pd' H. rewrite Ep, H. intros [= ->]. unfold named_apn. by rewrite Ea.
  - intros b0 br0 H. exists br0. rewrite Eb, lookup_insert_ne; [done|congruence].
  - rewrite Ei. apply (wf_imsi s Hwf).
  - rewrite Ef. apply (wf_fteid s Hwf).
Qed.

Lemma new_bearer_ok c i s u :
  ue_wf s -> (forall b, malloc_bearer env = Some b -> bearers s !! b = None) ->
  (forall p, malloc_pdn env = Some p -> pdns s !! p = None) ->
  named_apn s (Some apn_requested) -> contexts s !! c = Some u ->
  ue_eps_bearers u !! i = Some None -> (i < MAX_BEARERS)%nat ->
  ok (fun s' '(b, p) => loop_inv c b p i s') (fun s' _ => ue_wf s')
     (new_bearer env ebi apn_requested c (Z.of_nat i)) s.
Proof.
  intros Hwf Hfb Hfp Hapn Hu Hi Hlt. pose proof Hapn as (l & a & label & [= <-] & Ha & Hlab).
  destruct (wf_ue_size s Hwf c u Hu) as [Hlp Hlb]. unfold new_bearer.
  destruct (malloc_bearer env) as [b|] eqn:Eb; [|by cstep]. pose proof (Hfb b eq_refl) as Hb.
  do 2 cstep. do 2 cstep. do 2 cstep; [exact Hu|]. do 2 cstep; [exact Ha|].
  set (s1 := set_bearers _ s).
  assert (ue_wf s1) as Hwf1 by (by eapply (spare_bearer_wf s s1 b)).
  destruct (get_pdn_ok s1 c u a label) as (r & Er & Hr); [done..|].
  do 2 cstep; [exact Er|]. destruct r as [p|].
  - destruct (Hr p eq_refl) as [k Hk].
    assert (owns s u p) as Ho by (left; by exists k).
    destruct (wf_owned s Hwf c u p Hu Ho) as (pd & Hp & _ & _). pose proof (wf_pdn_size s Hwf p pd Hp) as Hlpd.
    do 2 cstep; [by apply (change_pdn_eq p _ _ pd)|].
    do 2 cstep; [apply (change_ue_eq c _ _ u); [done|]; apply ue_bearer_slot_eq; lia|].
    do 2 cstep.
    { eapply change_pdn_eq; [cbn; by rewrite lookup_insert_eq|]. apply pdn_bearer_slot_eq. cbn. lia. }
    cstep. rewrite Nat2Z.id. cbn. rewrite !insert_insert_eq.
    eexists _, _, _. cbn. rewrite !lookup_insert_eq. split; [done|]. split.
    { unfold ue_slot. cbn. rewrite list_lookup_insert_eq; [done|]. by eapply lookup_lt_Some. }
    split; [done|]. split; [done|].
    eapply (attach_wf s _ c b p i u _ _ _ Hwf Hu Hi Hb); cycle 5.
    { cbn. rewrite !insert_insert_eq. split_and!; reflexivity. }
    + left. exists pd. split_and!; done.
    + done.
    + done.
    + by left.
    + done.
  - destruct (malloc_pdn env) as [p|] eqn:Emp; [|by cstep]. pose proof (Hfp p eq_refl) as Hp.
    do 2 cstep. do 2 cstep; [eapply change_pdn_eq; [cbn; by rewrite lookup_insert_eq|done]|].
    do 2 cstep; [apply (change_ue_eq c _ _ u); [done|]; apply ue_bearer_slot_eq; lia|].
    do 2 cstep.
    { eapply change_ue_eq; [cbn; by rewrite lookup_insert_eq|]. apply ue_pdn_slot_eq. cbn. lia. }
    do 2 cstep; [eapply change_ue_eq; [cbn; by rewrite lookup_insert_eq|done]|].
    do 2 cstep; [eapply change_ue_eq; [cbn; by rewrite lookup_insert_eq|done]|].
    do 2 cstep.
    { eapply change_pdn_eq; [cbn; by rewrite lookup_insert_eq|]. apply pdn_bearer_slot_eq. cbn. unfold MAX_BEARERS in *. lia. }
    do 2 cstep; [eapply change_pdn_eq; [cbn; by rewrite lookup_insert_eq|done]|].
    cstep. rewrite Nat2Z.id. cbn -[replicate]. rewrite !insert_insert_eq.
    eexists _, _, _. cbn -[replicate]. rewrite !lookup_insert_eq. split; [done|]. split.
    { unfold ue_slot. cbn -[replicate]. rewrite list_lookup_insert_eq; [done|]. by eapply lookup_lt_Some. }
    split; [done|]. split; [done|].
    eapply (attach_wf s _ c b p i u _ _ _ Hwf Hu Hi Hb); cycle 5.
    { cbn -[replicate]. rewrite !insert_insert_eq. split_and!; reflexivity. }
    + right. split; done.
    + done.
    + done.
    + right. exists i. done.
    + done.
Qed.
End CreateOk.

(** ** Theorems *)

(** C8. Creating a session keeps the contexts, PDN connections and bearers consistent: from
    a store in which every bearer of a context has its PDN connection, which knows it at
    the same index and belongs to that context alone, [create_ue_context] for a bearer id
    of at most 14 never follows a pointer that it must not, whatever allocation or
    insertion fails, and the store that it leaves is again such a store, also when it
    replaces an older session and frees its bearers.  (An insertion in the table of
    TEIDs fails for new keys only.) *)
Theorem create_ue_context_keeps_invariant env imsi_val imsi_len ebi apn_requested sequence cp_type check s :
  ue_wf s -> env_fresh env s -> named_apn s (Some apn_requested) ->
  0 <= imsi_len <= 8 -> 1 <= ebi <= 14 ->
  (add_fteid_ret env < 0 -> forall k, imsi_key imsi_val imsi_len = Some k ->
     ue_context_by_imsi_hash s !! k = None) ->
  exists s' ret,
    create_ue_context env imsi_val imsi_len ebi apn_requested sequence cp_type check s = Some (s', ret) /\
    ue_wf s'.
Proof.
  intros Hwf Hfresh Hapn Hlen Hebi Hret. unfold create_ue_context.
  apply (ok_run (fun s' _ => ue_wf s')).
  assert (exists k, imsi_key imsi_val imsi_len = Some k) as [k Hk].
  { unfold imsi_key. rewrite bool_decide_true by lia. by eexists. }
  do 2 cstep; [exact Hk|].
  assert (exists i, GET_EBI_INDEX ebi = Z.of_nat i /\ (i < MAX_BEARERS)%nat) as (i & -> & Hi).
  { exists (Z.to_nat (ebi - 1)). unfold GET_EBI_INDEX, MAX_BEARERS. rewrite bool_decide_true by lia. lia. }
  rewrite bool_decide_false by lia. do 2 cstep. cstep.
  eapply ok_mono; [apply (find_or_create_ok _ _ _ s k i check); unfold MAX_BEARERS in *; try done; lia| |by intros s' r ->].
  intros s1 [[c check1] pdn] (Hwf1 & Hsame & Hslot & Hnew). cbv beta iota. cstep.
  eapply ok_mono; [apply (assign_teid_ok env cp_type s s1 k c check1 pdn i); try done| |done].
  { intros Hr. pose proof (Hret Hr k Hk) as Hn. destruct (Hnew Hn) as (u & ? & ? & ? & ? & ?). by exists u. }
  intros s2 _ (Hwf2 & Hsame2 & u & Hu & Hs). do 2 cstep. do 2 cstep; [exact Hu|].
  destruct (wf_ue_size s2 Hwf2 c u Hu) as [_ Hlb].
  destruct (lookup_lt_is_Some_2 (ue_eps_bearers u) i) as [ob Hob]; [unfold MAX_BEARERS in *; lia|].
  do 2 cstep; [rewrite array_get_nat, Nat2Z.id by lia; exact Hob|]. cstep.
  assert (named_apn s2 (Some apn_requested)) as Hapn2.
  { destruct Hsame2 as (_ & _ & Ea). unfold named_apn. by rewrite Ea. }
  apply (ok_mono (fun s' '(b, p) => loop_inv apn_requested c b p i s') _ (fun s' _ => ue_wf s') _); [|..].
  - destruct Hs as [Hs | (b & br & p & H1 & H2 & H3 & ->)].
    + rewrite Hs in Hob. injection Hob as <-. apply (new_bearer_ok env ebi apn_requested c i s2 u); try done.
      all: destruct Hfresh as (_ & F2 & F3), Hsame2 as (E1 & E2 & _); by rewrite ?E1, ?E2.
    + unfold ue_slot in H1. rewrite H1 in Hob. injection Hob as <-.
      eapply ok_mono; [by apply (replace_bearer_ok env apn_requested c b p i s2 u br)|done|done].
  - intros s3 [b p] Hinv. cbv beta iota. cstep.
    eapply ok_mono; [by apply (link_bearer_ok ebi apn_requested c b p i s3)| |done].
    intros s4 [] Hwf4. by cstep.
  - done.
Qed.

Lemma bind_next {S R A B} (m : cmd S R A) (k : A -> cmd S R B) s s' a :
  m s = Next s' a -> bind m k s = k a s'.
Proof. unfold bind. by intros ->. Qed.

Lemma bind_return {S R A B} (m : cmd S R A) (k : A -> cmd S R B) s s' r :
  m s = Return s' r -> bind m k s = Return s' r.
Proof. unfold bind. by intros ->. Qed.

Lemma bind_assoc {S R A B C} (m : cmd S R A) (f : A -> cmd S R B) (g : B -> cmd S R C) s :
  bind (bind m f) g s = bind m (fun a => bind (f a) g) s.
Proof. unfold bind. by destruct (m s). Qed.

Lemma update_next {S R} f (s s' : S) : f s = Some s' -> update (R := R) f s = Next s' tt.
Proof. unfold update. by intros ->. Qed.

(** The first half of [create_ue_context] for an IMSI that is not known. *)
Section NewUe.
Variables (env : ue_env) (imsi_len cp_type sequence : Z) (s : ue_store) (k : Z) (c : loc).
Hypothesis Hk : ue_context_by_imsi_hash s !! k = None.
Hypothesis Hc : malloc_context env = Some c.
Hypothesis Hi : 0 <= add_imsi_ret env.
Hypothesis Hf : 0 <= add_fteid_ret env.

Definition new_teid (check : Z) : Z := (get_s11_sgw_gtpc_teid check cp_type 0 (teids s)).1.

Definition new_ue (check : Z) : ue_context :=
  set_ue_s11_sgw_gtpc_teid (new_teid check) (set_ue_imsi k (set_ue_imsi_len imsi_len zero_ue)).

Definition with_new_ue (check : Z) : ue_store :=
  mk_store (<[c := new_ue check]> (contexts s)) (pdns s) (bearers s) (apns s)
    (<[k := c]> (ue_context_by_imsi_hash s))
    (<[new_teid check := c]> (ue_context_by_fteid_hash s))
    (ue_context_by_sender_teid_hash s) (bearer_by_fteid_hash s)
    (get_s11_sgw_gtpc_teid check cp_type 0 (teids s)).2.

Lemma new_ue_created {A} ebi_index check (f : loc * Z * ptr -> cmd ue_store Z A) :
  bind (find_or_create env imsi_len sequence k ebi_index check)
    (fun x => assign_teid env cp_type x.1.1 x.1.2;; f x) s
  = f (c, check, None) (with_new_ue check).
Proof.
  erewrite bind_next.
  2: { unfold find_or_create, bind, read, modify, skip. rewrite Hk, Hc, bool_decide_false by lia. reflexivity. }
  erewrite bind_next; [reflexivity|].
  unfold assign_teid, with_new_ue, new_ue, new_teid. unfold bind at 1, read. unfold bind at 1, ue_at.
  cbn -[replicate]. rewrite lookup_insert_eq. cbn -[replicate].
  destruct (get_s11_sgw_gtpc_teid _ _ _ _) as [teid ts]. unfold bind, modify, update.
  erewrite change_ue_eq; [|cbn -[replicate]; by rewrite lookup_insert_eq|done].
  cbn -[replicate]. rewrite bool_decide_false by lia. cbn -[replicate]. by rewrite insert_insert_eq.
Qed.

Lemma new_ue_no_pdn check s' a : get_pdn (new_ue check) a s' = Some None.
Proof. reflexivity. Qed.
End NewUe.

(** One command of a body whose outcome is known. *)
Ltac cnext :=
  rewrite ?bind_assoc; erewrite bind_next;
  [ cbv beta iota
  | first [ reflexivity
          | apply update_next;
            first [ eapply change_pdn_eq | eapply change_ue_eq | eapply change_bearer_eq ];
            [ cbn -[replicate]; by rewrite lookup_insert_eq
            | first [ reflexivity | apply pdn_bearer_slot_eq; cbn; lia
                    | apply ue_bearer_slot_eq; cbn; lia | apply ue_pdn_slot_eq; cbn; lia ] ] ] ].

(** [create_ue_context] with its pairs opened by projections. *)
Lemma create_ue_context_unfold env imsi_val imsi_len ebi apn sequence cp_type check k :
  imsi_key imsi_val imsi_len = Some k -> GET_EBI_INDEX ebi <> -1 ->
  forall s, create_ue_context env imsi_val imsi_len ebi apn sequence cp_type check s =
  run (bind (find_or_create env imsi_len sequence k (GET_EBI_INDEX ebi) check)
    (fun x => assign_teid env cp_type x.1.1 x.1.2;;
       do u <- read (ue_at x.1.1);
       do u <- deref u;
       do b <- deref (array_get (ue_eps_bearers u) (GET_EBI_INDEX ebi));
       do y <- match b with
               | Some b => replace_bearer env x.1.1 b x.2 (GET_EBI_INDEX ebi)
               | None => new_bearer env ebi apn x.1.1 (GET_EBI_INDEX ebi)
               end;
       link_bearer ebi apn y.1 y.2;;
       skip 0)) s.
Proof.
  intros Hk Hebi s. unfold create_ue_context, run. rewrite Hk.
  erewrite (bind_next (deref _)) by reflexivity. rewrite bool_decide_false by done.
  erewrite (bind_next (skip tt)) by reflexivity. unfold bind.
  destruct (find_or_create _ _ _ _ _ _ _) as [s1 [[c ch] pdn]|s1 r|]; [|done..]. cbn [fst snd].
  destruct (assign_teid _ _ _ _ _) as [s2 []|s2 r|]; [|done..].
  destruct (read _ _) as [s3 ou|s3 r|]; [|done..].
  destruct (deref ou s3) as [s4 u|s4 r|]; [|done..].
  destruct (deref (array_get _ _) s4) as [s5 b|s5 r|]; [|done..].
  destruct b as [b|].
  - by destruct (replace_bearer env c b pdn (GET_EBI_INDEX ebi) s5) as [s6 []|s6 r|].
  - by destruct (new_bearer env ebi apn c (GET_EBI_INDEX ebi) s5) as [s6 []|s6 r|].
Qed.

(** C32. What a create session request that is new leaves behind: for an IMSI that is not
    known, a context that the table of IMSIs and the table of TEIDs give, under the TEID
    that was drawn, with a bearer at the index of its id, whose PDN connection has that
    bearer as the default one and the APN that was asked for; no other context changes.
    A request whose sequence number the PDN connection already has is a retransmission,
    and changes nothing. *)
Theorem create_ue_context_result env imsi_val imsi_len ebi apn_requested sequence cp_type check s k :
  imsi_key imsi_val imsi_len = Some k -> 1 <= ebi <= 14 ->
  (forall c b p a, ue_context_by_imsi_hash s !! k = None ->
     malloc_context env = Some c -> malloc_bearer env = Some b -> malloc_pdn env = Some p ->
     0 <= add_imsi_ret env -> 0 <= add_fteid_ret env -> apns s !! apn_requested = Some a ->
     exists s' u pd, let teid := (get_s11_sgw_gtpc_teid check cp_type 0 (teids s)).1 in
       create_ue_context env imsi_val imsi_len ebi apn_requested sequence cp_type check s = Some (s', 0) /\
       ue_context_by_imsi_hash s' !! k = Some c /\ get_ue_context teid s' = (0, Some c) /\
       contexts s' !! c = Some u /\ ue_imsi u = k /\ ue_s11_sgw_gtpc_teid u = teid /\ ue_num_pdns u = 1 /\
       ue_slot u (Z.to_nat (ebi - 1)) b /\ GET_PDN s' u (ebi - 1) = Some (Some p) /\
       pdns s' !! p = Some pd /\ pd_slot pd (Z.to_nat (ebi - 1)) b /\ pdn_default_bearer_id pd = ebi /\
       pdn_apn_in_use pd = Some apn_requested /\
       forall c', c' <> c -> contexts s' !! c' = contexts s !! c') /\
  (forall c u b br p pd, ue_context_by_imsi_hash s !! k = Some c -> contexts s !! c = Some u ->
     ue_slot u (Z.to_nat (ebi - 1)) b -> bearers s !! b = Some br -> eb_pdn br = Some p ->
     pdns s !! p = Some pd -> pdn_csr_sequence pd = sequence ->
     create_ue_context env imsi_val imsi_len ebi apn_requested sequence cp_type check s
       = Some (s, GTPC_RE_TRANSMITTED_REQ)).
Proof.
  intros Hk Hebi.
  assert (GET_EBI_INDEX ebi = ebi - 1) as Hidx
    by (unfold GET_EBI_INDEX, MAX_BEARERS; by rewrite bool_decide_true by lia).
  split.
  - intros c b p a Hn Hc Hb Hp Hi Hf Ha. rewrite (create_ue_context_unfold _ _ _ _ _ _ _ _ k) by (done || lia).
    unfold run. rewrite (new_ue_created env imsi_len cp_type sequence s k c) by done. rewrite Hidx.
    set (s1 := with_new_ue _ _ _ _ _ _). cbn [fst snd].
    assert (contexts s1 !! c = Some (new_ue imsi_len cp_type s k check)) as Hc1 by apply lookup_insert_eq.
    erewrite (bind_next (read _)) by reflexivity. unfold ue_at. rewrite Hc1.
    erewrite (bind_next (deref _)) by reflexivity.
    assert (array_get (ue_eps_bearers (new_ue imsi_len cp_type s k check)) (ebi - 1) = Some None) as ->.
    { rewrite array_get_nat by lia. cbn -[replicate]. apply lookup_replicate_2. unfold MAX_BEARERS. lia. }
    erewrite (bind_next (deref _)) by reflexivity.
    eexists _, _, _. cbv zeta. split.
    { unfold new_bearer. rewrite Hb. do 2 cnext. unfold ue_at, id. cbn -[replicate new_ue deref get_pdn link_bearer].
      rewrite lookup_insert_eq. cnext. rewrite Ha. cnext. rewrite new_ue_no_pdn. cnext. rewrite Hp.
      do 9 cnext. cbn [fst snd]. unfold link_bearer. do 4 cnext. reflexivity. }
    cbn -[replicate]. rewrite !insert_insert_eq, !lookup_insert_eq. unfold get_ue_context.
    cbn -[replicate]. rewrite lookup_insert_eq.
    assert (forall (n : nat) (x : ptr), (Z.to_nat (ebi - 1) < n)%nat ->
      <[Z.to_nat (ebi - 1) := x]> (replicate n None) !! Z.to_nat (ebi - 1) = Some x) as Hsl.
    { intros. apply list_lookup_insert_eq. by rewrite length_replicate. }
    split_and!; try reflexivity.
    + apply Hsl. unfold MAX_BEARERS. lia.
    + unfold GET_PDN. rewrite bool_decide_true by (unfold MAX_BEARERS; lia).
      rewrite array_get_nat by lia. cbn -[replicate]. rewrite Hsl by (unfold MAX_BEARERS; lia).
      cbn. unfold bearer_at. cbn. by rewrite lookup_insert_eq.
    + apply Hsl. unfold MAX_BEARERS. lia.
    + intros c' Hc'. by rewrite lookup_insert_ne.
  - intros c u b br p pd Hn Hu Hb Hbr Hp Hpd Hseq.
    rewrite (create_ue_context_unfold _ _ _ _ _ _ _ _ k) by (done || lia). rewrite Hidx. unfold run.
    erewrite bind_return; [reflexivity|]. unfold find_or_create.
    erewrite (bind_next (read _)) by reflexivity. rewrite Hn.
    erewrite (bind_next (read _)) by reflexivity. unfold ue_at, id. rewrite Hu.
    erewrite (bind_next (deref _)) by reflexivity. rewrite array_get_nat, Hb by lia.
    erewrite (bind_next (deref _)) by reflexivity. unfold bearer_at. rewrite Hbr.
    erewrite (bind_next (deref _)) by reflexivity. rewrite Hp. unfold pdn_at. rewrite Hpd.
    erewrite (bind_next (deref _)) by reflexivity. by rewrite bool_decide_true.
Qed.

Lemma bind_fault {S R A B} (m : cmd S R A) (k : A -> cmd S R B) s : m s = Fault -> bind m k s = Fault.
Proof. unfold bind. by intros ->. Qed.

Lemma array_set_out l (i : Z) v : Z.of_nat (length l) <= i -> array_set l i v = None.
Proof. intros. unfold array_set. by rewrite bool_decide_false by lia. Qed.

(** Where [create_ue_context] leaves its objects.  The index of the bearer ids 15 and
    above, which the check of the id lets through, is past the end of [pdns]: the session
    of a new UE is written into the first pointers of [eps_bearers].  An IMSI longer
    than eight bytes is copied over the stack.  And the branch for a bearer without a
    PDN connection follows the pointer that it has just found to be [NULL]. *)
Theorem create_ue_context_out_of_bounds env imsi_val imsi_len ebi apn_requested sequence cp_type check s :
  (8 < imsi_len ->
   create_ue_context env imsi_val imsi_len ebi apn_requested sequence cp_type check s = None) /\
  (forall k c b p a, imsi_key imsi_val imsi_len = Some k -> 15 <= ebi <= 28 ->
     ue_context_by_imsi_hash s !! k = None -> malloc_context env = Some c ->
     malloc_bearer env = Some b -> malloc_pdn env = Some p ->
     0 <= add_imsi_ret env -> 0 <= add_fteid_ret env -> apns s !! apn_requested = Some a ->
     create_ue_context env imsi_val imsi_len ebi apn_requested sequence cp_type check s = None) /\
  (forall k c u b br, imsi_key imsi_val imsi_len = Some k -> 1 <= ebi <= 28 ->
     ue_context_by_imsi_hash s !! k = Some c -> contexts s !! c = Some u ->
     ue_slot u (Z.to_nat (ebi - 1)) b -> bearers s !! b = Some br -> eb_pdn br = None ->
     0 <= add_fteid_ret env ->
     create_ue_context env imsi_val imsi_len ebi apn_requested sequence cp_type check s = None).
Proof.
  assert (1 <= ebi <= 28 -> GET_EBI_INDEX ebi = ebi - 1) as Hidx.
  { intros. unfold GET_EBI_INDEX, MAX_BEARERS. by rewrite bool_decide_true by lia. }
  split_and!.
  - intros Hl. unfold create_ue_context, run, imsi_key. rewrite bool_decide_false by lia.
    by rewrite bind_fault by reflexivity.
  - intros k c b p a Hk Hebi Hn Hc Hb Hp Hi Hf Ha.
    rewrite (create_ue_context_unfold _ _ _ _ _ _ _ _ k) by (done || lia). rewrite Hidx by lia. unfold run.
    rewrite (new_ue_created env imsi_len cp_type sequence s k c) by done.
    set (s1 := with_new_ue _ _ _ _ _ _). cbn [fst snd].
    assert (contexts s1 !! c = Some (new_ue imsi_len cp_type s k check)) as Hc1 by apply lookup_insert_eq.
    cnext. unfold ue_at. rewrite Hc1. cnext.
    assert (array_get (ue_eps_bearers (new_ue imsi_len cp_type s k check)) (ebi - 1) = Some None) as ->.
    { rewrite array_get_nat by lia. cbn -[replicate]. apply lookup_replicate_2. unfold MAX_BEARERS. lia. }
    cnext. unfold new_bearer. rewrite Hb. do 2 cnext. unfold ue_at, id. cbn -[replicate new_ue deref get_pdn link_bearer].
    rewrite lookup_insert_eq. cnext. rewrite Ha. cnext. rewrite new_ue_no_pdn. cnext. rewrite Hp.
    do 3 cnext. rewrite bind_assoc, bind_fault; [done|]. unfold update.
    unfold change_ue, ue_at. cbn -[replicate new_ue]. rewrite lookup_insert_eq. cbn -[replicate new_ue].
    unfold ue_pdn_slot. rewrite array_set_out; [done|]. cbn. lia.
  - intros k c u b br Hk Hebi Hn Hu Hsl Hbr Hnull Hf.
    rewrite (create_ue_context_unfold _ _ _ _ _ _ _ _ k) by (rewrite ?Hidx by lia; done || lia).
    rewrite Hidx by lia. unfold run.
    erewrite (bind_next (find_or_create _ _ _ _ _ _) _ s s (c, 1, None)).
    2: { unfold find_or_create. cnext. rewrite Hn. cnext. unfold ue_at, id. rewrite Hu. cnext.
         rewrite array_get_nat, Hsl by lia. cnext. unfold bearer_at. rewrite Hbr. cnext. by rewrite Hnull. }
    cbv beta iota. cbn [fst snd]. unfold assign_teid. rewrite bind_assoc. cnext. unfold ue_at, id. rewrite Hu.
    cnext. destruct (get_s11_sgw_gtpc_teid _ _ _ _) as [teid ts]. cnext.
    rewrite bind_assoc. erewrite bind_next by (apply update_next; by apply (change_ue_eq c _ _ u)).
    rewrite bool_decide_false by lia. cnext. cnext. unfold ue_at. cbn. rewrite lookup_insert_eq. cnext.
    cbn [ue_eps_bearers set_ue_s11_sgw_gtpc_teid]. rewrite array_get_nat, Hsl by lia. cnext.
    unfold replace_bearer. cnext. unfold bearer_at. cbn. rewrite Hbr. cnext. rewrite Hnull.
    by rewrite bind_assoc, bind_fault.
Qed.

(** *** Addresses *)

Lemma bswap32_value z : 0 <= z < 2 ^ 24 ->
  bswap32 z = (z mod 256) * 2 ^ 24 + (z / 256 mod 256) * 2 ^ 16 + (z / 65536) * 2 ^ 8.
Proof.
  intros Hz. unfold bswap32, be_val.
  change (reverse (le_bytes 4 z)) with
    [byte_of_Z (z / 256 / 256 / 256); byte_of_Z (z / 256 / 256); byte_of_Z (z / 256); byte_of_Z z].
  cbn [le_val]. rewrite !byte_to_of_Z. unfold wrap. revert Hz. pow2. zdiv.
Qed.

Lemma three_digits x : 0 <= x < 2 ^ 24 -> exists a b c,
  x mod 256 = a /\ x / 256 mod 256 = b /\ x / 65536 = c /\ x = a + 256 * b + 65536 * c /\
  0 <= a < 256 /\ 0 <= b < 256 /\ 0 <= c < 256.
Proof. intros Hx. exists (x mod 256), (x / 256 mod 256), (x / 65536). revert Hx. pow2. zdiv. Qed.

Lemma u32_sub_inj c a b : 0 <= a < 2 ^ 32 -> 0 <= b < 2 ^ 32 -> u32 (c - a) = u32 (c - b) -> a = b.
Proof. unfold wrap. pow2. zdiv. Qed.

(** The addresses that UEs get are distinct, until the pool is reported as depleted
    after [LDB_ENTRIES_DEFAULT] of them; but a pool with the mask 255.255.255.0 holds the
    first 256 only: the 255th UE gets the address of the network, the next one the
    broadcast address, and later UEs addresses outside the pool.  IPv6 addresses keep
    the prefix and are distinct for prefixes of at least eight bytes; for a shorter
    prefix the counter is read past its end. *)
Theorem ue_addresses (ip_pool i j : Z) (ipv6_network_id : list byte) (prefix_len : nat) :
  0 <= ip_pool < 2 ^ 24 -> 0 <= i < LDB_ENTRIES_DEFAULT -> 0 <= j < LDB_ENTRIES_DEFAULT ->
  length ipv6_network_id = IPV6_ADDRESS_LEN ->
  let mask := 0x00ffffff in
  acquire_ip i ip_pool mask = (i + 1, Some (GET_UE_IP ip_pool mask i), 0) /\
  (GET_UE_IP ip_pool mask i = GET_UE_IP ip_pool mask j -> i = j) /\
  (GET_UE_IP ip_pool mask i mod 2 ^ 24 = ip_pool <-> i < 256) /\
  (i < 256 -> GET_UE_IP ip_pool mask i / 2 ^ 24 = (254 - i) mod 256) /\
  acquire_ip LDB_ENTRIES_DEFAULT ip_pool mask =
    (LDB_ENTRIES_DEFAULT, None, GTPV2C_CAUSE_ALL_DYNAMIC_ADDRESSES_OCCUPIED) /\
  ((8 <= prefix_len <= IPV6_ADDRESS_LEN)%nat -> exists a b,
     acquire_ipv6 i ipv6_network_id prefix_len = Some (i + 1, a, 0) /\
     acquire_ipv6 j ipv6_network_id prefix_len = Some (j + 1, b, 0) /\
     length a = IPV6_ADDRESS_LEN /\ take prefix_len a = take prefix_len ipv6_network_id /\
     (i <> j -> LDB_ENTRIES_DEFAULT < 256 ^ Z.of_nat (IPV6_ADDRESS_LEN - prefix_len) -> a <> b)) /\
  ((prefix_len < 8)%nat -> acquire_ipv6 i ipv6_network_id prefix_len = None).
Proof.
  intros Hpool Hi Hj Hlen mask. unfold LDB_ENTRIES_DEFAULT in Hi, Hj |- *.
  assert (forall x, 0 <= x < 1024 * 512 -> GET_UE_IP ip_pool mask x =
    u32 (ip_pool + 0xfe000000 - ((x mod 256) * 2 ^ 24 + (x / 256 mod 256) * 2 ^ 16 + (x / 65536) * 2 ^ 8))) as Hip.
  { intros x Hx. unfold GET_UE_IP. rewrite bswap32_value by (pow2; lia).
    change (u32 (- mask - 1)) with (255 * 2 ^ 24). rewrite lor_disjoint by (done || lia). f_equal. lia. }
  split; [|split; [|split; [|split; [|split; [|split]]]]].
  - unfold acquire_ip, LDB_ENTRIES_DEFAULT. rewrite bool_decide_false by lia. by rewrite wrap_small by (pow2; lia).
  - rewrite !Hip by done. intros E%u32_sub_inj; revert E.
    all: destruct (three_digits i) as (a & b & c & -> & -> & -> & -> & ? & ? & ?); [pow2; lia|].
    all: destruct (three_digits j) as (a' & b' & c' & -> & -> & -> & -> & ? & ? & ?); [pow2; lia|].
    all: pow2; lia.
  - rewrite Hip by done. destruct (three_digits i) as (a & b & c & -> & -> & -> & -> & ? & ? & ?); [pow2; lia|].
    unfold wrap. clear Hi Hj Hip. revert Hpool. pow2. zdiv.
  - rewrite Hip by done. destruct (three_digits i) as (a & b & c & -> & -> & -> & -> & ? & ? & ?); [pow2; lia|].
    intros Hlt. assert (b = 0) as -> by lia. assert (c = 0) as -> by lia.
    unfold wrap. clear Hi Hj Hip. revert Hpool. pow2. zdiv.
  - reflexivity.
  - intros Hp. unfold acquire_ipv6, fill_ipv6. rewrite bool_decide_true by done. cbn [mbind option_bind].
    rewrite !(wrap_small 64) by (pow2; lia). eexists _, _. split; [done|]. split; [done|].
    split; [rewrite length_app, length_take, length_le_bytes, Hlen; unfold IPV6_ADDRESS_LEN in *; lia|].
    split; [by rewrite take_app_length' by (rewrite length_take, Hlen; lia)|].
    intros Hne Hbig E. apply app_inv_head in E. apply (f_equal le_val) in E. revert E.
    rewrite !le_val_small by lia. lia.
  - intros Hp. unfold acquire_ipv6, fill_ipv6. by rewrite bool_decide_false by lia.
Qed.

(** ** Witnesses *)

Definition internet : apn_t := mk_apn (Some (lit "internet")) 9.

Definition empty_store : ue_store :=
  mk_store ∅ ∅ ∅ {[9%positive := internet]} ∅ ∅ ∅ ∅ Teid.initial_state.

Definition sample_env : ue_env := mk_env (Some 1%positive) 0 0 (Some 2%positive) (Some 3%positive).

Lemma empty_store_wf : ue_wf empty_store.
Proof. by constructor. Qed.

Lemma create_ue_context_keeps_invariant_witness :
  exists s' ret, create_ue_context sample_env 0x13600000000001f1 8 5 9 77 SAEGWC 0 empty_store = Some (s', ret) /\
    ue_wf s'.
Proof.
  apply (create_ue_context_keeps_invariant sample_env 0x13600000000001f1 8 5 9 77 SAEGWC 0 empty_store).
  - apply empty_store_wf.
  - split_and!; done.
  - by exists 9%positive, internet, (lit "internet").
  - lia.
  - lia.
  - discriminate.
Defined.

Lemma create_ue_context_result_witness :
  exists s' u, create_ue_context sample_env 0x13600000000001f1 8 5 9 77 SAEGWC 0 empty_store = Some (s', 0) /\
    get_ue_context 0xC0FFEE s' = (0, Some 1%positive) /\ contexts s' !! 1%positive = Some u /\ ue_slot u 4 2%positive.
Proof.
  destruct (create_ue_context_result sample_env 0x13600000000001f1 8 5 9%positive 77 SAEGWC 0 empty_store
    0x13600000000001f1) as [H _]; [reflexivity|lia|].
  destruct (H 1%positive 2%positive 3%positive internet) as (s' & u & pd & H1 & _ & H2 & H3 & _ & _ & _ & H4 & _);
    [reflexivity| reflexivity | reflexivity | reflexivity | discriminate | discriminate | reflexivity |].
  exists s', u. split; [exact H1|]. split; [exact H2|]. split; [exact H3|exact H4].
Defined.

Lemma create_ue_context_out_of_bounds_witness :
  create_ue_context sample_env 0x13600000000001f1 8 15 9 77 SAEGWC 0 empty_store = None.
Proof.
  destruct (create_ue_context_out_of_bounds sample_env 0x13600000000001f1 8 15 9%positive 77 SAEGWC 0 empty_store)
    as (_ & H & _).
  apply (H 0x13600000000001f1 1%positive 2%positive 3%positive internet);
    [reflexivity | lia | reflexivity | reflexivity | reflexivity | reflexivity | discriminate | discriminate | reflexivity].
Defined.

Lemma ue_addresses_witness :
  GET_UE_IP 0x0000000a 0x00ffffff 300 mod 2 ^ 24 <> 0x0000000a /\
  GET_UE_IP 0x0000000a 0x00ffffff 1 <> GET_UE_IP 0x0000000a 0x00ffffff 2.
Proof.
  destruct (ue_addresses 0x0a 300 2 (replicate 16 x00) 8) as (_ & _ & H3 & _); [lia|done|done|reflexivity|].
  destruct (ue_addresses 0x0a 1 2 (replicate 16 x00) 8) as (_ & H2 & _); [lia|done|done|reflexivity|].
  split; [rewrite H3; lia|]. intros E%H2. discriminate.
Defined.
