(* ===== verification/SmSession.v ===== *)
(** * The session table of the control plane (cp/state_machine/sm_init.c, sm_struct.h)

    [sm_hash] maps session ids to heap cells that hold a [resp_info]; the handlers get the
    address of the cell and write through it.  [add_sess_entry] copies the structure of
    its caller into a cell of its own.  The outcomes of the allocation and of the
    insertion are arguments.

    The second half is an abstract table, a map from session ids to values, and the proof
    that the cells and the index implement it. *)
From S2P Require Import Prelude CText LList CpTables CMonad.

(** ** Data *)

(** The members of [resp_info] before its pointers and the copied message. *)
Record resp_info := mk_resp {
  ri_proc : Z;
  ri_state : Z;
  ri_msg_type : Z;
  ri_cp_mode : Z;
  ri_pfcp_seq : Z;
  ri_cbr_seq : Z;
  ri_linked_eps_bearer_id : Z;
  ri_eps_bearer_id : Z;
  ri_bearer_count : Z;
  ri_eps_bearer_ids : list Z;
  ri_gx_sess_id : text;
  ri_s5s8_sgw_gtpc_teid : Z;
  ri_teid : Z
}.

Definition set_ri_state (v : Z) (r : resp_info) : resp_info :=
  mk_resp (ri_proc r) v (ri_msg_type r) (ri_cp_mode r) (ri_pfcp_seq r) (ri_cbr_seq r)
    (ri_linked_eps_bearer_id r) (ri_eps_bearer_id r) (ri_bearer_count r) (ri_eps_bearer_ids r)
    (ri_gx_sess_id r) (ri_s5s8_sgw_gtpc_teid r) (ri_teid r).

Record sm_store := mk_sm {
  cells : gmap loc resp_info;
  sm_hash : gmap Z loc
}.

(** ** Operations *)

(** Each returns a [uint8_t]: -1 is 255. *)
Definition add_sess_entry (sess_id : Z) (resp : resp_info) (malloc : ptr) (add_ret : Z) (s : sm_store)
    : option (sm_store * Z) :=
  match sm_hash s !! sess_id with
  | None =>
      match malloc with
      | None => Some (s, GTPV2C_CAUSE_SYSTEM_FAILURE)
      | Some tmp =>
          let s := mk_sm (<[tmp := resp]> (cells s)) (sm_hash s) in
          if bool_decide (add_ret <> 0) then Some (s, u8 (-1))
          else Some (mk_sm (cells s) (<[sess_id := tmp]> (sm_hash s)), 0)
      end
  | Some tmp =>
      _ ← cells s !! tmp;
      Some (mk_sm (<[tmp := resp]> (cells s)) (sm_hash s), 0)
  end.

(** The pointer that [*resp] gets, and the value returned.  The log reads [**resp]. *)
Definition get_sess_entry (sess_id : Z) (s : sm_store) : option (ptr * Z) :=
  match sm_hash s !! sess_id with
  | None => Some (None, u8 (-1))
  | Some p => _ ← cells s !! p; Some (Some p, 0)
  end.

Definition get_sess_state (sess_id : Z) (s : sm_store) : option Z :=
  match sm_hash s !! sess_id with
  | None => Some (u8 (-1))
  | Some p => resp ← cells s !! p; Some (ri_state resp)
  end.

Definition update_sess_state (sess_id state : Z) (s : sm_store) : option (sm_store * Z) :=
  match sm_hash s !! sess_id with
  | None => Some (s, u8 (-1))
  | Some p =>
      resp ← cells s !! p;
      Some (mk_sm (<[p := set_ri_state state resp]> (cells s)) (sm_hash s), 0)
  end.

(** [rte_hash_del_key] of a key that is there. *)
Definition del_sess_entry (sess_id : Z) (s : sm_store) : option (sm_store * Z) :=
  match sm_hash s !! sess_id with
  | None => Some (s, 0)
  | Some p => _ ← cells s !! p; Some (mk_sm (delete p (cells s)) (delete sess_id (sm_hash s)), 0)
  end.

(** ** Clients *)

(** What a client does with the table.  [Through f] is a handler: it gets the entry of a
    session and, if there is one, writes through the pointer. *)
Inductive request : Type :=
| Add (sess_id : Z) (resp : resp_info) (malloc : ptr) (add_ret : Z)
| Through (sess_id : Z) (f : resp_info -> resp_info)
| GetState (sess_id : Z)
| UpdateState (sess_id state : Z)
| Delete (sess_id : Z).

(** What it sees: a return code, and for a handler the value it read. *)
Abbreviation reply := (Z * option resp_info)%type.

Definition serve (r : request) (s : sm_store) : option (sm_store * reply) :=
  match r with
  | Add id resp malloc add_ret => '(s, z) ← add_sess_entry id resp malloc add_ret s; Some (s, (z, None))
  | Through id f =>
      '(p, z) ← get_sess_entry id s;
      match p with
      | None => Some (s, (z, None))
      | Some p => v ← cells s !! p; Some (mk_sm (<[p := f v]> (cells s)) (sm_hash s), (z, Some v))
      end
  | GetState id => z ← get_sess_state id s; Some (s, (z, None))
  | UpdateState id st => '(s, z) ← update_sess_state id st s; Some (s, (z, None))
  | Delete id => '(s, z) ← del_sess_entry id s; Some (s, (z, None))
  end.

Fixpoint serve_all (rs : list request) (s : sm_store) : option (sm_store * list reply) :=
  match rs with
  | [] => Some (s, [])
  | r :: rs => '(s, x) ← serve r s; '(s, xs) ← serve_all rs s; Some (s, x :: xs)
  end.

(** ** The abstract table *)

Abbreviation table := (gmap Z resp_info).

Definition spec_serve (r : request) (t : table) : table * reply :=
  match r with
  | Add id resp malloc add_ret =>
      match t !! id, malloc with
      | None, None => (t, (GTPV2C_CAUSE_SYSTEM_FAILURE, None))
      | None, Some _ =>
          if bool_decide (add_ret <> 0) then (t, (255, None)) else (<[id := resp]> t, (0, None))
      | Some _, _ => (<[id := resp]> t, (0, None))
      end
  | Through id f =>
      match t !! id with
      | None => (t, (255, None))
      | Some v => (<[id := f v]> t, (0, Some v))
      end
  | GetState id => (t, (from_option ri_state 255 (t !! id), None))
  | UpdateState id st =>
      match t !! id with
      | None => (t, (255, None))
      | Some v => (<[id := set_ri_state st v]> t, (0, None))
      end
  | Delete id => (delete id t, (0, None))
  end.

Fixpoint spec_serve_all (rs : list request) (t : table) : table * list reply :=
  match rs with
  | [] => (t, [])
  | r :: rs => let '(t, x) := spec_serve r t in let '(t, xs) := spec_serve_all rs t in (t, x :: xs)
  end.

(** ** Refinement *)

(** The cells and the index represent the table: same keys, the values in the cells, no
    cell used twice. *)
Definition value_at (s : sm_store) (id : Z) : option resp_info :=
  match sm_hash s !! id with Some p => cells s !! p | None => None end.

Record represents (s : sm_store) (t : table) : Prop := {
  rep_value id : t !! id = value_at s id;
  rep_live id p : sm_hash s !! id = Some p -> is_Some (cells s !! p);
  rep_own id id' p : sm_hash s !! id = Some p -> sm_hash s !! id' = Some p -> id = id'
}.

(** [malloc] returns a cell that is not in use. *)
Definition fresh_in (s : sm_store) (r : request) : Prop :=
  match r with Add _ _ (Some p) _ => cells s !! p = None | _ => True end.

Fixpoint fresh_all (rs : list request) (s : sm_store) : Prop :=
  match rs with
  | [] => True
  | r :: rs => fresh_in s r /\ match serve r s with Some (s, _) => fresh_all rs s | None => True end
  end.

(** The cells that no entry of the index has. *)
Definition leaked (s : sm_store) : nat := (size (cells s) - size (sm_hash s))%nat.

(** A new session whose cell was allocated but not inserted. *)
Definition failed_insertion (t : table) (r : request) : bool :=
  match r with
  | Add id _ (Some _) add_ret => bool_decide (t !! id = None) && bool_decide (add_ret <> 0)
  | _ => false
  end.

Fixpoint failed_insertions (rs : list request) (t : table) : nat :=
  match rs with
  | [] => 0%nat
  | r :: rs => ((if failed_insertion t r then 1 else 0) + failed_insertions rs (spec_serve r t).1)%nat
  end.

Definition empty_sm : sm_store := mk_sm ∅ ∅.

Lemma value_at_Some s id p : sm_hash s !! id = Some p -> value_at s id = cells s !! p.
Proof. unfold value_at. by intros ->. Qed.

Lemma value_at_None s id : sm_hash s !! id = None -> value_at s id = None.
Proof. unfold value_at. by intros ->. Qed.

(** A change that leaves the cell of an entry and its index alone. *)
Lemma value_at_same s s' id :
  sm_hash s' !! id = sm_hash s !! id ->
  (forall p, sm_hash s !! id = Some p -> cells s' !! p = cells s !! p) ->
  value_at s' id = value_at s id.
Proof. unfold value_at. intros -> H. destruct (sm_hash s !! id); auto. Qed.

Section Represents.
Context (s : sm_store) (t : table) (Hrep : represents s t).

Lemma rep_absent id : sm_hash s !! id = None -> t !! id = None.
Proof. intros E. by rewrite (rep_value _ _ Hrep), value_at_None. Qed.

Lemma rep_present id p : sm_hash s !! id = Some p -> exists v, cells s !! p = Some v /\ t !! id = Some v.
Proof.
  intros E. destruct (rep_live _ _ Hrep _ _ E) as [v Hv]. exists v. split; [done|].
  by rewrite (rep_value _ _ Hrep), (value_at_Some _ _ p).
Qed.

Lemma rep_other id id' p p' : sm_hash s !! id = Some p -> sm_hash s !! id' = Some p' -> id' <> id -> p <> p'.
Proof. intros E E' Hne ->. by destruct Hne; eapply rep_own. Qed.

Lemma rep_unused id p p' : cells s !! p = None -> sm_hash s !! id = Some p' -> p <> p'.
Proof. intros E E' ->. destruct (rep_live _ _ Hrep _ _ E'); congruence. Qed.

(** A write through the pointer of an entry. *)
Lemma rep_write id p v : sm_hash s !! id = Some p ->
  represents (mk_sm (<[p := v]> (cells s)) (sm_hash s)) (<[id := v]> t).
Proof.
  intros E. split; cbn [cells sm_hash].
  - intros id'. destruct (decide (id' = id)) as [->|Hne].
    + rewrite lookup_insert_eq. symmetry. etransitivity; [by apply (value_at_Some _ _ p)|]. apply lookup_insert_eq.
    + rewrite lookup_insert_ne, (rep_value _ _ Hrep) by done. symmetry. apply value_at_same; [done|].
      intros p' E'. cbn [cells]. by rewrite lookup_insert_ne by (by eapply rep_other).
  - intros id' p' E'. destruct (decide (p' = p)) as [->|Hne]; [rewrite lookup_insert_eq; by eexists|].
    rewrite lookup_insert_ne by done. by eapply rep_live.
  - apply (rep_own _ _ Hrep).
Qed.

(** A cell that no entry has. *)
Lemma rep_spare p v : cells s !! p = None -> represents (mk_sm (<[p := v]> (cells s)) (sm_hash s)) t.
Proof.
  intros E. split; cbn [cells sm_hash].
  - intros id. rewrite (rep_value _ _ Hrep). symmetry. apply value_at_same; [done|].
    intros p' E'. cbn [cells]. by rewrite lookup_insert_ne by (by eapply rep_unused).
  - intros id p' E'. rewrite lookup_insert_ne by (by eapply rep_unused). by eapply rep_live.
  - apply (rep_own _ _ Hrep).
Qed.

Lemma rep_enter id p v : sm_hash s !! id = None -> cells s !! p = None ->
  represents (mk_sm (<[p := v]> (cells s)) (<[id := p]> (sm_hash s))) (<[id := v]> t).
Proof.
  intros En E. split; cbn [cells sm_hash].
  - intros id'. destruct (decide (id' = id)) as [->|].
    + rewrite lookup_insert_eq. symmetry.
      etransitivity; [apply (value_at_Some _ _ p), lookup_insert_eq|]. apply lookup_insert_eq.
    + rewrite lookup_insert_ne, (rep_value _ _ Hrep) by done. symmetry. apply value_at_same.
      * by apply lookup_insert_ne.
      * intros p' E'. by apply lookup_insert_ne; eapply rep_unused.
  - intros id' p' [[<- <-]|[? E']]%lookup_insert_Some; [rewrite lookup_insert_eq; by eexists|].
    rewrite lookup_insert_ne by (by eapply rep_unused). by eapply rep_live.
  - intros i j q [[<- <-]|[? Ei]]%lookup_insert_Some [[<- Eq]|[? Ej]]%lookup_insert_Some; try done.
    + by destruct (rep_unused _ _ _ E Ej).
    + subst. by destruct (rep_unused _ _ _ E Ei).
    + by eapply rep_own.
Qed.

Lemma rep_remove id p : sm_hash s !! id = Some p ->
  represents (mk_sm (delete p (cells s)) (delete id (sm_hash s))) (delete id t).
Proof.
  intros E. split; cbn [cells sm_hash].
  - intros id'. destruct (decide (id' = id)) as [->|].
    + by rewrite lookup_delete_eq, value_at_None by apply lookup_delete_eq.
    + rewrite lookup_delete_ne, (rep_value _ _ Hrep) by done. symmetry. apply value_at_same.
      * by apply lookup_delete_ne.
      * intros p' E'. by apply lookup_delete_ne; eapply rep_other.
  - intros id' p' [? E']%lookup_delete_Some. rewrite lookup_delete_ne by (by eapply rep_other).
    by eapply rep_live.
  - intros i j q [? Ei]%lookup_delete_Some [? Ej]%lookup_delete_Some. by eapply rep_own.
Qed.
End Represents.

(** The index has at most as many entries as there are cells. *)
Lemma size_hash (s : sm_store) t : represents s t -> (size (sm_hash s) <= size (cells s))%nat.
Proof.
  intros Hrep. rewrite <-!size_dom.
  assert (size (list_to_set (C := gset loc) (map_to_list (sm_hash s)).*2) = size (dom (sm_hash s))) as <-.
  { rewrite size_list_to_set.
    - by rewrite length_fmap, length_map_to_list, size_dom.
    - apply NoDup_fmap_2_strong; [|apply NoDup_map_to_list].
      intros [i p] [j q] Hi%elem_of_map_to_list Hj%elem_of_map_to_list; cbn. intros ->.
      by rewrite (rep_own _ _ Hrep _ _ _ Hi Hj). }
  apply subseteq_size. intros p. rewrite elem_of_list_to_set, list_elem_of_fmap.
  intros ([i q] & -> & Hi%elem_of_map_to_list). apply elem_of_dom. by eapply rep_live.
Qed.

Lemma leaked_write s p v v' : cells s !! p = Some v ->
  leaked (mk_sm (<[p := v']> (cells s)) (sm_hash s)) = leaked s.
Proof. intros E. unfold leaked. cbn [cells sm_hash]. by rewrite map_size_insert_Some. Qed.

(** One request: the same reply, the table represented again, a cell lost by a failed
    insertion and by nothing else. *)
Lemma serve_refines r s t : represents s t -> fresh_in s r ->
  exists s', serve r s = Some (s', (spec_serve r t).2) /\ represents s' (spec_serve r t).1 /\
    leaked s' = (leaked s + if failed_insertion t r then 1 else 0)%nat.
Proof.
  intros Hrep Hfresh. pose proof (size_hash s t Hrep) as Hsize. 
  destruct r as [id resp malloc add_ret|id f|id|id st|id]; cbn [serve spec_serve failed_insertion];
    unfold add_sess_entry, get_sess_entry, get_sess_state, update_sess_state, del_sess_entry;
    (destruct (sm_hash s !! id) as [p|] eqn:E;
     [destruct (rep_present s t Hrep id p E) as (v & Hv & Ht); rewrite ?Ht, ?Hv
     |pose proof (rep_absent s t Hrep id E) as Ht; rewrite ?Ht]); cbn -[leaked].
  - eexists. split; [done|]. split; [by apply rep_write|].
    rewrite (leaked_write s p v) by done. destruct malloc; cbn; lia.
  - destruct malloc as [p|]; [|by exists s; rewrite Nat.add_0_r].
    destruct (bool_decide_reflect (add_ret <> 0)); cbn -[leaked]; eexists; (split; [done|]).
    + split; [by apply rep_spare|]. unfold leaked; cbn [cells sm_hash].
      rewrite map_size_insert_None by done. lia.
    + split; [by apply rep_enter|]. unfold leaked; cbn [cells sm_hash].
      rewrite !map_size_insert_None by done. lia.
  - rewrite Hv. eexists. split; [done|]. split; [by apply rep_write|].
    rewrite (leaked_write s p v) by done. lia.
  - exists s. by rewrite Nat.add_0_r.
  - exists s. by rewrite Nat.add_0_r.
  - exists s. by rewrite Nat.add_0_r.
  - eexists. split; [done|]. split; [by apply rep_write|].
    rewrite (leaked_write s p v) by done. lia.
  - exists s. by rewrite Nat.add_0_r.
  - eexists. split; [done|]. split; [by apply rep_remove|]. unfold leaked; cbn [cells sm_hash].
    rewrite !map_size_delete_Some by (by eexists).
    assert (size (cells s) <> 0)%nat by (rewrite map_size_non_empty_iff; intros H0; by rewrite H0, lookup_empty in Hv).
    assert (size (sm_hash s) <> 0)%nat by (rewrite map_size_non_empty_iff; intros H0; by rewrite H0, lookup_empty in E).
    lia.
  - exists s. by rewrite Nat.add_0_r, delete_id.
Qed.

Lemma serve_all_refines rs s t : represents s t -> fresh_all rs s ->
  exists s', serve_all rs s = Some (s', (spec_serve_all rs t).2) /\
    represents s' (spec_serve_all rs t).1 /\ leaked s' = (leaked s + failed_insertions rs t)%nat.
Proof.
  revert s t. induction rs as [|r rs IH]; intros s t Hrep Hfresh.
  { exists s. by rewrite Nat.add_0_r. }
  destruct Hfresh as [Hr Hrs]. destruct (serve_refines r s t Hrep Hr) as (s1 & E & Hrep1 & Hl1).
  rewrite E in Hrs. destruct (IH s1 _ Hrep1 Hrs) as (s2 & E2 & Hrep2 & Hl2).
  exists s2. cbn [serve_all spec_serve_all failed_insertions]. rewrite E. cbn [mbind option_bind].
  rewrite E2. cbn [mbind option_bind]. destruct (spec_serve r t) as [t1 x]; cbn [fst snd] in *.
  destruct (spec_serve_all rs t1) as [t2 xs]. split; [done|]. split; [done|]. lia.
Qed.

(** ** Correctness *)

(** C26. The session table implements a map from session ids to values.  Whatever sequence
    of requests its clients make, and whichever allocations and insertions fail, the
    cells and the index are never used after they are freed, every reply is the reply of
    the map, and the cells represent the map again: a handler that holds the pointer of
    a session reads what was last written for that session, and its writes reach no
    other session.  A cell is lost for every insertion that fails, and for nothing
    else. *)
Theorem session_table_refines_map rs :
  fresh_all rs empty_sm ->
  exists s', serve_all rs empty_sm = Some (s', (spec_serve_all rs ∅).2) /\
    represents s' (spec_serve_all rs ∅).1 /\ leaked s' = failed_insertions rs ∅.
Proof.
  intros H. destruct (serve_all_refines rs empty_sm ∅) as (s' & ? & ? & ?); [|done|by exists s'].
  split; [|by intros ? ? ? ..].
  - intros id. unfold value_at. cbn. by rewrite !lookup_empty.
Qed.

Definition sample_resp (proc state : Z) : resp_info := mk_resp proc state 32 1 1 0 5 5 0 [] [] 0 7.

Lemma session_table_refines_map_witness :
  let rs := [Add 9 (sample_resp 1 2) (Some 1%positive) 0; Add 10 (sample_resp 3 4) (Some 2%positive) (-28);
             Add 11 (sample_resp 5 6) (Some 3%positive) 0; UpdateState 9 17;
             Through 11 (set_ri_state 8); Delete 11; GetState 9; GetState 11; Delete 9;
             Add 12 (sample_resp 1 2) None 0] in
  (spec_serve_all rs ∅).2 = [(0, None); (255, None); (0, None); (0, None); (0, Some (sample_resp 5 6));
                             (0, None); (17, None); (255, None); (0, None); (72, None)] /\
  exists s', serve_all rs empty_sm = Some (s', (spec_serve_all rs ∅).2) /\
    represents s' (spec_serve_all rs ∅).1 /\ leaked s' = 1%nat.
Proof. intros rs. split; [reflexivity|]. apply (session_table_refines_map rs). repeat split. Defined.
