(* ===== verification/Gtpc.v ===== *)
(** * GTPv2-C messages and the procedure they start (cp/gtpv2c.h, cp/gtpv2c_set_ie.c,
    cp/state_machine/sm_init.c, sm_struct.h)

    The structures of decoded messages and the decoders belong to libgtpv2c, which is not
    in the repository: [GtpLib] gives the header that a buffer starts with and what a
    decoder makes of the bytes.  [gtpc_msg] stands for the union [gtpc_msg_info]: it has a
    member for each member of a message that the modelled functions read; the header is
    the same for all messages.

    - [decode_check_csr]: the checks of a Create Session Request and the choice of the
      mode (SGW-C, PGW-C or the combined SAEGW-C) in which the gateway serves it.
    - [get_procedure], [get_csr_proc]: the procedure of a message. *)
From S2P Require Import Prelude CText LList SmTable CpTables UeContext.
From Stdlib Require Import Ascii.

(** ** Codes *)

Definition GTP_CREATE_SESSION_REQ : Z := 32.
Definition GTP_CREATE_SESSION_RSP : Z := 33.
Definition GTP_MODIFY_BEARER_REQ : Z := 34.
Definition GTP_MODIFY_BEARER_RSP : Z := 35.
Definition GTP_DELETE_SESSION_REQ : Z := 36.
Definition GTP_DELETE_SESSION_RSP : Z := 37.
Definition GTP_CHANGE_NOTIFICATION_REQ : Z := 38.
Definition GTP_CHANGE_NOTIFICATION_RSP : Z := 39.
Definition GTP_MODIFY_BEARER_CMD : Z := 64.
Definition GTP_MODIFY_BEARER_FAILURE_IND : Z := 65.
Definition GTP_DELETE_BEARER_CMD : Z := 66.
Definition GTP_DELETE_BEARER_FAILURE_IND : Z := 67.
Definition GTP_BEARER_RESOURCE_CMD : Z := 68.
Definition GTP_BEARER_RESOURCE_FAILURE_IND : Z := 69.
Definition GTP_DOWNLINK_DATA_NOTIFICATION_FAILURE_IND : Z := 70.
Definition GTP_CREATE_BEARER_REQ : Z := 95.
Definition GTP_CREATE_BEARER_RSP : Z := 96.
Definition GTP_UPDATE_BEARER_REQ : Z := 97.
Definition GTP_UPDATE_BEARER_RSP : Z := 98.
Definition GTP_DELETE_BEARER_REQ : Z := 99.
Definition GTP_DELETE_BEARER_RSP : Z := 100.
Definition GTP_DELETE_PDN_CONNECTION_SET_REQ : Z := 101.
Definition GTP_DELETE_PDN_CONNECTION_SET_RSP : Z := 102.
Definition GTP_IDENTIFICATION_RSP : Z := 129.
Definition GTP_CREATE_INDIRECT_DATA_FORWARDING_TUNNEL_REQ : Z := 166.
Definition GTP_DELETE_INDIRECT_DATA_FORWARDING_TUNNEL_REQ : Z := 168.
Definition GTP_DELETE_INDIRECT_DATA_FORWARDING_TUNNEL_RSP : Z := 169.
Definition GTP_RELEASE_ACCESS_BEARERS_REQ : Z := 170.
Definition GTP_DOWNLINK_DATA_NOTIFICATION_ACK : Z := 177.
Definition GTP_PGW_RESTART_NOTIFICATION_ACK : Z := 180.
Definition GTP_UPDATE_PDN_CONNECTION_SET_REQ : Z := 200.
Definition GTP_UPDATE_PDN_CONNECTION_SET_RSP : Z := 201.
Definition GTP_MODIFY_ACCESS_BEARER_REQ : Z := 211.

Definition GTP_VERSION_GTPV2C : Z := 2.
Definition MAX_GTPV2C_UDP_LEN : nat := 4096.
Definition GTPC_ZERO_TEID_FOUND : Z := -4.

Definition GTPV2C_CAUSE_REQUEST_ACCEPTED : Z := 16.
Definition GTPV2C_CAUSE_NEW_PDN_TYPE_NETWORK_PREFERENCE : Z := 18.
Definition GTPV2C_CAUSE_NEW_PDN_TYPE_SINGLE_ADDR_BEARER : Z := 19.
Definition GTPV2C_CAUSE_VERSION_NOT_SUPPORTED : Z := 66.
Definition GTPV2C_CAUSE_INVALID_LENGTH : Z := 67.
Definition GTPV2C_CAUSE_MANDATORY_IE_INCORRECT : Z := 69.
Definition GTPV2C_CAUSE_MANDATORY_IE_MISSING : Z := 70.
Definition GTPV2C_CAUSE_REQUEST_REJECTED : Z := 94.
Definition GTPV2C_CAUSE_IMSI_NOT_KNOWN : Z := 96.

Definition GX_IFACE : Z := 1.
Definition S11_IFACE : Z := 2.
Definition S5S8_IFACE : Z := 3.
Definition S5_S8_SGW_GTP_C : Z := 6.
Definition S5_S8_PGW_GTP_C : Z := 7.

Definition PDN_IP_TYPE_IPV4 : Z := 1.
Definition PDN_IP_TYPE_IPV6 : Z := 2.
Definition PDN_IP_TYPE_IPV4V6 : Z := 3.

(** ** Messages *)

(** The header, its length and its TEID in the order of the host. *)
Record gtpv2c_header_t := mk_gtpv2c_header {
  h_version : Z;
  h_piggyback : bool;
  h_message_type : Z;
  h_message_len : Z;
  h_teid : Z;
  h_seq : Z
}.


(** What [decode_check_csr] and [get_procedure] read of a Create Session Request: lengths
    of its elements, the F-TEIDs of the PGW and of the sender, the flags.  A bearer context
    is its length and the length of its QoS. *)
Record csr_t := mk_csr {
  csr_indctn_flgs_len : Z;
  csr_indication_oi : Z;
  csr_indication_daf : Z;
  csr_indication_uimsi : Z;
  csr_pgw_len : Z;
  csr_pgw_v4 : bool;
  csr_pgw_v6 : bool;
  csr_pgw_ipv4 : Z;
  csr_pgw_ipv6 : list byte;
  csr_pgw_teid_gre_key : Z;
  csr_sender_len : Z;
  csr_sender_interface_type : Z;
  csr_sender_ipv4 : Z;
  csr_sender_ipv6 : list byte;
  csr_imsi_len : Z;
  csr_apn_ambr_len : Z;
  csr_pdn_type_len : Z;
  csr_rat_type_len : Z;
  csr_apn_len : Z;
  csr_bearer_contexts : list (Z * Z)
}.


(** The union of the decoded messages. *)
Record gtpc_msg := mk_gtpc_msg {
  m_teid : Z;
  m_seq : Z;
  m_no_teid_seq : Z;
  m_piggyback : bool;
  m_teid_flag : bool;
  m_cause : Z;
  m_sender_len : Z;
  m_sender_interface_type : Z;
  m_indctn_flgs_len : Z;
  m_lbi_len : Z;
  m_lbi : Z;
  m_linked_eps_bearer_id : Z;
  m_bearer_count : Z;
  m_bearer_len : Z;
  m_bearer_ebi : Z;
  m_eps_bearer_id_0 : Z;
  m_imsi_len : Z;
  m_imsi : Z;
  m_pti_len : Z;
  m_tad_len : Z;
  m_csr : csr_t
}.

Definition set_m_teid (v : Z) (r : gtpc_msg) : gtpc_msg :=
  mk_gtpc_msg v (m_seq r) (m_no_teid_seq r) (m_piggyback r) (m_teid_flag r) (m_cause r) (m_sender_len r)
    (m_sender_interface_type r) (m_indctn_flgs_len r) (m_lbi_len r) (m_lbi r)
    (m_linked_eps_bearer_id r) (m_bearer_count r) (m_bearer_len r) (m_bearer_ebi r)
    (m_eps_bearer_id_0 r) (m_imsi_len r) (m_imsi r) (m_pti_len r) (m_tad_len r) (m_csr r).

Definition zero_csr : csr_t :=
  mk_csr 0 0 0 0 0 false false 0 [] 0 0 0 0 [] 0 0 0 0 0 [].
Definition zero_gtpc_msg : gtpc_msg :=
  mk_gtpc_msg 0 0 0 false false 0 0 0 0 0 0 0 0 0 0 0 0 0 0 0 zero_csr.

(** The decoder of the messages of a type: 0 for a failure, and the message. *)
Class GtpLib := {
  header_at : list byte -> gtpv2c_header_t;
  decode : Z -> list byte -> Z * gtpc_msg
}.

Record pfcp_config_t := mk_config {
  config_cp_type : Z;
  config_use_gx : bool;
  config_s5s8_ip_type : Z;
  config_s5s8_ip : Z;
  config_s5s8_ip_v6 : list byte;
  config_s11_ip : Z;
  config_s11_ip_v6 : list byte
}.



(** ** The mode of a new session *)

Definition zero_ipv6 : list byte := replicate IPV6_ADDRESS_LEN x00.

(** [*ipv6_address] and [*config.s5s8_ip_v6.s6_addr] are the first byte. *)
Definition first_byte (a : list byte) : bool := bool_decide (a !! 0%nat <> Some x00).

Definition same_ipv6 (a b : list byte) : bool := bool_decide (take IPV6_ADDRESS_LEN a = take IPV6_ADDRESS_LEN b).

Section Mode.
Variables (config : pfcp_config_t) (csr : csr_t).

(** The gateway's S5/S8 interface does not have the type of address that the PGW has. *)
Definition pgw_ip_type_unsupported : bool :=
  bool_decide (config_s5s8_ip_type config <> PDN_IP_TYPE_IPV4V6) &&
  ((csr_pgw_v4 csr && bool_decide (csr_pgw_ipv4 csr <> 0) &&
    bool_decide (config_s5s8_ip_type config <> PDN_IP_TYPE_IPV4)) ||
   (csr_pgw_v6 csr && first_byte (csr_pgw_ipv6 csr) &&
    bool_decide (config_s5s8_ip_type config <> PDN_IP_TYPE_IPV6))).

(** There are an address of the PGW and one of the gateway to compare. *)
Definition pgw_comparable : bool :=
  (bool_decide (csr_pgw_ipv4 csr <> 0) || negb (same_ipv6 (csr_pgw_ipv6 csr) zero_ipv6)) &&
  (bool_decide (config_s5s8_ip config <> 0) || first_byte (config_s5s8_ip_v6 config)).

(** The PGW is this gateway. *)
Definition pgw_is_local : bool :=
  ((csr_pgw_v4 csr && bool_decide (csr_pgw_ipv4 csr = config_s5s8_ip config)) ||
   (csr_pgw_v6 csr && (same_ipv6 (csr_pgw_ipv6 csr) zero_ipv6 ||
                       same_ipv6 (csr_pgw_ipv6 csr) (config_s5s8_ip_v6 config)))) ||
  ((csr_pgw_v4 csr && bool_decide (csr_pgw_ipv4 csr = config_s11_ip config)) ||
   (csr_pgw_v6 csr && same_ipv6 (csr_pgw_ipv6 csr) (config_s11_ip_v6 config))).

(** The condition of the branch for the SGW-C. *)
Definition sgwc_selected : bool :=
  bool_decide (config_cp_type config <> PGWC) &&
  ((csr_pgw_v4 csr && bool_decide (csr_pgw_ipv4 csr <> csr_sender_ipv4 csr)) ||
   (csr_pgw_v6 csr && negb (same_ipv6 (csr_pgw_ipv6 csr) (csr_sender_ipv6 csr)))).

Definition combined_or_rejected : Z + Z :=
  if bool_decide (config_cp_type config = SAEGWC) then inl SAEGWC else inr GTPV2C_CAUSE_REQUEST_REJECTED.

(** [inl] the mode, [inr] the cause of a rejection. *)
Definition select_mode : Z + Z :=
  if bool_decide (csr_pgw_len csr <> 0) then
    if pgw_ip_type_unsupported then inr GTPV2C_CAUSE_REQUEST_REJECTED
    else if pgw_comparable then
      if pgw_is_local then combined_or_rejected
      else if sgwc_selected then inl SGWC
      else inr GTPV2C_CAUSE_REQUEST_REJECTED
    else combined_or_rejected
  else if bool_decide (csr_sender_interface_type csr = S5_S8_SGW_GTP_C) then
    if bool_decide (config_cp_type config <> SGWC) then inl PGWC else inr GTPV2C_CAUSE_REQUEST_REJECTED
  else combined_or_rejected.

Definition mandatory_missing : bool :=
  bool_decide (csr_sender_len csr = 0) || bool_decide (csr_imsi_len csr = 0) ||
  bool_decide (csr_apn_ambr_len csr = 0) || bool_decide (csr_pdn_type_len csr = 0) ||
  bool_decide (csr_rat_type_len csr = 0) || bool_decide (csr_apn_len csr = 0).

Definition bearer_missing : bool :=
  existsb (fun b => bool_decide (b.1 = 0) || bool_decide (b.2 = 0)) (csr_bearer_contexts csr).

(** The value returned and [*cp_type], which is 0 before. *)
Definition check_csr : Z * Z :=
  if bool_decide (csr_indctn_flgs_len csr <> 0) && bool_decide (csr_indication_uimsi csr <> 0)
  then (GTPV2C_CAUSE_IMSI_NOT_KNOWN, 0)
  else match select_mode with
       | inr cause => (cause, 0)
       | inl cp_type =>
           if bool_decide (cp_type = SGWC) && bool_decide (csr_pgw_len csr = 0)
           then (GTPV2C_CAUSE_MANDATORY_IE_MISSING, cp_type)
           else if mandatory_missing then (GTPV2C_CAUSE_MANDATORY_IE_MISSING, cp_type)
           else if bearer_missing then (GTPV2C_CAUSE_MANDATORY_IE_MISSING, cp_type)
           else (0, cp_type)
       end.
End Mode.

Definition decode_check_csr `{GtpLib} (config : pfcp_config_t) (gtpv2c_rx : list byte) : Z * Z * gtpc_msg :=
  let '(ret, m) := decode GTP_CREATE_SESSION_REQ gtpv2c_rx in
  if bool_decide (ret = 0) then (-1, 0, m) else (check_csr config (m_csr m), m).

(** ** The procedure of a message *)

Definition get_csr_proc (csr : csr_t) : Z :=
  if bool_decide (csr_indctn_flgs_len csr <> 0) && bool_decide (1 = csr_indication_oi csr) &&
     bool_decide (csr_pgw_teid_gre_key csr <> 0)
  then SGW_RELOCATION_PROC
  else if bool_decide (csr_indctn_flgs_len csr <> 0) &&
          (bool_decide (0 = csr_indication_oi csr) && bool_decide (0 = csr_indication_daf csr)) &&
          bool_decide (csr_pgw_teid_gre_key csr <> 0)
  then S1_HANDOVER_PROC
  else INITIAL_PDN_ATTACH_PROC.

(** The cases of [get_procedure] but for the Create Session Request. *)
Definition procedure_cases : list (Z * Z) :=
  [(GTP_CHANGE_NOTIFICATION_REQ, CHANGE_NOTIFICATION_PROC : Z);
   (GTP_CHANGE_NOTIFICATION_RSP, CHANGE_NOTIFICATION_PROC : Z);
   (GTP_MODIFY_BEARER_REQ, MODIFY_BEARER_PROCEDURE : Z);
   (GTP_MODIFY_BEARER_RSP, MODIFY_BEARER_PROCEDURE : Z);
   (GTP_MODIFY_ACCESS_BEARER_REQ, MODIFY_ACCESS_BEARER_PROC : Z);
   (GTP_DELETE_SESSION_REQ, DETACH_PROC : Z);
   (GTP_DELETE_SESSION_RSP, DETACH_PROC : Z);
   (GTP_RELEASE_ACCESS_BEARERS_REQ, CONN_SUSPEND_PROC : Z);
   (GTP_CREATE_BEARER_REQ, DED_BER_ACTIVATION_PROC : Z);
   (GTP_CREATE_BEARER_RSP, DED_BER_ACTIVATION_PROC : Z);
   (GTP_DELETE_BEARER_REQ, PDN_GW_INIT_BEARER_DEACTIVATION : Z);
   (GTP_DELETE_BEARER_RSP, PDN_GW_INIT_BEARER_DEACTIVATION : Z);
   (GTP_UPDATE_BEARER_REQ, UPDATE_BEARER_PROC : Z);
   (GTP_UPDATE_BEARER_RSP, UPDATE_BEARER_PROC : Z);
   (GTP_DELETE_BEARER_CMD, MME_INI_DEDICATED_BEARER_DEACTIVATION_PROC : Z);
   (GTP_MODIFY_BEARER_CMD, HSS_INITIATED_SUB_QOS_MOD : Z);
   (GTP_BEARER_RESOURCE_CMD, UE_REQ_BER_RSRC_MOD_PROC : Z);
   (GTP_BEARER_RESOURCE_FAILURE_IND, UE_REQ_BER_RSRC_MOD_PROC : Z);
   (GTP_DELETE_PDN_CONNECTION_SET_REQ, RESTORATION_RECOVERY_PROC : Z);
   (GTP_DELETE_PDN_CONNECTION_SET_RSP, RESTORATION_RECOVERY_PROC : Z);
   (GTP_UPDATE_PDN_CONNECTION_SET_REQ, UPDATE_PDN_CONNECTION_PROC : Z);
   (GTP_UPDATE_PDN_CONNECTION_SET_RSP, MODIFY_BEARER_PROCEDURE : Z);
   (GTP_PGW_RESTART_NOTIFICATION_ACK, RESTORATION_RECOVERY_PROC : Z);
   (GTP_CREATE_INDIRECT_DATA_FORWARDING_TUNNEL_REQ, CREATE_INDIRECT_TUNNEL_PROC : Z);
   (GTP_DELETE_INDIRECT_DATA_FORWARDING_TUNNEL_REQ, DELETE_INDIRECT_TUNNEL_PROC : Z);
   (GTP_DELETE_INDIRECT_DATA_FORWARDING_TUNNEL_RSP, DELETE_INDIRECT_TUNNEL_PROC : Z)].

Definition get_procedure (msg_type : Z) (m : gtpc_msg) : Z :=
  if bool_decide (msg_type = GTP_CREATE_SESSION_REQ) then get_csr_proc (m_csr m)
  else match find (fun c => bool_decide (c.1 = msg_type)) procedure_cases with
       | Some c => c.2
       | None => NONE_PROC
       end.

(** ** Lemmas *)

Definition mode (m : Z) : Prop := m = SGWC \/ m = PGWC \/ m = SAEGWC.

(** A gateway that is configured as [c] may serve a session as [m]. *)
Definition may_serve (c m : Z) : Prop := c = SAEGWC \/ m = c.

Lemma select_mode_spec config csr m : mode (config_cp_type config) -> select_mode config csr = inl m ->
  mode m /\ may_serve (config_cp_type config) m.
Proof.
  unfold select_mode, combined_or_rejected, sgwc_selected, mode, may_serve. intros Hc.
  destruct (bool_decide (csr_pgw_len csr <> 0)).
  - destruct (pgw_ip_type_unsupported _ _); [done|].
    destruct (pgw_comparable _ _); [destruct (pgw_is_local _ _)|].
    1, 3: case_bool_decide; intros [= <-]; auto.
    case_bool_decide as Hp; [|done]. cbn [andb]. destruct (_ || _); [|done]. intros [= <-]. intuition.
  - destruct (bool_decide (csr_sender_interface_type csr = _)); case_bool_decide; intros [= <-]; by intuition.
Qed.

Lemma select_mode_refused config csr c : select_mode config csr = inr c -> c = GTPV2C_CAUSE_REQUEST_REJECTED.
Proof. unfold select_mode, combined_or_rejected. repeat case_match; congruence. Qed.

Lemma bearer_missing_false csr : bearer_missing csr = false <->
  Forall (fun b => b.1 <> 0 /\ b.2 <> 0) (csr_bearer_contexts csr).
Proof.
  unfold bearer_missing. induction (csr_bearer_contexts csr) as [|b l IH]; cbn [existsb].
  { split; [constructor|done]. }
  rewrite Forall_cons, <-IH. rewrite !orb_false_iff, !bool_decide_eq_false. tauto.
Qed.

(** ** Correctness *)

(** Which sessions the gateway takes, and as what.  A Create Session Request is accepted
    only if it was decoded and has every mandatory element, in the message and in every
    bearer context, and then the mode is one of the three: a gateway configured as SGW-C
    serves as SGW-C, and one configured as PGW-C as PGW-C. *)
Theorem create_session_mode `{GtpLib} config rx cp_type m :
  mode (config_cp_type config) -> decode_check_csr config rx = (0, cp_type, m) ->
  let csr := m_csr m in
  (decode GTP_CREATE_SESSION_REQ rx).1 <> 0 /\ mode cp_type /\
  csr_sender_len csr <> 0 /\ csr_imsi_len csr <> 0 /\ csr_apn_ambr_len csr <> 0 /\
  csr_pdn_type_len csr <> 0 /\ csr_rat_type_len csr <> 0 /\ csr_apn_len csr <> 0 /\
  Forall (fun b => b.1 <> 0 /\ b.2 <> 0) (csr_bearer_contexts csr) /\
  (cp_type = SGWC -> csr_pgw_len csr <> 0) /\
  may_serve (config_cp_type config) cp_type.
Proof.
  intros Hc. unfold decode_check_csr. destruct (decode _ rx) as [ret m'] eqn:Ed; cbn [fst].
  case_bool_decide as Hret; [done|]. intros [= Hcheck ->]. unfold check_csr in Hcheck.
  destruct (_ && _); [done|]. destruct (select_mode _ _) as [t|c] eqn:Es;
    [|by apply select_mode_refused in Es as ->].
  destruct (bool_decide (t = SGWC) && _) eqn:Ep; [done|].
  destruct (mandatory_missing _) eqn:Em; [done|]. destruct (bearer_missing _) eqn:Eb; [done|].
  injection Hcheck as ->. destruct (select_mode_spec _ _ _ Hc Es) as [Hmode Hserve].
  unfold mandatory_missing in Em. rewrite !orb_false_iff, !bool_decide_eq_false in Em.
  apply bearer_missing_false in Eb. rewrite andb_false_iff, !bool_decide_eq_false in Ep.
  split_and!; tauto.
Qed.

Definition sample_csr (pgw_ipv6 : list byte) : csr_t :=
  mk_csr 0 0 0 0 9 false true 0 pgw_ipv6 77 9 0 0 zero_ipv6 8 8 1 1 9 [(40, 22)].

Definition sgwc_config : pfcp_config_t := mk_config SGWC true PDN_IP_TYPE_IPV4V6 0x0a000001 zero_ipv6 0x0b000001 zero_ipv6.
Definition pgwc_config : pfcp_config_t := mk_config PGWC true PDN_IP_TYPE_IPV4V6 0x0a000001 zero_ipv6 0x0b000001 zero_ipv6.

Lemma create_session_mode_witness :
  let m := mk_gtpc_msg 0 1 1 false true 0 0 0 0 0 0 0 0 0 0 0 0 0 0 0 (sample_csr (replicate 16 x20)) in
  let lib := Build_GtpLib (fun _ => mk_gtpv2c_header 2 false 32 0 0 0) (fun _ _ => (1, m)) in
  decode_check_csr sgwc_config [] = (0, SGWC, m) /\ csr_apn_len (m_csr m) <> 0.
Proof.
  intros m lib. split; [reflexivity|].
  by destruct (create_session_mode (H := lib) sgwc_config [] SGWC m) as (_ & _ & _ & _ & _ & _ & _ & ? & _);
    [left; reflexivity|reflexivity|].
Defined.
