(* ===== verification/GtpcPcnd.v ===== *)
(** * The preconditions of GTPv2-C messages (cp/state_machine/sm_gtpc_pcnd.c)

    [gtpc_pcnd_check] looks at a received message, finds the context of its UE and fills a
    [msg_info] with the procedure, the state and the event for which the state machine
    ([SmTable]) then runs a handler; a message that cannot be handled is answered or
    dropped, and the state machine is skipped.

    Each case of its switch is a definition; a case that falls through to the next one
    calls it.  The buffer of received bytes is fixed, [gtpv2c_rx] is an offset in it, and
    the TEID of a header is read in the order of the host.

    A call of a function of another file (error responses, timers, counters, copies for
    lawful interception) is entered in a log, with the message that it is given, and
    changes the tables as [effect] says, which is arbitrary.  The calls of
    [process_error_occured_handler] pass the address of the pointer [msg] where the
    handler expects the message: it reads outside that pointer, which is a fault here.
    The members of [resp_info] that are saved for an attach with a dedicated bearer are
    not in its record. *)
From S2P Require Import Prelude CText LList Teid SmTable CpTables CMonad UeContext SmSession Gtpc.
From Stdlib Require Import Ascii.

(** ** State *)

Record msg_info := mk_msg {
  msg_type : Z;
  msg_state : Z;
  msg_event : Z;
  msg_proc : Z;
  msg_cp_mode : Z;
  msg_interface_type : Z;
  msg_gtpc_msg : gtpc_msg;
  msg_cb_rsp : gtpc_msg
}.

Definition set_msg_type (v : Z) (r : msg_info) : msg_info :=
  mk_msg v (msg_state r) (msg_event r) (msg_proc r) (msg_cp_mode r) (msg_interface_type r)
    (msg_gtpc_msg r) (msg_cb_rsp r).
Definition set_msg_state (v : Z) (r : msg_info) : msg_info :=
  mk_msg (msg_type r) v (msg_event r) (msg_proc r) (msg_cp_mode r) (msg_interface_type r)
    (msg_gtpc_msg r) (msg_cb_rsp r).
Definition set_msg_event (v : Z) (r : msg_info) : msg_info :=
  mk_msg (msg_type r) (msg_state r) v (msg_proc r) (msg_cp_mode r) (msg_interface_type r)
    (msg_gtpc_msg r) (msg_cb_rsp r).
Definition set_msg_proc (v : Z) (r : msg_info) : msg_info :=
  mk_msg (msg_type r) (msg_state r) (msg_event r) v (msg_cp_mode r) (msg_interface_type r)
    (msg_gtpc_msg r) (msg_cb_rsp r).
Definition set_msg_cp_mode (v : Z) (r : msg_info) : msg_info :=
  mk_msg (msg_type r) (msg_state r) (msg_event r) (msg_proc r) v (msg_interface_type r) (msg_gtpc_msg
    r) (msg_cb_rsp r).
Definition set_msg_interface_type (v : Z) (r : msg_info) : msg_info :=
  mk_msg (msg_type r) (msg_state r) (msg_event r) (msg_proc r) (msg_cp_mode r) v (msg_gtpc_msg r)
    (msg_cb_rsp r).
Definition set_msg_gtpc_msg (v : gtpc_msg) (r : msg_info) : msg_info :=
  mk_msg (msg_type r) (msg_state r) (msg_event r) (msg_proc r) (msg_cp_mode r) (msg_interface_type r)
    v (msg_cb_rsp r).
Definition set_msg_cb_rsp (v : gtpc_msg) (r : msg_info) : msg_info :=
  mk_msg (msg_type r) (msg_state r) (msg_event r) (msg_proc r) (msg_cp_mode r) (msg_interface_type r)
    (msg_gtpc_msg r) v.

Definition zero_msg : msg_info := mk_msg 0 0 0 0 0 0 zero_gtpc_msg zero_gtpc_msg.

(** The tables of the control plane. *)
Record cp_state := mk_cp {
  cp_ue : ue_store;
  cp_sm : sm_store;
  cp_teid_values : gmap loc teid_value_t;
  cp_ds_seq_key_with_teid : gmap text loc
}.

Definition set_cp_ue (v : ue_store) (r : cp_state) : cp_state :=
  mk_cp v (cp_sm r) (cp_teid_values r) (cp_ds_seq_key_with_teid r).

(** The functions of other files that are called, with their arguments but for the message
    and the peer's address. *)
Inductive callee : Type :=
| send_version_not_supported (iface seq : Z)
| cs_error_response (cause source iface : Z)
| ds_error_response (cause source iface : Z)
| mbr_error_response (cause source iface : Z)
| cbr_error_response (cause source iface : Z)
| delete_bearer_error_response (cause source iface : Z)
| ubr_error_response (cause source iface : Z)
| delete_bearer_cmd_failure_indication (cause source iface : Z)
| change_notification_error_response (cause source iface : Z)
| release_access_bearer_error_response (cause source iface : Z)
| send_bearer_resource_failure_indication (cause source iface : Z)
| modify_bearer_failure_indication (cause source iface : Z)
| update_pdn_connection_set_error_response (cause source : Z)
| crt_indir_data_frwd_tun_error_response (cause : Z)
| delete_indir_data_frwd_error_response (cause : Z)
| mod_access_bearer_error_response (cause source : Z)
| delete_timer_entry (teid : Z)
| delete_pfcp_if_timer_entry (teid ebi_index : Z)
| delete_gtpv2c_if_timer_entry (teid ebi_index : Z)
| add_node_conn_entry (port cp_mode : Z)
| update_sys_stat_number_of_users
| update_sys_stat_number_of_active_session
| process_pkt_for_li (intfc : Z) (from : nat) (bytes : Z).

Class Callees := effect : callee -> msg_info -> cp_state -> cp_state.

Record pcnd := mk_pcnd {
  tables : cp_state;
  msg : msg_info;
  calls : list (callee * msg_info)
}.

Definition set_tables (v : cp_state) (r : pcnd) : pcnd :=
  mk_pcnd v (msg r) (calls r).
Definition set_msg (v : msg_info) (r : pcnd) : pcnd :=
  mk_pcnd (tables r) v (calls r).
Definition set_calls (v : list (callee * msg_info)) (r : pcnd) : pcnd :=
  mk_pcnd (tables r) (msg r) v.

(** [switch (v) { case ... }]. *)
Definition switch {A} (v : Z) (cases : list (Z * A)) (default : A) : A :=
  match find (fun c => bool_decide (c.1 = v)) cases with
  | Some c => c.2
  | None => default
  end.

Definition PRESENT : Z := 1.
Definition S11_SGW_PORT_ID : Z := 0.
Definition S5S8_PGWC_PORT_ID : Z := 3.
Definition S11_INTFC_IN : Z := 1.
Definition S5S8_C_INTFC_IN : Z := 3.
Definition NUM_EBI_RESERVED : Z := 1.
Definition SIZEOF_GTPC : nat := 4.
Definition SIZEOF_HEADER : nat := 12.
Definition FAILED : Z := u8 (-1).

(** The variables that outlive the switch: the context, the message that is read, whether
    it is the second of two, and the first of them if it is kept for interception. *)
Record locals := mk_locals {
  l_context : ptr;
  l_rx : nat;
  l_piggyback : bool;
  l_li_buf : option nat
}.

Section Pcnd.
Context `{GtpLib} `{Callees}.
Variables (config : pfcp_config_t) (buf : list byte) (bytes_rx interface_type : Z).

Abbreviation pcnd_cmd := (cmd pcnd Z).

(** ** Commands *)

Definition perform (f : callee) : pcnd_cmd unit :=
  modify (fun s => mk_pcnd (effect f (msg s) (tables s)) (msg s) (calls s ++ [(f, msg s)])).

Definition assign (f : msg_info -> msg_info) : pcnd_cmd unit :=
  modify (fun s => set_msg (f (msg s)) s).

Definition process_error_occured_handler : pcnd_cmd unit := fault.

Definition ue_tables {A} (f : ue_store -> A) : pcnd_cmd A := read (fun s => f (cp_ue (tables s))).

Definition change_tables (f : ue_store -> option ue_store) : pcnd_cmd unit :=
  update (fun s => ue ← f (cp_ue (tables s)); Some (set_tables (set_cp_ue ue (tables s)) s)).

Definition context_of (c : loc) : pcnd_cmd ue_context := do u <- ue_tables (ue_at c); deref u.
Definition pdn_of (p : loc) : pcnd_cmd pdn_connection := do pd <- ue_tables (pdn_at p); deref pd.

Definition set_context (c : loc) (f : ue_context -> ue_context) : pcnd_cmd unit :=
  change_tables (change_ue c (fun u => Some (f u))).
Definition set_pdn (p : loc) (f : pdn_connection -> pdn_connection) : pcnd_cmd unit :=
  change_tables (change_pdn p (fun pd => Some (f pd))).

(** [GET_PDN(context, ebi_index)] on a context that is there. *)
Definition get_pdn_at (c : loc) (ebi_index : Z) : pcnd_cmd ptr :=
  do u <- context_of c;
  do p <- ue_tables (fun s => GET_PDN s u ebi_index);
  deref p.

(** [context->eps_bearers[ebi_index]->pdn]. *)
Definition pdn_of_bearer (c : loc) (ebi_index : Z) : pcnd_cmd ptr :=
  do u <- context_of c;
  do b <- deref (array_get (ue_eps_bearers u) ebi_index);
  do b <- deref b;
  do br <- ue_tables (bearer_at b);
  do br <- deref br;
  skip (eb_pdn br).

(** [get_ue_context], [get_ue_context_by_sgw_s5s8_teid] and [get_sender_teid_context]: the
    value and [*context]. *)
Definition ue_context_of_teid (teid : Z) : pcnd_cmd (Z * ptr) := ue_tables (get_ue_context teid).
Definition ue_context_of_s5s8_teid (teid : Z) : pcnd_cmd (Z * ptr) :=
  do r <- ue_tables (get_ue_context_by_sgw_s5s8_teid teid); deref r.

Definition delete_teid_entry (key : text) : pcnd_cmd unit :=
  update (fun s =>
    '(cells, index, _) ← delete_teid_entry_for_seq (cp_teid_values (tables s))
                           (cp_ds_seq_key_with_teid (tables s)) key;
    Some (set_tables (mk_cp (cp_ue (tables s)) (cp_sm (tables s)) cells index) s)).

Definition teid_value_of (p : loc) : pcnd_cmd teid_value_t :=
  do v <- read (fun s => cp_teid_values (tables s) !! p); deref v.

Definition header_of (rx : nat) : pcnd_cmd gtpv2c_header_t :=
  if bool_decide (rx + SIZEOF_HEADER <= length buf)%nat then skip (header_at (drop rx buf)) else fault.

(** [decode_X(gtpv2c_rx, &msg->gtpc_msg.X)] for the messages of a type. *)
Definition decode_message (t : Z) (rx : nat) : pcnd_cmd Z :=
  let '(ret, m) := decode t (drop rx buf) in
  assign (set_msg_gtpc_msg m);;
  skip ret.

Definition message : pcnd_cmd gtpc_msg := read (fun s => msg_gtpc_msg (msg s)).

Definition procedure_of_message : pcnd_cmd Z :=
  read (fun s => get_procedure (msg_type (msg s)) (msg_gtpc_msg (msg s))).

(** [msg->proc = get_procedure(msg)]. *)
Definition set_procedure : pcnd_cmd Z :=
  do p <- procedure_of_message; assign (set_msg_proc p);; skip p.

(** [msg->cp_mode != PGWC ? S11_IFACE : S5S8_IFACE] and the like. *)
Definition s11_or_s5s8 (cp_mode : Z) : Z := if bool_decide (cp_mode <> PGWC) then S11_IFACE else S5S8_IFACE.
Definition s5s8_or_gx (cp_mode : Z) : Z := if bool_decide (cp_mode = SGWC) then S5S8_IFACE else GX_IFACE.

(** A response, and the end. *)
Definition refuse {A} (f : callee) : pcnd_cmd A := perform f;; return_ FAILED.

(** The first [if] of the responses: an error with TEID 0 is matched through its sequence
    number with the request, and answered.  [missing] is run if there is no such request. *)
Definition zero_teid_error (key : text) (timer : Z -> callee) (respond missing cleanup : pcnd_cmd unit) : pcnd_cmd unit :=
  do m <- message;
  when bool_decide (m_teid m = 0) && bool_decide (m_cause m <> GTPV2C_CAUSE_REQUEST_ACCEPTED) then_
    (do v <- read (fun s => get_teid_for_seq_number (cp_ds_seq_key_with_teid (tables s)) key);
     match v with
     | None => missing;; return_ FAILED
     | Some p =>
         do v <- teid_value_of p;
         perform (timer (tv_teid v));;
         do v <- teid_value_of p;
         assign (fun mi => set_msg_gtpc_msg (set_m_teid (tv_teid v) (msg_gtpc_msg mi)) mi);;
         respond;;
         delete_teid_entry key;;
         cleanup;;
         return_ (u8 GTPC_ZERO_TEID_FOUND)
     end).

(** The context's own command is answered by this request: its timer is stopped. *)
Definition bearer_resource_answered (c : loc) (teid : Z) : pcnd_cmd unit :=
  do u <- context_of c;
  do m <- message;
  when bool_decide (ue_initiated_seq_no u = m_seq m) then_
    (perform (delete_timer_entry teid);;
     delete_teid_entry (teid_key (lit "UE_REQ_BER_RSRC_MOD_PROC") (m_seq m))).

Definition set_cp_mode_of (c : loc) : pcnd_cmd unit :=
  do u <- context_of c; assign (set_msg_cp_mode (ue_cp_mode u)).
Definition set_interface_type : pcnd_cmd unit := assign (set_msg_interface_type interface_type).

(** [update_ue_proc(context, msg->proc, ebi_index)]. *)
Definition update_proc (c : loc) (ebi_index : Z) : pcnd_cmd Z :=
  do proc <- read (fun s => msg_proc (msg s));
  call (fun s => '(ue, r) ← update_ue_proc c proc ebi_index (cp_ue (tables s));
                 Some (set_tables (set_cp_ue ue (tables s)) s, r)).

(** The end of a case. *)
Definition leave (context : ptr) (rx : nat) : pcnd_cmd locals := skip (mk_locals context rx false None).

(** ** Length and version *)

Definition gtpv2c_pcnd_check (gtpv2c_rx : nat) : pcnd_cmd Z :=
  do h <- header_of gtpv2c_rx;
  if bool_decide (u32 bytes_rx <> h_message_len h + Z.of_nat SIZEOF_GTPC) && negb (h_piggyback h)
  then skip GTPV2C_CAUSE_INVALID_LENGTH
  else if bool_decide (bytes_rx > 0) then
    if bool_decide (h_version h < GTP_VERSION_GTPV2C) then skip GTPV2C_CAUSE_VERSION_NOT_SUPPORTED
    else if bool_decide (h_version h > GTP_VERSION_GTPV2C) then
      perform (send_version_not_supported interface_type (h_seq h));;
      skip GTPV2C_CAUSE_VERSION_NOT_SUPPORTED
    else skip 0
  else skip 0.

(** What is done with a message of a wrong length if it can be decoded. *)
Definition wrong_length_cases (ret : Z) : list (Z * pcnd_cmd unit) :=
  let gx_or_s5s8 := if bool_decide (interface_type = S5S8_IFACE) then GX_IFACE else S5S8_IFACE in
  [(GTP_CREATE_SESSION_REQ,
      assign (set_msg_cp_mode 0);; perform (cs_error_response ret 0 interface_type);; process_error_occured_handler);
   (GTP_CREATE_SESSION_RSP,
      assign (set_msg_cp_mode 0);; perform (cs_error_response ret 0 interface_type);; process_error_occured_handler);
   (GTP_DELETE_SESSION_REQ, perform (ds_error_response ret 0 interface_type));
   (GTP_DELETE_SESSION_RSP, perform (ds_error_response ret 0 interface_type));
   (GTP_MODIFY_BEARER_REQ, perform (mbr_error_response ret 0 interface_type));
   (GTP_MODIFY_BEARER_RSP, perform (mbr_error_response ret 0 interface_type));
   (GTP_CREATE_BEARER_REQ, perform (cbr_error_response ret 0 S5S8_IFACE));
   (GTP_CREATE_BEARER_RSP, perform (cbr_error_response ret 0 gx_or_s5s8));
   (GTP_DELETE_BEARER_REQ, perform (delete_bearer_error_response ret 0 S5S8_IFACE));
   (GTP_DELETE_BEARER_RSP, perform (delete_bearer_error_response ret 0 gx_or_s5s8));
   (GTP_UPDATE_BEARER_REQ, perform (ubr_error_response ret 0 S5S8_IFACE));
   (GTP_UPDATE_BEARER_RSP, perform (ubr_error_response ret 0 S5S8_IFACE));
   (GTP_DELETE_PDN_CONNECTION_SET_REQ, skip tt);
   (GTP_DELETE_PDN_CONNECTION_SET_RSP, skip tt);
   (GTP_UPDATE_PDN_CONNECTION_SET_REQ, perform (update_pdn_connection_set_error_response 0 ret));
   (GTP_UPDATE_PDN_CONNECTION_SET_RSP, perform (mbr_error_response ret 0 interface_type));
   (GTP_PGW_RESTART_NOTIFICATION_ACK, skip tt);
   (GTP_DELETE_BEARER_CMD, perform (delete_bearer_cmd_failure_indication ret 0 interface_type));
   (GTP_DELETE_BEARER_FAILURE_IND, perform (delete_bearer_cmd_failure_indication ret 0 interface_type));
   (GTP_CHANGE_NOTIFICATION_REQ, perform (change_notification_error_response ret 0 interface_type));
   (GTP_RELEASE_ACCESS_BEARERS_REQ, perform (release_access_bearer_error_response ret 0 interface_type));
   (GTP_BEARER_RESOURCE_CMD, perform (send_bearer_resource_failure_indication ret 0 interface_type));
   (GTP_BEARER_RESOURCE_FAILURE_IND, perform (send_bearer_resource_failure_indication ret 0 interface_type));
   (GTP_MODIFY_BEARER_CMD, perform (modify_bearer_failure_indication ret 0 interface_type));
   (GTP_MODIFY_BEARER_FAILURE_IND, perform (modify_bearer_failure_indication ret 0 interface_type));
   (GTP_CREATE_INDIRECT_DATA_FORWARDING_TUNNEL_REQ, perform (crt_indir_data_frwd_tun_error_response ret));
   (GTP_DELETE_INDIRECT_DATA_FORWARDING_TUNNEL_REQ, perform (delete_indir_data_frwd_error_response ret));
   (GTP_MODIFY_ACCESS_BEARER_REQ, perform (mod_access_bearer_error_response ret 0))].

Definition wrong_length (rx : nat) (ret : Z) : pcnd_cmd unit :=
  do t <- read (fun s => msg_type (msg s));
  match find (fun c => bool_decide (c.1 = t)) (wrong_length_cases ret) with
  | None => skip tt
  | Some c =>
      do decoded <- decode_message t rx;
      when bool_decide (decoded <> 0) then_ c.2
  end.

(** ** Sessions *)

Definition none_state (cp_mode : Z) : Z :=
  if bool_decide (cp_mode = SGWC) then SGWC_NONE_STATE
  else if config_use_gx config then PGWC_NONE_STATE else SGWC_NONE_STATE.

(** The test of the peer's address before [add_node_conn_entry] asks whether an array is
    there, and always holds. *)
Definition create_session_req (rx : nat) : pcnd_cmd locals :=
  let '(ret, cp_type, m) := decode_check_csr config (drop rx buf) in
  assign (set_msg_gtpc_msg m);;
  (when bool_decide (ret <> 0) then_
     ((when bool_decide (ret <> -1) then_
         (if bool_decide (cp_type <> 0) then
            assign (set_msg_cp_mode cp_type);; perform (cs_error_response ret 0 (s11_or_s5s8 cp_type))
          else assign (set_msg_cp_mode 0);; perform (cs_error_response ret 0 interface_type)));;
      return_ FAILED));;
  assign (set_msg_cp_mode cp_type);;
  set_interface_type;;
  perform (add_node_conn_entry
             (if bool_decide (cp_type <> PGWC) then S11_SGW_PORT_ID else S5S8_PGWC_PORT_ID) cp_type);;
  do proc <- set_procedure;
  (if bool_decide (proc = INITIAL_PDN_ATTACH_PROC) then assign (set_msg_state (none_state cp_type))
   else when bool_decide (proc = S1_HANDOVER_PROC) then_ assign (set_msg_state SGWC_NONE_STATE));;
  assign (set_msg_event CS_REQ_RCVD_EVNT);;
  leave None rx.

(** Entered at [case GTP_CREATE_BEARER_REQ], or from the case above it. *)
Definition create_bearer_req (rx : nat) (piggyback : bool) (li_buf : option nat) : pcnd_cmd locals :=
  do ret <- decode_message GTP_CREATE_BEARER_REQ rx;
  (when bool_decide (ret = 0) then_ return_ FAILED);;
  do h <- header_of rx;
  do m <- message;
  let ebi_index := GET_EBI_INDEX (m_lbi m) in
  do '(ret, context) <- ue_context_of_s5s8_teid (h_teid h);
  (when bool_decide (ret <> 0) then_
     refuse (cbr_error_response GTPV2C_CAUSE_CONTEXT_NOT_FOUND 0 S5S8_IFACE));;
  do c <- deref context;
  bearer_resource_answered c (h_teid h);;
  (when bool_decide (ebi_index = -1) then_
     refuse (cbr_error_response GTPV2C_CAUSE_SYSTEM_FAILURE 0 S5S8_IFACE));;
  set_cp_mode_of c;;
  set_interface_type;;
  do p <- pdn_of_bearer c ebi_index;
  do p <- deref p;
  do pd <- pdn_of p;
  assign (set_msg_state (pdn_state pd));;
  (if (bool_decide (pdn_proc pd = ATTACH_DEDICATED_PROC) && piggyback) ||
      bool_decide (pdn_proc pd = UE_REQ_BER_RSRC_MOD_PROC)
   then assign (set_msg_proc (pdn_proc pd))
   else do _ <- set_procedure; skip tt);;
  assign (set_msg_event CREATE_BER_REQ_RCVD_EVNT);;
  skip (mk_locals context rx piggyback li_buf).

(** The next message of the buffer, and the buffer that is kept if the UE is intercepted. *)
Definition next_message (c : loc) (rx : nat) : pcnd_cmd (nat * option nat) :=
  do u <- context_of c;
  let li_buf := if bool_decide (ue_dupl u = PRESENT) then Some rx else None in
  do h <- header_of rx;
  let rx := (rx + Z.to_nat (h_message_len h) + SIZEOF_GTPC)%nat in
  do h <- header_of rx;
  assign (set_msg_type (h_message_type h));;
  skip (rx, li_buf).

Definition get_session (seid : Z) : pcnd_cmd unit :=
  do r <- read (fun s => get_sess_entry seid (cp_sm (tables s))); do _ <- deref r; skip tt.

Definition create_session_rsp (rx : nat) : pcnd_cmd locals :=
  do ret <- decode_message GTP_CREATE_SESSION_RSP rx;
  (when bool_decide (ret = 0) then_ return_ FAILED);;
  do m <- message;
  perform (delete_timer_entry (m_teid m));;
  set_interface_type;;
  (when bool_decide (m_cause m <> GTPV2C_CAUSE_REQUEST_ACCEPTED) &&
        bool_decide (m_cause m <> GTPV2C_CAUSE_NEW_PDN_TYPE_NETWORK_PREFERENCE) &&
        bool_decide (m_cause m <> GTPV2C_CAUSE_NEW_PDN_TYPE_SINGLE_ADDR_BEARER) then_
     (assign (set_msg_cp_mode 0);; refuse (cs_error_response (m_cause m) 1 S11_IFACE)));;
  do '(ret, context) <- ue_context_of_s5s8_teid (m_teid m);
  (when bool_decide (ret <> 0) then_
     ((when bool_decide (m_sender_interface_type m = S5_S8_PGW_GTP_C) then_
         (assign (set_msg_cp_mode 0);;
          perform (cs_error_response GTPV2C_CAUSE_CONTEXT_NOT_FOUND 0 S11_IFACE)));;
      return_ FAILED));;
  do c <- deref context;
  set_cp_mode_of c;;
  let ebi_index := GET_EBI_INDEX (m_bearer_ebi m) in
  do cp_mode <- read (fun s => msg_cp_mode (msg s));
  (when bool_decide (ebi_index = -1) then_
     refuse (cs_error_response GTPV2C_CAUSE_SYSTEM_FAILURE 0 (s11_or_s5s8 cp_mode)));;
  do p <- get_pdn_at c ebi_index;
  match p with
  | None => return_ FAILED
  | Some p =>
      do pd <- pdn_of p;
      assign (set_msg_state (pdn_state pd));;
      perform update_sys_stat_number_of_users;;
      perform update_sys_stat_number_of_active_session;;
      if m_piggyback m then
        assign (set_msg_proc ATTACH_DEDICATED_PROC);;
        set_pdn p (set_pdn_proc ATTACH_DEDICATED_PROC);;
        do pd <- pdn_of p;
        get_session (pdn_seid pd);;
        do '(rx, li_buf) <- next_message c rx;
        create_bearer_req rx true li_buf
      else
        do pd <- pdn_of p;
        assign (set_msg_proc (pdn_proc pd));;
        assign (set_msg_event CS_RESP_RCVD_EVNT);;
        leave context rx
  end.

Definition delete_session_req (rx : nat) : pcnd_cmd locals :=
  do ret <- decode_message GTP_DELETE_SESSION_REQ rx;
  (when bool_decide (ret = 0) then_ return_ FAILED);;
  do m <- message;
  do '(ret, context) <- ue_context_of_teid (m_teid m);
  (when bool_decide (ret <> 0) then_
     refuse (ds_error_response GTPV2C_CAUSE_CONTEXT_NOT_FOUND 0
               (if bool_decide (m_indctn_flgs_len m <> 0) then S11_IFACE else S5S8_IFACE)));;
  do c <- deref context;
  set_cp_mode_of c;;
  set_interface_type;;
  do u <- context_of c;
  let ebi_index := GET_EBI_INDEX (m_lbi m) in
  (when bool_decide (ebi_index = -1) then_
     refuse (ds_error_response GTPV2C_CAUSE_SYSTEM_FAILURE 0 (s11_or_s5s8 (ue_cp_mode u))));;
  do proc <- set_procedure;
  (when bool_decide (proc = DETACH_PROC) then_
     (do r <- update_proc c ebi_index;
      when bool_decide (r <> 0) then_
        refuse (ds_error_response GTPV2C_CAUSE_CONTEXT_NOT_FOUND 0 (s11_or_s5s8 (ue_cp_mode u)))));;
  assign (set_msg_state CONNECTED_STATE);;
  assign (set_msg_event DS_REQ_RCVD_EVNT);;
  leave context rx.

Definition delete_session_rsp (rx : nat) : pcnd_cmd locals :=
  do ret <- decode_message GTP_DELETE_SESSION_RSP rx;
  (when bool_decide (ret = 0) then_ return_ FAILED);;
  do proc <- set_procedure;
  do m <- message;
  let key := teid_key (get_proc_string proc) (m_seq m) in
  let not_found := ds_error_response GTPV2C_CAUSE_CONTEXT_NOT_FOUND 0 S11_IFACE in
  do '(ret, context) <- ue_context_of_s5s8_teid (m_teid m);
  do context <-
    (if bool_decide (ret <> 0) then
       do v <- read (fun s => get_teid_for_seq_number (cp_ds_seq_key_with_teid (tables s)) key);
       match v with
       | None => refuse not_found
       | Some p =>
           do v <- teid_value_of p;
           perform (delete_timer_entry (tv_teid v));;
           do v <- teid_value_of p;
           assign (fun mi => set_msg_gtpc_msg (set_m_teid (tv_teid v) (msg_gtpc_msg mi)) mi);;
           delete_teid_entry key;;
           do '(ret, context) <- ue_context_of_s5s8_teid (tv_teid v);
           if bool_decide (ret <> 0) then refuse not_found else skip context
       end
     else skip context);
  do m <- message;
  perform (delete_timer_entry (m_teid m));;
  delete_teid_entry key;;
  (match context with Some c => set_cp_mode_of c | None => skip tt end);;
  set_interface_type;;
  assign (set_msg_state DS_REQ_SNT_STATE);;
  assign (set_msg_event DS_RESP_RCVD_EVNT);;
  leave context rx.

(** ** Bearers *)

(** The index of the bearer that a Modify Bearer Response is about. *)
Definition modified_bearer (m : gtpc_msg) : pcnd_cmd Z :=
  if bool_decide (m_linked_eps_bearer_id m = 0) then
    if bool_decide (m_bearer_len m <> 0) then skip (GET_EBI_INDEX (m_bearer_ebi m))
    else
      do '(ret, b) <- ue_tables (get_bearer_by_teid (m_teid m));
      (* no bearer: answered as an invalid id *)
      if bool_decide (ret < 0) then skip (-1)
      else
        do b <- deref b;
        do br <- ue_tables (bearer_at b);
        do br <- deref br;
        do p <- deref (eb_pdn br);
        do pd <- pdn_of p;
        skip (GET_EBI_INDEX (UE_BEAR_ID (pdn_seid pd)))
  else skip (GET_EBI_INDEX (m_linked_eps_bearer_id m)).

Definition modify_bearer_rsp (rx : nat) : pcnd_cmd locals :=
  do ret <- decode_message GTP_MODIFY_BEARER_RSP rx;
  (when bool_decide (ret = 0) then_ return_ FAILED);;
  do proc <- set_procedure;
  do m <- message;
  let key := teid_key (get_proc_string proc) (m_seq m) in
  zero_teid_error key delete_timer_entry
    (perform (mbr_error_response GTPV2C_CAUSE_CONTEXT_NOT_FOUND 0 S11_IFACE)) (skip tt)
    process_error_occured_handler;;
  perform (delete_timer_entry (m_teid m));;
  delete_teid_entry key;;
  do '(ret, context) <- ue_context_of_s5s8_teid (m_teid m);
  (when bool_decide (ret <> 0) then_
     ((if bool_decide (m_bearer_count m <> 0) then
         assign (set_msg_cp_mode 0);; perform (cs_error_response GTPV2C_CAUSE_CONTEXT_NOT_FOUND 0 S11_IFACE)
       else perform (mbr_error_response GTPV2C_CAUSE_CONTEXT_NOT_FOUND 0 S11_IFACE));;
      process_error_occured_handler;;
      return_ FAILED));;
  do c <- deref context;
  set_cp_mode_of c;;
  set_interface_type;;
  do u <- context_of c;
  let iface := s11_or_s5s8 (ue_cp_mode u) in
  (when bool_decide (m_cause m <> GTPV2C_CAUSE_REQUEST_ACCEPTED) then_
     (if bool_decide (ue_procedure u = SGW_RELOCATION_PROC)
      then refuse (cs_error_response (m_cause m) 1 iface)
      else refuse (mbr_error_response (m_cause m) 1 iface)));;
  do ebi_index <- modified_bearer m;
  (when bool_decide (ebi_index = -1) then_
     refuse (mbr_error_response GTPV2C_CAUSE_CONTEXT_NOT_FOUND 0 iface));;
  do p <- get_pdn_at c ebi_index;
  match p with
  | None => refuse (mbr_error_response GTPV2C_CAUSE_CONTEXT_NOT_FOUND 0 iface)
  | Some p =>
      do pd <- pdn_of p;
      assign (set_msg_state (pdn_state pd));;
      assign (set_msg_proc (pdn_proc pd));;
      assign (set_msg_event MB_RESP_RCVD_EVNT);;
      leave context rx
  end.

(** The loop of the Release Access Bearers Request over [context->pdns]. *)
Fixpoint release_pdns (ps : list ptr) : pcnd_cmd unit :=
  match ps with
  | [] => skip tt
  | None :: ps => release_pdns ps
  | Some p :: ps =>
      do proc <- read (fun s => msg_proc (msg s));
      set_pdn p (set_pdn_proc proc);;
      do pd <- pdn_of p;
      assign (set_msg_state (pdn_state pd));;
      release_pdns ps
  end.

Definition release_access_bearers_req (rx : nat) : pcnd_cmd locals :=
  do ret <- decode_message GTP_RELEASE_ACCESS_BEARERS_REQ rx;
  (when bool_decide (ret = 0) then_ return_ FAILED);;
  do m <- message;
  do '(ret, context) <- ue_context_of_teid (m_teid m);
  (when bool_decide (ret <> 0) then_
     refuse (release_access_bearer_error_response GTPV2C_CAUSE_CONTEXT_NOT_FOUND 0 S11_IFACE));;
  do c <- deref context;
  set_context c (set_ue_pfcp_sess_count 0);;
  set_cp_mode_of c;;
  set_interface_type;;
  do _ <- set_procedure;
  assign (set_msg_event REL_ACC_BER_REQ_RCVD_EVNT);;
  do u <- context_of c;
  release_pdns (take MAX_BEARERS (ue_pdns u));;
  leave context rx.

(** The loop that looks for a PDN connection: the state and the procedure of the first
    one, or of the last one if it goes on; the index of its default bearer. *)
Fixpoint notified_pdn (go_on : bool) (ebi_index : Z) (ps : list ptr) : pcnd_cmd Z :=
  match ps with
  | [] => skip ebi_index
  | None :: ps => notified_pdn go_on ebi_index ps
  | Some p :: ps =>
      do pd <- pdn_of p;
      assign (set_msg_state (pdn_state pd));;
      assign (set_msg_proc (pdn_proc pd));;
      let ebi_index := GET_EBI_INDEX (pdn_default_bearer_id pd) in
      (when bool_decide (ebi_index = -1) then_ return_ GTPV2C_CAUSE_SYSTEM_FAILURE);;
      if go_on then notified_pdn go_on ebi_index ps else skip ebi_index
  end.

Definition downlink_data_notification_ack (rx : nat) : pcnd_cmd locals :=
  do ret <- decode_message GTP_DOWNLINK_DATA_NOTIFICATION_ACK rx;
  (when bool_decide (ret = 0) then_ return_ FAILED);;
  do h <- header_of rx;
  do '(ret, context) <- ue_context_of_teid (h_teid h);
  (when bool_decide (ret <> 0) then_ return_ FAILED);;
  do c <- deref context;
  do u <- context_of c;
  do ebi_index <- notified_pdn false 0 (take MAX_BEARERS (ue_pdns u));
  do m <- message;
  perform (delete_gtpv2c_if_timer_entry (m_teid m) ebi_index);;
  set_cp_mode_of c;;
  set_interface_type;;
  assign (set_msg_event DDN_ACK_RESP_RCVD_EVNT);;
  leave context rx.

Definition downlink_data_notification_failure_ind (rx : nat) : pcnd_cmd locals :=
  do ret <- decode_message GTP_DOWNLINK_DATA_NOTIFICATION_FAILURE_IND rx;
  (when bool_decide (ret = 0) then_ return_ FAILED);;
  do h <- header_of rx;
  do m <- message;
  do context <-
    (if bool_decide (h_teid h <> 0) then
       do '(ret, context) <- ue_context_of_teid (h_teid h);
       if bool_decide (ret <> 0) then return_ FAILED else skip context
     else if bool_decide (m_imsi_len m <> 0) then
       do context <- ue_tables (fun s => ue_context_by_imsi_hash s !! m_imsi m);
       match context with None => return_ FAILED | Some c => skip (Some c) end
     else return_ FAILED);
  do c <- deref context;
  do u <- context_of c;
  do ebi_index <- notified_pdn true 0 (take MAX_BEARERS (ue_pdns u));
  perform (delete_gtpv2c_if_timer_entry (m_teid m) ebi_index);;
  set_cp_mode_of c;;
  set_interface_type;;
  assign (set_msg_event DDN_FAILURE_INDIC_EVNT);;
  leave context rx.

(** [get_ue_state(...) > 0], the state is then [msg->state]. *)
Definition state_of_ue (teid ebi_index : Z) (otherwise : pcnd_cmd unit) : pcnd_cmd unit :=
  do ret <- ue_tables (get_ue_state teid ebi_index);
  do ret <- deref ret;
  if bool_decide (ret > 0) then assign (set_msg_state ret) else otherwise.

(** The mode that a Modify Bearer Request of an SGW-C asks for, 0 if none. *)
Definition demoted_mode (m : gtpc_msg) : pcnd_cmd Z :=
  if bool_decide (m_sender_len m <> 0) && bool_decide (m_sender_interface_type m = S5_S8_SGW_GTP_C) &&
     bool_decide (interface_type = S5S8_IFACE)
  then if bool_decide (config_cp_type config = SAEGWC) || bool_decide (config_cp_type config = PGWC)
       then skip PGWC else return_ FAILED
  else skip 0.

(** Entered at [case GTP_MODIFY_BEARER_REQ], or from the case above it. *)
Definition modify_bearer_req (rx : nat) (pdn : ptr) (li_buf : option nat) : pcnd_cmd locals :=
  do ret <- decode_message GTP_MODIFY_BEARER_REQ rx;
  (when bool_decide (ret = 0) then_ return_ FAILED);;
  do m <- message;
  do cp_mode <- demoted_mode m;
  do proc <- set_procedure;
  assign (set_msg_state CONNECTED_STATE);;
  assign (set_msg_event MB_REQ_RCVD_EVNT);;
  do '(ret, found) <- ue_context_of_teid (m_teid m);
  do context <-
    (if bool_decide (ret <> 0) then
       perform (mbr_error_response GTPV2C_CAUSE_CONTEXT_NOT_FOUND 0 interface_type);;
       assign (set_msg_gtpc_msg zero_gtpc_msg);;
       do cb_rsp <- read (fun s => msg_cb_rsp (msg s));
       if bool_decide (m_teid cb_rsp <> 0) then
         do '(ret, found) <- ue_context_of_teid (m_teid cb_rsp);
         if bool_decide (ret <> 0) then return_ FAILED else skip found
       else return_ FAILED
     else skip found);
  do c <- deref context;
  set_context c (set_ue_cp_mode_flag false);;
  do u <- context_of c;
  (when bool_decide (cp_mode <> 0) && bool_decide (cp_mode <> ue_cp_mode u) then_
     (set_context c (set_ue_cp_mode cp_mode);; set_context c (set_ue_cp_mode_flag true)));;
  do m <- message;
  do pdn <-
    (if bool_decide (m_bearer_count m <> 0) then
       let ebi_index := GET_EBI_INDEX (m_bearer_ebi m) in
       (when bool_decide (ebi_index = -1) then_
          refuse (mbr_error_response GTPV2C_CAUSE_SYSTEM_FAILURE 0 interface_type));;
       do p <- get_pdn_at c ebi_index;
       match p with
       | None => refuse (mbr_error_response GTPV2C_CAUSE_CONTEXT_NOT_FOUND 0 interface_type)
       | Some p => set_pdn p (set_pdn_proc proc);; skip (Some p)
       end
     else skip pdn);
  set_cp_mode_of c;;
  set_interface_type;;
  (when bool_decide (cp_mode = PGWC) then_
     (perform (add_node_conn_entry S5S8_PGWC_PORT_ID cp_mode);; assign (set_msg_cp_mode cp_mode)));;
  do u <- context_of c;
  (when ue_piggyback u then_
     (do p <- deref pdn;
      set_pdn p (set_pdn_proc ATTACH_DEDICATED_PROC);;
      assign (set_msg_proc ATTACH_DEDICATED_PROC);;
      assign (set_msg_state CREATE_BER_REQ_SNT_STATE);;
      assign (set_msg_event MB_REQ_RCVD_EVNT)));;
  skip (mk_locals context rx false li_buf).

Definition create_bearer_rsp (rx : nat) : pcnd_cmd locals :=
  do ret <- decode_message GTP_CREATE_BEARER_RSP rx;
  (when bool_decide (ret = 0) then_ return_ FAILED);;
  do h <- header_of rx;
  (* the index is never -1 *)
  let ebi_index := GET_EBI_INDEX (Z.of_nat MAX_BEARERS + NUM_EBI_RESERVED) in
  do proc <- set_procedure;
  do m <- message;
  let key := teid_key (get_proc_string proc) (m_seq m) in
  let not_found := cbr_error_response GTPV2C_CAUSE_CONTEXT_NOT_FOUND 0 interface_type in
  zero_teid_error key (fun teid => delete_pfcp_if_timer_entry teid ebi_index) (perform not_found)
    (skip tt) (skip tt);;
  do '(ret, context) <- ue_context_of_teid (h_teid h);
  (when bool_decide (ret <> 0) then_ return_ FAILED);;
  do c <- deref context;
  do p <- get_pdn_at c ebi_index;
  match p with
  | None => refuse not_found
  | Some p =>
      do pd <- pdn_of p;
      (when bool_decide (pdn_proc pd <> UE_REQ_BER_RSRC_MOD_PROC) then_ set_pdn p (set_pdn_proc proc));;
      perform (delete_pfcp_if_timer_entry (h_teid h) ebi_index);;
      do u <- context_of c;
      (when negb (m_piggyback m) && bool_decide (m_cause m <> GTPV2C_CAUSE_REQUEST_ACCEPTED) then_
         refuse (cbr_error_response (m_cause m) 0 (s5s8_or_gx (ue_cp_mode u))));;
      delete_teid_entry key;;
      state_of_ue (h_teid h) ebi_index (refuse not_found);;
      set_cp_mode_of c;;
      set_interface_type;;
      if m_piggyback m then
        assign (set_msg_proc ATTACH_DEDICATED_PROC);;
        set_pdn p (set_pdn_proc ATTACH_DEDICATED_PROC);;
        set_context c (set_ue_piggyback true);;
        do pd <- pdn_of p;
        get_session (pdn_seid pd);;
        assign (set_msg_cb_rsp m);;
        do '(rx, li_buf) <- next_message c rx;
        modify_bearer_req rx (Some p) li_buf
      else
        do pd <- pdn_of p;
        (if bool_decide (pdn_proc pd = UE_REQ_BER_RSRC_MOD_PROC)
         then assign (set_msg_proc UE_REQ_BER_RSRC_MOD_PROC) else do _ <- set_procedure; skip tt);;
        assign (set_msg_event CREATE_BER_RESP_RCVD_EVNT);;
        do u <- context_of c;
        (when ue_piggyback u then_ assign (set_msg_state CREATE_BER_REQ_SNT_STATE));;
        leave context rx
  end.

Definition delete_bearer_req (rx : nat) : pcnd_cmd locals :=
  do ret <- decode_message GTP_DELETE_BEARER_REQ rx;
  (when bool_decide (ret = 0) then_ return_ FAILED);;
  do h <- header_of rx;
  do m <- message;
  do '(ret, context) <- ue_context_of_s5s8_teid (h_teid h);
  (when bool_decide (ret <> 0) then_
     refuse (delete_bearer_error_response GTPV2C_CAUSE_CONTEXT_NOT_FOUND 0 S5S8_IFACE));;
  do c <- deref context;
  bearer_resource_answered c (h_teid h);;
  let ebi_index := GET_EBI_INDEX (if bool_decide (m_lbi_len m <> 0) then m_lbi m else m_eps_bearer_id_0 m) in
  (when bool_decide (ebi_index = -1) then_
     refuse (delete_bearer_error_response GTPV2C_CAUSE_SYSTEM_FAILURE 0 S5S8_IFACE));;
  do u <- context_of c;
  do b <- deref (array_get (ue_eps_bearers u) ebi_index);
  let not_found := delete_bearer_error_response GTPV2C_CAUSE_CONTEXT_NOT_FOUND 0 S5S8_IFACE in
  match b with
  | None => refuse not_found
  | Some b =>
      do br <- ue_tables (bearer_at b);
      do br <- deref br;
      match eb_pdn br with
      | None => refuse not_found
      | Some p =>
          do pd <- pdn_of p;
          (if bool_decide (pdn_proc pd = MME_INI_DEDICATED_BEARER_DEACTIVATION_PROC) ||
              bool_decide (pdn_proc pd = UE_REQ_BER_RSRC_MOD_PROC)
           then assign (set_msg_proc (pdn_proc pd))
           else do proc <- set_procedure; set_pdn p (set_pdn_proc proc));;
          set_pdn p (set_pdn_state CONNECTED_STATE);;
          assign (set_msg_state CONNECTED_STATE);;
          assign (set_msg_event DELETE_BER_REQ_RCVD_EVNT);;
          set_interface_type;;
          set_cp_mode_of c;;
          do proc <- read (fun s => msg_proc (msg s));
          set_pdn p (set_pdn_proc proc);;
          leave context rx
      end
  end.

(** An id that is not valid is answered before the context is looked up: its mode is read
    through [NULL]. *)
Definition delete_bearer_rsp (rx : nat) : pcnd_cmd locals :=
  do ret <- decode_message GTP_DELETE_BEARER_RSP rx;
  (when bool_decide (ret = 0) then_ return_ FAILED);;
  do h <- header_of rx;
  do m <- message;
  let ebi_index := GET_EBI_INDEX (if bool_decide (m_lbi_len m <> 0) then m_lbi m else m_bearer_ebi m) in
  (when bool_decide (ebi_index = -1) then_ fault);;
  do proc <- set_procedure;
  let key := teid_key (get_proc_string proc) (m_seq m) in
  zero_teid_error key (fun teid => delete_pfcp_if_timer_entry teid ebi_index)
    (perform (delete_bearer_error_response GTPV2C_CAUSE_SYSTEM_FAILURE 0 interface_type)) (skip tt) (skip tt);;
  do '(ret, context) <- ue_context_of_teid (h_teid h);
  (when bool_decide (ret <> 0) then_ return_ FAILED);;
  do c <- deref context;
  do u <- context_of c;
  (when bool_decide (m_cause m <> GTPV2C_CAUSE_REQUEST_ACCEPTED) &&
        bool_decide (m_cause m <> GTPV2C_CAUSE_CONTEXT_NOT_FOUND) then_
     (perform (delete_bearer_error_response (m_cause m) 0 (s5s8_or_gx (ue_cp_mode u)));;
      refuse (delete_pfcp_if_timer_entry (h_teid h) ebi_index)));;
  perform (delete_pfcp_if_timer_entry (h_teid h) ebi_index);;
  delete_teid_entry key;;
  state_of_ue (h_teid h) ebi_index (return_ FAILED);;
  do p <- pdn_of_bearer c ebi_index;
  do p <- deref p;
  do pd <- pdn_of p;
  (if bool_decide (pdn_proc pd = HSS_INITIATED_SUB_QOS_MOD) then do _ <- set_procedure; skip tt
   else assign (set_msg_proc (pdn_proc pd)));;
  assign (set_msg_event DELETE_BER_RESP_RCVD_EVNT);;
  set_interface_type;;
  set_cp_mode_of c;;
  leave context rx.

Definition delete_bearer_failure_ind (rx : nat) : pcnd_cmd locals :=
  do ret <- decode_message GTP_DELETE_BEARER_FAILURE_IND rx;
  (when bool_decide (ret = 0) then_ return_ FAILED);;
  set_interface_type;;
  do m <- message;
  (when bool_decide (m_cause m <> GTPV2C_CAUSE_REQUEST_ACCEPTED) then_
     refuse (delete_bearer_cmd_failure_indication (m_cause m) 1 S11_IFACE));;
  leave None rx.

Definition bearer_resource_failure_ind (rx : nat) : pcnd_cmd locals :=
  do ret <- decode_message GTP_BEARER_RESOURCE_FAILURE_IND rx;
  (when bool_decide (ret = 0) then_ return_ FAILED);;
  do proc <- set_procedure;
  do m <- message;
  let key := teid_key (get_proc_string proc) (m_seq m) in
  do '(ret, _) <- ue_context_of_s5s8_teid (m_teid m);
  do teid <-
    (if bool_decide (ret <> 0) then
       do v <- read (fun s => get_teid_for_seq_number (cp_ds_seq_key_with_teid (tables s)) key);
       match v with
       | None => return_ FAILED
       | Some p =>
           do v <- teid_value_of p;
           assign (fun mi => set_msg_gtpc_msg (set_m_teid (tv_teid v) (msg_gtpc_msg mi)) mi);;
           skip (tv_teid v)
       end
     else skip (m_teid m));
  perform (delete_timer_entry teid);;
  delete_teid_entry key;;
  refuse (send_bearer_resource_failure_indication (m_cause m) 0 S11_IFACE).

Definition modify_bearer_failure_ind (rx : nat) : pcnd_cmd locals :=
  do ret <- decode_message GTP_MODIFY_BEARER_FAILURE_IND rx;
  (when bool_decide (ret = 0) then_ return_ FAILED);;
  do h <- header_of rx;
  do m <- message;
  perform (delete_timer_entry (h_teid h));;
  refuse (modify_bearer_failure_indication (m_cause m) 0 S11_IFACE).

Definition modify_bearer_cmd (rx : nat) : pcnd_cmd locals :=
  do ret <- decode_message GTP_MODIFY_BEARER_CMD rx;
  (when bool_decide (ret = 0) then_ return_ FAILED);;
  do h <- header_of rx;
  do m <- message;
  do '(ret, context) <- ue_context_of_teid (h_teid h);
  (when bool_decide (ret <> 0) then_
     refuse (modify_bearer_failure_indication GTPV2C_CAUSE_CONTEXT_NOT_FOUND 0 interface_type));;
  do c <- deref context;
  (when bool_decide (m_bearer_len m = 0) then_
     refuse (modify_bearer_failure_indication GTPV2C_CAUSE_MANDATORY_IE_MISSING 0 interface_type));;
  let ebi_index := GET_EBI_INDEX (m_bearer_ebi m) in
  do bearer <-
    (if bool_decide (ebi_index <> -1) then do u <- context_of c; deref (array_get (ue_eps_bearers u) ebi_index)
     else skip None);
  (when bool_decide (ebi_index = -1) || bool_decide (bearer = None) then_
     refuse (modify_bearer_failure_indication GTPV2C_CAUSE_MANDATORY_IE_INCORRECT 0 interface_type));;
  set_cp_mode_of c;;
  set_interface_type;;
  do _ <- set_procedure;
  do r <- update_proc c ebi_index;
  (when bool_decide (r <> 0) then_
     refuse (modify_bearer_failure_indication GTPV2C_CAUSE_CONTEXT_NOT_FOUND 0 interface_type));;
  assign (set_msg_state CONNECTED_STATE);;
  assign (set_msg_event MODIFY_BEARER_CMD_RCVD_EVNT);;
  leave context rx.

(** The procedure of an update: that of the PDN connection if the UE asked for it. *)
Definition update_procedure (p : ptr) : pcnd_cmd unit :=
  match p with
  | Some p =>
      do pd <- pdn_of p;
      if bool_decide (pdn_proc pd = UE_REQ_BER_RSRC_MOD_PROC) then assign (set_msg_proc UE_REQ_BER_RSRC_MOD_PROC)
      else do _ <- set_procedure; skip tt
  | None => do _ <- set_procedure; skip tt
  end.

Definition update_bearer_req (rx : nat) : pcnd_cmd locals :=
  do ret <- decode_message GTP_UPDATE_BEARER_REQ rx;
  (when bool_decide (ret = 0) then_ return_ FAILED);;
  do h <- header_of rx;
  do m <- message;
  do '(ret, context) <- ue_context_of_s5s8_teid (h_teid h);
  (when bool_decide (ret <> 0) then_
     refuse (ubr_error_response GTPV2C_CAUSE_CONTEXT_NOT_FOUND 0 S5S8_IFACE));;
  do c <- deref context;
  bearer_resource_answered c (h_teid h);;
  let ebi_index := GET_EBI_INDEX (m_bearer_ebi m) in
  (when bool_decide (ebi_index = -1) then_
     refuse (ubr_error_response GTPV2C_CAUSE_SYSTEM_FAILURE 0 S5S8_IFACE));;
  do p <- get_pdn_at c ebi_index;
  update_procedure p;;
  set_interface_type;;
  do p <- pdn_of_bearer c ebi_index;
  do p <- deref p;
  do pd <- pdn_of p;
  assign (set_msg_state (pdn_state pd));;
  assign (set_msg_event UPDATE_BEARER_REQ_RCVD_EVNT);;
  set_cp_mode_of c;;
  leave context rx.

(** As in [delete_bearer_rsp], an id that is not valid is answered through [NULL]. *)
Definition update_bearer_rsp (rx : nat) : pcnd_cmd locals :=
  do ret <- decode_message GTP_UPDATE_BEARER_RSP rx;
  (when bool_decide (ret = 0) then_ return_ FAILED);;
  do h <- header_of rx;
  do m <- message;
  let ebi_index := GET_EBI_INDEX (m_bearer_ebi m) in
  (when bool_decide (ebi_index = -1) then_ fault);;
  do proc <- set_procedure;
  let key := teid_key (get_proc_string proc) (m_seq m) in
  zero_teid_error key (fun teid => delete_pfcp_if_timer_entry teid ebi_index)
    (perform (ubr_error_response GTPV2C_CAUSE_CONTEXT_NOT_FOUND 0 interface_type)) (skip tt) (skip tt);;
  do '(ret, context) <- ue_context_of_teid (h_teid h);
  (when bool_decide (ret <> 0) then_ return_ FAILED);;
  do c <- deref context;
  do u <- context_of c;
  (when bool_decide (ue_is_sent_bearer_rsc_failure_indc u <> PRESENT) &&
        bool_decide (m_cause m <> GTPV2C_CAUSE_REQUEST_ACCEPTED) then_
     refuse (ubr_error_response (m_cause m) 1 (s5s8_or_gx (ue_cp_mode u))));;
  perform (delete_pfcp_if_timer_entry (h_teid h) ebi_index);;
  delete_teid_entry key;;
  state_of_ue (h_teid h) ebi_index (return_ FAILED);;
  do p <- get_pdn_at c ebi_index;
  update_procedure p;;
  assign (set_msg_event UPDATE_BEARER_RSP_RCVD_EVNT);;
  set_interface_type;;
  set_cp_mode_of c;;
  leave context rx.

Definition delete_bearer_cmd (rx : nat) : pcnd_cmd locals :=
  do ret <- decode_message GTP_DELETE_BEARER_CMD rx;
  (when bool_decide (ret = 0) then_ return_ FAILED);;
  do h <- header_of rx;
  do m <- message;
  let ebi_index := GET_EBI_INDEX (m_bearer_ebi m) in
  (when bool_decide (ebi_index = -1) then_
     refuse (delete_bearer_cmd_failure_indication GTPV2C_CAUSE_SYSTEM_FAILURE 0 interface_type));;
  do '(ret, context) <- ue_context_of_teid (h_teid h);
  (when bool_decide (ret <> 0) then_
     refuse (delete_bearer_cmd_failure_indication GTPV2C_CAUSE_CONTEXT_NOT_FOUND 0 interface_type));;
  do c <- deref context;
  do _ <- set_procedure;
  do r <- update_proc c ebi_index;
  (when bool_decide (r <> 0) then_ return_ FAILED);;
  assign (set_msg_state CONNECTED_STATE);;
  assign (set_msg_event DELETE_BER_CMD_RCVD_EVNT);;
  set_interface_type;;
  set_cp_mode_of c;;
  leave context rx.

(** [check_default_bearer_id_presence_in_ue] (pfcp_session.c) on a context that is there. *)
Fixpoint check_default_bearer_id (bearer_id : Z) (s : ue_store) (ps : list ptr) : option Z :=
  match ps with
  | [] => Some (-1)
  | None :: ps => check_default_bearer_id bearer_id s ps
  | Some p :: ps =>
      pd ← pdn_at p s;
      if bool_decide (pdn_default_bearer_id pd = bearer_id) then Some 0
      else check_default_bearer_id bearer_id s ps
  end.

Definition check_default_bearer_id_presence_in_ue (bearer_id : Z) (c : loc) (s : ue_store) : option Z :=
  u ← ue_at c s; check_default_bearer_id bearer_id s (take MAX_BEARERS (ue_pdns u)).

Definition bearer_resource_cmd (rx : nat) : pcnd_cmd locals :=
  let failure cause := send_bearer_resource_failure_indication cause 0 interface_type in
  do ret <- decode_message GTP_BEARER_RESOURCE_CMD rx;
  (when bool_decide (ret = 0) then_ return_ FAILED);;
  do h <- header_of rx;
  do m <- message;
  do '(ret, context) <- ue_context_of_teid (h_teid h);
  (when bool_decide (ret <> 0) then_
     (perform (failure GTPV2C_CAUSE_CONTEXT_NOT_FOUND);; return_ GTPV2C_CAUSE_CONTEXT_NOT_FOUND));;
  do c <- deref context;
  (when bool_decide (m_lbi_len m = 0) || bool_decide (m_pti_len m = 0) || bool_decide (m_tad_len m = 0) then_
     (perform (failure GTPV2C_CAUSE_MANDATORY_IE_MISSING);; return_ GTPV2C_CAUSE_MANDATORY_IE_MISSING));;
  let ebi_index := GET_EBI_INDEX (m_lbi m) in
  (when bool_decide (ebi_index = -1) then_ refuse (failure GTPV2C_CAUSE_SYSTEM_FAILURE));;
  do ret <- ue_tables (check_default_bearer_id_presence_in_ue (m_lbi m) c);
  do ret <- deref ret;
  (when bool_decide (ret <> 0) then_
     (perform (failure GTPV2C_CAUSE_MANDATORY_IE_INCORRECT);; return_ GTPV2C_CAUSE_MANDATORY_IE_INCORRECT));;
  do _ <- set_procedure;
  do r <- update_proc c ebi_index;
  (when bool_decide (r <> 0) then_ return_ FAILED);;
  assign (set_msg_state CONNECTED_STATE);;
  set_cp_mode_of c;;
  assign (set_msg_event BEARER_RSRC_CMD_RCVD_EVNT);;
  leave context rx.

(** ** Nodes, notifications, indirect tunnels *)

(** The cases that only name the state and the event. *)
Definition node_message (t state event : Z) (rx : nat) : pcnd_cmd locals :=
  do ret <- decode_message t rx;
  (when bool_decide (ret = 0) then_ return_ FAILED);;
  assign (set_msg_state state);;
  do _ <- set_procedure;
  assign (set_msg_event event);;
  set_interface_type;;
  leave None rx.

Definition delete_pdn_connection_set_req : nat -> pcnd_cmd locals :=
  node_message GTP_DELETE_PDN_CONNECTION_SET_REQ DEL_PDN_CONN_SET_REQ_RCVD_STATE DEL_PDN_CONN_SET_REQ_RCVD_EVNT.
Definition delete_pdn_connection_set_rsp : nat -> pcnd_cmd locals :=
  node_message GTP_DELETE_PDN_CONNECTION_SET_RSP DEL_PDN_CONN_SET_REQ_SNT_STATE DEL_PDN_CONN_SET_RESP_RCVD_EVNT.
Definition pgw_restart_notification_ack : nat -> pcnd_cmd locals :=
  node_message GTP_PGW_RESTART_NOTIFICATION_ACK PGW_RSTRT_NOTIF_REQ_SNT_STATE PGW_RSTRT_NOTIF_ACK_RCVD_EVNT.

Definition update_pdn_connection_set_req (rx : nat) : pcnd_cmd locals :=
  do ret <- decode_message GTP_UPDATE_PDN_CONNECTION_SET_REQ rx;
  (when bool_decide (ret = 0) then_ return_ FAILED);;
  assign (set_msg_state CONNECTED_STATE);;
  do _ <- set_procedure;
  assign (set_msg_event UPD_PDN_CONN_SET_REQ_RCVD_EVNT);;
  set_interface_type;;
  do m <- message;
  do '(ret, context) <- ue_context_of_teid (m_teid m);
  (when bool_decide (ret <> 0) then_
     refuse (update_pdn_connection_set_error_response GTPV2C_CAUSE_CONTEXT_NOT_FOUND 0));;
  do c <- deref context;
  set_cp_mode_of c;;
  leave context rx.

Definition update_pdn_connection_set_rsp (rx : nat) : pcnd_cmd locals :=
  do ret <- decode_message GTP_UPDATE_PDN_CONNECTION_SET_RSP rx;
  (when bool_decide (ret = 0) then_ return_ FAILED);;
  do proc <- set_procedure;
  do m <- message;
  let key := teid_key (get_proc_string proc) (m_seq m) in
  zero_teid_error key delete_timer_entry
    (perform (mbr_error_response GTPV2C_CAUSE_CONTEXT_NOT_FOUND 0 S11_IFACE);; process_error_occured_handler)
    (skip tt) (skip tt);;
  perform (delete_timer_entry (m_teid m));;
  delete_teid_entry key;;
  (when bool_decide (m_cause m <> GTPV2C_CAUSE_REQUEST_ACCEPTED) then_
     refuse (mbr_error_response (m_cause m) 1 interface_type));;
  do '(ret, context) <- ue_context_of_s5s8_teid (m_teid m);
  (when bool_decide (ret <> 0) then_
     (perform (mbr_error_response GTPV2C_CAUSE_CONTEXT_NOT_FOUND 0 interface_type);;
      process_error_occured_handler;;
      return_ FAILED));;
  do c <- deref context;
  assign (set_msg_state UPD_PDN_CONN_SET_REQ_SNT_STATE);;
  do _ <- set_procedure;
  assign (set_msg_event UPD_PDN_CONN_SET_RESP_RCVD_EVNT);;
  set_interface_type;;
  set_cp_mode_of c;;
  leave context rx.

(** Not decoded: the indices that the state machine refuses. *)
Definition identification_rsp (rx : nat) : pcnd_cmd locals :=
  assign (set_msg_state END_STATE);;
  assign (set_msg_proc END_PROC);;
  assign (set_msg_event END_EVNT);;
  set_interface_type;;
  leave None rx.

Definition change_notification_req (rx : nat) : pcnd_cmd locals :=
  do ret <- decode_message GTP_CHANGE_NOTIFICATION_REQ rx;
  (when bool_decide (ret = 0) then_ return_ FAILED);;
  do m <- message;
  let ebi_index := GET_EBI_INDEX (m_lbi m) in
  (when bool_decide (ebi_index = -1) then_
     refuse (change_notification_error_response GTPV2C_CAUSE_SYSTEM_FAILURE 0 interface_type));;
  do '(ret, context) <- ue_context_of_teid (m_teid m);
  (when bool_decide (ret <> 0) then_
     refuse (change_notification_error_response GTPV2C_CAUSE_CONTEXT_NOT_FOUND 0 interface_type));;
  do c <- deref context;
  do proc <- set_procedure;
  do p <- pdn_of_bearer c ebi_index;
  do p <- deref p;
  do pd <- pdn_of p;
  assign (set_msg_state (pdn_state pd));;
  assign (set_msg_event CHANGE_NOTIFICATION_REQ_RCVD_EVNT);;
  set_pdn p (set_pdn_proc proc);;
  set_interface_type;;
  set_cp_mode_of c;;
  leave context rx.

(** If there is no request the log prints the sequence number as a string. *)
Definition change_notification_rsp (rx : nat) : pcnd_cmd locals :=
  do ret <- decode_message GTP_CHANGE_NOTIFICATION_RSP rx;
  (when bool_decide (ret = 0) then_ return_ FAILED);;
  do proc <- set_procedure;
  do m <- message;
  let key := teid_key (get_proc_string proc) (m_seq m) in
  zero_teid_error key delete_timer_entry
    (perform (change_notification_error_response GTPV2C_CAUSE_CONTEXT_NOT_FOUND 0 interface_type))
    fault (skip tt);;
  perform (delete_timer_entry (m_teid m));;
  delete_teid_entry key;;
  do '(ret, context) <- ue_context_of_s5s8_teid (m_teid m);
  (when bool_decide (ret <> 0) then_
     refuse (change_notification_error_response (u8 ret) 0 interface_type));;
  do c <- deref context;
  do _ <- set_procedure;
  assign (set_msg_state CONNECTED_STATE);;
  assign (set_msg_event CHANGE_NOTIFICATION_RSP_RCVD_EVNT);;
  set_interface_type;;
  set_cp_mode_of c;;
  leave context rx.

Definition create_indirect_tunnel_req (rx : nat) : pcnd_cmd locals :=
  do ret <- decode_message GTP_CREATE_INDIRECT_DATA_FORWARDING_TUNNEL_REQ rx;
  (when bool_decide (ret = 0) then_ refuse (crt_indir_data_frwd_tun_error_response ret));;
  do h <- header_of rx;
  do _ <- set_procedure;
  (if bool_decide (config_cp_type config = SGWC) then assign (set_msg_cp_mode SGWC) else return_ FAILED);;
  do context <-
    (if bool_decide (h_teid h = 0) then assign (set_msg_state SGWC_NONE_STATE);; skip None
     else
       do '(ret, context) <- ue_context_of_teid (h_teid h);
       (when bool_decide (ret <> 0) then_
          (assign (set_msg_state SGWC_NONE_STATE);;
           refuse (crt_indir_data_frwd_tun_error_response GTPV2C_CAUSE_CONTEXT_NOT_FOUND)));;
       assign (set_msg_state CONNECTED_STATE);;
       skip context);
  assign (set_msg_event CREATE_INDIR_DATA_FRWRD_TUN_REQ_RCVD_EVNT);;
  set_interface_type;;
  leave context rx.

Definition delete_indirect_tunnel_req (rx : nat) : pcnd_cmd locals :=
  do ret <- decode_message GTP_DELETE_INDIRECT_DATA_FORWARDING_TUNNEL_REQ rx;
  (when bool_decide (ret = 0) then_ refuse (delete_indir_data_frwd_error_response ret));;
  do _ <- set_procedure;
  do h <- header_of rx;
  do '(ret, context) <- ue_tables (get_sender_teid_context (h_teid h));
  (when bool_decide (ret <> 0) then_
     refuse (delete_indir_data_frwd_error_response GTPV2C_CAUSE_CONTEXT_NOT_FOUND));;
  do c <- deref context;
  set_interface_type;;
  set_cp_mode_of c;;
  do u <- context_of c;
  do p <- deref (ue_indirect_tunnel_pdn u);
  do p <- deref p;
  do pd <- pdn_of p;
  assign (set_msg_state (pdn_state pd));;
  assign (set_msg_event DELETE_INDIR_DATA_FRWD_TUN_REQ_RCVD_EVNT);;
  leave context rx.

Definition modify_access_bearer_req (rx : nat) : pcnd_cmd locals :=
  do ret <- decode_message GTP_MODIFY_ACCESS_BEARER_REQ rx;
  (when bool_decide (ret = 0) then_ return_ FAILED);;
  do proc <- set_procedure;
  assign (set_msg_state CONNECTED_STATE);;
  assign (set_msg_event MAB_REQ_RCVD_EVNT);;
  do m <- message;
  do '(ret, context) <- ue_context_of_teid (m_teid m);
  (when bool_decide (ret <> 0) then_
     refuse (mod_access_bearer_error_response GTPV2C_CAUSE_CONTEXT_NOT_FOUND 0));;
  do c <- deref context;
  (when bool_decide (m_bearer_count m <> 0) then_
     (let ebi_index := GET_EBI_INDEX (m_bearer_ebi m) in
      (when bool_decide (ebi_index = -1) then_
         refuse (mod_access_bearer_error_response GTPV2C_CAUSE_SYSTEM_FAILURE 0));;
      do p <- get_pdn_at c ebi_index;
      match p with
      | None => refuse (mod_access_bearer_error_response GTPV2C_CAUSE_CONTEXT_NOT_FOUND 0)
      | Some p => set_pdn p (set_pdn_proc proc)
      end));;
  set_cp_mode_of c;;
  set_interface_type;;
  leave context rx.

(** [default:] if the context is not found its mode is read through [NULL]. *)
Definition not_supported (rx : nat) : pcnd_cmd locals :=
  do h <- header_of rx;
  do '(ret, context) <- ue_context_of_teid (h_teid h);
  (when bool_decide (ret <> 0) then_ (assign (set_msg_proc NONE_PROC);; fault));;
  do c <- deref context;
  do p <- get_pdn_at c 0;
  match p with
  | None => return_ FAILED
  | Some p =>
      do pd <- pdn_of p;
      assign (set_msg_state (pdn_state pd));;
      assign (set_msg_proc (pdn_proc pd));;
      assign (set_msg_event NONE_EVNT);;
      set_interface_type;;
      set_cp_mode_of c;;
      return_ FAILED
  end.

(** ** The check *)

Definition cases : list (Z * (nat -> pcnd_cmd locals)) :=
  [(GTP_CREATE_SESSION_REQ, create_session_req);
   (GTP_CREATE_SESSION_RSP, create_session_rsp);
   (GTP_CREATE_BEARER_REQ, fun rx => create_bearer_req rx false None);
   (GTP_MODIFY_BEARER_RSP, modify_bearer_rsp);
   (GTP_DELETE_SESSION_REQ, delete_session_req);
   (GTP_DELETE_SESSION_RSP, delete_session_rsp);
   (GTP_RELEASE_ACCESS_BEARERS_REQ, release_access_bearers_req);
   (GTP_DOWNLINK_DATA_NOTIFICATION_ACK, downlink_data_notification_ack);
   (GTP_DOWNLINK_DATA_NOTIFICATION_FAILURE_IND, downlink_data_notification_failure_ind);
   (GTP_CREATE_BEARER_RSP, create_bearer_rsp);
   (GTP_MODIFY_BEARER_REQ, fun rx => modify_bearer_req rx None None);
   (GTP_DELETE_BEARER_REQ, delete_bearer_req);
   (GTP_DELETE_BEARER_RSP, delete_bearer_rsp);
   (GTP_DELETE_BEARER_FAILURE_IND, delete_bearer_failure_ind);
   (GTP_BEARER_RESOURCE_FAILURE_IND, bearer_resource_failure_ind);
   (GTP_MODIFY_BEARER_FAILURE_IND, modify_bearer_failure_ind);
   (GTP_MODIFY_BEARER_CMD, modify_bearer_cmd);
   (GTP_UPDATE_BEARER_REQ, update_bearer_req);
   (GTP_UPDATE_BEARER_RSP, update_bearer_rsp);
   (GTP_DELETE_PDN_CONNECTION_SET_REQ, delete_pdn_connection_set_req);
   (GTP_DELETE_PDN_CONNECTION_SET_RSP, delete_pdn_connection_set_rsp);
   (GTP_UPDATE_PDN_CONNECTION_SET_REQ, update_pdn_connection_set_req);
   (GTP_DELETE_BEARER_CMD, delete_bearer_cmd);
   (GTP_BEARER_RESOURCE_CMD, bearer_resource_cmd);
   (GTP_UPDATE_PDN_CONNECTION_SET_RSP, update_pdn_connection_set_rsp);
   (GTP_PGW_RESTART_NOTIFICATION_ACK, pgw_restart_notification_ack);
   (GTP_IDENTIFICATION_RSP, identification_rsp);
   (GTP_CHANGE_NOTIFICATION_REQ, change_notification_req);
   (GTP_CHANGE_NOTIFICATION_RSP, change_notification_rsp);
   (GTP_CREATE_INDIRECT_DATA_FORWARDING_TUNNEL_REQ, create_indirect_tunnel_req);
   (GTP_DELETE_INDIRECT_DATA_FORWARDING_TUNNEL_REQ, delete_indirect_tunnel_req);
   (GTP_MODIFY_ACCESS_BEARER_REQ, modify_access_bearer_req)].

(** The copy of the packet: [bytes_rx] bytes from the message, or from the first of two. *)
Definition copy_for_li (intfc : Z) (l : locals) (c : loc) : pcnd_cmd unit :=
  do u <- context_of c;
  let from := if l_piggyback l || ue_piggyback u then default (l_rx l) (l_li_buf l) else l_rx l in
  (when negb (bool_decide (0 <= bytes_rx <= Z.of_nat MAX_GTPV2C_UDP_LEN) &&
              bool_decide (Z.of_nat from + bytes_rx <= Z.of_nat (length buf))) then_ fault);;
  when bool_decide (ue_dupl u = PRESENT) then_ perform (process_pkt_for_li intfc from bytes_rx).

Definition copy_packets (l : locals) : pcnd_cmd unit :=
  match l_context l with
  | None => skip tt
  | Some c =>
      do t <- read (fun s => msg_type (msg s));
      (when bool_decide (interface_type = S11_IFACE) && bool_decide (t <> GTP_CREATE_SESSION_REQ) then_
         copy_for_li S11_INTFC_IN l c);;
      when bool_decide (interface_type = S5S8_IFACE) then_ copy_for_li S5S8_C_INTFC_IN l c
  end.

Definition gtpc_pcnd_check : pcnd -> option (pcnd * Z) :=
  run (do h <- header_of 0;
       assign (set_msg_type (h_message_type h));;
       do ret <- gtpv2c_pcnd_check 0;
       (when bool_decide (ret <> 0) then_
          ((when bool_decide (ret = GTPV2C_CAUSE_VERSION_NOT_SUPPORTED) then_ return_ ret);;
           wrong_length 0 ret;;
           return_ FAILED));;
       do l <- switch (h_message_type h) cases not_supported 0%nat;
       copy_packets l;;
       skip 0).
End Pcnd.

(** ** The receiver (cp.c) *)

(** What [msg_handler_s11] and [msg_handler_s5s8] do with a message that is neither an echo
    request nor an echo response: the check, then one of the handlers for nodes, or the
    state machine.  Statistics and the entries of peers are left out. *)
Inductive handled : Type :=
| Dropped
| NodeHandler (t : Z)
| StateMachine (d : dispatch).

Definition handle_checked (s11 : bool) (mi : msg_info) : handled :=
  if bool_decide (msg_type mi = GTP_DELETE_PDN_CONNECTION_SET_REQ) then NodeHandler (msg_type mi)
  else if bool_decide (msg_type mi = GTP_DELETE_PDN_CONNECTION_SET_RSP) then NodeHandler (msg_type mi)
  else if s11 && bool_decide (msg_type mi = GTP_PGW_RESTART_NOTIFICATION_ACK) then NodeHandler (msg_type mi)
  else StateMachine (sm_dispatch (msg_cp_mode mi) (msg_proc mi) (msg_state mi) (msg_event mi)).

Definition msg_handler `{GtpLib} `{Callees} (config : pfcp_config_t) (buf : list byte) (bytes_rx : Z)
    (s11 : bool) (t : cp_state) : option (pcnd * handled) :=
  '(s, ret) ← gtpc_pcnd_check config buf bytes_rx (if s11 then S11_IFACE else S5S8_IFACE) (mk_pcnd t zero_msg []);
  Some (s, if bool_decide (ret <> 0) then Dropped else handle_checked s11 (msg s)).
