(* ===== verification/GtpcSafe.v ===== *)
(** * Received GTPv2-C messages and the tables of the control plane

    What [gtpc_pcnd_check] ([GtpcPcnd]) needs of the tables ([cp_wf]) and of the functions
    that it calls, the messages that make it follow a pointer that is not there
    ([hazard]).  That it does not happen for any other message is proved in [GtpcCases]. *)
From S2P Require Import Prelude CText LList Teid SmTable CpTables CMonad UeContext SmSession Gtpc GtpcPcnd.
From Stdlib Require Import Ascii.

(** ** Well-formed tables *)

(** An index that is a [gmap] of addresses: its cells are there, and no two keys share one. *)
Definition index_ok {K V} `{Countable K} (cells : gmap loc V) (index : gmap K loc) : Prop :=
  (forall k p, index !! k = Some p -> is_Some (cells !! p)) /\
  (forall k k' p, index !! k = Some p -> index !! k' = Some p -> k = k').

Record cp_wf (t : cp_state) : Prop := {
  cp_wf_ue : ue_wf (cp_ue t);
  cp_wf_bearer k b : bearer_by_fteid_hash (cp_ue t) !! k = Some b ->
    exists br, bearers (cp_ue t) !! b = Some br /\
      forall p, eb_pdn br = Some p -> exists pd, pdns (cp_ue t) !! p = Some pd /\
        forall c, pdn_context pd = Some c -> is_Some (contexts (cp_ue t) !! c);
  cp_wf_sender k c : ue_context_by_sender_teid_hash (cp_ue t) !! k = Some c -> is_Some (contexts (cp_ue t) !! c);
  cp_wf_tunnel c u p : contexts (cp_ue t) !! c = Some u -> ue_indirect_tunnel_pdn u = Some (Some p) ->
    is_Some (pdns (cp_ue t) !! p);
  cp_wf_teids : index_ok (cp_teid_values t) (cp_ds_seq_key_with_teid t);
  cp_wf_sessions : index_ok (cells (cp_sm t)) (sm_hash (cp_sm t))
}.

(** Only members of contexts and PDN connections that are no links differ. *)
Definition same_pdn (pd pd' : pdn_connection) : Prop :=
  pdn_eps_bearers pd' = pdn_eps_bearers pd /\ pdn_apn_in_use pd' = pdn_apn_in_use pd /\
  pdn_context pd' = pdn_context pd /\ pdn_default_bearer_id pd' = pdn_default_bearer_id pd /\
  pdn_seid pd' = pdn_seid pd.

Definition same_ue (u u' : ue_context) : Prop :=
  ue_pdns u' = ue_pdns u /\ ue_eps_bearers u' = ue_eps_bearers u /\
  ue_indirect_tunnel_pdn u' = ue_indirect_tunnel_pdn u /\ ue_piggyback u' = ue_piggyback u.

(** The tables later: the same keys and bearers, and objects with the same links. *)
Record later (t t' : cp_state) : Prop := {
  later_fteid : ue_context_by_fteid_hash (cp_ue t') = ue_context_by_fteid_hash (cp_ue t);
  later_bearers : bearers (cp_ue t') = bearers (cp_ue t);
  later_ue c u : contexts (cp_ue t) !! c = Some u -> exists u', contexts (cp_ue t') !! c = Some u' /\ same_ue u u';
  later_pdn p pd : pdns (cp_ue t) !! p = Some pd -> exists pd', pdns (cp_ue t') !! p = Some pd' /\ same_pdn pd pd'
}.

#[export] Instance later_refl : Reflexive later.
Proof. intros t. split; [done|done|intros c u H; by exists u|intros p pd H; by exists pd]. Qed.

#[export] Instance later_trans : Transitive later.
Proof.
  intros t1 t2 t3 [A1 A2 A3 A4] [B1 B2 B3 B4]. split; [congruence|congruence| |].
  - intros c u (u' & H' & S1)%A3. destruct (B3 _ _ H') as (u'' & ? & S2). exists u''. split; [done|].
    unfold same_ue in *. intuition congruence.
  - intros p pd (pd' & H' & S1)%A4. destruct (B4 _ _ H') as (pd'' & ? & S2). exists pd''. split; [done|].
    unfold same_pdn in *. intuition congruence.
Qed.

Lemma later_tables t t' : cp_ue t' = cp_ue t -> later t t'.
Proof. intros E. split; rewrite ?E; [done|done|intros c u H; by exists u|intros p pd H; by exists pd]. Qed.

Lemma later_set_pdn t p pd pd' : pdns (cp_ue t) !! p = Some pd -> same_pdn pd pd' ->
  later t (set_cp_ue (set_pdns (<[p := pd']> (pdns (cp_ue t))) (cp_ue t)) t).
Proof.
  intros Hp Hs. split; cbn -[lookup insert]; [done|done|intros c u H; by exists u|].
  intros q x Hx. destruct (decide (q = p)) as [->|].
  - exists pd'. rewrite lookup_insert_eq. split; [done|congruence].
  - exists x. by rewrite lookup_insert_ne.
Qed.

Lemma later_set_context t c u u' : contexts (cp_ue t) !! c = Some u -> same_ue u u' ->
  later t (set_cp_ue (set_contexts (<[c := u']> (contexts (cp_ue t))) (cp_ue t)) t).
Proof.
  intros Hc Hs. split; cbn -[lookup insert]; [done|done| |intros p pd H; by exists pd].
  intros q x Hx. destruct (decide (q = c)) as [->|].
  - exists u'. rewrite lookup_insert_eq. split; [done|congruence].
  - exists x. by rewrite lookup_insert_ne.
Qed.

Lemma cp_wf_set_pdn t p pd pd' : cp_wf t -> pdns (cp_ue t) !! p = Some pd -> same_pdn pd pd' ->
  cp_wf (set_cp_ue (set_pdns (<[p := pd']> (pdns (cp_ue t))) (cp_ue t)) t).
Proof.
  intros Hwf Hp (E1 & E2 & E3 & E4 & E5).
  assert (forall q, is_Some (pdns (cp_ue t) !! q) -> is_Some (<[p := pd']> (pdns (cp_ue t)) !! q)) as Hq.
  { intros q Hs. destruct (decide (q = p)) as [->|]; [rewrite lookup_insert_eq; by eexists|by rewrite lookup_insert_ne]. }
  destruct Hwf as [W1 W2 W3 W4 W5 W6]. split; cbn -[lookup insert]; try done.
  - apply (view_wf (cp_ue t)); cbn -[lookup insert]; try done.
    + intros q. destruct (decide (q = p)) as [->|]; [|by rewrite lookup_insert_ne].
      rewrite lookup_insert_eq, Hp. cbn. by rewrite E1.
    + intros q x x' Hx. destruct (decide (q = p)) as [->|].
      * rewrite lookup_insert_eq. intros [= <-]. rewrite Hp in Hx. injection Hx as <-. rewrite E2. done.
      * rewrite lookup_insert_ne, Hx by done. by intros [= ->].
    + intros b br Hb. by exists br.
    + by apply (wf_imsi _ W1).
    + by apply (wf_fteid _ W1).
  - intros k b Hb. destruct (W2 k b Hb) as (br & Hbr & Hpd). exists br. split; [done|].
    intros q Hq'. destruct (Hpd q Hq') as (x & Hx & Hc). destruct (decide (q = p)) as [->|].
    + exists pd'. rewrite lookup_insert_eq. split; [done|]. rewrite Hp in Hx. injection Hx as <-. by rewrite E3.
    + exists x. by rewrite lookup_insert_ne.
  - intros c u q Hc Ht. apply Hq. by eapply W4.
Qed.

Lemma cp_wf_set_context t c u u' : cp_wf t -> contexts (cp_ue t) !! c = Some u -> same_ue u u' ->
  cp_wf (set_cp_ue (set_contexts (<[c := u']> (contexts (cp_ue t))) (cp_ue t)) t).
Proof.
  intros Hwf Hc (E1 & E2 & E3 & _).
  assert (forall q, is_Some (contexts (cp_ue t) !! q) -> is_Some (<[c := u']> (contexts (cp_ue t)) !! q)) as Hq.
  { intros q Hs. destruct (decide (q = c)) as [->|]; [rewrite lookup_insert_eq; by eexists|by rewrite lookup_insert_ne]. }
  destruct Hwf as [W1 W2 W3 W4 W5 W6]. split; cbn -[lookup insert]; try done.
  - apply (relabel_wf (cp_ue t)); cbn -[lookup insert]; try done.
    + intros q. destruct (decide (q = c)) as [->|]; [|by rewrite lookup_insert_ne].
      rewrite lookup_insert_eq, Hc. cbn. unfold ue_links. by rewrite E1, E2.
    + by apply (wf_imsi _ W1).
    + by apply (wf_fteid _ W1).
  - intros k b Hb. destruct (W2 k b Hb) as (br & Hbr & Hpd). exists br. split; [done|].
    intros q Hq'. destruct (Hpd q Hq') as (x & Hx & Hx'). exists x. split; [done|]. intros d Hd. by apply Hq, Hx'.
  - intros k d Hd. by apply Hq, (W3 k).
  - intros d v q. destruct (decide (d = c)) as [->|].
    + rewrite lookup_insert_eq. intros [= <-]. rewrite E3. by apply (W4 c u).
    + rewrite lookup_insert_ne by done. apply W4.
Qed.

Lemma index_ok_delete {K V} `{Countable K} (cells : gmap loc V) (index : gmap K loc) k p :
  index_ok cells index -> index !! k = Some p -> index_ok (delete p cells) (delete k index).
Proof.
  intros [H1 H2] Hk. split.
  - intros k' p' [? E]%lookup_delete_Some. rewrite lookup_delete_ne; [by eapply H1|].
    intros <-. by destruct (H2 k k' p).
  - intros k1 k2 q [? E1]%lookup_delete_Some [? E2]%lookup_delete_Some. by eapply H2.
Qed.

(** *** Access *)

Section Access.
Variables (t : cp_state) (Hwf : cp_wf t).

Lemma wf_context_of_teid teid c : ue_context_by_fteid_hash (cp_ue t) !! teid = Some c ->
  exists u, contexts (cp_ue t) !! c = Some u.
Proof. intros E. by apply (wf_fteid _ (cp_wf_ue t Hwf)) in E. Qed.

(** The context of an S5/S8 TEID: there, or a value that is not 0. *)
Lemma wf_context_of_s5s8 teid :
  (exists c u b br p, get_ue_context_by_sgw_s5s8_teid teid (cp_ue t) = Some (0, Some c) /\
     contexts (cp_ue t) !! c = Some u /\ get_bearer_by_teid teid (cp_ue t) = (0, Some b) /\
     bearers (cp_ue t) !! b = Some br /\ eb_pdn br = Some p /\ is_Some (pdns (cp_ue t) !! p)) \/
  (exists r, get_ue_context_by_sgw_s5s8_teid teid (cp_ue t) = Some (r, None) /\ r <> 0).
Proof.
  unfold get_ue_context_by_sgw_s5s8_teid, get_bearer_by_teid.
  destruct (bearer_by_fteid_hash (cp_ue t) !! teid) as [b|] eqn:E.
  2: { right. by eexists. }
  destruct (cp_wf_bearer t Hwf _ _ E) as (br & Hb & Hp). unfold context_of_bearer, bearer_at, pdn_at.
  rewrite Hb. cbn [mbind option_bind]. destruct (eb_pdn br) as [p|] eqn:Ep.
  2: { right. by eexists. }
  destruct (Hp p eq_refl) as (pd & Hpd & Hc). rewrite Hpd. cbn [mbind option_bind].
  destruct (pdn_context pd) as [c|] eqn:Ec; cbn [mbind option_bind].
  - left. destruct (Hc c eq_refl) as [u Hu]. exists c, u, b, br, p. by split_and!; rewrite ?Hpd.
  - right. by eexists.
Qed.

(** The PDN connection at an index of a context: not there, or of its bearer there. *)
Lemma wf_bearer_at c u (i : Z) : contexts (cp_ue t) !! c = Some u -> 0 <= i < 28 ->
  (array_get (ue_eps_bearers u) i = Some None /\ GET_PDN (cp_ue t) u i = Some None) \/
  (exists b br p pd, array_get (ue_eps_bearers u) i = Some (Some b) /\ bearers (cp_ue t) !! b = Some br /\
     eb_pdn br = Some p /\ pdns (cp_ue t) !! p = Some pd /\ GET_PDN (cp_ue t) u i = Some (Some p)).
Proof.
  intros Hc Hi. destruct (wf_ue_size _ (cp_wf_ue t Hwf) c u Hc) as [_ Hl].
  unfold GET_PDN, MAX_BEARERS in *. rewrite bool_decide_true by lia. rewrite array_get_nat by lia.
  destruct (lookup_lt_is_Some_2 (ue_eps_bearers u) (Z.to_nat i)) as [[b|] Hb]; [lia| |]; rewrite Hb.
  - right. destruct (wf_bearer _ (cp_wf_ue t Hwf) c u _ b Hc Hb) as (br & p & pd & B1 & B2 & B3 & _).
    exists b, br, p, pd. unfold bearer_at. cbn [mbind option_bind]. rewrite B1. cbn [mbind option_bind]. by rewrite B2.
  - by left.
Qed.

Lemma wf_pdns c u p : contexts (cp_ue t) !! c = Some u -> In (Some p) (ue_pdns u) ->
  exists pd, pdns (cp_ue t) !! p = Some pd.
Proof.
  intros Hc Hin. apply list_elem_of_In, list_elem_of_lookup_1 in Hin as [i Hi].
  destruct (wf_owned _ (cp_wf_ue t Hwf) c u p Hc) as (pd & ? & _); [left; by exists i|by exists pd].
Qed.
End Access.

Lemma GET_EBI_INDEX_range a : GET_EBI_INDEX a = -1 \/ 0 <= GET_EBI_INDEX a < 28.
Proof. unfold GET_EBI_INDEX, MAX_BEARERS. case_bool_decide; lia. Qed.

(** ** Hazards *)

Section Hazard.
Context `{GtpLib}.
Variables (config : pfcp_config_t) (buf : list byte) (interface_type : Z) (t : cp_state).

(** The context of an S11 TEID or an S5/S8 TEID. *)
Definition s11_context (teid : Z) : ptr := (get_ue_context teid (cp_ue t)).2.
Definition s5s8_context (teid : Z) : ptr :=
  match get_ue_context_by_sgw_s5s8_teid teid (cp_ue t) with
  | Some (0, c) => c
  | _ => None
  end.

(** A context is found, and it has the property. *)
Definition found (context : ptr) (P : ue_context -> Prop) : Prop :=
  exists c u, context = Some c /\ contexts (cp_ue t) !! c = Some u /\ P u.

(** A valid id, but the context has no bearer of that id. *)
Definition bearer_absent (context : ptr) (ebi : Z) : Prop :=
  found context (fun u => GET_EBI_INDEX ebi <> -1 /\ array_get (ue_eps_bearers u) (GET_EBI_INDEX ebi) = Some None).

(** A Create Bearer Response of the UE came with a second message. *)
Definition piggyback_pending (context : ptr) : Prop := found context (fun u => ue_piggyback u = true).

(** The UE has no PDN connection with an indirect tunnel. *)
Definition tunnel_absent (context : ptr) : Prop :=
  found context (fun u => forall p, ue_indirect_tunnel_pdn u <> Some (Some p)).

(** An error with TEID 0, and the request that its sequence number finds. *)
Definition zero_teid (m : gtpc_msg) : Prop := m_teid m = 0 /\ m_cause m <> GTPV2C_CAUSE_REQUEST_ACCEPTED.
Definition request_of (proc : Z) (m : gtpc_msg) : ptr :=
  get_teid_for_seq_number (cp_ds_seq_key_with_teid t) (teid_key (get_proc_string proc) (m_seq m)).

(** A Modify Bearer Request that is refused because the gateway is an SGW-C. *)
Definition refused_demotion (m : gtpc_msg) : Prop :=
  m_sender_len m <> 0 /\ m_sender_interface_type m = S5_S8_SGW_GTP_C /\ interface_type = S5S8_IFACE /\
  config_cp_type config <> SAEGWC /\ config_cp_type config <> PGWC.

(** For each type of message, when following its case leads to a pointer that is not
    there: [h] is the header, [m] the decoded message. *)
Definition hazards (h : gtpv2c_header_t) (m : gtpc_msg) : list (Z * Prop) :=
  [(GTP_CREATE_BEARER_REQ, bearer_absent (s5s8_context (h_teid h)) (m_lbi m));
   (GTP_MODIFY_BEARER_RSP,
      (zero_teid m /\ request_of MODIFY_BEARER_PROCEDURE m <> None) \/
      (~ zero_teid m /\ s5s8_context (m_teid m) = None));
   (GTP_MODIFY_BEARER_REQ,
      ~ refused_demotion m /\ m_bearer_count m = 0 /\
      piggyback_pending (s11_context (m_teid m)));
   (GTP_DELETE_BEARER_RSP,
      let ebi := if bool_decide (m_lbi_len m <> 0) then m_lbi m else m_bearer_ebi m in
      GET_EBI_INDEX ebi = -1 \/
      (~ zero_teid m /\ (m_cause m = GTPV2C_CAUSE_REQUEST_ACCEPTED \/ m_cause m = GTPV2C_CAUSE_CONTEXT_NOT_FOUND) /\
       bearer_absent (s11_context (h_teid h)) ebi));
   (GTP_UPDATE_BEARER_REQ, bearer_absent (s5s8_context (h_teid h)) (m_bearer_ebi m));
   (GTP_UPDATE_BEARER_RSP, GET_EBI_INDEX (m_bearer_ebi m) = -1);
   (GTP_UPDATE_PDN_CONNECTION_SET_RSP,
      (zero_teid m /\ request_of MODIFY_BEARER_PROCEDURE m <> None) \/
      (m_cause m = GTPV2C_CAUSE_REQUEST_ACCEPTED /\ s5s8_context (m_teid m) = None));
   (GTP_CHANGE_NOTIFICATION_REQ, bearer_absent (s11_context (m_teid m)) (m_lbi m));
   (GTP_CHANGE_NOTIFICATION_RSP, zero_teid m /\ request_of CHANGE_NOTIFICATION_PROC m = None);
   (GTP_DELETE_INDIRECT_DATA_FORWARDING_TUNNEL_REQ,
      tunnel_absent (ue_context_by_sender_teid_hash (cp_ue t) !! h_teid h))].

Definition supported : list Z :=
  [GTP_CREATE_SESSION_REQ; GTP_CREATE_SESSION_RSP; GTP_CREATE_BEARER_REQ; GTP_MODIFY_BEARER_RSP;
   GTP_DELETE_SESSION_REQ; GTP_DELETE_SESSION_RSP; GTP_RELEASE_ACCESS_BEARERS_REQ;
   GTP_DOWNLINK_DATA_NOTIFICATION_ACK; GTP_DOWNLINK_DATA_NOTIFICATION_FAILURE_IND;
   GTP_CREATE_BEARER_RSP; GTP_MODIFY_BEARER_REQ; GTP_DELETE_BEARER_REQ; GTP_DELETE_BEARER_RSP;
   GTP_DELETE_BEARER_FAILURE_IND; GTP_BEARER_RESOURCE_FAILURE_IND; GTP_MODIFY_BEARER_FAILURE_IND;
   GTP_MODIFY_BEARER_CMD; GTP_UPDATE_BEARER_REQ; GTP_UPDATE_BEARER_RSP;
   GTP_DELETE_PDN_CONNECTION_SET_REQ; GTP_DELETE_PDN_CONNECTION_SET_RSP;
   GTP_UPDATE_PDN_CONNECTION_SET_REQ; GTP_DELETE_BEARER_CMD; GTP_BEARER_RESOURCE_CMD;
   GTP_UPDATE_PDN_CONNECTION_SET_RSP; GTP_PGW_RESTART_NOTIFICATION_ACK; GTP_IDENTIFICATION_RSP;
   GTP_CHANGE_NOTIFICATION_REQ; GTP_CHANGE_NOTIFICATION_RSP;
   GTP_CREATE_INDIRECT_DATA_FORWARDING_TUNNEL_REQ; GTP_DELETE_INDIRECT_DATA_FORWARDING_TUNNEL_REQ;
   GTP_MODIFY_ACCESS_BEARER_REQ].

(** What [gtpv2c_pcnd_check] looks at. *)
Definition length_differs (bytes_rx : Z) (h : gtpv2c_header_t) : Prop :=
  u32 bytes_rx <> h_message_len h + Z.of_nat SIZEOF_GTPC /\ h_piggyback h = false.
Definition version_known (bytes_rx : Z) (h : gtpv2c_header_t) : Prop :=
  bytes_rx <= 0 \/ h_version h = GTP_VERSION_GTPV2C.

(** A wrong length is answered for every message that can be decoded; for the messages
    that create a session the error handler is then called with a wrong argument.  A
    message of no known type is a hazard if its TEID is not known. *)
Definition hazard (bytes_rx : Z) (h : gtpv2c_header_t) : Prop :=
  let ty := h_message_type h in
  let '(ret, m) := decode ty buf in
  (length_differs bytes_rx h /\ ret <> 0 /\ (ty = GTP_CREATE_SESSION_REQ \/ ty = GTP_CREATE_SESSION_RSP)) \/
  (~ length_differs bytes_rx h /\ version_known bytes_rx h /\
   ((ret <> 0 /\ switch ty (hazards h m) False) \/ ((ty ∉ supported) /\ s11_context (h_teid h) = None))).
End Hazard.

(** The functions that only stop timers, count, copy, or enter a peer. *)
Definition quiet (f : callee) : bool :=
  match f with
  | delete_timer_entry _ | delete_pfcp_if_timer_entry _ _ | delete_gtpv2c_if_timer_entry _ _
  | add_node_conn_entry _ _ | update_sys_stat_number_of_users | update_sys_stat_number_of_active_session
  | process_pkt_for_li _ _ _ | send_version_not_supported _ _ => true
  | _ => false
  end.
