(* ===== verification/GtpcSteps.v ===== *)
(** * The steps of the preconditions of GTPv2-C messages

    A weakest precondition of the commands of [GtpcPcnd] on well-formed tables
    ([GtpcSafe]): one lemma for each command, loop and access to an object, and the
    tactics that run through the cases of [gtpc_pcnd_check] with them. *)
From S2P Require Import Prelude CText LList Teid SmTable CpTables CMonad UeContext SmSession Gtpc GtpcPcnd GtpcSafe.
From Stdlib Require Import Ascii.

(** ** Steps *)

(** [m] goes on with [P], returns with [Q], or faults and then [F]. *)
Definition wp {S R A} (P : S -> A -> Prop) (Q : S -> R -> Prop) (F : Prop) (m : cmd S R A) (s : S) : Prop :=
  match m s with
  | Next s a => P s a
  | Return s r => Q s r
  | Fault => F
  end.

Lemma wp_bind {S R A B} (P : S -> B -> Prop) Q F (m : cmd S R A) (k : A -> cmd S R B) s :
  wp (fun s a => wp P Q F (k a) s) Q F m s -> wp P Q F (bind m k) s.
Proof. unfold wp, bind. by destruct (m s). Qed.

Lemma wp_mono {S R A} (P P' : S -> A -> Prop) (Q : S -> R -> Prop) F (m : cmd S R A) s :
  wp P Q F m s -> (forall s a, P s a -> P' s a) -> wp P' Q F m s.
Proof. unfold wp. destruct (m s); auto. Qed.

Lemma wp_conseq {S R A} (P : S -> A -> Prop) (Q Q' : S -> R -> Prop) F (m : cmd S R A) s :
  wp P Q F m s -> (forall s r, Q s r -> Q' s r) -> wp P Q' F m s.
Proof. unfold wp. destruct (m s); auto. Qed.

Lemma wp_run {S R} (P : S -> R -> Prop) F (m : cmd S R R) s : wp P P F m s ->
  match run m s with Some (s, r) => P s r | None => F end.
Proof. unfold wp, run. by destruct (m s). Qed.

(** Commands whose meaning does not depend on the tables. *)
Section Plain.
Context `{GtpLib} `{Callees}.
Variables (interface_type : Z) (Q : pcnd -> Z -> Prop) (F : Prop).

Lemma wp_assign (P : pcnd -> unit -> Prop) f t mi l :
  P (mk_pcnd t (f mi) l) tt -> wp P Q F (assign f) (mk_pcnd t mi l).
Proof. done. Qed.

Lemma wp_message (P : pcnd -> gtpc_msg -> Prop) t mi l :
  P (mk_pcnd t mi l) (msg_gtpc_msg mi) -> wp P Q F message (mk_pcnd t mi l).
Proof. done. Qed.

Lemma wp_read {A} (P : pcnd -> A -> Prop) f s : P s (f s) -> wp P Q F (read f) s.
Proof. done. Qed.

Lemma wp_skip {A} (P : pcnd -> A -> Prop) a s : P s a -> wp P Q F (skip a) s.
Proof. done. Qed.

Lemma wp_deref {A} (P : pcnd -> A -> Prop) a s : P s a -> wp P Q F (deref (Some a)) s.
Proof. done. Qed.

Lemma wp_set_interface_type (P : pcnd -> unit -> Prop) t mi l :
  P (mk_pcnd t (set_msg_interface_type interface_type mi) l) tt ->
  wp P Q F (set_interface_type interface_type) (mk_pcnd t mi l).
Proof. done. Qed.

Lemma wp_set_procedure (P : pcnd -> Z -> Prop) t mi l p : get_procedure (msg_type mi) (msg_gtpc_msg mi) = p ->
  P (mk_pcnd t (set_msg_proc p mi) l) p -> wp P Q F set_procedure (mk_pcnd t mi l).
Proof. by intros <-. Qed.

End Plain.

Section Steps.
Context `{GtpLib} `{Callees}.
Variables (config : pfcp_config_t) (buf : list byte) (bytes_rx interface_type : Z).
Hypothesis Hbuf : length buf = MAX_GTPV2C_UDP_LEN.
Hypothesis Hquiet : forall f mi t, quiet f = true -> effect f mi t = t.
Hypothesis Hkeep : forall f mi t, cp_wf t -> cp_wf (effect f mi t).

(** [hz] stands for the hazard of the message. *)
Variable hz : Prop.
Abbreviation Q := (fun (s : pcnd) (_ : Z) => cp_wf (tables s) /\ ~ hz).

Lemma wp_perform (P : pcnd -> unit -> Prop) f t mi l : quiet f = true ->
  P (mk_pcnd t mi (l ++ [(f, mi)])) tt -> wp P Q hz (perform f) (mk_pcnd t mi l).
Proof. intros Hf. unfold wp, perform, modify. cbn. by rewrite Hquiet. Qed.

Lemma wp_refuse {A} (P : pcnd -> A -> Prop) f t mi l : cp_wf t -> ~ hz ->
  wp P Q hz (refuse f) (mk_pcnd t mi l).
Proof. intros Ht Hz. unfold wp, refuse, perform, modify, bind, return_. cbn. split; [by apply Hkeep|done]. Qed.

Lemma wp_header (P : pcnd -> gtpv2c_header_t -> Prop) s : P s (header_at buf) -> wp P Q hz (header_of buf 0) s.
Proof.
  unfold wp, header_of, SIZEOF_HEADER. rewrite bool_decide_true by (rewrite Hbuf; unfold MAX_GTPV2C_UDP_LEN; lia). done.
Qed.

Lemma wp_decode (P : pcnd -> Z -> Prop) ty t mi l ret m : decode ty buf = (ret, m) ->
  P (mk_pcnd t (set_msg_gtpc_msg m mi) l) ret -> wp P Q hz (decode_message buf ty 0) (mk_pcnd t mi l).
Proof. intros E. unfold wp, decode_message. rewrite drop_0, E. done. Qed.

Lemma wp_context_of_teid (P : pcnd -> Z * ptr -> Prop) teid t mi l : cp_wf t ->
  (forall c u, s11_context t teid = Some c -> contexts (cp_ue t) !! c = Some u -> P (mk_pcnd t mi l) (0, Some c)) ->
  (s11_context t teid = None -> P (mk_pcnd t mi l) (-1, None)) ->
  wp P Q hz (ue_context_of_teid teid) (mk_pcnd t mi l).
Proof.
  intros Ht. unfold s11_context, ue_context_of_teid, wp, ue_tables, read, get_ue_context. cbn.
  destruct (ue_context_by_fteid_hash (cp_ue t) !! teid) as [c|] eqn:E; cbn; [|by auto].
  destruct (wf_context_of_teid t Ht teid c E) as [u Hu]. eauto.
Qed.

Lemma wp_context_of_s5s8 (P : pcnd -> Z * ptr -> Prop) teid t mi l : cp_wf t ->
  (forall c u, s5s8_context t teid = Some c -> contexts (cp_ue t) !! c = Some u -> P (mk_pcnd t mi l) (0, Some c)) ->
  (forall r, r <> 0 -> s5s8_context t teid = None -> P (mk_pcnd t mi l) (r, None)) ->
  wp P Q hz (ue_context_of_s5s8_teid teid) (mk_pcnd t mi l).
Proof.
  intros Ht. unfold s5s8_context, ue_context_of_s5s8_teid, wp, ue_tables, read, bind, deref. cbn.
  destruct (wf_context_of_s5s8 t Ht teid) as [(c & u & b & br & p & E & Hu & _)|(r & E & Hr)]; rewrite E; cbn.
  - intros HP _. by eapply HP.
  - intros _ HP. apply HP; [done|]. by destruct r.
Qed.

Lemma wp_context_of (P : pcnd -> ue_context -> Prop) c t mi l u : contexts (cp_ue t) !! c = Some u ->
  P (mk_pcnd t mi l) u -> wp P Q hz (context_of c) (mk_pcnd t mi l).
Proof. intros E. unfold wp, context_of, ue_tables, read, bind, deref, ue_at. cbn. by rewrite E. Qed.

Lemma wp_pdn_of (P : pcnd -> pdn_connection -> Prop) p t mi l pd : pdns (cp_ue t) !! p = Some pd ->
  P (mk_pcnd t mi l) pd -> wp P Q hz (pdn_of p) (mk_pcnd t mi l).
Proof. intros E. unfold wp, pdn_of, ue_tables, read, bind, deref, pdn_at. cbn. by rewrite E. Qed.

Lemma wp_set_cp_mode_of (P : pcnd -> unit -> Prop) c t mi l u : contexts (cp_ue t) !! c = Some u ->
  P (mk_pcnd t (set_msg_cp_mode (ue_cp_mode u) mi) l) tt -> wp P Q hz (set_cp_mode_of c) (mk_pcnd t mi l).
Proof. intros E HP. unfold set_cp_mode_of. apply wp_bind. eapply wp_context_of; done. Qed.

Lemma wp_get_pdn_at (P : pcnd -> ptr -> Prop) c i t mi l u : cp_wf t ->
  contexts (cp_ue t) !! c = Some u -> 0 <= i < 28 ->
  (array_get (ue_eps_bearers u) i = Some None -> P (mk_pcnd t mi l) None) ->
  (forall b br p pd, array_get (ue_eps_bearers u) i = Some (Some b) -> bearers (cp_ue t) !! b = Some br ->
     eb_pdn br = Some p -> pdns (cp_ue t) !! p = Some pd -> P (mk_pcnd t mi l) (Some p)) ->
  wp P Q hz (get_pdn_at c i) (mk_pcnd t mi l).
Proof.
  intros Ht Hc Hi H1 H2. unfold get_pdn_at. apply wp_bind. eapply wp_context_of; [done|].
  unfold wp, ue_tables, read, bind, deref. cbn.
  destruct (wf_bearer_at t Ht c u i Hc Hi) as [(E & ->)|(b & br & p & pd & E1 & E2 & E3 & E4 & ->)]; [by apply H1|].
  by eapply H2.
Qed.

Lemma wp_pdn_of_bearer (P : pcnd -> ptr -> Prop) c i t mi l u : cp_wf t ->
  contexts (cp_ue t) !! c = Some u -> 0 <= i < 28 ->
  (array_get (ue_eps_bearers u) i = Some None -> hz) ->
  (forall b br p pd, array_get (ue_eps_bearers u) i = Some (Some b) -> bearers (cp_ue t) !! b = Some br ->
     eb_pdn br = Some p -> pdns (cp_ue t) !! p = Some pd -> P (mk_pcnd t mi l) (Some p)) ->
  wp P Q hz (pdn_of_bearer c i) (mk_pcnd t mi l).
Proof.
  intros Ht Hc Hi H1 H2. unfold pdn_of_bearer. apply wp_bind. eapply wp_context_of; [done|].
  destruct (wf_bearer_at t Ht c u i Hc Hi) as [(E & _)|(b & br & p & pd & E1 & E2 & E3 & E4 & _)];
    unfold wp, ue_tables, read, bind, deref, bearer_at, skip, fault; cbn.
  - rewrite E. by apply H1.
  - rewrite E1. cbn. rewrite E2. cbn. rewrite E3. by eapply H2.
Qed.

Lemma wp_set_pdn (P : pcnd -> unit -> Prop) p f t mi l pd : cp_wf t -> pdns (cp_ue t) !! p = Some pd ->
  same_pdn pd (f pd) ->
  (forall t', cp_wf t' -> later t t' -> P (mk_pcnd t' mi l) tt) ->
  wp P Q hz (set_pdn p f) (mk_pcnd t mi l).
Proof.
  intros Ht Hp Hs HP. unfold wp, set_pdn, change_tables, update. cbn.
  erewrite change_pdn_eq by done. cbn. apply HP; [by eapply cp_wf_set_pdn|by eapply later_set_pdn].
Qed.

Lemma wp_set_context (P : pcnd -> unit -> Prop) c f t mi l u : cp_wf t -> contexts (cp_ue t) !! c = Some u ->
  same_ue u (f u) ->
  (forall t', cp_wf t' -> later t t' -> contexts (cp_ue t') !! c = Some (f u) -> P (mk_pcnd t' mi l) tt) ->
  wp P Q hz (set_context c f) (mk_pcnd t mi l).
Proof.
  intros Ht Hc Hs HP. unfold wp, set_context, change_tables, update. cbn.
  erewrite change_ue_eq by done. cbn. apply HP; [by eapply cp_wf_set_context|by eapply later_set_context|].
  cbn. by rewrite lookup_insert_eq.
Qed.

Lemma wp_delete_teid_entry (P : pcnd -> unit -> Prop) key t mi l : cp_wf t ->
  (forall t', cp_wf t' -> cp_ue t' = cp_ue t -> P (mk_pcnd t' mi l) tt) ->
  wp P Q hz (delete_teid_entry key) (mk_pcnd t mi l).
Proof.
  intros Ht HP. unfold wp, delete_teid_entry, update, delete_teid_entry_for_seq, del_entry. cbn.
  destruct (cp_ds_seq_key_with_teid t !! ds_key key) as [p|] eqn:E; cbn.
  - destruct (proj1 (cp_wf_teids t Ht) _ _ E) as [v Hv]. rewrite Hv. cbn. apply HP; [|done].
    destruct Ht as [W1 W2 W3 W4 W5 W6]. split; try done. by apply index_ok_delete.
  - apply HP; [|done]. by destruct Ht.
Qed.

(** Not an error with TEID 0; or one whose request is not known, and then what [missing]
    does. *)
Lemma wp_zero_teid (P : pcnd -> unit -> Prop) key timer respond missing cleanup t mi l m : cp_wf t ->
  msg_gtpc_msg mi = m -> (forall teid, quiet (timer teid) = true) ->
  (~ zero_teid m -> P (mk_pcnd t mi l) tt) ->
  (zero_teid m -> get_teid_for_seq_number (cp_ds_seq_key_with_teid t) key = None ->
     wp (fun s _ => Q s 0) Q hz missing (mk_pcnd t mi l)) ->
  (zero_teid m -> get_teid_for_seq_number (cp_ds_seq_key_with_teid t) key <> None -> forall mi' l',
     wp (fun s _ => wp (fun s _ => wp (fun s _ => Q s 0) Q hz cleanup s) Q hz (delete_teid_entry key) s)
       Q hz respond (mk_pcnd t mi' l')) ->
  wp P Q hz (zero_teid_error key timer respond missing cleanup) (mk_pcnd t mi l).
Proof.
  intros Ht Hm Hq H1 H2 H3. unfold zero_teid_error. apply wp_bind. unfold message. unfold wp at 1, read. cbn.
  rewrite Hm. unfold zero_teid in *.
  destruct (bool_decide_reflect (m_teid m = 0)); [|by apply H1; intros [? ?]].
  destruct (bool_decide_reflect (m_cause m <> GTPV2C_CAUSE_REQUEST_ACCEPTED)); [|by apply H1; intros [? ?]].
  cbn [andb]. apply wp_bind. unfold wp at 1, read. cbn.
  destruct (get_teid_for_seq_number (cp_ds_seq_key_with_teid t) key) as [p|] eqn:E.
  - destruct (proj1 (cp_wf_teids t Ht) _ _ E) as [v Hv].
    assert (forall mi' l' (P : pcnd -> teid_value_t -> Prop), P (mk_pcnd t mi' l') v ->
      wp P Q hz (teid_value_of p) (mk_pcnd t mi' l')) as Hval.
    { intros mi' l' P' HP'. unfold wp, teid_value_of, bind, read, deref. cbn. by rewrite Hv. }
    apply wp_bind, Hval. apply wp_bind, wp_perform; [by apply Hq|]. apply wp_bind, Hval.
    apply wp_bind. unfold wp at 1, assign, modify. cbn. apply wp_bind.
    eapply wp_mono; [by apply H3|]. intros s1 u1 Hs1. apply wp_bind.
    eapply wp_mono; [exact Hs1|]. intros s2 u2 Hs2. apply wp_bind.
    eapply wp_mono; [exact Hs2|]. by intros s3 u3 Hs3.
  - apply wp_bind. eapply wp_mono; [by apply H2|]. by intros s1 u1 Hs1.
Qed.

Lemma wp_update_proc (P : pcnd -> Z -> Prop) c i t mi l u : cp_wf t -> contexts (cp_ue t) !! c = Some u ->
  0 <= i < 28 -> (forall r t', cp_wf t' -> later t t' -> P (mk_pcnd t' mi l) r) ->
  wp P Q hz (update_proc c i) (mk_pcnd t mi l).
Proof.
  intros Ht Hc Hi HP. unfold update_proc. apply wp_bind. unfold wp at 1, read. cbn.
  unfold wp, call, update_ue_proc, ue_at. cbn. rewrite Hc. cbn.
  destruct (wf_bearer_at t Ht c u i Hc Hi) as [(E & ->)|(b & br & p & pd & E1 & E2 & E3 & E4 & ->)]; cbn.
  - apply HP; [|by apply later_tables]. by destruct Ht.
  - erewrite change_pdn_eq by done. cbn. apply HP; [by eapply cp_wf_set_pdn|by eapply later_set_pdn].
Qed.

Lemma wp_answered (P : pcnd -> unit -> Prop) c teid t mi l u : cp_wf t -> contexts (cp_ue t) !! c = Some u ->
  (forall t' l', cp_wf t' -> cp_ue t' = cp_ue t -> P (mk_pcnd t' mi l') tt) ->
  wp P Q hz (bearer_resource_answered c teid) (mk_pcnd t mi l).
Proof.
  intros Ht Hc HP. unfold bearer_resource_answered. apply wp_bind. eapply wp_context_of; [done|].
  apply wp_bind. unfold wp at 1, message, read. cbn. case_bool_decide; [|by apply HP].
  apply wp_bind, wp_perform; [done|]. by apply wp_delete_teid_entry; [|intros; apply HP].
Qed.

Lemma wp_return {A} (P : pcnd -> A -> Prop) r s : cp_wf (tables s) -> ~ hz -> wp P Q hz (return_ r) s.
Proof. done. Qed.

Lemma wp_fault {A} (P : pcnd -> A -> Prop) s : hz -> wp P Q hz fault s.
Proof. done. Qed.

Lemma wp_state_of_ue (P : pcnd -> unit -> Prop) teid i otherwise t mi l : cp_wf t -> 0 <= i < 28 ->
  (forall mi', P (mk_pcnd t mi' l) tt) ->
  ((forall c u, s11_context t teid = Some c -> contexts (cp_ue t) !! c = Some u ->
      array_get (ue_eps_bearers u) i <> Some None) -> wp P Q hz otherwise (mk_pcnd t mi l)) ->
  wp P Q hz (state_of_ue teid i otherwise) (mk_pcnd t mi l).
Proof.
  intros Ht Hi HP Ho. unfold state_of_ue. apply wp_bind. unfold wp at 1, ue_tables, read. cbn.
  unfold get_ue_state, s11_context, get_ue_context in *.
  destruct (ue_context_by_fteid_hash (cp_ue t) !! teid) as [c|] eqn:E.
  2: { apply wp_bind, wp_deref. case_bool_decide; [apply HP|]. by apply Ho. }
  destruct (wf_context_of_teid t Ht teid c E) as [u Hu]. unfold ue_at. rewrite Hu. cbn.
  destruct (wf_bearer_at t Ht c u i Hu Hi) as [(_ & ->)|(b & br & p & pd & E1 & _ & _ & E4 & ->)]; cbn.
  - apply HP.
  - unfold pdn_at. rewrite E4. apply wp_bind, wp_deref. case_bool_decide; [apply HP|].
    apply Ho. intros c' u' [= <-] Hu'. rewrite Hu in Hu'. injection Hu' as <-. by rewrite E1.
Qed.

(** Where a case ends. *)
Definition left_ok (s : pcnd) (l : locals) : Prop :=
  cp_wf (tables s) /\ ~ hz /\ l_rx l = 0%nat /\ l_li_buf l = None /\
  forall c, l_context l = Some c -> is_Some (contexts (cp_ue (tables s)) !! c).

Lemma wp_leave context t mi l : cp_wf t -> ~ hz ->
  (forall c, context = Some c -> is_Some (contexts (cp_ue t) !! c)) ->
  wp left_ok Q hz (leave context 0) (mk_pcnd t mi l).
Proof. done. Qed.
End Steps.

Ltac pstep :=
  cbv beta iota;
  match goal with
  | |- wp _ _ _ (bind _ _) _ => apply wp_bind
  | |- wp _ _ _ (assign _) _ => apply wp_assign
  | |- wp _ _ _ message _ => apply wp_message; cbn [msg_gtpc_msg set_msg_gtpc_msg set_msg_type set_msg_proc
        set_msg_state set_msg_event set_msg_cp_mode set_msg_interface_type]
  | |- wp _ _ _ (read _) _ => apply wp_read; cbn [msg msg_gtpc_msg set_msg_gtpc_msg set_msg_type set_msg_proc
        set_msg_state set_msg_event set_msg_cp_mode set_msg_interface_type tables msg_type msg_proc msg_cb_rsp]
  | |- wp _ _ _ (skip _) _ => apply wp_skip
  | |- wp _ _ _ (return_ _) _ => apply wp_return
  | |- wp _ _ _ fault _ => apply wp_fault
  | |- wp _ _ _ process_error_occured_handler _ => apply wp_fault
  | |- wp _ _ _ (deref (Some _)) _ => apply wp_deref
  | |- wp _ _ _ (set_interface_type _) _ => apply wp_set_interface_type
  | |- wp _ _ _ (refuse _) _ => apply wp_refuse
  | |- wp _ _ _ (perform _) _ => apply wp_perform; [done|reflexivity|]
  | |- wp _ _ _ (header_of _ 0) _ => apply wp_header; [done|]
  | |- wp _ _ _ (set_procedure) _ => eapply wp_set_procedure; [reflexivity|]
  | H : decode ?ty _ = _ |- wp _ _ _ (decode_message _ ?ty 0) _ => eapply wp_decode; [exact H|]
  | |- wp _ _ _ (ue_context_of_teid _) _ =>
      apply wp_context_of_teid; [done| |]; [intros ?c ?u ?Hs ?Hu|intros ?Hs]
  | |- wp _ _ _ (ue_context_of_s5s8_teid _) _ =>
      apply wp_context_of_s5s8; [done| |]; [intros ?c ?u ?Hs ?Hu|intros ?r ?Hr ?Hs]
  | H : contexts (cp_ue ?t) !! ?c = Some _ |- wp _ _ _ (context_of ?c) (mk_pcnd ?t _ _) =>
      eapply wp_context_of; [exact H|]
  | H : contexts (cp_ue ?t) !! ?c = Some _ |- wp _ _ _ (set_cp_mode_of ?c) (mk_pcnd ?t _ _) =>
      eapply wp_set_cp_mode_of; [exact H|]
  | H : pdns (cp_ue ?t) !! ?p = Some _ |- wp _ _ _ (pdn_of ?p) (mk_pcnd ?t _ _) =>
      eapply wp_pdn_of; [exact H|]
  | |- wp _ _ _ (if ?b then _ else _) _ => destruct b eqn:?
  | |- wp _ _ _ (leave _ 0) _ => apply wp_leave
  end.

Section MoreSteps.
Context `{GtpLib} `{Callees}.
Variables (config : pfcp_config_t) (buf : list byte) (bytes_rx interface_type : Z).
Hypothesis Hkeep : forall f mi t, cp_wf t -> cp_wf (effect f mi t).
Variable hz : Prop.
Abbreviation Q := (fun (s : pcnd) (_ : Z) => cp_wf (tables s) /\ ~ hz).

Lemma wp_perform_any (P : pcnd -> unit -> Prop) f t mi l : cp_wf t ->
  (forall t' l', cp_wf t' -> P (mk_pcnd t' mi l') tt) -> wp P Q hz (perform f) (mk_pcnd t mi l).
Proof. intros Ht HP. unfold wp, perform, modify. cbn. by apply HP, Hkeep. Qed.

Lemma wp_teid_value_of (P : pcnd -> teid_value_t -> Prop) key p t mi l : cp_wf t ->
  get_teid_for_seq_number (cp_ds_seq_key_with_teid t) key = Some p ->
  (forall v, cp_teid_values t !! p = Some v -> P (mk_pcnd t mi l) v) -> wp P Q hz (teid_value_of p) (mk_pcnd t mi l).
Proof.
  intros Ht E HP. destruct (proj1 (cp_wf_teids t Ht) _ _ E) as [v Hv].
  unfold wp, teid_value_of, bind, read, deref. cbn. rewrite Hv. by apply HP.
Qed.

Lemma wp_teid_value_again (P : pcnd -> teid_value_t -> Prop) p v t mi l : cp_teid_values t !! p = Some v ->
  P (mk_pcnd t mi l) v -> wp P Q hz (teid_value_of p) (mk_pcnd t mi l).
Proof. intros Hv HP. unfold wp, teid_value_of, bind, read, deref. cbn. by rewrite Hv. Qed.

Lemma wp_check_default (P : pcnd -> option Z -> Prop) id c t mi l u : cp_wf t ->
  contexts (cp_ue t) !! c = Some u -> (forall r, P (mk_pcnd t mi l) (Some r)) ->
  wp P Q hz (ue_tables (check_default_bearer_id_presence_in_ue id c)) (mk_pcnd t mi l).
Proof.
  intros Ht Hc HP.
  assert (forall ps, (forall p, In (Some p) ps -> In (Some p) (ue_pdns u)) ->
    exists r, check_default_bearer_id id (cp_ue t) ps = Some r) as Hall.
  { induction ps as [|[p|] ps IH]; intros Hps; cbn [check_default_bearer_id]; [by eexists| |].
    - destruct (wf_pdns t Ht c u p Hc) as [pd Hp]; [apply Hps; by left|].
      unfold pdn_at. rewrite Hp. cbn [mbind option_bind]. case_bool_decide; [by eexists|].
      apply IH. intros q Hq. apply Hps. by right.
    - apply IH. intros q Hq. apply Hps. by right. }
  destruct (Hall (take MAX_BEARERS (ue_pdns u))) as [r E].
  { intros p Hp. rewrite <- (take_drop MAX_BEARERS (ue_pdns u)). apply in_or_app. by left. }
  assert (check_default_bearer_id_presence_in_ue id c (cp_ue t) = Some r) as Er.
  { unfold check_default_bearer_id_presence_in_ue, ue_at. by rewrite Hc. }
  unfold wp, ue_tables, read. cbn [tables]. rewrite Er. apply HP.
Qed.

Lemma wp_deref_none {A} (P : pcnd -> A -> Prop) s : hz -> wp P Q hz (deref None) s.
Proof. done. Qed.

Lemma wf_context_of_imsi t k c : cp_wf t -> ue_context_by_imsi_hash (cp_ue t) !! k = Some c ->
  exists u, contexts (cp_ue t) !! c = Some u.
Proof. intros Ht E. by apply (wf_imsi _ (cp_wf_ue t Ht)) in E. Qed.

(** The loops over [context->pdns]. *)
Lemma wp_release_pdns (P : pcnd -> unit -> Prop) ps t mi l : cp_wf t ->
  (forall p, In (Some p) ps -> is_Some (pdns (cp_ue t) !! p)) ->
  (forall t' mi', cp_wf t' -> later t t' -> P (mk_pcnd t' mi' l) tt) ->
  wp P Q hz (release_pdns ps) (mk_pcnd t mi l).
Proof.
  revert t mi. induction ps as [|[p|] ps IH]; intros t mi Ht Hps HP; cbn [release_pdns].
  - by apply HP.
  - destruct (Hps p) as [pd Hp]; [by left|]. apply wp_bind, wp_read, wp_bind.
    eapply wp_set_pdn; [done|exact Hp|by repeat split|]. intros t' Ht' Hl.
    destruct (later_pdn _ _ Hl _ _ Hp) as (pd' & Hp' & _). apply wp_bind. eapply wp_pdn_of; [done|].
    apply wp_bind, wp_assign, IH; [done| |].
    + intros q Hq. destruct (Hps q) as [qd Hqd]; [by right|].
      destruct (later_pdn _ _ Hl _ _ Hqd) as (? & ? & _). by eexists.
    + intros t'' mi' Ht'' Hl'. apply HP; [done|]. by etrans.
  - apply IH; [done| |done]. intros q Hq. apply Hps. by right.
Qed.

Lemma wp_notified_pdn (P : pcnd -> Z -> Prop) go_on i ps t mi l : cp_wf t -> ~ hz ->
  (forall p, In (Some p) ps -> is_Some (pdns (cp_ue t) !! p)) ->
  (forall mi' i', P (mk_pcnd t mi' l) i') ->
  wp P Q hz (notified_pdn go_on i ps) (mk_pcnd t mi l).
Proof.
  intros Ht Hz. revert i mi. induction ps as [|[p|] ps IH]; intros i mi Hps HP; cbn [notified_pdn].
  - apply HP.
  - destruct (Hps p) as [pd Hp]; [by left|]. apply wp_bind. eapply wp_pdn_of; [done|].
    apply wp_bind, wp_assign, wp_bind, wp_assign, wp_bind. case_bool_decide; [done|].
    destruct go_on; [|apply HP]. apply IH; [|done]. intros q Hq. apply Hps. by right.
  - apply IH; [|done]. intros q Hq. apply Hps. by right.
Qed.

Lemma wf_taken_pdns c u n t p : cp_wf t -> contexts (cp_ue t) !! c = Some u -> In (Some p) (take n (ue_pdns u)) ->
  is_Some (pdns (cp_ue t) !! p).
Proof.
  intros Ht Hc Hp. eapply wf_pdns; [done..|]. rewrite <- (take_drop n (ue_pdns u)). apply in_or_app. by left.
Qed.

Lemma wp_update_procedure (P : pcnd -> unit -> Prop) p t mi l :
  (forall q, p = Some q -> is_Some (pdns (cp_ue t) !! q)) ->
  (forall mi', msg_gtpc_msg mi' = msg_gtpc_msg mi -> P (mk_pcnd t mi' l) tt) ->
  wp P Q hz (update_procedure p) (mk_pcnd t mi l).
Proof.
  intros Hp HP. unfold update_procedure. destruct p as [p|]; [|by apply HP].
  destruct (Hp p eq_refl) as [pd E]. apply wp_bind. eapply wp_pdn_of; [done|]. case_bool_decide; by apply HP.
Qed.

Lemma wp_array_get (P : pcnd -> ptr -> Prop) c u i t mi l : cp_wf t -> contexts (cp_ue t) !! c = Some u ->
  0 <= i < 28 ->
  (array_get (ue_eps_bearers u) i = Some None -> P (mk_pcnd t mi l) None) ->
  (forall b br p pd, bearers (cp_ue t) !! b = Some br -> eb_pdn br = Some p -> pdns (cp_ue t) !! p = Some pd ->
     P (mk_pcnd t mi l) (Some b)) ->
  wp P Q hz (deref (array_get (ue_eps_bearers u) i)) (mk_pcnd t mi l).
Proof.
  intros Ht Hc Hi H1 H2. destruct (wf_bearer_at t Ht c u i Hc Hi) as [(E & _)|(b & br & p & pd & E1 & E2 & E3 & E4 & _)];
    [rewrite E; by apply H1|rewrite E1; by eapply H2].
Qed.

Lemma wp_bearer_at (P : pcnd -> option eps_bearer -> Prop) b br t mi l : bearers (cp_ue t) !! b = Some br ->
  P (mk_pcnd t mi l) (Some br) -> wp P Q hz (ue_tables (bearer_at b)) (mk_pcnd t mi l).
Proof. intros E HP. unfold wp, ue_tables, read, bearer_at. cbn. by rewrite E. Qed.
End MoreSteps.

Lemma wp_modified_bearer `{GtpLib} `{Callees} hz (P : pcnd -> Z -> Prop) m c t mi l : cp_wf t ->
  s5s8_context t (m_teid m) = Some c ->
  (forall i, i = -1 \/ 0 <= i < 28 -> P (mk_pcnd t mi l) i) ->
  wp P (fun s _ => cp_wf (tables s) /\ ~ hz) hz (modified_bearer m) (mk_pcnd t mi l).
Proof.
  intros Ht Hs HP. unfold modified_bearer. repeat case_bool_decide;
    try (apply wp_skip, HP, GET_EBI_INDEX_range).
  destruct (wf_context_of_s5s8 t Ht (m_teid m)) as [(c' & u & b & br & p & E & _ & E1 & E2 & E3 & pd & E4)|(r & E & Hr)].
  - apply wp_bind, wp_read. cbn [tables]. rewrite E1. cbv beta iota. change (bool_decide (0 < 0)) with false. cbv iota.
    apply wp_bind, wp_deref, wp_bind. eapply wp_bearer_at; [exact E2|]. apply wp_bind, wp_deref, wp_bind.
    rewrite E3. apply wp_deref, wp_bind. eapply wp_pdn_of; [done|]. apply wp_skip, HP, GET_EBI_INDEX_range.
  - unfold s5s8_context in Hs. rewrite E in Hs. by destruct r.
Qed.

(** ** Automation *)

(** A test that is known by computation or by a hypothesis, or both cases. *)
Ltac split_on P :=
  first [ change (bool_decide P) with true | change (bool_decide P) with false
        | rewrite (bool_decide_eq_true_2 P) by assumption
        | rewrite (bool_decide_eq_false_2 P) by assumption
        | destruct (bool_decide_reflect P);
          try match goal with H : ~ (?x <> ?y) |- _ => apply dec_stable in H end ]; cbn [andb orb negb].

Ltac split_if :=
  match goal with
  | |- wp _ _ _ (if ?b then _ else _) _ =>
      match b with
      | context [bool_decide ?P] => split_on P
      | context [m_piggyback ?m] => match goal with H : m_piggyback m = _ |- _ => rewrite H; cbn [andb orb negb] end
      end
  end.

Ltac in_range :=
  match goal with
  | H : 0 <= ?i < 28 |- 0 <= ?i < 28 => exact H
  | H : ?i = -1 \/ 0 <= ?i < 28 |- 0 <= ?i < 28 => destruct H; [congruence|assumption]
  | |- 0 <= GET_EBI_INDEX ?a < 28 => destruct (GET_EBI_INDEX_range a); [congruence|assumption]
  | |- _ => by vm_compute
  end.

(** The objects of earlier tables in later ones. *)
Ltac carry H :=
  match type of H with
  | later ?t ?t' =>
      repeat match goal with
      | Hu : contexts (cp_ue t) !! ?c = Some _ |- _ =>
          lazymatch goal with
          | _ : contexts (cp_ue t') !! c = Some _ |- _ => fail
          | _ => let u := fresh "u" in let Hs := fresh "Hsame" in destruct (later_ue _ _ H _ _ Hu) as (u & ? & Hs)
          end
      | Hp : pdns (cp_ue t) !! ?p = Some _ |- _ =>
          lazymatch goal with
          | _ : pdns (cp_ue t') !! p = Some _ |- _ => fail
          | _ => let pd := fresh "pd" in destruct (later_pdn _ _ H _ _ Hp) as (pd & ? & _)
          end
      end
  | cp_ue ?t' = cp_ue ?t =>
      repeat match goal with
      | Hu : contexts (cp_ue t) !! ?c = Some ?u |- _ =>
          lazymatch goal with
          | _ : contexts (cp_ue t') !! c = Some _ |- _ => fail
          | _ => assert (contexts (cp_ue t') !! c = Some u) by (rewrite H; exact Hu)
          end
      | Hu : pdns (cp_ue t) !! ?c = Some ?u |- _ =>
          lazymatch goal with
          | _ : pdns (cp_ue t') !! c = Some _ |- _ => fail
          | _ => assert (pdns (cp_ue t') !! c = Some u) by (rewrite H; exact Hu)
          end
      end
  end.

Ltac new_tables :=
  let t' := fresh "t" in let Hw := fresh "Hwf" in let Hl := fresh "Hl" in
  intros t' Hw Hl; carry Hl.

Ltac members :=
  cbn [msg_gtpc_msg set_msg_gtpc_msg set_msg_type set_msg_proc set_msg_state set_msg_event set_msg_cp_mode
       set_msg_interface_type msg_type] in *.

(** The cases of an option in the goal, not in the hypotheses. *)
Ltac cases_of x E :=
  let o := fresh "o" in
  assert (exists o, x = o) as [o E] by (by eexists); rewrite E; destruct o.

Ltac case_step :=
  cbv beta iota;
  match goal with
  | |- wp _ _ _ (if _ then _ else _) _ => split_if
  | |- wp _ _ _ (update_proc _ _) _ => eapply wp_update_proc; [eassumption..|in_range|]; intros ?; new_tables
  | |- wp _ _ _ (delete_teid_entry _) _ => apply wp_delete_teid_entry; [assumption|]; new_tables
  | |- wp _ _ _ (set_pdn _ _) _ => eapply wp_set_pdn; [eassumption..|by repeat split|]; new_tables
  | |- wp _ _ _ (set_context _ _) _ =>
      eapply wp_set_context; [eassumption..|by repeat split|];
      let t' := fresh "t" in let Hw := fresh "Hwf" in let Hl := fresh "Hl" in
      intros t' Hw Hl ?; carry Hl
  | |- wp _ _ _ (bearer_resource_answered _ _) _ =>
      eapply wp_answered; [eassumption..|];
      let t' := fresh "t" in let Hw := fresh "Hwf" in let Hl := fresh "Hl" in
      intros t' ? Hw Hl; carry Hl
  | |- wp _ _ _ (state_of_ue _ _ _) _ => apply wp_state_of_ue; [eassumption..|in_range|intros ?mi|intros ?Hpresent]
  | |- wp _ _ _ (get_pdn_at _ _) _ => eapply wp_get_pdn_at; [eassumption..|in_range|intros ?|intros ? ? ? ? ? ? ? ?]
  | |- wp _ _ _ (pdn_of_bearer _ _) _ => eapply wp_pdn_of_bearer; [eassumption..|in_range|intros ?|intros ? ? ? ? ? ? ? ?]
  | |- wp _ _ _ (zero_teid_error _ _ _ _ _) _ =>
      eapply wp_zero_teid; [eassumption|eassumption|reflexivity|done|intros ?Hzero|intros ?Hzero ?Hreq|intros ?Hzero ?Hreq ?mi ?l];
      members
  | |- wp _ _ _ (ue_tables (check_default_bearer_id_presence_in_ue _ _)) _ =>
      eapply wp_check_default; [eassumption..|intros ?]
  | |- wp _ _ _ (release_pdns _) _ =>
      apply wp_release_pdns; [assumption|by intros ? ?; eapply wf_taken_pdns|];
      let t' := fresh "t" in let Hw := fresh "Hwf" in let Hl := fresh "Hl" in
      intros t' ? Hw Hl; carry Hl
  | |- wp _ _ _ (notified_pdn _ _ _) _ =>
      apply wp_notified_pdn; [assumption..|by intros ? ?; eapply wf_taken_pdns|intros ?mi ?]
  | |- wp _ _ _ (modified_bearer _) _ => eapply wp_modified_bearer; [eassumption..|intros ? ?]
  | |- wp _ _ _ (match get_teid_for_seq_number ?i ?k with _ => _ end) _ => destruct (get_teid_for_seq_number i k) eqn:?
  | |- wp _ _ _ (match ue_context_by_imsi_hash _ !! ?k with _ => _ end) (mk_pcnd ?t _ _) =>
      cbn [tables]; let E := fresh "E" in
      cases_of (ue_context_by_imsi_hash (cp_ue t) !! k) E;
      [edestruct (wf_context_of_imsi t); [eassumption|exact E|]|]
  | |- wp _ _ _ (let '(_, _) := get_sender_teid_context ?k _ in _) (mk_pcnd ?t _ _) =>
      cbn [tables]; unfold get_sender_teid_context; let E := fresh "E" in
      cases_of (ue_context_by_sender_teid_hash (cp_ue t) !! k) E;
      [edestruct (cp_wf_sender t); [eassumption|exact E|]|]
  | Hu : contexts (cp_ue ?t) !! ?c = Some ?u |- wp _ _ _ (deref (ue_indirect_tunnel_pdn ?u)) (mk_pcnd ?t _ _) =>
      let E := fresh "Htunnel" in
      destruct (ue_indirect_tunnel_pdn u) as [[?p|]|] eqn:E;
      [edestruct (cp_wf_tunnel t) as [?pd ?Hpd]; [assumption|exact Hu|exact E|]| |]
  | |- wp _ _ _ (deref None) _ => apply wp_deref_none
  | E : eb_pdn ?b = _ |- wp _ _ _ (match eb_pdn ?b with _ => _ end) _ => rewrite E
  | Hv : cp_teid_values ?t !! ?p = Some _ |- wp _ _ _ (teid_value_of ?p) _ => eapply wp_teid_value_again; [exact Hv|]
  | |- wp _ _ _ (teid_value_of _) _ => eapply wp_teid_value_of; [eassumption..|intros ? ?]
  | |- wp _ _ _ (deref (array_get _ _)) _ => eapply wp_array_get; [eassumption..|in_range|intros ?|intros ? ? ? ? ? ? ?]
  | Hb : bearers _ !! ?b = Some _ |- wp _ _ _ (ue_tables (bearer_at ?b)) _ => eapply wp_bearer_at; [exact Hb|]
  | |- wp _ _ _ (update_procedure (Some _)) _ =>
      apply wp_update_procedure; [intros ? [= <-]; eexists; eassumption|intros ?mi ?]
  | |- wp _ _ _ (demoted_mode _ _ _) _ => unfold demoted_mode
  | |- wp _ _ _ (update_procedure None) _ => apply wp_update_procedure; [done|intros ?mi ?]
  | |- wp _ _ _ (ue_tables _) _ => apply wp_read
  | _ => first [pstep | match goal with
                        | |- wp _ _ _ (perform _) _ => apply wp_perform_any; [assumption..|intros ? ? ?]
                        end]
  end.

Ltac case_end :=
  try solve [ assumption | reflexivity | intros ? [= <-]; eexists; eassumption | intros ?; discriminate
            | split; assumption | repeat split; assumption ].

Ltac case_run := repeat (case_step; case_end); case_end.

(** *** Hazards *)

Lemma found_known t context c u P : context = Some c -> contexts (cp_ue t) !! c = Some u -> found t context P <-> P u.
Proof.
  intros -> Hu. split; [|by exists c, u].
  intros (c' & u' & [= <-] & E & H1). rewrite Hu in E. by injection E as <-.
Qed.

Lemma found_none t P : ~ found t None P.
Proof. by intros (c & u & E & _). Qed.

Lemma bearer_absent_invalid t context ebi : GET_EBI_INDEX ebi = -1 -> ~ bearer_absent t context ebi.
Proof. by intros E (c & u & _ & _ & ? & _). Qed.

Lemma same_contexts t t' : cp_ue t' = cp_ue t ->
  (forall teid, s11_context t' teid = s11_context t teid) /\ (forall teid, s5s8_context t' teid = s5s8_context t teid).
Proof. intros E. unfold s11_context, s5s8_context. by rewrite E. Qed.

(** The request that a response with TEID 0 is matched with. *)
Lemma request_of_procedure t mi p m : msg_type mi = p ->
  request_of t (get_procedure p m) m =
  get_teid_for_seq_number (cp_ds_seq_key_with_teid t) (teid_key (get_proc_string (get_procedure (msg_type mi) m)) (m_seq m)).
Proof. by intros ->. Qed.

Lemma left_ok_intro hz t mi l c pg : cp_wf t -> is_Some (contexts (cp_ue t) !! c) -> ~ hz ->
  left_ok hz (mk_pcnd t mi l) (mk_locals (Some c) 0 pg None).
Proof. intros Ht Hc Hz. split_and!; [done..|]. by intros ? [= <-]. Qed.

(** Where a case returns, goes on, or faults: whether its message is a hazard. *)
Ltac hazard_known :=
  match goal with
  | |- left_ok _ _ _ => apply left_ok_intro; [assumption|eexists; eassumption|]
  | |- _ /\ ~ _ => split; [assumption|]
  | _ => idtac
  end;
  match goal with Hz : ?hz <-> _ |- _ => rewrite Hz end;
  repeat match goal with
  | Hb : ue_piggyback (set_ue_cp_mode_flag _ ?u) = ?b |- _ => change (ue_piggyback u = b) in Hb
  | Hb : ue_piggyback (set_ue_cp_mode _ ?u) = ?b |- _ => change (ue_piggyback u = b) in Hb
  | E : cp_ue ?t' = cp_ue ?t, Hp : (forall c u, s11_context ?t' _ = _ -> _) |- _ =>
      rewrite (proj1 (same_contexts t t' E)), E in Hp
  | Hp : (forall c u, s11_context ?t ?x = _ -> _), Hs : s11_context ?t ?x = _, Hu : contexts (cp_ue ?t) !! _ = _ |- _ =>
      specialize (Hp _ _ Hs Hu)
  | E : cp_ue ?t' = cp_ue ?t, Hs : s11_context ?t' _ = _ |- _ => rewrite (proj1 (same_contexts t t' E)) in Hs
  | E : cp_ue ?t' = cp_ue ?t, Hs : s5s8_context ?t' _ = _ |- _ => rewrite (proj2 (same_contexts t t' E)) in Hs
  | Hi : GET_EBI_INDEX ?e = -1 |- context [bearer_absent ?t ?x ?e] =>
      lazymatch goal with
      | _ : ~ bearer_absent t x e |- _ => fail
      | _ => pose proof (bearer_absent_invalid t x e Hi)
      end
  end;
  unfold bearer_absent, piggyback_pending, tunnel_absent in *;
  repeat match goal with
  | Hs : ?x = Some ?c, Hu : contexts (cp_ue ?t) !! ?c = Some _ |- context [found ?t ?x ?P] =>
      rewrite (found_known t x c _ P Hs Hu)
  | Hs : ?x = None |- context [found ?t ?x ?P] => rewrite Hs; pose proof (found_none t P)
  end;
  unfold zero_teid, refused_demotion in *; intuition (first [congruence | eauto]).

