(* ===== verification/GtpcCases.v ===== *)
(** * No other message leads the control plane to a pointer that is not there

    Each case of [gtpc_pcnd_check] ([GtpcPcnd]) for a message without a second one behind
    it: from well-formed tables it faults for the messages of [hazard] ([GtpcSafe]) and for
    no others, and it keeps the tables well formed; then the whole check. *)
From S2P Require Import Prelude CText LList Teid SmTable CpTables CMonad UeContext SmSession Gtpc GtpcPcnd GtpcSafe GtpcSteps.
From Stdlib Require Import Ascii.

(** ** The cases *)

Section Cases.
Context `{GtpLib} `{Callees}.
Variables (config : pfcp_config_t) (buf : list byte) (bytes_rx interface_type : Z).
Hypothesis Hbuf : length buf = MAX_GTPV2C_UDP_LEN.
Hypothesis Hquiet : forall f mi t, quiet f = true -> effect f mi t = t.
Hypothesis Hkeep : forall f mi t, cp_wf t -> cp_wf (effect f mi t).
Variables (hz : Prop) (t : cp_state) (mi : msg_info) (l : list (callee * msg_info)) (ret : Z) (m : gtpc_msg).
Hypothesis Hwf : cp_wf t.
Abbreviation Q := (fun (s : pcnd) (_ : Z) => cp_wf (tables s) /\ ~ hz).

Lemma create_session_rsp_safe : m_piggyback m = false -> decode GTP_CREATE_SESSION_RSP buf = (ret, m) ->
  ~ hz ->
  wp (left_ok hz) Q hz (create_session_rsp buf interface_type 0) (mk_pcnd t mi l).
Proof. intros Hp Hd Hz. unfold create_session_rsp. case_run. Qed.

Lemma create_bearer_req_safe : decode GTP_CREATE_BEARER_REQ buf = (ret, m) ->
  (hz <-> ret <> 0 /\ bearer_absent t (s5s8_context t (h_teid (header_at buf))) (m_lbi m)) ->
  wp (left_ok hz) Q hz (create_bearer_req buf interface_type 0 false None) (mk_pcnd t mi l).
Proof. intros Hd Hz. unfold create_bearer_req. case_run; hazard_known. Qed.

Lemma modify_bearer_rsp_safe : msg_type mi = GTP_MODIFY_BEARER_RSP -> decode GTP_MODIFY_BEARER_RSP buf = (ret, m) ->
  (hz <-> ret <> 0 /\ ((zero_teid m /\ request_of t (get_procedure GTP_MODIFY_BEARER_RSP m) m <> None) \/
      (~ zero_teid m /\ s5s8_context t (m_teid m) = None))) ->
  wp (left_ok hz) Q hz (modify_bearer_rsp buf interface_type 0) (mk_pcnd t mi l).
Proof. intros Hty Hd Hz. rewrite (request_of_procedure _ _ _ _ Hty) in Hz. unfold modify_bearer_rsp. case_run; hazard_known. Qed.

Lemma delete_session_req_safe : decode GTP_DELETE_SESSION_REQ buf = (ret, m) ->
  ~ hz ->
  wp (left_ok hz) Q hz (delete_session_req buf interface_type 0) (mk_pcnd t mi l).
Proof. intros Hd Hz. unfold delete_session_req. case_run. Qed.

Lemma delete_session_rsp_safe : decode GTP_DELETE_SESSION_RSP buf = (ret, m) ->
  ~ hz ->
  wp (left_ok hz) Q hz (delete_session_rsp buf interface_type 0) (mk_pcnd t mi l).
Proof. intros Hd Hz. unfold delete_session_rsp. case_run. Qed.

Lemma release_access_bearers_req_safe : decode GTP_RELEASE_ACCESS_BEARERS_REQ buf = (ret, m) ->
  ~ hz ->
  wp (left_ok hz) Q hz (release_access_bearers_req buf interface_type 0) (mk_pcnd t mi l).
Proof. intros Hd Hz. unfold release_access_bearers_req. case_run. Qed.

Lemma downlink_data_notification_ack_safe : decode GTP_DOWNLINK_DATA_NOTIFICATION_ACK buf = (ret, m) ->
  ~ hz ->
  wp (left_ok hz) Q hz (downlink_data_notification_ack buf interface_type 0) (mk_pcnd t mi l).
Proof. intros Hd Hz. unfold downlink_data_notification_ack. case_run. Qed.

Lemma downlink_data_notification_failure_ind_safe : decode GTP_DOWNLINK_DATA_NOTIFICATION_FAILURE_IND buf = (ret, m) ->
  ~ hz ->
  wp (left_ok hz) Q hz (downlink_data_notification_failure_ind buf interface_type 0) (mk_pcnd t mi l).
Proof. intros Hd Hz. unfold downlink_data_notification_failure_ind. case_run. Qed.

Lemma create_bearer_rsp_safe : m_piggyback m = false -> decode GTP_CREATE_BEARER_RSP buf = (ret, m) ->
  ~ hz ->
  wp (left_ok hz) Q hz (create_bearer_rsp config buf interface_type 0) (mk_pcnd t mi l).
Proof. intros Hp Hd Hz. unfold create_bearer_rsp. case_run. Qed.

Lemma modify_bearer_req_safe : ~ m_teid (msg_cb_rsp mi) <> 0 -> decode GTP_MODIFY_BEARER_REQ buf = (ret, m) ->
  (hz <-> ret <> 0 /\ (~ refused_demotion config interface_type m /\ m_bearer_count m = 0 /\
      piggyback_pending t (s11_context t (m_teid m)))) ->
  wp (left_ok hz) Q hz (modify_bearer_req config buf interface_type 0 None None) (mk_pcnd t mi l).
Proof. intros Hty Hd Hz. unfold modify_bearer_req. case_run; hazard_known. Qed.

Lemma delete_bearer_req_safe : decode GTP_DELETE_BEARER_REQ buf = (ret, m) ->
  ~ hz ->
  wp (left_ok hz) Q hz (delete_bearer_req buf interface_type 0) (mk_pcnd t mi l).
Proof. intros Hd Hz. unfold delete_bearer_req. case_run. Qed.

Lemma delete_bearer_rsp_safe : decode GTP_DELETE_BEARER_RSP buf = (ret, m) ->
  (hz <-> ret <> 0 /\ let ebi := if bool_decide (m_lbi_len m <> 0) then m_lbi m else m_bearer_ebi m in
   (GET_EBI_INDEX ebi = -1 \/
      (~ zero_teid m /\ (m_cause m = GTPV2C_CAUSE_REQUEST_ACCEPTED \/ m_cause m = GTPV2C_CAUSE_CONTEXT_NOT_FOUND) /\
       bearer_absent t (s11_context t (h_teid (header_at buf))) ebi))) ->
  wp (left_ok hz) Q hz (delete_bearer_rsp buf interface_type 0) (mk_pcnd t mi l).
Proof. intros Hd Hz. unfold delete_bearer_rsp. case_run; hazard_known. Qed.

Lemma delete_bearer_failure_ind_safe : decode GTP_DELETE_BEARER_FAILURE_IND buf = (ret, m) ->
  ~ hz ->
  wp (left_ok hz) Q hz (delete_bearer_failure_ind buf interface_type 0) (mk_pcnd t mi l).
Proof. intros Hd Hz. unfold delete_bearer_failure_ind. case_run. Qed.

Lemma bearer_resource_failure_ind_safe : decode GTP_BEARER_RESOURCE_FAILURE_IND buf = (ret, m) ->
  ~ hz ->
  wp (left_ok hz) Q hz (bearer_resource_failure_ind buf 0) (mk_pcnd t mi l).
Proof. intros Hd Hz. unfold bearer_resource_failure_ind. case_run. Qed.

Lemma modify_bearer_failure_ind_safe : decode GTP_MODIFY_BEARER_FAILURE_IND buf = (ret, m) ->
  ~ hz ->
  wp (left_ok hz) Q hz (modify_bearer_failure_ind buf 0) (mk_pcnd t mi l).
Proof. intros Hd Hz. unfold modify_bearer_failure_ind. case_run. Qed.

Lemma modify_bearer_cmd_safe : decode GTP_MODIFY_BEARER_CMD buf = (ret, m) ->
  ~ hz ->
  wp (left_ok hz) Q hz (modify_bearer_cmd buf interface_type 0) (mk_pcnd t mi l).
Proof. intros Hd Hz. unfold modify_bearer_cmd. case_run. Qed.

Lemma update_bearer_req_safe : decode GTP_UPDATE_BEARER_REQ buf = (ret, m) ->
  (hz <-> ret <> 0 /\ bearer_absent t (s5s8_context t (h_teid (header_at buf))) (m_bearer_ebi m)) ->
  wp (left_ok hz) Q hz (update_bearer_req buf interface_type 0) (mk_pcnd t mi l).
Proof. intros Hd Hz. unfold update_bearer_req. case_run; hazard_known. Qed.

Lemma update_bearer_rsp_safe : decode GTP_UPDATE_BEARER_RSP buf = (ret, m) ->
  (hz <-> ret <> 0 /\ GET_EBI_INDEX (m_bearer_ebi m) = -1) ->
  wp (left_ok hz) Q hz (update_bearer_rsp buf interface_type 0) (mk_pcnd t mi l).
Proof. intros Hd Hz. unfold update_bearer_rsp. case_run; hazard_known. Qed.

Lemma update_pdn_connection_set_req_safe : decode GTP_UPDATE_PDN_CONNECTION_SET_REQ buf = (ret, m) ->
  ~ hz ->
  wp (left_ok hz) Q hz (update_pdn_connection_set_req buf interface_type 0) (mk_pcnd t mi l).
Proof. intros Hd Hz. unfold update_pdn_connection_set_req. case_run. Qed.

Lemma delete_bearer_cmd_safe : decode GTP_DELETE_BEARER_CMD buf = (ret, m) ->
  ~ hz ->
  wp (left_ok hz) Q hz (delete_bearer_cmd buf interface_type 0) (mk_pcnd t mi l).
Proof. intros Hd Hz. unfold delete_bearer_cmd. case_run. Qed.

Lemma bearer_resource_cmd_safe : decode GTP_BEARER_RESOURCE_CMD buf = (ret, m) ->
  ~ hz ->
  wp (left_ok hz) Q hz (bearer_resource_cmd buf interface_type 0) (mk_pcnd t mi l).
Proof. intros Hd Hz. unfold bearer_resource_cmd. case_run. Qed.

Lemma update_pdn_connection_set_rsp_safe : msg_type mi = GTP_UPDATE_PDN_CONNECTION_SET_RSP -> decode GTP_UPDATE_PDN_CONNECTION_SET_RSP buf = (ret, m) ->
  (hz <-> ret <> 0 /\ ((zero_teid m /\ request_of t (get_procedure GTP_UPDATE_PDN_CONNECTION_SET_RSP m) m <> None) \/
      (m_cause m = GTPV2C_CAUSE_REQUEST_ACCEPTED /\ s5s8_context t (m_teid m) = None))) ->
  wp (left_ok hz) Q hz (update_pdn_connection_set_rsp buf interface_type 0) (mk_pcnd t mi l).
Proof. intros Hty Hd Hz. rewrite (request_of_procedure _ _ _ _ Hty) in Hz. unfold update_pdn_connection_set_rsp. case_run; hazard_known. Qed.

Lemma change_notification_req_safe : decode GTP_CHANGE_NOTIFICATION_REQ buf = (ret, m) ->
  (hz <-> ret <> 0 /\ bearer_absent t (s11_context t (m_teid m)) (m_lbi m)) ->
  wp (left_ok hz) Q hz (change_notification_req buf interface_type 0) (mk_pcnd t mi l).
Proof. intros Hd Hz. unfold change_notification_req. case_run; hazard_known. Qed.

Lemma change_notification_rsp_safe : msg_type mi = GTP_CHANGE_NOTIFICATION_RSP -> decode GTP_CHANGE_NOTIFICATION_RSP buf = (ret, m) ->
  (hz <-> ret <> 0 /\ (zero_teid m /\ request_of t (get_procedure GTP_CHANGE_NOTIFICATION_RSP m) m = None)) ->
  wp (left_ok hz) Q hz (change_notification_rsp buf interface_type 0) (mk_pcnd t mi l).
Proof. intros Hty Hd Hz. rewrite (request_of_procedure _ _ _ _ Hty) in Hz. unfold change_notification_rsp. case_run; hazard_known. Qed.

Lemma create_indirect_tunnel_req_safe : decode GTP_CREATE_INDIRECT_DATA_FORWARDING_TUNNEL_REQ buf = (ret, m) ->
  ~ hz ->
  wp (left_ok hz) Q hz (create_indirect_tunnel_req config buf interface_type 0) (mk_pcnd t mi l).
Proof. intros Hd Hz. unfold create_indirect_tunnel_req. case_run. Qed.

Lemma delete_indirect_tunnel_req_safe : decode GTP_DELETE_INDIRECT_DATA_FORWARDING_TUNNEL_REQ buf = (ret, m) ->
  (hz <-> ret <> 0 /\ tunnel_absent t (ue_context_by_sender_teid_hash (cp_ue t) !! h_teid (header_at buf))) ->
  wp (left_ok hz) Q hz (delete_indirect_tunnel_req buf interface_type 0) (mk_pcnd t mi l).
Proof. intros Hd Hz. unfold delete_indirect_tunnel_req. case_run; hazard_known. Qed.

Lemma modify_access_bearer_req_safe : decode GTP_MODIFY_ACCESS_BEARER_REQ buf = (ret, m) ->
  ~ hz ->
  wp (left_ok hz) Q hz (modify_access_bearer_req buf interface_type 0) (mk_pcnd t mi l).
Proof. intros Hd Hz. unfold modify_access_bearer_req. case_run. Qed.

Lemma create_session_req_safe : ~ hz ->
  wp (left_ok hz) Q hz (create_session_req config buf interface_type 0) (mk_pcnd t mi l).
Proof.
  intros Hz. unfold create_session_req. destruct (decode_check_csr config (drop 0 buf)) as [[r ty] m'].
  case_run.
Qed.

Lemma node_message_safe ty state event : decode ty buf = (ret, m) -> ~ hz ->
  wp (left_ok hz) Q hz (node_message buf interface_type ty state event 0) (mk_pcnd t mi l).
Proof. intros Hd Hz. unfold node_message. case_run. Qed.

Lemma identification_rsp_safe : ~ hz ->
  wp (left_ok hz) Q hz (identification_rsp interface_type 0) (mk_pcnd t mi l).
Proof. intros Hz. unfold identification_rsp. case_run. Qed.

Lemma not_supported_safe : (hz <-> s11_context t (h_teid (header_at buf)) = None) ->
  wp (left_ok hz) Q hz (not_supported buf interface_type 0) (mk_pcnd t mi l).
Proof. intros Hz. unfold not_supported. case_run; hazard_known. Qed.

(** *** The switch *)

Lemma no_hazard : (hz <-> ret <> 0 /\ False) -> ~ hz.
Proof. tauto. Qed.

Lemma supported_safe ty : ty ∈ supported -> msg_type mi = ty -> decode ty buf = (ret, m) ->
  m_piggyback m = false -> ~ m_teid (msg_cb_rsp mi) <> 0 ->
  (hz <-> ret <> 0 /\ switch ty (hazards config interface_type t (header_at buf) m) False) ->
  wp (left_ok hz) Q hz
    (switch ty (cases config buf interface_type) (not_supported buf interface_type) 0%nat) (mk_pcnd t mi l).
Proof.
  intros Hin Hty Hd Hp Hcb Hz. apply list_elem_of_In in Hin. cbn [supported In] in Hin.
  destruct_or! Hin; subst ty;
    [ exact (create_session_req_safe (no_hazard Hz))
    | exact (create_session_rsp_safe Hp Hd (no_hazard Hz))
    | exact (create_bearer_req_safe Hd Hz)
    | exact (modify_bearer_rsp_safe Hty Hd Hz)
    | exact (delete_session_req_safe Hd (no_hazard Hz))
    | exact (delete_session_rsp_safe Hd (no_hazard Hz))
    | exact (release_access_bearers_req_safe Hd (no_hazard Hz))
    | exact (downlink_data_notification_ack_safe Hd (no_hazard Hz))
    | exact (downlink_data_notification_failure_ind_safe Hd (no_hazard Hz))
    | exact (create_bearer_rsp_safe Hp Hd (no_hazard Hz))
    | exact (modify_bearer_req_safe Hcb Hd Hz)
    | exact (delete_bearer_req_safe Hd (no_hazard Hz))
    | exact (delete_bearer_rsp_safe Hd Hz)
    | exact (delete_bearer_failure_ind_safe Hd (no_hazard Hz))
    | exact (bearer_resource_failure_ind_safe Hd (no_hazard Hz))
    | exact (modify_bearer_failure_ind_safe Hd (no_hazard Hz))
    | exact (modify_bearer_cmd_safe Hd (no_hazard Hz))
    | exact (update_bearer_req_safe Hd Hz)
    | exact (update_bearer_rsp_safe Hd Hz)
    | exact (node_message_safe _ _ _ Hd (no_hazard Hz))
    | exact (node_message_safe _ _ _ Hd (no_hazard Hz))
    | exact (update_pdn_connection_set_req_safe Hd (no_hazard Hz))
    | exact (delete_bearer_cmd_safe Hd (no_hazard Hz))
    | exact (bearer_resource_cmd_safe Hd (no_hazard Hz))
    | exact (update_pdn_connection_set_rsp_safe Hty Hd Hz)
    | exact (node_message_safe _ _ _ Hd (no_hazard Hz))
    | exact (identification_rsp_safe (no_hazard Hz))
    | exact (change_notification_req_safe Hd Hz)
    | exact (change_notification_rsp_safe Hty Hd Hz)
    | exact (create_indirect_tunnel_req_safe Hd (no_hazard Hz))
    | exact (delete_indirect_tunnel_req_safe Hd Hz)
    | exact (modify_access_bearer_req_safe Hd (no_hazard Hz)) ].
Qed.

Lemma switch_default {A} v (cs : list (Z * A)) d : v ∉ cs.*1 -> switch v cs d = d.
Proof.
  intros Hv. unfold switch. destruct (find (fun c => bool_decide (c.1 = v)) cs) as [c|] eqn:E; [|done].
  apply find_some in E as [Hc E]. apply bool_decide_eq_true in E. destruct Hv. rewrite <- E.
  apply list_elem_of_fmap_2. by apply list_elem_of_In.
Qed.

Lemma cases_safe ty : h_message_type (header_at buf) = ty -> msg_type mi = ty -> decode ty buf = (ret, m) ->
  m_piggyback m = false -> ~ m_teid (msg_cb_rsp mi) <> 0 ->
  (hz <-> ((ret <> 0 /\ switch ty (hazards config interface_type t (header_at buf) m) False) \/
          ((ty ∉ supported) /\ s11_context t (h_teid (header_at buf)) = None))) ->
  wp (left_ok hz) Q hz
    (switch ty (cases config buf interface_type) (not_supported buf interface_type) 0%nat) (mk_pcnd t mi l).
Proof.
  intros Hh Hty Hd Hp Hcb Hz. destruct (decide (ty ∈ supported)) as [Hin|Hout].
  - apply supported_safe; try done. tauto.
  - rewrite switch_default by exact Hout. apply not_supported_safe. rewrite Hz, switch_default; [tauto|].
    intros Hin. apply Hout. clear -Hin. apply list_elem_of_In in Hin. cbn [hazards fmap list_fmap fst In] in Hin.
    destruct_or! Hin; subst; unfold supported; set_solver.
Qed.

Lemma wrong_length_safe mi' cause : msg_type mi' = h_message_type (header_at buf) ->
  decode (msg_type mi') buf = (ret, m) ->
  (hz <-> ret <> 0 /\ (msg_type mi' = GTP_CREATE_SESSION_REQ \/ msg_type mi' = GTP_CREATE_SESSION_RSP)) ->
  wp (fun s _ => Q s 0) Q hz (wrong_length buf interface_type 0 cause) (mk_pcnd t mi' l).
Proof.
  intros Hty Hd Hz. unfold wrong_length. apply wp_bind, wp_read. cbn [msg].
  destruct (find (fun c => bool_decide (c.1 = msg_type mi')) (wrong_length_cases interface_type cause)) as [c|] eqn:E.
  - apply find_some in E as [Hin E]. apply bool_decide_eq_true in E. rewrite <- E in Hd, Hz |- *. clear E.
    cbn [wrong_length_cases In] in Hin. apply wp_bind. eapply wp_decode; [exact Hd|].
    destruct_or! Hin; subst c; cbn [fst snd] in *;
      [case_run; hazard_known|case_run; hazard_known|..];
      (assert (~ hz) by (rewrite Hz; intros [_ [E|E]]; vm_compute in E; discriminate); case_run).
  - apply wp_skip. split; [done|]. rewrite Hz. intros [_ [Et|Et]]; rewrite Et in E; discriminate E.
Qed.

Lemma copy_packets_safe s lo : Z.of_nat (length buf) = Z.of_nat MAX_GTPV2C_UDP_LEN ->
  0 <= bytes_rx <= Z.of_nat MAX_GTPV2C_UDP_LEN -> left_ok hz s lo ->
  wp (fun s _ => Q s 0) Q hz (copy_packets buf bytes_rx interface_type lo) s.
Proof.
  intros Hl Hrx (Ht & Hz & Hr & Hb & Hc). destruct s as [t' mi' l'], lo as [context rx pg li]. cbn in Hr, Hb, Hc, Ht. subst rx li.
  unfold copy_packets. cbn [l_context]. destruct context as [c|]; [|by apply wp_skip].
  destruct (Hc c eq_refl) as [u Hu].
  assert (forall intfc t' mi' l', cp_wf t' -> contexts (cp_ue t') !! c = Some u ->
    wp (fun s _ => cp_wf (tables s) /\ contexts (cp_ue (tables s)) !! c = Some u /\ ~ hz) Q hz
      (copy_for_li buf bytes_rx intfc (mk_locals (Some c) 0 pg None) c) (mk_pcnd t' mi' l')) as Hcopy.
  { intros intfc t0 mi0 l0 Ht0 Hu0. unfold copy_for_li. apply wp_bind. eapply wp_context_of; [done|].
    cbn [l_piggyback l_li_buf l_rx default from_option]. apply wp_bind.
    replace (if pg || ue_piggyback u then 0%nat else 0%nat) with 0%nat by (by destruct (pg || ue_piggyback u)).
    rewrite (bool_decide_eq_true_2 (0 <= _ <= _)) by done. rewrite (bool_decide_eq_true_2 (_ <= _)) by lia.
    cbn [negb andb]. apply wp_skip. case_bool_decide; [by apply wp_perform|by apply wp_skip]. }
  apply wp_bind, wp_read, wp_bind. cbn [msg].
  destruct (bool_decide (interface_type = S11_IFACE) && bool_decide (msg_type mi' <> GTP_CREATE_SESSION_REQ)).
  - eapply wp_mono; [by apply Hcopy|]. intros [t0 mi0 l0] _ (Ht0 & Hu0 & _).
    case_bool_decide; [|by apply wp_skip]. eapply wp_mono; [by apply Hcopy|]. by intros s _ (? & _ & ?).
  - apply wp_skip. case_bool_decide; [|by apply wp_skip]. eapply wp_mono; [by apply Hcopy|]. by intros s _ (? & _ & ?).
Qed.
End Cases.

(** ** The check *)

Section Check.
Context `{GtpLib} `{Callees}.
Variables (config : pfcp_config_t) (buf : list byte) (bytes_rx interface_type : Z) (t : cp_state).
Hypothesis Hbuf : length buf = MAX_GTPV2C_UDP_LEN.
Hypothesis Hrx : 0 <= bytes_rx <= Z.of_nat MAX_GTPV2C_UDP_LEN.
Hypothesis Hquiet : forall f mi t, quiet f = true -> effect f mi t = t.
Hypothesis Hkeep : forall f mi t, cp_wf t -> cp_wf (effect f mi t).

Abbreviation h := (header_at buf).

Abbreviation wrong := (length_differs bytes_rx h).
Abbreviation right := (version_known bytes_rx h).

Lemma wp_gtpv2c_pcnd_check hz (P : pcnd -> Z -> Prop) mi l :
  (wrong -> P (mk_pcnd t mi l) GTPV2C_CAUSE_INVALID_LENGTH) ->
  (~ wrong -> ~ right -> forall l', P (mk_pcnd t mi l') GTPV2C_CAUSE_VERSION_NOT_SUPPORTED) ->
  (~ wrong -> right -> P (mk_pcnd t mi l) 0) ->
  wp P (fun s _ => cp_wf (tables s) /\ ~ hz) hz (gtpv2c_pcnd_check buf bytes_rx interface_type 0) (mk_pcnd t mi l).
Proof.
  intros H1 H2 H3. unfold gtpv2c_pcnd_check. apply wp_bind, wp_header; [done|].
  destruct (decide wrong) as [Hw|Hw]; unfold length_differs in *.
  { rewrite bool_decide_eq_true_2 by apply Hw. rewrite (proj2 Hw). by apply wp_skip, H1. }
  replace (bool_decide _ && negb (h_piggyback h)) with false.
  2: { symmetry. apply andb_false_iff. destruct (bool_decide_reflect (u32 bytes_rx <> h_message_len h + Z.of_nat SIZEOF_GTPC));
         [right|by left]. destruct (h_piggyback h) eqn:E; [done|]. by destruct Hw. }
  unfold version_known in *. case_bool_decide; [|apply wp_skip, H3; [done|left; lia]].
  case_bool_decide; [apply wp_skip, H2; [done|lia]|]. case_bool_decide.
  - apply wp_bind, wp_perform; [done|done|]. apply wp_skip, H2; [done|lia].
  - apply wp_skip, H3; [done|right; lia].
Qed.

End Check.

(** ** Witnesses *)

(** A UE that is known by the TEID 5 and has no bearer yet. *)
Definition one_context : cp_state :=
  mk_cp (mk_store {[7%positive := zero_ue]} ∅ ∅ ∅ ∅ {[5 := 7%positive]} ∅ ∅ Teid.initial_state) empty_sm ∅ ∅.

Lemma no_slot i (b : loc) n : replicate n (None : ptr) !! i = Some (Some b) -> False.
Proof. by intros [? _]%lookup_replicate. Qed.

Lemma one_context_wf : cp_wf one_context.
Proof.
  assert (forall c (u : ue_context), ({[7%positive := zero_ue]} : gmap loc ue_context) !! c = Some u -> u = zero_ue) as Hu.
  { by intros c u [_ <-]%lookup_singleton_Some. }
  assert (forall i b, ue_slot zero_ue i b -> False) as Hs by (intros i b; apply no_slot).
  assert (forall s p, owns s zero_ue p -> False) as Ho.
  { intros s p [[i Hi]|(i & b & br & Hi & _)]; [by apply no_slot in Hi|by apply Hs in Hi]. }
  split; cbn [one_context cp_ue cp_sm cp_teid_values cp_ds_seq_key_with_teid]; try done.
  - split; cbn [contexts pdns bearers apns ue_context_by_imsi_hash ue_context_by_fteid_hash]; try done.
    + by intros c u ->%Hu.
    + by intros c u p ->%Hu ?%Ho.
    + by intros c u i b ->%Hu ?%Hs.
    + by intros c c' u u' p ->%Hu _ ?%Ho.
    + by intros c u i j b ->%Hu ?%Hs.
    + intros k c [_ <-]%lookup_singleton_Some. rewrite lookup_singleton_eq. by eexists.
  - by intros c u p ->%Hu.
Qed.

Definition sample_msg (cause : Z) : gtpc_msg :=
  mk_gtpc_msg 5 9 1 false true cause 0 0 1 9 5 5 0 0 5 5 0 0 0 0 zero_csr.

(** A library that reads a header of the type, and the message [sample_msg]. *)
Definition sample_lib (ty : Z) : GtpLib :=
  Build_GtpLib (fun _ => mk_gtpv2c_header 2 false ty 20 5 9) (fun _ _ => (1, sample_msg 16)).

Definition sample_buffer : list byte := replicate MAX_GTPV2C_UDP_LEN x48.

