(* ===== verification/GtpcDispatch.v ===== *)
(** * From the received message to the handler of the state machine

    The check of a message ([GtpcPcnd]) composed with the dispatch of the state machine
    ([SmTable]): for the requests and responses whose state and event do not depend on
    the tables, the handler that a message which was accepted is given to. *)
From S2P Require Import Prelude CText LList Teid SmTable CpTables CMonad UeContext SmSession Gtpc GtpcPcnd GtpcSafe GtpcSteps.
From Stdlib Require Import Ascii.

(** ** The handlers *)

Definition by_mode (cp_mode : Z) (sgwc pgwc saegwc : Fn.event_handler) : Fn.event_handler :=
  if bool_decide (cp_mode = SGWC) then sgwc else if bool_decide (cp_mode = PGWC) then pgwc else saegwc.

(** What the state machine is meant to do with a message of a type in a mode. *)
Definition expected_handler (config : pfcp_config_t) (cp_mode : Z) (m : gtpc_msg) : list (Z * Fn.event_handler) :=
  [(GTP_CREATE_SESSION_REQ,
      if bool_decide (get_csr_proc (m_csr m) = INITIAL_PDN_ATTACH_PROC) && negb (bool_decide (cp_mode = SGWC)) &&
         config_use_gx config then Fn.gx_setup_handler
      else Fn.association_setup_handler);
   (GTP_DELETE_SESSION_REQ, Fn.process_ds_req_handler);
   (GTP_DELETE_SESSION_RSP,
      by_mode cp_mode Fn.process_ds_resp_handler Fn.process_default_handler Fn.process_ds_resp_handler);
   (GTP_DELETE_BEARER_CMD, Fn.process_delete_bearer_command_handler);
   (GTP_MODIFY_BEARER_CMD, Fn.process_modify_bearer_command_handler);
   (GTP_BEARER_RESOURCE_CMD, Fn.process_bearer_resource_command_handler);
   (GTP_MODIFY_ACCESS_BEARER_REQ, Fn.process_modify_access_bearer_handler);
   (GTP_UPDATE_PDN_CONNECTION_SET_REQ,
      by_mode cp_mode Fn.process_default_handler Fn.process_update_pdn_set_req_handler
        Fn.process_update_pdn_set_req_handler);
   (GTP_UPDATE_PDN_CONNECTION_SET_RSP,
      by_mode cp_mode Fn.process_upd_pdn_set_response_handler Fn.process_default_handler Fn.process_default_handler);
   (GTP_CHANGE_NOTIFICATION_RSP,
      by_mode cp_mode Fn.process_change_noti_resp_handler Fn.process_default_handler Fn.process_default_handler);
   (GTP_CREATE_INDIRECT_DATA_FORWARDING_TUNNEL_REQ, Fn.process_create_indir_data_frwd_req_handler)].

Definition dispatched : list Z :=
  [GTP_CREATE_SESSION_REQ; GTP_DELETE_SESSION_REQ; GTP_DELETE_SESSION_RSP; GTP_DELETE_BEARER_CMD;
   GTP_MODIFY_BEARER_CMD; GTP_BEARER_RESOURCE_CMD; GTP_MODIFY_ACCESS_BEARER_REQ;
   GTP_UPDATE_PDN_CONNECTION_SET_REQ; GTP_UPDATE_PDN_CONNECTION_SET_RSP; GTP_CHANGE_NOTIFICATION_RSP;
   GTP_CREATE_INDIRECT_DATA_FORWARDING_TUNNEL_REQ].

(** ** Commands that leave the message alone *)

Section Keeps.
Context `{GtpLib} `{Callees}.
Variables (config : pfcp_config_t) (buf : list byte) (bytes_rx interface_type : Z).

(** A command that returns does so with an error. *)
Definition keeps {A} (c : cmd pcnd Z A) : Prop := forall s,
  match c s with
  | Next s' _ => msg s' = msg s
  | Return _ r => r <> 0
  | Fault => True
  end.

Abbreviation refused := (fun (_ : pcnd) (r : Z) => r <> 0).

Lemma keeps_bind {A B} (c : cmd pcnd Z A) (k : A -> cmd pcnd Z B) : keeps c -> (forall a, keeps (k a)) -> keeps (bind c k).
Proof.
  intros Hc Hk s. unfold bind. specialize (Hc s). destruct (c s) as [s' a|s' r|]; [|done..].
  specialize (Hk a s'). destruct (k a s'); congruence.
Qed.

Lemma keeps_if {A} (b : bool) (c d : cmd pcnd Z A) : keeps c -> keeps d -> keeps (if b then c else d).
Proof. by destruct b. Qed.

Lemma keeps_skip {A} (a : A) : keeps (skip a).
Proof. by intros s. Qed.

Lemma keeps_read {A} (f : pcnd -> A) : keeps (read f).
Proof. by intros s. Qed.

Lemma keeps_ue_tables {A} (f : ue_store -> A) : keeps (ue_tables f).
Proof. by intros s. Qed.

Lemma keeps_deref {A} (o : option A) : keeps (deref o).
Proof. by destruct o; intros s. Qed.

Lemma keeps_fault {A} : keeps (fault (A := A)).
Proof. by intros s. Qed.

Lemma keeps_return {A} r : r <> 0 -> keeps (return_ (A := A) r).
Proof. by intros Hr s. Qed.

Lemma keeps_perform f : keeps (perform f).
Proof. by intros s. Qed.

Lemma keeps_change_tables f : keeps (change_tables f).
Proof. intros s. unfold change_tables, update. by destruct (f _). Qed.

Lemma keeps_set_pdn p f : keeps (set_pdn p f).
Proof. apply keeps_change_tables. Qed.

Lemma keeps_delete_teid_entry key : keeps (delete_teid_entry key).
Proof.
  intros s. unfold delete_teid_entry, update.
  destruct (delete_teid_entry_for_seq _ _ _) as [[[cells index] r]|]; by cbn.
Qed.

Lemma keeps_update_proc c i : keeps (update_proc c i).
Proof.
  unfold update_proc. apply keeps_bind; [apply keeps_read|]. intros proc s. unfold call.
  by destruct (update_ue_proc _ _ _ _) as [[ue r]|]; cbn.
Qed.

Lemma keeps_header rx : keeps (header_of buf rx).
Proof. apply keeps_if; [apply keeps_skip|apply keeps_fault]. Qed.

Lemma keeps_refuse {A} f : keeps (refuse (A := A) f).
Proof. apply keeps_bind; [apply keeps_perform|]. intros _. by apply keeps_return. Qed.

Lemma wp_keeps {A} (P : pcnd -> A -> Prop) c t mi l : keeps c ->
  (forall t' l' a, P (mk_pcnd t' mi l') a) -> wp P refused True c (mk_pcnd t mi l).
Proof.
  intros Hc HP. specialize (Hc (mk_pcnd t mi l)). unfold wp. destruct (c _) as [[t' mi' l'] a| |]; try done.
  cbn in Hc. subst. apply HP.
Qed.

Lemma wp_decode_any (P : pcnd -> Z -> Prop) ty t mi l :
  (forall ret m, P (mk_pcnd t (set_msg_gtpc_msg m mi) l) ret) -> wp P refused True (decode_message buf ty 0) (mk_pcnd t mi l).
Proof. intros HP. unfold decode_message. destruct (decode _ _) as [ret m]. apply HP. Qed.

Lemma wp_zero_teid_any (P : pcnd -> unit -> Prop) key timer respond missing cleanup t mi l :
  (forall s, wp (fun _ _ => True) refused True missing s) -> (forall s, wp (fun _ _ => True) refused True respond s) ->
  (forall s, wp (fun _ _ => True) refused True cleanup s) ->
  P (mk_pcnd t mi l) tt -> wp P refused True (zero_teid_error key timer respond missing cleanup) (mk_pcnd t mi l).
Proof.
  intros Hm Hr Hc HP. unfold zero_teid_error. apply wp_bind, wp_message.
  destruct (_ && _); [|by apply wp_skip]. apply wp_bind, wp_read.
  destruct (get_teid_for_seq_number _ _) as [p|].
  2: { apply wp_bind. eapply wp_mono; [apply Hm|]. by intros s [] _. }
  assert (forall s P, (forall a s, msg s = msg s -> P s a) -> wp P refused True (teid_value_of p) s) as Hv.
  { intros s P' HP'. unfold wp, teid_value_of, bind, read, deref. destruct (_ !! p); [by apply HP'|done]. }
  apply wp_bind, Hv. intros v s _. apply wp_bind. unfold wp at 1, perform, modify. apply wp_bind, Hv. intros v' s' _.
  apply wp_bind. unfold wp at 1, assign, modify. apply wp_bind. eapply wp_mono; [apply Hr|]. intros s1 [] _.
  apply wp_bind. pose proof (keeps_delete_teid_entry key s1) as Hk. unfold wp at 1. destruct (delete_teid_entry key s1); try done.
  apply wp_bind. eapply wp_mono; [apply Hc|]. by intros s2 [] _.
Qed.

Lemma wp_cp_mode (P : pcnd -> unit -> Prop) c t mi l :
  (forall t' l' v, P (mk_pcnd t' (set_msg_cp_mode v mi) l') tt) -> wp P refused True (set_cp_mode_of c) (mk_pcnd t mi l).
Proof.
  intros HP. unfold set_cp_mode_of. apply wp_bind, wp_keeps; [|intros t' l' u; apply wp_assign, HP].
  apply keeps_bind; [apply keeps_read|intros o; apply keeps_deref].
Qed.
End Keeps.

Create HintDb keeps.
#[export] Hint Resolve keeps_skip keeps_read keeps_ue_tables keeps_deref keeps_fault keeps_perform keeps_change_tables keeps_set_pdn
  keeps_delete_teid_entry keeps_update_proc keeps_header keeps_refuse : keeps.

Ltac keep :=
  repeat first [ solve [auto with keeps] | apply keeps_return; done | apply keeps_if | apply keeps_bind; [|intros ?]
               | match goal with |- keeps (match ?x with _ => _ end) => destruct x end ].

(** One command; a command that keeps the message says nothing of the tables. *)
Ltac mstep :=
  cbv beta iota zeta;
  match goal with
  | |- wp _ _ _ (skip _) _ => apply wp_skip
  | |- wp _ _ _ (bind _ _) _ => apply wp_bind
  | |- wp _ _ _ (assign _) _ => apply wp_assign
  | |- wp _ _ _ message _ => apply wp_message; members
  | |- wp _ _ _ (set_interface_type _) _ => apply wp_set_interface_type
  | |- wp _ _ _ set_procedure _ => eapply wp_set_procedure; [reflexivity|]; members
  | |- wp _ _ _ (return_ _) _ => done
  | |- wp _ _ _ fault _ => done
  | |- wp _ _ _ (refuse _) _ => done
  | |- wp _ _ _ (decode_message _ ?ty 0) _ => apply wp_decode_any; intros ?ret ?m
  | |- wp _ _ _ (zero_teid_error _ _ _ _ _) _ => apply wp_zero_teid_any; [by intros ?..|]
  | |- wp _ _ _ (match ?x with _ => _ end) _ => destruct x eqn:?
  | |- wp _ _ _ (set_cp_mode_of _) _ => apply wp_cp_mode; intros ? ? ?
  | |- wp _ _ _ (leave _ _) _ => apply wp_skip
  | |- wp _ _ _ ?c _ => apply wp_keeps; [by keep|intros ? ? ?]
  end.

(** ** The cases *)

Section Dispatch.
Context `{GtpLib} `{Callees}.
Variables (config : pfcp_config_t) (buf : list byte) (bytes_rx interface_type : Z).

Abbreviation refused := (fun (_ : pcnd) (r : Z) => r <> 0).

(** The state machine runs the handler that is expected for the type. *)
Definition directed (ty : Z) (mi : msg_info) : Prop :=
  msg_type mi = ty /\
  (mode (msg_cp_mode mi) ->
  sm_dispatch (msg_cp_mode mi) (msg_proc mi) (msg_state mi) (msg_event mi) =
  Call (switch ty (expected_handler config (msg_cp_mode mi) (msg_gtpc_msg mi)) Fn.process_default_handler)).

Ltac directed_now :=
  unfold directed; cbn [msg msg_proc msg_state msg_event msg_cp_mode set_msg_gtpc_msg set_msg_type set_msg_proc
    set_msg_state set_msg_event set_msg_cp_mode set_msg_interface_type msg_type];
  split; [assumption|];
  let Hm := fresh "Hm" in intros [Hm|[Hm|Hm]]; rewrite ?Hm;
  match goal with Hty : msg_type ?mi = _ |- _ => rewrite Hty; reflexivity end.

Lemma delete_session_req_directed t mi l : msg_type mi = GTP_DELETE_SESSION_REQ ->
  wp (fun s _ => directed GTP_DELETE_SESSION_REQ (msg s)) refused True (delete_session_req buf interface_type 0) (mk_pcnd t mi l).
Proof.
  intros Hty. unfold delete_session_req. repeat mstep. all: directed_now.
Qed.

Lemma delete_session_rsp_directed t mi l : msg_type mi = GTP_DELETE_SESSION_RSP ->
  wp (fun s _ => directed GTP_DELETE_SESSION_RSP (msg s)) refused True (delete_session_rsp buf interface_type 0) (mk_pcnd t mi l).
Proof.
  intros Hty. unfold delete_session_rsp. repeat mstep. all: directed_now.
Qed.

Lemma delete_bearer_cmd_directed t mi l : msg_type mi = GTP_DELETE_BEARER_CMD ->
  wp (fun s _ => directed GTP_DELETE_BEARER_CMD (msg s)) refused True (delete_bearer_cmd buf interface_type 0) (mk_pcnd t mi l).
Proof.
  intros Hty. unfold delete_bearer_cmd. repeat mstep. all: directed_now.
Qed.

Lemma modify_bearer_cmd_directed t mi l : msg_type mi = GTP_MODIFY_BEARER_CMD ->
  wp (fun s _ => directed GTP_MODIFY_BEARER_CMD (msg s)) refused True (modify_bearer_cmd buf interface_type 0) (mk_pcnd t mi l).
Proof.
  intros Hty. unfold modify_bearer_cmd. repeat mstep. all: directed_now.
Qed.

Lemma bearer_resource_cmd_directed t mi l : msg_type mi = GTP_BEARER_RESOURCE_CMD ->
  wp (fun s _ => directed GTP_BEARER_RESOURCE_CMD (msg s)) refused True (bearer_resource_cmd buf interface_type 0) (mk_pcnd t mi l).
Proof.
  intros Hty. unfold bearer_resource_cmd. repeat mstep. all: directed_now.
Qed.

Lemma modify_access_bearer_req_directed t mi l : msg_type mi = GTP_MODIFY_ACCESS_BEARER_REQ ->
  wp (fun s _ => directed GTP_MODIFY_ACCESS_BEARER_REQ (msg s)) refused True (modify_access_bearer_req buf interface_type 0) (mk_pcnd t mi l).
Proof.
  intros Hty. unfold modify_access_bearer_req. repeat mstep. all: directed_now.
Qed.

Lemma update_pdn_connection_set_req_directed t mi l : msg_type mi = GTP_UPDATE_PDN_CONNECTION_SET_REQ ->
  wp (fun s _ => directed GTP_UPDATE_PDN_CONNECTION_SET_REQ (msg s)) refused True (update_pdn_connection_set_req buf interface_type 0) (mk_pcnd t mi l).
Proof.
  intros Hty. unfold update_pdn_connection_set_req. repeat mstep. all: directed_now.
Qed.

Lemma update_pdn_connection_set_rsp_directed t mi l : msg_type mi = GTP_UPDATE_PDN_CONNECTION_SET_RSP ->
  wp (fun s _ => directed GTP_UPDATE_PDN_CONNECTION_SET_RSP (msg s)) refused True (update_pdn_connection_set_rsp buf interface_type 0) (mk_pcnd t mi l).
Proof.
  intros Hty. unfold update_pdn_connection_set_rsp. repeat mstep. all: directed_now.
Qed.

Lemma change_notification_rsp_directed t mi l : msg_type mi = GTP_CHANGE_NOTIFICATION_RSP ->
  wp (fun s _ => directed GTP_CHANGE_NOTIFICATION_RSP (msg s)) refused True (change_notification_rsp buf interface_type 0) (mk_pcnd t mi l).
Proof.
  intros Hty. unfold change_notification_rsp. repeat mstep. all: directed_now.
Qed.

Lemma create_indirect_tunnel_req_directed t mi l : msg_type mi = GTP_CREATE_INDIRECT_DATA_FORWARDING_TUNNEL_REQ ->
  wp (fun s _ => directed GTP_CREATE_INDIRECT_DATA_FORWARDING_TUNNEL_REQ (msg s)) refused True (create_indirect_tunnel_req config buf interface_type 0) (mk_pcnd t mi l).
Proof.
  intros Hty. unfold create_indirect_tunnel_req. repeat mstep. all: directed_now.
Qed.


Lemma get_csr_proc_cases csr : get_csr_proc csr = INITIAL_PDN_ATTACH_PROC \/ get_csr_proc csr = S1_HANDOVER_PROC \/
  get_csr_proc csr = SGW_RELOCATION_PROC.
Proof. unfold get_csr_proc. repeat case_match; auto. Qed.

Lemma create_session_req_directed t l :
  wp (fun s _ => directed GTP_CREATE_SESSION_REQ (msg s)) refused True
    (create_session_req config buf interface_type 0) (mk_pcnd t (set_msg_type GTP_CREATE_SESSION_REQ zero_msg) l).
Proof.
  unfold create_session_req. destruct (decode_check_csr config (drop 0 buf)) as [[r ty] m].
  assert (get_procedure GTP_CREATE_SESSION_REQ m = get_csr_proc (m_csr m)) as Ep by reflexivity.
  destruct (get_csr_proc_cases (m_csr m)) as [Ec|[Ec|Ec]]; repeat mstep; rewrite Ep, Ec in *; try done;
    (split; [reflexivity|]); intros Hm; cbn [msg_cp_mode msg set_msg_event set_msg_proc set_msg_state set_msg_interface_type set_msg_cp_mode] in Hm;
    unfold switch; cbn [find expected_handler fst snd msg_gtpc_msg msg_cp_mode msg set_msg_event set_msg_proc
      set_msg_state set_msg_interface_type set_msg_cp_mode set_msg_gtpc_msg msg_proc msg_state msg_event];
    rewrite Ec; unfold none_state; destruct Hm as [-> | [-> | ->]]; destruct (config_use_gx config); reflexivity.
Qed.

(** *** The receiver *)

Lemma cases_directed ty t l : In ty dispatched ->
  wp (fun s _ => directed ty (msg s)) refused True
    (switch ty (cases config buf interface_type) (not_supported buf interface_type) 0%nat)
    (mk_pcnd t (set_msg_type ty zero_msg) l).
Proof.
  intros Hin. cbn [dispatched In] in Hin. destruct_or! Hin; subst ty.
  - apply create_session_req_directed.
  - by apply delete_session_req_directed.
  - by apply delete_session_rsp_directed.
  - by apply delete_bearer_cmd_directed.
  - by apply modify_bearer_cmd_directed.
  - by apply bearer_resource_cmd_directed.
  - by apply modify_access_bearer_req_directed.
  - by apply update_pdn_connection_set_req_directed.
  - by apply update_pdn_connection_set_rsp_directed.
  - by apply change_notification_rsp_directed.
  - by apply create_indirect_tunnel_req_directed.
Qed.

Lemma keeps_copy_for_li intfc l c : keeps (copy_for_li buf bytes_rx intfc l c).
Proof.
  unfold copy_for_li. apply keeps_bind; [keep|intros u]. cbv zeta. keep.
Qed.

Lemma keeps_copy_packets l : keeps (copy_packets buf bytes_rx interface_type l).
Proof.
  unfold copy_packets. destruct (l_context l) as [c|]; [|apply keeps_skip].
  pose proof keeps_copy_for_li. keep; auto.
Qed.

Lemma wrong_length_returns_error cause s : wp (fun _ _ => True) refused True (wrong_length buf interface_type 0 cause) s.
Proof.
  unfold wrong_length. apply wp_bind, wp_read.
  destruct (find _ (wrong_length_cases interface_type cause)) as [c|] eqn:E; [|by apply wp_skip].
  apply find_some in E as [Hin _]. destruct s as [t mi l]. apply wp_bind, wp_decode_any. intros ret m.
  destruct (bool_decide (ret <> 0)); [|by apply wp_skip].
  cbn [wrong_length_cases In] in Hin. destruct_or! Hin; by subst c.
Qed.
End Dispatch.


(** ** Witness *)

Definition served : cp_state :=
  mk_cp (mk_store {[7%positive := set_ue_cp_mode PGWC zero_ue]} ∅ ∅ ∅ ∅ {[5 := 7%positive]} ∅ ∅ Teid.initial_state)
    empty_sm ∅ ∅.

