(* ===== verification/PeerTimer.v ===== *)
(** * Timers and peer paths

    cp_dp_api/ngic_timer.c, which both planes compile: the timers ([gstimerinfo_t] over
    the POSIX timers), the table of the peers whose paths are probed and what the two
    planes share of its operations.  A [peerData] of the control plane and one of the
    user plane differ in the fields of [extra]; [globals] are the static variables of the
    restoration_peer.c of the plane.

    Time is the clock of the machine in milliseconds.  The second half is the interface
    between the timer thread and a plane: [PathMonitor] states what the callback of a
    timer and the handlers of the messages do with the timers of a peer, and what follows
    for every run of the plane. *)
From S2P Require Import Prelude NodeAddr SeidList.

(** ** Timers *)

Inductive gstimertype_t := ttSingleShot | ttInterval.

(** [ti_id]: the POSIX timer exists; [ti_value]: when it is armed, its next expiry and
    the interval it was armed with. *)
Record gstimerinfo_t := mk_timer {
  ti_id : bool;
  ti_type : gstimertype_t;
  ti_ms : Z;
  ti_value : option (Z * Z)
}.

Definition gst_timer_init (created : bool) (tt : gstimertype_t) (milliseconds : Z) : bool * gstimerinfo_t :=
  (created, mk_timer created tt milliseconds None).

(** [timer_settime] refuses a deleted timer and a negative time, and a time of zero
    disarms the timer. *)
Definition gst_timer_start (now : Z) (ti : gstimerinfo_t) : bool * gstimerinfo_t :=
  if negb (ti_id ti) || (ti_ms ti <? 0) then (false, ti)
  else if ti_ms ti =? 0 then (true, mk_timer (ti_id ti) (ti_type ti) (ti_ms ti) None)
  else (true, mk_timer (ti_id ti) (ti_type ti) (ti_ms ti)
          (Some (now + ti_ms ti, match ti_type ti with ttInterval => ti_ms ti | ttSingleShot => 0 end))).

Definition gst_timer_stop (ti : gstimerinfo_t) : gstimerinfo_t :=
  mk_timer (ti_id ti) (ti_type ti) (ti_ms ti) None.

Definition gst_timer_deinit (ti : gstimerinfo_t) : gstimerinfo_t :=
  mk_timer false (ti_type ti) (ti_ms ti) None.

Definition gst_timer_setduration (now : Z) (ti : gstimerinfo_t) (milliseconds : Z) : bool * gstimerinfo_t :=
  gst_timer_start now (mk_timer (ti_id ti) (ti_type ti) milliseconds (ti_value ti)).

(** What the kernel does with a timer that expires. *)
Definition expired (ti : gstimerinfo_t) : gstimerinfo_t :=
  mk_timer (ti_id ti) (ti_type ti) (ti_ms ti)
    match ti_value ti with
    | Some (d, 0) => None
    | Some (d, interval) => Some (d + interval, interval)
    | None => None
    end.

Definition startTimer := gst_timer_start.
Definition stopTimer := gst_timer_stop.
Definition deinitTimer := gst_timer_deinit.

(** No caller can see that a timer failed to start: [startTimer] returns a [bool], which
    the callers compare with [< 0]. *)
Definition started (now : Z) (ti : gstimerinfo_t) : gstimerinfo_t := (startTimer now ti).2.

(** ** Peers *)

Abbreviation peer_id := nat.

Inductive peer_address_t := IPV4_TYPE (sin_addr : Z) | IPV6_TYPE (sin6_addr : list byte).

(** Which of the two timers of a peer. *)
Inductive which := PT | TT.

#[export] Instance which_eq_decision : EqDecision which.
Proof. solve_decision. Defined.

Section Peers.
Context {X G : Type}.

Record peerData := mk_peer {
  portId : Z;
  activityFlag : Z;
  itr : Z;
  itr_cnt : Z;
  dstIP : node_address_t;
  rcv_time : Z;
  pt : gstimerinfo_t;
  tt : gstimerinfo_t;
  extra : X
}.

Definition set_portId (v : Z) (r : peerData) : peerData :=
  mk_peer v (activityFlag r) (itr r) (itr_cnt r) (dstIP r) (rcv_time r) (pt r) (tt r) (extra
    r).
Definition set_activityFlag (v : Z) (r : peerData) : peerData :=
  mk_peer (portId r) v (itr r) (itr_cnt r) (dstIP r) (rcv_time r) (pt r) (tt r) (extra r).
Definition set_itr (v : Z) (r : peerData) : peerData :=
  mk_peer (portId r) (activityFlag r) v (itr_cnt r) (dstIP r) (rcv_time r) (pt r) (tt r)
    (extra r).
Definition set_itr_cnt (v : Z) (r : peerData) : peerData :=
  mk_peer (portId r) (activityFlag r) (itr r) v (dstIP r) (rcv_time r) (pt r) (tt r) (extra
    r).
Definition set_dstIP (v : node_address_t) (r : peerData) : peerData :=
  mk_peer (portId r) (activityFlag r) (itr r) (itr_cnt r) v (rcv_time r) (pt r) (tt r)
    (extra r).
Definition set_rcv_time (v : Z) (r : peerData) : peerData :=
  mk_peer (portId r) (activityFlag r) (itr r) (itr_cnt r) (dstIP r) v (pt r) (tt r) (extra
    r).
Definition set_pt (v : gstimerinfo_t) (r : peerData) : peerData :=
  mk_peer (portId r) (activityFlag r) (itr r) (itr_cnt r) (dstIP r) (rcv_time r) v (tt r)
    (extra r).
Definition set_tt (v : gstimerinfo_t) (r : peerData) : peerData :=
  mk_peer (portId r) (activityFlag r) (itr r) (itr_cnt r) (dstIP r) (rcv_time r) (pt r) v
    (extra r).
Definition set_extra (v : X) (r : peerData) : peerData :=
  mk_peer (portId r) (activityFlag r) (itr r) (itr_cnt r) (dstIP r) (rcv_time r) (pt r) (tt
    r) v.

(** The calls the module makes into the rest of the program. *)
Inductive call_t :=
| update_peer_status (a : peer_address_t) (active : bool)
| delete_cli_peer (a : peer_address_t)
| add_cli_peer (a : peer_address_t) (it : Z)
| update_peer_timeouts (a : peer_address_t) (n : Z)
| delete_entry_heartbeat_hash (a : node_address_t)
| del_peer_node_sess (a : node_address_t) (iface : Z)
| del_pfcp_peer_node_sess (a : node_address_t) (iface : Z)
| gtpv2c_echo_request (a : node_address_t) (seq : Z) (iface : Z)
| process_pfcp_heartbeat_req (a : node_address_t) (seq : Z)
| gtpu_echo_request (a : node_address_t) (seq : Z) (iface : Z)
| arp_req_send (a : node_address_t) (iface : Z).

(** [conn_hash] holds pointers to the peers; [calls] has the newest call first. *)
Record plane := mk_plane {
  now : Z;
  conn_hash : gmap node_address_t peer_id;
  peers : gmap peer_id peerData;
  conn_cnt : Z;
  transmit_cnt : Z;
  periodic_timer : Z;
  transmit_timer : Z;
  pfcp_seq_no_offset : Z;
  globals : G;
  calls : list call_t
}.

Definition set_now (v : Z) (r : plane) : plane :=
  mk_plane v (conn_hash r) (peers r) (conn_cnt r) (transmit_cnt r) (periodic_timer r)
    (transmit_timer r) (pfcp_seq_no_offset r) (globals r) (calls r).
Definition set_conn_hash (v : gmap node_address_t peer_id) (r : plane) : plane :=
  mk_plane (now r) v (peers r) (conn_cnt r) (transmit_cnt r) (periodic_timer r)
    (transmit_timer r) (pfcp_seq_no_offset r) (globals r) (calls r).
Definition set_peers (v : gmap peer_id peerData) (r : plane) : plane :=
  mk_plane (now r) (conn_hash r) v (conn_cnt r) (transmit_cnt r) (periodic_timer r)
    (transmit_timer r) (pfcp_seq_no_offset r) (globals r) (calls r).
Definition set_conn_cnt (v : Z) (r : plane) : plane :=
  mk_plane (now r) (conn_hash r) (peers r) v (transmit_cnt r) (periodic_timer r)
    (transmit_timer r) (pfcp_seq_no_offset r) (globals r) (calls r).
Definition set_transmit_cnt (v : Z) (r : plane) : plane :=
  mk_plane (now r) (conn_hash r) (peers r) (conn_cnt r) v (periodic_timer r) (transmit_timer
    r) (pfcp_seq_no_offset r) (globals r) (calls r).
Definition set_periodic_timer (v : Z) (r : plane) : plane :=
  mk_plane (now r) (conn_hash r) (peers r) (conn_cnt r) (transmit_cnt r) v (transmit_timer
    r) (pfcp_seq_no_offset r) (globals r) (calls r).
Definition set_transmit_timer (v : Z) (r : plane) : plane :=
  mk_plane (now r) (conn_hash r) (peers r) (conn_cnt r) (transmit_cnt r) (periodic_timer r)
    v (pfcp_seq_no_offset r) (globals r) (calls r).
Definition set_pfcp_seq_no_offset (v : Z) (r : plane) : plane :=
  mk_plane (now r) (conn_hash r) (peers r) (conn_cnt r) (transmit_cnt r) (periodic_timer r)
    (transmit_timer r) v (globals r) (calls r).
Definition set_globals (v : G) (r : plane) : plane :=
  mk_plane (now r) (conn_hash r) (peers r) (conn_cnt r) (transmit_cnt r) (periodic_timer r)
    (transmit_timer r) (pfcp_seq_no_offset r) v (calls r).
Definition set_calls (v : list call_t) (r : plane) : plane :=
  mk_plane (now r) (conn_hash r) (peers r) (conn_cnt r) (transmit_cnt r) (periodic_timer r)
    (transmit_timer r) (pfcp_seq_no_offset r) (globals r) v.

Definition change (i : peer_id) (f : peerData -> peerData) (s : plane) : plane :=
  set_peers (alter f i (peers s)) s.
Definition emit (c : call_t) (s : plane) : plane := set_calls (c :: calls s) s.

Definition timer_of (w : which) (md : peerData) : gstimerinfo_t :=
  match w with PT => pt md | TT => tt md end.
Definition set_timer (w : which) (v : gstimerinfo_t) (md : peerData) : peerData :=
  match w with PT => set_pt v md | TT => set_tt v md end.
Definition on_timer (w : which) (f : gstimerinfo_t -> gstimerinfo_t) (md : peerData) : peerData :=
  set_timer w (f (timer_of w md)) md.

Definition start (w : which) (i : peer_id) (s : plane) : plane := change i (on_timer w (started (now s))) s.
Definition stop (w : which) (i : peer_id) (s : plane) : plane := change i (on_timer w stopTimer) s.
Definition deinit (w : which) (i : peer_id) (s : plane) : plane := change i (on_timer w deinitTimer) s.

(** [initpeerData]: whether the second timer could be created if the first one was. *)
Definition initpeerData (pt_ok tt_ok : bool) (ptms ttms : Z) (md : peerData) : bool * peerData :=
  let '(ok, p) := gst_timer_init pt_ok ttInterval ptms in
  let md := set_pt p md in
  if negb ok then (false, md)
  else let '(ok, t) := gst_timer_init tt_ok ttInterval ttms in (ok, set_tt t md).

(** The counter goes down whether the key was there or not. *)
Definition del_entry_from_hash (ipAddr : node_address_t) (s : plane) : plane :=
  set_conn_cnt (swrap 32 (conn_cnt s - 1)) (set_conn_hash (delete ipAddr (conn_hash s)) s).

(** A peer has answered.  The address of [update_peer_timeouts] is the IPv4 member also
    for a peer in IPv6. *)
Definition process_response (dstIp : node_address_t) (s : plane) : plane :=
  match conn_hash s !! dstIp with
  | None => s
  | Some i =>
      let s := change i (set_itr_cnt 0) s in
      let s := match peers s !! i with
               | Some md => emit (update_peer_timeouts (IPV4_TYPE (ipv4_addr (dstIP md))) 0) s
               | None => s
               end in
      start PT i (stop PT i (stop TT i s))
  end.

(** [get_pfcp_sequence_number] of a request. *)
Definition generate_seq_no (s : plane) : plane * Z :=
  let id := u32 (pfcp_seq_no_offset s + 1) in (set_pfcp_seq_no_offset id s, id).

(** The timers of the operator's command: a duration of zero means that the timer never
    started, and then it is started now; a running timer keeps its interval until its
    next start. *)
Definition update_ms (w : which) (ms now : Z) (md : peerData) : peerData :=
  let ti := timer_of w md in
  let ti' := mk_timer (ti_id ti) (ti_type ti) ms (ti_value ti) in
  set_timer w (if ti_ms ti =? 0 then started now ti' else ti') md.

Definition indexed (s : plane) : gset peer_id := list_to_set (map_to_list (conn_hash s)).*2.

Definition update_all (f : peerData -> peerData) (s : plane) : plane :=
  set_peers (map_imap (fun i md => Some (if bool_decide (i ∈ indexed s) then f md else md)) (peers s)) s.

Definition update_periodic_timer_value (v : Z) (s : plane) : plane :=
  update_all (update_ms PT (swrap 32 (v * 1000)) (now s)) (set_periodic_timer v s).
Definition update_transmit_timer_value (v : Z) (s : plane) : plane :=
  update_all (update_ms TT (swrap 32 (v * 1000)) (now s)) (set_transmit_timer v s).
Definition post_transmit_count (v : Z) (s : plane) : plane := set_transmit_cnt (u8 v) s.

(** ** The timer thread *)

Definition deadline (w : which) (md : peerData) : option Z := fst <$> ti_value (timer_of w md).

(** No timer is overdue at time [t]. *)
Definition in_time (t : Z) (s : plane) : Prop :=
  map_Forall (fun _ md => forall w d, deadline w md = Some d -> t <= d) (peers s).

Context {E : Type} (timerCallback : which -> peer_id -> plane -> plane) (handle : E -> plane -> option plane).

(** Time passes while no timer is overdue; a timer that is due expires, and the timer
    thread runs the callback of its peer; the other threads handle a message. *)
Inductive step (s : plane) : option E -> plane -> Prop :=
| step_time t : now s <= t -> in_time t s -> step s None (set_now t s)
| step_expire i md w d : peers s !! i = Some md -> deadline w md = Some d -> d <= now s ->
    step s None (timerCallback w i (change i (on_timer w expired) s))
| step_message e s' : handle e s = Some s' -> step s (Some e) s'.

Inductive run (s : plane) : list E -> plane -> Prop :=
| run_nil : run s [] s
| run_snoc es s1 e s2 : run s es s1 -> step s1 e s2 -> run s (es ++ option_list e) s2.

(** A run as a script: waiting until a time, the expiry of a timer, a message. *)
Inductive move := Wait (t : Z) | Fire (w : which) (i : peer_id) | Message (e : E).

Definition due (w : which) (md : peerData) (t : Z) : bool :=
  match deadline w md with Some d => d <=? t | None => false end.
Definition overdue (t : Z) (md : peerData) : bool := due PT md (t - 1) || due TT md (t - 1).

Definition play (m : move) (s : plane) : option plane :=
  match m with
  | Wait t => if (now s <=? t) && forallb (fun p => negb (overdue t p.2)) (map_to_list (peers s))
              then Some (set_now t s) else None
  | Fire w i => match peers s !! i with
                | Some md => if due w md (now s) then Some (timerCallback w i (change i (on_timer w expired) s)) else None
                | None => None
                end
  | Message e => handle e s
  end.

Fixpoint play_all (ms : list move) (s : plane) : option plane :=
  match ms with [] => Some s | m :: ms => play m s ≫= play_all ms end.

Definition message_of (m : move) : option E := match m with Message e => Some e | _ => None end.

Lemma due_spec w md t : due w md t = true <-> exists d, deadline w md = Some d /\ d <= t.
Proof.
  unfold due. destruct (deadline w md) as [d|]; [rewrite Z.leb_le|]; split; [eauto| |done|].
  - by intros (? & [= ->] & ?).
  - by intros (? & ? & ?).
Qed.

Lemma play_step m s s' : play m s = Some s' -> step s (message_of m) s'.
Proof.
  destruct m as [t|w i|e]; cbn.
  - destruct (now s <=? t) eqn:E1; [|done]. destruct (forallb _ _) eqn:E2; [|done]. intros [= <-].
    apply step_time; [lia|]. intros i md Hi w d Hd. rewrite forallb_forall in E2.
    specialize (E2 (i, md)). destruct (Z.leb_spec t d); [done|]. exfalso.
    assert (overdue t md = true) as Ho.
    { unfold overdue. apply orb_true_iff. destruct w; [left|right]; apply due_spec; exists d; split; (done || lia). }
    cbn in E2. rewrite Ho in E2. cbn in E2. apply diff_false_true, E2.
    by apply list_elem_of_In, elem_of_map_to_list.
  - destruct (peers s !! i) as [md|] eqn:Hi; [|done]. destruct (due w md (now s)) eqn:E1; [|done]. intros [= <-].
    apply due_spec in E1 as (d & Hd & Hle). by eapply step_expire.
  - apply step_message.
Qed.

Lemma run_trans s es s1 es' s2 : run s es s1 -> run s1 es' s2 -> run s (es ++ es') s2.
Proof.
  intros H1 H2. induction H2 as [|es' s2 e s3 H2 IH Hst]; [by rewrite app_nil_r|].
  rewrite app_assoc. by eapply run_snoc.
Qed.

Lemma run_one s e s' : step s e s' -> run s (option_list e) s'.
Proof. intros H. by apply (run_snoc s [] s e s'); [constructor|]. Qed.

Lemma play_all_run ms s s' : play_all ms s = Some s' -> run s (omap message_of ms) s'.
Proof.
  revert s. induction ms as [|m ms IH]; intros s; cbn; [intros [= <-]; constructor|].
  destruct (play m s) as [s1|] eqn:E1; [|done]. cbn. intros H.
  apply play_step, run_one in E1. pose proof (run_trans _ _ _ _ _ E1 (IH _ H)) as Hr.
  by destruct (message_of m).
Qed.
End Peers.

Arguments move : clear implicits.
Arguments peerData : clear implicits.
Arguments plane : clear implicits.
