(* ===== verification/PeerPath.v ===== *)
(** * Detection of a silent peer

    The interface between the timer thread and the plane whose paths it probes.
    [PathMonitor] is what the callback and the message handlers of a plane promise about
    the timers of one peer; [detection_by_phase] follows for every run: a peer that
    stays silent is waiting, then resending, and down from the time [detection_time] on. *)
From S2P Require Import Prelude NodeAddr PeerTimer.

(** [d]: the first expiry of the periodic timer; [t]: the transmit timer; [n]: the number
    of retransmissions.  With no retransmission the periodic timer itself declares the
    peer down. *)
Definition detection_time (d t n : Z) : Z := if n =? 0 then d else d + (n + 1) * t.

(** ** Steps that only concern one peer *)
Section Touches.
Context {X G : Type}.
Implicit Types (s : plane X G) (md : peerData X).

Record touches (i : peer_id) s s' : Prop := mk_touches {
  touches_other j : i <> j -> peers s' !! j = peers s !! j;
  touches_dst : dstIP <$> peers s' !! i = dstIP <$> peers s !! i;
  touches_now : now s' = now s;
  touches_count : transmit_cnt s' = transmit_cnt s;
  touches_calls : suffix (calls s) (calls s');
  touches_hash a j : conn_hash s' !! a = Some j -> conn_hash s !! a = Some j
}.

#[export] Instance touches_preorder i : PreOrder (touches i).
Proof.
  split.
  - intros s. by split.
  - intros s1 s2 s3 [a1 a2 a3 a4 a5 a6] [b1 b2 b3 b4 b5 b6]. split; try congruence; eauto.
    + intros j Hj. rewrite b1 by done. by apply a1.
    + by etransitivity.
Qed.

(** The touched peer's new contents, when the hash and the clock stay. *)
Lemma touches_change i f s : (forall md, dstIP (f md) = dstIP md) -> touches i s (change i f s).
Proof.
  intros Hf. split; try done; cbn.
  - intros j Hj. by apply lookup_alter_ne.
  - rewrite lookup_alter_eq. destruct (peers s !! i); cbn; [by rewrite Hf|done].
Qed.

Lemma touches_timer i w f s : touches i s (change i (on_timer w f) s).
Proof. apply touches_change. by destruct w. Qed.

Lemma touches_emit i c s : touches i s (emit c s).
Proof. split; try done. cbn. by apply suffix_cons_r. Qed.

Lemma touches_globals i g s : touches i s (set_globals g s).
Proof. by split. Qed.

Lemma touches_seq i s : touches i s (generate_seq_no s).1.
Proof. by split. Qed.

Lemma touches_del i a s : touches i s (del_entry_from_hash a s).
Proof.
  split; try done; cbn. intros b j H. rewrite lookup_delete_Some in H. by destruct H.
Qed.

Lemma touches_start i w s : touches i s (start w i s).
Proof. apply touches_timer. Qed.
Lemma touches_stop i w s : touches i s (stop w i s).
Proof. apply touches_timer. Qed.
Lemma touches_deinit i w s : touches i s (deinit w i s).
Proof. apply touches_timer. Qed.

Lemma touches_response i a s : conn_hash s !! a = Some i \/ conn_hash s !! a = None -> touches i s (process_response a s).
Proof.
  unfold process_response. intros [->| ->]; [|done].
  etransitivity; [by apply (touches_change i (set_itr_cnt 0))|].
  destruct (peers (change i (set_itr_cnt 0) s) !! i).
  - etransitivity; [apply touches_emit|]. etransitivity; [apply touches_stop|].
    etransitivity; [apply touches_stop|apply touches_start].
  - etransitivity; [apply touches_stop|]. etransitivity; [apply touches_stop|apply touches_start].
Qed.

Lemma peers_change i f s : peers (change i f s) !! i = f <$> peers s !! i.
Proof. apply lookup_alter_eq. Qed.
End Touches.

Ltac touch := repeat
  match goal with
  | |- touches _ ?s ?s => reflexivity
  | |- touches ?i _ (emit ?c ?s) => etransitivity; [|apply (touches_emit i c s)]
  | |- touches ?i _ (del_entry_from_hash ?a ?s) => etransitivity; [|apply (touches_del i a s)]
  | |- touches ?i _ (start ?w ?i ?s) => etransitivity; [|apply (touches_start i w s)]
  | |- touches ?i _ (stop ?w ?i ?s) => etransitivity; [|apply (touches_stop i w s)]
  | |- touches ?i _ (deinit ?w ?i ?s) => etransitivity; [|apply (touches_deinit i w s)]
  | |- touches ?i _ (change ?i ?f ?s) => etransitivity; [|by apply (touches_change i f s)]
  end.

(** The table leads to the peer of the address. *)
Definition conn_wf {X G} (s : plane X G) : Prop :=
  forall a i, conn_hash s !! a = Some i -> exists md, peers s !! i = Some md /\ dstIP md = a.

Lemma touches_wf {X G} i (s s' : plane X G) : touches i s s' -> conn_wf s -> conn_wf s'.
Proof.
  intros [Ho Hd _ _ _ Hh] Hwf a j Ha%Hh. destruct (Hwf a j Ha) as (md & Hj & <-).
  destruct (decide (i = j)) as [<-|Hne]; [|rewrite Ho by done; eauto].
  rewrite Hj in Hd. destruct (peers s' !! i) as [md'|]; [|done]. exists md'. cbn in Hd. by injection Hd.
Qed.

(** ** Messages and the other peers *)
Section Messages.
Context {X G : Type}.
Implicit Types (s : plane X G) (md : peerData X).

(** A new peer, which the table may not have taken. *)
Record enters (a : node_address_t) s s' : Prop := mk_enters {
  enters_new : conn_hash s !! a = None;
  enters_peer : exists md, dstIP md = a /\ peers s' = <[fresh (dom (peers s)) := md]> (peers s);
  enters_hash : conn_hash s' = conn_hash s \/ conn_hash s' = <[a := fresh (dom (peers s))]> (conn_hash s);
  enters_now : now s' = now s;
  enters_count : transmit_cnt s' = transmit_cnt s;
  enters_calls : suffix (calls s) (calls s')
}.

Lemma initpeerData_dst p t n m md : dstIP (initpeerData p t n m md).2 = dstIP md.
Proof. by destruct p, t. Qed.

Lemma enters_wf a s s' : enters a s s' -> conn_wf s -> conn_wf s'.
Proof.
  intros [Hn (md & Hd & Hp) Hh _ _ _] Hwf b j Hb.
  assert (conn_hash s !! b = Some j \/ (b = a /\ j = fresh (dom (peers s)))) as [Hs|[-> ->]].
  { destruct Hh as [E|E]; rewrite E in Hb; [by left|]. apply lookup_insert_Some in Hb as [[-> <-]|[_ Hb]]; auto. }
  - destruct (Hwf b j Hs) as (md' & Hj & Hb'). exists md'. rewrite Hp, lookup_insert_ne; [done|].
    intros <-. apply (is_fresh (dom (peers s))). by apply elem_of_dom.
  - exists md. by rewrite Hp, lookup_insert_eq.
Qed.

Lemma update_all_wf f s : (forall md, dstIP (f md) = dstIP md) -> conn_wf s -> conn_wf (update_all f s).
Proof.
  intros Hf Hwf a i Ha. destruct (Hwf a i Ha) as (md & Hi & Hd). cbn. rewrite map_lookup_imap, Hi. cbn.
  eexists. split; [done|]. case_bool_decide; [by rewrite Hf|done].
Qed.

Lemma update_ms_dst w ms now md : dstIP (update_ms w ms now md) = dstIP md.
Proof. by destruct w. Qed.

Lemma touches_from_peer a s : exists i, touches i s (process_response a s) /\ (conn_hash s !! a = Some i \/ process_response a s = s).
Proof.
  destruct (conn_hash s !! a) as [i|] eqn:E; [exists i|exists 0%nat].
  - split; [apply touches_response|]; auto.
  - split; [apply touches_response; auto|]. right. unfold process_response. by rewrite E.
Qed.

Lemma touches_spares a j s s' i md :
  touches j s s' -> conn_wf s -> conn_hash s !! a = Some j -> a <> dstIP md -> peers s !! i = Some md ->
  peers s' !! i = Some md /\ now s' = now s /\ transmit_cnt s' = transmit_cnt s /\
  (conn_hash s !! dstIP md = None -> conn_hash s' !! dstIP md = None).
Proof.
  intros Ht Hwf Ha Hne Hi. assert (j <> i) as Hj.
  { intros <-. destruct (Hwf a j Ha) as (md' & Hj & Hd). apply Hne. congruence. }
  split_and!; [by rewrite (touches_other j _ _ Ht)|apply (touches_now _ _ _ Ht)|apply (touches_count _ _ _ Ht)|].
  rewrite !eq_None_not_Some. intros Hr [k Hk]. apply Hr. exists k. by apply (touches_hash _ _ _ Ht).
Qed.

Lemma enters_spares a s s' i md :
  enters a s s' -> a <> dstIP md -> peers s !! i = Some md ->
  peers s' !! i = Some md /\ now s' = now s /\ transmit_cnt s' = transmit_cnt s /\
  (conn_hash s !! dstIP md = None -> conn_hash s' !! dstIP md = None).
Proof.
  intros [Hn (md' & Hd & Hp) Hh Hnow Hcnt _] Hne Hi. split_and!; [|done|done|].
  - rewrite Hp, lookup_insert_ne; [done|]. intros <-. apply (is_fresh (dom (peers s))). by apply elem_of_dom.
  - destruct Hh as [-> | ->]; [done|]. intros Hr. by rewrite lookup_insert_ne.
Qed.
End Messages.

Section Monitor.
Context {X G E : Type}.
Implicit Types (s : plane X G) (md : peerData X).
Context (timerCallback : which -> peer_id -> plane X G -> plane X G).
Context (handle : E -> plane X G -> option (plane X G)).
Context (peer_address : node_address_t -> peer_address_t).

(** A timer that is due: the kernel re-arms it, the thread runs the callback. *)
Definition expire (w : which) (i : peer_id) s : plane X G :=
  timerCallback w i (change i (on_timer w expired) s).

(** Both timers of the peer are deleted. *)
Definition timers_deleted md : Prop :=
  pt md = gst_timer_deinit (pt md) /\ tt md = gst_timer_deinit (tt md).

Class PathMonitor (wf : plane X G -> Prop) (probed : peerData X -> Prop)
    (spares : E -> peerData X -> Prop) (removed : plane X G -> peerData X -> Prop) : Prop := {
  time_wf s t : wf s -> wf (set_now t s);
  time_removed s t md : removed s md -> removed (set_now t s) md;
  expire_wf s w i : wf s -> wf (expire w i s);
  expire_clock s w i : now (expire w i s) = now s /\ transmit_cnt (expire w i s) = transmit_cnt s;
  expire_calls s w i : suffix (calls s) (calls (expire w i s));
  expire_other s w i j : i <> j -> peers (expire w j s) !! i = peers s !! i;
  expire_removed s w j md : removed s md -> removed (expire w j s) md;
  expire_down s w i md : peers s !! i = Some md -> probed md -> itr_cnt md = transmit_cnt s ->
    exists md', peers (expire w i s) !! i = Some md' /\ timers_deleted md' /\ dstIP md' = dstIP md /\
      update_peer_status (peer_address (dstIP md)) false ∈ calls (expire w i s) /\
      removed (expire w i s) md';
  expire_periodic s i md : peers s !! i = Some md -> probed md -> itr_cnt md <> transmit_cnt s ->
    exists md', peers (expire PT i s) !! i = Some md' /\ probed md' /\ dstIP md' = dstIP md /\
      itr_cnt md' = itr_cnt md /\ pt md' = gst_timer_stop (pt md) /\ tt md' = started (now s) (tt md);
  expire_transmit s i md : peers s !! i = Some md -> probed md -> itr_cnt md <> transmit_cnt s ->
    exists md', peers (expire TT i s) !! i = Some md' /\ probed md' /\ dstIP md' = dstIP md /\
      itr_cnt md' = u8 (itr_cnt md + 1) /\ pt md' = pt md /\ tt md' = expired (tt md);
  handle_wf s e s' : wf s -> handle e s = Some s' -> wf s';
  handle_calls s e s' : handle e s = Some s' -> suffix (calls s) (calls s');
  handle_spared s e s' i md : wf s -> handle e s = Some s' -> peers s !! i = Some md -> spares e md ->
    peers s' !! i = Some md /\ now s' = now s /\ transmit_cnt s' = transmit_cnt s /\
    (removed s md -> removed s' md)
}.

Section Detection.
Context {wf probed spares removed} `{!PathMonitor wf probed spares removed}.
(** What the peer is probed with: a first expiry at [d], retransmissions every [t]. *)
Context (i : peer_id) (a : node_address_t) (d t n : Z).

Definition waiting s : Prop :=
  exists md, peers s !! i = Some md /\ probed md /\ dstIP md = a /\ itr_cnt md = 0 /\ transmit_cnt s = n /\
    (exists iv, pt md = mk_timer true ttInterval (ti_ms (pt md)) (Some (d, iv))) /\
    tt md = mk_timer true ttInterval t None /\ now s <= d.

Definition resending s : Prop :=
  exists md k, peers s !! i = Some md /\ probed md /\ dstIP md = a /\ itr_cnt md = k /\ transmit_cnt s = n /\
    0 <= k <= n /\ pt md = mk_timer true ttInterval (ti_ms (pt md)) None /\
    tt md = mk_timer true ttInterval t (Some (d + (k + 1) * t, t)) /\ n <> 0 /\ now s <= d + (k + 1) * t.

Definition down s : Prop :=
  exists md, peers s !! i = Some md /\ timers_deleted md /\ dstIP md = a /\ removed s md /\
    update_peer_status (peer_address a) false ∈ calls s /\ detection_time d t n <= now s.

Definition phase s : Prop := waiting s \/ resending s \/ down s.

(** No message of the run concerns the peer [i]. *)
Definition silent (es : list E) : Prop := Forall (fun e => forall md, dstIP md = a -> spares e md) es.

Context (t_pos : 0 < t) (n_range : 0 <= n < 256).

Lemma elem_suffix {A} (x : A) l k : x ∈ l -> suffix l k -> x ∈ k.
Proof. intros Hx [p ->]. apply elem_of_app. by right. Qed.

Lemma phase_time s t' : phase s -> now s <= t' -> in_time t' s -> phase (set_now t' s).
Proof.
  intros [H|[H|H]] Hle Hin.
  - destruct H as (md & Hi & Hp & Ha & Hc & Hn & (iv & Hpt) & Htt & Hnow). left. exists md. split_and!; eauto.
    apply (Hin i md Hi PT d). unfold deadline. cbn. by rewrite Hpt.
  - destruct H as (md & k & Hi & Hp & Ha & Hc & Hn & Hk & Hpt & Htt & Hn0 & Hnow). right. left.
    exists md, k. split_and!; eauto; try lia. apply (Hin i md Hi TT _). unfold deadline. cbn. by rewrite Htt.
  - destruct H as (md & Hi & Hd & Ha & Hr & Hc & Hnow). right. right. exists md.
    split_and!; eauto; [by apply time_removed|cbn; lia].
Qed.

Lemma down_expire s w i' md d' : down s -> peers s !! i' = Some md -> deadline w md = Some d' -> down (expire w i' s).
Proof.
  intros (md0 & Hi & Hd & Ha & Hr & Hc & Hnow) Hi' Hdl.
  destruct (decide (i = i')) as [<-|Hne].
  { assert (md0 = md) as -> by congruence. destruct Hd as [Hp Ht]. exfalso. unfold deadline in Hdl.
    destruct w; cbn in Hdl; [rewrite Hp in Hdl|rewrite Ht in Hdl]; done. }
  exists md0. rewrite expire_other by done. destruct (expire_clock s w i') as [-> _].
  split_and!; eauto; [by apply expire_removed|]. eapply elem_suffix; [done|apply expire_calls].
Qed.

Lemma waiting_expire s w md d' :
  waiting s -> peers s !! i = Some md -> deadline w md = Some d' -> d' <= now s -> phase (expire w i s).
Proof.
  intros (md0 & Hi & Hp & Ha & Hc & Hn & (iv & Hpt) & Htt & Hnow) Hi' Hdl Hd'.
  assert (md0 = md) as -> by congruence. clear Hi'.
  destruct (expire_clock s w i) as [Hclk Hcnt].
  destruct w; [|unfold deadline in Hdl; cbn in Hdl; by rewrite Htt in Hdl].
  assert (d' = d) as -> by (unfold deadline in Hdl; cbn in Hdl; rewrite Hpt in Hdl; by injection Hdl).
  destruct (decide (transmit_cnt s = 0)) as [H0|H0].
  - destruct (expire_down s PT i md Hi Hp) as (md' & H1 & H2 & H3 & H4 & H5); [lia|].
    rewrite Ha in H3, H4. right. right. exists md'. rewrite H3, Hclk. unfold detection_time.
    assert ((n =? 0) = true) as -> by lia. split_and!; eauto; lia.
  - destruct (expire_periodic s i md Hi Hp) as (md' & H1 & H2 & H3 & H4 & H5 & H6); [lia|].
    right. left. exists md', 0. rewrite Hclk, Hcnt, H4, H5, H6, H3. split_and!; eauto; try lia; try by rewrite Hpt.
    rewrite Htt. unfold started, startTimer, gst_timer_start. cbn.
    assert ((t <? 0) = false) as -> by lia. assert ((t =? 0) = false) as -> by lia. cbn. do 3 f_equal. lia.
Qed.

Lemma resending_expire s w md d' :
  resending s -> peers s !! i = Some md -> deadline w md = Some d' -> d' <= now s -> phase (expire w i s).
Proof.
  intros (md0 & k & Hi & Hp & Ha & Hc & Hn & Hk & Hpt & Htt & Hn0 & Hnow) Hi' Hdl Hd'.
  assert (md0 = md) as -> by congruence. clear Hi'.
  destruct (expire_clock s w i) as [Hclk Hcnt].
  destruct w; [unfold deadline in Hdl; cbn in Hdl; by rewrite Hpt in Hdl|].
  assert (d' = d + (k + 1) * t) as -> by (unfold deadline in Hdl; cbn in Hdl; rewrite Htt in Hdl; by injection Hdl).
  destruct (decide (itr_cnt md = transmit_cnt s)) as [H0|H0].
  - destruct (expire_down s TT i md Hi Hp H0) as (md' & H1 & H2 & H3 & H4 & H5).
    rewrite Ha in H3, H4. right. right. exists md'. rewrite H3, Hclk. unfold detection_time.
    assert ((n =? 0) = false) as -> by lia. split_and!; eauto; nia.
  - destruct (expire_transmit s i md Hi Hp H0) as (md' & H1 & H2 & H3 & H4 & H5 & H6).
    right. left. exists md', (k + 1). rewrite Hclk, Hcnt, H4, H5, H6, H3.
    split_and!; eauto; try lia; [rewrite Hc; apply wrap_small; lia|]. rewrite Htt. unfold expired. cbn.
    destruct t eqn:Et; try lia. do 3 f_equal. lia.
Qed.

Lemma phase_expire s w i' md d' :
  phase s -> peers s !! i' = Some md -> deadline w md = Some d' -> d' <= now s -> phase (expire w i' s).
Proof.
  intros [H|[H|H]] Hi' Hdl Hd'.
  - destruct (decide (i = i')) as [<-|Hne]; [by eapply waiting_expire|].
    destruct H as (md0 & H). left. exists md0.
    rewrite expire_other by done. destruct (expire_clock s w i') as [-> ->]. exact H.
  - destruct (decide (i = i')) as [<-|Hne]; [by eapply resending_expire|].
    destruct H as (md0 & k & H). right. left. exists md0, k.
    rewrite expire_other by done. destruct (expire_clock s w i') as [-> ->]. exact H.
  - right. right. by eapply down_expire.
Qed.

Lemma phase_message s e s' :
  wf s -> phase s -> handle e s = Some s' -> (forall md, dstIP md = a -> spares e md) -> phase s'.
Proof.
  intros Hwf [H|[H|H]] He Hs.
  - destruct H as (md & Hi & Hp & Ha & H). destruct (handle_spared s e s' i md Hwf He Hi (Hs md Ha)) as (H1 & H2 & H3 & _).
    left. exists md. rewrite H1, H2, H3. exact (conj eq_refl (conj Hp (conj Ha H))).
  - destruct H as (md & k & Hi & Hp & Ha & H). destruct (handle_spared s e s' i md Hwf He Hi (Hs md Ha)) as (H1 & H2 & H3 & _).
    right. left. exists md, k. rewrite H1, H2, H3. exact (conj eq_refl (conj Hp (conj Ha H))).
  - destruct H as (md & Hi & Hd & Ha & Hr & Hc & Hnow).
    destruct (handle_spared s e s' i md Hwf He Hi (Hs md Ha)) as (H1 & H2 & H3 & H4).
    right. right. exists md. rewrite H1, H2. split_and!; eauto. eapply elem_suffix; [done|by eapply handle_calls].
Qed.

Lemma step_wf s e s' : wf s -> step timerCallback handle s e s' -> wf s'.
Proof. intros Hwf Hst. destruct Hst; [by apply time_wf|by apply expire_wf|by eapply handle_wf]. Qed.

Lemma detection_by_phase s es s' :
  run timerCallback handle s es s' -> wf s -> phase s -> silent es -> wf s' /\ phase s'.
Proof.
  intros Hrun Hwf Hph. induction Hrun as [|es s1 e s2 Hrun IH Hst]; [done|].
  intros [Hs1 Hs2]%Forall_app. destruct (IH Hs1) as [Hwf1 Hph1]. split; [by eapply step_wf|].
  destruct Hst as [t' Ht' Hin|i' md w d' Hi' Hdl Hd'|e s2 He].
  - apply (phase_time s1); done.
  - by eapply phase_expire.
  - apply Forall_inv in Hs2. cbn in Hs2. exact (phase_message s1 e s2 Hwf1 Hph1 He Hs2).
Qed.

(** Past the time of detection the peer has been declared down, and is removed. *)
Lemma phase_late s : phase s -> detection_time d t n < now s ->
  update_peer_status (peer_address a) false ∈ calls s /\
  exists md, peers s !! i = Some md /\ timers_deleted md /\ dstIP md = a /\ removed s md.
Proof.
  intros [H|[H|H]] Hlt.
  - destruct H as (md & _ & _ & _ & _ & _ & _ & _ & Hnow). exfalso. unfold detection_time in Hlt.
    destruct (n =? 0); nia.
  - destruct H as (md & k & _ & _ & _ & _ & _ & Hk & _ & _ & Hn & Hnow). exfalso. unfold detection_time in Hlt.
    assert ((n =? 0) = false) as E0 by lia. rewrite E0 in Hlt. nia.
  - destruct H as (md & Hi & Hd & Ha & Hr & Hc & _). eauto 10.
Qed.

(** Before that time its timers still run. *)
Lemma phase_early s : phase s -> now s < detection_time d t n ->
  exists md w, peers s !! i = Some md /\ dstIP md = a /\ deadline w md <> None.
Proof.
  unfold deadline. intros [H|[H|H]] Hlt.
  - destruct H as (md & Hi & _ & Ha & _ & _ & (iv & Hpt) & _). exists md, PT. cbn. by rewrite Hpt.
  - destruct H as (md & k & Hi & _ & Ha & _ & _ & _ & _ & Htt & _). exists md, TT. cbn. by rewrite Htt.
  - destruct H as (md & _ & _ & _ & _ & _ & Hnow). lia.
Qed.
End Detection.
End Monitor.
