(* ===== verification/PeerCp.v ===== *)
(** * Path management of the control plane

    cp/restoration_peer.c: [timerCallback], which probes a peer with echo (S11, S5/S8) or
    heartbeat (Sx) requests and declares it down when the retransmissions are used up,
    [add_node_conn_entry], which starts to probe a peer, and the messages of the other
    parts that reset a peer's timers.  [PathMonitor] holds for it ([cp_monitor]), so a
    peer that stays silent is declared down, in time and not before. *)
From S2P Require Import Prelude NodeAddr SeidList PeerTimer PeerPath.

Definition S11_SGW_PORT_ID : Z := 0.
Definition S5S8_SGWC_PORT_ID : Z := 1.
Definition SX_PORT_ID : Z := 2.
Definition S5S8_PGWC_PORT_ID : Z := 3.

(** The fields a control plane's [peerData] has besides the common ones; the last ones
    serve the retransmission of requests. *)
Record cp_fields := mk_cp_fields {
  cp_mode : Z;
  dstPort : Z;
  teid : Z;
  ebi_index : Z;
  buf_len : Z;
  buf : list byte;
  imsi : Z
}.

Record cp_seqs := mk_cp_seqs {
  gtpu_mme_seqnb : Z;
  gtpu_sgwc_seqnb : Z;
  gtpu_pgwc_seqnb : Z;
  gtpu_sx_seqnb : Z
}.

Abbreviation cp_peer := (peerData cp_fields).
Abbreviation cp_plane := (plane cp_fields cp_seqs).

Definition peer_address (a : node_address_t) : peer_address_t :=
  if ip_type a =? PDN_TYPE_IPV4 then IPV4_TYPE (ipv4_addr a) else IPV6_TYPE (ipv6_addr a).

(** ** The callback *)

(** A new sequence number for a new request, the last one for a retransmission. *)
Definition next_seq (w : which) (port : Z) (s : cp_plane) : cp_plane :=
  match w with
  | TT => s
  | PT =>
      let g := globals s in
      if port =? S11_SGW_PORT_ID then
        set_globals (mk_cp_seqs (u16 (gtpu_mme_seqnb g + 1)) (gtpu_sgwc_seqnb g) (gtpu_pgwc_seqnb g) (gtpu_sx_seqnb g)) s
      else if port =? S5S8_SGWC_PORT_ID then
        set_globals (mk_cp_seqs (gtpu_mme_seqnb g) (u16 (gtpu_sgwc_seqnb g + 1)) (gtpu_pgwc_seqnb g) (gtpu_sx_seqnb g)) s
      else if port =? S5S8_PGWC_PORT_ID then
        set_globals (mk_cp_seqs (gtpu_mme_seqnb g) (gtpu_sgwc_seqnb g) (u16 (gtpu_pgwc_seqnb g + 1)) (gtpu_sx_seqnb g)) s
      else if port =? SX_PORT_ID then
        let '(s, n) := generate_seq_no s in
        set_globals (mk_cp_seqs (gtpu_mme_seqnb g) (gtpu_sgwc_seqnb g) (gtpu_pgwc_seqnb g) (u16 n)) s
      else s
  end.

Definition send_probe (port : Z) (a : node_address_t) (s : cp_plane) : cp_plane :=
  let g := globals s in
  if port =? S11_SGW_PORT_ID then emit (gtpv2c_echo_request a (gtpu_mme_seqnb g) port) s
  else if port =? S5S8_SGWC_PORT_ID then emit (gtpv2c_echo_request a (gtpu_sgwc_seqnb g) port) s
  else if port =? S5S8_PGWC_PORT_ID then emit (gtpv2c_echo_request a (gtpu_pgwc_seqnb g) port) s
  else if port =? SX_PORT_ID then emit (process_pfcp_heartbeat_req a (gtpu_sx_seqnb g)) s
  else s.

Definition known_port (port : Z) : bool :=
  (port =? S11_SGW_PORT_ID) || (port =? S5S8_SGWC_PORT_ID) || (port =? S5S8_PGWC_PORT_ID) || (port =? SX_PORT_ID).

(** The sessions of a peer that is down. *)
Definition flush_sessions (port : Z) (a : node_address_t) (s : cp_plane) : cp_plane :=
  if port =? SX_PORT_ID then emit (del_peer_node_sess a port) (emit (delete_entry_heartbeat_hash a) s)
  else if (port =? S11_SGW_PORT_ID) || (port =? S5S8_SGWC_PORT_ID) || (port =? S5S8_PGWC_PORT_ID) then
    emit (del_peer_node_sess a port) (emit (del_pfcp_peer_node_sess a port) s)
  else s.

Definition declare_down (i : peer_id) (md : cp_peer) (s : cp_plane) : cp_plane :=
  let s := deinit PT i (deinit TT i (stop PT i (stop TT i s))) in
  let s := emit (update_peer_status (peer_address (dstIP md)) false) s in
  let s := emit (delete_cli_peer (peer_address (dstIP md))) s in
  del_entry_from_hash (dstIP md) (flush_sessions (portId md) (dstIP md) s).

Definition probe (w : which) (i : peer_id) (md : cp_peer) (s : cp_plane) : cp_plane :=
  let s := send_probe (portId md) (dstIP md) (next_seq w (portId md) s) in
  let n := if known_port (portId md) then u8 (itr_cnt md + 1) else itr_cnt md in
  match w with
  | TT => emit (update_peer_timeouts (peer_address (dstIP md)) n) (change i (set_itr_cnt n) s)
  | PT => stop PT i (start TT i s)
  end.

Definition timerCallback (w : which) (i : peer_id) (s : cp_plane) : cp_plane :=
  match peers s !! i with
  | None => s
  | Some md =>
      let s := change i (set_itr (transmit_cnt s)) s in
      if itr_cnt md =? transmit_cnt s then declare_down i md s else probe w i md s
  end.

(** ** New peers *)

(** What the allocator, the table and the kernel answer. *)
Record resources := mk_resources {
  malloc_ok : bool;
  hash_ok : bool;
  pt_ok : bool;
  tt_ok : bool;
  memory : cp_fields
}.

Definition no_timer : gstimerinfo_t := mk_timer false ttSingleShot 0 None.

(** [None]: the result of the allocation is not checked.  An entry that the table
    refuses is probed all the same, and one whose timers could not be created stays. *)
Definition add_node_conn_entry (dstIp : node_address_t) (port mode : Z) (r : resources) (s : cp_plane)
    : option (cp_plane * Z) :=
  if negb ((ip_type dstIp =? PDN_TYPE_IPV4) || (ip_type dstIp =? PDN_TYPE_IPV6)) then Some (s, u8 (-1))
  else match conn_hash s !! dstIp with
  | Some i => Some (start PT i s, 0)
  | None =>
      if negb (malloc_ok r) then None
      else
        let m := memory r in
        let i := fresh (dom (peers s)) in
        let md := mk_peer port 0 (transmit_cnt s) 0 dstIp 0 no_timer no_timer
                    (mk_cp_fields mode (dstPort m) (teid m) (ebi_index m) (buf_len m) (buf m) (imsi m)) in
        let '(ok, md) := initpeerData (pt_ok r) (tt_ok r)
                           (swrap 32 (periodic_timer s * 1000)) (swrap 32 (transmit_timer s * 1000)) md in
        let s := set_peers (<[i := md]> (peers s)) s in
        let s := if hash_ok r then set_conn_hash (<[dstIp := i]> (conn_hash s)) s else s in
        if negb ok then Some (s, u8 (-1))
        else
          let s := emit (update_peer_status (peer_address dstIp) true) s in
          let s := start PT i s in
          Some (set_conn_cnt (swrap 32 (conn_cnt s + 1)) s, 0)
  end.

(** ** Messages *)

(** What reaches the peers from the rest of the control plane: any message of a peer
    ([cp.c], [pfcp_req_resp.c]), a session with a new peer, the operator. *)
Inductive message :=
| from_peer (a : node_address_t)
| new_peer (a : node_address_t) (port mode : Z) (r : resources)
| periodic (v : Z)
| transmit (v : Z)
| count (v : Z).

Definition handle (m : message) (s : cp_plane) : option cp_plane :=
  match m with
  | from_peer a => Some (process_response a s)
  | new_peer a port mode r => fst <$> add_node_conn_entry a port mode r s
  | periodic v => Some (update_periodic_timer_value v s)
  | transmit v => Some (update_transmit_timer_value v s)
  | count v => Some (post_transmit_count v s)
  end.

(** ** The monitor *)

Definition probed (md : cp_peer) : Prop := known_port (portId md) = true.

(** A message that does not concern the peer. *)
Definition spares (m : message) (md : cp_peer) : Prop :=
  match m with
  | from_peer a | new_peer a _ _ _ => a <> dstIP md
  | _ => False
  end.

Definition removed (s : cp_plane) (md : cp_peer) : Prop := conn_hash s !! dstIP md = None.

(** ** The operations touch one peer *)

Lemma touches_next_seq i w port s : touches i s (next_seq w port s).
Proof. unfold next_seq, generate_seq_no. destruct w; [|done]. repeat case_match; first [reflexivity|by split]. Qed.

Lemma touches_send_probe i port a s : touches i s (send_probe port a s).
Proof. unfold send_probe. repeat case_match; touch. Qed.

Lemma touches_flush i port a s : touches i s (flush_sessions port a s).
Proof. unfold flush_sessions. repeat case_match; touch. Qed.

Lemma touches_down i md s : touches i s (declare_down i md s).
Proof.
  unfold declare_down. etransitivity; [|apply touches_del]. etransitivity; [|apply touches_flush]. touch.
Qed.

Lemma touches_probe w i md s : touches i s (probe w i md s).
Proof.
  unfold probe. etransitivity; [apply (touches_next_seq i w (portId md))|].
  etransitivity; [apply (touches_send_probe i (portId md) (dstIP md))|].
  destruct w; [touch|]. etransitivity; [|apply touches_emit]. by apply touches_change.
Qed.

Lemma touches_callback w i s : touches i s (timerCallback w i s).
Proof.
  unfold timerCallback. destruct (peers s !! i) as [md|]; [|done].
  etransitivity; [by apply (touches_change i (set_itr (transmit_cnt s)))|].
  case_match; [apply touches_down|apply touches_probe].
Qed.

Lemma touches_expire w i s : touches i s (expire timerCallback w i s).
Proof. unfold expire. etransitivity; [apply touches_timer|apply touches_callback]. Qed.

(** ** What the callback does with the peer *)

Lemma peers_next_seq w port s : peers (next_seq w port s) = peers s /\ now (next_seq w port s) = now s.
Proof. unfold next_seq, generate_seq_no. destruct w; [|done]. repeat case_match; done. Qed.

Lemma peers_send_probe port a s : peers (send_probe port a s) = peers s /\ now (send_probe port a s) = now s.
Proof. unfold send_probe. repeat case_match; done. Qed.

Lemma peers_flush port a s : peers (flush_sessions port a s) = peers s.
Proof. unfold flush_sessions. repeat case_match; done. Qed.

Lemma callback_probe w i md s : peers s !! i = Some md -> probed md -> itr_cnt md <> transmit_cnt s ->
  peers (timerCallback w i s) !! i = Some match w with
    | TT => set_itr_cnt (u8 (itr_cnt md + 1)) (set_itr (transmit_cnt s) md)
    | PT => on_timer PT stopTimer (on_timer TT (started (now s)) (set_itr (transmit_cnt s) md)) end.
Proof.
  intros Hi Hp Hne. unfold timerCallback. rewrite Hi.
  change (transmit_cnt (change i ?f ?s)) with (transmit_cnt s). rewrite (proj2 (Z.eqb_neq _ _) Hne).
  set (s1 := change i _ s).
  assert (peers s1 !! i = Some (set_itr (transmit_cnt s) md)) as H1 by (unfold s1; rewrite peers_change, Hi; done).
  unfold probe. rewrite Hp.
  destruct (peers_next_seq w (portId md) s1) as [Ha Hb].
  destruct (peers_send_probe (portId md) (dstIP md) (next_seq w (portId md) s1)) as [Hc Hd].
  set (s2 := send_probe _ _ _) in *.
  assert (peers s2 !! i = Some (set_itr (transmit_cnt s) md)) as H2 by congruence.
  assert (now s2 = now s) as Hn by (transitivity (now s1); [congruence|done]).
  destruct w.
  - unfold stop. rewrite peers_change. unfold start. rewrite peers_change, H2, Hn. done.
  - change (peers (emit _ ?s)) with (peers s). rewrite peers_change, H2. done.
Qed.

Lemma callback_down w i md s : peers s !! i = Some md -> itr_cnt md = transmit_cnt s ->
  let s' := timerCallback w i s in
  peers s' !! i = Some (on_timer PT deinitTimer (on_timer TT deinitTimer (on_timer PT stopTimer (on_timer TT stopTimer
                    (set_itr (transmit_cnt s) md))))) /\
  update_peer_status (peer_address (dstIP md)) false ∈ calls s' /\ conn_hash s' !! dstIP md = None.
Proof.
  intros Hi He s'. subst s'. unfold timerCallback. rewrite Hi.
  change (transmit_cnt (change i ?f ?s)) with (transmit_cnt s). rewrite (proj2 (Z.eqb_eq _ _) He). unfold declare_down.
  split_and!.
  - change (peers (del_entry_from_hash _ ?s)) with (peers s). rewrite peers_flush.
    change (peers (emit _ (emit _ ?s))) with (peers s). unfold deinit, stop.
    rewrite !peers_change, Hi. done.
  - change (calls (del_entry_from_hash _ ?s)) with (calls s).
    eapply elem_suffix; [|apply (touches_calls i), touches_flush]. right. left.
  - apply lookup_delete_eq.
Qed.

(** ** Messages *)

Lemma add_node_conn_entry_cases a port mode r s s' : handle (new_peer a port mode r) s = Some s' ->
  s' = s \/ (exists i, conn_hash s !! a = Some i /\ s' = start PT i s) \/ enters a s s'.
Proof.
  cbn. unfold add_node_conn_entry. case_match; [by intros [= <-]; left|].
  destruct (conn_hash s !! a) as [i|] eqn:Ha; [intros [= <-]; right; left; eauto|].
  case_match; [done|]. right. right.
  pose proof (initpeerData_dst (pt_ok r) (tt_ok r) (swrap 32 (periodic_timer s * 1000)) (swrap 32 (transmit_timer s * 1000))
    (mk_peer port 0 (transmit_cnt s) 0 a 0 no_timer no_timer
       (mk_cp_fields mode (dstPort (memory r)) (teid (memory r)) (ebi_index (memory r))
          (buf_len (memory r)) (buf (memory r)) (imsi (memory r))))) as Hd.
  destruct (initpeerData _ _ _ _ _) as [ok md]. cbn in Hd.
  assert (forall s0 : cp_plane, s0 = (if hash_ok r then
      set_conn_hash (<[a := fresh (dom (peers s))]> (conn_hash s)) (set_peers (<[fresh (dom (peers s)) := md]> (peers s)) s)
    else set_peers (<[fresh (dom (peers s)) := md]> (peers s)) s) -> enters a s s0) as Hs0.
  { intros s0 ->. destruct (hash_ok r); split; try done; cbn; eauto. }
  match goal with H : _ = Some s' |- _ => rename H into He end.
  destruct (negb ok); cbn in He; injection He as <-; [by apply Hs0|].
  destruct (Hs0 _ eq_refl) as [_ (md0 & Hd0 & Hp0) Hh0 Hn0 Hc0 Hl0].
  set (s0 := if hash_ok r then _ else _) in *.
  split; try done; [|by apply suffix_cons_r].
  exists (on_timer PT (started (now s)) md). split; [done|]. unfold start. cbn.
  assert (peers s0 = <[fresh (dom (peers s)) := md]> (peers s)) as -> by (unfold s0; by destruct (hash_ok r)).
  assert (now s0 = now s) as -> by done.
  apply map_eq. intros j. destruct (decide (j = fresh (dom (peers s)))) as [->|Hj].
  - by rewrite lookup_alter_eq, !lookup_insert_eq.
  - by rewrite lookup_alter_ne, !lookup_insert_ne.
Qed.

Lemma handle_conn_wf (s : cp_plane) e s' : conn_wf s -> handle e s = Some s' -> conn_wf s'.
Proof.
  intros Hwf. destruct e as [a|a port mode r|v|v|v].
  - cbn. intros [= <-]. destruct (touches_from_peer a s) as (i & Ht & _). by eapply touches_wf.
  - intros [-> | [(i & _ & ->)|He]]%add_node_conn_entry_cases; [done| |by eapply enters_wf].
    eapply touches_wf; [apply touches_start|done].
  - cbn. intros [= <-]. apply update_all_wf; [apply update_ms_dst|done].
  - cbn. intros [= <-]. apply update_all_wf; [apply update_ms_dst|done].
  - cbn. by intros [= <-].
Qed.

Lemma handle_calls_grow (s : cp_plane) e s' : handle e s = Some s' -> suffix (calls s) (calls s').
Proof.
  destruct e as [a|a port mode r|v|v|v].
  - cbn. intros [= <-]. destruct (touches_from_peer a s) as (i & Ht & _). by apply (touches_calls i).
  - intros [-> | [(i & _ & ->)|He]]%add_node_conn_entry_cases; [done|done|by apply (enters_calls a)].
  - cbn. by intros [= <-].
  - cbn. by intros [= <-].
  - cbn. by intros [= <-].
Qed.

Lemma handle_spares (s : cp_plane) e s' i md :
  conn_wf s -> handle e s = Some s' -> peers s !! i = Some md -> spares e md ->
  peers s' !! i = Some md /\ now s' = now s /\ transmit_cnt s' = transmit_cnt s /\ (removed s md -> removed s' md).
Proof.
  intros Hwf He Hi Hsp. destruct e as [a|a port mode r|v|v|v]; cbn in Hsp; try done.
  - injection He as <-. destruct (touches_from_peer a s) as (j & Ht & [Hj | ->]); [|done].
    by apply (touches_spares a j s _ i md).
  - apply add_node_conn_entry_cases in He as [-> | [(j & Hj & ->)|He]]; [done| |].
    + apply (touches_spares a j s _ i md); auto using touches_start.
    + by apply (enters_spares a s s' i md).
Qed.

#[export] Instance cp_monitor : PathMonitor timerCallback handle peer_address conn_wf probed spares removed.
Proof.
  split.
  - done.
  - done.
  - intros s w i. apply (touches_wf i), touches_expire.
  - intros s w i. split; [apply (touches_now i), touches_expire|apply (touches_count i), touches_expire].
  - intros s w i. apply (touches_calls i), touches_expire.
  - intros s w i j Hne. by apply (touches_other j _ _ (touches_expire w j s)).
  - intros s w i md. unfold removed. rewrite !eq_None_not_Some. intros Hn [j Hj]. apply Hn.
    exists j. eapply touches_hash; [apply (touches_expire w i)|done].
  - intros s w i md Hi Hp He.
    destruct (callback_down w i (on_timer w expired md) (change i (on_timer w expired) s)) as (H1 & H2 & H3).
    + by rewrite peers_change, Hi.
    + by destruct w.
    + eexists. split; [exact H1|]. destruct w; (split_and!; [by split|done|exact H2|exact H3]).
  - intros s i md Hi Hp He. eexists. split.
    + apply (callback_probe PT i (on_timer PT expired md)); [by rewrite peers_change, Hi|done|done].
    + by split_and!.
  - intros s i md Hi Hp He. eexists. split.
    + apply (callback_probe TT i (on_timer TT expired md)); [by rewrite peers_change, Hi|done|done].
    + by split_and!.
  - apply handle_conn_wf.
  - apply handle_calls_grow.
  - apply handle_spares.
Qed.

(** ** Detection *)

Definition usable (r : resources) : Prop := malloc_ok r = true /\ hash_ok r = true /\ pt_ok r = true /\ tt_ok r = true.

(** A duration of the configuration, in seconds, that is armed in milliseconds. *)
Definition duration_ok (v : Z) : Prop := 0 < v /\ v * 1000 < 2 ^ 31.

Lemma new_peer_waits a port mode r (s0 s : cp_plane) :
  handle (new_peer a port mode r) s0 = Some s -> conn_hash s0 !! a = None ->
  ip_type a = PDN_TYPE_IPV4 \/ ip_type a = PDN_TYPE_IPV6 -> usable r -> known_port port = true ->
  duration_ok (periodic_timer s0) -> duration_ok (transmit_timer s0) ->
  waiting (probed := probed) (fresh (dom (peers s0))) a (now s0 + periodic_timer s0 * 1000)
    (transmit_timer s0 * 1000) (transmit_cnt s0) s.
Proof.
  intros He Ha Hty (Hm & Hh & Hp & Ht) Hport Hdp Hdt. unfold duration_ok in *. change (2 ^ 31) with 2147483648 in *.
  cbn in He. unfold add_node_conn_entry in He.
  assert ((ip_type a =? PDN_TYPE_IPV4) || (ip_type a =? PDN_TYPE_IPV6) = true) as Et by (destruct Hty; lia).
  rewrite Et, Ha, Hm, Hp, Ht, Hh in He. cbn in He. rewrite (swrap_small 32 (periodic_timer s0 * 1000)), (swrap_small 32 (transmit_timer s0 * 1000)) in He by (change (2 ^ (32 - 1)) with 2147483648; lia).
  injection He as <-. eexists. split_and!.
  - cbn. rewrite lookup_alter_eq, lookup_insert_eq. done.
  - done.
  - done.
  - done.
  - done.
  - exists (periodic_timer s0 * 1000). cbn. unfold started, startTimer, gst_timer_start. cbn.
    rewrite (proj2 (Z.ltb_ge _ _)) by lia. rewrite (proj2 (Z.eqb_neq _ _)) by lia. done.
  - done.
  - cbn. lia.
Qed.

(** C3. A peer that never answers is declared down.  After [add_node_conn_entry] entered a
    new peer, in every run of the timer thread and of the messages of the other peers: when
    the periodic timer and then one more than the configured number of transmit timers
    have passed, the status of the peer has been set to inactive, its timers are deleted and
    the connection table holds it no more; before that time one of its timers is armed. *)
Theorem silent_peer_declared_down a port mode r s0 s es s' :
  conn_wf s0 -> calls s0 = [] -> conn_hash s0 !! a = None ->
  ip_type a = PDN_TYPE_IPV4 \/ ip_type a = PDN_TYPE_IPV6 -> usable r -> known_port port = true ->
  duration_ok (periodic_timer s0) -> duration_ok (transmit_timer s0) -> 0 <= transmit_cnt s0 < 256 ->
  handle (new_peer a port mode r) s0 = Some s -> run timerCallback handle s es s' ->
  silent (spares := spares) a es ->
  let i := fresh (dom (peers s0)) in
  let due := detection_time (now s0 + periodic_timer s0 * 1000) (transmit_timer s0 * 1000) (transmit_cnt s0) in
  (due < now s' -> update_peer_status (peer_address a) false ∈ calls s' /\ conn_hash s' !! a = None /\
     exists md, peers s' !! i = Some md /\ timers_deleted md) /\
  (now s' < due -> exists md w, peers s' !! i = Some md /\ dstIP md = a /\ deadline w md <> None).
Proof.
  intros Hwf Hc Ha Hty Hr Hport Hdp Hdt Hn He Hrun Hs i due.
  pose proof (new_peer_waits _ _ _ _ _ _ He Ha Hty Hr Hport Hdp Hdt) as Hw.
  destruct (detection_by_phase timerCallback handle peer_address (removed := removed) i a
    (now s0 + periodic_timer s0 * 1000) (transmit_timer s0 * 1000) (transmit_cnt s0)
    ltac:(unfold duration_ok in Hdt; lia) Hn _ _ _ Hrun (handle_conn_wf _ _ _ Hwf He) (or_introl Hw) Hs) as [_ Hph].
  split; intros Hlt.
  - eapply phase_late in Hph; [|unfold duration_ok in Hdt; lia..|exact Hlt].
    destruct Hph as (Hc' & md & Hi & Hd & Hda & Hrem). split_and!; [done| |eauto].
    unfold removed in Hrem. by rewrite Hda in Hrem.
  - by eapply phase_early in Hph.
Qed.

Definition mme : node_address_t := mk_node_address PDN_TYPE_IPV4 16777226 ipv6_zero.
Definition no_fields : cp_fields := mk_cp_fields 0 0 0 0 0 [] 0.
Definition enough : resources := mk_resources true true true true no_fields.
(** A control plane without peers: a periodic timer of 10 s, two retransmissions after 5 s. *)
Definition idle : cp_plane := mk_plane 0 ∅ ∅ 0 2 10 5 0 (mk_cp_seqs 0 0 0 1) [].
Definition silence : list (move message) :=
  [Wait 10000; Fire PT 0%nat; Wait 15000; Fire TT 0%nat; Wait 20000; Fire TT 0%nat; Wait 25000; Fire TT 0%nat; Wait 25001].

Definition after_silence : option cp_plane :=
  handle (new_peer mme S11_SGW_PORT_ID 0 enough) idle ≫= play_all timerCallback handle silence.

Example silence_calls : calls <$> after_silence = Some (rev
    [update_peer_status (peer_address mme) true;
     gtpv2c_echo_request mme 1 S11_SGW_PORT_ID;
     gtpv2c_echo_request mme 1 S11_SGW_PORT_ID; update_peer_timeouts (peer_address mme) 1;
     gtpv2c_echo_request mme 1 S11_SGW_PORT_ID; update_peer_timeouts (peer_address mme) 2;
     update_peer_status (peer_address mme) false; delete_cli_peer (peer_address mme);
     del_pfcp_peer_node_sess mme S11_SGW_PORT_ID; del_peer_node_sess mme S11_SGW_PORT_ID]).
Proof. vm_compute. reflexivity. Qed.

Example silence_ends : now <$> after_silence = Some 25001.
Proof. vm_compute. reflexivity. Qed.

Lemma silent_peer_declared_down_witness :
  exists s', after_silence = Some s' /\ update_peer_status (peer_address mme) false ∈ calls s'.
Proof.
  destruct (proj1 (fmap_Some _ _ _) silence_ends) as (s' & Hs & Hn). exists s'. split; [done|].
  destruct (proj1 (bind_Some _ _ _) Hs) as (s & Es & Ep).
  refine (proj1 (proj1 (silent_peer_declared_down mme S11_SGW_PORT_ID 0 enough idle s _ s' _ _ _ _ _ _ _ _ _ Es
            (play_all_run _ _ _ _ _ Ep) _) _)).
  - intros x i Hx. cbn in Hx. by rewrite lookup_empty in Hx.
  - done.
  - done.
  - by left.
  - repeat split.
  - reflexivity.
  - split; reflexivity.
  - split; reflexivity.
  - cbn. lia.
  - by apply Forall_nil.
  - rewrite <- Hn. done.
Defined.
