(* ===== verification/PeerUp.v ===== *)
(** * Path management of the user plane

    dp/restoration_peer.c and the echo responses of dp/pipeline/epc_arp.c.  The user
    plane probes its peers as the control plane does, unless the channel was active or
    the peer's link address is not known; every expiry takes a packet of [echo_mpool],
    and only the echo requests and end markers put packets into the rings to the ports,
    from where they come back ([heartbeats_drain_echo_pool]); the loops that drain a ring
    free its packets once more than the port does ([drained_packets_freed_twice]).  The
    monitor of [PeerPath] holds for the control planes it heartbeats ([up_monitor]), but
    a control plane that was declared down once is never probed again
    ([control_plane_not_monitored_again]). *)
From S2P Require Import Prelude NodeAddr SeidList UpPacket UpTunnel PeerTimer PeerPath.

Definition S1U_PORT_ID : Z := 0.
Definition SGI_PORT_ID : Z := 1.
Definition SX_PORT_ID : Z := 2.

(** [CLIinterface]. *)
Definition CLI_S5S8 : Z := 1.
Definition CLI_SX : Z := 2.
Definition CLI_S1U : Z := 4.

Abbreviation ether_addr := (list byte).

(** The fields a user plane's [peerData] has besides the common ones. *)
Record up_fields := mk_up_fields {
  rstCnt : Z;
  srcIP : node_address_t;
  src_eth_addr : ether_addr;
  dst_eth_addr : ether_addr
}.

(** [echo_free]: the free packets of [echo_mpool], counted as often as they were freed;
    [rings]: the packets in the [shared_ring] of a port, oldest first, [true] for those of
    [echo_mpool]; [ring_full]: whether a ring has no room.  [arp_hash_handle] and [fds] are the
    link addresses that are known and the open sockets of a port. *)
Record up_globals := mk_up_globals {
  gtpu_seqnb : Z;
  gtpu_sgwu_seqnb : Z;
  gtpu_sx_seqnb : Z;
  echo_free : Z;
  rings : Z -> list bool;
  ring_full : Z -> bool;
  arp_hash_handle : Z -> peer_address_t -> option ether_addr;
  fds : Z -> bool
}.

Definition NB_ECHO_MBUF : Z := 1024.

Abbreviation up_peer := (peerData up_fields).
Abbreviation up_plane := (plane up_fields up_globals).

Definition peer_address (a : node_address_t) : peer_address_t :=
  if ip_type a =? PDN_TYPE_IPV6 then IPV6_TYPE (ipv6_addr a) else IPV4_TYPE (ipv4_addr a).

Definition set_sent (g : up_globals) (seq1 seq2 seq3 free : Z) (ring : Z -> list bool) : up_globals :=
  mk_up_globals seq1 seq2 seq3 free ring (ring_full g) (arp_hash_handle g) (fds g).

Definition on_globals (f : up_globals -> up_globals) (s : up_plane) : up_plane := set_globals (f (globals s)) s.

(** ** The callback *)

(** [rte_pktmbuf_alloc]: whether there was a packet. *)
Definition rte_pktmbuf_alloc (s : up_plane) : up_plane * bool :=
  let g := globals s in
  if 0 <? echo_free g
  then (on_globals (fun g => set_sent g (gtpu_seqnb g) (gtpu_sgwu_seqnb g) (gtpu_sx_seqnb g) (echo_free g - 1) (rings g)) s, true)
  else (s, false).

(** A frame to the peer makes the kernel resolve its link address. *)
Definition arp_request (md : up_peer) (s : up_plane) : up_plane :=
  if fds (globals s) (portId md) then emit (arp_req_send (dstIP md) (portId md)) s else s.

Definition declare_down (i : peer_id) (md : up_peer) (s : up_plane) : up_plane :=
  let s := deinit PT i (deinit TT i (stop PT i (stop TT i s))) in
  let s := emit (update_peer_status (peer_address (dstIP md)) false) s in
  let s := emit (delete_cli_peer (peer_address (dstIP md))) s in
  if (portId md =? S1U_PORT_ID) || (portId md =? SGI_PORT_ID) then
    emit (del_pfcp_peer_node_sess (dstIP md) (portId md)) (del_entry_from_hash (dstIP md) s)
  else if portId md =? SX_PORT_ID then
    emit (del_pfcp_peer_node_sess (dstIP md) SX_PORT_ID) (emit (delete_entry_heartbeat_hash (dstIP md)) s)
  else s.

(** The channel was active since the last expiry. *)
Definition restart_periodic (i : peer_id) (s : up_plane) : up_plane :=
  let s := change i (set_activityFlag 0) s in
  let s := change i (set_itr_cnt 0) s in
  start PT i (stop PT i (stop TT i s)).

(** After a request: a retransmission is counted, a first request starts the transmit
    timer in place of the periodic one. *)
Definition after_request (w : which) (i : peer_id) (md : up_peer) (s : up_plane) : up_plane :=
  match w with
  | TT => emit (update_peer_timeouts (peer_address (dstIP md)) (u8 (itr_cnt md + 1)))
            (change i (set_itr_cnt (u8 (itr_cnt md + 1))) s)
  | PT => stop PT i (start TT i s)
  end.

Definition heartbeat (w : which) (i : peer_id) (md : up_peer) (s : up_plane) : up_plane :=
  let s := match w with
           | TT => s
           | PT => let '(s, n) := generate_seq_no s in
                   on_globals (fun g => set_sent g (gtpu_seqnb g) (gtpu_sgwu_seqnb g) (u16 n) (echo_free g) (rings g)) s
           end in
  after_request w i md (emit (process_pfcp_heartbeat_req (dstIP md) (gtpu_sx_seqnb (globals s))) s).

(** The sequence number of the port. *)
Definition next_echo (w : which) (port : Z) (s : up_plane) : up_plane :=
  match w with
  | TT => s
  | PT =>
      if port =? S1U_PORT_ID then
        on_globals (fun g => set_sent g (u16 (gtpu_seqnb g + 1)) (gtpu_sgwu_seqnb g) (gtpu_sx_seqnb g) (echo_free g) (rings g)) s
      else if port =? SGI_PORT_ID then
        on_globals (fun g => set_sent g (gtpu_seqnb g) (u16 (gtpu_sgwu_seqnb g + 1)) (gtpu_sx_seqnb g) (echo_free g) (rings g)) s
      else s
  end.

Definition echo_seq (port : Z) (s : up_plane) : Z :=
  if port =? S1U_PORT_ID then gtpu_seqnb (globals s) else gtpu_sgwu_seqnb (globals s).

Definition set_ring (port : Z) (v : list bool) (g : up_globals) : up_globals :=
  set_sent g (gtpu_seqnb g) (gtpu_sgwu_seqnb g) (gtpu_sx_seqnb g) (echo_free g)
    (fun p => if p =? port then v else rings g p).
Definition push (port : Z) (of_pool : bool) (g : up_globals) : up_globals :=
  set_ring port (rings g port ++ [of_pool]) g.

(** A packet that does not fit into the ring is not freed. *)
Definition enqueue (md : up_peer) (s : up_plane) : up_plane :=
  if ring_full (globals s) (portId md) then s
  else emit (gtpu_echo_request (dstIP md) (echo_seq (portId md) s) (portId md))
         (on_globals (push (portId md) true) s).

Definition echo (w : which) (i : peer_id) (md : up_peer) (pkt : bool) (s : up_plane) : up_plane :=
  let s := next_echo w (portId md) s in
  if negb pkt then s
  else if (portId md =? S1U_PORT_ID) || (portId md =? SGI_PORT_ID) then after_request w i md (enqueue md s)
  else match w with TT => s | PT => stop PT i (start TT i s) end.

Definition resolved (md : up_peer) : bool :=
  match dst_eth_addr (extra md) with b :: _ => negb (byte_to_Z b =? 0) | [] => false end.

Definition timerCallback (w : which) (i : peer_id) (s : up_plane) : up_plane :=
  match peers s !! i with
  | None => s
  | Some md =>
      let '(s, pkt) := rte_pktmbuf_alloc s in
      let s := change i (set_itr (transmit_cnt s)) s in
      if itr_cnt md =? transmit_cnt s then declare_down i md s
      else if activityFlag md =? 1 then restart_periodic i s
      else if portId md =? SX_PORT_ID then heartbeat w i md s
      else if resolved md then echo w i md pkt s
      else match arp_hash_handle (globals s) (portId md) (peer_address (dstIP md)) with
           | None => arp_request md s
           | Some mac =>
               let x := extra md in
               echo w i md pkt (change i (set_extra (mk_up_fields (rstCnt x) (srcIP x) (src_eth_addr x) mac)) s)
           end
  end.

(** ** New peers *)

Record resources := mk_resources {
  malloc_ok : bool;
  hash_ok : bool;
  pt_ok : bool;
  tt_ok : bool;
  memory : up_fields
}.

Definition no_timer : gstimerinfo_t := mk_timer false ttSingleShot 0 None.

(** The interface's address and link address towards a peer, [None] for a peer that is not
    in its networks; a control plane has none. *)
Definition source (app : app_params) (wb eb : ether_addr) (dstIp : node_address_t) (port : Z) (m : up_fields)
    : option up_fields :=
  let v6 := ip_type dstIp =? PDN_TYPE_IPV6 in
  let with_source (eth : ether_addr) (v4s : option Z) (v6s : option in6_addr) :=
    if v6 then (fun ip => mk_up_fields (rstCnt m) (mk_node_address PDN_TYPE_IPV6 (ipv4_addr (srcIP m)) ip) eth (dst_eth_addr m)) <$> v6s
    else (fun ip => mk_up_fields (rstCnt m) (mk_node_address PDN_TYPE_IPV4 (htonl ip) (ipv6_addr (srcIP m))) eth (dst_eth_addr m)) <$> v4s in
  if port =? S1U_PORT_ID then with_source wb (wb_source app (ntohl (ipv4_addr dstIp))) (wb_source_v6 app (ipv6_addr dstIp))
  else if port =? SGI_PORT_ID then with_source eb (eb_source app (ntohl (ipv4_addr dstIp))) (eb_source_v6 app (ipv6_addr dstIp))
  else Some m.

Definition cli_interface (port : Z) : Z :=
  if port =? S1U_PORT_ID then CLI_S1U else if port =? SGI_PORT_ID then CLI_S5S8 else CLI_SX.

(** The link address of the new peer, or the request for it. *)
Definition link_address (md : up_peer) (s : up_plane) : up_plane * up_peer :=
  if (portId md =? S1U_PORT_ID) || (portId md =? SGI_PORT_ID) then
    match arp_hash_handle (globals s) (portId md) (peer_address (dstIP md)) with
    | None => (arp_request md s, md)
    | Some mac => let x := extra md in (s, set_extra (mk_up_fields (rstCnt x) (srcIP x) (src_eth_addr x) mac) md)
    end
  else (s, md).

Definition add_node_conn_entry (app : app_params) (wb eb : ether_addr) (dstIp : node_address_t) (port : Z) (r : resources)
    (s : up_plane) : up_plane * Z :=
  if negb ((ip_type dstIp =? PDN_TYPE_IPV6) || (ip_type dstIp =? PDN_TYPE_IPV4)) then (s, u8 (-1))
  else match conn_hash s !! dstIp with
  | Some i => (s, 0)
  | None =>
      if negb (malloc_ok r) then (s, u8 (-1))
      else match source app wb eb dstIp port (memory r) with
      | None => (s, u8 (-1))
      | Some x =>
          let i := fresh (dom (peers s)) in
          let '(s, md) := link_address (mk_peer port 0 (transmit_cnt s) 0 dstIp 0 no_timer no_timer x) s in
          if negb (hash_ok r) then (s, u8 (-1))
          else
            let '(ok, md) := initpeerData (pt_ok r) (tt_ok r)
                               (swrap 32 (periodic_timer s * 1000)) (swrap 32 (transmit_timer s * 1000)) md in
            let s := set_conn_hash (<[dstIp := i]> (conn_hash s)) (set_peers (<[i := md]> (peers s)) s) in
            if negb ok then (s, u8 (-1))
            else
              let s := emit (add_cli_peer (peer_address dstIp) (cli_interface port)) s in
              let s := emit (update_peer_status (peer_address dstIp) true) s in
              let s := start PT i s in
              (set_conn_cnt (swrap 32 (conn_cnt s + 1)) s, 0)
      end
  end.

(** ** Messages *)

(** [process_echo_response] of epc_arp.c. *)
Definition process_echo_response (a : node_address_t) (s : up_plane) : up_plane :=
  match conn_hash s !! a with
  | None => s
  | Some i =>
      let s := change i (set_itr_cnt 0) s in
      let s := emit (update_peer_timeouts (peer_address a) 0) s in
      let s := change i (set_activityFlag 0) s in
      start PT i (stop PT i (stop TT i s))
  end.

(** [check_activity] of epc_ul.c and epc_dl.c. *)
Definition check_activity (a : node_address_t) (s : up_plane) : up_plane :=
  match conn_hash s !! a with
  | None => s
  | Some i => change i (set_activityFlag 1) s
  end.

Definition PKT_BURST_SZ : nat := 32.

(** The packets of [echo_mpool] in a part of a ring. *)
Definition ours (l : list bool) : Z := Z.of_nat (length (List.filter id l)).

(** The loop that empties a ring, with the packets that the port takes at each turn: how
    often a packet of [echo_mpool] is freed, by the port and by the code, which always
    frees from the first packet on. *)
Fixpoint drain_loop (tx : list nat) (pkts : list bool) (pkt_indx rx_cnt : nat) : option Z :=
  match tx with
  | [] => if (rx_cnt =? 0)%nat then Some 0 else None
  | tx_cnt :: tx =>
      let pkt_cnt := Nat.min rx_cnt PKT_BURST_SZ in
      if (rx_cnt =? 0)%nat || (pkt_cnt <? tx_cnt)%nat then None else
      n ← drain_loop tx pkts (pkt_indx + tx_cnt) (rx_cnt - tx_cnt);
      Some (ours (take tx_cnt (drop pkt_indx pkts)) + ours (take pkt_cnt pkts) + n)
  end.

(** The end of [epc_dl] and of [epc_ul]. *)
Definition drain_ring (port : Z) (tx : list nat) (s : up_plane) : option up_plane :=
  let pkts := rings (globals s) port in
  n ← drain_loop tx pkts 0 (length pkts);
  Some (on_globals (fun g => set_sent (set_ring port [] g) (gtpu_seqnb g) (gtpu_sgwu_seqnb g) (gtpu_sx_seqnb g)
    (echo_free g + n) (rings (set_ring port [] g))) s).

(** Without a packet the code writes to a null pointer. *)
Definition build_endmarker_and_send (s : up_plane) : option up_plane :=
  let '(s', pkt) := rte_pktmbuf_alloc s in
  if negb pkt then None
  else if ring_full (globals s') S1U_PORT_ID then Some s
  else Some (on_globals (push S1U_PORT_ID true) s').

Section Messages.
Context (app : app_params) (wb eb : ether_addr).

(** What reaches the peers: a PFCP message or an echo response of a peer, a user's
    packet from it, a rule or an association with a new peer, the ring of a port that is
    drained, with what the port takes at each turn of the loop, an end marker, a packet
    from elsewhere in a ring, the arrival of link addresses, the operator. *)
Inductive message :=
| from_peer (a : node_address_t)
| echo_response (a : node_address_t)
| activity (a : node_address_t)
| new_peer (a : node_address_t) (port : Z) (r : resources)
| drained (port : Z) (tx : list nat)
| end_marker
| other_packet (port : Z)
| network (full : Z -> bool) (arp : Z -> peer_address_t -> option ether_addr) (open : Z -> bool)
| periodic (v : Z)
| transmit (v : Z)
| count (v : Z).

Definition handle (m : message) (s : up_plane) : option up_plane :=
  match m with
  | from_peer a => Some (process_response a s)
  | echo_response a => Some (process_echo_response a s)
  | activity a => Some (check_activity a s)
  | new_peer a port r => Some (add_node_conn_entry app wb eb a port r s).1
  | drained port tx => if (port =? S1U_PORT_ID) || (port =? SGI_PORT_ID) then drain_ring port tx s else None
  | end_marker => build_endmarker_and_send s
  | other_packet port => Some (on_globals (push port false) s)
  | network full arp open =>
      Some (on_globals (fun g => mk_up_globals (gtpu_seqnb g) (gtpu_sgwu_seqnb g) (gtpu_sx_seqnb g) (echo_free g) (rings g) full arp open) s)
  | periodic v => Some (update_periodic_timer_value v s)
  | transmit v => Some (update_transmit_timer_value v s)
  | count v => Some (post_transmit_count v s)
  end.
End Messages.

(** ** The operations touch one peer *)

(** Steps that leave the timers and the table alone. *)
Record quiet (s s' : up_plane) : Prop := mk_quiet {
  quiet_peers : peers s' = peers s;
  quiet_hash : conn_hash s' = conn_hash s;
  quiet_now : now s' = now s;
  quiet_count : transmit_cnt s' = transmit_cnt s;
  quiet_calls : suffix (calls s) (calls s')
}.

#[export] Instance quiet_preorder : PreOrder quiet.
Proof.
  split; [by split|]. intros s1 s2 s3 [a1 a2 a3 a4 a5] [b1 b2 b3 b4 b5]. split; try congruence. by etransitivity.
Qed.

Lemma quiet_touches i s s' : quiet s s' -> touches i s s'.
Proof. intros [a1 a2 a3 a4 a5]. split; rewrite ?a1, ?a2; done. Qed.

Lemma quiet_emit c s : quiet s (emit c s).
Proof. split; try done. by apply suffix_cons_r. Qed.

Lemma quiet_globals f s : quiet s (on_globals f s).
Proof. by split. Qed.

Lemma quiet_alloc s : quiet s (rte_pktmbuf_alloc s).1.
Proof. unfold rte_pktmbuf_alloc. case_match; [apply quiet_globals|done]. Qed.

Lemma quiet_drain port tx s s' : drain_ring port tx s = Some s' -> quiet s s'.
Proof. unfold drain_ring. destruct (drain_loop _ _ _ _); [|done]. intros [= <-]. apply quiet_globals. Qed.

Lemma quiet_endmarker s s' : build_endmarker_and_send s = Some s' -> quiet s s'.
Proof.
  unfold build_endmarker_and_send. pose proof (quiet_alloc s) as Hq. destruct (rte_pktmbuf_alloc s) as [s1 []];
    cbn [negb]; [|done]. case_match; intros [= <-]; [done|]. etransitivity; [exact Hq|apply quiet_globals].
Qed.

Lemma quiet_arp md s : quiet s (arp_request md s).
Proof. unfold arp_request. case_match; [apply quiet_emit|done]. Qed.

Lemma quiet_next_echo w port s : quiet s (next_echo w port s).
Proof. unfold next_echo. destruct w; [|done]. repeat case_match; try done; apply quiet_globals. Qed.

Lemma quiet_enqueue md s : quiet s (enqueue md s).
Proof. unfold enqueue. case_match; [done|]. etransitivity; [apply quiet_globals|apply quiet_emit]. Qed.

Lemma touches_declare i md s : touches i s (declare_down i md s).
Proof. unfold declare_down. repeat case_match; touch. Qed.

Lemma touches_after_request w i md s : touches i s (after_request w i md s).
Proof. unfold after_request. destruct w; touch. Qed.

Lemma touches_heartbeat w i md s : touches i s (heartbeat w i md s).
Proof.
  unfold heartbeat. etransitivity; [|apply touches_after_request]. etransitivity; [|apply touches_emit].
  destruct w; [|done]. by split.
Qed.

Lemma touches_echo w i md pkt s : touches i s (echo w i md pkt s).
Proof.
  unfold echo. etransitivity; [apply (quiet_touches i), (quiet_next_echo w (portId md))|].
  destruct pkt; cbn; [|done]. case_match.
  - etransitivity; [apply (quiet_touches i), (quiet_enqueue md)|apply touches_after_request].
  - destruct w; touch.
Qed.

Lemma up_touches_callback w i s : touches i s (timerCallback w i s).
Proof.
  unfold timerCallback. destruct (peers s !! i) as [md|]; [|done].
  pose proof (quiet_alloc s) as Hq. destruct (rte_pktmbuf_alloc s) as [s1 pkt]. cbn in Hq.
  etransitivity; [by apply (quiet_touches i)|].
  etransitivity; [by apply (touches_change i (set_itr (transmit_cnt s1)))|].
  repeat case_match.
  - apply touches_declare.
  - unfold restart_periodic. touch.
  - apply touches_heartbeat.
  - apply touches_echo.
  - etransitivity; [|apply touches_echo]. by apply touches_change.
  - apply quiet_touches, quiet_arp.
Qed.

Lemma up_touches_expire w i s : touches i s (expire timerCallback w i s).
Proof. unfold expire. etransitivity; [apply touches_timer|apply up_touches_callback]. Qed.

(** ** Messages *)

Lemma quiet_link md s : quiet s (link_address md s).1.
Proof. unfold link_address. repeat case_match; cbn; try done. apply quiet_arp. Qed.

Lemma link_dst md s : dstIP (link_address md s).2 = dstIP md.
Proof. unfold link_address. by repeat case_match. Qed.

Lemma quiet_enters a s s1 s' : quiet s s1 -> enters a s1 s' -> enters a s s'.
Proof.
  intros [a1 a2 a3 a4 a5] [b1 (md & b2 & b2') b3 b4 b5 b6]. rewrite a1, a2 in *. split; try congruence; eauto.
  - by etransitivity.
Qed.

Lemma touches_echo_response a s : exists i, touches i s (process_echo_response a s) /\
  (conn_hash s !! a = Some i \/ process_echo_response a s = s).
Proof.
  unfold process_echo_response. destruct (conn_hash s !! a) as [i|]; [exists i|exists 0%nat]; split; auto; touch.
Qed.

Lemma touches_activity a s : exists i, touches i s (check_activity a s) /\
  (conn_hash s !! a = Some i \/ check_activity a s = s).
Proof.
  unfold check_activity. destruct (conn_hash s !! a) as [i|]; [exists i|exists 0%nat]; split; auto; touch.
Qed.

Section Laws.
Context (app : app_params) (wb eb : ether_addr).
Abbreviation handle := (handle app wb eb).

Lemma up_add_node_conn_entry_cases a port r s :
  let s' := (add_node_conn_entry app wb eb a port r s).1 in quiet s s' \/ enters a s s'.
Proof.
  unfold add_node_conn_entry. case_match; [left; cbn; reflexivity|].
  destruct (conn_hash s !! a) as [i|] eqn:Ha; [left; cbn; reflexivity|]. case_match; [left; cbn; reflexivity|].
  destruct (source _ _ _ _ _ _) as [x|]; [|left; cbn; reflexivity].
  set (md0 := mk_peer port 0 _ 0 a 0 no_timer no_timer x).
  pose proof (quiet_link md0 s) as Hq. pose proof (link_dst md0 s) as Hd.
  destruct (link_address md0 s) as [s1 md1]. cbn in Hq, Hd.
  destruct (hash_ok r); cbn [negb]; [|by left].
  pose proof (initpeerData_dst (pt_ok r) (tt_ok r) (swrap 32 (periodic_timer s1 * 1000)) (swrap 32 (transmit_timer s1 * 1000)) md1) as Hd1.
  destruct (initpeerData _ _ _ _ _) as [ok md]. cbn in Hd1. rewrite Hd in Hd1. cbn in Hd1. right.
  assert (conn_hash s1 !! a = None) as Ha1 by (by rewrite (quiet_hash _ _ Hq)).
  rewrite <- (quiet_peers _ _ Hq). destruct ok; cbn.
  - apply (quiet_enters a s s1); [done|]. split; cbn; try done; [|by right|by do 2 apply suffix_cons_r].
    exists (on_timer PT (started (now s1)) md). split; [done|].
    apply map_eq. intros j. destruct (decide (j = fresh (dom (peers s1)))) as [->|Hj].
    + by rewrite lookup_alter_eq, !lookup_insert_eq.
    + by rewrite lookup_alter_ne, !lookup_insert_ne.
  - apply (quiet_enters a s s1); [done|]. split; cbn; try done; eauto.
Qed.

Lemma handle_cases m s s' : handle m s = Some s' ->
  quiet s s' \/
  (exists a i, (m = from_peer a \/ m = echo_response a \/ m = activity a) /\ conn_hash s !! a = Some i /\ touches i s s') \/
  (exists a port r, m = new_peer a port r /\ enters a s s') \/
  (exists f v s1, (m = periodic v \/ m = transmit v) /\ (forall md : up_peer, dstIP (f md) = dstIP md) /\
     quiet s s1 /\ s' = update_all f s1) \/
  (exists v, m = count v /\ s' = post_transmit_count v s).
Proof.
  destruct m as [a|a|a|a port r|port tx| |port|full arp open|v|v|v]; cbn; intros H.
  - injection H as <-. destruct (touches_from_peer a s) as (i & Ht & [Hi | ->]); [right; left; eauto 10|by left].
  - injection H as <-. destruct (touches_echo_response a s) as (i & Ht & [Hi | ->]); [right; left; eauto 10|by left].
  - injection H as <-. destruct (touches_activity a s) as (i & Ht & [Hi | ->]); [right; left; eauto 10|by left].
  - injection H as <-. destruct (up_add_node_conn_entry_cases a port r s) as [Hq|Hq]; [left; exact Hq|]. right. right. left. by exists a, port, r.
  - left. case_match; [|done]. by eapply quiet_drain.
  - left. by eapply quiet_endmarker.
  - injection H as <-. left. apply quiet_globals.
  - injection H as <-. left. apply quiet_globals.
  - injection H as <-. right. right. right. left. eexists (update_ms PT _ _), v, (set_periodic_timer v s).
    split_and!; [by left|apply update_ms_dst|by split|done].
  - injection H as <-. right. right. right. left. eexists (update_ms TT _ _), v, (set_transmit_timer v s).
    split_and!; [by right|apply update_ms_dst|by split|done].
  - injection H as <-. right. right. right. right. eauto.
Qed.
End Laws.

(** ** A control plane's path *)

(** The peers with heartbeats; a control plane sends no user packets. *)
Definition probed (md : up_peer) : Prop := portId md = SX_PORT_ID /\ activityFlag md <> 1.

Definition spares (m : message) (md : up_peer) : Prop :=
  match m with
  | from_peer a | echo_response a | activity a | new_peer a _ _ => a <> dstIP md
  | drained _ _ | end_marker | other_packet _ | network _ _ _ => True
  | periodic _ | transmit _ | count _ => False
  end.

(** The table keeps a control plane that is down. *)
Definition removed (s : up_plane) (md : up_peer) : Prop := True.

Lemma peers_after_request w i md s :
  peers (after_request w i md s) !! i = match w with
    | TT => set_itr_cnt (u8 (itr_cnt md + 1)) <$> peers s !! i
    | PT => on_timer PT stopTimer <$> (on_timer TT (started (now s)) <$> peers s !! i) end.
Proof.
  destruct w; cbn [after_request].
  - unfold stop, start. by rewrite !peers_change.
  - change (peers (emit _ ?s)) with (peers s). by rewrite peers_change.
Qed.

Lemma callback_heartbeat w i md s : peers s !! i = Some md -> probed md -> itr_cnt md <> transmit_cnt s ->
  peers (timerCallback w i s) !! i = Some match w with
    | TT => set_itr_cnt (u8 (itr_cnt md + 1)) (set_itr (transmit_cnt s) md)
    | PT => on_timer PT stopTimer (on_timer TT (started (now s)) (set_itr (transmit_cnt s) md)) end.
Proof.
  intros Hi [Hp Hf] Hne. unfold timerCallback. rewrite Hi.
  pose proof (quiet_alloc s) as Hq. destruct (rte_pktmbuf_alloc s) as [s1 pkt]. cbn in Hq.
  destruct Hq as [H1 _ H3 H4 _]. change (transmit_cnt (change i ?f ?s)) with (transmit_cnt s).
  rewrite H4, (proj2 (Z.eqb_neq _ _) Hne), (proj2 (Z.eqb_neq _ _) Hf), Hp. cbn [Z.eqb SX_PORT_ID Pos.eqb].
  unfold heartbeat. rewrite peers_after_request. destruct w; cbn [generate_seq_no].
  - change (peers (emit _ (on_globals _ (set_pfcp_seq_no_offset _ ?s)))) with (peers s).
    rewrite peers_change, H1, Hi. cbn. by rewrite H3.
  - change (peers (emit _ ?s)) with (peers s). rewrite peers_change, H1, Hi. done.
Qed.

Lemma up_callback_down w i md s : peers s !! i = Some md -> itr_cnt md = transmit_cnt s ->
  let s' := timerCallback w i s in
  peers s' !! i = Some (on_timer PT deinitTimer (on_timer TT deinitTimer (on_timer PT stopTimer (on_timer TT stopTimer
                    (set_itr (transmit_cnt s) md))))) /\
  update_peer_status (peer_address (dstIP md)) false ∈ calls s' /\
  (portId md = SX_PORT_ID -> conn_hash s' = conn_hash s).
Proof.
  intros Hi He s'. subst s'. unfold timerCallback. rewrite Hi.
  pose proof (quiet_alloc s) as Hq. destruct (rte_pktmbuf_alloc s) as [s1 pkt]. cbn in Hq.
  destruct Hq as [H1 H2 _ H4 _]. change (transmit_cnt (change i ?f ?s)) with (transmit_cnt s).
  rewrite H4, (proj2 (Z.eqb_eq _ _) He). unfold declare_down.
  set (s2 := deinit PT i _).
  assert (peers s2 !! i = Some (on_timer PT deinitTimer (on_timer TT deinitTimer (on_timer PT stopTimer
            (on_timer TT stopTimer (set_itr (transmit_cnt s) md)))))) as Hs2.
  { unfold s2, deinit, stop. rewrite !peers_change, H1, Hi. done. }
  assert (conn_hash s2 = conn_hash s) as Hh by done.
  clearbody s2. repeat case_match; (split_and!; [done|set_solver|try done]).
  all: intros Hx; exfalso; rewrite Hx in *; done.
Qed.

Lemma up_handle_calls_grow app wb eb m s s' : handle app wb eb m s = Some s' -> suffix (calls s) (calls s').
Proof.
  intros H. apply handle_cases in H as [H|[(a & i & _ & _ & H)|[(a & port & r & _ & H)|[(f & u & s1 & _ & Hf & H & ->)|(v & _ & ->)]]]].
  - apply H.
  - by apply (touches_calls i).
  - by apply (enters_calls a).
  - apply H.
  - done.
Qed.

#[export] Instance up_monitor app wb eb :
  PathMonitor timerCallback (handle app wb eb) peer_address conn_wf probed spares removed.
Proof.
  split.
  - done.
  - done.
  - intros s w i. apply (touches_wf i), up_touches_expire.
  - intros s w i. split; [apply (touches_now i), up_touches_expire|apply (touches_count i), up_touches_expire].
  - intros s w i. apply (touches_calls i), up_touches_expire.
  - intros s w i j Hne. by apply (touches_other j _ _ (up_touches_expire w j s)).
  - done.
  - intros s w i md Hi Hp He.
    destruct (up_callback_down w i (on_timer w expired md) (change i (on_timer w expired) s)) as (H1 & H2 & _).
    + by rewrite peers_change, Hi.
    + by destruct w.
    + eexists. split; [exact H1|]. destruct w; (split_and!; [by split|done|exact H2|done]).
  - intros s i md Hi Hp He. eexists. split.
    + apply (callback_heartbeat PT i (on_timer PT expired md)); [by rewrite peers_change, Hi|done|done].
    + by split_and!.
  - intros s i md Hi Hp He. eexists. split.
    + apply (callback_heartbeat TT i (on_timer TT expired md)); [by rewrite peers_change, Hi|done|done].
    + by split_and!.
  - intros s m s' Hwf H. apply handle_cases in H as [H|[(a & i & _ & _ & H)|[(a & port & r & _ & H)|[(f & u & s1 & _ & Hf & H & ->)|(v & _ & ->)]]]].
    + by apply (touches_wf 0 s), Hwf; apply quiet_touches.
    + by apply (touches_wf i s).
    + by apply (enters_wf a s).
    + apply update_all_wf; [done|]. by apply (touches_wf 0 s), Hwf; apply quiet_touches.
    + done.
  - intros s m s'. apply up_handle_calls_grow.
  - intros s m s' i md Hwf H Hi Hs. unfold removed.
    apply handle_cases in H as [[-> _ -> -> _]|[(a & j & Hm & Ha & H)|[(a & port & r & -> & H)|[(f & v & s1 & Hm & _)|(v & -> & _)]]]].
    + done.
    + eapply (touches_spares a j s s' i md) in H as (H1 & H2 & H3 & _); [done|done|done| |done]. by destruct Hm as [-> |[-> | ->]].
    + eapply (enters_spares a s s' i md) in H as (H1 & H2 & H3 & _); done.
    + exfalso. by destruct Hm as [-> | ->].
    + done.
Qed.

(** ** A control plane that is down once *)

(** The table leads to a peer whose timers are deleted, and no other peer has its address. *)
Definition abandoned (a : node_address_t) (i : peer_id) (s : up_plane) : Prop :=
  conn_hash s !! a = Some i /\
  (exists md, peers s !! i = Some md /\ dstIP md = a /\ timers_deleted md) /\
  forall j md, peers s !! j = Some md -> dstIP md = a -> j = i.

Definition keeps_deleted (f : up_peer -> up_peer) : Prop :=
  forall md, dstIP (f md) = dstIP md /\ (timers_deleted md -> timers_deleted (f md)).

Lemma deleted_timer w (md : up_peer) : timers_deleted md -> timer_of w md = gst_timer_deinit (timer_of w md).
Proof. intros [? ?]. by destruct w. Qed.

Lemma started_deleted now ti : ti = gst_timer_deinit ti -> started now ti = ti.
Proof. intros ->. done. Qed.

Lemma keeps_on_timer w f : (forall ti, ti = gst_timer_deinit ti -> f ti = gst_timer_deinit (f ti)) -> keeps_deleted (on_timer w f).
Proof. intros Hf md. destruct w; (split; [done|]); intros [H1 H2]; (split; [|]); cbn; auto. Qed.

Lemma keeps_start w now : keeps_deleted (on_timer w (started now)).
Proof. apply keeps_on_timer. intros ti H. by rewrite (started_deleted now ti H). Qed.

Lemma keeps_stop w : keeps_deleted (on_timer w stopTimer).
Proof. apply keeps_on_timer. by intros ti ->. Qed.

Lemma keeps_update_ms w ms now : keeps_deleted (update_ms w ms now).
Proof.
  intros md. split; [apply update_ms_dst|]. intros Hd. pose proof (deleted_timer w md Hd) as Hw. destruct Hd as [H1 H2].
  unfold update_ms. destruct (timer_of w md) as [id ty m v]. injection Hw as -> ->. cbn.
  destruct w; split; cbn; try done; by case_match.
Qed.

Lemma keeps_field f : (forall md, dstIP (f md) = dstIP md /\ pt (f md) = pt md /\ tt (f md) = tt md) -> keeps_deleted f.
Proof. intros Hf md. destruct (Hf md) as (H1 & H2 & H3). split; [done|]. intros [H4 H5]. by split; rewrite ?H2, ?H3. Qed.

Lemma abandoned_change a i j f s : keeps_deleted f -> abandoned a i s -> abandoned a i (change j f s).
Proof.
  intros Hf (Hh & (md & Hi & Hd & Ht) & Hu). split_and!; [done| |].
  - cbn. destruct (decide (j = i)) as [->|Hne].
    + rewrite lookup_alter_eq, Hi. eexists. split; [done|]. destruct (Hf md) as [-> Hkeep]. auto.
    + rewrite lookup_alter_ne by done. eauto.
  - intros k mdk Hk Hdk. cbn in Hk. destruct (decide (j = k)) as [->|Hne].
    + rewrite lookup_alter_eq in Hk. destruct (peers s !! k) as [mdk'|] eqn:Hk'; [|done]. injection Hk as <-.
      apply (Hu k mdk' Hk'). by rewrite <- (proj1 (Hf mdk')).
    + rewrite lookup_alter_ne in Hk by done. by apply (Hu k mdk).
Qed.

Lemma abandoned_quiet a i s s' : quiet s s' -> abandoned a i s -> abandoned a i s'.
Proof. intros [H1 H2 _ _ _] H. unfold abandoned in *. by rewrite H1, H2. Qed.

Lemma abandoned_restart a i j s : abandoned a i s -> abandoned a i (start PT j (stop PT j (stop TT j s))).
Proof.
  intros H. unfold start, stop. apply abandoned_change; [apply keeps_start|].
  apply abandoned_change; [apply keeps_stop|]. by apply abandoned_change; [apply keeps_stop|].
Qed.

Lemma abandoned_response a i b s : abandoned a i s -> abandoned a i (process_response b s).
Proof.
  intros H. unfold process_response. destruct (conn_hash s !! b) as [j|]; [|done]. apply abandoned_restart.
  assert (abandoned a i (change j (set_itr_cnt 0) s)) as H1 by (apply abandoned_change; [by apply keeps_field|done]).
  by destruct (peers (change j (set_itr_cnt 0) s) !! j).
Qed.

Lemma abandoned_echo a i b s : abandoned a i s -> abandoned a i (process_echo_response b s).
Proof.
  intros H. unfold process_echo_response. destruct (conn_hash s !! b) as [j|]; [|done]. apply abandoned_restart.
  apply abandoned_change; [by apply keeps_field|]. apply (abandoned_quiet _ _ _ _ (quiet_emit _ _)).
  by apply abandoned_change; [apply keeps_field|].
Qed.

Lemma abandoned_enters a i b s s' : enters b s s' -> abandoned a i s -> abandoned a i s'.
Proof.
  intros [Hn (mdn & Hd & Hp) Hh _ _ _] (Ha & (md & Hi & Hdi & Ht) & Hu).
  assert (b <> a) as Hba by congruence.
  assert (fresh (dom (peers s)) <> i) as Hf.
  { intros E. apply (is_fresh (dom (peers s))). rewrite E. by apply elem_of_dom. }
  split_and!.
  - destruct Hh as [-> | ->]; [done|]. by rewrite lookup_insert_ne.
  - exists md. rewrite Hp, lookup_insert_ne by done. done.
  - intros j mdj. rewrite Hp, lookup_insert_Some. intros [[_ <-]|[_ Hj]] Hdj; [congruence|by apply (Hu j mdj)].
Qed.

Lemma abandoned_update a i f s : keeps_deleted f -> abandoned a i s -> abandoned a i (update_all f s).
Proof.
  intros Hf (Hh & (md & Hi & Hd & Ht) & Hu). split_and!; [done| |].
  - cbn. rewrite map_lookup_imap, Hi. cbn. eexists. split; [done|].
    case_bool_decide; [destruct (Hf md) as [-> Hk]; auto|done].
  - intros j mdj. cbn. rewrite map_lookup_imap. destruct (peers s !! j) as [mdj'|] eqn:Hj; [|done]. cbn.
    intros [= <-] Hdj. apply (Hu j mdj' Hj). case_bool_decide; [by rewrite <- (proj1 (Hf mdj'))|done].
Qed.

Section Abandoned.
Context (app : app_params) (wb eb : ether_addr).

Lemma abandoned_message a i m s s' : handle app wb eb m s = Some s' -> abandoned a i s -> abandoned a i s'.
Proof.
  intros H Ha. destruct m as [b|b|b|b port r|port tx| |port|full arp open|v|v|v]; cbn in H.
  - injection H as <-. by apply abandoned_response.
  - injection H as <-. by apply abandoned_echo.
  - injection H as <-. unfold check_activity. destruct (conn_hash s !! b); [|done].
    by apply abandoned_change; [apply keeps_field|].
  - injection H as <-. destruct (up_add_node_conn_entry_cases app wb eb b port r s) as [Hq|Hq];
      [by eapply abandoned_quiet|by eapply abandoned_enters].
  - case_match; [|done]. by apply (abandoned_quiet _ _ _ _ (quiet_drain _ _ _ _ H)).
  - by apply (abandoned_quiet _ _ _ _ (quiet_endmarker _ _ H)).
  - injection H as <-. by apply (abandoned_quiet _ _ _ _ (quiet_globals _ _)).
  - injection H as <-. by apply (abandoned_quiet _ _ _ _ (quiet_globals _ _)).
  - injection H as <-. apply abandoned_update; [apply keeps_update_ms|done].
  - injection H as <-. apply abandoned_update; [apply keeps_update_ms|done].
  - by injection H as <-.
Qed.

Lemma hash_after_request w i md s : conn_hash (after_request w i md s) = conn_hash s.
Proof. by destruct w. Qed.

Lemma hash_echo w i md pkt s : conn_hash (echo w i md pkt s) = conn_hash s.
Proof.
  unfold echo. rewrite <- (quiet_hash _ _ (quiet_next_echo w (portId md) s)). destruct pkt; cbn; [|done]. case_match.
  - by rewrite hash_after_request, (quiet_hash _ _ (quiet_enqueue md _)).
  - by destruct w.
Qed.

(** The callback of another peer keeps the entry. *)
Lemma callback_hash w j md s a : peers s !! j = Some md -> dstIP md <> a ->
  conn_hash (timerCallback w j s) !! a = conn_hash s !! a.
Proof.
  intros Hj Hne. unfold timerCallback. rewrite Hj.
  pose proof (quiet_alloc s) as Hq. destruct (rte_pktmbuf_alloc s) as [s1 pkt]. cbn in Hq.
  rewrite <- (quiet_hash _ _ Hq). repeat case_match.
  - unfold declare_down. repeat case_match; cbn; try done. by rewrite lookup_delete_ne.
  - done.
  - unfold heartbeat. rewrite hash_after_request. by destruct w.
  - by rewrite hash_echo.
  - by rewrite hash_echo.
  - by rewrite (quiet_hash _ _ (quiet_arp md _)).
Qed.

Lemma abandoned_expire a i w j md d s :
  peers s !! j = Some md -> deadline w md = Some d -> abandoned a i s -> abandoned a i (expire timerCallback w j s).
Proof.
  intros Hj Hd (Hh & (mdi & Hi & Hdi & Ht) & Hu).
  assert (j <> i) as Hne.
  { intros ->. assert (md = mdi) as -> by congruence. unfold deadline in Hd. rewrite (deleted_timer w mdi Ht) in Hd. done. }
  pose proof (up_touches_expire w j s) as Hx. split_and!.
  - rewrite <- Hh. unfold expire. rewrite (callback_hash w j (on_timer w expired md)); [done|by rewrite peers_change, Hj|].
    destruct w; cbn; intros E; by apply Hne, (Hu j md).
  - exists mdi. by rewrite (touches_other j _ _ Hx).
  - intros k mdk Hk Hdk. destruct (decide (j = k)) as [<-|Hjk].
    + pose proof (touches_dst j _ _ Hx) as E. rewrite Hk, Hj in E. injection E as E. apply (Hu j md); [done|congruence].
    + rewrite (touches_other j _ _ Hx) in Hk by done. by apply (Hu k mdk).
Qed.

Lemma abandoned_run a i s es s' : run timerCallback (handle app wb eb) s es s' -> abandoned a i s -> abandoned a i s'.
Proof.
  intros Hr Ha. induction Hr as [|es s1 e s2 Hr IH Hst]; [done|].
  destruct Hst as [t Ht Hin|j md w d Hj Hd Hle|m s2 Hm].
  - done.
  - by apply (abandoned_expire a i w j md d).
  - by eapply abandoned_message.
Qed.

(** A control plane that the user plane has declared down is not monitored again.  The
    connection table keeps its entry, with the timers deleted: whatever happens later, a
    new association does not change the table, and no timer of the peer is ever armed. *)
Theorem control_plane_not_monitored_again s i (md : up_peer) w d a es s' :
  peers s !! i = Some md -> dstIP md = a -> portId md = SX_PORT_ID -> conn_hash s !! a = Some i ->
  (forall j md', peers s !! j = Some md' -> dstIP md' = a -> j = i) ->
  deadline w md = Some d -> itr_cnt md = transmit_cnt s ->
  run timerCallback (handle app wb eb) (expire timerCallback w i s) es s' ->
  update_peer_status (peer_address a) false ∈ calls s' /\
  (forall port r, (add_node_conn_entry app wb eb a port r s').1 = s') /\
  exists md', peers s' !! i = Some md' /\ dstIP md' = a /\ deadline PT md' = None /\ deadline TT md' = None.
Proof.
  intros Hi Hd Hp Hh Hu _ Hc Hr.
  destruct (up_callback_down w i (on_timer w expired md) (change i (on_timer w expired) s)) as (H1 & H2 & H3);
    [by rewrite peers_change, Hi|by destruct w|].
  assert (abandoned a i (expire timerCallback w i s)) as Hab.
  { pose proof (up_touches_expire w i s) as Hx. split_and!.
    - unfold expire. rewrite H3; [done|by destruct w].
    - eexists. split; [exact H1|]. by destruct w.
    - intros k mdk Hk Hdk. destruct (decide (i = k)) as [<-|Hik]; [done|].
      rewrite (touches_other i _ _ Hx) in Hk by done. by apply (Hu k mdk). }
  assert (update_peer_status (peer_address a) false ∈ calls (expire timerCallback w i s)) as Hcall.
  { rewrite <- Hd. by destruct w. }
  apply (abandoned_run _ _ _ _ _ Hr) in Hab as (Ha & (md' & Hi' & Hd' & Ht) & _). split_and!.
  - clear - Hr Hcall. induction Hr as [|es s1 e s2 Hr IH Hst]; [done|]. apply (elem_suffix _ _ _ IH).
    destruct Hst as [t Ht Hin|j mdj w' d' Hj Hdj Hle|m s2 Hm]; [done|apply (touches_calls j), up_touches_expire|].
    by eapply up_handle_calls_grow.
  - intros port r. unfold add_node_conn_entry. case_match; [done|]. by rewrite Ha.
  - exists md'. destruct Ht as [Hpt Htt]. split_and!; [done|done| |]; unfold deadline; cbn; [by rewrite Hpt|by rewrite Htt].
Qed.
End Abandoned.

(** ** The packets of the echo requests *)

(** The packets of [echo_mpool] that are in a ring, and those that are free or in a ring. *)
Definition queued (s : up_plane) : Z := ours (rings (globals s) S1U_PORT_ID) + ours (rings (globals s) SGI_PORT_ID).
Definition echo_packets (s : up_plane) : Z := echo_free (globals s) + queued s.

Definition pool_ok (s : up_plane) : Prop := 0 <= echo_free (globals s).

Lemma ours_app l k : ours (l ++ k) = ours l + ours k.
Proof. unfold ours. rewrite List.filter_app, length_app. lia. Qed.

Lemma ours_nonneg l : 0 <= ours l.
Proof. unfold ours. lia. Qed.

Lemma queued_nonneg s : 0 <= queued s.
Proof. unfold queued. pose proof (ours_nonneg (rings (globals s) S1U_PORT_ID)).
  pose proof (ours_nonneg (rings (globals s) SGI_PORT_ID)). lia. Qed.

Lemma queued_push port b s : port = S1U_PORT_ID \/ port = SGI_PORT_ID ->
  queued (on_globals (push port b) s) = queued s + (if b then 1 else 0).
Proof.
  intros [-> | ->]; unfold queued, push, set_ring; cbn [rings set_sent globals on_globals set_globals];
    unfold S1U_PORT_ID, SGI_PORT_ID; cbn [Z.eqb Pos.eqb]; rewrite ours_app;
    (destruct b; [change (ours [true]) with 1|change (ours [false]) with 0]); lia.
Qed.

Lemma ours_split n l : ours (take n l) + ours (drop n l) = ours l.
Proof. rewrite <- ours_app. by rewrite take_drop. Qed.

Lemma drain_loop_none tx pkts i n k : ours pkts = 0 -> drain_loop tx pkts i n = Some k -> k = 0.
Proof.
  intros H. assert (forall a b, ours (take a (drop b pkts)) = 0) as Hz.
  { intros a b. pose proof (ours_split b pkts). pose proof (ours_split a (drop b pkts)).
    pose proof (ours_nonneg (take b pkts)). pose proof (ours_nonneg (take a (drop b pkts))).
    pose proof (ours_nonneg (drop a (drop b pkts))). lia. }
  revert i n k. induction tx as [|t tx IH]; intros i n k; cbn [drain_loop].
  - destruct (n =? 0)%nat; [|done]. by intros [= <-].
  - destruct (_ || _); [done|]. destruct (drain_loop tx _ _ _) as [k'|] eqn:E; [|done]. cbn.
    intros [= <-]. apply IH in E as ->. rewrite Hz. specialize (Hz (Nat.min n PKT_BURST_SZ) 0%nat). rewrite drop_0 in Hz. lia.
Qed.

Lemma drain_loop_nonneg tx pkts i n k : drain_loop tx pkts i n = Some k -> 0 <= k.
Proof.
  revert i n k. induction tx as [|t tx IH]; intros i n k; cbn [drain_loop].
  - destruct (n =? 0)%nat; [|done]. by intros [= <-].
  - destruct (_ || _); [done|]. destruct (drain_loop tx _ _ _) as [k'|] eqn:E; [|done]. cbn.
    intros [= <-]. apply IH in E. pose proof (ours_nonneg (take t (drop i pkts))).
    pose proof (ours_nonneg (take (Nat.min n PKT_BURST_SZ) pkts)). lia.
Qed.

Definition is_echo (c : call_t) : Prop := match c with gtpu_echo_request _ _ _ => True | _ => False end.

(** Neither the packets nor the echo requests change. *)
Record thrifty (s s' : up_plane) : Prop := mk_thrifty {
  thrifty_free : echo_free (globals s') = echo_free (globals s);
  thrifty_ring : rings (globals s') = rings (globals s);
  thrifty_echo c : is_echo c -> c ∈ calls s' -> c ∈ calls s
}.

#[export] Instance thrifty_preorder : PreOrder thrifty.
Proof. split; [by split|]. intros s1 s2 s3 [a1 a2 a3] [b1 b2 b3]. split; try congruence; auto. Qed.

Lemma thrifty_emit c s : ~ is_echo c -> thrifty s (emit c s).
Proof. intros Hc. split; try done. intros c' Hc' [->|H]%elem_of_cons; [done|exact H]. Qed.

Lemma thrifty_change i f s : thrifty s (change i f s).
Proof. by split. Qed.

Lemma thrifty_peers p s : thrifty s (set_peers p s).
Proof. by split. Qed.

Ltac thrift := repeat
  match goal with
  | |- thrifty ?s ?s => reflexivity
  | |- thrifty _ (emit ?c ?s) => etransitivity; [|by apply (thrifty_emit c s); intros []]
  | |- thrifty _ (start ?w ?i ?s) => etransitivity; [|apply (thrifty_change i _ s)]
  | |- thrifty _ (stop ?w ?i ?s) => etransitivity; [|apply (thrifty_change i _ s)]
  | |- thrifty _ (deinit ?w ?i ?s) => etransitivity; [|apply (thrifty_change i _ s)]
  | |- thrifty _ (change ?i ?f ?s) => etransitivity; [|apply (thrifty_change i f s)]
  | |- thrifty _ (del_entry_from_hash ?a ?s) => transitivity s; [|by split]
  end.

Lemma thrifty_down i md s : thrifty s (declare_down i md s).
Proof. unfold declare_down. repeat case_match; thrift. Qed.

Lemma thrifty_after w i md s : thrifty s (after_request w i md s).
Proof. destruct w; cbn [after_request]; thrift. Qed.

Lemma thrifty_heartbeat w i md s : thrifty s (heartbeat w i md s).
Proof.
  unfold heartbeat. etransitivity; [|apply thrifty_after]. etransitivity; [|by apply thrifty_emit; intros []].
  destruct w; [|done]. by split.
Qed.

Lemma thrifty_next_echo w port s : thrifty s (next_echo w port s).
Proof. unfold next_echo. destruct w; [|done]. repeat case_match; by split. Qed.

Lemma thrifty_arp md s : thrifty s (arp_request md s).
Proof. unfold arp_request. case_match; thrift. Qed.

Lemma thrifty_queued s s' : thrifty s s' -> queued s' = queued s.
Proof. intros [_ E _]. unfold queued. by rewrite E. Qed.

Lemma enqueue_queued md s : portId md = S1U_PORT_ID \/ portId md = SGI_PORT_ID ->
  queued s <= queued (enqueue md s) <= queued s + 1.
Proof.
  intros Hp. unfold enqueue. case_match; [lia|].
  change (queued (emit _ ?s)) with (queued s). rewrite queued_push by done. lia.
Qed.

Lemma echo_spends w i md pkt s :
  echo_free (globals (echo w i md pkt s)) = echo_free (globals s) /\
  queued s <= queued (echo w i md pkt s) <= queued s + (if pkt then 1 else 0) /\
  (pkt = false -> forall c, is_echo c -> c ∈ calls (echo w i md pkt s) -> c ∈ calls s).
Proof.
  unfold echo. pose proof (thrifty_next_echo w (portId md) s) as Ht. pose proof (thrifty_queued _ _ Ht) as H2.
  destruct Ht as [H1 _ H3]. set (s1 := next_echo _ _ _) in *.
  destruct pkt; cbn [negb]; [|rewrite H1, H2; split_and!; auto; lia].
  assert (forall s', thrifty s1 s' -> echo_free (globals s') = echo_free (globals s) /\
    queued s <= queued s' <= queued s + 1) as Hs by (intros s' Ht; rewrite (thrifty_queued _ _ Ht), (thrifty_free _ _ Ht); lia).
  destruct ((portId md =? S1U_PORT_ID) || (portId md =? SGI_PORT_ID)) eqn:Ep; [|destruct w; split_and!; try done; by apply Hs; thrift].
  apply orb_true_iff in Ep. rewrite !Z.eqb_eq in Ep.
  pose proof (thrifty_after w i md (enqueue md s1)) as Ht. rewrite (thrifty_queued _ _ Ht), (thrifty_free _ _ Ht).
  pose proof (enqueue_queued md s1 Ep). split_and!; try done; try lia. unfold enqueue. case_match; done.
Qed.

Lemma callback_spends w i md s : pool_ok s -> peers s !! i = Some md ->
  let s' := timerCallback w i s in
  pool_ok s' /\ echo_packets s' <= echo_packets s /\
  (portId md = SX_PORT_ID -> 0 < echo_free (globals s) -> echo_packets s' = echo_packets s - 1) /\
  (echo_free (globals s) = 0 -> forall c, is_echo c -> c ∈ calls s' -> c ∈ calls s).
Proof.
  intros Hf Hi s'. red in Hf. subst s'. unfold timerCallback. rewrite Hi. unfold rte_pktmbuf_alloc.
  set (pkt := 0 <? echo_free (globals s)).
  assert (exists s1, (if pkt then (on_globals (fun g => set_sent g (gtpu_seqnb g) (gtpu_sgwu_seqnb g) (gtpu_sx_seqnb g)
      (echo_free g - 1) (rings g)) s, true) else (s, false)) = (s1, pkt) /\
      echo_free (globals s1) = echo_free (globals s) - (if pkt then 1 else 0) /\
      queued s1 = queued s /\ calls s1 = calls s) as (s1 & -> & E1 & E2 & E3).
  { destruct pkt; eexists; (split_and!; [done|cbn; lia|done|done]). }
  assert (pkt = false <-> echo_free (globals s) = 0) as Hpkt by (unfold pkt; lia).
  set (s2 := change i _ s1).
  assert (forall s', thrifty s2 s' -> pool_ok s' /\ echo_packets s' <= echo_packets s /\
    (portId md = SX_PORT_ID -> 0 < echo_free (globals s) -> echo_packets s' = echo_packets s - 1) /\
    (echo_free (globals s) = 0 -> forall c, is_echo c -> c ∈ calls s' -> c ∈ calls s)) as Hthrift.
  { intros s' Ht. pose proof (thrifty_queued _ _ Ht) as H2. destruct Ht as [H1 _ H3].
    change (calls s2) with (calls s1) in H3. rewrite E3 in H3. change (queued s2) with (queued s1) in H2. cbn in H1.
    unfold pool_ok, echo_packets in *. rewrite H1, H2, E1, E2. clearbody pkt. destruct pkt; split_and!; try lia; auto.
    }
  assert (forall s3, thrifty s2 s3 -> portId md <> SX_PORT_ID -> let s' := echo w i md pkt s3 in
    pool_ok s' /\ echo_packets s' <= echo_packets s /\
    (portId md = SX_PORT_ID -> 0 < echo_free (globals s) -> echo_packets s' = echo_packets s - 1) /\
    (echo_free (globals s) = 0 -> forall c, is_echo c -> c ∈ calls s' -> c ∈ calls s)) as Hecho.
  { intros s3 Ht Hport s'. pose proof (thrifty_queued _ _ Ht) as H2. destruct Ht as [H1 _ H3].
    destruct (echo_spends w i md pkt s3) as (F1 & F2 & F3). fold s' in F1, F2, F3.
    change (calls s2) with (calls s1) in H3. rewrite E3 in H3. change (queued s2) with (queued s1) in H2. cbn in H1.
    unfold pool_ok, echo_packets in *. rewrite F1. clearbody pkt. split_and!; try done; try (destruct pkt; lia).
    - intros H0 c Hc Hin. apply Hpkt in H0. eauto. }
  destruct (itr_cnt md =? _); [apply Hthrift, thrifty_down|].
  destruct (activityFlag md =? 1); [apply Hthrift; unfold restart_periodic; thrift|].
  destruct (portId md =? SX_PORT_ID) eqn:Ep; [apply Hthrift, thrifty_heartbeat|].
  assert (portId md <> SX_PORT_ID) as Hp by lia. clearbody s2.
  destruct (resolved md); [by apply Hecho|].
  destruct (arp_hash_handle _ _ _); [apply Hecho; [thrift|done]|apply Hthrift, thrifty_arp].
Qed.

Section Pool.
Context (app : app_params) (wb eb : ether_addr).

Lemma thrifty_link md s : thrifty s (link_address md s).1.
Proof. unfold link_address. repeat case_match; cbn; try done. apply thrifty_arp. Qed.

Lemma thrifty_new_peer a port r s : thrifty s (add_node_conn_entry app wb eb a port r s).1.
Proof.
  unfold add_node_conn_entry. repeat case_match; cbn [fst]; try done.
  all: match goal with H : link_address ?md ?s = (?s1, _) |- _ =>
         assert (thrifty s s1) as Hl by (pose proof (thrifty_link md s) as Hl; by rewrite H in Hl) end.
  - done.
  - etransitivity; [exact Hl|]. by split.
  - etransitivity; [exact Hl|]. match goal with |- thrifty _ (set_conn_cnt _ ?s) => transitivity s; [|by split] end.
    thrift. by split.
Qed.

Lemma thrifty_spends s s' : thrifty s s' -> pool_ok s ->
  pool_ok s' /\ echo_packets s' <= echo_packets s /\ forall c, is_echo c -> c ∈ calls s' -> c ∈ calls s.
Proof.
  intros Ht Hok. unfold pool_ok, echo_packets in *. rewrite (thrifty_queued _ _ Ht).
  destruct Ht as [-> _ Hc]. split_and!; [done|lia|exact Hc].
Qed.

(** The messages, apart from a ring that is drained. *)
Lemma message_spends m s s' : handle app wb eb m s = Some s' -> (forall port tx, m <> drained port tx) -> pool_ok s ->
  pool_ok s' /\ echo_packets s' <= echo_packets s /\ forall c, is_echo c -> c ∈ calls s' -> c ∈ calls s.
Proof.
  intros H Hm Hok. destruct m as [b|b|b|b port r|port tx| |port|full arp open|v|v|v]; cbn in H.
  - injection H as <-. apply thrifty_spends; [|done]. unfold process_response. repeat case_match; thrift.
  - injection H as <-. apply thrifty_spends; [|done]. unfold process_echo_response. repeat case_match; thrift.
  - injection H as <-. apply thrifty_spends; [|done]. unfold check_activity. repeat case_match; thrift.
  - injection H as <-. apply thrifty_spends; [|done]. apply thrifty_new_peer.
  - by edestruct Hm.
  - unfold build_endmarker_and_send, rte_pktmbuf_alloc in H. destruct (0 <? echo_free (globals s)) eqn:E; [|done].
    cbn [negb] in H. case_match; injection H as <-; [split_and!; auto; lia|].
    unfold pool_ok, echo_packets in *. rewrite queued_push by by left.
    match goal with |- context [queued (on_globals ?f s)] => change (queued (on_globals f s)) with (queued s) end.
    split_and!; [cbn -[queued]; lia|cbn -[queued]; lia|done].
  - injection H as <-. unfold pool_ok, echo_packets in *. split_and!; [done| |done].
    destruct (decide (port = S1U_PORT_ID \/ port = SGI_PORT_ID)) as [Hp|Hp]; [rewrite queued_push by done; cbn -[queued]; lia|].
    unfold queued, push, set_ring. cbn [rings set_sent globals on_globals set_globals echo_free].
    rewrite !(proj2 (Z.eqb_neq _ port)) by (intros Hn; rewrite <- Hn in Hp; tauto). lia.
  - injection H as <-. apply thrifty_spends; [by split|done].
  - injection H as <-. apply thrifty_spends; [by split|done].
  - injection H as <-. apply thrifty_spends; [by split|done].
  - injection H as <-. apply thrifty_spends; [by split|done].
Qed.

Lemma drain_spends port tx s s' : drain_ring port tx s = Some s' -> pool_ok s ->
  pool_ok s' /\ calls s' = calls s /\ (queued s = 0 -> port = S1U_PORT_ID \/ port = SGI_PORT_ID ->
    echo_packets s' <= echo_packets s).
Proof.
  unfold drain_ring. destruct (drain_loop _ _ _ _) as [n|] eqn:E; [|done]. cbn. intros [= <-] Hok.
  pose proof (drain_loop_nonneg _ _ _ _ _ E). unfold pool_ok in *. split; [cbn; lia|]. split; [done|].
  intros Hq Hp. assert (n = 0) as ->.
  { eapply drain_loop_none; [|exact E]. unfold queued in Hq. pose proof (ours_nonneg (rings (globals s) S1U_PORT_ID)).
    pose proof (ours_nonneg (rings (globals s) SGI_PORT_ID)). destruct Hp as [-> | ->]; lia. }
  unfold echo_packets in *. rewrite Hq. unfold queued in *.
  cbn [rings set_ring set_sent globals on_globals set_globals echo_free].
  pose proof (ours_nonneg (rings (globals s) S1U_PORT_ID)). pose proof (ours_nonneg (rings (globals s) SGI_PORT_ID)).
  repeat case_match; change (ours []) with 0; lia.
Qed.

(** A step that drains no ring, or one without a packet of the pool. *)
Definition no_echo_drained (e : option message) (s : up_plane) : Prop :=
  match e with Some (drained port _) => queued s = 0 | _ => True end.

Lemma step_spends s e s' : step timerCallback (handle app wb eb) s e s' -> pool_ok s ->
  pool_ok s' /\ (no_echo_drained e s -> echo_packets s' <= echo_packets s) /\
  (echo_packets s = 0 -> echo_packets s' = 0 /\ forall c, is_echo c -> c ∈ calls s' -> c ∈ calls s).
Proof.
  intros Hst Hok. assert (pool_ok s' /\ (no_echo_drained e s -> echo_packets s' <= echo_packets s) /\
    (echo_packets s = 0 -> forall c, is_echo c -> c ∈ calls s' -> c ∈ calls s)) as (H1 & H2 & H3).
  { destruct Hst as [t Ht Hin|j md w d Hj Hd Hle|m s' Hm].
    - split_and!; [done|by intros _|done].
    - destruct (callback_spends w j (on_timer w expired md) (change j (on_timer w expired) s)) as (H1 & H2 & _ & H3);
        [done|by rewrite peers_change, Hj|].
      split_and!; [done|by intros _|]. intros H0. apply H3. unfold echo_packets, pool_ok in *.
      pose proof (queued_nonneg s). cbn. lia.
    - destruct m as [b|b|b|b port r|port tx| |port|full arp open|v|v|v];
        try (destruct (message_spends _ _ _ Hm ltac:(done) Hok) as (H1 & H2 & H3); split_and!; auto; fail).
      cbn [handle] in Hm. destruct (port =? S1U_PORT_ID) eqn:E1, (port =? SGI_PORT_ID) eqn:E2; try done;
      destruct (drain_spends _ _ _ _ Hm Hok) as (H1 & H2 & H3); (split_and!; [done| |by rewrite H2]);
        intros Hq; apply H3; try done; lia. }
  split_and!; [done|done|]. intros H0. split; [|by apply H3].
  pose proof (queued_nonneg s). pose proof (queued_nonneg s').
  assert (no_echo_drained e s) as Hn by (unfold no_echo_drained, echo_packets, pool_ok in *; repeat case_match; try done; lia).
  specialize (H2 Hn). unfold echo_packets, pool_ok in *. lia.
Qed.

(** C25. The packets of the echo requests run out.  The expiry of a timer of a control
    plane takes a packet that nobody will free; only the loops that drain a ring with such
    packets, which the echo requests and end markers put there, bring packets back; and
    once none is free and none in a ring, no echo request is sent to any peer any more,
    whatever expires and whatever arrives. *)
Theorem heartbeats_drain_echo_pool s es s' :
  run timerCallback (handle app wb eb) s es s' -> pool_ok s ->
  (forall i md w, peers s' !! i = Some md -> portId md = SX_PORT_ID -> 0 < echo_free (globals s') ->
     echo_packets (expire timerCallback w i s') = echo_packets s' - 1) /\
  (forall e s2, step timerCallback (handle app wb eb) s' e s2 -> no_echo_drained e s' ->
     echo_packets s2 <= echo_packets s') /\
  (echo_packets s = 0 -> echo_packets s' = 0 /\ forall a seq port,
     gtpu_echo_request a seq port ∈ calls s' -> gtpu_echo_request a seq port ∈ calls s).
Proof.
  intros Hr Hok.
  assert (pool_ok s' /\ (echo_packets s = 0 -> echo_packets s' = 0 /\
    forall c, is_echo c -> c ∈ calls s' -> c ∈ calls s)) as (Hok' & He).
  { induction Hr as [|es s1 e s2 Hr IH Hst]; [done|]. destruct IH as (H1 & H2).
    destruct (step_spends _ _ _ Hst H1) as (H3 & _ & H4). split; [done|].
    intros H0. destruct (H2 H0) as [H5 H6]. destruct (H4 H5) as [H7 H8]. split; [done|]. auto. }
  split_and!.
  - intros i md w Hi Hp Hfree.
    destruct (callback_spends w i (on_timer w expired md) (change i (on_timer w expired) s')) as (_ & _ & H3 & _);
      [done|by rewrite peers_change, Hi|]. apply H3; [|done]. by destruct w.
  - intros e s2 Hst. by apply (step_spends _ _ _ Hst Hok').
  - intros H0. destruct (He H0) as [H1 H2]. split; [done|]. intros a seq port. by apply H2.
Qed.

(** A ring of up to 32 packets that the port takes in one turn: the code frees every packet
    that the port frees too. *)
Theorem drained_packets_freed_twice port s s' :
  (length (rings (globals s) port) <= PKT_BURST_SZ)%nat -> rings (globals s) port <> [] ->
  handle app wb eb (drained port [length (rings (globals s) port)]) s = Some s' ->
  echo_free (globals s') = echo_free (globals s) + 2 * ours (rings (globals s) port).
Proof.
  intros Hl Hne. cbn [handle]. destruct (_ || _); [|done]. unfold drain_ring.
  set (pkts := rings (globals s) port) in *. cbn [drain_loop]. rewrite Nat.min_l by done.
  rewrite (proj2 (Nat.eqb_neq _ _)) by (by destruct pkts). rewrite Nat.ltb_irrefl. cbn [orb].
  rewrite Nat.sub_diag. cbn [Nat.eqb mbind option_bind]. rewrite drop_0, take_ge by done.
  intros [= <-]. cbn. lia.
Qed.
End Pool.

(** ** A control plane that falls silent and comes back *)

Definition no_app : app_params :=
  mk_app 0 0 0 0 0 0 0 0 (replicate 16 x00) 0 (replicate 16 x00) 0 0 0 0 0 0 0 (replicate 16 x00) 0 (replicate 16 x00) 0.
Definition control_plane : node_address_t := mk_node_address PDN_TYPE_IPV4 16777226 ipv6_zero.
Definition no_fields : up_fields := mk_up_fields 0 (mk_node_address 0 0 ipv6_zero) [] [].
Definition enough : resources := mk_resources true true true true no_fields.
Definition idle : up_plane :=
  mk_plane 0 ∅ ∅ 0 1 10 5 0 (mk_up_globals 0 0 1 NB_ECHO_MBUF (fun _ => []) (fun _ => false) (fun _ _ => None) (fun _ => true)) [].
Definition associated : up_plane := (add_node_conn_entry no_app [] [] control_plane SX_PORT_ID enough idle).1.
Definition falls_silent : list (move message) :=
  [Wait 10000; Fire PT 0%nat; Wait 15000; Fire TT 0%nat; Wait 20000].
Definition comes_back : list (move message) :=
  [Wait 100000; Message (new_peer control_plane SX_PORT_ID enough); Wait 1000000].

Definition silent_peer : up_peer :=
  mk_peer SX_PORT_ID 0 1 1 control_plane 0 (mk_timer true ttInterval 10000 None)
    (mk_timer true ttInterval 5000 (Some (20000, 5000))) no_fields.

Definition after_silence : option up_plane := play_all timerCallback (handle no_app [] []) falls_silent associated.

Example silent_state :
  (fun s => (peers s, conn_hash s !! control_plane, transmit_cnt s)) <$> after_silence =
  Some (<[0%nat := silent_peer]> ∅, Some 0%nat, 1).
Proof. vm_compute. reflexivity. Qed.

Example comes_back_runs :
  now <$> (after_silence ≫= fun s => play_all timerCallback (handle no_app [] []) comes_back (expire timerCallback TT 0%nat s))
  = Some 1000000.
Proof. vm_compute. reflexivity. Qed.

Example free_after_silence : (fun s => echo_free (globals s)) <$> after_silence = Some (NB_ECHO_MBUF - 2).
Proof. vm_compute. reflexivity. Qed.

Lemma control_plane_not_monitored_again_witness :
  exists s s', after_silence = Some s /\
    play_all timerCallback (handle no_app [] []) comes_back (expire timerCallback TT 0%nat s) = Some s' /\
    exists md, peers s' !! 0%nat = Some md /\ dstIP md = control_plane /\ deadline PT md = None /\ deadline TT md = None.
Proof.
  destruct (proj1 (fmap_Some _ _ _) comes_back_runs) as (s' & Hs' & _).
  destruct (proj1 (bind_Some _ _ _) Hs') as (s & Hs & Hr).
  destruct (proj1 (fmap_Some _ _ _) silent_state) as (s0 & Hs0 & E).
  assert (s0 = s) as -> by congruence. injection E as Ep Eh Ec.
  exists s, s'. split; [done|]. split; [done|].
  refine (proj2 (proj2 (control_plane_not_monitored_again no_app [] [] s 0%nat silent_peer TT 20000 control_plane _ s'
            _ _ _ _ _ _ _ (play_all_run _ _ _ _ _ Hr)))).
  - rewrite <- Ep. apply lookup_insert_eq.
  - reflexivity.
  - reflexivity.
  - exact (eq_sym Eh).
  - intros j md. rewrite <- Ep, lookup_insert_Some, lookup_empty. intros [[<- _]|[_ H]] _; [done|discriminate H].
  - reflexivity.
  - rewrite <- Ec. reflexivity.
Defined.

Lemma heartbeats_drain_echo_pool_witness :
  exists s', after_silence = Some s' /\ echo_packets (expire timerCallback TT 0%nat s') = echo_packets s' - 1.
Proof.
  destruct (proj1 (fmap_Some _ _ _) silent_state) as (s0 & Hs & E). exists s0. split; [done|].
  pose proof (eq_sym E) as E'. injection E' as Ep Eh Ec.
  refine (proj1 (heartbeats_drain_echo_pool no_app [] [] associated _ s0 (play_all_run _ _ _ _ _ Hs) _)
    0%nat silent_peer TT _ _ _).
  - vm_compute. discriminate.
  - rewrite Ep. apply lookup_insert_eq.
  - reflexivity.
  - assert (Some (echo_free (globals s0)) = Some (NB_ECHO_MBUF - 2)) as Hf.
    { etransitivity; [|exact free_after_silence]. unfold after_silence in *. by rewrite Hs. }
    injection Hf as ->. reflexivity.
Defined.

(** A packet of the pool in the ring to the eNodeBs comes back twice: the pool has more packets
    than it was made with. *)
Definition one_queued : up_plane := on_globals (push S1U_PORT_ID true) (rte_pktmbuf_alloc idle).1.

Lemma drained_packets_freed_twice_witness :
  exists s', handle no_app [] [] (drained S1U_PORT_ID [1%nat]) one_queued = Some s' /\
    echo_free (globals s') = NB_ECHO_MBUF + 1.
Proof.
  eexists. split; [reflexivity|].
  refine (drained_packets_freed_twice no_app [] [] S1U_PORT_ID one_queued _ _ _ _).
  - apply Nat.leb_le. reflexivity.
  - discriminate.
  - reflexivity.
Defined.
