(* ===== verification/CpTimer.v ===== *)
(** * Retransmission of requests (cp/cp_timer.c)

    The control plane keeps the bytes of a request to a peer in a [peerData] whose timer
    sends them again until the answer arrives or the configured number of tries is used
    up.  The PDN connection points to it ([timer_entry]).  The contexts are those of
    UeContext.v, the sessions those of SmSession.v, the timers those of PeerTimer.v; the
    members of a [pdn_connection] that UeContext.v does not have are in [pdn_rest].

    - A function of the code is a function on the state that returns the new state and
      its result, or [None] where it uses an object that is not allocated.
    - The answers of the outside (an allocation, [timer_create]) are the list [answers],
      first come first served; an empty list stands for success.
    - The functions that answer for a peer that is silent belong to other files
      ([Callees]); they are recorded, and what they do to the state is a parameter. *)
From S2P Require Import Prelude CText NodeAddr LList SeidList PeerTimer.
From S2P Require Import SmTable CpTables CMonad UeContext SmSession Gtpc.

(** Not the field of a peer. *)
Abbreviation tt := Datatypes.tt.

Definition PFCP_IFACE : Z := 4.
Definition PFCP_MSG_LEN : nat := 4096.

(** ** State *)

(** [peer_addr_t]: both socket addresses and the type of the one in use. *)
Record peer_addr_t := mk_peer_addr {
  pa_type : Z; sin_port : Z; sin_addr : Z; sin6_port : Z; sin6_addr : list byte
}.

(** The members of [peerData] of the control plane that PeerTimer.v does not have. *)
Record request_t := mk_request { dstPort : Z; teid : Z; ebi_index : Z; buf : list byte }.

Record pdn_rest_t := mk_pdn_rest {
  timer_entry : ptr; num_charg_rule_install : Z; num_charg_rule_delete : Z
}.

Definition set_timer_entry (v : ptr) (r : pdn_rest_t) : pdn_rest_t :=
  mk_pdn_rest v (num_charg_rule_install r) (num_charg_rule_delete r).

Inductive callee :=
| reset_resp_info_structure (resp : loc)
| cleanup_ue_and_bearer (teid ebi_index : Z)
| mbr_error_response (iface : Z)
| cbr_error_response (iface : Z)
| send_bearer_resource_failure_indication (iface : Z)
| modify_bearer_failure_indication (iface : Z)
| cs_error_response (iface : Z)
| clean_up_while_error (ebi teid : Z)
| send_delete_session_request_after_timer_retry (ebi_index : Z)
| ds_error_response (iface : Z)
| delete_bearer_error_response (iface : Z)
| provision_ack_ccr (ebi_index rule_action : Z)
| gen_reauth_error_response
| ubr_error_response (iface : Z)
| release_access_bearer_error_response (iface : Z)
| send_pfcp_sess_mod_req_for_ddn (seid : Z)
| delete_buff_ddn_req (seid : Z).

(** A datagram: the socket, the address and port, the bytes. *)
Record datagram := mk_datagram { d_iface : Z; d_addr : node_address_t; d_port : Z; d_bytes : list byte }.

(** What leaves the control plane: a datagram that is handed to a socket, or the bytes of a
    message in the dump that takes the place of the sockets. *)
Inductive output := Sent (d : datagram) | Dumped (bytes : list byte).

Record cp_state := mk_cp {
  clock : Z;
  answers : list bool;
  next_loc : loc;
  ue : ue_store;
  sessions : sm_store;
  pdn_rest : gmap loc pdn_rest_t;
  requests : gmap loc (peerData request_t);
  sent : list output;
  called : list callee
}.

Definition set_clock (v : Z) (r : cp_state) : cp_state :=
  mk_cp v (answers r) (next_loc r) (ue r) (sessions r) (pdn_rest r) (requests r) (sent r) (called r).
Definition set_answers (v : list bool) (r : cp_state) : cp_state :=
  mk_cp (clock r) v (next_loc r) (ue r) (sessions r) (pdn_rest r) (requests r) (sent r) (called r).
Definition set_next_loc (v : loc) (r : cp_state) : cp_state :=
  mk_cp (clock r) (answers r) v (ue r) (sessions r) (pdn_rest r) (requests r) (sent r) (called r).
Definition set_ue (v : ue_store) (r : cp_state) : cp_state :=
  mk_cp (clock r) (answers r) (next_loc r) v (sessions r) (pdn_rest r) (requests r) (sent r) (called r).
Definition set_sessions (v : sm_store) (r : cp_state) : cp_state :=
  mk_cp (clock r) (answers r) (next_loc r) (ue r) v (pdn_rest r) (requests r) (sent r) (called r).
Definition set_pdn_rest (v : gmap loc pdn_rest_t) (r : cp_state) : cp_state :=
  mk_cp (clock r) (answers r) (next_loc r) (ue r) (sessions r) v (requests r) (sent r) (called r).
Definition set_requests (v : gmap loc (peerData request_t)) (r : cp_state) : cp_state :=
  mk_cp (clock r) (answers r) (next_loc r) (ue r) (sessions r) (pdn_rest r) v (sent r) (called r).
Definition set_sent (v : list output) (r : cp_state) : cp_state :=
  mk_cp (clock r) (answers r) (next_loc r) (ue r) (sessions r) (pdn_rest r) (requests r) v (called r).
Definition set_called (v : list callee) (r : cp_state) : cp_state :=
  mk_cp (clock r) (answers r) (next_loc r) (ue r) (sessions r) (pdn_rest r) (requests r) (sent r) v.

Abbreviation cp R := (cmd cp_state R).

Section Commands.
Context {R : Type}.

(** The next answer of the outside. *)
Definition ask : cp R bool :=
  fun s => match answers s with [] => Next s true | b :: bs => Next (set_answers bs s) b end.

(** A fresh address. *)
Definition fresh : cp R loc := fun s => Next (set_next_loc (Pos.succ (next_loc s)) s) (next_loc s).

Definition request_at (l : loc) : cp R (peerData request_t) := do o <- read (fun s => requests s !! l); deref o.

Definition put_request (l : loc) (d : peerData request_t) : cp R unit :=
  modify (fun s => set_requests (<[l := d]> (requests s)) s).

(** [stoptimer], [deinittimer] and [rte_free] of the entry. *)
Definition stop_and_free (l : loc) : cp R unit :=
  do d <- request_at l;
  put_request l (set_pt (gst_timer_deinit (gst_timer_stop (pt d))) d);;
  modify (fun s => set_requests (delete l (requests s)) s).

Definition rest_at (p : loc) : cp R pdn_rest_t := do o <- read (fun s => pdn_rest s !! p); deref o.

Definition set_entry (p : loc) (e : ptr) : cp R unit :=
  do r <- rest_at p; modify (fun s => set_pdn_rest (<[p := set_timer_entry e r]> (pdn_rest s)) s).

(** [context->eps_bearers[ebi_index]->pdn], [None] if one of the pointers is null. *)
Definition bearer_pdn (c : loc) (i : Z) : cp R ptr :=
  do oc <- read (fun s => ue_at c (ue s));
  do u <- deref oc;
  do b <- deref (array_get (ue_eps_bearers u) i);
  match b with
  | None => skip None
  | Some b => do ob <- read (fun s => bearer_at b (ue s)); do br <- deref ob; skip (eb_pdn br)
  end.
End Commands.

(** ** Timer entries *)

(** [config.request_tries] and [config.request_timeout]; whether messages are dumped; the
    sockets of an interface for either type of address, none if not positive. *)
Class Config := { request_tries : Z; request_timeout : Z; pcap_dumper : bool; fd_v4 : Z -> Z; fd_v6 : Z -> Z }.

Section Entries.
Context {C : Config}.

(** Bytes behind the end of [buf] are outside of the entry. *)
Definition fill_timer_entry_data (iface : Z) (peer_addr : peer_addr_t) (bytes : list byte) (tries tid ebi : Z)
    : cp_state -> option (cp_state * ptr) := run (
  do allocated <- ask;
  if negb allocated then return_ None else
  do l <- fresh;
  if bool_decide (PFCP_MSG_LEN < length bytes)%nat then fault else
  let v4 := bool_decide (pa_type peer_addr = PDN_TYPE_IPV4) in
  let dst := mk_node_address (pa_type peer_addr) (if v4 then sin_addr peer_addr else 0)
    (if v4 then ipv6_zero else sin6_addr peer_addr) in
  let port := if v4 then sin_port peer_addr else sin6_port peer_addr in
  let zero := mk_timer false ttSingleShot 0 None in
  put_request l (mk_peer (u8 iface) 0 tries 0 dst 0 zero zero (mk_request port tid ebi bytes));;
  skip (Some l)).

Definition add_timer_entry (conn_data : loc) (timeout_ms : Z) : cp_state -> option (cp_state * bool) := run (
  do d <- request_at conn_data;
  do created <- ask;
  let '(ok, t) := gst_timer_init created ttInterval timeout_ms in
  put_request conn_data (set_pt t d);;
  skip ok).

(** [starttimer] returns a [bool], which the callers compare with [< 0]. *)
Definition starttimer (l : loc) {R} : cp R unit :=
  do d <- request_at l;
  do now <- read clock;
  put_request l (set_pt (gst_timer_start now (pt d)).2 d).

Definition add_pfcp_if_timer_entry (tid : Z) (peer_addr : peer_addr_t) (bytes : list byte) (ebi : Z)
    : cp_state -> option (cp_state * unit) := run (
  do '(ret, context) <- read (fun s => get_ue_context tid (ue s));
  if bool_decide (ret < 0) then return_ tt else
  do e <- call (fill_timer_entry_data PFCP_IFACE peer_addr bytes request_tries tid ebi);
  match e with
  | None => return_ tt
  | Some e =>
      do _ <- call (add_timer_entry e request_timeout);
      match context with
      | None => skip tt
      | Some c =>
          do p <- bearer_pdn c ebi;
          match p with
          | None => skip tt
          | Some p => set_entry p (Some e);; starttimer e
          end
      end
  end).

(** Where the entry of a GTPv2-C request goes: an SGW-C finds the bearer of a TEID of the
    S5/S8 interface, or, like the others, the context of a TEID of S11.  [None]: the
    function returns. *)
Definition gtpv2c_entry_pdn (tid ebi cp_mode : Z) {R} : cp R ptr :=
  do '(ret, bearer) <- read (fun s => get_bearer_by_teid tid (ue s));
  if bool_decide (cp_mode = SGWC) && bool_decide (0 <= ret) then
    do b <- deref bearer;
    do ob <- read (fun s => bearer_at b (ue s));
    do br <- deref ob;
    do p <- deref (eb_pdn br);
    skip (Some p)
  else
    do '(ret, context) <- read (fun s => get_ue_context tid (ue s));
    if bool_decide (ret < 0) then skip None
    else match context with None => skip None | Some c => bearer_pdn c ebi end.

Definition add_gtpv2c_if_timer_entry (tid : Z) (peer_addr : peer_addr_t) (bytes : list byte)
  (ebi iface cp_mode : Z)
    : cp_state -> option (cp_state * unit) := run (
  do e <- call (fill_timer_entry_data iface peer_addr bytes request_tries tid ebi);
  match e with
  | None => return_ tt
  | Some e =>
      do _ <- call (add_timer_entry e request_timeout);
      do p <- gtpv2c_entry_pdn tid ebi cp_mode;
      match p with
      | None => return_ tt
      | Some p => set_entry p (Some e);; starttimer e
      end
  end).

(** The common body of the deletions; [clear]: whether the PDN connection forgets the
    entry. *)
Definition delete_entry_of (clear : bool) (p : loc) {R} : cp R unit :=
  do r <- rest_at p;
  match timer_entry r with
  | None => skip tt
  | Some e =>
      do d <- request_at e;
      if ti_id (pt d) then stop_and_free e;; (if clear then set_entry p None else skip tt) else skip tt
  end.

Definition delete_if_timer_entry (clear : bool) (tid ebi : Z) : cp_state -> option (cp_state * unit) := run (
  do '(ret, context) <- read (fun s => get_ue_context tid (ue s));
  if bool_decide (ret < 0) then return_ tt else
  match context with
  | None => skip tt
  | Some c =>
      do p <- bearer_pdn c ebi;
      match p with None => skip tt | Some p => delete_entry_of clear p end
  end).

Definition delete_pfcp_if_timer_entry := delete_if_timer_entry true.
Definition delete_gtpv2c_if_timer_entry := delete_if_timer_entry false.

Definition delete_timer_entry (tid : Z) : cp_state -> option (cp_state * unit) := run (
  do '(ret, bearer) <- read (fun s => get_bearer_by_teid tid (ue s));
  if bool_decide (ret < 0) then return_ tt else
  match bearer with
  | None => skip tt
  | Some b =>
      do ob <- read (fun s => bearer_at b (ue s));
      do br <- deref ob;
      match eb_pdn br with None => skip tt | Some p => delete_entry_of true p end
  end).

(** ** The callback of the timer *)

Definition GX_RAR_MSG : Z := 0.
Definition RULE_ACTION_ADD : Z := 1.
Definition RULE_ACTION_MODIFY : Z := 2.
Definition RULE_ACTION_DELETE : Z := 5.

(** What the functions of other files do. *)
Class Callees := effect : callee -> cp_state -> cp_state.

Context {F : Callees}.

Definition perform (h : callee) {R} : cp R unit := modify (fun s => effect h (set_called (h :: called s) s)).

Definition performs (hs : list callee) {R} : cp R unit := foldr (fun h k => perform h;; k) (skip tt) hs.

Definition context_at (c : loc) {R} : cp R ue_context := do o <- read (fun s => ue_at c (ue s)); deref o.
Definition pdn_of (p : loc) {R} : cp R pdn_connection := do o <- read (fun s => pdn_at p (ue s)); deref o.

Definition set_msg_type (v : Z) (r : resp_info) : resp_info :=
  mk_resp (ri_proc r) (ri_state r) v (ri_cp_mode r) (ri_pfcp_seq r) (ri_cbr_seq r)
    (ri_linked_eps_bearer_id r) (ri_eps_bearer_id r) (ri_bearer_count r) (ri_eps_bearer_ids r)
    (ri_gx_sess_id r) (ri_s5s8_sgw_gtpc_teid r) (ri_teid r).

Definition put_resp (r : loc) (v : resp_info) {R} : cp R unit :=
  modify (fun s => set_sessions (mk_sm (<[r := v]> (cells (sessions s))) (sm_hash (sessions s))) s).

(** The last expiry, for a session that is found: the error response of the procedure
    under way.  The message that it is built from is not modelled, nor the members of
    [resp] that are only copied into it.  [true]: the callback returns at once, with the
    timer running. *)
Definition peer_not_responding (c p r : loc) (tid ebi : Z) {R} : cp R bool :=
  do u <- context_at c;
  do oresp <- read (fun s => cells (sessions s) !! r);
  do resp <- deref oresp;
  do pd <- pdn_of p;
  let mode := ue_cp_mode u in
  let msg_type := ri_msg_type resp in
  let state := ri_state resp in
  let iface := if bool_decide (mode <> PGWC) then S11_IFACE else S5S8_IFACE in
  let mod_proc := bool_decide (pdn_proc pd = UE_REQ_BER_RSRC_MOD_PROC) in
  let pgw := bool_decide (mode = PGWC) || bool_decide (mode = SAEGWC) in
  let provision action :=
    send_bearer_resource_failure_indication iface :: [provision_ack_ccr ebi action] in
  if bool_decide (state = ERROR_OCCURED_STATE) then
    perform (reset_resp_info_structure r);; perform (cleanup_ue_and_bearer tid ebi);; skip false
  else if bool_decide (GTP_MODIFY_BEARER_REQ = msg_type) then
    perform (mbr_error_response iface);;
    do u <- context_at c;
    (if ue_piggyback u
     then perform (cbr_error_response S5S8_IFACE);;
          update (fun s => ue' ← change_ue c (fun u => Some (set_ue_piggyback false u)) (ue s);
            Some (set_ue ue' s))
     else skip tt);;
    skip false
  else if bool_decide (GTP_BEARER_RESOURCE_CMD = msg_type) then
    perform (send_bearer_resource_failure_indication S11_IFACE);; skip false
  else if bool_decide (GTP_MODIFY_BEARER_CMD = msg_type) then
    perform (modify_bearer_failure_indication S11_IFACE);; skip false
  else if bool_decide (GTP_CREATE_SESSION_REQ = msg_type) || bool_decide
    (GTP_CREATE_SESSION_RSP = msg_type) then
    (if negb (ue_piggyback u) || bool_decide (mode <> SGWC) then perform (cs_error_response iface)
     else do op <- deref (array_get (ue_pdns u) ebi);
          do p' <- deref op;
          do pd' <- pdn_of p';
          perform (clean_up_while_error (pdn_default_bearer_id pd') tid));;
    skip false
  else if bool_decide (GTP_DELETE_SESSION_REQ = msg_type) then
    if bool_decide (state = PFCP_SESS_MOD_REQ_SNT_STATE) then
      perform (send_delete_session_request_after_timer_retry ebi);; skip true
    else perform (ds_error_response iface);; skip false
  else if pgw && (bool_decide (msg_type = GX_RAR_MSG) || bool_decide (state = CREATE_BER_REQ_SNT_STATE)) then
    do rest <- rest_at p;
    (if bool_decide (num_charg_rule_install rest <> 0) then perform (cbr_error_response GX_IFACE)
     else if bool_decide (num_charg_rule_delete rest <> 0) then perform
       (delete_bearer_error_response S5S8_IFACE)
     else skip tt);;
    update (fun s => ue' ← change_pdn p (fun pd => Some (set_pdn_state CONNECTED_STATE pd)) (ue s);
      Some (set_ue ue' s));;
    skip false
  else if (bool_decide (msg_type = GTP_CREATE_BEARER_REQ) || bool_decide (msg_type = GTP_CREATE_BEARER_RSP))
          && bool_decide (mode = SGWC) then
    performs (if mod_proc then provision RULE_ACTION_ADD else [cbr_error_response S5S8_IFACE]);; skip false
  else if bool_decide (msg_type = GTP_DELETE_BEARER_REQ) || bool_decide (msg_type = GTP_DELETE_BEARER_RSP) then
    performs (if mod_proc then provision RULE_ACTION_DELETE else [delete_bearer_error_response S5S8_IFACE]);;
      skip false
  else if pgw && (bool_decide (state = DELETE_BER_REQ_SNT_STATE) || bool_decide
    (state = UPDATE_BEARER_REQ_SNT_STATE)
                  || bool_decide (msg_type = GTP_UPDATE_BEARER_RSP)) then
    (if mod_proc then
       (if bool_decide (state = UPDATE_BEARER_REQ_SNT_STATE) then put_resp r
         (set_msg_type GTP_UPDATE_BEARER_REQ resp)
        else if bool_decide (state = DELETE_BER_REQ_SNT_STATE) then put_resp r
          (set_msg_type GTP_DELETE_BEARER_REQ resp)
        else skip tt);;
       performs (provision RULE_ACTION_MODIFY)
     else perform gen_reauth_error_response);;
    skip false
  else if bool_decide (msg_type = GTP_UPDATE_BEARER_REQ) then
    perform (ubr_error_response (if bool_decide (mode = SGWC) then S5S8_IFACE else GX_IFACE));; skip false
  else if bool_decide (msg_type = GTP_RELEASE_ACCESS_BEARERS_REQ) then
    perform (release_access_bearer_error_response iface);; skip false
  else if bool_decide (state = DDN_REQ_SNT_STATE) then
    performs [send_pfcp_sess_mod_req_for_ddn (pdn_seid pd); delete_buff_ddn_req (pdn_seid pd)];; skip false
  else skip false.

(** The context of the session that waited for the answer, and the end of the wait. *)
Definition session_failed (c : loc) (d : peerData request_t) {R} : cp R bool :=
  do p <- bearer_pdn c (ebi_index (extra d));
  match p with
  | None => skip false
  | Some p =>
      do pd <- pdn_of p;
      do found <- read (fun s => get_sess_entry (pdn_seid pd) (sessions s));
      do '(resp, ret) <- deref found;
      if bool_decide (ret = 0) then
        do r <- deref resp;
        peer_not_responding c p r (teid (extra d)) (ebi_index (extra d))
      else skip false
  end.

(** The sockets are those of the interface of the datagram. *)
Definition gtpv2c_send (d : datagram) : list output :=
  if pcap_dumper then [Dumped (d_bytes d)]
  else if bool_decide (ip_type (d_addr d) = PDN_TYPE_IPV4) then
    if bool_decide (fd_v4 (d_iface d) <= 0) then [] else [Sent d]
  else if bool_decide (ip_type (d_addr d) = PDN_TYPE_IPV6) then
    if bool_decide (fd_v6 (d_iface d) <= 0) then [] else [Sent d]
  else [].

Definition retry_output (d : datagram) : list output :=
  if pcap_dumper then [Dumped (d_bytes d)] else gtpv2c_send d.

Definition timer_retry_send (d : peerData request_t) {R} : cp R unit :=
  modify (fun s => set_sent (retry_output (mk_datagram (portId d) (dstIP d) (dstPort (extra d)) (buf (extra d)))
    ++ sent s) s).

Definition timer_callback (l : loc) : cp_state -> option (cp_state * unit) := run (
  do d <- request_at l;
  let d := set_itr (u8 request_tries) d in
  put_request l d;;
  if bool_decide (itr d - 1 <= itr_cnt d) then
    do '(ret, context) <- read (fun s => get_ue_context (teid (extra d)) (ue s));
    if bool_decide (ret < 0) then stop_and_free l;; return_ tt
    else
      do at_once <- (match context with None => skip false | Some c => session_failed c d end);
      if (at_once : bool) then return_ tt else
      do d <- request_at l;
      (if ti_id (pt d) then stop_and_free l else skip tt);;
      return_ tt
  else
    (if bool_decide (portId d = S11_IFACE) || bool_decide (portId d = S5S8_IFACE) || bool_decide
      (portId d = PFCP_IFACE)
     then timer_retry_send d else skip tt);;
    do d <- request_at l;
    put_request l (set_itr_cnt (u8 (itr_cnt d + 1)) d)).

(** The timer thread: a timer that is due expires and its callback runs. *)
Definition fire (l : loc) (s : cp_state) : option cp_state :=
  d ← requests s !! l;
  v ← ti_value (pt d);
  if bool_decide (v.1 <= clock s) then
    r ← timer_callback l (set_requests (<[l := set_pt (expired (pt d)) d]> (requests s)) s);
    Some r.1
  else None.
End Entries.

(** ** Lemmas *)

Lemma run_bind {S R A} (m : cmd S R A) (k : A -> cmd S R R) s s' a : m s = Next s' a -> run (bind m k) s = run
  (k a) s'.
Proof. intros E. unfold run, bind. by rewrite E. Qed.

Lemma call_next {S R A} (f : S -> option (S * A)) s s' a : f s = Some (s', a) -> call (R := R) f s = Next s' a.
Proof. intros E. unfold call. by rewrite E. Qed.

Ltac cp_simpl :=
  cbn [clock answers next_loc ue sessions pdn_rest requests sent called
    set_clock set_answers set_next_loc set_ue set_sessions set_pdn_rest set_requests set_sent set_called].

(** A PDN connection reached from a TEID and the index of a bearer. *)
Record on_path (tid ebi : Z) (c p : loc) (s : cp_state) : Prop := {
  path_context : get_ue_context tid (ue s) = (0, Some c);
  path_pdn R : bearer_pdn (R := R) c ebi s = Next s (Some p);
  path_rest : is_Some (pdn_rest s !! p)
}.

(** The state changes that keep a path. *)
Lemma bearer_pdn_ue {R} c ebi p s s' : ue s' = ue s ->
  bearer_pdn (R := R) c ebi s = Next s (Some p) -> bearer_pdn (R := R) c ebi s' = Next s' (Some p).
Proof.
  intros E. unfold bearer_pdn, bind, read, deref, skip, fault. rewrite E.
  destruct (ue_at c (ue s)) as [u|]; [|done]. destruct (array_get _ _) as [[b|]|]; [|done..].
  rewrite E. destruct (bearer_at b (ue s)) as [br|]; [|done]. intros H. injection H as H. by rewrite H.
Qed.

Lemma path_keep tid ebi c p s s' :
  on_path tid ebi c p s -> ue s' = ue s -> is_Some (pdn_rest s' !! p) -> on_path tid ebi c p s'.
Proof.
  intros [H1 H2 H3] E H4. split; [by rewrite E| |done]. intros R. by eapply bearer_pdn_ue.
Qed.

Section Lemmas.
Context {C : Config} {F : Callees}.

Lemma request_at_next {R} l d s : requests s !! l = Some d -> request_at (R := R) l s = Next s d.
Proof. intros E. unfold request_at, bind, read, deref. by rewrite E. Qed.

Lemma request_at_fault {R} l s : requests s !! l = None -> request_at (R := R) l s = Fault.
Proof. intros E. unfold request_at, bind, read, deref. by rewrite E. Qed.

Lemma rest_at_next {R} p r s : pdn_rest s !! p = Some r -> rest_at (R := R) p s = Next s r.
Proof. intros E. unfold rest_at, bind, read, deref. by rewrite E. Qed.

Lemma stop_and_free_next {R} l d s : requests s !! l = Some d ->
  stop_and_free (R := R) l s = Next (set_requests (delete l (requests s)) s) tt.
Proof.
  intros E. unfold stop_and_free. rewrite (bind_next _ _ _ _ _ (request_at_next _ _ _ E)).
  unfold put_request, bind, modify. cp_simpl. rewrite delete_insert_eq. by destruct s.
Qed.

(** Deletion of an entry whose timer exists. *)
Lemma delete_entry_of_next {R} clear p r l d s :
  pdn_rest s !! p = Some r -> timer_entry r = Some l -> requests s !! l = Some d -> ti_id (pt d) = true ->
  delete_entry_of (R := R) clear p s =
  Next (set_pdn_rest (if clear then <[p := set_timer_entry None r]> (pdn_rest s) else pdn_rest s)
    (set_requests (delete l (requests s)) s)) tt.
Proof.
  intros Hr Ht Hd Hi. unfold delete_entry_of. rewrite (bind_next _ _ _ _ _ (rest_at_next _ _ _ Hr)), Ht.
  rewrite (bind_next _ _ _ _ _ (request_at_next _ _ _ Hd)), Hi.
  rewrite (bind_next _ _ _ _ _ (stop_and_free_next _ _ _ Hd)). destruct clear.
  - unfold set_entry. erewrite bind_next by (apply rest_at_next; exact Hr). done.
  - unfold skip. by destruct s.
Qed.

Lemma delete_entry_of_none {R} clear p r s :
  pdn_rest s !! p = Some r -> timer_entry r = None -> delete_entry_of (R := R) clear p s = Next s tt.
Proof. intros Hr Ht. unfold delete_entry_of. by rewrite (bind_next _ _ _ _ _ (rest_at_next _ _ _ Hr)), Ht. Qed.

(** An entry that was freed and is still referred to. *)
Lemma delete_entry_of_freed {R} clear p r l s :
  pdn_rest s !! p = Some r -> timer_entry r = Some l -> requests s !! l = None ->
  delete_entry_of (R := R) clear p s = Fault.
Proof.
  intros Hr Ht Hd. unfold delete_entry_of. rewrite (bind_next _ _ _ _ _ (rest_at_next _ _ _ Hr)), Ht.
  unfold bind. by rewrite (request_at_fault _ _ Hd).
Qed.

Lemma delete_if_timer_entry_path clear tid ebi c p s :
  on_path tid ebi c p s -> delete_if_timer_entry clear tid ebi s = run (delete_entry_of clear p) s.
Proof.
  intros [H1 H2 _]. unfold delete_if_timer_entry. erewrite run_bind by (unfold read; by rewrite H1).
  cbv beta iota. rewrite bool_decide_false by lia. by erewrite run_bind by apply H2.
Qed.

(** ** Adding a request *)

Definition zero_timer : gstimerinfo_t := mk_timer false ttSingleShot 0 None.

(** The entry that a request gets. *)
Definition entry_of (iface : Z) (a : peer_addr_t) (bytes : list byte) (tid ebi : Z)
  (t : gstimerinfo_t) : peerData request_t :=
  let v4 := bool_decide (pa_type a = PDN_TYPE_IPV4) in
  mk_peer (u8 iface) 0 request_tries 0
    (mk_node_address (pa_type a) (if v4 then sin_addr a else 0)
      (if v4 then ipv6_zero else sin6_addr a)) 0 t zero_timer
    (mk_request (if v4 then sin_port a else sin6_port a) tid ebi bytes).

Lemma fill_timer_entry_data_next iface a bytes tid ebi s :
  answers s = [] -> (length bytes <= PFCP_MSG_LEN)%nat ->
  fill_timer_entry_data iface a bytes request_tries tid ebi s =
  Some (set_requests (<[next_loc s := entry_of iface a bytes tid ebi zero_timer]> (requests s))
    (set_next_loc (Pos.succ (next_loc s)) s), Some (next_loc s)).
Proof.
  intros Ha Hl. unfold fill_timer_entry_data, run, bind, ask, fresh. rewrite Ha. cbn [negb].
  by rewrite bool_decide_false by lia.
Qed.

Lemma add_timer_entry_next l d ms s : answers s = [] -> requests s !! l = Some d ->
  add_timer_entry l ms s =
  Some (set_requests (<[l := set_pt (mk_timer true ttInterval ms None) d]> (requests s)) s, true).
Proof.
  intros Ha Hd. unfold add_timer_entry. erewrite run_bind by (by apply request_at_next).
  unfold run, bind, ask. by rewrite Ha.
Qed.

Lemma starttimer_next {R} l d s : requests s !! l = Some d ->
  starttimer (R := R) l s =
  Next (set_requests (<[l := set_pt (gst_timer_start (clock s) (pt d)).2 d]> (requests s)) s) tt.
Proof. intros Hd. unfold starttimer. by erewrite bind_next by (by apply request_at_next). Qed.

(** A request that waits for its answer: it was sent [k] times again, and expires at [t]. *)
Definition armed (t : Z) : gstimerinfo_t :=
  mk_timer true ttInterval request_timeout (Some (t, request_timeout)).

Definition waiting (iface : Z) (a : peer_addr_t) (bytes : list byte) (tid ebi : Z) (k : nat)
  (t : Z) : peerData request_t :=
  set_itr_cnt (Z.of_nat k) (entry_of iface a bytes tid ebi (armed t)).

(** The state after the request of [s] was added for the PDN connection [p] with [r]. *)
Definition added (e : peerData request_t) (p : loc) (r : pdn_rest_t) (s : cp_state) : cp_state :=
  mk_cp (clock s) [] (Pos.succ (next_loc s)) (ue s) (sessions s)
    (<[p := set_timer_entry (Some (next_loc s)) r]> (pdn_rest s)) (<[next_loc s := e]> (requests s)) (sent s)
      (called s).

Lemma entry_and_start {R} l d p r s : requests s !! l = Some d -> pdn_rest s !! p = Some r -> pt d = mk_timer
  true ttInterval request_timeout None ->
  0 < request_timeout ->
  bind (set_entry p (Some l)) (fun _ => starttimer (R := R) l) s =
  Next (set_requests (<[l := set_pt (armed (clock s + request_timeout)) d]> (requests s))
    (set_pdn_rest (<[p := set_timer_entry (Some l) r]> (pdn_rest s)) s)) tt.
Proof.
  intros Hd Hr Ht Hp. erewrite bind_next.
  2: { unfold set_entry. erewrite bind_next by (by apply rest_at_next). unfold modify. reflexivity. }
  rewrite starttimer_next with
    (d := d) by done. cp_simpl. rewrite Ht. unfold gst_timer_start. cbn [ti_id ti_ms ti_type negb].
  rewrite (proj2 (Z.ltb_ge _ _)) by lia. rewrite (proj2 (Z.eqb_neq _ _)) by lia. done.
Qed.

Lemma add_pfcp_next tid a bytes ebi c p r s :
  on_path tid ebi c p s -> pdn_rest s !! p = Some r -> answers s = [] -> (length bytes <= PFCP_MSG_LEN)%nat ->
  0 < request_timeout ->
  add_pfcp_if_timer_entry tid a bytes ebi s =
  Some (added (waiting PFCP_IFACE a bytes tid ebi 0 (clock s + request_timeout)) p r s, tt).
Proof.
  intros Hp Hr Ha Hl Ht. unfold add_pfcp_if_timer_entry.
  erewrite run_bind by (unfold read; by rewrite (path_context _ _ _ _ _ Hp)). cbv beta iota.
  rewrite bool_decide_false by lia. erewrite run_bind by (apply call_next; by apply fill_timer_entry_data_next).
  cbv beta iota. erewrite run_bind by (apply call_next; apply add_timer_entry_next; [done|cp_simpl;
    by rewrite lookup_insert_eq]).
  erewrite run_bind by (eapply bearer_pdn_ue; [|apply (path_pdn _ _ _ _ _ Hp)]; done). cbv beta iota.
  unfold run. rewrite entry_and_start with (d := entry_of PFCP_IFACE a bytes tid ebi
    (mk_timer true ttInterval request_timeout None)) (r := r).
  2: { cp_simpl. rewrite !lookup_insert_eq. done. }
  2-4: done.
  unfold added. destruct s. cp_simpl. cbn in Ha. subst. cp_simpl. rewrite !insert_insert_eq. done.
Qed.

Lemma add_gtpv2c_next iface mode tid a bytes ebi c p r s :
  on_path tid ebi c p s -> mode <> SGWC \/ (get_bearer_by_teid tid
    (ue s)).1 < 0 -> pdn_rest s !! p = Some r -> answers s = [] -> (length bytes <= PFCP_MSG_LEN)%nat ->
  0 < request_timeout ->
  add_gtpv2c_if_timer_entry tid a bytes ebi iface mode s =
  Some (added (waiting iface a bytes tid ebi 0 (clock s + request_timeout)) p r s, tt).
Proof.
  intros Hp Hm Hr Ha Hl Ht. unfold add_gtpv2c_if_timer_entry.
  erewrite run_bind by (apply call_next; by apply fill_timer_entry_data_next).
  cbv beta iota. erewrite run_bind by (apply call_next; apply add_timer_entry_next; [done|cp_simpl;
    by rewrite lookup_insert_eq]).
  erewrite run_bind. 2: {
    unfold gtpv2c_entry_pdn. erewrite bind_next by reflexivity. cp_simpl.
    destruct (get_bearer_by_teid _ _) as [ret bearer]. cbn [fst] in Hm.
    assert (bool_decide (mode = SGWC) && bool_decide (0 <= ret) = false) as ->.
    { apply andb_false_iff. rewrite !bool_decide_eq_false. destruct Hm; [by left|right; lia]. }
    erewrite bind_next by (unfold read; cp_simpl; by rewrite (path_context _ _ _ _ _ Hp)). cbv beta iota.
    rewrite bool_decide_false by lia. eapply bearer_pdn_ue; [|apply (path_pdn _ _ _ _ _ Hp)]; done. }
  cbv beta iota.
  unfold run. rewrite entry_and_start with (d := entry_of iface a bytes tid ebi
    (mk_timer true ttInterval request_timeout None)) (r := r).
  2: { cp_simpl. rewrite !lookup_insert_eq. done. }
  2-4: done.
  unfold added. destruct s. cp_simpl. cbn in Ha. subst. cp_simpl. rewrite !insert_insert_eq. done.
Qed.
End Lemmas.

(** ** Expiry *)

Section Expiry.
Context {C : Config} {F : Callees}.

(** The next expiry of the timer of [l]. *)
Definition wait_and_fire (l : loc) (s : cp_state) : option cp_state :=
  d ← requests s !! l; v ← ti_value (pt d); fire l (set_clock (Z.max (clock s) v.1) s).

Fixpoint waits (n : nat) (l : loc) (s : cp_state) : option cp_state :=
  match n with O => Some s | S n => s ← waits n l s; wait_and_fire l s end.

(** The one procedure for which the callback returns before it frees the entry. *)
Definition returns_at_once (r : resp_info) : bool :=
  bool_decide (GTP_DELETE_SESSION_REQ = ri_msg_type r) && bool_decide
    (ri_state r = PFCP_SESS_MOD_REQ_SNT_STATE).

(** What the error responses leave of a user: the entries, the context with its bearers, the
    PDN connection. *)
Record untouched (c p : loc) (s s' : cp_state) : Prop := {
  same_requests : requests s' = requests s;
  same_rest : pdn_rest s' = pdn_rest s;
  same_teids : ue_context_by_fteid_hash (ue s') = ue_context_by_fteid_hash (ue s);
  same_bearers : bearers (ue s') = bearers (ue s);
  same_slots : ue_eps_bearers <$> ue_at c (ue s') = ue_eps_bearers <$> ue_at c (ue s);
  same_pdn : is_Some (pdn_at p (ue s)) -> is_Some (pdn_at p (ue s'))
}.

(** The functions that answer for the procedure of a session. *)
Definition may_answer (r : resp_info) (h : callee) : Prop :=
  let msg := ri_msg_type r in
  let state := ri_state r in
  let bearers_of_pgw := state = DELETE_BER_REQ_SNT_STATE \/ state = UPDATE_BEARER_REQ_SNT_STATE \/
    msg = GTP_UPDATE_BEARER_RSP in
  let creates := msg = GTP_CREATE_BEARER_REQ \/ msg = GTP_CREATE_BEARER_RSP in
  let deletes := msg = GTP_DELETE_BEARER_REQ \/ msg = GTP_DELETE_BEARER_RSP in
  let rar := msg = GX_RAR_MSG \/ state = CREATE_BER_REQ_SNT_STATE in
  match h with
  | reset_resp_info_structure _ | cleanup_ue_and_bearer _ _ => state = ERROR_OCCURED_STATE
  | mbr_error_response _ => msg = GTP_MODIFY_BEARER_REQ
  | cbr_error_response _ => msg = GTP_MODIFY_BEARER_REQ \/ rar \/ creates
  | send_bearer_resource_failure_indication _ =>
      msg = GTP_BEARER_RESOURCE_CMD \/ creates \/ deletes \/ bearers_of_pgw
  | provision_ack_ccr _ _ => creates \/ deletes \/ bearers_of_pgw
  | modify_bearer_failure_indication _ => msg = GTP_MODIFY_BEARER_CMD
  | cs_error_response _ | clean_up_while_error _ _ =>
      msg = GTP_CREATE_SESSION_REQ \/ msg = GTP_CREATE_SESSION_RSP
  | send_delete_session_request_after_timer_retry _ | ds_error_response _ => msg = GTP_DELETE_SESSION_REQ
  | delete_bearer_error_response _ => rar \/ deletes
  | gen_reauth_error_response => bearers_of_pgw
  | ubr_error_response _ => msg = GTP_UPDATE_BEARER_REQ
  | release_access_bearer_error_response _ => msg = GTP_RELEASE_ACCESS_BEARERS_REQ
  | send_pfcp_sess_mod_req_for_ddn _ | delete_buff_ddn_req _ => state = DDN_REQ_SNT_STATE
  end.

(** Those of the session leave the user in place. *)
Class KeepsUser (c p : loc) (resp : resp_info) :=
  keeps_user h s : may_answer resp h -> untouched c p s (effect h s).

(** The session of the PDN connection, which waits for an answer; for a piggybacked Create
    Session Request the code takes the index of the bearer for that of a PDN connection. *)
Definition session_waits (ebi : Z) (c p : loc) (resp : resp_info) (s : cp_state) : Prop :=
  exists u pd r, ue_at c (ue s) = Some u /\ pdn_at p (ue s) = Some pd /\
    sm_hash (sessions s) !! pdn_seid pd = Some r /\ cells (sessions s) !! r = Some resp /\
    (ue_piggyback u = true -> ue_cp_mode u = SGWC ->
     ri_msg_type resp = GTP_CREATE_SESSION_REQ \/ ri_msg_type resp = GTP_CREATE_SESSION_RSP ->
     exists p' pd', array_get (ue_pdns u) ebi = Some (Some p') /\ pdn_at p' (ue s) = Some pd').

Lemma untouched_refl c p s : untouched c p s s.
Proof. by split. Qed.

Lemma untouched_trans c p s1 s2 s3 : untouched c p s1 s2 -> untouched c p s2 s3 -> untouched c p s1 s3.
Proof. intros [] []. split; try congruence. auto. Qed.

Lemma untouched_path tid ebi c p s s' : untouched c p s s' -> on_path tid ebi c p s -> on_path tid ebi c p s'.
Proof.
  intros [Hq Hr Ht Hb Hc _] [H1 H2 H3]. split; [|intros R; specialize (H2 R)|by rewrite Hr].
  - revert H1. unfold get_ue_context. by rewrite Ht.
  - revert H2. unfold bearer_pdn, bind, read, deref, skip, fault, bearer_at.
    destruct (ue_at c (ue s)) as [u|], (ue_at c (ue s')) as [u'|]; try done. cbn in Hc. injection Hc as ->.
    destruct (array_get _ _) as [[b|]|]; [|done..]. rewrite Hb. destruct (bearers (ue s) !! b); [|done].
    by intros [= ->].
Qed.

Section Answered.
Context {c p : loc} {resp : resp_info} {K : KeepsUser c p resp} {R : Type}.

Lemma ok_perform (P : cp_state -> unit -> Prop) (Q : cp_state -> R -> Prop) s0 h s :
  may_answer resp h -> untouched c p s0 s -> (forall s', untouched c p s0 s' -> P s' tt) -> ok P Q (perform h) s.
Proof.
  intros Hh Hs HP. apply HP. eapply untouched_trans; [exact Hs|].
  eapply untouched_trans; [|by apply keeps_user]. by split.
Qed.

Lemma ok_performs (P : cp_state -> unit -> Prop) (Q : cp_state -> R -> Prop) s0 hs s :
  Forall (may_answer resp) hs -> untouched c p s0 s -> (forall s', untouched c p s0 s' -> P s' tt) ->
  ok P Q (performs hs) s.
Proof.
  intros Hh. revert s. induction Hh as [|h hs Hh Hhs IH]; intros s Hs HP; [by apply HP|]. cbn [performs foldr].
  apply ok_bind. eapply ok_perform; [exact Hh|exact Hs|]. intros s' Hs'. by apply IH.
Qed.

Lemma ok_context_at (P : cp_state -> ue_context -> Prop) (Q : cp_state -> R -> Prop) s0 s :
  untouched c p s0 s -> is_Some (ue_at c (ue s0)) -> (forall u, ue_at c (ue s) = Some u -> P s u) ->
  ok P Q (context_at c) s.
Proof.
  intros [_ _ _ _ Hc _] [u Hu] HP. rewrite Hu in Hc. unfold context_at.
  apply ok_bind, ok_read. destruct (ue_at c (ue s)) as [u'|] eqn:E; [|done]. by eapply ok_deref, HP.
Qed.

Lemma ok_rest_at (P : cp_state -> pdn_rest_t -> Prop) (Q : cp_state -> R -> Prop) s0 s :
  untouched c p s0 s -> is_Some (pdn_rest s0 !! p) -> (forall r, P s r) -> ok P Q (rest_at p) s.
Proof.
  intros Hs [r Hr] HP. unfold rest_at. apply ok_bind, ok_read.
  rewrite (same_rest _ _ _ _ Hs), Hr. apply ok_skip, HP.
Qed.

Lemma ok_put_resp (P : cp_state -> unit -> Prop) (Q : cp_state -> R -> Prop) s0 r v s :
  untouched c p s0 s -> (forall s', untouched c p s0 s' -> P s' tt) -> ok P Q (put_resp r v) s.
Proof. intros Hs HP. apply ok_modify, HP. eapply untouched_trans; [exact Hs|]. by split. Qed.

Lemma ok_no_piggyback (P : cp_state -> unit -> Prop) (Q : cp_state -> R -> Prop) s0 s :
  untouched c p s0 s -> is_Some (ue_at c (ue s0)) -> (forall s', untouched c p s0 s' -> P s' tt) ->
  ok P Q (update (fun s => ue' ← change_ue c (fun u => Some (set_ue_piggyback false u)) (ue s);
    Some (set_ue ue' s))) s.
Proof.
  intros Hs [u Hu] HP. pose proof (same_slots _ _ _ _ Hs) as Hc. rewrite Hu in Hc.
  destruct (ue_at c (ue s)) as [u'|] eqn:E; [|done]. eapply ok_update.
  - unfold change_ue. rewrite E. reflexivity.
  - apply HP. eapply untouched_trans; [exact Hs|]. split; try done.
    unfold ue_at in *. cbn [ue set_ue contexts set_contexts]. by rewrite lookup_insert_eq, E.
Qed.

Lemma ok_pdn_state (P : cp_state -> unit -> Prop) (Q : cp_state -> R -> Prop) v s0 s :
  untouched c p s0 s -> is_Some (pdn_at p (ue s0)) -> (forall s', untouched c p s0 s' -> P s' tt) ->
  ok P Q (update (fun s => ue' ← change_pdn p (fun pd => Some (set_pdn_state v pd)) (ue s);
    Some (set_ue ue' s))) s.
Proof.
  intros Hs Hp HP. destruct (same_pdn _ _ _ _ Hs Hp) as [pd Hpd]. eapply ok_update.
  - unfold change_pdn. rewrite Hpd. reflexivity.
  - apply HP. eapply untouched_trans; [exact Hs|]. split; try done.
    intros _. unfold pdn_at. cbn. rewrite lookup_insert_eq. by eexists.
Qed.

Lemma returns_later r : GTP_DELETE_SESSION_REQ <> ri_msg_type r \/ ri_state r <> PFCP_SESS_MOD_REQ_SNT_STATE ->
  returns_at_once r = false.
Proof. intros H. unfold returns_at_once. apply andb_false_iff. rewrite !bool_decide_eq_false. tauto. Qed.

(** The error responses of all procedures. *)
Ltac decided E := rewrite ?andb_true_iff, ?orb_true_iff, ?bool_decide_eq_true in E.
Ltac may_answer :=
  repeat match goal with |- context [if ?b then _ else _] => destruct b end;
  repeat (apply Forall_cons; split); try apply Forall_nil; cbn [may_answer] in *; intuition congruence.

Ltac answered :=
  cbv beta iota;
  lazymatch goal with
  | |- ok _ _ (bind (perform _) _) _ => apply ok_bind;
      eapply ok_perform; [may_answer|eassumption|intros ? ?; answered]
  | |- ok _ _ (perform _) _ => eapply ok_perform; [may_answer|eassumption|intros ? ?; answered]
  | |- ok _ _ (bind (performs _) _) _ => apply ok_bind;
      eapply ok_performs; [may_answer|eassumption|intros ? ?; answered]
  | |- ok _ _ (performs _) _ => eapply ok_performs; [may_answer|eassumption|intros ? ?; answered]
  | |- ok _ _ (context_at _) _ => eapply ok_context_at; [eassumption|by eexists|intros ? ?; answered]
  | |- ok _ _ (rest_at _) _ => eapply ok_rest_at; [eassumption|by eexists|intros ?; answered]
  | |- ok _ _ (put_resp _ _) _ => eapply ok_put_resp; [eassumption|intros ? ?; answered]
  | |- ok _ _ (update (fun s => mbind _ (change_ue _ _ _))) _ =>
      eapply ok_no_piggyback; [eassumption|by eexists|intros ? ?; answered]
  | |- ok _ _ (update _) _ => eapply ok_pdn_state; [eassumption|by eexists|intros ? ?; answered]
  | |- ok _ _ (bind (if ?b then _ else _) _) _ => apply ok_bind; destruct b; answered
  | |- ok _ _ (if ?b then _ else _) _ => destruct b; answered
  | |- ok _ _ (bind _ _) _ => apply ok_bind; answered
  | |- ok _ _ (skip _) _ => apply ok_skip; answered
  | _ => idtac
  end.

Lemma peer_not_responding_answers r tid ebi u pd s :
  ue_at c (ue s) = Some u -> pdn_at p (ue s) = Some pd -> cells (sessions s) !! r = Some resp ->
  is_Some (pdn_rest s !! p) ->
  (ue_piggyback u = true -> ue_cp_mode u = SGWC ->
   ri_msg_type resp = GTP_CREATE_SESSION_REQ \/ ri_msg_type resp = GTP_CREATE_SESSION_RSP ->
   exists p' pd', array_get (ue_pdns u) ebi = Some (Some p') /\ pdn_at p' (ue s) = Some pd') ->
  ok (fun s' b => untouched c p s s' /\ b = returns_at_once resp) (fun _ _ => False)
    (peer_not_responding (R := R) c p r tid ebi) s.
Proof.
  intros Hu Hp Hr [rest Hrest] Hpb. pose proof (untouched_refl c p s) as H0.
  unfold peer_not_responding. apply ok_bind. eapply ok_context_at; [exact H0|by eexists|].
  intros u' Hu'. assert (u' = u) as -> by congruence. apply ok_bind, ok_read, ok_bind. rewrite Hr.
  apply ok_skip, ok_bind. unfold pdn_of. apply ok_bind, ok_read. rewrite Hp. apply ok_skip.
  cbv beta zeta.
  destruct (bool_decide (ri_state resp = _)) eqn:E1.
  { decided E1. answered. split; [done|]. rewrite returns_later; [done|rewrite E1; by right]. }
  destruct (bool_decide (GTP_MODIFY_BEARER_REQ = _)) eqn:E2.
  { decided E2. answered; (split; [done|]; rewrite returns_later; [done|rewrite <- E2; by left]). }
  destruct (bool_decide (GTP_BEARER_RESOURCE_CMD = _)) eqn:E3.
  { decided E3. answered. split; [done|]. rewrite returns_later; [done|rewrite <- E3; by left]. }
  destruct (bool_decide (GTP_MODIFY_BEARER_CMD = _)) eqn:E4.
  { decided E4. answered. split; [done|]. rewrite returns_later; [done|rewrite <- E4; by left]. }
  destruct (_ || _) eqn:E5.
  { decided E5.
    assert (returns_at_once resp = false) as -> by (apply returns_later; left; destruct E5 as [<-|<-]; done).
    destruct (negb _ || _) eqn:E6; [by answered|].
    rewrite orb_false_iff, negb_false_iff, bool_decide_eq_false in E6. destruct E6 as [E6 E7].
    destruct Hpb as (p' & pd' & Hp' & Hpd'); [done|by apply dec_stable|destruct E5; auto|].
    rewrite Hp'. apply ok_bind, ok_bind, ok_skip, ok_bind, ok_skip, ok_bind. unfold pdn_of.
    apply ok_bind, ok_read. rewrite Hpd'. apply ok_skip. by answered. }
  destruct (bool_decide (GTP_DELETE_SESSION_REQ = _)) eqn:E6.
  { pose proof E6 as E8. decided E8.
    destruct (bool_decide (ri_state resp = PFCP_SESS_MOD_REQ_SNT_STATE)) eqn:E7; answered; (split; [done|]);
      unfold returns_at_once; by rewrite E6, E7. }
  assert (returns_at_once resp = false) as -> by (unfold returns_at_once; by rewrite E6).
  clear E1 E2 E3 E4 E5 E6.
  repeat match goal with |- ok _ _ (if ?b then _ else _) _ =>
    let E := fresh "E" in destruct b eqn:E; [decided E; by answered|clear E] end.
  by answered.
Qed.

Lemma session_failed_answers d s :
  on_path (teid (extra d)) (ebi_index (extra d)) c p s -> session_waits (ebi_index (extra d)) c p resp s ->
  ok (fun s' b => untouched c p s s' /\ b = returns_at_once resp)
    (fun _ _ => False) (session_failed (R := R) c d) s.
Proof.
  intros Hp (u & pd & r & Hu & Hpd & Hh & Hr & Hpb). unfold session_failed.
  apply ok_bind. unfold ok at 1. rewrite (path_pdn _ _ _ _ _ Hp). cbv beta iota. apply ok_bind. unfold pdn_of.
  apply ok_bind, ok_read. rewrite Hpd. apply ok_skip, ok_bind, ok_read, ok_bind.
  unfold get_sess_entry. rewrite Hh. cbn [mbind option_bind]. rewrite Hr. apply ok_skip. cbv beta iota.
  rewrite bool_decide_true by done. apply ok_bind, ok_skip.
  eapply peer_not_responding_answers; [done..| |done]. apply (path_rest _ _ _ _ _ Hp).
Qed.
End Answered.

Lemma timer_callback_resend l d s :
  requests s !! l = Some d -> itr_cnt d < u8 request_tries - 1 -> 0 <= itr_cnt d < 255 ->
  portId d ∈ [S11_IFACE; S5S8_IFACE; PFCP_IFACE] ->
  timer_callback l s =
  Some (set_sent (retry_output (mk_datagram (portId d) (dstIP d) (dstPort (extra d)) (buf (extra d))) ++ sent s)
    (set_requests (<[l := set_itr_cnt (itr_cnt d + 1) (set_itr (u8 request_tries) d)]> (requests s)) s), tt).
Proof.
  intros Hd Hc Hr Hp. unfold timer_callback. erewrite run_bind by (by apply request_at_next). cbv zeta.
  erewrite run_bind by reflexivity. rewrite bool_decide_false by (cbn; lia).
  erewrite run_bind. 2: {
    rewrite !elem_of_cons, elem_of_nil in Hp. cbn [portId set_itr].
    rewrite (proj2 (orb_true_iff _ _)). 2: { rewrite orb_true_iff, !bool_decide_eq_true. tauto. }
    reflexivity. }
  erewrite run_bind by (apply request_at_next; cp_simpl; by rewrite lookup_insert_eq).
  unfold run, put_request, modify. cp_simpl. rewrite insert_insert_eq. cbn [itr_cnt set_itr].
  unfold u8 at 2. rewrite wrap_small by lia. by destruct s.
Qed.

Lemma timer_callback_last l d c p resp s (K : KeepsUser c p resp) :
  requests s !! l = Some d -> u8 request_tries - 1 <= itr_cnt d -> ti_id (pt d) = true ->
  on_path (teid (extra d)) (ebi_index (extra d)) c p s -> session_waits (ebi_index (extra d)) c p resp s ->
  exists s', timer_callback l s = Some (s', tt) /\ pdn_rest s' = pdn_rest s /\
    on_path (teid (extra d)) (ebi_index (extra d)) c p s' /\
    requests s' = if returns_at_once resp then <[l := set_itr (u8 request_tries) d]> (requests s)
      else delete l (requests s).
Proof.
  intros Hd Hc Hi Hp Hn. unfold timer_callback. erewrite run_bind by (by apply request_at_next). cbv zeta.
  erewrite run_bind by reflexivity. rewrite bool_decide_true by (cbn; lia).
  erewrite run_bind by (unfold read; cp_simpl; cbn [extra set_itr];
    by rewrite (path_context _ _ _ _ _ Hp)). cbv beta iota. rewrite bool_decide_false by lia.
  set (s1 := set_requests _ s).
  assert (on_path (teid (extra d)) (ebi_index (extra d)) c p s1) as Hp1
    by (eapply path_keep; [exact Hp|done|exact (path_rest _ _ _ _ _ Hp)]).
  pose proof (session_failed_answers (R := unit) (set_itr (u8 request_tries) d) s1 Hp1 Hn) as H.
  unfold ok in H. unfold run, bind at 1. destruct (session_failed _ _ _) as [s2 b| |]; [|done..].
  destruct H as [Hs ->]. pose proof (untouched_path _ _ _ _ _ _ Hs Hp1) as Hp2.
  pose proof (same_requests _ _ _ _ Hs) as Eq. pose proof (same_rest _ _ _ _ Hs) as Er.
  destruct (returns_at_once resp).
  - eexists. split; [reflexivity|]. done.
  - assert (requests s2 !! l = Some (set_itr (u8 request_tries) d)) as Hd2 by (rewrite Eq;
    apply lookup_insert_eq).
    unfold bind. rewrite (request_at_next _ _ _ Hd2). cbn [pt set_itr]. rewrite Hi.
    rewrite (stop_and_free_next _ _ _ Hd2). eexists. split; [reflexivity|]. split; [done|]. split.
    + eapply path_keep; [exact Hp2|done|exact (path_rest _ _ _ _ _ Hp2)].
    + cp_simpl. rewrite Eq. unfold s1. cp_simpl. apply delete_insert_eq.
Qed.
End Expiry.

(** ** The life of a request *)

(** What [k] retransmissions put out. *)
Definition resent {C : Config} (k : nat) (d : datagram) : list output := concat (replicate k (retry_output d)).

(** A datagram for which there is a socket. *)
Definition has_socket {C : Config} (d : datagram) : bool :=
  negb pcap_dumper &&
  (bool_decide (ip_type (d_addr d) = PDN_TYPE_IPV4) && bool_decide (0 < fd_v4 (d_iface d)) ||
   bool_decide (ip_type (d_addr d) = PDN_TYPE_IPV6) && bool_decide (0 < fd_v6 (d_iface d))).

Lemma resent_datagrams {C : Config} k d : has_socket d = true -> resent k d = replicate k (Sent d).
Proof.
  intros H. assert (retry_output d = [Sent d]) as E.
  { unfold has_socket, retry_output, gtpv2c_send in *. destruct pcap_dumper; [done|]. cbn [negb andb] in H.
    apply orb_true_iff in H as [[H1%bool_decide_eq_true H2%bool_decide_eq_true]%andb_true_iff
      |[H1%bool_decide_eq_true H2%bool_decide_eq_true]%andb_true_iff]; rewrite H1.
    - by rewrite bool_decide_true, bool_decide_false by (done || lia).
    - rewrite bool_decide_false by done. by rewrite bool_decide_true, bool_decide_false by (done || lia). }
  unfold resent. rewrite E. clear. induction k as [|k IH]; [done|]. cbn. by rewrite IH.
Qed.

Section Life.
Context {C : Config} {F : Callees}.
Context (iface : Z) (a : peer_addr_t) (bytes : list byte) (tid ebi : Z).

(** The datagram of the request. *)
Definition request_datagram : datagram :=
  let e := entry_of iface a bytes tid ebi zero_timer in
  mk_datagram (portId e) (dstIP e) (dstPort (extra e)) bytes.

(** The state [k] expiries after the request was added to [s]. *)
Definition waited (k : nat) (p : loc) (r : pdn_rest_t) (s : cp_state) : cp_state :=
  mk_cp (clock s + Z.of_nat k * request_timeout) [] (Pos.succ (next_loc s)) (ue s) (sessions s)
    (<[p := set_timer_entry (Some (next_loc s)) r]> (pdn_rest s))
    (<[next_loc s := waiting iface a bytes tid ebi k (clock s + (Z.of_nat k + 1) * request_timeout)]>
      (requests s))
    (resent k request_datagram ++ sent s) (called s).

Lemma wait_and_fire_due l d t s s' : requests s !! l = Some d -> ti_value (pt d) = Some (t, request_timeout) ->
  0 < request_timeout -> clock s <= t ->
  timer_callback l (set_requests (<[l := set_pt (mk_timer (ti_id (pt d)) (ti_type (pt d)) (ti_ms (pt d))
    (Some (t + request_timeout, request_timeout))) d]> (requests s)) (set_clock t s)) = Some (s', tt) ->
  wait_and_fire l s = Some s'.
Proof.
  intros Hd Hv Ht Hc Hf. unfold wait_and_fire. rewrite Hd. cbn [mbind option_bind]. rewrite Hv. cbn [mbind
    option_bind fst].
  rewrite Z.max_r by lia. unfold fire. cp_simpl. rewrite Hd. cbn [mbind option_bind]. rewrite Hv. cbn [mbind
    option_bind fst].
  rewrite bool_decide_true by lia. unfold expired. rewrite Hv.
  destruct request_timeout as [|T|T] eqn:E; [lia| |lia]. rewrite Hf. done.
Qed.

Hypothesis tries_ok : 1 <= request_tries < 256.
Hypothesis timeout_ok : 0 < request_timeout.

Lemma u8_tries : u8 request_tries = request_tries.
Proof. apply wrap_small. lia. Qed.

Lemma set_clock_requests t v c an n u ss pr rq se ca :
  set_requests v (set_clock t (mk_cp c an n u ss pr rq se ca)) = mk_cp t an n u ss pr v se ca.
Proof. done. Qed.

Lemma set_sent_requests v w c an n u ss pr rq se ca :
  set_sent v (set_requests w (mk_cp c an n u ss pr rq se ca)) = mk_cp c an n u ss pr w v ca.
Proof. done. Qed.

Lemma waiting_next k t :
  set_itr_cnt (itr_cnt (waiting iface a bytes tid ebi k t) + 1) (set_itr request_tries
    (waiting iface a bytes tid ebi k t)) =
  waiting iface a bytes tid ebi (S k) t.
Proof.
  unfold waiting, entry_of, set_itr_cnt, set_itr.
  cbn [portId activityFlag itr itr_cnt dstIP rcv_time pt PeerTimer.tt extra]. f_equal. lia.
Qed.

Lemma waiting_expired k t t' :
  set_pt (mk_timer (ti_id (armed t)) (ti_type (armed t)) (ti_ms (armed t)) (Some (t', request_timeout)))
    (waiting iface a bytes tid ebi k t) = waiting iface a bytes tid ebi k t'.
Proof. done. Qed.

Lemma waits_resends p r s k : u8 iface ∈ [S11_IFACE; S5S8_IFACE; PFCP_IFACE] -> Z.of_nat k < request_tries ->
  waits k (next_loc s) (waited 0 p r s) = Some (waited k p r s).
Proof.
  intros Hi. induction k as [|k IH]; intros Hk;
    [done|]. cbn [waits]. rewrite IH by lia. cbn [mbind option_bind].
  eapply wait_and_fire_due; [cp_simpl; apply lookup_insert_eq|reflexivity|done|cbn; lia|].
  rewrite timer_callback_resend with (d := waiting iface a bytes tid ebi k
    (clock s + (Z.of_nat (S k) + 1) * request_timeout)).
  - unfold waited. rewrite set_clock_requests, set_sent_requests. cp_simpl.
    rewrite u8_tries, !insert_insert_eq, waiting_next. unfold resent. cbn [replicate concat app]. rewrite <-
      app_assoc. do 3 f_equal. nia.
  - cp_simpl. rewrite lookup_insert_eq. f_equal. etrans; [apply waiting_expired|]. f_equal. lia.
  - rewrite u8_tries. cbn. lia.
  - cbn. lia.
  - done.
Qed.

Lemma added_waited p r s : added (waiting iface a bytes tid ebi 0
  (clock s + request_timeout)) p r s = waited 0 p r s.
Proof.
  unfold waited, added, resent. cbn [replicate concat app].
  replace (clock s + Z.of_nat 0 * request_timeout) with (clock s) by lia.
  by replace (clock s + (Z.of_nat 0 + 1) * request_timeout) with (clock s + request_timeout) by lia.
Qed.

(** What [waited] leaves for the deletions and the last expiry. *)
Lemma waited_path c p r s k : on_path tid ebi c p s -> on_path tid ebi c p (waited k p r s).
Proof. intros H. eapply path_keep;
  [done|done|]. unfold waited. cp_simpl. rewrite lookup_insert_eq. by eexists. Qed.

Lemma delete_waited clear c p r s k : on_path tid ebi c p s -> requests s !! next_loc s = None ->
  exists s', delete_if_timer_entry clear tid ebi (waited k p r s) = Some (s', tt) /\
    requests s' = requests s /\ sent s' = sent (waited k p r s) /\ ue s' = ue s /\
    pdn_rest s' = <[p := set_timer_entry (if clear then None else Some (next_loc s)) r]> (pdn_rest s).
Proof.
  intros Hp Hn. rewrite (delete_if_timer_entry_path _ _ _ _ _ _ (waited_path c p r s k Hp)). unfold run.
  rewrite delete_entry_of_next with (r := set_timer_entry (Some (next_loc s)) r) (l := next_loc s)
    (d := waiting iface a bytes tid ebi k (clock s + (Z.of_nat k + 1) * request_timeout));
    [|cp_simpl; apply lookup_insert_eq|done|cp_simpl; apply lookup_insert_eq|done].
  unfold waited. eexists. split; [done|]. cp_simpl. split_and!; [by rewrite delete_insert_id| |..]; try done.
  destruct clear; [by rewrite insert_insert_eq|done].
Qed.

Lemma waited_session c p resp r s k : session_waits ebi c p resp s -> session_waits ebi c p resp
  (waited k p r s).
Proof. done. Qed.

Lemma last_expiry c p r resp s (K : KeepsUser c p resp) :
  on_path tid ebi c p s -> session_waits ebi c p resp s -> requests s !! next_loc s = None ->
  exists s', wait_and_fire (next_loc s) (waited (Z.to_nat request_tries - 1) p r s) = Some s' /\
    on_path tid ebi c p s' /\ pdn_rest s' !! p = Some (set_timer_entry (Some (next_loc s)) r) /\
    if returns_at_once resp
    then exists d t, requests s' !! next_loc s = Some d /\ ti_value (pt d) = Some (t, request_timeout)
    else requests s' = requests s.
Proof.
  intros Hp Hw Hn. set (k := (Z.to_nat request_tries - 1)%nat).
  set (t := clock s + (Z.of_nat k + 1) * request_timeout).
  set (d := waiting iface a bytes tid ebi k (t + request_timeout)).
  set (s1 := set_requests (<[next_loc s := d]> (requests (waited k p r s))) (set_clock t (waited k p r s))).
  destruct (timer_callback_last (next_loc s) d c p resp s1 K) as (s' & E & Er & Ep & Eq).
  - apply lookup_insert_eq.
  - rewrite u8_tries. cbn. lia.
  - done.
  - eapply path_keep; [exact (waited_path c p r s k Hp)|done|exact (path_rest _ _ _ _ _
    (waited_path c p r s k Hp))].
  - exact Hw.
  - exists s'. split; [|split; [exact Ep|split]].
    + eapply wait_and_fire_due; [cp_simpl; apply lookup_insert_eq|reflexivity|done|cbn; nia|]. exact E.
    + rewrite Er. apply lookup_insert_eq.
    + rewrite Eq. unfold s1, waited. cp_simpl. destruct (returns_at_once resp).
      * exists (set_itr (u8 request_tries) d), (t + request_timeout). split; [apply lookup_insert_eq|done].
      * by rewrite insert_insert_eq, delete_insert_id.
Qed.
End Life.

Lemma pfcp_retried : u8 PFCP_IFACE ∈ [S11_IFACE; S5S8_IFACE; PFCP_IFACE].
Proof. apply (bool_decide_unpack _). reflexivity. Qed.

Section Properties.
Context {C : Config} {F : Callees}.

(** What a new request needs: a place for its entry, the length of a message, tries and a
    timeout that are configured, memory. *)
Record can_request (tid ebi : Z) (bytes : list byte) (c p : loc) (s : cp_state) : Prop := {
  request_path : on_path tid ebi c p s;
  request_fits : (length bytes <= PFCP_MSG_LEN)%nat;
  request_memory : answers s = [];
  request_fresh : requests s !! next_loc s = None;
  request_config : 1 <= request_tries < 256;
  request_timeout_pos : 0 < request_timeout
}.

(** C16. A PFCP request is sent again each time that its timer expires, with the same bytes
    to the same address if there is a socket for it (or into the dump, if one is written),
    until the answer deletes the entry; then nothing of it is left, and a second answer
    changes nothing. *)
Theorem request_resent_until_answer tid ebi bytes a c p s k :
  can_request tid ebi bytes c p s -> Z.of_nat k < request_tries ->
  exists s1 s2 s3, add_pfcp_if_timer_entry tid a bytes ebi s = Some (s1, tt) /\
    waits k (next_loc s) s1 = Some s2 /\
    sent s2 = resent k (request_datagram PFCP_IFACE a bytes tid ebi) ++ sent s /\
    (has_socket (request_datagram PFCP_IFACE a bytes tid ebi) = true ->
     sent s2 = replicate k (Sent (request_datagram PFCP_IFACE a bytes tid ebi)) ++ sent s) /\
    clock s2 = clock s + Z.of_nat k * request_timeout /\
    delete_pfcp_if_timer_entry tid ebi s2 = Some (s3, tt) /\
    requests s3 = requests s /\ sent s3 = sent s2 /\
    delete_pfcp_if_timer_entry tid ebi s3 = Some (s3, tt).
Proof.
  intros [Hp Hl Ha Hn Ht Ht0] Hk. destruct (path_rest _ _ _ _ _ Hp) as [r Hr].
  do 2 eexists. rewrite (add_pfcp_next tid a bytes ebi c p r s) by done. rewrite added_waited.
  destruct (delete_waited PFCP_IFACE a bytes tid ebi true c p r s k Hp Hn) as (s3 & E & E1 & E2 & E3 & E4).
  exists s3. split; [done|]. split; [apply waits_resends; [done|done|exact pfcp_retried|done]|].
  split_and!; try done; [intros Hs; by rewrite <- (resent_datagrams _ _ Hs)|].
  unfold delete_pfcp_if_timer_entry. rewrite (delete_if_timer_entry_path _ tid ebi c p).
  - unfold run. rewrite delete_entry_of_none with (r := set_timer_entry None r); [done| |done].
    rewrite E4. apply lookup_insert_eq.
  - eapply path_keep; [done|by rewrite E3|]. rewrite E4, lookup_insert_eq. by eexists.
Qed.


(** The deletion that the acknowledgement of a GTPv2-C request calls frees the entry and
    keeps the pointer: the second of two acknowledgements uses the freed entry. *)
Theorem repeated_ack_uses_freed_entry tid ebi bytes a iface mode c p s :
  can_request tid ebi bytes c p s -> mode <> SGWC \/ (get_bearer_by_teid tid (ue s)).1 < 0 ->
  exists s1 s2, add_gtpv2c_if_timer_entry tid a bytes ebi iface mode s = Some (s1, tt) /\
    delete_gtpv2c_if_timer_entry tid ebi s1 = Some (s2, tt) /\ requests s2 = requests s /\
    delete_gtpv2c_if_timer_entry tid ebi s2 = None.
Proof.
  intros [Hp Hl Ha Hn Ht Ht0] Hm. destruct (path_rest _ _ _ _ _ Hp) as [r Hr].
  rewrite (add_gtpv2c_next iface mode tid a bytes ebi c p r s) by done. rewrite added_waited.
  destruct (delete_waited iface a bytes tid ebi false c p r s 0 Hp Hn) as (s2 & E & E1 & E2 & E3 & E4).
  do 2 eexists. split; [done|]. split; [done|]. split; [done|].
  unfold delete_gtpv2c_if_timer_entry. rewrite (delete_if_timer_entry_path _ tid ebi c p).
  - unfold run. rewrite delete_entry_of_freed with (r := set_timer_entry (Some (next_loc s)) r)
    (l := next_loc s); try done.
    + rewrite E4. apply lookup_insert_eq.
    + by rewrite E1.
  - eapply path_keep; [done|by rewrite E3|]. rewrite E4, lookup_insert_eq. by eexists.
Qed.
End Properties.

(** ** A session *)

#[local] Instance sample_config : Config :=
  {| request_tries := 3; request_timeout := 3000; pcap_dumper := false; fd_v4 _ := 5; fd_v6 _ := -1 |}.
#[local] Instance quiet : Callees := fun _ s => s.

(** The PDN connection 3 of the user 1 with the bearer 2 at index 4; its session waits for
    the modification that a Modify Bearer Request asked for. *)
Definition sample_ue : ue_store :=
  mk_store {[1%positive := mk_ue 0 0 SGWC false false 0 0 0 0 0 0x51 1 0
    (replicate 4 None ++ Some 3%positive :: replicate 9 None)
                (replicate 4 None ++ Some 2%positive :: replicate 23 None) None]}
    {[3%positive := mk_pdn 0 CONNECTED_STATE 5 1 0 0x515 None (replicate 28 None) (Some 1%positive)]}
    {[2%positive := mk_bearer 5 [] (Some 3%positive)]} ∅ ∅ {[0x51 := 1%positive]} ∅ ∅ (teids empty_store).
Definition sample_resp : resp_info :=
  mk_resp 0 CONNECTED_STATE GTP_MODIFY_BEARER_REQ SGWC 0 0 0 0 0 [] [] 0 0.
Definition sample_session : sm_store :=
  mk_sm {[7%positive := sample_resp]}
    {[0x515 := 7%positive]}.
Definition sample_state : cp_state :=
  mk_cp 1000 [] 1%positive sample_ue sample_session {[3%positive := mk_pdn_rest None 0 0]} ∅ [] [].
Definition sample_peer_addr : peer_addr_t := mk_peer_addr PDN_TYPE_IPV4 8805 0x0a000001 0 [].
Definition sample_bytes : list byte := [x21; x34; x00; x10].

Lemma sample_can_request : can_request 0x51 4 sample_bytes 1%positive 3%positive sample_state.
Proof.
  split; [split|..]; try done; try by eexists. apply Nat.leb_le. reflexivity.
Qed.

Lemma sample_waits : session_waits 4 1%positive 3%positive sample_resp sample_state.
Proof. do 3 eexists. split_and!; try reflexivity. discriminate. Qed.

Lemma quiet_keeps c p resp : KeepsUser c p resp.
Proof. intros h s _. apply untouched_refl. Qed.

Example request_resent_until_answer_witness : exists s1 s2 s3,
  add_pfcp_if_timer_entry 0x51 sample_peer_addr sample_bytes 4 sample_state = Some (s1, tt) /\
  waits 2 1%positive s1 = Some s2 /\ clock s2 = 7000 /\ length (sent s2) = 2%nat /\
  delete_pfcp_if_timer_entry 0x51 4 s2 = Some (s3, tt) /\ requests s3 = ∅.
Proof.
  destruct (request_resent_until_answer 0x51 4 sample_bytes sample_peer_addr 1%positive 3%positive sample_state
    2
    sample_can_request ltac:(reflexivity)) as (s1 & s2 & s3 & E1 & E2 & Es & _ & Ec & E3 & E4 & _).
  exists s1, s2, s3. split; [exact E1|]. split; [exact E2|]. split; [exact Ec|]. split; [rewrite Es;
    reflexivity|].
  split; [exact E3|exact E4].
Defined.


Example repeated_ack_uses_freed_entry_witness : exists s1 s2,
  add_gtpv2c_if_timer_entry 0x51 sample_peer_addr sample_bytes 4 S11_IFACE SGWC sample_state = Some (s1, tt) /\
  delete_gtpv2c_if_timer_entry 0x51 4 s1 = Some (s2, tt) /\ delete_gtpv2c_if_timer_entry 0x51 4 s2 = None.
Proof.
  destruct (repeated_ack_uses_freed_entry 0x51 4 sample_bytes sample_peer_addr S11_IFACE SGWC 1%positive
    3%positive
    sample_state sample_can_request ltac:(right; reflexivity)) as (s1 & s2 & E1 & E2 & _ & E3).
  exists s1, s2. split; [exact E1|]. split; [exact E2|exact E3].
Defined.
