(* ===== verification/CpDdn.v ===== *)
(** * Downlink data notifications of the control plane (cp/cp_timer.c,
    pfcp_messages/pfcp_association.c, cp/gtpv2c_messages/downlink_data_notification.c)

    When data for an idle user arrives, the user plane reports it and the control plane
    asks the MME to page the user.  The acknowledgement of the MME can delay further
    notifications for the user, have the user plane keep its packets for a time, and
    throttle the notifications of bearers of low priority for all of its users.

    The state extends that of CpTimer.v; members of contexts and bearers that UeContext.v
    does not have are in [ue_rest] and [bearer_rest].  Messages to other nodes are events,
    newest first; among them, as history, the ends of notifications without an
    acknowledgement.  The timer of the request that carries a notification is that of
    CpTimer.v.  The encoded notification, the widths of the fields of the
    acknowledgement (libgtpv2c) and what uninitialised memory holds are parameters.

    - [ddn_by_session_id] allocates the 16 bytes of a [thrtle_count] for a [pdr_ids] of 34
      bytes; the allocator gives whole cache lines, so that the copy is taken as it is.
    - The sequence number of a notification and the statistics are not modelled. *)
From Stdlib Require Import SpecFloat.
From S2P Require Import Prelude CText NodeAddr LList SeidList PeerTimer.
From S2P Require Import SmTable CpTables CMonad UeContext SmSession Gtpc CpTimer.

Definition ADD_ENTRY : Z := 0.
Definition DELETE_ENTRY : Z := 2.
Definition MAX_LIST_SIZE : nat := 16.
Definition TWOSEC : Z := 2 * 1000.
Definition ONEMINUTE : Z := 60 * 1000.
Definition TENMINUTE : Z := 600 * 1000.
Definition ONEHOUR : Z := 3600 * 1000.
Definition TENHOUR : Z := 36000 * 1000.
Definition PDN_TYPE_IPV4_IPV6 : Z := 3.
Definition PFCP_SESSION_REPORT_REQUEST : Z := 56.

(** ** Numbers of C's type [float] *)

Definition f32_of (n : Z) : spec_float := binary_normalize 24 128 n 0 false.
Definition f32_add := SFadd 24 128.
Definition f32_mul := SFmul 24 128.
Definition f32_div := SFdiv 24 128.

(** The conversion to an integer cuts off. *)
Definition f32_trunc (x : spec_float) : Z :=
  match x with
  | S754_finite s m e => (if s then Z.opp else id) (Z.shiftl (Zpos m) e)
  | _ => 0
  end.

(** ** State *)

(** [pdr_id] has [MAX_LIST_SIZE] elements. *)
Record pdr_ids := mk_pdr_ids { pdr_count : Z; pdr_id : list Z; ddn_buffered_count : Z }.
Record sess_info := mk_sess_info { si_pdr_count : Z; si_pdr_id : list Z; si_sess_id : Z }.
Definition zero_pdr_id : list Z := replicate MAX_LIST_SIZE 0.

Definition set_buffered_count (v : Z) (r : pdr_ids) : pdr_ids := mk_pdr_ids (pdr_count r) (pdr_id r) v.

(** Times in milliseconds. *)
Record ue_level_timer := mk_level { lv_pt : gstimerinfo_t; sess_id : Z; start_time : Z }.

(** [node_ip] points to the [s11_mme_gtpc_ip] of a context. *)
Record throttle_timer := mk_throttle { th_pt : gstimerinfo_t; throttle_factor : Z; node_ip : loc;
  th_start : Z }.

Record thrtle_count := mk_count { prev_ddn_eval : spec_float; prev_ddn_discard : spec_float; sess_ptr : ptr }.

Record ue_rest_t := mk_ue_rest { s11_mme_gtpc_ip : node_address_t; pfcp_rept_resp_sent_flag : Z }.

(** A PDR: its rule, and whether its source interface is the core. *)
Record bearer_rest_t := mk_bearer_rest { priority_level : Z; eb_pdrs : list (option (Z * bool));
  eb_pdr_count : Z }.

(** The tables of a UE level timer: the delay of notifications, the buffering of reports. *)
Inductive level := Delay | Buffering.

Inductive event :=
| DdnSent (seid : Z) (ebi : option Z)
| ReportResponse (seq : Z) (p : loc) (sugg_pkt_cnt : Z) (dldr : bool)
| DropBuffered (seid : Z)
| Cdr (seid : Z)
| DdnEnded (seid : Z).

Record ddn_state := mk_ddn {
  base : cp_state;
  ue_rest : gmap loc ue_rest_t;
  bearer_rest : gmap loc bearer_rest_t;
  default_sugg_sent : gset loc;
  s11_mme_sockaddr : peer_addr_t;
  level_timers : gmap loc ue_level_timer;
  timer_by_teid_hash : gmap Z loc;
  dl_timer_by_teid_hash : gmap Z loc;
  pdr_sets : gmap loc pdr_ids;
  ddn_by_seid_hash : gmap Z loc;
  pfcp_rep_by_seid_hash : gmap Z loc;
  buffered_ddn_req_hash : gmap Z loc;
  throttle_timers : gmap loc throttle_timer;
  thrtl_timer_by_nodeip_hash : gmap Z loc;
  counts : gmap loc thrtle_count;
  thrtl_ddn_count_hash : gmap Z loc;
  sess_infos : heap sess_info;
  events : list event
}.

Definition set_base (v : cp_state) (r : ddn_state) : ddn_state :=
  mk_ddn v (ue_rest r) (bearer_rest r) (default_sugg_sent r) (s11_mme_sockaddr r) (level_timers r)
    (timer_by_teid_hash r) (dl_timer_by_teid_hash r) (pdr_sets r) (ddn_by_seid_hash r)
    (pfcp_rep_by_seid_hash r) (buffered_ddn_req_hash r) (throttle_timers r)
    (thrtl_timer_by_nodeip_hash r) (counts r) (thrtl_ddn_count_hash r) (sess_infos r) (events r).
Definition set_ue_rest (v : gmap loc ue_rest_t) (r : ddn_state) : ddn_state :=
  mk_ddn (base r) v (bearer_rest r) (default_sugg_sent r) (s11_mme_sockaddr r) (level_timers r)
    (timer_by_teid_hash r) (dl_timer_by_teid_hash r) (pdr_sets r) (ddn_by_seid_hash r)
    (pfcp_rep_by_seid_hash r) (buffered_ddn_req_hash r) (throttle_timers r)
    (thrtl_timer_by_nodeip_hash r) (counts r) (thrtl_ddn_count_hash r) (sess_infos r) (events r).
Definition set_default_sugg_sent (v : gset loc) (r : ddn_state) : ddn_state :=
  mk_ddn (base r) (ue_rest r) (bearer_rest r) v (s11_mme_sockaddr r) (level_timers r) (timer_by_teid_hash r)
    (dl_timer_by_teid_hash r) (pdr_sets r) (ddn_by_seid_hash r) (pfcp_rep_by_seid_hash r)
    (buffered_ddn_req_hash r) (throttle_timers r) (thrtl_timer_by_nodeip_hash r) (counts r)
    (thrtl_ddn_count_hash r) (sess_infos r) (events r).
Definition set_s11_mme_sockaddr (v : peer_addr_t) (r : ddn_state) : ddn_state :=
  mk_ddn (base r) (ue_rest r) (bearer_rest r) (default_sugg_sent r) v (level_timers r) (timer_by_teid_hash r)
    (dl_timer_by_teid_hash r) (pdr_sets r) (ddn_by_seid_hash r) (pfcp_rep_by_seid_hash r)
    (buffered_ddn_req_hash r) (throttle_timers r) (thrtl_timer_by_nodeip_hash r) (counts r)
    (thrtl_ddn_count_hash r) (sess_infos r) (events r).
Definition set_level_timers (v : gmap loc ue_level_timer) (r : ddn_state) : ddn_state :=
  mk_ddn (base r) (ue_rest r) (bearer_rest r) (default_sugg_sent r) (s11_mme_sockaddr r) v
    (timer_by_teid_hash r) (dl_timer_by_teid_hash r) (pdr_sets r) (ddn_by_seid_hash r)
    (pfcp_rep_by_seid_hash r) (buffered_ddn_req_hash r) (throttle_timers r)
    (thrtl_timer_by_nodeip_hash r) (counts r) (thrtl_ddn_count_hash r) (sess_infos r) (events r).
Definition set_timer_by_teid_hash (v : gmap Z loc) (r : ddn_state) : ddn_state :=
  mk_ddn (base r) (ue_rest r) (bearer_rest r) (default_sugg_sent r) (s11_mme_sockaddr r) (level_timers r) v
    (dl_timer_by_teid_hash r) (pdr_sets r) (ddn_by_seid_hash r) (pfcp_rep_by_seid_hash r)
    (buffered_ddn_req_hash r) (throttle_timers r) (thrtl_timer_by_nodeip_hash r) (counts r)
    (thrtl_ddn_count_hash r) (sess_infos r) (events r).
Definition set_dl_timer_by_teid_hash (v : gmap Z loc) (r : ddn_state) : ddn_state :=
  mk_ddn (base r) (ue_rest r) (bearer_rest r) (default_sugg_sent r) (s11_mme_sockaddr r) (level_timers r)
    (timer_by_teid_hash r) v (pdr_sets r) (ddn_by_seid_hash r) (pfcp_rep_by_seid_hash r)
    (buffered_ddn_req_hash r) (throttle_timers r) (thrtl_timer_by_nodeip_hash r) (counts r)
    (thrtl_ddn_count_hash r) (sess_infos r) (events r).
Definition set_pdr_sets (v : gmap loc pdr_ids) (r : ddn_state) : ddn_state :=
  mk_ddn (base r) (ue_rest r) (bearer_rest r) (default_sugg_sent r) (s11_mme_sockaddr r) (level_timers r)
    (timer_by_teid_hash r) (dl_timer_by_teid_hash r) v (ddn_by_seid_hash r) (pfcp_rep_by_seid_hash r)
    (buffered_ddn_req_hash r) (throttle_timers r) (thrtl_timer_by_nodeip_hash r) (counts r)
    (thrtl_ddn_count_hash r) (sess_infos r) (events r).
Definition set_ddn_by_seid_hash (v : gmap Z loc) (r : ddn_state) : ddn_state :=
  mk_ddn (base r) (ue_rest r) (bearer_rest r) (default_sugg_sent r) (s11_mme_sockaddr r) (level_timers r)
    (timer_by_teid_hash r) (dl_timer_by_teid_hash r) (pdr_sets r) v (pfcp_rep_by_seid_hash r)
    (buffered_ddn_req_hash r) (throttle_timers r) (thrtl_timer_by_nodeip_hash r) (counts r)
    (thrtl_ddn_count_hash r) (sess_infos r) (events r).
Definition set_pfcp_rep_by_seid_hash (v : gmap Z loc) (r : ddn_state) : ddn_state :=
  mk_ddn (base r) (ue_rest r) (bearer_rest r) (default_sugg_sent r) (s11_mme_sockaddr r) (level_timers r)
    (timer_by_teid_hash r) (dl_timer_by_teid_hash r) (pdr_sets r) (ddn_by_seid_hash r) v
    (buffered_ddn_req_hash r) (throttle_timers r) (thrtl_timer_by_nodeip_hash r) (counts r)
    (thrtl_ddn_count_hash r) (sess_infos r) (events r).
Definition set_buffered_ddn_req_hash (v : gmap Z loc) (r : ddn_state) : ddn_state :=
  mk_ddn (base r) (ue_rest r) (bearer_rest r) (default_sugg_sent r) (s11_mme_sockaddr r) (level_timers r)
    (timer_by_teid_hash r) (dl_timer_by_teid_hash r) (pdr_sets r) (ddn_by_seid_hash r)
    (pfcp_rep_by_seid_hash r) v (throttle_timers r) (thrtl_timer_by_nodeip_hash r) (counts r)
    (thrtl_ddn_count_hash r) (sess_infos r) (events r).
Definition set_throttle_timers (v : gmap loc throttle_timer) (r : ddn_state) : ddn_state :=
  mk_ddn (base r) (ue_rest r) (bearer_rest r) (default_sugg_sent r) (s11_mme_sockaddr r) (level_timers r)
    (timer_by_teid_hash r) (dl_timer_by_teid_hash r) (pdr_sets r) (ddn_by_seid_hash r)
    (pfcp_rep_by_seid_hash r) (buffered_ddn_req_hash r) v (thrtl_timer_by_nodeip_hash r) (counts r)
    (thrtl_ddn_count_hash r) (sess_infos r) (events r).
Definition set_thrtl_timer_by_nodeip_hash (v : gmap Z loc) (r : ddn_state) : ddn_state :=
  mk_ddn (base r) (ue_rest r) (bearer_rest r) (default_sugg_sent r) (s11_mme_sockaddr r) (level_timers r)
    (timer_by_teid_hash r) (dl_timer_by_teid_hash r) (pdr_sets r) (ddn_by_seid_hash r)
    (pfcp_rep_by_seid_hash r) (buffered_ddn_req_hash r) (throttle_timers r) v (counts r)
    (thrtl_ddn_count_hash r) (sess_infos r) (events r).
Definition set_counts (v : gmap loc thrtle_count) (r : ddn_state) : ddn_state :=
  mk_ddn (base r) (ue_rest r) (bearer_rest r) (default_sugg_sent r) (s11_mme_sockaddr r) (level_timers r)
    (timer_by_teid_hash r) (dl_timer_by_teid_hash r) (pdr_sets r) (ddn_by_seid_hash r)
    (pfcp_rep_by_seid_hash r) (buffered_ddn_req_hash r) (throttle_timers r)
    (thrtl_timer_by_nodeip_hash r) v (thrtl_ddn_count_hash r) (sess_infos r) (events r).
Definition set_thrtl_ddn_count_hash (v : gmap Z loc) (r : ddn_state) : ddn_state :=
  mk_ddn (base r) (ue_rest r) (bearer_rest r) (default_sugg_sent r) (s11_mme_sockaddr r) (level_timers r)
    (timer_by_teid_hash r) (dl_timer_by_teid_hash r) (pdr_sets r) (ddn_by_seid_hash r)
    (pfcp_rep_by_seid_hash r) (buffered_ddn_req_hash r) (throttle_timers r)
    (thrtl_timer_by_nodeip_hash r) (counts r) v (sess_infos r) (events r).
Definition set_sess_infos (v : heap sess_info) (r : ddn_state) : ddn_state :=
  mk_ddn (base r) (ue_rest r) (bearer_rest r) (default_sugg_sent r) (s11_mme_sockaddr r) (level_timers r)
    (timer_by_teid_hash r) (dl_timer_by_teid_hash r) (pdr_sets r) (ddn_by_seid_hash r)
    (pfcp_rep_by_seid_hash r) (buffered_ddn_req_hash r) (throttle_timers r)
    (thrtl_timer_by_nodeip_hash r) (counts r) (thrtl_ddn_count_hash r) v (events r).
Definition set_events (v : list event) (r : ddn_state) : ddn_state :=
  mk_ddn (base r) (ue_rest r) (bearer_rest r) (default_sugg_sent r) (s11_mme_sockaddr r) (level_timers r)
    (timer_by_teid_hash r) (dl_timer_by_teid_hash r) (pdr_sets r) (ddn_by_seid_hash r)
    (pfcp_rep_by_seid_hash r) (buffered_ddn_req_hash r) (throttle_timers r)
    (thrtl_timer_by_nodeip_hash r) (counts r) (thrtl_ddn_count_hash r) (sess_infos r) v.

Abbreviation dd R := (cmd ddn_state R).

(** The configuration, and what is outside: the encoder of a notification, the widths of the
    fields of an acknowledgement, the contents of uninitialised memory. *)
Class DdnConfig := {
  low_lvl_arp_priority : Z;
  dl_buf_suggested_pkt_cnt : Z;
  encode_dnlnk_data_notif : option Z -> list byte;
  delay_value_width : Z;
  thrtlng_delay_width : Z;
  stack_junk : list Z
}.

Section Access.
Context {R : Type}.

Definition on_base {A} (f : cp_state -> option (cp_state * A)) : dd R A :=
  call (fun s => '(b, a) ← f (base s); Some (set_base b s, a)).

Definition outside : dd R bool := on_base (run ask).
Definition new_loc : dd R loc := on_base (run fresh).
Definition the_time : dd R Z := read (fun s => clock (base s)).
Definition store : dd R ue_store := read (fun s => ue (base s)).
Definition emit (e : event) : dd R unit := modify (fun s => set_events (e :: events s) s).

Definition ue_rest_at (c : loc) : dd R ue_rest_t := do o <- read (fun s => ue_rest s !! c); deref o.
Definition level_at (l : loc) : dd R ue_level_timer := do o <- read (fun s => level_timers s !! l); deref o.
Definition pdrs_at (l : loc) : dd R pdr_ids := do o <- read (fun s => pdr_sets s !! l); deref o.
Definition throttle_at (l : loc) : dd R throttle_timer := do o <- read (fun s => throttle_timers s !! l);
  deref o.
Definition count_at (l : loc) : dd R thrtle_count := do o <- read (fun s => counts s !! l); deref o.
Definition pdn_conn (p : loc) : dd R pdn_connection := do u <- store; deref (pdn_at p u).
Definition the_context (c : loc) : dd R ue_context := do u <- store; deref (ue_at c u).

Definition put_level (l : loc) (v : ue_level_timer) : dd R unit :=
  modify (fun s => set_level_timers (<[l := v]> (level_timers s)) s).
Definition put_pdrs (l : loc) (v : pdr_ids) : dd R unit := modify
  (fun s => set_pdr_sets (<[l := v]> (pdr_sets s)) s).
Definition put_throttle (l : loc) (v : throttle_timer) : dd R unit :=
  modify (fun s => set_throttle_timers (<[l := v]> (throttle_timers s)) s).
Definition put_count (l : loc) (v : thrtle_count) : dd R unit := modify
  (fun s => set_counts (<[l := v]> (counts s)) s).
Definition put_flag (c : loc) (v : Z) : dd R unit :=
  do r <- ue_rest_at c;
  modify (fun s => set_ue_rest (<[c := mk_ue_rest (s11_mme_gtpc_ip r) v]> (ue_rest s)) s).
End Access.

(** The tables of a level. *)
Definition timer_hash (w : level) (s : ddn_state) : gmap Z loc :=
  match w with Delay => timer_by_teid_hash s | Buffering => dl_timer_by_teid_hash s end.
Definition set_timer_hash (w : level) (v : gmap Z loc) (s : ddn_state) : ddn_state :=
  match w with Delay => set_timer_by_teid_hash v s | Buffering => set_dl_timer_by_teid_hash v s end.
Definition sess_hash (w : level) (s : ddn_state) : gmap Z loc :=
  match w with Delay => ddn_by_seid_hash s | Buffering => pfcp_rep_by_seid_hash s end.
Definition set_sess_hash (w : level) (v : gmap Z loc) (s : ddn_state) : ddn_state :=
  match w with Delay => set_ddn_by_seid_hash v s | Buffering => set_pfcp_rep_by_seid_hash v s end.

(** The tables of the MMEs are keyed by eight bytes, from a pointer to a packed
    [node_address_t]: the type, the IPv4 address and three bytes of the IPv6 address. *)
Definition node_key (a : node_address_t) : Z :=
  le_val (take 8 (le_bytes 1 (ip_type a) ++ le_bytes 4 (ipv4_addr a) ++ ipv6_addr a)).

(** ** Lists of sessions *)

(** The head is passed by value; the caller looks only at whether it gets a null pointer. *)
Definition insert_into_sess_info_list (h : heap sess_info) (head : ptr) (new_node : ptr) : option
  (heap sess_info * ptr) :=
  match new_node, head with
  | None, _ => Some (h, head)
  | Some _, None => Some (h, new_node)
  | Some _, Some hd =>
      '(_, traverse) ← find_last (fuel_of h) h None hd;
      h ← set_next h traverse new_node;
      Some (h, head)
  end.

Fixpoint delete_from_sess_info_loop (fuel : nat) (h : heap sess_info) (traverse : ptr) : option
  (heap sess_info) :=
  match fuel with
  | O => None
  | S fuel =>
      match traverse with
      | None => Some h
      | Some t => n ← h !! t; delete_from_sess_info_loop fuel (delete t h) (next n)
      end
  end.
Definition delete_from_sess_info_list (h : heap sess_info) (head : ptr) : option (heap sess_info) :=
  delete_from_sess_info_loop (fuel_of h) h head.

Fixpoint search_loop (fuel : nat) (h : heap sess_info) (traverse : ptr) (sess_id : Z) : option ptr :=
  match fuel with
  | O => None
  | S fuel =>
      match traverse with
      | None => Some None
      | Some t =>
          n ← h !! t;
          if bool_decide (si_sess_id (val n) = sess_id) then Some traverse else search_loop fuel h
            (next n) sess_id
      end
  end.
Definition search_into_sess_info_list (h : heap sess_info) (head : ptr) (sess_id : Z) : option ptr :=
  search_loop (fuel_of h) h head sess_id.

(** ** Lists of rules *)

(** The branch that adds the rules that are not there yet, at the first zero; they pass
    through an array of bytes. *)
Definition first_zero (ids : list Z) : nat := default MAX_LIST_SIZE (fst <$> list_find (fun r => r = 0) ids).

Definition add_rules (ids : list Z) (count num_pdr : Z) (pdr : list Z) : option (list Z * Z) :=
  if bool_decide (length pdr < Z.to_nat num_pdr \/ MAX_LIST_SIZE < Z.to_nat count)%nat then None else
  let temp := u8 <$> filter (fun r => r ∉ take (Z.to_nat count) ids) (take (Z.to_nat num_pdr) pdr) in
  let i := first_zero ids in
  if bool_decide (MAX_LIST_SIZE < i + length temp)%nat then None
  else Some (take i ids ++ temp ++ drop (i + length temp) ids, u8 (count + Z.of_nat (length temp))).

(** The branch that replaces them. *)
Definition replace_rules (ids : list Z) (num_pdr : Z) (pdr : list Z) : option (list Z * Z) :=
  if bool_decide (length pdr < Z.to_nat num_pdr \/ MAX_LIST_SIZE < Z.to_nat num_pdr)%nat then None
  else Some (take (Z.to_nat num_pdr) pdr ++ drop (Z.to_nat num_pdr) ids, num_pdr).

Definition fill_pdr_ids (p : pdr_ids) (num_pdr : Z) (pdr : list Z) : option pdr_ids :=
  r ← (if bool_decide (pdr_count p = 0) then add_rules (pdr_id p) 0 num_pdr pdr else replace_rules
    (pdr_id p) num_pdr pdr);
  Some (mk_pdr_ids r.2 r.1 (ddn_buffered_count p)).

Definition fill_sess_info_pdr (p : sess_info) (num_pdr : Z) (pdr : list Z) : option sess_info :=
  r ← (if bool_decide (si_pdr_count p <> 0) then add_rules (si_pdr_id p) (si_pdr_count p) num_pdr pdr
       else replace_rules (si_pdr_id p) num_pdr pdr);
  Some (mk_sess_info r.2 r.1 (si_sess_id p)).

(** ** Counts of the throttled MMEs *)

Definition zero_count : thrtle_count := mk_count (S754_zero false) (S754_zero false) None.

Definition get_throtle_count (nodeip : node_address_t) (is_mod : Z) {R} : dd R ptr :=
  do o <- read (fun s => thrtl_ddn_count_hash s !! node_key nodeip);
  match o with
  | Some c => skip (Some c)
  | None =>
      if bool_decide (is_mod <> 0) then skip None else
      do allocated <- outside;
      if negb allocated then skip None else
      do c <- new_loc;
      put_count c zero_count;;
      do added <- outside;
      if added then modify (fun s => set_thrtl_ddn_count_hash (<[node_key nodeip := c]> (thrtl_ddn_count_hash s)) s);; skip (Some c)
      else modify (fun s => set_counts (delete c (counts s)) s);; skip None
  end.

Definition fill_sess_info_id (thrtl_cnt : loc) (sid num_pdr : Z) (pdr : list Z) : ddn_state -> option
  (ddn_state * unit) := run (
  do c <- count_at thrtl_cnt;
  do h <- read sess_infos;
  do found <- deref (search_into_sess_info_list h (sess_ptr c) sid);
  do l <- (match found with
           | Some l => skip (Some l)
           | None =>
               do allocated <- outside;
               if negb allocated then skip None else
               do l <- new_loc;
               do r <- deref (insert_into_sess_info_list (<[l := mk_node
                 (mk_sess_info 0 zero_pdr_id 0) None]> h) (sess_ptr c) (Some l));
               modify (set_sess_infos r.1);;
               skip (match r.2 with Some _ => Some l | None => None end)
           end);
  match l with
  | None => return_ tt
  | Some l =>
      do h <- read sess_infos;
      do n <- deref (h !! l);
      do v <- deref (fill_sess_info_pdr (val n) num_pdr pdr);
      modify (set_sess_infos (<[l := mk_node v (next n)]> h))
  end).

(** Whether a notification is held back, and the counts after it. *)
Definition cp_thrtl_fact (c : thrtle_count) : Z :=
  u8 (f32_trunc (f32_mul (f32_div (prev_ddn_discard c) (prev_ddn_eval c)) (f32_of 100))).

Definition f32_is_zero (x : spec_float) : bool := SFeqb x (f32_of 0).

Definition held_back (factor : Z) (c : thrtle_count) : bool :=
  negb (f32_is_zero (prev_ddn_eval c)) && bool_decide (cp_thrtl_fact c <= factor).

Definition count_sent (c : thrtle_count) : thrtle_count :=
  mk_count (f32_add (prev_ddn_eval c) (f32_of 1)) (prev_ddn_discard c) (sess_ptr c).
Definition count_held_back (c : thrtle_count) : thrtle_count :=
  mk_count (f32_add (prev_ddn_eval c) (f32_of 1)) (f32_add (prev_ddn_discard c) (f32_of 1)) (sess_ptr c).

(** ** The notification *)

Section Ddn.
Context {C : Config} {D : DdnConfig}.

(** The bearers of the PDN connection whose second PDR has the next rule of [pdr]: the
    bearer that the message names, the rules left. *)
Fixpoint name_bearers (bs : list ptr) (j : nat) (named : option Z) (pdr : pdr_ids) {R} : dd R
  (option Z * pdr_ids) :=
  match bs with
  | [] => skip (named, pdr)
  | None :: bs => name_bearers bs j named pdr
  | Some b :: bs =>
      do u <- store;
      do br <- deref (bearer_at b u);
      do orest <- read (fun s => bearer_rest s !! b);
      do rest <- deref orest;
      do slot <- deref (eb_pdrs rest !! 1%nat);
      do p <- deref slot;
      do rule <- deref (pdr_id pdr !! j);
      if bool_decide (p.1 = rule)
      then name_bearers bs (S j) (Some (eb_eps_bearer_id br)) (mk_pdr_ids (u8 (pdr_count pdr - 1))
        (pdr_id pdr) (ddn_buffered_count pdr))
      else name_bearers bs j named pdr
  end.

Definition create_downlink_data_notification (context : loc) (eps_bearer_id : Z) (pdr : option pdr_ids)
    : ddn_state -> option (ddn_state * (Z * option Z * option pdr_ids)) := run (
  do u <- the_context context;
  let i := GET_EBI_INDEX eps_bearer_id in
  if bool_decide (i = -1) then return_ (-1, None, pdr) else
  do slot <- deref (array_get (ue_eps_bearers u) i);
  match slot with
  | None => return_ (GTPV2C_CAUSE_CONTEXT_NOT_FOUND, None, pdr)
  | Some b =>
      do us <- store;
      do br <- deref (bearer_at b us);
      match pdr with
      | None => skip (0, Some (eb_eps_bearer_id br), None)
      | Some pdr =>
          do p <- deref (eb_pdn br);
          do pd <- pdn_conn p;
          do r <- name_bearers (take MAX_BEARERS (pdn_eps_bearers pd)) 0 None pdr;
          skip (0, r.1, Some r.2)
      end
  end).

Definition set_dest_address (src_addr : node_address_t) (dst : peer_addr_t) : Z * peer_addr_t :=
  if bool_decide (ip_type src_addr = PDN_TYPE_IPV4) then
    (0, mk_peer_addr PDN_TYPE_IPV4 (sin_port dst) (ipv4_addr src_addr) (sin6_port dst) (sin6_addr dst))
  else if bool_decide (ip_type src_addr = PDN_TYPE_IPV6) || bool_decide
    (ip_type src_addr = PDN_TYPE_IPV4_IPV6) then
    (0, mk_peer_addr PDN_TYPE_IPV6 (sin_port dst) (sin_addr dst) (sin6_port dst) (ipv6_addr src_addr))
  else (-1, dst).

Definition zero_pdrs : pdr_ids := mk_pdr_ids 0 zero_pdr_id 0.

(** [pdr]: what the argument points to, and what it holds afterwards. *)
Definition ddn_by_session_id (session_id : Z) (pdr : option pdr_ids)
    : ddn_state -> option (ddn_state * (Z * option pdr_ids)) := run (
  let tid := UE_SESS_ID session_id in
  do buffered <- read (fun s => buffered_ddn_req_hash s !! session_id);
  match buffered with
  | Some l =>
      do p <- pdrs_at l;
      put_pdrs l (set_buffered_count (u8 (ddn_buffered_count p + 1)) p);;
      skip (0, pdr)
  | None =>
      do u <- store;
      match ue_context_by_fteid_hash u !! tid with
      | None => return_ (GTPV2C_CAUSE_CONTEXT_NOT_FOUND, pdr)
      | Some c =>
          do '(ret, named, pdr) <- call (create_downlink_data_notification c (UE_BEAR_ID session_id) pdr);
          if bool_decide (ret <> 0) then return_ (ret, pdr) else
          do r <- ue_rest_at c;
          modify (fun s => set_s11_mme_sockaddr (set_dest_address (s11_mme_gtpc_ip r)
            (s11_mme_sockaddr s)).2 s);;
          emit (DdnSent session_id named);;
          let i := GET_EBI_INDEX (UE_BEAR_ID session_id) in
          if bool_decide (i = -1) then return_ (GTPV2C_CAUSE_SYSTEM_FAILURE, pdr) else
          do cu <- the_context c;
          do a <- read s11_mme_sockaddr;
          do _ <- on_base (add_gtpv2c_if_timer_entry tid a (encode_dnlnk_data_notif named) i S11_IFACE
            (ue_cp_mode cu));
          do allocated <- outside;
          if negb allocated then return_ (-1, pdr) else
          do l <- new_loc;
          put_pdrs l (default zero_pdrs pdr);;
          do added <- outside;
          if added then modify (fun s => set_buffered_ddn_req_hash (<[session_id := l]> (buffered_ddn_req_hash s)) s);; skip (0, pdr)
          else modify (fun s => set_pdr_sets (delete l (pdr_sets s)) s);; skip (-1, pdr)
      end
  end).

(** The entry, which the caller frees; the entry of a key that is there is always deleted. *)
Definition delete_buff_ddn_req (sid : Z) {R} : dd R ptr :=
  do o <- read (fun s => buffered_ddn_req_hash s !! sid);
  modify (fun s => set_buffered_ddn_req_hash (delete sid (buffered_ddn_req_hash s)) s);;
  skip o.

(** The response to a report: its sequence number is cut to a byte. *)
Definition fill_send_pfcp_sess_report_resp (seq : Z) (p : loc) (dl_buf_sugg_pkt_cnt : Z)
  (dldr_flag : bool) {R} : dd R unit :=
  do sent <- read default_sugg_sent;
  let first := dldr_flag && bool_decide (p ∉ sent) in
  (if first then modify (set_default_sugg_sent ({[p]} ∪ sent)) else skip tt);;
  emit (ReportResponse (u8 seq) p
    (if dldr_flag then if first then dl_buf_suggested_pkt_cnt else dl_buf_sugg_pkt_cnt else 0) dldr_flag).

(** ** The timer of a user *)

Definition zero_gst : gstimerinfo_t := mk_timer false ttSingleShot 0 None.

Definition fill_timer_entry (seid : Z) {R} : dd R ptr :=
  do allocated <- outside;
  if negb allocated then skip None else
  do l <- new_loc;
  put_level l (mk_level zero_gst seid 0);;
  skip (Some l).

Definition free_level (l : loc) {R} : dd R unit := modify
  (fun s => set_level_timers (delete l (level_timers s)) s).
Definition del_timer_hash (w : level) (tid : Z) {R} : dd R unit :=
  modify (fun s => set_timer_hash w (delete tid (timer_hash w s)) s).

Definition start_ddn_timer_entry (w : level) (seid delay_value : Z) : ddn_state -> option
  (ddn_state * unit) := run (
  do e <- fill_timer_entry seid;
  match e with
  | None => skip tt
  | Some l =>
      let tid := UE_SESS_ID seid in
      do added <- outside;
      if negb added then free_level l;; return_ tt else
      modify (fun s => set_timer_hash w (<[tid := l]> (timer_hash w s)) s);;
      do created <- outside;
      let '(ok, t) := gst_timer_init created ttInterval delay_value in
      do v <- level_at l;
      put_level l (mk_level t (sess_id v) (start_time v));;
      if negb ok then del_timer_hash w tid;; free_level l;; return_ tt else
      do now <- the_time;
      put_level l (mk_level t (sess_id v) now);;
      if bool_decide (delay_value <> 0) then
        let '(ok, t) := gst_timer_start now t in
        put_level l (mk_level t (sess_id v) now);;
        if negb ok then del_timer_hash w tid;; free_level l;; return_ tt else skip tt
      else skip tt
  end).

Definition delete_entry_from_sess_hash (w : level) (seid : Z) {R} : dd R unit :=
  do o <- read (fun s => sess_hash w s !! seid);
  match o with
  | None => skip tt
  | Some l =>
      do _ <- pdrs_at l;
      modify (fun s => set_sess_hash w (delete seid (sess_hash w s)) s);;
      modify (fun s => set_pdr_sets (delete l (pdr_sets s)) s)
  end.

Fixpoint delete_entries (w : level) (ps : list ptr) {R} : dd R unit :=
  match ps with
  | [] => skip tt
  | None :: ps => delete_entries w ps
  | Some p :: ps => do pd <- pdn_conn p; delete_entry_from_sess_hash w (pdn_seid pd);; delete_entries w ps
  end.

(** Whole seconds since [start]. *)
Definition elapsed_seconds (now start : Z) : Z := u8 (Z.quot (now - start) 1000).

(** Without a context the timer is freed and stays in the table. *)
Definition delete_ddn_timer_entry (w : level) (tid : Z) : ddn_state -> option (ddn_state * Z) := run (
  do o <- read (fun s => timer_hash w s !! tid);
  match o with
  | None => skip 0
  | Some l =>
      do v <- level_at l;
      if negb (ti_id (lv_pt v)) then skip 0 else
      do u <- store;
      let '(ret, context) := get_ue_context tid u in
      if bool_decide (ret <> 0) then free_level l;; return_ 0 else
      do c <- deref context;
      do cu <- the_context c;
      delete_entries w (ue_pdns cu);;
      del_timer_hash w tid;;
      do now <- the_time;
      free_level l;;
      skip (elapsed_seconds now (start_time v))
  end).

(** ** The throttling of an MME *)

Definition free_throttle (l : loc) {R} : dd R unit := modify
  (fun s => set_throttle_timers (delete l (throttle_timers s)) s).
Definition del_throttle_key (a : node_address_t) {R} : dd R unit :=
  modify (fun s => set_thrtl_timer_by_nodeip_hash (delete (node_key a) (thrtl_timer_by_nodeip_hash s)) s).

(** [c]: the context with the address. *)
Definition start_throttle_timer (c : loc) (thrtlng_delay_val thrtl_fact : Z) : ddn_state -> option
  (ddn_state * unit) := run (
  do allocated <- outside;
  if negb allocated then return_ tt else
  do l <- new_loc;
  do now <- the_time;
  put_throttle l (mk_throttle zero_gst thrtl_fact c now);;
  do r <- ue_rest_at c;
  let a := s11_mme_gtpc_ip r in
  do added <- outside;
  if negb added then free_throttle l;; return_ tt else
  modify (fun s => set_thrtl_timer_by_nodeip_hash (<[node_key a := l]> (thrtl_timer_by_nodeip_hash s)) s);;
  do created <- outside;
  let '(ok, t) := gst_timer_init created ttInterval thrtlng_delay_val in
  put_throttle l (mk_throttle t thrtl_fact c now);;
  if negb ok then del_throttle_key a;; free_throttle l;; return_ tt else
  let '(ok, t) := gst_timer_start now t in
  put_throttle l (mk_throttle t thrtl_fact c now);;
  if negb ok then del_throttle_key a;; free_throttle l;; return_ tt else skip tt).

Definition delete_thrtle_timer (a : node_address_t) : ddn_state -> option (ddn_state * Z) := run (
  do o <- read (fun s => thrtl_timer_by_nodeip_hash s !! node_key a);
  match o with
  | None => skip 0
  | Some l =>
      do v <- throttle_at l;
      if negb (ti_id (th_pt v)) then skip 0 else
      do now <- the_time;
      put_throttle l (mk_throttle (gst_timer_deinit (gst_timer_stop (th_pt v))) (throttle_factor v)
        (node_ip v) (th_start v));;
      do r <- ue_rest_at (node_ip v);
      do oc <- read (fun s => thrtl_ddn_count_hash s !! node_key (s11_mme_gtpc_ip r));
      (match oc with
       | None => skip tt
       | Some k =>
           do cnt <- count_at k;
           do h <- read sess_infos;
           do h <- deref (delete_from_sess_info_list h (sess_ptr cnt));
           modify (set_sess_infos h)
       end);;
      modify (fun s => set_thrtl_ddn_count_hash (delete (node_key a) (thrtl_ddn_count_hash s)) s);;
      del_throttle_key a;;
      free_throttle l;;
      skip (elapsed_seconds now (th_start v))
  end).

(** The loop that looks for the session; when it has freed the node, it goes on from a
    null pointer. *)
Fixpoint delete_sess_loop (fuel : nat) (h : heap sess_info) (traverse : ptr) (sid : Z) : option unit :=
  match fuel with
  | O => None
  | S fuel =>
      match traverse with
      | None => Some tt
      | Some t =>
          n ← h !! t;
          if bool_decide (si_sess_id (val n) = sid) then None else delete_sess_loop fuel h (next n) sid
      end
  end.

Definition delete_sess_in_thrtl_timer (context : loc) (sid : Z) : ddn_state -> option
  (ddn_state * unit) := run (
  do r <- ue_rest_at context;
  do o <- read (fun s => thrtl_timer_by_nodeip_hash s !! node_key (s11_mme_gtpc_ip r));
  match o with
  | None => skip tt
  | Some l =>
      do v <- throttle_at l;
      do r' <- ue_rest_at (node_ip v);
      do oc <- read (fun s => thrtl_ddn_count_hash s !! node_key (s11_mme_gtpc_ip r'));
      match oc with
      | None => skip tt
      | Some k => do cnt <- count_at k; do h <- read sess_infos;
        deref (delete_sess_loop (fuel_of h) h (sess_ptr cnt) sid)
      end
  end).

(** The PDN connections with the session of a node of the list. *)
Fixpoint notify_pdns (c : loc) (ps : list ptr) (n : sess_info) {R} : dd R unit :=
  match ps with
  | [] => skip tt
  | None :: ps => notify_pdns c ps n
  | Some p :: ps =>
      do pd <- pdn_conn p;
      (if bool_decide (pdn_seid pd = si_sess_id n) then
         do first <- deref (si_pdr_id n !! 0%nat);
         do _ <- call (ddn_by_session_id (si_sess_id n)
           (Some (mk_pdr_ids (si_pdr_count n) (first :: replicate (MAX_LIST_SIZE - 1) 0) 0)));
         put_flag c 0
       else skip tt);;
      notify_pdns c ps n
  end.

(** [context] is that of the last session that had one. *)
Fixpoint notify_sessions (fuel : nat) (traverse : ptr) (context : ptr) {R} : dd R unit :=
  match fuel with
  | O => fault
  | S fuel =>
      match traverse with
      | None => skip tt
      | Some t =>
          do h <- read sess_infos;
          do n <- deref (h !! t);
          do u <- store;
          let '(ret, found) := get_ue_context (UE_SESS_ID (si_sess_id (val n))) u in
          let context := if bool_decide (ret <> 0) then context else found in
          do c <- deref context;
          do cu <- the_context c;
          notify_pdns c (ue_pdns cu) (val n);;
          do h <- read sess_infos;
          do n <- deref (h !! t);
          notify_sessions fuel (next n) context
      end
  end.

Definition thrtle_timer_callback (timer_entry : loc) : ddn_state -> option (ddn_state * unit) := run (
  do v <- throttle_at timer_entry;
  do r <- ue_rest_at (node_ip v);
  do o <- get_throtle_count (s11_mme_gtpc_ip r) DELETE_ENTRY;
  match o with
  | None => do _ <- call (delete_thrtle_timer (s11_mme_gtpc_ip r)); return_ tt
  | Some k =>
      do cnt <- count_at k;
      match sess_ptr cnt with
      | None => do _ <- call (delete_thrtle_timer (s11_mme_gtpc_ip r)); return_ tt
      | Some _ =>
          do h <- read sess_infos;
          notify_sessions (fuel_of h) (sess_ptr cnt) None;;
          do v <- throttle_at timer_entry;
          do r <- ue_rest_at (node_ip v);
          do _ <- call (delete_thrtle_timer (s11_mme_gtpc_ip r));
          skip tt
      end
  end).

(** ** The callbacks of the timers of a user *)

(** The PDN connection that is left in the variable, and whether one has reports. *)
Fixpoint last_pdn (ps : list ptr) (pdn : ptr) (match_found : bool) {R} : dd R (ptr * bool) :=
  match ps with
  | [] => skip (pdn, match_found)
  | None :: ps => last_pdn ps pdn match_found
  | Some p :: ps =>
      do pd <- pdn_conn p;
      do o <- read (fun s => pfcp_rep_by_seid_hash s !! pdn_seid pd);
      last_pdn ps (Some p) (match o with Some _ => true | None => match_found end)
  end.

Definition dl_buffer_timer_callback (timer_entry : loc) : ddn_state -> option (ddn_state * unit) := run (
  do v <- level_at timer_entry;
  let tid := UE_SESS_ID (sess_id v) in
  do u <- store;
  let '(ret, context) := get_ue_context tid u in
  if bool_decide (ret <> 0) then do _ <- call (delete_ddn_timer_entry Buffering tid); return_ tt else
  do c <- deref context;
  do cu <- the_context c;
  do r <- last_pdn (ue_pdns cu) None false;
  (if r.2 then do p <- deref r.1; do pd <- pdn_conn p; emit (DropBuffered (pdn_seid pd)) else skip tt);;
  do _ <- call (delete_ddn_timer_entry Buffering tid);
  skip tt).

(** A notification with the rules of an entry, which the call changes. *)
Definition notify_entry (c l : loc) (seid flag : Z) {R} : dd R unit :=
  do p <- pdrs_at l;
  let p := set_buffered_count 0 p in
  put_pdrs l p;;
  do r <- call (ddn_by_session_id seid (Some p));
  (match r.2 with Some p => put_pdrs l p | None => skip tt end);;
  put_flag c flag.

(** [true]: the callback is at its end. *)
Fixpoint notify_delayed (c : loc) (a : node_address_t) (ps : list ptr) {R} : dd R bool :=
  match ps with
  | [] => skip false
  | None :: ps => notify_delayed c a ps
  | Some p :: ps =>
      do pd <- pdn_conn p;
      do o <- read (fun s => ddn_by_seid_hash s !! pdn_seid pd);
      match o with
      | None => notify_delayed c a ps
      | Some l =>
          do ot <- read (fun s => thrtl_timer_by_nodeip_hash s !! node_key a);
          match ot with
          | None => notify_entry c l (pdn_seid pd) 1;; notify_delayed c a ps
          | Some t =>
              do k <- get_throtle_count a ADD_ENTRY;
              match k with
              | None => notify_delayed c a ps
              | Some k =>
                  do v <- throttle_at t;
                  do cnt <- count_at k;
                  (if held_back (throttle_factor v) cnt then
                     do p <- pdrs_at l;
                     put_count k (count_held_back cnt);;
                     do _ <- call (fill_sess_info_id k (pdn_seid pd) (pdr_count p) (pdr_id p));
                     put_flag c 1
                   else
                     notify_entry c l (pdn_seid pd) 1;;
                     do cnt <- count_at k;
                     put_count k (count_sent cnt));;
                  skip true
              end
          end
      end
  end.

Definition ddn_timer_callback (timer_entry : loc) : ddn_state -> option (ddn_state * unit) := run (
  do v <- level_at timer_entry;
  let tid := UE_SESS_ID (sess_id v) in
  do u <- store;
  let '(ret, context) := get_ue_context tid u in
  if bool_decide (ret <> 0) then do _ <- call (delete_ddn_timer_entry Delay tid); return_ tt else
  do c <- deref context;
  do cu <- the_context c;
  do r <- ue_rest_at c;
  do _ <- notify_delayed c (s11_mme_gtpc_ip r) (ue_pdns cu);
  do _ <- call (delete_ddn_timer_entry Delay tid);
  skip tt).

(** ** A report of the user plane *)

(** [pdr_id_count] is the length of [rp_pdr_ids]; [None]: the report has no such part. *)
Record report := mk_report {
  rp_seid : Z; rp_seq_no : Z; rp_pdr_ids : option (list Z); rp_usage_reports : option nat
}.

Definition minus_one : Z := u8 (-1).

Definition resp_at (r : loc) {R} : dd R resp_info :=
  do o <- read (fun s => cells (sessions (base s)) !! r); deref o.
Definition put_resp_info (r : loc) (v : resp_info) {R} : dd R unit :=
  modify (fun s => set_base (set_sessions (mk_sm (<[r := v]> (cells (sessions (base s)))) (sm_hash (sessions
    (base s)))) (base s)) s).
Definition set_resp (mode seq msg_type state : Z) (r : resp_info) : resp_info :=
  mk_resp (ri_proc r) state msg_type mode seq (ri_cbr_seq r) (ri_linked_eps_bearer_id r) (ri_eps_bearer_id r)
    (ri_bearer_count r) (ri_eps_bearer_ids r) (ri_gx_sess_id r) (ri_s5s8_sgw_gtpc_teid r) (ri_teid r).
Definition put_pdn_state (p : loc) (v : Z) {R} : dd R unit :=
  do u <- store;
  do u <- deref (change_pdn p (fun pd => Some (set_pdn_state v pd)) u);
  modify (fun s => set_base (set_ue u (base s)) s).

(** The rules of a report join the entry of the session, which is made if there is none. *)
Definition buffer_report (w : level) (r : report) (pdr : list Z) : dd Z unit :=
  do o <- read (fun s => sess_hash w s !! rp_seid r);
  do l <- (match o with
           | Some l => skip l
           | None =>
               do allocated <- outside;
               if negb allocated then return_ minus_one else
               do l <- new_loc;
               put_pdrs l zero_pdrs;;
               do added <- outside;
               if added then modify (fun s => set_sess_hash w (<[rp_seid r := l]> (sess_hash w s)) s);; skip l
               else modify (fun s => set_pdr_sets (delete l (pdr_sets s)) s);; return_ minus_one
           end);
  do p <- pdrs_at l;
  do p <- deref (fill_pdr_ids p (u8 (Z.of_nat (length pdr))) pdr);
  put_pdrs l p.

(** The notification for one rule. *)
Definition notify_rule (seid rule : Z) : dd Z unit :=
  do r <- call (ddn_by_session_id seid (Some (mk_pdr_ids 1 (rule :: stack_junk) 0)));
  if bool_decide (r.1 <> 0) then return_ minus_one else skip tt.

Definition throttled_rule (c p thrtl_cnt timer : loc) (r : report) (rule : Z) : dd Z unit :=
  do cnt <- count_at thrtl_cnt;
  do v <- (if f32_is_zero (prev_ddn_eval cnt) then skip None else do v <- throttle_at timer; skip (Some v));
  if held_back (from_option throttle_factor 0 v) cnt then
    put_count thrtl_cnt (count_held_back cnt);;
    do _ <- call (fill_sess_info_id thrtl_cnt (rp_seid r) 1 [rule]);
    put_flag c 1;;
    fill_send_pfcp_sess_report_resp (rp_seq_no r) p 0 true
  else
    notify_rule (rp_seid r) rule;;
    put_flag c 0;;
    do cnt <- count_at thrtl_cnt;
    put_count thrtl_cnt (count_sent cnt).

Fixpoint report_pdrs (c p thrtl_cnt timer : loc) (r : report) (rule priority : Z) (pdrs : list (option
  (Z * bool)))
    : dd Z unit :=
  match pdrs with
  | [] => skip tt
  | slot :: pdrs =>
      do pdr <- deref slot;
      (if pdr.2 && bool_decide (pdr.1 = rule) then
         if bool_decide (low_lvl_arp_priority < priority) then throttled_rule c p thrtl_cnt timer r rule
         else notify_rule (rp_seid r) rule;; put_flag c 0
       else skip tt);;
      report_pdrs c p thrtl_cnt timer r rule priority pdrs
  end.

Fixpoint report_bearers (c p thrtl_cnt timer : loc) (r : report) (rule : Z) (bs : list ptr) : dd Z unit :=
  match bs with
  | [] => skip tt
  | None :: bs => report_bearers c p thrtl_cnt timer r rule bs
  | Some b :: bs =>
      do orest <- read (fun s => bearer_rest s !! b);
      do rest <- deref orest;
      (if bool_decide (length (eb_pdrs rest) < Z.to_nat (eb_pdr_count rest))%nat then fault
       else report_pdrs c p thrtl_cnt timer r rule (priority_level rest) (take (Z.to_nat (eb_pdr_count rest))
         (eb_pdrs rest)));;
      report_bearers c p thrtl_cnt timer r rule bs
  end.

Fixpoint report_rules (c p thrtl_cnt timer : loc) (r : report) (rules : list Z) : dd Z unit :=
  match rules with
  | [] => skip tt
  | rule :: rules =>
      do pd <- pdn_conn p;
      report_bearers c p thrtl_cnt timer r rule (take MAX_BEARERS (pdn_eps_bearers pd));;
      report_rules c p thrtl_cnt timer r rules
  end.

(** The part of the report on downlink data. *)
Definition report_downlink_data (c p resp : loc) (r : report) (pdr : list Z) : dd Z unit :=
  let tid := UE_SESS_ID (rp_seid r) in
  do rest <- ue_rest_at c;
  let a := s11_mme_gtpc_ip rest in
  do buffering <- read (fun s => dl_timer_by_teid_hash s !! tid);
  do delay <- read (fun s => timer_by_teid_hash s !! tid);
  do throttle <- read (fun s => thrtl_timer_by_nodeip_hash s !! node_key a);
  (match buffering, delay, throttle with
   | Some _, _, _ =>
       buffer_report Buffering r pdr;; put_flag c 1;; fill_send_pfcp_sess_report_resp (rp_seq_no r) p 0 true
   | None, Some _, _ =>
       buffer_report Delay r pdr;; put_flag c 1;; fill_send_pfcp_sess_report_resp (rp_seq_no r) p 0 true
   | None, None, Some timer =>
       do k <- get_throtle_count a ADD_ENTRY;
       match k with
       | None => return_ minus_one
       | Some k => report_rules c p k timer r pdr
       end
   | None, None, None =>
       do ret <- call (ddn_by_session_id (rp_seid r) None);
       if bool_decide (ret.1 <> 0) then return_ minus_one else put_flag c 0
   end);;
  do v <- resp_at resp;
  put_resp_info resp (set_resp (ri_cp_mode v) (ri_pfcp_seq v) PFCP_SESSION_REPORT_REQUEST DDN_REQ_SNT_STATE v);;
  put_pdn_state p DDN_REQ_SNT_STATE.

Definition process_pfcp_report_req (r : report) : ddn_state -> option (ddn_state * Z) := run (
  let tid := UE_SESS_ID (rp_seid r) in
  let i := GET_EBI_INDEX (UE_BEAR_ID (rp_seid r)) in
  if bool_decide (i = -1) then return_ minus_one else
  do ss <- read (fun s => sessions (base s));
  do '(oresp, ret) <- deref (get_sess_entry (rp_seid r) ss);
  if bool_decide (ret <> 0) then return_ minus_one else
  do resp <- deref oresp;
  do u <- store;
  let '(ret, context) := get_ue_context tid u in
  if bool_decide (ret < 0) then return_ minus_one else
  do c <- deref context;
  do cu <- the_context c;
  do op <- deref (GET_PDN u cu i);
  match op with
  | None => return_ minus_one
  | Some p =>
      do v <- resp_at resp;
      put_resp_info resp (set_resp (ue_cp_mode cu) (u8 (rp_seq_no r)) (ri_msg_type v) (ri_state v) v);;
      (match rp_pdr_ids r with None => skip tt | Some pdr => report_downlink_data c p resp r pdr end);;
      (match rp_usage_reports r with
       | None => skip tt
       | Some n =>
           modify (fun s => set_events (replicate n (Cdr (rp_seid r)) ++ events s) s);;
           fill_send_pfcp_sess_report_resp (rp_seq_no r) p 0 false
       end);;
      skip 0
  end).

(** ** The acknowledgement of the MME *)

(** Lengths of the elements that may be missing, and their values. *)
Record dnlnk_data_notif_ack := mk_ack {
  ack_teid : Z;
  delay_len : Z; delay_value : Z;
  dl_timer_value : Z; dl_timer_unit : Z;
  sugg_len : Z; sugg_val : Z;
  thrtlng_len : Z; thrtlng_delay_val : Z; thrtlng_delay_unit : Z; thrtlng_factor : Z
}.

(** The units of the timers; [other] for the rest. *)
Definition timer_ms (value unit seven other : Z) : Z :=
  if bool_decide (unit = 0) then value * TWOSEC
  else if bool_decide (unit = 1) then value * ONEMINUTE
  else if bool_decide (unit = 2) then value * TENMINUTE
  else if bool_decide (unit = 3) then value * ONEHOUR
  else if bool_decide (unit = 4) then value * TENHOUR
  else if bool_decide (unit = 7) then value * seven
  else value * other.

(** The first PDN connection, and the index of its default bearer. *)
Fixpoint first_pdn (ps : list ptr) {R} : dd R (ptr * Z) :=
  match ps with
  | [] => skip (None, 0)
  | None :: ps => first_pdn ps
  | Some p :: _ => do pd <- pdn_conn p; skip (Some p, GET_EBI_INDEX (pdn_default_bearer_id pd))
  end.

Definition process_ddn_ack (k : dnlnk_data_notif_ack) : ddn_state -> option (ddn_state * Z) := run (
  do u <- store;
  let '(ret, context) := get_ue_context (ack_teid k) u in
  if bool_decide (ret <> 0) then return_ (-1) else
  do c <- deref context;
  do cu <- the_context c;
  do '(op, i) <- first_pdn (ue_pdns cu);
  if bool_decide (i = -1) then return_ (-1) else
  do p <- deref op;
  do pd <- pdn_conn p;
  let seid := pdn_seid pd in
  do o <- delete_buff_ddn_req seid;
  (match o with
   | None => skip tt
   | Some l =>
       do b <- pdrs_at l;
       (if bool_decide (0 < ddn_buffered_count b) then
          do _ <- call (ddn_by_session_id seid (Some (set_buffered_count (ddn_buffered_count b - 1) b)));
            skip tt
        else skip tt);;
       modify (fun s => set_pdr_sets (delete l (pdr_sets s)) s)
   end);;
  do ss <- read (fun s => sessions (base s));
  do '(oresp, ret) <- deref (get_sess_entry seid ss);
  if bool_decide (ret <> 0) then return_ (-1) else
  do resp <- deref oresp;
  do v <- resp_at resp;
  put_resp_info resp (set_resp (ri_cp_mode v) (ri_pfcp_seq v) GTP_DOWNLINK_DATA_NOTIFICATION_ACK IDEL_STATE v);;
  do ext <- call (delete_ddn_timer_entry Delay (ack_teid k));
  let delay := wrap delay_value_width (delay_value k + ext) in
  (if bool_decide (delay_len k <> 0) && bool_decide (0 < delay)
   then call (start_ddn_timer_entry Delay seid (delay * 50)) else skip tt);;
  do sugg <- (if bool_decide (dl_timer_value k <> 0) then
      do _ <- call (delete_ddn_timer_entry Buffering (ack_teid k));
      do _ <- call (start_ddn_timer_entry Buffering seid (timer_ms (dl_timer_value k)
        (dl_timer_unit k) ONEMINUTE 0));
      skip (if bool_decide (sugg_len k <> 0) then u16 (sugg_val k) else dl_buf_suggested_pkt_cnt)
    else skip 0);
  (if bool_decide (thrtlng_len k <> 0) then
     do r <- ue_rest_at c;
     modify (fun s => set_s11_mme_sockaddr (set_dest_address (s11_mme_gtpc_ip r) (s11_mme_sockaddr s)).2 s);;
     do ext <- call (delete_thrtle_timer (s11_mme_gtpc_ip r));
     let delay := timer_ms (wrap thrtlng_delay_width (thrtlng_delay_val k + ext))
       (thrtlng_delay_unit k) 0 ONEMINUTE in
     let factor := if bool_decide (100 < thrtlng_factor k) then 0 else thrtlng_factor k in
     if bool_decide (delay <> 0) then call (start_throttle_timer c delay factor) else skip tt
   else skip tt);;
  put_pdn_state p IDEL_STATE;;
  do r <- ue_rest_at c;
  (if bool_decide (pfcp_rept_resp_sent_flag r = 0) || bool_decide (sugg <> 0) then
     do v <- resp_at resp;
     fill_send_pfcp_sess_report_resp (ri_pfcp_seq v) p sugg true
   else skip tt);;
  skip 0).

(** ** The control plane *)

Context {F : Callees}.

(** The entry of a notification is removed and freed: after the last try, and by the
    procedures that activate or remove a session or get the failure of its paging. *)
Definition end_ddn (sid : Z) : ddn_state -> option (ddn_state * unit) := run (
  do o <- delete_buff_ddn_req sid;
  match o with
  | None => skip tt
  | Some l => emit (DdnEnded sid);; modify (fun s => set_pdr_sets (delete l (pdr_sets s)) s)
  end).

(** The functions of this file that the callback of a request calls. *)
Fixpoint perform_ddn (hs : list callee) {R} : dd R unit :=
  match hs with
  | [] => skip tt
  | send_pfcp_sess_mod_req_for_ddn sid :: hs => emit (DropBuffered sid);; perform_ddn hs
  | CpTimer.delete_buff_ddn_req sid :: hs => call (end_ddn sid);; perform_ddn hs
  | _ :: hs => perform_ddn hs
  end.

Definition called_of (s : ddn_state) : list callee := called (base s).
Definition put_called (v : list callee) {R} : dd R unit := modify (fun s => set_base (set_called v (base s)) s).

(** The timer of a request is due: its callback sends the bytes again or, at the last try,
    calls the functions for the procedure under way. *)
Definition request_expires (l : loc) : ddn_state -> option (ddn_state * unit) := run (
  do before <- read called_of;
  put_called [];;
  do _ <- on_base (fun b => b ← fire l b; Some (b, tt));
  do now <- read called_of;
  put_called (now ++ before);;
  perform_ddn (rev now)).

(** What happens: a report, an acknowledgement, the end of a timer of a user, an MME or a
    request, an answer that deletes the entry of a request, time; and what other
    procedures do here: the end of a notification or of a timer, a session that is removed
    from the list of a throttled MME or from a table of reports. *)
Inductive action :=
| Report (r : report)
| Acknowledge (k : dnlnk_data_notif_ack)
| LevelExpires (w : level) (l : loc)
| ThrottleExpires (l : loc)
| RequestExpires (l : loc)
| Answered (clear : bool) (tid ebi : Z)
| EndDdn (sid : Z)
| StopLevel (w : level) (tid : Z)
| StopThrottle (a : node_address_t)
| ForgetReports (w : level) (sid : Z)
| RemoveSession (context : loc) (sid : Z)
| Pass (now : Z) (outcomes : list bool).

Definition is_due (now : Z) (t : gstimerinfo_t) : bool :=
  match ti_value t with Some v => bool_decide (v.1 <= now) | None => false end.

Definition expire_level (l : loc) (v : ue_level_timer) (s : ddn_state) : ddn_state :=
  set_level_timers (<[l := mk_level (expired (lv_pt v)) (sess_id v) (start_time v)]> (level_timers s)) s.
Definition expire_throttle (l : loc) (v : throttle_timer) (s : ddn_state) : ddn_state :=
  set_throttle_timers (<[l := mk_throttle (expired (th_pt v)) (throttle_factor v) (node_ip v) (th_start v)]>
    (throttle_timers s)) s.

Definition act (a : action) (s : ddn_state) : option ddn_state :=
  match a with
  | Report r => fst <$> process_pfcp_report_req r s
  | Acknowledge k => fst <$> process_ddn_ack k s
  | LevelExpires w l =>
      v ← level_timers s !! l;
      if is_due (clock (base s)) (lv_pt v)
      then fst <$> (match w with Delay => ddn_timer_callback l | Buffering =>
        dl_buffer_timer_callback l end) (expire_level l v s)
      else None
  | ThrottleExpires l =>
      v ← throttle_timers s !! l;
      if is_due (clock (base s)) (th_pt v) then fst <$> thrtle_timer_callback l
        (expire_throttle l v s) else None
  | RequestExpires l => fst <$> request_expires l s
  | Answered clear tid ebi => fst <$> run (on_base (delete_if_timer_entry clear tid ebi)) s
  | EndDdn sid => fst <$> end_ddn sid s
  | StopLevel w tid => fst <$> delete_ddn_timer_entry w tid s
  | StopThrottle a => fst <$> delete_thrtle_timer a s
  | ForgetReports w sid => fst <$> run (delete_entry_from_sess_hash w sid) s
  | RemoveSession c sid => fst <$> delete_sess_in_thrtl_timer c sid s
  | Pass now outcomes =>
      if bool_decide (clock (base s) <= now) then Some (set_base (set_answers outcomes (set_clock now
        (base s))) s) else None
  end.

Fixpoint acts (l : list action) (s : ddn_state) : option ddn_state :=
  match l with [] => Some s | a :: l => act a s ≫= acts l end.
End Ddn.

(** ** What every command keeps *)

Definition keeps {S R A} (I : S -> Prop) (m : cmd S R A) : Prop :=
  forall s, I s -> match m s with Next s' _ | Return s' _ => I s' | Fault => True end.

Definition keeps_fun {S A} (I : S -> Prop) (f : S -> option (S * A)) : Prop :=
  forall s s' a, I s -> f s = Some (s', a) -> I s'.

Section Keeps.
Context {S R : Type} (I : S -> Prop).

Lemma kept_bind {A B} (m : cmd S R A) (k : A -> cmd S R B) : keeps I m -> (forall a, keeps I (k a)) -> keeps I
  (bind m k).
Proof. intros Hm Hk s Hs. unfold bind. specialize (Hm s Hs). destruct (m s) as [s' a|s' r|];
  [by apply Hk|done..]. Qed.
Lemma kept_skip {A} (a : A) : keeps (R := R) I (skip a).
Proof. by intros s Hs. Qed.
Lemma kept_read {A} (f : S -> A) : keeps (R := R) I (read f).
Proof. by intros s Hs. Qed.
Lemma kept_return {A} (r : R) : keeps (A := A) I (return_ r).
Proof. by intros s Hs. Qed.
Lemma kept_fault {A} : keeps (R := R) (A := A) I fault.
Proof. by intros s Hs. Qed.
Lemma kept_deref {A} (o : option A) : keeps (R := R) I (deref o).
Proof. intros s Hs. by destruct o. Qed.
Lemma kept_modify (f : S -> S) : (forall s, I s -> I (f s)) -> keeps (R := R) I (modify f).
Proof. intros H s Hs. by apply H. Qed.
Lemma kept_call {A} (f : S -> option (S * A)) : keeps_fun I f -> keeps (R := R) I (call f).
Proof. intros H s Hs. unfold call. destruct (f s) as [[s' a]|] eqn:E; [by eapply H|done]. Qed.
Lemma kept_run (m : cmd S R R) : keeps I m -> keeps_fun I (run m).
Proof. intros H s s' r Hs. unfold run. specialize (H s Hs). destruct (m s); intros [= <- <-]; done. Qed.
End Keeps.

Create HintDb keeps.

Ltac keep_step :=
  cbv beta zeta;
  match goal with
  | |- keeps _ (bind _ _) => apply kept_bind; [|intros]
  | |- keeps _ (skip _) => apply kept_skip
  | |- keeps _ (read _) => apply kept_read
  | |- keeps _ (return_ _) => apply kept_return
  | |- keeps _ fault => apply kept_fault
  | |- keeps _ (deref _) => apply kept_deref
  | |- keeps _ (call _) => apply kept_call
  | |- keeps_fun _ (run _) => apply kept_run
  | |- keeps _ (modify _) => apply kept_modify; intros; solve [eauto with keeps | assumption]
  | |- keeps _ (match ?x with _ => _ end) => destruct x
  | |- keeps _ (match ?x with _ => _ end _) => destruct x
  | |- keeps _ _ => solve [eauto with keeps]
  | |- keeps_fun _ _ => solve [eauto with keeps]
  end.
Ltac keep := repeat keep_step.

(** Commands that only read. *)
Section Reading.
Context {R : Type} (I : ddn_state -> Prop).

Lemma kept_ue_rest_at l : keeps I (ue_rest_at (R := R) l). Proof. unfold ue_rest_at. keep. Qed.
Lemma kept_level_at l : keeps I (level_at (R := R) l). Proof. unfold level_at. keep. Qed.
Lemma kept_pdrs_at l : keeps I (pdrs_at (R := R) l). Proof. unfold pdrs_at. keep. Qed.
Lemma kept_throttle_at l : keeps I (throttle_at (R := R) l). Proof. unfold throttle_at. keep. Qed.
Lemma kept_count_at l : keeps I (count_at (R := R) l). Proof. unfold count_at. keep. Qed.
Lemma kept_pdn_conn l : keeps I (pdn_conn (R := R) l). Proof. unfold pdn_conn, store. keep. Qed.
Lemma kept_the_context l : keeps I (the_context (R := R) l). Proof. unfold the_context, store. keep. Qed.
Lemma kept_store : keeps I (store (R := R)). Proof. unfold store. keep. Qed.
Lemma kept_the_time : keeps I (the_time (R := R)). Proof. unfold the_time. keep. Qed.
Lemma kept_resp_at l : keeps I (resp_at (R := R) l). Proof. unfold resp_at. keep. Qed.
End Reading.
#[local] Hint Resolve kept_ue_rest_at kept_level_at kept_pdrs_at kept_throttle_at kept_count_at kept_pdn_conn
  kept_the_context kept_store kept_the_time kept_resp_at : keeps.

Lemma kept_name_bearers {R} I bs j n pdr : keeps I (name_bearers (R := R) bs j n pdr).
Proof. revert j n pdr. induction bs as [|[b|] bs IH]; intros j n pdr; cbn [name_bearers]; keep; auto. Qed.
#[local] Hint Resolve kept_name_bearers : keeps.

Lemma kept_create I c e pdr : keeps_fun I (create_downlink_data_notification c e pdr).
Proof. unfold create_downlink_data_notification. keep. Qed.

Lemma kept_last_pdn {R} I ps p b : keeps I (last_pdn (R := R) ps p b).
Proof. revert p b. induction ps as [|[q|] ps IH]; intros p b; cbn [last_pdn]; keep; auto. Qed.

Lemma kept_first_pdn {R} I ps : keeps I (first_pdn (R := R) ps).
Proof. induction ps as [|[p|] ps IH]; cbn [first_pdn]; keep; auto. Qed.
#[local] Hint Resolve kept_create kept_last_pdn kept_first_pdn : keeps.

(** A property that depends only on the counts, the events and the notifications under
    way, that every change of a count keeps whose list is as [good] asks, and that the
    notifications themselves keep. *)
Class Kept {C : Config} {D : DdnConfig} (I : ddn_state -> Prop) := {
  good : ptr -> Prop;
  good_null : good None;
  kept_same s s' : counts s' = counts s -> events s' = events s ->
    buffered_ddn_req_hash s' = buffered_ddn_req_hash s -> I s -> I s';
  kept_good s k c : I s -> counts s !! k = Some c -> good (sess_ptr c);
  kept_put k c s : good (sess_ptr c) -> I s -> I (set_counts (<[k := c]> (counts s)) s);
  kept_delete k s : I s -> I (set_counts (delete k (counts s)) s);
  kept_events l s : Forall
    (fun e => forall seid ebi, e <> DdnSent seid ebi) l -> I s -> I (set_events (l ++ events s) s);
  kept_ddn seid pdr : keeps_fun I (ddn_by_session_id seid pdr);
  kept_end sid : keeps_fun I (end_ddn sid)
}.

Section Kept.
Context {C : Config} {D : DdnConfig} {F : Callees} {I : ddn_state -> Prop} {K : Kept I}.

Lemma kept_with_count {R A} k (f : thrtle_count -> dd R A) :
  (forall c, good (sess_ptr c) -> keeps I (f c)) -> keeps I (bind (count_at k) f).
Proof.
  intros H s Hs. unfold count_at, bind, read, deref, skip, fault. destruct (counts s !! k) as [c|] eqn:E;
    [|done].
  apply H; [|done]. by eapply kept_good.
Qed.

Lemma kept_put_count {R} k c : good (sess_ptr c) -> keeps I (put_count (R := R) k c).
Proof. intros H. apply kept_modify. intros s Hs. by apply kept_put. Qed.

Lemma kept_emit {R} e : (forall seid ebi, e <> DdnSent seid ebi) -> keeps I (emit (R := R) e).
Proof. intros H. apply kept_modify. intros s Hs. apply (kept_events [e]); [by constructor|done]. Qed.

Lemma kept_on_base {R A} (f : cp_state -> option (cp_state * A)) : keeps I (on_base (R := R) f).
Proof.
  apply kept_call. intros s s' a Hs. destruct (f (base s)) as [[b x]|]; [|done]. cbn. intros [= <- <-].
  by eapply kept_same; [..|exact Hs].
Qed.

#[local] Hint Resolve kept_put_count kept_on_base kept_ddn kept_end good_null : keeps.
#[local] Hint Extern 1 (I (_ _)) => (eapply kept_same; [..|eassumption]; reflexivity) : keeps.
#[local] Hint Extern 1 (I (set_counts (delete _ _) _)) => (apply kept_delete; assumption) : keeps.
#[local] Hint Extern 1 (I (set_events (replicate _ _ ++ _) _)) =>
  (apply kept_events; [by apply Forall_replicate|assumption]) : keeps.
#[local] Hint Extern 1 (keeps _ (emit _)) => (apply kept_emit; discriminate) : keeps.
#[local] Hint Extern 1 (good (sess_ptr (count_sent _))) => assumption : keeps.
#[local] Hint Extern 1 (good (sess_ptr (count_held_back _))) => assumption : keeps.
#[local] Hint Extern 1 (I (set_timer_hash ?w _ _)) => (destruct w; (eapply kept_same; [..|eassumption];
  reflexivity)) : keeps.
#[local] Hint Extern 1 (I (set_sess_hash ?w _ _)) => (destruct w; (eapply kept_same; [..|eassumption];
  reflexivity)) : keeps.

Ltac keep_list := repeat first [apply kept_with_count; intros | keep_step].

Lemma kept_outside {R} : keeps I (outside (R := R)). Proof. unfold outside. keep_list. Qed.
Lemma kept_new_loc {R} : keeps I (new_loc (R := R)). Proof. unfold new_loc. keep_list. Qed.
Lemma kept_put_level {R} l v : keeps I (put_level (R := R) l v). Proof. unfold put_level. keep_list. Qed.
Lemma kept_put_pdrs {R} l v : keeps I (put_pdrs (R := R) l v). Proof. unfold put_pdrs. keep_list. Qed.
Lemma kept_put_throttle {R} l v : keeps I (put_throttle
  (R := R) l v). Proof. unfold put_throttle. keep_list. Qed.
#[local] Hint Resolve kept_outside kept_new_loc kept_put_level kept_put_pdrs kept_put_throttle : keeps.
Lemma kept_put_flag {R} l v : keeps I (put_flag (R := R) l v). Proof. unfold put_flag. keep_list. Qed.
Lemma kept_del_timer_hash {R} w t : keeps I (del_timer_hash (R := R) w t).
Proof. unfold del_timer_hash. keep_list. Qed.
Lemma kept_free_level {R} l : keeps I (free_level (R := R) l). Proof. unfold free_level. keep_list. Qed.
Lemma kept_free_throttle {R} l : keeps I (free_throttle
  (R := R) l). Proof. unfold free_throttle. keep_list. Qed.
Lemma kept_del_throttle_key {R} l : keeps I (del_throttle_key
  (R := R) l). Proof. unfold del_throttle_key. keep_list. Qed.
Lemma kept_fill_send {R} q p n b : keeps I (fill_send_pfcp_sess_report_resp (R := R) q p n b).
Proof. unfold fill_send_pfcp_sess_report_resp. keep_list. Qed.
#[local] Hint Resolve kept_put_flag kept_del_timer_hash kept_free_level kept_free_throttle
  kept_del_throttle_key kept_fill_send : keeps.

Lemma kept_get_throtle_count {R} a m : keeps I (get_throtle_count (R := R) a m).
Proof. unfold get_throtle_count. keep_list. Qed.

Lemma kept_fill_sess_info_id k sid n pdr : keeps_fun I (fill_sess_info_id k sid n pdr).
Proof. unfold fill_sess_info_id. keep_list. Qed.

#[local] Hint Resolve kept_get_throtle_count kept_fill_sess_info_id : keeps.






Lemma kept_delete_entry {R} w i : keeps I (delete_entry_from_sess_hash (R := R) w i).
Proof. unfold delete_entry_from_sess_hash. keep_list. Qed.
#[local] Hint Resolve kept_delete_entry : keeps.

Lemma kept_delete_entries {R} w ps : keeps I (delete_entries (R := R) w ps).
Proof. induction ps as [|[p|] ps IH]; cbn [delete_entries]; keep_list; auto. Qed.
#[local] Hint Resolve kept_delete_entries : keeps.

Lemma kept_delete_ddn_timer_entry w t : keeps_fun I (delete_ddn_timer_entry w t).
Proof. unfold delete_ddn_timer_entry. keep_list. Qed.

Lemma kept_fill_timer_entry {R} i : keeps I (fill_timer_entry (R := R) i).
Proof. unfold fill_timer_entry. keep_list. Qed.
#[local] Hint Resolve kept_delete_ddn_timer_entry kept_fill_timer_entry : keeps.

Lemma kept_start_ddn_timer_entry w i d : keeps_fun I (start_ddn_timer_entry w i d).
Proof. unfold start_ddn_timer_entry. keep_list. Qed.

Lemma kept_start_throttle_timer c d f : keeps_fun I (start_throttle_timer c d f).
Proof. unfold start_throttle_timer. keep_list. Qed.

Lemma kept_delete_thrtle_timer a : keeps_fun I (delete_thrtle_timer a).
Proof. unfold delete_thrtle_timer. keep_list. Qed.

Lemma kept_delete_sess_in_thrtl_timer c i : keeps_fun I (delete_sess_in_thrtl_timer c i).
Proof. unfold delete_sess_in_thrtl_timer. keep_list. Qed.
#[local] Hint Resolve kept_start_ddn_timer_entry kept_start_throttle_timer kept_delete_thrtle_timer
  kept_delete_sess_in_thrtl_timer : keeps.

Lemma kept_notify_pdns {R} c ps n : keeps I (notify_pdns (R := R) c ps n).
Proof. induction ps as [|[p|] ps IH]; cbn [notify_pdns]; keep_list; auto. Qed.
#[local] Hint Resolve kept_notify_pdns : keeps.

Lemma kept_notify_sessions {R} fuel t c : keeps I (notify_sessions (R := R) fuel t c).
Proof. revert t c. induction fuel as [|fuel IH]; intros t c; cbn [notify_sessions]; keep_list; auto. Qed.
#[local] Hint Resolve kept_notify_sessions : keeps.

Lemma kept_thrtle_timer_callback l : keeps_fun I (thrtle_timer_callback l).
Proof. unfold thrtle_timer_callback. keep_list. Qed.

#[local] Hint Resolve kept_thrtle_timer_callback : keeps.

Lemma kept_dl_buffer_timer_callback l : keeps_fun I (dl_buffer_timer_callback l).
Proof. unfold dl_buffer_timer_callback. keep_list. Qed.

Lemma kept_notify_entry {R} c l i f : keeps I (notify_entry (R := R) c l i f).
Proof. unfold notify_entry. keep_list. Qed.
#[local] Hint Resolve kept_dl_buffer_timer_callback kept_notify_entry : keeps.

Lemma kept_notify_delayed {R} c a ps : keeps I (notify_delayed (R := R) c a ps).
Proof. induction ps as [|[q|] ps IH]; cbn [notify_delayed]; keep_list; auto. Qed.
#[local] Hint Resolve kept_notify_delayed : keeps.

Lemma kept_ddn_timer_callback l : keeps_fun I (ddn_timer_callback l).
Proof. unfold ddn_timer_callback. keep_list. Qed.

Lemma kept_put_resp_info {R} l v : keeps I (put_resp_info
  (R := R) l v). Proof. unfold put_resp_info. keep_list. Qed.
Lemma kept_put_pdn_state {R} l v : keeps I (put_pdn_state
  (R := R) l v). Proof. unfold put_pdn_state. keep_list. Qed.
#[local] Hint Resolve kept_ddn_timer_callback kept_put_resp_info kept_put_pdn_state : keeps.

Lemma kept_buffer_report w r pdr : keeps I (buffer_report w r pdr).
Proof. unfold buffer_report. keep_list. Qed.

Lemma kept_notify_rule i r : keeps I (notify_rule i r).
Proof. unfold notify_rule. keep_list. Qed.
#[local] Hint Resolve kept_buffer_report kept_notify_rule : keeps.

Lemma kept_throttled_rule c p k t r rule : keeps I (throttled_rule c p k t r rule).
Proof. unfold throttled_rule. keep_list. Qed.
#[local] Hint Resolve kept_throttled_rule : keeps.

Lemma kept_report_pdrs c p k t r rule n l : keeps I (report_pdrs c p k t r rule n l).
Proof. induction l as [|x l IH]; cbn [report_pdrs]; keep_list; auto. Qed.
#[local] Hint Resolve kept_report_pdrs : keeps.

Lemma kept_report_bearers c p k t r rule l : keeps I (report_bearers c p k t r rule l).
Proof. induction l as [|[b|] l IH]; cbn [report_bearers]; keep_list; auto. Qed.
#[local] Hint Resolve kept_report_bearers : keeps.

Lemma kept_report_rules c p k t r l : keeps I (report_rules c p k t r l).
Proof. induction l as [|x l IH]; cbn [report_rules]; keep_list; auto. Qed.
#[local] Hint Resolve kept_report_rules : keeps.

Lemma kept_report_downlink_data c p x r l : keeps I (report_downlink_data c p x r l).
Proof. unfold report_downlink_data. keep_list. Qed.
#[local] Hint Resolve kept_report_downlink_data : keeps.

Lemma kept_report r : keeps_fun I (process_pfcp_report_req r).
Proof. unfold process_pfcp_report_req. keep_list. Qed.

#[local] Hint Resolve kept_report : keeps.

Lemma kept_ack k : (forall i, keeps I (CpDdn.delete_buff_ddn_req (R := Z) i)) -> keeps_fun I
  (process_ddn_ack k).
Proof. intros Hd. unfold process_ddn_ack. keep_list. Qed.

Lemma kept_perform_ddn {R} hs : keeps I (perform_ddn (R := R) hs).
Proof. induction hs as [|[] hs IH]; cbn [perform_ddn]; keep_list; auto. Qed.
#[local] Hint Resolve kept_perform_ddn : keeps.

Lemma kept_request_expires l : keeps_fun I (request_expires l).
Proof. unfold request_expires, put_called. keep_list. Qed.

(** Every action but an acknowledgement, which ends a notification. *)
Lemma kept_act a s s' : (forall k, a = Acknowledge k -> keeps_fun I (process_ddn_ack k)) -> I s ->
  act a s = Some s' -> I s'.
Proof.
  assert (forall A (f : ddn_state -> option (ddn_state * A)) s1 s2, keeps_fun I f -> I s1 ->
    fst <$> f s1 = Some s2 -> I s2) as H.
  { intros A f s1 s2 Hf Hs E. destruct (f s1) as [[s3 x]|] eqn:E1; [|done]. injection E as <-. by eapply Hf. }
  intros Hk Hs. destruct a as [r|k|w l|l|l|b t e|i|w t|a|w i|c i|n o]; cbn [act].
  - by apply H, Hs; apply kept_report.
  - by apply H, Hs; apply Hk.
  - destruct (level_timers s !! l) as [v|]; [|done]. cbn. destruct (is_due _ _); [|done].
    destruct w; (apply H; [auto with keeps|eapply kept_same; [..|exact Hs]; reflexivity]).
  - destruct (throttle_timers s !! l) as [v|]; [|done]. cbn. destruct (is_due _ _); [|done].
    apply H; [auto with keeps|eapply kept_same; [..|exact Hs]; reflexivity].
  - by apply H, Hs; apply kept_request_expires.
  - by apply H, Hs; apply kept_run, kept_on_base.
  - by apply H, Hs; apply kept_end.
  - by apply H, Hs; apply kept_delete_ddn_timer_entry.
  - by apply H, Hs; apply kept_delete_thrtle_timer.
  - by apply H, Hs; apply kept_run, kept_delete_entry.
  - by apply H, Hs; apply kept_delete_sess_in_thrtl_timer.
  - case_bool_decide; [|done]. intros [= <-]. eapply kept_same; [..|exact Hs]; reflexivity.
Qed.

Lemma kept_acts l s s' : (forall k, Acknowledge k ∈ l -> keeps_fun I (process_ddn_ack k)) -> I s ->
  acts l s = Some s' -> I s'.
Proof.
  revert s. induction l as [|a l IH]; intros s Hk Hs; cbn; [by intros [= <-]|].
  destruct (act a s) as [s1|] eqn:E; [|done]. cbn. apply IH.
  - intros k Hin. apply Hk. by right.
  - eapply kept_act; [|exact Hs|exact E]. intros k ->. apply Hk. by left.
Qed.
End Kept.

(** ** Held-back notifications *)

Section Lists.
Context {C : Config} {D : DdnConfig}.

(** No count has a list of sessions. *)
Definition no_lists (s : ddn_state) : Prop := map_Forall (fun _ c => sess_ptr c = None) (counts s).

Lemma no_lists_same s s' : counts s' = counts s -> no_lists s -> no_lists s'.
Proof. unfold no_lists. by intros ->. Qed.

#[local] Hint Extern 1 (no_lists (_ _)) => (eapply no_lists_same; [|eassumption]; reflexivity) : keeps.

Lemma no_lists_on_base {R A} (f : cp_state -> option (cp_state * A)) : keeps no_lists (on_base (R := R) f).
Proof.
  apply kept_call. intros s s' a Hs. destruct (f (base s)) as [[b x]|]; [|done]. cbn. by intros [= <- <-].
Qed.
#[local] Hint Resolve no_lists_on_base : keeps.

#[export] Instance no_lists_kept : Kept no_lists.
Proof.
  apply (Build_Kept _ _ no_lists (fun p => p = None)).
  - done.
  - intros s s' E _ _. by apply no_lists_same.
  - intros s k c Hs E. by eapply Hs.
  - intros k c s Hc Hs. by apply map_Forall_insert_2.
  - intros k s Hs. by apply map_Forall_delete.
  - intros l s _ Hs. exact Hs.
  - intros seid pdr. unfold ddn_by_session_id, put_pdrs, emit, outside, new_loc. keep.
  - intros sid. unfold end_ddn, CpDdn.delete_buff_ddn_req, emit. keep.
Qed.

Lemma no_lists_ack k : keeps_fun no_lists (process_ddn_ack k).
Proof. apply kept_ack. intros i. unfold CpDdn.delete_buff_ddn_req. keep. Qed.

(** The expiry of the throttling of an MME sends nothing when there is no list. *)
Definition quiet (es : list event) (s : ddn_state) : Prop := no_lists s /\ events s = es.

Lemma quiet_same es s s' : counts s' = counts s -> events s' = events s -> quiet es s -> quiet es s'.
Proof. intros E1 E2 [H1 H2]. split; [by eapply no_lists_same|congruence]. Qed.

#[local] Hint Extern 1 (quiet _ (_ _)) => (eapply quiet_same; [..|eassumption]; reflexivity) : keeps.

Lemma quiet_on_base {R A} es (f : cp_state -> option (cp_state * A)) : keeps (quiet es) (on_base (R := R) f).
Proof.
  apply kept_call. intros s s' a Hs. destruct (f (base s)) as [[b x]|]; [|done]. cbn. by intros [= <- <-].
Qed.

Lemma quiet_put_zero {R} es k : keeps (quiet es) (put_count (R := R) k zero_count).
Proof. apply kept_modify. intros s [Hs E]. split; [by apply map_Forall_insert_2|done]. Qed.

Lemma quiet_delete es k s : quiet es s -> quiet es (set_counts (delete k (counts s)) s).
Proof. intros [Hs E]. split; [by apply map_Forall_delete|done]. Qed.

#[local] Hint Resolve quiet_on_base quiet_put_zero quiet_delete : keeps.

Lemma quiet_get_throtle_count {R} es a m : keeps (quiet es) (get_throtle_count (R := R) a m).
Proof. unfold get_throtle_count, outside, new_loc. keep. Qed.

Lemma quiet_delete_thrtle_timer es a : keeps_fun (quiet es) (delete_thrtle_timer a).
Proof. unfold delete_thrtle_timer, the_time, put_throttle, del_throttle_key, free_throttle. keep. Qed.
#[local] Hint Resolve quiet_get_throtle_count quiet_delete_thrtle_timer : keeps.

Lemma quiet_with_count {R A} es k (f : thrtle_count -> dd R A) :
  (forall c, sess_ptr c = None -> keeps (quiet es) (f c)) -> keeps (quiet es) (bind (count_at k) f).
Proof.
  intros H s Hs. unfold count_at, bind, read, deref, skip, fault. destruct (counts s !! k) as [c|] eqn:E;
    [|done].
  apply H; [|done]. by eapply (proj1 Hs).
Qed.

Lemma quiet_thrtle_timer_callback es l : keeps_fun (quiet es) (thrtle_timer_callback l).
Proof.
  unfold thrtle_timer_callback. do 4 keep_step. { keep. } keep_step; [|keep].
  apply quiet_with_count. intros c ->. keep.
Qed.
End Lists.

(** ** Notifications under way *)

Definition notifies (seid : Z) (e : event) : bool :=
  match e with DdnSent i _ => bool_decide (i = seid) | _ => false end.
Definition notifications (seid : Z) (es : list event) : nat := length (List.filter (notifies seid) es).

(** The ends of the notifications of a session that nobody acknowledged. *)
Definition ends (seid : Z) (e : event) : bool := match e with DdnEnded i => bool_decide (i = seid) | _ => false end.
Definition ended (seid : Z) (es : list event) : nat := length (List.filter (ends seid) es).

Lemma ended_app seid l es : ended seid (l ++ es) = (ended seid l + ended seid es)%nat.
Proof. unfold ended. by rewrite List.filter_app, length_app. Qed.

Section Ended.
Context {C : Config} {D : DdnConfig} (seid : Z) (e : nat).

(** A notification of the session has ended since. *)
Definition over (s : ddn_state) : Prop := (e < ended seid (events s))%nat.

Lemma over_same s s' : events s' = events s -> over s -> over s'.
Proof. unfold over. by intros ->. Qed.

Lemma over_events l s : over s -> over (set_events (l ++ events s) s).
Proof. unfold over. cbn [events set_events]. rewrite ended_app. lia. Qed.
#[local] Hint Extern 1 (over (_ _)) => (eapply over_same; [|eassumption]; reflexivity) : keeps.

Lemma over_emit {R} v : keeps over (emit (R := R) v).
Proof. apply kept_modify. intros s Hs. by apply (over_events [v]). Qed.

Lemma over_on_base {R A} (f : cp_state -> option (cp_state * A)) : keeps over (on_base (R := R) f).
Proof.
  apply kept_call. intros s s' a Hs. destruct (f (base s)) as [[b x]|]; [|done]. cbn. by intros [= <- <-].
Qed.
#[local] Hint Resolve over_emit over_on_base : keeps.

Lemma over_ddn sid pdr : keeps_fun over (ddn_by_session_id sid pdr).
Proof. unfold ddn_by_session_id, put_pdrs, outside, new_loc. keep. Qed.

Lemma over_end sid : keeps_fun over (end_ddn sid).
Proof. unfold end_ddn, CpDdn.delete_buff_ddn_req. keep. Qed.
End Ended.

Section Pending.
Context {C : Config} {D : DdnConfig} (seid : Z) (n e : nat).

(** A notification of the session is under way, the last of [n]; [e] ended before. *)
Definition pending (s : ddn_state) : Prop :=
  is_Some (buffered_ddn_req_hash s !! seid) /\ notifications seid (events s) = n /\ ended seid (events s) = e.

Lemma pending_same s s' : events s' = events s -> buffered_ddn_req_hash s' = buffered_ddn_req_hash s ->
  pending s -> pending s'.
Proof. unfold pending. by intros -> ->. Qed.

#[local] Hint Extern 1 (pending (_ _)) => (eapply pending_same; [..|eassumption]; reflexivity) : keeps.

Lemma pending_on_base {R A} (f : cp_state -> option (cp_state * A)) : keeps pending (on_base (R := R) f).
Proof.
  apply kept_call. intros s s' a Hs. destruct (f (base s)) as [[b x]|]; [|done]. cbn. by intros [= <- <-].
Qed.

Lemma pending_other {R} v : notifies seid v = false -> ends seid v = false -> keeps pending (emit (R := R) v).
Proof.
  intros Hn He. apply kept_modify. intros s [Hs E]. split; [done|]. unfold notifications, ended. cbn.
  by rewrite Hn, He.
Qed.

Lemma pending_insert sid l s : pending s ->
  pending (set_buffered_ddn_req_hash (<[sid := l]> (buffered_ddn_req_hash s)) s).
Proof. intros [Hs E]. split; [|done]. apply lookup_insert_is_Some'. by right. Qed.

Lemma pending_delete sid s : sid <> seid -> pending s ->
  pending (set_buffered_ddn_req_hash (delete sid (buffered_ddn_req_hash s)) s).
Proof. intros Hn [Hs E]. split; [|done]. cbn. by rewrite lookup_delete_ne. Qed.
#[local] Hint Resolve pending_on_base pending_insert pending_delete : keeps.
#[local] Hint Extern 1 (keeps pending (emit _)) =>
  (apply pending_other; cbn; [try reflexivity; by apply bool_decide_false|try reflexivity; by apply bool_decide_false]) : keeps.

(** A session with a notification under way only counts the next ones. *)
Lemma pending_ddn sid pdr : keeps_fun pending (ddn_by_session_id sid pdr).
Proof.
  destruct (decide (sid = seid)) as [->|Hn].
  - intros s s' a Hs. destruct (proj1 Hs) as [l El]. unfold ddn_by_session_id.
    erewrite run_bind by reflexivity. rewrite El. unfold pdrs_at. revert s s' a Hs El.
    enough (keeps_fun pending (run (R := Z * option pdr_ids) (do p <- pdrs_at l;
      put_pdrs l (set_buffered_count (u8 (ddn_buffered_count p + 1)) p);; skip (0, pdr)))) as H.
    { intros s s' a Hs El. by apply H. }
    unfold put_pdrs. keep.
  - unfold ddn_by_session_id, put_pdrs, outside, new_loc. keep.
Qed.

Lemma pending_end sid : sid <> seid -> keeps_fun pending (end_ddn sid).
Proof. intros Hn. unfold end_ddn, CpDdn.delete_buff_ddn_req. keep. Qed.

Lemma pending_ends s s' a : pending s -> end_ddn seid s = Some (s', a) -> over seid e s'.
Proof.
  intros (Hs & _ & E). destruct Hs as [l El]. unfold end_ddn, CpDdn.delete_buff_ddn_req.
  erewrite run_bind by (erewrite bind_next by reflexivity; erewrite bind_next by reflexivity; reflexivity).
  rewrite El. erewrite run_bind by reflexivity. intros [= <- <-]. unfold over, ended in *. cbn.
  rewrite bool_decide_true by done. cbn. lia.
Qed.

(** Under way, or ended since. *)
Definition under_way (s : ddn_state) : Prop := pending s \/ over seid e s.

#[export] Instance under_way_kept : Kept under_way.
Proof.
  apply (Build_Kept _ _ under_way (fun _ => True)); try done.
  - intros s s' _ E1 E2 [H|H]; [left; by eapply pending_same|right; by eapply over_same].
  - intros l s Hl [(Hs & En & Ee)|H]; [|right; by apply over_events].
    destruct (ended seid l) as [|k] eqn:El.
    + left. split; [done|]. cbn [events set_events]. rewrite ended_app, El, Ee. split; [|done]. rewrite <- En. unfold notifications.
      rewrite List.filter_app, length_app. replace (List.filter (notifies seid) l) with (@nil event); [done|].
      clear El. induction Hl as [|v l Hv Hl IH]; [done|]. destruct v; [by edestruct Hv|done..].
    + right. unfold over. cbn [events set_events]. rewrite ended_app, El. lia.
  - intros sid pdr s s' a [H|H] E; [left; by eapply pending_ddn|right; by eapply over_ddn].
  - intros sid s s' a [H|H] E; [|right; by eapply over_end].
    destruct (decide (sid = seid)) as [->|Hn]; [right; by eapply pending_ends|left; by eapply pending_end].
Qed.
End Pending.

Section Properties.
Context {C : Config} {D : DdnConfig} {F : Callees}.

(** C17. Whatever is reported and whichever timers end, those of the request that carries
    the notification too, a session gets no second notification while the first waits for
    its acknowledgement: until then the entry stays and no other notification is created,
    unless the entry was ended without an acknowledgement, as after the last try of the
    request or by a procedure that activates or removes the session. *)
Theorem one_notification_until_acknowledged seid l s s' :
  is_Some (buffered_ddn_req_hash s !! seid) -> (forall k, Acknowledge k ∉ l) -> acts l s = Some s' ->
  is_Some (buffered_ddn_req_hash s' !! seid) /\ notifications seid (events s') = notifications seid (events s) /\
    ended seid (events s') = ended seid (events s) \/
  (ended seid (events s) < ended seid (events s'))%nat.
Proof.
  intros Hs Hl E.
  apply (kept_acts (I := under_way seid (notifications seid (events s)) (ended seid (events s))) l s s');
    [|left; by split|done].
  intros k Hk. by destruct (Hl k).
Qed.

(** C18. The notifications that are held back for a throttled MME are lost: after any run
    from a state without counts, the end of the throttling sends nothing. *)
Theorem throttled_notifications_are_lost l s0 s t s' :
  counts s0 = ∅ -> acts l s0 = Some s -> act (ThrottleExpires t) s = Some s' -> events s' = events s.
Proof.
  intros H0 El Ea. assert (no_lists s) as Hs.
  { eapply kept_acts; [|by unfold no_lists; rewrite H0;
    apply map_Forall_empty|exact El]. intros k _. apply no_lists_ack. }
  cbn in Ea. destruct (throttle_timers s !! t) as [v|]; [|done]. cbn in Ea. destruct (is_due _ _); [|done].
  destruct (thrtle_timer_callback _ _) as [[s1 u]|] eqn:Et; [|done]. cbn in Ea. injection Ea as <-.
  by apply (quiet_thrtle_timer_callback (events s) t _ _ u) in Et as [_ Et].
Qed.

(** The timer of a user without a context is freed and stays in the table: the next
    deletion uses it. *)
Theorem timer_without_context_freed_twice w tid l v s :
  timer_hash w s !! tid = Some l -> level_timers s !! l = Some v -> ti_id (lv_pt v) = true ->
  (get_ue_context tid (ue (base s))).1 <> 0 ->
  exists s', delete_ddn_timer_entry w tid s = Some (s', 0) /\ level_timers s' !! l = None /\
    timer_hash w s' !! tid = Some l /\ delete_ddn_timer_entry w tid s' = None.
Proof.
  intros Hh Hl Hi Hc. exists (set_level_timers (delete l (level_timers s)) s).
  assert (timer_hash w (set_level_timers (delete l
    (level_timers s)) s) !! tid = Some l) as Hh' by by destruct w.
  split; [|split; [apply lookup_delete_eq|split; [done|]]].
  - unfold delete_ddn_timer_entry, store. erewrite run_bind by reflexivity. rewrite Hh.
    unfold level_at. erewrite run_bind by (erewrite bind_next by reflexivity;
      by rewrite Hl). rewrite Hi. cbn [negb].
    erewrite run_bind by reflexivity. destruct (get_ue_context tid (ue (base s))) as [ret c]. cbn [fst] in Hc.
    rewrite bool_decide_true by done. reflexivity.
  - unfold delete_ddn_timer_entry. erewrite run_bind by reflexivity. rewrite Hh'.
    unfold level_at, run, bind, read, deref, fault. cbn [level_timers set_level_timers]. by rewrite
      lookup_delete_eq.
Qed.

(** The rule of a second report takes the place of that of the first, which was cut to
    a byte. *)
Theorem second_report_replaces_first a b : exists p,
  fill_pdr_ids zero_pdrs 1 [a] = Some p /\ pdr_count p = 1 /\ pdr_id p = u8 a :: replicate 15 0 /\
  fill_pdr_ids p 1 [b] = Some (mk_pdr_ids 1 (b :: replicate 15 0) 0).
Proof. by eexists. Qed.
End Properties.

(** ** The share that is held back *)

(** The counts after one notification, and after several. *)
Definition next_count (factor : Z) (c : thrtle_count) : thrtle_count :=
  if held_back factor c then count_held_back c else count_sent c.
Definition counted (factor : Z) (n : nat) : thrtle_count := Nat.iter n (next_count factor) zero_count.
Definition held (factor : Z) (n : nat) : Z := f32_trunc (prev_ddn_discard (counted factor n)).

Definition in_share (factor n : Z) (c : thrtle_count) : bool :=
  let d := f32_trunc (prev_ddn_discard c) in
  bool_decide ((factor + 1) * n <= 100 * d) && bool_decide (100 * d <= (factor + 1) * n + 100).

Fixpoint shares_from (factor : Z) (k : nat) (n : Z) (c : thrtle_count) : bool :=
  match k with
  | O => true
  | S k => let c := next_count factor c in in_share factor n c && shares_from factor k (n + 1) c
  end.

Lemma shares_from_spec factor k n c j : shares_from factor k n c = true -> (j < k)%nat ->
  in_share factor (n + Z.of_nat j) (Nat.iter (S j) (next_count factor) c) = true.
Proof.
  revert n c j. induction k as [|k IH]; intros n c j; [lia|]. cbn [shares_from].
  intros [H1 H2]%andb_true_iff Hj. destruct j as [|j]; [by rewrite Z.add_0_r|].
  rewrite Nat.iter_succ_r. replace (n + Z.of_nat (S j)) with (n + 1 + Z.of_nat j) by lia. apply IH; [done|lia].
Qed.

Lemma shares_of_all_factors : forallb
  (fun f => shares_from (Z.of_nat f) 100 0 zero_count) (List.seq 0 100) = true.
Proof. vm_compute. reflexivity. Qed.

(** C19. Of the first hundred notifications for a throttled MME, all after the first are
    held back in the share that the factor asks for and one percent more, to within one
    notification; the counts are numbers of type float. *)
Theorem throttling_holds_back_its_share factor n : 0 <= factor < 100 -> (1 <= n <= 100)%nat ->
  (factor + 1) * (Z.of_nat n - 1) <= 100 * held factor n <= (factor + 1) * (Z.of_nat n - 1) + 100.
Proof.
  intros Hf Hn. pose proof shares_of_all_factors as H. rewrite forallb_forall in H.
  specialize (H (Z.to_nat factor)). rewrite Z2Nat.id in H by lia.
  assert (shares_from factor 100 0 zero_count = true) as Hs by (apply H, in_seq; lia).
  apply (shares_from_spec _ _ _ _ (n - 1)) in Hs; [|lia]. replace (S (n - 1)) with n in Hs by lia.
  apply andb_true_iff in Hs as [H1%bool_decide_eq_true H2%bool_decide_eq_true].
  unfold held, counted. replace (Z.of_nat n - 1) with (0 + Z.of_nat (n - 1)) by lia. by split.
Qed.

(** ** A user with a throttled MME *)

#[local] Instance ddn_config : Config :=
  {| request_tries := 3; request_timeout := 3000; pcap_dumper := false; fd_v4 _ := 5; fd_v6 _ := -1 |}.
#[local] Instance ddn_callees : Callees := fun _ s => s.
#[local] Instance ddn_outside : DdnConfig := {|
  low_lvl_arp_priority := 5; dl_buf_suggested_pkt_cnt := 10; encode_dnlnk_data_notif := fun _ => [x48; xb0];
  delay_value_width := 8; thrtlng_delay_width := 8; stack_junk := replicate 15 0 |}.

(** The PDN connection 3 of the user 1 has the bearer 2, whose second PDR, of the core, has
    the rule 9. *)
Definition paged_ue : ue_store :=
  mk_store {[1%positive := mk_ue 0 0 SGWC false false 0 0 0 0 0 0x51 1 0
    (replicate 4 None ++ Some 3%positive :: replicate 9 None)
                (replicate 4 None ++ Some 2%positive :: replicate 23 None) None]}
    {[3%positive := mk_pdn 0 CONNECTED_STATE 5 1 0 0x515 None
      (replicate 4 None ++ Some 2%positive :: replicate 23 None) (Some 1%positive)]}
    {[2%positive := mk_bearer 5 [] (Some 3%positive)]} ∅ ∅ {[0x51 := 1%positive]} ∅ ∅ (teids empty_store).
Definition paged_state : ddn_state :=
  mk_ddn (mk_cp 1000 [] 10%positive paged_ue sample_session {[3%positive := mk_pdn_rest None 0 0]} ∅ [] [])
    {[1%positive := mk_ue_rest (mk_node_address PDN_TYPE_IPV4 0x0a000001 ipv6_zero) 0]}
    {[2%positive := mk_bearer_rest 9 [Some (8, false);
      Some (9, true)] 2]} ∅ (mk_peer_addr PDN_TYPE_IPV4 2123 0 0 [])
    ∅ ∅ ∅ ∅ ∅ ∅ ∅ ∅ ∅ ∅ ∅ ∅ [].
Definition paged_report : report := mk_report 0x515 1 (Some [9]) None.
Definition throttling_ack : dnlnk_data_notif_ack := mk_ack 0x51 0 0 0 0 0 0 1 2 1 50.
Definition throttled_run : list action :=
  [Report paged_report; Acknowledge throttling_ack; Report paged_report; Report paged_report; Pass 200000 []].

Definition final (l : list action) (s : ddn_state) : ddn_state := default s (acts l s).
Definition once_paged : ddn_state := final [Report paged_report] paged_state.
Definition after_throttling : ddn_state := final throttled_run paged_state.

(** The request expires and is sent again; a report counts. *)
Definition one_expiry : list action :=
  [Report paged_report; Pass 4000 []; RequestExpires 10%positive; Report paged_report].
Definition last_expiries : list action :=
  [Pass 7000 []; RequestExpires 10%positive; Pass 10000 []; RequestExpires 10%positive; Report paged_report].

Example one_notification_until_acknowledged_witness :
  acts [Report paged_report] paged_state = Some once_paged /\ notifications 0x515 (events once_paged) = 1%nat /\
  (exists s, acts one_expiry once_paged = Some s /\ length (sent (base s)) = 1%nat /\
    notifications 0x515 (events s) = 1%nat) /\
  exists s, acts last_expiries (final one_expiry once_paged) = Some s /\
    ended 0x515 (events s) = 1%nat /\ notifications 0x515 (events s) = 2%nat.
Proof.
  split; [vm_compute; reflexivity|]. split; [vm_compute; reflexivity|]. split.
  - exists (final one_expiry once_paged).
    assert (acts one_expiry once_paged = Some (final one_expiry once_paged)) as E by (vm_compute; reflexivity).
    split; [exact E|]. split; [vm_compute; reflexivity|].
    destruct (one_notification_until_acknowledged 0x515 one_expiry once_paged _
      ltac:(vm_compute; eexists; reflexivity)
      ltac:(intros k H; unfold one_expiry in H; rewrite !elem_of_cons, elem_of_nil in H;
        destruct H as [H|[H|[H|[H|H]]]]; [discriminate H..|exact H]) E) as [(_ & En & _)|Hlt].
    + rewrite En. vm_compute. reflexivity.
    + exfalso. revert Hlt. vm_compute. intros Hlt. inversion Hlt.
  - exists (final last_expiries (final one_expiry once_paged)). split; [vm_compute; reflexivity|].
    split; vm_compute; reflexivity.
Defined.

(** One of three notifications was held back. *)
Example throttled_notifications_are_lost_witness :
  acts throttled_run paged_state = Some after_throttling /\
  map (fun c => f32_trunc (prev_ddn_discard c.2)) (map_to_list (counts after_throttling)) = [1] /\
  exists s, act (ThrottleExpires 12%positive) after_throttling = Some s /\ throttle_timers s = ∅ /\
    events s = events after_throttling.
Proof.
  assert (acts throttled_run paged_state = Some after_throttling) as E by (vm_compute; reflexivity).
  split; [exact E|]. split; [vm_compute; reflexivity|].
  exists (default after_throttling (act (ThrottleExpires 12%positive) after_throttling)).
  assert (act (ThrottleExpires 12%positive) after_throttling =
    Some (default after_throttling (act (ThrottleExpires 12%positive) after_throttling))) as E' by (vm_compute;
      reflexivity).
  split; [exact E'|]. split; [vm_compute; reflexivity|].
  exact (throttled_notifications_are_lost throttled_run paged_state _ 12%positive _ eq_refl E E').
Defined.

(** The user 0x52 is not there any more. *)
Definition left_timer : ddn_state :=
  set_timer_by_teid_hash {[0x52 := 20%positive]}
    (set_level_timers {[20%positive := mk_level (mk_timer true ttInterval 100 None) 0x525 0]} paged_state).

Example timer_without_context_freed_twice_witness : exists s,
  delete_ddn_timer_entry Delay 0x52 left_timer = Some (s, 0) /\ delete_ddn_timer_entry Delay 0x52 s = None.
Proof.
  destruct (timer_without_context_freed_twice Delay 0x52 20%positive (mk_level
    (mk_timer true ttInterval 100 None) 0x525 0)
    left_timer) as (s & E1 & _ & _ & E2); [reflexivity|reflexivity|reflexivity|vm_compute; discriminate|].
  exists s. split; [exact E1|exact E2].
Defined.

Example throttling_holds_back_its_share_witness : 11 * 99 <= 100 * held 10 100 <= 11 * 99 + 100.
Proof. apply (throttling_holds_back_its_share 10 100); lia. Defined.
